(* ===== verification/_CoqProject ===== *)
-Q . S2P
Prelude.v
CString.v
Layout.v
LayoutFacts.v
LayoutProps.v
LayoutSet.v
LayoutSetProps.v
LayoutCustom.v
LayoutCustomProps.v
Utf8.v
Utf8Props.v
CellCodec.v
Locale.v
Paste.v
PasteProps.v
KeyString.v
KeyStringProps.v
Base64.v
Hyperlinks.v
HyperlinksProps.v
Utf8Combined.v
Grid.v
Colour.v
Environ.v
CmdLex.v
CmdLexFacts.v
Arguments.v
CmdEscape.v
CmdTable.v
Cmd.v
CmdParse.v
CmdPrint.v
CmdGrammar.v
CmdArgs.v
CmdProps.v
CmdTotal.v
Style.v
GridFacts.v
ColourProps.v
StyleProps.v
GridProps.v
Reflow.v
Screen.v
ScreenInfo.v
InputKeys.v
TtyKeys.v
TtyKeysProps.v
GridString.v
GridReader.v
GridReaderProps.v
ScreenWrite.v
InputTable.v
Input.v
InputOsc.v
InputParse.v
GridSafe.v
ScreenSafe.v
ScreenWriteSafe.v
InputSafe.v
InputParseSafe.v
InputMachine.v
GridStringFacts.v
InputProps.v
ScreenProps.v
TextProps.v
GridStringProps.v
History.v
HistoryProps.v
Winlink.v
World.v
Session.v
SessionFacts.v
Window.v
CmdQueue.v
CmdQueueProps.v
Server.v
Recovery.v
RecoveryCmd.v
RecoveryFacts.v
RecoveryProps.v
