(* ===== verification/Prelude.v ===== *)
(** * A verification library for newmux

    newmux is tmux with closed panes and windows that stay alive and can be
    reopened.  The library models its own state and the operations on it, from
    the sessions down to the cells of a screen, and proves what they promise.
    All sources are under src/tmux/.

    ** The program and its parts

    A server keeps _sessions_ (windows/session.c), each with numbered _links_
    to _windows_ (windows/window.c); a window has _panes_, whose geometry is a
    _layout_, a tree of cells (windows/layout.c, layout-set.c,
    layout-custom.c).  What a program writes into a pane goes through the
    _input parser_ (terminal/input.c), which calls the operations of
    screen/screen-write.c on the pane's _screen_ (screen/screen.c,
    screen/grid-view.c), which are operations on a _grid_ of cells
    (screen/grid.c) whose characters are packed UTF-8 (terminal/utf8.c,
    terminal/utf8-combined.c).  Closing and reopening
    (commands/cmd-newmux-recovery.c) moves live panes and windows to a hidden
    session and back: it uses the sessions, the windows, the layout strings
    and the history of the grids, so the main theorems go through all of them.
    The other way, the bytes of the outside terminal are cut into _keys_, mouse
    events and replies (terminal/tty-keys.c); a key that is bound runs
    _commands_ (commands/cmd-parse.y, cmd.c, core/arguments.c), which wait in
    the _queue_ of their client (commands/cmd-queue.c) until they are run;
    another key is written to the pane as the sequence its program knows
    (terminal/input-keys.c).

    ** Files

    Each file is a component, its facts or its properties; a file requires the
    components it calls.
    - Prelude: machine integers, bit fields, lists, [for_each]; the shared
      automation.
    - CString: printf and sscanf conversions, strtonum, strlcat
      (compat/strtonum.c, compat/strlcat.c).
    - Layout, LayoutFacts, LayoutProps: the tree of cells and its
      operations; consistency; their properties (windows/layout.c).
    - LayoutSet, LayoutSetProps: the preset layouts (windows/layout-set.c).
    - LayoutCustom, LayoutCustomProps: layout strings and their round trip
      (windows/layout-custom.c).
    - Utf8, Utf8Props: packed characters, their table, strings
      (terminal/utf8.c, compat/vis.c).
    - CellCodec, Locale: the interfaces to the packing and to the C library
      (core/tmux.c).
    - KeyString, KeyStringProps: key codes, mouse events, key names
      (terminal/key-string.c).
    - InputKeys: the bytes a pane is sent for a key or a mouse event
      (terminal/input-keys.c).
    - TtyKeys, TtyKeysProps: the keys and replies in the bytes of the outside
      terminal; that what InputKeys writes is read back
      (terminal/tty-keys.c).
    - Paste, PasteProps: the paste buffers (ui/paste.c).
    - Environ: the variables of the environment (options/environ.c).
    - CmdLex, CmdLexFacts: the words of commands (commands/cmd-parse.y).
    - Arguments: the flags and arguments of commands (core/arguments.c,
      commands/cmd.c); CmdTable: the entries of the commands, from the files
      of commands/ in the order of the table of commands/cmd.c.
    - Cmd: finding and making commands, lists of commands, copying them
      (commands/cmd.c).
    - CmdParse: the grammar, one function per nonterminal, and the building of
      lists of commands (commands/cmd-parse.y).
    - CmdEscape, CmdPrint, CmdGrammar, CmdArgs, CmdProps: printed commands are
      read back, in the steps of the reader: words, tokens, the grammar, flags
      and arguments, commands.
    - CmdTotal: the lexer and the parser return whatever the text.
    - Base64; Hyperlinks, HyperlinksProps; Utf8Combined: encodings, links,
      characters that join (compat/base64.c, terminal/hyperlinks.c,
      terminal/utf8-combined.c).
    - Colour, ColourProps: colours (terminal/colour.c).
    - Style, StyleProps: styles and attributes
      (terminal/style.c, core/attributes.c).
    - Grid, GridFacts, GridProps: cells, lines, history; how a line reads
      (screen/grid.c).
    - Reflow: changing the width (screen/grid.c).
    - Screen, ScreenInfo: screens: operations on the grid; titles, selection
      (screen/screen.c, screen/grid-view.c).
    - GridReader, GridReaderProps: the motions of copy mode
      over cells, lines and words (screen/grid-reader.c).
    - ScreenWrite: writing to a screen (screen/screen-write.c).
    - InputTable, Input, InputOsc, InputParse: the parser: tables,
      parameters, strings and replies, handlers (terminal/input.c).
    - GridSafe, ScreenSafe, ScreenWriteSafe, InputSafe, InputParseSafe: the
      invariant of a terminal, level by level.
    - InputMachine, InputProps: the machine, whole sequences,
      properties of the parser.
    - ScreenProps, TextProps: the alternate screen, printed text.
    - GridString, GridStringFacts, GridStringProps: lines written as text with
      escape sequences, and the same text read back (screen/grid.c).
    - History, HistoryProps: the history of closed panes
      (commands/cmd-newmux-recovery.c).
    - Winlink: the links of a session (windows/window.c).
    - World, Session, SessionFacts, Window: the server's state, sessions,
      windows and panes (windows/session.c, windows/window.c).
    - CmdQueue, CmdQueueProps: the queues of commands, in a heap of items,
      states, lists and clients with their references (commands/cmd-queue.c;
      [cmdq_state], [cmdq_item], [cmdq_list] are the structs, [next_turn] is the
      body of the loop of cmdq_next); no use of what is freed, the order of the
      commands, the return of the loop.
    - Server: killing and linking windows (server/server-fn.c).
    - Recovery, RecoveryCmd, RecoveryFacts, RecoveryProps: closing and
      reopening, the commands, what they promise
      (commands/cmd-newmux-recovery.c).

    ** How the code is read

    - A function that changes an object takes it and gives it back; one that
      changes the server's state takes the [world] and gives it back.  A
      result [None] is undefined behaviour (a NULL dereference, a walk out of
      a list, an array or a buffer) or [fatalx], never an error the code
      reports: those are values ([-1], [Parse_error], a message printed).
    - Integers are [Z].  [u8], [u16], [u32], [u64] and [s32] write the
      wrap-around where an operation of the code can reach it.  Flags are the
      bits of the code.
    - A pointer to a cell of a layout is the path to it from the root; sessions,
      windows, panes and links are known by their ids, and the lists and trees
      of the code (TAILQ, RB) are the lists of their members in order.
    - The C library is not modelled beyond what the code asks of it: mbtowc,
      wctomb and wcwidth are the class [Locale]; sscanf and printf are written
      out for the conversions used (CString).  The packing of characters is the
      class [CellCodec] (file CellCodec): the grid, the screens and the parser
      are proved against it, and Utf8Props discharges it for the table of
      terminal/utf8.c.  Both have instances the witnesses compute with
      ([plain_codec], [ascii_locale]).
    - The queues of commands have addresses and reference counts, since what
      they must not do is use an item, a state, a list or a client that has been
      freed: an address that is not in the heap is [None].  The rest of the
      server is the class [Commands] (what a command or a callback does, finding
      clients and targets, hooks), and [CommandsOk] is what it promises: queues
      in order stay so, and items are put only behind the one that runs or at
      the end of a queue.  [sample_server_commands] is an instance.

    ** Fuel

    Loops that are structural in the code are recursive in their list.  The
    others carry fuel, and it is enough:
    - [layout_construct]: the length of the string, each level consumes a
      bracket; [parse_fit]: the same, each turn removes a cell of the string.
    - [adjust_while] (the loop of layout_resize_adjust) and
      [resize_layout_loop]: the size of the change, which each turn lowers; a
      turn that changes nothing repeats for ever, which is [None].  That the
      loops of a resize end is [layout_resize_pane_ok]; that spreading may not
      return is [layout_spread_cell_may_not_return].
    - [tiled_shape]: the number of panes, each turn adds a row or a column.
    - [grow] (the buffer of input.c): 64 doublings, more than a limit of 32 bits
      needs; [sgr_from], [osc_4_from], [osc_104_from], [winops_from]: the number
      of parameters or bytes, each turn consumes one.
    - [next_tab], [previous_tab], [back_tabs]: the columns of the line;
      [join_loop] of the reflow: the lines left; [bsearch]: the halvings of a
      table.
    - [style_parse_from], [attributes_from]: the length of the string, each
      turn consumes a character ([style_parse_total]).
    - [stack_trim], [trim_titles], [kill_links], [next_index_from],
      [shuffle_last], [session_new_name]: the members of the list walked, or
      the names already taken and one more.
    - [utf8_loop]: the length of the string; [before_padding]: the columns
      before the cell; [new_name]: the buffers and one more, since the names
      tried are distinct.
    - [iterate] is a loop with fuel; [iterate_ok] is its rule, an invariant and
      a measure that each turn lowers.  [reader_fuel]: the cells of the grid
      ([grid_reader_motions]); [lex_fuel]: the characters left to read;
      [parse_fuel]: eight calls a character, since a nonterminal that repeats
      reads a token ([all_run], [cmd_parse_do_buffer_returns]).
    - [next_while] (the loop of the key timer): the length of the buffer and one
      more, since each key takes a byte ([tty_keys_callback_returns]);
      [next_from]: one turn again, since only a key whose time is over goes
      back, and then it is not waited for.
    - [append_chain], [insert_chain]: the items there are, since a chain has
      each once ([chain_short]); [cmdq_next]: the load of the queue, a cost for
      each of its items that is larger than that of what it inserts
      ([cmdq_next_returns]); a command may insert itself, and then the loop does
      not end.

    ** Theorems

    - _Closing and reopening_: closing a window and reopening it gives the
      sessions and windows back ([newmux_close_reopen_window]); the stacks are
      consistent after any commands ([newmux_stacks_invariant], by induction on
      the steps); where a reopened window is put
      ([newmux_attach_at_saved_position_places]), and the case it is put wrong
      ([newmux_attach_past_the_end_comes_first]); the history of a closed pane
      keeps its screen ([newmux_preserve_visible_grid_ok]), while the
      restoration of a shrunk history never happens
      ([newmux_restore_if_shrunk_does_not]).
    - _Layouts_: the sizes of the cells of a container fill it.  Every
      operation keeps this and does what it says: destroying, resizing,
      splitting, spreading, the presets ([layout_set_select_ok]); a consistent
      tree tiles the window ([layout_fix_offsets_tiles]); dumping and parsing
      is the identity ([layout_dump_parse]).
    - _Grid_: what is stored in a cell is read from it, in short and extended
      cells ([grid_set_get_cell]); compacting changes nothing one can read;
      positions on wrapped lines are converted and back.
    - _Parser_: any bytes whatever keep the terminal in order
      ([input_parse_buffer_ok]: no access out of bounds, the cursor on the
      screen, the grid of its size); the bytes may come in any pieces
      ([input_parse_bytewise]); the loop with its cached transition refines
      the state machine ([input_parse_refines]); a terminator always ends a
      string ([input_terminators]); text is shown as it is
      ([input_text_shown]); a cursor position report says where the cursor was
      put ([input_cursor_report]); too long or malformed sequences are
      discarded ([input_csi_discarded]).
    - _Captured lines_: what grid_string_cells writes for a line, printed on a
      terminal, shows that line again ([captured_line_replayed]).
    - _Copy mode_: the motions of the reader end and stay on the grid
      ([grid_reader_motions]); those over words find what reading the places of
      the grid in order finds ([grid_reader_words]).
    - _Commands_: what a list of commands is printed as, with its strings
      quoted and escaped, is parsed as these commands
      ([printed_commands_parse_back]); a string is escaped as a word the lexer
      reads as the string ([args_escape_word]); the parser always returns, with
      commands or an error ([cmd_parse_do_buffer_returns]); which command a
      name, an alias or a beginning of a name means ([cmd_find_ok]).
    - _Keys_: the ternary tree of the known sequences is a map, and the next key
      is what the map has at the start of the buffer ([tty_keys_refine_map]);
      an extended key, a function key and a mouse event written to a pane are
      read as the same key with the same modifiers, or the same event
      ([extended_key_read_back], [function_key_read_back], [mouse_read_back]);
      the loop of the key timer returns ([tty_keys_callback_returns]).
    - _Command queues_: a list of commands becomes items in their order, at the
      end of a queue or behind an item ([commands_queued]); no turn of the loop
      uses anything freed, and the loop returns ([cmdq_next_returns]); items are
      run once, in order, what one inserts before what was behind it
      ([cmdq_next_in_order], by induction on the turns); after an error the rest
      of the group is never run ([failed_group_not_run]), which may be that of
      another run of the same list ([second_run_removed]).
    - _Paste buffers_: the two trees hold the same buffers in their orders and
      the limit holds after any operations ([paste_reachable_ok]); adding one
      frees only the oldest automatic ones ([paste_add_keeps_newest]).
    - _Characters, colours, styles, keys, links_: the round trips of packed
      characters, strings, base 64, colours, styles ([style_roundtrip]),
      hyperlinks and key names; the bounds of the
      visual encoding; the nearest colour.

    ** Not modelled

    Processes and files, the event loop and clients (server/ but server-fn.c,
    core/proc, client, file, job): I/O, and the order in which the event loop
    calls is outside the program.  Drawing on terminals (terminal/tty*.c
    but tty-keys.c, screen/screen-redraw.c, the tty_write calls of screen-write.c): it writes
    to a terminal and keeps no state the modelled parts read.  Options, formats,
    status lines, modes and their user interfaces (options/, screen/format*.c,
    ui/ but paste.c, window-copy.c and the other modes): the modelled parts take the
    option values they read as arguments.  What commands other than those of
    newmux do when they are run: they call the modelled functions, print, or
    wait for a client.  Finding the target a string names (commands/cmd-find.c
    but the functions on a state).  The tables of key bindings (terminal/key-bindings.c).
    The limit of the depth of the parser yacc generates.  Sixel
    images, which are compiled in only on request.  The vendored Ghostty
    sources beside tmux.  PROJECT.json lists every part. *)
From Stdlib Require Import ZArith Lia Ascii String.
From stdpp Require Export base numbers list strings gmap sets.

#[global] Set Default Proof Using "Type".
#[global] Open Scope Z_scope.

(** ** Machine integers *)

(** [unsigned int], [unsigned short], [unsigned char] and [int] arithmetic
    wraps (the signed conversion is the two's complement one). *)
Definition u32 (z : Z) : Z := z mod 4294967296.
Definition u16 (z : Z) : Z := z mod 65536.
Definition u8 (z : Z) : Z := z mod 256.
Definition u64 (z : Z) : Z := z mod 18446744073709551616.
Definition s32 (z : Z) : Z := (z + 2147483648) mod 4294967296 - 2147483648.
Definition UINT_MAX : Z := 4294967295.
Definition INT_MAX : Z := 2147483647.

Lemma u32_small z : 0 <= z < 4294967296 -> u32 z = z.
Proof. intros; unfold u32; by apply Z.mod_small. Qed.

Lemma u32_range z : 0 <= u32 z < 4294967296.
Proof. unfold u32; apply Z.mod_pos_bound; lia. Qed.

Lemma s32_small z : -2147483648 <= z < 2147483648 -> s32 z = z.
Proof. intros; unfold s32; rewrite Z.mod_small; lia. Qed.

Lemma u16_range z : 0 <= u16 z < 65536.
Proof. unfold u16; apply Z.mod_pos_bound; lia. Qed.

Lemma u16_small z : 0 <= z < 65536 -> u16 z = z.
Proof. intros; unfold u16; by apply Z.mod_small. Qed.

Lemma u8_small z : 0 <= z < 256 -> u8 z = z.
Proof. intros; unfold u8; by apply Z.mod_small. Qed.

(** ** Bit fields *)

(** A value above bit [n] and one below it do not overlap. *)
Lemma land_shifted a b n : 0 <= n -> 0 <= b < 2 ^ n -> Z.land (a * 2 ^ n) b = 0.
Proof.
  intros Hn Hb. apply Z.bits_inj'. intros i Hi. rewrite Z.land_spec, Z.bits_0.
  destruct (Z.lt_ge_cases i n).
  - rewrite Z.mul_pow2_bits_low by lia. done.
  - destruct (decide (b = 0)) as [-> | Hb0]; [by rewrite Z.bits_0, andb_false_r|].
    rewrite (Z.bits_above_log2 b i), andb_false_r; [done|lia|].
    apply Z.log2_lt_pow2; [lia|]. apply Z.lt_le_trans with (2 ^ n); [lia|].
    by apply Z.pow_le_mono_r.
Qed.

Lemma lor_shifted a b n : 0 <= n -> 0 <= b < 2 ^ n -> Z.lor (a * 2 ^ n) b = a * 2 ^ n + b.
Proof.
  intros Hn Hb. pose proof (Z.add_nocarry_lxor _ _ (land_shifted a b n Hn Hb)).
  pose proof (Z.sub_2lor_lxor (a * 2 ^ n) b). lia.
Qed.

Lemma lor_shiftl a b n : 0 <= n -> 0 <= b < 2 ^ n -> Z.lor (Z.shiftl a n) b = a * 2 ^ n + b.
Proof. intros. rewrite Z.shiftl_mul_pow2 by done. by apply lor_shifted. Qed.

(** [a & (2 ^ n - 1)]. *)
Lemma land_mask a n : 0 <= n -> Z.land a (2 ^ n - 1) = a mod 2 ^ n.
Proof. intros. rewrite Z.sub_1_r, <- Z.ones_equiv. by apply Z.land_ones. Qed.

(** ** Outcomes of fallible code *)

(** A C function that can report an error message or reach undefined
    behaviour (a NULL dereference, a read of an uninitialised variable). *)
Inductive res (A : Type) : Type :=
  | Ok (a : A)
  | Err (cause : string)
  | Undef.
Arguments Ok {A} a.
Arguments Err {A} cause.
Arguments Undef {A}.

Definition res_bind {A B} (m : res A) (f : A -> res B) : res B :=
  match m with Ok a => f a | Err c => Err c | Undef => Undef end.

(** ** Loops *)

(** A loop whose body goes on with a state or ends with a result; [None] is
    undefined behaviour or a loop that has not ended. *)
Fixpoint iterate {S R} (fuel : nat) (body : S -> option (S + R)) (s : S) : option R :=
  match fuel with
  | O => None
  | S fuel =>
      x ← body s;
      match x with inl s => iterate fuel body s | inr r => Some r end
  end.

(** An invariant and a measure that each turn lowers: the loop ends. *)
Lemma iterate_ok {S R} (body : S -> option (S + R)) (P : S -> Prop) (Q : R -> Prop) (m : S -> nat) :
  (forall s, P s -> match body s with
                    | Some (inl s') => P s' /\ (m s' < m s)%nat
                    | Some (inr r) => Q r
                    | None => False
                    end) ->
  forall fuel s, P s -> (m s < fuel)%nat -> exists r, iterate fuel body s = Some r /\ Q r.
Proof.
  intros Hb. induction fuel as [|fuel IH]; intros s Hs Hm; [lia|]. cbn [iterate].
  pose proof (Hb s Hs) as H. destruct (body s) as [[s'|r]|]; [|by exists r|done].
  cbn [mbind option_bind]. destruct H as [Hs' Hlt]. apply IH; [done|lia].
Qed.

(** [n] turns lead from one state to another. *)
Definition leads {S R} (body : S -> option (S + R)) (n : nat) (s s' : S) : Prop :=
  forall fuel, iterate (n + fuel) body s = iterate fuel body s'.

Lemma leads_refl {S R} (body : S -> option (S + R)) s : leads body 0 s s.
Proof. done. Qed.

Lemma leads_trans {S R} (body : S -> option (S + R)) n m s1 s2 s3 :
  leads body n s1 s2 -> leads body m s2 s3 -> leads body (n + m) s1 s3.
Proof. intros H1 H2 fuel. rewrite <- Nat.add_assoc, H1. apply H2. Qed.

Lemma leads_turn {S R} (body : S -> option (S + R)) s s' : body s = Some (inl s') -> leads body 1 s s'.
Proof. intros E fuel. cbn [Nat.add iterate]. by rewrite E. Qed.

(** ** Lists *)

Definition zsum (l : list Z) : Z := foldr Z.add 0 l.

Lemma zsum_app l1 l2 : zsum (l1 ++ l2) = zsum l1 + zsum l2.
Proof. unfold zsum; induction l1 as [|a l1 IH]; csimpl; lia. Qed.

Fixpoint drop_while {A} (P : A -> bool) (l : list A) : list A :=
  match l with [] => [] | x :: l' => if P x then drop_while P l' else l end.

(** [TAILQ_INSERT_BEFORE] at position [i]. *)
Definition list_insert_at {A} (i : nat) (x : A) (l : list A) : list A :=
  take i l ++ x :: drop i l.

Lemma list_insert_at_length {A} i (x : A) l :
  length (list_insert_at i x l) = S (length l).
Proof.
  unfold list_insert_at. rewrite length_app; csimpl.
  rewrite length_take, length_drop. lia.
Qed.

Lemma list_insert_at_perm {A} i (x : A) l : list_insert_at i x l ≡ₚ x :: l.
Proof.
  unfold list_insert_at. rewrite <- Permutation_middle. by rewrite take_drop.
Qed.

Lemma list_insert_at_lookup {A} i (x : A) l : (i <= length l)%nat ->
  list_insert_at i x l !! i = Some x.
Proof.
  intros. unfold list_insert_at. rewrite lookup_app_r; rewrite length_take_le by done;
    [by rewrite Nat.sub_diag|done].
Qed.

(** ** Maps *)

Lemma fmap_alter_comm {A B} (g : A -> B) (f : A -> A) (f' : B -> B) (k : Z) (m : gmap Z A) :
  (forall x, g (f x) = f' (g x)) -> g <$> alter f k m = alter f' k (g <$> m).
Proof.
  intros Hf. apply map_eq. intros i. rewrite lookup_fmap.
  destruct (decide (k = i)) as [-> | Hne].
  - rewrite !lookup_alter_eq, lookup_fmap. destruct (m !! i); cbn; [by rewrite Hf|done].
  - by rewrite !lookup_alter_ne, lookup_fmap by done.
Qed.

(** A change that a projection does not see. *)
Lemma fmap_alter_same {A B} (g : A -> B) (f : A -> A) (k : Z) (m : gmap Z A) :
  (forall x, g (f x) = g x) -> g <$> alter f k m = g <$> m.
Proof.
  intros Hf. apply map_eq. intros i. rewrite !lookup_fmap.
  destruct (decide (k = i)) as [-> | Hne].
  - rewrite !lookup_alter_eq. destruct (m !! i); cbn; [by rewrite Hf|done].
  - by rewrite !lookup_alter_ne by done.
Qed.

(** ** Automation *)

(** Remove the wrap-around of a value that [lia] can bound. *)
Ltac unwrap := rewrite ?u32_small, ?s32_small, ?u16_small, ?u8_small by lia.

(** Split every boolean comparison of the goal into its two outcomes. *)
Ltac zcase :=
  match goal with
  | |- context [?a =? ?b] => destruct (Z.eqb_spec a b)
  | |- context [?a <? ?b] => destruct (Z.ltb_spec a b)
  | |- context [?a <=? ?b] => destruct (Z.leb_spec a b)
  | |- context [?a >? ?b] => rewrite (Z.gtb_ltb a b)
  | |- context [?a >=? ?b] => rewrite (Z.geb_leb a b)
  end.
Ltac zcases := repeat zcase.

(** A property of each element of a list that is written out. *)
Tactic Notation "forall_each" tactic3(tac) :=
  repeat first [apply Forall_nil_2 | apply Forall_cons_2; [tac|]].

(** ** Finite ranges *)

(** A statement for each number below [n], computed at once. *)
Definition for_each (P : Z -> Prop) (n : Z) : Prop := foldr (fun d Q => P d /\ Q) True (seqZ 0 n).

Lemma for_each_elim (P : Z -> Prop) n : for_each P n -> forall d, 0 <= d < n -> P d.
Proof.
  intros HP d Hd. assert (Hin : d ∈ seqZ 0 n) by (apply elem_of_seqZ; lia).
  unfold for_each in HP. induction (seqZ 0 n) as [|x l IH]; [by apply elem_of_nil in Hin|].
  apply elem_of_cons in Hin as [-> | Hin]; [apply HP|]. apply IH; [apply HP|done].
Qed.

(** A decidable one. *)
Lemma forall_range (P : Z -> bool) n : forallb P (seqZ 0 n) = true -> forall d, 0 <= d < n -> P d = true.
Proof.
  intros HP d Hd. rewrite forallb_forall in HP. apply HP. by apply list_elem_of_In, elem_of_seqZ.
Qed.
