(* ===== verification/CString.v ===== *)
(** * C strings: printing and scanning numbers

    The conversions of the standard library the program uses: [%u], [%d],
    [%04hx], [%llx] and [%llo] of the printf family, [%u], [%d], [%x] and [%hx] of sscanf (64-bit long,
    the value then converted to the object's width), [strlcat], and
    [strtonum] (src/tmux/compat/strtonum.c).  A C string is a [string] (its
    bytes before the NUL). *)
From Stdlib Require Import Ascii String.
From S2P Require Import Prelude.

(** ** Characters *)

Definition code (c : ascii) : Z := Z.of_N (N_of_ascii c).

Definition is_digit (c : ascii) : bool := (48 <=? code c) && (code c <=? 57).

(** The space characters [strtol] and [sscanf] skip. *)
Definition is_space (c : ascii) : bool :=
  (code c =? 32) || ((9 <=? code c) && (code c <=? 13)).

Definition digit (d : Z) : ascii := ascii_of_N (Z.to_N (48 + d)).

Definition hex_digit (d : Z) : ascii :=
  if d <? 10 then ascii_of_N (Z.to_N (48 + d)) else ascii_of_N (Z.to_N (87 + d)).

Definition hex_value (c : ascii) : option Z :=
  if is_digit c then Some (code c - 48)
  else if (97 <=? code c) && (code c <=? 102) then Some (code c - 87)
  else if (65 <=? code c) && (code c <=? 70) then Some (code c - 55)
  else None.

(** The first character of a string; [NUL] at its end. *)
Definition NUL : ascii := ascii_of_N 0.
Definition hd_char (s : string) : ascii :=
  match s with EmptyString => NUL | String c _ => c end.

(** ** Printing *)

Fixpoint dec_aux (f : nat) (n : Z) (acc : string) : string :=
  match f with
  | O => acc
  | S f => let acc := String (digit (n mod 10)) acc in
           if n <? 10 then acc else dec_aux f (n / 10) acc
  end.

(** [%u]: twenty digits are enough for 64 bits. *)
Definition fmt_u (n : Z) : string := dec_aux 20 n "".

(** [%llx] and [%llo]. *)
Fixpoint radix_aux (base : Z) (f : nat) (n : Z) (acc : string) : string :=
  match f with
  | O => acc
  | S f => let acc := String (hex_digit (n mod base)) acc in
           if n <? base then acc else radix_aux base f (n / base) acc
  end.
Definition fmt_llx (n : Z) : string := radix_aux 16 16 n "".
Definition fmt_llo (n : Z) : string := radix_aux 8 22 n "".

(** [%d]. *)
Definition fmt_d (n : Z) : string :=
  if n <? 0 then String "-" (fmt_u (- n)) else fmt_u n.

(** [%04hx]. *)
Definition fmt_04hx (n : Z) : string :=
  String (hex_digit (n / 4096 mod 16)) (String (hex_digit (n / 256 mod 16))
    (String (hex_digit (n / 16 mod 16)) (String (hex_digit (n mod 16)) ""))).

(** [strlcat (buf, s, len)]: the buffer after it and the length it tried to
    create. *)
Definition str_take (n : nat) (s : string) : string := String.substring 0 n s.

Definition strlcat (buf s : string) (len : nat) : string * nat :=
  let total := (String.length buf + String.length s)%nat in
  if Nat.ltb total len then (buf +:+ s, total)
  else (str_take (len - 1) (buf +:+ s), total).

(** ** Comparing *)

Definition tolower (c : ascii) : ascii :=
  if (65 <=? code c) && (code c <=? 90) then ascii_of_N (Z.to_N (code c + 32)) else c.

Fixpoint lower (s : string) : string :=
  match s with
  | EmptyString => EmptyString
  | String c s => String (tolower c) (lower s)
  end.

(** [strcasecmp (a, b) == 0]. *)
Definition strcaseeq (a b : string) : bool := String.eqb (lower a) (lower b).

(** [strncasecmp (a, b, n) == 0]. *)
Definition strncaseeq (n : nat) (a b : string) : bool := strcaseeq (str_take n a) (str_take n b).

(** ** Tokens *)

(** The bytes before the terminator. *)
Fixpoint c_string (l : list Z) : list Z :=
  match l with [] => [] | c :: l => if c =? 0 then [] else c :: c_string l end.

(** [strchr (set, c) != NULL], for a character that is not the terminator. *)
Fixpoint in_set (set : string) (c : ascii) : bool :=
  match set with EmptyString => false | String x set => Ascii.eqb x c || in_set set c end.

Fixpoint str_drop (n : nat) (s : string) : string :=
  match n, s with S n, String _ s => str_drop n s | _, _ => s end.

Fixpoint strcspn (set s : string) : nat :=
  match s with
  | String c s => if in_set set c then 0%nat else S (strcspn set s)
  | EmptyString => 0%nat
  end.
Fixpoint strspn (set s : string) : nat :=
  match s with
  | String c s => if in_set set c then S (strspn set s) else 0%nat
  | EmptyString => 0%nat
  end.

(** What is before and after the first [c] ([strchr], with the character
    replaced by a terminator). *)
Fixpoint str_cut (c : ascii) (s : string) : option (string * string) :=
  match s with
  | EmptyString => None
  | String x s =>
      if Ascii.eqb x c then Some (EmptyString, s)
      else '(a, b) ← str_cut c s; Some (String x a, b)
  end.

Fixpoint last_char (s : string) : ascii :=
  match s with
  | EmptyString => NUL
  | String x EmptyString => x
  | String _ s => last_char s
  end.

(** ** Scanning *)

Fixpoint skip_space (s : string) : string :=
  match s with
  | String c s' => if is_space c then skip_space s' else s
  | EmptyString => s
  end.

Fixpoint skip_digits (s : string) : string :=
  match s with
  | String c s' => if is_digit c then skip_digits s' else s
  | EmptyString => s
  end.

Fixpoint scan_digits (acc : Z) (s : string) : Z * string :=
  match s with
  | String c s' => if is_digit c then scan_digits (acc * 10 + (code c - 48)) s' else (acc, s)
  | EmptyString => (acc, s)
  end.

(** An optional sign: whether it is a minus, and the rest. *)
Definition scan_sign (s : string) : bool * string :=
  match s with
  | String "-" s' => (true, s')
  | String "+" s' => (false, s')
  | _ => (false, s)
  end.

(** Blanks, a sign and at least one digit: the value before any conversion. *)
Definition scan_int (s : string) : option (Z * string) :=
  let '(neg, s1) := scan_sign (skip_space s) in
  if is_digit (hd_char s1) then
    let '(v, s2) := scan_digits 0 s1 in Some (if (neg : bool) then - v else v, s2)
  else None.

Definition LLONG_MAX : Z := 9223372036854775807.
Definition LLONG_MIN : Z := -9223372036854775808.
Definition ULONG_MAX : Z := 18446744073709551615.

Definition clamp_long (v : Z) : Z := Z.max LLONG_MIN (Z.min LLONG_MAX v).

(** [strtoul]: a value out of range saturates, a minus sign negates modulo. *)
Definition clamp_ulong (v : Z) : Z :=
  if ULONG_MAX <? Z.abs v then ULONG_MAX else v mod (ULONG_MAX + 1).

Definition scan_u (s : string) : option (Z * string) :=
  '(v, s) ← scan_int s; Some (u32 (clamp_ulong v), s).

Definition scan_d (s : string) : option (Z * string) :=
  '(v, s) ← scan_int s; Some (s32 (clamp_long v), s).

(** [strtol] and [strtoll] in base 10: 0 and the string itself when there is no number. *)
Definition strtol (s : string) : Z * string :=
  match scan_int s with Some (v, rest) => (clamp_long v, rest) | None => (0, s) end.

(** A literal character of a sscanf format. *)
Definition scan_char (c : ascii) (s : string) : option string :=
  match s with
  | String d s' => if Ascii.eqb c d then Some s' else None
  | EmptyString => None
  end.

Fixpoint scan_hex_digits (acc : Z) (s : string) : Z * string :=
  match s with
  | String c s' =>
      match hex_value c with
      | Some d => scan_hex_digits (acc * 16 + d) s'
      | None => (acc, s)
      end
  | EmptyString => (acc, s)
  end.

(** Blanks, a sign, an optional [0x] and hexadecimal digits, before conversion. *)
Definition scan_hex (s : string) : option (Z * string) :=
  let '(neg, s1) := scan_sign (skip_space s) in
  let s2 := match s1 with
            | String "0" (String "x" s') | String "0" (String "X" s') => s'
            | _ => s1
            end in
  match hex_value (hd_char s2) with
  | Some _ => let '(v, s3) := scan_hex_digits 0 s2 in Some (if (neg : bool) then - v else v, s3)
  | None => None
  end.

(** [%hx] and [%x]. *)
Definition scan_hx (s : string) : option (Z * string) :=
  '(v, s) ← scan_hex s; Some (u16 (clamp_ulong v), s).
Definition scan_hex_u (s : string) : option (Z * string) :=
  '(v, s) ← scan_hex s; Some (u32 (clamp_ulong v), s).

(** ** strtonum *)

(** The value or the error string ([errstrp]). *)
Definition strtonum (numstr : string) (minval maxval : Z) : Z + string :=
  if maxval <? minval then inr "invalid"%string
  else
    match scan_int numstr with
    | Some (v, EmptyString) =>
        let ll := clamp_long v in
        if ((v <? LLONG_MIN) || (ll <? minval))%bool then inr "too small"%string
        else if ((LLONG_MAX <? v) || (maxval <? ll))%bool then inr "too large"%string
        else inl ll
    | _ => inr "invalid"%string
    end.

(** ** Facts *)

Lemma str_app_cons x (a b : string) : String x a +:+ b = String x (a +:+ b).
Proof. reflexivity. Qed.

Lemma str_app_nil_l (a : string) : "" +:+ a = a.
Proof. reflexivity. Qed.

Lemma str_app_assoc (a b c : string) : (a +:+ b) +:+ c = a +:+ (b +:+ c).
Proof. induction a as [|x a IH]; [done|]. by rewrite !str_app_cons, IH. Qed.

Lemma str_app_nil (a : string) : a +:+ "" = a.
Proof. induction a as [|x a IH]; [done|]. by rewrite str_app_cons, IH. Qed.

(** Appends to the right. *)
Ltac str_norm :=
  repeat first [rewrite str_app_assoc | rewrite str_app_cons |
                rewrite str_app_nil_l | rewrite str_app_nil].

Lemma str_length_app (a b : string) :
  String.length (a +:+ b) = (String.length a + String.length b)%nat.
Proof. induction a as [|x a IH]; [done|]. rewrite str_app_cons; csimpl. by rewrite IH. Qed.

Lemma str_take_app (a b : string) : str_take (String.length a) (a +:+ b) = a.
Proof.
  unfold str_take. induction a as [|x a IH]; [by destruct b|].
  rewrite str_app_cons. cbn [String.length String.substring]. by rewrite IH.
Qed.


Lemma code_range c : 0 <= code c < 256.
Proof.
  unfold code. pose proof (N_ascii_bounded c). lia.
Qed.

Lemma code_ascii n : 0 <= n < 256 -> code (ascii_of_N (Z.to_N n)) = n.
Proof. intros. unfold code. rewrite N_ascii_embedding by lia. lia. Qed.

Lemma code_digit d : 0 <= d < 10 -> code (digit d) = 48 + d.
Proof. intros. unfold digit. by rewrite code_ascii by lia. Qed.

Lemma is_digit_digit d : 0 <= d < 10 -> is_digit (digit d) = true.
Proof. intros. unfold is_digit. rewrite code_digit by done. zcases; csimpl; lia. Qed.

Lemma dec_aux_app f n acc rest : dec_aux f n acc +:+ rest = dec_aux f n (acc +:+ rest).
Proof.
  revert n acc; induction f as [|f IH]; intros n acc; cbn [dec_aux]; [done|].
  cbv zeta. by destruct (n <? 10).
Qed.

Lemma scan_digits_dec f n rest : 0 <= n < 10 ^ Z.of_nat f -> (1 <= f)%nat ->
  scan_digits 0 (dec_aux f n rest) = scan_digits n rest.
Proof.
  revert n rest; induction f as [|f IH]; intros n rest Hn Hf; [lia|]. csimpl.
  pose proof (Z.mod_pos_bound n 10 ltac:(lia)).
  pose proof (Z.div_mod n 10 ltac:(lia)).
  destruct (Z.ltb_spec n 10).
  - csimpl. rewrite is_digit_digit, code_digit by lia. f_equal. rewrite Z.mod_small; lia.
  - rewrite Nat2Z.inj_succ, Z.pow_succ_r in Hn by lia.
    assert (0 <= n / 10 < 10 ^ Z.of_nat f)
      by (split; [apply Z.div_pos; lia|apply Z.div_lt_upper_bound; lia]).
    assert (1 <= f)%nat by (destruct f; [csimpl in *; lia|lia]).
    rewrite IH by done. csimpl. rewrite is_digit_digit, code_digit by lia. f_equal. lia.
Qed.

Lemma hd_dec f n acc : (1 <= f)%nat -> is_digit (hd_char (dec_aux f n acc)) = true.
Proof.
  revert n acc; induction f as [|f IH]; intros n acc Hf; [lia|]. csimpl.
  pose proof (Z.mod_pos_bound n 10 ltac:(lia)).
  destruct (Z.ltb_spec n 10); [by apply is_digit_digit|].
  destruct f; [by apply is_digit_digit|]. apply IH. lia.
Qed.

Lemma scan_digits_stop n s : is_digit (hd_char s) = false -> scan_digits n s = (n, s).
Proof. destruct s; csimpl; [done|]. by intros ->. Qed.

Lemma digit_not_space c : is_digit c = true -> is_space c = false.
Proof.
  unfold is_digit, is_space. intros [H1 H2]%andb_prop.
  apply Z.leb_le in H1, H2. zcases; csimpl; try done; lia.
Qed.

Lemma digit_not_sign c : is_digit c = true -> c <> "-"%char /\ c <> "+"%char.
Proof. intros H; split; intros ->; by vm_compute in H. Qed.

Lemma scan_sign_digit s : is_digit (hd_char s) = true -> scan_sign s = (false, s).
Proof.
  destruct s as [|c s]; csimpl; [done|]. intros H.
  destruct (digit_not_sign c H). unfold scan_sign.
  by destruct c as [[] [] [] [] [] [] [] []].
Qed.

Lemma skip_space_digit s : is_digit (hd_char s) = true -> skip_space s = s.
Proof. destruct s as [|c s]; csimpl; [done|]. intros H. by rewrite digit_not_space. Qed.

Lemma fmt_u_app n rest : fmt_u n +:+ rest = dec_aux 20 n rest.
Proof. apply dec_aux_app. Qed.

(** A printed number is scanned back, up to the next non-digit. *)
Lemma scan_int_fmt_u n rest : 0 <= n < 10 ^ 20 -> is_digit (hd_char rest) = false ->
  scan_int (fmt_u n +:+ rest) = Some (n, rest).
Proof.
  intros Hn Hr. unfold scan_int. rewrite fmt_u_app.
  assert (Hd : is_digit (hd_char (dec_aux 20 n rest)) = true) by (apply hd_dec; lia).
  rewrite skip_space_digit, scan_sign_digit, Hd by done.
  rewrite scan_digits_dec by (csimpl; lia). by rewrite scan_digits_stop.
Qed.

Lemma scan_u_fmt_u n rest : 0 <= n < 4294967296 -> is_digit (hd_char rest) = false ->
  scan_u (fmt_u n +:+ rest) = Some (n, rest).
Proof.
  intros Hn Hr. unfold scan_u. rewrite scan_int_fmt_u by (done || lia). csimpl.
  unfold clamp_ulong, ULONG_MAX. zcases; [lia|].
  rewrite Z.mod_small by lia. by rewrite u32_small by lia.
Qed.

Lemma scan_d_fmt_d n rest : 0 <= n < 2147483648 -> is_digit (hd_char rest) = false ->
  scan_d (fmt_d n +:+ rest) = Some (n, rest).
Proof.
  intros Hn Hr. unfold scan_d, fmt_d. zcases; [lia|].
  rewrite scan_int_fmt_u by (done || lia). csimpl.
  unfold clamp_long, LLONG_MAX, LLONG_MIN. by rewrite Z.min_r, Z.max_r, s32_small by lia.
Qed.

Lemma skip_digits_fmt_u n rest : is_digit (hd_char rest) = false ->
  0 <= n -> skip_digits (fmt_u n +:+ rest) = rest.
Proof.
  intros Hr Hn. rewrite fmt_u_app.
  assert (Hs : skip_digits rest = rest) by (destruct rest; csimpl in *; by rewrite ?Hr).
  assert (H : forall f n acc, 0 <= n -> skip_digits (dec_aux f n acc) = skip_digits acc);
    [|by rewrite H].
  clear. induction f as [|f IH]; intros n acc Hn; cbn [dec_aux]; cbv zeta; [done|].
  pose proof (Z.mod_pos_bound n 10 ltac:(lia)).
  destruct (n <? 10); [|rewrite IH by (apply Z.div_pos; lia)];
    csimpl; by rewrite is_digit_digit by done.
Qed.

Lemma hd_fmt_u n rest : is_digit (hd_char (fmt_u n +:+ rest)) = true.
Proof. rewrite fmt_u_app. apply hd_dec. lia. Qed.

Lemma fmt_u_some n : fmt_u n <> ""%string.
Proof. intros E. pose proof (hd_fmt_u n "") as Hd. rewrite E in Hd. by vm_compute in Hd. Qed.

Lemma app_some a b : b <> ""%string -> (a +:+ b)%string <> ""%string.
Proof. by destruct a. Qed.

Lemma hex_value_digit d : 0 <= d < 16 -> hex_value (hex_digit d) = Some d.
Proof.
  intros Hd. unfold hex_value, hex_digit, is_digit.
  destruct (Z.ltb_spec d 10); rewrite code_ascii by lia.
  - rewrite (proj2 (Z.leb_le 48 (48 + d))), (proj2 (Z.leb_le (48 + d) 57)) by lia.
    csimpl. f_equal; lia.
  - rewrite (proj2 (Z.leb_le 48 (87 + d))), (proj2 (Z.leb_gt (87 + d) 57)) by lia.
    rewrite (proj2 (Z.leb_le 97 (87 + d))), (proj2 (Z.leb_le (87 + d) 102)) by lia.
    csimpl. f_equal; lia.
Qed.

#[global] Arguments dec_aux : simpl never.

(** ** strcmp, on bytes *)

Fixpoint strcmp (a b : list Z) : Z :=
  match a, b with
  | [], [] => 0
  | [], _ => -1
  | _, [] => 1
  | x :: a, y :: b => if x =? y then strcmp a b else x - y
  end.
