(* ===== verification/Layout.v ===== *)
(** * The window layout tree (src/tmux/windows/layout.c)

    The cells of a window layout, their geometry and the operations that
    resize, split, spread and destroy cells.  A pointer to a cell is the path
    of child positions that leads to it from the root of its tree, so the
    [parent], [TAILQ_NEXT] and [TAILQ_PREV] links of the code are the path. *)
From S2P Require Import Prelude.

Definition PANE_MINIMUM : Z := 1.
Definition PANE_STATUS_OFF : Z := 0.
Definition PANE_STATUS_TOP : Z := 1.
Definition PANE_STATUS_BOTTOM : Z := 2.

(** ** Cells *)

Inductive layout_type :=
  | LAYOUT_LEFTRIGHT | LAYOUT_TOPBOTTOM | LAYOUT_FLOATING | LAYOUT_WINDOWPANE.

#[export] Instance layout_type_eq_dec : EqDecision layout_type.
Proof. solve_decision. Defined.

(** [struct layout_cell]; [lc_wp] is the id of the pane of a leaf. *)
Inductive layout_cell := LC {
  lc_type : layout_type;
  lc_sx : Z;
  lc_sy : Z;
  lc_xoff : Z;
  lc_yoff : Z;
  lc_wp : option Z;
  lc_cells : list layout_cell
}.

Add Printing Constructor layout_cell.

(** Induction over a cell and its child cells. *)
Lemma layout_cell_ind' (P : layout_cell -> Prop) :
  (forall t sx sy xo yo wp cs, Forall P cs -> P (LC t sx sy xo yo wp cs)) ->
  forall lc, P lc.
Proof.
  intros H. fix IH 1. intros [t sx sy xo yo wp cs]. apply H.
  induction cs as [|c cs IHcs]; constructor; [apply IH | apply IHcs].
Qed.

Definition set_type (t : layout_type) (lc : layout_cell) : layout_cell :=
  LC t (lc_sx lc) (lc_sy lc) (lc_xoff lc) (lc_yoff lc) (lc_wp lc) (lc_cells lc).
Definition set_sx (v : Z) (lc : layout_cell) : layout_cell :=
  LC (lc_type lc) v (lc_sy lc) (lc_xoff lc) (lc_yoff lc) (lc_wp lc) (lc_cells lc).
Definition set_sy (v : Z) (lc : layout_cell) : layout_cell :=
  LC (lc_type lc) (lc_sx lc) v (lc_xoff lc) (lc_yoff lc) (lc_wp lc) (lc_cells lc).
Definition set_off (x y : Z) (lc : layout_cell) : layout_cell :=
  LC (lc_type lc) (lc_sx lc) (lc_sy lc) x y (lc_wp lc) (lc_cells lc).
Definition set_cells (cs : list layout_cell) (lc : layout_cell) : layout_cell :=
  LC (lc_type lc) (lc_sx lc) (lc_sy lc) (lc_xoff lc) (lc_yoff lc) (lc_wp lc) cs.

Definition layout_create_cell : layout_cell :=
  LC LAYOUT_WINDOWPANE UINT_MAX UINT_MAX INT_MAX INT_MAX None [].

Definition layout_set_size (sx sy xoff yoff : Z) (lc : layout_cell) : layout_cell :=
  LC (lc_type lc) sx sy xoff yoff (lc_wp lc) (lc_cells lc).

Definition layout_make_leaf (wp : Z) (lc : layout_cell) : layout_cell :=
  LC LAYOUT_WINDOWPANE (lc_sx lc) (lc_sy lc) (lc_xoff lc) (lc_yoff lc) (Some wp) [].

Definition layout_make_node (t : layout_type) (lc : layout_cell) : layout_cell :=
  LC t (lc_sx lc) (lc_sy lc) (lc_xoff lc) (lc_yoff lc) None [].

(** The size of a cell in the direction of a resize. *)
Definition lc_size (t : layout_type) (lc : layout_cell) : Z :=
  if decide (t = LAYOUT_LEFTRIGHT) then lc_sx lc else lc_sy lc.
Definition set_lc_size (t : layout_type) (v : Z) (lc : layout_cell) : layout_cell :=
  if decide (t = LAYOUT_LEFTRIGHT) then set_sx v lc else set_sy v lc.

(** The panes of the leaves, in the order of the tree. *)
Fixpoint leaves (lc : layout_cell) : list (option Z) :=
  match lc with
  | LC LAYOUT_WINDOWPANE _ _ _ _ wp _ => [wp]
  | LC _ _ _ _ _ _ cs => flat_map leaves cs
  end.

Fixpoint layout_count_cells (lc : layout_cell) : Z :=
  match lc with
  | LC LAYOUT_WINDOWPANE _ _ _ _ _ _ => 1
  | LC _ _ _ _ _ _ cs => foldr (fun c n => u32 (layout_count_cells c + n)) 0 cs
  end.

Fixpoint lc_height (lc : layout_cell) : nat :=
  match lc with
  | LC _ _ _ _ _ _ cs => S (foldr (fun c n => Nat.max (lc_height c) n) O cs)
  end.

(** ** Paths *)

Fixpoint cell_at (lc : layout_cell) (p : list nat) : option layout_cell :=
  match p with
  | [] => Some lc
  | i :: p => match lc_cells lc !! i with Some c => cell_at c p | None => None end
  end.

Fixpoint cell_update (f : layout_cell -> layout_cell) (lc : layout_cell)
    (p : list nat) : layout_cell :=
  match p with
  | [] => f lc
  | i :: p =>
      match lc_cells lc !! i with
      | Some c => set_cells (<[i := cell_update f c p]> (lc_cells lc)) lc
      | None => lc
      end
  end.

(** ** Edges of the window *)

(** Walking from [lc] towards the root, every [LAYOUT_TOPBOTTOM] parent has
    the cell first (last).  A cell outside the tree has no path ([None]). *)
Fixpoint layout_cell_is_top (root : layout_cell) (p : list nat) : bool :=
  match p with
  | [] => true
  | i :: p =>
      negb (bool_decide (lc_type root = LAYOUT_TOPBOTTOM) && negb (Nat.eqb i 0)) &&
      match lc_cells root !! i with
      | Some c => layout_cell_is_top c p
      | None => false
      end
  end.

Fixpoint layout_cell_is_bottom (root : layout_cell) (p : list nat) : bool :=
  match p with
  | [] => true
  | i :: p =>
      negb (bool_decide (lc_type root = LAYOUT_TOPBOTTOM) &&
            negb (Nat.eqb (S i) (length (lc_cells root)))) &&
      match lc_cells root !! i with
      | Some c => layout_cell_is_bottom c p
      | None => false
      end
  end.

(** What [layout_cell_is_top] and [layout_cell_is_bottom] answer for a cell,
    carried down as the tree is walked. *)
Record edge := Edge { e_top : bool; e_bottom : bool }.
Definition edge_root : edge := Edge true true.
Definition edge_none : edge := Edge false false.

Definition child_edge (t : layout_type) (n : nat) (e : edge) (i : nat) : edge :=
  if decide (t = LAYOUT_TOPBOTTOM)
  then Edge (e_top e && Nat.eqb i 0) (e_bottom e && Nat.eqb (S i) n)
  else e.

Fixpoint edge_at (e : edge) (lc : layout_cell) (p : list nat) : edge :=
  match p with
  | [] => e
  | i :: p =>
      match lc_cells lc !! i with
      | Some c => edge_at (child_edge (lc_type lc) (length (lc_cells lc)) e i) c p
      | None => edge_none
      end
  end.

(** The options of the window the layout code reads. *)
Record layout_env := LayoutEnv {
  pane_border_status : Z;
  pane_scrollbars : bool;
  sb_width : Z;      (* the scrollbar style of the active pane *)
  sb_pad : Z
}.

Definition layout_add_horizontal_border (env : layout_env) (e : edge) : bool :=
  if pane_border_status env =? PANE_STATUS_TOP then e_top e
  else if pane_border_status env =? PANE_STATUS_BOTTOM then e_bottom e
  else false.

(** ** Search by border *)

Fixpoint layout_search_by_border (lc : layout_cell) (x y : Z) : option (list nat) :=
  (fix go (i : nat) (last : option (nat * layout_cell)) (cs : list layout_cell) :=
     match cs with
     | [] => None
     | c :: cs =>
         if (lc_xoff c <=? x) && (x <? s32 (lc_xoff c + s32 (lc_sx c))) &&
            (lc_yoff c <=? y) && (y <? s32 (lc_yoff c + s32 (lc_sy c)))
         then option_map (cons i) (layout_search_by_border c x y)
         else
           match last with
           | None => go (S i) (Some (i, c)) cs
           | Some (j, l) =>
               let hit :=
                 match lc_type lc with
                 | LAYOUT_LEFTRIGHT =>
                     (x <? lc_xoff c) && (s32 (lc_xoff l + s32 (lc_sx l)) <=? x)
                 | LAYOUT_TOPBOTTOM =>
                     (y <? lc_yoff c) && (s32 (lc_yoff l + s32 (lc_sy l)) <=? y)
                 | _ => false
                 end in
               if hit then Some [j] else go (S i) (Some (i, c)) cs
           end
     end) O None (lc_cells lc).

(** ** Offsets *)

(** A cell placed at an offset, its children placed after one another with
    one column (or line) of border between them. *)
Fixpoint layout_fix_offsets1 (xoff yoff : Z) (lc : layout_cell) : layout_cell :=
  match lc with
  | LC t sx sy _ _ wp cs =>
      LC t sx sy xoff yoff wp
        match t with
        | LAYOUT_WINDOWPANE => cs
        | LAYOUT_LEFTRIGHT =>
            (fix go xoff cs :=
               match cs with
               | [] => []
               | c :: cs =>
                   layout_fix_offsets1 xoff yoff c :: go (s32 (xoff + (lc_sx c + 1))) cs
               end) xoff cs
        | _ =>
            (fix go yoff cs :=
               match cs with
               | [] => []
               | c :: cs =>
                   layout_fix_offsets1 xoff yoff c :: go (s32 (yoff + (lc_sy c + 1))) cs
               end) yoff cs
        end
  end.

Definition layout_fix_offsets (root : layout_cell) : layout_cell :=
  layout_fix_offsets1 0 0 root.

(** ** Resizing *)

Section Resize.
Context (env : layout_env).

(** The space that can be removed from a cell. *)
Fixpoint layout_resize_check (e : edge) (lc : layout_cell) (type : layout_type) : Z :=
  match lc with
  | LC LAYOUT_WINDOWPANE sx sy _ _ _ _ =>
      let available := if decide (type = LAYOUT_LEFTRIGHT) then sx else sy in
      let minimum :=
        if decide (type = LAYOUT_LEFTRIGHT)
        then if pane_scrollbars env then u32 (PANE_MINIMUM + sb_width env + sb_pad env)
             else PANE_MINIMUM
        else if layout_add_horizontal_border env e then PANE_MINIMUM + 1
             else PANE_MINIMUM in
      if minimum <? available then available - minimum else 0
  | LC t _ _ _ _ _ cs =>
      if decide (t = type)
      then
        (fix go i l :=
           match l with
           | [] => 0
           | c :: l =>
               u32 (layout_resize_check (child_edge t (length cs) e i) c type + go (S i) l)
           end) O cs
      else
        (fix go i l :=
           match l with
           | [] => UINT_MAX
           | c :: l =>
               Z.min (layout_resize_check (child_edge t (length cs) e i) c type)
                     (go (S i) l)
           end) O cs
  end.

(** One pass of the [TAILQ_FOREACH] in the same-direction case of
    [layout_resize_adjust]: every child in turn gains or gives one. *)
Fixpoint adjust_pass
    (adj : edge -> layout_cell -> Z -> option layout_cell)
    (avail : edge -> layout_cell -> Z)
    (ce : nat -> edge) (i : nat) (cs : list layout_cell) (change : Z) :
    option (list layout_cell * Z) :=
  match cs with
  | [] => Some ([], change)
  | c :: cs =>
      if change =? 0 then Some (c :: cs, change)
      else if 0 <? change then
        c' ← adj (ce i) c 1;
        '(cs', change') ← adjust_pass adj avail ce (S i) cs (change - 1);
        Some (c' :: cs', change')
      else if 0 <? avail (ce i) c then
        c' ← adj (ce i) c (-1);
        '(cs', change') ← adjust_pass adj avail ce (S i) cs (change + 1);
        Some (c' :: cs', change')
      else
        '(cs', change') ← adjust_pass adj avail ce (S i) cs change;
        Some (c :: cs', change')
  end.

(** [while (change != 0)].  A pass that changes nothing leaves the loop in the
    state it was in, so the C loop never ends: that is the result [None], as is
    [k = 0] with some change left ([k] bounds the passes by [|change|], and a
    pass that does something reduces [|change|]). *)
Fixpoint adjust_while
    (adj : edge -> layout_cell -> Z -> option layout_cell)
    (avail : edge -> layout_cell -> Z)
    (ce : nat -> edge) (k : nat) (cs : list layout_cell) (change : Z) :
    option (list layout_cell) :=
  if change =? 0 then Some cs
  else match k with
       | O => None
       | S k =>
           '(cs', change') ← adjust_pass adj avail ce O cs change;
           if change' =? change then None
           else adjust_while adj avail ce k cs' change'
       end.

(** The other-direction case: every child changes by the same amount. *)
Fixpoint adjust_all
    (adj : edge -> layout_cell -> Z -> option layout_cell)
    (ce : nat -> edge) (i : nat) (cs : list layout_cell) (change : Z) :
    option (list layout_cell) :=
  match cs with
  | [] => Some []
  | c :: cs =>
      c' ← adj (ce i) c change;
      cs' ← adjust_all adj ce (S i) cs change;
      Some (c' :: cs')
  end.

(** [d] is the depth of the recursion; [None]: the code does not return. *)
Fixpoint layout_resize_adjust_aux (d : nat) (e : edge) (lc : layout_cell)
    (type : layout_type) (change : Z) : option layout_cell :=
  match d with
  | O => None
  | S d =>
      let lc := set_lc_size type (u32 (lc_size type lc + change)) lc in
      if decide (type = LAYOUT_WINDOWPANE) then Some lc
      else
        let adj e c n := layout_resize_adjust_aux d e c type n in
        let avail e c := layout_resize_check e c type in
        let ce := child_edge (lc_type lc) (length (lc_cells lc)) e in
        cs ← (if decide (lc_type lc = type)
              then adjust_while adj avail ce (Z.to_nat (Z.abs change)) (lc_cells lc) change
              else adjust_all adj ce O (lc_cells lc) change);
        Some (set_cells cs lc)
  end.

Definition layout_resize_adjust (e : edge) (lc : layout_cell)
    (type : layout_type) (change : Z) : option layout_cell :=
  layout_resize_adjust_aux (lc_height lc) e lc type change.

(** Adjust the cell at a path of the tree [root]. *)
Definition adjust_at (e0 : edge) (root : layout_cell) (p : list nat)
    (type : layout_type) (change : Z) : option layout_cell :=
  match cell_at root p with
  | None => Some root
  | Some c =>
      c' ← layout_resize_adjust (edge_at e0 root p) c type change;
      Some (cell_update (fun _ => c') root p)
  end.

(** Destroy the cell at path [p] of the tree [root]; [e0] is the edge of the
    root ([edge_none] when the tree is not the window's).  The result is the
    new [*lcroot].  A root cell that has no pane is freed with [*lcroot] still
    pointing at it: [Undef], as is a resize that does not return. *)
Definition layout_destroy_cell (e0 : edge) (root : layout_cell) (p : list nat) :
    res (option layout_cell) :=
  match last p with
  | None => match lc_wp root with Some _ => Ok None | None => Undef end
  | Some i =>
      let pp := take (length p - 1) p in
      match cell_at root pp, cell_at root p with
      | Some lcparent, Some lc =>
          let remove q := set_cells (delete i (lc_cells q)) q in
          if decide (lc_type lcparent = LAYOUT_FLOATING)
          then Ok (Some (cell_update remove root pp))
          else
            let other := if Nat.eqb i 0 then 1%nat else (i - 1)%nat in
            let change := s32 (if decide (lc_type lcparent = LAYOUT_LEFTRIGHT)
                               then lc_sx lc + 1 else lc_sy lc + 1) in
            match adjust_at e0 root (pp ++ [other]) (lc_type lcparent) change with
            | None => Undef
            | Some root1 =>
                let root2 := cell_update remove root1 pp in
                match cell_at root2 pp with
                | Some (LC _ _ _ _ _ _ [c]) =>
                    Ok (Some (match pp with
                              | [] => set_off 0 0 c
                              | _ => cell_update (fun _ => c) root2 pp
                              end))
                | _ => Ok (Some root2)
                end
            end
      | _, _ => Undef
      end
  end.

(** [layout_init]. *)
Definition layout_init (sx sy wp : Z) : layout_cell :=
  layout_make_leaf wp (layout_set_size sx sy 0 0 layout_create_cell).

(** One direction of [layout_resize]: the clamped change. *)
Definition layout_resize_change (limit sz old : Z) : Z :=
  let change := s32 (sz - old) in
  let change := if (change <? 0) && (change <? - limit) then - limit else change in
  if limit =? 0 then if sz <=? old then 0 else s32 (sz - old) else change.

Definition layout_resize (root : layout_cell) (sx sy : Z) : option layout_cell :=
  let xlimit := s32 (layout_resize_check edge_root root LAYOUT_LEFTRIGHT) in
  let xchange := layout_resize_change xlimit sx (lc_sx root) in
  root1 ← (if xchange =? 0 then Some root
           else layout_resize_adjust edge_root root LAYOUT_LEFTRIGHT xchange);
  let ylimit := s32 (layout_resize_check edge_root root1 LAYOUT_TOPBOTTOM) in
  let ychange := layout_resize_change ylimit sy (lc_sy root1) in
  root2 ← (if ychange =? 0 then Some root1
           else layout_resize_adjust edge_root root1 LAYOUT_TOPBOTTOM ychange);
  Some (layout_fix_offsets root2).

(** The nearest ancestor of the cell at [p] that runs in direction [type], as
    its path and the position of its child that leads to the cell. *)
Fixpoint find_parent (root : layout_cell) (p : list nat) (type : layout_type) :
    option (list nat * nat) :=
  match p with
  | [] => None
  | i :: p =>
      match lc_cells root !! i with
      | None => None
      | Some c =>
          match find_parent c p type with
          | Some (pp, j) => Some (i :: pp, j)
          | None => if decide (lc_type root = type) then Some ([], i) else None
          end
      end
  end.

Definition child_avail (root : layout_cell) (pp : list nat) (type : layout_type)
    (i : nat) : Z :=
  match cell_at root (pp ++ [i]) with
  | Some c => layout_resize_check (edge_at edge_root root (pp ++ [i])) c type
  | None => 0
  end.

(** The first position of the list with space to give. *)
Fixpoint first_avail (avail : nat -> Z) (l : list nat) : option (nat * Z) :=
  match l with
  | [] => None
  | i :: l => let size := avail i in
              if 0 <? size then Some (i, size) else first_avail avail l
  end.

(** [layout_resize_pane_grow] on child [i] of the [n] children at [pp]: the
    size gained and the tree; [None] when a resize does not return. *)
Definition layout_resize_pane_grow (root : layout_cell) (pp : list nat) (n i : nat)
    (type : layout_type) (needed : Z) (opposite : bool) : option (Z * layout_cell) :=
  let avail := child_avail root pp type in
  let tail := first_avail avail (seq (S i) (n - S i)) in
  let found := match tail with
               | Some r => Some r
               | None => if opposite then first_avail avail (rev (seq 0 i)) else None
               end in
  match found with
  | None => Some (0, root)
  | Some (j, size) =>
      let size := if u32 needed <? size then needed else size in
      root1 ← adjust_at edge_root root (pp ++ [i]) type size;
      root2 ← adjust_at edge_root root1 (pp ++ [j]) type (- size);
      Some (size, root2)
  end.

Definition layout_resize_pane_shrink (root : layout_cell) (pp : list nat) (n i : nat)
    (type : layout_type) (needed : Z) : option (Z * layout_cell) :=
  match first_avail (child_avail root pp type) (rev (seq 0 (S i))) with
  | None => Some (0, root)
  | Some (j, size) =>
      if Nat.leb n (S i) then Some (0, root)
      else
        let size := if u32 (- needed) <? size then - needed else size in
        root1 ← adjust_at edge_root root (pp ++ [S i]) type size;
        root2 ← adjust_at edge_root root1 (pp ++ [j]) type (- size);
        Some (size, root2)
  end.

(** The loop of [layout_resize_layout]; every round but the last moves at
    least one, so [k] is the size of the change. *)
Fixpoint resize_layout_loop (k : nat) (root : layout_cell) (pp : list nat) (n i : nat)
    (type : layout_type) (change needed : Z) (opposite : bool) : option layout_cell :=
  if needed =? 0 then Some root
  else
    match k with
    | O => None
    | S k =>
        r ← (if 0 <? change
             then layout_resize_pane_grow root pp n i type needed opposite
             else layout_resize_pane_shrink root pp n i type needed);
        let '(size, root1) := r in
        let needed := if 0 <? change then needed - size else needed + size in
        if size =? 0 then Some root1
        else resize_layout_loop k root1 pp n i type change needed opposite
    end.

Definition layout_resize_layout (root : layout_cell) (pp : list nat) (i : nat)
    (type : layout_type) (change : Z) (opposite : bool) : option layout_cell :=
  match cell_at root pp with
  | None => Some root
  | Some q =>
      root1 ← resize_layout_loop (Z.to_nat (Z.abs change)) root pp
                (length (lc_cells q)) i type change change opposite;
      Some (layout_fix_offsets root1)
  end.

(** [layout_resize_pane] on the leaf at [p]; the last cell of its parent gives
    the place to the one before it (a NULL pointer when there is none). *)
Definition layout_resize_pane (root : layout_cell) (p : list nat)
    (type : layout_type) (change : Z) (opposite : bool) : option layout_cell :=
  match find_parent root p type with
  | None => Some root
  | Some (pp, i) =>
      match cell_at root pp with
      | None => Some root
      | Some q =>
          if Nat.eqb (S i) (length (lc_cells q))
          then match i with
               | O => None
               | S i' => layout_resize_layout root pp i' type change opposite
               end
          else layout_resize_layout root pp i type change opposite
      end
  end.

Definition layout_resize_pane_to (root : layout_cell) (p : list nat)
    (type : layout_type) (new_size : Z) : option layout_cell :=
  match find_parent root p type with
  | None => Some root
  | Some (pp, i) =>
      match cell_at root pp, cell_at root (pp ++ [i]) with
      | Some q, Some lc =>
          let size := s32 (lc_size type lc) in
          let change := if Nat.eqb (S i) (length (lc_cells q))
                        then s32 (size - new_size) else s32 (new_size - size) in
          layout_resize_pane root p type change true
      | _, _ => Some root
      end
  end.

(** ** Splitting *)

Definition layout_new_pane_size (previous : Z) (e : edge) (lc : layout_cell)
    (type : layout_type) (size count_left size_left : Z) : Z :=
  if count_left =? 1 then size_left
  else
    let available := layout_resize_check e lc type in
    let min0 := u32 ((PANE_MINIMUM + 1) * (count_left - 1)) in
    let sz := lc_size type lc in
    let min := if min0 <? u32 (sz - available) then u32 (sz - available) else min0 in
    let new_size := u32 (sz * size) / previous in
    let max := u32 (size_left - min) in
    let new_size := if max <? new_size then max else new_size in
    if new_size <? PANE_MINIMUM then PANE_MINIMUM else new_size.

Fixpoint layout_set_size_check (e : edge) (lc : layout_cell) (type : layout_type)
    (size : Z) : bool :=
  match lc with
  | LC LAYOUT_WINDOWPANE _ _ _ _ _ _ => PANE_MINIMUM <=? size
  | LC t sx sy _ _ _ cs =>
      let count := Z.of_nat (length cs) in
      let ce := child_edge t (length cs) e in
      if decide (t = type) then
        let previous := if decide (type = LAYOUT_LEFTRIGHT) then sx else sy in
        if u32 size <? u32 (count * 2 - 1) then false
        else
          (fix go (i : nat) (available : Z) l :=
             match l with
             | [] => true
             | c :: l =>
                 let new_size := layout_new_pane_size previous (ce i) c type
                                   (u32 size) (count - Z.of_nat i) available in
                 if Z.of_nat i =? count - 1
                 then if available <? new_size then false
                      else if layout_set_size_check (ce i) c type (s32 new_size)
                           then go (S i) (u32 (available - new_size)) l else false
                 else if available <? u32 (new_size + 1) then false
                      else if layout_set_size_check (ce i) c type (s32 new_size)
                           then go (S i) (u32 (available - (new_size + 1))) l else false
             end) O (u32 size) cs
      else
        (fix go (i : nat) l :=
           match l with
           | [] => true
           | c :: l =>
               if decide (lc_type c = LAYOUT_WINDOWPANE) then go (S i) l
               else if layout_set_size_check (ce i) c type size then go (S i) l
               else false
           end) O cs
  end.

(** [layout_resize_child_cells] on a cell that is given the size [sx] by [sy]
    and the offset [xoff] (in the code the caller has just stored them). *)
Fixpoint layout_resize_child_cells (e : edge) (sx sy xoff : Z) (lc : layout_cell) :
    layout_cell :=
  match lc with
  | LC LAYOUT_WINDOWPANE _ _ _ yoff wp cs => LC LAYOUT_WINDOWPANE sx sy xoff yoff wp cs
  | LC t _ _ _ yoff wp cs =>
      let count := Z.of_nat (length cs) in
      let ce := child_edge t (length cs) e in
      let used := match t with
                  | LAYOUT_LEFTRIGHT => foldr (fun c n => lc_sx c + n) 0 cs
                  | LAYOUT_TOPBOTTOM => foldr (fun c n => lc_sy c + n) 0 cs
                  | _ => 0
                  end in
      let previous := u32 (used + (count - 1)) in
      let available0 := match t with
                        | LAYOUT_LEFTRIGHT => sx
                        | LAYOUT_TOPBOTTOM => sy
                        | _ => 0
                        end in
      LC t sx sy xoff yoff wp
        ((fix go (i : nat) (available : Z) l :=
            match l with
            | [] => []
            | c :: l =>
                let left := count - Z.of_nat i in
                let '(csx, cxoff, avail1) :=
                  if decide (t = LAYOUT_TOPBOTTOM) then (sx, xoff, available)
                  else
                    let n := layout_new_pane_size previous (ce i) c t sx left available in
                    (n, lc_xoff c, u32 (available - (n + 1))) in
                let '(csy, avail2) :=
                  if decide (t = LAYOUT_LEFTRIGHT) then (sy, avail1)
                  else
                    let n := layout_new_pane_size previous (ce i) (set_sx csx c) t sy
                               left avail1 in
                    (n, u32 (avail1 - (n + 1))) in
                layout_resize_child_cells (ce i) csx csy cxoff c :: go (S i) avail2 l
            end) O available0 cs)
  end.

(** [layout_split_pane] of the leaf of pane [wp] at path [p]: [None] when there
    is no space, else the new root and the path of the new cell (which
    [layout_assign_pane] then makes a leaf). [wsb_width] and [wsb_pad] are the
    scrollbar style of [wp]; [type] is one of the two directions. *)
Definition layout_split_pane (root : layout_cell) (p0 : list nat) (wp : Z)
    (wsb_width wsb_pad : Z) (type : layout_type) (size : Z)
    (full_size before : bool) : option (layout_cell * list nat) :=
  let p := if full_size then [] else p0 in
  lc ← cell_at root p;
  let sx := lc_sx lc in let sy := lc_sy lc in
  let xoff := lc_xoff lc in let yoff := lc_yoff lc in
  let minimum :=
    if decide (type = LAYOUT_LEFTRIGHT)
    then if pane_scrollbars env then u32 (PANE_MINIMUM * 2 + wsb_width + wsb_pad)
         else PANE_MINIMUM * 2 + 1
    else if layout_add_horizontal_border env (edge_at edge_root root p)
         then PANE_MINIMUM * 2 + 2 else PANE_MINIMUM * 2 + 1 in
  let saved_size := lc_size type lc in
  if saved_size <? minimum then None
  else
    let size2 := if size <? 0 then u32 (u32 (saved_size + 1) / 2 - 1)
                 else if before then u32 (saved_size - size - 1) else size in
    let size2 := if size2 <? PANE_MINIMUM then PANE_MINIMUM
                 else if u32 (saved_size - 2) <? size2 then u32 (saved_size - 2)
                 else size2 in
    let size1 := u32 (saved_size - 1 - size2) in
    let new_size := if before then size2 else size1 in
    if full_size &&
       negb (layout_set_size_check (edge_at edge_root root p) lc type (s32 new_size))
    then None
    else
      let place1 c := if decide (type = LAYOUT_LEFTRIGHT)
                      then layout_set_size size1 sy xoff yoff c
                      else layout_set_size sx size1 xoff yoff c in
      let place2 c := if decide (type = LAYOUT_LEFTRIGHT)
                      then layout_set_size size2 sy (s32 (xoff + size1 + 1)) yoff c
                      else layout_set_size sx size2 xoff (s32 (yoff + size1 + 1)) c in
      let place_lc := if before then place2 else place1 in
      let lcnew := (if before then place1 else place2) layout_create_cell in
      let pp := take (length p - 1) p in
      let same_parent :=
        match last p, cell_at root pp with
        | Some i, Some q => if decide (lc_type q = type) then Some i else None
        | _, _ => None
        end in
      match same_parent with
      | Some i =>
          let lc' := layout_make_leaf wp (place_lc lc) in
          let at_new := if before then i else S i in
          Some (cell_update (fun q => set_cells
                  (list_insert_at at_new lcnew (<[i := lc']> (lc_cells q))) q) root pp,
                pp ++ [at_new])
      | None =>
          if full_size && bool_decide (lc_type lc = type) then
            let lc1 := if decide (type = LAYOUT_LEFTRIGHT)
                       then layout_resize_child_cells edge_root new_size sy xoff lc
                       else layout_resize_child_cells edge_root sx new_size xoff lc in
            let new := u32 (saved_size - 1 - new_size) in
            let lcnew := if decide (type = LAYOUT_LEFTRIGHT)
                         then layout_set_size new sy 0 0 layout_create_cell
                         else layout_set_size sx new 0 0 layout_create_cell in
            let at_new := if before then O else length (lc_cells lc) in
            let lc2 := set_cells (list_insert_at at_new lcnew (lc_cells lc1)) lc1 in
            Some (layout_fix_offsets (set_lc_size type saved_size lc2), [at_new])
          else
            let lcparent := LC type sx sy xoff yoff None [] in
            let i := if before then 1%nat else O in
            let at_new := if before then O else 1%nat in
            let e := child_edge type 2 (edge_at edge_root root p) i in
            let lc' := place_lc lc in
            let lc'' := if full_size
                        then layout_resize_child_cells e (lc_sx lc') (lc_sy lc')
                               (lc_xoff lc') lc'
                        else layout_make_leaf wp lc' in
            let q := set_cells (if before then [lcnew; lc''] else [lc''; lcnew]) lcparent in
            let root' := cell_update (fun _ => q) root p in
            Some (if full_size then layout_fix_offsets root' else root', p ++ [at_new])
      end.

(** ** Spreading *)

(** The children of [layout_spread_cell] in turn: the new cells, and whether a
    change was made; [None] when a resize does not return. *)
Fixpoint spread_loop (type : layout_type) (ce : nat -> edge) (each : Z) (i : nat)
    (remainder : Z) (cs : list layout_cell) : option (list layout_cell * bool) :=
  match cs with
  | [] => Some ([], false)
  | c :: cs =>
      let this0 := if decide (type = LAYOUT_LEFTRIGHT) then each
                   else if layout_add_horizontal_border env (ce i)
                        then u32 (each + 1) else each in
      let this := if 0 <? remainder then u32 (this0 + 1) else this0 in
      let remainder := if 0 <? remainder then remainder - 1 else remainder in
      let change := s32 (this - lc_size type c) in
      c' ← layout_resize_adjust (ce i) c type change;
      '(cs', changed) ← spread_loop type ce each (S i) remainder cs;
      Some (c' :: cs', negb (change =? 0) || changed)
  end.

Definition layout_spread_cell (e : edge) (parent : layout_cell) :
    option (layout_cell * bool) :=
  let number := Z.of_nat (length (lc_cells parent)) in
  if number <=? 1 then Some (parent, false)
  else
    match lc_type parent with
    | LAYOUT_LEFTRIGHT | LAYOUT_TOPBOTTOM =>
        let size := if decide (lc_type parent = LAYOUT_LEFTRIGHT) then lc_sx parent
                    else if layout_add_horizontal_border env e
                         then u32 (lc_sy parent - 1) else lc_sy parent in
        if size <? number - 1 then Some (parent, false)
        else
          let each := (size - (number - 1)) / number in
          if each =? 0 then Some (parent, false)
          else
            let remainder := u32 (size - number * (each + 1) + 1) in
            let ce := child_edge (lc_type parent) (length (lc_cells parent)) e in
            '(cs, changed) ← spread_loop (lc_type parent) ce each O remainder
                               (lc_cells parent);
            Some (set_cells cs parent, changed)
    | _ => Some (parent, false)
    end.

(** [layout_spread_out]: the parents of the cell at [p], innermost first, until
    one changes. *)
Fixpoint layout_spread_out_aux (root : layout_cell) (k : nat) (p : list nat) :
    option layout_cell :=
  match k with
  | O => Some root
  | S k =>
      match cell_at root (take k p) with
      | None => Some root
      | Some q =>
          '(q', changed) ← layout_spread_cell (edge_at edge_root root (take k p)) q;
          let root' := cell_update (fun _ => q') root (take k p) in
          if (changed : bool) then Some (layout_fix_offsets root')
          else layout_spread_out_aux root' k p
      end
  end.

Definition layout_spread_out (root : layout_cell) (p : list nat) : option layout_cell :=
  layout_spread_out_aux root (length p) p.

End Resize.
