(* ===== verification/LayoutFacts.v ===== *)
(** * Facts about the layout tree

    The consistency of a layout (the sizes of the cells of a container fill it)
    and its preservation by the operations of [Layout]. *)
From S2P Require Import Prelude.
From S2P Require Import Layout.

(** ** Consistency *)

Definition flip_type (t : layout_type) : layout_type :=
  if decide (t = LAYOUT_LEFTRIGHT) then LAYOUT_TOPBOTTOM else LAYOUT_LEFTRIGHT.

Definition is_dir (t : layout_type) : Prop :=
  t = LAYOUT_LEFTRIGHT \/ t = LAYOUT_TOPBOTTOM.

(** The space a list of cells takes in direction [t], each with its border. *)
Definition span (t : layout_type) (cs : list layout_cell) : Z :=
  zsum (map (fun c => lc_size t c + 1) cs).

Inductive consistent : layout_cell -> Prop :=
  | consistent_leaf sx sy xo yo wp :
      1 <= sx -> 1 <= sy -> consistent (LC LAYOUT_WINDOWPANE sx sy xo yo wp [])
  | consistent_node t sx sy xo yo wp cs :
      is_dir t -> cs <> [] ->
      Forall consistent cs ->
      span t cs = lc_size t (LC t sx sy xo yo wp cs) + 1 ->
      Forall (fun c => lc_size (flip_type t) c =
                       lc_size (flip_type t) (LC t sx sy xo yo wp cs)) cs ->
      consistent (LC t sx sy xo yo wp cs).

(** The sizes fit an [int], and the scrollbar style has no negative width. *)
Definition fits (lc : layout_cell) : Prop :=
  lc_sx lc < 2147483648 /\ lc_sy lc < 2147483648.

Definition env_ok (env : layout_env) : Prop :=
  0 <= sb_width env < 65536 /\ 0 <= sb_pad env < 65536.

Lemma flip_dir t : is_dir t -> is_dir (flip_type t).
Proof. intros [-> | ->]; cbv; auto. Qed.

Lemma flip_flip t : is_dir t -> flip_type (flip_type t) = t.
Proof. by intros [-> | ->]. Qed.

Lemma flip_ne t : is_dir t -> flip_type t <> t.
Proof. by intros [-> | ->]. Qed.

#[export] Hint Resolve flip_dir : core.

Lemma dir_cases t t' : is_dir t -> is_dir t' -> t' = t \/ t' = flip_type t.
Proof. intros [-> | ->] [-> | ->]; cbv; auto. Qed.

Lemma span_cons t c cs : span t (c :: cs) = lc_size t c + 1 + span t cs.
Proof. unfold span; csimpl; lia. Qed.

Lemma span_app t l1 l2 : span t (l1 ++ l2) = span t l1 + span t l2.
Proof. unfold span; by rewrite map_app, zsum_app. Qed.

(** Every cell of a consistent layout has at least one column and one line. *)
Lemma consistent_pos lc : consistent lc -> forall t, 1 <= lc_size t lc.
Proof.
  induction lc as [t sx sy xo yo wp cs IH] using layout_cell_ind'.
  intros Hc t'; inversion Hc as [|? ? ? ? ? ? ? Hd Hne Hall Hspan Hcross]; subst.
  { unfold lc_size; case_decide; csimpl; lia. }
  destruct cs as [|c cs]; [done|].
  pose proof (Forall_inv IH) as IHc. pose proof (Forall_inv Hall) as Hcc.
  specialize (IHc Hcc).
  assert (Hspan0 : 0 <= span t cs).
  { apply Forall_inv_tail in IH. apply Forall_inv_tail in Hall. clear -IH Hall.
    induction cs as [|c cs IHcs]; [done|].
    rewrite span_cons. inversion IH; inversion Hall; subst.
    assert (1 <= lc_size t c) by auto. specialize (IHcs ltac:(done) ltac:(done)). lia. }
  rewrite span_cons in Hspan. apply Forall_inv in Hcross.
  assert (H1 : 1 <= lc_size t (LC t sx sy xo yo wp (c :: cs))) by (specialize (IHc t); lia).
  assert (H2 : 1 <= lc_size (flip_type t) (LC t sx sy xo yo wp (c :: cs))).
  { rewrite <- Hcross. auto. }
  destruct Hd as [-> | ->]; unfold lc_size, flip_type in *; csimpl in *;
    repeat case_decide; csimpl in *; try done.
Qed.

Lemma span_nonneg t cs : Forall consistent cs -> 0 <= span t cs.
Proof.
  induction 1 as [|c cs Hc _ IH]; [done|].
  rewrite span_cons. pose proof (consistent_pos c Hc t). lia.
Qed.

Lemma span_elem t cs c : Forall consistent cs -> c ∈ cs -> lc_size t c + 1 <= span t cs.
Proof.
  intros Hall Hin. induction Hall as [|x cs Hx Hcs IH]; [set_solver|].
  rewrite span_cons. apply elem_of_cons in Hin as [-> | Hin].
  - pose proof (span_nonneg t cs Hcs). lia.
  - pose proof (consistent_pos x Hx t). specialize (IH Hin). lia.
Qed.

(** A child is no larger than its parent. *)
Lemma consistent_child t sx sy xo yo wp cs c t' :
  consistent (LC t sx sy xo yo wp cs) -> c ∈ cs -> is_dir t' ->
  consistent c /\ lc_size t' c <= lc_size t' (LC t sx sy xo yo wp cs).
Proof.
  intros Hc Hin Hd'. inversion Hc as [|? ? ? ? ? ? ? Hd Hne Hall Hspan Hcross]; subst.
  { set_solver. }
  split; [by eapply Forall_forall in Hall|].
  destruct (dir_cases t t' Hd Hd') as [-> | ->].
  - pose proof (span_elem t cs c Hall Hin). lia.
  - rewrite Forall_forall in Hcross. rewrite (Hcross c Hin). lia.
Qed.

(** ** The space that can be removed *)

Section Resize.
Context (env : layout_env) (Henv : env_ok env).

Fixpoint avail_sum (ce : nat -> edge) (t : layout_type) (i : nat)
    (cs : list layout_cell) : Z :=
  match cs with
  | [] => 0
  | c :: cs => layout_resize_check env (ce i) c t + avail_sum ce t (S i) cs
  end.

Fixpoint avail_min (ce : nat -> edge) (t : layout_type) (i : nat)
    (cs : list layout_cell) : Z :=
  match cs with
  | [] => UINT_MAX
  | c :: cs => Z.min (layout_resize_check env (ce i) c t) (avail_min ce t (S i) cs)
  end.

Lemma resize_check_leaf e sx sy xo yo wp cs t :
  is_dir t -> exists m, 1 <= m /\
  layout_resize_check env e (LC LAYOUT_WINDOWPANE sx sy xo yo wp cs) t =
    Z.max 0 (lc_size t (LC LAYOUT_WINDOWPANE sx sy xo yo wp cs) - m) /\
  (forall sx' sy', layout_resize_check env e (LC LAYOUT_WINDOWPANE sx' sy' xo yo wp cs) t =
    Z.max 0 (lc_size t (LC LAYOUT_WINDOWPANE sx' sy' xo yo wp cs) - m)).
Proof using Henv.
  intros Hd. destruct Henv as [Hw Hp].
  destruct Hd as [-> | ->]; cbn [layout_resize_check lc_size lc_sx lc_sy];
    unfold lc_size, PANE_MINIMUM; repeat case_decide; try done.
  - destruct (pane_scrollbars env); [exists (1 + sb_width env + sb_pad env) | exists 1];
      unwrap; repeat split; try lia; csimpl; intros; zcases; lia.
  - destruct (layout_add_horizontal_border env e); [exists 2 | exists 1];
      repeat split; try lia; csimpl; intros; zcases; lia.
Qed.

Lemma resize_check_same e sx sy xo yo wp cs t :
  is_dir t ->
  (forall i, 0 <= avail_sum (child_edge t (length cs) e) t i (drop i cs) < 4294967296) ->
  layout_resize_check env e (LC t sx sy xo yo wp cs) t =
    avail_sum (child_edge t (length cs) e) t 0 cs.
Proof.
  intros Hd Hb.
  assert (Hgo : forall n i, length (drop i cs) = n ->
    (fix go i l := match l with
       | [] => 0
       | c :: l => u32 (layout_resize_check env (child_edge t (length cs) e i) c t + go (S i) l)
       end) i (drop i cs) = avail_sum (child_edge t (length cs) e) t i (drop i cs)).
  { induction n as [|n IH]; intros i Hlen.
    - by destruct (drop i cs).
    - specialize (Hb i). destruct (drop i cs) as [|c l] eqn:E; [done|].
      assert (El : l = drop (S i) cs).
      { replace (S i) with (i + 1)%nat by lia. by rewrite <- drop_drop, E. }
      specialize (IH (S i)). rewrite <- El in IH.
      csimpl in *. rewrite IH by lia. rewrite u32_small; [done|lia]. }
  specialize (Hgo _ 0%nat eq_refl). rewrite drop_0 in Hgo.
  destruct Hd as [-> | ->]; cbn [layout_resize_check];
    rewrite decide_True by done; exact Hgo.
Qed.

Lemma resize_check_flip e sx sy xo yo wp cs t :
  is_dir t ->
  layout_resize_check env e (LC (flip_type t) sx sy xo yo wp cs) t =
    avail_min (child_edge (flip_type t) (length cs) e) t 0 cs.
Proof.
  intros Hd.
  assert (Hgo : forall l i,
    (fix go i l := match l with
       | [] => UINT_MAX
       | c :: l => Z.min (layout_resize_check env
                      (child_edge (flip_type t) (length cs) e i) c t) (go (S i) l)
       end) i l = avail_min (child_edge (flip_type t) (length cs) e) t i l).
  { induction l as [|c l IH]; intros i; [done|]. csimpl. by rewrite IH. }
  destruct Hd as [-> | ->]; cbn [flip_type layout_resize_check decide_rel];
    rewrite ?decide_False by done; apply Hgo.
Qed.

Lemma child_fits t sx sy xo yo wp cs c :
  consistent (LC t sx sy xo yo wp cs) -> fits (LC t sx sy xo yo wp cs) ->
  c ∈ cs -> fits c.
Proof.
  intros Hc [Hf1 Hf2] Hin.
  destruct (consistent_child _ _ _ _ _ _ _ c LAYOUT_LEFTRIGHT Hc Hin) as [_ H1]; [by left|].
  destruct (consistent_child _ _ _ _ _ _ _ c LAYOUT_TOPBOTTOM Hc Hin) as [_ H2]; [by right|].
  assert (lc_sx c <= sx) by exact H1. assert (lc_sy c <= sy) by exact H2.
  split; csimpl in *; lia.
Qed.

Lemma fits_size t lc : fits lc -> lc_size t lc < 2147483648.
Proof. intros []; unfold lc_size; case_decide; done. Qed.

Lemma fits_of_sizes t lc : is_dir t -> lc_size t lc < 2147483648 ->
  lc_size (flip_type t) lc < 2147483648 -> fits lc.
Proof. by intros [-> | ->]. Qed.

(** The children give no more than they take, so the sum does not wrap. *)
Lemma avail_sum_bound t ce cs :
  (forall c, c ∈ cs -> forall e, 0 <= layout_resize_check env e c t < lc_size t c) ->
  forall i, 0 <= avail_sum ce t i cs <= span t cs - 2 * Z.of_nat (length cs).
Proof.
  intros Hb. induction cs as [|c cs IH]; intros i; [unfold span; csimpl; lia|].
  rewrite span_cons; csimpl.
  pose proof (Hb c ltac:(by left) (ce i)).
  specialize (IH (fun c' Hin => Hb c' ltac:(by right)) (S i)). lia.
Qed.

Lemma resize_check_sum t sx sy xo yo wp cs e :
  is_dir t -> consistent (LC t sx sy xo yo wp cs) -> fits (LC t sx sy xo yo wp cs) ->
  (forall c, c ∈ cs -> forall e, 0 <= layout_resize_check env e c t < lc_size t c) ->
  layout_resize_check env e (LC t sx sy xo yo wp cs) t =
    avail_sum (child_edge t (length cs) e) t 0 cs.
Proof.
  intros Hd Hc Hf Hb. apply resize_check_same; [done|]. intros i.
  assert (Hs : 0 <= avail_sum (child_edge t (length cs) e) t i (drop i cs) <=
                 span t (drop i cs) - 2 * Z.of_nat (length (drop i cs))).
  { apply avail_sum_bound. intros c Hin. apply Hb. by apply (subseteq_drop i). }
  pose proof (fits_size t _ Hf).
  inversion Hc as [|? ? ? ? ? ? ? _ Hne Hall Hspan _]; subst; [by destruct Hd|].
  pose proof (span_nonneg t (take i cs) ltac:(by apply Forall_take)).
  assert (span t cs = span t (take i cs) + span t (drop i cs))
    by (by rewrite <- span_app, take_drop). lia.
Qed.

(** The space to give is never negative nor the whole cell. *)
Lemma resize_check_bounds lc : consistent lc -> fits lc ->
  forall e t, is_dir t -> 0 <= layout_resize_check env e lc t < lc_size t lc.
Proof using Henv.
  induction lc as [t0 sx sy xo yo wp cs IH] using layout_cell_ind'.
  intros Hc Hf e t Hd. pose proof (consistent_pos _ Hc t) as Hpos.
  rewrite Forall_forall in IH.
  assert (Hcb : forall c, c ∈ cs -> forall e', 0 <= layout_resize_check env e' c t < lc_size t c).
  { intros c Hin e'. apply IH; auto.
    - by eapply (consistent_child _ _ _ _ _ _ _ c t Hc).
    - by eapply child_fits. }
  inversion Hc as [|? ? ? ? ? ? ? Hd0 Hne Hall Hspan Hcross]; subst.
  { destruct (resize_check_leaf e sx sy xo yo wp [] t Hd) as (m & Hm & -> & _). lia. }
  destruct cs as [|c cs]; [done|].
  destruct (dir_cases t0 t Hd0 Hd) as [-> | ->].
  - rewrite resize_check_sum by done.
    pose proof (avail_sum_bound t0 (child_edge t0 (length (c :: cs)) e) (c :: cs) Hcb 0).
    csimpl in *; lia.
  - pose proof (resize_check_flip e sx sy xo yo wp (c :: cs) (flip_type t0) Hd) as Hr.
    rewrite (flip_flip t0 Hd0) in Hr. rewrite Hr. csimpl.
    assert (Hmin : forall i l, l ⊆ c :: cs -> 0 <= avail_min
              (child_edge t0 (S (length cs)) e) (flip_type t0) i l).
    { intros i l; revert i; induction l as [|c' l IHl]; intros i Hsub;
        csimpl; [unfold UINT_MAX; lia|].
      pose proof (Hcb c' (Hsub c' ltac:(by left)) (child_edge t0 (S (length cs)) e i)).
      specialize (IHl (S i) (fun x Hx => Hsub x ltac:(by right))). lia. }
    specialize (Hmin 1%nat cs ltac:(intros x Hx; by right)).
    pose proof (Hcb c ltac:(by left) (child_edge t0 (S (length cs)) e 0)).
    apply Forall_inv in Hcross. lia.
Qed.

Lemma resize_check_sum' t sx sy xo yo wp cs e :
  is_dir t -> consistent (LC t sx sy xo yo wp cs) -> fits (LC t sx sy xo yo wp cs) ->
  layout_resize_check env e (LC t sx sy xo yo wp cs) t =
    avail_sum (child_edge t (length cs) e) t 0 cs.
Proof using Henv.
  intros Hd Hc Hf. apply resize_check_sum; auto. intros c Hin e'.
  apply resize_check_bounds; auto; [|by eapply child_fits].
  by eapply (consistent_child _ _ _ _ _ _ _ c t Hc).
Qed.

(** ** Adjusting a cell *)

(** [lc'] is [lc] with [n] more in direction [t]: still consistent, the same
    tree of panes, the same size across, and no space lost but the [-n]. *)
Record resized (t : layout_type) (n : Z) (lc lc' : layout_cell) : Prop := Resized {
  rz_con : consistent lc';
  rz_size : lc_size t lc' = lc_size t lc + n;
  rz_cross : lc_size (flip_type t) lc' = lc_size (flip_type t) lc;
  rz_leaves : leaves lc' = leaves lc;
  rz_type : lc_type lc' = lc_type lc;
  rz_height : lc_height lc' = lc_height lc;
  rz_avail : forall e, layout_resize_check env e lc t + Z.min 0 n <=
                       layout_resize_check env e lc' t;
  rz_avail_flip : forall e, layout_resize_check env e lc' (flip_type t) =
                            layout_resize_check env e lc (flip_type t)
}.

Lemma resized_refl t lc : consistent lc -> resized t 0 lc lc.
Proof. intros; split; auto; intros; lia. Qed.

Lemma resized_trans t s n m a b c :
  0 <= s * n -> 0 <= s * m -> s = 1 \/ s = -1 ->
  resized t n a b -> resized t m b c -> resized t (n + m) a c.
Proof.
  intros Hn Hm Hs [] []; split; try congruence; try lia.
  intros e. specialize (rz_avail0 e). specialize (rz_avail1 e). lia.
Qed.

(** A list of cells each of which moved in direction [s] (1 or -1). *)
Definition moved (t : layout_type) (s : Z) : list layout_cell -> list layout_cell -> Prop :=
  Forall2 (fun c c' => exists n, 0 <= s * n /\ resized t n c c').

Lemma moved_refl t s cs : Forall consistent cs -> moved t s cs cs.
Proof.
  induction 1; constructor; auto.
  exists 0. split; [lia|by apply resized_refl].
Qed.

Lemma moved_trans t s cs1 cs2 cs3 : s = 1 \/ s = -1 ->
  moved t s cs1 cs2 -> moved t s cs2 cs3 -> moved t s cs1 cs3.
Proof.
  intros Hs H12. revert cs3.
  induction H12 as [|a b l1 l2 (n & Hn & Hab) _ IH]; intros cs3 H23.
  - inversion H23; constructor.
  - inversion H23 as [|? c ? l3 (m & Hm & Hbc) H23']; subst. constructor.
    + exists (n + m). split; [lia|]. by eapply resized_trans.
    + by apply IH.
Qed.

Lemma moved_consistent t s cs cs' : moved t s cs cs' -> Forall consistent cs'.
Proof. induction 1 as [|? ? ? ? (n & _ & [])]; by constructor. Qed.

Lemma moved_length t s cs cs' : moved t s cs cs' -> length cs' = length cs.
Proof. intros H. symmetry. by eapply Forall2_length. Qed.

Lemma moved_leaves t s cs cs' : moved t s cs cs' ->
  flat_map leaves cs' = flat_map leaves cs.
Proof.
  induction 1 as [|? ? ? ? (n & _ & Hr) _ IH]; [done|].
  csimpl. by rewrite IH, (rz_leaves _ _ _ _ Hr).
Qed.

Lemma moved_height t s cs cs' : moved t s cs cs' ->
  foldr (fun c n => Nat.max (lc_height c) n) O cs' =
  foldr (fun c n => Nat.max (lc_height c) n) O cs.
Proof.
  induction 1 as [|? ? ? ? (n & _ & Hr) _ IH]; [done|].
  csimpl. by rewrite IH, (rz_height _ _ _ _ Hr).
Qed.

Lemma moved_cross t s cs cs' v : moved t s cs cs' ->
  Forall (fun c => lc_size (flip_type t) c = v) cs ->
  Forall (fun c => lc_size (flip_type t) c = v) cs'.
Proof.
  induction 1 as [|? ? ? ? (n & _ & Hr) _ IH]; [done|].
  inversion 1; subst; constructor; auto. apply (rz_cross _ _ _ _ Hr).
Qed.

Lemma moved_avail t s ce cs cs' : moved t s cs cs' -> forall i,
  s = 1 \/ s = -1 ->
  0 <= s * (span t cs' - span t cs) /\
  avail_sum ce t i cs + Z.min 0 (span t cs' - span t cs) <= avail_sum ce t i cs'.
Proof.
  induction 1 as [|a b l l' (n & Hn & Hr) _ IH]; intros i Hs.
  - csimpl; lia.
  - rewrite !span_cons. csimpl. destruct (IH (S i) Hs) as [IH1 IH2].
    pose proof (rz_size _ _ _ _ Hr). pose proof (rz_avail _ _ _ _ Hr (ce i)).
    destruct Hs as [-> | ->]; lia.
Qed.

Lemma moved_avail_flip t s ce ce' cs cs' : moved t s cs cs' ->
  forall i, (forall j, ce' j = ce j) ->
  avail_sum ce' (flip_type t) i cs' = avail_sum ce (flip_type t) i cs /\
  avail_min ce' (flip_type t) i cs' = avail_min ce (flip_type t) i cs.
Proof.
  induction 1 as [|a b l l' (n & Hn & Hr) _ IH]; intros i He; [done|].
  csimpl. destruct (IH (S i) He) as [-> ->].
  by rewrite He, (rz_avail_flip _ _ _ _ Hr).
Qed.

Lemma moved_fits t s cs cs' : is_dir t -> moved t s cs cs' ->
  Forall fits cs -> span t cs' <= 2147483648 -> Forall fits cs'.
Proof.
  intros Hd H Hf Hs. pose proof (moved_consistent _ _ _ _ H) as Hc.
  rewrite Forall_forall. intros c' Hin.
  pose proof (span_elem t cs' c' Hc Hin).
  apply list_elem_of_lookup in Hin as [i Hi].
  destruct (Forall2_lookup_r _ _ _ _ _ H Hi) as (c & Hi' & n & _ & Hr).
  rewrite Forall_forall in Hf. assert (Hfc : fits c) by (apply Hf; by eapply list_elem_of_lookup_2).
  apply (fits_of_sizes t); [done|lia|].
  rewrite (rz_cross _ _ _ _ Hr). by apply fits_size.
Qed.

Definition adj_ok (t : layout_type) (d : nat)
    (adj : edge -> layout_cell -> Z -> option layout_cell) : Prop :=
  forall e c n, consistent c -> fits c -> (lc_height c <= d)%nat ->
    - layout_resize_check env e c t <= n -> lc_size t c + n < 2147483648 ->
    exists c', adj e c n = Some c' /\ resized t n c c'.

Section Loops.
Context (t : layout_type) (Ht : is_dir t) (d : nat).
Context (adj : edge -> layout_cell -> Z -> option layout_cell) (Hadj : adj_ok t d adj).
Context (ce : nat -> edge).

Let check (e : edge) (c : layout_cell) := layout_resize_check env e c t.
Let good (c : layout_cell) := consistent c /\ fits c /\ (lc_height c <= d)%nat.

Lemma good_avail cs i : Forall good cs -> 0 <= avail_sum ce t i cs.
Proof using Henv Ht.
  intros Hg; revert i; induction Hg as [|c cs (Hc & Hf & _) _ IH]; intros i; csimpl; [lia|].
  pose proof (resize_check_bounds c Hc Hf (ce i) t Ht). specialize (IH (S i)). lia.
Qed.

Lemma good_consistent cs : Forall good cs -> Forall consistent cs.
Proof. intros H; eapply Forall_impl; [exact H|]; by intros c (? & ? & ?). Qed.

Lemma moved_good s cs cs' : moved t s cs cs' -> Forall good cs ->
  span t cs' <= 2147483648 -> Forall good cs'.
Proof using Henv Ht.
  intros Hm Hg Hs.
  pose proof (moved_consistent _ _ _ _ Hm) as Hc.
  assert (Hf : Forall fits cs').
  { apply (moved_fits t s cs); auto. eapply Forall_impl; [exact Hg|]; by intros c (?&?&?). }
  clear Hs. induction Hm as [|a b l l' (n & _ & Hr) _ IH]; [done|].
  inversion Hg as [|? ? (?&?&?)]; inversion Hc; inversion Hf; subst.
  constructor; [|by apply IH]. split_and!; auto. by rewrite (rz_height _ _ _ _ Hr).
Qed.

Lemma adjust_pass_spec s : s = 1 \/ s = -1 -> forall cs i change,
  Forall good cs -> 0 <= s * change ->
  span t cs + Z.max 0 change <= 2147483648 ->
  exists cs' change', adjust_pass adj check ce i cs change = Some (cs', change') /\
    moved t s cs cs' /\ span t cs' = span t cs + (change - change') /\
    0 <= s * change' <= s * change /\
    (change <> 0 -> (s = 1 /\ cs <> []) \/ 0 < avail_sum ce t i cs -> change' <> change).
Proof using Henv Ht Hadj.
  intros Hs. induction cs as [|c cs IH]; intros i change Hg Hpos Hspan; csimpl.
  { exists [], change. split_and!; try done; try lia; [constructor|].
    intros _ [[_ ?]|?]; [done|lia]. }
  inversion Hg as [|? ? (Hc & Hf & Hh) Hg']; subst. rewrite span_cons in Hspan.
  pose proof (consistent_pos c Hc t). pose proof (span_nonneg t cs (good_consistent cs Hg')).
  pose proof (resize_check_bounds c Hc Hf (ce i) t Ht).
  assert (Hgo : forall n, s * n = 1 -> change <= n <= 0 \/ 0 <= n <= change ->
    - layout_resize_check env (ce i) c t <= n ->
    exists cs' change', 
      (c' ← adj (ce i) c n;
       '(cs', change') ← adjust_pass adj check ce (S i) cs (change - n);
       Some (c' :: cs', change')) = Some (cs', change') /\
      moved t s (c :: cs) cs' /\
      span t cs' = lc_size t c + 1 + span t cs + (change - change') /\
      0 <= s * change' < s * change).
  { intros n Hn Hle Ha.
    assert (0 <= s * (change - n) < s * change) by (destruct Hs as [-> | ->]; lia).
    assert (span t cs + Z.max 0 (change - n) <= 2147483648)
      by (destruct Hs as [-> | ->]; lia).
    destruct (Hadj (ce i) c n) as (c' & Hc' & Hr); auto; [lia|].
    destruct (IH (S i) (change - n)) as (cs' & change' & Hp & Hm & Hsp & Hb & _);
      [done|lia|lia|].
    exists (c' :: cs'), change'. rewrite Hc'; csimpl. rewrite Hp; csimpl.
    split_and!; try done.
    - constructor; [exists n; split; [lia|done]|done].
    - rewrite span_cons, (rz_size _ _ _ _ Hr). lia.
    - lia.
    - lia. }
  destruct (Z.eqb_spec change 0) as [->|Hnz].
  { exists (c :: cs), 0. rewrite span_cons. split_and!; try lia; [done|].
    apply moved_refl. constructor; [done|by apply good_consistent]. }
  destruct (Z.ltb_spec 0 change).
  { assert (s = 1) as -> by (destruct Hs as [-> | ->]; lia).
    destruct (Hgo 1) as (cs' & change' & E & Hm & Hsp & Hb); try lia.
    exists cs', change'. rewrite span_cons. split_and!; try done; lia. }
  destruct (Z.ltb_spec 0 (check (ce i) c)) as [Hck|Hck]; unfold check in Hck.
  { assert (s = -1) as -> by (destruct Hs as [-> | ->]; lia).
    destruct (Hgo (-1)) as (cs' & change' & E & Hm & Hsp & Hb); try lia.
    replace (change - -1) with (change + 1) in E by lia.
    exists cs', change'. rewrite span_cons. split_and!; try done; lia. }
  destruct (IH (S i) change) as (cs' & change' & -> & Hm & Hsp & Hb & Hprog); [done|lia|lia|].
  exists (c :: cs'), change'. csimpl. rewrite !span_cons. split_and!; try done; try lia.
  constructor; [|done]. exists 0. split; [lia|by apply resized_refl].
Qed.

Lemma adjust_while_spec s : s = 1 \/ s = -1 -> forall k cs change,
  Forall good cs -> 0 <= s * change <= Z.of_nat k -> cs <> [] ->
  span t cs + Z.max 0 change <= 2147483648 ->
  - avail_sum ce t 0 cs <= change ->
  exists cs', adjust_while adj check ce k cs change = Some cs' /\
    moved t s cs cs' /\ span t cs' = span t cs + change.
Proof using Henv Ht Hadj.
  intros Hs. induction k as [|k IH]; intros cs change Hg Hk Hne Hspan Hav; csimpl;
    (destruct (Z.eqb_spec change 0) as [->|Hnz];
     [exists cs; split_and!; [done|apply moved_refl; by apply good_consistent|lia]|]).
  { destruct Hs as [-> | ->]; lia. }
  destruct (adjust_pass_spec s Hs cs 0 change) as (cs1 & c1 & -> & Hm & Hsp & Hb & Hprog);
    [done|lia|lia|]. csimpl.
  assert (c1 <> change).
  { apply Hprog; [done|]. destruct Hs as [-> | ->]; [by left|right; lia]. }
  destruct (Z.eqb_spec c1 change); [done|].
  assert (Hsp1 : span t cs1 + Z.max 0 c1 <= 2147483648) by (destruct Hs as [-> | ->]; lia).
  destruct (moved_avail t s ce cs cs1 Hm 0 Hs) as [_ Hav1].
  destruct (IH cs1 c1) as (cs2 & E2 & Hm2 & Hsp2).
  - eapply moved_good; [done|done|lia].
  - destruct Hs as [-> | ->]; lia.
  - intros ->. by apply moved_length in Hm; destruct cs.
  - done.
  - pose proof (good_avail cs 0 Hg). destruct Hs as [-> | ->]; lia.
  - exists cs2. split_and!; [done| |lia]. by eapply moved_trans.
Qed.

Lemma adjust_all_spec s change : s = 1 \/ s = -1 -> 0 <= s * change -> forall cs i,
  Forall good cs -> Forall (fun c => lc_size t c + change < 2147483648) cs ->
  - avail_min ce t i cs <= change ->
  exists cs', adjust_all adj ce i cs change = Some cs' /\
    Forall2 (resized t change) cs cs' /\
    avail_min ce t i cs + Z.min 0 change <= avail_min ce t i cs'.
Proof using Hadj.
  intros Hs Hsc. induction cs as [|c cs IH]; intros i Hg Hsz Hav; csimpl.
  { exists []. split; [done|]. split; [constructor|]. csimpl; lia. }
  inversion Hg as [|? ? (Hc & Hf & Hh) Hg']; inversion Hsz; subst. csimpl in Hav.
  destruct (Hadj (ce i) c change) as (c' & -> & Hr); auto; [lia|]. csimpl.
  destruct (IH (S i)) as (cs' & -> & Hm & Hav'); auto; [lia|]. csimpl.
  exists (c' :: cs'). split_and!; [done|by constructor|].
  csimpl. pose proof (rz_avail _ _ _ _ Hr (ce i)). lia.
Qed.

End Loops.

(** A container whose children are replaced and whose size is set. *)
Lemma set_node t v cs t0 sx sy xo yo wp cs0 : is_dir t ->
  exists sx' sy', set_cells cs (set_lc_size t v (LC t0 sx sy xo yo wp cs0)) =
    LC t0 sx' sy' xo yo wp cs /\
  lc_size t (LC t0 sx' sy' xo yo wp cs) = v /\
  lc_size (flip_type t) (LC t0 sx' sy' xo yo wp cs) =
    lc_size (flip_type t) (LC t0 sx sy xo yo wp cs0).
Proof. intros [-> | ->]; do 2 eexists; split_and!; reflexivity. Qed.

Lemma node_resized_same t s n sx sy xo yo wp cs cs' :
  is_dir t -> s = 1 \/ s = -1 ->
  let lc := LC t sx sy xo yo wp cs in
  consistent lc -> fits lc -> lc_size t lc + n < 2147483648 ->
  moved t s cs cs' -> span t cs' = span t cs + n ->
  resized t n lc (set_cells cs' (set_lc_size t (lc_size t lc + n) lc)).
Proof using Henv.
  intros Hd Hs lc Hc Hf Hsz Hm Hsp.
  destruct (set_node t (lc_size t lc + n) cs' t sx sy xo yo wp cs Hd)
    as (sx' & sy' & E & E1 & E2).
  fold lc in E, E1, E2. rewrite E.
  inversion Hc as [|? ? ? ? ? ? ? _ Hne Hall Hspan Hcross]; subst; [by destruct Hd|].
  assert (Hc' : consistent (LC t sx' sy' xo yo wp cs')).
  { apply consistent_node; auto.
    - intros ->. apply moved_length in Hm. by destruct cs.
    - by eapply moved_consistent.
    - rewrite E1. unfold lc. lia.
    - rewrite E2. by eapply moved_cross. }
  assert (Hf' : fits (LC t sx' sy' xo yo wp cs')).
  { apply (fits_of_sizes t); [done|by rewrite E1|]. rewrite E2. by apply fits_size. }
  split; auto.
  - destruct Hd as [-> | ->]; csimpl; by rewrite (moved_leaves _ _ _ _ Hm).
  - csimpl. by rewrite (moved_height _ _ _ _ Hm).
  - intros e. unfold lc.
    rewrite !resize_check_sum' by done.
    rewrite (moved_length _ _ _ _ Hm).
    destruct (moved_avail t s (child_edge t (length cs) e) cs cs' Hm 0 Hs). lia.
  - intros e. unfold lc.
    pose proof (fun sx sy cs => resize_check_flip e sx sy xo yo wp cs (flip_type t)
                  ltac:(auto)) as Hr.
    rewrite (flip_flip t Hd) in Hr. rewrite !Hr, (moved_length _ _ _ _ Hm).
    by apply (moved_avail_flip t s _ _ cs cs').
Qed.

Lemma resized_list_moved t n cs cs' : Forall2 (resized t n) cs cs' ->
  moved t (if 0 <=? n then 1 else -1) cs cs'.
Proof.
  intros H; eapply Forall2_impl; [exact H|]. intros c c' Hr. exists n.
  split; [zcases; lia|done].
Qed.

Lemma resized_list_span_flip t n cs cs' : is_dir t -> Forall2 (resized t n) cs cs' ->
  span (flip_type t) cs' = span (flip_type t) cs.
Proof.
  intros Hd; induction 1 as [|? ? ? ? Hr _ IH]; [done|].
  rewrite !span_cons, IH. by rewrite (rz_cross _ _ _ _ Hr).
Qed.

Lemma resized_list_size t n v cs cs' : Forall2 (resized t n) cs cs' ->
  Forall (fun c => lc_size t c = v) cs -> Forall (fun c => lc_size t c = v + n) cs'.
Proof.
  induction 1 as [|? ? ? ? Hr _ IH]; [done|]. inversion 1; subst. constructor; auto.
  apply (rz_size _ _ _ _ Hr).
Qed.

Lemma node_resized_flip t n sx sy xo yo wp cs cs' :
  is_dir t ->
  let lc := LC (flip_type t) sx sy xo yo wp cs in
  consistent lc -> fits lc -> lc_size t lc + n < 2147483648 ->
  Forall2 (resized t n) cs cs' ->
  (forall ce i, avail_min ce t i cs + Z.min 0 n <= avail_min ce t i cs') ->
  resized t n lc (set_cells cs' (set_lc_size t (lc_size t lc + n) lc)).
Proof using Henv.
  intros Hd lc Hc Hf Hsz Hm Hav.
  destruct (set_node t (lc_size t lc + n) cs' (flip_type t) sx sy xo yo wp cs Hd)
    as (sx' & sy' & E & E1 & E2).
  fold lc in E, E1, E2. rewrite E.
  pose proof (resized_list_moved _ _ _ _ Hm) as Hmv.
  inversion Hc as [|? ? ? ? ? ? ? _ Hne Hall Hspan Hcross]; subst; [by destruct Hd; subst|].
  rewrite (flip_flip t Hd) in Hcross.
  assert (Hc' : consistent (LC (flip_type t) sx' sy' xo yo wp cs')).
  { apply consistent_node; auto.
    - intros ->. inversion Hm; by subst.
    - by eapply moved_consistent.
    - rewrite E2, (resized_list_span_flip t n cs cs'); auto.
    - rewrite (flip_flip t Hd), E1. by eapply resized_list_size. }
  assert (Hf' : fits (LC (flip_type t) sx' sy' xo yo wp cs')).
  { apply (fits_of_sizes t); [done|by rewrite E1|]. rewrite E2. by apply fits_size. }
  split; auto.
  - destruct Hd as [-> | ->]; csimpl; by rewrite (moved_leaves _ _ _ _ Hmv).
  - csimpl. by rewrite (moved_height _ _ _ _ Hmv).
  - intros e. unfold lc. rewrite !(resize_check_flip e _ _ _ _ _ _ t Hd).
    rewrite (moved_length _ _ _ _ Hmv). apply Hav.
  - intros e. unfold lc.
    rewrite !resize_check_sum' by auto.
    rewrite (moved_length _ _ _ _ Hmv).
    by apply (moved_avail_flip t (if 0 <=? n then 1 else -1) _ _ cs cs').
Qed.

Lemma resized_list_avail_min t n cs cs' : Forall2 (resized t n) cs cs' ->
  forall ce i, avail_min ce t i cs + Z.min 0 n <= avail_min ce t i cs'.
Proof.
  induction 1 as [|c c' cs cs' Hr _ IH]; intros ce i; csimpl; [lia|].
  pose proof (rz_avail _ _ _ _ Hr (ce i)). specialize (IH ce (S i)). lia.
Qed.

Lemma leaf_resized t n sx sy xo yo wp e :
  is_dir t -> let lc := LC LAYOUT_WINDOWPANE sx sy xo yo wp [] in
  consistent lc -> fits lc -> - layout_resize_check env e lc t <= n ->
  lc_size t lc + n < 2147483648 ->
  resized t n lc (set_cells [] (set_lc_size t (lc_size t lc + n) lc)).
Proof using Henv.
  intros Hd lc Hc Hf Hav Hsz.
  pose proof (resize_check_bounds lc Hc Hf e t Hd).
  destruct (set_node t (lc_size t lc + n) [] LAYOUT_WINDOWPANE sx sy xo yo wp [] Hd)
    as (sx' & sy' & E & E1 & E2).
  fold lc in E, E1, E2. rewrite E. pose proof (consistent_pos lc Hc (flip_type t)).
  split; auto.
  - rewrite <- E2 in *. destruct Hd as [-> | ->]; constructor;
      unfold lc_size, flip_type in *; csimpl in *; lia.
  - intros e'. unfold lc.
    destruct (resize_check_leaf e' sx sy xo yo wp [] t Hd) as (m & Hm & -> & ->).
    rewrite E1. unfold lc. lia.
  - intros e'. unfold lc in *.
    destruct (resize_check_leaf e' sx sy xo yo wp [] (flip_type t)) as (m & Hm & -> & ->);
      [auto|]. by rewrite E2.
Qed.

(** [layout_resize_adjust] returns and does what it promises, whenever the
    change is bounded by the space available, as its comment asks. *)
Lemma adjust_aux_ok t : is_dir t -> forall d,
  adj_ok t d (fun e c n => layout_resize_adjust_aux env d e c t n).
Proof using Henv.
  intros Hd. induction d as [|d IH]; intros e c n Hc Hf Hh Hav Hsz.
  { destruct c; csimpl in Hh; lia. }
  destruct c as [t0 sx sy xo yo wp cs]. csimpl in Hh.
  pose proof (resize_check_bounds _ Hc Hf e t Hd).
  assert (Hu : u32 (lc_size t (LC t0 sx sy xo yo wp cs) + n) =
               lc_size t (LC t0 sx sy xo yo wp cs) + n) by (apply u32_small; lia).
  cbn [layout_resize_adjust_aux]. rewrite Hu.
  rewrite (decide_False (P := t = LAYOUT_WINDOWPANE)) by (by destruct Hd; subst).
  assert (Htype : forall v, lc_type (set_lc_size t v (LC t0 sx sy xo yo wp cs)) = t0)
    by (intros; by destruct Hd; subst).
  assert (Hcells : forall v, lc_cells (set_lc_size t v (LC t0 sx sy xo yo wp cs)) = cs)
    by (intros; by destruct Hd; subst).
  rewrite !Htype, !Hcells.
  inversion Hc as [|? ? ? ? ? ? ? Hd0 Hne Hall Hspan Hcross]; subst.
  { rewrite decide_False by (by destruct Hd; subst). csimpl.
    eexists; split; [done|]. by eapply leaf_resized. }
  assert (Hg : Forall (fun c => consistent c /\ fits c /\ (lc_height c <= d)%nat) cs).
  { rewrite Forall_forall. intros c Hin. split_and!.
    - by eapply (consistent_child _ _ _ _ _ _ _ c t0 Hc).
    - by eapply child_fits.
    - clear -Hh Hin. assert (lc_height c <= foldr (fun c n => Nat.max (lc_height c) n) O cs)%nat.
      { induction Hin; csimpl in *; [lia|]. specialize (IHHin ltac:(lia)). lia. } lia. }
  destruct (dir_cases t0 t Hd0 Hd) as [-> | ->].
  - rewrite decide_True by done.
    set (s := if 0 <=? n then 1 else -1).
    assert (Hs : s = 1 \/ s = -1) by (subst s; zcases; auto).
    assert (Hsn : 0 <= s * n <= Z.of_nat (Z.to_nat (Z.abs n))) by (subst s; zcases; lia).
    rewrite resize_check_sum' in Hav by done.
    pose proof (fits_size t0 _ Hf).
    destruct (adjust_while_spec t0 Hd0 d
      (fun e c n => layout_resize_adjust_aux env d e c t0 n) IH
      (child_edge t0 (length cs) e) s Hs (Z.to_nat (Z.abs n)) cs n)
      as (cs' & -> & Hm & Hsp); auto; [lia|].
    csimpl. eexists; split; [done|]. by eapply (node_resized_same t0 s).
  - rewrite decide_False by (intros E; by apply (flip_ne t0 Hd0)).
    pose proof (resize_check_flip e sx sy xo yo wp cs (flip_type t0) Hd) as Hr.
    rewrite (flip_flip t0 Hd0) in Hr. rewrite Hr in Hav.
    set (s := if 0 <=? n then 1 else -1).
    destruct (adjust_all_spec (flip_type t0) d
      (fun e c n => layout_resize_adjust_aux env d e c (flip_type t0) n) IH
      (child_edge t0 (length cs) e) s n) with (cs := cs) (i := O)
      as (cs' & -> & Hm & _); auto.
    { subst s; zcases; auto. } { subst s; zcases; lia. }
    { eapply Forall_impl; [exact Hcross|]. csimpl; intros c ->. lia. }
    csimpl. eexists; split; [done|].
    pose proof (node_resized_flip (flip_type t0) n sx sy xo yo wp cs cs' Hd) as Hn.
    rewrite (flip_flip t0 Hd0) in Hn. apply Hn; auto.
    by apply resized_list_avail_min.
Qed.

Lemma layout_resize_adjust_ok e lc t change :
  is_dir t -> consistent lc -> fits lc ->
  - layout_resize_check env e lc t <= change -> lc_size t lc + change < 2147483648 ->
  exists lc', layout_resize_adjust env e lc t change = Some lc' /\ resized t change lc lc'.
Proof using Henv.
  intros Hd Hc Hf Hav Hsz. apply (adjust_aux_ok t Hd (lc_height lc)); auto.
Qed.

End Resize.

(** ** Cells at a path *)

Lemma cell_at_app root p q :
  cell_at root (p ++ q) = (c ← cell_at root p; cell_at c q).
Proof.
  revert root; induction p as [|i p IH]; intros root; csimpl; [done|].
  destruct (lc_cells root !! i); csimpl; [apply IH|done].
Qed.

Lemma cell_at_snoc root p i :
  cell_at root (p ++ [i]) = (c ← cell_at root p; lc_cells c !! i).
Proof.
  rewrite cell_at_app. destruct (cell_at root p) as [c|]; csimpl; [|done].
  by destruct (lc_cells c !! i).
Qed.

Lemma cell_update_app f root p q :
  cell_update f root (p ++ q) = cell_update (fun c => cell_update f c q) root p.
Proof.
  revert root; induction p as [|i p IH]; intros root; csimpl; [done|].
  destruct (lc_cells root !! i); [|done]. by rewrite IH.
Qed.

Lemma cell_at_update f root p c :
  cell_at root p = Some c -> cell_at (cell_update f root p) p = Some (f c).
Proof.
  revert root; induction p as [|i p IH]; intros root; csimpl; [congruence|].
  destruct (lc_cells root !! i) as [d|] eqn:E; [|done]. intros H.
  csimpl. rewrite list_lookup_insert_eq by (by eapply lookup_lt_Some). by apply IH.
Qed.

Lemma cell_update_update f g root p :
  cell_update g (cell_update f root p) p = cell_update (fun c => g (f c)) root p.
Proof.
  revert root; induction p as [|i p IH]; intros root; csimpl; [done|].
  destruct (lc_cells root !! i) as [d|] eqn:E; csimpl; [|by rewrite E].
  rewrite list_lookup_insert_eq by (by eapply lookup_lt_Some).
  unfold set_cells; csimpl. by rewrite list_insert_insert_eq, IH.
Qed.

Lemma cell_update_ext f g root p c :
  cell_at root p = Some c -> f c = g c -> cell_update f root p = cell_update g root p.
Proof.
  revert root; induction p as [|i p IH]; intros root; csimpl.
  { by intros [= ->]. }
  destruct (lc_cells root !! i) as [d|]; [|done]. intros; f_equal. f_equal. by apply IH.
Qed.

Lemma span_insert t cs i c c' : cs !! i = Some c ->
  span t (<[i:=c']> cs) = span t cs + lc_size t c' - lc_size t c.
Proof.
  revert i; induction cs as [|d cs IH]; intros [|i] H; csimpl in *; try done.
  - injection H as ->. rewrite !span_cons; lia.
  - rewrite !span_cons, IH by done. lia.
Qed.

Lemma span_delete t cs i c : cs !! i = Some c ->
  span t (delete i cs) = span t cs - (lc_size t c + 1).
Proof.
  intros H. rewrite (delete_take_drop cs i).
  assert (E : span t cs = span t (take i cs ++ c :: drop (S i) cs))
    by (by rewrite take_drop_middle).
  rewrite E, !span_app, span_cons. lia.
Qed.

Lemma span_two t cs i j c d : Forall consistent cs ->
  cs !! i = Some c -> cs !! j = Some d -> j <> i ->
  lc_size t c + 1 + (lc_size t d + 1) <= span t cs.
Proof.
  intros Hall Hi Hj Hij.
  pose proof (span_delete t cs i c Hi).
  assert (Hin : d ∈ delete i cs).
  { apply list_elem_of_lookup. destruct (decide (j < i)%nat).
    - exists j. by rewrite list_lookup_delete_lt.
    - exists (j - 1)%nat. rewrite list_lookup_delete_ge by lia.
      by replace (S (j - 1)) with j by lia. }
  assert (Hall' : Forall consistent (delete i cs)).
  { rewrite delete_take_drop. apply Forall_app.
    split; [by apply Forall_take | by apply Forall_drop]. }
  pose proof (span_elem t _ d Hall' Hin). lia.
Qed.

Definition same_size (c c' : layout_cell) : Prop :=
  lc_sx c' = lc_sx c /\ lc_sy c' = lc_sy c.

Lemma same_size_lc t c c' : same_size c c' -> lc_size t c' = lc_size t c.
Proof. intros [? ?]. unfold lc_size; by case_decide. Qed.

Lemma same_size_of t c c' : is_dir t -> lc_size t c' = lc_size t c ->
  lc_size (flip_type t) c' = lc_size (flip_type t) c -> same_size c c'.
Proof. by intros [-> | ->]. Qed.

(** Cells may be replaced by consistent ones of the same size. *)
Lemma consistent_insert t sx sy xo yo wp cs i c c' :
  consistent (LC t sx sy xo yo wp cs) -> cs !! i = Some c ->
  consistent c' -> same_size c c' -> consistent (LC t sx sy xo yo wp (<[i:=c']> cs)).
Proof.
  intros Hc Hi Hc' Hs.
  inversion Hc as [|? ? ? ? ? ? ? Hd Hne Hall Hspan Hcross]; subst; [done|].
  apply consistent_node; [done| | | |].
  - intros E. apply (f_equal length) in E. rewrite length_insert in E. by destruct cs.
  - by apply Forall_insert.
  - rewrite (span_insert t cs i c) by done. rewrite (same_size_lc t c c' Hs).
    unfold lc_size in *; csimpl in *; case_decide; lia.
  - apply Forall_insert; [done|]. rewrite (same_size_lc _ c c' Hs).
    rewrite Forall_forall in Hcross. by apply Hcross, list_elem_of_lookup_2 with i.
Qed.

Lemma consistent_update root p c c' :
  consistent root -> cell_at root p = Some c -> consistent c' -> same_size c c' ->
  consistent (cell_update (fun _ => c') root p) /\
  same_size root (cell_update (fun _ => c') root p).
Proof.
  revert root; induction p as [|i p IH]; intros root; csimpl.
  { by intros _ [= ->]. }
  destruct root as [t sx sy xo yo wp cs]; csimpl.
  intros Hc Hat Hc' Hs. destruct (cs !! i) as [d|] eqn:E; [|done].
  destruct (IH d) as [IH1 IH2]; auto.
  { by eapply (consistent_child _ _ _ _ _ _ _ d LAYOUT_LEFTRIGHT Hc);
      [by eapply list_elem_of_lookup_2|left]. }
  split; [|done]. by eapply consistent_insert.
Qed.

Lemma consistent_at root p c :
  consistent root -> cell_at root p = Some c -> consistent c.
Proof.
  revert root; induction p as [|i p IH]; intros root; csimpl; [congruence|].
  destruct root as [t sx sy xo yo wp cs]; csimpl. intros Hc.
  destruct (cs !! i) as [d|] eqn:E; [|done]. apply IH.
  by eapply (consistent_child _ _ _ _ _ _ _ d LAYOUT_LEFTRIGHT Hc);
    [by eapply list_elem_of_lookup_2|left].
Qed.

Lemma fits_at root p c : consistent root -> fits root -> cell_at root p = Some c -> fits c.
Proof.
  revert root; induction p as [|i p IH]; intros root; csimpl; [congruence|].
  destruct root as [t sx sy xo yo wp cs]; csimpl. intros Hc Hf.
  destruct (cs !! i) as [d|] eqn:E; [|done]. apply list_elem_of_lookup_2 in E.
  apply IH; [|by eapply child_fits].
  by eapply (consistent_child _ _ _ _ _ _ _ d LAYOUT_LEFTRIGHT Hc); [|left].
Qed.

Lemma leaves_node t sx sy xo yo wp cs : t <> LAYOUT_WINDOWPANE ->
  leaves (LC t sx sy xo yo wp cs) = flat_map leaves cs.
Proof. by destruct t. Qed.

Lemma flat_map_insert (cs : list layout_cell) i c : cs !! i = Some c ->
  exists l1 l2, flat_map leaves cs = l1 ++ leaves c ++ l2 /\
    (forall c', flat_map leaves (<[i:=c']> cs) = l1 ++ leaves c' ++ l2) /\
    flat_map leaves (delete i cs) = l1 ++ l2.
Proof.
  intros H. exists (flat_map leaves (take i cs)), (flat_map leaves (drop (S i) cs)).
  split_and!.
  - rewrite <- (take_drop_middle cs i c H) at 1. by rewrite flat_map_app.
  - intros c'. rewrite insert_take_drop by (by eapply lookup_lt_Some).
    by rewrite flat_map_app.
  - by rewrite delete_take_drop, flat_map_app.
Qed.

(** The leaves around the cell at a path stay where they are. *)
Lemma leaves_update root p c : consistent root -> cell_at root p = Some c ->
  exists l1 l2, leaves root = l1 ++ leaves c ++ l2 /\
    forall c', leaves (cell_update (fun _ => c') root p) = l1 ++ leaves c' ++ l2.
Proof.
  revert root; induction p as [|i p IH]; intros root; csimpl.
  { intros _ [= ->]. exists [], []. split; [by rewrite app_nil_r|].
    intros; by rewrite app_nil_r. }
  destruct root as [t sx sy xo yo wp cs]; csimpl. intros Hc.
  destruct (cs !! i) as [d|] eqn:E; [|done]. intros Hat.
  assert (t <> LAYOUT_WINDOWPANE).
  { intros ->. inversion Hc as [|? ? ? ? ? ? ? Hx]; subst; [done|by destruct Hx]. }
  destruct (IH d) as (m1 & m2 & E1 & E2); auto.
  { by eapply (consistent_child _ _ _ _ _ _ _ d LAYOUT_LEFTRIGHT Hc);
      [by eapply list_elem_of_lookup_2|left]. }
  destruct (flat_map_insert cs i d E) as (l1 & l2 & Hl & Hl' & _).
  exists (l1 ++ m1), (m2 ++ l2). split.
  - transitivity (flat_map leaves cs); [by destruct t|].
    rewrite Hl, E1. by rewrite <- !app_assoc.
  - intros c'. transitivity (flat_map leaves (<[i:=cell_update (fun _ => c') d p]> cs));
      [by destruct t|].
    by rewrite Hl', E2, <- !app_assoc.
Qed.

Lemma consistent_off x y c : consistent c -> consistent (set_off x y c).
Proof. inversion 1; subst; by constructor. Qed.

Lemma leaves_off x y c : leaves (set_off x y c) = leaves c.
Proof. by destruct c. Qed.

(** ** Offsets *)

Fixpoint placed (t : layout_type) (x y : Z) (cs : list layout_cell) : list layout_cell :=
  match cs with
  | [] => []
  | c :: cs =>
      layout_fix_offsets1 x y c ::
      placed t (if decide (t = LAYOUT_LEFTRIGHT) then s32 (x + (lc_sx c + 1)) else x)
               (if decide (t = LAYOUT_LEFTRIGHT) then y else s32 (y + (lc_sy c + 1))) cs
  end.

Lemma fix_offsets1_node t sx sy xo yo wp cs x y : is_dir t ->
  layout_fix_offsets1 x y (LC t sx sy xo yo wp cs) = LC t sx sy x y wp (placed t x y cs).
Proof.
  intros [-> | ->]; csimpl; f_equal.
  - revert x; induction cs as [|c cs IH]; intros x; csimpl; [done|]. f_equal. apply IH.
  - revert y; induction cs as [|c cs IH]; intros y; csimpl; [done|]. f_equal. apply IH.
Qed.

(** The tree but for its offsets. *)
Record same_tree (c c' : layout_cell) : Prop := SameTree {
  st_con : consistent c';
  st_size : same_size c c';
  st_leaves : leaves c' = leaves c;
  st_type : lc_type c' = lc_type c
}.

Lemma same_tree_list cs cs' t : Forall2 same_tree cs cs' ->
  Forall consistent cs' /\ span t cs' = span t cs /\
  flat_map leaves cs' = flat_map leaves cs /\
  forall v, Forall (fun c => lc_size t c = v) cs -> Forall (fun c => lc_size t c = v) cs'.
Proof.
  induction 1 as [|c c' cs cs' [Hc Hs Hl _] _ (IH1 & IH2 & IH3 & IH4)]; [done|].
  csimpl. rewrite !span_cons, IH2, IH3, Hl, (same_size_lc t c c' Hs). split_and!; auto.
  intros v; inversion 1; subst; constructor; auto. by apply same_size_lc.
Qed.

Lemma same_tree_node t sx sy xo yo wp cs x y cs' : is_dir t ->
  consistent (LC t sx sy xo yo wp cs) -> Forall2 same_tree cs cs' ->
  same_tree (LC t sx sy xo yo wp cs) (LC t sx sy x y wp cs').
Proof.
  intros Hd Hc Hst. inversion Hc as [|? ? ? ? ? ? ? _ Hne Hall Hspan Hcross]; subst;
    [by destruct Hd|].
  destruct (same_tree_list cs cs' t Hst) as (H1 & H2 & H3 & _).
  destruct (same_tree_list cs cs' (flip_type t) Hst) as (_ & _ & _ & H4).
  split; [|done| |done].
  - apply consistent_node; auto.
    + intros ->. inversion Hst; by subst.
    + rewrite H2, Hspan. by destruct Hd; subst.
  - by destruct Hd; subst.
Qed.

Lemma fix_offsets1_same lc : consistent lc -> forall x y,
  same_tree lc (layout_fix_offsets1 x y lc).
Proof.
  induction lc as [t sx sy xo yo wp cs IH] using layout_cell_ind'. intros Hc x y.
  inversion Hc as [|? ? ? ? ? ? ? Hd Hne Hall Hspan Hcross]; subst.
  { split; [by constructor|done..]. }
  rewrite fix_offsets1_node by done. apply same_tree_node; [done|done|].
  clear -IH Hall. revert x y.
  induction cs as [|c cs IHcs]; intros x y; csimpl; constructor.
  - apply Forall_inv in IH, Hall. auto.
  - apply Forall_inv_tail in IH, Hall. by apply IHcs.
Qed.

(** ** Moving space between two children *)

Lemma edge_at_sibling e f root pp i j : i <> j ->
  edge_at e (cell_update f root (pp ++ [i])) (pp ++ [j]) = edge_at e root (pp ++ [j]).
Proof.
  intros Hij. revert e root; induction pp as [|k pp IH]; intros e root; csimpl.
  - destruct (lc_cells root !! i) as [c|] eqn:E; [|done]. csimpl.
    rewrite list_lookup_insert_ne by done. by rewrite length_insert.
  - destruct (lc_cells root !! k) as [c|] eqn:E; csimpl; [|by rewrite E].
    rewrite list_lookup_insert_eq by (by eapply lookup_lt_Some).
    by rewrite length_insert, IH.
Qed.

Lemma cell_at_sibling f root pp i j : i <> j ->
  cell_at (cell_update f root (pp ++ [i])) (pp ++ [j]) = cell_at root (pp ++ [j]).
Proof.
  intros Hij. revert root; induction pp as [|k pp IH]; intros root; csimpl.
  - destruct (lc_cells root !! i) as [c|] eqn:E; [|done]. csimpl.
    by rewrite list_lookup_insert_ne.
  - destruct (lc_cells root !! k) as [c|] eqn:E; csimpl; [|by rewrite E].
    rewrite list_lookup_insert_eq by (by eapply lookup_lt_Some). by rewrite IH.
Qed.

Section Transfer.
Context (env : layout_env) (Henv : env_ok env).

Lemma transfer_children t sx sy xo yo wp cs i j c c' d d' n :
  is_dir t -> consistent (LC t sx sy xo yo wp cs) -> i <> j ->
  cs !! i = Some c -> cs !! j = Some d ->
  resized env t n c c' -> resized env t (- n) d d' ->
  consistent (LC t sx sy xo yo wp (<[j:=d']> (<[i:=c']> cs))) /\
  flat_map leaves (<[j:=d']> (<[i:=c']> cs)) = flat_map leaves cs.
Proof.
  intros Hd Hc Hij Hi Hj Hrc Hrd.
  assert (Hj' : <[i:=c']> cs !! j = Some d) by (by rewrite list_lookup_insert_ne).
  inversion Hc as [|? ? ? ? ? ? ? _ Hne Hall Hspan Hcross]; subst; [done|].
  split.
  - apply consistent_node; auto.
    + intros E. apply (f_equal length) in E. rewrite !length_insert in E. by destruct cs.
    + apply Forall_insert; [apply Forall_insert|]; eauto using rz_con.
    + rewrite (span_insert t _ j d), (span_insert t cs i c) by done.
      rewrite (rz_size _ _ _ _ _ Hrc), (rz_size _ _ _ _ _ Hrd).
      unfold lc_size in *; csimpl in *; case_decide; lia.
    + rewrite Forall_forall in Hcross.
      apply Forall_insert; [apply Forall_insert|]; try (by apply Forall_forall);
        rewrite ?(rz_cross _ _ _ _ _ Hrc), ?(rz_cross _ _ _ _ _ Hrd);
        apply Hcross; by eapply list_elem_of_lookup_2.
  - destruct (flat_map_insert _ j d Hj') as (l1 & l2 & E1 & E2 & _).
    rewrite E2, (rz_leaves _ _ _ _ _ Hrd), <- E1.
    destruct (flat_map_insert cs i c Hi) as (k1 & k2 & -> & -> & _).
    by rewrite (rz_leaves _ _ _ _ _ Hrc).
Qed.

(** One child grows by what another gives. *)
Lemma transfer_ok root pp q i j n c :
  consistent root -> fits root -> cell_at root pp = Some q -> is_dir (lc_type q) ->
  lc_cells q !! i = Some c -> i <> j ->
  0 < n <= child_avail env root pp (lc_type q) j ->
  exists r1 r2 q', adjust_at env edge_root root (pp ++ [i]) (lc_type q) n = Some r1 /\
    adjust_at env edge_root r1 (pp ++ [j]) (lc_type q) (- n) = Some r2 /\
    consistent r2 /\ same_size root r2 /\ leaves r2 = leaves root /\
    cell_at r2 pp = Some q' /\ lc_type q' = lc_type q /\
    length (lc_cells q') = length (lc_cells q).
Proof using Henv.
  intros Hc Hf Hq Hd Hi Hij Hn.
  pose proof (consistent_at _ _ _ Hc Hq) as Hqc.
  pose proof (fits_at _ _ _ Hc Hf Hq) as Hqf.
  destruct q as [t sx sy xo yo wp cs]. cbn [lc_type lc_cells] in *.
  unfold child_avail in Hn. rewrite cell_at_snoc, Hq in Hn. csimpl in Hn.
  destruct (cs !! j) as [d|] eqn:Hj; [|lia].
  pose proof (list_elem_of_lookup_2 _ _ _ Hi) as Hic.
  pose proof (list_elem_of_lookup_2 _ _ _ Hj) as Hjd.
  destruct (consistent_child _ _ _ _ _ _ _ c t Hqc Hic Hd) as [Hcc _].
  destruct (consistent_child _ _ _ _ _ _ _ d t Hqc Hjd Hd) as [Hdc _].
  pose proof (child_fits _ _ _ _ _ _ _ _ Hqc Hqf Hic) as Hcf.
  pose proof (child_fits _ _ _ _ _ _ _ _ Hqc Hqf Hjd) as Hdf.
  assert (Hsz : lc_size t c + 1 + (lc_size t d + 1) <= lc_size t (LC t sx sy xo yo wp cs) + 1).
  { inversion Hqc as [|? ? ? ? ? ? ? _ Hne Hall Hspan _]; subst; [done|].
    rewrite <- Hspan. by apply (span_two t cs i j). }
  pose proof (fits_size t _ Hqf).
  pose proof (resize_check_bounds env Henv d Hdc Hdf (edge_at edge_root root (pp ++ [j])) t Hd).
  pose proof (resize_check_bounds env Henv c Hcc Hcf (edge_at edge_root root (pp ++ [i])) t Hd).
  destruct (layout_resize_adjust_ok env Henv (edge_at edge_root root (pp ++ [i])) c t n)
    as (c' & Ec & Hrc); auto; [lia|lia|].
  destruct (layout_resize_adjust_ok env Henv (edge_at edge_root root (pp ++ [j])) d t (- n))
    as (d' & Ed & Hrd); auto; [lia|lia|].
  set (r1 := cell_update (fun _ => c') root (pp ++ [i])).
  exists r1, (cell_update (fun _ => d') r1 (pp ++ [j])),
    (LC t sx sy xo yo wp (<[j:=d']> (<[i:=c']> cs))).
  assert (E1 : adjust_at env edge_root root (pp ++ [i]) t n = Some r1).
  { unfold adjust_at. rewrite cell_at_snoc, Hq; csimpl. by rewrite Hi, Ec. }
  assert (E2 : adjust_at env edge_root r1 (pp ++ [j]) t (- n) =
               Some (cell_update (fun _ => d') r1 (pp ++ [j]))).
  { unfold adjust_at, r1. rewrite cell_at_sibling, edge_at_sibling by done.
    rewrite cell_at_snoc, Hq; csimpl. by rewrite Hj, Ed. }
  assert (E3 : cell_update (fun _ => d') r1 (pp ++ [j]) =
    cell_update (fun _ => LC t sx sy xo yo wp (<[j:=d']> (<[i:=c']> cs))) root pp).
  { unfold r1. rewrite !cell_update_app, cell_update_update.
    eapply cell_update_ext; [exact Hq|]. csimpl. rewrite Hi; csimpl.
    by rewrite list_lookup_insert_ne, Hj by done. }
  destruct (transfer_children t sx sy xo yo wp cs i j c c' d d' n) as [Hc' Hl]; auto.
  rewrite E3.
  destruct (consistent_update root pp _ _ Hc Hq Hc') as [Hc2 Hs2]; [done|].
  destruct (leaves_update root pp _ Hc Hq) as (m1 & m2 & Em1 & Em2).
  split_and!; auto.
  - by rewrite <- E3.
  - rewrite Em2, Em1. destruct Hd as [-> | ->]; csimpl; by rewrite Hl.
  - exact (cell_at_update _ _ _ _ Hq).
  - csimpl. by rewrite !length_insert.
Qed.

End Transfer.

(** A decision procedure for [consistent], for concrete layouts. *)
Fixpoint consistentb (lc : layout_cell) : bool :=
  match lc with
  | LC LAYOUT_WINDOWPANE sx sy _ _ _ cs =>
      (1 <=? sx) && (1 <=? sy) && match cs with [] => true | _ => false end
  | LC LAYOUT_FLOATING _ _ _ _ _ _ => false
  | LC t sx sy _ _ _ cs =>
      match cs with [] => false | _ => true end && forallb consistentb cs &&
      (span t cs =? (if decide (t = LAYOUT_LEFTRIGHT) then sx else sy) + 1) &&
      forallb (fun c => lc_size (flip_type t) c =?
                        (if decide (t = LAYOUT_LEFTRIGHT) then sy else sx)) cs
  end.

Lemma consistentb_sound lc : consistentb lc = true -> consistent lc.
Proof.
  induction lc as [t sx sy xo yo wp cs IH] using layout_cell_ind'.
  assert (Hnode : is_dir t -> consistentb (LC t sx sy xo yo wp cs) = true ->
                  consistent (LC t sx sy xo yo wp cs)).
  { intros Hd H. apply consistent_node; [done|..];
      (assert (H' : match cs with [] => false | _ => true end && forallb consistentb cs &&
        (span t cs =? lc_size t (LC t sx sy xo yo wp cs) + 1) &&
        forallb (fun c => lc_size (flip_type t) c =?
                  lc_size (flip_type t) (LC t sx sy xo yo wp cs)) cs = true)
        by (destruct Hd as [-> | ->]; exact H)); clear H;
      apply andb_prop in H' as [H' Hx]; apply andb_prop in H' as [H' Hs];
      apply andb_prop in H' as [Hn Hc].
    - by intros ->.
    - rewrite forallb_forall in Hc. rewrite Forall_forall in *. intros c Hin.
      apply IH; [done|]. by apply Hc, list_elem_of_In.
    - by apply Z.eqb_eq.
    - rewrite forallb_forall in Hx. rewrite Forall_forall. intros c Hin.
      by apply Z.eqb_eq, Hx, list_elem_of_In. }
  destruct t; intros H;
    [by apply Hnode; [left|]|by apply Hnode; [right|]|done|].
  csimpl in H. apply andb_prop in H as [H Hc]. apply andb_prop in H as [Hx Hy].
  destruct cs; [|done]. constructor; by apply Z.leb_le.
Qed.
