(* ===== verification/LayoutProps.v ===== *)
(** * Properties of the layout tree operations

    What the operations of [Layout] promise to the rest of the program. *)
From S2P Require Import Prelude.
From S2P Require Import Layout.
From S2P Require Import LayoutFacts.

Section Destroy.
Context (env : layout_env) (Henv : env_ok env).

Lemma destroy_index (cs : list layout_cell) i : (i < length cs)%nat -> (2 <= length cs)%nat ->
  exists c, cs !! (if Nat.eqb i 0 then 1%nat else (i - 1)%nat) = Some c /\
            (if Nat.eqb i 0 then 1%nat else (i - 1)%nat) <> i.
Proof.
  intros Hi Hl. destruct (Nat.eqb_spec i 0) as [->|Hne].
  - destruct (lookup_lt_is_Some_2 cs 1 ltac:(lia)) as [c Hc]. exists c; auto.
  - destruct (lookup_lt_is_Some_2 cs (i - 1) ltac:(lia)) as [c Hc]. exists c; split; [done|lia].
Qed.

(** The parent of a destroyed cell, once the neighbour [j] has taken the space. *)
Lemma destroy_children t sx sy xo yo wp cs i j c d d' :
  is_dir t -> consistent (LC t sx sy xo yo wp cs) ->
  cs !! i = Some c -> cs !! j = Some d -> i <> j ->
  resized env t (lc_size t c + 1) d d' ->
  consistent (LC t sx sy xo yo wp (delete i (<[j:=d']> cs))) /\
  exists l1 l2, flat_map leaves cs = l1 ++ leaves c ++ l2 /\
    flat_map leaves (delete i (<[j:=d']> cs)) = l1 ++ l2.
Proof.
  intros Hd Hc Hi Hj Hij Hr.
  assert (Hi' : <[j:=d']> cs !! i = Some c) by (by rewrite list_lookup_insert_ne).
  inversion Hc as [|? ? ? ? ? ? ? _ Hne Hall Hspan Hcross]; subst; [done|].
  split.
  - apply consistent_node; auto.
    + intros E. apply (f_equal length) in E.
      rewrite length_delete, length_insert in E by done.
      apply lookup_lt_Some in Hi. apply lookup_lt_Some in Hj. csimpl in E. lia.
    + rewrite delete_take_drop. apply Forall_app. split;
        [apply Forall_take | apply Forall_drop]; apply Forall_insert; auto;
        apply (rz_con _ _ _ _ _ Hr).
    + rewrite (span_delete t _ i c), (span_insert t cs j d) by done.
      rewrite (rz_size _ _ _ _ _ Hr). unfold lc_size in *; csimpl in *; case_decide; lia.
    + rewrite delete_take_drop. apply Forall_app. split;
        [apply Forall_take | apply Forall_drop]; apply Forall_insert; auto;
        rewrite (rz_cross _ _ _ _ _ Hr); rewrite Forall_forall in Hcross;
        apply Hcross; by eapply list_elem_of_lookup_2.
  - destruct (flat_map_insert _ i c Hi') as (l1 & l2 & E1 & _ & E2).
    exists l1, l2. split; [|done]. rewrite <- E1.
    destruct (flat_map_insert cs j d Hj) as (k1 & k2 & -> & -> & _).
    by rewrite (rz_leaves _ _ _ _ _ Hr).
Qed.

(** C2. [layout_destroy_cell] on a cell whose parent has another child: it
    returns a tree that is still consistent and fills the window exactly as
    before, and the panes left are those of the other cells, in their order.
    The neighbour takes the space and an emptied container disappears. *)
Theorem layout_destroy_cell_ok e0 root pp i q c :
  consistent root -> fits root ->
  cell_at root pp = Some q -> cell_at root (pp ++ [i]) = Some c ->
  (2 <= length (lc_cells q))%nat ->
  exists root', layout_destroy_cell env e0 root (pp ++ [i]) = Ok (Some root') /\
    consistent root' /\ lc_sx root' = lc_sx root /\ lc_sy root' = lc_sy root /\
    exists l1 l2, leaves root = l1 ++ leaves c ++ l2 /\ leaves root' = l1 ++ l2.
Proof using Henv.
  intros Hc Hf Hq Hci Hlen.
  pose proof (consistent_at _ _ _ Hc Hq) as Hqc.
  pose proof (fits_at _ _ _ Hc Hf Hq) as Hqf.
  rewrite cell_at_snoc, Hq in Hci; csimpl in Hci.
  destruct q as [t sx sy xo yo wp cs]; cbn [lc_cells] in *.
  assert (Hd : is_dir t) by (inversion Hqc; subst; [by csimpl in Hlen; lia|done]).
  destruct (destroy_index cs i) as (d & Hj & Hij); [by eapply lookup_lt_Some|done|].
  set (j := if Nat.eqb i 0 then 1%nat else (i - 1)%nat) in *.
  assert (Hdin : d ∈ cs) by (by eapply list_elem_of_lookup_2).
  assert (Hdc : consistent d) by (by eapply (consistent_child _ _ _ _ _ _ _ d t Hqc)).
  assert (Hsz : lc_size t c + 1 + (lc_size t d + 1) <= lc_size t (LC t sx sy xo yo wp cs) + 1).
  { inversion Hqc as [|? ? ? ? ? ? ? _ Hne Hall Hspan _]; subst; [done|].
    rewrite <- Hspan. by apply (span_two t cs i j). }
  pose proof (fits_size t _ Hqf). pose proof (consistent_pos d Hdc t).
  assert (Hcc : consistent c) by (by eapply (consistent_child _ _ _ _ _ _ _ c t Hqc);
    [eapply list_elem_of_lookup_2|]).
  pose proof (consistent_pos c Hcc t).
  assert (Hdf : fits d) by (by eapply child_fits).
  destruct (layout_resize_adjust_ok env Henv (edge_at e0 root (pp ++ [j])) d t (lc_size t c + 1))
    as (d' & Hadj & Hr); auto; [|lia|].
  { pose proof (resize_check_bounds env Henv d Hdc Hdf (edge_at e0 root (pp ++ [j])) t Hd). lia. }
  unfold layout_destroy_cell.
  rewrite last_snoc, cell_at_snoc.
  replace (take (length (pp ++ [i]) - 1) (pp ++ [i])) with pp
    by (rewrite length_app, take_app_le by (csimpl; lia); rewrite take_ge; [done|csimpl; lia]).
  rewrite Hq. csimpl. rewrite Hci. rewrite decide_False by (by destruct Hd; subst).
  replace (s32 (if decide (t = LAYOUT_LEFTRIGHT) then lc_sx c + 1 else lc_sy c + 1))
    with (lc_size t c + 1) by (unfold lc_size in *; case_decide; rewrite s32_small; lia).
  fold j. unfold adjust_at. rewrite cell_at_snoc, Hq. csimpl. rewrite Hj, Hadj. csimpl.
  destruct (destroy_children t sx sy xo yo wp cs i j c d d') as (Hq2 & l1 & l2 & El1 & El2);
    auto.
  set (q2 := LC t sx sy xo yo wp (delete i (<[j:=d']> cs))) in *.
  assert (E2 : cell_update (fun q => set_cells (delete i (lc_cells q)) q)
                 (cell_update (fun _ => d') root (pp ++ [j])) pp =
               cell_update (fun _ => q2) root pp).
  { rewrite cell_update_app, cell_update_update. eapply cell_update_ext; [exact Hq|].
    csimpl. by rewrite Hj. }
  rewrite E2, (cell_at_update _ _ _ _ Hq).
  destruct (leaves_update root pp _ Hc Hq) as (m1 & m2 & Em1 & Em2).
  assert (Hleaves : forall r, leaves r = flat_map leaves (delete i (<[j:=d']> cs)) ->
    exists l1 l2, leaves root = l1 ++ leaves c ++ l2 /\ m1 ++ leaves r ++ m2 = l1 ++ l2).
  { intros r ->. exists (m1 ++ l1), (l2 ++ m2). rewrite Em1, leaves_node, El1, El2
      by (by destruct Hd; subst). by rewrite <- !app_assoc. }
  destruct (consistent_update root pp _ q2 Hc Hq Hq2) as [Hc2 [Hs2x Hs2y]]; [done|].
  assert (Hkeep : exists root', Ok (Some (cell_update (fun _ => q2) root pp)) =
      (Ok (Some root') : res (option layout_cell)) /\
      consistent root' /\ lc_sx root' = lc_sx root /\ lc_sy root' = lc_sy root /\
      exists l1 l2, leaves root = l1 ++ leaves c ++ l2 /\ leaves root' = l1 ++ l2).
  { eexists; split_and!; try done. rewrite Em2. apply Hleaves. by apply leaves_node;
      destruct Hd; subst. }
  subst q2. destruct (delete i (<[j:=d']> cs)) as [|x [|y l]] eqn:Edel; try exact Hkeep.
  clear Hkeep. inversion Hq2 as [|? ? ? ? ? ? ? _ _ Hx Hspx Hcrx]; subst.
  assert (Hxs : same_size (LC t sx sy xo yo wp cs) x).
  { apply (same_size_of t); [done| |].
    - unfold span in Hspx; csimpl in Hspx.
      change (lc_size t (LC t sx sy xo yo wp cs)) with (lc_size t (LC t sx sy xo yo wp [x])).
      lia.
    - by apply Forall_inv in Hcrx. }
  apply Forall_inv in Hx.
  destruct (consistent_update root pp _ x Hc Hq Hx Hxs)
    as [Hc3 [Hs3x Hs3y]].
  assert (Hlx : leaves x = flat_map leaves [x]) by (csimpl; by rewrite app_nil_r).
  destruct (Hleaves x Hlx) as (n1 & n2 & En1 & En2).
  assert (Hfin : forall r, consistent r -> same_size root r -> leaves r = m1 ++ leaves x ++ m2 ->
    exists root', Ok (Some r) = (Ok (Some root') : res (option layout_cell)) /\
      consistent root' /\ lc_sx root' = lc_sx root /\ lc_sy root' = lc_sy root /\
      exists l1 l2, leaves root = l1 ++ leaves c ++ l2 /\ leaves root' = l1 ++ l2).
  { intros r Hrc [] Hrl. exists r. split_and!; try done.
    exists n1, n2. split; [done|]. congruence. }
  destruct pp as [|k pp];
    [|rewrite cell_update_update; apply Hfin; [done|by split|apply Em2]].
  apply Hfin; [by apply consistent_off|by split|].
  rewrite leaves_off. apply (Em2 x).
Qed.

End Destroy.

Section ResizeWindow.
Context (env : layout_env) (Henv : env_ok env).

Lemma resize_dir t root sz : is_dir t -> consistent root -> fits root ->
  1 <= sz < 2147483648 ->
  let limit := layout_resize_check env edge_root root t in
  let change := layout_resize_change (s32 limit) sz (lc_size t root) in
  exists root', (if change =? 0 then Some root
                 else layout_resize_adjust env edge_root root t change) = Some root' /\
    resized env t (Z.max sz (lc_size t root - limit) - lc_size t root) root root' /\
    fits root'.
Proof using Henv.
  intros Hd Hc Hf Hsz limit change.
  pose proof (resize_check_bounds env Henv root Hc Hf edge_root t Hd) as Hb.
  pose proof (fits_size t root Hf). fold limit in Hb.
  assert (Hch : change = Z.max sz (lc_size t root - limit) - lc_size t root).
  { unfold change, layout_resize_change. rewrite (s32_small limit) by lia.
    rewrite s32_small by lia.
    destruct (Z.ltb_spec (sz - lc_size t root) 0);
      destruct (Z.ltb_spec (sz - lc_size t root) (- limit));
      destruct (Z.eqb_spec limit 0); destruct (Z.leb_spec sz (lc_size t root));
      csimpl; lia. }
  rewrite Hch. destruct (Z.eqb_spec (Z.max sz (lc_size t root - limit) - lc_size t root) 0)
    as [->|Hne].
  { exists root. split_and!; [done|by apply resized_refl|done]. }
  destruct (layout_resize_adjust_ok env Henv edge_root root t
    (Z.max sz (lc_size t root - limit) - lc_size t root) Hd Hc Hf) as (r & E & Hr);
    [fold limit; lia|lia|].
  exists r. split_and!; [done|done|].
  apply (fits_of_sizes t); [done|rewrite (rz_size _ _ _ _ _ Hr); lia|].
  rewrite (rz_cross _ _ _ _ _ Hr). by apply fits_size.
Qed.

(** C21. Resizing a window's layout always returns; the layout it gives is
    consistent, holds the same panes, and is exactly as large as the window in
    each direction unless the window is below what the panes need, in which
    case the layout keeps exactly its minimum (its size less all the space it
    can give). *)
Theorem layout_resize_ok root sx sy :
  consistent root -> fits root -> 1 <= sx < 2147483648 -> 1 <= sy < 2147483648 ->
  exists root', layout_resize env root sx sy = Some root' /\
    consistent root' /\ leaves root' = leaves root /\
    lc_sx root' = Z.max sx (lc_sx root -
                    layout_resize_check env edge_root root LAYOUT_LEFTRIGHT) /\
    lc_sy root' = Z.max sy (lc_sy root -
                    layout_resize_check env edge_root root LAYOUT_TOPBOTTOM) /\
    lc_xoff root' = 0 /\ lc_yoff root' = 0.
Proof using Henv.
  intros Hc Hf Hx Hy.
  destruct (resize_dir LAYOUT_LEFTRIGHT root sx) as (r1 & E1 & H1 & Hf1); auto; [by left|].
  pose proof (rz_con _ _ _ _ _ H1) as Hc1.
  destruct (resize_dir LAYOUT_TOPBOTTOM r1 sy) as (r2 & E2 & H2 & Hf2); auto; [by right|].
  unfold layout_resize. change (lc_sx root) with (lc_size LAYOUT_LEFTRIGHT root).
  rewrite E1. csimpl. change (lc_sy r1) with (lc_size LAYOUT_TOPBOTTOM r1). rewrite E2.
  csimpl. eexists; split; [done|].
  pose proof (rz_size _ _ _ _ _ H1). pose proof (rz_size _ _ _ _ _ H2).
  pose proof (rz_cross _ _ _ _ _ H1) as Hcr1. pose proof (rz_cross _ _ _ _ _ H2) as Hcr2.
  pose proof (rz_avail_flip _ _ _ _ _ H1 edge_root) as Hav.
  destruct (fix_offsets1_same r2 (rz_con _ _ _ _ _ H2) 0 0) as [Hc3 [Hsx Hsy] Hl _].
  unfold layout_fix_offsets.
  unfold flip_type, lc_size in *; csimpl in *. rewrite Hsx, Hsy, Hl.
  split_and!; try done; try (rewrite ?Hcr2, ?Hcr1, ?Hav in *; lia);
    try (by destruct r2).
  by rewrite (rz_leaves _ _ _ _ _ H2), (rz_leaves _ _ _ _ _ H1).
Qed.
End ResizeWindow.

(** ** The panes tile the window *)

(** The rectangles of the leaves. *)
Fixpoint rects (lc : layout_cell) : list (Z * Z * Z * Z) :=
  match lc with
  | LC LAYOUT_WINDOWPANE sx sy xo yo _ _ => [(xo, yo, sx, sy)]
  | LC _ _ _ _ _ _ cs => flat_map rects cs
  end.

(** At least one column or one line, the border, runs between the two. *)
Definition separated (a b : Z * Z * Z * Z) : Prop :=
  let '(x1, y1, w1, h1) := a in
  let '(x2, y2, w2, h2) := b in
  x1 + w1 < x2 \/ x2 + w2 < x1 \/ y1 + h1 < y2 \/ y2 + h2 < y1.

Definition within (x y w h : Z) (a : Z * Z * Z * Z) : Prop :=
  let '(x1, y1, w1, h1) := a in
  x <= x1 /\ y <= y1 /\ x1 + w1 <= x + w /\ y1 + h1 <= y + h /\ 1 <= w1 /\ 1 <= h1.

Lemma pairs_app {A} (R : A -> A -> Prop) l1 l2 :
  ForallOrdPairs R l1 -> ForallOrdPairs R l2 ->
  (forall a b, a ∈ l1 -> b ∈ l2 -> R a b) -> ForallOrdPairs R (l1 ++ l2).
Proof.
  induction 1 as [|a l1 Ha _ IH]; intros H2 H; csimpl; [done|].
  constructor.
  - apply Forall_app. split; [done|]. rewrite Forall_forall. intros b Hb.
    apply H; [by left|done].
  - apply IH; [done|]. intros a' b Ha' Hb. apply H; [by right|done].
Qed.

Lemma rects_leaves lc : length (rects lc) = length (leaves lc).
Proof.
  induction lc as [t sx sy xo yo wp cs IH] using layout_cell_ind'.
  assert (length (flat_map rects cs) = length (flat_map leaves cs)).
  { induction IH as [|c cs Hc _ IH]; csimpl; [done|]. rewrite !length_app; lia. }
  by destruct t.
Qed.

Section Tiling.

Let tiled (x y : Z) (lc : layout_cell) : Prop :=
  Forall (within x y (lc_sx lc) (lc_sy lc)) (rects (layout_fix_offsets1 x y lc)) /\
  ForallOrdPairs separated (rects (layout_fix_offsets1 x y lc)).

Lemma placed_tiled_h cs w h : forall x y,
  0 <= x -> 0 <= y -> x + span LAYOUT_LEFTRIGHT cs <= x + w + 1 -> x + w < 2147483647 ->
  Forall consistent cs -> Forall (fun c => lc_sy c = h) cs ->
  y + h < 2147483647 ->
  Forall (fun c => forall x y, 0 <= x -> 0 <= y -> x + lc_sx c < 2147483647 ->
                               y + lc_sy c < 2147483647 -> tiled x y c) cs ->
  Forall (within x y w h) (flat_map rects (placed LAYOUT_LEFTRIGHT x y cs)) /\
  ForallOrdPairs separated (flat_map rects (placed LAYOUT_LEFTRIGHT x y cs)).
Proof.
  revert w; induction cs as [|c cs IH]; intros w x y Hx Hy Hspan Hw Hc Hh Hyh Ht; csimpl.
  { split; constructor. }
  inversion Hc as [|? ? Hcc Hc']; inversion Hh as [|? ? Hhc Hh']; inversion Ht as [|? ? Htc Ht'];
    subst. rewrite span_cons in Hspan.
  pose proof (consistent_pos c Hcc LAYOUT_LEFTRIGHT). unfold lc_size in *; csimpl in *.
  pose proof (span_nonneg LAYOUT_LEFTRIGHT cs Hc').
  destruct (Htc x y) as [H1 H2]; [lia..|]. rewrite s32_small by lia.
  destruct (IH (w - (lc_sx c + 1)) (x + (lc_sx c + 1)) y) as [H3 H4]; auto; [lia..|].
  split.
  - apply Forall_app; split.
    + eapply Forall_impl; [exact H1|]. intros [[[? ?] ?] ?]; unfold within; lia.
    + eapply Forall_impl; [exact H3|]. intros [[[? ?] ?] ?]; unfold within; lia.
  - apply pairs_app; auto. intros a b Ha Hb.
    rewrite Forall_forall in H1, H3. specialize (H1 a Ha). specialize (H3 b Hb).
    destruct a as [[[? ?] ?] ?], b as [[[? ?] ?] ?]; unfold within, separated in *; lia.
Qed.
Lemma placed_tiled_v cs w h : forall x y,
  0 <= x -> 0 <= y -> y + span LAYOUT_TOPBOTTOM cs <= y + h + 1 -> y + h < 2147483647 ->
  Forall consistent cs -> Forall (fun c => lc_sx c = w) cs ->
  x + w < 2147483647 ->
  Forall (fun c => forall x y, 0 <= x -> 0 <= y -> x + lc_sx c < 2147483647 ->
                               y + lc_sy c < 2147483647 -> tiled x y c) cs ->
  Forall (within x y w h) (flat_map rects (placed LAYOUT_TOPBOTTOM x y cs)) /\
  ForallOrdPairs separated (flat_map rects (placed LAYOUT_TOPBOTTOM x y cs)).
Proof.
  revert h; induction cs as [|c cs IH]; intros h x y Hx Hy Hspan Hw Hc Hh Hyh Ht; csimpl.
  { split; constructor. }
  inversion Hc as [|? ? Hcc Hc']; inversion Hh as [|? ? Hhc Hh']; inversion Ht as [|? ? Htc Ht'];
    subst. rewrite span_cons in Hspan.
  pose proof (consistent_pos c Hcc LAYOUT_TOPBOTTOM). unfold lc_size in *; csimpl in *.
  pose proof (span_nonneg LAYOUT_TOPBOTTOM cs Hc').
  destruct (Htc x y) as [H1 H2]; [lia..|]. rewrite s32_small by lia.
  destruct (IH (h - (lc_sy c + 1)) x (y + (lc_sy c + 1))) as [H3 H4]; auto; [lia..|].
  split.
  - apply Forall_app; split.
    + eapply Forall_impl; [exact H1|]. intros [[[? ?] ?] ?]; unfold within; lia.
    + eapply Forall_impl; [exact H3|]. intros [[[? ?] ?] ?]; unfold within; lia.
  - apply pairs_app; auto. intros a b Ha Hb.
    rewrite Forall_forall in H1, H3. specialize (H1 a Ha). specialize (H3 b Hb).
    destruct a as [[[? ?] ?] ?], b as [[[? ?] ?] ?]; unfold within, separated in *; lia.
Qed.

Lemma fix_offsets1_tiled lc : consistent lc -> forall x y, 0 <= x -> 0 <= y ->
  x + lc_sx lc < 2147483647 -> y + lc_sy lc < 2147483647 -> tiled x y lc.
Proof.
  induction lc as [t sx sy xo yo wp cs IH] using layout_cell_ind'.
  intros Hc x y Hx Hy Hsx Hsy. csimpl in *.
  inversion Hc as [|? ? ? ? ? ? ? Hd Hne Hall Hspan Hcross]; subst.
  { unfold tiled; csimpl. split; [|by repeat constructor].
    constructor; [|constructor]. unfold within; lia. }
  assert (Ht : Forall (fun c => forall x y, 0 <= x -> 0 <= y ->
            x + lc_sx c < 2147483647 -> y + lc_sy c < 2147483647 -> tiled x y c) cs).
  { rewrite Forall_forall in *. intros c Hin. apply IH; auto. }
  unfold tiled. rewrite fix_offsets1_node by done.
  destruct Hd as [-> | ->]; csimpl; unfold lc_size, flip_type in *; csimpl in *.
  - by apply placed_tiled_h; try lia.
  - by apply placed_tiled_v; try lia.
Qed.

(** C22. After [layout_fix_offsets] the panes of a consistent layout tile the
    window: every pane lies inside it, with at least one column and one line,
    and between any two panes there is a border column or line. *)
Theorem layout_fix_offsets_tiles root :
  consistent root -> lc_sx root < 2147483647 -> lc_sy root < 2147483647 ->
  Forall (within 0 0 (lc_sx root) (lc_sy root)) (rects (layout_fix_offsets root)) /\
  ForallOrdPairs separated (rects (layout_fix_offsets root)) /\
  length (rects (layout_fix_offsets root)) = length (leaves root).
Proof.
  intros Hc Hx Hy. destruct (fix_offsets1_tiled root Hc 0 0) as [H1 H2]; [lia..|].
  split_and!; [done|done|].
  rewrite <- (st_leaves _ _ (fix_offsets1_same root Hc 0 0)). apply rects_leaves.
Qed.

End Tiling.

(** ** Resizing a pane *)

Section ResizePane.
Context (env : layout_env) (Henv : env_ok env).

Lemma first_avail_some avail l j size :
  first_avail avail l = Some (j, size) -> j ∈ l /\ size = avail j /\ 0 < size.
Proof.
  induction l as [|i l IH]; csimpl; [done|].
  destruct (Z.ltb_spec 0 (avail i)).
  - intros [= -> <-]. split_and!; [by left|done|done].
  - intros Hf. destruct (IH Hf) as (? & ? & ?). split_and!; [by right|done..].
Qed.

(** What each round of the resize keeps: the window is still filled, no pane
    is lost, and the children of [pp] are as many. *)
Definition kept (pp : list nat) (type : layout_type) (n : nat)
    (root root' : layout_cell) : Prop :=
  consistent root' /\ same_size root root' /\ leaves root' = leaves root /\
  exists q, cell_at root' pp = Some q /\ lc_type q = type /\ length (lc_cells q) = n.

Definition at_node (pp : list nat) (type : layout_type) (n : nat) (root : layout_cell) : Prop :=
  consistent root /\ fits root /\
  exists q, cell_at root pp = Some q /\ lc_type q = type /\ length (lc_cells q) = n.

Lemma at_node_kept pp type n root root' :
  at_node pp type n root -> kept pp type n root root' -> at_node pp type n root'.
Proof.
  intros (_ & Hf & _) (Hc & [Hx Hy] & _ & Hq). split_and!; auto.
  destruct Hf. split; congruence.
Qed.

Lemma kept_refl pp type n root : at_node pp type n root -> kept pp type n root root.
Proof. by intros (? & ? & ?). Qed.

Lemma kept_trans pp type n r1 r2 r3 :
  kept pp type n r1 r2 -> kept pp type n r2 r3 -> kept pp type n r1 r3.
Proof.
  intros (_ & [? ?] & Hl & _) (Hc & [? ?] & Hl' & Hq).
  split_and!; auto; [split|]; congruence.
Qed.

(** Both helpers come down to moving [size] from [j] to [i]. *)
Lemma transfer_kept root pp type n i j size :
  is_dir type -> at_node pp type n root -> (i < n)%nat -> i <> j ->
  0 < size <= child_avail env root pp type j ->
  exists r1 r2, adjust_at env edge_root root (pp ++ [i]) type size = Some r1 /\
    adjust_at env edge_root r1 (pp ++ [j]) type (- size) = Some r2 /\
    kept pp type n root r2.
Proof using Henv.
  intros Hd (Hc & Hf & q & Hq & <- & <-) Hi Hij Hs.
  apply lookup_lt_is_Some_2 in Hi as [c Hi].
  destruct (transfer_ok env Henv root pp q i j size c) as (r1 & r2 & q' & E1 & E2 & H);
    auto.
  exists r1, r2. split; [done|]. split; [done|].
  destruct H as (? & ? & ? & ?). split_and!; eauto.
Qed.

Lemma grow_ok root pp type n i needed opposite :
  is_dir type -> at_node pp type n root -> (i < n)%nat -> 0 < needed < 2147483648 ->
  exists size root', layout_resize_pane_grow env root pp n i type needed opposite =
      Some (size, root') /\
    0 <= size <= needed /\ kept pp type n root root'.
Proof using Henv.
  intros Hd Hn Hi Hneed. unfold layout_resize_pane_grow.
  set (found := match first_avail _ _ with Some _ => _ | None => _ end).
  assert (Hfound : forall j size, found = Some (j, size) ->
    j <> i /\ size = child_avail env root pp type j /\ 0 < size).
  { intros j size. subst found.
    destruct (first_avail _ (seq _ _)) as [[j0 s0]|] eqn:E1.
    - intros [= -> ->]. apply first_avail_some in E1 as (Hin & -> & ?).
      apply elem_of_seq in Hin. split_and!; [lia|done|done].
    - destruct opposite; [|done]. intros E2.
      apply first_avail_some in E2 as (Hin & -> & ?).
      rewrite list_elem_of_In, <- in_rev, <- list_elem_of_In, elem_of_seq in Hin. split_and!; [lia|done|done]. }
  destruct found as [[j size]|].
  - destruct (Hfound j size eq_refl) as (Hji & Hsz & Hpos).
    set (m := if u32 needed <? size then needed else size).
    assert (Hm : 0 < m <= needed /\ m <= size)
      by (subst m; rewrite u32_small by lia; zcases; lia).
    destruct (transfer_kept root pp type n i j m) as (r1 & r2 & -> & E2 & Hk); auto; [lia|].
    csimpl. rewrite E2; csimpl. exists m, r2. split_and!; [done|lia|lia|done..].
  - exists 0, root. split_and!; [done|lia|lia|..]; by apply kept_refl.
Qed.

Lemma shrink_ok root pp type n i needed :
  is_dir type -> at_node pp type n root -> (i < n)%nat -> -2147483648 < needed < 0 ->
  exists size root', layout_resize_pane_shrink env root pp n i type needed =
      Some (size, root') /\
    0 <= size <= - needed /\ kept pp type n root root'.
Proof using Henv.
  intros Hd Hn Hi Hneed. unfold layout_resize_pane_shrink.
  destruct (first_avail _ _) as [[j size]|] eqn:E1; cycle 1.
  { exists 0, root. split_and!; [done|lia|lia|..]; by apply kept_refl. }
  destruct (Nat.leb_spec n (S i)).
  { exists 0, root. split_and!; [done|lia|lia|..]; by apply kept_refl. }
  apply first_avail_some in E1 as (Hin & Hsz & Hpos).
  rewrite list_elem_of_In, <- in_rev, <- list_elem_of_In, elem_of_seq in Hin.
  set (m := if u32 (- needed) <? size then - needed else size).
  assert (Hm : 0 < m <= - needed /\ m <= size)
    by (subst m; rewrite u32_small by lia; zcases; lia).
  destruct (transfer_kept root pp type n (S i) j m) as (r1 & r2 & -> & E2 & Hk);
    auto; [lia|lia|].
  csimpl. rewrite E2; csimpl. exists m, r2. split_and!; [done|lia|lia|done..].
Qed.

Lemma resize_layout_loop_ok type pp n i change opposite : is_dir type -> (i < n)%nat ->
  forall k root needed, at_node pp type n root ->
  -2147483648 < needed < 2147483648 -> (0 < change -> 0 <= needed <= Z.of_nat k) ->
  (change <= 0 -> - Z.of_nat k <= needed <= 0) ->
  exists root', resize_layout_loop env k root pp n i type change needed opposite =
    Some root' /\ kept pp type n root root'.
Proof using Henv.
  intros Hd Hi. induction k as [|k IH]; intros root needed Hn Hb Hpos Hneg; csimpl;
    (destruct (Z.eqb_spec needed 0) as [->|Hnz]; [exists root; split; [done|by apply kept_refl]|]).
  { lia. }
  destruct (Z.ltb_spec 0 change) as [Hch|Hch].
  - destruct (grow_ok root pp type n i needed opposite) as (size & r1 & -> & Hs & Hk);
      auto; [lia|]. csimpl.
    destruct (Z.eqb_spec size 0); [by exists r1|].
    destruct (IH r1 (needed - size)) as (r2 & E & Hk2);
      [by eapply at_node_kept|lia|lia|lia|].
    exists r2. split; [done|by eapply kept_trans].
  - destruct (shrink_ok root pp type n i needed) as (size & r1 & -> & Hs & Hk);
      auto; [lia|]. csimpl.
    destruct (Z.eqb_spec size 0); [by exists r1|].
    destruct (IH r1 (needed + size)) as (r2 & E & Hk2);
      [by eapply at_node_kept|lia|lia|lia|].
    exists r2. split; [done|by eapply kept_trans].
Qed.

Lemma find_parent_some root p type pp i : find_parent root p type = Some (pp, i) ->
  exists q, cell_at root pp = Some q /\ lc_type q = type /\ (i < length (lc_cells q))%nat.
Proof.
  revert root pp; induction p as [|k p IH]; intros root pp; csimpl; [done|].
  destruct (lc_cells root !! k) as [c|] eqn:E; [|done].
  destruct (find_parent c p type) as [[pp' j]|] eqn:Ef.
  - intros [= <- <-]. destruct (IH c pp' Ef) as (q & H1 & H2 & H3).
    exists q. csimpl. by rewrite E.
  - case_decide; [|done]. intros [= <- <-]. exists root. csimpl.
    split_and!; [done|done|by eapply lookup_lt_Some].
Qed.

(** C27. [layout_resize_pane] returns for every pane, direction and amount, and
    only moves space between the cells: the layout still fills the window, is
    consistent and holds the same panes.  (Its loop ends because every round
    but the last moves at least one column or line.) *)
Theorem layout_resize_pane_ok root p type change opposite :
  is_dir type -> consistent root -> fits root ->
  -2147483648 < change < 2147483648 ->
  (forall pp i q, find_parent root p type = Some (pp, i) -> cell_at root pp = Some q ->
                  (2 <= length (lc_cells q))%nat) ->
  exists root', layout_resize_pane env root p type change opposite = Some root' /\
    consistent root' /\ lc_sx root' = lc_sx root /\ lc_sy root' = lc_sy root /\
    leaves root' = leaves root.
Proof using Henv.
  intros Hd Hc Hf Hch Hlen. unfold layout_resize_pane.
  destruct (find_parent root p type) as [[pp i]|] eqn:Ef; [|by exists root].
  destruct (find_parent_some _ _ _ _ _ Ef) as (q & Hq & Ht & Hi). rewrite Hq.
  specialize (Hlen pp i q eq_refl Hq).
  assert (Hl : forall i, (i < length (lc_cells q))%nat ->
    exists root', layout_resize_layout env root pp i type change opposite = Some root' /\
      consistent root' /\ lc_sx root' = lc_sx root /\ lc_sy root' = lc_sy root /\
      leaves root' = leaves root).
  { intros i' Hi'. unfold layout_resize_layout. rewrite Hq.
    destruct (resize_layout_loop_ok type pp (length (lc_cells q)) i' change opposite Hd Hi'
      (Z.to_nat (Z.abs change)) root change) as (r & -> & Hrc & [Hx Hy] & Hrl & _);
      [by split_and!; eauto|lia|lia|lia|].
    csimpl. eexists; split; [done|].
    destruct (fix_offsets1_same r Hrc 0 0) as [H1 [H2 H3] H4 _].
    unfold layout_fix_offsets. split_and!; congruence. }
  destruct (Nat.eqb_spec (S i) (length (lc_cells q))); [|by apply Hl].
  destruct i as [|i]; [lia|]. apply Hl. lia.
Qed.

End ResizePane.

(** ** Splitting a pane *)

Section Split.
Context (env : layout_env).

(** The space [layout_split_pane] asks for (its comment: "enough space for the
    two new panes"). *)
Definition split_minimum (e : edge) (wsb_width wsb_pad : Z) (type : layout_type) : Z :=
  if decide (type = LAYOUT_LEFTRIGHT)
  then if pane_scrollbars env then 2 + wsb_width + wsb_pad else 3
  else if layout_add_horizontal_border env e then 4 else 3.

Lemma split_children t sx sy xo yo wp cs i (before : bool) c c1 c2 :
  is_dir t -> consistent (LC t sx sy xo yo wp cs) -> cs !! i = Some c ->
  consistent c1 -> consistent c2 ->
  lc_size t c1 + 1 + lc_size t c2 = lc_size t c ->
  lc_size (flip_type t) c1 = lc_size (flip_type t) c ->
  lc_size (flip_type t) c2 = lc_size (flip_type t) c ->
  let cs' := list_insert_at (if before then i else S i) c2 (<[i:=c1]> cs) in
  consistent (LC t sx sy xo yo wp cs') /\
  exists l1 l2, flat_map leaves cs = l1 ++ leaves c ++ l2 /\
    flat_map leaves cs' = l1 ++ (if before then leaves c2 ++ leaves c1 else
                                 leaves c1 ++ leaves c2) ++ l2.
Proof.
  intros Hd Hc Hi Hc1 Hc2 Hs Hx1 Hx2 cs'.
  assert (Hlt : (i < length cs)%nat) by (by eapply lookup_lt_Some).
  assert (Ecs : cs' = take i cs ++ (if before then [c2; c1] else [c1; c2]) ++ drop (S i) cs).
  { subst cs'. unfold list_insert_at. rewrite insert_take_drop by done.
    assert (length (take i cs) = i) by (rewrite length_take; lia).
    destruct before.
    - rewrite take_app_le, take_take, Nat.min_id by lia.
      rewrite drop_app_ge by lia. by replace (i - length (take i cs))%nat with O by lia.
    - rewrite take_app_ge by lia. replace (S i - length (take i cs))%nat with 1%nat by lia.
      csimpl. rewrite drop_app_ge by lia.
      replace (S i - length (take i cs))%nat with 1%nat by lia. csimpl.
      by rewrite take_0, drop_0, <- app_assoc. }
  clearbody cs'. subst cs'.
  assert (E0 : cs = take i cs ++ [c] ++ drop (S i) cs)
    by (symmetry; by apply take_drop_middle).
  inversion Hc as [|? ? ? ? ? ? ? _ Hne Hall Hspan Hcross]; subst; [done|].
  rewrite E0 in Hall, Hspan, Hcross. rewrite !span_app in Hspan.
  apply Forall_app in Hall as [Ha1 Ha2]. apply Forall_app in Ha2 as [_ Ha2].
  apply Forall_app in Hcross as [Hb1 Hb2]. apply Forall_app in Hb2 as [Hb0 Hb2].
  apply Forall_inv in Hb0.
  split.
  - apply consistent_node; [done| | | |].
    + by destruct (take i cs), before.
    + apply Forall_app; split; [done|]. destruct before; repeat constructor; done.
    + rewrite !span_app. unfold span in Hspan |- *. unfold lc_size in *.
      destruct before; csimpl in *; case_decide; lia.
    + apply Forall_app; split; [exact Hb1|]. 
      destruct before; csimpl; repeat constructor; try exact Hb2;
        rewrite ?Hx1, ?Hx2; exact Hb0.
  - exists (flat_map leaves (take i cs)), (flat_map leaves (drop (S i) cs)).
    split; [by rewrite E0 at 1; rewrite !flat_map_app; csimpl; rewrite app_nil_r|].
    rewrite !flat_map_app. destruct before; csimpl; by rewrite app_nil_r.
Qed.

Lemma split_sizes saved size (before : bool) :
  3 <= saved < 2147483648 -> -1 <= size < 2147483648 ->
  let size2 := if size <? 0 then u32 (u32 (saved + 1) / 2 - 1)
               else if before then u32 (saved - size - 1) else size in
  let size2 := if size2 <? PANE_MINIMUM then PANE_MINIMUM
               else if u32 (saved - 2) <? size2 then u32 (saved - 2) else size2 in
  1 <= size2 <= saved - 2.
Proof.
  intros Hs Hsz size2 size2'. subst size2'. clearbody size2. unfold PANE_MINIMUM.
  rewrite (u32_small (saved - 2)) by lia. zcases; lia.
Qed.

(** C25. [layout_split_pane] without the full-size flag fails exactly when the
    pane is smaller than the minimum for two panes; otherwise the new layout is
    consistent and fills the window as before, the new empty cell is where the
    result says, next to the split pane, on the side asked for, and every other
    pane keeps its place. *)
Theorem layout_split_pane_ok root p lc wp wsb_width wsb_pad type size before :
  is_dir type -> consistent root -> fits root ->
  cell_at root p = Some lc -> lc_type lc = LAYOUT_WINDOWPANE -> lc_wp lc = Some wp ->
  1 <= wsb_width < 65536 -> 0 <= wsb_pad < 65536 -> -1 <= size < 2147483648 ->
  let minimum := split_minimum (edge_at edge_root root p) wsb_width wsb_pad type in
  match layout_split_pane env root p wp wsb_width wsb_pad type size false before with
  | None => lc_size type lc < minimum
  | Some (root', np) =>
      minimum <= lc_size type lc /\
      consistent root' /\ lc_sx root' = lc_sx root /\ lc_sy root' = lc_sy root /\
      (exists new, cell_at root' np = Some new /\
        lc_type new = LAYOUT_WINDOWPANE /\ lc_wp new = None) /\
      exists l1 l2, leaves root = l1 ++ [Some wp] ++ l2 /\
        leaves root' = l1 ++ (if before then [None; Some wp] else [Some wp; None]) ++ l2
  end.
Proof.
  intros Hd Hc Hf Hlc Hlt Hlw Hw Hpad Hsize minimum.
  pose proof (consistent_at _ _ _ Hc Hlc) as Hlcc.
  pose proof (fits_size type lc (fits_at _ _ _ Hc Hf Hlc)) as Hlf.
  destruct lc as [t0 sx sy xo yo wp0 cs0]. cbn [lc_type lc_wp] in Hlt, Hlw. subst t0 wp0.
  inversion Hlcc as [? ? ? ? ? Hsx Hsy|? ? ? ? ? ? ? Hbad]; [|by destruct Hbad]. subst cs0.
  unfold layout_split_pane. rewrite Hlc. cbn [mbind option_bind].
  set (saved := lc_size type _) in *.
  set (min_ := if decide (type = LAYOUT_LEFTRIGHT) then _ else _).
  assert (Hmin : min_ = minimum /\ 3 <= min_).
  { subst min_ minimum. unfold split_minimum, PANE_MINIMUM.
    case_decide; [destruct (pane_scrollbars env)|destruct (layout_add_horizontal_border _ _)];
      rewrite ?u32_small by lia; lia. }
  clearbody min_. destruct Hmin as [-> Hmin].
  destruct (Z.ltb_spec saved minimum); [done|].
  assert (Hs2 := split_sizes saved size before ltac:(lia) Hsize). cbv zeta in Hs2.
  set (size2 := if (if size <? 0 then _ else _) <? PANE_MINIMUM then _ else _) in *.
  clearbody size2. rewrite (u32_small (saved - 1 - size2)) by lia.
  set (size1 := saved - 1 - size2) in *. cbn [andb].
  assert (Hs1 : 1 <= size1 /\ size1 + 1 + size2 = saved) by (subst size1; lia).
  clearbody size1. destruct Hs2 as [Hs2 _], Hs1 as [Hs1 Hs12].
  set (place1 := fun c => if decide (type = LAYOUT_LEFTRIGHT) then _ else _).
  set (place2 := fun c => if decide (type = LAYOUT_LEFTRIGHT) then _ else _).
  set (lc := LC LAYOUT_WINDOWPANE sx sy xo yo (Some wp) []) in *.
  set (lc' := layout_make_leaf wp ((if before then place2 else place1) lc)).
  set (new := (if before then place1 else place2) layout_create_cell).
  assert (Hl : consistent lc' /\ lc_size type lc' = (if before then size2 else size1) /\
    lc_size (flip_type type) lc' = lc_size (flip_type type) lc /\ leaves lc' = [Some wp]).
  { subst lc' place1 place2 lc; destruct Hd as [-> | ->], before; csimpl;
      split_and!; try done; constructor; cbn; lia. }
  assert (Hn : consistent new /\ lc_size type new = (if before then size1 else size2) /\
    lc_size (flip_type type) new = lc_size (flip_type type) lc /\ leaves new = [None] /\
    lc_type new = LAYOUT_WINDOWPANE /\ lc_wp new = None).
  { subst new place1 place2 lc; destruct Hd as [-> | ->], before; csimpl;
      split_and!; try done; constructor; cbn; lia. }
  clearbody new lc'. destruct Hl as (Hl1 & Hl2 & Hl3 & Hl4).
  destruct Hn as (Hn1 & Hn2 & Hn3 & Hn4 & Hn5 & Hn6).
  assert (Hsum : lc_size type lc' + 1 + lc_size type new = lc_size type lc)
    by (rewrite Hl2, Hn2; fold saved; destruct before; lia).
  assert (Hleaf : (if before then leaves new ++ leaves lc' else leaves lc' ++ leaves new) =
                  if before then [None; Some wp] else [Some wp; None])
    by (rewrite Hl4, Hn4; by destruct before).
  set (same := match last p with Some _ => _ | None => _ end).
  destruct same as [i|] eqn:Esame.
  - (* the parent runs in the same direction *)
    subst same. destruct p as [|i0 p _] using rev_ind; [done|].
    rewrite last_snoc in Esame.
    replace (take (length (p ++ [i0]) - 1) (p ++ [i0])) with p in *
      by (rewrite length_app, take_app_le by (csimpl; lia); rewrite take_ge; [done|csimpl; lia]).
    destruct (cell_at root p) as [[tq sxq syq xoq yoq wpq csq]|] eqn:Hq; [|done].
    cbn [lc_type] in Esame. case_decide; [|done]. injection Esame as ->. subst tq.
    rewrite cell_at_snoc, Hq in Hlc. cbn [mbind option_bind lc_cells] in Hlc.
    destruct (split_children type sxq syq xoq yoq wpq csq i before lc lc' new)
      as (Hqc & m1 & m2 & Em1 & Em2); auto.
    { by eapply (consistent_at root p). }
    set (cs' := list_insert_at _ _ _) in *.
    destruct (consistent_update root p _ _ Hc Hq Hqc) as [Hc2 [Hx2 Hy2]]; [done|].
    destruct (leaves_update root p _ Hc Hq) as (n1 & n2 & En1 & En2).
    assert (Hroot : cell_update (fun q => set_cells (list_insert_at
        (if before then i else S i) new (<[i:=lc']> (lc_cells q))) q) root p =
      cell_update (fun _ => LC type sxq syq xoq yoq wpq cs') root p)
      by (by eapply cell_update_ext).
    rewrite Hroot. split_and!; auto.
    + exists new. split; [|done]. rewrite cell_at_snoc, (cell_at_update _ _ _ _ Hq).
      cbn [mbind option_bind lc_cells]. subst cs'. apply list_insert_at_lookup.
      rewrite length_insert. apply lookup_lt_Some in Hlc. destruct before; lia.
    + exists (n1 ++ m1), (m2 ++ n2). rewrite En1, En2.
      rewrite !leaves_node, Em1, Em2, Hleaf by (by destruct Hd; subst).
      split; by rewrite <- !app_assoc.
  - (* a new parent takes the place of the cell *)
    clear Esame. set (q := set_cells (if before then [new; lc'] else [lc'; new]) _).
    assert (Hqc : consistent q).
    { subst q. destruct before; apply consistent_node; try done;
        try (repeat constructor; done);
        try (unfold span, lc_size in *; csimpl in *; case_decide; lia);
        repeat constructor; rewrite ?Hl3, ?Hn3; by destruct Hd; subst. }
    destruct (consistent_update root p _ q Hc Hlc Hqc) as [Hc2 [Hx2 Hy2]]; [done|].
    destruct (leaves_update root p _ Hc Hlc) as (n1 & n2 & En1 & En2).
    split_and!; auto.
    + exists new. split; [|done]. rewrite cell_at_snoc, (cell_at_update _ _ _ _ Hlc).
      by destruct before.
    + exists n1, n2. split; [done|]. rewrite En2. do 2 f_equal.
      subst q. rewrite <- Hleaf. destruct Hd as [-> | ->], before; csimpl;
        by rewrite app_nil_r.
Qed.

End Split.

(** ** Spreading cells out *)

Section Spread.
Context (env : layout_env) (Henv : env_ok env).

(** The line the pane status takes from child [i], when it is at the edge. *)
Definition border_line (type : layout_type) (e : edge) : Z :=
  if decide (type = LAYOUT_LEFTRIGHT) then 0
  else if layout_add_horizontal_border env e then 1 else 0.

Fixpoint border_lines (type : layout_type) (ce : nat -> edge) (i k : nat) : Z :=
  match k with
  | O => 0
  | S k => border_line type (ce i) + border_lines type ce (S i) k
  end.

Lemma border_lines_zero type ce k : forall i,
  (forall j, (i <= j < i + k)%nat -> border_line type (ce j) = 0) ->
  border_lines type ce i k = 0.
Proof.
  induction k as [|k IH]; intros i H; csimpl; [done|].
  rewrite (H i), IH; [done| |lia]. intros; apply H; lia.
Qed.

(** Exactly one child touches the edge its parent touches. *)
Lemma border_lines_total type n e : is_dir type -> (1 <= n)%nat ->
  border_lines type (child_edge type n e) 0 n = border_line type e.
Proof.
  intros [-> | ->] Hn; [apply border_lines_zero; intros; reflexivity|].
  unfold border_line at 1; cbn [decide_rel].
  unfold border_line, layout_add_horizontal_border. csimpl.
  destruct (Z.eqb_spec (pane_border_status env) PANE_STATUS_TOP) as [Ht|Ht].
  - destruct n as [|n]; [lia|]. csimpl.
    rewrite (border_lines_zero _ _ n 1).
    + unfold border_line, layout_add_horizontal_border, child_edge; csimpl.
      rewrite Ht; csimpl. rewrite andb_true_r. destruct (e_top e); done.
    + intros j Hj. unfold border_line, layout_add_horizontal_border, child_edge; csimpl.
      rewrite Ht; csimpl. destruct j; [lia|]. by rewrite andb_false_r.
  - destruct (Z.eqb_spec (pane_border_status env) PANE_STATUS_BOTTOM) as [Hb|Hb].
    + replace n with ((n - 1) + 1)%nat at 2 by lia.
      assert (Happ : forall k i m ce, border_lines LAYOUT_TOPBOTTOM ce i (k + m) =
        border_lines LAYOUT_TOPBOTTOM ce i k + border_lines LAYOUT_TOPBOTTOM ce (i + k) m).
      { induction k as [|k IH]; intros i m ce; csimpl; [by rewrite Nat.add_0_r|].
        rewrite IH. replace (S i + k)%nat with (i + S k)%nat by lia. lia. }
      rewrite Happ, border_lines_zero.
      * csimpl. unfold border_line, layout_add_horizontal_border, child_edge; csimpl.
        rewrite Hb; csimpl. destruct n as [|n]; [lia|]. csimpl.
        rewrite Nat.sub_0_r, Nat.eqb_refl. by destruct (e_bottom e).
      * intros j Hj. unfold border_line, layout_add_horizontal_border, child_edge; csimpl.
        rewrite Hb; csimpl. destruct n as [|n]; [lia|].
        destruct (Nat.eqb_spec j n); [lia|]. by rewrite andb_false_r.
    + apply border_lines_zero. intros j _.
      unfold border_line, layout_add_horizontal_border.
      by rewrite (proj2 (Z.eqb_neq _ _) Ht), (proj2 (Z.eqb_neq _ _) Hb).
Qed.

Lemma spread_loop_ok type ce each : is_dir type -> 1 <= each -> each + 2 < 2147483648 ->
  forall cs i r,
  Forall consistent cs -> Forall fits cs -> 0 <= r <= Z.of_nat (length cs) ->
  (forall j c, cs !! j = Some c ->
     lc_size type c - layout_resize_check env (ce (i + j)%nat) c type <= each) ->
  exists cs' ch, spread_loop env type ce each i r cs = Some (cs', ch) /\
    Forall2 (fun c c' => exists n, resized env type n c c') cs cs' /\
    span type cs' = Z.of_nat (length cs) * (each + 1) + r +
                    border_lines type ce i (length cs) /\
    forall j c', cs' !! j = Some c' ->
      lc_size type c' = each + border_line type (ce (i + j)%nat) +
                        (if Z.of_nat j <? r then 1 else 0).
Proof using Henv.
  intros Hd He1 He2. induction cs as [|c cs IH]; intros i r Hc Hf Hr Hmin; csimpl.
  { exists [], false. split_and!; [done|constructor|csimpl in Hr; unfold span; csimpl; lia|].
    intros j c'; by rewrite lookup_nil. }
  inversion Hc; inversion Hf; subst.
  set (this := if 0 <? r then _ else _).
  assert (Hthis : this = each + border_line type (ce i) + (if 0 <? r then 1 else 0)).
  { subst this. unfold border_line. case_decide; [|destruct (layout_add_horizontal_border _ _)];
      rewrite ?(u32_small (each + 1)) by lia; zcases; rewrite ?u32_small by lia; lia. }
  assert (Hb : 0 <= border_line type (ce i) <= 1)
    by (unfold border_line; repeat case_match; lia).
  pose proof (fits_size type c ltac:(done)). pose proof (consistent_pos c ltac:(done) type).
  pose proof (Hmin O c eq_refl) as Hm0. rewrite Nat.add_0_r in Hm0.
  assert (0 <= (if 0 <? r then 1 else 0) <= 1) by (zcases; lia).
  destruct (layout_resize_adjust_ok env Henv (ce i) c type (this - lc_size type c))
    as (c' & Ec & Hrc); auto; [lia|lia|].
  rewrite s32_small by lia. rewrite Ec. csimpl.
  destruct (IH (S i) (if 0 <? r then r - 1 else r)) as (cs' & ch & -> & Hall2 & Hsp & Hsz); auto.
  { csimpl in Hr. zcases; lia. }
  { intros j d Hj. replace (S i + j)%nat with (i + S j)%nat by lia. by apply Hmin. }
  csimpl. eexists _, _; split_and!; [done| | |].
  - constructor; [by eexists|done].
  - rewrite span_cons, Hsp, (rz_size _ _ _ _ _ Hrc), Hthis. csimpl in Hr. zcases; lia.
  - intros [|j] d Hj; csimpl in Hj.
    + injection Hj as <-. rewrite (rz_size _ _ _ _ _ Hrc), Hthis, Nat.add_0_r. zcases; lia.
    + rewrite (Hsz j d Hj). replace (S i + j)%nat with (i + S j)%nat by lia.
      destruct (Z.ltb_spec 0 r); zcases; lia.
Qed.

Definition same_leaves_cross (t : layout_type) (c c' : layout_cell) : Prop :=
  consistent c' /\ leaves c' = leaves c /\
  lc_size (flip_type t) c' = lc_size (flip_type t) c.

Lemma cross_list t cs cs' : Forall2 (same_leaves_cross t) cs cs' ->
  Forall consistent cs' /\ flat_map leaves cs' = flat_map leaves cs /\
  forall v, Forall (fun c => lc_size (flip_type t) c = v) cs ->
            Forall (fun c => lc_size (flip_type t) c = v) cs'.
Proof.
  induction 1 as [|c c' cs cs' (Hc & Hl & Hx) _ (IH1 & IH2 & IH3)]; [done|].
  csimpl. rewrite Hl, IH2. split_and!; auto.
  intros v; inversion 1; subst; constructor; auto.
Qed.

(** [layout_spread_cell] on a container none of whose children needs more
    than an even share: it returns, the container keeps its size and its panes
    and stays consistent, and every child has the even share of the space, one
    more for the first ones while there is a remainder (and a line for the
    pane status at the edge). *)
Theorem layout_spread_cell_even e parent :
  consistent parent -> fits parent -> is_dir (lc_type parent) ->
  (2 <= length (lc_cells parent))%nat ->
  let type := lc_type parent in
  let n := Z.of_nat (length (lc_cells parent)) in
  let ce := child_edge type (length (lc_cells parent)) e in
  let each := (lc_size type parent - border_line type e - (n - 1)) / n in
  1 <= each -> each + 2 < 2147483648 ->
  (forall j c, lc_cells parent !! j = Some c ->
     lc_size type c - layout_resize_check env (ce j) c type <= each) ->
  exists parent' ch, layout_spread_cell env e parent = Some (parent', ch) /\
    consistent parent' /\ same_size parent parent' /\ leaves parent' = leaves parent /\
    forall j c', lc_cells parent' !! j = Some c' ->
      each <= lc_size type c' - border_line type (ce j) <= each + 1.
Proof using Henv.
  intros Hc Hf Hd Hlen type n ce each He1 He2 Hmin. subst type.
  destruct parent as [t sx sy xo yo wp cs]; cbn [lc_type lc_cells] in *.
  inversion Hc as [|? ? ? ? ? ? ? _ Hne Hall Hspan Hcross]; subst; [by destruct Hd|].
  assert (Hfits : Forall fits cs)
    by (rewrite Forall_forall; intros c Hin; by eapply child_fits).
  pose proof (fits_size t _ Hf). set (S0 := lc_size t (LC t sx sy xo yo wp cs)) in *.
  assert (Hb : 0 <= border_line t e <= 1) by (unfold border_line; repeat case_match; lia).
  assert (Hn : 2 <= n) by lia.
  set (r := (S0 - border_line t e - (n - 1)) mod n).
  assert (Hdm : S0 - border_line t e - (n - 1) = n * each + r)
    by (apply Z.div_mod; lia).
  assert (Hr : 0 <= r < n) by (apply Z.mod_pos_bound; lia).
  assert (Hpos : 1 <= S0) by (apply (consistent_pos _ Hc t)).
  destruct (spread_loop_ok t ce each Hd He1 He2 cs 0 r Hall Hfits ltac:(lia) Hmin)
    as (cs' & ch & Eloop & H2 & Hsp & Hsz).
  exists (LC t sx sy xo yo wp cs'), ch. split.
  { unfold layout_spread_cell. cbn [lc_type lc_cells lc_sx lc_sy]. fold n.
    destruct (Z.leb_spec n 1); [lia|].
    assert (Hsize : (if decide (t = LAYOUT_LEFTRIGHT) then sx
      else if layout_add_horizontal_border env e then u32 (sy - 1) else sy) =
      S0 - border_line t e).
    { subst S0. unfold border_line, lc_size in *. csimpl in *. case_decide; [lia|].
      destruct (layout_add_horizontal_border env e); rewrite ?u32_small; lia. }
    assert (Hmatch : forall (A : Type) (x y : A), match t with
      | LAYOUT_LEFTRIGHT | LAYOUT_TOPBOTTOM => x | _ => y end = x)
      by (intros; by destruct Hd; subst).
    rewrite Hmatch, Hsize. fold each.
    destruct (Z.ltb_spec (S0 - border_line t e) (n - 1)); [nia|].
    destruct (Z.eqb_spec each 0); [lia|].
    replace (u32 (S0 - border_line t e - n * (each + 1) + 1)) with r
      by (rewrite u32_small; lia).
    fold ce. by rewrite Eloop. }
  assert (Hm : Forall2 (fun c c' => same_leaves_cross t c c') cs cs').
  { eapply Forall2_impl; [exact H2|]. intros c c' [m Hr']. split_and!; apply Hr'. }
  destruct (cross_list t cs cs' Hm) as (Hc' & Hl' & Hcr').
  pose proof (Forall2_length _ _ _ H2) as Hlen'.
  split_and!; [|done| |].
  - apply consistent_node; [done| |done| |by apply Hcr'].
    + intros ->. by destruct cs.
    + rewrite Hsp. unfold ce; rewrite border_lines_total by (auto; lia). fold n.
      change (lc_size t (LC t sx sy xo yo wp cs')) with S0. lia.
  - by destruct Hd; subst.
  - intros j c' Hj. rewrite (Hsz j c' Hj). csimpl. zcases; lia.
Qed.

End Spread.

(** ** Where the callers leave the bounds *)

Definition env_plain : layout_env := LayoutEnv PANE_STATUS_OFF false 1 0.
Definition leaf_cell (n sx sy : Z) : layout_cell :=
  LC LAYOUT_WINDOWPANE sx sy 0 0 (Some n) [].
Definition lr_cell (sx sy : Z) (cs : list layout_cell) : layout_cell :=
  LC LAYOUT_LEFTRIGHT sx sy 0 0 None cs.
Definition tb_cell (sx sy : Z) (cs : list layout_cell) : layout_cell :=
  LC LAYOUT_TOPBOTTOM sx sy 0 0 None cs.

(** A pane of one column beside ten panes in a row under a pane: an even share
    of the 21 columns is 10, the ten panes need 19. *)
Definition crowded : layout_cell :=
  lr_cell 21 5 [leaf_cell 1 1 5;
    tb_cell 19 5 [leaf_cell 2 19 1;
      lr_cell 19 3 (map (fun n => leaf_cell n 1 3) [3;4;5;6;7;8;9;10;11;12])]].

(** Five panes above one another beside a pane, and a pane below. *)
Definition stacked : layout_cell :=
  tb_cell 21 13 [
    lr_cell 21 9 [leaf_cell 1 10 9;
      tb_cell 10 9 (map (fun n => leaf_cell n 10 1) [2;3;4;5;6])];
    leaf_cell 7 21 3].

(** [layout_spread_cell] does not bound the change by the space available
    as [layout_resize_adjust] expects: on a consistent layout whose nested
    panes need more than the even share it does not return (the [while] loop
    finds no child to take from and goes round for ever). *)
Theorem layout_spread_cell_may_not_return :
  consistent crowded /\ layout_spread_cell env_plain edge_root crowded = None /\
  forall pass, adjust_pass (fun e c n => layout_resize_adjust env_plain e c LAYOUT_LEFTRIGHT n)
      (fun e c => layout_resize_check env_plain e c LAYOUT_LEFTRIGHT)
      (fun _ => edge_none) 0 (map (fun n => leaf_cell n 1 3) [3;4;5;6;7;8;9;10;11;12]) (-9)
    = Some pass ->
    pass = (map (fun n => leaf_cell n 1 3) [3;4;5;6;7;8;9;10;11;12], -9).
Proof.
  split; [by apply consistentb_sound|]. split; [vm_compute; reflexivity|].
  intros pass. vm_compute. congruence.
Qed.

(** A full-size split checks the sizes only in its own direction: on a
    consistent layout it can succeed and leave panes with a height that has
    wrapped below zero. *)
Theorem layout_split_full_size_wraps :
  consistent stacked /\
  exists root' np, layout_split_pane env_plain stacked [1%nat] 7 1 0 LAYOUT_LEFTRIGHT (-1)
      true false = Some (root', np) /\
    ~ consistent root' /\
    exists p c, cell_at root' p = Some c /\ lc_wp c = Some 6 /\ lc_sy c = u32 (-4).
Proof.
  split; [by apply consistentb_sound|].
  destruct (layout_split_pane env_plain stacked [1%nat] 7 1 0 LAYOUT_LEFTRIGHT (-1) true false)
    as [[root' np]|] eqn:E; [|vm_compute in E; congruence].
  vm_compute in E. injection E as <- <-. do 2 eexists; split; [done|]. split.
  - intros Hc. pose proof (consistent_at _ [0%nat;0%nat;1%nat] _ Hc eq_refl) as Hb.
    destruct (consistent_child _ _ _ _ _ _ _
      (LC LAYOUT_WINDOWPANE 5 4294967292 5 8 (Some 6) []) LAYOUT_TOPBOTTOM Hb)
      as [_ Hle]; [|by right|vm_compute in Hle; congruence].
    apply list_elem_of_In. vm_compute. tauto.
  - exists [0%nat;0%nat;1%nat;4%nat]. eexists; split; [reflexivity|].
    split; [done|by vm_compute].
Qed.

(** ** Instances *)

Lemma env_plain_ok : env_ok env_plain.
Proof. split; cbv; split; congruence. Qed.

(** Discharge [consistent], [fits] and numeric side conditions by evaluation. *)
Ltac concrete :=
  lazymatch goal with
  | |- consistent _ => apply consistentb_sound; vm_compute; reflexivity
  | |- fits _ => split; vm_compute; reflexivity
  | |- env_ok _ => exact env_plain_ok
  | |- is_dir LAYOUT_LEFTRIGHT => left; reflexivity
  | |- is_dir LAYOUT_TOPBOTTOM => right; reflexivity
  | |- _ => first [reflexivity | vm_compute; intuition congruence]
  end.

Lemma layout_destroy_cell_ok_witness :
  exists root', layout_destroy_cell env_plain edge_root stacked [0%nat; 1%nat; 2%nat] =
    Ok (Some root') /\ consistent root' /\
    leaves root' = [Some 1; Some 2; Some 3; Some 5; Some 6; Some 7].
Proof.
  destruct (layout_destroy_cell_ok env_plain env_plain_ok edge_root stacked [0%nat; 1%nat] 2%nat
    (tb_cell 10 9 (map (fun n => leaf_cell n 10 1) [2;3;4;5;6])) (leaf_cell 4 10 1)
    ltac:(concrete) ltac:(concrete) ltac:(concrete) ltac:(concrete) ltac:(cbn; lia))
    as (root' & E & Hc & _). exists root'. split; [exact E|]. split; [exact Hc|].
  vm_compute in E. injection E as <-. reflexivity.
Defined.

Lemma layout_resize_ok_witness :
  exists root', layout_resize env_plain stacked 15 9 = Some root' /\ consistent root' /\
    lc_sx root' = 15 /\ lc_sy root' = 11.
Proof.
  destruct (layout_resize_ok env_plain env_plain_ok stacked 15 9 ltac:(concrete) ltac:(concrete)
    ltac:(lia) ltac:(lia)) as (root' & E & Hc & _ & Hx & Hy & _).
  exists root'. split; [exact E|]. split; [exact Hc|]. rewrite Hx, Hy. split; reflexivity.
Defined.

Lemma layout_fix_offsets_tiles_witness :
  Forall (within 0 0 21 13) (rects (layout_fix_offsets stacked)) /\
  ForallOrdPairs separated (rects (layout_fix_offsets stacked)) /\
  length (rects (layout_fix_offsets stacked)) = 7%nat.
Proof.
  exact (layout_fix_offsets_tiles stacked ltac:(concrete) ltac:(reflexivity) ltac:(reflexivity)).
Defined.

Lemma layout_resize_pane_ok_witness :
  exists root', layout_resize_pane env_plain stacked [0%nat; 1%nat; 0%nat] LAYOUT_LEFTRIGHT 3 true =
    Some root' /\ consistent root' /\ leaves root' = leaves stacked.
Proof.
  destruct (layout_resize_pane_ok env_plain env_plain_ok stacked [0%nat; 1%nat; 0%nat]
    LAYOUT_LEFTRIGHT 3 true ltac:(concrete) ltac:(concrete) ltac:(concrete) ltac:(lia))
    as (root' & E & Hc & _ & _ & Hl).
  - intros pp i q Hp Hq. vm_compute in Hp. injection Hp as <- <-.
    vm_compute in Hq. injection Hq as <-. cbn. lia.
  - exists root'. auto.
Defined.

Lemma layout_split_pane_ok_witness :
  exists root' np, layout_split_pane env_plain stacked [1%nat] 7 1 0 LAYOUT_LEFTRIGHT (-1)
      false true = Some (root', np) /\
    consistent root' /\ lc_sx root' = 21 /\ lc_sy root' = 13 /\
    leaves root' = (map Some [1;2;3;4;5;6] ++ [None; Some 7]).
Proof.
  pose proof (layout_split_pane_ok env_plain stacked [1%nat] (leaf_cell 7 21 3) 7 1 0
    LAYOUT_LEFTRIGHT (-1) true ltac:(concrete) ltac:(concrete) ltac:(concrete) ltac:(concrete)
    ltac:(concrete) ltac:(concrete) ltac:(lia) ltac:(lia) ltac:(lia)) as H.
  destruct (layout_split_pane env_plain stacked [1%nat] 7 1 0 LAYOUT_LEFTRIGHT (-1) false true)
    as [[root' np]|] eqn:E; [|vm_compute in E; discriminate].
  destruct H as (_ & Hc & Hx & Hy & _). exists root', np. split; [reflexivity|].
  split; [exact Hc|]. split; [exact Hx|]. split; [exact Hy|].
  vm_compute in E. injection E as <- _. reflexivity.
Defined.

Definition uneven : layout_cell :=
  lr_cell 24 5 [leaf_cell 1 2 5; leaf_cell 2 3 5; tb_cell 17 5 [leaf_cell 3 17 2; leaf_cell 4 17 2]].

Lemma layout_spread_cell_even_witness :
  exists parent' ch, layout_spread_cell env_plain edge_root uneven = Some (parent', ch) /\
    consistent parent' /\ map lc_sx (lc_cells parent') = [8; 7; 7].
Proof.
  destruct (layout_spread_cell_even env_plain env_plain_ok edge_root uneven ltac:(concrete)
    ltac:(concrete) ltac:(concrete) ltac:(cbn; lia) ltac:(vm_compute; congruence)
    ltac:(vm_compute; congruence)) as (parent' & ch & E & Hc & _).
  - intros j c H. do 3 (destruct j as [|j]; [injection H as <-; vm_compute; congruence|]).
    discriminate.
  - exists parent', ch. split; [exact E|]. split; [exact Hc|].
    vm_compute in E. injection E as <- _. reflexivity.
Defined.
