(* ===== verification/LayoutSet.v ===== *)
(** * Preset layouts (src/tmux/windows/layout-set.c)

    Each preset throws the tree of the window away and builds a new one from
    the panes that are not floating, in the order of the window. *)
From Stdlib Require Import Ascii String.
From S2P Require Import Prelude.
From S2P Require Import CString.
From S2P Require Import Layout.

(** ** Percentages (src/tmux/core/arguments.c) *)

(** The number or the cause of the error. *)
Definition args_string_percentage (value : string) (minval maxval curval : Z) : Z + string :=
  match list_ascii_of_string value with
  | [] => inr "empty"%string
  | _ =>
      let len := String.length value in
      if bool_decide (String.get (len - 1) value = Some "%"%char) then
        match strtonum (String.substring 0 (len - 1) value) 0 100 with
        | inr err => inr err
        | inl ll =>
            let ll := Z.quot (curval * ll) 100 in
            if ll <? minval then inr "too small"%string
            else if maxval <? ll then inr "too large"%string
            else inl ll
        end
      else strtonum value minval maxval
  end.

(** ** The window *)

(** The options the presets read. *)
Record set_options := SetOptions {
  main_pane_height : string;
  other_pane_height : string;
  main_pane_width : string;
  other_pane_width : string;
  tiled_layout_max_columns : Z
}.

(** What the presets use of a window: its panes with whether they float, its
    size, its tree and the last preset (-1 for none). *)
Record set_window := SetWindow {
  sw_panes : list (Z * bool);
  sw_sx : Z;
  sw_sy : Z;
  sw_layout_root : option layout_cell;
  sw_lastlayout : Z
}.

Definition set_sw_lastlayout (n : Z) (w : set_window) : set_window :=
  SetWindow (sw_panes w) (sw_sx w) (sw_sy w) (sw_layout_root w) n.

(** The panes that do not float. *)
Definition tiled_panes (w : set_window) : list Z :=
  map fst (filter (fun p => snd p = false) (sw_panes w)).

Definition layout_first_tiled (w : set_window) : option Z := head (tiled_panes w).

(** A leaf of some size at the origin. *)
Definition new_leaf (sx sy wp : Z) : layout_cell :=
  layout_make_leaf wp (layout_set_size sx sy 0 0 layout_create_cell).
Definition new_node (t : layout_type) (sx sy : Z) (cs : list layout_cell) : layout_cell :=
  set_cells cs (layout_make_node t (layout_set_size sx sy 0 0 layout_create_cell)).

Definition u32_max (a b : Z) : Z := if a <? b then b else a.

(** The size [n] panes need next to each other. *)
Definition needed (n : Z) : Z := u32 (u32 (n * (PANE_MINIMUM + 1)) - 1).

Section Presets.
Context (env : layout_env) (opts : set_options).

(** The new tree: its offsets are fixed, and the window takes its size. *)
Definition arranged (root : layout_cell) (w : set_window) : set_window :=
  SetWindow (sw_panes w) (lc_sx root) (lc_sy root) (Some (layout_fix_offsets root))
    (sw_lastlayout w).

(** [None]: a resize does not return. *)
Definition layout_set_even (type : layout_type) (w : set_window) : option set_window :=
  let n := u32 (Z.of_nat (length (tiled_panes w))) in
  if n <=? 1 then Some w
  else
    let lr := bool_decide (type = LAYOUT_LEFTRIGHT) in
    let sx := if lr then u32_max (needed n) (sw_sx w) else sw_sx w in
    let sy := if lr then sw_sy w else u32_max (needed n) (sw_sy w) in
    let lc := new_node type sx sy (map (new_leaf (sw_sx w) (sw_sy w)) (tiled_panes w)) in
    '(lc, _) ← layout_spread_cell env edge_root lc;
    Some (arranged lc w).

Definition layout_set_even_h := layout_set_even LAYOUT_LEFTRIGHT.
Definition layout_set_even_v := layout_set_even LAYOUT_TOPBOTTOM.

(** The sizes of the main pane and of the others, of the space there is. *)
Definition main_sizes (main other : string) (default space : Z) : Z * Z :=
  let mainh := match args_string_percentage main 0 space space with
               | inl ll => u32 ll
               | inr _ => default
               end in
  if space <=? u32 (mainh + PANE_MINIMUM) then
    (if space <=? PANE_MINIMUM + PANE_MINIMUM then PANE_MINIMUM else space - PANE_MINIMUM,
     PANE_MINIMUM)
  else
    match args_string_percentage other 0 space space with
    | inr _ => (mainh, u32 (space - mainh))
    | inl ll =>
        let otherh := u32 ll in
        if otherh =? 0 then (mainh, u32 (space - mainh))
        else if (space <? otherh) || (u32 (space - otherh) <? mainh)
        then (mainh, u32 (space - mainh))
        else (u32 (space - otherh), otherh)
    end.

(** The cell of the panes next to the main one, which is the [i]th of the
    [count] children its parent has when they are spread out. *)
Definition other_cell (parent type : layout_type) (count i : nat) (sx sy : Z) (panes : list Z) :
    option layout_cell :=
  match panes with
  | [wp] => Some (new_leaf sx sy wp)
  | _ =>
      let child wp := if decide (type = LAYOUT_LEFTRIGHT) then new_leaf PANE_MINIMUM sy wp
                      else new_leaf sx PANE_MINIMUM wp in
      fst <$> layout_spread_cell env (child_edge parent count edge_root i)
                (new_node type sx sy (map child panes))
  end.

Definition layout_set_main_h (w : set_window) : option set_window :=
  let n := u32 (Z.of_nat (length (tiled_panes w))) in
  match tiled_panes w with
  | first :: ((_ :: _) as others) =>
      let sy := u32 (sw_sy w - 1) in
      let '(mainh, otherh) := main_sizes (main_pane_height opts) (other_pane_height opts) 24 sy in
      let sx := u32_max (needed (n - 1)) (sw_sx w) in
      lcother ← other_cell LAYOUT_TOPBOTTOM LAYOUT_LEFTRIGHT 2 1 sx otherh others;
      Some (arranged (new_node LAYOUT_TOPBOTTOM sx (u32 (mainh + otherh + 1))
                        [new_leaf sx mainh first; lcother]) w)
  | _ => Some w
  end.

Definition layout_set_main_h_mirrored (w : set_window) : option set_window :=
  let n := u32 (Z.of_nat (length (tiled_panes w))) in
  match tiled_panes w with
  | first :: ((_ :: _) as others) =>
      let sy := u32 (sw_sy w - 1) in
      let '(mainh, otherh) := main_sizes (main_pane_height opts) (other_pane_height opts) 24 sy in
      let sx := u32_max (needed (n - 1)) (sw_sx w) in
      lcother ← other_cell LAYOUT_TOPBOTTOM LAYOUT_LEFTRIGHT 1 0 sx otherh others;
      Some (arranged (new_node LAYOUT_TOPBOTTOM sx (u32 (mainh + otherh + 1))
                        [lcother; new_leaf sx mainh first]) w)
  | _ => Some w
  end.

Definition layout_set_main_v (w : set_window) : option set_window :=
  let n := u32 (Z.of_nat (length (tiled_panes w))) in
  match tiled_panes w with
  | first :: ((_ :: _) as others) =>
      let sx := u32 (sw_sx w - 1) in
      let '(mainw, otherw) := main_sizes (main_pane_width opts) (other_pane_width opts) 80 sx in
      let sy := u32_max (needed (n - 1)) (sw_sy w) in
      lcother ← other_cell LAYOUT_LEFTRIGHT LAYOUT_TOPBOTTOM 2 1 otherw sy others;
      Some (arranged (new_node LAYOUT_LEFTRIGHT (u32 (mainw + otherw + 1)) sy
                        [new_leaf mainw sy first; lcother]) w)
  | _ => Some w
  end.

Definition layout_set_main_v_mirrored (w : set_window) : option set_window :=
  let n := u32 (Z.of_nat (length (tiled_panes w))) in
  match tiled_panes w with
  | first :: ((_ :: _) as others) =>
      let sx := u32 (sw_sx w - 1) in
      let '(mainw, otherw) := main_sizes (main_pane_width opts) (other_pane_width opts) 80 sx in
      let sy := u32_max (needed (n - 1)) (sw_sy w) in
      lcother ← other_cell LAYOUT_LEFTRIGHT LAYOUT_TOPBOTTOM 1 0 otherw sy others;
      Some (arranged (new_node LAYOUT_LEFTRIGHT (u32 (mainw + otherw + 1)) sy
                        [lcother; new_leaf mainw sy first]) w)
  | _ => Some w
  end.

(** ** Tiled *)

(** How many rows and columns: a row is added while there are too few cells,
    and a column when that is not enough ([fuel] is the number of panes). *)
Fixpoint tiled_shape (fuel : nat) (n max_columns rows columns : Z) : Z * Z :=
  if u32 (rows * columns) <? n then
    match fuel with
    | O => (rows, columns)
    | S fuel =>
        let rows := u32 (rows + 1) in
        let columns := if (u32 (rows * columns) <? n) &&
                          ((max_columns =? 0) || (columns <? max_columns))
                       then u32 (columns + 1) else columns in
        tiled_shape fuel n max_columns rows columns
    end
  else (rows, columns).

(** The last child of a cell. *)
Definition adjust_last (t : layout_type) (ce : nat -> edge) (cs : list layout_cell) (change : Z) :
    option (list layout_cell) :=
  let i := (length cs - 1)%nat in
  match cs !! i with
  | None => None
  | Some c =>
      c' ← layout_resize_adjust env (ce i) c t (s32 change);
      Some (<[i:=c']> cs)
  end.

(** A row of several columns, the last one as wide as the row still is. *)
Definition tiled_row (j : nat) (wsx width height : Z) (panes : list Z) : option layout_cell :=
  let cs := map (new_leaf width height) panes in
  let used := u32 (u32 (Z.of_nat (length cs) * u32 (width + 1)) - 1) in
  let e := child_edge LAYOUT_TOPBOTTOM (S j) edge_root j in
  cs ← (if wsx <=? used then Some cs
        else adjust_last LAYOUT_LEFTRIGHT (child_edge LAYOUT_LEFTRIGHT (length cs) e) cs
               (u32 (wsx - used)));
  Some (new_node LAYOUT_LEFTRIGHT wsx height cs).

(** The rows from row [j] on; [k] rows are to be made. *)
Fixpoint tiled_rows (k j : nat) (n columns wsx width height : Z) (panes : list Z) :
    option (list layout_cell) :=
  match k, panes with
  | S k, wp :: rest =>
      if (u32 (n - u32 (Z.of_nat j * columns)) =? 1) || (columns =? 1) then
        rows ← tiled_rows k (S j) n columns wsx width height rest;
        Some (new_leaf wsx height wp :: rows)
      else
        row ← tiled_row j wsx width height (take (Z.to_nat columns) panes);
        rows ← tiled_rows k (S j) n columns wsx width height (drop (Z.to_nat columns) panes);
        Some (row :: rows)
  | _, _ => Some []
  end.

(** A share of a size, with a border between the shares. *)
Definition tiled_size (total count : Z) : Z :=
  let size := u32 (total - u32 (count - 1)) / count in
  if size <? PANE_MINIMUM then PANE_MINIMUM else size.

Definition layout_set_tiled (w : set_window) : option set_window :=
  let panes := tiled_panes w in
  let n := u32 (Z.of_nat (length panes)) in
  if n <=? 1 then Some w
  else
    let '(rows, columns) := tiled_shape (length panes) n (tiled_layout_max_columns opts) 1 1 in
    let width := tiled_size (sw_sx w) columns in
    let height := tiled_size (sw_sy w) rows in
    let sx := u32_max (u32 (u32 (u32 (width + 1) * columns) - 1)) (sw_sx w) in
    let sy := u32_max (u32 (u32 (u32 (height + 1) * rows) - 1)) (sw_sy w) in
    cs ← tiled_rows (Z.to_nat rows) 0 n columns (sw_sx w) width height panes;
    let used := u32 (u32 (rows * height) + rows - 1) in
    cs ← (if used <? sw_sy w
          then adjust_last LAYOUT_TOPBOTTOM (child_edge LAYOUT_TOPBOTTOM (length cs) edge_root) cs
                 (u32 (sw_sy w - used))
          else Some cs);
    Some (arranged (new_node LAYOUT_TOPBOTTOM sx sy cs) w).

(** ** Choosing one *)

Definition layout_sets : list (string * (set_window -> option set_window)) :=
  [ ("even-horizontal", layout_set_even_h);
    ("even-vertical", layout_set_even_v);
    ("main-horizontal", layout_set_main_h);
    ("main-horizontal-mirrored", layout_set_main_h_mirrored);
    ("main-vertical", layout_set_main_v);
    ("main-vertical-mirrored", layout_set_main_v_mirrored);
    ("tiled", layout_set_tiled) ]%string.

(** The exact name, or the only one that starts with it; -1 for none. *)
Definition layout_set_lookup (name : string) : Z :=
  let exact := list_find (fun s => fst s = name) layout_sets in
  let starts := fun s : string * (set_window -> option set_window) => String.prefix name (fst s) = true in
  match exact with
  | Some (i, _) => Z.of_nat i
  | None =>
      match list_find starts layout_sets with
      | None => -1
      | Some (i, _) =>
          match list_find starts (drop (S i) layout_sets) with
          | Some _ => -1
          | None => Z.of_nat i
          end
      end
  end.

Definition nsets : Z := 7.

Definition arrange_with (layout : Z) (w : set_window) : option set_window :=
  match layout_sets !! Z.to_nat layout with
  | Some (_, arrange) => set_sw_lastlayout layout <$> arrange w
  | None => None
  end.

Definition layout_set_select (w : set_window) (layout : Z) : option set_window :=
  arrange_with (if nsets - 1 <? layout then nsets - 1 else layout) w.

Definition layout_set_next (w : set_window) : option set_window :=
  arrange_with (if sw_lastlayout w =? -1 then 0
                else let layout := u32 (sw_lastlayout w + 1) in
                     if nsets - 1 <? layout then 0 else layout) w.

Definition layout_set_previous (w : set_window) : option set_window :=
  arrange_with (if sw_lastlayout w =? -1 then nsets - 1
                else if sw_lastlayout w =? 0 then nsets - 1 else u32 (sw_lastlayout w - 1)) w.

End Presets.
