(* ===== verification/LayoutSetProps.v ===== *)
(** * The properties of the preset layouts *)
From Stdlib Require Import Ascii String.
From S2P Require Import Prelude.
From S2P Require Import CString.
From S2P Require Import Layout.
From S2P Require Import LayoutFacts.
From S2P Require Import LayoutProps.
From S2P Require Import LayoutSet.

Section Props.
Context (env : layout_env) (opts : set_options).

(** ** Leaves *)






Lemma leaf_cross t v cx cy wp : is_dir t ->
  lc_size (flip_type t) (set_lc_size t v (new_leaf cx cy wp)) = lc_size (flip_type t) (new_leaf cx cy wp).
Proof. by intros [-> | ->]. Qed.


(** ** Spreading leaves out *)






(** ** Sizes *)





(** ** The new tree *)













(** ** Tiled *)



Context (Henv : env_ok env).







(** ** Every preset *)




End Props.

(** ** Examples *)

Definition usual_options : set_options := SetOptions "24" "0" "80" "0" 0.
Definition five_panes (sx sy : Z) : set_window :=
  SetWindow [(1, false); (2, false); (7, true); (3, false); (4, false); (5, false)] sx sy None (-1).


Lemma node_filled t sx sy xo yo wp cs : is_dir t -> consistent (LC t sx sy xo yo wp cs) ->
  span t cs = lc_size t (LC t sx sy xo yo wp cs) + 1 /\ Forall consistent cs.
Proof. intros Hd Hc. inversion Hc; subst; [by destruct Hd|done]. Qed.

(** Two ways to a tree that does not hold together. With the status line of
    the panes at the top, even-vertical on a window with exactly the least
    number of lines leaves every pane with the lines of the whole window;
    and main-horizontal with a main-pane-height of 0 gives the main pane no
    line at all. *)
Theorem layout_set_select_breaks :
  (exists w' root, layout_set_select (LayoutEnv PANE_STATUS_TOP false 1 0) usual_options (five_panes 80 9) 1 =
     Some w' /\ sw_layout_root w' = Some root /\ ~ consistent root /\
     Forall (fun c => lc_sy c = 9) (lc_cells root)) /\
  (exists w' root, layout_set_select env_plain (SetOptions "0" "0" "80" "0" 0) (five_panes 80 24) 2 =
     Some w' /\ sw_layout_root w' = Some root /\ ~ consistent root /\
     lc_sy <$> head (lc_cells root) = Some 0).
Proof.
  split; (eexists _, _; split; [vm_compute; reflexivity|split; [reflexivity|split]]).
  - intros Hc. apply node_filled in Hc as [Hs _]; [|by right]. by vm_compute in Hs.
  - by repeat constructor.
  - intros Hc. apply node_filled in Hc as [_ Hf]; [|by right].
    apply Forall_inv in Hf. pose proof (consistent_pos _ Hf LAYOUT_TOPBOTTOM) as Hp. by vm_compute in Hp.
  - done.
Qed.
