(* ===== verification/LayoutCustom.v ===== *)
(** * Dumping and parsing layouts (src/tmux/windows/layout-custom.c)

    A layout is saved as a string (in a closed item of the recovery stack, for
    select-layout, in control mode) and later parsed back.  [Undef] is where
    the code dereferences a NULL pointer, frees twice or reads an
    uninitialised variable. *)
From Stdlib Require Import Ascii String.
From S2P Require Import Prelude.
From S2P Require Import CString.
From S2P Require Import Layout.

(** ** Dumping *)

(** [char] is signed. *)
Definition schar (c : ascii) : Z := if code c <? 128 then code c else code c - 256.

Fixpoint layout_checksum_from (csum : Z) (layout : string) : Z :=
  match layout with
  | EmptyString => csum
  | String c layout =>
      let csum := u16 (Z.shiftr csum 1 + Z.shiftl (Z.land csum 1) 15) in
      layout_checksum_from (u16 (csum + schar c)) layout
  end.
Definition layout_checksum (layout : string) : Z := layout_checksum_from 0 layout.

(** [buf\[strlen(buf) - 1\] = c]. *)
Definition set_last (c : ascii) (buf : string) : string :=
  str_take (String.length buf - 1) buf +:+ String c "".

(** [strlcat] that must fit, as [layout_append] uses it. *)
Definition append_fit (buf s : string) (len : nat) : option string :=
  let '(buf', total) := strlcat buf s len in
  if Nat.leb len total then None else Some buf'.

Definition layout_cell_string (lc : layout_cell) : string :=
  fmt_u (lc_sx lc) +:+ "x" +:+ fmt_u (lc_sy lc) +:+ "," +:+
  fmt_d (lc_xoff lc) +:+ "," +:+ fmt_d (lc_yoff lc) +:+
  match lc_wp lc with Some id => "," +:+ fmt_u id | None => "" end.

(** The brackets around the children of a container. *)
Definition brackets (t : layout_type) : option (ascii * ascii) :=
  match t with
  | LAYOUT_LEFTRIGHT => Some ("{"%char, "}"%char)
  | LAYOUT_TOPBOTTOM => Some ("["%char, "]"%char)
  | _ => None
  end.

(** [None] is the return value -1. *)
Fixpoint layout_append (lc : layout_cell) (buf : string) (len : nat) : option string :=
  match lc with
  | LC t sx sy xoff yoff wp cs =>
      if Nat.eqb len 0 then None
      else
        let tmp := layout_cell_string (LC t sx sy xoff yoff wp cs) in
        if Nat.ltb 63 (String.length tmp) then None
        else
          let children :=
            fix go (cs : list layout_cell) (buf : string) : option string :=
              match cs with
              | [] => Some buf
              | c :: cs =>
                  match layout_append c buf len with
                  | Some buf => match append_fit buf "," len with
                                | Some buf => go cs buf
                                | None => None
                                end
                  | None => None
                  end
              end in
          match append_fit buf tmp len, brackets t with
          | None, _ => None
          | Some buf, None => Some buf
          | Some buf, Some (opening, closing) =>
              buf ← append_fit buf (String opening "") len;
              buf ← children cs buf;
              Some (set_last closing buf)
          end
  end.

Definition layout_dump_len : nat := Z.to_nat 8192.

(** The floating panes at the front of the z-order, each with its stub cell
    (NULL: nothing is appended). *)
Fixpoint dump_floating (z : list (bool * option layout_cell)) (bracket : bool)
    (layout : string) : option (string * bool) :=
  match z with
  | (true, lc) :: z =>
      let layout := if bracket then layout else fst (strlcat layout "<" layout_dump_len) in
      layout ← (match lc with
                | Some lc => layout_append lc layout layout_dump_len
                | None => Some layout
                end);
      dump_floating z true (fst (strlcat layout "," layout_dump_len))
  | _ => Some (layout, bracket)
  end.

Definition layout_dump (z : list (bool * option layout_cell))
    (root : option layout_cell) : option string :=
  layout ← (match root with
            | Some root => layout_append root "" layout_dump_len
            | None => Some ""%string
            end);
  '(layout, bracket) ← dump_floating z false layout;
  let layout := if (bracket : bool) then set_last ">"%char layout else layout in
  Some (fmt_04hx (layout_checksum layout) +:+ "," +:+ layout).

(** ** Parsing *)

(** [sscanf (s, "%ux%u,%d,%d", ...) == 4]. *)
Definition scan_cell (s : string) : option (Z * Z * Z * Z) :=
  '(sx, s) ← scan_u s; s ← scan_char "x"%char s;
  '(sy, s) ← scan_u s; s ← scan_char ","%char s;
  '(xoff, s) ← scan_d s; s ← scan_char ","%char s;
  '(yoff, _) ← scan_d s; Some (sx, sy, xoff, yoff).

(** The result (NULL or a cell) and where the layout pointer is left. *)
Definition layout_construct_cell (s : string) : option layout_cell * string :=
  if negb (is_digit (hd_char s)) then (None, s)
  else
    match scan_cell s with
    | None => (None, s)
    | Some (sx, sy, xoff, yoff) =>
        let s := skip_digits s in
        match s with
        | String "x" s =>
            let s := skip_digits s in
            match s with
            | String "," s =>
                let s := skip_digits s in
                match s with
                | String "," s =>
                    let s := skip_digits s in
                    let s := match s with
                             | String "," s' =>
                                 let s'' := skip_digits s' in
                                 match s'' with String "x" _ => s | _ => s'' end
                             | _ => s
                             end in
                    (Some (layout_set_size sx sy xoff yoff layout_create_cell), s)
                | _ => (None, s)
                end
            | _ => (None, s)
            end
        | _ => (None, s)
        end
    end.

(** What [layout_construct] leaves: 0 with [*lc], [*floating_lc] and the layout
    pointer, or -1 with whether a floating cell had been built (it has then
    been freed, once). *)
Inductive construct_result :=
  | CDone (lc floating_lc : option layout_cell) (layout : string)
  | CFail (floating : bool)
  | CUndef.

Definition is_some {A} (o : option A) : bool :=
  match o with Some _ => true | None => false end.

(** The [do]-[while] over the children of a container up to its closing
    bracket: the layout pointer moves past one character, a child is
    constructed and inserted, and a comma asks for another.  [k] bounds the
    rounds; each reads a character. *)
Fixpoint construct_children
    (construct : string -> option layout_cell -> construct_result) (closing : ascii)
    (k : nat) (cells : list layout_cell) (floating_lc : option layout_cell) (s : string) :
    construct_result + (list layout_cell * option layout_cell * string) :=
  match k, s with
  | S k, String _ s =>
      match construct s floating_lc with
      | CDone (Some c) floating_lc s =>
          let cells := cells ++ [c] in
          match s with
          | String d s' =>
              if Ascii.eqb d ","%char
              then construct_children construct closing k cells floating_lc s
              else if Ascii.eqb d closing then inr (cells, floating_lc, s')
              else inl (CFail (is_some floating_lc))
          | EmptyString => inl (CFail (is_some floating_lc))
          end
      | CDone None _ _ => inl CUndef          (* a NULL cell is inserted *)
      | CFail true => inl CUndef              (* the floating cell is freed again *)
      | CFail false => inl (CFail false)
      | CUndef => inl CUndef
      end
  | _, _ => inl CUndef
  end.

Fixpoint layout_construct (fuel : nat) (s : string) (floating_lc : option layout_cell) :
    construct_result :=
  match fuel with
  | O => CUndef
  | S fuel =>
      let '(lc, s) := layout_construct_cell s in
      let children closing :=
        construct_children (layout_construct fuel) closing fuel [] floating_lc s in
      match s with
      | EmptyString => CDone lc floating_lc s
      | String "," _ | String "}" _ | String "]" _ | String ">" _ => CDone lc floating_lc s
      | String "{" _ =>
          match lc with
          | None => CUndef
          | Some c =>
              match children "}"%char with
              | inr (cs, fl, s) => CDone (Some (set_cells cs (set_type LAYOUT_LEFTRIGHT c))) fl s
              | inl r => r
              end
          end
      | String "[" _ =>
          match lc with
          | None => CUndef
          | Some c =>
              match children "]"%char with
              | inr (cs, fl, s) => CDone (Some (set_cells cs (set_type LAYOUT_TOPBOTTOM c))) fl s
              | inl r => r
              end
          end
      | String "<" _ =>
          match children ">"%char with
          | inr (cs, _, s) =>
              CDone lc (Some (set_cells cs (set_type LAYOUT_FLOATING layout_create_cell))) s
          | inl r => r
          end
      | _ => CFail (is_some floating_lc)
      end
  end.

(** The path of the bottom-right leaf; a container without children is a NULL
    dereference. *)
Fixpoint layout_find_bottomright (lc : layout_cell) : option (list nat) :=
  match lc with
  | LC LAYOUT_WINDOWPANE _ _ _ _ _ _ => Some []
  | LC _ _ _ _ _ _ cs =>
      (fix go (i : nat) (l : list layout_cell) :=
         match l with
         | [] => None
         | [c] => option_map (cons i) (layout_find_bottomright c)
         | _ :: l => go (S i) l
         end) O cs
  end.

(** [layout_check]. *)
Fixpoint layout_check (lc : layout_cell) : bool :=
  match lc with
  | LC LAYOUT_LEFTRIGHT sx sy _ _ _ cs =>
      (fix go (n : Z) (l : list layout_cell) :=
         match l with
         | [] => u32 (n - 1) =? sx
         | c :: l => (lc_sy c =? sy) && layout_check c && go (u32 (n + (lc_sx c + 1))) l
         end) 0 cs
  | LC LAYOUT_TOPBOTTOM sx sy _ _ _ cs =>
      (fix go (n : Z) (l : list layout_cell) :=
         match l with
         | [] => u32 (n - 1) =? sy
         | c :: l => (lc_sx c =? sx) && layout_check c && go (u32 (n + (lc_sy c + 1))) l
         end) 0 cs
  | _ => true
  end.

(** [layout_assign]: the leaves take the panes in order; running out of panes
    is a NULL dereference. *)
Fixpoint layout_assign (wps : list Z) (lc : layout_cell) : option (layout_cell * list Z) :=
  match lc with
  | LC LAYOUT_WINDOWPANE _ _ _ _ _ _ =>
      match wps with
      | [] => None
      | wp :: wps => Some (layout_make_leaf wp lc, wps)
      end
  | LC t sx sy xo yo wp cs =>
      let children :=
        fix go (cs : list layout_cell) (wps : list Z) : option (list layout_cell * list Z) :=
          match cs with
          | [] => Some ([], wps)
          | c :: cs =>
              match layout_assign wps c with
              | Some (c, wps) =>
                  match go cs wps with
                  | Some (cs, wps) => Some (c :: cs, wps)
                  | None => None
                  end
              | None => None
              end
          end in
      match children cs wps with
      | Some (cs, wps) => Some (LC t sx sy xo yo wp cs, wps)
      | None => None
      end
  end.

(** [layout_fix_zindexes]. *)
Definition layout_fix_zindexes (lc : layout_cell) : list Z := omap id (leaves lc).

(** What a successful [layout_parse] leaves in the window: the layout, the
    stub cells of the floating panes, the z-order, and the new size. *)
Record parsed := Parsed {
  p_root : layout_cell;
  p_floating : list layout_cell;
  p_zindex : list Z;
  p_size : option (Z * Z)
}.

Section Parse.
Context (env : layout_env).

(** Closing cells until the layout has as many as there are panes. *)
Fixpoint parse_fit (fuel : nat) (npanes : Z) (tiled : layout_cell)
    (floating : option layout_cell) : res (layout_cell * option layout_cell) :=
  match fuel with
  | O => Undef
  | S fuel =>
      let ncells := u32 (layout_count_cells tiled +
        match floating with Some f => layout_count_cells f | None => 0 end) in
      if ncells <? npanes then
        Err ("have " +:+ fmt_u npanes +:+ " panes but need " +:+ fmt_u ncells)
      else if npanes =? ncells then Ok (tiled, floating)
      else
        match floating with
        | Some (LC _ _ _ _ _ _ (_ :: _) as f) =>
            match layout_destroy_cell env edge_none f [0%nat] with
            | Ok f => parse_fit fuel npanes tiled f
            | _ => Undef
            end
        | _ =>
            match layout_find_bottomright tiled with
            | None => Undef
            | Some p =>
                match layout_destroy_cell env edge_none tiled p with
                | Ok (Some tiled) => parse_fit fuel npanes tiled floating
                | _ => Undef
                end
            end
        end
  end.

(** The size of the top cell from its children. *)
Definition top_size (tiled : layout_cell) : Z * Z :=
  match lc_type tiled with
  | LAYOUT_LEFTRIGHT =>
      foldl (fun s c => (u32 (fst s + (lc_sx c + 1)), u32 (lc_sy c + 1))) (0, 0)
            (lc_cells tiled)
  | LAYOUT_TOPBOTTOM =>
      foldl (fun s c => (u32 (lc_sx c + 1), u32 (snd s + (lc_sy c + 1)))) (0, 0)
            (lc_cells tiled)
  | _ => (0, 0)
  end.

Definition layout_parse (w_sx w_sy : Z) (panes : list Z) (layout : string) : res parsed :=
  match scan_hx layout with
  | None => Err "invalid layout"
  | Some (csum, rest) =>
      match scan_char ","%char rest with
      | None => Undef                       (* [n] is read uninitialised *)
      | Some body =>
          if negb (Nat.eqb (String.length layout) (String.length body + 5))
          then Err "invalid layout"
          else if negb (csum =? layout_checksum body) then Err "invalid layout"
          else
            match layout_construct (S (String.length body)) body None with
            | CUndef => Undef
            | CFail _ => Err "invalid layout"
            | CDone lc floating rest =>
                let tiled :=
                  match lc with
                  | Some lc => lc
                  | None => layout_set_size w_sx w_sy 0 0
                              (set_type LAYOUT_LEFTRIGHT layout_create_cell)
                  end in
                match rest with
                | String _ _ => Err "invalid layout"
                | EmptyString =>
                    let npanes := u32 (Z.of_nat (length panes)) in
                    res_bind (parse_fit (S (String.length body)) npanes tiled floating)
                    (fun '(tiled, floating) =>
                    if decide (lc_type tiled = LAYOUT_FLOATING) then Err "invalid layout"
                    else
                      let '(sx, sy) := top_size tiled in
                      let tiled :=
                        if negb (bool_decide (lc_type tiled = LAYOUT_WINDOWPANE)) &&
                           (negb (lc_sx tiled =? sx) || negb (lc_sy tiled =? sy))
                        then set_sx (u32 (sx - 1)) (set_sy (u32 (sy - 1)) tiled)
                        else tiled in
                      if negb (layout_check tiled)
                      then Err "size mismatch after applying layout"
                      else
                        match layout_assign panes tiled with
                        | None => Undef
                        | Some (tiled', panes1) =>
                            match (match floating with
                                   | Some f => layout_assign panes1 f
                                   | None => Some (layout_create_cell, panes1)
                                   end) with
                            | None => Undef
                            | Some (f', _) =>
                                let fcells := if is_some floating then lc_cells f' else [] in
                                Ok (Parsed (layout_fix_offsets tiled') fcells
                                      (omap id (flat_map leaves fcells) ++
                                       layout_fix_zindexes tiled')
                                      (if negb (sx =? 0) && negb (sy =? 0)
                                       then Some (lc_sx tiled, lc_sy tiled) else None))
                            end
                        end)
                end
            end
      end
  end.

End Parse.
