(* ===== verification/LayoutCustomProps.v ===== *)
(** * The round trip of a layout through its string

    The string [layout_dump] makes of a window's layout, parsed by
    [layout_parse] in the same window, gives the layout back. *)
From Stdlib Require Import Ascii String.
From S2P Require Import Prelude.
From S2P Require Import CString.
From S2P Require Import Layout.
From S2P Require Import LayoutFacts.
From S2P Require Import LayoutCustom.

Lemma set_last_snoc c d buf : set_last c (buf +:+ String d "") = buf +:+ String c "".
Proof.
  unfold set_last. rewrite str_length_app; csimpl.
  replace (String.length buf + 1 - 1)%nat with (String.length buf) by lia.
  by rewrite str_take_app.
Qed.

Lemma append_fit_some buf s len buf' : append_fit buf s len = Some buf' -> buf' = buf +:+ s.
Proof.
  unfold append_fit, strlcat. destruct (Nat.ltb_spec (String.length buf + String.length s) len);
    destruct (Nat.leb_spec len (String.length buf + String.length s)); try done; try lia.
  by intros [= <-].
Qed.

(** ** The text of a layout *)

Fixpoint joined (close : ascii) (l : list string) : string :=
  match l with
  | [] => String close ""
  | [s] => s +:+ String close ""
  | s :: l => s +:+ String "," (joined close l)
  end.

Fixpoint text (lc : layout_cell) : string :=
  match lc with
  | LC t sx sy xo yo wp cs =>
      layout_cell_string (LC t sx sy xo yo wp cs) +:+
      match brackets t with
      | None => ""
      | Some (opening, closing) => String opening (joined closing (map text cs))
      end
  end.

(** The children as [layout_append] leaves them, each followed by a comma. *)
Fixpoint comma_ended (l : list string) : string :=
  match l with
  | [] => ""
  | s :: l => s +:+ String "," (comma_ended l)
  end.

Lemma joined_comma close l : l <> [] -> exists init,
  comma_ended l = init +:+ String "," "" /\ joined close l = init +:+ String close "".
Proof.
  induction l as [|s l IH]; [done|]. intros _. destruct l as [|s' l].
  - exists s. done.
  - destruct IH as (init & E1 & E2); [done|].
    exists (s +:+ String "," init). cbn [comma_ended joined] in *.
    by rewrite E1, E2, !str_app_assoc.
Qed.

Lemma layout_append_text lc : consistent lc -> forall buf len out,
  layout_append lc buf len = Some out -> out = buf +:+ text lc.
Proof.
  induction lc as [t sx sy xo yo wp cs IH] using layout_cell_ind'.
  intros Hc buf len out H. cbn [layout_append] in H.
  destruct (Nat.eqb len 0); [done|]. destruct (Nat.ltb 63 _); [done|].
  destruct (append_fit buf _ len) as [buf1|] eqn:E1; [|done].
  apply append_fit_some in E1. cbn [text].
  destruct (brackets t) as [[opening closing]|] eqn:Eb; cycle 1.
  { injection H as <-. by rewrite str_app_nil. }
  destruct (append_fit buf1 _ len) as [buf2|] eqn:E2; [|done]. csimpl in H.
  apply append_fit_some in E2.
  set (go := fix go (cs : list layout_cell) (buf : string) : option string := _) in H.
  assert (Hgo : forall l b b', (forall c, c ∈ l -> c ∈ cs) -> go l b = Some b' ->
            b' = b +:+ comma_ended (map text l)).
  { induction l as [|c l IHl]; intros b b' Hsub Hg; cbn [go] in Hg.
    - injection Hg as <-. by rewrite str_app_nil.
    - destruct (layout_append c b len) as [b1|] eqn:Ea; [|done].
      destruct (append_fit b1 "," len) as [b2|] eqn:Eb2; [|done].
      apply append_fit_some in Eb2. rewrite Forall_forall in IH.
      assert (Hcc : consistent c).
      { by eapply (consistent_child _ _ _ _ _ _ _ c LAYOUT_LEFTRIGHT Hc);
          [apply Hsub; left|left]. }
      apply (IH c ltac:(apply Hsub; by left) Hcc) in Ea.
      apply IHl in Hg; [|intros; apply Hsub; by right].
      subst. cbn [map comma_ended]. by rewrite !str_app_assoc. }
  destruct (go cs buf2) as [buf3|] eqn:E3; [|done]. csimpl in H. injection H as <-.
  apply Hgo in E3; [|done].
  destruct (joined_comma closing (map text cs)) as (init & J1 & J2).
  { inversion Hc; subst; [done|]. by destruct cs. }
  rewrite J2. subst buf3. rewrite J1, <- str_app_assoc, set_last_snoc. subst.
  rewrite !str_app_assoc. done.
Qed.

(** ** Parsing the text back *)

(** The values of a cell fit the conversions; containers have no pane. *)
Inductive dumpable : layout_cell -> Prop :=
  | dumpable_leaf sx sy xo yo id :
      0 <= sx < 4294967296 -> 0 <= sy < 4294967296 ->
      0 <= xo < 2147483648 -> 0 <= yo < 2147483648 -> 0 <= id < 4294967296 ->
      dumpable (LC LAYOUT_WINDOWPANE sx sy xo yo (Some id) [])
  | dumpable_node t sx sy xo yo cs :
      is_dir t -> cs <> [] ->
      0 <= sx < 4294967296 -> 0 <= sy < 4294967296 ->
      0 <= xo < 2147483648 -> 0 <= yo < 2147483648 ->
      Forall dumpable cs ->
      dumpable (LC t sx sy xo yo None cs).

(** The layout as parsed, before the panes are assigned. *)
Fixpoint unassign (lc : layout_cell) : layout_cell :=
  match lc with
  | LC t sx sy xo yo _ cs => LC t sx sy xo yo None (map unassign cs)
  end.

(** What may follow a cell. *)
Definition delimiter (s : string) : Prop :=
  s = ""%string \/ exists c s', s = String c s' /\
    (c = ","%char \/ c = "}"%char \/ c = "]"%char \/ c = ">"%char).

Lemma delimiter_not_digit s : delimiter s -> is_digit (hd_char s) = false.
Proof. by intros [-> | (c & s' & -> & [-> | [-> | [-> | ->]]])]. Qed.

Definition cell_tail (wp : option Z) (rest : string) : string :=
  match wp with Some id => String "," (fmt_u id +:+ rest) | None => rest end.

Lemma cell_string_app lc rest : 0 <= lc_xoff lc -> 0 <= lc_yoff lc ->
  layout_cell_string lc +:+ rest =
  fmt_u (lc_sx lc) +:+ String "x" (fmt_u (lc_sy lc) +:+ String "," (
    fmt_d (lc_xoff lc) +:+ String "," (fmt_d (lc_yoff lc) +:+ cell_tail (lc_wp lc) rest))).
Proof.
  intros Hx Hy. unfold layout_cell_string, cell_tail.
  destruct (lc_wp lc); str_norm; reflexivity.
Qed.

Lemma fmt_d_nonneg n : 0 <= n -> fmt_d n = fmt_u n.
Proof. intros. unfold fmt_d. zcases; [lia|done]. Qed.

Lemma construct_cell_text sx sy xo yo wp cs t rest :
  0 <= sx < 4294967296 -> 0 <= sy < 4294967296 ->
  0 <= xo < 2147483648 -> 0 <= yo < 2147483648 ->
  is_digit (hd_char rest) = false -> hd_char rest <> "x"%char ->
  (wp = None -> hd_char rest <> ","%char) ->
  (forall id, wp = Some id -> 0 <= id < 4294967296) ->
  layout_construct_cell (layout_cell_string (LC t sx sy xo yo wp cs) +:+ rest) =
    (Some (layout_set_size sx sy xo yo layout_create_cell), rest).
Proof.
  intros Hsx Hsy Hx Hy Hd Hnx Hnc Hid.
  rewrite cell_string_app by (cbn; lia). cbn [lc_sx lc_sy lc_xoff lc_yoff lc_wp].
  unfold layout_construct_cell. rewrite hd_fmt_u. cbn [negb].
  assert (Htd : is_digit (hd_char (cell_tail wp rest)) = false) by (by destruct wp).
  assert (Hscan : forall n c s, 0 <= n < 4294967296 -> is_digit c = false ->
    scan_u (fmt_u n +:+ String c s) = Some (n, String c s))
    by (intros; by apply scan_u_fmt_u).
  unfold scan_cell. rewrite Hscan by done. csimpl. rewrite Hscan by done. csimpl.
  rewrite scan_d_fmt_d by (done || lia). csimpl.
  rewrite scan_d_fmt_d by (done || lia). csimpl.
  rewrite !fmt_d_nonneg by lia.
  rewrite (skip_digits_fmt_u sx) by (done || lia).
  rewrite (skip_digits_fmt_u sy) by (done || lia).
  rewrite (skip_digits_fmt_u xo) by (done || lia).
  rewrite (skip_digits_fmt_u yo) by (done || lia).
  f_equal. destruct wp as [id|]; cbn [cell_tail].
  - rewrite skip_digits_fmt_u by (done || (specialize (Hid id eq_refl); lia)).
    destruct rest as [|c rest]; [done|]. csimpl in Hnx.
    destruct c as [[] [] [] [] [] [] [] []]; done.
  - destruct rest as [|c rest]; [done|]. csimpl in Hnc. specialize (Hnc eq_refl).
    destruct c as [[] [] [] [] [] [] [] []]; done.
Qed.

Lemma joined_cons close s s' l :
  joined close (s :: s' :: l) = s +:+ String "," (joined close (s' :: l)).
Proof. done. Qed.

Lemma joined_length close l s : s ∈ l -> (String.length s < String.length (joined close l))%nat.
Proof.
  induction l as [|x [|y l] IH]; [by intros ?%elem_of_nil| |].
  - intros ->%list_elem_of_singleton. cbn [joined]. rewrite str_length_app. cbn. lia.
  - rewrite joined_cons, str_length_app. intros [-> | Hin]%elem_of_cons; cbn [String.length]; [lia|].
    specialize (IH Hin). lia.
Qed.

Lemma joined_count close l : l <> [] -> (length l <= String.length (joined close l))%nat.
Proof.
  induction l as [|x [|y l] IH]; [done| |]; intros _.
  - cbn [joined]. rewrite str_length_app. cbn. lia.
  - specialize (IH ltac:(done)). rewrite joined_cons, str_length_app.
    cbn [length String.length] in *. lia.
Qed.

Lemma construct_children_text construct closing rest fl :
  (closing = "}"%char \/ closing = "]"%char) ->
  forall cs, cs <> [] ->
  (forall c r, c ∈ cs -> delimiter r ->
     construct (text c +:+ r) fl = CDone (Some (unassign c)) fl r) ->
  forall k acc x, (length cs <= k)%nat ->
  construct_children construct closing k acc fl
    (String x (joined closing (map text cs) +:+ rest)) =
  inr (acc ++ map unassign cs, fl, rest).
Proof.
  intros Hcl. induction cs as [|c cs IH]; [done|]. intros _ Hcons k acc x Hk.
  destruct k as [|k]; [cbn [length] in Hk; lia|]. cbn [length] in Hk. cbn [construct_children].
  destruct cs as [|c' cs].
  - cbn [map joined]. str_norm. rewrite Hcons; [|by left|].
    + cbn [construct_children]. rewrite (proj2 (Ascii.eqb_neq _ _)), Ascii.eqb_refl; [done|].
      by destruct Hcl as [-> | ->].
    + right. exists closing, rest. split; [done|]. tauto.
  - change (joined closing (map text (c :: c' :: cs)))
      with (text c +:+ String "," (joined closing (map text (c' :: cs)))).
    str_norm. rewrite Hcons; [|by left|].
    + rewrite Ascii.eqb_refl. rewrite IH; [|done| |cbn [length] in *; lia].
      * by rewrite <- app_assoc.
      * intros; apply Hcons; [by right|done].
    + right. exists ","%char. eexists; split; [done|]. tauto.
Qed.

(** The text of a layout is constructed back, up to the delimiter. *)
Lemma construct_text lc : dumpable lc -> forall rest fl fuel,
  delimiter rest -> (String.length (text lc) < fuel)%nat ->
  layout_construct fuel (text lc +:+ rest) fl = CDone (Some (unassign lc)) fl rest.
Proof.
  induction lc as [t sx sy xo yo wp cs IH] using layout_cell_ind'.
  intros Hd rest fl fuel Hr Hf. destruct fuel as [|fuel]; [lia|].
  inversion Hd as [? ? ? ? id|? ? ? ? ? ? Hdir Hne ? ? ? ? Hall]; subst.
  - cbn [text brackets layout_construct] in *. str_norm.
    rewrite construct_cell_text; auto using delimiter_not_digit; try done.
    + destruct Hr as [-> | (c & s' & -> & [-> | [-> | [-> | ->]]])]; reflexivity.
    + by destruct Hr as [-> | (c & s' & -> & [-> | [-> | [-> | ->]]])].
    + by intros ? [= <-].
  - assert (Hb : exists opening closing, brackets t = Some (opening, closing) /\
      (opening = "{" /\ closing = "}" /\ t = LAYOUT_LEFTRIGHT \/
       opening = "[" /\ closing = "]" /\ t = LAYOUT_TOPBOTTOM)%char).
    { destruct Hdir as [-> | ->]; do 2 eexists; (split; [reflexivity|tauto]). }
    destruct Hb as (opening & closing & Eb & Hoc).
    cbn [text layout_construct] in *. rewrite Eb in *. rewrite str_length_app in Hf.
    cbn [String.length] in Hf. str_norm.
    rewrite construct_cell_text; try done;
      [| by destruct Hoc as [(-> & _) | (-> & _)] ..].
    assert (Hch : construct_children (layout_construct fuel) closing fuel [] fl
      (String opening (joined closing (map text cs) +:+ rest)) =
      inr (map unassign cs, fl, rest)).
    { apply (construct_children_text _ closing rest fl ltac:(tauto) cs Hne) with (acc := []).
      - intros c r Hin Hdr. rewrite Forall_forall in IH, Hall.
        apply IH; auto. pose proof (joined_length closing (map text cs) (text c)
          ltac:(by apply list_elem_of_fmap_2)). lia.
      - pose proof (joined_count closing (map text cs) ltac:(by destruct cs)).
        rewrite length_map in *. lia. }
    destruct Hoc as [(-> & -> & ->) | (-> & -> & ->)]; cbv zeta; rewrite Hch; reflexivity.
Qed.

(** ** The checksum *)

Lemma hex_value_digit_app d s : 0 <= d < 16 ->
  hex_value (hd_char (String (hex_digit d) s)) = Some d.
Proof. apply hex_value_digit. Qed.

Lemma hex_digit_plain d : 0 <= d < 16 ->
  is_space (hex_digit d) = false /\ hex_digit d <> "-"%char /\ hex_digit d <> "+"%char /\
  hex_digit d <> "x"%char /\ hex_digit d <> "X"%char.
Proof.
  intros Hd. assert (H : d ∈ seqZ 0 16) by (apply elem_of_seqZ; lia).
  assert (A : Forall (fun d => is_space (hex_digit d) = false /\ hex_digit d <> "-"%char /\
    hex_digit d <> "+"%char /\ hex_digit d <> "x"%char /\ hex_digit d <> "X"%char) (seqZ 0 16)).
  { vm_compute. repeat constructor; done. }
  rewrite Forall_forall in A. by apply A.
Qed.

Lemma no_hex_prefix a b s : b <> "x"%char -> b <> "X"%char ->
  match String a (String b s) with
  | String "0" (String "x" s') | String "0" (String "X" s') => s'
  | _ => String a (String b s)
  end = String a (String b s).
Proof.
  intros Hx HX. destruct a as [[] [] [] [] [] [] [] []]; try reflexivity.
  destruct b as [[] [] [] [] [] [] [] []]; congruence.
Qed.

Lemma scan_hx_fmt csum s : 0 <= csum < 65536 -> hex_value (hd_char s) = None ->
  scan_hx (fmt_04hx csum +:+ s) = Some (csum, s).
Proof.
  intros Hc Hs. unfold fmt_04hx. str_norm.
  set (a := csum / 4096 mod 16). set (b := csum / 256 mod 16).
  set (c := csum / 16 mod 16). set (d := csum mod 16).
  assert (Ha : 0 <= a < 16) by (apply Z.mod_pos_bound; lia).
  assert (Hb : 0 <= b < 16) by (apply Z.mod_pos_bound; lia).
  assert (Hcc : 0 <= c < 16) by (apply Z.mod_pos_bound; lia).
  assert (Hd : 0 <= d < 16) by (apply Z.mod_pos_bound; lia).
  assert (E : ((a * 16 + b) * 16 + c) * 16 + d = csum).
  { unfold a, b, c, d. clear -Hc. Z.div_mod_to_equations. lia. }
  destruct (hex_digit_plain a Ha) as (A1 & A2 & A3 & _).
  destruct (hex_digit_plain b Hb) as (_ & _ & _ & B1 & B2).
  unfold scan_hx, scan_hex. cbn [skip_space]. rewrite A1.
  assert (Es : forall r, scan_sign (String (hex_digit a) r) = (false, String (hex_digit a) r)).
  { intros r. unfold scan_sign.
    destruct (hex_digit a) as [[] [] [] [] [] [] [] []]; congruence. }
  rewrite Es.
  cbv zeta. cbv beta iota. rewrite no_hex_prefix by done.
  cbn [hd_char scan_hex_digits]. rewrite !hex_value_digit by done.
  assert (Eh : scan_hex_digits csum s = (csum, s)).
  { destruct s as [|x s]; [done|]. cbn in Hs |- *. by rewrite Hs. }
  replace ((((0 * 16 + a) * 16 + b) * 16 + c) * 16 + d) with csum by lia.
  rewrite Eh. cbn [mbind option_bind]. f_equal. f_equal. unfold clamp_ulong, ULONG_MAX. zcases; [lia|].
  rewrite Z.mod_small by lia. by apply u16_small.
Qed.

Lemma checksum_range s : 0 <= layout_checksum s < 65536.
Proof.
  unfold layout_checksum.
  enough (H : forall n, 0 <= n < 65536 -> 0 <= layout_checksum_from n s < 65536) by (apply H; lia).
  induction s as [|c s IH]; intros n Hn; [done|]. apply IH, u16_range.
Qed.

(** ** The panes *)

Lemma count_cells_unassign lc : layout_count_cells (unassign lc) = layout_count_cells lc.
Proof.
  induction lc as [t sx sy xo yo wp cs IH] using layout_cell_ind'.
  destruct t; try done; csimpl;
    (induction IH as [|c cs Hc _ IHcs]; [done|]; csimpl; by rewrite Hc, IHcs).
Qed.

Lemma count_cells_leaves lc :
  layout_count_cells lc = u32 (Z.of_nat (length (leaves lc))).
Proof.
  induction lc as [t sx sy xo yo wp cs IH] using layout_cell_ind'.
  destruct t; try done; csimpl;
    (induction IH as [|c cs Hc _ IHcs]; [done|]; csimpl; rewrite Hc, IHcs, length_app;
     unfold u32; rewrite <- Zplus_mod; f_equal; lia).
Qed.

Lemma assign_unassign lc : dumpable lc -> forall wps rest,
  leaves lc = map Some wps ->
  layout_assign (wps ++ rest) (unassign lc) = Some (lc, rest).
Proof.
  induction lc as [t sx sy xo yo wp cs IH] using layout_cell_ind'. intros Hd wps rest Hl.
  inversion Hd as [|? ? ? ? ? ? Hdir Hne ? ? ? ? Hall]; subst.
  { destruct wps as [|w [|]]; csimpl in Hl; try done. by injection Hl as ->. }
  assert (Hgo : forall wps, flat_map leaves cs = map Some wps ->
    (fix go (cs : list layout_cell) (wps : list Z) : option (list layout_cell * list Z) :=
       match cs with
       | [] => Some ([], wps)
       | c :: cs =>
           match layout_assign wps c with
           | Some (c, wps) =>
               match go cs wps with
               | Some (cs, wps) => Some (c :: cs, wps)
               | None => None
               end
           | None => None
           end
       end) (map unassign cs) (wps ++ rest) = Some (cs, rest)).
  { clear Hl Hne Hd wps. induction cs as [|c cs IHcs]; intros wps Hl; csimpl in Hl.
    { by destruct wps. }
    apply Forall_cons in IH as [IHc IH]. apply Forall_cons in Hall as [Hc Hall].
    symmetry in Hl. apply fmap_app_inv in Hl as (w1 & w2 & E1 & E2 & ->).
    cbn [map]. rewrite <- app_assoc, (IHc Hc w1 (w2 ++ rest) E1).
    by rewrite (IHcs IH Hall w2 E2). }
  destruct Hdir as [-> | ->]; cbn [unassign layout_assign] in *; by rewrite Hgo.
Qed.

(** ** The checks *)

Lemma unassign_size t lc : lc_size t (unassign lc) = lc_size t lc.
Proof. by destruct lc. Qed.

Lemma unassign_span t cs : span t (map unassign cs) = span t cs.
Proof.
  unfold span. rewrite map_map. f_equal. apply map_ext. intros; by rewrite unassign_size.
Qed.

Lemma check_unassign lc : consistent lc -> fits lc -> layout_check (unassign lc) = true.
Proof.
  induction lc as [t sx sy xo yo wp cs IH] using layout_cell_ind'. intros Hc Hf.
  pose proof Hc as Hc'. inversion Hc' as [|? ? ? ? ? ? ? Hdir Hne Hall Hspan Hcross]; subst; [done|].
  assert (Hch : forall c, c ∈ cs -> layout_check (unassign c) = true).
  { intros c Hin. rewrite Forall_forall in IH. apply IH; [done| |].
    - by rewrite Forall_forall in Hall; apply Hall.
    - by eapply child_fits. }
  assert (Hpos : forall t, 1 <= lc_size t (LC t sx sy xo yo wp cs)).
  { intros t'. pose proof (consistent_pos _ Hc t'). by destruct t. }
  assert (Hlt : lc_size t (LC t sx sy xo yo wp cs) < 2147483648) by (by apply fits_size).
  clear IH Hc Hc' Hf.
  destruct Hdir as [-> | ->]; cbn [unassign layout_check];
    unfold lc_size, flip_type in *; repeat case_decide; try done; csimpl in *.
  - specialize (Hpos LAYOUT_LEFTRIGHT). csimpl in Hpos.
    match goal with |- ?f 0 _ = true =>
      assert (Hgo : forall l n, (forall c, c ∈ l -> c ∈ cs) -> Forall consistent l ->
        0 <= n -> n + span LAYOUT_LEFTRIGHT l = sx + 1 -> f n (map unassign l) = true) end.
    { induction l as [|c l IHl]; intros n Hsub Hcl Hn Hs.
      - unfold span in Hs. csimpl in Hs. apply Z.eqb_eq. unwrap. lia.
      - apply Forall_cons in Hcl as [Hc Hcl]. pose proof (span_nonneg LAYOUT_LEFTRIGHT l Hcl).
        pose proof (consistent_pos c Hc LAYOUT_LEFTRIGHT).
        rewrite span_cons in Hs. pose proof (unassign_size LAYOUT_LEFTRIGHT c).
        pose proof (unassign_size LAYOUT_TOPBOTTOM c). unfold lc_size in *; csimpl in *.
        rewrite Forall_forall in Hcross. specialize (Hcross c (Hsub c ltac:(left))).
        rewrite Hch by (apply Hsub; left).
        replace (lc_sy (unassign c) =? sy) with true by (symmetry; apply Z.eqb_eq; lia).
        csimpl. rewrite u32_small by lia. apply IHl; auto; [|lia|lia].
        intros; apply Hsub; by right. }
    by apply Hgo; auto; lia.
  - specialize (Hpos LAYOUT_TOPBOTTOM). csimpl in Hpos.
    match goal with |- ?f 0 _ = true =>
      assert (Hgo : forall l n, (forall c, c ∈ l -> c ∈ cs) -> Forall consistent l ->
        0 <= n -> n + span LAYOUT_TOPBOTTOM l = sy + 1 -> f n (map unassign l) = true) end.
    { induction l as [|c l IHl]; intros n Hsub Hcl Hn Hs.
      - unfold span in Hs. csimpl in Hs. apply Z.eqb_eq. unwrap. lia.
      - apply Forall_cons in Hcl as [Hc Hcl]. pose proof (span_nonneg LAYOUT_TOPBOTTOM l Hcl).
        pose proof (consistent_pos c Hc LAYOUT_TOPBOTTOM).
        rewrite span_cons in Hs. pose proof (unassign_size LAYOUT_LEFTRIGHT c).
        pose proof (unassign_size LAYOUT_TOPBOTTOM c). unfold lc_size in *; csimpl in *.
        rewrite Forall_forall in Hcross. specialize (Hcross c (Hsub c ltac:(left))).
        rewrite Hch by (apply Hsub; left).
        replace (lc_sx (unassign c) =? sx) with true by (symmetry; apply Z.eqb_eq; lia).
        csimpl. rewrite u32_small by lia. apply IHl; auto; [|lia|lia].
        intros; apply Hsub; by right. }
    by apply Hgo; auto; lia.
Qed.

(** The size the parser computes from the children is one more than the
    container's, so the parser writes the same size back. *)
Lemma top_size_unassign lc : consistent lc -> fits lc -> lc_type lc <> LAYOUT_WINDOWPANE ->
  exists sx sy, top_size (unassign lc) = (sx, sy) /\
    u32 (sx - 1) = lc_sx lc /\ u32 (sy - 1) = lc_sy lc /\ 0 < sx /\ 0 < sy.
Proof.
  intros Hc Hf Ht. inversion Hc as [|t sx sy xo yo wp cs Hdir Hne Hall Hspan Hcross]; subst; [done|].
  pose proof (consistent_pos _ Hc LAYOUT_LEFTRIGHT). pose proof (consistent_pos _ Hc LAYOUT_TOPBOTTOM).
  destruct Hf as [Hfx Hfy]. unfold lc_size in *; csimpl in *. exists (sx + 1), (sy + 1).
  split; [|unwrap; lia].
  assert (Hsz : forall c, lc_sx (unassign c) = lc_sx c /\ lc_sy (unassign c) = lc_sy c)
    by (by intros []).
  destruct Hdir as [-> | ->]; unfold top_size, flip_type in *; cbn [unassign lc_type lc_cells];
    repeat case_decide; try done; csimpl in *.
  - assert (Hgo : forall l n m, Forall consistent l -> Forall (fun c => lc_sy c = sy) l ->
      0 <= n -> n + span LAYOUT_LEFTRIGHT l = sx + 1 -> (l = [] -> m = sy + 1) ->
      foldl (fun s c => (u32 (fst s + (lc_sx c + 1)), u32 (lc_sy c + 1))) (n, m)
        (map unassign l) = (sx + 1, sy + 1)).
    { induction l as [|c l IHl]; intros n m Hcl Hl Hn Hs Hm; csimpl.
      - unfold span in Hs; csimpl in Hs. rewrite Hm by done. f_equal; lia.
      - apply Forall_cons in Hcl as [Hcc Hcl]. apply Forall_cons in Hl as [Hcy Hl].
        pose proof (span_nonneg LAYOUT_LEFTRIGHT l Hcl). rewrite span_cons in Hs.
        pose proof (consistent_pos c Hcc LAYOUT_LEFTRIGHT). unfold lc_size in *; csimpl in *.
        destruct (Hsz c) as [-> ->]. rewrite Hcy. rewrite !u32_small by lia.
        apply IHl; [done|done|lia|lia|intros; lia]. }
    apply Hgo; [done|done|lia|lia|done].
  - assert (Hgo : forall l n m, Forall consistent l -> Forall (fun c => lc_sx c = sx) l ->
      0 <= n -> n + span LAYOUT_TOPBOTTOM l = sy + 1 -> (l = [] -> m = sx + 1) ->
      foldl (fun s c => (u32 (lc_sx c + 1), u32 (snd s + (lc_sy c + 1)))) (m, n)
        (map unassign l) = (sx + 1, sy + 1)).
    { induction l as [|c l IHl]; intros n m Hcl Hl Hn Hs Hm; csimpl.
      - unfold span in Hs; csimpl in Hs. rewrite Hm by done. f_equal; lia.
      - apply Forall_cons in Hcl as [Hcc Hcl]. apply Forall_cons in Hl as [Hcy Hl].
        pose proof (span_nonneg LAYOUT_TOPBOTTOM l Hcl). rewrite span_cons in Hs.
        pose proof (consistent_pos c Hcc LAYOUT_TOPBOTTOM). unfold lc_size in *; csimpl in *.
        destruct (Hsz c) as [-> ->]. rewrite Hcy. rewrite !u32_small by lia.
        apply IHl; [done|done|lia|lia|intros; lia]. }
    apply Hgo; [done|done|lia|lia|done].
Qed.

(** ** The round trip *)

Lemma text_not_empty lc : exists n, is_digit (hd_char (text lc)) = true /\
  String.length (text lc) = S n.
Proof.
  destruct lc as [t sx sy xo yo wp cs]. cbn [text]. unfold layout_cell_string. cbn [lc_sx]. str_norm.
  match goal with |- context [fmt_u sx +:+ ?r] => pose proof (hd_fmt_u sx r) as H;
    destruct (fmt_u sx +:+ r) as [|c s]; [done|]; by exists (String.length s) end.
Qed.

Lemma top_size_leaf lc : lc_type lc = LAYOUT_WINDOWPANE -> top_size (unassign lc) = (0, 0).
Proof. destruct lc; cbn; by intros ->. Qed.

(** C3.  Round trip of the saved layout.  A window whose panes are all tiled,
    with a consistent layout tree whose offsets are in place and whose cells
    carry the window's panes in order, is dumped by [layout_dump] to a string
    from which [layout_parse], given as many panes, rebuilds the very same
    tree: sizes, offsets, directions, order and pane of every leaf.  It
    resizes the window to the size of the tree (it leaves it alone when the
    layout is a single pane), and the z-order becomes the pane order. *)
Theorem layout_dump_parse env w_sx w_sy z root panes s :
  consistent root -> fits root -> dumpable root ->
  layout_fix_offsets root = root ->
  leaves root = map Some panes ->
  Forall (fun wp => fst wp = false) z ->
  layout_dump z (Some root) = Some s ->
  layout_parse env w_sx w_sy panes s =
    Ok (Parsed root [] panes
      (if decide (lc_type root = LAYOUT_WINDOWPANE) then None
       else Some (lc_sx root, lc_sy root))).
Proof.
  intros Hc Hf Hd Hfix Hl Hz Hdump. unfold layout_dump in Hdump.
  apply bind_Some in Hdump as (body & Ha & Hdump).
  apply (layout_append_text _ Hc) in Ha. rewrite str_app_nil_l in Ha. subst body.
  assert (Hfl : dump_floating z false (text root) = Some (text root, false)).
  { destruct Hz as [|[b lc] z Hb]; [done|]. cbn in Hb. by subst b. }
  rewrite Hfl in Hdump. cbn in Hdump. injection Hdump as <-.
  destruct (text_not_empty root) as (n & Hdig & Hn).
  unfold layout_parse.
  rewrite scan_hx_fmt by (done || apply checksum_range). str_norm. cbn [scan_char].
  change (Ascii.eqb "," ",") with true. cbn iota.
  rewrite str_length_app. cbn [String.length]. rewrite Hn.
  change (String.length (fmt_04hx _)) with 4%nat.
  replace (Nat.eqb (4 + S (S n)) (S n + 5)) with true by (symmetry; apply Nat.eqb_eq; lia).
  rewrite Z.eqb_refl. cbn [negb].
  pose proof (construct_text root Hd "" None (S (S n)) ltac:(by left) ltac:(lia)) as Hcons.
  rewrite str_app_nil in Hcons. rewrite Hcons. cbn iota. cbv zeta.
  cbn [parse_fit]. rewrite count_cells_unassign, count_cells_leaves, Hl, length_map, Z.add_0_r.
  rewrite (u32_small (u32 _)) by apply u32_range.
  rewrite Z.ltb_irrefl, Z.eqb_refl. cbn [res_bind].
  assert (Has : layout_assign panes (unassign root) = Some (root, [])).
  { pose proof (assign_unassign root Hd panes [] Hl) as H. by rewrite app_nil_r in H. }
  assert (Hzi : layout_fix_zindexes root = panes).
  { unfold layout_fix_zindexes. rewrite Hl. clear. induction panes; csimpl; congruence. }
  assert (Hty : lc_type (unassign root) = lc_type root) by (by destruct root).
  rewrite Hty. assert (Hnf : lc_type root <> LAYOUT_FLOATING).
  { inversion Hd as [|? ? ? ? ? ? [-> | ->]]; subst; done. }
  rewrite decide_False by done.
  pose proof (check_unassign root Hc Hf) as Hck.
  destruct (decide (lc_type root = LAYOUT_WINDOWPANE)) as [Ht|Ht].
  - rewrite (top_size_leaf root Ht). rewrite bool_decide_true by done. cbn [negb andb].
    rewrite Hck. cbn [negb]. rewrite Has. cbn iota. rewrite Hfix, Hzi. done.
  - destruct (top_size_unassign root Hc Hf Ht) as (tx & ty & -> & Hx & Hy & Htx & Hty').
    rewrite bool_decide_false by done. cbn [negb andb].
    match goal with |- context [if ?b then set_sx ?x ?y else ?u] =>
      replace (if b then set_sx x y else u) with u end.
    2:{ rewrite Hx, Hy. destruct (_ || _); [|done]. by destruct root. }
    rewrite Hck. cbn [negb]. rewrite Has. cbn iota. rewrite Hfix, Hzi.
    replace (tx =? 0) with false by (symmetry; apply Z.eqb_neq; lia).
    replace (ty =? 0) with false by (symmetry; apply Z.eqb_neq; lia).
    cbn. by destruct root.
Qed.

Lemma layout_dump_parse_witness :
  let root := layout_fix_offsets
    (LC LAYOUT_TOPBOTTOM 21 13 0 0 None [
       LC LAYOUT_LEFTRIGHT 21 9 0 0 None [
         LC LAYOUT_WINDOWPANE 10 9 0 0 (Some 3) []; LC LAYOUT_WINDOWPANE 10 9 0 0 (Some 9) []];
       LC LAYOUT_WINDOWPANE 21 3 0 0 (Some 12) []]) in
  layout_dump [(false, None); (true, None)] (Some root) =
    Some "cf1d,21x13,0,0[21x9,0,0{10x9,0,0,3,10x9,11,0,9},21x3,0,10,12]"%string /\
  layout_parse (LayoutEnv PANE_STATUS_OFF false 1 0) 80 24 [3; 9; 12]
    "cf1d,21x13,0,0[21x9,0,0{10x9,0,0,3,10x9,11,0,9},21x3,0,10,12]" =
    Ok (Parsed root [] [3; 9; 12] (Some (21, 13))).
Proof.
  intros root. assert (E : layout_dump [(false, None)] (Some root) =
    Some "cf1d,21x13,0,0[21x9,0,0{10x9,0,0,3,10x9,11,0,9},21x3,0,10,12]"%string)
    by (vm_compute; reflexivity).
  split; [vm_compute; reflexivity|].
  apply (layout_dump_parse (LayoutEnv PANE_STATUS_OFF false 1 0) 80 24 [(false, None)] root).
  - apply consistentb_sound; vm_compute; reflexivity.
  - split; vm_compute; reflexivity.
  - repeat (constructor; try (vm_compute; intuition congruence)).
  - vm_compute; reflexivity.
  - vm_compute; reflexivity.
  - repeat constructor.
  - exact E.
Defined.
