(* ===== verification/Utf8.v ===== *)
(** * UTF-8 characters (src/tmux/terminal/utf8.c)

    Bytes are integers from 0 to 255 and a C string is the list of its bytes
    before the NUL.  The C library's (or utf8proc's) conversion of a multibyte
    character and its width are parameters of the functions that use them. *)
From S2P Require Import Prelude.

Definition UTF8_SIZE : nat := 32.

Record utf8_data := UD {
  ud_data : list Z;            (* [UTF8_SIZE] bytes *)
  ud_have : Z;
  ud_size : Z;
  ud_width : Z
}.

Inductive utf8_state := UTF8_MORE | UTF8_DONE | UTF8_ERROR.

#[global] Instance utf8_data_eq_dec : EqDecision utf8_data.
Proof. solve_decision. Defined.
#[global] Instance utf8_state_eq_dec : EqDecision utf8_state.
Proof. solve_decision. Defined.

Definition ud_zero : utf8_data := UD (replicate UTF8_SIZE 0) 0 0 0.

(** ** The packed character

    A character of at most three bytes is packed with its size and width; a
    longer one is an index in two trees that only grow. *)

Record utf8_table := UT {
  by_data : gmap (list Z) Z;
  by_index : gmap Z (list Z);
  utf8_next_index : Z
}.

Definition UTF8_GET_SIZE (uc : Z) : Z := Z.land (Z.shiftr uc 24) 0x1f.
Definition UTF8_GET_WIDTH (uc : Z) : Z := u8 (u32 (Z.shiftr uc 29 - 1)).
Definition UTF8_SET_SIZE (size : Z) : Z := u32 (Z.shiftl size 24).
Definition UTF8_SET_WIDTH (width : Z) : Z := u32 (Z.shiftl (width + 1) 29).

Definition utf8_put_item (t : utf8_table) (data : list Z) : option (Z * utf8_table) :=
  match by_data t !! data with
  | Some index => Some (index, t)
  | None =>
      if utf8_next_index t =? 0xffffff + 1 then None
      else
        let index := utf8_next_index t in
        Some (index, UT (<[data:=index]> (by_data t)) (<[index:=data]> (by_index t))
                        (u32 (index + 1)))
  end.

(** The bytes of a character. *)
Definition ud_bytes (ud : utf8_data) : list Z := take (Z.to_nat (ud_size ud)) (ud_data ud).

(** [None] is [fatalx]. *)
Definition utf8_from_data (t : utf8_table) (ud : utf8_data) :
    option (utf8_state * Z * utf8_table) :=
  let fail :=
    (UTF8_ERROR,
     if ud_width ud =? 0 then Z.lor (UTF8_SET_SIZE 0) (UTF8_SET_WIDTH 0)
     else if ud_width ud =? 1 then Z.lor (Z.lor (UTF8_SET_SIZE 1) (UTF8_SET_WIDTH 1)) 0x20
     else Z.lor (Z.lor (UTF8_SET_SIZE 1) (UTF8_SET_WIDTH 1)) 0x2020,
     t) in
  let pack index := Z.lor (Z.lor (UTF8_SET_SIZE (ud_size ud)) (UTF8_SET_WIDTH (ud_width ud))) index in
  if 2 <? ud_width ud then None
  else Some (
    if Z.of_nat UTF8_SIZE <? ud_size ud then fail
    else if ud_size ud <=? 3 then
      (UTF8_DONE,
       pack (Z.lor (Z.lor (Z.shiftl (nth 2 (ud_data ud) 0) 16) (Z.shiftl (nth 1 (ud_data ud) 0) 8))
                   (nth 0 (ud_data ud) 0)), t)
    else
      match utf8_put_item t (ud_bytes ud) with
      | Some (index, t) => (UTF8_DONE, pack index, t)
      | None => fail
      end).

(** [data] at the start of a zeroed buffer. *)
Definition pad_data (data : list Z) : list Z := data ++ replicate (UTF8_SIZE - length data) 0.

Definition utf8_to_data (t : utf8_table) (uc : Z) : utf8_data :=
  let size := UTF8_GET_SIZE uc in
  let data :=
    if size <=? 3 then
      pad_data [u8 uc; Z.land (Z.shiftr uc 8) 0xff; u8 (Z.shiftr uc 16)]
    else
      match by_index t !! Z.land uc 0xffffff with
      | None => pad_data (replicate (Z.to_nat size) 32)
      | Some d => pad_data (take (Z.to_nat size) d)
      end in
  UD data size size (UTF8_GET_WIDTH uc).

Definition utf8_build_one (ch : Z) : Z :=
  Z.lor (Z.lor (UTF8_SET_SIZE 1) (UTF8_SET_WIDTH 1)) ch.

Definition utf8_set (ch : Z) : utf8_data := UD (pad_data [ch]) 1 1 1.

Definition utf8_copy (from : utf8_data) : utf8_data :=
  UD (pad_data (ud_bytes from)) (ud_have from) (ud_size from) (ud_width from).

(** ** Widths *)

Definition utf8_default_width_cache : list (Z * Z) := [
  (0x261D, 2); (0x26F9, 2); (0x270A, 2); (0x270B, 2); (0x270C, 2); (0x270D, 2);
   (0x1F1E6, 1); (0x1F1E7, 1); (0x1F1E8, 1); (0x1F1E9, 1); (0x1F1EA, 1); (0x1F1EB, 1);
   (0x1F1EC, 1); (0x1F1ED, 1); (0x1F1EE, 1); (0x1F1EF, 1); (0x1F1F0, 1); (0x1F1F1, 1);
   (0x1F1F2, 1); (0x1F1F3, 1); (0x1F1F4, 1); (0x1F1F5, 1); (0x1F1F6, 1); (0x1F1F7, 1);
   (0x1F1F8, 1); (0x1F1F9, 1); (0x1F1FA, 1); (0x1F1FB, 1); (0x1F1FC, 1); (0x1F1FD, 1);
   (0x1F1FE, 1); (0x1F1FF, 1); (0x1F385, 2); (0x1F3C2, 2); (0x1F3C3, 2); (0x1F3C4, 2);
   (0x1F3C7, 2); (0x1F3CA, 2); (0x1F3CB, 2); (0x1F3CC, 2); (0x1F3FB, 2); (0x1F3FC, 2);
   (0x1F3FD, 2); (0x1F3FE, 2); (0x1F3FF, 2); (0x1F442, 2); (0x1F443, 2); (0x1F446, 2);
   (0x1F447, 2); (0x1F448, 2); (0x1F449, 2); (0x1F44A, 2); (0x1F44B, 2); (0x1F44C, 2);
   (0x1F44D, 2); (0x1F44E, 2); (0x1F44F, 2); (0x1F450, 2); (0x1F466, 2); (0x1F467, 2);
   (0x1F468, 2); (0x1F469, 2); (0x1F46B, 2); (0x1F46C, 2); (0x1F46D, 2); (0x1F46E, 2);
   (0x1F470, 2); (0x1F471, 2); (0x1F472, 2); (0x1F473, 2); (0x1F474, 2); (0x1F475, 2);
   (0x1F476, 2); (0x1F477, 2); (0x1F478, 2); (0x1F47C, 2); (0x1F481, 2); (0x1F482, 2);
   (0x1F483, 2); (0x1F485, 2); (0x1F486, 2); (0x1F487, 2); (0x1F48F, 2); (0x1F491, 2);
   (0x1F4AA, 2); (0x1F574, 2); (0x1F575, 2); (0x1F57A, 2); (0x1F590, 2); (0x1F595, 2);
   (0x1F596, 2); (0x1F645, 2); (0x1F646, 2); (0x1F647, 2); (0x1F64B, 2); (0x1F64C, 2);
   (0x1F64D, 2); (0x1F64E, 2); (0x1F64F, 2); (0x1F6A3, 2); (0x1F6B4, 2); (0x1F6B5, 2);
   (0x1F6B6, 2); (0x1F6C0, 2); (0x1F6CC, 2); (0x1F90C, 2); (0x1F90F, 2); (0x1F918, 2);
   (0x1F919, 2); (0x1F91A, 2); (0x1F91B, 2); (0x1F91C, 2); (0x1F91D, 2); (0x1F91E, 2);
   (0x1F91F, 2); (0x1F926, 2); (0x1F930, 2); (0x1F931, 2); (0x1F932, 2); (0x1F933, 2);
   (0x1F934, 2); (0x1F935, 2); (0x1F936, 2); (0x1F937, 2); (0x1F938, 2); (0x1F939, 2);
   (0x1F93D, 2); (0x1F93E, 2); (0x1F977, 2); (0x1F9B5, 2); (0x1F9B6, 2); (0x1F9B8, 2);
   (0x1F9B9, 2); (0x1F9BB, 2); (0x1F9CD, 2); (0x1F9CE, 2); (0x1F9CF, 2); (0x1F9D1, 2);
   (0x1F9D2, 2); (0x1F9D3, 2); (0x1F9D4, 2); (0x1F9D5, 2); (0x1F9D6, 2); (0x1F9D7, 2);
   (0x1F9D8, 2); (0x1F9D9, 2); (0x1F9DA, 2); (0x1F9DB, 2); (0x1F9DC, 2); (0x1F9DD, 2);
   (0x1FAC3, 2); (0x1FAC4, 2); (0x1FAC5, 2); (0x1FAF0, 2); (0x1FAF1, 2); (0x1FAF2, 2);
   (0x1FAF3, 2); (0x1FAF4, 2); (0x1FAF5, 2); (0x1FAF6, 2); (0x1FAF7, 2); (0x1FAF8, 2)].

Definition utf8_insert_width_cache (cache : gmap Z Z) (wc width : Z) : gmap Z Z :=
  <[wc:=width]> cache.

(** The cache without the user's [codepoint-widths]. *)
Definition default_widths : gmap Z Z :=
  foldl (fun cache '(wc, width) => match cache !! wc with
                                   | Some _ => cache   (* RB_INSERT keeps the old *)
                                   | None => <[wc:=width]> cache
                                   end) ∅ utf8_default_width_cache.

Section Widths.
Context (mbtowc : list Z -> option Z) (wcwidth : Z -> Z) (widths : gmap Z Z).

Definition utf8_width (ud : utf8_data) : option Z :=
  wc ← mbtowc (ud_bytes ud);
  match widths !! wc with
  | Some width => Some width
  | None =>
      let width := wcwidth wc in
      let width := if width <? 0
                   then if (0x80 <=? wc) && (wc <=? 0x9f) then 0 else 1
                   else width in
      if (0 <=? width) && (width <=? 0xff) then Some width else None
  end.

(** ** Reading characters *)

(** [None] is [fatalx]. *)
Definition utf8_append (no_width : bool) (ud : utf8_data) (ch : Z) :
    option (utf8_state * utf8_data) :=
  if ud_size ud <=? ud_have ud then None
  else if Z.of_nat UTF8_SIZE <? ud_size ud then None
  else
    let width := if negb (ud_have ud =? 0) && negb (Z.land ch 0xc0 =? 0x80)
                 then 0xff else ud_width ud in
    let ud := UD (<[Z.to_nat (ud_have ud):=ch]> (ud_data ud)) (u8 (ud_have ud + 1))
                 (ud_size ud) width in
    Some (
      if negb (ud_have ud =? ud_size ud) then (UTF8_MORE, ud)
      else if no_width then (UTF8_DONE, ud)
      else if ud_width ud =? 0xff then (UTF8_ERROR, ud)
      else
        match utf8_width ud with
        | None => (UTF8_ERROR, ud)
        | Some width => (UTF8_DONE, UD (ud_data ud) (ud_have ud) (ud_size ud) (u8 width))
        end).

Definition utf8_open (no_width : bool) (ch : Z) : option (utf8_state * utf8_data) :=
  let start size :=
    match utf8_append no_width (UD (ud_data ud_zero) 0 size 0) ch with
    | Some (_, ud) => Some (UTF8_MORE, ud)
    | None => None
    end in
  if (0xc2 <=? ch) && (ch <=? 0xdf) then start 2
  else if (0xe0 <=? ch) && (ch <=? 0xef) then start 3
  else if (0xf0 <=? ch) && (ch <=? 0xf4) then start 4
  else Some (UTF8_ERROR, ud_zero).

(** The rest of a character: bytes are appended while more are wanted and the
    string has not ended. *)
Fixpoint utf8_feed (no_width : bool) (more : utf8_state) (ud : utf8_data) (src : list Z) :
    option (utf8_state * utf8_data * list Z) :=
  match src with
  | [] => Some (more, ud, [])
  | ch :: src' =>
      match more with
      | UTF8_MORE =>
          match utf8_append no_width ud ch with
          | Some (more, ud) => utf8_feed no_width more ud src'
          | None => None
          end
      | _ => Some (more, ud, src)
      end
  end.

(** The character at the start of [ch :: src] and what follows it; [inr ()] when
    there is none (the source goes back to [ch]). *)
Definition utf8_next (no_width : bool) (ch : Z) (src : list Z) :
    option ((utf8_data * list Z) + unit) :=
  match utf8_open no_width ch with
  | None => None
  | Some (UTF8_MORE, ud) =>
      match utf8_feed no_width UTF8_MORE ud src with
      | None => None
      | Some (UTF8_DONE, ud, rest) => Some (inl (ud, rest))
      | Some _ => Some (inr tt)
      end
  | Some _ => Some (inr tt)
  end.

(** The loops over a string consume at least a byte a round: [fuel] is the
    length of the string. *)
Section Loop.
Context {A : Type} (no_width : bool) (one : utf8_data -> A -> A) (plain : Z -> list Z -> A -> A)
  (nil : A).

Fixpoint utf8_loop (fuel : nat) (src : list Z) : option A :=
  match src with
  | [] => Some nil
  | ch :: src' =>
      match fuel with
      | O => None
      | S fuel =>
          match utf8_next no_width ch src' with
          | None => None
          | Some (inl (ud, rest)) => r ← utf8_loop fuel rest; Some (one ud r)
          | Some (inr _) => r ← utf8_loop fuel src'; Some (plain ch src' r)
          end
      end
  end.
End Loop.

Definition utf8_fromcstr (src : list Z) : option (list utf8_data) :=
  utf8_loop false (fun ud l => ud :: l) (fun ch _ l => utf8_set ch :: l) [] (length src) src.

(** [char] is signed: a byte above 127 is not above 0x1f. *)
Definition sbyte (c : Z) : Z := if c <? 128 then c else c - 256.

Definition utf8_sanitize (src : list Z) : option (list Z) :=
  utf8_loop false (fun ud l => replicate (Z.to_nat (ud_width ud)) 95 ++ l)
    (fun ch _ l => (if (0x1f <? sbyte ch) && (sbyte ch <? 0x7f) then ch else 95) :: l) []
    (length src) src.

Definition utf8_cstrwidth (src : list Z) : option Z :=
  utf8_loop false (fun ud n => u32 (ud_width ud + n))
    (fun ch _ n => if (0x1f <? sbyte ch) && negb (sbyte ch =? 0x7f) then u32 (1 + n) else n) 0
    (length src) src.

Definition utf8_isvalid (src : list Z) : option bool :=
  (fix go (fuel : nat) (src : list Z) : option bool :=
     match src with
     | [] => Some true
     | ch :: src' =>
         match fuel with
         | O => None
         | S fuel =>
             match utf8_open false ch with
             | None => None
             | Some (UTF8_MORE, ud) =>
                 match utf8_feed false UTF8_MORE ud src' with
                 | None => None
                 | Some (UTF8_DONE, _, rest) => go fuel rest
                 | Some _ => Some false
                 end
             | Some _ =>
                 if (sbyte ch <? 0x20) || (0x7e <? sbyte ch) then Some false
                 else go fuel src'
             end
         end
     end) (length src) src.

Definition utf8_padcstr (s : list Z) (width : Z) : option (list Z) :=
  n ← utf8_cstrwidth s;
  Some (if width <=? n then s else s ++ replicate (Z.to_nat (width - n)) 32).

Definition utf8_rpadcstr (s : list Z) (width : Z) : option (list Z) :=
  n ← utf8_cstrwidth s;
  Some (if width <=? n then s else replicate (Z.to_nat (width - n)) 32 ++ s).

Definition utf8_cstrhas (s : list Z) (ud : utf8_data) : option bool :=
  l ← utf8_fromcstr s;
  Some (existsb (fun c => (ud_size c =? ud_size ud) && bool_decide
    (ud_bytes c = take (Z.to_nat (ud_size c)) (ud_data ud))) l).

End Widths.

(** ** Strings of characters (ended by a character of size 0) *)

Fixpoint until_empty (s : list utf8_data) : list utf8_data :=
  match s with
  | [] => []
  | ud :: s => if ud_size ud =? 0 then [] else ud :: until_empty s
  end.

Definition utf8_strlen (s : list utf8_data) : Z := Z.of_nat (length (until_empty s)).

Definition utf8_strwidth (s : list utf8_data) (n : Z) : Z :=
  let s := until_empty s in
  foldl (fun width ud => u32 (width + ud_width ud)) 0
        (if n =? -1 then s else take (Z.to_nat n) s).

Definition utf8_tocstr (s : list utf8_data) : list Z := flat_map ud_bytes (until_empty s).

(** ** Visual encoding (vis.c and utf8_strvis) *)

Definition VIS_OCTAL : Z := 0x01.
Definition VIS_CSTYLE : Z := 0x02.
Definition VIS_SP : Z := 0x04.
Definition VIS_TAB : Z := 0x08.
Definition VIS_NL : Z := 0x10.
Definition VIS_SAFE : Z := 0x20.
Definition VIS_NOSLASH : Z := 0x40.
Definition VIS_GLOB : Z := 0x100.
Definition VIS_DQ : Z := 0x200.
Definition VIS_ALL : Z := 0x400.

Definition flagged (flag bit : Z) : bool := negb (Z.land flag bit =? 0).

Definition isgraph (c : Z) : bool := (33 <=? c) && (c <=? 126).
Definition iscntrl (c : Z) : bool := (c <=? 31) || (c =? 127).
Definition isoctal (c : Z) : bool := (48 <=? u8 c) && (u8 c <=? 55).
Definition isalpha (c : Z) : bool :=
  ((65 <=? c) && (c <=? 90)) || ((97 <=? c) && (c <=? 122)).

(** A star, a question mark, an opening bracket and a hash. *)
Definition isglob (c : Z) : bool := (c =? 42) || (c =? 63) || (c =? 91) || (c =? 35).

Definition isvisible (c flag : Z) : bool :=
  ((c =? 92) || negb (flagged flag VIS_ALL)) &&
  (((0 <=? c) && (c <? 128) && (negb (isglob c) || negb (flagged flag VIS_GLOB)) && isgraph c) ||
   (negb (flagged flag VIS_SP) && (c =? 32)) ||
   (negb (flagged flag VIS_TAB) && (c =? 9)) ||
   (negb (flagged flag VIS_NL) && (c =? 10)) ||
   (flagged flag VIS_SAFE && ((c =? 8) || (c =? 7) || (c =? 13) || isgraph (u8 c)))).

Definition vis_cstyle (c nextc : Z) : option (list Z) :=
  if c =? 10 then Some [92; 110]
  else if c =? 13 then Some [92; 114]
  else if c =? 8 then Some [92; 98]
  else if c =? 7 then Some [92; 97]
  else if c =? 11 then Some [92; 118]
  else if c =? 9 then Some [92; 116]
  else if c =? 12 then Some [92; 102]
  else if c =? 32 then Some [92; 115]
  else if c =? 0 then Some ([92; 48] ++ if isoctal nextc then [48; 48] else [])
  else None.

(** The bytes written for [c] (a signed char). *)
Definition vis (c flag nextc : Z) : list Z :=
  if isvisible c flag then
    (if ((c =? 34) && flagged flag VIS_DQ) || ((c =? 92) && negb (flagged flag VIS_NOSLASH))
     then [92] else []) ++ [u8 c]
  else
    match (if flagged flag VIS_CSTYLE then vis_cstyle c nextc else None) with
    | Some l => l
    | None =>
        if (Z.land c 127 =? 32) || flagged flag VIS_OCTAL || (flagged flag VIS_GLOB && isglob c)
        then [92; Z.land (Z.shiftr (u8 c) 6) 7 + 48; Z.land (Z.shiftr (u8 c) 3) 7 + 48;
              Z.land (u8 c) 7 + 48]
        else
          let slash := if flagged flag VIS_NOSLASH then [] else [92] in
          let meta := negb (Z.land c 128 =? 0) in
          let c := if meta then Z.land c 127 else c in
          slash ++ (if meta then [77] else []) ++
          (if iscntrl (u8 c) then [94; if c =? 127 then 63 else u8 (c + 64)] else [45; u8 c])
    end.

Section Strvis.
Context (mbtowc : list Z -> option Z) (wcwidth : Z -> Z) (widths : gmap Z Z).

Definition utf8_strvis (src : list Z) (flag : Z) : option (list Z) :=
  utf8_loop mbtowc wcwidth widths false (fun ud l => ud_bytes ud ++ l)
    (fun ch rest l =>
       match rest with
       | next :: _ =>
           if flagged flag VIS_DQ && (ch =? 36) then
             (if isalpha next || (next =? 95) || (next =? 123) then [92] else []) ++ [36] ++ l
           else vis (sbyte ch) flag (sbyte next) ++ l
       | [] => vis (sbyte ch) flag 0 ++ l
       end) [] (length src) src.

End Strvis.
