(* ===== verification/Utf8Props.v ===== *)
(** * UTF-8 characters and strings: facts and properties *)
From S2P Require Import Prelude.
From S2P Require Import Utf8.

(** ** The packed character *)

(** What the table must satisfy: the two trees agree and the index is fresh. *)
Record table_ok (t : utf8_table) : Prop := {
  tab_data : forall d i, by_data t !! d = Some i -> by_index t !! i = Some d;
  tab_index : forall i d, by_index t !! i = Some d -> 0 <= i < utf8_next_index t;
  tab_next : 0 <= utf8_next_index t <= 0x1000000
}.

(** A character as [utf8_copy] and [utf8_set] make them: bytes past the size
    are zero.  31 bytes is what the size field of a packed character holds. *)
Record ud_ok (ud : utf8_data) : Prop := {
  ok_length : length (ud_data ud) = UTF8_SIZE;
  ok_bytes : Forall (fun b => 0 <= b < 256) (ud_data ud);
  ok_size : 0 <= ud_size ud <= 31;
  ok_width : 0 <= ud_width ud <= 2;
  ok_zero : drop (Z.to_nat (ud_size ud)) (ud_data ud) =
            replicate (UTF8_SIZE - Z.to_nat (ud_size ud)) 0
}.

(** Unpacking always gives a character that has been read whole. *)
Definition ud_whole (ud : utf8_data) : utf8_data :=
  UD (ud_data ud) (ud_size ud) (ud_size ud) (ud_width ud).

Lemma pack_sum size width index : 0 <= size < 32 -> 0 <= width <= 2 ->
  0 <= index < 16777216 ->
  Z.lor (Z.lor (UTF8_SET_SIZE size) (UTF8_SET_WIDTH width)) index =
    (width + 1) * 536870912 + size * 16777216 + index.
Proof.
  intros Hs Hw Hi. unfold UTF8_SET_SIZE, UTF8_SET_WIDTH.
  rewrite !Z.shiftl_mul_pow2 by lia. change (2 ^ 24) with 16777216. change (2 ^ 29) with 536870912.
  unwrap. rewrite (Z.lor_comm (size * _)).
  change 536870912 with (2 ^ 29). rewrite lor_shifted by lia.
  replace ((width + 1) * 2 ^ 29 + size * 16777216) with (((width + 1) * 32 + size) * 2 ^ 24) by lia.
  rewrite lor_shifted by lia. lia.
Qed.

Lemma pack_fields size width index : 0 <= size < 32 -> 0 <= width <= 2 ->
  0 <= index < 16777216 ->
  let uc := Z.lor (Z.lor (UTF8_SET_SIZE size) (UTF8_SET_WIDTH width)) index in
  UTF8_GET_SIZE uc = size /\ UTF8_GET_WIDTH uc = width /\ Z.land uc 0xffffff = index /\
  0 <= uc < 4294967296.
Proof.
  intros Hs Hw Hi. cbv zeta. rewrite pack_sum by done.
  unfold UTF8_GET_SIZE, UTF8_GET_WIDTH. rewrite !Z.shiftr_div_pow2 by lia.
  change 0x1f with (2 ^ 5 - 1). change 0xffffff with (2 ^ 24 - 1). rewrite !land_mask by lia.
  change (2 ^ 24) with 16777216. change (2 ^ 29) with 536870912. change (2 ^ 5) with 32.
  split_and!; [| |Z.div_mod_to_equations; lia|lia|lia].
  - Z.div_mod_to_equations; lia.
  - replace (((width + 1) * 536870912 + size * 16777216 + index) / 536870912) with (width + 1)
      by (Z.div_mod_to_equations; lia).
    unwrap. lia.
Qed.

Lemma three_bytes a b c : 0 <= a < 256 -> 0 <= b < 256 -> 0 <= c < 256 ->
  Z.lor (Z.lor (Z.shiftl c 16) (Z.shiftl b 8)) a = c * 65536 + b * 256 + a.
Proof.
  intros Ha Hb Hc. rewrite (Z.shiftl_mul_pow2 b) by lia.
  rewrite lor_shiftl by lia. replace (c * 2 ^ 16 + b * 2 ^ 8) with ((c * 256 + b) * 2 ^ 8) by lia.
  rewrite lor_shifted by lia. lia.
Qed.

(** ** Items *)

Lemma put_item_ok t data : table_ok t ->
  match utf8_put_item t data with
  | Some (i, t') =>
      table_ok t' /\ 0 <= i < 16777216 /\ by_index t' !! i = Some data /\
      by_index t ⊆ by_index t'
  | None => utf8_next_index t = 0x1000000 /\ by_data t !! data = None
  end.
Proof.
  intros Ht. pose proof Ht as [Hd Hi Hn]. unfold utf8_put_item.
  destruct (by_data t !! data) as [i|] eqn:E.
  { pose proof (Hd _ _ E) as E'. pose proof (Hi _ _ E'). split_and!; [done|lia|lia|done|reflexivity]. }
  destruct (Z.eqb_spec (utf8_next_index t) (0xffffff + 1)) as [Hz|Hz]; [split; [lia|done]|].
  assert (Hfresh : by_index t !! utf8_next_index t = None).
  { destruct (by_index t !! utf8_next_index t) eqn:E'; [|done].
    apply Hi in E'. lia. }
  unwrap. split_and!; cbn; try lia; [|by simplify_map_eq|by apply insert_subseteq].
  split; cbn; [| |lia].
  - intros d i H. destruct (decide (d = data)) as [-> | Hne].
    + simplify_map_eq. by simplify_map_eq.
    + rewrite lookup_insert_ne in H by done. pose proof (Hd _ _ H) as H'.
      pose proof (Hi _ _ H'). rewrite lookup_insert_ne by lia. done.
  - intros i d H. destruct (decide (i = utf8_next_index t)) as [-> | Hne]; [lia|].
    rewrite lookup_insert_ne in H by done. apply Hi in H. lia.
Qed.

Lemma pad_ok (ud : utf8_data) n : ud_ok ud -> (Z.to_nat (ud_size ud) <= n)%nat ->
  pad_data (take n (ud_data ud)) = ud_data ud.
Proof.
  intros [] Hn. unfold pad_data. rewrite length_take, ok_length0.
  rewrite <- (take_drop n (ud_data ud)) at 2. f_equal.
  replace n with (Z.to_nat (ud_size ud) + (n - Z.to_nat (ud_size ud)))%nat at 2 by lia.
  rewrite <- drop_drop, ok_zero0, drop_replicate. f_equal. unfold UTF8_SIZE in *. lia.
Qed.

Lemma ud_bytes_pad ud : ud_ok ud -> pad_data (ud_bytes ud) = ud_data ud.
Proof. intros. by apply pad_ok. Qed.

(** The characters already packed do not change as the table grows. *)
Definition known (t : utf8_table) (uc : Z) : Prop :=
  UTF8_GET_SIZE uc <= 3 \/ is_Some (by_index t !! Z.land uc 0xffffff).

Lemma to_data_mono t t' uc : by_index t ⊆ by_index t' -> known t uc ->
  utf8_to_data t' uc = utf8_to_data t uc.
Proof.
  intros Hsub Hk. unfold utf8_to_data. destruct (Z.leb_spec (UTF8_GET_SIZE uc) 3); [done|].
  destruct Hk as [Hk|[d Hd]]; [lia|]. by rewrite (lookup_weaken _ _ _ _ Hd Hsub), Hd.
Qed.

Lemma small_data ud : ud_ok ud -> ud_size ud <= 3 ->
  ud_data ud = pad_data [nth 0 (ud_data ud) 0; nth 1 (ud_data ud) 0; nth 2 (ud_data ud) 0].
Proof.
  intros Hok Hs. pose proof (pad_ok ud 3 Hok) as H. rewrite <- H by lia. destruct Hok.
  destruct (ud_data ud) as [|a [|b [|c l]]]; [done..|]. reflexivity.
Qed.

(** Packing a character and unpacking it gives it back; the characters packed
    before are unpacked as before; packing fails only for a character longer
    than three bytes that is not interned when the table is full. *)
Lemma from_data_ok t ud : table_ok t -> ud_ok ud ->
  match utf8_from_data t ud with
  | None => False
  | Some (UTF8_DONE, uc, t') =>
      table_ok t' /\ utf8_to_data t' uc = ud_whole ud /\ known t' uc /\ 0 <= uc < 4294967296 /\
      by_index t ⊆ by_index t'
  | Some (_, uc, t') =>
      t' = t /\ 3 < ud_size ud /\ utf8_next_index t = 0x1000000 /\
      by_data t !! ud_bytes ud = None
  end.
Proof.
  intros Ht Hok. pose proof Hok as [Hl Hb Hs Hw Hz]. unfold utf8_from_data.
  destruct (Z.ltb_spec 2 (ud_width ud)); [lia|].
  destruct (Z.ltb_spec (Z.of_nat UTF8_SIZE) (ud_size ud)); [unfold UTF8_SIZE in *; lia|].
  assert (Hnth : forall k, 0 <= nth k (ud_data ud) 0 < 256).
  { intros k. destruct (nth_in_or_default k (ud_data ud) 0) as [Hin | ->]; [|lia].
    rewrite Forall_forall in Hb. by apply Hb, list_elem_of_In. }
  destruct (Z.leb_spec (ud_size ud) 3) as [H3|H3].
  - rewrite three_bytes by auto.
    pose proof (Hnth 0%nat). pose proof (Hnth 1%nat). pose proof (Hnth 2%nat).
    set (a := nth 0 (ud_data ud) 0) in *. set (b := nth 1 (ud_data ud) 0) in *.
    set (c := nth 2 (ud_data ud) 0) in *.
    destruct (pack_fields (ud_size ud) (ud_width ud) (c * 65536 + b * 256 + a))
      as (E1 & E2 & E3 & E4); [lia..|].
    split_and!; [done| |left; lia|lia|lia|reflexivity].
    unfold utf8_to_data. rewrite E1, E2. rewrite (proj2 (Z.leb_le _ _)) by lia.
    rewrite pack_sum in * by lia.
    set (uc := (ud_width ud + 1) * 536870912 + ud_size ud * 16777216 + (c * 65536 + b * 256 + a)).
    assert (Ea : u8 uc = a) by (unfold u8, uc; Z.div_mod_to_equations; lia).
    assert (Eb : Z.land (Z.shiftr uc 8) 0xff = b).
    { change 0xff with (2 ^ 8 - 1). rewrite land_mask, Z.shiftr_div_pow2 by lia.
      change (2 ^ 8) with 256. unfold uc. Z.div_mod_to_equations; lia. }
    assert (Ec : u8 (Z.shiftr uc 16) = c).
    { unfold u8. rewrite Z.shiftr_div_pow2 by lia. change (2 ^ 16) with 65536.
      unfold uc. Z.div_mod_to_equations; lia. }
    rewrite Ea, Eb, Ec. unfold a, b, c. rewrite <- small_data by done.
    done.
  - pose proof (put_item_ok t (ud_bytes ud) Ht) as Hp.
    destruct (utf8_put_item t (ud_bytes ud)) as [[i t']|] eqn:Ep; [|by destruct Hp].
    destruct Hp as (Ht' & Hi & Hidx & Hsub).
    destruct (pack_fields (ud_size ud) (ud_width ud) i) as (E1 & E2 & E3 & E4); [lia..|].
    split_and!; [done| |right; rewrite E3; by eexists|lia|lia|done].
    unfold utf8_to_data. rewrite E1, E2, E3, Hidx. rewrite (proj2 (Z.leb_gt _ _)) by lia.
    unfold ud_bytes. rewrite take_take, Nat.min_id. rewrite pad_ok by (done || lia).
    done.
Qed.

(** ** Reading a character *)

Lemma length_pad l : (length l <= UTF8_SIZE)%nat -> length (pad_data l) = UTF8_SIZE.
Proof. intros. unfold pad_data. rewrite length_app, length_replicate. lia. Qed.

Lemma pad_insert l ch : (length l < UTF8_SIZE)%nat ->
  <[length l:=ch]> (pad_data l) = pad_data (l ++ [ch]).
Proof.
  intros H. unfold pad_data. rewrite insert_app_r_alt by lia. rewrite Nat.sub_diag.
  replace (UTF8_SIZE - length l)%nat with (S (UTF8_SIZE - length (l ++ [ch])))
    by (rewrite length_app; cbn [length]; lia).
  cbn. by rewrite <- app_assoc.
Qed.

Definition continuation (ch : Z) : Prop := Z.land ch 0xc0 = 0x80.

Section Read.
Context (mbtowc : list Z -> option Z) (wcwidth : Z -> Z) (widths : gmap Z Z).
Notation append := (utf8_append mbtowc wcwidth widths).
Notation feed := (utf8_feed mbtowc wcwidth widths).
Notation next := (utf8_next mbtowc wcwidth widths).
Notation loop := (utf8_loop mbtowc wcwidth widths).

(** A character of [n] bytes of which [pre] have been read. *)
Record reading (ud : utf8_data) (n : Z) (pre : list Z) : Prop := {
  rd_size : ud_size ud = n;
  rd_n : 2 <= n <= 4;
  rd_have : ud_have ud = Z.of_nat (length pre);
  rd_data : ud_data ud = pad_data pre
}.

(** It can only end with a width when every byte after the first continues it. *)
Definition clean (ud : utf8_data) (pre : list Z) : Prop :=
  ud_width ud = 0xff \/ Forall continuation (tail pre).

Lemma append_ok nw ud n pre ch : reading ud n pre -> Z.of_nat (length pre) < n ->
  clean ud pre ->
  exists more ud', append nw ud ch = Some (more, ud') /\ reading ud' n (pre ++ [ch]) /\
    (more = UTF8_MORE -> Z.of_nat (length pre) + 1 < n /\ clean ud' (pre ++ [ch])) /\
    (Z.of_nat (length pre) + 1 < n -> more = UTF8_MORE) /\
    (more = UTF8_DONE -> nw = false -> Forall continuation (tail (pre ++ [ch]))).
Proof.
  intros [Hs Hn Hh Hd] Hlt Hclean. unfold utf8_append.
  destruct (Z.leb_spec (ud_size ud) (ud_have ud)); [lia|].
  destruct (Z.ltb_spec (Z.of_nat UTF8_SIZE) (ud_size ud)); [unfold UTF8_SIZE in *; lia|].
  rewrite Hh, Nat2Z.id, Hd, pad_insert by (unfold UTF8_SIZE; lia).
  rewrite u8_small by lia.
  set (width := if _ && _ then 0xff else ud_width ud).
  assert (Hc : width = 0xff \/ Forall continuation (tail (pre ++ [ch]))).
  { unfold width. destruct (Z.eqb_spec (Z.of_nat (length pre)) 0) as [E|E]; cbn [negb andb].
    - right. destruct pre; [|cbn in E; lia]. constructor.
    - destruct (Z.eqb_spec (Z.land ch 0xc0) 0x80); cbn [negb]; [|by left].
      destruct Hclean as [-> | Hf]; [by left|]. right.
      destruct pre; [cbn in E; lia|]. cbn in *. apply Forall_app. by repeat constructor. }
  assert (Hr : forall w, reading (UD (pad_data (pre ++ [ch])) (Z.of_nat (length pre) + 1)
                                   (ud_size ud) w) n (pre ++ [ch])).
  { intros w. split; cbn; try done. rewrite length_app; cbn; lia. }
  cbn [ud_have ud_size ud_width ud_data].
  destruct (Z.eqb_spec (Z.of_nat (length pre) + 1) (ud_size ud)) as [E|E]; cbn [negb].
  2:{ do 2 eexists. split_and!; [done|done| |done|done].
      intros _. split; [lia|exact Hc]. }
  destruct nw.
  { do 2 eexists. split_and!; [done|done|done|lia|done]. }
  destruct (Z.eqb_spec width 0xff) as [Ew|Ew].
  { do 2 eexists. split_and!; [done|done|done|lia|done]. }
  destruct Hc as [|Hc]; [done|].
  destruct (utf8_width _ _ _ _); do 2 eexists; (split_and!; [done|apply Hr|done|lia|done]).
Qed.

Lemma feed_ok nw src : forall ud n pre, reading ud n pre -> Z.of_nat (length pre) < n ->
  clean ud pre ->
  exists more ud' pre' rest, feed nw UTF8_MORE ud src = Some (more, ud', rest) /\
    src = pre' ++ rest /\ reading ud' n (pre ++ pre') /\
    (more <> UTF8_MORE -> Z.of_nat (length (pre ++ pre')) = n) /\
    (more = UTF8_MORE -> rest = [] /\ Z.of_nat (length (pre ++ pre')) < n) /\
    (more = UTF8_DONE -> nw = false -> Forall continuation (tail (pre ++ pre'))).
Proof.
  induction src as [|ch src IH]; intros ud n pre Hr Hlt Hc; cbn [utf8_feed].
  { exists UTF8_MORE, ud, [], []. rewrite !app_nil_r. split_and!; first [done | congruence]. }
  destruct (append_ok nw ud n pre ch Hr Hlt Hc) as (more & ud' & -> & Hr' & Hm & Hm' & Hd).
  destruct (decide (more = UTF8_MORE)) as [-> | Hne].
  - destruct (Hm eq_refl) as [Hlt' Hc'].
    destruct (IH ud' n (pre ++ [ch]) Hr') as (more2 & ud2 & pre2 & rest & E & -> & Hr2 & H1 & H2 & H3);
      [rewrite length_app; cbn; lia|done|].
    exists more2, ud2, (ch :: pre2), rest. rewrite <- app_assoc in *. split_and!; done.
  - exists more, ud', [ch], src. split_and!; try done.
    + destruct src, more; done.
    + intros _. rewrite length_app; cbn. destruct (decide (Z.of_nat (length pre) + 1 < n)); [|lia].
      by rewrite Hm' in Hne.
Qed.

Lemma open_ok nw ch :
  (exists n ud, utf8_open mbtowc wcwidth widths nw ch = Some (UTF8_MORE, ud) /\
     reading ud n [ch] /\ clean ud [ch] /\ 0xc2 <= ch <= 0xf4) \/
  utf8_open mbtowc wcwidth widths nw ch = Some (UTF8_ERROR, ud_zero).
Proof.
  unfold utf8_open.
  assert (H : forall n, 2 <= n <= 4 -> 0xc2 <= ch <= 0xf4 -> exists n' ud,
    match append nw (UD (ud_data ud_zero) 0 n 0) ch with
    | Some (_, ud) => Some (UTF8_MORE, ud) | None => None end = Some (UTF8_MORE, ud) /\
     reading ud n' [ch] /\ clean ud [ch] /\ 0xc2 <= ch <= 0xf4).
  { intros n Hn Hch. destruct (append_ok nw (UD (ud_data ud_zero) 0 n 0) n [] ch)
      as (more & ud & -> & Hr & Hm & Hm' & _); [by split|cbn; lia|right; constructor|].
    exists n, ud. split_and!; try done; try lia. right. constructor. }
  repeat match goal with |- context [(?a <=? ch) && (ch <=? ?b)] =>
    destruct (Z.leb_spec a ch), (Z.leb_spec ch b); cbn [andb] end;
    first [by right | left; apply H; lia].
Qed.

(** A character found in a string. *)
Record char (nw : bool) (ud : utf8_data) : Prop := {
  char_size : 2 <= ud_size ud <= 4;
  char_have : ud_have ud = ud_size ud;
  char_length : Z.of_nat (length (ud_bytes ud)) = ud_size ud;
  char_data : ud_data ud = pad_data (ud_bytes ud);
  char_first : exists ch l, ud_bytes ud = ch :: l /\ 0xc2 <= ch <= 0xf4 /\
                 (nw = false -> Forall continuation l)
}.

Lemma reading_bytes ud n pre : reading ud n pre -> Z.of_nat (length pre) = n ->
  ud_bytes ud = pre.
Proof.
  intros [Hs Hn Hh Hd] Hl. unfold ud_bytes, pad_data in *. rewrite Hs, Hd.
  rewrite take_app_le by lia. rewrite firstn_all2; [done|lia].
Qed.

Lemma next_ok nw ch src :
  (exists ud rest, next nw ch src = Some (inl (ud, rest)) /\ char nw ud /\
     ch :: src = ud_bytes ud ++ rest) \/
  next nw ch src = Some (inr tt).
Proof.
  unfold utf8_next. destruct (open_ok nw ch) as [(n & ud & -> & Hr & Hc & Hch) | ->]; [|by right].
  destruct (feed_ok nw src ud n [ch] Hr) as (more & ud' & pre & rest & -> & -> & Hr' & H1 & H2 & H3);
    [destruct Hr; cbn; lia|done|].
  destruct more; [by right| |by right]. left. exists ud', rest. split; [done|].
  assert (Hb : ud_bytes ud' = [ch] ++ pre) by (eapply reading_bytes; [done|by apply H1]).
  rewrite Hb. split; [|done]. specialize (H1 ltac:(done)). destruct Hr'.
  split; rewrite ?Hb; [lia|lia|lia|done|].
  exists ch, pre. split_and!; [done|lia|lia|]. intros Hnw. by apply (H3 eq_refl).
Qed.

(** Induction over the loops of a string: they return, and a property kept by
    each character and each other byte holds of the result. *)
Lemma loop_ind {A} nw (one : utf8_data -> A -> A) plain nil (P : list Z -> A -> Prop) :
  P [] nil ->
  (forall ud rest r, char nw ud -> P rest r -> P (ud_bytes ud ++ rest) (one ud r)) ->
  (forall ch rest r, P rest r -> P (ch :: rest) (plain ch rest r)) ->
  forall fuel src, (length src <= fuel)%nat ->
  exists r, loop nw one plain nil fuel src = Some r /\ P src r.
Proof.
  intros Hnil Hone Hplain. induction fuel as [|fuel IH]; intros [|ch src] Hf; cbn in Hf; try lia;
    [by exists nil..|]. cbn [utf8_loop].
  destruct (next_ok nw ch src) as [(ud & rest & -> & Hc & E) | ->].
  - assert (Hl : (length rest <= fuel)%nat).
    { pose proof (f_equal length E) as H. rewrite length_app in H. cbn in H.
      pose proof (char_length _ _ Hc). pose proof (char_size _ _ Hc). lia. }
    destruct (IH rest Hl) as (r & -> & Hr). exists (one ud r). split; [done|].
    rewrite E. by apply Hone.
  - destruct (IH src) as (r & -> & Hr); [lia|]. exists (plain ch src r). split; [done|]. auto.
Qed.

End Read.

(** C26. Packing a character ([utf8_from_data]) and unpacking it
    ([utf8_to_data]) gives it back (as one read whole), for every character of
    at most 31 bytes;
    the characters packed earlier still unpack to the same bytes, and the table
    keeps its invariant.  Packing fails only for a character longer than three
    bytes that is not in a full table. *)
Theorem utf8_data_roundtrip t ud : table_ok t -> ud_ok ud ->
  match utf8_from_data t ud with
  | None => False
  | Some (UTF8_DONE, uc, t') =>
      table_ok t' /\ utf8_to_data t' uc = ud_whole ud /\ 0 <= uc < 4294967296 /\
      forall old, known t old -> known t' old /\ utf8_to_data t' old = utf8_to_data t old
  | Some (_, _, t') =>
      t' = t /\ 3 < ud_size ud /\ utf8_next_index t = 0x1000000 /\
      by_data t !! ud_bytes ud = None
  end.
Proof.
  intros Ht Hok. pose proof (from_data_ok t ud Ht Hok) as H.
  destruct (utf8_from_data t ud) as [[[[] uc] t']|]; [done| |done|done].
  destruct H as (Ht' & E & Hk & Hr & Hsub). split_and!; [done|done|lia|lia|]. intros old Hold. split.
  - destruct Hold as [|[d Hd]]; [by left|]. right. exists d. by eapply lookup_weaken.
  - by apply to_data_mono.
Qed.

Lemma utf8_data_roundtrip_witness :
  let t := UT ∅ ∅ 0 in
  let ud := UD (pad_data [0xf0; 0x9f; 0x98; 0x80]) 4 4 2 in
  match utf8_from_data t ud with
  | Some (UTF8_DONE, uc, t') => utf8_to_data t' uc = ud
  | _ => False
  end.
Proof.
  intros t ud. assert (Ht : table_ok t).
  { split; cbn; [intros d i H; by rewrite lookup_empty in H
                |intros i d H; by rewrite lookup_empty in H|lia]. }
  assert (Hok : ud_ok ud).
  { split; cbn; try reflexivity; try lia. repeat (constructor; [lia|]). constructor. }
  pose proof (utf8_data_roundtrip t ud Ht Hok) as H.
  destruct (utf8_from_data t ud) as [[[[] uc] t']|] eqn:E; try (vm_compute in E; discriminate E).
  destruct H as (_ & H & _). exact H.
Defined.

(** A character of 32 bytes, which [utf8_from_data] accepts
    ([UTF8_SIZE] is 32), does not survive: its size overflows the five bits of
    the packed size into the width, and it unpacks to an empty character. *)
Theorem utf8_size_32_lost data width : length data = 32%nat -> 0 <= width <= 2 ->
  let ud := UD data 32 32 width in
  match utf8_from_data (UT ∅ ∅ 0) ud with
  | Some (UTF8_DONE, uc, t') => ud_size (utf8_to_data t' uc) = 0
  | _ => False
  end.
Proof.
  intros Hl Hw ud. unfold utf8_from_data. cbn [ud_width ud_size ud].
  destruct (Z.ltb_spec 2 width); [lia|].
  change (Z.of_nat UTF8_SIZE <? 32) with false. change (32 <=? 3) with false. cbn iota.
  unfold utf8_put_item, ud_bytes. cbn [by_data utf8_next_index ud_data ud].
  rewrite lookup_empty. change (0 =? 0xffffff + 1) with false. cbn iota.
  unfold utf8_to_data. cbn [ud_size]. unfold UTF8_GET_SIZE.
  assert (Hcase : width = 0 \/ width = 1 \/ width = 2) by lia.
  destruct Hcase as [-> | [-> | ->]]; reflexivity.
Qed.

Lemma utf8_size_32_lost_witness :
  let ud := UD (replicate 32 0x41) 32 32 1 in
  match utf8_from_data (UT ∅ ∅ 0) ud with
  | Some (UTF8_DONE, uc, t') => ud_size (utf8_to_data t' uc) = 0
  | _ => False
  end.
Proof. apply (utf8_size_32_lost (replicate 32 0x41) 1); [reflexivity|lia]. Defined.

Section Strings.
Context (mbtowc : list Z -> option Z) (wcwidth : Z -> Z) (widths : gmap Z Z).
Notation fromcstr := (utf8_fromcstr mbtowc wcwidth widths).
Notation cstrwidth := (utf8_cstrwidth mbtowc wcwidth widths).
Notation loop := (utf8_loop mbtowc wcwidth widths).
Notation feed := (utf8_feed mbtowc wcwidth widths).
Notation next := (utf8_next mbtowc wcwidth widths).

Lemma fromcstr_back src : exists l, fromcstr src = Some l /\
  utf8_tocstr l = src /\ Forall (fun ud => 1 <= ud_size ud <= 4) l /\
  utf8_strlen l = Z.of_nat (length l).
Proof.
  destruct (loop_ind mbtowc wcwidth widths false (fun ud l => ud :: l)
    (fun ch _ l => utf8_set ch :: l) [] (fun src l =>
      flat_map ud_bytes l = src /\ Forall (fun ud => 1 <= ud_size ud <= 4) l)) with
    (fuel := length src) (src := src) as (l & E & Hl & Hs); try done.
  - intros ud rest l Hc [<- Hl]. split; [done|]. constructor; [|done].
    pose proof (char_size _ _ Hc). lia.
  - intros ch rest l [<- Hl]. split; [done|]. by constructor.
  - assert (He : until_empty l = l).
    { clear E Hl. induction Hs as [|ud l Hu _ IH]; [done|]. cbn.
      destruct (Z.eqb_spec (ud_size ud) 0); [lia|]. by rewrite IH. }
    exists l. unfold utf8_tocstr, utf8_strlen. rewrite He. done.
Qed.

(** [utf8_fromcstr] returns on every string of bytes, valid UTF-8 or not,
    its characters are not empty, and [utf8_tocstr] gives the string back. *)
Theorem utf8_cstr_roundtrip src : exists l, fromcstr src = Some l /\
  utf8_tocstr l = src /\ Forall (fun ud => 1 <= ud_size ud <= 4) l /\
  utf8_strlen l = Z.of_nat (length l).
Proof. apply fromcstr_back. Qed.

Lemma feed_app nw src sp : forall more ud, feed nw more ud (src ++ sp) =
  match feed nw more ud src with
  | Some (more, ud, []) => feed nw more ud sp
  | Some (more, ud, rest) => Some (more, ud, rest ++ sp)
  | None => None
  end.
Proof.
  induction src as [|ch src IH]; intros more ud; cbn [utf8_feed app]; [done|].
  destruct more; [|done..]. destruct (utf8_append _ _ _ _ _ _) as [[more ud']|]; [|done]. apply IH.
Qed.

Lemma next_spaces ch src k :
  next false ch (src ++ replicate k 32) =
  match next false ch src with
  | Some (inl (ud, rest)) => Some (inl (ud, rest ++ replicate k 32))
  | r => r
  end.
Proof.
  unfold utf8_next. destruct (open_ok mbtowc wcwidth widths false ch)
    as [(n & ud & -> & Hr & Hc & Hch) | ->]; [|done].
  assert (Hlt : Z.of_nat (length [ch]) < n) by (destruct Hr; cbn; lia).
  destruct (feed_ok mbtowc wcwidth widths false src ud n [ch] Hr Hlt Hc)
    as (more & ud1 & pre1 & rest1 & E1 & Hsrc & Hr1 & _ & HM & _).
  destruct (feed_ok mbtowc wcwidth widths false (src ++ replicate k 32) ud n [ch] Hr Hlt Hc)
    as (more2 & ud2 & pre2 & rest2 & E2 & Hsrc2 & Hr2 & Hn2 & _ & HD2).
  rewrite E2. pose proof (feed_app false src (replicate k 32) UTF8_MORE ud) as Ha.
  rewrite E1, E2 in Ha. rewrite E1. destruct (decide (more = UTF8_MORE)) as [-> | Hne].
  - destruct (HM eq_refl) as [-> Hlt1]. destruct more2; [done| |done]. exfalso.
    specialize (HD2 eq_refl eq_refl). specialize (Hn2 ltac:(done)).
    rewrite app_nil_r in Hsrc. subst pre1. cbn in HD2.
    assert (Hl : (length src < length pre2)%nat) by (rewrite !length_app in *; cbn in *; lia).
    assert (Hx : pre2 !! length src = Some 32).
    { destruct (lookup_lt_is_Some_2 pre2 (length src) Hl) as [x Hx]. rewrite Hx.
      pose proof (lookup_app_l_Some pre2 rest2 _ _ Hx) as Hy. rewrite <- Hsrc2 in Hy.
      rewrite lookup_app_r, lookup_replicate in Hy by lia. destruct Hy as [-> _]. done. }
    rewrite Forall_lookup in HD2. specialize (HD2 _ _ Hx). discriminate HD2.
  - destruct more; [done| |]; destruct rest1 as [|x rest1]; cbn in Ha;
      try (injection Ha as -> -> ->; done).
    + destruct (replicate k 32); injection Ha as -> -> ->; done.
    + destruct (replicate k 32); injection Ha as -> -> ->; done.
Qed.

Lemma loop_mono {A} nw (one : utf8_data -> A -> A) plain nil : forall f f' src r,
  (f <= f')%nat -> loop nw one plain nil f src = Some r -> loop nw one plain nil f' src = Some r.
Proof.
  induction f as [|f IH]; intros f' [|ch src] r Hf H; try done;
    [by destruct f'|by destruct f'|]. destruct f' as [|f']; [lia|]. cbn [utf8_loop] in *.
  destruct (next nw ch src) as [[[ud rest]|]|]; [| |done];
    apply bind_Some in H as (r' & H & E); by rewrite (IH f' _ _ ltac:(lia) H).
Qed.

(** The width of a string, with fuel. *)
Notation wloop := (loop false (fun ud n => u32 (ud_width ud + n))
    (fun ch _ n => if (0x1f <? sbyte ch) && negb (sbyte ch =? 0x7f) then u32 (1 + n) else n) 0).

Lemma cstrwidth_total src : exists w, cstrwidth src = Some w /\ 0 <= w < 4294967296.
Proof.
  apply (loop_ind mbtowc wcwidth widths false _ _ _ (fun _ w => 0 <= w < 4294967296));
    [lia|intros; apply u32_range| |lia].
  intros ch _ r Hr. destruct (_ && _); [apply u32_range|done].
Qed.

Lemma u32_add a b : u32 (a + u32 b) = u32 (a + b).
Proof. unfold u32. by rewrite Zplus_mod_idemp_r. Qed.

Lemma width_space k fuel src w : wloop fuel (replicate k 32 ++ src) = Some w ->
  wloop (S fuel) (32 :: replicate k 32 ++ src) = Some (u32 (1 + w)).
Proof. intros H. cbn. by rewrite H. Qed.

Lemma width_left k : forall fuel src w, 0 <= w < 4294967296 -> wloop fuel src = Some w ->
  wloop (k + fuel) (replicate k 32 ++ src) = Some (u32 (Z.of_nat k + w)).
Proof.
  induction k as [|k IH]; intros fuel src w Hw H; cbn [replicate app Nat.add].
  { rewrite H. f_equal. unwrap. lia. }
  rewrite (width_space _ _ _ _ (IH _ _ _ Hw H)), u32_add. do 2 f_equal. lia.
Qed.

Lemma width_right k : forall fuel src w, wloop fuel src = Some w ->
  0 <= w < 4294967296 /\
  wloop (k + fuel) (src ++ replicate k 32) = Some (u32 (w + Z.of_nat k)).
Proof.
  assert (H0 : forall fuel, wloop (k + fuel) (replicate k 32) = Some (u32 (Z.of_nat k))).
  { intros fuel. pose proof (width_left k fuel [] 0 ltac:(lia)) as H.
    rewrite app_nil_r, Z.add_0_r in H. apply H. by destruct fuel. }
  induction fuel as [|fuel IH]; intros [|ch src] w H; cbn [utf8_loop] in H; try done.
  1,2: injection H as <-; split; [lia|]; rewrite Z.add_0_l; apply H0.
  rewrite Nat.add_succ_r. cbn [app utf8_loop]. rewrite next_spaces.
  destruct (next false ch src) as [[[ud rest]|]|]; [| |done];
    apply bind_Some in H as (r & H & [= <-]); apply IH in H as [Hr H]; rewrite H; cbn.
  - split; [apply u32_range|]. f_equal. unfold u32.
    rewrite !Zplus_mod_idemp_r, Zplus_mod_idemp_l. f_equal. lia.
  - destruct (_ && _); [|done]. split; [apply u32_range|]. f_equal. unfold u32.
    rewrite !Zplus_mod_idemp_r, Zplus_mod_idemp_l. f_equal. lia.
Qed.

(** [utf8_padcstr] and [utf8_rpadcstr] return for every string, whatever
    its bytes; a string as wide as asked for is unchanged, another one gets
    spaces (after it, before it) and is then exactly as wide as asked for. *)
Theorem utf8_pad_width src width : 0 <= width < 4294967296 ->
  exists n left right, cstrwidth src = Some n /\
    utf8_padcstr mbtowc wcwidth widths src width = Some left /\
    utf8_rpadcstr mbtowc wcwidth widths src width = Some right /\
    cstrwidth left = Some (Z.max n width) /\ cstrwidth right = Some (Z.max n width) /\
    left = src ++ replicate (Z.to_nat (width - n)) 32 /\
    right = replicate (Z.to_nat (width - n)) 32 ++ src.
Proof.
  intros Hw. destruct (cstrwidth_total src) as (n & E & Hn).
  unfold utf8_padcstr, utf8_rpadcstr. rewrite E. cbn.
  exists n. remember (Z.to_nat (width - n)) as k eqn:Ek.
  assert (Hl : cstrwidth (src ++ replicate k 32) = Some (u32 (n + Z.of_nat k))).
  { unfold utf8_cstrwidth. rewrite length_app, length_replicate, Nat.add_comm.
    by apply width_right. }
  assert (Hr : cstrwidth (replicate k 32 ++ src) = Some (u32 (Z.of_nat k + n))).
  { unfold utf8_cstrwidth. rewrite length_app, length_replicate. by apply width_left. }
  destruct (Z.leb_spec width n).
  - assert (Hk : k = 0%nat) by lia. clear Ek. subst k. exists src, src.
    rewrite Z.max_l by lia. split_and!; try done. symmetry. apply app_nil_r.
  - eexists _, _. split_and!; [done..| | |done|done]; [rewrite Hl|rewrite Hr];
      rewrite Z.max_r by lia; f_equal; unwrap; lia.
Qed.

(** C28. The visual encoding needs at most four bytes for each byte, so the
    buffer of [4 * strlen + 1] bytes of [utf8_stravis] is always enough. *)
Theorem utf8_strvis_bound src flag : exists dst,
  utf8_strvis mbtowc wcwidth widths src flag = Some dst /\
  (length dst <= 4 * length src)%nat.
Proof.
  assert (Hvis : forall c next, (length (vis c flag next) <= 4)%nat).
  { intros c nx. unfold vis. destruct (isvisible c flag).
    - destruct (_ || _); cbn; lia.
    - destruct (if flagged flag VIS_CSTYLE then vis_cstyle c nx else None) as [l|] eqn:E.
      + destruct (flagged flag VIS_CSTYLE); [|done]. unfold vis_cstyle in E.
        repeat (case_match; [injection E as <-; cbn; lia|]).
        case_match; [|done]. injection E as <-. destruct (isoctal nx); cbn; lia.
      + destruct (_ || _); [cbn; lia|].
        destruct (flagged flag VIS_NOSLASH), (negb _); cbn; destruct (iscntrl _); cbn; lia. }
  apply (loop_ind mbtowc wcwidth widths false _ _ _
    (fun src dst => (length dst <= 4 * length src)%nat)); [cbn; lia| | |lia].
  - intros ud rest r Hc Hr. rewrite !length_app. lia.
  - intros ch rest r Hr. cbn [length]. destruct rest as [|nx rest].
    + rewrite length_app. specialize (Hvis (sbyte ch) 0). lia.
    + destruct (_ && _); rewrite !length_app.
      * destruct (_ || _); cbn in *; lia.
      * specialize (Hvis (sbyte ch) (sbyte nx)). cbn in *. lia.
Qed.

End Strings.

(** A conversion for ASCII and a two-byte character, to try them on. *)
Definition mbtowc_sample (l : list Z) : option Z :=
  match l with
  | [a] => Some a
  | [a; b] => Some (Z.land a 31 * 64 + Z.land b 63)
  | _ => None
  end.

Lemma utf8_pad_width_witness :
  exists n left right,
    utf8_cstrwidth mbtowc_sample (fun _ => 1) ∅ [97; 0xc3; 0xa9; 0xc3] = Some n /\
    utf8_padcstr mbtowc_sample (fun _ => 1) ∅ [97; 0xc3; 0xa9; 0xc3] 4 = Some left /\
    utf8_rpadcstr mbtowc_sample (fun _ => 1) ∅ [97; 0xc3; 0xa9; 0xc3] 4 = Some right /\
    utf8_cstrwidth mbtowc_sample (fun _ => 1) ∅ left = Some (Z.max n 4).
Proof.
  destruct (utf8_pad_width mbtowc_sample (fun _ => 1) ∅ [97; 0xc3; 0xa9; 0xc3] 4 ltac:(lia))
    as (n & l & r & H1 & H2 & H3 & H4 & _). exists n, l, r. auto.
Defined.
