(* ===== verification/CellCodec.v ===== *)
(** * What the grid asks of the packed characters

    An extended cell of the grid keeps its character packed in a [utf8_char].
    The grid only relies on these laws; [Utf8Codec] of a table discharges
    them for [utf8_from_data] and [utf8_to_data]. *)
From S2P Require Import Prelude.
From S2P Require Import Utf8.
From S2P Require Import Utf8Props.

Class CellCodec := {
  pack : utf8_data -> Z;                   (* [utf8_from_data] *)
  unpack : Z -> utf8_data;                 (* [utf8_to_data] *)
  packable : utf8_data -> Prop;
  unpack_pack ud : packable ud -> unpack (pack ud) = ud_whole ud;
  packable_one ch have : 0 <= ch < 256 -> packable (UD (pad_data [ch]) have 1 1);
  unpack_one ch : 0 <= ch < 256 -> unpack (utf8_build_one ch) = utf8_set ch
}.

(** The characters that can be packed in a table without growing it. *)
Definition interned (t : utf8_table) (ud : utf8_data) : Prop :=
  ud_ok ud /\ (ud_size ud <= 3 \/ is_Some (by_data t !! ud_bytes ud)).

Definition table_pack (t : utf8_table) (ud : utf8_data) : Z :=
  match utf8_from_data t ud with Some (_, uc, _) => uc | None => 0 end.

Lemma table_pack_ok t ud : table_ok t -> interned t ud ->
  exists uc, utf8_from_data t ud = Some (UTF8_DONE, uc, t) /\ utf8_to_data t uc = ud_whole ud.
Proof.
  intros Ht [Hok Hi]. pose proof (from_data_ok t ud Ht Hok) as H.
  assert (Hsame : forall s uc t', utf8_from_data t ud = Some (s, uc, t') -> t' = t).
  { intros s uc t'. unfold utf8_from_data. destruct Hok.
    destruct (Z.ltb_spec 2 (ud_width ud)); [lia|].
    destruct (Z.ltb_spec (Z.of_nat UTF8_SIZE) (ud_size ud)); [unfold UTF8_SIZE in *; lia|].
    destruct (Z.leb_spec (ud_size ud) 3) as [H3|H3]; [by intros [= _ _ <-]|].
    destruct Hi as [Hi|[i Hi]]; [lia|]. unfold utf8_put_item. rewrite Hi. by intros [= _ _ <-]. }
  destruct (utf8_from_data t ud) as [[[[] uc] t']|] eqn:E; [| | |done].
  1,3: destruct H as (_ & H3 & _ & Hn); destruct Hi as [Hi|[i Hi]]; [lia|congruence].
  destruct H as (_ & Hu & _). pose proof (Hsame _ _ _ eq_refl) as ->. by exists uc.
Qed.

Lemma set_ok ch : 0 <= ch < 256 -> ud_ok (utf8_set ch).
Proof.
  intros H. split; cbn; try done; try lia.
  repeat (constructor; [lia|]). constructor.
Qed.

Lemma table_one t ch : table_ok t -> 0 <= ch < 256 -> utf8_to_data t (utf8_build_one ch) = utf8_set ch.
Proof.
  intros Ht Hch. change (utf8_set ch) with (ud_whole (utf8_set ch)).
  destruct (table_pack_ok t (utf8_set ch) Ht) as (uc & E & <-).
  { split; [by apply set_ok|left; cbn; lia]. }
  f_equal. unfold utf8_from_data in E. cbn [ud_width ud_size utf8_set] in E.
  change (2 <? 1) with false in E. change (Z.of_nat UTF8_SIZE <? 1) with false in E.
  change (1 <=? 3) with true in E. cbn in E. injection E as <-.
  unfold utf8_build_one. by rewrite Z.lor_0_l.
Qed.

Lemma interned_one t ch have : 0 <= ch < 256 -> interned t (UD (pad_data [ch]) have 1 1).
Proof. intros H. destruct (set_ok ch H). split; [by split|left; cbn; lia]. Qed.

(** The codec of a table. *)
Definition Utf8Codec (t : utf8_table) (Ht : table_ok t) : CellCodec := {|
  pack := table_pack t;
  unpack := utf8_to_data t;
  packable := interned t;
  unpack_pack ud H := ltac:(unfold table_pack;
    destruct (table_pack_ok t ud Ht H) as (uc & E & Hu); rewrite E; exact Hu);
  packable_one ch have H := interned_one t ch have H;
  unpack_one ch H := table_one t ch Ht H
|}.

(** ** Instances *)

Lemma empty_table_ok : table_ok (UT ∅ ∅ 0).
Proof.
  split; cbn; [intros d i H|intros i d H|lia]; by rewrite lookup_empty in H.
Qed.

(** The characters of at most three bytes, packed in an empty table. *)
Definition plain_codec : CellCodec := Utf8Codec (UT ∅ ∅ 0) empty_table_ok.
