(* ===== verification/Locale.v ===== *)
(** * The locale: names and titles (src/tmux/core/tmux.c)

    The conversion of a multibyte character to a wide one and its width belong
    to the C library; the widths the user has set are a table. *)
From Stdlib Require Import Ascii String.
From S2P Require Import Prelude.
From S2P Require Import CString.
From S2P Require Import Utf8.

(** What the C library says of characters, and the widths an option gives. *)
Class Locale := {
  loc_mbtowc : list Z -> option Z;
  loc_wcwidth : Z -> Z;
  loc_widths : gmap Z Z
}.

Definition bytes_of_string (s : string) : list Z := map code (list_ascii_of_string s).
Definition string_of_bytes (l : list Z) : string :=
  string_of_list_ascii (map (fun c => ascii_of_N (Z.to_N c)) l).

Section Locale.
Context `{Locale}.

(** [clean_name]: NULL for a name that is empty or not valid. *)
Definition clean_name (name forbid : string) : option (option string) :=
  match name with
  | EmptyString => Some None
  | _ =>
      valid ← utf8_isvalid loc_mbtowc loc_wcwidth loc_widths (bytes_of_string name);
      if negb valid then Some None
      else
        let copy := map (fun c => if bool_decide (c ∈ bytes_of_string forbid) then 95 else c)
                      (bytes_of_string name) in
        new_name ← utf8_strvis loc_mbtowc loc_wcwidth loc_widths copy (Z.lor VIS_OCTAL (Z.lor VIS_CSTYLE (Z.lor VIS_TAB VIS_NL)));
        Some (Some (string_of_bytes new_name))
  end.

End Locale.

(** A locale without multibyte characters. *)
Definition ascii_locale : Locale :=
  {| loc_mbtowc := fun _ => None; loc_wcwidth := fun _ => 1; loc_widths := ∅ |}.

(** ** Bytes and strings *)

Lemma string_of_bytes_of_string s : string_of_bytes (bytes_of_string s) = s.
Proof.
  unfold string_of_bytes, bytes_of_string. induction s as [|c s IH]; [done|]. cbn.
  rewrite IH. f_equal. unfold code. rewrite N2Z.id. apply ascii_N_embedding.
Qed.

Lemma bytes_app a b : bytes_of_string (a +:+ b) = bytes_of_string a ++ bytes_of_string b.
Proof. unfold bytes_of_string. induction a as [|c a IH]; [done|]. cbn. by rewrite <- IH. Qed.

Lemma dec_bytes f : forall n acc, Forall (fun ch => 48 <= ch <= 57 \/ ch ∈ bytes_of_string acc)
  (bytes_of_string (dec_aux f n acc)).
Proof.
  induction f as [|f IH]; intros n acc; [apply Forall_forall; auto|].
  change (dec_aux (S f) n acc) with (let acc := String (digit (n mod 10)) acc in
                                     if n <? 10 then acc else dec_aux f (n / 10) acc). cbv zeta.
  pose proof (Z.mod_pos_bound n 10 ltac:(lia)).
  assert (Hd : forall ch, ch ∈ bytes_of_string (String (digit (n mod 10)) acc) ->
            48 <= ch <= 57 \/ ch ∈ bytes_of_string acc).
  { intros ch Hin. apply elem_of_cons in Hin as [->|Hin]; [left; rewrite code_digit; lia|by right]. }
  destruct (n <? 10); [apply Forall_forall; exact Hd|].
  eapply Forall_impl; [apply IH|]. intros ch [?|?]; [by left|by apply Hd].
Qed.

(** The digits of a number. *)
Lemma fmt_u_bytes n : Forall (fun ch => 48 <= ch <= 57) (bytes_of_string (fmt_u n)).
Proof.
  eapply Forall_impl; [apply dec_bytes|]. intros ch [?|Hin]; [done|]. by apply elem_of_nil in Hin.
Qed.

Lemma dec_length f : forall n acc, (String.length (dec_aux f n acc) <= f + String.length acc)%nat.
Proof.
  induction f as [|f IH]; intros n acc; [done|].
  change (dec_aux (S f) n acc) with (let acc := String (digit (n mod 10)) acc in
                                     if n <? 10 then acc else dec_aux f (n / 10) acc). cbv zeta.
  destruct (n <? 10); [cbn; lia|]. etransitivity; [apply IH|]. cbn. lia.
Qed.

Lemma bytes_length s : length (bytes_of_string s) = String.length s.
Proof. unfold bytes_of_string. induction s as [|c s IH]; [done|]. cbn. by rewrite <- IH. Qed.

Lemma fmt_u_length n : (length (bytes_of_string (fmt_u n)) <= 20)%nat.
Proof. rewrite bytes_length. unfold fmt_u. pose proof (dec_length 20 n ""). cbn in *. lia. Qed.
