(* ===== verification/Paste.v ===== *)
(** * Paste buffers (src/tmux/ui/paste.c)

    The buffers are objects known by an address; each is in a tree ordered by
    name and in one ordered by age, the newest first.  A tree is the list of
    its members in order.  [notify_paste_buffer], which tells control clients,
    is the list [p_notified]. *)
From Stdlib Require Import Ascii String.
From S2P Require Import Prelude.
From S2P Require Import CString.
From S2P Require Import Utf8.
From S2P Require Import Locale.

Record paste_buffer := PB {
  pb_data : list Z;
  pb_name : string;
  pb_created : Z;
  pb_automatic : bool;
  pb_order : Z
}.

(** The static variables. *)
Record paste_state := PS {
  paste_next_index : Z;
  paste_next_order : Z;
  paste_num_automatic : Z;
  p_heap : gmap Z paste_buffer;
  paste_by_name : list Z;
  paste_by_time : list Z;
  p_notified : list (string * bool)
}.

Definition paste_init : paste_state := PS 0 0 0 ∅ [] [] [].

Definition paste_cmp_names (a b : paste_buffer) : Z :=
  strcmp (bytes_of_string (pb_name a)) (bytes_of_string (pb_name b)).
Definition paste_cmp_times (a b : paste_buffer) : Z :=
  if pb_order b <? pb_order a then -1 else if pb_order a <? pb_order b then 1 else 0.

(** ** Trees *)

Definition object (s : paste_state) (id : Z) : paste_buffer :=
  default (PB [] "" 0 false 0) (p_heap s !! id).

(** [RB_INSERT] of an object: one equal to it stays instead. *)
Fixpoint rb_insert (cmp : paste_buffer -> paste_buffer -> Z) (get : Z -> paste_buffer) (id : Z)
    (l : list Z) : list Z :=
  match l with
  | [] => [id]
  | x :: l' =>
      let c := cmp (get id) (get x) in
      if c <? 0 then id :: l else if c =? 0 then l else x :: rb_insert cmp get id l'
  end.

Definition rb_remove (id : Z) (l : list Z) : list Z := filter (fun x => x <> id) l.

Definition insert_name (id : Z) (s : paste_state) : paste_state :=
  PS (paste_next_index s) (paste_next_order s) (paste_num_automatic s) (p_heap s)
    (rb_insert paste_cmp_names (object s) id (paste_by_name s)) (paste_by_time s) (p_notified s).
Definition insert_time (id : Z) (s : paste_state) : paste_state :=
  PS (paste_next_index s) (paste_next_order s) (paste_num_automatic s) (p_heap s)
    (paste_by_name s) (rb_insert paste_cmp_times (object s) id (paste_by_time s)) (p_notified s).
Definition remove_name (id : Z) (s : paste_state) : paste_state :=
  PS (paste_next_index s) (paste_next_order s) (paste_num_automatic s) (p_heap s)
    (rb_remove id (paste_by_name s)) (paste_by_time s) (p_notified s).
Definition remove_time (id : Z) (s : paste_state) : paste_state :=
  PS (paste_next_index s) (paste_next_order s) (paste_num_automatic s) (p_heap s)
    (paste_by_name s) (rb_remove id (paste_by_time s)) (p_notified s).
Definition set_heap (h : gmap Z paste_buffer) (s : paste_state) : paste_state :=
  PS (paste_next_index s) (paste_next_order s) (paste_num_automatic s) h
    (paste_by_name s) (paste_by_time s) (p_notified s).
Definition set_num_automatic (n : Z) (s : paste_state) : paste_state :=
  PS (paste_next_index s) (paste_next_order s) (u32 n) (p_heap s)
    (paste_by_name s) (paste_by_time s) (p_notified s).
Definition set_next_index (n : Z) (s : paste_state) : paste_state :=
  PS (u32 n) (paste_next_order s) (paste_num_automatic s) (p_heap s)
    (paste_by_name s) (paste_by_time s) (p_notified s).
Definition set_next_order (n : Z) (s : paste_state) : paste_state :=
  PS (paste_next_index s) (u32 n) (paste_num_automatic s) (p_heap s)
    (paste_by_name s) (paste_by_time s) (p_notified s).

Definition notify_paste_buffer (name : string) (deleted : bool) (s : paste_state) : paste_state :=
  PS (paste_next_index s) (paste_next_order s) (paste_num_automatic s) (p_heap s)
    (paste_by_name s) (paste_by_time s) (p_notified s ++ [(name, deleted)]).

(** ** Operations *)

(** The one after a buffer, or the newest. *)
Fixpoint next_of (id : Z) (l : list Z) : option Z :=
  match l with
  | x :: l => if x =? id then head l else next_of id l
  | [] => None
  end.
Definition paste_walk (pb : option Z) (s : paste_state) : option Z :=
  match pb with None => head (paste_by_time s) | Some id => next_of id (paste_by_time s) end.

Definition paste_is_empty (s : paste_state) : bool :=
  match paste_by_time s with [] => true | _ => false end.

(** The most recent automatic buffer. *)
Definition paste_get_top (s : paste_state) : option Z :=
  head (filter (fun id => pb_automatic (object s id) = true) (paste_by_time s)).

Definition paste_get_name (name : string) (s : paste_state) : option Z :=
  match name with
  | EmptyString => None
  | _ => snd <$> list_find (fun id =>
           strcmp (bytes_of_string name) (bytes_of_string (pb_name (object s id))) = 0) (paste_by_name s)
  end.

Definition paste_free (id : Z) (s : paste_state) : paste_state :=
  let pb := object s id in
  let s := notify_paste_buffer (pb_name pb) true s in
  let s := remove_time id (remove_name id s) in
  let s := if pb_automatic pb then set_num_automatic (paste_num_automatic s - 1) s else s in
  set_heap (delete id (p_heap s)) s.

(** The automatic buffers, oldest first, while there are [limit] of them. *)
Fixpoint free_oldest (limit : Z) (l : list Z) (s : paste_state) : paste_state :=
  match l with
  | [] => s
  | id :: l =>
      if paste_num_automatic s <? limit then s
      else free_oldest limit l (if pb_automatic (object s id) then paste_free id s else s)
  end.

(** A name that is not used yet; the index goes on. *)
Fixpoint new_name (fuel : nat) (prefix : string) (s : paste_state) : string * paste_state :=
  let name := prefix +:+ fmt_u (paste_next_index s) in
  let s := set_next_index (paste_next_index s + 1) s in
  match fuel with
  | O => (name, s)
  | S fuel =>
      match paste_get_name name s with
      | Some _ => new_name fuel prefix s
      | None => (name, s)
      end
  end.

(** An object at a new address, with the next order. *)
Definition new_buffer (data : list Z) (name : string) (now : Z) (automatic : bool) (s : paste_state) :
    Z * paste_state :=
  let id := fresh (dom (p_heap s)) in
  (id, set_next_order (paste_next_order s + 1)
         (set_heap (<[id := PB data name now automatic (paste_next_order s)]> (p_heap s)) s)).

Definition insert_buffer (id : Z) (s : paste_state) : paste_state :=
  notify_paste_buffer (pb_name (object s id)) false (insert_time id (insert_name id s)).

(** [limit] is the option buffer-limit. *)
Definition paste_add (limit : Z) (prefix : option string) (data : list Z) (now : Z) (s : paste_state) :
    paste_state :=
  let prefix := default "buffer"%string prefix in
  match data with
  | [] => s
  | _ =>
      let s := free_oldest limit (reverse (paste_by_time s)) s in
      let '(name, s) := new_name (S (length (paste_by_name s))) prefix s in
      let s := set_num_automatic (paste_num_automatic s + 1) s in
      let '(id, s) := new_buffer data name now true s in
      insert_buffer id s
  end.

Section Names.
Context `{Locale}.

(** The result and the cause of an error.  [None] is undefined behaviour of the
    conversions of characters. *)
Definition paste_rename (oldname newname : option string) (s : paste_state) :
    option (Z * option string * paste_state) :=
  let fail cause := Some (-1, Some cause, s) in
  match default ""%string oldname, default ""%string newname with
  | EmptyString, _ => fail "no buffer"%string
  | _, EmptyString => fail "new name is empty"%string
  | oldname, newname =>
      name ← clean_name newname "";
      match name with
      | None => fail ("invalid buffer name: " +:+ newname)%string
      | Some name =>
          match paste_get_name oldname s with
          | None => fail ("no buffer " +:+ oldname)%string
          | Some pb =>
              let pb_new := paste_get_name name s in
              if decide (pb_new = Some pb) then Some (0, None, s)
              else
                let s := match pb_new with Some other => paste_free other s | None => s end in
                let s := remove_name pb s in
                let o := object s pb in
                let s := if pb_automatic o then set_num_automatic (paste_num_automatic s - 1) s else s in
                let s := set_heap (<[pb := PB (pb_data o) name (pb_created o) false (pb_order o)]> (p_heap s)) s in
                let s := insert_name pb s in
                let s := notify_paste_buffer oldname true s in
                Some (0, None, notify_paste_buffer name false s)
          end
      end
  end.

Definition paste_set (limit : Z) (data : list Z) (name : option string) (now : Z) (s : paste_state) :
    option (Z * option string * paste_state) :=
  match data, name with
  | [], _ => Some (0, None, s)
  | _, None => Some (0, None, paste_add limit None data now s)
  | _, Some EmptyString => Some (-1, Some "empty buffer name"%string, s)
  | _, Some name =>
      newname ← clean_name name "";
      match newname with
      | None => Some (-1, Some ("invalid buffer name: " +:+ name)%string, s)
      | Some newname =>
          let '(id, s) := new_buffer data newname now false s in
          let s := match paste_get_name newname s with Some old => paste_free old s | None => s end in
          Some (0, None, insert_buffer id s)
      end
  end.

Definition paste_replace (id : Z) (data : list Z) (s : paste_state) : paste_state :=
  let o := object s id in
  notify_paste_buffer (pb_name o) false
    (set_heap (<[id := PB data (pb_name o) (pb_created o) (pb_automatic o) (pb_order o)]> (p_heap s)) s).

(** The start of a buffer, at most 200 bytes of it and of what is shown. *)
Definition paste_make_sample (id : Z) (s : paste_state) : option (list Z) :=
  let width := 200%nat in
  let data := pb_data (object s id) in
  buf ← utf8_strvis loc_mbtowc loc_wcwidth loc_widths (take width data)
          (Z.lor VIS_OCTAL (Z.lor VIS_CSTYLE (Z.lor VIS_TAB VIS_NL)));
  Some (if ((width <? length data) || (width <? length buf))%nat && (width <=? length buf)%nat
        then take width buf ++ [46; 46; 46] else buf).

End Names.
