(* ===== verification/PasteProps.v ===== *)
(** * The properties of paste buffers *)
From Stdlib Require Import Ascii String Sorted Permutation.
From stdpp Require Import sorting.
From S2P Require Import Prelude.
From S2P Require Import CString.
From S2P Require Import Utf8.
From S2P Require Import Utf8Props.
From S2P Require Import Locale.
From S2P Require Import Paste.

(** ** The invariant *)

Definition automatic (s : paste_state) (id : Z) : Prop := pb_automatic (object s id) = true.
#[global] Instance automatic_dec s id : Decision (automatic s id).
Proof. unfold automatic. apply _. Defined.
Definition count_automatic (s : paste_state) (l : list Z) : Z :=
  Z.of_nat (length (filter (automatic s) l)).
Definition newer (s : paste_state) (a b : Z) : Prop := pb_order (object s b) < pb_order (object s a).

(** Both trees hold the buffers there are; names are not shared; the newest
    comes first; the automatic ones are counted. *)
Record paste_ok (s : paste_state) : Prop := PasteOk {
  po_names : forall id, id ∈ paste_by_name s <-> is_Some (p_heap s !! id);
  po_names_nodup : NoDup (paste_by_name s);
  po_times : forall id, id ∈ paste_by_time s <-> is_Some (p_heap s !! id);
  po_sorted : StronglySorted (newer s) (paste_by_time s);
  po_unique : forall i j, i ∈ paste_by_name s -> j ∈ paste_by_name s ->
    pb_name (object s i) = pb_name (object s j) -> i = j;
  po_orders : forall id, id ∈ paste_by_time s -> 0 <= pb_order (object s id) < paste_next_order s;
  po_range : 0 <= paste_next_order s < 4294967296;
  po_count : paste_num_automatic s = count_automatic s (paste_by_time s)
}.

Lemma paste_init_ok : paste_ok paste_init.
Proof.
  split; cbn; try done; try (intros ? H; by apply elem_of_nil in H);
    try (intros id; rewrite lookup_empty, elem_of_nil; split; [done|by intros []]).
  - constructor.
  - constructor.
  - intros ? ? H. by apply elem_of_nil in H.
Qed.

(** ** Trees *)

Lemma strcmp_eq a : forall b, strcmp a b = 0 -> Forall (Z.le 0) a -> Forall (Z.le 0) b -> a = b.
Proof.
  induction a as [|x a IH]; intros [|y b]; cbn; try done. destruct (Z.eqb_spec x y) as [->|Hne]; [|lia].
  intros E Ha Hb. inversion_clear Ha. inversion_clear Hb. f_equal. by apply IH.
Qed.

Lemma strcmp_refl a : strcmp a a = 0.
Proof. induction a as [|x a IH]; [done|]. cbn. by rewrite Z.eqb_refl. Qed.

Lemma bytes_inj a : forall b, bytes_of_string a = bytes_of_string b -> a = b.
Proof.
  unfold bytes_of_string. induction a as [|c a IH]; intros [|c' b] E; try done. cbn in E.
  injection E as Ec E. rewrite (IH b E). f_equal. unfold code in Ec. apply N2Z.inj in Ec.
  by rewrite <- (ascii_N_embedding c), Ec, ascii_N_embedding.
Qed.

Lemma bytes_nonneg a : Forall (Z.le 0) (bytes_of_string a).
Proof.
  unfold bytes_of_string. induction a as [|c a IH]; [constructor|]. cbn. constructor; [unfold code; lia|done].
Qed.

Lemma strcmp_names a b : strcmp (bytes_of_string a) (bytes_of_string b) = 0 <-> a = b.
Proof.
  split; [|intros ->; apply strcmp_refl]. intros E. apply bytes_inj, strcmp_eq; [done|apply bytes_nonneg..].
Qed.

Lemma rb_insert_perm cmp get id l : (forall x, x ∈ l -> cmp (get id) (get x) <> 0) ->
  rb_insert cmp get id l ≡ₚ id :: l.
Proof.
  induction l as [|x l IH]; intros Hc; [done|]. cbn [rb_insert].
  destruct (Z.ltb_spec (cmp (get id) (get x)) 0); [done|].
  destruct (Z.eqb_spec (cmp (get id) (get x)) 0) as [E|_]; [by destruct (Hc x ltac:(left))|].
  rewrite IH by (intros y Hy; apply Hc; by right). by constructor.
Qed.

Lemma rb_insert_newest s id l : (forall x, x ∈ l -> newer s id x) ->
  rb_insert paste_cmp_times (object s) id l = id :: l.
Proof.
  destruct l as [|x l]; intros Hn; [done|]. cbn [rb_insert].
  assert (Hx : newer s id x) by (apply Hn; left). unfold newer in Hx. unfold paste_cmp_times.
  by rewrite (proj2 (Z.ltb_lt _ _) Hx).
Qed.

Lemma get_name_some s name id : paste_get_name name s = Some id ->
  id ∈ paste_by_name s /\ pb_name (object s id) = name.
Proof.
  unfold paste_get_name. destruct name as [|c name]; [done|].
  destruct (list_find _ _) as [[i x]|] eqn:E; [|done]. cbn. intros [= ->].
  apply list_find_Some in E as (Hi & E & _). apply list_elem_of_lookup_2 in Hi. by apply strcmp_names in E.
Qed.

Lemma get_name_none s name : paste_get_name name s = None -> name <> ""%string ->
  forall id, id ∈ paste_by_name s -> pb_name (object s id) <> name.
Proof.
  unfold paste_get_name. intros E Hne id Hid En. destruct name as [|c name]; [done|].
  apply fmap_None in E. rewrite list_find_None, Forall_forall in E. apply (E id Hid). by apply strcmp_names.
Qed.

(** ** Freeing a buffer *)

Lemma free_fields id s :
  p_heap (paste_free id s) = delete id (p_heap s) /\
  paste_by_name (paste_free id s) = rb_remove id (paste_by_name s) /\
  paste_by_time (paste_free id s) = rb_remove id (paste_by_time s) /\
  paste_next_order (paste_free id s) = paste_next_order s /\
  paste_next_index (paste_free id s) = paste_next_index s /\
  paste_num_automatic (paste_free id s) =
    if pb_automatic (object s id) then u32 (paste_num_automatic s - 1) else paste_num_automatic s.
Proof. unfold paste_free. by destruct (pb_automatic (object s id)). Qed.

Lemma object_free id id' s : id' <> id -> object (paste_free id s) id' = object s id'.
Proof. intros Hne. unfold object. rewrite (proj1 (free_fields id s)). by rewrite lookup_delete_ne. Qed.

Lemma elem_remove id x l : x ∈ rb_remove id l <-> x ∈ l /\ x <> id.
Proof. unfold rb_remove. rewrite list_elem_of_filter. tauto. Qed.

Lemma sorted_filter {A} (R : A -> A -> Prop) (P : A -> Prop) `{forall x, Decision (P x)} l :
  StronglySorted R l -> StronglySorted R (filter P l).
Proof.
  induction 1 as [|x l Hs IH Hx]; [constructor|]. rewrite filter_cons. case_decide; [|done].
  constructor; [done|]. apply Forall_forall. intros y [_ Hy]%list_elem_of_filter.
  rewrite Forall_forall in Hx. auto.
Qed.

Lemma sorted_weaken {A} (R R' : A -> A -> Prop) l : (forall x y, x ∈ l -> y ∈ l -> R x y -> R' x y) ->
  StronglySorted R l -> StronglySorted R' l.
Proof.
  intros HR Hs. induction Hs as [|x l Hs IH Hx]; [constructor|].
  constructor; [apply IH; intros; apply HR; by try right|].
  rewrite Forall_forall in Hx |- *. intros y Hy. apply HR; [left|by right|auto].
Qed.

Lemma sorted_nodup s l : StronglySorted (newer s) l -> NoDup l.
Proof.
  induction 1 as [|x l Hs IH Hx]; constructor; [|done]. intros Hin. rewrite Forall_forall in Hx.
  specialize (Hx x Hin). unfold newer in Hx. lia.
Qed.

Lemma filter_on s s' (l : list Z) : (forall x, x ∈ l -> object s' x = object s x) ->
  filter (automatic s') l = filter (automatic s) l.
Proof.
  induction l as [|x l IH]; intros Ho; [done|]. rewrite !filter_cons.
  rewrite IH by (intros; apply Ho; by right).
  assert (E : automatic s' x <-> automatic s x) by (unfold automatic; by rewrite Ho by left).
  destruct (decide (automatic s x)); [by rewrite decide_True by tauto|by rewrite decide_False by tauto].
Qed.

(** The same objects give the same counts. *)
Lemma count_objects s s' l : (forall x, x ∈ l -> object s' x = object s x) ->
  count_automatic s' l = count_automatic s l.
Proof.
  intros Ho. unfold count_automatic. do 2 f_equal. by apply filter_on.
Qed.

Lemma count_remove s id l : NoDup l -> id ∈ l ->
  count_automatic s (rb_remove id l) =
  count_automatic s l - (if pb_automatic (object s id) then 1 else 0).
Proof.
  intros Hnd Hin. unfold count_automatic, rb_remove.
  assert (Hp : l ≡ₚ id :: filter (fun x => x <> id) l).
  { apply NoDup_Permutation; [done| |].
    - constructor; [by rewrite list_elem_of_filter; intros []|by apply NoDup_filter].
    - intros x. rewrite elem_of_cons, list_elem_of_filter. destruct (decide (x = id)); naive_solver. }
  rewrite Hp at 2. rewrite filter_cons. destruct (pb_automatic (object s id)) eqn:E.
  - rewrite decide_True by done. cbn [length]. lia.
  - rewrite decide_False by (unfold automatic; by rewrite E). lia.
Qed.

Lemma count_range s : paste_ok s -> 0 <= count_automatic s (paste_by_time s) <= paste_next_order s.
Proof.
  intros [_ _ _ Hs _ Ho Hr _]. split; [unfold count_automatic; lia|].
  assert (Hl : forall b l, StronglySorted (newer s) l -> (forall x, x ∈ l -> 0 <= pb_order (object s x) < b) ->
    0 <= b -> Z.of_nat (length l) <= b).
  { intros b l Hl. revert b. induction Hl as [|x l Hl IH Hx]; intros b Hb Hb0; [cbn; lia|].
    pose proof (Hb x ltac:(left)). cbn [length]. specialize (IH (pb_order (object s x))).
    rewrite Forall_forall in Hx. unfold newer in Hx. specialize (IH ltac:(intros y Hy; split;
      [apply Hb; by right|by apply Hx]) ltac:(lia)). lia. }
  specialize (Hl _ _ Hs Ho ltac:(lia)). unfold count_automatic.
  pose proof (length_filter (automatic s) (paste_by_time s)). lia.
Qed.

Lemma paste_free_ok id s : paste_ok s -> id ∈ paste_by_time s -> paste_ok (paste_free id s).
Proof.
  intros Hok Hid. pose proof (count_range s Hok) as Hcr.
  destruct Hok as [Hn Hnn Ht Hs Hu Ho Hr Hc]. destruct (free_fields id s) as (E1 & E2 & E3 & E4 & _ & E6).
  assert (Hobj : forall x, x ∈ rb_remove id (paste_by_time s) -> object (paste_free id s) x = object s x)
    by (intros x [_ Hx]%elem_remove; by apply object_free).
  assert (Hin : forall x, is_Some (delete id (p_heap s) !! x) <-> is_Some (p_heap s !! x) /\ x <> id).
  { intros x. destruct (decide (x = id)) as [->|Hne]; [rewrite lookup_delete_eq; split; [by intros []|tauto]|].
    rewrite lookup_delete_ne by done. tauto. }
  split; rewrite ?E1, ?E2, ?E3, ?E4.
  - intros x. by rewrite elem_remove, Hin, Hn.
  - by apply NoDup_filter.
  - intros x. by rewrite elem_remove, Hin, Ht.
  - eapply sorted_weaken; [|by apply sorted_filter]. intros x y Hx Hy. unfold newer. by rewrite !Hobj.
  - intros i j [Hi Hi']%elem_remove [Hj Hj']%elem_remove. rewrite !object_free by done. auto.
  - intros x Hx. rewrite Hobj by done. apply elem_remove in Hx as [Hx _]. auto.
  - done.
  - rewrite E6, (count_objects s) by done. rewrite count_remove by (by eapply sorted_nodup || done).
    rewrite Hc. destruct (pb_automatic (object s id)) eqn:Ea; [|lia]. rewrite u32_small; [done|].
    assert (1 <= count_automatic s (paste_by_time s)); [|lia]. unfold count_automatic.
    assert (id ∈ filter (automatic s) (paste_by_time s)) as Hf by (by apply list_elem_of_filter).
    destruct (filter _ _); [by apply elem_of_nil in Hf|cbn; lia].
Qed.

(** ** Adding a buffer *)

(** [s'] is [s] with one more buffer. *)
Record added_buffer (s : paste_state) (id : Z) (pb : paste_buffer) (s' : paste_state) : Prop := AddedBuffer {
  ab_new : p_heap s !! id = None;
  ab_heap : p_heap s' = <[id := pb]> (p_heap s);
  ab_names : paste_by_name s' = rb_insert paste_cmp_names (object s') id (paste_by_name s);
  ab_times : paste_by_time s' = rb_insert paste_cmp_times (object s') id (paste_by_time s);
  ab_order : pb_order pb = paste_next_order s;
  ab_next : paste_next_order s' = paste_next_order s + 1;
  ab_count : paste_num_automatic s' = paste_num_automatic s + (if pb_automatic pb then 1 else 0)
}.

Definition name_free (s : paste_state) (name : string) : Prop :=
  forall id, id ∈ paste_by_name s -> pb_name (object s id) <> name.

Lemma added_object s id pb s' : added_buffer s id pb s' ->
  object s' id = pb /\ forall x, x <> id -> object s' x = object s x.
Proof.
  intros [Hnew E _ _ _ _ _]. unfold object. rewrite E. split; [by rewrite lookup_insert_eq|].
  intros x Hx. by rewrite lookup_insert_ne.
Qed.

Lemma added_ok s id pb s' : paste_ok s -> added_buffer s id pb s' -> name_free s (pb_name pb) ->
  paste_next_order s + 1 < 4294967296 ->
  paste_ok s' /\ paste_by_time s' = id :: paste_by_time s /\ paste_by_name s' ≡ₚ id :: paste_by_name s.
Proof.
  intros Hok Hadd Hfree Hlt. destruct (added_object _ _ _ _ Hadd) as [Hid Hother].
  destruct Hok as [Hn Hnn Ht Hs Hu Ho Hr Hc], Hadd as [Hnew Eh En Et Eo Ex Ec].
  assert (Hnin : id ∉ paste_by_time s) by (intros Hin%Ht; rewrite Hnew in Hin; by destruct Hin).
  assert (Hnin' : id ∉ paste_by_name s) by (intros Hin%Hn; rewrite Hnew in Hin; by destruct Hin).
  assert (Hold : forall x, x ∈ paste_by_time s -> object s' x = object s x)
    by (intros x Hx; apply Hother; by intros ->).
  assert (Hold' : forall x, x ∈ paste_by_name s -> object s' x = object s x)
    by (intros x Hx; apply Hother; by intros ->).
  assert (Hnewest : forall x, x ∈ paste_by_time s -> newer s' id x)
    by (intros x Hx; unfold newer; rewrite Hid, Hold, Eo by done; apply Ho; done).
  rewrite rb_insert_newest in Et by done.
  assert (Ep : paste_by_name s' ≡ₚ id :: paste_by_name s).
  { rewrite En. apply rb_insert_perm. intros x Hx E. apply strcmp_names in E.
    rewrite Hid, Hold' in E by done. by apply (Hfree x Hx). }
  assert (Hin : forall x, is_Some (p_heap s' !! x) <-> x = id \/ is_Some (p_heap s !! x)).
  { intros x. rewrite Eh. destruct (decide (x = id)) as [->|Hne];
      [rewrite lookup_insert_eq; split; [by left|by eexists]|rewrite lookup_insert_ne by done; tauto]. }
  split; [|done]. split; rewrite ?Et.
  - intros x. rewrite Ep, elem_of_cons, Hin, Hn. done.
  - rewrite Ep. by constructor.
  - intros x. rewrite elem_of_cons, Hin, Ht. done.
  - constructor; [|by apply Forall_forall]. eapply sorted_weaken; [|exact Hs].
    intros x y Hx Hy. unfold newer. by rewrite !Hold.
  - intros i j. rewrite Ep, !elem_of_cons. intros [->|Hi] [->|Hj]; [done|..].
    + rewrite Hid, (Hold' j Hj). intros E. by destruct (Hfree j Hj).
    + rewrite Hid, (Hold' i Hi). intros E. by destruct (Hfree i Hi).
    + rewrite (Hold' i Hi), (Hold' j Hj). auto.
  - intros x. rewrite elem_of_cons, Ex. intros [->|Hx]; [rewrite Hid, Eo; lia|].
    rewrite Hold by done. pose proof (Ho x Hx). lia.
  - rewrite Ex. lia.
  - rewrite Ec, Hc. unfold count_automatic. rewrite filter_cons, (filter_on s s' (paste_by_time s)) by done.
    destruct (pb_automatic pb) eqn:Ea.
    + rewrite decide_True by (unfold automatic; by rewrite Hid). cbn [length]. lia.
    + rewrite decide_False by (unfold automatic; by rewrite Hid, Ea). lia.
Qed.

(** ** A name for a new buffer *)

Lemma fmt_u_inj n m : 0 <= n < 4294967296 -> 0 <= m < 4294967296 -> fmt_u n = fmt_u m -> n = m.
Proof.
  intros Hn Hm E. pose proof (scan_u_fmt_u n "" Hn eq_refl) as H1. pose proof (scan_u_fmt_u m "" Hm eq_refl) as H2.
  rewrite E in H1. congruence.
Qed.

Lemma append_inj a b c : (a +:+ b = a +:+ c)%string -> b = c.
Proof. induction a as [|x a IH]; [done|]. cbn. intros [= E]. auto. Qed.

(** Only the index has changed. *)
Lemma new_name_tries fuel prefix : forall s, let '(name, s') := new_name fuel prefix s in
  (exists i, s' = set_next_index i s) /\
  (name = prefix +:+ fmt_u (paste_next_index s) \/ exists k, name = prefix +:+ fmt_u k)%string /\
  (0 <= paste_next_index s -> paste_next_index s + Z.of_nat fuel < 4294967295 ->
   paste_get_name name s = None \/
   forall i, 0 <= i < Z.of_nat fuel ->
     is_Some (paste_get_name (prefix +:+ fmt_u (paste_next_index s + i))%string s)).
Proof.
  induction fuel as [|fuel IH]; intros s.
  { cbn. split_and!; [by eexists|by left|]. intros _ _. right. lia. }
  cbn [new_name]. set (s1 := set_next_index (paste_next_index s + 1) s).
  change (paste_get_name (prefix +:+ fmt_u (paste_next_index s)) s1)
    with (paste_get_name (prefix +:+ fmt_u (paste_next_index s)) s).
  destruct (paste_get_name (prefix +:+ fmt_u (paste_next_index s)) s) as [id|] eqn:E.
  2:{ split_and!; [by eexists|by left|]. by left. }
  specialize (IH s1). destruct (new_name fuel prefix s1) as [name s']. destruct IH as ([i ->] & Hname & IH).
  split_and!; [by exists i|right; destruct Hname as [->|[k ->]]; by eexists|].
  intros H0 Hlt. assert (E1 : paste_next_index s1 = paste_next_index s + 1)
    by (unfold s1; cbn; apply u32_small; lia).
  rewrite E1 in IH. destruct (IH ltac:(lia) ltac:(lia)) as [|Hall]; [by left|right].
  intros j Hj. destruct (decide (j = 0)) as [->|Hne]; [rewrite Z.add_0_r, E; by eexists|].
  specialize (Hall (j - 1) ltac:(lia)). by replace (paste_next_index s + 1 + (j - 1)) with (paste_next_index s + j) in Hall by lia.
Qed.

(** There are more names than buffers, so one is free. *)
Lemma new_name_free prefix s : 0 <= paste_next_index s ->
  paste_next_index s + Z.of_nat (S (length (paste_by_name s))) < 4294967295 ->
  let '(name, s') := new_name (S (length (paste_by_name s))) prefix s in
  (exists i, s' = set_next_index i s) /\ paste_get_name name s = None /\
  exists k, name = (prefix +:+ fmt_u k)%string.
Proof.
  intros H0 Hlt. pose proof (new_name_tries (S (length (paste_by_name s))) prefix s) as Ht.
  destruct (new_name _ prefix s) as [name s']. destruct Ht as (Hi & Hname & Hf). split_and!; [done| |].
  2:{ destruct Hname as [->|[k ->]]; by eexists. }
  destruct (Hf H0 Hlt) as [|Hall]; [done|]. exfalso. set (n := length (paste_by_name s)) in *.
  set (names := (fun i => prefix +:+ fmt_u (paste_next_index s + i))%string <$> seqZ 0 (Z.of_nat (S n))).
  assert (Hnd : NoDup names).
  { apply NoDup_fmap_2_strong; [|apply NoDup_seqZ]. intros i j Hri%elem_of_seqZ Hrj%elem_of_seqZ E.
    apply append_inj, fmt_u_inj in E; lia. }
  assert (Hsub : names ⊆ ((fun id => pb_name (object s id)) <$> paste_by_name s)).
  { intros x Hx. apply list_elem_of_fmap in Hx as (i & -> & Hri%elem_of_seqZ).
    destruct (Hall i ltac:(lia)) as [id E]. apply get_name_some in E as [Hid <-].
    by apply (list_elem_of_fmap_2 (fun id => pb_name (object s id))). }
  pose proof (NoDup_submseteq _ _ Hnd Hsub) as Hs. apply submseteq_length in Hs.
  unfold names in Hs. rewrite !length_fmap, length_seqZ in Hs. fold n in Hs. lia.
Qed.

(** ** The limit *)

(** Some of the oldest automatic buffers are gone. *)
Record trimmed (s s' : paste_state) : Prop := Trimmed {
  tr_ok : paste_ok s';
  tr_sub : forall id, id ∈ paste_by_time s' -> id ∈ paste_by_time s /\ object s' id = object s id;
  tr_gone : forall a, a ∈ paste_by_time s -> a ∉ paste_by_time s' ->
    automatic s a /\ forall b, b ∈ paste_by_time s' -> automatic s b -> newer s b a;
  tr_index : paste_next_index s' = paste_next_index s;
  tr_next : paste_next_order s' = paste_next_order s;
  tr_length : (length (paste_by_name s') <= length (paste_by_name s))%nat
}.

Lemma trimmed_refl s : paste_ok s -> trimmed s s.
Proof. intros Hok. by split. Qed.

Lemma free_oldest_ok limit l : forall s, paste_ok s -> (forall id, id ∈ l -> id ∈ paste_by_time s) ->
  StronglySorted (fun a b => newer s b a) l ->
  (forall id, id ∈ paste_by_time s -> automatic s id -> id ∈ l) ->
  let s' := free_oldest limit l s in
  trimmed s s' /\ (paste_num_automatic s' < limit \/ paste_num_automatic s' = 0).
Proof.
  induction l as [|id l IH]; intros s Hok Hl Hs Ha; cbn [free_oldest].
  { split; [by apply trimmed_refl|]. right. rewrite (po_count _ Hok). unfold count_automatic.
    destruct (filter _ _) as [|x k] eqn:E; [done|]. exfalso.
    assert (Hx : x ∈ filter (automatic s) (paste_by_time s)) by (rewrite E; left).
    apply list_elem_of_filter in Hx as [Hx1 Hx2]. by apply (not_elem_of_nil x), Ha. }
  destruct (Z.ltb_spec (paste_num_automatic s) limit); [split; [by apply trimmed_refl|by left]|].
  inversion_clear Hs as [|? ? Hs' Hid]. rewrite Forall_forall in Hid.
  destruct (pb_automatic (object s id)) eqn:Eid.
  2:{ apply IH; [done|intros; apply Hl; by right|done|].
      intros x Hx Hxa. specialize (Ha x Hx Hxa). apply elem_of_cons in Ha as [->|]; [|done].
      unfold automatic in Hxa. congruence. }
  assert (Hin : id ∈ paste_by_time s) by (apply Hl; left).
  pose proof (paste_free_ok id s Hok Hin) as Hok1. destruct (free_fields id s) as (E1 & E2 & E3 & E4 & E5 & _).
  assert (Hnid : id ∉ l) by (intros Hc; specialize (Hid id Hc); unfold newer in Hid; lia).
  assert (Ho : forall x, x ∈ paste_by_time (paste_free id s) -> object (paste_free id s) x = object s x).
  { intros x. rewrite E3. intros [_ Hx]%elem_remove. by apply object_free. }
  assert (Hol : forall x, x ∈ l -> object (paste_free id s) x = object s x)
    by (intros x Hx; apply object_free; by intros ->).
  destruct (IH (paste_free id s) Hok1) as [[T1 T2 T3 T4 T5 T6] T7].
  - intros x Hx. rewrite E3, elem_remove. split; [apply Hl; by right|by intros ->].
  - eapply sorted_weaken; [|exact Hs']. intros x y Hx Hy. unfold newer. by rewrite !Hol.
  - intros x Hx Hxa. unfold automatic in Hxa. rewrite Ho in Hxa by done. rewrite E3 in Hx.
    apply elem_remove in Hx as [Hx Hne]. specialize (Ha x Hx Hxa). by apply elem_of_cons in Ha as [->|].
  - split; [|done]. split; [done| | |congruence|congruence|].
    + intros x Hx. destruct (T2 x Hx) as [Hx' ->]. split; [|by apply Ho].
      rewrite E3 in Hx'. by apply elem_remove in Hx' as [].
    + intros a Hain Haout. destruct (decide (a = id)) as [->|Hne].
      * split; [done|]. intros b Hb Hba. destruct (T2 b Hb) as [Hb' _]. rewrite E3 in Hb'.
        apply elem_remove in Hb' as [Hb' Hbne]. apply Hid. specialize (Ha b Hb' Hba).
        by apply elem_of_cons in Ha as [->|].
      * assert (Ha1 : a ∈ paste_by_time (paste_free id s)) by (by rewrite E3, elem_remove).
        destruct (T3 a Ha1 Haout) as [Haa Hnew]. unfold automatic in Haa. rewrite Ho in Haa by done.
        split; [done|]. intros b Hb Hba. destruct (T2 b Hb) as [Hb' _].
        specialize (Hnew b Hb). unfold automatic, newer in *. rewrite !Ho in Hnew by done. auto.
    + etrans; [exact T6|]. rewrite E2. apply length_filter.
Qed.

(** ** The operations *)

(** The counters are far from their limits. *)
Record in_range (s : paste_state) : Prop := InRange {
  ir_index : 0 <= paste_next_index s;
  ir_names : paste_next_index s + Z.of_nat (S (length (paste_by_name s))) < 4294967295;
  ir_order : paste_next_order s + 1 < 4294967296
}.

Lemma new_is_added s data name now auto : paste_ok s -> paste_next_order s + 1 < 4294967296 ->
  let '(id, s1) := new_buffer data name now auto s in
  let s2 := if (auto : bool) then set_num_automatic (paste_num_automatic s1 + 1) s1 else s1 in
  added_buffer s id (PB data name now auto (paste_next_order s)) (insert_buffer id s2).
Proof.
  intros Hok Hlt. unfold new_buffer. cbv zeta beta iota.
  set (id := fresh (dom (p_heap s))).
  assert (Hnew : p_heap s !! id = None) by (apply not_elem_of_dom, is_fresh).
  pose proof (count_range s Hok) as Hc. rewrite <- (po_count _ Hok) in Hc.
  pose proof (po_range _ Hok).
  destruct auto; split; try done; cbn; rewrite ?u32_small by lia; try done; lia.
Qed.

Lemma trimmed_range s s' : trimmed s s' -> in_range s -> in_range s'.
Proof. intros [_ _ _ Ei Eo El] [R1 R2 R3]. split; rewrite ?Ei, ?Eo; try done. lia. Qed.

(** Neither tree sees the index or the count of the automatic buffers. *)
Lemma index_ok i s : paste_ok s -> paste_ok (set_next_index i s).
Proof. by intros []. Qed.

(** What adding a buffer does: the new one is the most recent; of those that
    were there only automatic ones may go, the oldest, to keep the limit. *)
Record paste_added (limit : Z) (prefix : string) (data : list Z) (now : Z) (s s' : paste_state) : Prop := PasteAdded {
  pa_ok : paste_ok s';
  pa_buffers : exists id k rest, paste_by_time s' = id :: rest /\ paste_get_top s' = Some id /\
    object s' id = PB data (prefix +:+ fmt_u k) now true (paste_next_order s) /\
    (forall b, b ∈ rest -> b ∈ paste_by_time s /\ object s' b = object s b) /\
    (forall a, a ∈ paste_by_time s -> a ∈ rest \/
       automatic s a /\ forall b, b ∈ rest -> automatic s b -> newer s b a);
  pa_limit : paste_num_automatic s' <= Z.max limit 1
}.

Lemma sorted_reverse {A} (R : A -> A -> Prop) l : StronglySorted R l -> StronglySorted (fun a b => R b a) (reverse l).
Proof.
  induction 1 as [|x l Hs IH Hx]; [constructor|]. rewrite reverse_cons. apply StronglySorted_app. split_and!.
  - intros y z Hy Hz%list_elem_of_singleton. rewrite elem_of_reverse in Hy. subst z. exact (proj1 (Forall_forall _ _) Hx y Hy).
  - done.
  - repeat constructor.
Qed.

Lemma trimmed_free limit s : paste_ok s ->
  let s1 := free_oldest limit (reverse (paste_by_time s)) s in
  trimmed s s1 /\ (paste_num_automatic s1 < limit \/ paste_num_automatic s1 = 0).
Proof.
  intros Hok. apply free_oldest_ok; [done| | |].
  - intros id. by rewrite elem_of_reverse.
  - apply sorted_reverse, Hok.
  - intros id Hid _. by rewrite elem_of_reverse.
Qed.

Lemma get_top_new s id rest : paste_by_time s = id :: rest -> automatic s id -> paste_get_top s = Some id.
Proof. intros E Ha. unfold paste_get_top. by rewrite E, filter_cons_True. Qed.

Lemma paste_add_added limit prefix data now s : paste_ok s -> in_range s -> data <> [] -> 0 <= limit ->
  paste_added limit (default "buffer"%string prefix) data now s (paste_add limit prefix data now s).
Proof.
  intros Hok Hr Hne Hlim. unfold paste_add. destruct data as [|d data]; [done|].
  set (pre := default "buffer"%string prefix).
  destruct (trimmed_free limit s Hok) as [Ht Hn]. set (s1 := free_oldest _ _ _) in *.
  destruct (trimmed_range _ _ Ht Hr) as [R1 R2 R3]. destruct Ht as [T1 T2 T3 T4 T5 T6].
  pose proof (new_name_free pre s1 R1 R2) as Hname. destruct (new_name _ pre s1) as [name s2].
  destruct Hname as ([i ->] & Hfree & k & ->). set (name := (pre +:+ fmt_u k)%string) in *.
  assert (Hname : name_free s1 name).
  { intros x. apply (get_name_none s1 name Hfree). apply app_some, fmt_u_some. }
  pose proof (new_is_added (set_next_index i s1) (d :: data) name now true (index_ok i s1 T1) R3) as Hadd.
  change (new_buffer (d :: data) name now true (set_num_automatic (paste_num_automatic (set_next_index i s1) + 1)
    (set_next_index i s1))) with (let '(id, s3) := new_buffer (d :: data) name now true (set_next_index i s1) in
    (id, set_num_automatic (paste_num_automatic s3 + 1) s3)).
  destruct (new_buffer (d :: data) name now true (set_next_index i s1)) as [id s3]. cbv beta iota zeta in Hadd |- *.
  set (s' := insert_buffer _ _) in *.
  destruct (added_ok (set_next_index i s1) id _ s' (index_ok i s1 T1) Hadd Hname R3) as (Hok' & Et & _).
  destruct (added_object _ _ _ _ Hadd) as [Eid Eother].
  assert (Hnin : id ∉ paste_by_time s1).
  { intros Hin%(po_times _ T1). pose proof (ab_new _ _ _ _ Hadd) as Hnone. cbn in Hnone.
    rewrite Hnone in Hin. by destruct Hin. }
  change (paste_by_time (set_next_index i s1)) with (paste_by_time s1) in Et.
  split; [done| |rewrite (ab_count _ _ _ _ Hadd); cbn; lia].
  exists id, k, (paste_by_time s1). split_and!; [done|by eapply get_top_new; [|unfold automatic; rewrite Eid]| | |].
  - rewrite Eid. cbn. by rewrite T5.
  - intros b Hb. destruct (T2 b Hb) as [Hb' Eb]. split; [done|]. rewrite Eother by (by intros ->). exact Eb.
  - intros a Ha. destruct (decide (a ∈ paste_by_time s1)); [by left|right; by apply T3].
Qed.

(** ** Names *)

Section Names.
Context `{Locale}.

Lemma vis_some c flag next : vis c flag next <> [].
Proof.
  unfold vis. destruct (isvisible c flag); [by destruct (_ || _)|].
  destruct (if flagged flag VIS_CSTYLE then vis_cstyle c next else None) as [l|] eqn:E.
  - destruct (flagged flag VIS_CSTYLE); [|done]. unfold vis_cstyle in E. by repeat case_match; simplify_eq.
  - destruct (_ || _); [done|]. cbv zeta. intros F. apply app_eq_nil in F as [_ F].
    apply app_eq_nil in F as [_ F]. by destruct (iscntrl _).
Qed.

Lemma strvis_some src flag l : utf8_strvis loc_mbtowc loc_wcwidth loc_widths src flag = Some l ->
  src <> [] -> l <> [].
Proof.
  unfold utf8_strvis. match goal with |- utf8_loop _ _ _ _ ?one ?plain ?nil _ _ = _ -> _ =>
    destruct (loop_ind loc_mbtowc loc_wcwidth loc_widths false one plain nil
      (fun src l => src <> [] -> l <> [])) with (fuel := length src) (src := src) as (r & -> & Hr); [done|..] end.
  - intros ud rest r Hc _ _ E. apply app_eq_nil in E as [E _].
    destruct (char_first _ _ Hc) as (ch & k & E' & _). by rewrite E' in E.
  - intros ch rest r _ _. destruct rest as [|next rest]; [intros F; apply app_eq_nil in F as [F _]; by apply vis_some in F|].
    destruct (_ && _); intros F; apply app_eq_nil in F as [F1 F2]; [|by apply vis_some in F1].
    done.
  - lia.
  - intros [= <-]. exact Hr.
Qed.

Lemma clean_name_some name forbid n : clean_name name forbid = Some (Some n) -> n <> ""%string.
Proof.
  unfold clean_name. destruct name as [|c name]; [done|].
  destruct (utf8_isvalid _ _ _ _) as [[]|]; cbn [mbind option_bind negb]; [|done..].
  destruct (utf8_strvis _ _ _ _ _) as [l|] eqn:E; cbn [mbind option_bind]; [|done].
  intros [= <-]. apply strvis_some in E; [|done]. by destruct l.
Qed.

(** ** Setting and renaming *)

(** Freeing the buffer with a name leaves the name free. *)
Definition free_named (name : string) (s : paste_state) : paste_state :=
  match paste_get_name name s with Some old => paste_free old s | None => s end.

Lemma free_named_ok name s : paste_ok s -> name <> ""%string ->
  paste_ok (free_named name s) /\ name_free (free_named name s) name /\
  (forall id, id ∈ paste_by_time (free_named name s) <->
     id ∈ paste_by_time s /\ pb_name (object s id) <> name) /\
  (forall id, id ∈ paste_by_time (free_named name s) -> object (free_named name s) id = object s id) /\
  paste_next_order (free_named name s) = paste_next_order s /\
  paste_next_index (free_named name s) = paste_next_index s.
Proof.
  intros Hok Hne. assert (Hiff : forall id, id ∈ paste_by_time s <-> id ∈ paste_by_name s)
    by (intros id; by rewrite (po_times _ Hok), (po_names _ Hok)).
  unfold free_named. destruct (paste_get_name name s) as [old|] eqn:E.
  - apply get_name_some in E as [Hin En]. destruct (free_fields old s) as (E1 & E2 & E3 & E4 & E5 & _).
    assert (Hother : forall id, id ∈ paste_by_name s -> id <> old <-> pb_name (object s id) <> name).
    { intros id Hid. split; [|by intros Hn ->]. intros Hne' En'. apply Hne', (po_unique _ Hok); [done|done|congruence]. }
    split_and!; [by apply paste_free_ok; [|apply Hiff]| | | |done|done].
    + intros id. rewrite E2, elem_remove. intros [Hid Hne']. rewrite object_free by done. by apply Hother.
    + intros id. rewrite E3, elem_remove. split; intros [Hid Hn]; (split; [done|]);
        [by apply Hother; [apply Hiff|]|by apply Hother; [apply Hiff|]].
    + intros id. rewrite E3, elem_remove. intros [_ Hn]. by apply object_free.
  - pose proof (get_name_none s name E Hne) as Hf. split_and!; try done.
    intros id. split; [|tauto]. intros Hid. split; [done|]. by apply Hf, Hiff.
Qed.


(** The trees of a set buffer: the old one goes, the new one comes first. *)
Record paste_was_set (data : list Z) (name : string) (now : Z) (s s' : paste_state) (id : Z) : Prop := PasteWasSet {
  ws_ok : paste_ok s';
  ws_name : paste_get_name name s' = Some id;
  ws_object : object s' id = PB data name now false (paste_next_order s);
  ws_times : paste_by_time s' = id :: paste_by_time (free_named name s);
  ws_others : forall b, b ∈ paste_by_time (free_named name s) -> object s' b = object s b
}.

Lemma get_name_ok s name id : paste_ok s -> id ∈ paste_by_name s -> pb_name (object s id) = name ->
  name <> ""%string -> paste_get_name name s = Some id.
Proof.
  intros Hok Hid En Hne. destruct (paste_get_name name s) as [id'|] eqn:E.
  - apply get_name_some in E as [Hid' En']. f_equal. apply (po_unique _ Hok); [done|done|congruence].
  - by destruct (get_name_none s name E Hne id Hid).
Qed.

Lemma set_is_added data name now s : paste_ok s -> paste_next_order s + 1 < 4294967296 -> name <> ""%string ->
  let '(id, s1) := new_buffer data name now false s in
  added_buffer (free_named name s) id (PB data name now false (paste_next_order s))
    (insert_buffer id (match paste_get_name name s1 with Some old => paste_free old s1 | None => s1 end)) /\
  id ∉ paste_by_time s.
Proof.
  intros Hok Hlt Hne. pose proof (new_is_added s data name now false Hok Hlt) as Hadd.
  destruct (new_buffer data name now false s) as [id s1] eqn:En. cbv zeta iota in Hadd.
  unfold new_buffer in En. injection En as <- <-. set (id := fresh (dom (p_heap s))) in *.
  set (s1 := set_next_order _ _) in *.
  assert (Hnin : id ∉ paste_by_time s).
  { intros Hin%(po_times _ Hok). rewrite (ab_new _ _ _ _ Hadd) in Hin. by destruct Hin. }
  split; [|done].
  assert (Eobj : forall x, x ∈ paste_by_name s -> object s1 x = object s x).
  { intros x Hx. unfold object. cbn. rewrite lookup_insert_ne; [done|]. intros <-.
    apply Hnin, (po_times _ Hok), (po_names _ Hok), Hx. }
  assert (Eget : paste_get_name name s1 = paste_get_name name s).
  { destruct (paste_get_name name s) as [old|] eqn:E.
    - apply get_name_some in E as [Hin Enm]. unfold paste_get_name. destruct name; [done|].
      change (paste_by_name s1) with (paste_by_name s).
      destruct (list_find _ (paste_by_name s)) as [[i x]|] eqn:Ef.
      + cbn. f_equal. apply list_find_Some in Ef as (Hi & Ec & _). apply list_elem_of_lookup_2 in Hi.
        apply strcmp_names in Ec. rewrite Eobj in Ec by done. apply (po_unique _ Hok); [done|done|congruence].
      + rewrite list_find_None, Forall_forall in Ef. destruct (Ef old Hin). apply strcmp_names.
        by rewrite Eobj.
    - pose proof (get_name_none s name E Hne) as Hf. unfold paste_get_name. destruct name; [done|].
      apply fmap_None, list_find_None, Forall_forall. intros x Hx Ec. apply strcmp_names in Ec.
      rewrite Eobj in Ec by done. by apply (Hf x Hx). }
  rewrite Eget. unfold free_named. destruct (paste_get_name name s) as [old|] eqn:E; [|exact Hadd].
  apply get_name_some in E as [Hin _].
  assert (Hone : old <> id) by (intros ->; apply Hnin, (po_times _ Hok), (po_names _ Hok), Hin).
  destruct (free_fields old s) as (E1 & E2 & E3 & E4 & _ & E6).
  destruct (free_fields old s1) as (F1 & F2 & F3 & F4 & _ & F6).
  destruct Hadd as [A1 A2 A3 A4 A5 A6 A7].
  split; [rewrite E1, lookup_delete_ne by done; exact A1|..].
  - change (p_heap (paste_free old s1) = <[id := PB data name now false (paste_next_order s)]> (p_heap (paste_free old s))).
    rewrite F1, E1. unfold s1. cbn. by rewrite delete_insert_ne.
  - change (rb_insert paste_cmp_names (object (paste_free old s1)) id (paste_by_name (paste_free old s1)) =
      rb_insert paste_cmp_names (object (paste_free old s1)) id (paste_by_name (paste_free old s))). by rewrite F2, E2.
  - change (rb_insert paste_cmp_times (object (paste_free old s1)) id (paste_by_time (paste_free old s1)) =
      rb_insert paste_cmp_times (object (paste_free old s1)) id (paste_by_time (paste_free old s))). by rewrite F3, E3.
  - rewrite E4. exact A5.
  - change (paste_next_order (paste_free old s1) = paste_next_order (paste_free old s) + 1). rewrite F4, E4. exact A6.
  - change (paste_num_automatic (paste_free old s1) = paste_num_automatic (paste_free old s) + 0).
    rewrite F6, E6, (Eobj old Hin). change (paste_num_automatic s1) with (paste_num_automatic s).
    destruct (pb_automatic (object s old)); lia.
Qed.

Lemma paste_set_named limit data name n now s : paste_ok s -> paste_next_order s + 1 < 4294967296 ->
  data <> [] -> name <> ""%string -> clean_name name "" = Some (Some n) ->
  exists id s', paste_set limit data (Some name) now s = Some (0, None, s') /\ paste_was_set data n now s s' id.
Proof.
  intros Hok Hlt Hd Hname Hc. pose proof (clean_name_some _ _ _ Hc) as Hne.
  pose proof (set_is_added data n now s Hok Hlt Hne) as Hadd.
  destruct (free_named_ok n s Hok Hne) as (F1 & F2 & F3 & F4 & F5 & F6).
  unfold paste_set. destruct data as [|d data]; [done|]. destruct name as [|c name]; [done|].
  rewrite Hc. cbn [mbind option_bind]. destruct (new_buffer (d :: data) n now false s) as [id s1].
  destruct Hadd as [Hadd Hnin]. exists id. eexists. split; [done|].
  destruct (added_object _ _ _ _ Hadd) as [Eid Eother].
  destruct (added_ok _ _ _ _ F1 Hadd F2 ltac:(by rewrite F5)) as (Hok' & Et & Ep).
  split; try done.
  - apply get_name_ok; [done|rewrite Ep; by left|by rewrite Eid|done].
  - intros b Hb. rewrite Eother; [by apply F4|]. intros ->. by apply Hnin, F3.
Qed.


(** A buffer gets a free name and is no longer automatic. *)
Definition rename_buffer (id : Z) (name : string) (s : paste_state) : paste_state :=
  let s := remove_name id s in
  let o := object s id in
  let s := if pb_automatic o then set_num_automatic (paste_num_automatic s - 1) s else s in
  let s := set_heap (<[id := PB (pb_data o) name (pb_created o) false (pb_order o)]> (p_heap s)) s in
  insert_name id s.

Lemma rename_fields id name s : let o := object s id in
  p_heap (rename_buffer id name s) = <[id := PB (pb_data o) name (pb_created o) false (pb_order o)]> (p_heap s) /\
  paste_by_time (rename_buffer id name s) = paste_by_time s /\
  paste_by_name (rename_buffer id name s) =
    rb_insert paste_cmp_names (object (rename_buffer id name s)) id (rb_remove id (paste_by_name s)) /\
  paste_next_order (rename_buffer id name s) = paste_next_order s /\
  paste_num_automatic (rename_buffer id name s) =
    (if pb_automatic o then u32 (paste_num_automatic s - 1) else paste_num_automatic s).
Proof.
  cbv zeta. unfold rename_buffer. change (object (remove_name id s) id) with (object s id).
  by destruct (pb_automatic (object s id)).
Qed.

Lemma rename_object id name s : let o := object s id in
  object (rename_buffer id name s) id = PB (pb_data o) name (pb_created o) false (pb_order o) /\
  forall x, x <> id -> object (rename_buffer id name s) x = object s x.
Proof.
  destruct (rename_fields id name s) as (E & _). cbv zeta in E |- *.
  split; [|intros x Hx]; unfold object at 1; rewrite E; [by rewrite lookup_insert_eq|by rewrite lookup_insert_ne].
Qed.

Lemma rename_count id name s : paste_ok s -> id ∈ paste_by_time s ->
  paste_num_automatic (rename_buffer id name s) =
  count_automatic (rename_buffer id name s) (paste_by_time s).
Proof.
  intros Hok Hid. pose proof (count_range s Hok) as Hcr. pose proof (po_range _ Hok) as Hr.
  destruct (rename_fields id name s) as (_ & _ & _ & _ & ->). destruct (rename_object id name s) as [Eid Eother].
  pose proof (sorted_nodup _ _ (po_sorted _ Hok)) as Hnd. rewrite (po_count _ Hok).
  pose proof (count_remove s id _ Hnd Hid) as H1. pose proof (count_remove (rename_buffer id name s) id _ Hnd Hid) as H2.
  rewrite (count_objects s) in H2 by (intros x [_ Hx]%elem_remove; by apply Eother).
  rewrite Eid in H2. cbn in H2. assert (0 <= count_automatic s (rb_remove id (paste_by_time s))) by (unfold count_automatic; lia).
  destruct (pb_automatic (object s id)); [rewrite u32_small by lia|]; lia.
Qed.

Lemma rename_buffer_ok id name s : paste_ok s -> id ∈ paste_by_time s ->
  (forall x, x ∈ paste_by_name s -> x <> id -> pb_name (object s x) <> name) ->
  paste_ok (rename_buffer id name s).
Proof.
  intros Hok Hid Hfree. pose proof (rename_count id name s Hok Hid) as Hc.
  destruct (rename_fields id name s) as (E1 & E2 & E3 & E4 & _). destruct (rename_object id name s) as [Eid Eother].
  cbv zeta in *. destruct Hok as [Hn Hnn Ht Hs Hu Ho Hr _].
  assert (Hin : id ∈ paste_by_name s) by (by apply Hn, Ht).
  assert (Hord : forall x, pb_order (object (rename_buffer id name s) x) = pb_order (object s x)).
  { intros x. destruct (decide (x = id)) as [->|Hne]; [by rewrite Eid|by rewrite Eother]. }
  assert (Ep : paste_by_name (rename_buffer id name s) ≡ₚ id :: rb_remove id (paste_by_name s)).
  { rewrite E3. apply rb_insert_perm. intros x [Hx Hne]%elem_remove E. apply strcmp_names in E.
    rewrite Eid, Eother in E by done. by apply (Hfree x Hx Hne). }
  assert (Hmem : forall x, x ∈ paste_by_name (rename_buffer id name s) <-> x ∈ paste_by_name s).
  { intros x. rewrite Ep, elem_of_cons, elem_remove. destruct (decide (x = id)) as [->|]; tauto. }
  assert (Hheap : forall x, is_Some (p_heap (rename_buffer id name s) !! x) <-> is_Some (p_heap s !! x)).
  { intros x. rewrite E1. destruct (decide (x = id)) as [->|Hne]; [|by rewrite lookup_insert_ne].
    rewrite lookup_insert_eq. split; [intros _; by apply Ht|by eexists]. }
  split; rewrite ?E2, ?E4; try done.
  - intros x. by rewrite Hmem, Hheap.
  - rewrite Ep. constructor; [by intros [_ ?]%elem_remove|by apply NoDup_filter].
  - intros x. by rewrite Hheap.
  - eapply sorted_weaken; [|exact Hs]. intros x y _ _. unfold newer. by rewrite !Hord.
  - intros i j Hi Hj. rewrite Hmem in Hi, Hj.
    destruct (decide (i = id)) as [->|Hi'], (decide (j = id)) as [->|Hj']; [done|..].
    + rewrite Eid, (Eother j Hj'). intros E. by destruct (Hfree j Hj Hj').
    + rewrite Eid, (Eother i Hi'). intros E. by destruct (Hfree i Hi Hi').
    + rewrite (Eother i Hi'), (Eother j Hj'). by apply Hu.
  - intros x Hx. rewrite Hord. by apply Ho.
Qed.

Lemma notify_ok name b s : paste_ok s -> paste_ok (notify_paste_buffer name b s).
Proof. by intros []. Qed.

Lemma paste_rename_ok oldname newname r cause s s' : paste_ok s ->
  paste_rename oldname newname s = Some (r, cause, s') -> paste_ok s'.
Proof.
  intros Hok. unfold paste_rename. destruct (default "" oldname) as [|oc os]; [by intros [= _ _ <-]|].
  destruct (default "" newname) as [|c n] eqn:En; [by intros [= _ _ <-]|].
  destruct (clean_name _ _) as [[name|]|] eqn:Ec; cbn [mbind option_bind]; [|by intros [= _ _ <-]|done].
  destruct (paste_get_name (String oc os) s) as [id|] eqn:Eo; [|by intros [= _ _ <-]].
  case_decide as Hd; [by intros [= _ _ <-]|]. pose proof (clean_name_some _ _ _ Ec) as Hne.
  destruct (free_named_ok name s Hok Hne) as (F1 & F2 & F3 & _). apply get_name_some in Eo as [Hin Ename].
  assert (Hid : id ∈ paste_by_time (free_named name s)).
  { apply F3. split; [by apply (po_times _ Hok), (po_names _ Hok)|]. intros En'. apply Hd.
    by apply get_name_ok. }
  change (match paste_get_name name s with Some other => paste_free other s | None => s end)
    with (free_named name s). intros [= _ _ <-].
  apply notify_ok, notify_ok. change (paste_ok (rename_buffer id name (free_named name s))).
  apply rename_buffer_ok; [done|done|]. intros x Hx _. by apply F2.
Qed.

Lemma paste_set_ok limit data name now r cause s s' : paste_ok s -> in_range s -> 0 <= limit ->
  paste_set limit data name now s = Some (r, cause, s') -> paste_ok s'.
Proof.
  intros Hok Hr Hl E. destruct data as [|d data]; [by injection E as _ _ <-|].
  destruct name as [[|c name]|]; [by injection E as _ _ <-| |].
  - destruct (clean_name (String c name) "") as [[n|]|] eqn:Ec.
    + destruct (paste_set_named limit (d :: data) (String c name) n now s Hok (ir_order _ Hr)) as (id & s1 & E1 & Hs);
        [done|done|done|]. rewrite E1 in E. injection E as _ _ <-. apply Hs.
    + unfold paste_set in E. rewrite Ec in E. cbn [mbind option_bind] in E. by injection E as _ _ <-.
    + unfold paste_set in E. by rewrite Ec in E.
  - injection E as _ _ <-. by apply (pa_ok _ _ _ _ _ _ (paste_add_added limit None (d :: data) now s Hok Hr ltac:(done) Hl)).
Qed.

(** ** Any sequence of operations *)

Inductive paste_step (limit : Z) : paste_state -> paste_state -> Prop :=
  | StepAdd prefix data now s : paste_step limit s (paste_add limit prefix data now s)
  | StepSet data name now r cause s s' : paste_set limit data name now s = Some (r, cause, s') ->
      paste_step limit s s'
  | StepRename oldname newname r cause s s' : paste_rename oldname newname s = Some (r, cause, s') ->
      paste_step limit s s'
  | StepFree id s : id ∈ paste_by_time s -> paste_step limit s (paste_free id s)
  | StepReplace id data s : id ∈ paste_by_time s -> paste_step limit s (paste_replace id data s).

Inductive paste_reachable : paste_state -> Prop :=
  | ReachInit : paste_reachable paste_init
  | ReachStep limit s s' : paste_reachable s -> in_range s -> 0 <= limit -> paste_step limit s s' ->
      paste_reachable s'.

Lemma paste_replace_ok id data s : paste_ok s -> id ∈ paste_by_time s -> paste_ok (paste_replace id data s).
Proof.
  intros Hok Hid. unfold paste_replace. apply notify_ok. set (s' := set_heap _ s).
  assert (Eo : forall x, pb_name (object s' x) = pb_name (object s x) /\ pb_order (object s' x) = pb_order (object s x) /\
    pb_automatic (object s' x) = pb_automatic (object s x)).
  { intros x. unfold object at 1 3 5. cbn. destruct (decide (x = id)) as [->|Hne];
      [by rewrite lookup_insert_eq|by rewrite lookup_insert_ne]. }
  destruct Hok as [Hn Hnn Ht Hs Hu Ho Hr Hc].
  assert (Hheap : forall x, is_Some (p_heap s' !! x) <-> is_Some (p_heap s !! x)).
  { intros x. cbn. destruct (decide (x = id)) as [->|Hne]; [|by rewrite lookup_insert_ne].
    rewrite lookup_insert_eq. split; [intros _; by apply Ht|by eexists]. }
  split; try done.
  - intros x. by rewrite Hheap.
  - intros x. by rewrite Hheap.
  - eapply sorted_weaken; [|exact Hs]. intros x y _ _. unfold newer.
    by destruct (Eo x) as (_ & -> & _), (Eo y) as (_ & -> & _).
  - intros i j Hi Hj. destruct (Eo i) as (-> & _), (Eo j) as (-> & _). by apply Hu.
  - intros x Hx. destruct (Eo x) as (_ & -> & _). by apply Ho.
  - change (paste_num_automatic s = count_automatic s' (paste_by_time s)). rewrite Hc.
    unfold count_automatic. do 2 f_equal. apply list_filter_iff. intros x. unfold automatic.
    by destruct (Eo x) as (_ & _ & ->).
Qed.

Lemma paste_step_ok limit s s' : paste_ok s -> in_range s -> 0 <= limit -> paste_step limit s s' -> paste_ok s'.
Proof.
  intros Hok Hr Hl Hst. revert Hok Hr.
  destruct Hst as [prefix data now s1|data name now r cause s1 s2 E|on nn r cause s1 s2 E|id s1 Hid|id data s1 Hid];
    intros Hok Hr.
  - destruct data as [|d data]; [exact Hok|]. by apply (paste_add_added limit prefix (d :: data) now s1 Hok Hr).
  - by eapply paste_set_ok.
  - by eapply paste_rename_ok.
  - by apply paste_free_ok.
  - by apply paste_replace_ok.
Qed.

Lemma paste_reachable_ok s : paste_reachable s -> paste_ok s.
Proof. induction 1; [apply paste_init_ok|by eapply paste_step_ok]. Qed.

End Names.

(** ** The property *)

(** C34. What adding a paste buffer does, in any state that operations on paste
    buffers lead to (short of 2^32 of them): the new buffer gets a name no other
    has, is the most recent and the one a paste takes; there are at most
    buffer-limit automatic buffers then; of the others only automatic ones have
    gone, older than all automatic ones that stay, and those that stay are as
    they were. *)
Theorem paste_add_keeps_newest `{Locale} limit prefix data now s :
  paste_reachable s -> in_range s -> data <> [] -> 0 <= limit ->
  paste_added limit (default "buffer"%string prefix) data now s (paste_add limit prefix data now s).
Proof. intros Hr. by apply paste_add_added, paste_reachable_ok. Qed.

(** Two automatic buffers. *)
Definition two_buffers : paste_state :=
  paste_add 2 None [98] 0 (paste_add 2 None [97] 0 paste_init).

Lemma two_reachable : @paste_reachable ascii_locale two_buffers.
Proof.
  apply (ReachStep 2 (paste_add 2 None [97] 0 paste_init)); [|split; vm_compute; done|lia|constructor].
  apply (ReachStep 2 paste_init); [constructor|split; vm_compute; done|lia|constructor].
Qed.

Lemma paste_add_keeps_newest_witness :
  let s' := paste_add 2 None [99] 0 two_buffers in
  paste_num_automatic s' <= 2 /\ length (paste_by_time s') = 2%nat.
Proof.
  destruct (@paste_add_keeps_newest ascii_locale 2 None [99] 0 two_buffers) as [_ _ Hl].
  - apply two_reachable.
  - split; vm_compute; done.
  - done.
  - done.
  - split; [exact Hl|by vm_compute].
Defined.
