(* ===== verification/KeyString.v ===== *)
(** * Key codes and their names (src/tmux/terminal/key-string.c)

    A key is a 64-bit code: a character or a special key in the low 40 bits,
    then modifiers and flags.  The conversion of a number to a multibyte
    character ([wctomb]) belongs to the C library. *)
From Stdlib Require Import Ascii String.
From S2P Require Import Prelude.
From S2P Require Import CString.
From S2P Require Import Utf8.
From S2P Require Import Locale.

(** ** Key codes (src/tmux/tmux.h) *)

Definition KEYC_META : Z := 0x00100000000000.
Definition KEYC_CTRL : Z := 0x00200000000000.
Definition KEYC_SHIFT : Z := 0x00400000000000.
Definition KEYC_LITERAL : Z := 0x01000000000000.
Definition KEYC_KEYPAD : Z := 0x02000000000000.
Definition KEYC_CURSOR : Z := 0x04000000000000.
Definition KEYC_IMPLIED_META : Z := 0x08000000000000.
Definition KEYC_BUILD_MODIFIERS : Z := 0x10000000000000.
Definition KEYC_SENT : Z := 0x40000000000000.
Definition KEYC_MASK_TYPE : Z := 0x0000ff00000000.
Definition KEYC_MASK_MODIFIERS : Z := 0x00ff0000000000.
Definition KEYC_MASK_FLAGS : Z := 0xff000000000000.
Definition KEYC_MASK_KEY : Z := 0x0000ffffffffff.
Definition KEYC_NUSER : Z := 1000.

Definition KEYC_SHIFT_TYPE (t : Z) : Z := Z.shiftl t 32.
Definition KEYC_TYPE_UNICODE : Z := 0.
Definition KEYC_TYPE_USER : Z := 1.
Definition KEYC_TYPE_FUNCTION : Z := 2.
Definition KEYC_TYPE_MOUSEMOVE : Z := 3.
Definition KEYC_TYPE_MOUSEDOWN : Z := 4.
Definition KEYC_TYPE_MOUSEUP : Z := 5.
Definition KEYC_TYPE_MOUSEDRAG : Z := 6.
Definition KEYC_TYPE_MOUSEDRAGEND : Z := 7.
Definition KEYC_TYPE_WHEELDOWN : Z := 8.
Definition KEYC_TYPE_WHEELUP : Z := 9.
Definition KEYC_TYPE_SECONDCLICK : Z := 10.
Definition KEYC_TYPE_DOUBLECLICK : Z := 11.
Definition KEYC_TYPE_TRIPLECLICK : Z := 12.

Definition is_type (key t : Z) : bool := Z.land key KEYC_MASK_TYPE =? KEYC_SHIFT_TYPE t.
Definition KEYC_IS_UNICODE (key : Z) : bool :=
  is_type key KEYC_TYPE_UNICODE && (0x7f <? Z.land key KEYC_MASK_KEY).
Definition KEYC_IS_USER (key : Z) : bool := is_type key KEYC_TYPE_USER.

Definition KEYC_USER : Z := KEYC_SHIFT_TYPE KEYC_TYPE_USER.

Definition KEYC_NONE : Z := KEYC_SHIFT_TYPE KEYC_TYPE_FUNCTION + 0.
Definition KEYC_UNKNOWN : Z := KEYC_SHIFT_TYPE KEYC_TYPE_FUNCTION + 1.
Definition KEYC_FOCUS_IN : Z := KEYC_SHIFT_TYPE KEYC_TYPE_FUNCTION + 2.
Definition KEYC_FOCUS_OUT : Z := KEYC_SHIFT_TYPE KEYC_TYPE_FUNCTION + 3.
Definition KEYC_ANY : Z := KEYC_SHIFT_TYPE KEYC_TYPE_FUNCTION + 4.
Definition KEYC_PASTE_START : Z := KEYC_SHIFT_TYPE KEYC_TYPE_FUNCTION + 5.
Definition KEYC_PASTE_END : Z := KEYC_SHIFT_TYPE KEYC_TYPE_FUNCTION + 6.
Definition KEYC_BSPACE : Z := KEYC_SHIFT_TYPE KEYC_TYPE_FUNCTION + 7.
Definition KEYC_F1 : Z := KEYC_SHIFT_TYPE KEYC_TYPE_FUNCTION + 8.
Definition KEYC_F2 : Z := KEYC_SHIFT_TYPE KEYC_TYPE_FUNCTION + 9.
Definition KEYC_F3 : Z := KEYC_SHIFT_TYPE KEYC_TYPE_FUNCTION + 10.
Definition KEYC_F4 : Z := KEYC_SHIFT_TYPE KEYC_TYPE_FUNCTION + 11.
Definition KEYC_F5 : Z := KEYC_SHIFT_TYPE KEYC_TYPE_FUNCTION + 12.
Definition KEYC_F6 : Z := KEYC_SHIFT_TYPE KEYC_TYPE_FUNCTION + 13.
Definition KEYC_F7 : Z := KEYC_SHIFT_TYPE KEYC_TYPE_FUNCTION + 14.
Definition KEYC_F8 : Z := KEYC_SHIFT_TYPE KEYC_TYPE_FUNCTION + 15.
Definition KEYC_F9 : Z := KEYC_SHIFT_TYPE KEYC_TYPE_FUNCTION + 16.
Definition KEYC_F10 : Z := KEYC_SHIFT_TYPE KEYC_TYPE_FUNCTION + 17.
Definition KEYC_F11 : Z := KEYC_SHIFT_TYPE KEYC_TYPE_FUNCTION + 18.
Definition KEYC_F12 : Z := KEYC_SHIFT_TYPE KEYC_TYPE_FUNCTION + 19.
Definition KEYC_IC : Z := KEYC_SHIFT_TYPE KEYC_TYPE_FUNCTION + 20.
Definition KEYC_DC : Z := KEYC_SHIFT_TYPE KEYC_TYPE_FUNCTION + 21.
Definition KEYC_HOME : Z := KEYC_SHIFT_TYPE KEYC_TYPE_FUNCTION + 22.
Definition KEYC_END : Z := KEYC_SHIFT_TYPE KEYC_TYPE_FUNCTION + 23.
Definition KEYC_NPAGE : Z := KEYC_SHIFT_TYPE KEYC_TYPE_FUNCTION + 24.
Definition KEYC_PPAGE : Z := KEYC_SHIFT_TYPE KEYC_TYPE_FUNCTION + 25.
Definition KEYC_BTAB : Z := KEYC_SHIFT_TYPE KEYC_TYPE_FUNCTION + 26.
Definition KEYC_UP : Z := KEYC_SHIFT_TYPE KEYC_TYPE_FUNCTION + 27.
Definition KEYC_DOWN : Z := KEYC_SHIFT_TYPE KEYC_TYPE_FUNCTION + 28.
Definition KEYC_LEFT : Z := KEYC_SHIFT_TYPE KEYC_TYPE_FUNCTION + 29.
Definition KEYC_RIGHT : Z := KEYC_SHIFT_TYPE KEYC_TYPE_FUNCTION + 30.
Definition KEYC_KP_SLASH : Z := KEYC_SHIFT_TYPE KEYC_TYPE_FUNCTION + 31.
Definition KEYC_KP_STAR : Z := KEYC_SHIFT_TYPE KEYC_TYPE_FUNCTION + 32.
Definition KEYC_KP_MINUS : Z := KEYC_SHIFT_TYPE KEYC_TYPE_FUNCTION + 33.
Definition KEYC_KP_SEVEN : Z := KEYC_SHIFT_TYPE KEYC_TYPE_FUNCTION + 34.
Definition KEYC_KP_EIGHT : Z := KEYC_SHIFT_TYPE KEYC_TYPE_FUNCTION + 35.
Definition KEYC_KP_NINE : Z := KEYC_SHIFT_TYPE KEYC_TYPE_FUNCTION + 36.
Definition KEYC_KP_PLUS : Z := KEYC_SHIFT_TYPE KEYC_TYPE_FUNCTION + 37.
Definition KEYC_KP_FOUR : Z := KEYC_SHIFT_TYPE KEYC_TYPE_FUNCTION + 38.
Definition KEYC_KP_FIVE : Z := KEYC_SHIFT_TYPE KEYC_TYPE_FUNCTION + 39.
Definition KEYC_KP_SIX : Z := KEYC_SHIFT_TYPE KEYC_TYPE_FUNCTION + 40.
Definition KEYC_KP_ONE : Z := KEYC_SHIFT_TYPE KEYC_TYPE_FUNCTION + 41.
Definition KEYC_KP_TWO : Z := KEYC_SHIFT_TYPE KEYC_TYPE_FUNCTION + 42.
Definition KEYC_KP_THREE : Z := KEYC_SHIFT_TYPE KEYC_TYPE_FUNCTION + 43.
Definition KEYC_KP_ENTER : Z := KEYC_SHIFT_TYPE KEYC_TYPE_FUNCTION + 44.
Definition KEYC_KP_ZERO : Z := KEYC_SHIFT_TYPE KEYC_TYPE_FUNCTION + 45.
Definition KEYC_KP_PERIOD : Z := KEYC_SHIFT_TYPE KEYC_TYPE_FUNCTION + 46.
Definition KEYC_REPORT_DARK_THEME : Z := KEYC_SHIFT_TYPE KEYC_TYPE_FUNCTION + 47.
Definition KEYC_REPORT_LIGHT_THEME : Z := KEYC_SHIFT_TYPE KEYC_TYPE_FUNCTION + 48.
Definition KEYC_MOUSE : Z := KEYC_SHIFT_TYPE KEYC_TYPE_FUNCTION + 49.
Definition KEYC_DRAGGING : Z := KEYC_SHIFT_TYPE KEYC_TYPE_FUNCTION + 50.
Definition KEYC_DOUBLECLICK : Z := KEYC_SHIFT_TYPE KEYC_TYPE_FUNCTION + 51.

(** A mouse key: its type, button and place ([KEYC_MAKE_MOUSE_KEY]). *)
Definition KEYC_MAKE_MOUSE_KEY (t b l : Z) : Z :=
  Z.lor (KEYC_SHIFT_TYPE t) (Z.lor (Z.shiftl b 8) l).

(** The places in the order of the code; border and scrollbar are numbered
    differently from the order of their names in the table. *)
Definition KEYC_MOUSE_STRING (t b : Z) (s : string) : list (string * Z) :=
  map (fun '(place, l) => (s +:+ place, KEYC_MAKE_MOUSE_KEY t b l))
    [ ("Pane", 0); ("Status", 1); ("StatusLeft", 2); ("StatusRight", 3); ("StatusDefault", 4);
      ("ScrollbarUp", 6); ("ScrollbarSlider", 7); ("ScrollbarDown", 8); ("Border", 5);
      ("Control0", 9); ("Control1", 10); ("Control2", 11); ("Control3", 12); ("Control4", 13);
      ("Control5", 14); ("Control6", 15); ("Control7", 16); ("Control8", 17);
      ("Control9", 18) ]%string.

Definition KEYC_MOUSEMOVE_PANE : Z := KEYC_MAKE_MOUSE_KEY KEYC_TYPE_MOUSEMOVE 0 0.
Definition KEYC_MOUSEMOVE_STATUS : Z := KEYC_MAKE_MOUSE_KEY KEYC_TYPE_MOUSEMOVE 0 1.
Definition KEYC_MOUSEMOVE_STATUS_LEFT : Z := KEYC_MAKE_MOUSE_KEY KEYC_TYPE_MOUSEMOVE 0 2.
Definition KEYC_MOUSEMOVE_STATUS_RIGHT : Z := KEYC_MAKE_MOUSE_KEY KEYC_TYPE_MOUSEMOVE 0 3.
Definition KEYC_MOUSEMOVE_BORDER : Z := KEYC_MAKE_MOUSE_KEY KEYC_TYPE_MOUSEMOVE 0 5.

Definition KEYC_IS_SPECIAL (key : Z) : bool := is_type key KEYC_TYPE_FUNCTION.
Definition KEYC_IS_MOUSE (key : Z) : bool :=
  (Z.land key KEYC_MASK_KEY =? KEYC_MOUSE) ||
  ((KEYC_SHIFT_TYPE KEYC_TYPE_MOUSEMOVE <=? Z.land key KEYC_MASK_TYPE) &&
   (Z.land key KEYC_MASK_TYPE <=? KEYC_SHIFT_TYPE KEYC_TYPE_TRIPLECLICK)).
Definition KEYC_IS_PASTE (key : Z) : bool :=
  is_type key KEYC_TYPE_FUNCTION &&
  ((Z.land key KEYC_MASK_KEY =? KEYC_PASTE_START) || (Z.land key KEYC_MASK_KEY =? KEYC_PASTE_END)).

(** ** Mouse events (src/tmux/tmux.h) *)

Record mouse_event := ME {
  me_valid : bool; me_ignore : bool;
  me_key : Z;
  me_statusat : Z; me_statuslines : Z;
  me_x : Z; me_y : Z; me_b : Z;
  me_lx : Z; me_ly : Z; me_lb : Z;
  me_ox : Z; me_oy : Z;
  me_newmux_scroll_ignore : bool; me_newmux_scroll_valid : bool;
  me_newmux_scroll_lines_milli : Z; me_newmux_scroll_precision : bool;
  me_newmux_scroll_momentum : Z;
  me_s : Z; me_w : Z; me_wp : Z;
  me_sgr_type : Z; me_sgr_b : Z
}.

(** [struct mouse_event m = { 0 }]. *)
Definition mouse_zero : mouse_event :=
  ME false false 0 0 0 0 0 0 0 0 0 0 0 false false 0 false 0 0 0 0 0 0.

Definition MOUSE_MASK_BUTTONS : Z := 195.
Definition MOUSE_MASK_DRAG : Z := 32.
Definition MOUSE_WHEEL_UP : Z := 64.
Definition MOUSE_WHEEL_DOWN : Z := 65.
Definition MOUSE_WHEEL (b : Z) : bool :=
  (Z.land b MOUSE_MASK_BUTTONS =? MOUSE_WHEEL_UP) || (Z.land b MOUSE_MASK_BUTTONS =? MOUSE_WHEEL_DOWN).
Definition MOUSE_DRAG (b : Z) : bool := negb (Z.land b MOUSE_MASK_DRAG =? 0).
Definition MOUSE_RELEASE (b : Z) : bool := Z.land b MOUSE_MASK_BUTTONS =? 3.

(** ** The table *)

Definition function_keys : list (string * Z) := [
  ("F1", Z.lor KEYC_F1 KEYC_IMPLIED_META);
  ("F2", Z.lor KEYC_F2 KEYC_IMPLIED_META);
  ("F3", Z.lor KEYC_F3 KEYC_IMPLIED_META);
  ("F4", Z.lor KEYC_F4 KEYC_IMPLIED_META);
  ("F5", Z.lor KEYC_F5 KEYC_IMPLIED_META);
  ("F6", Z.lor KEYC_F6 KEYC_IMPLIED_META);
  ("F7", Z.lor KEYC_F7 KEYC_IMPLIED_META);
  ("F8", Z.lor KEYC_F8 KEYC_IMPLIED_META);
  ("F9", Z.lor KEYC_F9 KEYC_IMPLIED_META);
  ("F10", Z.lor KEYC_F10 KEYC_IMPLIED_META);
  ("F11", Z.lor KEYC_F11 KEYC_IMPLIED_META);
  ("F12", Z.lor KEYC_F12 KEYC_IMPLIED_META);
  ("IC", Z.lor KEYC_IC KEYC_IMPLIED_META);
  ("Insert", Z.lor KEYC_IC KEYC_IMPLIED_META);
  ("DC", Z.lor KEYC_DC KEYC_IMPLIED_META);
  ("Delete", Z.lor KEYC_DC KEYC_IMPLIED_META);
  ("Home", Z.lor KEYC_HOME KEYC_IMPLIED_META);
  ("End", Z.lor KEYC_END KEYC_IMPLIED_META);
  ("NPage", Z.lor KEYC_NPAGE KEYC_IMPLIED_META);
  ("PageDown", Z.lor KEYC_NPAGE KEYC_IMPLIED_META);
  ("PgDn", Z.lor KEYC_NPAGE KEYC_IMPLIED_META);
  ("PPage", Z.lor KEYC_PPAGE KEYC_IMPLIED_META);
  ("PageUp", Z.lor KEYC_PPAGE KEYC_IMPLIED_META);
  ("PgUp", Z.lor KEYC_PPAGE KEYC_IMPLIED_META);
  ("BTab", KEYC_BTAB);
  ("Space", 32);
  ("BSpace", KEYC_BSPACE);
  ("[NUL]", 0);
  ("[SOH]", 1);
  ("[STX]", 2);
  ("[ETX]", 3);
  ("[EOT]", 4);
  ("[ENQ]", 5);
  ("[ASC]", 6);
  ("[BEL]", 7);
  ("[BS]", 8);
  ("Tab", 9);
  ("[LF]", 10);
  ("[VT]", 11);
  ("[FF]", 12);
  ("Enter", 13);
  ("[SO]", 14);
  ("[SI]", 15);
  ("[DLE]", 16);
  ("[DC1]", 17);
  ("[DC2]", 18);
  ("[DC3]", 19);
  ("[DC4]", 20);
  ("[NAK]", 21);
  ("[SYN]", 22);
  ("[ETB]", 23);
  ("[CAN]", 24);
  ("[EM]", 25);
  ("[SUB]", 26);
  ("Escape", 27);
  ("[FS]", 28);
  ("[GS]", 29);
  ("[RS]", 30);
  ("[US]", 31);
  ("Up", Z.lor (Z.lor KEYC_UP KEYC_CURSOR) KEYC_IMPLIED_META);
  ("Down", Z.lor (Z.lor KEYC_DOWN KEYC_CURSOR) KEYC_IMPLIED_META);
  ("Left", Z.lor (Z.lor KEYC_LEFT KEYC_CURSOR) KEYC_IMPLIED_META);
  ("Right", Z.lor (Z.lor KEYC_RIGHT KEYC_CURSOR) KEYC_IMPLIED_META);
  ("KP/", Z.lor KEYC_KP_SLASH KEYC_KEYPAD);
  ("KP*", Z.lor KEYC_KP_STAR KEYC_KEYPAD);
  ("KP-", Z.lor KEYC_KP_MINUS KEYC_KEYPAD);
  ("KP7", Z.lor KEYC_KP_SEVEN KEYC_KEYPAD);
  ("KP8", Z.lor KEYC_KP_EIGHT KEYC_KEYPAD);
  ("KP9", Z.lor KEYC_KP_NINE KEYC_KEYPAD);
  ("KP+", Z.lor KEYC_KP_PLUS KEYC_KEYPAD);
  ("KP4", Z.lor KEYC_KP_FOUR KEYC_KEYPAD);
  ("KP5", Z.lor KEYC_KP_FIVE KEYC_KEYPAD);
  ("KP6", Z.lor KEYC_KP_SIX KEYC_KEYPAD);
  ("KP1", Z.lor KEYC_KP_ONE KEYC_KEYPAD);
  ("KP2", Z.lor KEYC_KP_TWO KEYC_KEYPAD);
  ("KP3", Z.lor KEYC_KP_THREE KEYC_KEYPAD);
  ("KPEnter", Z.lor KEYC_KP_ENTER KEYC_KEYPAD);
  ("KP0", Z.lor KEYC_KP_ZERO KEYC_KEYPAD);
  ("KP.", Z.lor KEYC_KP_PERIOD KEYC_KEYPAD)]%string.

Definition mouse_keys : list (string * Z) := flat_map (fun '(t, b, s) => KEYC_MOUSE_STRING t b s) [
  (KEYC_TYPE_MOUSEDOWN, 1, "MouseDown1");
  (KEYC_TYPE_MOUSEDOWN, 2, "MouseDown2");
  (KEYC_TYPE_MOUSEDOWN, 3, "MouseDown3");
  (KEYC_TYPE_MOUSEDOWN, 6, "MouseDown6");
  (KEYC_TYPE_MOUSEDOWN, 7, "MouseDown7");
  (KEYC_TYPE_MOUSEDOWN, 8, "MouseDown8");
  (KEYC_TYPE_MOUSEDOWN, 9, "MouseDown9");
  (KEYC_TYPE_MOUSEDOWN, 10, "MouseDown10");
  (KEYC_TYPE_MOUSEDOWN, 11, "MouseDown11");
  (KEYC_TYPE_MOUSEUP, 1, "MouseUp1");
  (KEYC_TYPE_MOUSEUP, 2, "MouseUp2");
  (KEYC_TYPE_MOUSEUP, 3, "MouseUp3");
  (KEYC_TYPE_MOUSEUP, 6, "MouseUp6");
  (KEYC_TYPE_MOUSEUP, 7, "MouseUp7");
  (KEYC_TYPE_MOUSEUP, 8, "MouseUp8");
  (KEYC_TYPE_MOUSEUP, 9, "MouseUp9");
  (KEYC_TYPE_MOUSEUP, 10, "MouseUp10");
  (KEYC_TYPE_MOUSEUP, 11, "MouseUp11");
  (KEYC_TYPE_MOUSEDRAG, 1, "MouseDrag1");
  (KEYC_TYPE_MOUSEDRAG, 2, "MouseDrag2");
  (KEYC_TYPE_MOUSEDRAG, 3, "MouseDrag3");
  (KEYC_TYPE_MOUSEDRAG, 6, "MouseDrag6");
  (KEYC_TYPE_MOUSEDRAG, 7, "MouseDrag7");
  (KEYC_TYPE_MOUSEDRAG, 8, "MouseDrag8");
  (KEYC_TYPE_MOUSEDRAG, 9, "MouseDrag9");
  (KEYC_TYPE_MOUSEDRAG, 10, "MouseDrag10");
  (KEYC_TYPE_MOUSEDRAG, 11, "MouseDrag11");
  (KEYC_TYPE_MOUSEDRAGEND, 1, "MouseDragEnd1");
  (KEYC_TYPE_MOUSEDRAGEND, 2, "MouseDragEnd2");
  (KEYC_TYPE_MOUSEDRAGEND, 3, "MouseDragEnd3");
  (KEYC_TYPE_MOUSEDRAGEND, 6, "MouseDragEnd6");
  (KEYC_TYPE_MOUSEDRAGEND, 7, "MouseDragEnd7");
  (KEYC_TYPE_MOUSEDRAGEND, 8, "MouseDragEnd8");
  (KEYC_TYPE_MOUSEDRAGEND, 9, "MouseDragEnd9");
  (KEYC_TYPE_MOUSEDRAGEND, 10, "MouseDragEnd10");
  (KEYC_TYPE_MOUSEDRAGEND, 11, "MouseDragEnd11");
  (KEYC_TYPE_WHEELUP, 0, "WheelUp");
  (KEYC_TYPE_WHEELDOWN, 0, "WheelDown");
  (KEYC_TYPE_SECONDCLICK, 1, "SecondClick1");
  (KEYC_TYPE_SECONDCLICK, 2, "SecondClick2");
  (KEYC_TYPE_SECONDCLICK, 3, "SecondClick3");
  (KEYC_TYPE_SECONDCLICK, 6, "SecondClick6");
  (KEYC_TYPE_SECONDCLICK, 7, "SecondClick7");
  (KEYC_TYPE_SECONDCLICK, 8, "SecondClick8");
  (KEYC_TYPE_SECONDCLICK, 9, "SecondClick9");
  (KEYC_TYPE_SECONDCLICK, 10, "SecondClick10");
  (KEYC_TYPE_SECONDCLICK, 11, "SecondClick11");
  (KEYC_TYPE_DOUBLECLICK, 1, "DoubleClick1");
  (KEYC_TYPE_DOUBLECLICK, 2, "DoubleClick2");
  (KEYC_TYPE_DOUBLECLICK, 3, "DoubleClick3");
  (KEYC_TYPE_DOUBLECLICK, 6, "DoubleClick6");
  (KEYC_TYPE_DOUBLECLICK, 7, "DoubleClick7");
  (KEYC_TYPE_DOUBLECLICK, 8, "DoubleClick8");
  (KEYC_TYPE_DOUBLECLICK, 9, "DoubleClick9");
  (KEYC_TYPE_DOUBLECLICK, 10, "DoubleClick10");
  (KEYC_TYPE_DOUBLECLICK, 11, "DoubleClick11");
  (KEYC_TYPE_TRIPLECLICK, 1, "TripleClick1");
  (KEYC_TYPE_TRIPLECLICK, 2, "TripleClick2");
  (KEYC_TYPE_TRIPLECLICK, 3, "TripleClick3");
  (KEYC_TYPE_TRIPLECLICK, 6, "TripleClick6");
  (KEYC_TYPE_TRIPLECLICK, 7, "TripleClick7");
  (KEYC_TYPE_TRIPLECLICK, 8, "TripleClick8");
  (KEYC_TYPE_TRIPLECLICK, 9, "TripleClick9");
  (KEYC_TYPE_TRIPLECLICK, 10, "TripleClick10");
  (KEYC_TYPE_TRIPLECLICK, 11, "TripleClick11")]%string.

Definition key_string_table : list (string * Z) := function_keys ++ mouse_keys.
(** ** From a name *)

Section Lookup.
Context `{Locale} (wctomb : Z -> option (list Z)).

(** [sscanf (string, "User%u", &user)]. *)
Definition scan_user (s : string) : option Z :=
  match s with
  | String "U" (String "s" (String "e" (String "r" s))) => fst <$> scan_u s
  | _ => None
  end.

(** Without regard to case. *)
Definition key_string_search_table (s : string) : Z :=
  match list_find (fun e => strcaseeq s (fst e) = true) key_string_table with
  | Some (_, e) => snd e
  | None =>
      match scan_user s with
      | Some user => if user <=? KEYC_NUSER then KEYC_USER + user else KEYC_UNKNOWN
      | None => KEYC_UNKNOWN
      end
  end.

(** The modifiers in front of a key, and the rest; NULL for another letter. *)
Fixpoint key_string_get_modifiers (modifiers : Z) (s : string) : option (Z * string) :=
  match s with
  | String c (String d rest) =>
      if Ascii.eqb d "-" then
        if Ascii.eqb (tolower c) "c" then key_string_get_modifiers (Z.lor modifiers KEYC_CTRL) rest
        else if Ascii.eqb (tolower c) "m" then key_string_get_modifiers (Z.lor modifiers KEYC_META) rest
        else if Ascii.eqb (tolower c) "s" then key_string_get_modifiers (Z.lor modifiers KEYC_SHIFT) rest
        else None
      else Some (modifiers, s)
  | _ => Some (modifiers, s)
  end.

Definition MB_LEN_MAX : Z := 16.

(** A number after 0x: a control character, or the character of that code. *)
Definition hex_key (t : utf8_table) (s : string) : option (Z * utf8_table) :=
  match scan_hex_u s with
  | None => Some (KEYC_UNKNOWN, t)
  | Some (u, _) =>
      if u <? 32 then Some (u, t)
      else
        match wctomb u with
        | None => Some (KEYC_UNKNOWN, t)
        | Some m =>
            let mlen := Z.of_nat (length m) in
            if (mlen <=? 0) || (MB_LEN_MAX <? mlen) then Some (KEYC_UNKNOWN, t)
            else
              udp ← utf8_fromcstr loc_mbtowc loc_wcwidth loc_widths m;
              match udp with
              | [ud] =>
                  if ud_size ud =? 0 then Some (KEYC_UNKNOWN, t)
                  else
                    '(st, uc, t) ← utf8_from_data t ud;
                    Some (match st with UTF8_DONE => uc | _ => KEYC_UNKNOWN end, t)
              | _ => Some (KEYC_UNKNOWN, t)
              end
        end
  end.

(** The key of a character of several bytes, the first of which has been read. *)
Definition utf8_key (t : utf8_table) (ud : utf8_data) (s : list Z) (modifiers : Z) :
    option (Z * utf8_table) :=
  if negb (Z.of_nat (length s) =? ud_size ud) then Some (KEYC_UNKNOWN, t)
  else
    '(more, ud) ← foldl (fun st ch =>
        '(_, ud) ← st; utf8_append loc_mbtowc loc_wcwidth loc_widths false ud ch)
      (Some (UTF8_MORE, ud)) (drop 1 s);
    match more with
    | UTF8_DONE =>
        '(st, uc, t) ← utf8_from_data t ud;
        Some (match st with UTF8_DONE => Z.lor uc modifiers | _ => KEYC_UNKNOWN end, t)
    | _ => Some (KEYC_UNKNOWN, t)
    end.

(** A key without its modifiers, which is not a single ASCII character. *)
Definition named_key (t : utf8_table) (s : string) (modifiers : Z) : option (Z * utf8_table) :=
  '(more, ud) ← utf8_open loc_mbtowc loc_wcwidth loc_widths false (code (hd_char s));
  match more with
  | UTF8_MORE => utf8_key t ud (bytes_of_string s) modifiers
  | _ =>
      let key := key_string_search_table s in
      Some (if key =? KEYC_UNKNOWN then KEYC_UNKNOWN
            else Z.lor (if Z.land modifiers KEYC_META =? 0 then Z.ldiff key KEYC_IMPLIED_META else key)
                   modifiers, t)
  end.

(** What follows a short Ctrl: modifiers and a key. *)
Definition modified_key (t : utf8_table) (s : string) (modifiers : Z) : option (Z * utf8_table) :=
  match key_string_get_modifiers modifiers s with
  | None | Some (_, EmptyString) => Some (KEYC_UNKNOWN, t)
  | Some (modifiers, String c EmptyString) =>
      if code c <=? 127 then
        Some (if code c <? 32 then KEYC_UNKNOWN else Z.lor (code c) modifiers, t)
      else named_key t (String c EmptyString) modifiers
  | Some (modifiers, s) => named_key t s modifiers
  end.

(** The key and the table of characters; [None] is [fatalx]. *)
Definition key_string_lookup_string (t : utf8_table) (s : string) : option (Z * utf8_table) :=
  if strcaseeq s "None" then Some (KEYC_NONE, t)
  else if strcaseeq s "Any" then Some (KEYC_ANY, t)
  else
    match s with
    | String c0 ((String c1 rest) as s1) =>
        if Ascii.eqb c0 "0" && Ascii.eqb c1 "x" then hex_key t rest
        else if Ascii.eqb c0 "^" then
          match rest with
          | EmptyString => Some (Z.lor (code (tolower c1)) KEYC_CTRL, t)
          | _ => modified_key t s1 KEYC_CTRL
          end
        else modified_key t s 0
    | _ => modified_key t s 0
    end.

End Lookup.

(** ** To a name *)

(** The keys that have a name of their own. *)
Definition special_keys : list (Z * string) := [
  (KEYC_NONE, "None"); (KEYC_UNKNOWN, "Unknown"); (KEYC_ANY, "Any"); (KEYC_FOCUS_IN, "FocusIn");
  (KEYC_FOCUS_OUT, "FocusOut"); (KEYC_PASTE_START, "PasteStart"); (KEYC_PASTE_END, "PasteEnd");
  (KEYC_REPORT_DARK_THEME, "ReportDarkTheme"); (KEYC_REPORT_LIGHT_THEME, "ReportLightTheme");
  (KEYC_MOUSE, "Mouse"); (KEYC_DRAGGING, "Dragging"); (KEYC_MOUSEMOVE_PANE, "MouseMovePane");
  (KEYC_MOUSEMOVE_STATUS, "MouseMoveStatus"); (KEYC_MOUSEMOVE_STATUS_LEFT, "MouseMoveStatusLeft");
  (KEYC_MOUSEMOVE_STATUS_RIGHT, "MouseMoveStatusRight"); (KEYC_MOUSEMOVE_BORDER, "MouseMoveBorder")
  ]%string.

(** [strlcat (out, s, sizeof out)]. *)
Definition add (s out : string) : string := fst (strlcat out s 64).
Definition add_if (b : bool) (s out : string) : string := if b then add s out else out.
Definition bit (key f : Z) : bool := negb (Z.land key f =? 0).

Definition modifier_names (key : Z) : string :=
  add_if (bit key KEYC_SHIFT) "S-" (add_if (bit key KEYC_META) "M-"
    (add_if (bit key KEYC_CTRL) "C-" "")).

(** A key without its modifiers and flags, after the names of the modifiers;
    [saved] is the whole key. *)
Definition key_name (t : utf8_table) (key saved : Z) (out : string) : string :=
  match list_find (fun e => fst e = key) special_keys with
  | Some (_, e) => add (snd e) out
  | None =>
      if KEYC_IS_USER key then add (str_take 7 ("User" +:+ fmt_u (u32 (key - KEYC_USER)))) out
      else
        match list_find (fun e => Z.land (snd e) KEYC_MASK_KEY = key) key_string_table with
        | Some (_, e) => add (fst e) out
        | None =>
            if KEYC_IS_UNICODE key then
              out +:+ string_of_bytes (ud_bytes (utf8_to_data t (u32 key)))
            else if 255 <? key then str_take 63 ("Invalid#" +:+ fmt_llx saved)
            else if (32 <? key) && (key <=? 126) then add (String (ascii_of_N (Z.to_N key)) "") out
            else if key =? 127 then add "C-?" out
            else add (String "\" (fmt_llo key)) out
        end
  end.

Definition flag_names (saved : Z) (out : string) : string :=
  add "]" (add_if (bit saved KEYC_SENT) "S" (add_if (bit saved KEYC_BUILD_MODIFIERS) "B"
    (add_if (bit saved KEYC_IMPLIED_META) "I" (add_if (bit saved KEYC_CURSOR) "C"
    (add_if (bit saved KEYC_KEYPAD) "K" (add_if (bit saved KEYC_LITERAL) "L" (add "[" out))))))).

(** [%c] of NUL gives an empty string. *)
Definition literal_name (key : Z) : string :=
  let c := Z.land key 0xff in
  if c =? 0 then "" else String (ascii_of_N (Z.to_N c)) "".

Definition key_string_lookup_key (t : utf8_table) (key : Z) (with_flags : bool) : string :=
  let out := if bit key KEYC_LITERAL then literal_name key
             else key_name t (Z.land key KEYC_MASK_KEY) key (modifier_names key) in
  if with_flags && bit key KEYC_MASK_FLAGS then flag_names key out else out.
