(* ===== verification/KeyStringProps.v ===== *)
(** * The properties of key names *)
From Stdlib Require Import Ascii String.
From S2P Require Import Prelude.
From S2P Require Import CString.
From S2P Require Import Utf8.
From S2P Require Import Locale.
From S2P Require Import KeyString.

(** ** The table has no name twice *)

Fixpoint distinctb (seen : gmap string unit) (l : list string) : bool :=
  match l with
  | [] => true
  | x :: l => match seen !! x with Some _ => false | None => distinctb (<[x := tt]> seen) l end
  end.

Lemma distinctb_sound l : forall seen, distinctb seen l = true ->
  NoDup l /\ forall x, x ∈ l -> seen !! x = None.
Proof.
  induction l as [|x l IH]; intros seen Hd; cbn [distinctb] in Hd.
  { split; [constructor|]. intros x Hx. by apply elem_of_nil in Hx. }
  destruct (seen !! x) eqn:E; [done|]. destruct (IH _ Hd) as [Hn Hs]. split.
  - constructor; [|done]. intros Hin. specialize (Hs _ Hin). by rewrite lookup_insert_eq in Hs.
  - intros y [-> |Hin]%elem_of_cons; [done|]. specialize (Hs _ Hin).
    destruct (decide (x = y)) as [-> |]; [done|]. by rewrite lookup_insert_ne in Hs.
Qed.

Lemma table_distinct : NoDup (map (fun e => lower (fst e)) key_string_table).
Proof. apply (distinctb_sound _ ∅). vm_compute. reflexivity. Qed.

Lemma find_distinct {A} (f : A -> string) l e : NoDup (map f l) -> e ∈ l ->
  exists i, list_find (fun x => String.eqb (f e) (f x) = true) l = Some (i, e).
Proof.
  intros Hn Hin. induction l as [|x l IH]; [by apply elem_of_nil in Hin|].
  cbn [map] in Hn. apply NoDup_cons in Hn as [Hx Hn]. cbn [list_find].
  apply elem_of_cons in Hin as [-> |Hin].
  - rewrite decide_True by apply String.eqb_refl. by exists 0%nat.
  - rewrite decide_False.
    + destruct (IH Hn Hin) as [i Hi]. rewrite Hi. by exists (S i).
    + intros Heq%String.eqb_eq. apply Hx. rewrite <- Heq. apply list_elem_of_fmap. by exists e.
Qed.

Lemma search_table_found e : e ∈ key_string_table -> key_string_search_table (fst e) = snd e.
Proof.
  intros Hin. unfold key_string_search_table, strcaseeq.
  destruct (find_distinct (fun e => lower (fst e)) _ e table_distinct Hin) as [i Hi].
  by rewrite Hi.
Qed.

(** ** What the names look like *)

(** A name of the table: two printable ASCII characters or more, which are
    taken for no modifier, no short Ctrl and no number, a key that is known,
    and room in the buffer for three modifiers. *)
Definition named_start (s : string) : bool :=
  match s with
  | String a (String b _) =>
      (32 <=? code a) && (code a <? 128) && negb (Ascii.eqb a "^") && negb (Ascii.eqb b "-") &&
      negb (Ascii.eqb a "0") && Nat.ltb (String.length s) 50 &&
      negb (strcaseeq s "None") && negb (strcaseeq s "Any")
  | _ => false
  end.

Lemma named_short s : named_start s = true -> (String.length s < 50)%nat.
Proof.
  destruct s as [|a [|b s]]; [done|done|]. unfold named_start. rewrite !andb_true_iff.
  intros Hs. apply Nat.ltb_lt, Hs.
Qed.

Definition row_ok (e : string * Z) : bool :=
  let key := Z.land (snd e) KEYC_MASK_KEY in
  named_start (fst e) && negb (snd e =? KEYC_UNKNOWN) && (0 <=? snd e) &&
  (Z.land (snd e) KEYC_MASK_MODIFIERS =? 0) && negb (KEYC_IS_USER key) &&
  ((key <=? 32) || (126 <? key)) &&
  negb (bool_decide (key ∈ map fst special_keys)) &&
  negb (String.prefix "user" (lower (fst e))).

Lemma rows_ok : forallb row_ok key_string_table = true.
Proof. vm_compute. reflexivity. Qed.

Lemma row_of e : e ∈ key_string_table -> row_ok e = true.
Proof. intros Hin. pose proof rows_ok as H. rewrite forallb_forall in H. apply H. by apply list_elem_of_In. Qed.

Lemma not_special key : key ∉ map fst special_keys ->
  list_find (fun e : Z * string => fst e = key) special_keys = None.
Proof.
  intros Hn. apply list_find_None, Forall_forall. intros e He Heq. apply Hn. subst key.
  by apply list_elem_of_fmap_2.
Qed.

(** ** Modifiers *)

(** The modifiers of a key, in the order of their names. *)
Definition mods (ctrl meta shift : bool) : Z :=
  Z.lor (if ctrl then KEYC_CTRL else 0) (Z.lor (if meta then KEYC_META else 0) (if shift then KEYC_SHIFT else 0)).
Definition prefix_of (ctrl meta shift : bool) : string :=
  (if ctrl then "C-" else "") +:+ (if meta then "M-" else "") +:+ (if shift then "S-" else "").

Lemma modifier_names_eq key :
  modifier_names key = prefix_of (bit key KEYC_CTRL) (bit key KEYC_META) (bit key KEYC_SHIFT).
Proof. unfold modifier_names, prefix_of. destruct (bit key KEYC_CTRL), (bit key KEYC_META), (bit key KEYC_SHIFT); reflexivity. Qed.

Lemma add_short s out : (String.length out + String.length s < 64)%nat -> add s out = out +:+ s.
Proof. intros Hl. unfold add, strlcat. by rewrite (proj2 (Nat.ltb_lt _ _) Hl). Qed.

Section Lookup.
Context `{Locale} (wctomb : Z -> option (list Z)) (t : utf8_table).
Notation lookup := (key_string_lookup_string wctomb t).

Lemma get_modifiers_prefix c m s0 m0 s : 
  key_string_get_modifiers m0 (prefix_of c m s0 +:+ s) =
  key_string_get_modifiers (Z.lor m0 (mods c m s0)) s.
Proof.
  unfold mods. destruct c, m, s0; cbn -[KEYC_CTRL KEYC_META KEYC_SHIFT]; by rewrite ?Z.lor_0_l, ?Z.lor_0_r, ?Z.lor_assoc.
Qed.

(** Names that are not taken for anything else before the modifiers are read. *)
Definition plain_start (s : string) : bool :=
  negb (strcaseeq s "None") && negb (strcaseeq s "Any") &&
  match s with
  | String a (String _ _) => negb (Ascii.eqb a "0") && negb (Ascii.eqb a "^")
  | _ => true
  end.

Lemma lookup_plain s : plain_start s = true -> lookup s = modified_key t s 0.
Proof.
  unfold plain_start, key_string_lookup_string. intros Hs. rewrite !andb_true_iff, !negb_true_iff in Hs.
  destruct Hs as [[-> ->] Hs]. destruct s as [|a [|b s]]; [done|done|].
  rewrite andb_true_iff, !negb_true_iff in Hs. destruct Hs as [-> ->]. done.
Qed.

Lemma prefix_plain c m s0 s : plain_start s = true -> s <> ""%string ->
  plain_start (prefix_of c m s0 +:+ s) = true.
Proof. intros Hs Hne. by destruct c, m, s0. Qed.

Lemma lookup_prefix c m s0 s : plain_start s = true -> s <> ""%string ->
  lookup (prefix_of c m s0 +:+ s) =
  match key_string_get_modifiers (mods c m s0) s with
  | None | Some (_, EmptyString) => Some (KEYC_UNKNOWN, t)
  | Some (modifiers, String c EmptyString) =>
      if code c <=? 127 then Some (if code c <? 32 then KEYC_UNKNOWN else Z.lor (code c) modifiers, t)
      else named_key t (String c EmptyString) modifiers
  | Some (modifiers, s) => named_key t s modifiers
  end.
Proof.
  intros Hs Hne. rewrite lookup_plain by by apply prefix_plain.
  unfold modified_key. by rewrite get_modifiers_prefix, Z.lor_0_l.
Qed.

(** ** Names of the table *)

Lemma open_ascii ch : 0 <= ch < 128 ->
  utf8_open loc_mbtowc loc_wcwidth loc_widths false ch = Some (UTF8_ERROR, ud_zero).
Proof.
  intros Hc. unfold utf8_open.
  by rewrite (proj2 (Z.leb_gt 0xc2 ch)), (proj2 (Z.leb_gt 0xe0 ch)), (proj2 (Z.leb_gt 0xf0 ch)) by lia.
Qed.

(** The key of a name, with modifiers. *)
Definition with_mods (key m : Z) : Z :=
  Z.lor (if Z.land m KEYC_META =? 0 then Z.ldiff key KEYC_IMPLIED_META else key) m.

Lemma lookup_named c m s0 s key : named_start s = true -> key_string_search_table s = key ->
  key <> KEYC_UNKNOWN -> lookup (prefix_of c m s0 +:+ s) = Some (with_mods key (mods c m s0), t).
Proof.
  intros Hs Hk Hne. unfold named_start in Hs. destruct s as [|a [|b s]]; [done|done|].
  rewrite !andb_true_iff, !negb_true_iff in Hs.
  destruct Hs as [[[[[[[H1 H2] H3] H4] H5] _] H6] H7]. apply Z.leb_le in H1. apply Z.ltb_lt in H2.
  rewrite lookup_prefix; [|unfold plain_start; by rewrite H6, H7, H3, H5|done].
  cbn [key_string_get_modifiers]. rewrite H4.
  unfold named_key. cbn [hd_char]. rewrite open_ascii by lia. cbn [mbind option_bind].
  rewrite Hk, (proj2 (Z.eqb_neq key KEYC_UNKNOWN) Hne). done.
Qed.

(** ** User keys *)

Lemma str_app_nil_r (s : string) : s +:+ "" = s.
Proof. induction s as [|a s IH]; [done|]. by rewrite str_app_cons, IH. Qed.

Definition user_ok (n : Z) : bool :=
  KEYC_IS_USER (KEYC_USER + n) && Nat.leb (String.length (fmt_u n)) 3 &&
  String.eqb (str_take 7 ("User" +:+ fmt_u n)) ("User" +:+ fmt_u n) &&
  negb (bool_decide (KEYC_USER + n ∈ map fst special_keys)) &&
  named_start ("User" +:+ fmt_u n) && (Z.land (KEYC_USER + n) KEYC_MASK_MODIFIERS =? 0) &&
  (Z.land (KEYC_USER + n) KEYC_MASK_KEY =? KEYC_USER + n).

Lemma users_ok n : 0 <= n < 1000 -> user_ok n = true.
Proof. apply forall_range. vm_compute. reflexivity. Qed.

Lemma prefix_user_no s e : row_ok e = true -> strcaseeq ("User" +:+ s) (fst e) = false.
Proof.
  unfold row_ok. rewrite !andb_true_iff, negb_true_iff. intros [_ Hp]. unfold strcaseeq.
  destruct (String.eqb_spec (lower ("User" +:+ s)) (lower (fst e))) as [E|]; [|done].
  rewrite <- E in Hp.
  change (lower ("User" +:+ s)) with ("user" +:+ lower s) in Hp. by destruct (lower s).
Qed.

Lemma search_user n : 0 <= n < 1000 -> key_string_search_table ("User" +:+ fmt_u n) = KEYC_USER + n.
Proof.
  intros Hn. unfold key_string_search_table.
  rewrite (proj2 (list_find_None _ _)).
  - change (scan_user ("User" +:+ fmt_u n)) with (fst <$> scan_u (fmt_u n)). pose proof (scan_u_fmt_u n "" ltac:(lia) eq_refl) as Hs.
    rewrite str_app_nil_r in Hs. rewrite Hs. cbn [fst fmap option_fmap option_map]. unfold KEYC_NUSER.
    by rewrite (proj2 (Z.leb_le n 1000)) by lia.
  - apply Forall_forall. intros e He. rewrite prefix_user_no by by apply row_of. done.
Qed.

(** ** Bits *)

Definition MODS : Z := Z.lor KEYC_CTRL (Z.lor KEYC_META KEYC_SHIFT).
Definition COMPARED : Z := Z.lor KEYC_MASK_KEY MODS.

Lemma land_bit key i : 0 <= i -> Z.land key (2 ^ i) = if bit key (2 ^ i) then 2 ^ i else 0.
Proof.
  intros Hi. assert (E : Z.land key (2 ^ i) = if Z.testbit key i then 2 ^ i else 0).
  { apply Z.bits_inj'. intros j Hj. rewrite Z.land_spec, Z.pow2_bits_eqb by done.
    destruct (Z.eqb_spec i j) as [<- |Hne]; [|rewrite andb_false_r; destruct (Z.testbit key i);
      rewrite ?Z.pow2_bits_false, ?Z.bits_0 by done; done].
    destruct (Z.testbit key i); rewrite ?Z.pow2_bits_true, ?Z.bits_0 by done; done. }
  unfold bit. rewrite E. destruct (Z.testbit key i); [|done].
  by rewrite (proj2 (Z.eqb_neq (2 ^ i) 0)) by (pose proof (Z.pow_pos_nonneg 2 i); lia).
Qed.

Lemma land_mods key : Z.land key MODS = mods (bit key KEYC_CTRL) (bit key KEYC_META) (bit key KEYC_SHIFT).
Proof.
  unfold MODS, mods. rewrite !Z.land_lor_distr_r.
  pose proof (land_bit key 45 ltac:(done)) as E1. pose proof (land_bit key 44 ltac:(done)) as E2.
  pose proof (land_bit key 46 ltac:(done)) as E3. change (2 ^ 45) with KEYC_CTRL in E1.
  change (2 ^ 44) with KEYC_META in E2. change (2 ^ 46) with KEYC_SHIFT in E3. by rewrite E1, E2, E3.
Qed.

Lemma land_compared key k : Z.land key KEYC_MASK_KEY = k ->
  Z.land key COMPARED = Z.lor k (mods (bit key KEYC_CTRL) (bit key KEYC_META) (bit key KEYC_SHIFT)).
Proof. intros <-. unfold COMPARED. by rewrite Z.land_lor_distr_r, land_mods. Qed.

(** A key that has been looked up compares as the key and the modifiers. *)
Lemma found_compared key c m s : Z.land key KEYC_MASK_MODIFIERS = 0 ->
  Z.land (Z.lor key (mods c m s)) COMPARED = Z.lor (Z.land key KEYC_MASK_KEY) (mods c m s) /\
  Z.land (with_mods key (mods c m s)) COMPARED = Z.lor (Z.land key KEYC_MASK_KEY) (mods c m s).
Proof.
  intros Hk. assert (Hm : Z.land (mods c m s) COMPARED = mods c m s) by (by destruct c, m, s).
  assert (H0 : Z.land key MODS = 0).
  { change MODS with (Z.land KEYC_MASK_MODIFIERS MODS). by rewrite Z.land_assoc, Hk. }
  assert (Hkc : Z.land key COMPARED = Z.land key KEYC_MASK_KEY)
    by (unfold COMPARED; by rewrite Z.land_lor_distr_r, H0, Z.lor_0_r).
  assert (Hd : Z.land (Z.ldiff key KEYC_IMPLIED_META) COMPARED = Z.land key COMPARED).
  { rewrite Z.ldiff_land, <- Z.land_assoc. f_equal. }
  unfold with_mods. rewrite !Z.land_lor_distr_l, Hm. split; [by rewrite Hkc|].
  case_match; by rewrite ?Hd, Hkc.
Qed.

(** ** The round trip *)

(** A printable ASCII character, a user key or a key of the table. *)
Inductive nameable : Z -> Prop :=
  | name_ascii k : 32 < k <= 126 -> nameable k
  | name_user n : 0 <= n < 1000 -> nameable (KEYC_USER + n)
  | name_table e : e ∈ key_string_table -> nameable (Z.land (snd e) KEYC_MASK_KEY).

Definition ascii_ok (k : Z) : bool :=
  (k <=? 32) ||
  (negb (KEYC_IS_USER k) && negb (KEYC_IS_UNICODE k) &&
   negb (bool_decide (k ∈ map fst special_keys)) && (code (ascii_of_N (Z.to_N k)) =? k) &&
   (Z.land k KEYC_MASK_MODIFIERS =? 0) && plain_start (String (ascii_of_N (Z.to_N k)) "")).

Lemma ascii_all k : 0 <= k < 127 -> ascii_ok k = true.
Proof. apply forall_range. vm_compute. reflexivity. Qed.

Lemma prefix_length c m s : (String.length (prefix_of c m s) <= 6)%nat.
Proof. apply Nat.leb_le. by destruct c, m, s. Qed.

Lemma add_name c m s0 s : (String.length s < 50)%nat -> add s (prefix_of c m s0) = prefix_of c m s0 +:+ s.
Proof. intros Hs. apply add_short. pose proof (prefix_length c m s0). lia. Qed.

Lemma table_named e c m s saved : e ∈ key_string_table -> exists key,
  lookup (key_name t (Z.land (snd e) KEYC_MASK_KEY) saved (prefix_of c m s)) = Some (key, t) /\
  Z.land key COMPARED = Z.lor (Z.land (snd e) KEYC_MASK_KEY) (mods c m s).
Proof.
  intros He. set (k := Z.land (snd e) KEYC_MASK_KEY). pose proof (row_of e He) as Hr.
  unfold row_ok in Hr. rewrite !andb_true_iff, !negb_true_iff in Hr. fold k in Hr.
  destruct Hr as [[[[_ Hu] _] Hsp] _]. apply bool_decide_eq_false in Hsp.
  unfold key_name. rewrite not_special by done. rewrite Hu.
  destruct (list_find (fun e => Z.land (snd e) KEYC_MASK_KEY = k) key_string_table) as [[i e']|] eqn:Ef.
  2: { exfalso. apply list_find_None in Ef. rewrite Forall_forall in Ef. by apply (Ef e He). }
  apply list_find_Some in Ef as (Hi & Hk & _). apply list_elem_of_lookup_2 in Hi.
  pose proof (row_of e' Hi) as Hr'. unfold row_ok in Hr'. rewrite !andb_true_iff, !negb_true_iff in Hr'.
  destruct Hr' as [[[[[[[Hn Hne] _] Hmod] _] _] _] _]. apply Z.eqb_neq in Hne. apply Z.eqb_eq in Hmod.
  rewrite add_name by by apply named_short.
  eexists. split; [apply lookup_named; [exact Hn|by apply search_table_found|done]|].
  rewrite <- Hk. by apply found_compared.
Qed.

Lemma user_named n c m s saved : 0 <= n < 1000 -> exists key,
  lookup (key_name t (KEYC_USER + n) saved (prefix_of c m s)) = Some (key, t) /\
  Z.land key COMPARED = Z.lor (KEYC_USER + n) (mods c m s).
Proof.
  intros Hn. pose proof (users_ok n Hn) as Hu. unfold user_ok in Hu.
  rewrite !andb_true_iff, negb_true_iff in Hu. destruct Hu as [[[[[[Hu _] Hs] Hsp] Hst] Hmod] Hkey].
  apply bool_decide_eq_false in Hsp. apply String.eqb_eq in Hs. apply Z.eqb_eq in Hmod, Hkey.
  unfold key_name. rewrite not_special by done. rewrite Hu.
  replace (KEYC_USER + n - KEYC_USER) with n by lia. rewrite u32_small, Hs by lia.
  rewrite add_name by by apply named_short.
  eexists. split; [apply lookup_named; [exact Hst|by apply search_user|]|].
  - assert (KEYC_USER + 1000 < KEYC_UNKNOWN) by (by vm_compute). lia.
  - rewrite <- Hkey at 2. by apply found_compared.
Qed.

Lemma ascii_named k c m s saved : 32 < k <= 126 -> Z.land k KEYC_MASK_KEY = k -> exists key,
  lookup (key_name t k saved (prefix_of c m s)) = Some (key, t) /\
  Z.land key COMPARED = Z.lor k (mods c m s).
Proof.
  intros Hk Hkey. pose proof (ascii_all k ltac:(lia)) as Ha. unfold ascii_ok in Ha.
  rewrite (proj2 (Z.leb_gt k 32)) in Ha by lia. cbn [orb] in Ha.
  rewrite !andb_true_iff, !negb_true_iff in Ha. destruct Ha as [[[[[Hu Huni] Hsp] Hc] Hmod] Hst].
  apply bool_decide_eq_false in Hsp. apply Z.eqb_eq in Hc, Hmod.
  unfold key_name. rewrite not_special by done. rewrite Hu.
  rewrite (proj2 (list_find_None _ _)).
  2: { apply Forall_forall. intros e He Heq. pose proof (row_of e He) as Hr. unfold row_ok in Hr.
    rewrite !andb_true_iff in Hr. destruct Hr as [[[_ Hr] _] _]. rewrite Heq in Hr.
    apply orb_true_iff in Hr as [Hr|Hr]; [apply Z.leb_le in Hr|apply Z.ltb_lt in Hr]; lia. }
  rewrite Huni. rewrite (proj2 (Z.ltb_ge 255 k)), (proj2 (Z.ltb_lt 32 k)), (proj2 (Z.leb_le k 126)) by lia.
  cbn [andb]. rewrite add_name by (cbn; lia). rewrite lookup_prefix by done.
  cbn [key_string_get_modifiers]. rewrite Hc, (proj2 (Z.leb_le k 127)), (proj2 (Z.ltb_ge k 32)) by lia.
  eexists. split; [done|]. rewrite <- Hkey at 2. by apply found_compared.
Qed.

(** C33. A key that is shown with its name can be typed as that name: for a
    printable ASCII character, a user key or any key of the table (function,
    cursor, keypad, control and mouse keys), with any of the modifiers,
    key_string_lookup_string of what key_string_lookup_key gives is the key
    again, with the same modifiers (the flags are those of the table). *)
Theorem key_string_roundtrip key : nameable (Z.land key KEYC_MASK_KEY) -> bit key KEYC_LITERAL = false ->
  exists key', lookup (key_string_lookup_key t key false) = Some (key', t) /\
    Z.land key' COMPARED = Z.land key COMPARED.
Proof.
  intros Hk Hlit. unfold key_string_lookup_key. rewrite Hlit. cbn [andb]. rewrite modifier_names_eq.
  rewrite (land_compared key _ eq_refl).
  assert (Hkk : Z.land (Z.land key KEYC_MASK_KEY) KEYC_MASK_KEY = Z.land key KEYC_MASK_KEY)
    by (by rewrite <- Z.land_assoc).
  remember (Z.land key KEYC_MASK_KEY) as k0 eqn:Ek.
  destruct Hk as [k Hk|n Hn|e He]; [by apply ascii_named|by apply user_named|by apply table_named].
Qed.

End Lookup.

(** User1000 can be typed, but is shown as the name of another key: the buffer
    of its name is one character too short. *)
Lemma user_1000_shown t : key_string_lookup_key t (KEYC_USER + KEYC_NUSER) false = "User100"%string.
Proof. reflexivity. Qed.

Definition no_locale : Locale :=
  {| loc_mbtowc := fun _ => None; loc_wcwidth := fun _ => 1; loc_widths := ∅ |}.

(** C-S-F5. *)
Lemma key_string_roundtrip_witness :
  let key := Z.lor KEYC_F5 (Z.lor KEYC_CTRL KEYC_SHIFT) in
  exists key', @key_string_lookup_string no_locale (fun _ => None) (UT ∅ ∅ 0)
      (key_string_lookup_key (UT ∅ ∅ 0) key false) = Some (key', UT ∅ ∅ 0) /\
    Z.land key' COMPARED = key.
Proof.
  intros key.
  destruct (@key_string_roundtrip no_locale (fun _ => None) (UT ∅ ∅ 0) key) as (key' & E & Ek).
  - apply (name_table ("F5", Z.lor KEYC_F5 KEYC_IMPLIED_META)%string).
    by apply (list_elem_of_lookup_2 _ 4).
  - reflexivity.
  - exists key'. split; [exact E|exact Ek].
Defined.
