(* ===== verification/Base64.v ===== *)
(** * Base 64 (src/tmux/compat/base64.c)

    [None] is the result -1.  The bytes of a C string are those before its
    NUL, so the end of the list is the NUL. *)
From Stdlib Require Import Ascii String.
From S2P Require Import Prelude.
From S2P Require Import CString.
From S2P Require Import Utf8.
From S2P Require Import Locale.

Definition Base64 : list Z :=
  bytes_of_string "ABCDEFGHIJKLMNOPQRSTUVWXYZabcdefghijklmnopqrstuvwxyz0123456789+/".
Definition Pad64 : Z := 61.

Definition base64_char (v : Z) : Z := nth (Z.to_nat v) Base64 0.
(** [strchr(Base64, ch) - Base64]. *)
Definition base64_index (ch : Z) : option Z :=
  (fun p => Z.of_nat p.1) <$> list_find (fun c => c = ch) Base64.

(** ** Encoding *)

(** The four characters of three bytes. *)
Definition encode_group (a b c : Z) : list Z :=
  map base64_char
    [Z.shiftr a 2;
     Z.shiftl (Z.land a 3) 4 + Z.shiftr b 4;
     Z.shiftl (Z.land b 15) 2 + Z.shiftr c 6;
     Z.land c 0x3f].

(** [done] is what the target holds. *)
Fixpoint b64_ntop_from (src : list Z) (targsize : Z) (target : list Z) : option (list Z) :=
  let full n := targsize <? Z.of_nat (length target) + n in
  match src with
  | a :: b :: c :: src =>
      if full 4 then None else b64_ntop_from src targsize (target ++ encode_group a b c)
  | [a; b] =>
      if full 4 || full 5 then None else Some (target ++ take 3 (encode_group a b 0) ++ [Pad64])
  | [a] =>
      if full 4 || full 5 then None
      else Some (target ++ take 2 (encode_group a 0 0) ++ [Pad64; Pad64])
  | [] => if full 1 then None else Some target
  end.

Definition b64_ntop (src : list Z) (targsize : Z) : option (list Z) :=
  b64_ntop_from src targsize [].

(** ** Decoding, with a target *)

Definition isspace (ch : Z) : bool := ((9 <=? ch) && (ch <=? 13)) || (ch =? 32).

(** The four states, the whole bytes and the byte being made: what
    [target[tarindex]] holds. *)
Record decoder := Dec { d_state : Z; d_out : list Z; d_byte : Z }.

(** A character of the alphabet, whose index is [v]. *)
Definition b64_put (targsize v : Z) (d : decoder) : option decoder :=
  let tarindex := Z.of_nat (length (d_out d)) in
  let next state byte nextbyte :=
    if (targsize <=? tarindex + 1) && negb (nextbyte =? 0) then None
    else Some (Dec state (d_out d ++ [Z.lor (d_byte d) byte]) nextbyte) in
  if targsize <=? tarindex then None
  else
    match d_state d with
    | 0 => Some (Dec 1 (d_out d) (Z.shiftl v 2))
    | 1 => next 2 (Z.shiftr v 4) (Z.shiftl (Z.land v 15) 4)
    | 2 => next 3 (Z.shiftr v 2) (Z.shiftl (Z.land v 3) 6)
    | _ => Some (Dec 0 (d_out d ++ [Z.lor (d_byte d) v]) 0)
    end.

(** What follows the first pad character. *)
Definition b64_pad (targsize : Z) (src : list Z) (d : decoder) : option (list Z) :=
  let fix skip (l : list Z) : list Z :=
    match l with c :: l' => if isspace c then skip l' else l | [] => [] end in
  let last l :=
    if negb (forallb isspace l) then None
    else if (Z.of_nat (length (d_out d)) <? targsize) && negb (d_byte d =? 0) then None
    else Some (d_out d) in
  match d_state d with
  | 2 => match skip src with
         | c :: l => if c =? Pad64 then last l else None
         | [] => None
         end
  | 3 => last src
  | _ => None
  end.

Fixpoint b64_pton_from (targsize : Z) (src : list Z) (d : decoder) : option (list Z) :=
  match src with
  | [] => if d_state d =? 0 then Some (d_out d) else None
  | ch :: src =>
      if isspace ch then b64_pton_from targsize src d
      else if ch =? Pad64 then b64_pad targsize src d
      else
        v ← base64_index ch;
        d ← b64_put targsize v d;
        b64_pton_from targsize src d
  end.

Definition b64_pton (src : list Z) (targsize : Z) : option (list Z) :=
  b64_pton_from targsize src (Dec 0 [] 0).

(** * Facts *)

Definition byte (z : Z) : Prop := 0 <= z < 256.

Lemma base64_char_index v : 0 <= v < 64 ->
  base64_index (base64_char v) = Some v /\ isspace (base64_char v) = false /\
  (base64_char v =? Pad64) = false.
Proof.
  intros Hv.
  assert (Hall : forallb (fun v => bool_decide (base64_index (base64_char v) = Some v) &&
            negb (isspace (base64_char v)) && negb (base64_char v =? Pad64)) (seqZ 0 64) = true)
    by (vm_compute; reflexivity).
  rewrite forallb_forall in Hall. specialize (Hall v).
  rewrite !andb_true_iff, !negb_true_iff in Hall.
  destruct Hall as ((He & Hs) & Hp); [apply list_elem_of_In, elem_of_seqZ; lia|].
  by apply bool_decide_eq_true in He.
Qed.

Ltac pow2_lia :=
  change (2 ^ 2) with 4 in *; change (2 ^ 4) with 16 in *; change (2 ^ 6) with 64 in *;
  Z.to_euclidean_division_equations; lia.

(** The sextets of three bytes, and the bytes they give back. *)
Lemma sextets a b c : byte a -> byte b -> byte c ->
  0 <= Z.shiftr a 2 < 64 /\ 0 <= Z.shiftl (Z.land a 3) 4 + Z.shiftr b 4 < 64 /\
  0 <= Z.shiftl (Z.land b 15) 2 + Z.shiftr c 6 < 64 /\ 0 <= Z.land c 0x3f < 64.
Proof.
  unfold byte. intros. change 3 with (2 ^ 2 - 1). change 15 with (2 ^ 4 - 1).
  change 0x3f with (2 ^ 6 - 1). rewrite !land_mask, !Z.shiftr_div_pow2, !Z.shiftl_mul_pow2 by lia.
  pow2_lia.
Qed.

Lemma regroup a b c : byte a -> byte b -> byte c ->
  let s0 := Z.shiftr a 2 in
  let s1 := Z.shiftl (Z.land a 3) 4 + Z.shiftr b 4 in
  let s2 := Z.shiftl (Z.land b 15) 2 + Z.shiftr c 6 in
  Z.lor (Z.shiftl s0 2) (Z.shiftr s1 4) = a /\
  Z.lor (Z.shiftl (Z.land s1 15) 4) (Z.shiftr s2 2) = b /\
  Z.lor (Z.shiftl (Z.land s2 3) 6) (Z.land c 0x3f) = c /\
  Z.shiftl (Z.land s1 15) 4 = (b / 16) * 16 /\ Z.shiftl (Z.land s2 3) 6 = (c / 64) * 64.
Proof.
  unfold byte. intros Ha Hb Hc. cbv zeta.
  change 3 with (2 ^ 2 - 1). change 15 with (2 ^ 4 - 1). change 0x3f with (2 ^ 6 - 1).
  rewrite !land_mask, !Z.shiftr_div_pow2, !Z.shiftl_mul_pow2 by lia.
  assert (0 <= (b / 2 ^ 4 + (a mod 2 ^ 2) * 2 ^ 4) / 2 ^ 4 < 2 ^ 2) by pow2_lia.
  repeat split; rewrite ?lor_shifted; pow2_lia.
Qed.

Lemma b64_pton_step n v l d : 0 <= v < 64 ->
  b64_pton_from n (base64_char v :: l) d = d ← b64_put n v d; b64_pton_from n l d.
Proof.
  intros Hv. destruct (base64_char_index v Hv) as (Hi & Hs & Hp).
  cbn [b64_pton_from]. by rewrite Hs, Hp, Hi.
Qed.

(** One character, with room for what it gives. *)
Ltac decode_step :=
  rewrite b64_pton_step by done; unfold b64_put; cbn [d_state d_out d_byte];
  rewrite ?length_app; cbn [length];
  repeat match goal with |- context [?n <=? ?m] => rewrite (proj2 (Z.leb_gt n m)) by lia end;
  cbn [andb mbind option_bind d_state d_out d_byte].

(** A whole group of three bytes. *)
Lemma b64_pton_group n a b c l out x : byte a -> byte b -> byte c ->
  Z.of_nat (length out) + 3 <= n ->
  b64_pton_from n (encode_group a b c ++ l) (Dec 0 out x) =
  b64_pton_from n l (Dec 0 (out ++ [a; b; c]) 0).
Proof.
  intros Ha Hb Hc Hn. destruct (sextets a b c Ha Hb Hc) as (S0 & S1 & S2 & S3).
  destruct (regroup a b c Ha Hb Hc) as (R0 & R1 & R2 & _).
  unfold encode_group. cbn [map app].
  do 4 decode_step.
  by rewrite <- !app_assoc, R0, R1, R2.
Qed.

Lemma encode_group_take n a b c : take n (encode_group a b c) =
  map base64_char (take n [Z.shiftr a 2; Z.shiftl (Z.land a 3) 4 + Z.shiftr b 4;
                           Z.shiftl (Z.land b 15) 2 + Z.shiftr c 6; Z.land c 0x3f]).
Proof. unfold encode_group. by rewrite firstn_map. Qed.

(** The last one or two bytes. *)
Lemma b64_pton_tail n l out x : Forall byte l -> (length l = 1 \/ length l = 2)%nat ->
  Z.of_nat (length out + length l) <= n ->
  b64_pton_from n (match l with
                   | [a] => take 2 (encode_group a 0 0) ++ [Pad64; Pad64]
                   | [a; b] => take 3 (encode_group a b 0) ++ [Pad64]
                   | _ => []
                   end) (Dec 0 out x) = Some (out ++ l).
Proof.
  intros Hl Hlen Hn. assert (B0 : byte 0) by (unfold byte; lia).
  destruct l as [|a [|b [|]]]; cbn in Hlen; try lia.
  - apply Forall_cons in Hl as [Ha _].
    destruct (sextets a 0 0 Ha B0 B0) as (S0 & S1 & _).
    destruct (regroup a 0 0 Ha B0 B0) as (R0 & _ & _ & Z1 & _).
    rewrite encode_group_take. cbn [map take app]. cbn [length] in Hn.
    do 2 decode_step.
    rewrite Z1, R0, andb_false_r. cbn. by rewrite andb_false_r.
  - apply Forall_cons in Hl as [Ha Hl]. apply Forall_cons in Hl as [Hb _].
    destruct (sextets a b 0 Ha Hb B0) as (S0 & S1 & S2 & _).
    destruct (regroup a b 0 Ha Hb B0) as (R0 & R1 & _ & _ & Z2).
    rewrite encode_group_take. cbn [map take app]. cbn [length] in Hn.
    do 3 decode_step.
    rewrite Z2, R0, R1, andb_false_r, <- app_assoc. cbn. by rewrite andb_false_r.
Qed.

(** The number of characters, the NUL apart. *)
Definition b64_length (n : nat) : Z := 4 * ((Z.of_nat n + 2) / 3).

Lemma b64_length_group n : b64_length (S (S (S n))) = b64_length n + 4.
Proof.
  unfold b64_length. replace (Z.of_nat (S (S (S n))) + 2) with (Z.of_nat n + 2 + 1 * 3) by lia.
  rewrite Z.div_add by lia. lia.
Qed.

Lemma b64_length_nonneg n : 0 <= b64_length n.
Proof. unfold b64_length. pose proof (Z.div_pos (Z.of_nat n + 2) 3). lia. Qed.

(** Three bytes at a time. *)
Lemma triples_ind {A} (P : list A -> Prop) :
  P [] -> (forall a, P [a]) -> (forall a b, P [a; b]) ->
  (forall a b c l, P l -> P (a :: b :: c :: l)) -> forall l, P l.
Proof.
  intros P0 P1 P2 P3. fix IH 1.
  intros [|a [|b [|c l]]]; [exact P0|apply P1|apply P2|apply P3, IH].
Qed.

Lemma b64_ntop_from_full m src target :
  m <= Z.of_nat (length target) + b64_length (length src) -> b64_ntop_from src m target = None.
Proof.
  revert target. induction src as [|a|a b|a b c src IH] using triples_ind;
    intros target Hm; cbn [b64_ntop_from length] in *.
  - change (b64_length 0) with 0 in Hm. by rewrite (proj2 (Z.ltb_lt m _)) by lia.
  - change (b64_length 1) with 4 in Hm. by rewrite (proj2 (Z.ltb_lt m (_ + 5))), orb_true_r by lia.
  - change (b64_length 2) with 4 in Hm. by rewrite (proj2 (Z.ltb_lt m (_ + 5))), orb_true_r by lia.
  - rewrite b64_length_group in Hm. destruct (_ <? _); [done|]. apply IH.
    rewrite length_app; cbn [length encode_group map]. lia.
Qed.

Lemma b64_ntop_from_fits n m src out target : Forall byte src ->
  Z.of_nat (length out + length src) <= n ->
  Z.of_nat (length target) + b64_length (length src) < m ->
  exists enc, b64_ntop_from src m target = Some (target ++ enc) /\
    Z.of_nat (length enc) = b64_length (length src) /\
    forall x, b64_pton_from n enc (Dec 0 out x) = Some (out ++ src).
Proof.
  intros Hsrc. revert out target.
  induction src as [|a|a b|a b c src IH] using triples_ind; intros out target Hn Hm;
    cbn [b64_ntop_from length] in Hn, Hm |- *.
  - change (b64_length 0) with 0 in Hm. rewrite (proj2 (Z.ltb_ge m _)) by lia.
    exists []. by rewrite !app_nil_r.
  - change (b64_length 1) with 4 in Hm. rewrite !(proj2 (Z.ltb_ge m _)) by lia.
    eexists. split; [reflexivity|]. split; [done|]. intros x.
    apply (b64_pton_tail n [a]); [done|by left|done].
  - change (b64_length 2) with 4 in Hm. rewrite !(proj2 (Z.ltb_ge m _)) by lia.
    eexists. split; [reflexivity|]. split; [done|]. intros x.
    apply (b64_pton_tail n [a; b]); [done|by right|done].
  - rewrite !Forall_cons in Hsrc. destruct Hsrc as (Ha & Hb & Hc & Hsrc).
    rewrite b64_length_group in Hm |- *. pose proof (b64_length_nonneg (length src)).
    rewrite (proj2 (Z.ltb_ge m _)) by lia.
    destruct (IH Hsrc (out ++ [a; b; c]) (target ++ encode_group a b c))
      as (enc & He & Hlen & Hdec); [rewrite length_app; cbn [length encode_group map]; lia..|].
    exists (encode_group a b c ++ enc). rewrite He, <- app_assoc. split; [done|].
    split; [rewrite length_app; cbn [length encode_group map]; lia|].
    intros x. rewrite b64_pton_group by (done || lia). by rewrite Hdec, <- app_assoc.
Qed.

(** Base 64 loses nothing: the bytes are encoded exactly when the target
    has room for four characters for every three bytes (rounded up) and for the
    NUL, and a target of the size of the bytes is enough to have them back. *)
Theorem b64_roundtrip (src : list Z) (targsize : Z) : Forall byte src ->
  (targsize <= b64_length (length src) -> b64_ntop src targsize = None) /\
  (b64_length (length src) < targsize ->
   exists enc, b64_ntop src targsize = Some enc /\
     Z.of_nat (length enc) = b64_length (length src) /\
     forall n, Z.of_nat (length src) <= n -> b64_pton enc n = Some src).
Proof.
  intros Hsrc. split; intros Hm; [by apply b64_ntop_from_full|].
  destruct (b64_ntop_from_fits (Z.of_nat (length src)) targsize src [] []) as (enc & He & Hl & _);
    [done..|].
  exists enc. split; [done|]. split; [done|]. intros n Hn.
  destruct (b64_ntop_from_fits n targsize src [] []) as (enc' & He' & _ & Hd); [done..|].
  cbn in He, He'. rewrite He in He'. apply (inj Some) in He' as <-. apply Hd.
Qed.

Lemma b64_roundtrip_witness :
  b64_ntop [104; 105; 33; 255] 9 = Some (bytes_of_string "aGkh/w==") /\
  b64_ntop [104; 105; 33; 255] 8 = None /\ b64_pton (bytes_of_string "aGkh/w==") 4 = Some [104; 105; 33; 255].
Proof.
  assert (Hb : Forall byte [104; 105; 33; 255]) by (forall_each ltac:(unfold byte; lia)).
  destruct (b64_roundtrip [104; 105; 33; 255] 9 Hb) as [_ H9].
  destruct (b64_roundtrip [104; 105; 33; 255] 8 Hb) as [H8 _].
  destruct H9 as (enc & He & _ & Hd); [vm_compute; reflexivity|].
  assert (enc = bytes_of_string "aGkh/w==") as ->
    by (apply (inj Some); rewrite <- He; vm_compute; reflexivity).
  split; [done|]. split; [apply H8; vm_compute; discriminate|apply Hd; cbn; lia].
Defined.
