(* ===== verification/Hyperlinks.v ===== *)
(** * Hyperlinks (src/tmux/terminal/hyperlinks.c)

    The sets of hyperlinks of the screens and the list of all of them.  A tree
    is the list of its entries: only whether an entry equal to another is there
    matters, which the comparison decides. *)
From Stdlib Require Import Ascii String.
From S2P Require Import Prelude.
From S2P Require Import CString.
From S2P Require Import Utf8.
From S2P Require Import Locale.

Definition MAX_HYPERLINKS : Z := 5000.

(** [hlu_tree] names the set. *)
Record hyperlinks_uri := HLU {
  hlu_tree : Z;
  hlu_inner : Z;
  hlu_internal_id : list Z;
  hlu_external_id : list Z;
  hlu_uri : list Z
}.

#[global] Instance hyperlinks_uri_eq_dec : EqDecision hyperlinks_uri.
Proof. solve_decision. Defined.

Record hyperlinks := HL {
  next_inner : Z;
  by_inner : list hyperlinks_uri;
  by_uri : list hyperlinks_uri;
  references : Z
}.

(** The sets and the static variables. *)
Record links := Links {
  l_trees : gmap Z hyperlinks;
  global_hyperlinks : list hyperlinks_uri;
  global_hyperlinks_count : Z;
  hyperlinks_next_external_id : Z
}.

Definition hyperlinks_by_uri_cmp (left right : hyperlinks_uri) : Z :=
  match hlu_internal_id left, hlu_internal_id right with
  | [], [] => s32 (hlu_inner left - hlu_inner right)
  | _ :: _, [] => -1
  | [], _ :: _ => 1
  | l, r =>
      if strcmp l r =? 0 then strcmp (hlu_uri left) (hlu_uri right) else strcmp l r
  end.

Definition hyperlinks_by_inner_cmp (left right : hyperlinks_uri) : Z :=
  s32 (hlu_inner left - hlu_inner right).

(** [RB_FIND] and [RB_INSERT]: an entry that is there already stays. *)
Definition rb_find (cmp : hyperlinks_uri -> hyperlinks_uri -> Z) (find : hyperlinks_uri)
    (tree : list hyperlinks_uri) : option hyperlinks_uri :=
  snd <$> list_find (fun hlu => cmp find hlu = 0) tree.
Definition rb_insert (cmp : hyperlinks_uri -> hyperlinks_uri -> Z) (hlu : hyperlinks_uri)
    (tree : list hyperlinks_uri) : list hyperlinks_uri :=
  match rb_find cmp hlu tree with Some _ => tree | None => tree ++ [hlu] end.

Definition remove_uri (hlu : hyperlinks_uri) : list hyperlinks_uri -> list hyperlinks_uri :=
  filter (fun u => u <> hlu).

Definition hyperlinks_remove (hlu : hyperlinks_uri) (w : links) : links :=
  Links (alter (fun hl => HL (next_inner hl) (remove_uri hlu (by_inner hl))
                            (remove_uri hlu (by_uri hl)) (references hl)) (hlu_tree hlu) (l_trees w))
        (remove_uri hlu (global_hyperlinks w)) (u32 (global_hyperlinks_count w - 1))
        (hyperlinks_next_external_id w).

(** ["tmux%llX"]. *)
Fixpoint hex_aux (f : nat) (n : Z) (acc : list Z) : list Z :=
  match f with
  | O => acc
  | S f => let d := n mod 16 in
           let acc := (if d <? 10 then 48 + d else 55 + d) :: acc in
           if n / 16 =? 0 then acc else hex_aux f (n / 16) acc
  end.
Definition external_id_of (n : Z) : list Z := bytes_of_string "tmux" ++ hex_aux 16 n [].

(** A set of its own, with a name that is not used. *)
Definition hyperlinks_init (w : links) : Z * links :=
  let hl := fresh (dom (l_trees w)) in
  (hl, Links (<[hl := HL 1 [] [] 1]> (l_trees w)) (global_hyperlinks w)
         (global_hyperlinks_count w) (hyperlinks_next_external_id w)).

Definition on_tree (f : hyperlinks -> hyperlinks) (hl : Z) (w : links) : links :=
  Links (alter f hl (l_trees w)) (global_hyperlinks w) (global_hyperlinks_count w)
    (hyperlinks_next_external_id w).

Definition hyperlinks_copy (hl : Z) (w : links) : links :=
  on_tree (fun t => HL (next_inner t) (by_inner t) (by_uri t) (u32 (references t + 1))) hl w.

Definition hyperlinks_get (hl inner : Z) (w : links) : option hyperlinks_uri :=
  t ← l_trees w !! hl;
  rb_find hyperlinks_by_inner_cmp (HLU hl inner [] [] []) (by_inner t).

Definition hyperlinks_reset (hl : Z) (w : links) : links :=
  match l_trees w !! hl with
  | Some t => foldl (fun w hlu => hyperlinks_remove hlu w) w (by_inner t)
  | None => w
  end.

Definition hyperlinks_free (hl : Z) (w : links) : links :=
  let w := on_tree (fun t => HL (next_inner t) (by_inner t) (by_uri t) (u32 (references t - 1))) hl w in
  match l_trees w !! hl with
  | Some t =>
      if references t =? 0 then
        let w := hyperlinks_reset hl w in
        Links (delete hl (l_trees w)) (global_hyperlinks w) (global_hyperlinks_count w)
          (hyperlinks_next_external_id w)
      else w
  | None => w
  end.

Section Put.
Context `{Locale}.

(** A new entry, and the oldest of all goes when there are too many. *)
Definition insert_uri (hl : Z) (uri internal_id : list Z) (t : hyperlinks) (w : links) :
    Z * links :=
  let hlu := HLU hl (next_inner t) internal_id
               (external_id_of (hyperlinks_next_external_id w)) uri in
  let t := HL (u32 (next_inner t + 1)) (rb_insert hyperlinks_by_inner_cmp hlu (by_inner t))
              (rb_insert hyperlinks_by_uri_cmp hlu (by_uri t)) (references t) in
  let w := Links (<[hl := t]> (l_trees w)) (global_hyperlinks w ++ [hlu])
             (u32 (global_hyperlinks_count w + 1)) (hyperlinks_next_external_id w + 1) in
  (hlu_inner hlu,
   if global_hyperlinks_count w =? MAX_HYPERLINKS then
     match global_hyperlinks w with
     | first :: _ => hyperlinks_remove first w
     | [] => w
     end
   else w).

(** No identifier is an empty one. *)
Definition hyperlinks_put (hl : Z) (uri_in : list Z) (internal_id_in : list Z) (w : links) :
    option (Z * links) :=
  let flags := Z.lor VIS_OCTAL VIS_CSTYLE in
  t ← l_trees w !! hl;
  uri ← utf8_strvis loc_mbtowc loc_wcwidth loc_widths uri_in flags;
  internal_id ← utf8_strvis loc_mbtowc loc_wcwidth loc_widths internal_id_in flags;
  Some (match (match internal_id_in with
               | [] => None
               | _ => rb_find hyperlinks_by_uri_cmp (HLU hl 0 internal_id [] uri) (by_uri t)
               end) with
        | Some hlu => (hlu_inner hlu, w)
        | None => insert_uri hl uri internal_id t w
        end).

End Put.
