(* ===== verification/HyperlinksProps.v ===== *)
(** * The properties of hyperlinks *)
From Stdlib Require Import Ascii String.
From S2P Require Import Prelude.
From S2P Require Import CString.
From S2P Require Import Utf8.
From S2P Require Import Locale.
From S2P Require Import Hyperlinks.

(** The entries of a set, of the list of all. *)
Definition entries (hl : Z) (w : links) : list hyperlinks_uri :=
  filter (fun u => hlu_tree u = hl) (global_hyperlinks w).

(** Both trees of a set hold its entries, whose numbers are given out in order,
    and no two of which have the same identifier and URI. *)
Record tree_ok (w : links) (hl : Z) (t : hyperlinks) : Prop := TreeOk {
  to_inner : by_inner t = entries hl w;
  to_uri : by_uri t = entries hl w;
  to_next : 0 < next_inner t <= UINT_MAX;
  to_range : Forall (fun u => 0 < hlu_inner u < next_inner t) (entries hl w);
  to_nodup : NoDup (hlu_inner <$> entries hl w);
  to_named : forall u v, u ∈ entries hl w -> v ∈ entries hl w -> hlu_internal_id u <> [] ->
    hlu_internal_id u = hlu_internal_id v -> hlu_uri u = hlu_uri v -> u = v
}.

Record entries_ok (w : links) : Prop := EntriesOk {
  eo_count : global_hyperlinks_count w = Z.of_nat (length (global_hyperlinks w));
  eo_max : Z.of_nat (length (global_hyperlinks w)) <= MAX_HYPERLINKS;
  eo_nodup : NoDup (global_hyperlinks w);
  eo_sets : forall u, u ∈ global_hyperlinks w -> is_Some (l_trees w !! hlu_tree u);
  eo_trees : forall hl t, l_trees w !! hl = Some t -> tree_ok w hl t
}.

(** Between operations there are fewer than the maximum. *)
Definition links_ok (w : links) : Prop :=
  entries_ok w /\ global_hyperlinks_count w < MAX_HYPERLINKS.

(** ** Comparing and finding *)

Lemma strcmp_zero a b : strcmp a b = 0 <-> a = b.
Proof.
  revert b. induction a as [|x a IH]; intros [|y b]; cbn; try done.
  destruct (Z.eqb_spec x y) as [-> | Hne].
  - rewrite IH. split; [by intros ->|by intros [= ->]].
  - split; [lia|congruence].
Qed.

Lemma s32_diff_zero a b : 0 <= a <= UINT_MAX -> 0 <= b <= UINT_MAX -> s32 (a - b) = 0 <-> a = b.
Proof. unfold s32, UINT_MAX. intros. Z.to_euclidean_division_equations. lia. Qed.

Lemma rb_find_some cmp x l y : rb_find cmp x l = Some y -> y ∈ l /\ cmp x y = 0.
Proof.
  unfold rb_find. destruct (list_find _ l) as [[i z]|] eqn:E; [|done]. intros [= ->].
  apply list_find_Some in E as (Hl & Hp & _). split; [by eapply list_elem_of_lookup_2|done].
Qed.

Lemma rb_find_none cmp x l : rb_find cmp x l = None <-> forall y, y ∈ l -> cmp x y <> 0.
Proof.
  unfold rb_find. split.
  - destruct (list_find _ l) eqn:E; [done|]. intros _. rewrite list_find_None, Forall_forall in E.
    exact E.
  - intros Hn. destruct (list_find _ l) as [[i z]|] eqn:E; [|done].
    apply list_find_Some in E as (Hl & Hp & _). destruct (Hn z); [by eapply list_elem_of_lookup_2|done].
Qed.

Lemma hyperlinks_get_eq w hl t inner u : tree_ok w hl t -> l_trees w !! hl = Some t ->
  0 <= inner <= UINT_MAX ->
  hyperlinks_get hl inner w = Some u <-> u ∈ entries hl w /\ hlu_inner u = inner.
Proof.
  intros Ht Hw Hi. unfold hyperlinks_get. rewrite Hw. cbn [mbind option_bind].
  rewrite (to_inner w hl t Ht). pose proof (to_range w hl t Ht) as Hr. rewrite Forall_forall in Hr.
  pose proof (to_next w hl t Ht).
  assert (Hcmp : forall v, v ∈ entries hl w ->
            hyperlinks_by_inner_cmp (HLU hl inner [] [] []) v = 0 <-> hlu_inner v = inner).
  { intros v Hv. specialize (Hr v Hv). unfold hyperlinks_by_inner_cmp. cbn [hlu_inner].
    rewrite s32_diff_zero by lia. split; congruence. }
  split.
  - intros Hf. apply rb_find_some in Hf as [Hu Hc]. by apply Hcmp in Hc.
  - intros [Hu He]. destruct (rb_find _ _ _) as [v|] eqn:E.
    + apply rb_find_some in E as [Hv Hc]. apply Hcmp in Hc; [|done]. f_equal.
      assert (Hin : hlu_inner v = hlu_inner u) by congruence.
      apply list_elem_of_lookup in Hv as [i Hi'], Hu as [j Hj].
      assert (i = j) as ->; [|congruence].
      eapply (NoDup_lookup (hlu_inner <$> entries hl w)); [apply (to_nodup w hl t Ht)| |].
      * rewrite list_lookup_fmap, Hi'. cbn. reflexivity.
      * rewrite list_lookup_fmap, Hj. cbn. congruence.
    + rewrite rb_find_none in E. destruct (E u Hu). by apply Hcmp.
Qed.

(** ** Removing *)

Lemma entries_remove hl u w :
  filter (fun v => hlu_tree v = hl) (remove_uri u (global_hyperlinks w)) =
  remove_uri u (entries hl w).
Proof.
  unfold remove_uri, entries. rewrite !list_filter_filter. apply list_filter_iff. tauto.
Qed.

Lemma remove_uri_other hl u w : hlu_tree u <> hl -> remove_uri u (entries hl w) = entries hl w.
Proof.
  intros Hne. unfold remove_uri, entries. rewrite list_filter_filter. apply list_filter_iff.
  intros v. split; [tauto|]. intros Hv. split; [|done]. by intros ->.
Qed.

Lemma tree_ok_remove w u hl t : tree_ok w hl t ->
  tree_ok (hyperlinks_remove u w) hl
    (if decide (hlu_tree u = hl)
     then HL (next_inner t) (remove_uri u (by_inner t)) (remove_uri u (by_uri t)) (references t)
     else t).
Proof.
  intros [Ti Tu Tn Tr Td Tm].
  assert (He : entries hl (hyperlinks_remove u w) = remove_uri u (entries hl w))
    by (unfold entries at 1; apply entries_remove).
  assert (Hsub : forall v, v ∈ remove_uri u (entries hl w) -> v ∈ entries hl w)
    by (intros v Hv; by apply list_elem_of_filter in Hv as [_ Hv]).
  split.
  - destruct (decide _); cbn [by_inner]; rewrite He, Ti; [done|by rewrite remove_uri_other].
  - destruct (decide _); cbn [by_uri]; rewrite He, Tu; [done|by rewrite remove_uri_other].
  - by destruct (decide _).
  - rewrite He. rewrite Forall_forall in Tr |- *. intros v Hv. apply Hsub, Tr in Hv.
    by destruct (decide _).
  - rewrite He. eapply sublist_NoDup; [exact Td|]. apply fmap_sublist, sublist_filter.
  - rewrite He. intros v v' Hv Hv'. apply Tm; by apply Hsub.
Qed.

Lemma remove_uri_length u l : NoDup l -> u ∈ l -> S (length (remove_uri u l)) = length l.
Proof.
  intros Hnd Hu. apply list_elem_of_split in Hu as (l1 & l2 & ->).
  apply NoDup_app in Hnd as (_ & H1 & H2). apply NoDup_cons in H2 as [H2 _].
  assert (Hsame : forall l, u ∉ l -> remove_uri u l = l).
  { intros l Hl. unfold remove_uri. induction l as [|v l IH]; [done|].
    apply not_elem_of_cons in Hl as [Hne Hl]. rewrite filter_cons_True by congruence. by rewrite IH. }
  unfold remove_uri. rewrite filter_app, filter_cons_False by (intros Hn; by apply Hn).
  fold (remove_uri u l1) (remove_uri u l2). rewrite !Hsame; [|done|].
  - rewrite !length_app. cbn. lia.
  - intros Hin. apply (H1 u Hin). by left.
Qed.

Lemma entries_ok_remove w u : entries_ok w -> u ∈ global_hyperlinks w ->
  entries_ok (hyperlinks_remove u w).
Proof.
  intros [Ec Em En Es Et] Hu. pose proof (remove_uri_length u _ En Hu) as Hlen.
  unfold MAX_HYPERLINKS in *.
  split; cbn [hyperlinks_remove global_hyperlinks_count global_hyperlinks l_trees].
  - rewrite Ec, u32_small by lia. lia.
  - unfold MAX_HYPERLINKS. lia.
  - eapply sublist_NoDup; [exact En|]. apply sublist_filter.
  - intros v Hv. apply list_elem_of_filter in Hv as [_ Hv]. rewrite lookup_alter_is_Some. by apply Es.
  - intros hl t. destruct (decide (hlu_tree u = hl)) as [He | Hne].
    + subst hl. rewrite lookup_alter_eq. intros Ht. apply fmap_Some in Ht as (t0 & Ht & ->).
      pose proof (tree_ok_remove w u _ _ (Et _ _ Ht)) as Ho. by rewrite decide_True in Ho.
    + rewrite lookup_alter_ne by done. intros Ht.
      pose proof (tree_ok_remove w u _ _ (Et _ _ Ht)) as Ho. by rewrite decide_False in Ho.
Qed.

(** ** Adding *)

(** The entry [insert_uri] makes, before the oldest goes. *)
Definition new_uri (hl : Z) (uri internal_id : list Z) (t : hyperlinks) (w : links) : hyperlinks_uri :=
  HLU hl (next_inner t) internal_id (external_id_of (hyperlinks_next_external_id w)) uri.
Definition with_uri (u : hyperlinks_uri) (t : hyperlinks) (w : links) : links :=
  Links (<[hlu_tree u := HL (u32 (next_inner t + 1)) (rb_insert hyperlinks_by_inner_cmp u (by_inner t))
                       (rb_insert hyperlinks_by_uri_cmp u (by_uri t)) (references t)]> (l_trees w))
    (global_hyperlinks w ++ [u]) (u32 (global_hyperlinks_count w + 1))
    (hyperlinks_next_external_id w + 1).

Lemma by_uri_cmp_zero u v : 0 <= hlu_inner u <= UINT_MAX -> 0 <= hlu_inner v <= UINT_MAX ->
  hyperlinks_by_uri_cmp u v = 0 <->
  hlu_internal_id u = hlu_internal_id v /\
  (if decide (hlu_internal_id u = []) then hlu_inner u = hlu_inner v else hlu_uri u = hlu_uri v).
Proof.
  intros Hu Hv. unfold hyperlinks_by_uri_cmp.
  destruct (hlu_internal_id u) as [|x a] eqn:Eu; destruct (hlu_internal_id v) as [|y b] eqn:Ev.
  - rewrite s32_diff_zero by done. rewrite decide_True by done. tauto.
  - split; [done|]. by intros [? _].
  - split; [done|]. by intros [? _].
  - rewrite decide_False by done. destruct (Z.eqb_spec (strcmp (x :: a) (y :: b)) 0) as [E | E].
    + apply strcmp_zero in E. rewrite strcmp_zero. tauto.
    + split; [by intros ?|]. intros [He _]. exfalso. by apply E, strcmp_zero.
Qed.

Lemma entries_add hl u w t :
  entries hl (with_uri u t w) = entries hl w ++ (if decide (hlu_tree u = hl) then [u] else []).
Proof.
  unfold entries, with_uri. cbn [global_hyperlinks]. rewrite filter_app. done.
Qed.

Lemma tree_ok_add w u hl t : tree_ok w hl t -> hlu_tree u = hl -> hlu_inner u = next_inner t ->
  next_inner t < UINT_MAX ->
  (forall v, v ∈ entries hl w -> hlu_internal_id u <> [] ->
     hlu_internal_id u = hlu_internal_id v -> hlu_uri u <> hlu_uri v) ->
  tree_ok (with_uri u t w) hl
    (HL (u32 (next_inner t + 1)) (rb_insert hyperlinks_by_inner_cmp u (by_inner t))
       (rb_insert hyperlinks_by_uri_cmp u (by_uri t)) (references t)).
Proof.
  intros [Ti Tu Tn Tr Td Tm] Hhl Hi Hmax Hnew. unfold UINT_MAX in *. rewrite Forall_forall in Tr.
  assert (He : entries hl (with_uri u t w) = entries hl w ++ [u])
    by (rewrite entries_add; by rewrite decide_True).
  split; rewrite ?He; cbn [by_inner by_uri next_inner].
  - rewrite Ti. unfold rb_insert. rewrite (proj2 (rb_find_none _ _ _)); [done|].
    intros v Hv. unfold hyperlinks_by_inner_cmp. specialize (Tr v Hv).
    rewrite s32_diff_zero by (unfold UINT_MAX; lia). lia.
  - rewrite Tu. unfold rb_insert. rewrite (proj2 (rb_find_none _ _ _)); [done|].
    intros v Hv. specialize (Tr v Hv). rewrite by_uri_cmp_zero by (unfold UINT_MAX; lia).
    intros [Hid Hc]. destruct (decide _); [lia|]. by eapply Hnew.
  - unfold UINT_MAX. rewrite u32_small by lia. lia.
  - rewrite u32_small by lia. rewrite Forall_app, Forall_singleton, Forall_forall. split; [|lia].
    intros v Hv. specialize (Tr v Hv). lia.
  - rewrite fmap_app. apply NoDup_app. split; [done|]. split; [|apply NoDup_singleton].
    intros i Hin Hin'. apply list_elem_of_singleton in Hin'.
    apply list_elem_of_fmap in Hin as (v & -> & Hv). specialize (Tr v Hv). lia.
  - intros v v' Hv Hv' Hne Hid Huri. apply elem_of_app in Hv, Hv'. rewrite !list_elem_of_singleton in *.
    destruct Hv as [Hv | ->], Hv' as [Hv' | ->]; [by apply Tm| | |done].
    + exfalso. symmetry in Hid, Huri. by apply (Hnew v Hv); [congruence|..].
    + exfalso. by apply (Hnew v' Hv').
Qed.

Lemma entries_ok_add w u hl t : entries_ok w -> global_hyperlinks_count w < MAX_HYPERLINKS ->
  l_trees w !! hl = Some t -> hlu_tree u = hl -> hlu_inner u = next_inner t ->
  next_inner t < UINT_MAX ->
  (forall v, v ∈ entries hl w -> hlu_internal_id u <> [] ->
     hlu_internal_id u = hlu_internal_id v -> hlu_uri u <> hlu_uri v) ->
  entries_ok (with_uri u t w).
Proof.
  intros [Ec Em En Es Et] Hmax Ht Hhl Hi Hnx Hnew. unfold MAX_HYPERLINKS in *.
  assert (Hu : u ∉ global_hyperlinks w).
  { intros Hin. pose proof (to_range w hl t (Et _ _ Ht)) as Hr. rewrite Forall_forall in Hr.
    specialize (Hr u). unfold entries in Hr. rewrite list_elem_of_filter in Hr. specialize (Hr (conj Hhl Hin)). lia. }
  split; cbn [with_uri global_hyperlinks global_hyperlinks_count l_trees].
  - rewrite Ec, u32_small, length_app by lia. cbn [length]. lia.
  - unfold MAX_HYPERLINKS. rewrite length_app. cbn [length]. lia.
  - apply NoDup_app. split; [done|]. split; [|apply NoDup_singleton].
    intros v Hv ->%list_elem_of_singleton. done.
  - intros v Hv. apply elem_of_app in Hv. rewrite list_elem_of_singleton in Hv.
    destruct (decide (hlu_tree v = hlu_tree u)) as [-> | Hne]; [by rewrite lookup_insert_eq|].
    rewrite lookup_insert_ne by done. destruct Hv as [Hv | ->]; [by apply Es|done].
  - intros h t'. destruct (decide (h = hl)) as [-> | Hne].
    + rewrite Hhl, lookup_insert_eq. intros [= <-]. by apply tree_ok_add; [apply Et|..].
    + rewrite Hhl, lookup_insert_ne by done. intros Ht'. destruct (Et _ _ Ht') as [T1 T2 T3 T4 T5 T6].
      assert (He : entries h (with_uri u t w) = entries h w)
        by (rewrite entries_add, decide_False, app_nil_r; [done|congruence]).
      by split; rewrite ?He.
Qed.

Lemma insert_uri_eq hl uri id t w :
  insert_uri hl uri id t w =
  (next_inner t,
   let w' := with_uri (new_uri hl uri id t w) t w in
   if global_hyperlinks_count w' =? MAX_HYPERLINKS then
     match global_hyperlinks w' with first :: _ => hyperlinks_remove first w' | [] => w' end
   else w').
Proof. done. Qed.

(** A new entry goes in; if there are as many as the maximum then the oldest of
    all goes, and the new one is not that one. *)
Lemma insert_uri_ok hl uri id t w : links_ok w -> l_trees w !! hl = Some t ->
  next_inner t < UINT_MAX ->
  (forall v, v ∈ entries hl w -> id <> [] -> id = hlu_internal_id v -> uri <> hlu_uri v) ->
  let '(n, w') := insert_uri hl uri id t w in
  links_ok w' /\ n = next_inner t /\ new_uri hl uri id t w ∈ entries hl w' /\
  (forall u, u ∈ global_hyperlinks w' -> u = new_uri hl uri id t w \/ u ∈ global_hyperlinks w) /\
  (forall u, u ∈ global_hyperlinks w -> u ∈ global_hyperlinks w' \/
     (head (global_hyperlinks w) = Some u /\ global_hyperlinks_count w = MAX_HYPERLINKS - 1)).
Proof.
  intros [Hok Hmax] Ht Hnx Hnew. rewrite insert_uri_eq. cbv zeta.
  set (u := new_uri hl uri id t w). set (w1 := with_uri u t w).
  assert (Hok1 : entries_ok w1) by (by eapply entries_ok_add).
  assert (Hcount : global_hyperlinks_count w1 = global_hyperlinks_count w + 1).
  { unfold w1, with_uri; cbn [global_hyperlinks_count]. rewrite (eo_count w Hok) in *.
    unfold MAX_HYPERLINKS in *. by rewrite u32_small by lia. }
  assert (Hglobal : global_hyperlinks w1 = global_hyperlinks w ++ [u]) by done.
  assert (Hin : u ∈ entries hl w1).
  { unfold w1. rewrite entries_add, decide_True by done. apply elem_of_app. right. by left. }
  rewrite Hcount. destruct (Z.eqb_spec (global_hyperlinks_count w + 1) MAX_HYPERLINKS) as [He | Hne].
  - pose proof (eo_count w Hok) as Hlen. rewrite Hglobal.
    destruct (global_hyperlinks w) as [|first rest] eqn:Eg; [cbn in Hlen; unfold MAX_HYPERLINKS in *; lia|].
    cbn [app]. pose proof (eo_nodup w1 Hok1) as Hnd. rewrite Hglobal in Hnd. cbn [app] in Hnd.
    apply NoDup_cons in Hnd as [Hfirst Hnd].
    assert (Hf : first ∈ global_hyperlinks w1) by (rewrite Hglobal; by left).
    assert (Hgr : forall v, v ∈ global_hyperlinks (hyperlinks_remove first w1) <->
                            v <> first /\ v ∈ global_hyperlinks w1)
      by (intros v; cbn [hyperlinks_remove global_hyperlinks]; unfold remove_uri;
          by rewrite list_elem_of_filter).
    split; [split; [by apply entries_ok_remove|]|split; [done|split; [|split]]].
    + unfold hyperlinks_remove; cbn [global_hyperlinks_count]. unfold MAX_HYPERLINKS in *.
      rewrite Hcount, u32_small by lia. lia.
    + unfold entries in Hin |- *. rewrite list_elem_of_filter in Hin |- *. split; [apply Hin|].
      apply Hgr. split; [|apply Hin]. intros <-. apply Hfirst, elem_of_app. right. by left.
    + intros v Hv. apply Hgr in Hv as [_ Hv]. rewrite Hglobal, elem_of_app in Hv.
      destruct Hv as [Hv | ->%list_elem_of_singleton]; [by right|by left].
    + intros v Hv. apply elem_of_cons in Hv as [-> | Hv].
      * right. split; [done|lia].
      * left. apply Hgr. rewrite Hglobal. split; [|apply elem_of_app; left; by right].
        intros ->. apply Hfirst, elem_of_app. by left.
  - split; [split; [done|lia]|]. split; [done|]. split; [done|]. split.
    + intros v Hv. rewrite Hglobal, elem_of_app in Hv.
      destruct Hv as [Hv | ->%list_elem_of_singleton]; [by right|by left].
    + intros v Hv. left. rewrite Hglobal. apply elem_of_app. by left.
Qed.

(** An entry of the list is found in its set. *)
Lemma get_of_entry w u : entries_ok w -> u ∈ global_hyperlinks w ->
  hyperlinks_get (hlu_tree u) (hlu_inner u) w = Some u.
Proof.
  intros Hok Hu. destruct (eo_sets w Hok u Hu) as [t Ht]. pose proof (eo_trees w Hok _ _ Ht) as To.
  assert (Hin : u ∈ entries (hlu_tree u) w) by (unfold entries; by rewrite list_elem_of_filter).
  pose proof (to_range _ _ _ To) as Hr. rewrite Forall_forall in Hr. specialize (Hr u Hin).
  pose proof (to_next _ _ _ To). apply (hyperlinks_get_eq w (hlu_tree u) t); try done. lia.
Qed.

Lemma entry_of_get w hl i u : entries_ok w -> 0 <= i <= UINT_MAX ->
  hyperlinks_get hl i w = Some u -> u ∈ global_hyperlinks w /\ hlu_tree u = hl /\ hlu_inner u = i.
Proof.
  intros Hok Hi Hg. destruct (l_trees w !! hl) as [t|] eqn:Ht;
    [|unfold hyperlinks_get in Hg; by rewrite Ht in Hg].
  apply (hyperlinks_get_eq w hl t i u (eo_trees w Hok _ _ Ht) Ht Hi) in Hg as [Hin Hn].
  unfold entries in Hin. by apply list_elem_of_filter in Hin as [? ?].
Qed.

Section Put.
Context `{Locale}.

(** [hyperlinks_put] finds the entry or adds it. *)
Lemma hyperlinks_put_cases hl t uri_in id_in w n w' : links_ok w -> l_trees w !! hl = Some t ->
  hyperlinks_put hl uri_in id_in w = Some (n, w') -> exists uri id,
  utf8_strvis loc_mbtowc loc_wcwidth loc_widths uri_in (Z.lor VIS_OCTAL VIS_CSTYLE) = Some uri /\
  utf8_strvis loc_mbtowc loc_wcwidth loc_widths id_in (Z.lor VIS_OCTAL VIS_CSTYLE) = Some id /\
  ((exists u, id_in <> [] /\ u ∈ entries hl w /\ hlu_uri u = uri /\ hlu_internal_id u = id /\
      n = hlu_inner u /\ w' = w) \/
   ((forall v, v ∈ entries hl w -> id_in <> [] -> id <> [] -> id = hlu_internal_id v ->
       uri <> hlu_uri v) /\ insert_uri hl uri id t w = (n, w'))).
Proof.
  intros [Hok _] Ht. unfold hyperlinks_put. rewrite Ht. cbn [mbind option_bind].
  destruct (utf8_strvis _ _ _ uri_in _) as [uri|]; [|done]. cbn [mbind option_bind].
  destruct (utf8_strvis _ _ _ id_in _) as [id|]; [|done]. cbn [mbind option_bind].
  intros Hput. apply (inj Some) in Hput. exists uri, id. split; [done|]. split; [done|].
  pose proof (eo_trees w Hok _ _ Ht) as To. pose proof (to_range _ _ _ To) as Hr.
  rewrite Forall_forall in Hr. pose proof (to_next _ _ _ To) as Hn. rewrite (to_uri _ _ _ To) in Hput.
  assert (Hcmp : forall v, v ∈ entries hl w ->
            hyperlinks_by_uri_cmp (HLU hl 0 id [] uri) v = 0 <->
            id <> [] /\ id = hlu_internal_id v /\ uri = hlu_uri v).
  { intros v Hv. specialize (Hr v Hv).
    rewrite by_uri_cmp_zero by (cbn [hlu_inner]; unfold UINT_MAX in *; lia).
    cbn [hlu_internal_id hlu_inner hlu_uri]. destruct (decide (id = [])); [|tauto].
    split; [intros [_ ?]; lia|tauto]. }
  destruct id_in as [|c id_in]; [by right|].
  destruct (rb_find _ _ _) as [v|] eqn:E.
  - left. exists v. apply rb_find_some in E as [Hv Hc]. apply Hcmp in Hc as (_ & -> & ->); [|done].
    by injection Hput as <- <-.
  - right. split; [|done]. intros v Hv _ Hid He Hu. rewrite rb_find_none in E.
    apply (E v Hv). by apply Hcmp.
Qed.

(** After a hyperlink is put in a set it is found under the number that
    is returned, with its URI and identifier made printable; one with an
    identifier that was there keeps its number and nothing changes, an
    anonymous one gets a number that was not in use; no other hyperlink goes
    but the oldest of all; and fewer than 5000 are left. *)
Theorem hyperlinks_put_get hl t uri_in id_in w n w' : links_ok w -> l_trees w !! hl = Some t ->
  next_inner t < UINT_MAX -> hyperlinks_put hl uri_in id_in w = Some (n, w') ->
  links_ok w' /\
  (exists u, hyperlinks_get hl n w' = Some u /\
     utf8_strvis loc_mbtowc loc_wcwidth loc_widths uri_in (Z.lor VIS_OCTAL VIS_CSTYLE) = Some (hlu_uri u) /\
     utf8_strvis loc_mbtowc loc_wcwidth loc_widths id_in (Z.lor VIS_OCTAL VIS_CSTYLE) =
       Some (hlu_internal_id u)) /\
  (hyperlinks_get hl n w = None \/ w' = w /\ id_in <> []) /\
  (forall hl' i u, hyperlinks_get hl' i w = Some u -> 0 <= i <= UINT_MAX ->
     hyperlinks_get hl' i w' = Some u \/ head (global_hyperlinks w) = Some u).
Proof.
  intros Hok Ht Hnx Hput. pose proof Hok as [Heo _].
  destruct (hyperlinks_put_cases hl t uri_in id_in w n w' Hok Ht Hput)
    as (uri & id & Huri & Hid & [(u & Hne & Hu & <- & <- & -> & ->) | [Hnew Hins]]).
  - unfold entries in Hu. apply list_elem_of_filter in Hu as [<- Hu].
    split; [done|]. split; [exists u; split; [by apply get_of_entry|done]|]. split; [by right|].
    intros. by left.
  - assert (Hnew' : forall v, v ∈ entries hl w -> id <> [] -> id = hlu_internal_id v -> uri <> hlu_uri v).
    { intros v Hv Hi. apply Hnew; [done| |done]. intros ->. apply Hi.
      by injection Hid as <-. }
    pose proof (insert_uri_ok hl uri id t w Hok Ht Hnx Hnew') as Hi. rewrite Hins in Hi.
    destruct Hi as (Hok' & -> & Hin & Hnot & Hkeep).
    unfold entries in Hin. apply list_elem_of_filter in Hin as [_ Hin].
    split; [done|]. split.
    { exists (new_uri hl uri id t w). split; [|done]. apply (get_of_entry w' _ (proj1 Hok') Hin). }
    split.
    + left. destruct (hyperlinks_get hl (next_inner t) w) as [v|] eqn:E; [|done]. exfalso.
      pose proof (to_next _ _ _ (eo_trees w Heo _ _ Ht)) as Hpos.
      apply (entry_of_get w hl _ v Heo) in E as (Hv & Hvt & Hvi); [|lia].
      pose proof (to_range _ _ _ (eo_trees w Heo _ _ Ht)) as Hr. rewrite Forall_forall in Hr.
      specialize (Hr v). unfold entries in Hr. rewrite list_elem_of_filter in Hr.
      specialize (Hr (conj Hvt Hv)). lia.
    + intros hl' i u Hg Hi. apply (entry_of_get w hl' i u Heo Hi) in Hg as (Hu & <- & <-).
      destruct (Hkeep u Hu) as [Hu' | [Hh _]]; [left; apply get_of_entry; [apply Hok'|done]|by right].
Qed.

End Put.

#[local] Instance witness_locale : Locale :=
  {| loc_mbtowc := fun _ => None; loc_wcwidth := fun _ => 1; loc_widths := ∅ |}.

(** A world with one set. *)
Definition one_set : links := snd (hyperlinks_init (Links ∅ [] 0 1)).

Lemma one_set_ok : links_ok one_set.
Proof.
  split; [|done]. split; cbn; [done|done|constructor|..].
  - intros u Hu. by apply elem_of_nil in Hu.
  - intros hl t Ht. change (({[0 := HL 1 [] [] 1]} : gmap Z hyperlinks) !! hl = Some t) in Ht.
    apply lookup_singleton_Some in Ht as [<- <-].
    split; cbn; [done|done|done|constructor|constructor|].
    intros u v Hu. by apply elem_of_nil in Hu.
Qed.

Lemma hyperlinks_put_get_witness :
  exists w', hyperlinks_put 0 (bytes_of_string "http://a") (bytes_of_string "x") one_set = Some (1, w') /\
    links_ok w'.
Proof.
  destruct (hyperlinks_put 0 (bytes_of_string "http://a") (bytes_of_string "x") one_set)
    as [[n w']|] eqn:E; [|vm_compute in E; discriminate].
  exists w'. split; [f_equal; f_equal; vm_compute in E; congruence|].
  destruct (hyperlinks_put_get 0 (HL 1 [] [] 1) (bytes_of_string "http://a")
    (bytes_of_string "x") one_set n w' one_set_ok) as [Hok _];
    [vm_compute; reflexivity|vm_compute; reflexivity|exact E|exact Hok].
Defined.
