(* ===== verification/Utf8Combined.v ===== *)
(** * Combining characters (src/tmux/terminal/utf8-combined.c)

    Which characters join the one before them in its cell. *)
From S2P Require Import Prelude.
From S2P Require Import Utf8.
From S2P Require Import Locale.

(** The last three bytes of a character, and the whole of one of three bytes. *)
Definition last_three (ud : utf8_data) : list Z :=
  take 3 (drop (Z.to_nat (ud_size ud - 3)) (ud_data ud)).
Definition is_three (ud : utf8_data) (l : list Z) : bool :=
  (ud_size ud =? 3) && bool_decide (take 3 (ud_data ud) = l).

Definition utf8_has_zwj (ud : utf8_data) : bool :=
  if ud_size ud <? 3 then false else bool_decide (last_three ud = [0xe2; 0x80; 0x8d]).
Definition utf8_is_zwj (ud : utf8_data) : bool := is_three ud [0xe2; 0x80; 0x8d].
Definition utf8_is_vs (ud : utf8_data) : bool := is_three ud [0xef; 0xb8; 0x8f].
Definition utf8_is_hangul_filler (ud : utf8_data) : bool := is_three ud [0xe3; 0x85; 0xa4].

(** The characters a skin tone applies to. *)
Definition skin_tone_bases : list Z :=
  [0x1F44B; 0x1F44C; 0x1F44D; 0x1F44E; 0x1F44F; 0x1F450; 0x1F466; 0x1F467; 0x1F468; 0x1F469;
   0x1F46E; 0x1F470; 0x1F471; 0x1F472; 0x1F473; 0x1F474; 0x1F475; 0x1F476; 0x1F477; 0x1F478;
   0x1F47C; 0x1F481; 0x1F482; 0x1F483; 0x1F485; 0x1F486; 0x1F487; 0x1F4AA; 0x1F575; 0x1F57A;
   0x1F590; 0x1F595; 0x1F596; 0x1F645; 0x1F646; 0x1F647; 0x1F64B; 0x1F64C; 0x1F64D; 0x1F64E;
   0x1F64F; 0x1F6B4; 0x1F6B5; 0x1F6B6; 0x1F926; 0x1F937; 0x1F938; 0x1F939; 0x1F93D; 0x1F93E;
   0x1F9B5; 0x1F9B6; 0x1F9B8; 0x1F9B9; 0x1F9CD; 0x1F9CE; 0x1F9CF; 0x1F9D1; 0x1F9D2; 0x1F9D3;
   0x1F9D4; 0x1F9D5; 0x1F9D6; 0x1F9D7; 0x1F9D8; 0x1F9D9; 0x1F9DA; 0x1F9DB; 0x1F9DC; 0x1F9DD;
   0x1F9DE; 0x1F9DF].

Definition between (a b x : Z) : bool := (a <=? x) && (x <=? b).

Section Combined.
Context `{Locale}.

Definition utf8_towc (ud : utf8_data) : option Z := loc_mbtowc (ud_bytes ud).

Definition utf8_should_combine (with_ add : utf8_data) : bool :=
  match utf8_towc with_, utf8_towc add with
  | Some w, Some a =>
      if between 0x1F1E6 0x1F1FF a && between 0x1F1E6 0x1F1FF w then true
      else bool_decide (a ∈ skin_tone_bases) && between 0x1F3FB 0x1F3FF w
  | _, _ => false
  end.

End Combined.

(** ** Hangul Jamo *)

Inductive hanguljamo_subclass :=
  | HANGULJAMO_SUBCLASS_NOT_HANGULJAMO
  | HANGULJAMO_SUBCLASS_CHOSEONG
  | HANGULJAMO_SUBCLASS_OLD_CHOSEONG
  | HANGULJAMO_SUBCLASS_CHOSEONG_FILLER
  | HANGULJAMO_SUBCLASS_JUNGSEONG_FILLER
  | HANGULJAMO_SUBCLASS_JUNGSEONG
  | HANGULJAMO_SUBCLASS_OLD_JUNGSEONG
  | HANGULJAMO_SUBCLASS_JONGSEONG
  | HANGULJAMO_SUBCLASS_OLD_JONGSEONG
  | HANGULJAMO_SUBCLASS_EXTENDED_OLD_CHOSEONG
  | HANGULJAMO_SUBCLASS_EXTENDED_OLD_JUNGSEONG
  | HANGULJAMO_SUBCLASS_EXTENDED_OLD_JONGSEONG.

Inductive hanguljamo_class :=
  | HANGULJAMO_CLASS_NOT_HANGULJAMO
  | HANGULJAMO_CLASS_CHOSEONG
  | HANGULJAMO_CLASS_JUNGSEONG
  | HANGULJAMO_CLASS_JONGSEONG.

Inductive hanguljamo_state :=
  | HANGULJAMO_STATE_NOT_HANGULJAMO
  | HANGULJAMO_STATE_CHOSEONG
  | HANGULJAMO_STATE_COMPOSABLE
  | HANGULJAMO_STATE_NOT_COMPOSABLE.

#[global] Instance hanguljamo_class_eq_dec : EqDecision hanguljamo_class.
Proof. solve_decision. Defined.

(** The first range that has the byte. *)
Fixpoint in_range (c : Z) (l : list (Z * Z * hanguljamo_subclass)) : hanguljamo_subclass :=
  match l with
  | [] => HANGULJAMO_SUBCLASS_NOT_HANGULJAMO
  | (a, b, r) :: l => if between a b c then r else in_range c l
  end.

Definition hanguljamo_get_subclass (s : list Z) : hanguljamo_subclass :=
  let s0 := nth 0 s 0 in let s1 := nth 1 s 0 in let s2 := nth 2 s 0 in
  if s0 =? 0xE1 then
    in_range s2
      (if s1 =? 0x84 then [(0x80, 0x92, HANGULJAMO_SUBCLASS_CHOSEONG);
                           (0x93, 0xBF, HANGULJAMO_SUBCLASS_OLD_CHOSEONG)]
       else if s1 =? 0x85 then [(0x9F, 0x9F, HANGULJAMO_SUBCLASS_CHOSEONG_FILLER);
                                (0xA0, 0xA0, HANGULJAMO_SUBCLASS_JUNGSEONG_FILLER);
                                (0x80, 0x9E, HANGULJAMO_SUBCLASS_OLD_CHOSEONG);
                                (0xA1, 0xB5, HANGULJAMO_SUBCLASS_JUNGSEONG);
                                (0xB6, 0xBF, HANGULJAMO_SUBCLASS_OLD_JUNGSEONG)]
       else if s1 =? 0x86 then [(0x80, 0xA7, HANGULJAMO_SUBCLASS_OLD_JUNGSEONG);
                                (0xA8, 0xBF, HANGULJAMO_SUBCLASS_JONGSEONG)]
       else if s1 =? 0x87 then [(0x80, 0x82, HANGULJAMO_SUBCLASS_JONGSEONG);
                                (0x83, 0xBF, HANGULJAMO_SUBCLASS_OLD_JONGSEONG)]
       else [])
  else if s0 =? 0xEA then
    in_range s2 (if s1 =? 0xA5 then [(0xA0, 0xBC, HANGULJAMO_SUBCLASS_EXTENDED_OLD_CHOSEONG)]
                 else [])
  else if s0 =? 0xED then
    in_range s2
      (if s1 =? 0x9E then [(0xB0, 0xBF, HANGULJAMO_SUBCLASS_EXTENDED_OLD_JUNGSEONG)]
       else if s1 =? 0x9F then [(0x80, 0x86, HANGULJAMO_SUBCLASS_EXTENDED_OLD_JUNGSEONG);
                                (0x8B, 0xBB, HANGULJAMO_SUBCLASS_EXTENDED_OLD_JONGSEONG)]
       else [])
  else HANGULJAMO_SUBCLASS_NOT_HANGULJAMO.

Definition hanguljamo_get_class (s : list Z) : hanguljamo_class :=
  match hanguljamo_get_subclass s with
  | HANGULJAMO_SUBCLASS_CHOSEONG | HANGULJAMO_SUBCLASS_CHOSEONG_FILLER
  | HANGULJAMO_SUBCLASS_OLD_CHOSEONG | HANGULJAMO_SUBCLASS_EXTENDED_OLD_CHOSEONG =>
      HANGULJAMO_CLASS_CHOSEONG
  | HANGULJAMO_SUBCLASS_JUNGSEONG | HANGULJAMO_SUBCLASS_JUNGSEONG_FILLER
  | HANGULJAMO_SUBCLASS_OLD_JUNGSEONG | HANGULJAMO_SUBCLASS_EXTENDED_OLD_JUNGSEONG =>
      HANGULJAMO_CLASS_JUNGSEONG
  | HANGULJAMO_SUBCLASS_JONGSEONG | HANGULJAMO_SUBCLASS_OLD_JONGSEONG
  | HANGULJAMO_SUBCLASS_EXTENDED_OLD_JONGSEONG => HANGULJAMO_CLASS_JONGSEONG
  | HANGULJAMO_SUBCLASS_NOT_HANGULJAMO => HANGULJAMO_CLASS_NOT_HANGULJAMO
  end.

Definition hanguljamo_check_state (p_ud ud : utf8_data) : hanguljamo_state :=
  let after c :=
    if ud_size p_ud <? 3 then HANGULJAMO_STATE_NOT_COMPOSABLE
    else if bool_decide (hanguljamo_get_class (last_three p_ud) = c)
         then HANGULJAMO_STATE_COMPOSABLE
         else HANGULJAMO_STATE_NOT_COMPOSABLE in
  if negb (ud_size ud =? 3) then HANGULJAMO_STATE_NOT_HANGULJAMO
  else
    match hanguljamo_get_class (ud_data ud) with
    | HANGULJAMO_CLASS_CHOSEONG => HANGULJAMO_STATE_CHOSEONG
    | HANGULJAMO_CLASS_JUNGSEONG => after HANGULJAMO_CLASS_CHOSEONG
    | HANGULJAMO_CLASS_JONGSEONG => after HANGULJAMO_CLASS_JUNGSEONG
    | HANGULJAMO_CLASS_NOT_HANGULJAMO => HANGULJAMO_STATE_NOT_HANGULJAMO
    end.
