(* ===== verification/Grid.v ===== *)
(** * The grid of cells (src/tmux/screen/grid.c)

    A grid is a list of lines, the history first; a line is a list of cell
    entries of five bytes, with the cells that do not fit kept apart.  The
    lines of [linedata] are those of the history and of the screen: the code
    keeps none beyond them that it reads.  [now] is the current time. *)
From S2P Require Import Prelude.
From S2P Require Import Utf8.
From S2P Require Import CellCodec.

Definition GRID_ATTR_BRIGHT : Z := 0x1.
Definition GRID_ATTR_DIM : Z := 0x2.
Definition GRID_ATTR_UNDERSCORE : Z := 0x4.
Definition GRID_ATTR_BLINK : Z := 0x8.
Definition GRID_ATTR_REVERSE : Z := 0x10.
Definition GRID_ATTR_HIDDEN : Z := 0x20.
Definition GRID_ATTR_ITALICS : Z := 0x40.
Definition GRID_ATTR_STRIKETHROUGH : Z := 0x100.
Definition GRID_ATTR_UNDERSCORE_2 : Z := 0x200.
Definition GRID_ATTR_UNDERSCORE_3 : Z := 0x400.
Definition GRID_ATTR_UNDERSCORE_4 : Z := 0x800.
Definition GRID_ATTR_UNDERSCORE_5 : Z := 0x1000.
Definition GRID_ATTR_OVERLINE : Z := 0x2000.
Definition GRID_ATTR_NOATTR : Z := 0x4000.
Definition GRID_ATTR_CHARSET : Z := 0x80.

Definition GRID_FLAG_FG256 : Z := 0x1.
Definition GRID_FLAG_BG256 : Z := 0x2.
Definition GRID_FLAG_PADDING : Z := 0x4.
Definition GRID_FLAG_EXTENDED : Z := 0x8.
Definition GRID_FLAG_SELECTED : Z := 0x10.
Definition GRID_FLAG_NOPALETTE : Z := 0x20.
Definition GRID_FLAG_CLEARED : Z := 0x40.
Definition GRID_FLAG_TAB : Z := 0x80.

Definition GRID_LINE_WRAPPED : Z := 0x1.
Definition GRID_LINE_EXTENDED : Z := 0x2.
Definition GRID_LINE_DEAD : Z := 0x4.

Definition GRID_HISTORY : Z := 0x1.

Definition COLOUR_FLAG_256 : Z := 0x01000000.
Definition COLOUR_FLAG_RGB : Z := 0x02000000.
Definition COLOUR_DEFAULT (c : Z) : bool := (c =? 8) || (c =? 9).

(** [(flags & bit) != 0] and [flags & ~bit]. *)
Definition has (flags bit : Z) : bool := negb (Z.land flags bit =? 0).
Definition without (flags bit : Z) : Z := Z.ldiff flags bit.

Record grid_cell := GC {
  gc_data : utf8_data;
  gc_attr : Z;
  gc_flags : Z;
  gc_fg : Z;
  gc_bg : Z;
  gc_us : Z;
  gc_link : Z
}.

Definition set_gc_attr (a : Z) (gc : grid_cell) : grid_cell :=
  GC (gc_data gc) a (gc_flags gc) (gc_fg gc) (gc_bg gc) (gc_us gc) (gc_link gc).
Definition set_gc_fg (x : Z) (gc : grid_cell) : grid_cell :=
  GC (gc_data gc) (gc_attr gc) (gc_flags gc) x (gc_bg gc) (gc_us gc) (gc_link gc).
Definition set_gc_bg (x : Z) (gc : grid_cell) : grid_cell :=
  GC (gc_data gc) (gc_attr gc) (gc_flags gc) (gc_fg gc) x (gc_us gc) (gc_link gc).
Definition set_gc_us (x : Z) (gc : grid_cell) : grid_cell :=
  GC (gc_data gc) (gc_attr gc) (gc_flags gc) (gc_fg gc) (gc_bg gc) x (gc_link gc).
Definition set_gc_link (x : Z) (gc : grid_cell) : grid_cell :=
  GC (gc_data gc) (gc_attr gc) (gc_flags gc) (gc_fg gc) (gc_bg gc) (gc_us gc) x.

Record grid_extd_entry := GEE {
  gee_data : Z;
  gee_attr : Z;
  gee_flags : Z;
  gee_fg : Z;
  gee_bg : Z;
  gee_us : Z;
  gee_link : Z
}.

(** The union of an entry: an offset, or four bytes. *)
Inductive gce_union :=
  | Offset (offset : Z)
  | Data (attr fg bg data : Z).

Record grid_cell_entry := GCE { gce_union_of : gce_union; gce_flags : Z }.

(** Either view of the union (the bytes of an offset are little-endian). *)
Definition gce_offset (gce : grid_cell_entry) : Z :=
  match gce_union_of gce with
  | Offset o => o
  | Data attr fg bg data => attr + fg * 256 + bg * 65536 + data * 16777216
  end.
Definition gce_bytes (gce : grid_cell_entry) : Z * Z * Z * Z :=
  match gce_union_of gce with
  | Offset o => (u8 o, u8 (o / 256), u8 (o / 65536), u8 (o / 16777216))
  | Data attr fg bg data => (attr, fg, bg, data)
  end.

(** [cellsize] is the length of [celldata], [extdsize] of [extddata]. *)
Record grid_line := GL {
  celldata : list grid_cell_entry;
  cellused : Z;
  extddata : list grid_extd_entry;
  gl_flags : Z;
  gl_time : Z
}.

Definition cellsize (gl : grid_line) : Z := Z.of_nat (length (celldata gl)).
Definition extdsize (gl : grid_line) : Z := Z.of_nat (length (extddata gl)).

Record grid := Grid {
  g_flags : Z;
  g_sx : Z;
  g_sy : Z;
  hscrolled : Z;
  hsize : Z;
  hlimit : Z;
  linedata : list grid_line
}.

#[global] Instance grid_cell_eq_dec : EqDecision grid_cell.
Proof. solve_decision. Defined.
#[global] Instance grid_extd_entry_eq_dec : EqDecision grid_extd_entry.
Proof. solve_decision. Defined.
#[global] Instance gce_union_eq_dec : EqDecision gce_union.
Proof. solve_decision. Defined.
#[global] Instance grid_cell_entry_eq_dec : EqDecision grid_cell_entry.
Proof. solve_decision. Defined.
#[global] Instance grid_line_eq_dec : EqDecision grid_line.
Proof. solve_decision. Defined.
#[global] Instance grid_eq_dec : EqDecision grid.
Proof. solve_decision. Defined.

Definition gce_zero : grid_cell_entry := GCE (Offset 0) 0.
Definition gl_zero : grid_line := GL [] 0 [] 0 0.

Definition set_celldata l gl :=
  GL l (cellused gl) (extddata gl) (gl_flags gl) (gl_time gl).
Definition set_cellused n gl :=
  GL (celldata gl) n (extddata gl) (gl_flags gl) (gl_time gl).
Definition set_extddata l gl :=
  GL (celldata gl) (cellused gl) l (gl_flags gl) (gl_time gl).
Definition set_gl_flags f gl :=
  GL (celldata gl) (cellused gl) (extddata gl) f (gl_time gl).
Definition set_gl_time t gl :=
  GL (celldata gl) (cellused gl) (extddata gl) (gl_flags gl) t.

Definition set_linedata l gd :=
  Grid (g_flags gd) (g_sx gd) (g_sy gd) (hscrolled gd) (hsize gd) (hlimit gd) l.
Definition set_hsize n gd :=
  Grid (g_flags gd) (g_sx gd) (g_sy gd) (hscrolled gd) n (hlimit gd) (linedata gd).
Definition set_hscrolled n gd :=
  Grid (g_flags gd) (g_sx gd) (g_sy gd) n (hsize gd) (hlimit gd) (linedata gd).
Definition set_hlimit n gd :=
  Grid (g_flags gd) (g_sx gd) (g_sy gd) (hscrolled gd) (hsize gd) n (linedata gd).

(** [gd->linedata\[py\]] and [gl->celldata\[px\]]. *)
Definition grid_get_line (gd : grid) (py : Z) : grid_line :=
  nth (Z.to_nat py) (linedata gd) gl_zero.
Definition update_line (py : Z) (f : grid_line -> grid_line) (gd : grid) : grid :=
  set_linedata (alter f (Z.to_nat py) (linedata gd)) gd.
Definition get_gce (gl : grid_line) (px : Z) : grid_cell_entry :=
  nth (Z.to_nat px) (celldata gl) gce_zero.
Definition put_gce (px : Z) (gce : grid_cell_entry) (gl : grid_line) : grid_line :=
  set_celldata (<[Z.to_nat px:=gce]> (celldata gl)) gl.

Definition space_data : utf8_data := UD (pad_data [32]) 0 1 1.
Definition grid_default_cell : grid_cell := GC space_data 0 0 8 8 8 0.
Definition grid_padding_cell : grid_cell :=
  GC (UD (pad_data [33]) 0 0 0) 0 GRID_FLAG_PADDING 8 8 8 0.
Definition grid_cleared_cell : grid_cell := GC space_data 0 GRID_FLAG_CLEARED 8 8 8 0.
Definition grid_cleared_entry : grid_cell_entry := GCE (Data 0 8 8 32) GRID_FLAG_CLEARED.

(** ** Cells *)

Definition grid_store_cell (gc : grid_cell) (c : Z) : grid_cell_entry :=
  let flags := without (gc_flags gc) GRID_FLAG_CLEARED in
  let flags := if has (gc_fg gc) COLOUR_FLAG_256 then Z.lor flags GRID_FLAG_FG256 else flags in
  let flags := if has (gc_bg gc) COLOUR_FLAG_256 then Z.lor flags GRID_FLAG_BG256 else flags in
  GCE (Data (u8 (gc_attr gc)) (Z.land (gc_fg gc) 0xff) (Z.land (gc_bg gc) 0xff) c) flags.

Definition grid_need_extended_cell (gce : grid_cell_entry) (gc : grid_cell) : bool :=
  has (gce_flags gce) GRID_FLAG_EXTENDED ||
  (0xff <? gc_attr gc) ||
  (1 <? ud_size (gc_data gc)) || (1 <? ud_width (gc_data gc)) ||
  has (gc_fg gc) COLOUR_FLAG_RGB || has (gc_bg gc) COLOUR_FLAG_RGB ||
  negb (gc_us gc =? 8) ||
  negb (gc_link gc =? 0) ||
  has (gc_flags gc) GRID_FLAG_TAB.

Definition grid_set_tab (gc : grid_cell) (width : Z) : grid_cell :=
  GC (UD (pad_data (replicate (Z.to_nat (u8 width)) 32)) (u8 width) (u8 width) (u8 width))
     (gc_attr gc) (without (Z.lor (gc_flags gc) GRID_FLAG_TAB) GRID_FLAG_PADDING)
     (gc_fg gc) (gc_bg gc) (gc_us gc) (gc_link gc).

(** Visibly the same: everything but the character and the underscore colour. *)
Definition grid_cells_look_equal (gc1 gc2 : grid_cell) : bool :=
  (gc_fg gc1 =? gc_fg gc2) && (gc_bg gc1 =? gc_bg gc2) &&
  (gc_attr gc1 =? gc_attr gc2) &&
  (without (gc_flags gc1) GRID_FLAG_CLEARED =? without (gc_flags gc2) GRID_FLAG_CLEARED) &&
  (gc_link gc1 =? gc_link gc2).

Definition grid_cells_equal (gc1 gc2 : grid_cell) : bool :=
  grid_cells_look_equal gc1 gc2 &&
  (ud_width (gc_data gc1) =? ud_width (gc_data gc2)) &&
  (ud_size (gc_data gc1) =? ud_size (gc_data gc2)) &&
  bool_decide (ud_bytes (gc_data gc1) = take (Z.to_nat (ud_size (gc_data gc1)))
                                             (ud_data (gc_data gc2))).

Section Codec.
Context `{CellCodec}.

(** A new extended entry at the end of the line's. *)
Definition grid_get_extended_cell (gl : grid_line) (flags : Z) : grid_line * grid_cell_entry :=
  (set_extddata (extddata gl ++ [GEE 0 0 0 0 0 0 0]) gl,
   GCE (Offset (extdsize gl)) (Z.lor flags GRID_FLAG_EXTENDED)).

(** The line and the entry afterwards; [None] is [fatalx]. *)
Definition grid_extended_cell (gl : grid_line) (gce : grid_cell_entry) (gc : grid_cell) :
    option (grid_line * grid_cell_entry) :=
  let flags := without (gc_flags gc) GRID_FLAG_CLEARED in
  let store '(gl, gce) :=
    let uc := if has (gc_flags gc) GRID_FLAG_TAB then ud_width (gc_data gc)
              else pack (gc_data gc) in
    (set_extddata (<[Z.to_nat (gce_offset gce) :=
       GEE uc (gc_attr gc) flags (gc_fg gc) (gc_bg gc) (gc_us gc) (gc_link gc)]> (extddata gl))
       (set_gl_flags (Z.lor (gl_flags gl) GRID_LINE_EXTENDED) gl), gce) in
  if negb (has (gce_flags gce) GRID_FLAG_EXTENDED) then
    Some (store (grid_get_extended_cell gl flags))
  else if extdsize gl <=? gce_offset gce then None
  else Some (store (gl, gce)).

(** [gee->bg = bg] on the extended cell of an entry. *)
Definition set_extd_bg (gce : grid_cell_entry) (bg : Z) (gl : grid_line) : grid_line :=
  set_extddata (alter (fun gee => GEE (gee_data gee) (gee_attr gee) (gee_flags gee)
    (gee_fg gee) bg (gee_us gee) (gee_link gee)) (Z.to_nat (gce_offset gce)) (extddata gl)) gl.

Definition grid_clear_cell (px bg : Z) (moved : bool) (gl : grid_line) : grid_line :=
  let gce := get_gce gl px in
  let old_offset := gce_offset gce in
  let had_extd := has (gce_flags gce) GRID_FLAG_EXTENDED in
  let gce := grid_cleared_entry in
  if negb moved && had_extd && (old_offset <? extdsize gl) then
    let gce := GCE (Offset old_offset) (Z.lor (gce_flags gce) GRID_FLAG_EXTENDED) in
    match grid_extended_cell gl gce grid_cleared_cell with
    | Some (gl, gce) =>
        let gl := put_gce px gce gl in
        if negb (bg =? 8) then set_extd_bg gce bg gl else gl
    | None => gl
    end
  else if negb (bg =? 8) then
    if has bg COLOUR_FLAG_RGB then
      let '(gl, gce) := grid_get_extended_cell gl (gce_flags gce) in
      match grid_extended_cell gl gce grid_cleared_cell with
      | Some (gl, gce) => set_extd_bg gce bg (put_gce px gce gl)
      | None => gl
      end
    else
      let flags := if has bg COLOUR_FLAG_256 then Z.lor (gce_flags gce) GRID_FLAG_BG256
                   else gce_flags gce in
      put_gce px (GCE (Data 0 8 (u8 bg) 32) flags) gl
  else put_gce px gce gl.

(** The extended entries that are used, in the order of the cells. *)
Fixpoint compact_cells (extd : list grid_extd_entry) (idx : Z) (l : list grid_cell_entry) :
    list grid_cell_entry * list grid_extd_entry :=
  match l with
  | [] => ([], [])
  | gce :: l =>
      if has (gce_flags gce) GRID_FLAG_EXTENDED then
        let '(l, es) := compact_cells extd (idx + 1) l in
        (GCE (Offset idx) (gce_flags gce) :: l,
         nth (Z.to_nat (gce_offset gce)) extd (GEE 0 0 0 0 0 0 0) :: es)
      else
        let '(l, es) := compact_cells extd idx l in (gce :: l, es)
  end.

Definition grid_compact_line (gl : grid_line) : grid_line :=
  if extdsize gl =? 0 then gl
  else
    let '(cells, es) := compact_cells (extddata gl) 0 (celldata gl) in
    set_extddata es (set_celldata cells gl).

(** ** Lines *)

Definition grid_check_y (gd : grid) (py : Z) : bool := py <? u32 (hsize gd + g_sy gd).

Definition grid_free_line (gl : grid_line) : grid_line := set_celldata [] (set_extddata [] gl).

Definition grid_create (sx sy hlimit : Z) : grid :=
  Grid (if hlimit =? 0 then 0 else GRID_HISTORY) sx sy 0 0 hlimit
       (replicate (Z.to_nat sy) gl_zero).

(** The new size of a line that must hold [sx] cells. *)
Definition expand_size (gd_sx sx : Z) : Z :=
  if sx <? gd_sx / 4 then gd_sx / 4
  else if sx <? gd_sx / 2 then gd_sx / 2
  else if sx <? gd_sx then gd_sx
  else sx.

(** The zeroed cells are cleared one after the other. *)
Definition clear_cells (px nx : Z) (bg : Z) (gl : grid_line) : grid_line :=
  foldl (fun gl xx => grid_clear_cell xx bg false gl) gl (seqZ px nx).

Definition expand_line (gd_sx sx bg : Z) (gl : grid_line) : grid_line :=
  if sx <=? cellsize gl then gl
  else
    let sx := expand_size gd_sx sx in
    let old := cellsize gl in
    clear_cells old (sx - old) bg
      (set_celldata (celldata gl ++ replicate (Z.to_nat (sx - old)) gce_zero) gl).

Definition grid_expand_line (gd : grid) (py sx bg : Z) : grid :=
  update_line py (expand_line (g_sx gd) sx bg) gd.

Definition empty_line (gd_sx bg : Z) : grid_line :=
  if COLOUR_DEFAULT bg then gl_zero else expand_line gd_sx gd_sx bg gl_zero.

Definition grid_empty_line (gd : grid) (py bg : Z) : grid :=
  update_line py (fun _ => empty_line (g_sx gd) bg) gd.

Definition grid_peek_line (gd : grid) (py : Z) : option grid_line :=
  if grid_check_y gd py then Some (grid_get_line gd py) else None.

Definition grid_get_cell1 (gl : grid_line) (px : Z) : grid_cell :=
  let gce := get_gce gl px in
  if has (gce_flags gce) GRID_FLAG_EXTENDED then
    if extdsize gl <=? gce_offset gce then grid_default_cell
    else
      let gee := nth (Z.to_nat (gce_offset gce)) (extddata gl) (GEE 0 0 0 0 0 0 0) in
      let gc := GC (unpack (gee_data gee)) (gee_attr gee) (gee_flags gee) (gee_fg gee)
                   (gee_bg gee) (gee_us gee) (gee_link gee) in
      if has (gee_flags gee) GRID_FLAG_TAB then grid_set_tab gc (gee_data gee) else gc
  else
    let '(attr, fg, bg, data) := gce_bytes gce in
    let fg := if has (gce_flags gce) GRID_FLAG_FG256 then Z.lor fg COLOUR_FLAG_256 else fg in
    let bg := if has (gce_flags gce) GRID_FLAG_BG256 then Z.lor bg COLOUR_FLAG_256 else bg in
    GC (utf8_set data) attr
       (without (gce_flags gce) (Z.lor GRID_FLAG_FG256 GRID_FLAG_BG256)) fg bg 8 0.

Definition grid_get_cell (gd : grid) (px py : Z) : grid_cell :=
  if negb (grid_check_y gd py) || (cellsize (grid_get_line gd py) <=? px) then grid_default_cell
  else grid_get_cell1 (grid_get_line gd py) px.

(** Put a cell in a line that is long enough. *)
Definition store_cell (px : Z) (gc : grid_cell) (c : Z) (gl : grid_line) : grid_line :=
  let gce := get_gce gl px in
  if grid_need_extended_cell gce gc then
    match grid_extended_cell gl gce gc with
    | Some (gl, gce) => put_gce px gce gl
    | None => gl
    end
  else put_gce px (grid_store_cell gc c) gl.

Definition set_cell_line (gd_sx px : Z) (gc : grid_cell) (gl : grid_line) : grid_line :=
  let gl := expand_line gd_sx (px + 1) 8 gl in
  let gl := if cellused gl <? px + 1 then set_cellused (px + 1) gl else gl in
  store_cell px gc (nth 0 (ud_data (gc_data gc)) 0) gl.

Definition grid_set_cell (gd : grid) (px py : Z) (gc : grid_cell) : grid :=
  if grid_check_y gd py then update_line py (set_cell_line (g_sx gd) px gc) gd else gd.

Definition grid_set_padding (gd : grid) (px py : Z) : grid :=
  grid_set_cell gd px py grid_padding_cell.

(** A cell of a string: an extended cell gets the character. *)
Definition store_char (px : Z) (gc : grid_cell) (c : Z) (gl : grid_line) : grid_line :=
  let gce := get_gce gl px in
  if grid_need_extended_cell gce gc then
    match grid_extended_cell gl gce gc with
    | Some (gl, gce) =>
        set_extddata (alter (fun gee => GEE (utf8_build_one c) (gee_attr gee) (gee_flags gee)
          (gee_fg gee) (gee_bg gee) (gee_us gee) (gee_link gee)) (Z.to_nat (gce_offset gce))
          (extddata gl)) (put_gce px gce gl)
    | None => gl
    end
  else put_gce px (grid_store_cell gc c) gl.

Definition set_cells_line (gd_sx px : Z) (gc : grid_cell) (s : list Z) (gl : grid_line) :
    grid_line :=
  let slen := Z.of_nat (length s) in
  let gl := expand_line gd_sx (px + slen) 8 gl in
  let gl := if cellused gl <? px + slen then set_cellused (px + slen) gl else gl in
  snd (foldl (fun '(i, gl) c => (i + 1, store_char i gc c gl)) (px, gl) s).

Definition grid_set_cells (gd : grid) (px py : Z) (gc : grid_cell) (s : list Z) : grid :=
  if grid_check_y gd py then update_line py (set_cells_line (g_sx gd) px gc s) gd else gd.

(** ** Regions *)

Definition unwrap_line (py : Z) (gd : grid) : grid :=
  update_line py (fun gl => set_gl_flags (without (gl_flags gl) GRID_LINE_WRAPPED) gl) gd.

Definition grid_clear_lines (gd : grid) (py ny bg : Z) : grid :=
  if ny =? 0 then gd
  else if negb (grid_check_y gd py) || negb (grid_check_y gd (u32 (py + ny - 1))) then gd
  else
    let gd := foldl (fun gd yy => grid_empty_line gd yy bg) gd (seqZ py ny) in
    if negb (py =? 0) then unwrap_line (py - 1) gd else gd.

(** One line of [grid_clear]. *)
Definition clear_in_line (gd_sx px nx bg : Z) (gl : grid_line) : grid_line :=
  let sx := Z.min gd_sx (cellsize gl) in
  if COLOUR_DEFAULT bg && (sx <? px) then gl
  else
    let ox := if COLOUR_DEFAULT bg && (sx <? px + nx) then sx - px else nx in
    clear_cells px ox bg (expand_line gd_sx (px + ox) 8 gl).

Definition grid_clear (gd : grid) (px py nx ny bg : Z) : grid :=
  if (nx =? 0) || (ny =? 0) then gd
  else if (px =? 0) && (nx =? g_sx gd) then grid_clear_lines gd py ny bg
  else if negb (grid_check_y gd py) || negb (grid_check_y gd (u32 (py + ny - 1))) then gd
  else foldl (fun gd yy => update_line yy (clear_in_line (g_sx gd) px nx bg) gd) gd (seqZ py ny).

(** [memmove] of [n] elements from [from] to [to]. *)
Definition list_move {A} (to from n : Z) (l : list A) : list A :=
  let moved := take (Z.to_nat n) (drop (Z.to_nat from) l) in
  take (Z.to_nat to) l ++ moved ++ drop (Z.to_nat to + length moved) l.

Definition grid_move_lines (gd : grid) (dy py ny bg : Z) : grid :=
  if (ny =? 0) || (py =? dy) then gd
  else if negb (grid_check_y gd py) || negb (grid_check_y gd (u32 (py + ny - 1))) ||
          negb (grid_check_y gd dy) || negb (grid_check_y gd (u32 (dy + ny - 1))) then gd
  else
    let gd := if negb (dy =? 0) then unwrap_line (dy - 1) gd else gd in
    let gd := set_linedata (list_move dy py ny (linedata gd)) gd in
    let gd := foldl (fun gd yy => if (yy <? dy) || (dy + ny <=? yy)
                                  then grid_empty_line gd yy bg else gd) gd (seqZ py ny) in
    if negb (py =? 0) && ((py <? dy) || (dy + ny <=? py)) then unwrap_line (py - 1) gd else gd.

Definition move_in_line (gd_sx dx px nx bg : Z) (gl : grid_line) : grid_line :=
  let gl := expand_line gd_sx (px + nx) 8 gl in
  let gl := expand_line gd_sx (dx + nx) 8 gl in
  let gl := set_celldata (list_move dx px nx (celldata gl)) gl in
  let gl := if cellused gl <? dx + nx then set_cellused (dx + nx) gl else gl in
  foldl (fun gl xx => if (dx <=? xx) && (xx <? dx + nx) then gl
                      else grid_clear_cell xx bg true gl) gl (seqZ px nx).

Definition grid_move_cells (gd : grid) (dx px py nx bg : Z) : grid :=
  if (nx =? 0) || (px =? dx) then gd
  else if negb (grid_check_y gd py) then gd
  else update_line py (move_in_line (g_sx gd) dx px nx bg) gd.

(** ** History *)

Definition grid_trim_history (gd : grid) (ny : Z) : list grid_line :=
  drop (Z.to_nat ny) (linedata gd).

Definition grid_collect_history (gd : grid) (all : bool) : grid :=
  if (hsize gd =? 0) || (hsize gd <? hlimit gd) then gd
  else
    let ny := if all then hsize gd - hlimit gd else hlimit gd / 10 in
    let ny := if ny <? 1 then 1 else ny in
    let ny := if hsize gd <? ny then hsize gd else ny in
    Grid (g_flags gd) (g_sx gd) (g_sy gd) (Z.min (hscrolled gd) (hsize gd - ny))
         (hsize gd - ny) (hlimit gd) (grid_trim_history gd ny).

(** The lines at the bottom of the grid go, and the screen starts that much
    higher. *)
Definition grid_remove_history (gd : grid) (ny : Z) : grid :=
  if hsize gd <? ny then gd
  else set_hsize (hsize gd - ny)
         (set_linedata (take (Z.to_nat (hsize gd + g_sy gd - ny)) (linedata gd)) gd).

Definition grid_scroll_history (now : Z) (gd : grid) (bg : Z) : grid :=
  let gd := set_linedata (linedata gd ++ [empty_line (g_sx gd) bg]) gd in
  let gd := set_hscrolled (u32 (hscrolled gd + 1)) gd in
  let gd := update_line (hsize gd) (fun gl => set_gl_time now (grid_compact_line gl)) gd in
  set_hsize (u32 (hsize gd + 1)) gd.

Definition grid_clear_history (gd : grid) : grid :=
  Grid (g_flags gd) (g_sx gd) (g_sy gd) 0 0 (hlimit gd)
       (take (Z.to_nat (g_sy gd)) (grid_trim_history gd (hsize gd))).

Definition grid_scroll_history_region (now : Z) (gd : grid) (upper lower bg : Z) : grid :=
  let l := linedata gd in
  let h := Z.to_nat (hsize gd) in
  let l := take h l ++ nth h l gl_zero :: drop h l in
  let upper := upper + 1 in
  let lower := lower + 1 in
  let l := <[h := set_gl_time now (nth (Z.to_nat upper) l gl_zero)]> l in
  let l := list_move upper (upper + 1) (lower - upper) l in
  let gd := grid_empty_line (set_linedata l gd) lower bg in
  set_hsize (u32 (hsize gd + 1)) (set_hscrolled (u32 (hscrolled gd + 1)) gd).

(** ** Two grids *)

Definition grid_compare (ga gb : grid) : bool :=
  negb ((g_sx ga =? g_sx gb) && (g_sy ga =? g_sy gb) &&
    forallb (fun yy =>
      (cellsize (grid_get_line ga yy) =? cellsize (grid_get_line gb yy)) &&
      forallb (fun xx => grid_cells_equal (grid_get_cell ga xx yy) (grid_get_cell gb xx yy))
        (seqZ 0 (cellsize (grid_get_line ga yy)))) (seqZ 0 (g_sy ga))).

(** The lines are copied one at a time, so [src] may not be [dst]. *)
Definition grid_duplicate_lines (dst : grid) (dy : Z) (src : grid) (sy ny : Z) : grid :=
  let ny := if hsize dst + g_sy dst <? dy + ny then hsize dst + g_sy dst - dy else ny in
  let ny := if hsize src + g_sy src <? sy + ny then hsize src + g_sy src - sy else ny in
  foldl (fun dst k => update_line (dy + k) (fun _ => grid_get_line src (sy + k)) dst) dst
        (seqZ 0 ny).

(** ** Positions *)

Definition grid_line_length (gd : grid) (py : Z) : Z :=
  (fix go (px : nat) : Z :=
     match px with
     | O => 0
     | S px' =>
         let gc := grid_get_cell gd (Z.of_nat px') py in
         if has (gc_flags gc) GRID_FLAG_PADDING || negb (ud_size (gc_data gc) =? 1) ||
            negb (nth 0 (ud_data (gc_data gc)) 0 =? 32)
         then Z.of_nat px else go px'
     end) (Z.to_nat (Z.min (cellsize (grid_get_line gd py)) (g_sx gd))).

Definition wrapped (gl : grid_line) : bool := has (gl_flags gl) GRID_LINE_WRAPPED.

Definition grid_wrap_position (gd : grid) (px py : Z) : Z * Z :=
  let '(ax, ay) := foldl (fun '(ax, ay) yy =>
    let gl := grid_get_line gd yy in
    if wrapped gl then (u32 (ax + cellused gl), ay) else (0, u32 (ay + 1)))
    (0, 0) (seqZ 0 py) in
  (if cellused (grid_get_line gd py) <=? px then UINT_MAX else u32 (ax + px), ay).

(** The first line of logical line [wy] among the lines that follow. *)
Fixpoint find_unwrapped (l : list grid_line) (yy ay wy : Z) : Z :=
  match l with
  | [] => yy
  | gl :: l =>
      if ay =? wy then yy
      else find_unwrapped l (yy + 1) (if wrapped gl then ay else ay + 1) wy
  end.

(** Walks over wrapped lines; the last line of a grid is not wrapped, or the
    walk leaves the grid ([None]). *)
Fixpoint walk_end (l : list grid_line) (yy : Z) : option (Z * Z) :=
  match l with
  | [] => None
  | gl :: l => if wrapped gl then walk_end l (yy + 1) else Some (cellused gl, yy)
  end.

Fixpoint walk_to (l : list grid_line) (yy wx : Z) : option (Z * Z) :=
  match l with
  | [] => None
  | gl :: l =>
      if wrapped gl && (cellused gl <=? wx) then walk_to l (yy + 1) (wx - cellused gl)
      else Some (wx, yy)
  end.

Definition grid_unwrap_position (gd : grid) (wx wy : Z) : option (Z * Z) :=
  let yy := find_unwrapped (take (Z.to_nat (u32 (hsize gd + g_sy gd - 1))) (linedata gd)) 0 0 wy in
  let rest := drop (Z.to_nat yy) (linedata gd) in
  if wx =? UINT_MAX then walk_end rest yy else walk_to rest yy wx.

End Codec.
