(* ===== verification/Colour.v ===== *)
(** * Colours (src/tmux/terminal/colour.c)

    A colour is an int: -1 for none, 0 to 7 and 90 to 97 for the basic ones, 8
    and 9 for the default ones, or an index or a triplet with a flag. *)
From Stdlib Require Import Ascii String.
From S2P Require Import Prelude.
From S2P Require Import CString.
From S2P Require Import Grid.

(** ** Conversions *)

Definition colour_dist_sq (R G B r g b : Z) : Z :=
  (R - r) * (R - r) + (G - g) * (G - g) + (B - b) * (B - b).

Definition colour_to_6cube (v : Z) : Z :=
  if v <? 48 then 0 else if v <? 114 then 1 else (v - 35) / 40.

Definition q2c (q : Z) : Z := nth (Z.to_nat q) [0x00; 0x5f; 0x87; 0xaf; 0xd7; 0xff] 0.

(** The division of a negative int truncates towards zero. *)
Definition colour_find_rgb (r g b : Z) : Z :=
  let qr := colour_to_6cube r in let cr := q2c qr in
  let qg := colour_to_6cube g in let cg := q2c qg in
  let qb := colour_to_6cube b in let cb := q2c qb in
  if (cr =? r) && (cg =? g) && (cb =? b)
  then Z.lor (16 + 36 * qr + 6 * qg + qb) COLOUR_FLAG_256
  else
    let grey_avg := (r + g + b) / 3 in
    let grey_idx := if 238 <? grey_avg then 23 else Z.quot (grey_avg - 3) 10 in
    let grey := 8 + 10 * grey_idx in
    let d := colour_dist_sq cr cg cb r g b in
    let idx := if colour_dist_sq grey grey grey r g b <? d then 232 + grey_idx
               else 16 + 36 * qr + 6 * qg + qb in
    Z.lor idx COLOUR_FLAG_256.

(** The arguments are unsigned chars. *)
Definition colour_join_rgb (r g b : Z) : Z :=
  Z.lor (Z.lor (Z.lor (Z.shiftl (u8 r) 16) (Z.shiftl (u8 g) 8)) (u8 b)) COLOUR_FLAG_RGB.

Definition colour_split_rgb (c : Z) : Z * Z * Z :=
  (Z.land (Z.shiftr c 16) 0xff, Z.land (Z.shiftr c 8) 0xff, Z.land c 0xff).

Definition colour_256_table : list Z :=
  [0x000000; 0x800000; 0x008000; 0x808000; 0x000080; 0x800080; 0x008080; 0xc0c0c0;
   0x808080; 0xff0000; 0x00ff00; 0xffff00; 0x0000ff; 0xff00ff; 0x00ffff; 0xffffff;
   0x000000; 0x00005f; 0x000087; 0x0000af; 0x0000d7; 0x0000ff; 0x005f00; 0x005f5f;
   0x005f87; 0x005faf; 0x005fd7; 0x005fff; 0x008700; 0x00875f; 0x008787; 0x0087af;
   0x0087d7; 0x0087ff; 0x00af00; 0x00af5f; 0x00af87; 0x00afaf; 0x00afd7; 0x00afff;
   0x00d700; 0x00d75f; 0x00d787; 0x00d7af; 0x00d7d7; 0x00d7ff; 0x00ff00; 0x00ff5f;
   0x00ff87; 0x00ffaf; 0x00ffd7; 0x00ffff; 0x5f0000; 0x5f005f; 0x5f0087; 0x5f00af;
   0x5f00d7; 0x5f00ff; 0x5f5f00; 0x5f5f5f; 0x5f5f87; 0x5f5faf; 0x5f5fd7; 0x5f5fff;
   0x5f8700; 0x5f875f; 0x5f8787; 0x5f87af; 0x5f87d7; 0x5f87ff; 0x5faf00; 0x5faf5f;
   0x5faf87; 0x5fafaf; 0x5fafd7; 0x5fafff; 0x5fd700; 0x5fd75f; 0x5fd787; 0x5fd7af;
   0x5fd7d7; 0x5fd7ff; 0x5fff00; 0x5fff5f; 0x5fff87; 0x5fffaf; 0x5fffd7; 0x5fffff;
   0x870000; 0x87005f; 0x870087; 0x8700af; 0x8700d7; 0x8700ff; 0x875f00; 0x875f5f;
   0x875f87; 0x875faf; 0x875fd7; 0x875fff; 0x878700; 0x87875f; 0x878787; 0x8787af;
   0x8787d7; 0x8787ff; 0x87af00; 0x87af5f; 0x87af87; 0x87afaf; 0x87afd7; 0x87afff;
   0x87d700; 0x87d75f; 0x87d787; 0x87d7af; 0x87d7d7; 0x87d7ff; 0x87ff00; 0x87ff5f;
   0x87ff87; 0x87ffaf; 0x87ffd7; 0x87ffff; 0xaf0000; 0xaf005f; 0xaf0087; 0xaf00af;
   0xaf00d7; 0xaf00ff; 0xaf5f00; 0xaf5f5f; 0xaf5f87; 0xaf5faf; 0xaf5fd7; 0xaf5fff;
   0xaf8700; 0xaf875f; 0xaf8787; 0xaf87af; 0xaf87d7; 0xaf87ff; 0xafaf00; 0xafaf5f;
   0xafaf87; 0xafafaf; 0xafafd7; 0xafafff; 0xafd700; 0xafd75f; 0xafd787; 0xafd7af;
   0xafd7d7; 0xafd7ff; 0xafff00; 0xafff5f; 0xafff87; 0xafffaf; 0xafffd7; 0xafffff;
   0xd70000; 0xd7005f; 0xd70087; 0xd700af; 0xd700d7; 0xd700ff; 0xd75f00; 0xd75f5f;
   0xd75f87; 0xd75faf; 0xd75fd7; 0xd75fff; 0xd78700; 0xd7875f; 0xd78787; 0xd787af;
   0xd787d7; 0xd787ff; 0xd7af00; 0xd7af5f; 0xd7af87; 0xd7afaf; 0xd7afd7; 0xd7afff;
   0xd7d700; 0xd7d75f; 0xd7d787; 0xd7d7af; 0xd7d7d7; 0xd7d7ff; 0xd7ff00; 0xd7ff5f;
   0xd7ff87; 0xd7ffaf; 0xd7ffd7; 0xd7ffff; 0xff0000; 0xff005f; 0xff0087; 0xff00af;
   0xff00d7; 0xff00ff; 0xff5f00; 0xff5f5f; 0xff5f87; 0xff5faf; 0xff5fd7; 0xff5fff;
   0xff8700; 0xff875f; 0xff8787; 0xff87af; 0xff87d7; 0xff87ff; 0xffaf00; 0xffaf5f;
   0xffaf87; 0xffafaf; 0xffafd7; 0xffafff; 0xffd700; 0xffd75f; 0xffd787; 0xffd7af;
   0xffd7d7; 0xffd7ff; 0xffff00; 0xffff5f; 0xffff87; 0xffffaf; 0xffffd7; 0xffffff;
   0x080808; 0x121212; 0x1c1c1c; 0x262626; 0x303030; 0x3a3a3a; 0x444444; 0x4e4e4e;
   0x585858; 0x626262; 0x6c6c6c; 0x767676; 0x808080; 0x8a8a8a; 0x949494; 0x9e9e9e;
   0xa8a8a8; 0xb2b2b2; 0xbcbcbc; 0xc6c6c6; 0xd0d0d0; 0xdadada; 0xe4e4e4; 0xeeeeee].

Definition colour_256toRGB (c : Z) : Z :=
  Z.lor (nth (Z.to_nat (Z.land c 0xff)) colour_256_table 0) COLOUR_FLAG_RGB.

Definition colour_16_table : list Z :=
  [0; 1; 2; 3; 4; 5; 6; 7; 8; 9; 10; 11; 12; 13; 14; 15;
   0; 4; 4; 4; 12; 12; 2; 6; 4; 4; 12; 12; 2; 2; 6; 4;
   12; 12; 2; 2; 2; 6; 12; 12; 10; 10; 10; 10; 14; 12; 10; 10;
   10; 10; 10; 14; 1; 5; 4; 4; 12; 12; 3; 8; 4; 4; 12; 12;
   2; 2; 6; 4; 12; 12; 2; 2; 2; 6; 12; 12; 10; 10; 10; 10;
   14; 12; 10; 10; 10; 10; 10; 14; 1; 1; 5; 4; 12; 12; 1; 1;
   5; 4; 12; 12; 3; 3; 8; 4; 12; 12; 2; 2; 2; 6; 12; 12;
   10; 10; 10; 10; 14; 12; 10; 10; 10; 10; 10; 14; 1; 1; 1; 5;
   12; 12; 1; 1; 1; 5; 12; 12; 1; 1; 1; 5; 12; 12; 3; 3;
   3; 7; 12; 12; 10; 10; 10; 10; 14; 12; 10; 10; 10; 10; 10; 14;
   9; 9; 9; 9; 13; 12; 9; 9; 9; 9; 13; 12; 9; 9; 9; 9;
   13; 12; 9; 9; 9; 9; 13; 12; 11; 11; 11; 11; 7; 12; 10; 10;
   10; 10; 10; 14; 9; 9; 9; 9; 9; 13; 9; 9; 9; 9; 9; 13;
   9; 9; 9; 9; 9; 13; 9; 9; 9; 9; 9; 13; 9; 9; 9; 9;
   9; 13; 11; 11; 11; 11; 11; 15; 0; 0; 0; 0; 0; 0; 8; 8;
   8; 8; 8; 8; 7; 7; 7; 7; 7; 7; 15; 15; 15; 15; 15; 15].

Definition colour_256to16 (c : Z) : Z := nth (Z.to_nat (Z.land c 0xff)) colour_16_table 0.

Definition colour_force_rgb (c : Z) : Z :=
  if has c COLOUR_FLAG_RGB then c
  else if has c COLOUR_FLAG_256 then colour_256toRGB c
  else if (0 <=? c) && (c <=? 7) then colour_256toRGB c
  else if (90 <=? c) && (c <=? 97) then colour_256toRGB (8 + c - 90)
  else -1.

Inductive client_theme := THEME_UNKNOWN | THEME_LIGHT | THEME_DARK.

(** The brightness of a triplet. *)
Definition rgb_theme (c : Z) : client_theme :=
  let '(r, g, b) := colour_split_rgb c in if 382 <? r + g + b then THEME_LIGHT else THEME_DARK.

(** The calls of the function to itself are with a triplet. *)
Definition colour_totheme (c : Z) : client_theme :=
  if c =? -1 then THEME_UNKNOWN
  else if has c COLOUR_FLAG_RGB then rgb_theme c
  else if has c COLOUR_FLAG_256 then rgb_theme (colour_256toRGB c)
  else if (c =? 0) || (c =? 90) then THEME_DARK
  else if (c =? 7) || (c =? 97) then THEME_LIGHT
  else if (0 <=? c) && (c <=? 7) then rgb_theme (colour_256toRGB c)
  else if (90 <=? c) && (c <=? 97) then rgb_theme (colour_256toRGB (8 + c - 90))
  else THEME_UNKNOWN.

(** ** Names *)

Definition basic_names : list (Z * string) :=
  [(0, "black"); (1, "red"); (2, "green"); (3, "yellow"); (4, "blue"); (5, "magenta");
   (6, "cyan"); (7, "white"); (8, "default"); (9, "terminal"); (90, "brightblack");
   (91, "brightred"); (92, "brightgreen"); (93, "brightyellow"); (94, "brightblue");
   (95, "brightmagenta"); (96, "brightcyan"); (97, "brightwhite")]%string.

Definition fmt_02x (n : Z) : string :=
  String (hex_digit (n / 16 mod 16)) (String (hex_digit (n mod 16)) "").

Definition colour_tostring (c : Z) : string :=
  if c =? -1 then "none"
  else if has c COLOUR_FLAG_RGB then
    let '(r, g, b) := colour_split_rgb c in
    String "#" (fmt_02x r +:+ fmt_02x g +:+ fmt_02x b)
  else if has c COLOUR_FLAG_256 then "colour" +:+ fmt_u (Z.land c 0xff)
  else match find (fun '(n, _) => n =? c) basic_names with
       | Some (_, name) => name
       | None => "invalid"
       end.

(** [tolower], and the comparisons that ignore case. *)
Definition lower (c : ascii) : ascii :=
  if (65 <=? code c) && (code c <=? 90) then ascii_of_N (Z.to_N (code c + 32)) else c.
Fixpoint strcaseeq (a b : string) : bool :=
  match a, b with
  | EmptyString, EmptyString => true
  | String x a, String y b => Ascii.eqb (lower x) (lower y) && strcaseeq a b
  | _, _ => false
  end.
(** What follows a prefix, whatever its case. *)
Fixpoint strip_case (prefix s : string) : option string :=
  match prefix, s with
  | EmptyString, _ => Some s
  | String x p, String y s => if Ascii.eqb (lower x) (lower y) then strip_case p s else None
  | _, _ => None
  end.

Definition colour_names : list (string * Z) :=
  [("AliceBlue", 0xf0f8ff); ("AntiqueWhite", 0xfaebd7); ("AntiqueWhite1", 0xffefdb);
   ("AntiqueWhite2", 0xeedfcc); ("AntiqueWhite3", 0xcdc0b0); ("AntiqueWhite4", 0x8b8378);
   ("BlanchedAlmond", 0xffebcd); ("BlueViolet", 0x8a2be2); ("CadetBlue", 0x5f9ea0);
   ("CadetBlue1", 0x98f5ff); ("CadetBlue2", 0x8ee5ee); ("CadetBlue3", 0x7ac5cd);
   ("CadetBlue4", 0x53868b); ("CornflowerBlue", 0x6495ed); ("DarkBlue", 0x00008b);
   ("DarkCyan", 0x008b8b); ("DarkGoldenrod", 0xb8860b); ("DarkGoldenrod1", 0xffb90f);
   ("DarkGoldenrod2", 0xeead0e); ("DarkGoldenrod3", 0xcd950c); ("DarkGoldenrod4", 0x8b6508);
   ("DarkGray", 0xa9a9a9); ("DarkGreen", 0x006400); ("DarkGrey", 0xa9a9a9);
   ("DarkKhaki", 0xbdb76b); ("DarkMagenta", 0x8b008b); ("DarkOliveGreen", 0x556b2f);
   ("DarkOliveGreen1", 0xcaff70); ("DarkOliveGreen2", 0xbcee68); ("DarkOliveGreen3", 0xa2cd5a);
   ("DarkOliveGreen4", 0x6e8b3d); ("DarkOrange", 0xff8c00); ("DarkOrange1", 0xff7f00);
   ("DarkOrange2", 0xee7600); ("DarkOrange3", 0xcd6600); ("DarkOrange4", 0x8b4500);
   ("DarkOrchid", 0x9932cc); ("DarkOrchid1", 0xbf3eff); ("DarkOrchid2", 0xb23aee);
   ("DarkOrchid3", 0x9a32cd); ("DarkOrchid4", 0x68228b); ("DarkRed", 0x8b0000);
   ("DarkSalmon", 0xe9967a); ("DarkSeaGreen", 0x8fbc8f); ("DarkSeaGreen1", 0xc1ffc1);
   ("DarkSeaGreen2", 0xb4eeb4); ("DarkSeaGreen3", 0x9bcd9b); ("DarkSeaGreen4", 0x698b69);
   ("DarkSlateBlue", 0x483d8b); ("DarkSlateGray", 0x2f4f4f); ("DarkSlateGray1", 0x97ffff);
   ("DarkSlateGray2", 0x8deeee); ("DarkSlateGray3", 0x79cdcd); ("DarkSlateGray4", 0x528b8b);
   ("DarkSlateGrey", 0x2f4f4f); ("DarkTurquoise", 0x00ced1); ("DarkViolet", 0x9400d3);
   ("DeepPink", 0xff1493); ("DeepPink1", 0xff1493); ("DeepPink2", 0xee1289);
   ("DeepPink3", 0xcd1076); ("DeepPink4", 0x8b0a50); ("DeepSkyBlue", 0x00bfff);
   ("DeepSkyBlue1", 0x00bfff); ("DeepSkyBlue2", 0x00b2ee); ("DeepSkyBlue3", 0x009acd);
   ("DeepSkyBlue4", 0x00688b); ("DimGray", 0x696969); ("DimGrey", 0x696969);
   ("DodgerBlue", 0x1e90ff); ("DodgerBlue1", 0x1e90ff); ("DodgerBlue2", 0x1c86ee);
   ("DodgerBlue3", 0x1874cd); ("DodgerBlue4", 0x104e8b); ("FloralWhite", 0xfffaf0);
   ("ForestGreen", 0x228b22); ("GhostWhite", 0xf8f8ff); ("GreenYellow", 0xadff2f);
   ("HotPink", 0xff69b4); ("HotPink1", 0xff6eb4); ("HotPink2", 0xee6aa7);
   ("HotPink3", 0xcd6090); ("HotPink4", 0x8b3a62); ("IndianRed", 0xcd5c5c);
   ("IndianRed1", 0xff6a6a); ("IndianRed2", 0xee6363); ("IndianRed3", 0xcd5555);
   ("IndianRed4", 0x8b3a3a); ("LavenderBlush", 0xfff0f5); ("LavenderBlush1", 0xfff0f5);
   ("LavenderBlush2", 0xeee0e5); ("LavenderBlush3", 0xcdc1c5); ("LavenderBlush4", 0x8b8386);
   ("LawnGreen", 0x7cfc00); ("LemonChiffon", 0xfffacd); ("LemonChiffon1", 0xfffacd);
   ("LemonChiffon2", 0xeee9bf); ("LemonChiffon3", 0xcdc9a5); ("LemonChiffon4", 0x8b8970);
   ("LightBlue", 0xadd8e6); ("LightBlue1", 0xbfefff); ("LightBlue2", 0xb2dfee);
   ("LightBlue3", 0x9ac0cd); ("LightBlue4", 0x68838b); ("LightCoral", 0xf08080);
   ("LightCyan", 0xe0ffff); ("LightCyan1", 0xe0ffff); ("LightCyan2", 0xd1eeee);
   ("LightCyan3", 0xb4cdcd); ("LightCyan4", 0x7a8b8b); ("LightGoldenrod", 0xeedd82);
   ("LightGoldenrod1", 0xffec8b); ("LightGoldenrod2", 0xeedc82); ("LightGoldenrod3", 0xcdbe70);
   ("LightGoldenrod4", 0x8b814c); ("LightGoldenrodYellow", 0xfafad2); ("LightGray", 0xd3d3d3);
   ("LightGreen", 0x90ee90); ("LightGrey", 0xd3d3d3); ("LightPink", 0xffb6c1);
   ("LightPink1", 0xffaeb9); ("LightPink2", 0xeea2ad); ("LightPink3", 0xcd8c95);
   ("LightPink4", 0x8b5f65); ("LightSalmon", 0xffa07a); ("LightSalmon1", 0xffa07a);
   ("LightSalmon2", 0xee9572); ("LightSalmon3", 0xcd8162); ("LightSalmon4", 0x8b5742);
   ("LightSeaGreen", 0x20b2aa); ("LightSkyBlue", 0x87cefa); ("LightSkyBlue1", 0xb0e2ff);
   ("LightSkyBlue2", 0xa4d3ee); ("LightSkyBlue3", 0x8db6cd); ("LightSkyBlue4", 0x607b8b);
   ("LightSlateBlue", 0x8470ff); ("LightSlateGray", 0x778899); ("LightSlateGrey", 0x778899);
   ("LightSteelBlue", 0xb0c4de); ("LightSteelBlue1", 0xcae1ff); ("LightSteelBlue2", 0xbcd2ee);
   ("LightSteelBlue3", 0xa2b5cd); ("LightSteelBlue4", 0x6e7b8b); ("LightYellow", 0xffffe0);
   ("LightYellow1", 0xffffe0); ("LightYellow2", 0xeeeed1); ("LightYellow3", 0xcdcdb4);
   ("LightYellow4", 0x8b8b7a); ("LimeGreen", 0x32cd32); ("MediumAquamarine", 0x66cdaa);
   ("MediumBlue", 0x0000cd); ("MediumOrchid", 0xba55d3); ("MediumOrchid1", 0xe066ff);
   ("MediumOrchid2", 0xd15fee); ("MediumOrchid3", 0xb452cd); ("MediumOrchid4", 0x7a378b);
   ("MediumPurple", 0x9370db); ("MediumPurple1", 0xab82ff); ("MediumPurple2", 0x9f79ee);
   ("MediumPurple3", 0x8968cd); ("MediumPurple4", 0x5d478b); ("MediumSeaGreen", 0x3cb371);
   ("MediumSlateBlue", 0x7b68ee); ("MediumSpringGreen", 0x00fa9a); ("MediumTurquoise", 0x48d1cc);
   ("MediumVioletRed", 0xc71585); ("MidnightBlue", 0x191970); ("MintCream", 0xf5fffa);
   ("MistyRose", 0xffe4e1); ("MistyRose1", 0xffe4e1); ("MistyRose2", 0xeed5d2);
   ("MistyRose3", 0xcdb7b5); ("MistyRose4", 0x8b7d7b); ("NavajoWhite", 0xffdead);
   ("NavajoWhite1", 0xffdead); ("NavajoWhite2", 0xeecfa1); ("NavajoWhite3", 0xcdb38b);
   ("NavajoWhite4", 0x8b795e); ("NavyBlue", 0x000080); ("OldLace", 0xfdf5e6);
   ("OliveDrab", 0x6b8e23); ("OliveDrab1", 0xc0ff3e); ("OliveDrab2", 0xb3ee3a);
   ("OliveDrab3", 0x9acd32); ("OliveDrab4", 0x698b22); ("OrangeRed", 0xff4500);
   ("OrangeRed1", 0xff4500); ("OrangeRed2", 0xee4000); ("OrangeRed3", 0xcd3700);
   ("OrangeRed4", 0x8b2500); ("PaleGoldenrod", 0xeee8aa); ("PaleGreen", 0x98fb98);
   ("PaleGreen1", 0x9aff9a); ("PaleGreen2", 0x90ee90); ("PaleGreen3", 0x7ccd7c);
   ("PaleGreen4", 0x548b54); ("PaleTurquoise", 0xafeeee); ("PaleTurquoise1", 0xbbffff);
   ("PaleTurquoise2", 0xaeeeee); ("PaleTurquoise3", 0x96cdcd); ("PaleTurquoise4", 0x668b8b);
   ("PaleVioletRed", 0xdb7093); ("PaleVioletRed1", 0xff82ab); ("PaleVioletRed2", 0xee799f);
   ("PaleVioletRed3", 0xcd6889); ("PaleVioletRed4", 0x8b475d); ("PapayaWhip", 0xffefd5);
   ("PeachPuff", 0xffdab9); ("PeachPuff1", 0xffdab9); ("PeachPuff2", 0xeecbad);
   ("PeachPuff3", 0xcdaf95); ("PeachPuff4", 0x8b7765); ("PowderBlue", 0xb0e0e6);
   ("RebeccaPurple", 0x663399); ("RosyBrown", 0xbc8f8f); ("RosyBrown1", 0xffc1c1);
   ("RosyBrown2", 0xeeb4b4); ("RosyBrown3", 0xcd9b9b); ("RosyBrown4", 0x8b6969);
   ("RoyalBlue", 0x4169e1); ("RoyalBlue1", 0x4876ff); ("RoyalBlue2", 0x436eee);
   ("RoyalBlue3", 0x3a5fcd); ("RoyalBlue4", 0x27408b); ("SaddleBrown", 0x8b4513);
   ("SandyBrown", 0xf4a460); ("SeaGreen", 0x2e8b57); ("SeaGreen1", 0x54ff9f);
   ("SeaGreen2", 0x4eee94); ("SeaGreen3", 0x43cd80); ("SeaGreen4", 0x2e8b57);
   ("SkyBlue", 0x87ceeb); ("SkyBlue1", 0x87ceff); ("SkyBlue2", 0x7ec0ee);
   ("SkyBlue3", 0x6ca6cd); ("SkyBlue4", 0x4a708b); ("SlateBlue", 0x6a5acd);
   ("SlateBlue1", 0x836fff); ("SlateBlue2", 0x7a67ee); ("SlateBlue3", 0x6959cd);
   ("SlateBlue4", 0x473c8b); ("SlateGray", 0x708090); ("SlateGray1", 0xc6e2ff);
   ("SlateGray2", 0xb9d3ee); ("SlateGray3", 0x9fb6cd); ("SlateGray4", 0x6c7b8b);
   ("SlateGrey", 0x708090); ("SpringGreen", 0x00ff7f); ("SpringGreen1", 0x00ff7f);
   ("SpringGreen2", 0x00ee76); ("SpringGreen3", 0x00cd66); ("SpringGreen4", 0x008b45);
   ("SteelBlue", 0x4682b4); ("SteelBlue1", 0x63b8ff); ("SteelBlue2", 0x5cacee);
   ("SteelBlue3", 0x4f94cd); ("SteelBlue4", 0x36648b); ("VioletRed", 0xd02090);
   ("VioletRed1", 0xff3e96); ("VioletRed2", 0xee3a8c); ("VioletRed3", 0xcd3278);
   ("VioletRed4", 0x8b2252); ("WebGray", 0x808080); ("WebGreen", 0x008000);
   ("WebGrey", 0x808080); ("WebMaroon", 0x800000); ("WebPurple", 0x800080);
   ("WhiteSmoke", 0xf5f5f5); ("X11Gray", 0xbebebe); ("X11Green", 0x00ff00);
   ("X11Grey", 0xbebebe); ("X11Maroon", 0xb03060); ("X11Purple", 0xa020f0);
   ("YellowGreen", 0x9acd32); ("alice blue", 0xf0f8ff); ("antique white", 0xfaebd7);
   ("aqua", 0x00ffff); ("aquamarine", 0x7fffd4); ("aquamarine1", 0x7fffd4);
   ("aquamarine2", 0x76eec6); ("aquamarine3", 0x66cdaa); ("aquamarine4", 0x458b74);
   ("azure", 0xf0ffff); ("azure1", 0xf0ffff); ("azure2", 0xe0eeee);
   ("azure3", 0xc1cdcd); ("azure4", 0x838b8b); ("beige", 0xf5f5dc);
   ("bisque", 0xffe4c4); ("bisque1", 0xffe4c4); ("bisque2", 0xeed5b7);
   ("bisque3", 0xcdb79e); ("bisque4", 0x8b7d6b); ("black", 0x000000);
   ("blanched almond", 0xffebcd); ("blue violet", 0x8a2be2); ("blue", 0x0000ff);
   ("blue1", 0x0000ff); ("blue2", 0x0000ee); ("blue3", 0x0000cd);
   ("blue4", 0x00008b); ("brown", 0xa52a2a); ("brown1", 0xff4040);
   ("brown2", 0xee3b3b); ("brown3", 0xcd3333); ("brown4", 0x8b2323);
   ("burlywood", 0xdeb887); ("burlywood1", 0xffd39b); ("burlywood2", 0xeec591);
   ("burlywood3", 0xcdaa7d); ("burlywood4", 0x8b7355); ("cadet blue", 0x5f9ea0);
   ("chartreuse", 0x7fff00); ("chartreuse1", 0x7fff00); ("chartreuse2", 0x76ee00);
   ("chartreuse3", 0x66cd00); ("chartreuse4", 0x458b00); ("chocolate", 0xd2691e);
   ("chocolate1", 0xff7f24); ("chocolate2", 0xee7621); ("chocolate3", 0xcd661d);
   ("chocolate4", 0x8b4513); ("coral", 0xff7f50); ("coral1", 0xff7256);
   ("coral2", 0xee6a50); ("coral3", 0xcd5b45); ("coral4", 0x8b3e2f);
   ("cornflower blue", 0x6495ed); ("cornsilk", 0xfff8dc); ("cornsilk1", 0xfff8dc);
   ("cornsilk2", 0xeee8cd); ("cornsilk3", 0xcdc8b1); ("cornsilk4", 0x8b8878);
   ("crimson", 0xdc143c); ("cyan", 0x00ffff); ("cyan1", 0x00ffff);
   ("cyan2", 0x00eeee); ("cyan3", 0x00cdcd); ("cyan4", 0x008b8b);
   ("dark blue", 0x00008b); ("dark cyan", 0x008b8b); ("dark goldenrod", 0xb8860b);
   ("dark gray", 0xa9a9a9); ("dark green", 0x006400); ("dark grey", 0xa9a9a9);
   ("dark khaki", 0xbdb76b); ("dark magenta", 0x8b008b); ("dark olive green", 0x556b2f);
   ("dark orange", 0xff8c00); ("dark orchid", 0x9932cc); ("dark red", 0x8b0000);
   ("dark salmon", 0xe9967a); ("dark sea green", 0x8fbc8f); ("dark slate blue", 0x483d8b);
   ("dark slate gray", 0x2f4f4f); ("dark slate grey", 0x2f4f4f); ("dark turquoise", 0x00ced1);
   ("dark violet", 0x9400d3); ("deep pink", 0xff1493); ("deep sky blue", 0x00bfff);
   ("dim gray", 0x696969); ("dim grey", 0x696969); ("dodger blue", 0x1e90ff);
   ("firebrick", 0xb22222); ("firebrick1", 0xff3030); ("firebrick2", 0xee2c2c);
   ("firebrick3", 0xcd2626); ("firebrick4", 0x8b1a1a); ("floral white", 0xfffaf0);
   ("forest green", 0x228b22); ("fuchsia", 0xff00ff); ("gainsboro", 0xdcdcdc);
   ("ghost white", 0xf8f8ff); ("gold", 0xffd700); ("gold1", 0xffd700);
   ("gold2", 0xeec900); ("gold3", 0xcdad00); ("gold4", 0x8b7500);
   ("goldenrod", 0xdaa520); ("goldenrod1", 0xffc125); ("goldenrod2", 0xeeb422);
   ("goldenrod3", 0xcd9b1d); ("goldenrod4", 0x8b6914); ("green yellow", 0xadff2f);
   ("green", 0x00ff00); ("green1", 0x00ff00); ("green2", 0x00ee00);
   ("green3", 0x00cd00); ("green4", 0x008b00); ("honeydew", 0xf0fff0);
   ("honeydew1", 0xf0fff0); ("honeydew2", 0xe0eee0); ("honeydew3", 0xc1cdc1);
   ("honeydew4", 0x838b83); ("hot pink", 0xff69b4); ("indian red", 0xcd5c5c);
   ("indigo", 0x4b0082); ("ivory", 0xfffff0); ("ivory1", 0xfffff0);
   ("ivory2", 0xeeeee0); ("ivory3", 0xcdcdc1); ("ivory4", 0x8b8b83);
   ("khaki", 0xf0e68c); ("khaki1", 0xfff68f); ("khaki2", 0xeee685);
   ("khaki3", 0xcdc673); ("khaki4", 0x8b864e); ("lavender blush", 0xfff0f5);
   ("lavender", 0xe6e6fa); ("lawn green", 0x7cfc00); ("lemon chiffon", 0xfffacd);
   ("light blue", 0xadd8e6); ("light coral", 0xf08080); ("light cyan", 0xe0ffff);
   ("light goldenrod yellow", 0xfafad2); ("light goldenrod", 0xeedd82); ("light gray", 0xd3d3d3);
   ("light green", 0x90ee90); ("light grey", 0xd3d3d3); ("light pink", 0xffb6c1);
   ("light salmon", 0xffa07a); ("light sea green", 0x20b2aa); ("light sky blue", 0x87cefa);
   ("light slate blue", 0x8470ff); ("light slate gray", 0x778899); ("light slate grey", 0x778899);
   ("light steel blue", 0xb0c4de); ("light yellow", 0xffffe0); ("lime green", 0x32cd32);
   ("lime", 0x00ff00); ("linen", 0xfaf0e6); ("magenta", 0xff00ff);
   ("magenta1", 0xff00ff); ("magenta2", 0xee00ee); ("magenta3", 0xcd00cd);
   ("magenta4", 0x8b008b); ("maroon", 0xb03060); ("maroon1", 0xff34b3);
   ("maroon2", 0xee30a7); ("maroon3", 0xcd2990); ("maroon4", 0x8b1c62);
   ("medium aquamarine", 0x66cdaa); ("medium blue", 0x0000cd); ("medium orchid", 0xba55d3);
   ("medium purple", 0x9370db); ("medium sea green", 0x3cb371); ("medium slate blue", 0x7b68ee);
   ("medium spring green", 0x00fa9a); ("medium turquoise", 0x48d1cc); ("medium violet red", 0xc71585);
   ("midnight blue", 0x191970); ("mint cream", 0xf5fffa); ("misty rose", 0xffe4e1);
   ("moccasin", 0xffe4b5); ("navajo white", 0xffdead); ("navy blue", 0x000080);
   ("navy", 0x000080); ("old lace", 0xfdf5e6); ("olive drab", 0x6b8e23);
   ("olive", 0x808000); ("orange red", 0xff4500); ("orange", 0xffa500);
   ("orange1", 0xffa500); ("orange2", 0xee9a00); ("orange3", 0xcd8500);
   ("orange4", 0x8b5a00); ("orchid", 0xda70d6); ("orchid1", 0xff83fa);
   ("orchid2", 0xee7ae9); ("orchid3", 0xcd69c9); ("orchid4", 0x8b4789);
   ("pale goldenrod", 0xeee8aa); ("pale green", 0x98fb98); ("pale turquoise", 0xafeeee);
   ("pale violet red", 0xdb7093); ("papaya whip", 0xffefd5); ("peach puff", 0xffdab9);
   ("peru", 0xcd853f); ("pink", 0xffc0cb); ("pink1", 0xffb5c5);
   ("pink2", 0xeea9b8); ("pink3", 0xcd919e); ("pink4", 0x8b636c);
   ("plum", 0xdda0dd); ("plum1", 0xffbbff); ("plum2", 0xeeaeee);
   ("plum3", 0xcd96cd); ("plum4", 0x8b668b); ("powder blue", 0xb0e0e6);
   ("purple", 0xa020f0); ("purple1", 0x9b30ff); ("purple2", 0x912cee);
   ("purple3", 0x7d26cd); ("purple4", 0x551a8b); ("rebecca purple", 0x663399);
   ("red", 0xff0000); ("red1", 0xff0000); ("red2", 0xee0000);
   ("red3", 0xcd0000); ("red4", 0x8b0000); ("rosy brown", 0xbc8f8f);
   ("royal blue", 0x4169e1); ("saddle brown", 0x8b4513); ("salmon", 0xfa8072);
   ("salmon1", 0xff8c69); ("salmon2", 0xee8262); ("salmon3", 0xcd7054);
   ("salmon4", 0x8b4c39); ("sandy brown", 0xf4a460); ("sea green", 0x2e8b57);
   ("seashell", 0xfff5ee); ("seashell1", 0xfff5ee); ("seashell2", 0xeee5de);
   ("seashell3", 0xcdc5bf); ("seashell4", 0x8b8682); ("sienna", 0xa0522d);
   ("sienna1", 0xff8247); ("sienna2", 0xee7942); ("sienna3", 0xcd6839);
   ("sienna4", 0x8b4726); ("silver", 0xc0c0c0); ("sky blue", 0x87ceeb);
   ("slate blue", 0x6a5acd); ("slate gray", 0x708090); ("slate grey", 0x708090);
   ("snow", 0xfffafa); ("snow1", 0xfffafa); ("snow2", 0xeee9e9);
   ("snow3", 0xcdc9c9); ("snow4", 0x8b8989); ("spring green", 0x00ff7f);
   ("steel blue", 0x4682b4); ("tan", 0xd2b48c); ("tan1", 0xffa54f);
   ("tan2", 0xee9a49); ("tan3", 0xcd853f); ("tan4", 0x8b5a2b);
   ("teal", 0x008080); ("thistle", 0xd8bfd8); ("thistle1", 0xffe1ff);
   ("thistle2", 0xeed2ee); ("thistle3", 0xcdb5cd); ("thistle4", 0x8b7b8b);
   ("tomato", 0xff6347); ("tomato1", 0xff6347); ("tomato2", 0xee5c42);
   ("tomato3", 0xcd4f39); ("tomato4", 0x8b3626); ("turquoise", 0x40e0d0);
   ("turquoise1", 0x00f5ff); ("turquoise2", 0x00e5ee); ("turquoise3", 0x00c5cd);
   ("turquoise4", 0x00868b); ("violet red", 0xd02090); ("violet", 0xee82ee);
   ("web gray", 0x808080); ("web green", 0x008000); ("web grey", 0x808080);
   ("web maroon", 0x800000); ("web purple", 0x800080); ("wheat", 0xf5deb3);
   ("wheat1", 0xffe7ba); ("wheat2", 0xeed8ae); ("wheat3", 0xcdba96);
   ("wheat4", 0x8b7e66); ("white smoke", 0xf5f5f5); ("white", 0xffffff);
   ("x11 gray", 0xbebebe); ("x11 green", 0x00ff00); ("x11 grey", 0xbebebe);
   ("x11 maroon", 0xb03060); ("x11 purple", 0xa020f0); ("yellow green", 0x9acd32);
   ("yellow", 0xffff00); ("yellow1", 0xffff00); ("yellow2", 0xeeee00);
   ("yellow3", 0xcdcd00); ("yellow4", 0x8b8b00)]%string.

(** [2.55 * c] in double precision ([2.55] is [double_255 / 2 ^ 51]), then
    [round]. *)
Definition double_255 : Z := 5742089524897382.
Definition round_255 (c : Z) : Z :=
  let p := c * double_255 in
  let k := Z.log2 p - 52 in
  let p' := if k <=? 0 then p
            else
              let q := Z.shiftr p k in
              let rest := p - Z.shiftl q k in
              let half := Z.shiftl 1 (k - 1) in
              let up := (half <? rest) || ((rest =? half) && Z.odd q) in
              Z.shiftl (if up then q + 1 else q) k in
  (2 * p' + Z.shiftl 1 51) / Z.shiftl 1 52.

Definition colour_byname (name : string) : Z :=
  match match strip_case "grey" name with Some s => Some s | None => strip_case "gray" name end with
  | Some EmptyString => Z.lor 0xbebebe COLOUR_FLAG_RGB
  | Some s =>
      match strtonum s 0 100 with
      | inl c => let c := round_255 c in
                 if (c <? 0) || (255 <? c) then -1 else colour_join_rgb c c c
      | inr _ => -1
      end
  | None =>
      match find (fun '(n, _) => strcaseeq n name) colour_names with
      | Some (_, c) => Z.lor c COLOUR_FLAG_RGB
      | None => -1
      end
  end.

(** [%2x] and the like: blanks, then at most [width] characters for a sign,
    [0x] and the digits. *)
Fixpoint take_hex (n : nat) (acc : Z) (s : string) : Z * string :=
  match n, s with
  | S n, String c s' =>
      match hex_value c with
      | Some d => take_hex n (acc * 16 + d) s'
      | None => (acc, s)
      end
  | _, _ => (acc, s)
  end.

Definition scan_x (width : nat) (s : string) : option (Z * string) :=
  let s0 := skip_space s in
  let '(neg, s1) := scan_sign s0 in
  let width := match s0 with String "-" _ | String "+" _ => pred width | _ => width end in
  let '(width, s2) :=
    match s1 with
    | String "0" (String "x" s') | String "0" (String "X" s') =>
        if (2 <=? width)%nat then ((width - 2)%nat, s') else (width, s1)
    | _ => (width, s1)
    end in
  match width, hex_value (hd_char s2) with
  | S _, Some _ => let '(v, s3) := take_hex width 0 s2 in
                   Some (u32 (clamp_ulong (if (neg : bool) then - v else v)), s3)
  | _, _ => None
  end.

(** Three numbers between literal characters. *)
Definition scan_three (scan : string -> option (Z * string)) (sep s : string) :
    option (Z * Z * Z) :=
  let lit s := match sep with
               | String c _ => scan_char c s
               | EmptyString => Some s
               end in
  '(r, s) ← scan s; s ← lit s; '(g, s) ← scan s; s ← lit s; '(b, _) ← scan s; Some (r, g, b).

Definition basic_colour (s : string) : option Z :=
  match find (fun '(c, name) => strcaseeq s name ||
                (negb ((c =? 8) || (c =? 9)) && bool_decide (s = fmt_u c))) basic_names with
  | Some (c, _) => Some c
  | None => None
  end.

Definition all_hex (s : string) : bool :=
  forallb (fun c => match hex_value c with Some _ => true | None => false end)
    (list_ascii_of_string s).

Definition colour_fromstring (s : string) : Z :=
  let number rest := match strtonum rest 0 255 with
                     | inl n => Z.lor n COLOUR_FLAG_256
                     | inr _ => -1
                     end in
  match s with
  | String "#" hex =>
      if (String.length s =? 7)%nat then
        if negb (all_hex hex) then -1
        else match scan_three (scan_x 2) "" hex with
             | Some (r, g, b) => colour_join_rgb r g b
             | None => -1
             end
      else colour_byname s
  | _ =>
      match strip_case "colour" s with
      | Some rest => number rest
      | None =>
          match strip_case "color" s with
          | Some rest => number rest
          | None => match basic_colour s with Some c => c | None => colour_byname s end
          end
      end
  end.

(** A literal start of a sscanf format. *)
Fixpoint scan_lit (lit s : string) : option string :=
  match lit with
  | EmptyString => Some s
  | String c lit => s ← scan_char c s; scan_lit lit s
  end.

Fixpoint trim_left (s : string) : string :=
  match s with String " " s' => trim_left s' | _ => s end.
Fixpoint str_rev (acc s : string) : string :=
  match s with EmptyString => acc | String c s => str_rev (String c acc) s end.
Definition trim_right (s : string) : string := str_rev "" (trim_left (str_rev "" s)).

Section X11.
(** The floating-point forms (cmyk: and cmy:), read by the C library: the three
    components that come of them when each number is between 0 and 1. *)
Context (scan_cmyk : string -> option (Z * Z * Z)).

Definition colour_parseX11 (p : string) : Z :=
  let len := String.length p in
  let when b (o : option (Z * Z * Z)) := if (b : bool) then o else None in
  let first (a b : option (Z * Z * Z)) := match a with Some x => Some x | None => b end in
  match first (when (len =? 12)%nat (s ← scan_lit "rgb:" p; scan_three (scan_x 2) "/" s))
       (first (when (len =? 7)%nat (s ← scan_lit "#" p; scan_three (scan_x 2) "" s))
              (scan_three scan_d "," p)) with
  | Some (r, g, b) => colour_join_rgb r g b
  | None =>
      match first (when (len =? 18)%nat (s ← scan_lit "rgb:" p; scan_three (scan_x 4) "/" s))
                  (when (len =? 13)%nat (s ← scan_lit "#" p; scan_three (scan_x 4) "" s)) with
      | Some (r, g, b) => colour_join_rgb (Z.shiftr r 8) (Z.shiftr g 8) (Z.shiftr b 8)
      | None =>
          match scan_cmyk p with
          | Some (r, g, b) => colour_join_rgb r g b
          | None => colour_byname (trim_right (trim_left p))
          end
      end
  end.

End X11.

(** ** Palettes *)

(** The colours a program has changed and those of the options. *)
Record colour_palette := Palette {
  pal_fg : Z;
  pal_bg : Z;
  pal_palette : option (list Z);
  pal_default : option (list Z)
}.

Definition colour_palette_init : colour_palette := Palette 8 8 None None.

Definition colour_palette_clear (p : colour_palette) : colour_palette :=
  Palette 8 8 None (pal_default p).

(** [None] is a read out of the palette: an index that is negative, or above
    255 under the flag. *)
Definition colour_palette_get (p : colour_palette) (n : Z) : option Z :=
  let look n :=
    let entry (l : option (list Z)) :=
      match l with
      | Some l => c ← (if n <? 0 then None else l !! Z.to_nat n); Some c
      | None => Some (-1)
      end in
    c ← entry (pal_palette p);
    if negb (c =? -1) then Some c else entry (pal_default p) in
  if (90 <=? n) && (n <=? 97) then look (8 + n - 90)
  else if has n COLOUR_FLAG_256 then look (without n COLOUR_FLAG_256)
  else if 8 <=? n then Some (-1)
  else look n.

(** Whether the palette was changed, and the palette. *)
Definition colour_palette_set (p : colour_palette) (n c : Z) : bool * colour_palette :=
  if (n <? 0) || (255 <? n) then (false, p)
  else
    match pal_palette p with
    | None =>
        if c =? -1 then (false, p)
        else (true, Palette (pal_fg p) (pal_bg p)
                      (Some (<[Z.to_nat n:=c]> (replicate 256 (-1)))) (pal_default p))
    | Some l => (true, Palette (pal_fg p) (pal_bg p) (Some (<[Z.to_nat n:=c]> l)) (pal_default p))
    end.

(** From the items of the option pane-colours. *)
Definition colour_palette_from_option (items : list (Z * Z)) (p : colour_palette) :
    colour_palette :=
  match items with
  | [] => Palette (pal_fg p) (pal_bg p) (pal_palette p) None
  | _ => Palette (pal_fg p) (pal_bg p) (pal_palette p)
           (Some (foldl (fun l '(n, c) => if n <? 256 then <[Z.to_nat n:=c]> l else l)
                    (replicate 256 (-1)) items))
  end.
