(* ===== verification/Environ.v ===== *)
(** * The environment (src/tmux/options/environ.c)

    The variables of the server, of a session and of a client: a name, a value
    or none (a variable that is removed), and flags.  An environment is the map
    of its entries; the loops over the tree set different names, so their order
    does not matter.  [setenv] and the process are not modelled: what would be
    pushed is a list. *)
From Stdlib Require Import Ascii String.
From S2P Require Import Prelude.
From S2P Require Import CString.

Record environ_entry := EE { ee_value : option string; ee_flags : Z }.
Notation environ := (gmap string environ_entry).

Definition ENVIRON_HIDDEN : Z := 0x1.

Definition environ_create : environ := ∅.
Definition environ_find (env : environ) (name : string) : option environ_entry := env !! name.

Definition environ_set (env : environ) (name : string) (flags : Z) (value : string) : environ :=
  <[name := EE (Some value) flags]> env.

(** An entry that is there keeps its flags. *)
Definition environ_clear (env : environ) (name : string) : environ :=
  match environ_find env name with
  | Some envent => <[name := EE None (ee_flags envent)]> env
  | None => <[name := EE None 0]> env
  end.

Definition copy_entry (p : string * environ_entry) (dstenv : environ) : environ :=
  match ee_value p.2 with
  | None => environ_clear dstenv p.1
  | Some value => environ_set dstenv p.1 (ee_flags p.2) value
  end.
Definition environ_copy (srcenv dstenv : environ) : environ :=
  foldr copy_entry dstenv (map_to_list srcenv).

(** [NAME=VALUE], or nothing. *)
Definition environ_put (env : environ) (var : string) (flags : Z) : environ :=
  match str_cut "=" var with
  | None => env
  | Some (name, value) => environ_set env name flags value
  end.

Definition environ_unset (env : environ) (name : string) : environ := delete name env.

(** The patterns of the option, if it is there; [fnmatch] is the C library's.
    A value that is NULL is printed as such. *)
Definition environ_update (patterns : option (list string)) (fnmatch : string -> string -> bool)
    (src dst : environ) : environ :=
  match patterns with
  | None => dst
  | Some patterns =>
      foldl (fun dst pattern =>
        let found := filter (fun p => fnmatch pattern p.1 = true) (map_to_list src) in
        match found with
        | [] => environ_clear dst pattern
        | _ => foldr (fun p dst => environ_set dst p.1 0 (default "(null)"%string (ee_value p.2))) dst found
        end) dst patterns
  end.

(** What the process gets. *)
Definition pushed (p : string * environ_entry) : Prop :=
  is_Some (ee_value p.2) /\ p.1 <> ""%string /\ Z.land (ee_flags p.2) ENVIRON_HIDDEN = 0.
#[export] Instance pushed_dec p : Decision (pushed p).
Proof. unfold pushed. apply _. Defined.
Definition environ_push (env : environ) : list (string * string) :=
  (fun p => (p.1, default ""%string (ee_value p.2))) <$> filter pushed (map_to_list env).

(** The session's variables, or only the global ones; the options, the version
    and the socket are arguments. *)
Definition environ_for_session (global_environ : environ) (s : option (environ * Z)) (no_TERM : bool)
    (default_terminal getversion socket_path : string) (pid : Z) : environ :=
  let env := environ_copy global_environ environ_create in
  let env := match s with Some (s_environ, _) => environ_copy s_environ env | None => env end in
  let env := if no_TERM then env else
    let env := environ_set env "TERM" 0 default_terminal in
    let env := environ_set env "TERM_PROGRAM" 0 "tmux" in
    let env := environ_set env "TERM_PROGRAM_VERSION" 0 getversion in
    environ_set env "COLORTERM" 0 "truecolor" in
  let idx := match s with Some (_, id) => id | None => -1 end in
  environ_set env "TMUX" 0 (socket_path +:+ "," +:+ fmt_d pid +:+ "," +:+ fmt_d idx)%string.

(** ** What copying gives *)

Lemma copy_entry_lookup p dst name : copy_entry p dst !! name =
  if decide (p.1 = name) then
    match ee_value p.2 with
    | None => Some (EE None (default 0 (ee_flags <$> dst !! name)))
    | Some value => Some (EE (Some value) (ee_flags p.2))
    end
  else dst !! name.
Proof.
  unfold copy_entry, environ_clear, environ_set, environ_find. destruct p as [n [v f]]; cbn [fst snd ee_value ee_flags].
  case_decide as Hn; subst.
  - destruct v; [by rewrite lookup_insert_eq|]. destruct (dst !! name); by rewrite lookup_insert_eq.
  - destruct v; [by rewrite lookup_insert_ne|]. destruct (dst !! n); by rewrite lookup_insert_ne.
Qed.

(** A copied environment overrides: its variables win, its removed variables
    are removed, the others stay. *)
Lemma environ_copy_lookup src dst name : environ_copy src dst !! name =
  match src !! name with
  | None => dst !! name
  | Some (EE None _) => Some (EE None (default 0 (ee_flags <$> dst !! name)))
  | Some (EE (Some value) flags) => Some (EE (Some value) flags)
  end.
Proof.
  unfold environ_copy.
  assert (Hnd : NoDup (map_to_list src).*1) by apply NoDup_fst_map_to_list.
  assert (Hl : forall l, NoDup l.*1 -> foldr copy_entry dst l !! name =
    match (list_to_map l : environ) !! name with
    | None => dst !! name
    | Some (EE None _) => Some (EE None (default 0 (ee_flags <$> dst !! name)))
    | Some (EE (Some value) flags) => Some (EE (Some value) flags)
    end).
  { induction l as [|[n e] l IH]; intros Hd; [done|]. cbn [foldr]. apply NoDup_cons in Hd as [Hn Hd].
    rewrite copy_entry_lookup, list_to_map_cons. cbn [fst snd]. case_decide as E; subst.
    - rewrite lookup_insert_eq. rewrite (IH Hd). rewrite not_elem_of_list_to_map_1 by done.
      by destruct e as [[]].
    - rewrite lookup_insert_ne by done. by apply IH. }
  rewrite Hl by done. by rewrite list_to_map_to_list.
Qed.
