(* ===== verification/CmdLex.v ===== *)
(** * The words of commands (src/tmux/commands/cmd-parse.y, the lexer)

    [yylex] gives the parser its tokens.  The input is a string (a file is read
    the same way by the C library): a buffer of bytes with an offset, and the
    backslashes that were read ahead.  A character is a signed char, so that
    the byte 255 is EOF. *)
From Stdlib Require Import Ascii String.
From S2P Require Import Prelude.
From S2P Require Import CString.
From S2P Require Import Utf8.
From S2P Require Import Locale.
From S2P Require Import Environ.

Definition EOF : Z := -1.

(** ** The state *)

Record cmd_parse_state := PS {
  ps_buf : list Z;
  ps_off : nat;
  ps_condition : bool;
  ps_eol : bool;
  ps_eof : bool;
  ps_file : option string;
  ps_line : Z;
  ps_escapes : Z;
  ps_error : option string
}.

Definition set_off (n : nat) (ps : cmd_parse_state) : cmd_parse_state :=
  PS (ps_buf ps) n (ps_condition ps) (ps_eol ps) (ps_eof ps) (ps_file ps) (ps_line ps) (ps_escapes ps) (ps_error ps).
Definition set_condition (b : bool) (ps : cmd_parse_state) : cmd_parse_state :=
  PS (ps_buf ps) (ps_off ps) b (ps_eol ps) (ps_eof ps) (ps_file ps) (ps_line ps) (ps_escapes ps) (ps_error ps).
Definition set_eol (b : bool) (ps : cmd_parse_state) : cmd_parse_state :=
  PS (ps_buf ps) (ps_off ps) (ps_condition ps) b (ps_eof ps) (ps_file ps) (ps_line ps) (ps_escapes ps) (ps_error ps).
Definition set_eof (b : bool) (ps : cmd_parse_state) : cmd_parse_state :=
  PS (ps_buf ps) (ps_off ps) (ps_condition ps) (ps_eol ps) b (ps_file ps) (ps_line ps) (ps_escapes ps) (ps_error ps).
Definition next_line (ps : cmd_parse_state) : cmd_parse_state :=
  PS (ps_buf ps) (ps_off ps) (ps_condition ps) (ps_eol ps) (ps_eof ps) (ps_file ps) (u32 (ps_line ps + 1))
    (ps_escapes ps) (ps_error ps).
Definition set_escapes (n : Z) (ps : cmd_parse_state) : cmd_parse_state :=
  PS (ps_buf ps) (ps_off ps) (ps_condition ps) (ps_eol ps) (ps_eof ps) (ps_file ps) (ps_line ps) n (ps_error ps).
Definition set_error (e : option string) (ps : cmd_parse_state) : cmd_parse_state :=
  PS (ps_buf ps) (ps_off ps) (ps_condition ps) (ps_eol ps) (ps_eof ps) (ps_file ps) (ps_line ps) (ps_escapes ps) e.

Definition cmd_parse_get_error (file : option string) (line : Z) (error : string) : string :=
  match file with
  | None => error
  | Some file => (file +:+ ":" +:+ fmt_u line +:+ ": " +:+ error)%string
  end.

(** The first error is kept. *)
Definition yyerror (error : string) (ps : cmd_parse_state) : cmd_parse_state :=
  match ps_error ps with
  | Some _ => ps
  | None => set_error (Some (cmd_parse_get_error (ps_file ps) (ps_line ps) error)) ps
  end.

(** ** Characters *)

Definition isdigit (c : Z) : bool := (48 <=? c) && (c <=? 57).
Definition isalnum (c : Z) : bool := isalpha c || isdigit c.
Definition isxdigit (c : Z) : bool := isdigit c || ((65 <=? c) && (c <=? 70)) || ((97 <=? c) && (c <=? 102)).

Definition yylex_is_var (ch : Z) (first : bool) : bool :=
  if ch =? 61 then false
  else if first && isdigit (u8 ch) then false
  else isalnum (u8 ch) || (ch =? 95).

(** [strchr (set, ch) != NULL]: the terminator is found too. *)
Definition in_chars (set : list Z) (ch : Z) : bool := bool_decide (ch = 0) || bool_decide (ch ∈ set).

Definition yylex_getc1 (ps : cmd_parse_state) : Z * cmd_parse_state :=
  match ps_buf ps !! ps_off ps with
  | None => (EOF, ps)
  | Some b => (sbyte b, set_off (S (ps_off ps)) ps)
  end.

Definition yylex_ungetc (ch : Z) (ps : cmd_parse_state) : cmd_parse_state :=
  if (0 <? ps_off ps)%nat && negb (ch =? EOF) then set_off (ps_off ps - 1) ps else ps.

(** The loop over backslashes, each of which is read. *)
Fixpoint getc_loop (fuel : nat) (ps : cmd_parse_state) : option (Z * cmd_parse_state) :=
  match fuel with
  | O => None
  | S fuel =>
      let '(ch, ps) := yylex_getc1 ps in
      if ch =? 92 then getc_loop fuel (set_escapes (u32 (ps_escapes ps + 1)) ps)
      else if (ch =? 10) && (ps_escapes ps mod 2 =? 1) then
        getc_loop fuel (set_escapes (ps_escapes ps - 1) (next_line ps))
      else if negb (ps_escapes ps =? 0) then
        let ps := yylex_ungetc ch ps in Some (92, set_escapes (ps_escapes ps - 1) ps)
      else Some (ch, ps)
  end.

Definition left_to_read (ps : cmd_parse_state) : nat := length (ps_buf ps) - ps_off ps.

Definition yylex_getc (ps : cmd_parse_state) : option (Z * cmd_parse_state) :=
  if negb (ps_escapes ps =? 0) then Some (92, set_escapes (ps_escapes ps - 1) ps)
  else getc_loop (S (left_to_read ps)) ps.

(** More turns than there are characters to read. *)
Definition lex_fuel (ps : cmd_parse_state) : nat := S (S (left_to_read ps + Z.to_nat (ps_escapes ps))).

(** ** Words and formats *)

Definition yylex_get_word (ch : Z) (ps : cmd_parse_state) : option (list Z * cmd_parse_state) :=
  iterate (lex_fuel ps) (fun '(buf, ch, ps) =>
    let buf := buf ++ [u8 ch] in
    r ← yylex_getc ps;
    let '(ch, ps) := r in
    Some (if negb (ch =? EOF) && negb (in_chars [32; 9; 10] ch) then inl (buf, ch, ps)
          else inr (buf, yylex_ungetc ch ps))) ([], ch, ps).

(** [None] for the string: [goto error]. *)
Definition yylex_format (ps : cmd_parse_state) : option (option (list Z) * cmd_parse_state) :=
  iterate (lex_fuel ps) (fun '(buf, brackets, ps) =>
    r ← yylex_getc ps;
    let '(ch, ps) := r in
    if (ch =? EOF) || (ch =? 10) then Some (inr (None, ps))
    else if ch =? 35 then
      r ← yylex_getc ps;
      let '(ch, ps) := r in
      if (ch =? EOF) || (ch =? 10) then Some (inr (None, ps))
      else
        let brackets := if ch =? 123 then brackets + 1 else brackets in
        Some (inl (buf ++ [35; u8 ch], brackets, ps))
    else if (ch =? 125) && negb (brackets =? 0) && (brackets - 1 =? 0) then
      Some (inr (Some (buf ++ [u8 ch]), ps))
    else
      let brackets := if (ch =? 125) && negb (brackets =? 0) then brackets - 1 else brackets in
      Some (inl (buf ++ [u8 ch], brackets, ps))) ([35; 123], 1, ps).

(** ** Tokens *)

Section Tokens.
(** [wctomb] and the home directories of the C library, and the variables. *)
Context (wctomb : Z -> option (list Z)).
Context (home_of : string -> option (list Z)) (own_home : option (list Z)).
Context (global_environ : environ).

Definition escape_letter (ch : Z) : Z :=
  if ch =? 97 then 7 else if ch =? 98 then 8 else if ch =? 101 then 27 else if ch =? 102 then 12
  else if ch =? 115 then 32 else if ch =? 118 then 11 else if ch =? 114 then 13
  else if ch =? 110 then 10 else if ch =? 116 then 9 else ch.

Definition hex_digit_value (c : Z) : Z :=
  if c <=? 57 then c - 48 else if c <=? 70 then c - 55 else c - 87.

(** The digits of [\u] and [\U]; the first component is false for an error. *)
Fixpoint unicode_digits (size : nat) (type : ascii) (acc : Z) (ps : cmd_parse_state) :
    option (option Z * cmd_parse_state) :=
  match size with
  | O => Some (Some acc, ps)
  | S size =>
      r ← yylex_getc ps;
      let '(ch, ps) := r in
      if (ch =? EOF) || (ch =? 10) then Some (None, ps)
      else if negb (isxdigit (u8 ch)) then
        Some (None, yyerror ("invalid \" +:+ String type " argument")%string ps)
      else unicode_digits size type (16 * acc + hex_digit_value ch) ps
  end.

Definition unicode_escape (size : nat) (type : ascii) (buf : list Z) (ps : cmd_parse_state) :
    option (bool * list Z * cmd_parse_state) :=
  r ← unicode_digits size type 0 ps;
  let '(tmp, ps) := r in
  match tmp with
  | None => Some (false, buf, ps)
  | Some tmp =>
      match wctomb tmp with
      | Some (b :: m) => Some (true, buf ++ b :: m, ps)
      | _ => Some (false, buf, yyerror ("invalid \" +:+ String type " argument")%string ps)
      end
  end.

(** After a backslash; the result is true, or false for an error. *)
Definition yylex_token_escape (buf : list Z) (ps : cmd_parse_state) :
    option (bool * list Z * cmd_parse_state) :=
  r ← yylex_getc ps;
  let '(ch, ps) := r in
  let octal c := (48 <=? c) && (c <=? 55) in
  if (52 <=? ch) && (ch <=? 55) then Some (false, buf, yyerror "invalid octal escape" ps)
  else if (48 <=? ch) && (ch <=? 51) then
    r ← yylex_getc ps;
    let '(o2, ps) := r in
    if octal o2 then
      r ← yylex_getc ps;
      let '(o3, ps) := r in
      if octal o3 then
        Some (true, buf ++ [u8 (64 * (ch - 48) + 8 * (o2 - 48) + (o3 - 48))], ps)
      else Some (false, buf, yyerror "invalid octal escape" ps)
    else Some (false, buf, yyerror "invalid octal escape" ps)
  else if ch =? EOF then Some (false, buf, ps)
  else if ch =? 117 then unicode_escape 4 "u" buf ps
  else if ch =? 85 then unicode_escape 8 "U" buf ps
  else Some (true, buf ++ [u8 (escape_letter ch)], ps).

Definition name_max : nat := 1022.

(** After a dollar. *)
Definition yylex_token_variable (buf : list Z) (ps : cmd_parse_state) :
    option (bool * list Z * cmd_parse_state) :=
  r ← yylex_getc ps;
  let '(ch, ps) := r in
  if ch =? EOF then Some (false, buf, ps)
  else
    let brackets := ch =? 123 in
    if negb brackets && negb (yylex_is_var ch true) then
      Some (true, buf ++ [36], yylex_ungetc ch ps)
    else
      r ← iterate (lex_fuel ps) (fun '(name, ps) =>
        r ← yylex_getc ps;
        let '(ch, ps) := r in
        Some (if brackets && (ch =? 125) then inr (Some name, ps)
              else if (ch =? EOF) || negb (yylex_is_var ch false) then
                if negb brackets then inr (Some name, yylex_ungetc ch ps)
                else inr (None, yyerror "invalid environment variable" ps)
              else if Nat.eqb (length name) name_max then
                inr (None, yyerror "environment variable is too long" ps)
              else inl (name ++ [u8 ch], ps))) (if brackets then [] else [u8 ch], ps);
      let '(name, ps) := r in
      match name with
      | None => Some (false, buf, ps)
      | Some name =>
          let value := envent ← environ_find global_environ (string_of_bytes name); ee_value envent in
          Some (true, buf ++ match value with Some v => bytes_of_string v | None => [] end, ps)
      end.

(** After a tilde. *)
Definition yylex_token_tilde (buf : list Z) (ps : cmd_parse_state) :
    option (bool * list Z * cmd_parse_state) :=
  r ← iterate (lex_fuel ps) (fun '(name, ps) =>
    r ← yylex_getc ps;
    let '(ch, ps) := r in
    Some (if (ch =? EOF) || in_chars [47; 32; 9; 10; 34; 39] ch then inr (Some name, yylex_ungetc ch ps)
          else if Nat.eqb (length name) name_max then inr (None, yyerror "user name is too long" ps)
          else inl (name ++ [u8 ch], ps))) ([], ps);
  let '(name, ps) := r in
  match name with
  | None => Some (false, buf, ps)
  | Some name =>
      let home :=
        if bool_decide (name = []) then
          match envent ← environ_find global_environ "HOME"; ee_value envent with
          | Some (String _ _ as v) => Some (bytes_of_string v)
          | _ => own_home
          end
        else home_of (string_of_bytes name) in
      Some (match home with None => (false, buf, ps) | Some h => (true, buf ++ h, ps) end)
  end.

Inductive quotes := START | NONE | DOUBLE_QUOTES | SINGLE_QUOTES.
#[export] Instance quotes_dec : EqDecision quotes.
Proof. solve_decision. Defined.

(** After a newline in quotes: the spaces and the comment that follow are left
    out; the character to go on with. *)
Definition skip_in_quotes (ps : cmd_parse_state) : option (Z * cmd_parse_state) :=
  r ← iterate (lex_fuel ps) (fun ps =>
    r ← yylex_getc ps;
    let '(ch, ps) := r in Some (if (ch =? 32) || (ch =? 9) then inl ps else inr (ch, ps))) ps;
  let '(ch, ps) := r in
  if negb (ch =? 35) then Some (ch, ps)
  else
    r ← yylex_getc ps;
    let '(ch, ps) := r in
    if in_chars [44; 35; 123; 125; 58] ch then Some (35, yylex_ungetc ch ps)
    else
      iterate (lex_fuel ps) (fun ps =>
        r ← yylex_getc ps;
        let '(ch, ps) := r in Some (if negb (ch =? 10) && negb (ch =? EOF) then inl ps else inr (ch, ps))) ps.

(** The buffer, the state of the quotes now and at the last character, the
    character and the input. *)
Definition token_state : Type := list Z * quotes * quotes * Z * cmd_parse_state.

(** One turn; [None] for the token is [goto error]. *)
Definition token_turn (s : token_state) : option (token_state + option (list Z) * cmd_parse_state) :=
  let '(buf, state, last, ch, ps) := s in
  let none := bool_decide (state = NONE) in
  let single := bool_decide (state = SINGLE_QUOTES) in
  let finish := Some (inr (Some buf, yylex_ungetc ch ps)) in
  let after (r : option (bool * list Z * cmd_parse_state)) :=
    r ← r;
    let '(ok, buf, ps) := r in
    if (ok : bool) then r ← yylex_getc ps; Some (inl (buf, state, state, r.1, r.2))
    else Some (inr (None, ps)) in
  let quote q := r ← yylex_getc ps; Some (inl (buf, q, last, r.1, r.2)) in
  if ch =? EOF then finish
  else
    r ← (if none && (ch =? 13) then
           r ← yylex_getc ps;
           Some (if r.1 =? 10 then (10, r.2) else (13, yylex_ungetc r.1 r.2))
         else Some (ch, ps));
    let '(ch, ps) := r in
    if (ch =? 10) && none then Some (inr (Some buf, yylex_ungetc ch ps))
    else
      let ps := if ch =? 10 then next_line ps else ps in
      if none && ((ch =? 32) || (ch =? 9)) then finish
      else if none && ((ch =? 59) || (ch =? 125)) then finish
      else if (ch =? 10) && negb none then
        r ← skip_in_quotes ps; Some (inl (buf ++ [10], state, last, r.1, r.2))
      else if (ch =? 92) && negb single then after (yylex_token_escape buf ps)
      else if (ch =? 126) && negb (bool_decide (last = state)) && negb single then
        after (yylex_token_tilde buf ps)
      else if (ch =? 36) && negb single then after (yylex_token_variable buf ps)
      else if (ch =? 39) && none then quote SINGLE_QUOTES
      else if (ch =? 39) && single then quote NONE
      else if (ch =? 34) && none then quote DOUBLE_QUOTES
      else if (ch =? 34) && bool_decide (state = DOUBLE_QUOTES) then quote NONE
      else
        r ← yylex_getc ps; Some (inl (buf ++ [u8 ch], state, state, r.1, r.2)).

Definition yylex_token (ch : Z) (ps : cmd_parse_state) : option (option (list Z) * cmd_parse_state) :=
  iterate (S (lex_fuel ps)) token_turn ([], NONE, START, ch, ps).

(** ** The tokens of the grammar *)

Inductive token :=
  | TOKEN (s : list Z) | EQUALS (s : list Z) | FORMAT (s : list Z)
  | HIDDEN | IF | ELSE | ELIF | ENDIF | ERROR
  | Char (c : Z)
  | End.

(** [NAME=...]: a name up to the first equals sign. *)
Fixpoint name_then_equals (cp : list Z) : bool :=
  match cp with
  | [] => false
  | c :: cp => if c =? 61 then true else yylex_is_var (sbyte c) false && name_then_equals cp
  end.
Definition is_equals (token : list Z) : bool :=
  match token with
  | c :: cp => bool_decide (61 ∈ token) && yylex_is_var (sbyte c) true && name_then_equals cp
  | [] => false
  end.

(** A word that starts with a per cent sign. *)
Definition percent_token (word : list Z) : bool * token :=
  if forallb (fun c => (c =? 37) || isdigit c) word then (false, TOKEN word)
  else (true,
    if bool_decide (word = bytes_of_string "%hidden") then HIDDEN
    else if bool_decide (word = bytes_of_string "%if") then IF
    else if bool_decide (word = bytes_of_string "%else") then ELSE
    else if bool_decide (word = bytes_of_string "%elif") then ELIF
    else if bool_decide (word = bytes_of_string "%endif") then ENDIF
    else ERROR).

(** A comment up to the end of the line. *)
Definition skip_comment (next : Z) (ps : cmd_parse_state) : option (Z * cmd_parse_state) :=
  iterate (lex_fuel ps) (fun '(next, ps) =>
    if negb (next =? 10) && negb (next =? EOF) then r ← yylex_getc ps; Some (inl (r.1, r.2))
    else Some (inr (next, ps))) (next, ps).

Definition lex_turn (condition : bool) (ps : cmd_parse_state) :
    option (cmd_parse_state + token * cmd_parse_state) :=
  r ← yylex_getc ps;
  let '(ch, ps) := r in
  if ch =? EOF then
    Some (inr (if ps_eof ps then (End, ps) else (Char 10, set_eof true ps)))
  else if (ch =? 32) || (ch =? 9) then Some (inl ps)
  else
    r ← (if ch =? 13 then
           r ← yylex_getc ps;
           Some (if r.1 =? 10 then (10, r.2) else (13, yylex_ungetc r.1 r.2))
         else Some (ch, ps));
    let '(ch, ps) := r in
    if ch =? 10 then Some (inr (Char 10, set_eol true ps))
    else if (ch =? 59) || (ch =? 123) || (ch =? 125) then Some (inr (Char ch, ps))
    else if ch =? 35 then
      r ← yylex_getc ps;
      let '(next, ps) := r in
      if condition && (next =? 123) then
        r ← yylex_format ps;
        Some (inr (match r.1 with Some f => FORMAT (c_string f) | None => ERROR end, r.2))
      else
        r ← skip_comment next ps;
        Some (if r.1 =? 10 then inr (Char 10, next_line r.2) else inl r.2)
    else if ch =? 37 then
      r ← yylex_get_word 37 ps;
      let '(set, t) := percent_token r.1 in
      Some (inr (t, if (set : bool) then set_condition true r.2 else r.2))
    else
      r ← yylex_token ch ps;
      Some (inr (match r.1 with
                 | None => ERROR
                 | Some t => let t := c_string t in if is_equals t then EQUALS t else TOKEN t
                 end, r.2)).

Definition yylex (ps : cmd_parse_state) : option (token * cmd_parse_state) :=
  let ps := if ps_eol ps then next_line ps else ps in
  let ps := set_eol false ps in
  let condition := ps_condition ps in
  let ps := set_condition false ps in
  iterate (lex_fuel ps) (lex_turn condition) ps.

End Tokens.

(** The state at the start of a string. *)
Definition lex_string (buf : list Z) (file : option string) (line : Z) : cmd_parse_state :=
  PS buf 0 false false false file line 0 None.
