(* ===== verification/CmdLexFacts.v ===== *)
(** * Facts about the lexer

    What is still to be read is a stream: the backslashes read ahead and the
    rest of the buffer.  Reading a character takes the first of the stream and
    putting it back restores it. *)
From Stdlib Require Import ZArith Lia Ascii String.
From S2P Require Import Prelude.
From S2P Require Import CString.
From S2P Require Import Utf8.
From S2P Require Import Locale.
From S2P Require Import Environ.
From S2P Require Import CmdLex.

(** Bytes that are not read as the end of the input or of a line. *)
Definition plain_byte (b : Z) : Prop := 0 <= b < 255 /\ b <> 10.

Definition stream (ps : cmd_parse_state) : list Z :=
  replicate (Z.to_nat (ps_escapes ps)) 92 ++ drop (ps_off ps) (ps_buf ps).

(** The last [k] bytes that were read are backslashes. *)
Definition behind (ps : cmd_parse_state) (k : nat) : Prop :=
  (k <= ps_off ps)%nat /\ forall i, (1 <= i <= k)%nat -> ps_buf ps !! (ps_off ps - i)%nat = Some 92.

Record input_ok (ps : cmd_parse_state) : Prop := {
  io_off : (ps_off ps <= length (ps_buf ps))%nat;
  io_escapes : 0 <= ps_escapes ps;
  io_behind : behind ps (Z.to_nat (ps_escapes ps));
  io_plain : Forall plain_byte (drop (ps_off ps) (ps_buf ps));
  io_size : Z.of_nat (length (stream ps)) < 4294967295
}.

(** The buffer and the rest of the state stay. *)
Definition same_input (ps ps' : cmd_parse_state) : Prop :=
  ps_buf ps' = ps_buf ps /\ ps_line ps' = ps_line ps /\ ps_error ps' = ps_error ps /\
  ps_eof ps' = ps_eof ps /\ ps_condition ps' = ps_condition ps /\ ps_eol ps' = ps_eol ps.

Lemma same_input_refl ps : same_input ps ps.
Proof. by split_and!. Qed.

Lemma same_input_trans ps1 ps2 ps3 : same_input ps1 ps2 -> same_input ps2 ps3 -> same_input ps1 ps3.
Proof.
  intros (H1 & H2 & H3 & H4 & H5 & H6) (G1 & G2 & G3 & G4 & G5 & G6). split_and!; congruence.
Qed.

Lemma sbyte_u8 b : 0 <= b < 256 -> u8 (sbyte b) = b.
Proof.
  intros Hb. unfold sbyte, u8. destruct (Z.ltb_spec b 128); [by rewrite Z.mod_small by lia|].
  replace (b - 256) with (b + (-1) * 256) by lia. rewrite Z.mod_add by lia. by rewrite Z.mod_small by lia.
Qed.

Lemma sbyte_eq b c : sbyte b = c -> 0 <= b < 256 -> 0 <= c < 128 -> b = c.
Proof. intros E Hb Hc. unfold sbyte in E. destruct (Z.ltb_spec b 128); lia. Qed.

Lemma sbyte_not_eof b : plain_byte b -> sbyte b <> EOF.
Proof. intros [Hb _]. unfold sbyte, EOF. destruct (Z.ltb_spec b 128); lia. Qed.

(** ** Reading a character *)

Lemma drop_lookup (l : list Z) n b : l !! n = Some b -> drop n l = b :: drop (S n) l.
Proof. intros Hl. by apply drop_S. Qed.

Lemma getc1_some ps b : ps_buf ps !! ps_off ps = Some b ->
  yylex_getc1 ps = (sbyte b, set_off (S (ps_off ps)) ps).
Proof. intros Hb. unfold yylex_getc1. by rewrite Hb. Qed.

(** What reading the byte [b] gives. *)
Definition read_byte (ps : cmd_parse_state) (b : Z) (rest : list Z) (ps' : cmd_parse_state) : Prop :=
  stream ps' = rest /\ input_ok ps' /\ same_input ps ps' /\
  ps_buf ps' !! (ps_off ps' - 1)%nat = Some b /\ (0 < ps_off ps')%nat /\
  (0 < ps_escapes ps' -> behind ps' (S (Z.to_nat (ps_escapes ps')))).

Lemma stream_escape ps : 0 < ps_escapes ps ->
  stream ps = 92 :: stream (set_escapes (ps_escapes ps - 1) ps).
Proof.
  intros He. unfold stream. cbn [set_escapes ps_escapes ps_off ps_buf].
  replace (Z.to_nat (ps_escapes ps)) with (S (Z.to_nat (ps_escapes ps - 1))) by lia. reflexivity.
Qed.

(** One of the backslashes that were read ahead. *)
Lemma read_escape ps : input_ok ps -> 0 < ps_escapes ps ->
  read_byte ps 92 (tail (stream ps)) (set_escapes (ps_escapes ps - 1) ps).
Proof.
  intros [Ho He [Hle Hbe] Hp Hs] Hpos. rewrite (stream_escape ps) in Hs |- * by done. cbn [tail].
  split_and!; [done|split|by split_and!|..]; cbn [set_escapes ps_escapes ps_off ps_buf].
  - done.
  - lia.
  - split; cbn [set_escapes ps_off ps_buf]; [lia|]. intros i Hi. apply Hbe. lia.
  - done.
  - cbn [length] in Hs. lia.
  - apply Hbe. lia.
  - lia.
  - intros _. split; cbn [set_escapes ps_off ps_buf]; [lia|]. intros i Hi. apply Hbe. lia.
Qed.

Lemma read_plain ps b : input_ok ps -> ps_escapes ps = 0 -> ps_buf ps !! ps_off ps = Some b ->
  stream ps = b :: stream (set_off (S (ps_off ps)) ps) /\
  read_byte ps b (tail (stream ps)) (set_off (S (ps_off ps)) ps).
Proof.
  intros [Ho He Hbe Hp Hs] E0 Eb. pose proof (lookup_lt_Some _ _ _ Eb) as Hlt.
  assert (Est : stream ps = b :: stream (set_off (S (ps_off ps)) ps)).
  { unfold stream. cbn [set_off ps_escapes ps_off ps_buf]. rewrite E0. cbn. by apply drop_lookup. }
  split; [done|]. rewrite Est in Hs |- *. cbn [tail]. rewrite (drop_lookup _ _ _ Eb) in Hp.
  apply Forall_cons in Hp as [Hb Hp].
  split_and!; [done|split|by split_and!|..]; cbn [set_off ps_escapes ps_off ps_buf].
  - lia.
  - done.
  - rewrite E0. split; [lia|]. intros i Hi. lia.
  - done.
  - cbn [length] in Hs. lia.
  - by replace (S (ps_off ps) - 1)%nat with (ps_off ps) by lia.
  - lia.
  - lia.
Qed.

(** A backslash more is read ahead: the stream is the same. *)
Lemma read_ahead ps : input_ok ps -> ps_buf ps !! ps_off ps = Some 92 ->
  let ps1 := set_escapes (u32 (ps_escapes ps + 1)) (set_off (S (ps_off ps)) ps) in
  stream ps1 = stream ps /\ input_ok ps1 /\ same_input ps ps1 /\ (left_to_read ps1 < left_to_read ps)%nat.
Proof.
  intros [Ho He [Hle Hbe] Hp Hs] Eb ps1. pose proof (lookup_lt_Some _ _ _ Eb) as Hlt.
  pose proof (drop_lookup _ _ _ Eb) as Ed.
  assert (Hsz : ps_escapes ps + 1 < 4294967296).
  { unfold stream in Hs. rewrite length_app, length_replicate in Hs. lia. }
  assert (Eu : u32 (ps_escapes ps + 1) = ps_escapes ps + 1) by (apply u32_small; lia).
  assert (Est : stream ps1 = stream ps).
  { unfold stream, ps1. cbn [set_escapes set_off ps_escapes ps_off ps_buf]. rewrite Ed, Eu.
    replace (Z.to_nat (ps_escapes ps + 1)) with (Z.to_nat (ps_escapes ps) + 1)%nat by lia.
    by rewrite replicate_add, <- app_assoc. }
  rewrite Ed in Hp. apply Forall_cons in Hp as [_ Hp].
  split; [done|]. split; [split|split; [by split_and!|]];
    unfold ps1; cbn [set_escapes set_off ps_escapes ps_off ps_buf]; rewrite ?Eu.
  - lia.
  - lia.
  - split; cbn [set_escapes set_off ps_off ps_buf]; [lia|]. intros i Hi.
    destruct (decide (i = 1%nat)) as [->|].
    + by replace (S (ps_off ps) - 1)%nat with (ps_off ps) by lia.
    + replace (S (ps_off ps) - i)%nat with (ps_off ps - (i - 1))%nat by lia. apply Hbe. lia.
  - done.
  - rewrite <- Est in Hs. unfold ps1 in Hs. by rewrite Eu in Hs.
  - unfold left_to_read. cbn [set_escapes set_off ps_off ps_buf]. lia.
Qed.

Lemma read_byte_from ps ps1 b rest ps' : same_input ps ps1 -> read_byte ps1 b rest ps' -> read_byte ps b rest ps'.
Proof.
  intros Hs (H1 & H2 & H3 & H4). split; [done|split; [done|split; [by eapply same_input_trans|done]]].
Qed.

Lemma getc_loop_ok fuel ps : input_ok ps -> (left_to_read ps < fuel)%nat ->
  match stream ps with
  | [] => getc_loop fuel ps = Some (EOF, ps)
  | b :: rest => exists ps', getc_loop fuel ps = Some (sbyte b, ps') /\ read_byte ps b rest ps'
  end.
Proof.
  revert ps. induction fuel as [|fuel IH]; intros ps Hok Hf; [lia|]. cbn [getc_loop].
  pose proof Hok as [Ho He _ Hp _]. unfold yylex_getc1.
  destruct (ps_buf ps !! ps_off ps) as [b|] eqn:Eb.
  - assert (Hb : plain_byte b).
    { rewrite (drop_lookup _ _ _ Eb) in Hp. by apply Forall_cons in Hp as [Hb _]. }
    pose proof Hb as [Hb1 Hb2]. destruct (Z.eqb_spec (sbyte b) 92) as [E92|H92].
    + apply sbyte_eq in E92; [|lia|lia]. subst b.
      destruct (read_ahead ps Hok Eb) as (Est & Hok1 & Hsame & Hlt).
      specialize (IH _ Hok1 ltac:(lia)). rewrite Est in IH. cbn [set_off ps_escapes] in IH |- *.
      destruct (stream ps) as [|c rest] eqn:Es.
      * exfalso. unfold stream in Es. apply app_eq_nil in Es as [_ Es].
        by rewrite (drop_lookup _ _ _ Eb) in Es.
      * destruct IH as (ps' & E & Hr). exists ps'. split; [exact E|]. by eapply read_byte_from.
    + destruct (Z.eqb_spec (sbyte b) 10) as [E10|_]; [apply sbyte_eq in E10; lia|]. cbn [andb].
      cbn [set_off ps_escapes]. destruct (Z.eqb_spec (ps_escapes ps) 0) as [E0|Hne]; cbn [negb].
      * destruct (read_plain ps b Hok E0 Eb) as [Est Hr]. rewrite Est in Hr |- *. eauto.
      * pose proof (read_escape ps Hok ltac:(lia)) as Hr. rewrite stream_escape in Hr |- * by lia.
        eexists. split; [|exact Hr]. unfold yylex_ungetc. cbn [set_off ps_off].
        rewrite (proj2 (Z.eqb_neq _ _)) by (by apply sbyte_not_eof). cbn [andb negb Nat.ltb Nat.leb].
        do 2 f_equal. unfold set_escapes, set_off. cbn. f_equal. lia.
  - assert (Est : stream ps = replicate (Z.to_nat (ps_escapes ps)) 92).
    { unfold stream. rewrite drop_ge, app_nil_r; [done|]. by apply lookup_ge_None_1. }
    cbn [Z.eqb EOF andb]. destruct (Z.eqb_spec (ps_escapes ps) 0) as [E0|Hne]; cbn [negb].
    + rewrite Est, E0. done.
    + pose proof (read_escape ps Hok ltac:(lia)) as Hr. rewrite stream_escape in Hr |- * by lia.
      eexists. split; [|exact Hr]. unfold yylex_ungetc. by rewrite andb_false_r.
Qed.

Lemma getc_ok ps : input_ok ps ->
  match stream ps with
  | [] => yylex_getc ps = Some (EOF, ps)
  | b :: rest => exists ps', yylex_getc ps = Some (sbyte b, ps') /\ read_byte ps b rest ps'
  end.
Proof.
  intros Hok. unfold yylex_getc. destruct (Z.eqb_spec (ps_escapes ps) 0) as [E0|Hne]; cbn [negb].
  - by apply getc_loop_ok; [|lia].
  - pose proof (read_escape ps Hok) as Hr. destruct Hok as [Ho He Hbe Hp Hs].
    specialize (Hr ltac:(lia)). rewrite stream_escape in Hr |- * by lia. eexists. split; [done|]. exact Hr.
Qed.

(** Putting a character back that was just read. *)
Lemma ungetc_ok ps b rest ps' : plain_byte b -> read_byte ps b rest ps' ->
  Z.of_nat (length (b :: rest)) < 4294967295 ->
  stream (yylex_ungetc (sbyte b) ps') = b :: rest /\ input_ok (yylex_ungetc (sbyte b) ps') /\
  same_input ps (yylex_ungetc (sbyte b) ps').
Proof.
  intros Hb (Hst & Hok & Hsame & Eb & Hpos & Hmore) Hsz. unfold yylex_ungetc.
  rewrite (proj2 (Nat.ltb_lt _ _)), (proj2 (Z.eqb_neq _ _)) by (done || by apply sbyte_not_eof).
  cbn [andb negb]. destruct Hok as [Ho He [Hle Hbe] Hp Hs].
  pose proof (drop_lookup _ _ _ Eb) as Ed. replace (S (ps_off ps' - 1)) with (ps_off ps') in Ed by lia.
  assert (Est : stream (set_off (ps_off ps' - 1) ps') = b :: rest).
  { rewrite <- Hst. unfold stream. cbn [set_off ps_escapes ps_off ps_buf]. rewrite Ed.
    destruct (decide (ps_escapes ps' = 0)) as [->|Hne]; [done|].
    destruct (Hmore ltac:(lia)) as [_ Hall]. specialize (Hall 1%nat ltac:(lia)).
    assert (b = 92) as -> by congruence.
    change (92 :: replicate (Z.to_nat (ps_escapes ps')) 92 ++ drop (ps_off ps') (ps_buf ps'))
      with (replicate (S (Z.to_nat (ps_escapes ps'))) 92 ++ drop (ps_off ps') (ps_buf ps')).
    replace (S (Z.to_nat (ps_escapes ps'))) with (Z.to_nat (ps_escapes ps') + 1)%nat by lia.
    by rewrite replicate_add, <- app_assoc. }
  split; [done|]. split; [split|destruct Hsame as (H1 & H2 & H3 & H4 & H5 & H6); by split_and!];
    cbn [set_off ps_escapes ps_off ps_buf].
  - lia.
  - done.
  - split; cbn [set_off ps_off ps_buf].
    + destruct (decide (ps_escapes ps' = 0)) as [->|Hne]; [lia|].
      destruct (Hmore ltac:(lia)) as [Hl _]. lia.
    + intros i Hi. destruct (Hmore ltac:(lia)) as [_ Hall].
      replace (ps_off ps' - 1 - i)%nat with (ps_off ps' - S i)%nat by lia. apply Hall. lia.
  - rewrite Ed. by constructor.
  - by rewrite Est.
Qed.

(** ** Words

    The loop of yylex_token, one turn at a time: ordinary characters, escapes
    and dollars, inside quotes and outside.  A [cursor] is a character just read
    together with the stream it was the head of. *)

(** ** Cursors *)

Definition cursor (orig : cmd_parse_state) (l : list Z) (ch : Z) (ps : cmd_parse_state) : Prop :=
  exists ps0, input_ok ps0 /\ same_input orig ps0 /\ stream ps0 = l /\ yylex_getc ps0 = Some (ch, ps).

Lemma stream_plain ps : input_ok ps -> Forall plain_byte (stream ps).
Proof.
  intros [_ _ _ Hp _]. unfold stream. apply Forall_app; split; [|done].
  apply Forall_forall. intros x [-> _]%elem_of_replicate. by unfold plain_byte.
Qed.

Lemma cursor_next orig ps : input_ok ps -> same_input orig ps ->
  exists ch ps', yylex_getc ps = Some (ch, ps') /\ cursor orig (stream ps) ch ps'.
Proof.
  intros Hok Hs. pose proof (getc_ok ps Hok) as H. destruct (stream ps) as [|b rest] eqn:E.
  - exists EOF, ps. split; [done|]. by exists ps.
  - destruct H as (ps' & E' & _). exists (sbyte b), ps'. split; [done|]. by exists ps.
Qed.

Lemma cursor_cons orig b rest ch ps : cursor orig (b :: rest) ch ps ->
  ch = sbyte b /\ plain_byte b /\ input_ok ps /\ same_input orig ps /\ stream ps = rest.
Proof.
  intros (ps0 & Hok & Hs & E & G). pose proof (getc_ok ps0 Hok) as H. rewrite E in H.
  destruct H as (ps' & E' & Hst & Hok' & Hsame & _). rewrite G in E'. injection E' as -> ->.
  pose proof (stream_plain ps0 Hok) as Hp. rewrite E in Hp. apply Forall_cons in Hp as [Hb _].
  split_and!; [done..| |done]. by eapply same_input_trans.
Qed.

Lemma cursor_nil orig ch ps : cursor orig [] ch ps ->
  ch = EOF /\ input_ok ps /\ same_input orig ps /\ stream ps = [].
Proof.
  intros (ps0 & Hok & Hs & E & G). pose proof (getc_ok ps0 Hok) as H. rewrite E in H.
  rewrite G in H. injection H as -> ->. done.
Qed.

Lemma cursor_unget orig l ch ps : cursor orig l ch ps ->
  input_ok (yylex_ungetc ch ps) /\ same_input orig (yylex_ungetc ch ps) /\ stream (yylex_ungetc ch ps) = l.
Proof.
  intros (ps0 & Hok & Hs & E & G). pose proof (getc_ok ps0 Hok) as H. destruct l as [|b rest]; rewrite E in H.
  - rewrite G in H. injection H as -> ->. unfold yylex_ungetc. by rewrite andb_false_r.
  - destruct H as (ps' & E' & Hr). rewrite G in E'. injection E' as -> ->.
    pose proof (stream_plain ps0 Hok) as Hp. rewrite E in Hp. apply Forall_cons in Hp as [Hb _].
    destruct (ungetc_ok ps0 b rest ps' Hb Hr) as (H1 & H2 & H3); [rewrite <- E; apply Hok|].
    split_and!; [done| |done]. by eapply same_input_trans.
Qed.

Lemma sbyte_eqb b k : 0 <= b < 256 -> 0 <= k < 128 -> (sbyte b =? k) = (b =? k).
Proof.
  intros Hb Hk. apply eq_true_iff_eq. rewrite !Z.eqb_eq. split; [by intros; apply sbyte_eq|].
  intros ->. unfold sbyte. by rewrite (proj2 (Z.ltb_lt _ _)) by lia.
Qed.

Lemma sbyte_ascii b : 0 <= b < 128 -> sbyte b = b.
Proof. intros Hb. unfold sbyte. by rewrite (proj2 (Z.ltb_lt _ _)) by lia. Qed.

(** ** Turns *)

(** The tests on the state of the quotes, where it is known. *)
Ltac quotes_eval := repeat match goal with
  | |- context [bool_decide (?a = ?b :> quotes)] =>
      first [rewrite (bool_decide_eq_true_2 (a = b)) by done | rewrite (bool_decide_eq_false_2 (a = b)) by done]
  end.

Section Words.
Context (wctomb : Z -> option (list Z)).
Context (home_of : string -> option (list Z)) (own_home : option (list Z)).
Context (global_environ : environ).
Notation turn := (token_turn wctomb home_of own_home global_environ).

(** Characters that stand for themselves. *)
Definition ordinary (q : quotes) (b : Z) : Prop :=
  match q with
  | DOUBLE_QUOTES => b <> 92 /\ b <> 36 /\ b <> 34
  | SINGLE_QUOTES => b <> 39
  | _ => b <> 13 /\ b <> 32 /\ b <> 9 /\ b <> 59 /\ b <> 125 /\ b <> 92 /\ b <> 36 /\ b <> 39 /\ b <> 34
  end.

(** A tilde is expanded where the quotes have just changed. *)
Definition tilde_safe (q last : quotes) (l : list Z) : Prop :=
  last = q \/ q = SINGLE_QUOTES \/ head l <> Some 126.

Lemma turn_plain orig b rest ch ps buf q last : cursor orig (b :: rest) ch ps -> q <> START ->
  ordinary q b -> tilde_safe q last (b :: rest) ->
  exists ch' ps', turn (buf, q, last, ch, ps) = Some (inl (buf ++ [b], q, q, ch', ps')) /\
    cursor orig rest ch' ps'.
Proof.
  intros Hc Hq Ho Ht. apply cursor_cons in Hc as (-> & Hb & Hok & Hs & Est).
  destruct (cursor_next orig ps Hok Hs) as (ch' & ps' & E & Hc). rewrite Est in Hc.
  exists ch', ps'. split; [|done]. destruct Hb as [Hb Hnl].
  assert (Heof : (sbyte b =? EOF) = false) by (apply Z.eqb_neq, sbyte_not_eof; done).
  assert (Hk : forall k, b <> k -> 0 <= k < 128 -> (sbyte b =? k) = false).
  { intros k Hk1 Hk2. rewrite sbyte_eqb by lia. by apply Z.eqb_neq. }
  assert (Htil : (sbyte b =? 126) && negb (bool_decide (last = q)) && negb (bool_decide (q = SINGLE_QUOTES)) = false).
  { destruct Ht as [->|[->|Ht]]; rewrite ?bool_decide_eq_true_2, ?andb_false_r by done; [done..|].
    rewrite Hk; [done| |lia]. intros ->. by apply Ht. }
  clear Ht.
  unfold token_turn. cbv zeta. rewrite Heof.
  destruct q; [done|..]; cbn [ordinary] in Ho; quotes_eval;
    [rewrite (Hk 13) by lia|..]; cbn [andb negb mbind option_bind];
    rewrite (Hk 10), ?andb_false_r, ?andb_true_r by lia; cbn [andb orb negb];
    (rewrite andb_true_r in Htil || idtac); rewrite ?Htil;
    repeat match goal with |- context [sbyte b =? ?k] => rewrite (Hk k) by lia end;
    cbn [andb orb negb]; rewrite E; cbn [mbind option_bind fst snd]; by rewrite sbyte_u8 by lia.
Qed.

(** One of the characters that end or change what follows. *)
Lemma turn_special orig b rest ch ps buf q last : cursor orig (b :: rest) ch ps -> q <> START ->
  b = 92 \/ b = 36 \/ b = 34 \/ b = 39 ->
  turn (buf, q, last, ch, ps) =
    let after r :=
      r ← r;
      let '(ok, buf, ps) := r in
      if (ok : bool) then r ← yylex_getc ps; Some (inl (buf, q, q, r.1, r.2)) else Some (inr (None, ps)) in
    let quote q := r ← yylex_getc ps; Some (inl (buf, q, last, r.1, r.2)) in
    let plain := r ← yylex_getc ps; Some (inl (buf ++ [b], q, q, r.1, r.2)) in
    match q with
    | SINGLE_QUOTES => if b =? 39 then quote NONE else plain
    | _ =>
        if b =? 92 then after (yylex_token_escape wctomb buf ps)
        else if b =? 36 then after (yylex_token_variable global_environ buf ps)
        else match q with
             | DOUBLE_QUOTES => if b =? 34 then quote NONE else plain
             | _ => if b =? 39 then quote SINGLE_QUOTES else quote DOUBLE_QUOTES
             end
    end.
Proof.
  intros Hc Hq Hb. apply cursor_cons in Hc as (-> & _ & _). unfold token_turn. cbv zeta.
  destruct q; [done|..]; quotes_eval; rewrite ?andb_false_r, ?andb_true_r;
    destruct Hb as [-> | [-> | [-> | ->]]]; reflexivity.
Qed.

Lemma turn_quote orig q q' rest ch ps buf last b : cursor orig (b :: rest) ch ps ->
  (q, b, q') ∈ [(NONE, 34, DOUBLE_QUOTES); (DOUBLE_QUOTES, 34, NONE);
                (NONE, 39, SINGLE_QUOTES); (SINGLE_QUOTES, 39, NONE)] ->
  exists ch' ps', turn (buf, q, last, ch, ps) = Some (inl (buf, q', last, ch', ps')) /\
    cursor orig rest ch' ps'.
Proof.
  intros Hc Hin. pose proof (cursor_cons _ _ _ _ _ Hc) as (_ & _ & Hok & Hs & Est).
  destruct (cursor_next orig ps Hok Hs) as (ch' & ps' & E & Hc'). rewrite Est in Hc'. exists ch', ps'.
  split; [|done]. rewrite !elem_of_cons, elem_of_nil in Hin.
  repeat destruct Hin as [Hin|Hin]; [injection Hin as -> -> ->..|done];
    (rewrite (turn_special orig _ _ _ _ _ _ _ Hc) by (done || lia)); cbn; by rewrite E.
Qed.

(** A backslash and a character that is not a digit and begins no number. *)
Lemma turn_escape orig c rest ch ps buf q last : cursor orig (92 :: c :: rest) ch ps ->
  q <> START -> q <> SINGLE_QUOTES -> 0 <= c < 128 -> ~ (48 <= c <= 55) -> c <> 117 -> c <> 85 ->
  exists ch' ps', turn (buf, q, last, ch, ps) = Some (inl (buf ++ [u8 (escape_letter c)], q, q, ch', ps')) /\
    cursor orig rest ch' ps'.
Proof.
  intros Hc Hq Hq' Hc1 Hd Hu HU. pose proof (cursor_cons _ _ _ _ _ Hc) as (_ & _ & Hok & Hs & Est).
  destruct (cursor_next orig ps Hok Hs) as (c1 & ps1 & E1 & Hcur). rewrite Est in Hcur.
  pose proof (cursor_cons _ _ _ _ _ Hcur) as (-> & _ & Hok1 & Hs1 & Est1).
  destruct (cursor_next orig ps1 Hok1 Hs1) as (c2 & ps2 & E2 & Hcur2). rewrite Est1 in Hcur2.
  exists c2, ps2. split; [|done]. rewrite (turn_special orig _ _ _ _ _ _ _ Hc) by (done || lia).
  assert (Ee : yylex_token_escape wctomb buf ps = Some (true, buf ++ [u8 (escape_letter c)], ps1)).
  { unfold yylex_token_escape. rewrite E1. cbn [mbind option_bind]. rewrite sbyte_ascii by done. cbv zeta.
    unfold EOF. rewrite (proj2 (andb_false_iff (52 <=? c) _)), (proj2 (andb_false_iff (48 <=? c) _)) by
      (rewrite !Z.leb_gt; lia).
    by rewrite !(proj2 (Z.eqb_neq c _)) by lia. }
  destruct q; [done| | |done]; cbv zeta; cbn [Z.eqb Pos.eqb]; rewrite Ee; cbn [mbind option_bind]; by rewrite E2.
Qed.

(** A backslash and three octal digits. *)
Lemma turn_octal orig o1 o2 o3 rest ch ps buf q last :
  cursor orig (92 :: 48 + o1 :: 48 + o2 :: 48 + o3 :: rest) ch ps ->
  q <> START -> q <> SINGLE_QUOTES -> 0 <= o1 <= 3 -> 0 <= o2 <= 7 -> 0 <= o3 <= 7 ->
  exists ch' ps', turn (buf, q, last, ch, ps) =
    Some (inl (buf ++ [64 * o1 + 8 * o2 + o3], q, q, ch', ps')) /\ cursor orig rest ch' ps'.
Proof.
  intros Hc Hq Hq' H1 H2 H3. pose proof (cursor_cons _ _ _ _ _ Hc) as (_ & _ & Hok & Hs & Est).
  destruct (cursor_next orig ps Hok Hs) as (c1 & ps1 & E1 & Hc1). rewrite Est in Hc1.
  pose proof (cursor_cons _ _ _ _ _ Hc1) as (-> & _ & Hok1 & Hs1 & Est1).
  destruct (cursor_next orig ps1 Hok1 Hs1) as (c2 & ps2 & E2 & Hc2). rewrite Est1 in Hc2.
  pose proof (cursor_cons _ _ _ _ _ Hc2) as (-> & _ & Hok2 & Hs2 & Est2).
  destruct (cursor_next orig ps2 Hok2 Hs2) as (c3 & ps3 & E3 & Hc3). rewrite Est2 in Hc3.
  pose proof (cursor_cons _ _ _ _ _ Hc3) as (-> & _ & Hok3 & Hs3 & Est3).
  destruct (cursor_next orig ps3 Hok3 Hs3) as (c4 & ps4 & E4 & Hc4). rewrite Est3 in Hc4.
  exists c4, ps4. split; [|done]. rewrite (turn_special orig _ _ _ _ _ _ _ Hc) by (done || lia).
  assert (Ee : yylex_token_escape wctomb buf ps = Some (true, buf ++ [64 * o1 + 8 * o2 + o3], ps3)).
  { unfold yylex_token_escape. rewrite E1. cbn [mbind option_bind]. cbv zeta.
    rewrite E2. cbn [mbind option_bind]. rewrite E3. cbn [mbind option_bind].
    rewrite !sbyte_ascii by lia.
    rewrite (proj2 (andb_false_iff (52 <=? 48 + o1) _)) by (rewrite !Z.leb_gt; lia).
    rewrite !(proj2 (andb_true_iff _ _)) by (rewrite !Z.leb_le; lia).
    rewrite u8_small by lia. repeat first [lia | f_equal]. }
  destruct q; [done| | |done]; cbv zeta; cbn [Z.eqb Pos.eqb]; rewrite Ee; cbn [mbind option_bind]; by rewrite E4.
Qed.

(** A dollar before a character that begins no name. *)
Lemma turn_dollar orig c rest ch ps buf q last : cursor orig (36 :: c :: rest) ch ps ->
  q <> START -> q <> SINGLE_QUOTES -> c <> 123 -> yylex_is_var (sbyte c) true = false ->
  exists ch' ps', turn (buf, q, last, ch, ps) = Some (inl (buf ++ [36], q, q, ch', ps')) /\
    cursor orig (c :: rest) ch' ps'.
Proof.
  intros Hc Hq Hq' H123 Hv. pose proof (cursor_cons _ _ _ _ _ Hc) as (_ & _ & Hok & Hs & Est).
  destruct (cursor_next orig ps Hok Hs) as (c1 & ps1 & E1 & Hc1). rewrite Est in Hc1.
  pose proof (cursor_unget _ _ _ _ Hc1) as (Hok1 & Hs1 & Est1).
  destruct (cursor_next orig _ Hok1 Hs1) as (c2 & ps2 & E2 & Hc2). rewrite Est1 in Hc2.
  exists c2, ps2. split; [|done]. rewrite (turn_special orig _ _ _ _ _ _ _ Hc) by (done || lia).
  pose proof (cursor_cons _ _ _ _ _ Hc1) as (-> & Hb & _).
  assert (Ee : yylex_token_variable global_environ buf ps = Some (true, buf ++ [36], yylex_ungetc (sbyte c) ps1)).
  { unfold yylex_token_variable. rewrite E1. cbn [mbind option_bind].
    rewrite (proj2 (Z.eqb_neq (sbyte c) EOF)) by (by apply sbyte_not_eof).
    destruct Hb as [Hb _]. rewrite sbyte_eqb by lia. rewrite (proj2 (Z.eqb_neq c 123)) by done. cbv zeta.
    by rewrite Hv. }
  destruct q; [done| | |done]; cbv zeta; cbn [Z.eqb Pos.eqb]; rewrite Ee; cbn [mbind option_bind]; by rewrite E2.
Qed.

(** The end of a word. *)
Definition ends_word (l : list Z) : Prop := match l with [] => True | b :: _ => b = 32 \/ b = 59 end.

Lemma turn_end orig l ch ps buf last : cursor orig l ch ps -> ends_word l ->
  turn (buf, NONE, last, ch, ps) = Some (inr (Some buf, yylex_ungetc ch ps)).
Proof.
  intros Hc Hl. destruct l as [|b rest].
  - apply cursor_nil in Hc as (-> & _). reflexivity.
  - apply cursor_cons in Hc as (-> & _). destruct Hl as [-> | ->]; reflexivity.
Qed.
End Words.
