(* ===== verification/Arguments.v ===== *)
(** * Arguments of commands (src/tmux/core/arguments.c, and printing in
    commands/cmd.c)

    Flags, each with how often it was given and its values, and the arguments
    after them.  A value is a string or a list of commands, which have arguments
    of their own.  Strings are their bytes. *)
From Stdlib Require Import Ascii String.
From S2P Require Import Prelude.
From S2P Require Import CString.
From S2P Require Import Utf8.
From S2P Require Import Locale.
From S2P Require Import CmdLex.

(** ** Data *)

(** What kind an argument of a command is. *)
Inductive args_parse_type :=
  | ARGS_PARSE_INVALID | ARGS_PARSE_STRING | ARGS_PARSE_COMMANDS_OR_STRING | ARGS_PARSE_COMMANDS.

(** The callbacks that say what kind each argument is (functions in the files of
    their commands, CmdTable). *)
Inductive args_callback :=
  | cmd_bind_key_args_parse | cmd_choose_tree_args_parse | cmd_command_prompt_args_parse
  | cmd_confirm_before_args_parse | cmd_display_menu_args_parse | cmd_display_panes_args_parse
  | cmd_if_shell_args_parse | cmd_run_shell_args_parse | cmd_set_option_args_parse.

(** What a command accepts: its flags ("a" without, "b:" with and "c::" with
    or without a value) and the number of arguments; -1 is no limit. *)
Record args_parse_spec := AP {
  ap_template : list Z;
  ap_lower : Z;
  ap_upper : Z;
  ap_cb : option args_callback
}.

Inductive cmd_find_type := CMD_FIND_PANE | CMD_FIND_WINDOW | CMD_FIND_SESSION.

(** The flag that names a source or a target. *)
Record cmd_entry_flag := EF { ef_flag : Z; ef_type : cmd_find_type; ef_flags : Z }.

Record cmd_entry := CE {
  ce_name : list Z;
  ce_alias : option (list Z);
  ce_args : args_parse_spec;
  ce_usage : list Z;
  ce_source : cmd_entry_flag;
  ce_target : cmd_entry_flag;
  ce_flags : Z
}.

Inductive args_value :=
  | ARGS_NONE
  | ARGS_STRING (string : list Z)
  | ARGS_COMMANDS (cmdlist : cmd_list)
with args_entry := AE (flag : Z) (values : list args_value) (count : Z) (flags : Z)
with cmd := Cmd (entry : cmd_entry) (group : Z) (file : option (list Z)) (line : Z) (parse_flags : Z)
                (tree : list args_entry) (values : list args_value)
with cmd_list := CmdList (group : Z) (list : list cmd).

Definition ae_flag (e : args_entry) : Z := let '(AE flag _ _ _) := e in flag.
Definition ae_values (e : args_entry) : list args_value := let '(AE _ values _ _) := e in values.
Definition ae_count (e : args_entry) : Z := let '(AE _ _ count _) := e in count.
Definition ae_flags (e : args_entry) : Z := let '(AE _ _ _ flags) := e in flags.
Definition ARGS_ENTRY_OPTIONAL_VALUE : Z := 0x1.
Definition is_optional (e : args_entry) : bool := negb (Z.land (ae_flags e) ARGS_ENTRY_OPTIONAL_VALUE =? 0).

(** The tree in the order of the flags, and the arguments. *)
Record args := Args { args_tree : list args_entry; args_list : list args_value }.

Definition args_create : args := Args [] [].
Definition args_count (a : args) : Z := Z.of_nat (length (args_list a)).

Definition args_find (tree : list args_entry) (flag : Z) : option args_entry :=
  find (fun e => ae_flag e =? flag) tree.

(** ** Setting and getting *)

Definition new_values (value : option args_value) : list args_value :=
  match value with Some ARGS_NONE | None => [] | Some v => [v] end.

(** An entry that is there is counted and keeps its flags; a new one goes to
    its place in the tree. *)
Fixpoint tree_set (tree : list args_entry) (flag : Z) (value : option args_value) (flags : Z) :
    list args_entry :=
  match tree with
  | [] => [AE flag (new_values value) 1 flags]
  | AE f values count fl as e :: tree' =>
      if f =? flag then AE f (values ++ new_values value) (u32 (count + 1)) fl :: tree'
      else if flag <? f then AE flag (new_values value) 1 flags :: tree
      else e :: tree_set tree' flag value flags
  end.
Definition args_set (a : args) (flag : Z) (value : option args_value) (flags : Z) : args :=
  Args (tree_set (args_tree a) flag value flags) (args_list a).

Definition args_has (a : args) (flag : Z) : Z :=
  match args_find (args_tree a) flag with None => 0 | Some e => ae_count e end.

(** The string of the last value; of a list of commands the union has no
    string ([Undef]). *)
Definition args_get (a : args) (flag : Z) : res (option (list Z)) :=
  match args_find (args_tree a) flag with
  | None => Ok None
  | Some e => match last (ae_values e) with
              | None => Ok None
              | Some (ARGS_STRING s) => Ok (Some s)
              | Some _ => Undef
              end
  end.

Definition args_first_value (a : args) (flag : Z) : option args_value :=
  e ← args_find (args_tree a) flag; head (ae_values e).

Definition args_value_at (a : args) (idx : Z) : option args_value := args_list a !! Z.to_nat idx.

(** A number, or the cause. *)
Definition args_strtonum (a : args) (flag minval maxval : Z) : Z + string :=
  match args_find (args_tree a) flag with
  | None => inr "missing"%string
  | Some e => match last (ae_values e) with
              | Some (ARGS_STRING s) => strtonum (string_of_bytes s) minval maxval
              | _ => inr "missing"%string
              end
  end.

(** ** Parsing *)

(** The bytes after the first [c]: [strchr] and one further. *)
Fixpoint after_char (c : Z) (l : list Z) : option (list Z) :=
  match l with [] => None | x :: l => if x =? c then Some l else after_char c l end.

Definition flag_cause (before : string) (flag : Z) (after : string) : string :=
  (before +:+ String (ascii_of_N (Z.to_N flag)) after)%string.

(** A word between quotation marks. *)
Definition in_quotes (s : string) : string :=
  (String (ascii_of_N 34) (s +:+ String (ascii_of_N 34) ""))%string.

(** A step of the flags: go on, stop at an argument, or fail with a cause (none
    is the usage of the command). *)
Inductive flags_step :=
  | Next (a : args) (i : nat)
  | Arguments (a : args) (i : nat)
  | Invalid (cause : option string).

Definition args_parse_flag_argument (values : list args_value) (a : args) (i : nat) (string : list Z)
    (flag : Z) (optional_argument : bool) : flags_step :=
  match string with
  | _ :: _ => Next (args_set a flag (Some (ARGS_STRING string)) 0) i
  | [] =>
      match values !! i with
      | None =>
          if optional_argument then Next (args_set a flag None ARGS_ENTRY_OPTIONAL_VALUE) i
          else Invalid (Some (flag_cause "-" flag " expects an argument"))
      | Some (ARGS_STRING s) => Next (args_set a flag (Some (ARGS_STRING s)) 0) (S i)
      | Some _ => Invalid (Some (flag_cause "-" flag " argument must be a string"))
      end
  end.

(** The letters after a dash. *)
Fixpoint parse_letters (template : list Z) (values : list args_value) (a : args) (i : nat)
    (string : list Z) : flags_step :=
  match string with
  | [] => Next a i
  | flag :: string =>
      if flag =? 63 then Invalid None
      else if negb (isalnum flag) then Invalid (Some (flag_cause "invalid flag -" flag ""))
      else
        match after_char flag template with
        | None => Invalid (Some (flag_cause "unknown flag -" flag ""))
        | Some found =>
            if negb (bool_decide (head found = Some 58))
            then parse_letters template values (args_set a flag None 0) i string
            else args_parse_flag_argument values a i string flag (bool_decide (found !! 1%nat = Some 58))
        end
  end.

Definition args_parse_flags (template : list Z) (values : list args_value) (a : args) (i : nat) :
    flags_step :=
  match values !! i with
  | Some (ARGS_STRING (45 :: c :: string)) =>
      if (c =? 45) && bool_decide (string = []) then Arguments a (S i)
      else parse_letters template values a (S i) (c :: string)
  | _ => Arguments a i
  end.

(** The callback of a command says what kind an argument is. *)
Definition args_parse_cb : Type := args -> Z -> option (args_parse_type * option string).

Fixpoint parse_arguments (cb : option args_parse_cb) (values : list args_value) (a : args) :
    option (args + option string) :=
  match values with
  | [] => Some (inl a)
  | value :: values =>
      r ← match cb with Some cb => cb a (args_count a) | None => Some (ARGS_PARSE_STRING, None) end;
      let '(type, cause) := (r : args_parse_type * option string) in
      let next := parse_arguments cb values (Args (args_tree a) (args_list a ++ [value])) in
      let must what :=
        Some (inr (Some ("argument " +:+ fmt_u (args_count a + 1) +:+ " must be " +:+ what)%string)) in
      match type, value with
      | ARGS_PARSE_INVALID, _ => Some (inr cause)
      | ARGS_PARSE_STRING, ARGS_STRING _ => next
      | ARGS_PARSE_STRING, _ => must (in_quotes "string")
      | ARGS_PARSE_COMMANDS_OR_STRING, _ => next
      | ARGS_PARSE_COMMANDS, ARGS_COMMANDS _ => next
      | ARGS_PARSE_COMMANDS, _ => must "{ commands }"%string
      end
  end.

(** The flags, up to the first argument: its position, or the cause. *)
Definition flags_turn (template : list Z) (values : list args_value) (s : args * nat) :
    option (args * nat + (args * nat + option string)) :=
  let '(a, i) := s in
  if (i <? length values)%nat then
    match args_parse_flags template values a i with
    | Next a i => Some (inl (a, i))
    | Arguments a i => Some (inr (inl (a, i)))
    | Invalid cause => Some (inr (inr cause))
    end
  else Some (inr (inl (a, i))).

(** The number of arguments is checked. *)
Definition check_count (lower upper : Z) (a : args) : args + option string :=
  if negb (lower =? -1) && (args_count a <? u32 lower) then
    inr (Some ("too few arguments (need at least " +:+ fmt_u lower +:+ ")")%string)
  else if negb (upper =? -1) && (u32 upper <? args_count a) then
    inr (Some ("too many arguments (need at most " +:+ fmt_u upper +:+ ")")%string)
  else inl a.

(** The arguments, or the cause. *)
Definition args_parse (template : list Z) (lower upper : Z) (cb : option args_parse_cb)
    (values : list args_value) : option (args + option string) :=
  match values with
  | [] => Some (inl args_create)
  | _ =>
      flags ← iterate (S (length values)) (flags_turn template values) (args_create, 1%nat);
      match flags with
      | inr cause => Some (inr cause)
      | inl (a, i) =>
          r ← parse_arguments cb (drop i values) a;
          Some match r with
               | inr cause => inr cause
               | inl a => check_count lower upper a
               end
      end
  end.

(** ** Printing *)

Section Printing.
Context `{Locale}.

Definition dquoted : list Z := [32; 35; 39; 59; 36; 123; 125; 37].
Definition squoted : list Z := [32; 34].
Definition escape_flags : Z := Z.lor VIS_OCTAL (Z.lor VIS_CSTYLE (Z.lor VIS_TAB VIS_NL)).

Definition has_any (set s : list Z) : bool := existsb (fun c => bool_decide (c ∈ set)) s.

(** The quotes around an argument: double, single or none ([quotes], 0). *)
Definition escape_quotes (s : list Z) : Z :=
  if has_any dquoted s then 34 else if has_any squoted s then 39 else 0.

(** A single character that only needs a backslash. *)
Definition escape_single (s : list Z) : option Z :=
  match s with
  | [c] => if negb (c =? 32) && (negb (escape_quotes s =? 0) || (c =? 126)) then Some c else None
  | _ => None
  end.

Definition args_escape (s : list Z) : option (list Z) :=
  let quotes := escape_quotes s in
  match s with
  | [] => Some [39; 39]
  | _ =>
      match escape_single s with
      | Some c => Some [92; c]
      | None =>
          escaped ← utf8_strvis loc_mbtowc loc_wcwidth loc_widths s
            (if quotes =? 34 then Z.lor escape_flags VIS_DQ else escape_flags);
          let tilde := if bool_decide (head escaped = Some 126) then 92 :: escaped else escaped in
          Some (if quotes =? 39 then [39] ++ escaped ++ [39]
                else if quotes =? 34 then [34] ++ tilde ++ [34]
                else tilde)
      end
  end.

(** Adding to what is printed: a space before it, unless it is the first. *)
Definition print_space (buf : list Z) : list Z := if bool_decide (buf = []) then buf else buf ++ [32].

(** The flags without values come first, behind one dash. *)
Definition print_letters (buf : list Z) (e : args_entry) : list Z :=
  if is_optional e then buf
  else match ae_values e with
       | [] => (if bool_decide (buf = []) then [45] else buf) ++ replicate (Z.to_nat (ae_count e)) (ae_flag e)
       | _ => buf
       end.

(** Commands are printed between braces, separated by semicolons; commands of
    different groups by two. *)
Definition command_separator (escaped no_groups same_group : bool) : list Z :=
  if no_groups || same_group then (if escaped then [32; 92; 59; 32] else [32; 59; 32])
  else (if escaped then [32; 92; 59; 92; 59; 32] else [32; 59; 59; 32]).

Definition cmd_get_group (c : cmd) : Z := let '(Cmd _ group _ _ _ _ _) := c in group.
Definition cmd_get_entry (c : cmd) : cmd_entry := let '(Cmd entry _ _ _ _ _ _) := c in entry.
Definition cmd_get_args (c : cmd) : args := let '(Cmd _ _ _ _ _ tree values) := c in Args tree values.
Definition cmds (l : cmd_list) : list cmd := let '(CmdList _ list) := l in list.
Definition cmd_list_group (l : cmd_list) : Z := let '(CmdList group _) := l in group.

(** The commands that are printed, with their groups. *)
Fixpoint join_commands (escaped no_groups : bool) (l : list (Z * list Z)) : list Z :=
  match l with
  | [] => []
  | (group, this) :: l =>
      this ++ match l with
              | [] => []
              | (next, _) :: _ => command_separator escaped no_groups (group =? next) ++
                                  join_commands escaped no_groups l
              end
  end.

(** A dash and a flag. *)
Definition print_flag (buf : list Z) (flag : Z) : list Z := print_space buf ++ [45; flag].

Section Args.
(** How a value is added. *)
Variable add_value : list Z -> args_value -> option (list Z).

Fixpoint print_flag_values (flag : Z) (values : list args_value) (buf : list Z) : option (list Z) :=
  match values with
  | [] => Some buf
  | v :: values => buf ← add_value (print_flag buf flag) v; print_flag_values flag values buf
  end.

(** The flags with values; whether the last one has an optional value that was
    not given. *)
Fixpoint print_entries (tree : list args_entry) (buf : list Z) (last_optional : bool) :
    option (list Z * bool) :=
  match tree with
  | [] => Some (buf, last_optional)
  | AE flag values count flags as e :: tree =>
      if is_optional e then print_entries tree (print_flag buf flag) true
      else match values with
           | [] => print_entries tree buf last_optional
           | _ => buf ← print_flag_values flag values buf; print_entries tree buf false
           end
  end.

Fixpoint print_values (values : list args_value) (buf : list Z) : option (list Z) :=
  match values with
  | [] => Some buf
  | v :: values => buf ← add_value buf v; print_values values buf
  end.

Definition print_args (tree : list args_entry) (values : list args_value) : option (list Z) :=
  let buf := foldl print_letters [] tree in
  r ← print_entries tree buf false;
  let '(buf, last_optional) := r in
  print_values values (if (last_optional : bool) then buf ++ [32; 45; 45] else buf).
End Args.

Fixpoint args_print_add_value (buf : list Z) (value : args_value) : option (list Z) :=
  let buf := print_space buf in
  match value with
  | ARGS_NONE => Some buf
  | ARGS_STRING s => escaped ← args_escape s; Some (buf ++ escaped)
  | ARGS_COMMANDS (CmdList _ l) =>
      texts ← (fix go (l : list cmd) : option (list (Z * list Z)) :=
                 match l with
                 | [] => Some []
                 | c :: l => this ← cmd_print c; texts ← go l; Some ((cmd_get_group c, this) :: texts)
                 end) l;
      Some (buf ++ [123; 32] ++ join_commands false false texts ++ [32; 125])
  end
with cmd_print (c : cmd) : option (list Z) :=
  match c with
  | Cmd entry _ _ _ _ tree values =>
      s ← print_args args_print_add_value tree values;
      Some (if bool_decide (s = []) then ce_name entry else ce_name entry ++ [32] ++ s)
  end.

Definition args_print (a : args) : option (list Z) :=
  print_args args_print_add_value (args_tree a) (args_list a).

Definition cmd_list_print (escaped no_groups : bool) (l : cmd_list) : option (list Z) :=
  texts ← foldr (fun c texts => this ← cmd_print c; texts ← texts; Some ((cmd_get_group c, this) :: texts))
    (Some []) (cmds l);
  Some (join_commands escaped no_groups texts).

(** The arguments as strings. *)
Definition value_string (v : args_value) : option (list Z) :=
  match v with
  | ARGS_NONE => Some []
  | ARGS_STRING s => Some s
  | ARGS_COMMANDS l => cmd_list_print false false l
  end.
Definition args_string (a : args) (idx : Z) : option (option (list Z)) :=
  match args_value_at a idx with
  | None => Some None
  | Some v => Some <$> value_string v
  end.
Definition args_to_vector (a : args) : option (list (list Z)) :=
  foldr (fun v l =>
    match v with ARGS_NONE => l | _ => s ← value_string v; l ← l; Some (s :: l) end) (Some []) (args_list a).

End Printing.

Definition args_from_vector (argv : list (list Z)) : list args_value := ARGS_STRING <$> argv.
