(* ===== verification/CmdEscape.v ===== *)
(** * Arguments escaped and read back

    What args_escape writes for a string is read by the lexer as one word, the
    string itself. *)
From Stdlib Require Import ZArith Lia Ascii String.
From S2P Require Import Prelude.
From S2P Require Import CString.
From S2P Require Import Utf8.
From S2P Require Import Utf8Props.
From S2P Require Import Locale.
From S2P Require Import Environ.
From S2P Require Import CmdLex.
From S2P Require Import CmdLexFacts.
From S2P Require Import Arguments.

(** ** The visual encoding *)

(** The flags args_escape uses, inside double quotes and outside. *)
Definition flags_of (q : quotes) : Z :=
  match q with DOUBLE_QUOTES => Z.lor escape_flags VIS_DQ | _ => escape_flags end.

(** A byte of a string is written as itself, as a backslash and a character, or
    as three octal digits. *)
Inductive written (dq : bool) (b : Z) : list Z -> Prop :=
  | as_itself : 32 <= b < 127 -> b <> 92 -> ~ (dq = true /\ (b = 34 \/ b = 36)) -> written dq b [b]
  | as_escape c : 32 <= c < 128 -> ~ (48 <= c <= 55) -> c <> 117 -> c <> 85 -> escape_letter c = b ->
      written dq b [92; c]
  | as_octal o1 o2 o3 : 0 <= o1 <= 3 -> 0 <= o2 <= 7 -> 0 <= o3 <= 7 -> b = 64 * o1 + 8 * o2 + o3 ->
      written dq b [92; 48 + o1; 48 + o2; 48 + o3].

Definition is_written (dq : bool) (b : Z) (l : list Z) : bool :=
  match l with
  | [c] => (c =? b) && (32 <=? b) && (b <? 127) && negb (b =? 92) && negb (dq && ((b =? 34) || (b =? 36)))
  | [s; c] => (s =? 92) && (32 <=? c) && (c <? 128) && negb ((48 <=? c) && (c <=? 55)) &&
              negb (c =? 117) && negb (c =? 85) && (escape_letter c =? b)
  | [s; d1; d2; d3] =>
      (s =? 92) && (48 <=? d1) && (d1 <=? 51) && (48 <=? d2) && (d2 <=? 55) && (48 <=? d3) && (d3 <=? 55) &&
      (b =? 64 * (d1 - 48) + 8 * (d2 - 48) + (d3 - 48))
  | _ => false
  end.

Lemma is_written_ok dq b l : is_written dq b l = true -> written dq b l.
Proof.
  destruct l as [|x1 [|x2 [|x3 [|x4 [|]]]]]; try done; cbn [is_written];
    rewrite ?andb_true_iff, ?negb_true_iff, ?andb_false_iff, ?orb_false_iff, ?Z.eqb_eq, ?Z.eqb_neq,
      ?Z.leb_le, ?Z.ltb_lt, ?Z.leb_gt.
  - intros ((((-> & H1) & H2) & H3) & H4). constructor; [lia|done|]. intros [-> H]. destruct H4 as [H4|H4]; [done|]. lia.
  - intros ((((((-> & H1) & H2) & H3) & H4) & H5) & H6). constructor; (done || lia).
  - intros (((((((-> & H1) & H2) & H3) & H4) & H5) & H6) & H7).
    replace x2 with (48 + (x2 - 48)) by lia. replace x3 with (48 + (x3 - 48)) by lia.
    replace x4 with (48 + (x4 - 48)) by lia. constructor; lia.
Qed.

Lemma vis_next c flag next : c <> 0 -> vis c flag next = vis c flag 0.
Proof. intros Hc. unfold vis, vis_cstyle. by rewrite (proj2 (Z.eqb_neq c 0)). Qed.

Lemma vis_written q b next : 0 < b < 256 -> (q = DOUBLE_QUOTES -> b <> 36) ->
  written (bool_decide (q = DOUBLE_QUOTES)) b (vis (sbyte b) (flags_of q) next).
Proof.
  intros Hb Hq. rewrite vis_next by (unfold sbyte; destruct (Z.ltb_spec b 128); lia). apply is_written_ok.
  assert (H : forall q, (b =? 0) || bool_decide (q = DOUBLE_QUOTES) && (b =? 36) ||
    is_written (bool_decide (q = DOUBLE_QUOTES)) b (vis (sbyte b) (flags_of q) 0) = true).
  { intros []; (assert (Hb' : 0 <= b < 256) by lia); clear Hq Hb; revert b Hb'; apply forall_range; vm_compute; reflexivity. }
  specialize (H q). rewrite (proj2 (Z.eqb_neq b 0)) in H by lia. cbn [orb] in H.
  case_bool_decide; [|done]. by rewrite (proj2 (Z.eqb_neq b 36)) in H by auto.
Qed.

(** ** The strings *)

(** The strings that may be written so: outside quotes, none of the characters
    that mean something. *)
Definition may_be_written (q : quotes) (b : Z) : Prop :=
  0 < b < 256 /\ (q = NONE -> b ∉ 34 :: dquoted).

Lemma not_in_dquoted b : b ∉ 34 :: dquoted ->
  b <> 34 /\ b <> 32 /\ b <> 35 /\ b <> 39 /\ b <> 59 /\ b <> 36 /\ b <> 123 /\ b <> 125 /\ b <> 37.
Proof. unfold dquoted. rewrite !not_elem_of_cons. tauto. Qed.

(** A text that the lexer reads as a word: it does not start with a character
    that is a token or starts something else. *)
Definition starts_word (t : list Z) : Prop :=
  match t with [] => False | b :: _ => 32 < b < 255 /\ b ∉ [59; 123; 125; 35; 37] end.

Lemma starts_quote b t : b = 34 \/ b = 39 \/ b = 92 -> starts_word (b :: t).
Proof. intros Hb. cbn [starts_word]. rewrite !not_elem_of_cons, elem_of_nil. lia. Qed.

(** What is written: no control characters. *)
Definition text_byte (b : Z) : Prop := 32 <= b < 255.

Lemma plain_written dq b t : 0 < b < 256 -> written dq b t -> Forall text_byte t.
Proof.
  unfold text_byte. intros Hb []; repeat constructor; cbn; try lia.
Qed.

Lemma plain_around b t : text_byte b -> Forall text_byte t -> Forall text_byte (b :: t ++ [b]).
Proof. intros Hb Ht. apply Forall_cons_2; [done|]. apply Forall_app; split; [done|]. by apply Forall_singleton. Qed.

(** A character of more than one byte. *)
Lemma utf8_bytes ud : char false ud -> Forall (fun b => 0 < b < 256) (ud_bytes ud) ->
  Forall (fun b => 128 <= b < 255) (ud_bytes ud) /\ ud_bytes ud <> [].
Proof.
  intros Hc Hr. destruct (char_first _ _ Hc) as (b & l & E & Hb & Hl). rewrite E in Hr |- *.
  specialize (Hl eq_refl).
  split; [|done]. apply Forall_cons in Hr as [_ Hr]. constructor; [lia|].
  apply (Forall_impl (fun b => continuation b /\ 0 < b < 256)); [by apply Forall_and|].
  intros c [Hcc Hc']. assert (Hlt : 0 <= c < 256) by lia. unfold continuation in Hcc.
  assert (Hall : (negb (Z.land c 0xc0 =? 0x80) || ((128 <=? c) && (c <? 192))) = true).
  { clear Hcc Hc'. revert c Hlt. apply forall_range. vm_compute. reflexivity. }
  rewrite Hcc in Hall. apply andb_true_iff in Hall as [H1 H2]. lia.
Qed.

Lemma has_any_false set s : has_any set s = false -> Forall (fun b => b ∉ set) s.
Proof.
  unfold has_any. induction s as [|c s IH]; [done|]. cbn [existsb]. intros [Hc Hs]%orb_false_iff.
  apply bool_decide_eq_false in Hc. constructor; auto.
Qed.

Lemma escape_quotes_cases s :
  (escape_quotes s = 34 /\ exists c, c ∈ s /\ c ∈ dquoted) \/
  (escape_quotes s = 39 /\ Forall (fun b => b ∉ dquoted) s) \/
  (escape_quotes s = 0 /\ Forall (fun b => b ∉ 34 :: dquoted) s).
Proof.
  unfold escape_quotes. destruct (has_any dquoted s) eqn:E1.
  - left. split; [done|]. apply existsb_exists in E1 as (c & Hc & Hd%bool_decide_eq_true). apply list_elem_of_In in Hc. by exists c.
  - apply has_any_false in E1. destruct (has_any squoted s) eqn:E2; [by right; left|]. right; right. split; [done|].
    apply has_any_false in E2. apply (Forall_impl (fun b => b ∉ dquoted /\ b ∉ squoted)); [by apply Forall_and|].
    intros b. unfold squoted. rewrite !not_elem_of_cons. tauto.
Qed.

Lemma written_head dq b t : written dq b t -> exists c l, t = c :: l /\ (c = b \/ c = 92).
Proof. intros []; eauto. Qed.

Lemma escape_single_special c : escape_single [c] = Some c -> c ∈ [35; 39; 59; 36; 123; 125; 37; 34; 126].
Proof.
  cbn [escape_single]. destruct (Z.eqb_spec c 32) as [|H32]; [done|]. cbn [negb andb].
  unfold escape_quotes, has_any. cbn [existsb]. rewrite !orb_false_r.
  destruct (bool_decide (c ∈ dquoted)) eqn:E1.
  - apply bool_decide_eq_true in E1. unfold dquoted in E1. rewrite !elem_of_cons, elem_of_nil in E1. intros _. rewrite !elem_of_cons. tauto.
  - destruct (bool_decide (c ∈ squoted)) eqn:E2.
    + apply bool_decide_eq_true in E2. unfold squoted in E2. rewrite !elem_of_cons, elem_of_nil in E2. intros _. rewrite !elem_of_cons. tauto.
    + cbn [Z.eqb negb orb]. destruct (Z.eqb_spec c 126) as [->|]; [|done]. intros _. rewrite !elem_of_cons. tauto.
Qed.

(** What is written is ASCII without line ends, or the bytes of characters. *)
Lemma strvis_plain `{Locale} q src : exists dst,
  utf8_strvis loc_mbtowc loc_wcwidth loc_widths src (flags_of q) = Some dst /\
  (Forall (fun b => 0 < b < 256) src -> Forall text_byte dst).
Proof.
  unfold utf8_strvis.
  apply (loop_ind _ _ _ false _ _ _ (fun src dst => Forall (fun b => 0 < b < 256) src -> Forall text_byte dst));
    [done| | |lia].
  - intros ud rest r Hc Hr [Hu Hs]%Forall_app. apply Forall_app; split; [|by apply Hr].
    destruct (utf8_bytes ud Hc Hu) as [Hb _]. eapply Forall_impl; [done|]. intros b Hb'. unfold text_byte. cbv beta in Hb'. lia.
  - intros ch rest r Hr [Hch Hs]%Forall_cons. specialize (Hr Hs).
    assert (Hv : forall next, (q = DOUBLE_QUOTES -> ch <> 36) -> Forall text_byte (vis (sbyte ch) (flags_of q) next ++ r)).
    { intros next Hd. apply Forall_app; split; [|done]. by eapply plain_written, vis_written. }
    assert (H36 : ch = 36 -> Forall text_byte (vis (sbyte ch) (flags_of q) 0 ++ r)).
    { intros ->. apply Forall_app; split; [|done].
      replace (vis (sbyte 36) (flags_of q) 0) with [36] by by destruct q.
      apply Forall_singleton. unfold text_byte. lia. }
    destruct rest as [|next rest].
    + destruct (decide (ch = 36)) as [E|E]; [by apply H36|by apply Hv].
    + destruct (flagged (flags_of q) VIS_DQ) eqn:Ef; cbn [andb].
      * destruct (Z.eqb_spec ch 36) as [->|Hne]; [|by apply Hv].
        destruct (_ || _); cbn [app]; repeat (apply Forall_cons_2; [unfold text_byte; lia|]); done.
      * apply Hv. intros ->. done.
Qed.

(** Single quotes are only put around a string without a backslash or a
    character the encoding would change. *)
Definition unchanged_in_single_quotes `{Locale} (s : list Z) : Prop :=
  escape_quotes s = 39 -> utf8_strvis loc_mbtowc loc_wcwidth loc_widths s escape_flags = Some s.

(** ** Reading it back *)

Section Escape.
Context `{Locale}.
Context (home_of : string -> option (list Z)) (own_home : option (list Z)) (global_environ : environ).
Context (wctomb : Z -> option (list Z)).
Notation leads := (leads (token_turn wctomb home_of own_home global_environ)).

(** In the state [q] of the quotes, the text [t] before [rest] adds [w]. *)
Definition reads (q : quotes) (w t rest : list Z) : Prop :=
  forall orig ch ps buf last, cursor orig (t ++ rest) ch ps -> tilde_safe q last t ->
  exists n last' ch' ps', (n <= length t)%nat /\
    leads n (buf, q, last, ch, ps) (buf ++ w, q, last', ch', ps') /\
    cursor orig rest ch' ps' /\ (last' = q \/ t = [] /\ last' = last).

Lemma reads_nil q rest : reads q [] [] rest.
Proof.
  intros orig ch ps buf last Hc Ht. exists 0%nat, last, ch, ps. rewrite app_nil_r.
  split_and!; [lia|apply leads_refl|done|by right].
Qed.

Lemma reads_app q w1 w2 t1 t2 rest : t1 <> [] -> reads q w1 t1 (t2 ++ rest) -> reads q w2 t2 rest ->
  reads q (w1 ++ w2) (t1 ++ t2) rest.
Proof.
  intros Hne H1 H2 orig ch ps buf last Hc Ht. rewrite <- app_assoc in Hc.
  destruct (H1 orig ch ps buf last Hc) as (n1 & l1 & ch1 & ps1 & Hn1 & Hl1 & Hc1 & [-> | [? _] ]); [|  |done].
  { destruct Ht as [?|[?|Ht]]; [by left|by right; left|]. right; right. by destruct t1. }
  destruct (H2 orig ch1 ps1 (buf ++ w1) q Hc1) as (n2 & l2 & ch2 & ps2 & Hn2 & Hl2 & Hc2 & Hq); [by left|].
  exists (n1 + n2)%nat, l2, ch2, ps2. rewrite length_app. split_and!; [lia| |done|].
  - rewrite app_assoc. by eapply leads_trans.
  - destruct Hq as [-> | [_ ->] ]; by left.
Qed.

(** One turn. *)
Lemma reads_turn q w b t rest :
  (forall orig ch ps buf last, cursor orig (b :: t ++ rest) ch ps -> tilde_safe q last (b :: t) ->
   exists ch' ps', token_turn wctomb home_of own_home global_environ (buf, q, last, ch, ps) =
     Some (inl (buf ++ w, q, q, ch', ps')) /\ cursor orig rest ch' ps') ->
  reads q w (b :: t) rest.
Proof.
  intros Hone orig ch ps buf last Hc Ht. destruct (Hone orig ch ps buf last Hc Ht) as (ch' & ps' & E & Hc').
  exists 1%nat, q, ch', ps'. split_and!; [cbn; lia|by apply leads_turn|done|by left].
Qed.

Lemma reads_ordinary q l rest : q <> START -> Forall (ordinary q) l -> reads q l l rest.
Proof.
  intros Hq. induction l as [|b l IH]; intros Hl; [apply reads_nil|]. apply Forall_cons in Hl as [Hb Hl].
  apply (reads_app q [b] l [b] l); [done| |by apply IH]. apply reads_turn. intros orig ch ps buf last Hc Ht.
  by eapply turn_plain.
Qed.

Lemma reads_written q b t rest : q = NONE \/ q = DOUBLE_QUOTES -> may_be_written q b ->
  written (bool_decide (q = DOUBLE_QUOTES)) b t -> reads q [b] t rest.
Proof.
  intros Hq [Hb Hn] Hw. assert (Hs : q <> START /\ q <> SINGLE_QUOTES) by (destruct Hq as [-> | ->]; done). destruct Hs as [Hs Hs'].
  destruct Hw as [H1 H2 H3|c H1 H2 H3 H4 <-|o1 o2 o3 H1 H2 H3 ->]; apply reads_turn; intros orig ch ps buf last Hc Ht.
  - apply (turn_plain wctomb home_of own_home global_environ orig); [done|done| |done].
    destruct Hq as [-> | ->]; cbn [ordinary].
    + specialize (Hn eq_refl). apply not_in_dquoted in Hn. lia.
    + rewrite bool_decide_eq_true_2 in H3 by done. lia.
  - destruct (turn_escape wctomb home_of own_home global_environ orig c rest ch ps buf q last) as (ch' & ps' & E & Hc');
      try done; [lia|]. exists ch', ps'. split; [|done]. by rewrite E, u8_small by lia.
  - by apply (turn_octal wctomb home_of own_home global_environ orig).
Qed.

(** What is proved of a string and what is written for it, by induction on the
    loop of utf8_strvis. *)
Definition strvis_reads (q : quotes) (src dst : list Z) : Prop :=
  (src = [] -> dst = []) /\
  (Forall (may_be_written q) src ->
     (forall b, head src = Some b -> head dst = Some b \/ head dst = Some 92) /\
     forall rest, (q = DOUBLE_QUOTES -> head rest = Some 34) -> reads q src dst rest).

Lemma strvis_reads_char q ud src dst : q = NONE \/ q = DOUBLE_QUOTES -> char false ud ->
  strvis_reads q src dst -> strvis_reads q (ud_bytes ud ++ src) (ud_bytes ud ++ dst).
Proof.
  intros Hq Hc (_ & H3). destruct (char_first _ _ Hc) as (b0 & l0 & Eb & _). split.
  - rewrite Eb. done.
  - intros [Hu Hs]%Forall_app. specialize (H3 Hs) as (_ & Hr).
    destruct (utf8_bytes ud Hc) as [Hb Hne]; [eapply Forall_impl; [exact Hu|by intros ? [? _] ]|].
    split; [rewrite Eb; intros b [= <-]; by left|].
    intros rest Hrest. apply reads_app; [done| |by apply Hr]. apply reads_ordinary; [by destruct Hq as [-> | ->]|].
    eapply Forall_impl; [done|]. intros b Hb'. cbv beta in Hb'. destruct Hq as [-> | ->]; cbn; lia.
Qed.

Lemma strvis_reads_vis q ch src dst one : q = NONE \/ q = DOUBLE_QUOTES ->
  (0 < ch < 256 -> written (bool_decide (q = DOUBLE_QUOTES)) ch one) ->
  strvis_reads q src dst -> strvis_reads q (ch :: src) (one ++ dst).
Proof.
  intros Hq Hw (_ & H3). split; [done|]. intros [Hch Hs]%Forall_cons. specialize (H3 Hs) as (_ & Hr).
  pose proof Hch as [Hb _]. specialize (Hw Hb). destruct (written_head _ _ _ Hw) as (c & l & E & Hc). split.
  - intros b [= <-]. rewrite E. cbn. destruct Hc as [-> | ->]; auto.
  - intros rest Hrest. apply (reads_app q [ch] src); [by rewrite E| |by apply Hr]. by apply reads_written.
Qed.

(** A dollar inside double quotes: it is escaped before what would be a name. *)
Lemma strvis_reads_dollar next src dst : strvis_reads DOUBLE_QUOTES (next :: src) dst ->
  strvis_reads DOUBLE_QUOTES (36 :: next :: src)
    ((if isalpha next || (next =? 95) || (next =? 123) then [92] else []) ++ [36] ++ dst).
Proof.
  intros (_ & H3). split; [done|]. intros [_ Hs]%Forall_cons. specialize (H3 Hs) as (Hh & Hr).
  apply Forall_cons in Hs as [ [Hn _] _]. specialize (Hh next eq_refl).
  destruct (_ || _) eqn:Ev; cbn [app]; split;
    [intros b _; by right|intros rest Hrest|intros b [= <-]; by left|intros rest Hrest].
  - apply (reads_app DOUBLE_QUOTES [36] (next :: src) [92; 36] dst); [done| |by apply Hr].
    apply reads_turn. intros orig ch ps buf last Hc Ht.
    apply (turn_escape wctomb home_of own_home global_environ orig 36); (done || lia).
  - apply (reads_app DOUBLE_QUOTES [36] (next :: src) [36] dst); [done| |by apply Hr].
    apply reads_turn. intros orig ch ps buf last Hc Ht.
    destruct dst as [|c dst]; [by destruct Hh|]. cbn [head] in Hh.
    apply (turn_dollar wctomb home_of own_home global_environ orig c); [done..| |].
    + intros ->. destruct Hh as [ [= <-] | [=] ]. by rewrite orb_true_r in Ev.
    + destruct Hh as [ [= ->] | [= ->] ]; [|done]. apply orb_false_iff in Ev as [Ev E123].
      apply orb_false_iff in Ev as [Ea E95]. unfold yylex_is_var, isalnum. rewrite sbyte_u8 by lia.
      rewrite Ea, !sbyte_eqb, E95 by lia. by destruct (next =? 61), (isdigit next).
Qed.

Lemma strvis_reads_plain q ch src dst : q = NONE \/ q = DOUBLE_QUOTES -> strvis_reads q src dst ->
  strvis_reads q (ch :: src)
    match src with
    | next :: _ =>
        if flagged (flags_of q) VIS_DQ && (ch =? 36) then
          (if isalpha next || (next =? 95) || (next =? 123) then [92] else []) ++ [36] ++ dst
        else vis (sbyte ch) (flags_of q) (sbyte next) ++ dst
    | [] => vis (sbyte ch) (flags_of q) 0 ++ dst
    end.
Proof.
  intros Hq Hs. destruct src as [|next src].
  - destruct (decide (q = DOUBLE_QUOTES /\ ch = 36)) as [ [-> ->]|Hne].
    + destruct Hs as [Hnil _]. rewrite (Hnil eq_refl).
      change (vis (sbyte 36) (flags_of DOUBLE_QUOTES) 0 ++ []) with [36]. split; [done|]. intros _.
      split; [intros b [= <-]; by left|]. intros rest Hrest.
      destruct rest as [|c rest]; [by specialize (Hrest eq_refl)|]. injection (Hrest eq_refl) as ->.
      apply reads_turn. intros orig ch ps buf last Hc Ht. by apply (turn_dollar wctomb home_of own_home global_environ orig 34).
    + apply strvis_reads_vis; [done| |done]. intros Hr. apply vis_written; [done|]. intros -> ->. by apply Hne.
  - destruct (flagged (flags_of q) VIS_DQ && (ch =? 36)) eqn:E.
    + apply andb_true_iff in E as [E ->%Z.eqb_eq]. assert (q = DOUBLE_QUOTES) as -> by (by destruct Hq as [-> | ->]).
      by apply strvis_reads_dollar.
    + apply strvis_reads_vis; [done| |done]. intros Hr. apply vis_written; [done|]. intros -> ->. done.
Qed.

Lemma strvis_read q src : q = NONE \/ q = DOUBLE_QUOTES ->
  exists dst, utf8_strvis loc_mbtowc loc_wcwidth loc_widths src (flags_of q) = Some dst /\ strvis_reads q src dst.
Proof.
  intros Hq. unfold utf8_strvis. apply (loop_ind _ _ _ false _ _ _ (strvis_reads q)); [| | |lia].
  - split; [done|]. intros _. split; [done|]. intros rest _. apply reads_nil.
  - intros ud rest r Hc Hr. by apply strvis_reads_char.
  - intros ch rest r Hr. by apply strvis_reads_plain.
Qed.

(** ** Whole words *)


(** The text is the word [s], with its quotes. *)
Definition word_text (s t rest : list Z) : Prop :=
  forall orig ch ps, cursor orig (t ++ rest) ch ps ->
  exists n last' ch' ps', (n <= length t)%nat /\
    leads n ([], NONE, START, ch, ps) (s, NONE, last', ch', ps') /\ cursor orig rest ch' ps'.

Lemma word_plain s t rest : reads NONE s t rest -> head t <> Some 126 -> word_text s t rest.
Proof.
  intros Hr Ht orig ch ps Hc. destruct (Hr orig ch ps [] START Hc) as (n & l & ch' & ps' & Hn & Hl & Hc' & _);
    [by right; right|]. by exists n, l, ch', ps'.
Qed.

(** Quotes around a text. *)
Definition quote_of (q : quotes) : Z := match q with DOUBLE_QUOTES => 34 | _ => 39 end.

Lemma word_quoted q s t rest : q = DOUBLE_QUOTES \/ q = SINGLE_QUOTES ->
  reads q s t (quote_of q :: rest) -> tilde_safe q START t ->
  word_text s (quote_of q :: t ++ [quote_of q]) rest.
Proof.
  intros Hq Hr Ht orig ch ps Hc. cbn [app] in Hc. rewrite <- app_assoc in Hc. cbn [app] in Hc.
  destruct (turn_quote wctomb home_of own_home global_environ orig NONE q _ ch ps [] START _ Hc) as (c1 & ps1 & E1 & Hc1).
  { destruct Hq as [-> | ->]; set_solver. }
  destruct (Hr orig c1 ps1 [] START Hc1 Ht) as (n & l & c2 & ps2 & Hn & Hl & Hc2 & _).
  destruct (turn_quote wctomb home_of own_home global_environ orig q NONE _ c2 ps2 ([] ++ s) l _ Hc2) as (c3 & ps3 & E3 & Hc3).
  { destruct Hq as [-> | ->]; set_solver. }
  exists (1 + (n + 1))%nat, l, c3, ps3. split_and!; [cbn; rewrite length_app; cbn; lia| |done].
  eapply leads_trans; [by apply leads_turn|]. eapply leads_trans; [exact Hl|]. by apply leads_turn.
Qed.

Lemma word_token s t rest orig ch ps : word_text s t rest -> cursor orig (t ++ rest) ch ps -> t <> [] ->
  ends_word rest ->
  exists ps', yylex_token wctomb home_of own_home global_environ ch ps = Some (Some s, ps') /\
    input_ok ps' /\ same_input orig ps' /\ stream ps' = rest.
Proof.
  intros Hw Hc Hne He. destruct (Hw orig ch ps Hc) as (n & l & ch' & ps' & Hn & Hl & Hc').
  destruct (cursor_unget _ _ _ _ Hc') as (Hok & Hs & Est). exists (yylex_ungetc ch' ps'). split; [|done].
  unfold yylex_token. destruct t as [|b t]; [done|]. cbn [app] in Hc.
  apply cursor_cons in Hc as (_ & _ & Hokp & _ & Hst).
  assert (Hf : (n < S (lex_fuel ps))%nat).
  { pose proof (f_equal length Hst) as Hlen. unfold stream in Hlen. unfold lex_fuel, left_to_read.
    rewrite !length_app, length_replicate, length_drop in Hlen. cbn [length] in Hn. lia. }
  replace (S (lex_fuel ps)) with (n + S (lex_fuel ps - n))%nat by lia. rewrite Hl. cbn [iterate].
  by rewrite (turn_end wctomb home_of own_home global_environ _ _ _ _ _ _ Hc' He).
Qed.

(** A tilde at the start is escaped. *)
Lemma strvis_tilde q s dst : utf8_strvis loc_mbtowc loc_wcwidth loc_widths (126 :: s) (flags_of q) = Some dst ->
  exists l, dst = 126 :: l /\ utf8_strvis loc_mbtowc loc_wcwidth loc_widths s (flags_of q) = Some l.
Proof.
  unfold utf8_strvis. cbn [length utf8_loop].
  change (utf8_next loc_mbtowc loc_wcwidth loc_widths false 126 s) with (Some (inr tt) : option ((utf8_data * list Z) + unit)).
  cbn [mbind option_bind]. destruct (utf8_loop _ _ _ _ _ _ _ _ _) as [l|]; [|done]. cbn [mbind option_bind].
  intros [= <-]. exists l. split; [|done]. destruct s as [|next s].
  - by destruct q.
  - replace (flagged (flags_of q) VIS_DQ && (126 =? 36)) with false by by rewrite andb_false_r.
    by rewrite vis_next by done; destruct q.
Qed.

Lemma reads_tilde q s t rest : q = NONE \/ q = DOUBLE_QUOTES ->
  utf8_strvis loc_mbtowc loc_wcwidth loc_widths s (flags_of q) = Some t -> Forall (may_be_written q) s ->
  (q = DOUBLE_QUOTES -> head rest = Some 34) ->
  let t' := if bool_decide (head t = Some 126) then 92 :: t else t in
  reads q s t' rest /\ head t' <> Some 126 /\
  (forall b, head s = Some b -> head t' = Some b \/ head t' = Some 92).
Proof.
  intros Hq E Hs Hrest t'. destruct (strvis_read q s Hq) as (t0 & E0 & Hnil & H3). rewrite E in E0. injection E0 as <-.
  specialize (H3 Hs) as (Hh & Hr). unfold t'. case_bool_decide as Ht.
  - destruct s as [|b s]; [by rewrite Hnil in Ht|]. assert (b = 126) as ->.
    { specialize (Hh b eq_refl). rewrite Ht in Hh. by destruct Hh as [ [=] | [=] ]. }
    destruct (strvis_tilde q s t E) as (l & -> & El). apply Forall_cons in Hs as [_ Hs].
    destruct (strvis_read q s Hq) as (l0 & El0 & _ & H3). rewrite El in El0. injection El0 as <-.
    specialize (H3 Hs) as (_ & Hr'). split_and!; [|done|by right].
    apply (reads_app q [126] s [92; 126] l); [done| |by apply Hr']. apply reads_turn. intros orig ch ps buf last Hc _.
    apply (turn_escape wctomb home_of own_home global_environ orig 126); try (done || lia); by destruct Hq as [-> | ->].
  - split_and!; [by apply Hr|done|done].
Qed.

(** A character that only needs a backslash. *)
Lemma escape_single_word c : 0 < c < 256 -> escape_single [c] = Some c ->
  32 < c < 128 /\ forall rest, word_text [c] [92; c] rest.
Proof.
  intros Hr Ec. apply escape_single_special in Ec.
  assert (Hb : 32 < c < 128 /\ ~ (48 <= c <= 55) /\ c <> 117 /\ c <> 85 /\ escape_letter c = c).
  { rewrite !elem_of_cons, elem_of_nil in Ec. repeat destruct Ec as [-> |Ec]; try done; split_and!; done || lia. }
  destruct Hb as (H1 & H2 & H3 & H4 & H5). split; [done|]. intros rest. apply word_plain; [|done].
  apply reads_turn. intros orig ch ps buf last Hcur _.
  destruct (turn_escape wctomb home_of own_home global_environ orig c rest ch ps buf NONE last)
    as (ch' & ps' & E & Hc'); try done; [lia|]. exists ch', ps'. split; [|done]. by rewrite E, u8_small, H5 by lia.
Qed.

(** Double quotes, where the tilde at the start is escaped. *)
Lemma escape_double_word s t : Forall (fun b => 0 < b < 256) s ->
  utf8_strvis loc_mbtowc loc_wcwidth loc_widths s (flags_of DOUBLE_QUOTES) = Some t ->
  forall rest, word_text s (34 :: (if bool_decide (head t = Some 126) then 92 :: t else t) ++ [34]) rest.
Proof.
  intros Hs Et rest.
  assert (Hw : Forall (may_be_written DOUBLE_QUOTES) s) by (eapply Forall_impl; [done|]; by split).
  destruct (reads_tilde DOUBLE_QUOTES s t (34 :: rest) ltac:(by right) Et Hw ltac:(done)) as (Hr1 & Hr2 & _).
  apply (word_quoted DOUBLE_QUOTES s); [by left|done|by right; right].
Qed.

(** Single quotes around what the encoding leaves unchanged. *)
Lemma escape_single_quotes_word s : Forall (fun b => b ∉ dquoted) s ->
  forall rest, word_text s (39 :: s ++ [39]) rest.
Proof.
  intros Hn rest. apply (word_quoted SINGLE_QUOTES s); [by right| |by right; left]. apply reads_ordinary; [done|].
  eapply Forall_impl; [exact Hn|]. intros b Hb ->. apply Hb. unfold dquoted. rewrite !elem_of_cons. auto.
Qed.

(** No quotes. *)
Lemma escape_plain_word s t : s <> [] -> Forall (fun b => 0 < b < 256) s -> Forall (fun b => b ∉ 34 :: dquoted) s ->
  utf8_strvis loc_mbtowc loc_wcwidth loc_widths s (flags_of NONE) = Some t -> Forall text_byte t ->
  let t' := if bool_decide (head t = Some 126) then 92 :: t else t in
  starts_word t' /\ forall rest, word_text s t' rest.
Proof.
  intros Hne Hs Hn Et Hp t'.
  assert (Hw : Forall (may_be_written NONE) s).
  { apply (Forall_impl (fun b => 0 < b < 256 /\ b ∉ 34 :: dquoted)); [by apply Forall_and|]. intros b [? ?]. by split. }
  pose proof (fun rest => reads_tilde NONE s t rest ltac:(by left) Et Hw ltac:(done)) as Hr.
  split; [|intros rest; destruct (Hr rest) as (Hr1 & Hr2 & _); by apply word_plain].
  destruct (Hr []) as (_ & _ & Hh). fold t' in Hh. destruct s as [|b s]; [done|].
  apply Forall_cons in Hn as [Hb _]. apply not_in_dquoted in Hb.
  assert (Hp' : Forall text_byte t').
  { unfold t'. case_bool_decide; [apply Forall_cons_2; [unfold text_byte; lia|]|]; done. }
  destruct t' as [|c l]; [by destruct (Hh b eq_refl)|]. apply Forall_cons in Hp' as [Hc _]. unfold text_byte in Hc.
  cbn [starts_word]. rewrite !not_elem_of_cons, elem_of_nil.
  destruct (Hh b eq_refl) as [ [= ->] | [= ->] ]; split; try lia; split_and!; lia || tauto.
Qed.

Lemma args_escape_word s : Forall (fun b => 0 < b < 256) s -> unchanged_in_single_quotes s ->
  exists t, args_escape s = Some t /\ starts_word t /\ Forall text_byte t /\ forall rest, word_text s t rest.
Proof.
  intros Hs Hu. unfold args_escape. destruct (decide (s = [])) as [->|Hne].
  { exists [39; 39]. split; [done|]. split; [by apply starts_quote; auto|].
    split; [repeat (apply Forall_cons_2; [unfold text_byte; lia|]); apply Forall_nil_2|].
    apply (escape_single_quotes_word []). done. }
  destruct (escape_single s) as [c|] eqn:Ec.
  - assert (s = [c]) as ->.
    { unfold escape_single in Ec. destruct s as [|b [|]]; [done| |done]. case_match; [|done]. by injection Ec as ->. }
    assert (Hr : 0 < c < 256) by (by apply Forall_cons in Hs as [? _]).
    destruct (escape_single_word c Hr Ec) as [Hc Hw]. exists [92; c].
    split; [done|]. split; [by apply starts_quote; auto|].
    split; [repeat (apply Forall_cons_2; [unfold text_byte; lia|]); apply Forall_nil_2|done].
  - destruct s as [|b0 s0] eqn:Es; [done|]. rewrite <- Es in *. clear Es b0 s0.
    destruct (escape_quotes_cases s) as [(E & _)|[(E & Hn)|(E & Hn)]]; rewrite E; cbn [Z.eqb Pos.eqb].
    + change (Z.lor escape_flags VIS_DQ) with (flags_of DOUBLE_QUOTES).
      destruct (strvis_plain DOUBLE_QUOTES s) as (t & Et & Hp). rewrite Et. cbn [mbind option_bind]. eexists.
      split; [done|]. split; [by apply starts_quote; auto|]. split; [|by apply escape_double_word].
      apply plain_around; [unfold text_byte; lia|]. case_bool_decide; [|by apply Hp].
      apply Forall_cons_2; [unfold text_byte; lia|]. by apply Hp.
    + rewrite (Hu E). cbn [mbind option_bind]. eexists. split; [done|]. split; [by apply starts_quote; auto|].
      destruct (strvis_plain SINGLE_QUOTES s) as (t & Et & Hp). cbn [flags_of] in Et. rewrite (Hu E) in Et.
      injection Et as <-. split; [apply plain_around; [unfold text_byte; lia|by apply Hp]|].
      by apply escape_single_quotes_word.
    + destruct (strvis_plain NONE s) as (t & Et & Hp). cbn [flags_of] in Et. rewrite Et. cbn [mbind option_bind].
      destruct (escape_plain_word s t Hne Hs Hn Et (Hp Hs)) as [H1 H2]. eexists. split_and!; [done|done| |done].
      case_bool_decide; [apply Forall_cons_2; [unfold text_byte; lia|]|]; by apply Hp.
Qed.
End Escape.
