(* ===== verification/CmdTable.v ===== *)
(** * The table of commands (src/tmux/commands/)

    The entry of each command, in the order of the table of cmd.c, and the
    callbacks that say what kind their arguments are.  The function that runs a
    command is not part of its entry here. *)
From Stdlib Require Import Ascii String.
From S2P Require Import Prelude.
From S2P Require Import CString.
From S2P Require Import Utf8.
From S2P Require Import Locale.
From S2P Require Import Arguments.

Notation bytes := bytes_of_string.

(** ** Flags *)

Definition CMD_STARTSERVER : Z := 0x1.
Definition CMD_READONLY : Z := 0x2.
Definition CMD_AFTERHOOK : Z := 0x4.
Definition CMD_CLIENT_CFLAG : Z := 0x8.
Definition CMD_CLIENT_TFLAG : Z := 0x10.
Definition CMD_CLIENT_CANFAIL : Z := 0x20.

Definition CMD_FIND_PREFER_UNATTACHED : Z := 0x1.
Definition CMD_FIND_QUIET : Z := 0x2.
Definition CMD_FIND_WINDOW_INDEX : Z := 0x4.
Definition CMD_FIND_DEFAULT_MARKED : Z := 0x8.
Definition CMD_FIND_EXACT_SESSION : Z := 0x10.
Definition CMD_FIND_EXACT_WINDOW : Z := 0x20.
Definition CMD_FIND_CANFAIL : Z := 0x40.

(** A flag that is left out. *)
Definition no_flag : cmd_entry_flag := EF 0 CMD_FIND_PANE 0.

(** ** Callbacks *)

Section Callbacks.
Context `{Locale}.

(** An item of a menu is a name, a key and a command, or an empty name. *)
Fixpoint menu_argument (fuel : nat) (a : args) (idx i : Z) : option args_parse_type :=
  match fuel with
  | O => None
  | S fuel =>
      if i =? idx then Some ARGS_PARSE_STRING
      else
        s ← args_string a i;
        match s with
        | None => None
        | Some [] => menu_argument fuel a idx (i + 1)
        | Some (_ :: _) =>
            if i + 1 =? idx then Some ARGS_PARSE_STRING
            else if i + 2 =? idx then Some ARGS_PARSE_COMMANDS_OR_STRING
            else menu_argument fuel a idx (i + 3)
        end
  end.

(** The kind of the argument [idx]; [None] where a missing argument is read. *)
Definition args_parse_callback (cb : args_callback) (a : args) (idx : Z) : option args_parse_type :=
  match cb with
  | cmd_bind_key_args_parse | cmd_choose_tree_args_parse | cmd_command_prompt_args_parse
  | cmd_confirm_before_args_parse | cmd_display_panes_args_parse => Some ARGS_PARSE_COMMANDS_OR_STRING
  | cmd_if_shell_args_parse =>
      Some (if (idx =? 1) || (idx =? 2) then ARGS_PARSE_COMMANDS_OR_STRING else ARGS_PARSE_STRING)
  | cmd_run_shell_args_parse =>
      Some (if negb (args_has a 67 =? 0) then ARGS_PARSE_COMMANDS_OR_STRING else ARGS_PARSE_STRING)
  | cmd_set_option_args_parse =>
      Some (if idx =? 1 then ARGS_PARSE_COMMANDS_OR_STRING else ARGS_PARSE_STRING)
  | cmd_display_menu_args_parse => menu_argument (S (Z.to_nat idx)) a idx 0
  end.
End Callbacks.

(** ** Entries *)

Definition cmd_attach_session_entry : cmd_entry :=
  CE (bytes "attach-session") (Some (bytes "attach")) (AP (bytes "c:dEf:rt:x") 0 0 None)
    (bytes "[-dErx] [-c working-directory] [-f flags] [-t target-session]")
    no_flag no_flag (Z.lor CMD_STARTSERVER CMD_READONLY).

Definition cmd_bind_key_entry : cmd_entry :=
  CE (bytes "bind-key") (Some (bytes "bind")) (AP (bytes "nrN:T:") 1 (-1) (Some cmd_bind_key_args_parse))
    (bytes "[-nr] [-T key-table] [-N note] key [command [argument ...]]")
    no_flag no_flag CMD_AFTERHOOK.

Definition cmd_break_pane_entry : cmd_entry :=
  CE (bytes "break-pane") (Some (bytes "breakp")) (AP (bytes "abdPF:n:s:t:") 0 0 None)
    (bytes "[-abdP] [-F format] [-n window-name] [-s src-pane] [-t dst-window]")
    (EF 115 CMD_FIND_PANE 0) (EF 116 CMD_FIND_WINDOW CMD_FIND_WINDOW_INDEX) 0.

Definition cmd_capture_pane_entry : cmd_entry :=
  CE (bytes "capture-pane") (Some (bytes "capturep")) (AP (bytes "ab:CeE:JMNpPqS:Tt:") 0 0 None)
    (bytes "[-aCeJMNpPqT] [-b buffer-name] [-E end-line] [-S start-line] [-t target-pane]")
    no_flag (EF 116 CMD_FIND_PANE 0) CMD_AFTERHOOK.

Definition cmd_choose_buffer_entry : cmd_entry :=
  CE (bytes "choose-buffer") None (AP (bytes "F:f:K:NO:rt:yZ") 0 1 (Some cmd_choose_tree_args_parse))
    (bytes "[-NrZ] [-F format] [-f filter] [-K key-format] [-O sort-order] [-t target-pane] [template]")
    no_flag (EF 116 CMD_FIND_PANE 0) 0.

Definition cmd_choose_client_entry : cmd_entry :=
  CE (bytes "choose-client") None (AP (bytes "F:f:K:NO:rt:yZ") 0 1 (Some cmd_choose_tree_args_parse))
    (bytes "[-NrZ] [-F format] [-f filter] [-K key-format] [-O sort-order] [-t target-pane] [template]")
    no_flag (EF 116 CMD_FIND_PANE 0) 0.

Definition cmd_choose_tree_entry : cmd_entry :=
  CE (bytes "choose-tree") None (AP (bytes "F:f:GK:NO:rst:wyZ") 0 1 (Some cmd_choose_tree_args_parse))
    (bytes "[-GNrswZ] [-F format] [-f filter] [-K key-format] [-O sort-order] [-t target-pane] [template]")
    no_flag (EF 116 CMD_FIND_PANE 0) 0.

Definition cmd_clear_history_entry : cmd_entry :=
  CE (bytes "clear-history") (Some (bytes "clearhist")) (AP (bytes "Ht:") 0 0 None)
    (bytes "[-H] [-t target-pane]")
    no_flag (EF 116 CMD_FIND_PANE 0) CMD_AFTERHOOK.

Definition cmd_clear_prompt_history_entry : cmd_entry :=
  CE (bytes "clear-prompt-history") (Some (bytes "clearphist")) (AP (bytes "T:") 0 0 None)
    (bytes "[-T prompt-type]")
    no_flag no_flag CMD_AFTERHOOK.

Definition cmd_clock_mode_entry : cmd_entry :=
  CE (bytes "clock-mode") None (AP (bytes "t:") 0 0 None)
    (bytes "[-t target-pane]")
    no_flag (EF 116 CMD_FIND_PANE 0) CMD_AFTERHOOK.

Definition cmd_command_prompt_entry : cmd_entry :=
  CE (bytes "command-prompt") None (AP (bytes "1CbeFiklI:Np:t:T:") 0 1 (Some cmd_command_prompt_args_parse))
    (bytes "[-1CbeFiklN] [-I inputs] [-p prompts] [-t target-client] [-T prompt-type] [template]")
    no_flag no_flag CMD_CLIENT_TFLAG.

Definition cmd_confirm_before_entry : cmd_entry :=
  CE (bytes "confirm-before") (Some (bytes "confirm")) (AP (bytes "bc:p:t:y") 1 1 (Some cmd_confirm_before_args_parse))
    (bytes "[-by] [-c confirm-key] [-p prompt] [-t target-client] command")
    no_flag no_flag CMD_CLIENT_TFLAG.

Definition cmd_copy_mode_entry : cmd_entry :=
  CE (bytes "copy-mode") None (AP (bytes "deHLMqSs:t:u") 0 0 None)
    (bytes "[-deHLMqSu] [-s src-pane] [-t target-pane]")
    (EF 115 CMD_FIND_PANE 0) (EF 116 CMD_FIND_PANE 0) (Z.lor CMD_AFTERHOOK CMD_READONLY).

Definition cmd_customize_mode_entry : cmd_entry :=
  CE (bytes "customize-mode") None (AP (bytes "F:f:Nt:yZ") 0 0 None)
    (bytes "[-NZ] [-F format] [-f filter] [-t target-pane]")
    no_flag (EF 116 CMD_FIND_PANE 0) 0.

Definition cmd_delete_buffer_entry : cmd_entry :=
  CE (bytes "delete-buffer") (Some (bytes "deleteb")) (AP (bytes "b:") 0 0 None)
    (bytes "[-b buffer-name]")
    no_flag no_flag CMD_AFTERHOOK.

Definition cmd_detach_client_entry : cmd_entry :=
  CE (bytes "detach-client") (Some (bytes "detach")) (AP (bytes "aE:s:t:P") 0 0 None)
    (bytes "[-aP] [-E shell-command] [-s target-session] [-t target-client]")
    (EF 115 CMD_FIND_SESSION CMD_FIND_CANFAIL) no_flag (Z.lor CMD_READONLY CMD_CLIENT_TFLAG).

Definition cmd_display_menu_entry : cmd_entry :=
  CE (bytes "display-menu") (Some (bytes "menu")) (AP (bytes "b:c:C:H:s:S:MOt:T:x:y:") 1 (-1) (Some cmd_display_menu_args_parse))
    (bytes "[-MO] [-b border-lines] [-c target-client] [-C starting-choice] [-H selected-style] [-s style] [-S border-style] [-t target-pane] [-T title] [-x position] [-y position] name [key] [command] ...")
    no_flag (EF 116 CMD_FIND_PANE 0) (Z.lor CMD_AFTERHOOK CMD_CLIENT_CFLAG).

Definition cmd_display_message_entry : cmd_entry :=
  CE (bytes "display-message") (Some (bytes "display")) (AP (bytes "aCc:d:lINpt:F:v") 0 1 None)
    (bytes "[-aCIlNpv] [-c target-client] [-d delay] [-F format] [-t target-pane] [message]")
    no_flag (EF 116 CMD_FIND_PANE CMD_FIND_CANFAIL) (Z.lor (Z.lor CMD_AFTERHOOK CMD_CLIENT_CFLAG) CMD_CLIENT_CANFAIL).

Definition cmd_display_popup_entry : cmd_entry :=
  CE (bytes "display-popup") (Some (bytes "popup")) (AP (bytes "Bb:Cc:d:e:Eh:kNs:S:t:T:w:x:y:") 0 (-1) None)
    (bytes "[-BCEkN] [-b border-lines] [-c target-client] [-d start-directory] [-e environment] [-h height] [-s style] [-S border-style] [-t target-pane] [-T title] [-w width] [-x position] [-y position] [shell-command [argument ...]]")
    no_flag (EF 116 CMD_FIND_PANE 0) (Z.lor CMD_AFTERHOOK CMD_CLIENT_CFLAG).

Definition cmd_display_panes_entry : cmd_entry :=
  CE (bytes "display-panes") (Some (bytes "displayp")) (AP (bytes "bd:Nt:") 0 1 (Some cmd_display_panes_args_parse))
    (bytes "[-bN] [-d duration] [-t target-client] [template]")
    no_flag no_flag (Z.lor CMD_AFTERHOOK CMD_CLIENT_TFLAG).

Definition cmd_find_window_entry : cmd_entry :=
  CE (bytes "find-window") (Some (bytes "findw")) (AP (bytes "CiNrt:TZ") 1 1 None)
    (bytes "[-CiNrTZ] [-t target-pane] match-string")
    no_flag (EF 116 CMD_FIND_PANE 0) 0.

Definition cmd_has_session_entry : cmd_entry :=
  CE (bytes "has-session") (Some (bytes "has")) (AP (bytes "t:") 0 0 None)
    (bytes "[-t target-session]")
    no_flag (EF 116 CMD_FIND_SESSION 0) 0.

Definition cmd_if_shell_entry : cmd_entry :=
  CE (bytes "if-shell") (Some (bytes "if")) (AP (bytes "bFt:") 2 3 (Some cmd_if_shell_args_parse))
    (bytes "[-bF] [-t target-pane] shell-command command [command]")
    no_flag (EF 116 CMD_FIND_PANE CMD_FIND_CANFAIL) 0.

Definition cmd_join_pane_entry : cmd_entry :=
  CE (bytes "join-pane") (Some (bytes "joinp")) (AP (bytes "bdfhvp:l:s:t:") 0 0 None)
    (bytes "[-bdfhv] [-l size] [-s src-pane] [-t dst-pane]")
    (EF 115 CMD_FIND_PANE CMD_FIND_DEFAULT_MARKED) (EF 116 CMD_FIND_PANE 0) 0.

Definition cmd_kill_pane_entry : cmd_entry :=
  CE (bytes "kill-pane") (Some (bytes "killp")) (AP (bytes "at:") 0 0 None)
    (bytes "[-a] [-t target-pane]")
    no_flag (EF 116 CMD_FIND_PANE 0) CMD_AFTERHOOK.

Definition cmd_kill_server_entry : cmd_entry :=
  CE (bytes "kill-server") None (AP (bytes "") 0 0 None)
    (bytes "")
    no_flag no_flag 0.

Definition cmd_kill_session_entry : cmd_entry :=
  CE (bytes "kill-session") None (AP (bytes "aCt:") 0 0 None)
    (bytes "[-aC] [-t target-session]")
    no_flag (EF 116 CMD_FIND_SESSION 0) 0.

Definition cmd_kill_window_entry : cmd_entry :=
  CE (bytes "kill-window") (Some (bytes "killw")) (AP (bytes "at:") 0 0 None)
    (bytes "[-a] [-t target-window]")
    no_flag (EF 116 CMD_FIND_WINDOW 0) 0.

Definition cmd_last_pane_entry : cmd_entry :=
  CE (bytes "last-pane") (Some (bytes "lastp")) (AP (bytes "det:Z") 0 0 None)
    (bytes "[-deZ] [-t target-window]")
    no_flag (EF 116 CMD_FIND_WINDOW 0) 0.

Definition cmd_last_window_entry : cmd_entry :=
  CE (bytes "last-window") (Some (bytes "last")) (AP (bytes "t:") 0 0 None)
    (bytes "[-t target-session]")
    no_flag (EF 116 CMD_FIND_SESSION 0) 0.

Definition cmd_link_window_entry : cmd_entry :=
  CE (bytes "link-window") (Some (bytes "linkw")) (AP (bytes "abdks:t:") 0 0 None)
    (bytes "[-abdk] [-s src-window] [-t dst-window]")
    (EF 115 CMD_FIND_WINDOW 0) no_flag 0.

Definition cmd_list_buffers_entry : cmd_entry :=
  CE (bytes "list-buffers") (Some (bytes "lsb")) (AP (bytes "F:f:O:r") 0 0 None)
    (bytes "[-F format] [-f filter] [-O order]")
    no_flag no_flag CMD_AFTERHOOK.

Definition cmd_list_clients_entry : cmd_entry :=
  CE (bytes "list-clients") (Some (bytes "lsc")) (AP (bytes "F:f:O:rt:") 0 0 None)
    (bytes "[-F format] [-f filter] [-O order][-t target-session]")
    no_flag (EF 116 CMD_FIND_SESSION 0) (Z.lor CMD_READONLY CMD_AFTERHOOK).

Definition cmd_list_commands_entry : cmd_entry :=
  CE (bytes "list-commands") (Some (bytes "lscm")) (AP (bytes "F:") 0 1 None)
    (bytes "[-F format] [command]")
    no_flag no_flag (Z.lor CMD_STARTSERVER CMD_AFTERHOOK).

Definition cmd_list_keys_entry : cmd_entry :=
  CE (bytes "list-keys") (Some (bytes "lsk")) (AP (bytes "1aF:NO:P:rT:") 0 1 None)
    (bytes "[-1aNr] [-F format] [-O order] [-P prefix-string][-T key-table] [key]")
    no_flag no_flag (Z.lor CMD_STARTSERVER CMD_AFTERHOOK).

Definition cmd_list_panes_entry : cmd_entry :=
  CE (bytes "list-panes") (Some (bytes "lsp")) (AP (bytes "aF:f:O:rst:") 0 0 None)
    (bytes "[-asr] [-F format] [-f filter] [-O order][-t target-window]")
    no_flag (EF 116 CMD_FIND_WINDOW 0) CMD_AFTERHOOK.

Definition cmd_list_sessions_entry : cmd_entry :=
  CE (bytes "list-sessions") (Some (bytes "ls")) (AP (bytes "F:f:O:r") 0 0 None)
    (bytes "[-r] [-F format] [-f filter] [-O order]")
    no_flag no_flag CMD_AFTERHOOK.

Definition cmd_list_windows_entry : cmd_entry :=
  CE (bytes "list-windows") (Some (bytes "lsw")) (AP (bytes "aF:f:O:rt:") 0 0 None)
    (bytes "[-ar] [-F format] [-f filter] [-O order][-t target-session]")
    no_flag (EF 116 CMD_FIND_SESSION 0) CMD_AFTERHOOK.

Definition cmd_load_buffer_entry : cmd_entry :=
  CE (bytes "load-buffer") (Some (bytes "loadb")) (AP (bytes "b:t:w") 1 1 None)
    (bytes "[-b buffer-name] [-t target-client] path")
    no_flag no_flag (Z.lor (Z.lor CMD_AFTERHOOK CMD_CLIENT_TFLAG) CMD_CLIENT_CANFAIL).

Definition cmd_lock_client_entry : cmd_entry :=
  CE (bytes "lock-client") (Some (bytes "lockc")) (AP (bytes "t:") 0 0 None)
    (bytes "[-t target-client]")
    no_flag no_flag (Z.lor CMD_AFTERHOOK CMD_CLIENT_TFLAG).

Definition cmd_lock_server_entry : cmd_entry :=
  CE (bytes "lock-server") (Some (bytes "lock")) (AP (bytes "") 0 0 None)
    (bytes "")
    no_flag no_flag CMD_AFTERHOOK.

Definition cmd_lock_session_entry : cmd_entry :=
  CE (bytes "lock-session") (Some (bytes "locks")) (AP (bytes "t:") 0 0 None)
    (bytes "[-t target-session]")
    no_flag (EF 116 CMD_FIND_SESSION 0) CMD_AFTERHOOK.

Definition cmd_move_pane_entry : cmd_entry :=
  CE (bytes "move-pane") (Some (bytes "movep")) (AP (bytes "bdfhvp:l:s:t:") 0 0 None)
    (bytes "[-bdfhv] [-l size] [-s src-pane] [-t dst-pane]")
    (EF 115 CMD_FIND_PANE CMD_FIND_DEFAULT_MARKED) (EF 116 CMD_FIND_PANE 0) 0.

Definition cmd_move_window_entry : cmd_entry :=
  CE (bytes "move-window") (Some (bytes "movew")) (AP (bytes "abdkrs:t:") 0 0 None)
    (bytes "[-abdkr] [-s src-window] [-t dst-window]")
    (EF 115 CMD_FIND_WINDOW 0) no_flag 0.

Definition cmd_new_pane_entry : cmd_entry :=
  CE (bytes "new-pane") (Some (bytes "newp")) (AP (bytes "bc:de:fF:hIkl:Lm:p:PR:s:S:t:vx:X:y:Y:Z") 0 (-1) None)
    (bytes "[-bdefhIklPvZ] [-c start-directory] [-e environment] [-F format] [-l size] [-m message] [-p percentage] [-s style] [-S active-border-style] [-R inactive-border-style] [-x width] [-y height] [-X x-position] [-Y y-position] [-t target-pane] [shell-command [argument ...]]")
    no_flag (EF 116 CMD_FIND_PANE 0) 0.

Definition cmd_newmux_clear_recently_closed_entry : cmd_entry :=
  CE (bytes "newmux-clear-recently-closed") None (AP (bytes "") 0 0 None)
    (bytes "")
    no_flag no_flag 0.

Definition cmd_newmux_claim_reserved_closed_entry : cmd_entry :=
  CE (bytes "newmux-claim-reserved-closed") None (AP (bytes "PS:t:") 0 0 None)
    (bytes "[-P] -S sequence [-t target-window]")
    no_flag (EF 116 CMD_FIND_WINDOW CMD_FIND_CANFAIL) 0.

Definition cmd_newmux_create_window_entry : cmd_entry :=
  CE (bytes "newmux-create-window") None (AP (bytes "Pi:s:t:") 0 0 None)
    (bytes "[-P] [-i target-index] [-s primary-session] [-t target-pane]")
    no_flag (EF 116 CMD_FIND_PANE 0) 0.

Definition cmd_newmux_delete_window_entry : cmd_entry :=
  CE (bytes "newmux-delete-window") None (AP (bytes "Ps:t:") 0 0 None)
    (bytes "[-P] [-s primary-session] [-t target-window]")
    no_flag (EF 116 CMD_FIND_WINDOW 0) 0.

Definition cmd_newmux_list_recently_closed_entry : cmd_entry :=
  CE (bytes "newmux-list-recently-closed") None (AP (bytes "") 0 0 None)
    (bytes "")
    no_flag no_flag 0.

Definition cmd_newmux_reopen_latest_closed_entry : cmd_entry :=
  CE (bytes "newmux-reopen-latest-closed") None (AP (bytes "Pt:") 0 0 None)
    (bytes "[-P] [-t target-window]")
    no_flag (EF 116 CMD_FIND_WINDOW CMD_FIND_CANFAIL) 0.

Definition cmd_newmux_release_reserved_closed_entry : cmd_entry :=
  CE (bytes "newmux-release-reserved-closed") None (AP (bytes "PS:") 0 0 None)
    (bytes "[-P] -S sequence")
    no_flag no_flag 0.

Definition cmd_newmux_reserve_latest_closed_entry : cmd_entry :=
  CE (bytes "newmux-reserve-latest-closed") None (AP (bytes "P") 0 0 None)
    (bytes "[-P]")
    no_flag no_flag 0.

Definition cmd_newmux_soft_delete_pane_entry : cmd_entry :=
  CE (bytes "newmux-soft-delete-pane") None (AP (bytes "t:") 0 0 None)
    (bytes "[-t target-pane]")
    no_flag (EF 116 CMD_FIND_PANE 0) 0.

Definition cmd_newmux_soft_delete_session_entry : cmd_entry :=
  CE (bytes "newmux-soft-delete-session") None (AP (bytes "t:") 0 0 None)
    (bytes "[-t target-session]")
    no_flag (EF 116 CMD_FIND_SESSION 0) 0.

Definition cmd_newmux_soft_delete_window_entry : cmd_entry :=
  CE (bytes "newmux-soft-delete-window") None (AP (bytes "t:") 0 0 None)
    (bytes "[-t target-window]")
    no_flag (EF 116 CMD_FIND_WINDOW 0) 0.

Definition cmd_new_session_entry : cmd_entry :=
  CE (bytes "new-session") (Some (bytes "new")) (AP (bytes "Ac:dDe:EF:f:n:Ps:t:x:Xy:") 0 (-1) None)
    (bytes "[-AdDEPX] [-c start-directory] [-e environment] [-F format] [-f flags] [-n window-name] [-s session-name] [-t target-session] [-x width] [-y height] [shell-command [argument ...]]")
    no_flag (EF 116 CMD_FIND_SESSION CMD_FIND_CANFAIL) CMD_STARTSERVER.

Definition cmd_new_window_entry : cmd_entry :=
  CE (bytes "new-window") (Some (bytes "neww")) (AP (bytes "abc:de:F:kn:PSt:") 0 (-1) None)
    (bytes "[-abdkPS] [-c start-directory] [-e environment] [-F format] [-n window-name] [-t target-window] [shell-command [argument ...]]")
    no_flag (EF 116 CMD_FIND_WINDOW CMD_FIND_WINDOW_INDEX) 0.

Definition cmd_next_layout_entry : cmd_entry :=
  CE (bytes "next-layout") (Some (bytes "nextl")) (AP (bytes "t:") 0 0 None)
    (bytes "[-t target-window]")
    no_flag (EF 116 CMD_FIND_WINDOW 0) CMD_AFTERHOOK.

Definition cmd_next_window_entry : cmd_entry :=
  CE (bytes "next-window") (Some (bytes "next")) (AP (bytes "at:") 0 0 None)
    (bytes "[-a] [-t target-session]")
    no_flag (EF 116 CMD_FIND_SESSION 0) 0.

Definition cmd_paste_buffer_entry : cmd_entry :=
  CE (bytes "paste-buffer") (Some (bytes "pasteb")) (AP (bytes "db:prSs:t:") 0 0 None)
    (bytes "[-dprS] [-s separator] [-b buffer-name] [-t target-pane]")
    no_flag (EF 116 CMD_FIND_PANE 0) CMD_AFTERHOOK.

Definition cmd_pipe_pane_entry : cmd_entry :=
  CE (bytes "pipe-pane") (Some (bytes "pipep")) (AP (bytes "IOot:") 0 1 None)
    (bytes "[-IOo] [-t target-pane] [shell-command]")
    no_flag (EF 116 CMD_FIND_PANE 0) CMD_AFTERHOOK.

Definition cmd_previous_layout_entry : cmd_entry :=
  CE (bytes "previous-layout") (Some (bytes "prevl")) (AP (bytes "t:") 0 0 None)
    (bytes "[-t target-window]")
    no_flag (EF 116 CMD_FIND_WINDOW 0) CMD_AFTERHOOK.

Definition cmd_previous_window_entry : cmd_entry :=
  CE (bytes "previous-window") (Some (bytes "prev")) (AP (bytes "at:") 0 0 None)
    (bytes "[-a] [-t target-session]")
    no_flag (EF 116 CMD_FIND_SESSION 0) 0.

Definition cmd_refresh_client_entry : cmd_entry :=
  CE (bytes "refresh-client") (Some (bytes "refresh")) (AP (bytes "A:B:cC:Df:r:F:lLRSt:U") 0 1 None)
    (bytes "[-cDlLRSU] [-A pane:state] [-B name:what:format] [-C XxY] [-f flags] [-r pane:report] [-t target-client] [adjustment]")
    no_flag no_flag (Z.lor CMD_AFTERHOOK CMD_CLIENT_TFLAG).

Definition cmd_rename_session_entry : cmd_entry :=
  CE (bytes "rename-session") (Some (bytes "rename")) (AP (bytes "t:") 1 1 None)
    (bytes "[-t target-session] new-name")
    no_flag (EF 116 CMD_FIND_SESSION 0) CMD_AFTERHOOK.

Definition cmd_rename_window_entry : cmd_entry :=
  CE (bytes "rename-window") (Some (bytes "renamew")) (AP (bytes "t:") 1 1 None)
    (bytes "[-t target-window] new-name")
    no_flag (EF 116 CMD_FIND_WINDOW 0) CMD_AFTERHOOK.

Definition cmd_resize_pane_entry : cmd_entry :=
  CE (bytes "resize-pane") (Some (bytes "resizep")) (AP (bytes "DLMRTt:Ux:y:Z") 0 1 None)
    (bytes "[-DLMRTUZ] [-x width] [-y height] [-t target-pane] [adjustment]")
    no_flag (EF 116 CMD_FIND_PANE 0) CMD_AFTERHOOK.

Definition cmd_resize_window_entry : cmd_entry :=
  CE (bytes "resize-window") (Some (bytes "resizew")) (AP (bytes "aADLRt:Ux:y:") 0 1 None)
    (bytes "[-aADLRU] [-x width] [-y height] [-t target-window] [adjustment]")
    no_flag (EF 116 CMD_FIND_WINDOW 0) CMD_AFTERHOOK.

Definition cmd_respawn_pane_entry : cmd_entry :=
  CE (bytes "respawn-pane") (Some (bytes "respawnp")) (AP (bytes "c:e:kt:") 0 (-1) None)
    (bytes "[-k] [-c start-directory] [-e environment] [-t target-pane] [shell-command [argument ...]]")
    no_flag (EF 116 CMD_FIND_PANE 0) 0.

Definition cmd_respawn_window_entry : cmd_entry :=
  CE (bytes "respawn-window") (Some (bytes "respawnw")) (AP (bytes "c:e:kt:") 0 (-1) None)
    (bytes "[-k] [-c start-directory] [-e environment] [-t target-window] [shell-command [argument ...]]")
    no_flag (EF 116 CMD_FIND_WINDOW 0) 0.

Definition cmd_rotate_window_entry : cmd_entry :=
  CE (bytes "rotate-window") (Some (bytes "rotatew")) (AP (bytes "Dt:UZ") 0 0 None)
    (bytes "[-DUZ] [-t target-window]")
    no_flag (EF 116 CMD_FIND_WINDOW 0) 0.

Definition cmd_run_shell_entry : cmd_entry :=
  CE (bytes "run-shell") (Some (bytes "run")) (AP (bytes "bd:Ct:Es:c:") 0 1 (Some cmd_run_shell_args_parse))
    (bytes "[-bCE] [-c start-directory] [-d delay] [-t target-pane] [shell-command]")
    no_flag (EF 116 CMD_FIND_PANE CMD_FIND_CANFAIL) 0.

Definition cmd_save_buffer_entry : cmd_entry :=
  CE (bytes "save-buffer") (Some (bytes "saveb")) (AP (bytes "ab:") 1 1 None)
    (bytes "[-a] [-b buffer-name] path")
    no_flag no_flag CMD_AFTERHOOK.

Definition cmd_select_layout_entry : cmd_entry :=
  CE (bytes "select-layout") (Some (bytes "selectl")) (AP (bytes "Enopt:") 0 1 None)
    (bytes "[-Enop] [-t target-pane] [layout-name]")
    no_flag (EF 116 CMD_FIND_PANE 0) CMD_AFTERHOOK.

Definition cmd_select_pane_entry : cmd_entry :=
  CE (bytes "select-pane") (Some (bytes "selectp")) (AP (bytes "DdegLlMmP:RT:t:UZ") 0 0 None)
    (bytes "[-DdeLlMmRUZ] [-T title] [-t target-pane]")
    no_flag (EF 116 CMD_FIND_PANE 0) 0.

Definition cmd_select_window_entry : cmd_entry :=
  CE (bytes "select-window") (Some (bytes "selectw")) (AP (bytes "lnpTt:") 0 0 None)
    (bytes "[-lnpT] [-t target-window]")
    no_flag (EF 116 CMD_FIND_WINDOW 0) 0.

Definition cmd_send_keys_entry : cmd_entry :=
  CE (bytes "send-keys") (Some (bytes "send")) (AP (bytes "c:FHKlMN:Rt:X") 0 (-1) None)
    (bytes "[-FHKlMRX] [-c target-client] [-N repeat-count] [-t target-pane] [key ...]")
    no_flag (EF 116 CMD_FIND_PANE 0) (Z.lor (Z.lor (Z.lor CMD_AFTERHOOK CMD_CLIENT_CFLAG) CMD_CLIENT_CANFAIL) CMD_READONLY).

Definition cmd_send_prefix_entry : cmd_entry :=
  CE (bytes "send-prefix") None (AP (bytes "2t:") 0 0 None)
    (bytes "[-2] [-t target-pane]")
    no_flag (EF 116 CMD_FIND_PANE 0) CMD_AFTERHOOK.

Definition cmd_server_access_entry : cmd_entry :=
  CE (bytes "server-access") None (AP (bytes "adlrw") 0 1 None)
    (bytes "[-adlrw] [-t target-pane] [user]")
    no_flag no_flag CMD_CLIENT_CANFAIL.

Definition cmd_set_buffer_entry : cmd_entry :=
  CE (bytes "set-buffer") (Some (bytes "setb")) (AP (bytes "ab:t:n:w") 0 1 None)
    (bytes "[-aw] [-b buffer-name] [-n new-buffer-name] [-t target-client] [data]")
    no_flag no_flag (Z.lor (Z.lor CMD_AFTERHOOK CMD_CLIENT_TFLAG) CMD_CLIENT_CANFAIL).

Definition cmd_set_environment_entry : cmd_entry :=
  CE (bytes "set-environment") (Some (bytes "setenv")) (AP (bytes "Fhgrt:u") 1 2 None)
    (bytes "[-Fhgru] [-t target-session] variable [value]")
    no_flag (EF 116 CMD_FIND_SESSION CMD_FIND_CANFAIL) CMD_AFTERHOOK.

Definition cmd_set_hook_entry : cmd_entry :=
  CE (bytes "set-hook") None (AP (bytes "agpRt:uw") 1 2 (Some cmd_set_option_args_parse))
    (bytes "[-agpRuw] [-t target-pane] hook [command]")
    no_flag (EF 116 CMD_FIND_PANE CMD_FIND_CANFAIL) CMD_AFTERHOOK.

Definition cmd_set_option_entry : cmd_entry :=
  CE (bytes "set-option") (Some (bytes "set")) (AP (bytes "aFgopqst:uUw") 1 2 (Some cmd_set_option_args_parse))
    (bytes "[-aFgopqsuUw] [-t target-pane] option [value]")
    no_flag (EF 116 CMD_FIND_PANE CMD_FIND_CANFAIL) CMD_AFTERHOOK.

Definition cmd_set_window_option_entry : cmd_entry :=
  CE (bytes "set-window-option") (Some (bytes "setw")) (AP (bytes "aFgoqt:u") 1 2 (Some cmd_set_option_args_parse))
    (bytes "[-aFgoqu] [-t target-window] option [value]")
    no_flag (EF 116 CMD_FIND_WINDOW CMD_FIND_CANFAIL) CMD_AFTERHOOK.

Definition cmd_show_buffer_entry : cmd_entry :=
  CE (bytes "show-buffer") (Some (bytes "showb")) (AP (bytes "b:") 0 0 None)
    (bytes "[-b buffer-name]")
    no_flag no_flag CMD_AFTERHOOK.

Definition cmd_show_environment_entry : cmd_entry :=
  CE (bytes "show-environment") (Some (bytes "showenv")) (AP (bytes "hgst:") 0 1 None)
    (bytes "[-hgs] [-t target-session] [variable]")
    no_flag (EF 116 CMD_FIND_SESSION CMD_FIND_CANFAIL) CMD_AFTERHOOK.

Definition cmd_show_hooks_entry : cmd_entry :=
  CE (bytes "show-hooks") None (AP (bytes "gpt:w") 0 1 None)
    (bytes "[-gpw] [-t target-pane] [hook]")
    no_flag (EF 116 CMD_FIND_PANE CMD_FIND_CANFAIL) CMD_AFTERHOOK.

Definition cmd_show_messages_entry : cmd_entry :=
  CE (bytes "show-messages") (Some (bytes "showmsgs")) (AP (bytes "JTt:") 0 0 None)
    (bytes "[-JT] [-t target-client]")
    no_flag no_flag (Z.lor (Z.lor CMD_AFTERHOOK CMD_CLIENT_TFLAG) CMD_CLIENT_CANFAIL).

Definition cmd_show_options_entry : cmd_entry :=
  CE (bytes "show-options") (Some (bytes "show")) (AP (bytes "AgHpqst:vw") 0 1 None)
    (bytes "[-AgHpqsvw] [-t target-pane] [option]")
    no_flag (EF 116 CMD_FIND_PANE CMD_FIND_CANFAIL) CMD_AFTERHOOK.

Definition cmd_show_prompt_history_entry : cmd_entry :=
  CE (bytes "show-prompt-history") (Some (bytes "showphist")) (AP (bytes "T:") 0 0 None)
    (bytes "[-T prompt-type]")
    no_flag no_flag CMD_AFTERHOOK.

Definition cmd_show_window_options_entry : cmd_entry :=
  CE (bytes "show-window-options") (Some (bytes "showw")) (AP (bytes "gvt:") 0 1 None)
    (bytes "[-gv] [-t target-window] [option]")
    no_flag (EF 116 CMD_FIND_WINDOW CMD_FIND_CANFAIL) CMD_AFTERHOOK.

Definition cmd_source_file_entry : cmd_entry :=
  CE (bytes "source-file") (Some (bytes "source")) (AP (bytes "t:Fnqv") 1 (-1) None)
    (bytes "[-Fnqv] [-t target-pane] path ...")
    no_flag (EF 116 CMD_FIND_PANE CMD_FIND_CANFAIL) 0.

Definition cmd_split_window_entry : cmd_entry :=
  CE (bytes "split-window") (Some (bytes "splitw")) (AP (bytes "bc:de:fF:hIkl:m:p:PR:s:S:t:vZ") 0 (-1) None)
    (bytes "[-bdefhIklPvZ] [-c start-directory] [-e environment] [-F format] [-l size] [-m message] [-p percentage] [-s style] [-S active-border-style] [-R inactive-border-style] [-t target-pane] [shell-command [argument ...]]")
    no_flag (EF 116 CMD_FIND_PANE 0) 0.

Definition cmd_start_server_entry : cmd_entry :=
  CE (bytes "start-server") (Some (bytes "start")) (AP (bytes "") 0 0 None)
    (bytes "")
    no_flag no_flag CMD_STARTSERVER.

Definition cmd_suspend_client_entry : cmd_entry :=
  CE (bytes "suspend-client") (Some (bytes "suspendc")) (AP (bytes "t:") 0 0 None)
    (bytes "[-t target-client]")
    no_flag no_flag CMD_CLIENT_TFLAG.

Definition cmd_swap_pane_entry : cmd_entry :=
  CE (bytes "swap-pane") (Some (bytes "swapp")) (AP (bytes "dDs:t:UZ") 0 0 None)
    (bytes "[-dDUZ] [-s src-pane] [-t dst-pane]")
    (EF 115 CMD_FIND_PANE CMD_FIND_DEFAULT_MARKED) (EF 116 CMD_FIND_PANE 0) 0.

Definition cmd_swap_window_entry : cmd_entry :=
  CE (bytes "swap-window") (Some (bytes "swapw")) (AP (bytes "ds:t:") 0 0 None)
    (bytes "[-d] [-s src-window] [-t dst-window]")
    (EF 115 CMD_FIND_WINDOW CMD_FIND_DEFAULT_MARKED) (EF 116 CMD_FIND_WINDOW 0) 0.

Definition cmd_switch_client_entry : cmd_entry :=
  CE (bytes "switch-client") (Some (bytes "switchc")) (AP (bytes "c:EFlnO:pt:rT:Z") 0 0 None)
    (bytes "[-ElnprZ] [-c target-client] [-t target-session] [-T key-table] [-O order]")
    no_flag no_flag (Z.lor CMD_READONLY CMD_CLIENT_CFLAG).

Definition cmd_unbind_key_entry : cmd_entry :=
  CE (bytes "unbind-key") (Some (bytes "unbind")) (AP (bytes "anqT:") 0 1 None)
    (bytes "[-anq] [-T key-table] key")
    no_flag no_flag CMD_AFTERHOOK.

Definition cmd_unlink_window_entry : cmd_entry :=
  CE (bytes "unlink-window") (Some (bytes "unlinkw")) (AP (bytes "kt:") 0 0 None)
    (bytes "[-k] [-t target-window]")
    no_flag (EF 116 CMD_FIND_WINDOW 0) 0.

Definition cmd_wait_for_entry : cmd_entry :=
  CE (bytes "wait-for") (Some (bytes "wait")) (AP (bytes "LSU") 1 1 None)
    (bytes "[-L|-S|-U] channel")
    no_flag no_flag 0.

(** ** The table *)

Definition cmd_table : list cmd_entry :=
  [cmd_attach_session_entry; cmd_bind_key_entry; cmd_break_pane_entry; cmd_capture_pane_entry;
   cmd_choose_buffer_entry; cmd_choose_client_entry; cmd_choose_tree_entry; cmd_clear_history_entry;
   cmd_clear_prompt_history_entry; cmd_clock_mode_entry; cmd_command_prompt_entry;
   cmd_confirm_before_entry; cmd_copy_mode_entry; cmd_customize_mode_entry; cmd_delete_buffer_entry;
   cmd_detach_client_entry; cmd_display_menu_entry; cmd_display_message_entry;
   cmd_display_popup_entry; cmd_display_panes_entry; cmd_find_window_entry; cmd_has_session_entry;
   cmd_if_shell_entry; cmd_join_pane_entry; cmd_kill_pane_entry; cmd_kill_server_entry;
   cmd_kill_session_entry; cmd_kill_window_entry; cmd_last_pane_entry; cmd_last_window_entry;
   cmd_link_window_entry; cmd_list_buffers_entry; cmd_list_clients_entry; cmd_list_commands_entry;
   cmd_list_keys_entry; cmd_list_panes_entry; cmd_list_sessions_entry; cmd_list_windows_entry;
   cmd_load_buffer_entry; cmd_lock_client_entry; cmd_lock_server_entry; cmd_lock_session_entry;
   cmd_move_pane_entry; cmd_move_window_entry; cmd_new_pane_entry;
   cmd_newmux_clear_recently_closed_entry; cmd_newmux_claim_reserved_closed_entry;
   cmd_newmux_create_window_entry; cmd_newmux_delete_window_entry;
   cmd_newmux_list_recently_closed_entry; cmd_newmux_reopen_latest_closed_entry;
   cmd_newmux_release_reserved_closed_entry; cmd_newmux_reserve_latest_closed_entry;
   cmd_newmux_soft_delete_pane_entry; cmd_newmux_soft_delete_session_entry;
   cmd_newmux_soft_delete_window_entry; cmd_new_session_entry; cmd_new_window_entry;
   cmd_next_layout_entry; cmd_next_window_entry; cmd_paste_buffer_entry; cmd_pipe_pane_entry;
   cmd_previous_layout_entry; cmd_previous_window_entry; cmd_refresh_client_entry;
   cmd_rename_session_entry; cmd_rename_window_entry; cmd_resize_pane_entry;
   cmd_resize_window_entry; cmd_respawn_pane_entry; cmd_respawn_window_entry;
   cmd_rotate_window_entry; cmd_run_shell_entry; cmd_save_buffer_entry; cmd_select_layout_entry;
   cmd_select_pane_entry; cmd_select_window_entry; cmd_send_keys_entry; cmd_send_prefix_entry;
   cmd_server_access_entry; cmd_set_buffer_entry; cmd_set_environment_entry; cmd_set_hook_entry;
   cmd_set_option_entry; cmd_set_window_option_entry; cmd_show_buffer_entry;
   cmd_show_environment_entry; cmd_show_hooks_entry; cmd_show_messages_entry;
   cmd_show_options_entry; cmd_show_prompt_history_entry; cmd_show_window_options_entry;
   cmd_source_file_entry; cmd_split_window_entry; cmd_start_server_entry; cmd_suspend_client_entry;
   cmd_swap_pane_entry; cmd_swap_window_entry; cmd_switch_client_entry; cmd_unbind_key_entry;
   cmd_unlink_window_entry; cmd_wait_for_entry].
