(* ===== verification/Cmd.v ===== *)
(** * Commands (src/tmux/commands/cmd.c)

    Finding the entry of a command, making a command of its arguments, lists of
    commands with their groups, copying with the arguments of an alias or a
    prompt put in, and vectors of arguments.  Strings are their bytes. *)
From Stdlib Require Import Ascii String.
From S2P Require Import Prelude.
From S2P Require Import CString.
From S2P Require Import Utf8.
From S2P Require Import Locale.
From S2P Require Import KeyString.
From S2P Require Import Arguments.
From S2P Require Import CmdTable.

(** ** Finding a command *)

(** [strncmp (name, prefix, strlen (prefix)) == 0] *)
Definition has_prefix (prefix name : list Z) : bool := bool_decide (take (length prefix) name = prefix).

(** The entry found, and whether there may be others. *)
Fixpoint find_entry (table : list cmd_entry) (name : list Z) (found : option cmd_entry) (ambiguous : bool) :
    option cmd_entry * bool :=
  match table with
  | [] => (found, ambiguous)
  | entry :: table =>
      if bool_decide (ce_alias entry = Some name) then (Some entry, false)
      else if negb (has_prefix name (ce_name entry)) then find_entry table name found ambiguous
      else
        let ambiguous := ambiguous || bool_decide (is_Some found) in
        if bool_decide (ce_name entry = name) then (Some entry, ambiguous)
        else find_entry table name (Some entry) ambiguous
  end.

(** The names that could be meant, in a buffer of 8192 bytes. *)
Definition names_size : nat := Z.to_nat 8192.
Fixpoint could_be (table : list cmd_entry) (name : list Z) (s : string) : string :=
  match table with
  | [] => s
  | entry :: table =>
      if negb (has_prefix name (ce_name entry)) then could_be table name s
      else
        let '(s, n) := strlcat s (string_of_bytes (ce_name entry)) names_size in
        if (names_size <=? n)%nat then s
        else
          let '(s, n) := strlcat s ", " names_size in
          if (names_size <=? n)%nat then s else could_be table name s
  end.

Definition cmd_find (name : list Z) : cmd_entry + string :=
  let n := string_of_bytes name in
  let '(found, ambiguous) := find_entry cmd_table name None false in
  if ambiguous then
    let s := could_be cmd_table name "" in
    inr ("ambiguous command: " +:+ n +:+ ", could be: " +:+ str_take (String.length s - 2) s)%string
  else match found with
       | None => inr ("unknown command: " +:+ n)%string
       | Some entry => inl entry
       end.

(** The aliases of the option, if it is there. *)
Definition cmd_get_alias (aliases : option (list (list Z))) (name : list Z) : option (list Z) :=
  match aliases with
  | None => None
  | Some aliases =>
      let fix go (l : list (list Z)) :=
        match l with
        | [] => None
        | a :: l =>
            let n := length name in
            if bool_decide (61 ∈ a) && bool_decide (take n a = name) && bool_decide (a !! n = Some 61) &&
               negb (bool_decide (61 ∈ name))
            then Some (drop (S n) a) else go l
        end in go aliases
  end.

(** ** Making a command *)

Section Cmd.
Context `{Locale}.

Definition cb_of (cb : option args_callback) : option args_parse_cb :=
  cb ← cb; Some (fun a idx => t ← args_parse_callback cb a idx; Some (t, None)).

Definition cmd_parse (values : list args_value) (file : option (list Z)) (line parse_flags : Z) :
    option (cmd + string) :=
  match values with
  | ARGS_STRING name :: _ =>
      match cmd_find name with
      | inr cause => Some (inr cause)
      | inl entry =>
          let spec := ce_args entry in
          let n := string_of_bytes (ce_name entry) in
          r ← args_parse (ap_template spec) (ap_lower spec) (ap_upper spec) (cb_of (ap_cb spec)) values;
          Some match r with
               | inl a => inl (Cmd entry 0 file line parse_flags (args_tree a) (args_list a))
               | inr None => inr ("usage: " +:+ n +:+ " " +:+ string_of_bytes (ce_usage entry))%string
               | inr (Some error) => inr ("command " +:+ n +:+ ": " +:+ error)%string
               end
      end
  | _ => Some (inr "no command"%string)
  end.

(** ** Lists of commands *)

(** Lists are numbered from the next group, which is a counter. *)
Definition cmd_list_new (next_group : Z) : cmd_list * Z := (CmdList next_group [], u32 (next_group + 1)).

Definition set_group (group : Z) (c : cmd) : cmd :=
  let '(Cmd entry _ file line parse_flags tree values) := c in
  Cmd entry group file line parse_flags tree values.

Definition cmd_list_append (cmdlist : cmd_list) (c : cmd) : cmd_list :=
  CmdList (cmd_list_group cmdlist) (cmds cmdlist ++ [set_group (cmd_list_group cmdlist) c]).

Definition cmd_list_append_all (cmdlist from : cmd_list) : cmd_list :=
  CmdList (cmd_list_group cmdlist) (cmds cmdlist ++ map (set_group (cmd_list_group cmdlist)) (cmds from)).

(** The commands keep their groups, and the list gets a new one. *)
Definition cmd_list_move (cmdlist from : cmd_list) (next_group : Z) : cmd_list * Z :=
  (CmdList next_group (cmds cmdlist ++ cmds from), u32 (next_group + 1)).

Definition cmd_list_all_have (cmdlist : cmd_list) (flag : Z) : bool :=
  forallb (fun c => Z.land (Z.lnot (ce_flags (cmd_get_entry c))) flag =? 0) (cmds cmdlist).

Definition cmd_list_any_have (cmdlist : cmd_list) (flag : Z) : bool :=
  existsb (fun c => negb (Z.land (ce_flags (cmd_get_entry c)) flag =? 0)) (cmds cmdlist).

End Cmd.

(** ** Copying *)

(** The characters a quoted argument escapes. *)
Definition template_quote : list Z := [34; 92; 36; 59; 126].
Definition quote_argument (quoted : bool) (s : list Z) : list Z :=
  flat_map (fun c => if quoted && bool_decide (c ∈ template_quote) then [92; c] else [c]) s.

(** The argument [idx] in place of [%idx], and of the first [%%]; with another
    per cent sign after it, quoted. *)
Fixpoint template_from (template s : list Z) (idx : Z) (replaced : bool) : list Z :=
  match template with
  | [] => []
  | ch :: ptr =>
      if negb (ch =? 37) then ch :: template_from ptr s idx replaced
      else
        match ptr with
        | [] => ch :: template_from ptr s idx replaced
        | p :: ptr' =>
            let number := (49 <=? p) && (p <=? 57) && (p - 48 =? idx) in
            if number || ((p =? 37) && negb replaced) then
              let replaced := replaced || negb number in
              match ptr' with
              | 37 :: ptr'' => quote_argument true s ++ template_from ptr'' s idx replaced
              | _ => quote_argument false s ++ template_from ptr' s idx replaced
              end
            else ch :: template_from ptr s idx replaced
        end
  end.
Definition cmd_template_replace (template s : list Z) (idx : Z) : list Z :=
  if bool_decide (37 ∈ template) then template_from template s idx false else template.

Definition replace_all (argv : list (list Z)) (string : list Z) : list Z :=
  (foldl (fun '(expanded, i) s => (cmd_template_replace expanded s (i + 1), i + 1)) (string, 0) argv).1.

(** A flag set as often as it was. *)
Fixpoint args_set_times (n : nat) (a : args) (flag : Z) : args :=
  match n with O => a | S n => args_set_times n (args_set a flag None 0) flag end.

Fixpoint args_copy_copy_value (argv : list (list Z)) (v : args_value) (next_group : Z) : args_value * Z :=
  match v with
  | ARGS_NONE => (ARGS_NONE, next_group)
  | ARGS_STRING s => (ARGS_STRING (replace_all argv s), next_group)
  | ARGS_COMMANDS l => let '(l, next_group) := cmd_list_copy argv l next_group in (ARGS_COMMANDS l, next_group)
  end
with cmd_copy (argv : list (list Z)) (c : cmd) (next_group : Z) : cmd * Z :=
  match c with
  | Cmd entry group file line parse_flags tree values =>
      (* args_copy *)
      let '(a, next_group) :=
        (fix entries (tree : list args_entry) (a : args) (next_group : Z) : args * Z :=
           match tree with
           | [] => (a, next_group)
           | AE flag [] count flags :: tree =>
               entries tree (args_set_times (Z.to_nat count) a flag) next_group
           | AE flag vs count flags :: tree =>
               let '(a, next_group) :=
                 (fix go (vs : list args_value) (a : args) (next_group : Z) : args * Z :=
                    match vs with
                    | [] => (a, next_group)
                    | v :: vs =>
                        let '(v, next_group) := args_copy_copy_value argv v next_group in
                        go vs (args_set a flag (Some v) 0) next_group
                    end) vs a next_group in
               entries tree a next_group
           end) tree args_create next_group in
      let '(values, next_group) :=
        (fix go (vs : list args_value) (next_group : Z) : list args_value * Z :=
           match vs with
           | [] => ([], next_group)
           | v :: vs =>
               let '(v, next_group) := args_copy_copy_value argv v next_group in
               let '(vs, next_group) := go vs next_group in
               (v :: vs, next_group)
           end) values next_group in
      (Cmd entry 0 file line 0 (args_tree a) values, next_group)
  end
with cmd_list_copy (argv : list (list Z)) (l : cmd_list) (next_group : Z) : cmd_list * Z :=
  match l with
  | CmdList group list =>
      let '(new, next_group) := cmd_list_new next_group in
      (fix go (l : Datatypes.list cmd) (new : cmd_list) (group next_group : Z) : cmd_list * Z :=
         match l with
         | [] => (new, next_group)
         | c :: l =>
             let '(new, group, next_group) :=
               if negb (cmd_get_group c =? group)
               then (CmdList next_group (cmds new), cmd_get_group c, u32 (next_group + 1))
               else (new, group, next_group) in
             let '(c, next_group) := cmd_copy argv c next_group in
             go l (cmd_list_append new c) group next_group
         end) list new group next_group
  end.

(** ** Vectors of arguments *)

Definition cmd_prepend_argv (argv : list (list Z)) (arg : list Z) : list (list Z) := arg :: argv.
Definition cmd_append_argv (argv : list (list Z)) (arg : list Z) : list (list Z) := argv ++ [arg].

(** Packed into a buffer of [len] bytes; [None] when they do not fit. *)
Fixpoint cmd_pack_argv (argv : list (list Z)) (len : nat) : option (list Z) :=
  match argv with
  | [] => Some []
  | arg :: argv =>
      if (len <=? length arg)%nat then None
      else rest ← cmd_pack_argv argv (len - S (length arg)); Some (arg ++ [0] ++ rest)
  end.

(** The bytes before the first NUL, and those after it. *)
Fixpoint cut_nul (buf : list Z) : list Z * list Z :=
  match buf with
  | [] => ([], [])
  | c :: buf => if c =? 0 then ([], buf) else let '(s, rest) := cut_nul buf in (c :: s, rest)
  end.
Fixpoint unpack_from (argc : nat) (buf : list Z) : option (list (list Z)) :=
  match argc with
  | O => Some []
  | S argc =>
      match buf with
      | [] => None
      | _ => let '(s, rest) := cut_nul buf in argv ← unpack_from argc rest; Some (s :: argv)
      end
  end.

(** The buffer is terminated first, so that it must not be empty ([Undef]: the
    byte before it is written). *)
Definition cmd_unpack_argv (buf : list Z) (argc : Z) : res (option (list (list Z))) :=
  if argc =? 0 then Ok (Some [])
  else if (argc <? 0) || (1000 <? argc) then Ok None
  else match buf with
       | [] => Undef
       | _ => Ok (unpack_from (Z.to_nat argc) (take (length buf - 1) buf ++ [0]))
       end.

Section Strings.
Context `{Locale}.

Fixpoint stringify (argv : list (list Z)) : option (list Z) :=
  match argv with
  | [] => Some []
  | arg :: argv =>
      s ← args_escape arg;
      match argv with
      | [] => Some s
      | _ => rest ← stringify argv; Some (s ++ [32] ++ rest)
      end
  end.
Definition cmd_stringify_argv (argv : list (list Z)) : option (list Z) := stringify argv.

End Strings.

(** ** The mouse *)

(** Where the mouse is in a pane at [xoff], [yoff] of [sx] by [sy] cells;
    [None] is outside. *)
Definition cmd_mouse_at (xoff yoff sx sy : Z) (m : mouse_event) (last : bool) : option (Z * Z) :=
  let x := u32 ((if last then me_lx m else me_x m) + me_ox m) in
  let y := u32 ((if last then me_ly m else me_y m) + me_oy m) in
  let y := if (me_statusat m =? 0) && (me_statuslines m <=? y) then u32 (y - me_statuslines m) else y in
  if (s32 x <? xoff) || (s32 (xoff + sx) <=? s32 x) then None
  else if (s32 y <? yoff) || (s32 (yoff + sy) <=? s32 y) then None
  else Some (u32 (x - xoff), u32 (y - yoff)).
