(* ===== verification/CmdParse.v ===== *)
(** * Parsing commands (src/tmux/commands/cmd-parse.y)

    The grammar, one function per nonterminal.  A token is read when the parser
    has to look at it and no earlier, since an assignment changes the variables
    the lexer expands in the tokens after it.  Then the commands that were
    parsed become lists of commands, with the aliases expanded. *)
From Stdlib Require Import Ascii String.
From S2P Require Import Prelude.
From S2P Require Import CString.
From S2P Require Import Utf8.
From S2P Require Import Locale.
From S2P Require Import Environ.
From S2P Require Import CmdLex.
From S2P Require Import Arguments.
From S2P Require Import CmdTable.
From S2P Require Import Cmd.

(** ** Data *)

Inductive cmd_parse_argument :=
  | CMD_PARSE_STRING (string : list Z)
  | CMD_PARSE_COMMANDS (commands : list cmd_parse_command)
  | CMD_PARSE_PARSED_COMMANDS (cmdlist : cmd_list)
with cmd_parse_command := PC (line : Z) (arguments : list cmd_parse_argument).

Definition pc_line (c : cmd_parse_command) : Z := let '(PC line _) := c in line.
Definition pc_arguments (c : cmd_parse_command) : list cmd_parse_argument := let '(PC _ arguments) := c in arguments.

Definition CMD_PARSE_QUIET : Z := 0x1.
Definition CMD_PARSE_PARSEONLY : Z := 0x2.
Definition CMD_PARSE_NOALIAS : Z := 0x4.
Definition CMD_PARSE_VERBOSE : Z := 0x8.
Definition CMD_PARSE_ONEGROUP : Z := 0x10.
Definition CMD_PARSE_MAX_ENVIRON_LEN : Z := 16384.

(** The input of the lexer, the token looked at, the conditions (whether the
    current one holds, and those around it) and the variables. *)
Record parser := Parser {
  pr_ps : cmd_parse_state;
  pr_ahead : option token;
  pr_scope : option bool;
  pr_stack : list bool;
  pr_environ : environ
}.

Definition set_ps (ps : cmd_parse_state) (p : parser) : parser :=
  Parser ps (pr_ahead p) (pr_scope p) (pr_stack p) (pr_environ p).
Definition set_ahead (ahead : option token) (p : parser) : parser :=
  Parser (pr_ps p) ahead (pr_scope p) (pr_stack p) (pr_environ p).
Definition set_scope (scope : option bool) (stack : list bool) (p : parser) : parser :=
  Parser (pr_ps p) (pr_ahead p) scope stack (pr_environ p).
Definition set_environ (env : environ) (p : parser) : parser :=
  Parser (pr_ps p) (pr_ahead p) (pr_scope p) (pr_stack p) env.

(** What a nonterminal gives: a value, or nothing when the parser stops with an
    error; [None] outside is a use of a condition that is not there or a lack
    of fuel. *)
Definition parse (A : Type) : Type := parser -> option (option A * parser).
Definition p_ret {A} (x : A) : parse A := fun p => Some (Some x, p).
Definition p_abort {A} (error : string) : parse A := fun p => Some (None, set_ps (yyerror error (pr_ps p)) p).
Definition p_bind {A B} (m : parse A) (k : A -> parse B) : parse B := fun p =>
  match m p with
  | None => None
  | Some (None, p) => Some (None, p)
  | Some (Some x, p) => k x p
  end.
Definition p_get {A} (f : parser -> A) : parse A := fun p => Some (Some (f p), p).
Definition p_set (f : parser -> parser) : parse unit := fun p => Some (Some tt, f p).

Declare Scope parse_scope.
Delimit Scope parse_scope with parse.
Notation "'let!' x ':=' m 'in' k" := (p_bind m (fun x => k))
  (at level 10, x pattern, m at level 100, k at level 200) : parse_scope.
Local Open Scope parse_scope.

Section Grammar.
Context (wctomb : Z -> option (list Z)).
Context (home_of : string -> option (list Z)) (own_home : option (list Z)).
(** Formats are expanded against the server and the variables. *)
Context (format_expand : environ -> list Z -> list Z).
(** The flags of the input. *)
Context (pi_flags : Z).

(** ** Tokens *)

Definition peek : parse token := fun p =>
  match pr_ahead p with
  | Some t => Some (Some t, p)
  | None =>
      r ← yylex wctomb home_of own_home (pr_environ p) (pr_ps p);
      Some (Some r.1, set_ahead (Some r.1) (set_ps r.2 p))
  end.
Definition shift : parse unit := p_set (set_ahead None).
Definition syntax_error {A} : parse A := p_abort "syntax error".

Definition expect (c : Z) : parse unit :=
  let! t := peek in
  match t with Char c' => if c' =? c then shift else syntax_error | _ => syntax_error end.

(** ** Conditions and assignments *)

Definition format_true (s : list Z) : bool := negb (bool_decide (s = [])) && negb (bool_decide (s = [48])).

(** [expanded], of a token or a format. *)
Definition p_expanded : parse (list Z) :=
  let! t := peek in
  match t with
  | FORMAT s | TOKEN s =>
      let! _ := shift in let! env := p_get pr_environ in p_ret (format_expand env s)
  | _ => syntax_error
  end.

Definition if_open : parse bool :=
  let! _ := shift in
  let! s := p_expanded in
  let flag := format_true s in
  let! _ := p_set (fun p =>
    set_scope (Some flag) (match pr_scope p with Some scope => scope :: pr_stack p | None => pr_stack p end) p) in
  p_ret flag.

Definition if_else : parse unit := fun p =>
  match pr_scope p with
  | None => None
  | Some flag => (let! _ := shift in p_set (fun p => set_scope (Some (negb flag)) (pr_stack p) p)) p
  end.

Definition if_elif : parse bool :=
  let! _ := shift in
  let! s := p_expanded in
  let flag := format_true s in
  let! _ := p_set (fun p => set_scope (Some flag) (pr_stack p) p) in
  p_ret flag.

Definition if_close : parse unit :=
  let! t := peek in
  match t with
  | ENDIF => let! _ := shift in p_set (fun p => set_scope (head (pr_stack p)) (tail (pr_stack p)) p)
  | _ => syntax_error
  end.

(** The condition around what is parsed holds. *)
Definition scope_holds (p : parser) : bool := default true (pr_scope p).

Definition assignment (s : list Z) (flags : Z) : parse unit :=
  let! p := p_get id in
  let flag := match pr_scope p with None => true | Some scope => scope && forallb id (pr_stack p) end in
  if CMD_PARSE_MAX_ENVIRON_LEN <? Z.of_nat (length s) then p_abort "environment variable is too long"
  else if negb (flagged pi_flags CMD_PARSE_PARSEONLY) && flag then
    p_set (fun p => set_environ (environ_put (pr_environ p) (string_of_bytes s) flags) p)
  else p_ret tt.

Definition hidden_assignment : parse unit :=
  let! _ := shift in
  let! t := peek in
  match t with
  | EQUALS s => let! _ := shift in assignment s ENVIRON_HIDDEN
  | _ => syntax_error
  end.

(** ** Statements and commands *)

(** A command with arguments is added where the condition holds. *)
Definition adds (c : cmd_parse_command) (p : parser) : bool :=
  negb (bool_decide (length (pc_arguments c) = 0%nat)) && scope_holds p.

Definition line_of (p : parser) : Z := ps_line (pr_ps p).

(** After a statement of a condition or of the whole input. *)
Definition ends_statements (t : token) : bool :=
  match t with End | ELSE | ELIF | ENDIF => true | _ => false end.

(** [statements], each followed by a newline, or up to a closing brace. *)
Fixpoint p_statements (fuel : nat) (braces : bool) (acc : list cmd_parse_command) :
    parse (list cmd_parse_command) :=
  match fuel with
  | O => fun _ => None
  | S fuel =>
      let! s := p_statement fuel in
      let acc := acc ++ s in
      let! t := peek in
      match t with
      | Char 10 =>
          let! _ := shift in
          if (braces : bool) then p_statements fuel braces acc
          else let! t := peek in if ends_statements t then p_ret acc else p_statements fuel braces acc
      | Char 125 => if (braces : bool) then let! _ := shift in p_ret acc else syntax_error
      | _ => syntax_error
      end
  end
with p_statement (fuel : nat) : parse (list cmd_parse_command) :=
  match fuel with
  | O => fun _ => None
  | S fuel =>
      let! t := peek in
      let here (m : parse (list cmd_parse_command)) :=
        let! c := m in let! holds := p_get scope_holds in p_ret (if holds then c else []) in
      match t with
      | HIDDEN => let! _ := hidden_assignment in p_ret []
      | IF =>
          here (let! flag := if_open in
                let! t := peek in
                match t with
                | Char 10 => p_condition fuel true flag
                | _ => let! c := p_condition fuel false flag in p_more fuel c
                end)
      | TOKEN _ | EQUALS _ => here (p_commands fuel)
      | _ => p_ret []
      end
  end
with p_commands (fuel : nat) : parse (list cmd_parse_command) :=
  match fuel with
  | O => fun _ => None
  | S fuel =>
      let! t := peek in
      match t with
      | IF => let! flag := if_open in let! c := p_condition fuel false flag in p_more fuel c
      | _ =>
          let! c := p_command fuel in
          let! add := p_get (adds c) in
          p_more fuel (if add then [c] else [])
      end
  end
with p_more (fuel : nat) (acc : list cmd_parse_command) : parse (list cmd_parse_command) :=
  match fuel with
  | O => fun _ => None
  | S fuel =>
      let! t := peek in
      match t with
      | Char 59 =>
          let! _ := shift in
          let! t := peek in
          match t with
          | IF => let! flag := if_open in let! c := p_condition fuel false flag in p_more fuel (acc ++ c)
          | TOKEN _ | EQUALS _ =>
              let! c := p_command fuel in
              let! add := p_get (adds c) in
              p_more fuel (if add then acc ++ [c] else [])
          | _ => p_more fuel acc
          end
      | _ => p_ret acc
      end
  end
with p_command (fuel : nat) : parse cmd_parse_command :=
  match fuel with
  | O => fun _ => None
  | S fuel =>
      let named (s : list Z) :=
        let! _ := shift in
        let! arguments := p_arguments fuel in
        let! line := p_get line_of in
        p_ret (PC line (CMD_PARSE_STRING s :: arguments)) in
      let! t := peek in
      match t with
      | TOKEN s => named s
      | EQUALS s =>
          let! _ := shift in
          let! _ := assignment s 0 in
          let! t := peek in
          match t with
          | TOKEN s => named s
          | _ => let! line := p_get line_of in p_ret (PC line [])
          end
      | _ => syntax_error
      end
  end
with p_arguments (fuel : nat) : parse (list cmd_parse_argument) :=
  match fuel with
  | O => fun _ => None
  | S fuel =>
      let! t := peek in
      match t with
      | TOKEN s | EQUALS s =>
          let! _ := shift in
          let! arguments := p_arguments fuel in p_ret (CMD_PARSE_STRING s :: arguments)
      | Char 123 =>
          let! _ := shift in
          let! commands := p_statements fuel true [] in
          let! arguments := p_arguments fuel in p_ret (CMD_PARSE_COMMANDS commands :: arguments)
      | _ => p_ret []
      end
  end
(** The rest of a condition, over lines ([condition]) or on one
    ([condition1]). *)
with p_condition (fuel : nat) (lines flag : bool) : parse (list cmd_parse_command) :=
  match fuel with
  | O => fun _ => None
  | S fuel =>
      let! body := p_body fuel lines in
      let otherwise (c : list cmd_parse_command) := if flag then body else c in
      let! t := peek in
      match t with
      | ELSE =>
          let! _ := if_else in
          let! c := p_body fuel lines in
          let! _ := if_close in p_ret (otherwise c)
      | ELIF =>
          let! elif := p_elif fuel lines in
          let! t := peek in
          match t with
          | ELSE =>
              let! _ := if_else in
              let! c := p_body fuel lines in
              let! _ := if_close in p_ret (otherwise (if (elif.1 : bool) then elif.2 else c))
          | _ => let! _ := if_close in p_ret (otherwise (if (elif.1 : bool) then elif.2 else []))
          end
      | _ => let! _ := if_close in p_ret (otherwise [])
      end
  end
with p_body (fuel : nat) (lines : bool) : parse (list cmd_parse_command) :=
  match fuel with
  | O => fun _ => None
  | S fuel =>
      if (lines : bool) then let! _ := expect 10 in p_statements fuel false [] else p_commands fuel
  end
with p_elif (fuel : nat) (lines : bool) : parse (bool * list cmd_parse_command) :=
  match fuel with
  | O => fun _ => None
  | S fuel =>
      let! flag := if_elif in
      let! body := p_body fuel lines in
      let! t := peek in
      match t with
      | ELIF =>
          let! elif := p_elif fuel lines in
          p_ret (if flag then (true, body) else if (elif.1 : bool) then (true, elif.2) else (false, []))
      | _ => p_ret (if flag then (true, body) else (false, []))
      end
  end.

(** [lines], up to the end of the input. *)
Definition p_lines (fuel : nat) : parse (list cmd_parse_command) :=
  let! t := peek in
  match t with
  | End => p_ret []
  | _ =>
      let! c := p_statements fuel false [] in
      let! t := peek in
      match t with End => p_ret c | _ => syntax_error end
  end.

(** More calls than there are tokens to read, of which each nonterminal that
    repeats reads one. *)
Definition parse_fuel (buf : list Z) : nat := 8 * (length buf + 4).

(** The commands, or none when the parser stopped; the state has the error,
    the line and the variables. *)
Definition cmd_parse_do_buffer (buf : list Z) (file : option string) (line : Z) (env : environ) :
    option (option (list cmd_parse_command) * parser) :=
  p_lines (parse_fuel buf) (Parser (lex_string buf file line) None None [] env).

End Grammar.

(** ** Building lists of commands

    The commands that were parsed become commands with their entries and
    arguments, in lists with their groups.  An alias is parsed in place of a
    command; inside it no other alias is expanded. *)

(** The line of the input, the next group, the variables, and what was printed
    for the item that asked for it. *)
Record builder := Builder {
  bl_line : Z;
  bl_next_group : Z;
  bl_environ : environ;
  bl_printed : list (list Z)
}.

Definition set_line (line : Z) (b : builder) : builder :=
  Builder line (bl_next_group b) (bl_environ b) (bl_printed b).
Definition set_next_group (next_group : Z) (b : builder) : builder :=
  Builder (bl_line b) next_group (bl_environ b) (bl_printed b).
Definition after_parser (p : parser) (b : builder) : builder :=
  Builder (ps_line (pr_ps p)) (bl_next_group b) (pr_environ p) (bl_printed b).

(** [struct cmd_parse_result]: a list of commands, or an error. *)
Notation cmd_parse_result := (cmd_list + string)%type.

Section Build.
Context `{Locale}.
Context (wctomb : Z -> option (list Z)).
Context (home_of : string -> option (list Z)) (own_home : option (list Z)).
Context (format_expand : environ -> list Z -> list Z).
(** The aliases of the options; the input: its flags, its file and whether an
    item waits for it. *)
Context (aliases : option (list (list Z))).
Context (pi_flags : Z) (pi_file : option string) (pi_item : bool).

Definition new_list (b : builder) : cmd_list * builder :=
  let '(l, next_group) := cmd_list_new (bl_next_group b) in (l, set_next_group next_group b).
Definition move_list (cmdlist from : cmd_list) (b : builder) : cmd_list * builder :=
  let '(l, next_group) := cmd_list_move cmdlist from (bl_next_group b) in (l, set_next_group next_group b).

(** The list is printed for the item, with the file and the line. *)
Definition cmd_parse_print_commands (cmdlist : cmd_list) (b : builder) : option builder :=
  if negb pi_item || negb (flagged pi_flags CMD_PARSE_VERBOSE) then Some b
  else
    s ← cmd_list_print false false cmdlist;
    let line := bytes_of_string (fmt_u (bl_line b) +:+ ": ")%string in
    let s := match pi_file with
             | Some file => bytes_of_string (file +:+ ":")%string ++ line ++ s
             | None => line ++ s
             end in
    Some (Builder (bl_line b) (bl_next_group b) (bl_environ b) (bl_printed b ++ [s])).

(** The current list is printed and moved to the result. *)
Definition end_group (result : cmd_list) (current : option cmd_list) (b : builder) :
    option (cmd_list * builder) :=
  match current with
  | None => Some (result, b)
  | Some current => b ← cmd_parse_print_commands current b; Some (move_list result current b)
  end.

Section Lists.
(** How a command is built. *)
Variable build_one : cmd_parse_command -> builder -> option (cmd_parse_result * builder).

(** Each line is a group, unless there is one group. *)
Fixpoint build_from (cs : list cmd_parse_command) (result : cmd_list) (current : option cmd_list) (line : Z)
    (b : builder) : option (cmd_parse_result * builder) :=
  match cs with
  | [] => r ← end_group result current b; Some (inl r.1, r.2)
  | c :: cs =>
      r ← (if negb (flagged pi_flags CMD_PARSE_ONEGROUP) && negb (pc_line c =? line) then
             r ← end_group result current b; Some (r.1, None, r.2)
           else Some (result, current, b));
      let '(result, current, b) := r in
      let '(current, b) := match current with Some current => (current, b) | None => new_list b end in
      r ← build_one c (set_line (pc_line c) b);
      let '(r, b) := r in
      match r with
      | inr error => Some (inr error, b)
      | inl cmdlist => build_from cs result (Some (cmd_list_append_all current cmdlist)) (pc_line c) b
      end
  end.

Definition build_list (cs : list cmd_parse_command) (b : builder) : option (cmd_parse_result * builder) :=
  match cs with
  | [] => let '(l, b) := new_list b in Some (inl l, b)
  | _ => let '(result, b) := new_list b in build_from cs result None UINT_MAX b
  end.
End Lists.

Definition string_of (s : string) : option (list Z) := Some (bytes_of_string s).

Section Aliases.
(** What stands in for a command ([cmd_parse_expand_alias]): [None] inside is
    the command itself. *)
Variable expand_alias : cmd_parse_command -> builder -> option (option cmd_parse_result * builder).
Variable flags : Z.

Fixpoint cmd_parse_build_command (c : cmd_parse_command) (b : builder) : option (cmd_parse_result * builder) :=
  match c with
  | PC line arguments =>
      r ← expand_alias c b;
      let '(alias, b) := r in
      match alias with
      | Some result => Some (result, b)
      | None =>
          r ← (fix values (l : list cmd_parse_argument) (b : builder) :
                 option ((list args_value + string) * builder) :=
                 match l with
                 | [] => Some (inl [], b)
                 | arg :: l =>
                     r ← match arg with
                         | CMD_PARSE_STRING s => Some (inl (ARGS_STRING s), b)
                         | CMD_PARSE_PARSED_COMMANDS cmdlist => Some (inl (ARGS_COMMANDS cmdlist), b)
                         | CMD_PARSE_COMMANDS cs =>
                             r ← build_list cmd_parse_build_command cs b;
                             Some match r.1 with
                                  | inl cmdlist => (inl (ARGS_COMMANDS cmdlist), r.2)
                                  | inr error => (inr error, r.2)
                                  end
                         end;
                     match r with
                     | (inr error, b) => Some (inr error, b)
                     | (inl v, b) =>
                         r ← values l b;
                         Some match r.1 with inl vs => (inl (v :: vs), r.2) | inr error => (inr error, r.2) end
                     end
                 end) arguments b;
          let '(values, b) := r in
          match values with
          | inr error => Some (inr error, b)
          | inl values =>
              add ← cmd_parse values (f ← pi_file; string_of f) (bl_line b) flags;
              match add with
              | inr cause => Some (inr (cmd_parse_get_error pi_file (bl_line b) cause), b)
              | inl add => let '(l, b) := new_list b in Some (inl (cmd_list_append l add), b)
              end
          end
      end
  end.

Definition cmd_parse_build_commands (cs : list cmd_parse_command) (b : builder) :
    option (cmd_parse_result * builder) := build_list cmd_parse_build_command cs b.
End Aliases.

(** Without aliases, as in the text of an alias. *)
Definition no_alias (c : cmd_parse_command) (b : builder) : option (option cmd_parse_result * builder) :=
  Some (None, b).

(** The arguments of the command go after those of the last one of the alias. *)
Fixpoint concat_last (cs : list cmd_parse_command) (arguments : list cmd_parse_argument) :
    list cmd_parse_command :=
  match cs with
  | [] => []
  | [PC line l] => [PC line (l ++ arguments)]
  | c :: cs => c :: concat_last cs arguments
  end.

Definition cmd_parse_expand_alias (c : cmd_parse_command) (b : builder) :
    option (option cmd_parse_result * builder) :=
  if flagged pi_flags CMD_PARSE_NOALIAS then Some (None, b)
  else
    match pc_arguments c with
    | CMD_PARSE_STRING name :: rest =>
        match cmd_get_alias aliases name with
        | None => Some (None, b)
        | Some alias =>
            r ← cmd_parse_do_buffer wctomb home_of own_home format_expand pi_flags alias pi_file
                  (bl_line b) (bl_environ b);
            let '(parsed, p) := r in
            let b := after_parser p b in
            match parsed with
            | None => Some (Some (inr (default ""%string (ps_error (pr_ps p)))), b)
            | Some [] => let '(l, b) := new_list b in Some (Some (inl l), b)
            | Some parsed =>
                r ← cmd_parse_build_commands no_alias (Z.lor pi_flags CMD_PARSE_NOALIAS)
                      (concat_last parsed rest) b;
                Some (Some r.1, r.2)
            end
        end
    | _ => let '(l, b) := new_list b in Some (Some (inl l), b)
    end.

(** ** Entry points *)

Definition build_commands (cs : list cmd_parse_command) (b : builder) : option (cmd_parse_result * builder) :=
  cmd_parse_build_commands cmd_parse_expand_alias pi_flags cs b.

Definition cmd_parse_from_buffer (buf : list Z) (b : builder) : option (cmd_parse_result * builder) :=
  match buf with
  | [] => let '(l, b) := new_list b in Some (inl l, b)
  | _ =>
      r ← cmd_parse_do_buffer wctomb home_of own_home format_expand pi_flags buf pi_file (bl_line b) (bl_environ b);
      let '(parsed, p) := r in
      let b := after_parser p b in
      match parsed with
      | None => Some (inr (default ""%string (ps_error (pr_ps p))), b)
      | Some cs => build_commands cs b
      end
  end.

(** The arguments of a command line: a semicolon at the end of one ends a
    command, unless a backslash is before it. *)
Definition split_argument (s : list Z) : list Z * bool :=
  match last s with
  | Some 59 =>
      let s := removelast s in
      match last s with
      | Some 92 => (removelast s ++ [59], false)
      | _ => (s, true)
      end
  | _ => (s, false)
  end.

Fixpoint split_commands (values : list args_value) (line : Z) (arguments : list cmd_parse_argument) :
    option (list cmd_parse_command) :=
  match values with
  | [] => Some (match arguments with [] => [] | _ => [PC line arguments] end)
  | ARGS_STRING s :: values =>
      let '(s, ends) := split_argument s in
      let arguments := if negb ends || negb (bool_decide (s = [])) then arguments ++ [CMD_PARSE_STRING s] else arguments in
      if (ends : bool) then cs ← split_commands values line []; Some (PC line arguments :: cs)
      else split_commands values line arguments
  | ARGS_COMMANDS cmdlist :: values =>
      split_commands values line (arguments ++ [CMD_PARSE_PARSED_COMMANDS cmdlist])
  | ARGS_NONE :: _ => None
  end.

Definition cmd_parse_from_arguments (values : list args_value) (b : builder) :
    option (cmd_parse_result * builder) :=
  cs ← split_commands values (bl_line b) [];
  build_commands cs b.

End Build.

(** The string is one group. *)
Definition cmd_parse_from_string `{Locale} wctomb home_of own_home format_expand aliases
    (pi_flags : Z) pi_file pi_item (s : list Z) (b : builder) : option (cmd_parse_result * builder) :=
  cmd_parse_from_buffer wctomb home_of own_home format_expand aliases (Z.lor pi_flags CMD_PARSE_ONEGROUP)
    pi_file pi_item s b.
