(* ===== verification/CmdPrint.v ===== *)
(** * The tokens of printed commands

    Commands whose strings the lexer reads back, what they are as tokens, and
    that their text is read as these. *)
From Stdlib Require Import ZArith Lia Ascii String.
From S2P Require Import Prelude.
From S2P Require Import CString.
From S2P Require Import Utf8.
From S2P Require Import Locale.
From S2P Require Import Environ.
From S2P Require Import CmdLex.
From S2P Require Import CmdLexFacts.
From S2P Require Import Arguments.
From S2P Require Import CmdEscape.
From S2P Require Import CmdTable.
From S2P Require Import Cmd.
From S2P Require Import CmdParse.

(** ** Texts *)

Section Text.
Context (home_of : string -> option (list Z)) (own_home : option (list Z)).
Context (wctomb : Z -> option (list Z)).
Notation yylex := (yylex wctomb home_of own_home).
Notation peek := (peek wctomb home_of own_home).

(** ** Tokens *)

(** The first token, and the parser after it. *)
Definition first_token (p : parser) (t : token) (p' : parser) : Prop :=
  (pr_ahead p = Some t /\ p' = set_ahead None p) \/
  (pr_ahead p = None /\ exists ps, yylex (pr_environ p) (pr_ps p) = Some (t, ps) /\ p' = set_ps ps p).

Lemma first_none p t p' : first_token p t p' -> pr_ahead p' = None.
Proof. intros [ [_ ->] | (Hn & ps & _ & ->) ]; [done|]. by destruct p. Qed.

Lemma peek_first p t p' : first_token p t p' -> peek p = Some (Some t, set_ahead (Some t) p').
Proof.
  unfold CmdParse.peek. intros [ [E ->] | (E & ps & Ey & ->) ]; rewrite E.
  - destruct p. cbn in *. by subst.
  - by rewrite Ey.
Qed.

Lemma first_ahead t p : pr_ahead p = None -> first_token (set_ahead (Some t) p) t p.
Proof. intros E. left. split; [done|]. destruct p. cbn in *. by subst. Qed.

Lemma shift_first p t p' : first_token p t p' -> shift (set_ahead (Some t) p') = Some (Some tt, p').
Proof.
  intros Hf. pose proof (first_none _ _ _ Hf) as E. unfold shift, p_set. destruct p'. cbn in *. by subst.
Qed.

(** What reading words does not change. *)
Definition same_around (p p' : parser) : Prop :=
  pr_scope p' = pr_scope p /\ pr_stack p' = pr_stack p /\ pr_environ p' = pr_environ p /\
  ps_line (pr_ps p') = ps_line (pr_ps p).

Lemma same_around_refl p : same_around p p.
Proof. by split_and!. Qed.

Lemma same_around_trans p1 p2 p3 : same_around p1 p2 -> same_around p2 p3 -> same_around p1 p3.
Proof. intros (H1 & H2 & H3 & H4) (G1 & G2 & G3 & G4). split_and!; congruence. Qed.

Inductive tokens : parser -> list token -> parser -> Prop :=
  | tokens_nil p : tokens p [] p
  | tokens_cons p t p' l q : first_token p t p' -> same_around p p' -> tokens p' l q -> tokens p (t :: l) q.

Lemma tokens_app p l q l' r : tokens p l q -> tokens q l' r -> tokens p (l ++ l') r.
Proof. induction 1; [done|]. intros. cbn [app]. econstructor; eauto. Qed.

Lemma tokens_app_inv p l l' r : tokens p (l ++ l') r -> exists q, tokens p l q /\ tokens q l' r.
Proof.
  revert p. induction l as [|t l IH]; intros p H; [exists p; split; [constructor|done]|].
  cbn [app] in H. inversion H as [|? ? p' ? ? Hf Hs Ht]; subst. destruct (IH p' Ht) as (q & H1 & H2).
  exists q. split; [econstructor; eauto|done].
Qed.

Lemma tokens_around p l q : tokens p l q -> same_around p q.
Proof. induction 1; [apply same_around_refl|]. by eapply same_around_trans. Qed.

Lemma tokens_none p t l q : tokens p (t :: l) q -> pr_ahead q = None.
Proof.
  remember (t :: l) as k eqn:E. intros H. revert t l E. induction H as [|p t p' l q Hf Hs Ht IH]; intros t0 l0 E; [done|].
  injection E as -> ->. destruct l0 as [|t1 l1]; [|by eapply IH]. inversion Ht; subst. by eapply first_none.
Qed.

(** ** Texts *)

Definition at_text (p : parser) (l : list Z) : Prop :=
  pr_ahead p = None /\ input_ok (pr_ps p) /\ stream (pr_ps p) = l /\
  ps_eol (pr_ps p) = false /\ ps_eof (pr_ps p) = false.

Definition text_tokens (t : list Z) (l : list token) : Prop :=
  (length l <= length t)%nat /\ Forall text_byte t /\
  forall p n rest, at_text p (replicate n 32 ++ t ++ rest) -> ends_word rest ->
  exists p', tokens p l p' /\ at_text p' rest.

Lemma text_app k t1 l1 t2 l2 : text_tokens t1 l1 -> text_tokens t2 l2 ->
  (0 < k)%nat \/ head t2 = Some 59 -> text_tokens (t1 ++ replicate k 32 ++ t2) (l1 ++ l2).
Proof.
  intros (Hl1 & Hb1 & H1) (Hl2 & Hb2 & H2) Hk. split; [rewrite !length_app; lia|].
  split; [apply Forall_app; split; [done|]; apply Forall_app; split; [by apply Forall_replicate|done]|].
  intros p n rest Hp He.
  destruct (H1 p n (replicate k 32 ++ t2 ++ rest)) as (p1 & Ht1 & Hp1).
  { by rewrite <- !app_assoc in Hp. }
  { destruct k as [|k]; [|by left]. destruct Hk as [|Hh]; [lia|]. destruct t2 as [|c t2]; [done|].
    injection Hh as ->. by right. }
  destruct (H2 p1 k rest Hp1 He) as (p2 & Ht2 & Hp2). exists p2. split; [by eapply tokens_app|done].
Qed.

(** ** One token *)

(** The lexer at the start of a token: the marks of the last line are gone. *)
Lemma yylex_at p l : at_text p l ->
  exists ps, input_ok ps /\ stream ps = l /\ ps_eol ps = false /\ ps_eof ps = false /\
    ps_line ps = ps_line (pr_ps p) /\
    yylex (pr_environ p) (pr_ps p) =
      iterate (lex_fuel ps) (lex_turn wctomb home_of own_home (pr_environ p) (ps_condition (pr_ps p))) ps.
Proof.
  intros (Ha & Hok & Hst & Heol & Heof). exists (set_condition false (set_eol false (pr_ps p))).
  split_and!; try done; [by destruct Hok|]. unfold CmdLex.yylex. by rewrite Heol.
Qed.

Lemma lex_spaces env condition n l ps fuel : input_ok ps -> stream ps = replicate n 32 ++ l ->
  exists ps', input_ok ps' /\ stream ps' = l /\ same_input ps ps' /\
    iterate (n + fuel) (lex_turn wctomb home_of own_home env condition) ps =
    iterate fuel (lex_turn wctomb home_of own_home env condition) ps'.
Proof.
  revert ps. induction n as [|n IH]; intros ps Hok Hst; [exists ps; split_and!; done|].
  destruct (cursor_next ps ps Hok (same_input_refl ps)) as (ch & ps1 & E & Hc). rewrite Hst in Hc. cbn [replicate app] in Hc.
  apply cursor_cons in Hc as (-> & _ & Hok1 & Hs1 & Hst1).
  destruct (IH ps1 Hok1 Hst1) as (ps2 & Hok2 & Hst2 & Hs2 & E2). exists ps2.
  split_and!; try done; try by eapply same_input_trans. cbn [Nat.add iterate].
  replace (lex_turn wctomb home_of own_home env condition ps) with (Some (inl ps1) : option (cmd_parse_state + token * cmd_parse_state)).
  { cbn [mbind option_bind]. exact E2. }
  unfold lex_turn. by rewrite E.
Qed.

(** A turn that gives a token gives the first token. *)
Lemma first_by_turn p n l t rest : at_text p (replicate n 32 ++ l) ->
  (forall condition ps, input_ok ps -> stream ps = l ->
     exists ps', lex_turn wctomb home_of own_home (pr_environ p) condition ps = Some (inr (t, ps')) /\
       input_ok ps' /\ same_input ps ps' /\ stream ps' = rest) ->
  exists p', tokens p [t] p' /\ at_text p' rest.
Proof.
  intros Hp Ht. destruct (yylex_at p _ Hp) as (ps & Hok & Hst & Heol & Heof & Hline & E).
  pose proof Hp as (Ha & _).
  assert (Hf : (n < lex_fuel ps)%nat).
  { pose proof (f_equal length Hst) as Hl. unfold stream in Hl. unfold lex_fuel, left_to_read.
    rewrite !length_app, !length_replicate, length_drop in Hl. lia. }
  destruct (lex_spaces (pr_environ p) (ps_condition (pr_ps p)) n l ps (lex_fuel ps - n) Hok Hst)
    as (ps1 & Hok1 & Hst1 & Hs1 & E1).
  replace (n + (lex_fuel ps - n))%nat with (lex_fuel ps) in E1 by lia.
  destruct (Ht (ps_condition (pr_ps p)) ps1 Hok1 Hst1) as (ps2 & E2 & Hok2 & Hs2 & Hst2).
  destruct (same_input_trans _ _ _ Hs1 Hs2) as (_ & G2 & _ & G4 & _ & G6).
  exists (set_ps ps2 p). split.
  - assert (Hs : same_around p (set_ps ps2 p)).
    { unfold same_around. cbn [set_ps pr_scope pr_stack pr_environ pr_ps]. by rewrite G2, Hline. }
    econstructor; [|exact Hs|constructor]. right. split; [done|]. exists ps2. split; [|done]. rewrite E, E1.
    destruct (lex_fuel ps - n)%nat as [|fuel] eqn:Ef; [lia|]. cbn [iterate]. by rewrite E2.
  - unfold at_text. cbn [set_ps pr_ahead pr_ps]. rewrite G4, G6. done.
Qed.

(** A character that is a token. *)
Lemma text_char c : c = 59 \/ c = 123 \/ c = 125 -> text_tokens [c] [Char c].
Proof.
  intros Hc. split; [done|]. split; [apply Forall_singleton; unfold text_byte; lia|]. intros p n rest Hp He. apply (first_by_turn p n ([c] ++ rest)); [done|].
  intros condition ps Hok Hst. destruct (cursor_next ps ps Hok (same_input_refl ps)) as (ch & ps1 & E & Hcur).
  rewrite Hst in Hcur. cbn [app] in Hcur. apply cursor_cons in Hcur as (-> & _ & Hok1 & Hs1 & Hst1). exists ps1.
  split; [|done]. unfold lex_turn. rewrite E. by destruct Hc as [-> | [-> | ->] ].
Qed.

(** A word; one with an equals sign may be an assignment. *)
Definition token_of_word (w : list Z) : token := if is_equals w then EQUALS w else TOKEN w.

Lemma c_string_id w : Forall (fun b => b <> 0) w -> c_string w = w.
Proof.
  induction 1 as [|b w Hb Hw IH]; [done|]. cbn [c_string]. rewrite (proj2 (Z.eqb_neq b 0)) by done. by rewrite IH.
Qed.

Lemma text_word w t : starts_word t -> Forall text_byte t -> Forall (fun b => b <> 0) w ->
  (forall env rest, word_text home_of own_home env wctomb w t rest) -> text_tokens t [token_of_word w].
Proof.
  intros Hs Hbt Hw Ht. split; [destruct t; [done|cbn; lia]|]. split; [done|]. intros p n rest Hp He. apply (first_by_turn p n (t ++ rest)); [done|].
  intros condition ps Hok Hst. destruct (cursor_next ps ps Hok (same_input_refl ps)) as (ch & ps1 & E & Hcur).
  rewrite Hst in Hcur. destruct t as [|b t]; [done|]. destruct Hs as [Hb Hnot].
  destruct (word_token home_of own_home (pr_environ p) wctomb w (b :: t) rest ps ch ps1) as (ps2 & E2 & Hok2 & Hs2 & Hst2);
    [apply Ht|done|done|done|].
  exists ps2. split; [|done]. cbn [app] in Hcur. apply cursor_cons in Hcur as (-> & _).
  unfold lex_turn. rewrite E. cbn [mbind option_bind].
  rewrite !not_elem_of_cons in Hnot.
  assert (Heof : (sbyte b =? EOF) = false) by (apply Z.eqb_neq, sbyte_not_eof; split; lia).
  rewrite Heof. cbv zeta.
  do 2 (repeat match goal with |- context [sbyte b =? ?k] =>
    rewrite (sbyte_eqb b k) by lia; rewrite (proj2 (Z.eqb_neq b k)) by lia end; cbn [orb andb mbind option_bind]).
  rewrite E2. cbn [mbind option_bind fst snd]. by rewrite c_string_id.
Qed.

(** The end of the input is a newline and the end. *)
Lemma text_end p : at_text p [] -> exists p', tokens p [Char 10; End] p'.
Proof.
  intros Hp. destruct (yylex_at p _ Hp) as (ps & Hok & Hst & Heol & Heof & Hline & E). pose proof Hp as (Ha & _).
  assert (Hg : yylex_getc ps = Some (EOF, ps)) by (pose proof (getc_ok ps Hok) as Hg; by rewrite Hst in Hg).
  assert (Hf1 : first_token p (Char 10) (set_ps (set_eof true ps) p)).
  { right. split; [done|]. exists (set_eof true ps). split; [|done]. rewrite E. unfold lex_fuel. cbn [iterate].
    unfold lex_turn. rewrite Hg. cbn. by rewrite Heof. }
  set (ps1 := set_condition false (set_eof true ps)).
  assert (Hg1 : yylex_getc ps1 = Some (EOF, ps1)).
  { assert (Hok1 : input_ok ps1) by (by destruct Hok). pose proof (getc_ok ps1 Hok1) as Hg1.
    change (stream ps1) with (stream ps) in Hg1. by rewrite Hst in Hg1. }
  exists (set_ps ps1 (set_ps (set_eof true ps) p)).
  apply (tokens_cons _ _ _ _ _ Hf1); [by split_and!|].
  apply (tokens_cons _ End (set_ps ps1 (set_ps (set_eof true ps) p))); [|by split_and!|constructor]. right. split; [done|]. exists ps1. split; [|done].
  cbn [set_ps pr_environ pr_ps]. unfold CmdLex.yylex. cbn [set_eof ps_eol ps_condition]. rewrite Heol.
  replace (set_condition false (set_eol false (set_eof true ps))) with ps1.
  - unfold lex_fuel. cbn [iterate]. unfold lex_turn. by rewrite Hg1.
  - unfold ps1. destruct ps. cbn in *. by rewrite Heol.
Qed.
End Text.

(** ** Commands and their texts *)

(** ** Induction over commands *)

Section Induction.
Variable P : args_value -> Prop.
Variable Q : cmd -> Prop.
Hypothesis none_case : P ARGS_NONE.
Hypothesis string_case : forall s, P (ARGS_STRING s).
Hypothesis commands_case : forall group l, Forall Q l -> P (ARGS_COMMANDS (CmdList group l)).
Hypothesis cmd_case : forall entry group file line parse_flags tree values, Forall P values ->
  Q (Cmd entry group file line parse_flags tree values).

Fixpoint value_ind (v : args_value) : P v :=
  match v with
  | ARGS_NONE => none_case
  | ARGS_STRING s => string_case s
  | ARGS_COMMANDS (CmdList group l) =>
      commands_case group l ((fix all (l : list cmd) : Forall Q l :=
        match l with [] => Forall_nil_2 Q | c :: l => Forall_cons_2 Q c l (cmd_ind_nested c) (all l) end) l)
  end
with cmd_ind_nested (c : cmd) : Q c :=
  match c with
  | Cmd entry group file line parse_flags tree values =>
      cmd_case entry group file line parse_flags tree values ((fix all (l : list args_value) : Forall P l :=
        match l with [] => Forall_nil_2 P | v :: l => Forall_cons_2 P v l (value_ind v) (all l) end) values)
  end.
End Induction.

(** ** Commands that are read back *)

Section Ok.
Context `{Locale}.

(** A string of bytes that the quotes it is printed in do not change. *)
Definition string_ok (s : list Z) : Prop := Forall (fun b => 0 < b < 256) s /\ unchanged_in_single_quotes s.

Definition is_string (v : args_value) : Prop := match v with ARGS_STRING s => string_ok s | _ => False end.
Definition string_in (v : args_value) : list Z := match v with ARGS_STRING s => s | _ => [] end.

(** A flag of the template, given [count] times or with its values. *)
Definition entry_ok (template : list Z) (e : args_entry) : Prop :=
  let '(AE flag values count flags) := e in
  flags = 0 /\ isalnum flag = true /\
  exists found, after_char flag template = Some found /\
    match values with
    | [] => 0 < count < 4294967296 /\ head found <> Some 58
    | _ => count = Z.of_nat (length values) /\ count < 4294967296 /\ Forall is_string values /\
           head found = Some 58
    end.

(** The flags are in their order. *)
Fixpoint flags_sorted (tree : list args_entry) : Prop :=
  match tree with
  | [] => True
  | e :: tree => Forall (fun e' => ae_flag e < ae_flag e') tree /\ flags_sorted tree
  end.

(** The first argument does not look like flags. *)
Definition no_dash (values : list args_value) : Prop :=
  match values with ARGS_STRING (45 :: _ :: _) :: _ => False | _ => True end.

(** The command accepts the arguments. *)
Definition accepts (entry : cmd_entry) (tree : list args_entry) (values : list args_value) : Prop :=
  let spec := ce_args entry in
  parse_arguments (cb_of (ap_cb spec)) values (Args tree []) = Some (inl (Args tree values)) /\
  check_count (ap_lower spec) (ap_upper spec) (Args tree values) = inl (Args tree values).

Fixpoint value_ok (v : args_value) : Prop :=
  match v with
  | ARGS_NONE => False
  | ARGS_STRING s => string_ok s
  | ARGS_COMMANDS (CmdList _ l) => foldr (fun c P => cmd_ok c /\ P) True l
  end
with cmd_ok (c : cmd) : Prop :=
  match c with
  | Cmd entry _ _ _ _ tree values =>
      entry ∈ cmd_table /\ flags_sorted tree /\ Forall (entry_ok (ap_template (ce_args entry))) tree /\
      no_dash values /\ accepts entry tree values /\ foldr (fun v P => value_ok v /\ P) True values
  end.

Lemma foldr_and_Forall {A} (P : A -> Prop) l : foldr (fun x Q => P x /\ Q) True l <-> Forall P l.
Proof. induction l as [|x l IH]; cbn [foldr]; [by split|]. by rewrite Forall_cons, IH. Qed.

(** ** Tokens *)

(** The flags without values, behind one dash. *)
Definition entry_letters (e : args_entry) : list Z :=
  match ae_values e with [] => replicate (Z.to_nat (ae_count e)) (ae_flag e) | _ => [] end.
Definition entry_words (e : args_entry) : list (list Z) :=
  flat_map (fun v => [[45; ae_flag e]; string_in v]) (ae_values e).
Definition flag_words (tree : list args_entry) : list (list Z) :=
  match flat_map entry_letters tree with [] => [] | letters => [45 :: letters] end ++ flat_map entry_words tree.

Definition separator_tokens (no_groups same_group : bool) : list token :=
  if no_groups || same_group then [Char 59] else [Char 59; Char 59].
Fixpoint join_tokens (no_groups : bool) (l : list (Z * list token)) : list token :=
  match l with
  | [] => []
  | (group, this) :: l =>
      this ++ match l with
              | [] => []
              | (next, _) :: _ => separator_tokens no_groups (group =? next) ++ join_tokens no_groups l
              end
  end.

Fixpoint value_tokens (v : args_value) : list token :=
  match v with
  | ARGS_NONE => []
  | ARGS_STRING s => [token_of_word s]
  | ARGS_COMMANDS (CmdList _ l) =>
      Char 123 :: join_tokens false (map (fun c => (cmd_get_group c, cmd_tokens c)) l) ++ [Char 125]
  end
with cmd_tokens (c : cmd) : list token :=
  match c with
  | Cmd entry _ _ _ _ tree values =>
      TOKEN (ce_name entry) :: map token_of_word (flag_words tree) ++ flat_map value_tokens values
  end.

Definition cmds_tokens (no_groups : bool) (l : list cmd) : list token :=
  join_tokens no_groups (map (fun c => (cmd_get_group c, cmd_tokens c)) l).

(** ** Texts *)

Section Texts.
Context (home_of : string -> option (list Z)) (own_home : option (list Z)).
Context (wctomb : Z -> option (list Z)).
Notation text_tokens := (text_tokens home_of own_home wctomb).

Lemma string_text s : string_ok s ->
  exists t, args_escape s = Some t /\ t <> [] /\ text_tokens t [token_of_word s].
Proof.
  intros [Hs Hu].
  assert (Hw : exists t, args_escape s = Some t /\ starts_word t /\ Forall text_byte t /\
    forall env rest, word_text home_of own_home env wctomb s t rest).
  { destruct (args_escape_word home_of own_home ∅ wctomb s Hs Hu) as (t & E & Hst & Hb & _). exists t.
    split; [done|]. split; [done|]. split; [done|]. intros env.
    destruct (args_escape_word home_of own_home env wctomb s Hs Hu) as (t' & E' & _ & _ & Hw').
    rewrite E in E'. injection E' as <-. done. }
  destruct Hw as (t & E & Hst & Hb & Hw). exists t. split; [done|]. split; [by destruct t|].
  apply text_word; [done|done| |done]. eapply Forall_impl; [exact Hs|]. cbn. lia.
Qed.

(** Words of letters and digits after a dash. *)
Definition letter_byte (b : Z) : Prop := isalnum b = true \/ b = 45.

Lemma letter_range b : letter_byte b -> 45 <= b < 123 /\ b <> 59 /\ b <> 92.
Proof.
  intros [Hb| ->]; [|lia]. unfold isalnum, isalpha, isdigit in Hb.
  rewrite !orb_true_iff, !andb_true_iff, !Z.leb_le in Hb. lia.
Qed.

Lemma letters_text t : t <> [] -> Forall letter_byte t -> text_tokens t [token_of_word t].
Proof.
  intros Hne Hl.
  assert (Hr : Forall (fun b => 45 <= b < 123 /\ b <> 59 /\ b <> 92) t) by (eapply Forall_impl; [done|apply letter_range]).
  apply text_word.
  - destruct t as [|b t]; [done|]. apply Forall_cons in Hr as [Hr _]. cbn [starts_word].
    rewrite !not_elem_of_cons, elem_of_nil. split; [lia|]. split_and!; lia || tauto.
  - eapply Forall_impl; [exact Hr|]. unfold text_byte. cbn. lia.
  - eapply Forall_impl; [exact Hr|]. cbn. lia.
  - intros env rest. apply word_plain; [|destruct t as [|b t]; [done|]; apply Forall_cons in Hr as [Hr _]; intros [= ->]; lia].
    apply reads_ordinary; [done|]. eapply Forall_impl; [exact Hr|]. cbn. lia.
Qed.

(** What has been printed so far, and its tokens. *)
Definition prints (buf : list Z) (l : list token) : Prop :=
  (buf = [] /\ l = []) \/ (buf <> [] /\ text_tokens buf l).

Lemma prints_add buf l t m : prints buf l -> t <> [] -> text_tokens t m -> prints (print_space buf ++ t) (l ++ m).
Proof.
  intros Hb Hne Ht. right. unfold print_space. destruct Hb as [ [-> ->] | [Hb Hl] ].
  - by rewrite bool_decide_eq_true_2.
  - rewrite bool_decide_eq_false_2 by done. split; [by destruct buf|]. rewrite <- app_assoc.
    apply (text_app _ _ _ 1); auto.
Qed.

Lemma print_letters_tree tree ls template : Forall (entry_ok template) tree ->
  foldl print_letters (match ls with [] => [] | _ => 45 :: ls end) tree =
  match ls ++ flat_map entry_letters tree with [] => [] | ls => 45 :: ls end.
Proof.
  intros Ht. revert ls. induction Ht as [|e tree He _ IH]; intros ls; cbn [foldl flat_map].
  - rewrite app_nil_r. by destruct ls.
  - destruct e as [flag values count flags]. destruct He as (-> & _ & found & _ & He).
    rewrite app_assoc, <- IH. f_equal. unfold print_letters, entry_letters. cbn [is_optional ae_flags ae_values ae_count ae_flag].
    change (is_optional (AE flag values count 0)) with false. cbv iota. destruct values as [|v values]; [|by rewrite app_nil_r].
    destruct He as [Hc _]. replace (Z.to_nat count) with (S (Z.to_nat (count - 1))) by lia.
    destruct ls; [by rewrite bool_decide_eq_true_2|by rewrite bool_decide_eq_false_2].
Qed.

Lemma letters_of_tree tree template : Forall (entry_ok template) tree ->
  Forall letter_byte (flat_map entry_letters tree).
Proof.
  induction 1 as [|e tree He _ IH]; cbn [flat_map]; [done|]. apply Forall_app. split; [|done].
  destruct e as [flag values count flags]. destruct He as (_ & Hf & _). unfold entry_letters.
  destruct values; [|done]. apply Forall_forall. intros b [-> _]%elem_of_replicate. by left.
Qed.

Lemma prints_letters tree template : Forall (entry_ok template) tree ->
  prints (foldl print_letters [] tree)
    (map token_of_word (match flat_map entry_letters tree with [] => [] | ls => [45 :: ls] end)).
Proof.
  intros Ht. rewrite (print_letters_tree tree [] template Ht). cbn [app].
  pose proof (letters_of_tree tree template Ht) as Hl. destruct (flat_map entry_letters tree) as [|b ls]; [by left|].
  right. split; [done|]. apply letters_text; [done|]. constructor; [by right|done].
Qed.

(** A string is added after a space. *)
Lemma prints_string buf l s : prints buf l -> string_ok s ->
  exists buf', args_print_add_value buf (ARGS_STRING s) = Some buf' /\ prints buf' (l ++ [token_of_word s]).
Proof.
  intros Hb Hs. destruct (string_text s Hs) as (t & E & Hne & Ht). cbn [args_print_add_value]. rewrite E.
  eexists. split; [done|]. by apply prints_add.
Qed.

Lemma prints_flag_values flag values buf l : isalnum flag = true -> Forall is_string values -> prints buf l ->
  exists buf', print_flag_values args_print_add_value flag values buf = Some buf' /\
    prints buf' (l ++ map token_of_word (flat_map (fun v => [[45; flag]; string_in v]) values)).
Proof.
  intros Hf Hv. revert buf l. induction Hv as [|v values Hv _ IH]; intros buf l Hb; cbn [print_flag_values flat_map].
  - exists buf. by rewrite app_nil_r.
  - destruct v as [|s|]; [done| |done].
    assert (Hb1 : prints (print_flag buf flag) (l ++ [token_of_word [45; flag]])).
    { apply prints_add; [done|done|]. apply letters_text; [done|]. constructor; [by right|]. constructor; [by left|done]. }
    destruct (prints_string _ _ s Hb1 Hv) as (buf2 & E2 & Hb2). rewrite E2.
    destruct (IH buf2 _ Hb2) as (buf3 & E3 & Hb3). exists buf3. split; [exact E3|].
    by rewrite <- !app_assoc in Hb3.
Qed.

Lemma prints_entries template tree buf l : Forall (entry_ok template) tree -> prints buf l ->
  exists buf', print_entries args_print_add_value tree buf false = Some (buf', false) /\
    prints buf' (l ++ map token_of_word (flat_map entry_words tree)).
Proof.
  intros Ht. revert buf l. induction Ht as [|e tree He _ IH]; intros buf l Hb; cbn [print_entries flat_map].
  - exists buf. by rewrite app_nil_r.
  - destruct e as [flag values count flags]. destruct He as (-> & Hf & found & _ & He).
    change (is_optional (AE flag values count 0)) with false. cbv iota. destruct values as [|v values].
    + destruct (IH buf l Hb) as (buf' & E & Hb'). by exists buf'.
    + destruct He as (_ & _ & Hv & _).
      destruct (prints_flag_values flag (v :: values) buf l Hf Hv Hb) as (buf2 & E2 & Hb2). rewrite E2.
      destruct (IH buf2 _ Hb2) as (buf3 & E3 & Hb3). exists buf3. split; [exact E3|].
      unfold entry_words at 1. cbn [ae_values ae_flag]. by rewrite map_app, app_assoc.
Qed.

(** ** Commands *)

(** The texts of commands with their groups, as the printing loops make them. *)
Definition cmd_texts (l : list cmd) : option (list (Z * list Z)) :=
  foldr (fun c texts => this ← cmd_print c; texts ← texts; Some ((cmd_get_group c, this) :: texts)) (Some []) l.

Lemma print_commands_value buf group l : args_print_add_value buf (ARGS_COMMANDS (CmdList group l)) =
  texts ← cmd_texts l;
  Some (print_space buf ++ [123; 32] ++ join_commands false false texts ++ [32; 125]).
Proof. reflexivity. Qed.

Definition text_of (p : Z * list Z) (q : Z * list token) : Prop :=
  p.1 = q.1 /\ p.2 <> [] /\ text_tokens p.2 q.2.

Lemma separator_text no_groups same l t : text_tokens t l ->
  exists t', command_separator false no_groups same = 32 :: t' /\
    text_tokens (t' ++ t) (separator_tokens no_groups same ++ l).
Proof.
  intros Ht. unfold command_separator, separator_tokens.
  assert (H1 : text_tokens ([59] ++ replicate 1 32 ++ t) ([Char 59] ++ l)).
  { apply text_app; [apply text_char; auto|done|left; lia]. }
  destruct (no_groups || same).
  - exists [59; 32]. split; [done|]. exact H1.
  - exists [59; 59; 32]. split; [done|]. change [Char 59; Char 59] with ([Char 59] ++ [Char 59]). rewrite <- app_assoc.
    apply (text_app _ _ _ 0 [59] [Char 59] ([59; 32] ++ t)); [apply text_char; auto|exact H1|by right].
Qed.

Lemma join_text no_groups texts toks : Forall2 text_of texts toks -> texts <> [] ->
  join_commands false no_groups texts <> [] /\
  text_tokens (join_commands false no_groups texts) (join_tokens no_groups toks).
Proof.
  induction 1 as [|[g t] [g' m] texts toks (Eg & Hne & Ht) Hl IH]; [done|]. intros _. cbn [fst snd] in Eg, Hne, Ht. subst g'.
  cbn [join_commands join_tokens]. split; [by destruct t|].
  destruct Hl as [|[g2 t2] [g2' m2] texts toks H2 Hl]; [by rewrite !app_nil_r|].
  destruct (IH ltac:(done)) as [_ IHt]. pose proof H2 as (E2 & _). cbn [fst] in E2. subst g2'.
  destruct (separator_text no_groups (g =? g2) _ _ IHt) as (t' & -> & Ht').
  rewrite <- app_comm_cons. apply (text_app _ _ _ 1 t m); [done|exact Ht'|left; lia].
Qed.

Lemma texts_of (l : list cmd) :
  Forall (fun c => exists t, cmd_print c = Some t /\ t <> [] /\ text_tokens t (cmd_tokens c)) l ->
  exists texts, cmd_texts l = Some texts /\
    Forall2 text_of texts (map (fun c => (cmd_get_group c, cmd_tokens c)) l).
Proof.
  induction 1 as [|c l (t & E & Hne & Ht) _ (texts & E2 & IH)]; [by exists []|]. cbn [cmd_texts foldr map].
  rewrite E. cbn [mbind option_bind]. fold (cmd_texts l). rewrite E2. eexists. split; [done|].
  constructor; [|done]. by split_and!.
Qed.

(** The names of commands. *)
Lemma name_text entry : entry ∈ cmd_table ->
  ce_name entry <> [] /\ token_of_word (ce_name entry) = TOKEN (ce_name entry) /\
  text_tokens (ce_name entry) [TOKEN (ce_name entry)].
Proof.
  intros Hin.
  assert (Hall : forallb (fun e => negb (bool_decide (ce_name e = [])) &&
    forallb (fun b => isalnum b || (b =? 45)) (ce_name e) && negb (is_equals (ce_name e))) cmd_table = true)
    by (vm_compute; reflexivity).
  rewrite forallb_forall in Hall. specialize (Hall entry). rewrite <- list_elem_of_In in Hall. specialize (Hall Hin).
  apply andb_true_iff in Hall as [Hall Heq]. apply andb_true_iff in Hall as [Hne Hl].
  apply negb_true_iff, bool_decide_eq_false in Hne. apply negb_true_iff in Heq.
  assert (Ht : token_of_word (ce_name entry) = TOKEN (ce_name entry)) by (unfold token_of_word; by rewrite Heq).
  split_and!; [done|done|]. rewrite <- Ht. apply letters_text; [done|].
  rewrite forallb_forall in Hl. apply Forall_forall. intros b Hb. apply list_elem_of_In in Hb. specialize (Hl b Hb).
  apply orb_true_iff in Hl as [Hl|Hl%Z.eqb_eq]; [by left|by right].
Qed.

Lemma prints_values values buf l :
  Forall (fun v => forall buf l, prints buf l ->
    exists buf', args_print_add_value buf v = Some buf' /\ prints buf' (l ++ value_tokens v)) values ->
  prints buf l ->
  exists buf', print_values args_print_add_value values buf = Some buf' /\
    prints buf' (l ++ flat_map value_tokens values).
Proof.
  intros Hv. revert buf l. induction Hv as [|v values Hv _ IH]; intros buf l Hb; cbn [print_values flat_map].
  - exists buf. by rewrite app_nil_r.
  - destruct (Hv buf l Hb) as (buf2 & E2 & Hb2). rewrite E2. destruct (IH buf2 _ Hb2) as (buf3 & E3 & Hb3).
    exists buf3. split; [exact E3|]. by rewrite app_assoc.
Qed.

(** Every command is printed, and its text is its tokens. *)
Lemma cmd_print_text c : cmd_ok c ->
  exists t, cmd_print c = Some t /\ t <> [] /\ text_tokens t (cmd_tokens c).
Proof.
  revert c. apply (cmd_ind_nested
    (fun v => value_ok v -> forall buf l, prints buf l ->
       exists buf', args_print_add_value buf v = Some buf' /\ prints buf' (l ++ value_tokens v))
    (fun c => cmd_ok c -> exists t, cmd_print c = Some t /\ t <> [] /\ text_tokens t (cmd_tokens c))).
  - done.
  - intros s Hs buf l Hb. cbn [value_tokens]. by apply prints_string.
  - intros group l IH Hok buf k Hb. rewrite print_commands_value. cbn [value_ok value_tokens] in Hok |- *.
    apply foldr_and_Forall in Hok.
    destruct (texts_of l) as (texts & E & Htexts).
    { apply Forall_forall. intros c Hc. rewrite Forall_forall in IH, Hok. auto. }
    rewrite E. eexists. split; [done|]. apply prints_add; [done|done|].
    destruct texts as [|x texts].
    + apply Forall2_nil_inv_l in Htexts. rewrite Htexts.
      apply (text_app _ _ _ 2 [123] [Char 123] [125] [Char 125]); [apply text_char; auto..|left; lia].
    + destruct (join_text false _ _ Htexts ltac:(done)) as [_ Hj].
      apply (text_app _ _ _ 1 [123] [Char 123] (join_commands false false (x :: texts) ++ [32; 125])); [apply text_char; auto| |left; lia].
      apply (text_app _ _ _ 1 (join_commands false false (x :: texts)) _ [125] [Char 125]); [exact Hj|apply text_char; auto|left; lia].
  - intros entry group file line parse_flags tree values IH (Hin & Hsorted & Htree & _ & _ & Hv).
    apply foldr_and_Forall in Hv. destruct (name_text entry Hin) as (Hne & _ & Hname).
    cbn [cmd_print cmd_tokens]. unfold print_args.
    pose proof (prints_letters tree _ Htree) as Hb0.
    destruct (prints_entries _ tree _ _ Htree Hb0) as (buf & E & Hb). rewrite E. cbn [mbind option_bind].
    assert (Hvs : Forall (fun v => forall buf l, prints buf l ->
      exists buf', args_print_add_value buf v = Some buf' /\ prints buf' (l ++ value_tokens v)) values).
    { apply Forall_forall. intros v Hin'. rewrite Forall_forall in IH, Hv. auto. }
    destruct (prints_values values buf _ Hvs Hb) as (buf' & E' & Hb').
    rewrite E'. cbn [mbind option_bind]. eexists. split; [done|].
    unfold flag_words. rewrite map_app. destruct Hb' as [ [-> El] | [Hbne Ht] ].
    + rewrite bool_decide_eq_true_2 by done. rewrite El. done.
    + rewrite bool_decide_eq_false_2 by done. split; [by destruct (ce_name entry)|].
      change (TOKEN (ce_name entry) :: ?x) with ([TOKEN (ce_name entry)] ++ x).
      apply (text_app _ _ _ 1 (ce_name entry)); [done|exact Ht|left; lia].
Qed.
End Texts.
End Ok.
