(* ===== verification/CmdGrammar.v ===== *)
(** * The grammar on printed commands

    The parser reads the tokens of commands as these commands: their names, the
    words of their flags and their arguments. *)
From Stdlib Require Import ZArith Lia Ascii String.
From S2P Require Import Prelude.
From S2P Require Import CString.
From S2P Require Import Utf8.
From S2P Require Import Locale.
From S2P Require Import Environ.
From S2P Require Import CmdLex.
From S2P Require Import Arguments.
From S2P Require Import CmdTable.
From S2P Require Import Cmd.
From S2P Require Import CmdParse.
From S2P Require Import CmdPrint.

Section Ast.
Variable line : Z.

(** What a command is to the parser. *)
Fixpoint ast_value (v : args_value) : cmd_parse_argument :=
  match v with
  | ARGS_NONE => CMD_PARSE_STRING []
  | ARGS_STRING s => CMD_PARSE_STRING s
  | ARGS_COMMANDS (CmdList _ l) => CMD_PARSE_COMMANDS (map ast_cmd l)
  end
with ast_cmd (c : cmd) : cmd_parse_command :=
  match c with
  | Cmd entry _ _ _ _ tree values =>
      PC line (CMD_PARSE_STRING (ce_name entry) :: map CMD_PARSE_STRING (flag_words tree) ++ map ast_value values)
  end.
End Ast.

Section Grammar.
Context `{Locale}.
Context (home_of : string -> option (list Z)) (own_home : option (list Z)).
Context (wctomb : Z -> option (list Z)).
Context (format_expand : environ -> list Z -> list Z) (pi_flags : Z).
Notation first_token := (first_token home_of own_home wctomb).
Notation tokens := (tokens home_of own_home wctomb).
Notation p_statements := (p_statements wctomb home_of own_home format_expand pi_flags).
Notation p_statement := (p_statement wctomb home_of own_home format_expand pi_flags).
Notation p_commands := (p_commands wctomb home_of own_home format_expand pi_flags).
Notation p_more := (p_more wctomb home_of own_home format_expand pi_flags).
Notation p_command := (p_command wctomb home_of own_home format_expand pi_flags).
Notation p_arguments := (p_arguments wctomb home_of own_home format_expand pi_flags).
Notation peek := (peek wctomb home_of own_home).
(** The line the commands are on. *)
Context (line : Z).

(** Outside conditions, on the line. *)
Definition steady (p : parser) : Prop := pr_scope p = None /\ line_of p = line.

(** ** Looking at tokens *)

Lemma bind_peek {A} (k : token -> parse A) p t p' : first_token p t p' ->
  p_bind peek k p = k t (set_ahead (Some t) p').
Proof. intros Hf. unfold p_bind. by rewrite (peek_first _ _ _ _ _ _ Hf). Qed.

Lemma bind_shift {A} (k : unit -> parse A) p t p' : first_token p t p' ->
  p_bind shift k (set_ahead (Some t) p') = k tt p'.
Proof. intros Hf. unfold p_bind. by rewrite (shift_first _ _ _ _ _ _ Hf). Qed.

Lemma bind_some {A B} (m : parse A) (k : A -> parse B) p x p' : m p = Some (Some x, p') -> p_bind m k p = k x p'.
Proof. intros E. unfold p_bind. by rewrite E. Qed.

(** The token after what is parsed is looked at. *)
Definition ahead (q : parser) (t : token) (q' : parser) : parser := set_ahead (Some t) q'.

Lemma first_again p t p' : first_token p t p' -> first_token (set_ahead (Some t) p') t p'.
Proof. intros Hf. apply first_ahead. by eapply first_none. Qed.

(** No argument begins with the token. *)
Definition ends_arguments (t : token) : Prop := t = Char 59 \/ t = Char 10 \/ t = Char 125.

Definition starts_argument (t : token) : Prop :=
  match t with TOKEN _ | EQUALS _ => True | Char c => c = 123 | _ => False end.

(** ** Arguments *)

Lemma arguments_end fuel q t q' : first_token q t q' -> ends_arguments t ->
  p_arguments (S fuel) q = Some (Some [], set_ahead (Some t) q').
Proof.
  intros Hf Ht. cbn [CmdParse.p_arguments]. rewrite (bind_peek _ _ _ _ Hf).
  by destruct Ht as [-> | [-> | ->] ].
Qed.

(** One argument, and then the others. *)
Definition reads_argument (l : list token) (a : cmd_parse_argument) : Prop :=
  l <> [] /\ forall p q fuel, tokens p l q -> steady p -> (3 * length l + 6 <= fuel)%nat ->
  p_arguments (S fuel) p =
    p_bind (p_arguments fuel) (fun arguments => p_ret (a :: arguments)) q.

Lemma reads_word s : reads_argument [token_of_word s] (CMD_PARSE_STRING s).
Proof.
  split; [done|]. intros p q fuel Ht _ _. inversion Ht as [|? ? p' ? ? Hf Hs Ht']; subst. inversion Ht'; subst.
  cbn [CmdParse.p_arguments]. rewrite (bind_peek _ _ _ _ Hf). unfold token_of_word in *.
  destruct (is_equals s); by rewrite (bind_shift _ _ _ _ Hf).
Qed.

Lemma same_steady p q : same_around p q -> steady p -> steady q.
Proof. intros (E1 & _ & _ & E4) [H1 H2]. unfold steady, line_of in *. by rewrite E1, E4. Qed.

Lemma tokens_steady p l q : tokens p l q -> steady p -> steady q.
Proof. intros Ht. by apply same_steady, (tokens_around _ _ _ _ _ _ Ht). Qed.

Lemma reads_arguments ls args p q fuel t q' :
  Forall2 reads_argument ls args -> tokens p (concat ls) q -> steady p ->
  (3 * length (concat ls) + 7 <= fuel)%nat ->
  first_token q t q' -> ends_arguments t ->
  p_arguments fuel p = Some (Some args, set_ahead (Some t) q').
Proof.
  intros Hl. revert p fuel. induction Hl as [|l a ls args [Hne Hla] Hl IH]; intros p fuel Ht Hs Hf Hq Hend.
  - cbn in Ht. inversion Ht; subst. destruct fuel; [cbn in Hf; lia|]. by apply arguments_end.
  - cbn [concat] in Ht. destruct (tokens_app_inv _ _ _ _ _ _ _ Ht) as (p1 & Ht1 & Ht2).
    cbn [concat length] in Hf. rewrite length_app in Hf.
    assert (0 < length l)%nat by (destruct l; [done|cbn; lia]). destruct fuel as [|fuel]; [lia|].
    rewrite (Hla p p1 fuel Ht1 Hs) by lia. erewrite bind_some; [reflexivity|].
    apply IH; [done|by eapply tokens_steady|lia|done|done].
Qed.

(** ** Commands *)

(** The next token, which changes nothing else. *)
Definition next (q : parser) (t : token) (q' : parser) : Prop := first_token q t q' /\ same_around q q'.

Lemma tokens_inv p t l q : tokens p (t :: l) q -> exists p', next p t p' /\ tokens p' l q.
Proof. intros Ht. inversion Ht; subst. eexists. by split; [split|]. Qed.

Lemma next_again q t q' : next q t q' -> next (set_ahead (Some t) q') t q'.
Proof. intros [Hf _]. split; [by eapply first_again|by split_and!]. Qed.

Lemma tokens_again p t p' l q : next p t p' -> tokens p' l q -> tokens (set_ahead (Some t) p') (t :: l) q.
Proof. intros Hn Ht. destruct (next_again _ _ _ Hn). econstructor; eauto. Qed.

Definition reads_command (c : cmd) : Prop :=
  forall p q fuel t q', tokens p (cmd_tokens c) q -> steady p ->
  (3 * length (cmd_tokens c) + 6 <= fuel)%nat -> next q t q' -> ends_arguments t ->
  p_command fuel p = Some (Some (ast_cmd line c), set_ahead (Some t) q').

(** The first token of a command is its name. *)
Lemma cmd_tokens_name c : exists l, cmd_tokens c = TOKEN (ce_name (cmd_get_entry c)) :: l.
Proof. destruct c. cbn. eauto. Qed.

Lemma concat_words (words : list (list Z)) : concat (map (fun w => [token_of_word w]) words) = map token_of_word words.
Proof. induction words as [|w words IH]; [done|]. cbn. by rewrite IH. Qed.

Lemma reads_command_ok entry group file ln parse_flags tree values :
  Forall (fun v => reads_argument (value_tokens v) (ast_value line v)) values ->
  reads_command (Cmd entry group file ln parse_flags tree values).
Proof.
  intros Hv p q fuel t q' Ht Hs Hf [Hq Hsq] Hend. cbn [cmd_tokens] in Ht, Hf.
  destruct (tokens_inv _ _ _ _ Ht) as (p' & [Hfirst Hsp] & Ht').
  set (ls := map (fun w => [token_of_word w]) (flag_words tree) ++ map value_tokens values).
  assert (Els : map token_of_word (flag_words tree) ++ flat_map value_tokens values = concat ls).
  { unfold ls. rewrite concat_app, concat_words. f_equal. apply List.flat_map_concat_map. }
  rewrite Els in Ht', Hf. cbn [length] in Hf.
  destruct fuel as [|fuel]; [lia|]. cbn [CmdParse.p_command]. rewrite (bind_peek _ _ _ _ Hfirst).
  rewrite (bind_shift _ _ _ _ Hfirst).
  assert (Hargs : Forall2 reads_argument ls (map CMD_PARSE_STRING (flag_words tree) ++ map (ast_value line) values)).
  { apply Forall2_app.
    - apply Forall2_fmap, Forall_Forall2_diag, Forall_forall. intros w _. apply reads_word.
    - by apply Forall2_fmap, Forall_Forall2_diag. }
  pose proof (same_steady _ _ Hsp Hs) as Hs'.
  rewrite (bind_some _ _ _ _ _ (reads_arguments ls _ p' q fuel t q' Hargs Ht' Hs' ltac:(lia) Hq Hend)).
  unfold p_get, p_bind, p_ret. do 3 f_equal. cbn [ast_cmd]. f_equal.
  apply (same_steady _ _ Hsq). by eapply tokens_steady.
Qed.

(** ** Lists of commands *)

(** The tokens after the first of some commands. *)
Definition more_tokens (no_groups : bool) (group : Z) (l : list cmd) : list token :=
  match l with
  | [] => []
  | c :: _ => separator_tokens no_groups (group =? cmd_get_group c) ++ cmds_tokens no_groups l
  end.

Lemma cmds_tokens_cons no_groups c l :
  cmds_tokens no_groups (c :: l) = cmd_tokens c ++ more_tokens no_groups (cmd_get_group c) l.
Proof. unfold cmds_tokens, more_tokens. cbn [map join_tokens]. by destruct l. Qed.

(** The commands end here. *)
Definition ends_commands (t : token) : Prop := t = Char 10 \/ t = Char 125.

Lemma ends_commands_arguments t : ends_commands t -> ends_arguments t.
Proof. intros [-> | ->]; [by right; left|by right; right]. Qed.

(** After a semicolon: a command. *)
Lemma more_command fuel acc c p q p' t q' : reads_command c -> next p (Char 59) p' ->
  tokens p' (cmd_tokens c) q -> steady p -> (3 * length (cmd_tokens c) + 6 <= fuel)%nat ->
  next q t q' -> ends_arguments t ->
  p_more (S fuel) acc p = p_more fuel (acc ++ [ast_cmd line c]) (set_ahead (Some t) q').
Proof.
  intros Hc [Hf1 Hs1] Ht Hs Hf Hq Hend. pose proof (same_steady _ _ Hs1 Hs) as Hs'.
  destruct (cmd_tokens_name c) as (l & El). pose proof Ht as Ht'. rewrite El in Ht'.
  destruct (tokens_inv _ _ _ _ Ht') as (p2 & Hn2 & Ht2). pose proof Hn2 as [Hf2 Hs2].
  pose proof (tokens_again _ _ _ _ _ Hn2 Ht2) as Ht3. rewrite <- El in Ht3.
  pose proof (same_steady _ _ Hs2 Hs') as Hst2.
  cbn [CmdParse.p_more]. rewrite (bind_peek _ _ _ _ Hf1), (bind_shift _ _ _ _ Hf1), (bind_peek _ _ _ _ Hf2).
  rewrite (bind_some _ _ _ _ _ (Hc _ q fuel t q' Ht3 Hst2 Hf Hq Hend)).
  unfold p_get, p_bind. unfold adds, scope_holds. destruct c. cbn [ast_cmd pc_arguments length set_ahead pr_scope].
  rewrite bool_decide_eq_false_2 by done. cbn [negb andb].
  assert (Hq' : steady q') by (apply (same_steady q); [apply Hq|by eapply tokens_steady]).
  by rewrite (proj1 Hq').
Qed.

(** The token after a command, and what is still to come. *)
Lemma more_next no_groups group l q1 q t q' : tokens q1 (more_tokens no_groups group l) q -> next q t q' ->
  ends_commands t ->
  exists t1 q1' qr, next q1 t1 q1' /\ ends_arguments t1 /\
    tokens (set_ahead (Some t1) q1') (more_tokens no_groups group l) qr /\ next qr t q'.
Proof.
  intros Ht Hn He. destruct l as [|c l]; cbn [more_tokens] in *.
  - inversion Ht; subst. exists t, q', (set_ahead (Some t) q').
    split; [done|]. split; [by apply ends_commands_arguments|]. split; [constructor|exact (next_again _ _ _ Hn)].
  - assert (E : exists k, separator_tokens no_groups (group =? cmd_get_group c) ++ cmds_tokens no_groups (c :: l) = Char 59 :: k)
      by (unfold separator_tokens; destruct (_ || _); cbn [app]; eauto).
    destruct E as (k & E). rewrite E in *. destruct (tokens_inv _ _ _ _ Ht) as (q1' & Hn1 & Ht1).
    exists (Char 59), q1', q. split; [done|]. split; [by left|]. split; [exact (tokens_again _ _ _ _ _ Hn1 Ht1)|done].
Qed.

Lemma more_length no_groups group c l : (length (cmd_tokens c) + length (more_tokens no_groups (cmd_get_group c) l) + 1 <=
  length (more_tokens no_groups group (c :: l)))%nat.
Proof.
  cbn [more_tokens]. rewrite cmds_tokens_cons, !length_app. unfold separator_tokens. destruct (_ || _); cbn; lia.
Qed.

(** Another semicolon. *)
Lemma more_semicolon fuel acc p p1 p2 : next p (Char 59) p1 -> next p1 (Char 59) p2 ->
  p_more (S fuel) acc p = p_more fuel acc (set_ahead (Some (Char 59)) p2).
Proof.
  intros [Hf1 _] [Hf2 _]. cbn [CmdParse.p_more].
  by rewrite (bind_peek _ _ _ _ Hf1), (bind_shift _ _ _ _ Hf1), (bind_peek _ _ _ _ Hf2).
Qed.

Lemma reads_more no_groups l group acc p q fuel t q' : Forall reads_command l ->
  tokens p (more_tokens no_groups group l) q -> steady p ->
  (3 * length (more_tokens no_groups group l) + 8 <= fuel)%nat -> next q t q' -> ends_commands t ->
  p_more fuel acc p = Some (Some (acc ++ map (ast_cmd line) l), set_ahead (Some t) q').
Proof.
  intros Hl. revert group acc p q fuel. induction Hl as [|c l Hc Hl IH]; intros group acc p q fuel Ht Hs Hf Hn He.
  - cbn [more_tokens] in Ht. inversion Ht; subst. destruct fuel as [|fuel]; [cbn in Hf; lia|].
    cbn [CmdParse.p_more map]. rewrite app_nil_r. rewrite (bind_peek _ _ _ _ (proj1 Hn)). by destruct He as [-> | ->].
  - pose proof (more_length no_groups group c l) as Hlen.
    assert (Hone : exists p1 p1' fuel', next p1 (Char 59) p1' /\
      tokens p1' (cmds_tokens no_groups (c :: l)) q /\ steady p1 /\
      (3 * length (cmd_tokens c) + 3 * length (more_tokens no_groups (cmd_get_group c) l) + 9 <= fuel')%nat /\
      p_more fuel acc p = p_more (S fuel') acc p1).
    { cbn [more_tokens] in Ht. unfold separator_tokens in Ht. destruct (no_groups || _); cbn [app] in Ht.
      - destruct (tokens_inv _ _ _ _ Ht) as (p1' & Hn1 & Ht1). exists p, p1', (fuel - 1)%nat. split_and!; try done; [lia|].
        by replace (S (fuel - 1)) with fuel by lia.
      - destruct (tokens_inv _ _ _ _ Ht) as (p1 & Hn1 & Ht1). destruct (tokens_inv _ _ _ _ Ht1) as (p2 & Hn2 & Ht2).
        exists (set_ahead (Some (Char 59)) p2), p2, (fuel - 2)%nat.
        split; [exact (next_again _ _ _ Hn2)|]. split; [done|]. split; [|split; [lia|]].
        + apply (same_steady p2); [by split_and!|]. apply (same_steady p1); [apply Hn2|]. apply (same_steady p); [apply Hn1|done].
        + replace fuel with (S (S (fuel - 2))) by lia. rewrite (more_semicolon _ acc _ _ _ Hn1 Hn2).
          do 2 f_equal. lia. }
    destruct Hone as (p1 & p1' & fuel' & Hn1 & Ht1 & Hs1 & Hf1 & ->). rewrite cmds_tokens_cons in Ht1.
    destruct (tokens_app_inv _ _ _ _ _ _ _ Ht1) as (q1 & Hc1 & Hm1).
    destruct (more_next no_groups (cmd_get_group c) l q1 q t q' Hm1 Hn He) as (t1 & q1' & qr & Hnq & He1 & Hmr & Hnr).
    rewrite (more_command fuel' acc c p1 q1 p1' t1 q1' Hc Hn1 Hc1 Hs1 ltac:(lia) Hnq He1).
    assert (Hsq : steady (set_ahead (Some t1) q1')).
    { apply (same_steady q1'); [by split_and!|]. apply (same_steady q1); [apply Hnq|].
      eapply tokens_steady; [exact Hc1|]. apply (same_steady p1); [apply Hn1|done]. }
    rewrite (IH (cmd_get_group c) _ _ qr fuel' Hmr Hsq ltac:(lia) Hnr He). cbn [map]. by rewrite <- app_assoc.
Qed.

(** Commands, one or more. *)
Lemma reads_commands no_groups c l p q fuel t q' : Forall reads_command (c :: l) ->
  tokens p (cmds_tokens no_groups (c :: l)) q -> steady p ->
  (3 * length (cmds_tokens no_groups (c :: l)) + 9 <= fuel)%nat -> next q t q' -> ends_commands t ->
  p_commands fuel p = Some (Some (map (ast_cmd line) (c :: l)), set_ahead (Some t) q').
Proof.
  intros [Hc Hl]%Forall_cons Ht Hs Hf Hn He. rewrite cmds_tokens_cons in Ht, Hf. rewrite length_app in Hf.
  destruct (tokens_app_inv _ _ _ _ _ _ _ Ht) as (q1 & Hc1 & Hm1).
  destruct (more_next no_groups (cmd_get_group c) l q1 q t q' Hm1 Hn He) as (t1 & q1' & qr & Hnq & He1 & Hmr & Hnr).
  destruct fuel as [|fuel]; [lia|]. cbn [CmdParse.p_commands].
  destruct (cmd_tokens_name c) as (k & El). pose proof Hc1 as Hc2. rewrite El in Hc2.
  destruct (tokens_inv _ _ _ _ Hc2) as (p2 & Hn2 & Ht2). rewrite (bind_peek _ _ _ _ (proj1 Hn2)).
  pose proof (tokens_again _ _ _ _ _ Hn2 Ht2) as Ht3. rewrite <- El in Ht3.
  assert (Hs2 : steady (set_ahead (Some (TOKEN (ce_name (cmd_get_entry c)))) p2)).
  { apply (same_steady p2); [by split_and!|]. apply (same_steady p); [apply Hn2|done]. }
  rewrite (bind_some _ _ _ _ _ (Hc _ q1 fuel t1 q1' Ht3 Hs2 ltac:(lia) Hnq He1)).
  assert (Hsq : steady (set_ahead (Some t1) q1')).
  { apply (same_steady q1'); [by split_and!|]. apply (same_steady q1); [apply Hnq|].
    eapply tokens_steady; [exact Ht3|done]. }
  unfold p_get at 1, p_bind at 1. unfold adds, scope_holds. rewrite (proj1 Hsq).
  replace (length (pc_arguments (ast_cmd line c))) with (S (length (tail (pc_arguments (ast_cmd line c))))) by by destruct c.
  rewrite bool_decide_eq_false_2 by done. cbn [negb andb default].
  rewrite (reads_more no_groups l (cmd_get_group c) _ _ qr fuel t q' Hl Hmr Hsq ltac:(lia) Hnr He). done.
Qed.

(** A statement of commands, or none. *)
Lemma reads_statement no_groups l p q fuel t q' : Forall reads_command l ->
  tokens p (cmds_tokens no_groups l) q -> steady p ->
  (3 * length (cmds_tokens no_groups l) + 10 <= fuel)%nat -> next q t q' -> ends_commands t ->
  p_statement fuel p = Some (Some (map (ast_cmd line) l), set_ahead (Some t) q').
Proof.
  intros Hl Ht Hs Hf Hn He. destruct fuel as [|fuel]; [lia|]. cbn [CmdParse.p_statement]. destruct l as [|c l].
  - inversion Ht; subst. rewrite (bind_peek _ _ _ _ (proj1 Hn)). by destruct He as [-> | ->].
  - destruct (cmd_tokens_name c) as (k & El). pose proof Ht as Ht'. rewrite cmds_tokens_cons, El in Ht'.
    destruct (tokens_inv _ _ _ _ Ht') as (p2 & Hn2 & Ht2). rewrite (bind_peek _ _ _ _ (proj1 Hn2)).
    pose proof (tokens_again _ _ _ _ _ Hn2 Ht2) as Ht3.
    change (tokens (set_ahead (Some (TOKEN (ce_name (cmd_get_entry c)))) p2)
      ((TOKEN (ce_name (cmd_get_entry c)) :: k) ++ more_tokens no_groups (cmd_get_group c) l) q) in Ht3.
    rewrite <- El, <- cmds_tokens_cons in Ht3.
    assert (Hs2 : steady (set_ahead (Some (TOKEN (ce_name (cmd_get_entry c)))) p2)).
    { apply (same_steady p2); [by split_and!|]. apply (same_steady p); [apply Hn2|done]. }
    rewrite (bind_some _ _ _ _ _ (reads_commands no_groups c l _ q fuel t q' Hl Ht3 Hs2 ltac:(lia) Hn He)).
    unfold p_get, p_bind, p_ret, scope_holds. cbn [set_ahead pr_scope].
    assert (Hsq : steady q') by (apply (same_steady q); [apply Hn|eapply tokens_steady; [exact Ht3|done] ]).
    by rewrite (proj1 Hsq).
Qed.

(** Commands between braces. *)
Lemma reads_braces no_groups l p q fuel : Forall reads_command l ->
  tokens p (cmds_tokens no_groups l ++ [Char 125]) q -> steady p ->
  (3 * length (cmds_tokens no_groups l) + 11 <= fuel)%nat ->
  p_statements fuel true [] p = Some (Some (map (ast_cmd line) l), q).
Proof.
  intros Hl Ht Hs Hf. destruct (tokens_app_inv _ _ _ _ _ _ _ Ht) as (q1 & H1 & H2).
  destruct (tokens_inv _ _ _ _ H2) as (q2 & Hn & H3). inversion H3; subst. destruct fuel as [|fuel]; [lia|].
  cbn [CmdParse.p_statements].
  rewrite (bind_some _ _ _ _ _ (reads_statement no_groups l p q1 fuel (Char 125) _ Hl H1 Hs ltac:(lia) Hn ltac:(by right))).
  pose proof (first_again _ _ _ (proj1 Hn)) as Hf1. rewrite (bind_peek _ _ _ _ Hf1). by rewrite (bind_shift _ _ _ _ (proj1 Hn)).
Qed.

(** Lines up to the end of the input: here one. *)
Lemma reads_line no_groups l p q fuel : Forall reads_command l ->
  tokens p (cmds_tokens no_groups l ++ [Char 10; End]) q -> steady p ->
  (3 * length (cmds_tokens no_groups l) + 11 <= fuel)%nat ->
  p_statements fuel false [] p = Some (Some (map (ast_cmd line) l), set_ahead (Some End) q).
Proof.
  intros Hl Ht Hs Hf. destruct (tokens_app_inv _ _ _ _ _ _ _ Ht) as (q1 & H1 & H2).
  destruct (tokens_inv _ _ _ _ H2) as (q2 & Hn & H3). destruct (tokens_inv _ _ _ _ H3) as (q3 & Hn3 & H4).
  inversion H4; subst. destruct fuel as [|fuel]; [lia|].
  pose proof (reads_statement no_groups l p q1 fuel (Char 10) _ Hl H1 Hs ltac:(lia) Hn ltac:(by left)) as Est.
  cbn [CmdParse.p_statements]. rewrite (bind_some _ _ _ _ _ Est).
  rewrite (bind_peek _ _ _ _ (first_again _ _ _ (proj1 Hn))), (bind_shift _ _ _ _ (proj1 Hn)).
  by rewrite (bind_peek _ _ _ _ (proj1 Hn3)).
Qed.

Lemma line_first no_groups l : exists t k, cmds_tokens no_groups l ++ [Char 10; End] = t :: k /\ t <> End.
Proof.
  destruct l as [|c l]; [by exists (Char 10), [End]|]. rewrite cmds_tokens_cons.
  destruct (cmd_tokens_name c) as (k & ->). cbn [app]. by eexists _, _.
Qed.

(** The commands of the whole input. *)
Lemma reads_lines no_groups l p q fuel : Forall reads_command l ->
  tokens p (cmds_tokens no_groups l ++ [Char 10; End]) q -> steady p ->
  (3 * length (cmds_tokens no_groups l) + 11 <= fuel)%nat ->
  p_lines wctomb home_of own_home format_expand pi_flags fuel p =
    Some (Some (map (ast_cmd line) l), set_ahead (Some End) q).
Proof.
  intros Hl Ht Hs Hf. destruct (line_first no_groups l) as (t & k & E & Hne). rewrite E in Ht.
  destruct (tokens_inv _ _ _ _ Ht) as (p1 & Hn & Ht1). pose proof (tokens_again _ _ _ _ _ Hn Ht1) as Ht2.
  rewrite <- E in Ht2.
  assert (Hs1 : steady (set_ahead (Some t) p1)).
  { apply (same_steady p1); [by split_and!|]. apply (same_steady p); [apply Hn|done]. }
  pose proof (reads_line no_groups l _ q fuel Hl Ht2 Hs1 Hf) as Est.
  assert (Hq : pr_ahead q = None) by (rewrite E in Ht2; exact (tokens_none _ _ _ _ _ _ _ Ht2)).
  pose proof (bind_some _ (fun c => p_bind peek (fun t => match t with End => p_ret c | _ => syntax_error end)) _ _ _ Est) as Eall.
  cbv beta in Eall. rewrite (bind_peek _ _ _ _ (first_ahead _ _ _ _ _ Hq)) in Eall. unfold p_lines. rewrite (bind_peek _ _ _ _ (proj1 Hn)).
  by destruct t.
Qed.

(** ** Every command *)

Lemma reads_braces_argument group l : Forall reads_command l ->
  reads_argument (value_tokens (ARGS_COMMANDS (CmdList group l))) (ast_value line (ARGS_COMMANDS (CmdList group l))).
Proof.
  intros Hl. cbn [value_tokens ast_value].
  change (join_tokens false (map (fun c => (cmd_get_group c, cmd_tokens c)) l)) with (cmds_tokens false l).
  split; [done|]. intros p q fuel Ht Hs Hf. cbn [length] in Hf. rewrite length_app in Hf. cbn [length] in Hf.
  destruct (tokens_inv _ _ _ _ Ht) as (p1 & Hn & Ht1). cbn [CmdParse.p_arguments].
  rewrite (bind_peek _ _ _ _ (proj1 Hn)), (bind_shift _ _ _ _ (proj1 Hn)).
  assert (Hs1 : steady p1) by (apply (same_steady p); [apply Hn|done]).
  by rewrite (bind_some _ _ _ _ _ (reads_braces false l p1 q fuel Hl Ht1 Hs1 ltac:(lia))).
Qed.

Lemma reads_every_command c : cmd_ok c -> reads_command c.
Proof.
  revert c. apply (cmd_ind_nested (fun v => value_ok v -> reads_argument (value_tokens v) (ast_value line v))
    (fun c => cmd_ok c -> reads_command c)).
  - done.
  - intros s _. apply reads_word.
  - intros group l IH Hok. cbn [value_ok] in Hok. apply foldr_and_Forall in Hok. apply reads_braces_argument.
    apply Forall_forall. intros c Hc. rewrite Forall_forall in IH, Hok. auto.
  - intros entry group file ln parse_flags tree values IH (_ & _ & _ & _ & _ & Hv). apply foldr_and_Forall in Hv.
    apply reads_command_ok, Forall_forall. intros v Hin. rewrite Forall_forall in IH, Hv. auto.
Qed.
End Grammar.
