(* ===== verification/CmdArgs.v ===== *)
(** * Arguments parsed back

    The words of the flags of a command, and the arguments after them, are
    parsed as the same flags and arguments. *)
From Stdlib Require Import ZArith Lia Ascii String.
From S2P Require Import Prelude.
From S2P Require Import CString.
From S2P Require Import Utf8.
From S2P Require Import Locale.
From S2P Require Import CmdLex.
From S2P Require Import Arguments.
From S2P Require Import CmdEscape.
From S2P Require Import CmdTable.
From S2P Require Import Cmd.
From S2P Require Import CmdParse.
From S2P Require Import CmdPrint.

(** ** Setting flags *)

(** A flag set once, with a value or without. *)
Notation op := (Z * option args_value)%type.
Definition set_op (tree : list args_entry) (o : op) : list args_entry := tree_set tree o.1 o.2 0.
Definition ops_for (f : Z) (ops : list op) : list (option args_value) :=
  map snd (List.filter (fun o => o.1 =? f) ops).
Definition entry_of (f : Z) (l : list (option args_value)) : option args_entry :=
  match l with [] => None | _ => Some (AE f (flat_map new_values l) (u32 (Z.of_nat (length l))) 0) end.

Lemma find_above tree f : Forall (fun e => f < ae_flag e) tree -> args_find tree f = None.
Proof.
  unfold args_find. induction 1 as [|e tree He _ IH]; [done|]. cbn [find]. by rewrite (proj2 (Z.eqb_neq (ae_flag e) f)) by lia.
Qed.

Lemma find_set tree f v g : flags_sorted tree ->
  args_find (tree_set tree f v 0) g =
    if g =? f then
      Some match args_find tree f with
           | Some e => AE f (ae_values e ++ new_values v) (u32 (ae_count e + 1)) (ae_flags e)
           | None => AE f (new_values v) 1 0
           end
    else args_find tree g.
Proof.
  unfold args_find. induction tree as [|e tree IH]; intros Hs; cbn [tree_set find].
  - rewrite (Z.eqb_sym g f). cbn [ae_flag]. by destruct (f =? g).
  - destruct Hs as [He Hs]. specialize (IH Hs). destruct e as [h values count flags]. cbn [ae_flag] in *.
    destruct (Z.eqb_spec h f) as [->|Hne]; [|destruct (Z.ltb_spec f h) as [Hlt|Hge] ]; cbn [find ae_flag].
    + rewrite (Z.eqb_sym g f). by destruct (f =? g).
    + rewrite (Z.eqb_sym g f). destruct (Z.eqb_spec f g) as [->|]; [|done].
      pose proof (find_above tree g) as Hf. unfold args_find in Hf. rewrite Hf; [done|].
      eapply Forall_impl; [exact He|]. cbn. lia.
    + rewrite IH. destruct (Z.eqb_spec h g) as [->|]; [|done]. by rewrite (proj2 (Z.eqb_neq g f)).
Qed.

Lemma set_above tree f v g : Forall (fun e => g < ae_flag e) tree -> g < f ->
  Forall (fun e => g < ae_flag e) (tree_set tree f v 0).
Proof.
  intros Ht Hg. induction Ht as [|e tree He Ht IH]; cbn [tree_set]; [by apply Forall_singleton|].
  destruct e as [h values count flags]. cbn [ae_flag] in He.
  destruct (Z.eqb_spec h f) as [->|]; [by constructor|]. destruct (f <? h); by repeat constructor.
Qed.

Lemma set_sorted tree f v : flags_sorted tree -> flags_sorted (tree_set tree f v 0).
Proof.
  induction tree as [|e tree IH]; [done|]. intros [He Hs]. destruct e as [h values count flags]. cbn [tree_set ae_flag] in *.
  destruct (Z.eqb_spec h f) as [->|]; [done|]. destruct (Z.ltb_spec f h).
  - split; [|done]. constructor; [done|]. eapply Forall_impl; [exact He|]. cbn. lia.
  - split; [|by apply IH]. apply set_above; [done|]. cbn. lia.
Qed.

Lemma ops_sorted ops tree : flags_sorted tree -> flags_sorted (foldl set_op tree ops).
Proof. revert tree. induction ops as [|o ops IH]; intros tree Hs; [done|]. by apply IH, set_sorted. Qed.

(** What is found after flags were set is what was set for the flag. *)
Lemma ops_find ops f : args_find (foldl set_op [] ops) f = entry_of f (ops_for f ops).
Proof.
  induction ops as [|[g v] ops IH] using rev_ind; [done|]. rewrite foldl_snoc. unfold set_op at 1. cbn [fst snd].
  rewrite find_set by by apply ops_sorted. unfold ops_for. rewrite List.filter_app, map_app. cbn [List.filter fst].
  rewrite (Z.eqb_sym f g). destruct (Z.eqb_spec g f) as [E|]; cbn [map snd].
  - subst g. rewrite IH. unfold entry_of. fold (ops_for f ops). destruct (ops_for f ops) as [|x l] eqn:E; cbn [app].
    + cbn. by rewrite app_nil_r.
    + cbn [ae_values ae_count ae_flags]. do 2 f_equal.
      * cbn [flat_map]. rewrite List.flat_map_app, <- app_assoc. cbn [flat_map]. by rewrite app_nil_r.
      * cbn [length]. rewrite length_app. cbn [length]. unfold u32. rewrite Zplus_mod_idemp_l. f_equal. lia.
  - by rewrite app_nil_r, IH.
Qed.

(** Two trees with the same entries. *)
Lemma tree_ext t1 t2 : flags_sorted t1 -> flags_sorted t2 -> (forall f, args_find t1 f = args_find t2 f) -> t1 = t2.
Proof.
  revert t2. induction t1 as [|e1 t1 IH]; intros [|e2 t2] Hs1 Hs2 Hf; [done|..].
  - specialize (Hf (ae_flag e2)). unfold args_find in Hf. cbn [find] in Hf. by rewrite Z.eqb_refl in Hf.
  - specialize (Hf (ae_flag e1)). unfold args_find in Hf. cbn [find] in Hf. by rewrite Z.eqb_refl in Hf.
  - destruct Hs1 as [H1 Hs1], Hs2 as [H2 Hs2].
    assert (Ha : forall e t e' t', Forall (fun x => ae_flag e < ae_flag x) t -> Forall (fun x => ae_flag e' < ae_flag x) t' ->
      (forall f, args_find (e :: t) f = args_find (e' :: t') f) -> ~ ae_flag e < ae_flag e').
    { intros e t e' t' _ Ht' Heq Hlt. specialize (Heq (ae_flag e)). rewrite (find_above (e' :: t')) in Heq.
      - unfold args_find in Heq. cbn [find] in Heq. by rewrite Z.eqb_refl in Heq.
      - constructor; [done|]. eapply Forall_impl; [exact Ht'|]. cbn. lia. }
    pose proof (Ha _ _ _ _ H1 H2 Hf) as Hn1. pose proof (Ha _ _ _ _ H2 H1 (fun f => eq_sym (Hf f))) as Hn2.
    assert (Hflag : ae_flag e1 = ae_flag e2) by lia. assert (e1 = e2) as <-.
    { specialize (Hf (ae_flag e1)). unfold args_find in Hf. cbn [find] in Hf. rewrite <- Hflag, !Z.eqb_refl in Hf.
      by injection Hf. }
    f_equal. apply IH; [done|done|]. intros f. specialize (Hf f). unfold args_find in Hf |- *. cbn [find] in Hf.
    destruct (Z.eqb_spec (ae_flag e1) f) as [E|]; [|done].
    pose proof (find_above t1 _ H1) as F1. pose proof (find_above t2 _ H2) as F2. unfold args_find in F1, F2.
    by rewrite <- E, F1, F2.
Qed.

(** ** The flags of a tree *)

Definition letter_ops (e : args_entry) : list op := map (fun f => (f, None)) (entry_letters e).
Definition value_ops (e : args_entry) : list op := map (fun v => (ae_flag e, Some v)) (ae_values e).
Definition tree_ops (tree : list args_entry) : list op := flat_map letter_ops tree ++ flat_map value_ops tree.

Lemma ops_for_same f l : Forall (fun o : op => o.1 = f) l -> ops_for f l = map snd l.
Proof.
  unfold ops_for. induction 1 as [|o l Ho _ IH]; [done|]. cbn [List.filter]. rewrite Ho, Z.eqb_refl. cbn [map]. by rewrite IH.
Qed.
Lemma ops_for_other f l : Forall (fun o : op => o.1 <> f) l -> ops_for f l = [].
Proof.
  unfold ops_for. induction 1 as [|o l Ho _ IH]; [done|]. cbn [List.filter]. by rewrite (proj2 (Z.eqb_neq _ _) Ho).
Qed.
Lemma ops_for_app f l1 l2 : ops_for f (l1 ++ l2) = ops_for f l1 ++ ops_for f l2.
Proof. unfold ops_for. by rewrite List.filter_app, map_app. Qed.

(** Of the operations of the entries, those for a flag are those of its entry. *)
Lemma ops_for_tree (g : args_entry -> list op) tree f :
  (forall e, Forall (fun o => o.1 = ae_flag e) (g e)) -> flags_sorted tree ->
  ops_for f (flat_map g tree) = match args_find tree f with Some e => map snd (g e) | None => [] end.
Proof.
  intros Hg. unfold args_find. induction tree as [|e tree IH]; [done|]. intros [He Hs]. cbn [flat_map find].
  rewrite ops_for_app. specialize (IH Hs). destruct (Z.eqb_spec (ae_flag e) f) as [E|Hne].
  - rewrite (ops_for_same f) by (rewrite <- E; apply Hg). rewrite IH.
    pose proof (find_above tree f) as Hf. unfold args_find in Hf. rewrite Hf; [by rewrite app_nil_r|].
    eapply Forall_impl; [exact He|]. cbn. lia.
  - rewrite ops_for_other; [exact IH|]. eapply Forall_impl; [apply Hg|]. cbn. intros o ->. done.
Qed.

Lemma letter_ops_flag e : Forall (fun o => o.1 = ae_flag e) (letter_ops e).
Proof.
  unfold letter_ops, entry_letters. destruct (ae_values e); [|done]. apply Forall_forall.
  intros o (f & -> & [-> _]%elem_of_replicate)%list_elem_of_fmap. done.
Qed.
Lemma value_ops_flag e : Forall (fun o => o.1 = ae_flag e) (value_ops e).
Proof. apply Forall_forall. intros o (v & -> & _)%list_elem_of_fmap. done. Qed.

Section Ok.
Context `{Locale}.

(** Setting the flags of an entry makes the entry. *)
Lemma entry_ops template e : entry_ok template e ->
  entry_of (ae_flag e) (map snd (letter_ops e) ++ map snd (value_ops e)) = Some e.
Proof.
  destruct e as [flag values count flags]. intros (-> & _ & found & _ & He).
  unfold letter_ops, value_ops, entry_letters. cbn [ae_values ae_flag ae_count]. destruct values as [|v values].
  - destruct He as [Hc _]. cbn [map]. rewrite app_nil_r, map_map. cbn [snd].
    assert (En : forall n, map (fun _ : Z => None) (replicate n flag) = replicate n (None : option args_value))
      by (induction n as [|n IH]; [done|cbn; by rewrite IH]).
    assert (Ev : forall n, flat_map new_values (replicate n (None : option args_value)) = [])
      by (induction n as [|n IH]; [done|exact IH]).
    rewrite En. replace (Z.to_nat count) with (S (Z.to_nat (count - 1))) by lia.
    unfold entry_of. cbn [replicate]. change (None :: replicate ?n None) with (replicate (S n) (None : option args_value)).
    rewrite Ev, length_replicate, u32_small by lia. do 2 f_equal. lia.
  - destruct He as (Hc & Hlt & Hv & _). cbn [map app]. rewrite map_map. cbn [snd].
    change (Some v :: map (fun x => Some x) values) with (map Some (v :: values)).
    assert (Ev : flat_map new_values (map Some (v :: values)) = v :: values).
    { clear Hc Hlt. induction Hv as [|x l Hx _ IH]; [done|]. cbn [map flat_map]. rewrite IH. by destruct x. }
    unfold entry_of. cbn [map]. change (Some v :: map Some values) with (map Some (v :: values)).
    rewrite Ev, length_map, u32_small by lia. by rewrite Hc.
Qed.

(** The flags of a tree, set in the order they are printed in, make the tree. *)
Lemma tree_ops_tree template tree : flags_sorted tree -> Forall (entry_ok template) tree ->
  foldl set_op [] (tree_ops tree) = tree.
Proof.
  intros Hs Ht. apply tree_ext; [by apply ops_sorted|done|]. intros f. rewrite ops_find. unfold tree_ops.
  rewrite ops_for_app, !ops_for_tree by (done || apply letter_ops_flag || apply value_ops_flag).
  destruct (args_find tree f) as [e|] eqn:E; [|done]. unfold args_find in E. apply find_some in E as [Hin Hf%Z.eqb_eq].
  rewrite Forall_forall in Ht. rewrite <- Hf. eapply entry_ops. apply Ht. by apply list_elem_of_In.
Qed.

(** ** Parsing *)

Context (template : list Z).

(** A letter that is a flag without a value. *)
Definition bare_flag (f : Z) : Prop :=
  isalnum f = true /\ exists found, after_char f template = Some found /\ head found <> Some 58.

Lemma isalnum_not f : isalnum f = true -> f <> 63 /\ f <> 45.
Proof. unfold isalnum, isalpha, isdigit. rewrite !orb_true_iff, !andb_true_iff, !Z.leb_le. lia. Qed.

Definition set_ops (a : args) (ops : list op) : args := Args (foldl set_op (args_tree a) ops) (args_list a).

Lemma set_ops_cons a f v ops : set_ops (args_set a f v 0) ops = set_ops a ((f, v) :: ops).
Proof. done. Qed.

Lemma parse_bare values a i letters : Forall bare_flag letters ->
  parse_letters template values a i letters = Next (set_ops a (map (fun f => (f, None)) letters)) i.
Proof.
  intros Hl. revert a. induction Hl as [|f letters (Hf & found & Ef & Hn) _ IH]; intros a; cbn [parse_letters map].
  - by destruct a.
  - destruct (isalnum_not f Hf) as [H63 _]. rewrite (proj2 (Z.eqb_neq f 63)), Hf, Ef by done. cbn [negb].
    rewrite bool_decide_eq_false_2 by done. cbn [negb]. by rewrite IH.
Qed.

(** A flag and its value in the next word. *)
Definition valued_flag (f : Z) : Prop :=
  isalnum f = true /\ exists found, after_char f template = Some found /\ head found = Some 58.

Lemma parse_valued values a i f s : valued_flag f -> values !! i = Some (ARGS_STRING s) ->
  parse_letters template values a i [f] = Next (args_set a f (Some (ARGS_STRING s)) 0) (S i).
Proof.
  intros (Hf & found & Ef & Hh) Hi. cbn [parse_letters]. destruct (isalnum_not f Hf) as [H63 _].
  rewrite (proj2 (Z.eqb_neq f 63)), Hf, Ef by done. cbn [negb]. rewrite bool_decide_eq_true_2 by done. cbn [negb].
  cbn [args_parse_flag_argument]. by rewrite Hi.
Qed.

(** One turn at a word of flags. *)
Lemma turn_word values a i c s a' i' : values !! i = Some (ARGS_STRING (45 :: c :: s)) -> c <> 45 ->
  parse_letters template values a (S i) (c :: s) = Next a' i' ->
  flags_turn template values (a, i) = Some (inl (a', i')).
Proof.
  intros Hi Hc Hp. unfold flags_turn. pose proof (lookup_lt_Some _ _ _ Hi) as Hlt.
  rewrite (proj2 (Nat.ltb_lt _ _) Hlt). unfold args_parse_flags. rewrite Hi, (proj2 (Z.eqb_neq c 45)) by done. cbn [andb].
  by rewrite Hp.
Qed.

(** The words [ws] from [i] on set flags: as many turns as words, or fewer. *)
Definition advances (values : list args_value) (i : nat) (ws : list (list Z)) (ops : list op) : Prop :=
  forall a, exists n, (n <= length ws)%nat /\
    leads (flags_turn template values) n (a, i) (set_ops a ops, (i + length ws)%nat).

Definition words_at (values : list args_value) (i : nat) (ws : list (list Z)) : Prop :=
  exists rest, drop i values = map ARGS_STRING ws ++ rest.

Lemma words_at_app values i ws1 ws2 : words_at values i (ws1 ++ ws2) ->
  words_at values i ws1 /\ words_at values (i + length ws1) ws2.
Proof.
  intros (rest & E). rewrite map_app, <- app_assoc in E. split; [by eexists|]. exists rest.
  rewrite <- drop_drop, E, drop_app_length'; [done|]. by rewrite length_map.
Qed.

Lemma words_at_lookup values i w ws : words_at values i (w :: ws) -> values !! i = Some (ARGS_STRING w).
Proof. intros (rest & E). by rewrite <- (Nat.add_0_r i), <- lookup_drop, E. Qed.

Lemma advances_nil values i : advances values i [] [].
Proof. intros a. exists 0%nat. split; [done|]. rewrite Nat.add_0_r. destruct a. apply leads_refl. Qed.

Lemma advances_app values i ws1 ws2 ops1 ops2 : advances values i ws1 ops1 ->
  advances values (i + length ws1) ws2 ops2 -> advances values i (ws1 ++ ws2) (ops1 ++ ops2).
Proof.
  intros H1 H2 a. destruct (H1 a) as (n1 & Hn1 & Hl1). destruct (H2 (set_ops a ops1)) as (n2 & Hn2 & Hl2).
  exists (n1 + n2)%nat. rewrite length_app. split; [lia|].
  replace (set_ops a (ops1 ++ ops2)) with (set_ops (set_ops a ops1) ops2).
  - rewrite Nat.add_assoc. by eapply leads_trans.
  - unfold set_ops. by rewrite foldl_app.
Qed.

(** The letters, if there are any. *)
Lemma advances_letters values i letters :
  Forall bare_flag letters -> words_at values i (match letters with [] => [] | _ => [45 :: letters] end) ->
  advances values i (match letters with [] => [] | _ => [45 :: letters] end) (map (fun f => (f, None)) letters).
Proof.
  intros Hl Hw. destruct letters as [|f letters]; [apply advances_nil|]. intros a. exists 1%nat. split; [done|].
  cbn [length]. rewrite Nat.add_1_r. apply leads_turn. eapply turn_word; [by eapply words_at_lookup| |by apply parse_bare].
  apply Forall_cons in Hl as [ [Hf _] _]. by apply isalnum_not.
Qed.

(** A flag and its value. *)
Lemma advances_value values i f v : valued_flag f -> is_string v -> words_at values i [[45; f]; string_in v] ->
  advances values i [[45; f]; string_in v] [(f, Some v)].
Proof.
  intros Hf Hv Hw a. destruct v as [|s|]; [done| |done]. cbn [string_in] in *. exists 1%nat. split; [cbn; lia|].
  destruct (words_at_app values i [[45; f]] [s] Hw) as [H1 H2]. cbn [length] in *.
  rewrite Nat.add_succ_r, Nat.add_1_r. apply leads_turn. eapply turn_word; [by eapply words_at_lookup| |].
  - destruct Hf as [Hf _]. by apply isalnum_not.
  - rewrite (parse_valued values a (S i) f s Hf); [done|]. rewrite <- Nat.add_1_r. by eapply words_at_lookup.
Qed.

Lemma advances_values values f vs i : valued_flag f -> Forall is_string vs ->
  words_at values i (flat_map (fun v => [[45; f]; string_in v]) vs) ->
  advances values i (flat_map (fun v => [[45; f]; string_in v]) vs) (map (fun v => (f, Some v)) vs).
Proof.
  intros Hf Hv. revert i. induction Hv as [|v vs Hv _ IH]; intros i Hw; [apply advances_nil|].
  cbn [flat_map map] in *. destruct (words_at_app _ _ _ _ Hw) as [H1 H2].
  apply (advances_app _ _ _ _ [(f, Some v)]); [by apply advances_value|by apply IH].
Qed.

Lemma advances_entries values tree i : Forall (entry_ok template) tree -> words_at values i (flat_map entry_words tree) ->
  advances values i (flat_map entry_words tree) (flat_map value_ops tree).
Proof.
  intros Ht. revert i. induction Ht as [|e tree He _ IH]; intros i Hw; [apply advances_nil|].
  cbn [flat_map] in *. destruct (words_at_app _ _ _ _ Hw) as [H1 H2]. apply advances_app; [|by apply IH].
  destruct e as [flag vs count flags]. unfold entry_words, value_ops in *. cbn [ae_values ae_flag] in *.
  destruct He as (_ & Hf & found & Ef & He). destruct vs as [|v vs]; [apply advances_nil|].
  destruct He as (_ & _ & Hv & Hh). apply advances_values; [|done|done]. split; [done|]. by exists found.
Qed.

Lemma letters_bare tree : Forall (entry_ok template) tree -> Forall bare_flag (flat_map entry_letters tree).
Proof.
  induction 1 as [|e tree He _ IH]; cbn [flat_map]; [done|]. apply Forall_app. split; [|done].
  destruct e as [flag vs count flags]. destruct He as (_ & Hf & found & Ef & He). unfold entry_letters.
  cbn [ae_values ae_flag ae_count]. destruct vs; [|done]. apply Forall_forall. intros b [-> _]%elem_of_replicate.
  split; [done|]. exists found. by destruct He.
Qed.

(** The words of a tree, from the first argument on, set its flags. *)
Lemma advances_tree values tree : Forall (entry_ok template) tree -> words_at values 1 (flag_words tree) ->
  advances values 1 (flag_words tree) (tree_ops tree).
Proof.
  intros Ht Hw. unfold flag_words, tree_ops in *. destruct (words_at_app _ _ _ _ Hw) as [H1 H2]. apply advances_app.
  - replace (flat_map letter_ops tree) with (map (fun f => (f, None : option args_value)) (flat_map entry_letters tree)).
    + pose proof (advances_letters values 1 (flat_map entry_letters tree) (letters_bare tree Ht)) as Hl.
      destruct (flat_map entry_letters tree); by apply Hl.
    + clear. induction tree as [|e tree IH]; [done|]. cbn [flat_map]. by rewrite map_app, IH.
  - by apply advances_entries.
Qed.

(** The first argument ends the flags. *)
Lemma turn_stop values a i rest : drop i values = rest -> no_dash rest -> (i <= length values)%nat ->
  flags_turn template values (a, i) = Some (inr (inl (a, i))).
Proof.
  intros Hd Hn Hi. unfold flags_turn. destruct (Nat.ltb_spec i (length values)) as [Hlt|]; [|done].
  unfold args_parse_flags. destruct (lookup_lt_is_Some_2 _ _ Hlt) as (v & Hv). rewrite Hv.
  rewrite (drop_S _ _ _ Hv) in Hd. subst rest. destruct v as [|s|]; [done| |done].
  destruct s as [|x [|c s]]; [done|..]; destruct (decide (x = 45)) as [->|]; try done; by destruct x as [|x|x]; try done;
    do 6 (destruct x as [x|x|]; try done).
Qed.

(** The flags and the arguments of a command are parsed as they were. *)
Lemma args_parse_words name tree rest lower upper cb :
  flags_sorted tree -> Forall (entry_ok template) tree -> no_dash rest ->
  parse_arguments cb rest (Args tree []) = Some (inl (Args tree rest)) ->
  check_count lower upper (Args tree rest) = inl (Args tree rest) ->
  args_parse template lower upper cb (ARGS_STRING name :: map ARGS_STRING (flag_words tree) ++ rest) =
    Some (inl (Args tree rest)).
Proof.
  intros Hs Ht Hn Hp Hc. set (values := ARGS_STRING name :: map ARGS_STRING (flag_words tree) ++ rest).
  assert (Hd : drop 1 values = map ARGS_STRING (flag_words tree) ++ rest) by done.
  destruct (advances_tree values tree Ht ltac:(by exists rest) args_create) as (n & Hn' & Hl).
  assert (Hlen : length values = (1 + length (flag_words tree) + length rest)%nat).
  { unfold values. cbn [length]. rewrite length_app, length_map. lia. }
  assert (Hdrop : drop (1 + length (flag_words tree)) values = rest).
  { rewrite <- drop_drop, Hd, drop_app_length'; [done|]. by rewrite length_map. }
  unfold args_parse, values at 1.
  replace (S (length values)) with (n + S (length values - n))%nat by lia. rewrite Hl. cbn [iterate].
  rewrite (turn_stop values _ _ rest Hdrop Hn) by lia. cbn [mbind option_bind]. rewrite Hdrop.
  replace (set_ops args_create (tree_ops tree)) with (Args tree []).
  - rewrite Hp. cbn [mbind option_bind]. by rewrite Hc.
  - unfold set_ops, args_create. cbn [args_tree args_list]. by rewrite (tree_ops_tree template tree Hs Ht).
Qed.
End Ok.
