(* ===== verification/CmdProps.v ===== *)
(** * Printed commands are read back

    The commands that were printed are built again from what the parser reads:
    the same entries, flags and arguments. *)
From Stdlib Require Import ZArith Lia Ascii String.
From S2P Require Import Prelude.
From S2P Require Import CString.
From S2P Require Import Utf8.
From S2P Require Import Locale.
From S2P Require Import Environ.
From S2P Require Import CmdLex.
From S2P Require Import CmdLexFacts.
From S2P Require Import Arguments.
From S2P Require Import CmdEscape.
From S2P Require Import CmdTable.
From S2P Require Import Cmd.
From S2P Require Import CmdParse.
From S2P Require Import CmdPrint.
From S2P Require Import CmdGrammar.
From S2P Require Import CmdArgs.

(** ** What is the same *)



(** The command is found by its name. *)
Lemma found_by_name entry : entry ∈ cmd_table -> cmd_find (ce_name entry) = inl entry.
Proof.
  assert (Hall : Forall (fun e => cmd_find (ce_name e) = inl e) cmd_table).
  { unfold cmd_table. repeat (constructor; [vm_compute; reflexivity|]). constructor. }
  rewrite Forall_forall in Hall. apply Hall.
Qed.

(** ... and by its alias. *)
Lemma found_by_alias entry alias : entry ∈ cmd_table -> ce_alias entry = Some alias -> cmd_find alias = inl entry.
Proof.
  assert (Hall : Forall (fun e => forall a, ce_alias e = Some a -> cmd_find a = inl e) cmd_table).
  { unfold cmd_table. repeat (constructor; [intros a; (discriminate || (intros [= <-]; vm_compute; reflexivity))|]). constructor. }
  rewrite Forall_forall in Hall. intros Hin. by apply Hall.
Qed.

Lemma last_default {A} (l : list A) x y : List.last (y :: l) x = List.last l y.
Proof.
  revert x y. induction l as [|z l IH]; intros x y; [done|]. etrans; [exact (IH x z)|]. symmetry. exact (IH y z).
Qed.

(** Of the entries whose names begin so, the last one; with another, or one
    found before, it is ambiguous. *)
Lemma find_entry_prefix table name found ambiguous :
  Forall (fun e => ce_name e <> name /\ ce_alias e <> Some name) table ->
  find_entry table name found ambiguous =
    match List.filter (fun e => has_prefix name (ce_name e)) table with
    | [] => (found, ambiguous)
    | e :: l => (Some (List.last l e), ambiguous || bool_decide (is_Some found) || negb (bool_decide (l = [])))
    end.
Proof.
  intros Ht. revert found ambiguous. induction Ht as [|e table [Hn Ha] _ IH]; intros found ambiguous; [done|].
  cbn [find_entry List.filter]. rewrite bool_decide_eq_false_2 by done.
  destruct (has_prefix name (ce_name e)); cbn [negb]; [|by rewrite IH].
  rewrite bool_decide_eq_false_2 by done. rewrite IH. cbv zeta.
  destruct (List.filter _ table) as [|e2 l]; [by rewrite orb_false_r|].
  rewrite last_default, (bool_decide_eq_true_2 (is_Some (Some e))) by done. by rewrite !orb_true_r.
Qed.

(** Names, each with a comma after it. *)
Definition listing (l : list cmd_entry) : string :=
  foldr (fun e s => string_of_bytes (ce_name e) +:+ ", " +:+ s)%string ""%string l.
Definition names_of (l : list cmd_entry) : list string := map (fun e => string_of_bytes (ce_name e)) l.

Lemma listing_filter (f : cmd_entry -> bool) l : (String.length (listing (List.filter f l)) <= String.length (listing l))%nat.
Proof.
  induction l as [|e l IH]; [done|]. cbn [List.filter listing foldr]. fold (listing l).
  destruct (f e); cbn [listing foldr]; fold (listing (List.filter f l)); rewrite !str_length_app; cbn; lia.
Qed.

Lemma could_be_listing table name s :
  (String.length s + String.length (listing table) < names_size)%nat ->
  could_be table name s = (s +:+ listing (List.filter (fun e => has_prefix name (ce_name e)) table))%string.
Proof.
  revert s. induction table as [|e table IH]; intros s Hs; [by rewrite str_app_nil|].
  cbn [listing foldr] in Hs. fold (listing table) in Hs. rewrite !str_length_app in Hs. cbn [String.length] in Hs.
  cbn [could_be List.filter]. destruct (has_prefix name (ce_name e)); cbn [negb]; [|apply IH; lia].
  unfold strlcat at 1. rewrite (proj2 (Nat.ltb_lt _ _)) by lia. rewrite (proj2 (Nat.leb_gt _ _)) by lia.
  unfold strlcat. rewrite str_length_app. cbn [String.length]. rewrite (proj2 (Nat.ltb_lt _ _)) by lia.
  rewrite (proj2 (Nat.leb_gt _ _)) by lia. rewrite IH by (rewrite !str_length_app; cbn [String.length]; lia).
  cbn [listing foldr]. by rewrite !str_app_assoc.
Qed.

Lemma listing_names l : l <> [] -> listing l = (String.concat ", " (names_of l) +:+ ", ")%string.
Proof.
  induction l as [|e l IH]; [done|]. intros _. cbn [listing foldr names_of map String.concat]. fold (listing l).
  destruct l as [|e2 l]; [done|]. rewrite IH by done. cbn [names_of map]. by rewrite !str_app_assoc.
Qed.

(** C38. A command is found by its name, by its alias and by any beginning of
    its name that no other command has.  Otherwise the error says that there is
    no such command, or lists all those there could be. *)
Theorem cmd_find_ok :
  Forall (fun e => cmd_find (ce_name e) = inl e /\ forall alias, ce_alias e = Some alias -> cmd_find alias = inl e) cmd_table /\
  forall name, Forall (fun e => ce_name e <> name /\ ce_alias e <> Some name) cmd_table ->
  cmd_find name =
    match List.filter (fun e => has_prefix name (ce_name e)) cmd_table with
    | [] => inr ("unknown command: " +:+ string_of_bytes name)%string
    | [e] => inl e
    | l => inr ("ambiguous command: " +:+ string_of_bytes name +:+ ", could be: " +:+ String.concat ", " (names_of l))%string
    end.
Proof.
  split.
  - apply Forall_forall. intros e Hin. split; [by apply found_by_name|]. intros alias. by apply found_by_alias.
  - intros name Hn. unfold cmd_find. rewrite (find_entry_prefix _ _ None false Hn).
    rewrite (could_be_listing cmd_table name "") by (vm_compute; lia). rewrite str_app_nil_l.
    destruct (List.filter _ cmd_table) as [|e [|e2 l] ]; [done..|]. cbn [orb negb bool_decide].
    rewrite listing_names by done. rewrite str_length_app. cbn [String.length].
    replace (_ + 2 - 2)%nat with (String.length (String.concat ", " (names_of (e :: e2 :: l)))) by lia.
    by rewrite str_take_app.
Qed.

Lemma cmd_find_ok_witness :
  cmd_find (bytes "split") = inl cmd_split_window_entry /\
  cmd_find (bytes "kill-s") = inr "ambiguous command: kill-s, could be: kill-server, kill-session"%string.
Proof.
  assert (Hn : forall name, forallb (fun e => negb (bool_decide (ce_name e = name)) && negb (bool_decide (ce_alias e = Some name)))
    cmd_table = true -> Forall (fun e => ce_name e <> name /\ ce_alias e <> Some name) cmd_table).
  { intros name Hall. apply Forall_forall. intros e Hin%list_elem_of_In. rewrite forallb_forall in Hall.
    apply Hall, andb_true_iff in Hin as [H1%negb_true_iff%bool_decide_eq_false H2%negb_true_iff%bool_decide_eq_false]. done. }
  split; (rewrite (proj2 cmd_find_ok); [|apply Hn; vm_compute; reflexivity]); vm_compute; reflexivity.
Defined.

Section Ok.
Context `{Locale}.


(** ** Commands that are accepted again *)









End Ok.

(** ** Building *)

Section Build.
Context `{Locale}.
Context (wctomb : Z -> option (list Z)).
Context (home_of : string -> option (list Z)) (own_home : option (list Z)).
Context (format_expand : environ -> list Z -> list Z).
Context (aliases : option (list (list Z))).
Context (pi_flags : Z) (pi_file : option string) (pi_item : bool).
Notation build_list := (build_list pi_flags pi_file pi_item).
Notation build_from := (build_from pi_flags pi_file pi_item).






Section Lists.
Variable build_one : cmd_parse_command -> builder -> option (cmd_parse_result * builder).
Variable line : Z.



End Lists.

Section Commands.
Variable expand_alias : cmd_parse_command -> builder -> option (option cmd_parse_result * builder).
Variable flags line : Z.
(** No alias stands in for a command of the table. *)
Hypothesis not_expanded : forall c b, cmd_ok c -> expand_alias (ast_cmd line c) b = Some (None, b).
Notation build_command := (cmd_parse_build_command pi_flags pi_file pi_item expand_alias flags).











End Commands.
End Build.

(** ** Text *)


Section RoundTrip.
Context `{Locale}.
Context (wctomb : Z -> option (list Z)).
Context (home_of : string -> option (list Z)) (own_home : option (list Z)).
Context (format_expand : environ -> list Z -> list Z).
Context (aliases : option (list (list Z))).
Context (pi_flags : Z) (pi_file : option string) (pi_item : bool).




End RoundTrip.

(** ** A key bound to commands *)

#[local] Instance printing_locale : Locale := ascii_locale.






