(* ===== verification/CmdTotal.v ===== *)
(** * Parsing commands ends

    Whatever the text, the lexer gives its tokens and the parser returns, with
    commands or with an error. *)
From Stdlib Require Import ZArith Lia Ascii String.
From S2P Require Import Prelude.
From S2P Require Import CString.
From S2P Require Import Utf8.
From S2P Require Import Locale.
From S2P Require Import Environ.
From S2P Require Import CmdLex.
From S2P Require Import Arguments.
From S2P Require Import CmdTable.
From S2P Require Import Cmd.
From S2P Require Import CmdParse.

(** ** Characters *)

(** The offset is in the buffer; what is left to read; what is left when a
    character has been read that may be put back. *)
Definition in_input (ps : cmd_parse_state) : Prop := (ps_off ps <= length (ps_buf ps))%nat /\ 0 <= ps_escapes ps.
Definition left (ps : cmd_parse_state) : nat := left_to_read ps + Z.to_nat (ps_escapes ps).
Definition cost (ch : Z) (ps : cmd_parse_state) : nat := left ps + (if ch =? EOF then 0 else 1).

(** Reading goes forward and leaves the mark of the end of the input. *)
Definition forward (n : nat) (ps : cmd_parse_state) (n' : nat) (ps' : cmd_parse_state) : Prop :=
  in_input ps' /\ (n' <= n)%nat /\ ps_eof ps' = ps_eof ps.

Lemma fuel_left ps : lex_fuel ps = S (S (left ps)).
Proof. done. Qed.

Lemma ungetc_cost ch ps : in_input ps -> forward (cost ch ps) ps (left (yylex_ungetc ch ps)) (yylex_ungetc ch ps).
Proof.
  intros [H1 H2]. unfold forward, cost, left, left_to_read, yylex_ungetc, in_input.
  destruct (Nat.ltb_spec 0 (ps_off ps)), (ch =? EOF); cbn; split_and!; try done; lia.
Qed.

Lemma ungetc_eof ps : yylex_ungetc EOF ps = ps.
Proof. unfold yylex_ungetc. by rewrite andb_false_r. Qed.

Lemma getc_loop_total fuel ps : in_input ps -> (left_to_read ps < fuel)%nat ->
  exists ch ps', getc_loop fuel ps = Some (ch, ps') /\ forward (left ps) ps (cost ch ps') ps'.
Proof.
  revert ps. induction fuel as [|fuel IH]; intros ps [H1 H2] Hf; [lia|]. cbn [getc_loop]. unfold yylex_getc1.
  destruct (ps_buf ps !! ps_off ps) as [b|] eqn:Eb.
  - pose proof (lookup_lt_Some _ _ _ Eb) as Hlt.
    assert (Hu : forall n, 0 <= u32 n) by (intros n; pose proof (u32_range n); lia).
    assert (Hle : u32 (ps_escapes ps + 1) <= ps_escapes ps + 1) by (apply Z.mod_le; lia).
    destruct (sbyte b =? 92); [|destruct (_ && _) eqn:Eo]; cbn [set_off ps_escapes].
    + destruct (IH (set_escapes (u32 (ps_escapes ps + 1)) (set_off (S (ps_off ps)) ps))) as (ch & ps' & E & Hw & Hn & He).
      * split; [cbn; lia|apply Hu].
      * unfold left_to_read in *. cbn. lia.
      * exists ch, ps'. split; [exact E|]. split; [done|]. split; [|done]. etrans; [exact Hn|].
        specialize (Hu (ps_escapes ps + 1)). unfold left, left_to_read. cbn. lia.
    + apply andb_true_iff in Eo as [_ Eo%Z.eqb_eq]. cbn [set_off ps_escapes] in Eo.
      assert (ps_escapes ps <> 0) by (intros E0; by rewrite E0 in Eo).
      destruct (IH (set_escapes (ps_escapes ps - 1) (next_line (set_off (S (ps_off ps)) ps)))) as (ch & ps' & E & Hw & Hn & He).
      * split; cbn; lia.
      * unfold left_to_read in *. cbn. lia.
      * exists ch, ps'. split; [exact E|]. split; [done|]. split; [|done]. etrans; [exact Hn|].
        unfold left, left_to_read. cbn. lia.
    + destruct (Z.eqb_spec (ps_escapes ps) 0) as [E0|E0]; cbn [negb].
      * exists (sbyte b), (set_off (S (ps_off ps)) ps). split; [done|]. split; [split; cbn; lia|]. split; [|done].
        unfold cost, left, left_to_read. cbn. destruct (_ =? EOF); lia.
      * unfold yylex_ungetc. cbn [set_off ps_off]. rewrite (proj2 (Nat.ltb_lt 0 (S (ps_off ps)))) by lia.
        destruct (sbyte b =? EOF); cbn [andb negb]; eexists _, _; (split; [done|]); unfold forward, in_input, cost, left, left_to_read;
          cbn; split_and!; try done; lia.
  - destruct (Z.eqb_spec (ps_escapes ps) 0) as [E0|E0]; cbn [Z.eqb andb negb].
    + exists EOF, ps. split; [done|]. split; [by split|]. split; [|done]. unfold cost. cbn. lia.
    + exists 92, (set_escapes (ps_escapes ps - 1) ps). split; [by rewrite ungetc_eof|].
      split; [split; cbn; lia|]. split; [|done]. unfold cost, left, left_to_read. cbn. lia.
Qed.

Lemma getc_total ps : in_input ps ->
  exists ch ps', yylex_getc ps = Some (ch, ps') /\ forward (left ps) ps (cost ch ps') ps'.
Proof.
  intros Hps. pose proof Hps as [H1 H2]. unfold yylex_getc. destruct (Z.eqb_spec (ps_escapes ps) 0) as [E0|E0]; cbn [negb].
  - by apply getc_loop_total; [|lia].
  - exists 92, (set_escapes (ps_escapes ps - 1) ps). split; [done|]. split; [split; cbn; lia|]. split; [|done].
    unfold cost, left, left_to_read. cbn. lia.
Qed.

(** ** Loops of the lexer *)

(** The outcome is there and is as said. *)
Definition gives {A} (m : option A) (Q : A -> Prop) : Prop := exists x, m = Some x /\ Q x.

Lemma gives_some {A} (x : A) (Q : A -> Prop) : Q x -> gives (Some x) Q.
Proof. intros Hx. by exists x. Qed.

Lemma gives_bind {A B} (m : option A) (f : A -> option B) (P : A -> Prop) (Q : B -> Prop) :
  gives m P -> (forall x, P x -> gives (f x) Q) -> gives (m ≫= f) Q.
Proof. intros (x & -> & Hx) Hf. by apply Hf. Qed.

Lemma gives_weaken {A} (m : option A) (P Q : A -> Prop) : gives m P -> (forall x, P x -> Q x) -> gives m Q.
Proof. intros (x & -> & Hx) Hq. exists x. auto. Qed.

Lemma gives_loop {S R} (body : S -> option (S + R)) (P : S -> Prop) (Q : R -> Prop) (m : S -> nat) fuel s :
  (forall s, P s -> gives (body s) (fun x => match x with inl s' => P s' /\ (m s' < m s)%nat | inr r => Q r end)) ->
  P s -> (m s < fuel)%nat -> gives (iterate fuel body s) Q.
Proof.
  intros Hb. apply (iterate_ok body P Q m). intros s' Hs'. destruct (Hb s' Hs') as (x & -> & Hx). by destruct x.
Qed.

Lemma forward_refl ps : in_input ps -> forward (left ps) ps (left ps) ps.
Proof. by intros. Qed.

Lemma forward_trans n1 ps1 n2 ps2 n3 ps3 : forward n1 ps1 n2 ps2 -> forward n2 ps2 n3 ps3 -> forward n1 ps1 n3 ps3.
Proof. intros (_ & H1 & E1) (H2 & H3 & E2). split_and!; [done|lia|congruence]. Qed.

Lemma forward_le n ps n1 n2 ps' : forward n ps n1 ps' -> (n2 <= n1)%nat -> forward n ps n2 ps'.
Proof. intros (H1 & H2 & H3) Hn. split_and!; [done|lia|done]. Qed.

Lemma cost_left ch ps : (left ps <= cost ch ps)%nat.
Proof. unfold cost. lia. Qed.
Lemma cost_not_eof ch ps : ch <> EOF -> cost ch ps = S (left ps).
Proof. intros Hc. unfold cost. rewrite (proj2 (Z.eqb_neq ch EOF)) by done. lia. Qed.

(** A character read and not put back, or put back. *)
Lemma forward_read n ps ch ps' : forward n ps (cost ch ps') ps' -> forward n ps (left ps') ps'.
Proof. intros Hf. eapply forward_le; [done|apply cost_left]. Qed.
Lemma forward_ungetc n ps ch ps' : forward n ps (cost ch ps') ps' ->
  forward n ps (left (yylex_ungetc ch ps')) (yylex_ungetc ch ps').
Proof. intros Hf. eapply forward_trans; [done|]. apply ungetc_cost, Hf. Qed.
Lemma forward_error n ps m ps' error : forward n ps m ps' -> forward n ps m (yyerror error ps').
Proof. unfold forward, in_input, yyerror. destruct (ps_error ps'); [done|]. by intros. Qed.
Lemma left_error error ps : left (yyerror error ps) = left ps.
Proof. unfold yyerror. by destruct (ps_error ps). Qed.

Lemma getc_gives n ps0 ps : forward n ps0 (left ps) ps ->
  gives (yylex_getc ps) (fun r => forward n ps0 (cost r.1 r.2) r.2 /\ (cost r.1 r.2 <= left ps)%nat).
Proof.
  intros Hf. destruct (getc_total ps) as (ch & ps' & E & Hg); [apply Hf|]. exists (ch, ps'). split; [done|].
  split; [by eapply forward_trans|apply Hg].
Qed.

(** Reading a character. *)
Ltac getc ch ps Hf Hlt :=
  eapply gives_bind; [eapply getc_gives; eassumption|]; intros [ch ps]; cbn [fst snd]; intros [Hf Hlt].
Ltac forward := first
  [ eassumption | eapply forward_ungetc; eassumption | eapply forward_read; eassumption
  | rewrite ?left_error; eapply forward_error; forward ].
(** A turn ends, or goes on after a character. *)
Ltac turn Hlt := apply gives_some; cbn [fst snd];
  repeat match goal with |- context [if ?b then _ else _] => let E := fresh "E" in destruct b eqn:E; cbn [fst snd] end;
  first [ by forward | split; [by forward|] ].

Lemma not_eof ch b : (ch =? EOF) = false \/ negb (ch =? EOF) && b = true -> ch <> EOF.
Proof. intros [E%Z.eqb_neq|E]; [done|]. apply andb_true_iff in E as [E%negb_true_iff%Z.eqb_neq _]. done. Qed.

Lemma get_word_total ch n ps0 ps : forward n ps0 (left ps) ps ->
  gives (yylex_get_word ch ps) (fun r => forward n ps0 (left r.2) r.2).
Proof.
  intros Hf. unfold yylex_get_word.
  apply (gives_loop _ (fun s => forward n ps0 (left s.2) s.2) _ (fun s => left s.2)); [|done|cbn [snd]; rewrite fuel_left; lia].
  intros [ [buf c] ps1]. cbn [snd]. intros H1. getc c2 ps2 H2 Hlt. apply gives_some.
  destruct (_ && _) eqn:E; cbn [snd]; [|forward]. split; [forward|]. rewrite cost_not_eof in Hlt; [lia|].
  apply (not_eof c2 (negb (in_chars [32; 9; 10] c2))). by right.
Qed.

Lemma format_total n ps0 ps : forward n ps0 (left ps) ps ->
  gives (yylex_format ps) (fun r => forward n ps0 (left r.2) r.2).
Proof.
  intros Hf. unfold yylex_format.
  apply (gives_loop _ (fun s => forward n ps0 (left s.2) s.2) _ (fun s => left s.2)); [|done|cbn [snd]; rewrite fuel_left; lia].
  intros [ [buf b] ps1]. cbn [snd]. intros H1. getc c2 ps2 H2 Hlt.
  destruct ((c2 =? EOF) || (c2 =? 10)) eqn:E; [apply gives_some; cbn [snd]; forward|].
  apply orb_false_iff in E as [E%Z.eqb_neq _]. rewrite cost_not_eof in Hlt by done.
  assert (H3 : forward n ps0 (left ps2) ps2) by forward.
  destruct (c2 =? 35).
  - getc c3 ps3 H4 Hlt3. destruct (_ || _); apply gives_some; cbn [snd]; [forward|]. split; [forward|].
    pose proof (cost_left c3 ps3). lia.
  - destruct (_ && _); apply gives_some; cbn [snd]; [forward|]. split; [forward|lia].
Qed.

(** Characters are read up to one that is not wanted. *)
Lemma skip_total (stop : Z -> bool) n ps0 ps : (forall ch, stop ch = false -> ch <> EOF) -> forward n ps0 (left ps) ps ->
  gives (iterate (lex_fuel ps) (fun ps =>
    r ← yylex_getc ps;
    let '(ch, ps) := r in Some (if stop ch then inr (ch, ps) else inl ps)) ps)
    (fun r => forward n ps0 (cost r.1 r.2) r.2 /\ (cost r.1 r.2 <= left ps)%nat).
Proof.
  intros Hstop Hf.
  apply (gives_loop _ (fun s => forward n ps0 (left s) s /\ (left s <= left ps)%nat) _ left); [|done|rewrite fuel_left; lia].
  intros ps1 [H1 Hl]. getc ch ps2 H2 Hlt. apply gives_some. destruct (stop ch) eqn:E; cbn [fst snd]; [split; [done|lia]|].
  rewrite cost_not_eof in Hlt by auto. split; [split; [forward|]|]; lia.
Qed.

Lemma iterate_ext {S R} (f g : S -> option (S + R)) fuel s : (forall s, f s = g s) -> iterate fuel f s = iterate fuel g s.
Proof.
  intros Hfg. revert s. induction fuel as [|fuel IH]; intros s; [done|]. cbn [iterate]. rewrite Hfg.
  destruct (g s) as [ [s'|]|]; cbn [mbind option_bind]; [apply IH|done..].
Qed.

Lemma skip_in_quotes_total n ps0 ps : forward n ps0 (left ps) ps ->
  gives (skip_in_quotes ps) (fun r => forward n ps0 (cost r.1 r.2) r.2 /\ (cost r.1 r.2 <= left ps)%nat).
Proof.
  intros Hf. unfold skip_in_quotes.
  rewrite (iterate_ext _ (fun ps => r ← yylex_getc ps; let '(ch, ps) := r in
    Some (if negb ((ch =? 32) || (ch =? 9)) then inr (ch, ps) else inl ps)))
    by (intros ps1; destruct (yylex_getc ps1) as [ [ch ps2]|]; [cbn; by destruct (_ || _)|done]).
  eapply gives_bind; [apply (skip_total (fun ch => negb ((ch =? 32) || (ch =? 9))) n ps0 ps); [|done]|].
  { intros ch E%negb_false_iff ->. done. }
  intros [ch ps1]. cbn [fst snd]. intros [H1 Hl]. destruct (Z.eqb_spec ch 35) as [->|]; cbn [negb]; [|by apply gives_some].
  assert (H1' : forward n ps0 (left ps1) ps1) by forward. rewrite cost_not_eof in Hl by done.
  getc c2 ps2 H2 Hlt. destruct (in_chars _ c2).
  - destruct (ungetc_cost c2 ps2) as (_ & Hu & _); [apply H2|]. apply gives_some. cbn [fst snd].
    rewrite cost_not_eof by done. split; [|lia].
    destruct H2 as (Hi & Hn & He). destruct (ungetc_cost c2 ps2 Hi) as (Hi' & _ & He').
    destruct H1 as (_ & Hn1 & _). rewrite cost_not_eof in Hn1 by done. split_and!; [done|lia|congruence].
  - rewrite (iterate_ext _ (fun ps => r ← yylex_getc ps; let '(ch, ps) := r in
      Some (if negb (negb (ch =? 10) && negb (ch =? EOF)) then inr (ch, ps) else inl ps)))
      by (intros ps3; destruct (yylex_getc ps3) as [ [ch ps4]|]; [cbn; by destruct (_ && _)|done]).
    assert (H2' : forward n ps0 (left ps2) ps2) by forward. pose proof (cost_left c2 ps2).
    eapply gives_weaken; [apply (skip_total (fun ch => negb (negb (ch =? 10) && negb (ch =? EOF))) n ps0 ps2); [|done]|].
    + intros c E%negb_false_iff. by apply andb_true_iff in E as [_ E%negb_true_iff%Z.eqb_neq].
    + intros r [Hr1 Hr2]. split; [done|lia].
Qed.

Lemma skip_comment_total next n ps0 ps : forward n ps0 (cost next ps) ps ->
  gives (skip_comment next ps) (fun r => forward n ps0 (cost r.1 r.2) r.2 /\ (r.1 = 10 \/ r.1 = EOF)).
Proof.
  intros Hf. unfold skip_comment.
  apply (gives_loop _ (fun s => forward n ps0 (cost s.1 s.2) s.2) _ (fun s => cost s.1 s.2)); [|done|].
  - intros [c ps1]. cbn [fst snd]. intros H1. destruct (_ && _) eqn:E.
    + assert (H1' : forward n ps0 (left ps1) ps1) by forward. getc c2 ps2 H2 Hlt. apply gives_some. cbn [fst snd].
      split; [done|]. apply andb_true_iff in E as [_ E%negb_true_iff%Z.eqb_neq]. rewrite (cost_not_eof c) by done. lia.
    + apply gives_some. cbn [fst snd]. split; [done|].
      apply andb_false_iff in E as [E%negb_false_iff%Z.eqb_eq|E%negb_false_iff%Z.eqb_eq]; auto.
  - cbn [fst snd]. rewrite fuel_left. unfold cost. destruct (_ =? EOF); lia.
Qed.

(** ** Escapes, variables and tildes *)

Section Tokens.
Context (wctomb : Z -> option (list Z)).
Context (home_of : string -> option (list Z)) (own_home : option (list Z)).
Context (global_environ : environ).

Lemma unicode_digits_total size type acc n ps0 ps : forward n ps0 (left ps) ps ->
  gives (unicode_digits size type acc ps) (fun r => forward n ps0 (left r.2) r.2).
Proof.
  revert acc ps. induction size as [|size IH]; intros acc ps Hf; cbn [unicode_digits]; [by apply gives_some|].
  getc c ps1 H1 Hlt. destruct (_ || _); [apply gives_some; cbn [snd]; forward|].
  destruct (negb _); [apply gives_some; cbn [snd]; forward|]. apply IH. forward.
Qed.

Lemma unicode_escape_total size type buf n ps0 ps : forward n ps0 (left ps) ps ->
  gives (unicode_escape wctomb size type buf ps) (fun r => forward n ps0 (left r.2) r.2).
Proof.
  intros Hf. unfold unicode_escape. eapply gives_bind; [by apply unicode_digits_total|]. intros [tmp ps1]. cbn [snd]. intros H1.
  destruct tmp as [tmp|]; [destruct (wctomb tmp) as [ [|b m]|]|]; apply gives_some; cbn [snd]; forward.
Qed.

Lemma token_escape_total buf n ps0 ps : forward n ps0 (left ps) ps ->
  gives (yylex_token_escape wctomb buf ps) (fun r => forward n ps0 (left r.2) r.2).
Proof.
  intros Hf. unfold yylex_token_escape. getc c ps1 H1 Hlt. assert (H1' : forward n ps0 (left ps1) ps1) by forward.
  destruct (_ && _); [apply gives_some; cbn [snd]; forward|]. destruct (_ && _).
  - getc c2 ps2 H2 Hlt2. destruct (_ && _); [|apply gives_some; cbn [snd]; forward].
    assert (H2' : forward n ps0 (left ps2) ps2) by forward. getc c3 ps3 H3 Hlt3.
    destruct (_ && _); apply gives_some; cbn [snd]; forward.
  - destruct (c =? EOF); [apply gives_some; cbn [snd]; forward|].
    destruct (c =? 117); [by apply unicode_escape_total|]. destruct (c =? 85); [by apply unicode_escape_total|].
    apply gives_some. cbn [snd]. forward.
Qed.

Lemma token_variable_total buf n ps0 ps : forward n ps0 (left ps) ps ->
  gives (yylex_token_variable global_environ buf ps) (fun r => forward n ps0 (left r.2) r.2).
Proof.
  intros Hf. unfold yylex_token_variable. getc c ps1 H1 Hlt. assert (H1' : forward n ps0 (left ps1) ps1) by forward.
  destruct (c =? EOF); [apply gives_some; cbn [snd]; forward|].
  destruct (_ && _); [apply gives_some; cbn [snd]; forward|].
  eapply gives_bind.
  - apply (gives_loop _ (fun s => forward n ps0 (left s.2) s.2) (fun r => forward n ps0 (left r.2) r.2) (fun s => left s.2));
      [|done|cbn [snd]; rewrite fuel_left; lia].
    intros [name ps2]. cbn [snd]. intros H2. getc c3 ps3 H3 Hlt3. apply gives_some.
    destruct (_ && _); cbn [snd]; [forward|]. destruct (_ || _) eqn:E; [destruct (negb (c =? 123)); cbn [snd]; forward|].
    destruct (Nat.eqb _ _); cbn [snd]; [forward|]. split; [forward|].
    apply orb_false_iff in E as [E%Z.eqb_neq _]. rewrite cost_not_eof in Hlt3 by done. lia.
  - intros [name ps2]. cbn [snd]. intros H2. destruct name; apply gives_some; cbn [snd]; forward.
Qed.

Lemma token_tilde_total buf n ps0 ps : forward n ps0 (left ps) ps ->
  gives (yylex_token_tilde home_of own_home global_environ buf ps) (fun r => forward n ps0 (left r.2) r.2).
Proof.
  intros Hf. unfold yylex_token_tilde. eapply gives_bind.
  - apply (gives_loop _ (fun s => forward n ps0 (left s.2) s.2) (fun r => forward n ps0 (left r.2) r.2) (fun s => left s.2));
      [|done|cbn [snd]; rewrite fuel_left; lia].
    intros [name ps2]. cbn [snd]. intros H2. getc c3 ps3 H3 Hlt3. apply gives_some.
    destruct (_ || _) eqn:E; cbn [snd]; [forward|]. destruct (Nat.eqb _ _); cbn [snd]; [forward|]. split; [forward|].
    apply orb_false_iff in E as [E%Z.eqb_neq _]. rewrite cost_not_eof in Hlt3 by done. lia.
  - intros [name ps2]. cbn [snd]. intros H2. destruct name as [name|]; [|apply gives_some; cbn [snd]; forward].
    apply gives_some. set (home := if bool_decide (name = []) then _ else _). destruct home; cbn [snd]; forward.
Qed.

(** ** Words *)

Notation token_turn := (token_turn wctomb home_of own_home global_environ).
Notation yylex_token := (yylex_token wctomb home_of own_home global_environ).

Definition state_cost (s : token_state) : nat := let '(_, _, _, ch, ps) := s in cost ch ps.
Definition state_ps (s : token_state) : cmd_parse_state := let '(_, _, _, _, ps) := s in ps.

Lemma forward_next_line n ps0 m ps : forward n ps0 m ps -> forward n ps0 m (next_line ps).
Proof. done. Qed.

(** A carriage return before a newline is left out. *)
Definition after_return (none : bool) (ch : Z) (ps : cmd_parse_state) : option (Z * cmd_parse_state) :=
  if none && (ch =? 13) then
    r ← yylex_getc ps; Some (if r.1 =? 10 then (10, r.2) else (13, yylex_ungetc r.1 r.2))
  else Some (ch, ps).

Lemma after_return_total none ch ps : in_input ps -> ch <> EOF ->
  gives (after_return none ch ps) (fun r => forward (cost ch ps) ps (cost r.1 r.2) r.2 /\ r.1 <> EOF /\
    (r.1 = ch \/ (r.1 = 10 /\ (cost r.1 r.2 < cost ch ps)%nat))).
Proof.
  intros Hi Hc. unfold after_return. destruct (none && (ch =? 13)) eqn:E.
  - apply andb_true_iff in E as [_ ->%Z.eqb_eq].
    pose proof (forward_refl ps Hi) as H0. getc c ps1 H1 Hlt. apply gives_some. rewrite (cost_not_eof 13) by done.
    destruct (Z.eqb_spec c 10) as [->|]; cbn [fst snd].
    + split; [|split; [done|right; split; [done|lia] ] ]. destruct H1 as (Hi1 & Hn & He). split_and!; [done|lia|done].
    + destruct (forward_ungetc _ _ _ _ H1) as (Hi1 & Hn & He). split; [|split; [done|by left] ].
      rewrite (cost_not_eof 13) by done. split_and!; [done|lia|done].
  - apply gives_some. cbn [fst snd]. split; [by split|]. split; [done|by left].
Qed.

(** After a turn; strictly less is left than before it. *)
Definition less (n : nat) (ps : cmd_parse_state) (x : token_state + option (list Z) * cmd_parse_state) : Prop :=
  match x with
  | inl s => forward n ps (state_cost s) (state_ps s)
  | inr r => forward n ps (left r.2) r.2
  end.

Lemma next_turn n ps0 ps (f : Z * cmd_parse_state -> token_state) : forward n ps0 (left ps) ps ->
  (forall ch ps', state_cost (f (ch, ps')) = cost ch ps' /\ state_ps (f (ch, ps')) = ps') ->
  gives (r ← yylex_getc ps; Some (inl (f r))) (less n ps0).
Proof.
  intros Hf Hs. getc c ps1 H1 Hlt. apply gives_some. unfold less. destruct (Hs c ps1) as [-> ->]. done.
Qed.

Lemma after_turn n ps0 (r : option (bool * list Z * cmd_parse_state)) state :
  gives r (fun r => forward n ps0 (left r.2) r.2) ->
  gives (r ← r;
    let '(ok, buf, ps) := r in
    if (ok : bool) then r ← yylex_getc ps; Some (inl (buf, state, state, r.1, r.2))
    else Some (inr (None, ps))) (less n ps0).
Proof.
  intros Hr. eapply gives_bind; [exact Hr|]. intros [ [ok buf] ps]. cbn [snd]. intros H1. destruct ok; [|by apply gives_some].
  apply (next_turn n ps0 ps (fun r => (buf, state, state, r.1, r.2))); [done|]. by intros.
Qed.

(** What ends a word. *)
Definition ends_token (ch : Z) : bool :=
  (ch =? EOF) || (ch =? 10) || (ch =? 32) || (ch =? 9) || (ch =? 59) || (ch =? 125).

Lemma token_turn_total buf state last ch ps : in_input ps ->
  gives (token_turn (buf, state, last, ch, ps)) (fun x =>
    match x with
    | inr r => forward (cost ch ps) ps (left r.2) r.2 /\ (ends_token ch = false -> (left r.2 < cost ch ps)%nat)
    | inl s => forward (cost ch ps) ps (state_cost s) (state_ps s) /\ (state_cost s < cost ch ps)%nat
    end).
Proof.
  intros Hi. unfold CmdLex.token_turn. destruct (Z.eqb_spec ch EOF) as [->|Hc].
  { apply gives_some. cbn [snd]. split; [by apply ungetc_cost|done]. }
  fold (after_return (bool_decide (state = NONE)) ch ps).
  eapply gives_bind; [by apply after_return_total|]. intros [c ps1]. cbn [fst snd]. intros (H1 & Hc1 & Hor).
  assert (Hleft : (left ps1 < cost ch ps)%nat).
  { destruct H1 as (_ & Hn & _). rewrite (cost_not_eof c) in Hn by done. lia. }
  assert (Hgo : forall x, less (left ps1) ps1 x -> match x with
    | inr r => forward (cost ch ps) ps (left r.2) r.2 /\ (ends_token ch = false -> (left r.2 < cost ch ps)%nat)
    | inl s => forward (cost ch ps) ps (state_cost s) (state_ps s) /\ (state_cost s < cost ch ps)%nat
    end).
  { pose proof (forward_read _ _ _ _ H1) as H1'. intros [s|r] Hx; (split; [by eapply forward_trans|]); destruct Hx as (_ & Hn & _); lia. }
  assert (Hquote : forall x, less (left ps) ps x -> match x with
    | inr r => forward (cost ch ps) ps (left r.2) r.2 /\ (ends_token ch = false -> (left r.2 < cost ch ps)%nat)
    | inl s => forward (cost ch ps) ps (state_cost s) (state_ps s) /\ (state_cost s < cost ch ps)%nat
    end).
  { rewrite (cost_not_eof ch) by done. intros [s|r] (Hx & Hn & Hx'); unfold forward; split_and!; try done; try intros _; lia. }
  destruct ((c =? 10) && _) eqn:E10.
  { apply andb_true_iff in E10 as [->%Z.eqb_eq _]. apply gives_some. cbn [snd]. split; [by eapply forward_ungetc|].
    destruct (ungetc_cost 10 ps1) as (_ & Hu & _); [apply H1|]. intros He. destruct Hor as [<-|[_ Hlt] ]; [done|lia]. }
  assert (Hfinish : (c =? 10) = false -> ends_token c = true -> gives (Some (inr (Some buf, yylex_ungetc ch ps)))
    (fun x : token_state + option (list Z) * cmd_parse_state => match x with
    | inr r => forward (cost ch ps) ps (left r.2) r.2 /\ (ends_token ch = false -> (left r.2 < cost ch ps)%nat)
    | inl s => forward (cost ch ps) ps (state_cost s) (state_ps s) /\ (state_cost s < cost ch ps)%nat
    end)).
  { intros Hn He. apply gives_some. cbn [snd]. split; [by apply ungetc_cost|]. destruct Hor as [<-|[-> _] ]; [by rewrite He|done]. }
  set (ps2 := if c =? 10 then next_line ps1 else ps1).
  assert (H2 : forward (left ps1) ps1 (left ps2) ps2) by (destruct H1 as (Hi1 & _); unfold ps2; destruct (c =? 10); done).
  clearbody ps2. destruct (_ && ((c =? 32) || _)) eqn:E1.
  { apply andb_true_iff in E1 as [_ E1]. apply Hfinish; apply orb_true_iff in E1 as [->%Z.eqb_eq| ->%Z.eqb_eq]; done. }
  destruct (_ && ((c =? 59) || _)) eqn:E2.
  { apply andb_true_iff in E2 as [_ E2]. apply Hfinish; apply orb_true_iff in E2 as [->%Z.eqb_eq| ->%Z.eqb_eq]; done. }
  destruct (_ && negb _).
  { eapply gives_weaken; [|exact Hgo]. eapply gives_bind; [by apply skip_in_quotes_total|]. intros [c2 ps3] [H3 _]. by apply gives_some. }
  destruct ((c =? 92) && _); [eapply gives_weaken; [|exact Hgo]; apply after_turn; by apply token_escape_total|].
  destruct ((c =? 126) && _ && _); [eapply gives_weaken; [|exact Hgo]; apply after_turn; by apply token_tilde_total|].
  destruct ((c =? 36) && _); [eapply gives_weaken; [|exact Hgo]; apply after_turn; by apply token_variable_total|].
  do 2 (destruct ((c =? 39) && _); [eapply gives_weaken; [|exact Hquote];
    apply (next_turn _ _ ps (fun r => (buf, _, last, r.1, r.2))); [by apply forward_refl|by intros]|]).
  do 2 (destruct ((c =? 34) && _); [eapply gives_weaken; [|exact Hquote];
    apply (next_turn _ _ ps (fun r => (buf, _, last, r.1, r.2))); [by apply forward_refl|by intros]|]).
  eapply gives_weaken; [|exact Hgo]. apply (next_turn _ _ ps2 (fun r => (buf ++ [u8 c], state, state, r.1, r.2))); [done|by intros].
Qed.

Lemma token_total ch ps : in_input ps -> ends_token ch = false ->
  gives (yylex_token ch ps) (fun r => forward (left ps) ps (left r.2) r.2).
Proof.
  intros Hi He. assert (Hc : ch <> EOF) by (intros ->; done). unfold CmdLex.yylex_token.
  set (s0 := ([], NONE, START, ch, ps) : token_state). set (N := cost ch ps). pose proof (cost_not_eof ch ps Hc) as EN.
  eapply gives_weaken.
  - apply (gives_loop _ (fun s => s = s0 \/ (in_input (state_ps s) /\ forward N ps (state_cost s) (state_ps s) /\ (state_cost s < N)%nat))
      (fun r => forward N ps (left r.2) r.2 /\ (left r.2 < N)%nat) state_cost); [|by left|].
    + intros s Hs. assert (Hin : in_input (state_ps s)) by (destruct Hs as [-> |[Hs _] ]; done).
      destruct s as [ [ [ [buf state] last] c] ps1]. cbn [state_ps] in Hin.
      eapply gives_weaken; [by apply token_turn_total|]. intros x Hx. destruct Hs as [ [= -> -> -> -> ->] | (_ & H1 & Hlt) ].
      * destruct x as [s|r]; [|destruct Hx as [Hx Hx']; split; [done|by apply Hx'] ].
        destruct Hx as [Hx Hx']. split; [|done]. right. split_and!; [apply Hx|done|done].
      * cbn [state_cost state_ps] in *. destruct x as [s|r]; destruct Hx as [Hx Hx'].
        -- split; [|done]. right. split_and!; [apply Hx|by eapply forward_trans|lia].
        -- split; [by eapply forward_trans|]. destruct Hx as (_ & Hn & _). lia.
    + cbn [state_cost s0]. rewrite fuel_left. unfold cost. destruct (_ =? EOF); lia.
  - intros r [ (Hi' & _ & E) Hlt]. split_and!; [done|lia|done].
Qed.

(** ** Tokens *)

Notation lex_turn := (lex_turn wctomb home_of own_home global_environ).
Notation yylex := (yylex wctomb home_of own_home global_environ).

(** The tokens there may still be before the end. *)
Definition tokens_left (ps : cmd_parse_state) : nat := left ps + (if ps_eof ps then 0 else 1).
Definition next_token (ps : cmd_parse_state) (r : token * cmd_parse_state) : Prop :=
  in_input r.2 /\ (tokens_left r.2 <= tokens_left ps)%nat /\ (r.1 <> End -> (tokens_left r.2 < tokens_left ps)%nat).

Lemma forward_token t ps ps' : forward (left ps) ps (S (left ps')) ps' -> next_token ps (t, ps').
Proof. intros (Hi & Hn & He). unfold next_token, tokens_left. cbn [fst snd]. rewrite He. split_and!; [done|lia|lia]. Qed.

Lemma next_token_from ps ps1 r : forward (left ps) ps (left ps1) ps1 -> next_token ps1 r -> next_token ps r.
Proof.
  intros (Hi & Hn & He) (Hi' & Hn' & Hs). unfold next_token, tokens_left in *. rewrite He in *. split_and!; [done|lia|].
  intros Ht. specialize (Hs Ht). lia.
Qed.

Lemma lex_turn_total condition ps : in_input ps ->
  gives (lex_turn condition ps) (fun x =>
    match x with inl ps' => forward (left ps) ps (S (left ps')) ps' | inr r => next_token ps r end).
Proof.
  intros Hi. pose proof (forward_refl ps Hi) as H0. unfold CmdLex.lex_turn. getc ch ps1 H1 _Hlt. clear _Hlt.
  destruct (Z.eqb_spec ch EOF) as [->|Hc].
  { apply gives_some. pose proof H1 as (Hi1 & Hn & He). unfold cost in Hn. cbn in Hn. unfold next_token, tokens_left.
    rewrite He. destruct (ps_eof ps) eqn:Ee; cbn [fst snd].
    - rewrite He. split_and!; [done|lia|done].
    - change (left (set_eof true ps1)) with (left ps1). cbn [set_eof ps_eof]. split_and!; [done|lia|lia]. }
  assert (H1' : forward (left ps) ps (S (left ps1)) ps1) by (by rewrite cost_not_eof in H1).
  destruct ((ch =? 32) || _) eqn:E0; [by apply gives_some|].
  eapply (gives_bind _ _ (fun r => forward (left ps) ps (S (left r.2)) r.2 /\ r.1 <> EOF /\ (r.1 = ch \/ r.1 = 10))).
  { eapply gives_weaken; [apply (after_return_total true ch ps1); [apply H1|done]|]. intros [c ps2] (H2 & Hc2 & Hor).
    cbn [fst snd] in *. rewrite (cost_not_eof c) in H2 by done. split; [|split; [done|by destruct Hor as [?|[? _] ]; [left|right] ] ]. eapply forward_trans; [|exact H2].
    by rewrite cost_not_eof by done. }
  intros [c ps2]. cbn [fst snd]. intros (H2 & Hc2 & Hor).
  destruct (c =? 10) eqn:E10; [by apply gives_some, forward_token|].
  destruct ((c =? 59) || _ || _) eqn:E1; [by apply gives_some, forward_token|].
  assert (H2' : forward (left ps2) ps2 (left ps2) ps2) by (apply forward_refl, H2).
  assert (Hthen : forall ps3, forward (left ps2) ps2 (left ps3) ps3 -> forward (left ps) ps (S (left ps3)) ps3).
  { intros ps3 (Hi3 & Hn3 & He3). destruct H2 as (_ & Hn2 & He2). split_and!; [done|lia|congruence]. }
  destruct (c =? 35) eqn:E35.
  - getc next ps3 H3 _Hlt. clear _Hlt. destruct (_ && _).
    + eapply gives_bind; [eapply (format_total (left ps2) ps2); by forward|]. intros [f ps4]. cbn [fst snd]. intros H4.
      by apply gives_some, forward_token, Hthen.
    + eapply gives_bind; [by eapply skip_comment_total|]. intros [n4 ps4]. cbn [fst snd]. intros [H4 _].
      apply gives_some. apply forward_read in H4. destruct (n4 =? 10); [by apply forward_token, Hthen|by apply Hthen].
  - destruct (c =? 37).
    + eapply gives_bind; [by eapply get_word_total|]. intros [w ps4]. cbn [fst snd]. intros H4.
      destruct (percent_token w) as [set t]. apply gives_some, forward_token. by destruct set; apply Hthen.
    + eapply gives_bind; [apply (token_total c ps2); [apply H2|]|].
      * unfold ends_token. rewrite (proj2 (Z.eqb_neq c EOF) Hc2), E10. apply orb_false_iff in E1 as [ [-> _]%orb_false_iff ->].
        destruct Hor as [-> | ->]; [|done]. by apply orb_false_iff in E0 as [-> ->].
      * intros [w ps4]. cbn [fst snd]. intros H4. apply gives_some. by apply forward_token, Hthen.
Qed.

(** The lexer gives a token, and the end comes. *)
Lemma yylex_total ps : in_input ps -> gives (yylex ps) (next_token ps).
Proof.
  intros Hi. unfold CmdLex.yylex. set (ps1 := set_condition false _).
  assert (H1 : forward (left ps) ps (left ps1) ps1) by (unfold ps1; by destruct (ps_eol ps)). clearbody ps1.
  apply (gives_loop _ (fun s => forward (left ps) ps (left s) s) (next_token ps) left).
  - intros s Hs. eapply gives_weaken; [apply lex_turn_total, Hs|]. intros [s'|r] Hx; [|by eapply next_token_from].
    pose proof Hx as (_ & Hlt & _). split; [|lia]. eapply forward_trans; [exact Hs|]. eapply forward_le; [exact Hx|lia].
  - done.
  - rewrite fuel_left. match goal with |- (_ < S (S (left ?x)))%nat => change (left x) with (left ps1) end. lia.
Qed.
End Tokens.

(** ** The parser *)

Section Parser.
Context (wctomb : Z -> option (list Z)).
Context (home_of : string -> option (list Z)) (own_home : option (list Z)).
Context (format_expand : environ -> list Z -> list Z) (pi_flags : Z).
Notation peek := (peek wctomb home_of own_home).
Notation expect := (expect wctomb home_of own_home).
Notation p_expanded := (p_expanded wctomb home_of own_home format_expand).
Notation if_open := (if_open wctomb home_of own_home format_expand).
Notation if_elif := (if_elif wctomb home_of own_home format_expand).
Notation if_close := (if_close wctomb home_of own_home).
Notation hidden_assignment := (hidden_assignment wctomb home_of own_home pi_flags).
Notation assignment := (assignment pi_flags).
Notation p_statements := (p_statements wctomb home_of own_home format_expand pi_flags).
Notation p_statement := (p_statement wctomb home_of own_home format_expand pi_flags).
Notation p_commands := (p_commands wctomb home_of own_home format_expand pi_flags).
Notation p_more := (p_more wctomb home_of own_home format_expand pi_flags).
Notation p_command := (p_command wctomb home_of own_home format_expand pi_flags).
Notation p_arguments := (p_arguments wctomb home_of own_home format_expand pi_flags).
Notation p_condition := (p_condition wctomb home_of own_home format_expand pi_flags).
Notation p_body := (p_body wctomb home_of own_home format_expand pi_flags).
Notation p_elif := (p_elif wctomb home_of own_home format_expand pi_flags).

(** The parser returns, with a value and a state as said or with an error. *)
Definition runs {A} (m : parse A) (p : parser) (Q : A -> parser -> Prop) : Prop :=
  match m p with
  | None => False
  | Some (None, p') => is_Some (ps_error (pr_ps p'))
  | Some (Some x, p') => Q x p'
  end.

Lemma runs_bind {A B} (m : parse A) (k : A -> parse B) p (P : A -> parser -> Prop) (Q : B -> parser -> Prop) :
  runs m p P -> (forall x p', P x p' -> runs (k x) p' Q) -> runs (p_bind m k) p Q.
Proof. unfold runs, p_bind. destruct (m p) as [ [ [x|] p']|]; [|done..]. intros Hx Hk. by apply Hk. Qed.

Lemma runs_weaken {A} (m : parse A) p (P Q : A -> parser -> Prop) :
  runs m p P -> (forall x p', P x p' -> Q x p') -> runs m p Q.
Proof. unfold runs. destruct (m p) as [ [ [x|] p']|]; auto. Qed.

Lemma runs_ret {A} (x : A) p (Q : A -> parser -> Prop) : Q x p -> runs (p_ret x) p Q.
Proof. done. Qed.
Lemma runs_abort {A} error p (Q : A -> parser -> Prop) : runs (p_abort error) p Q.
Proof. unfold runs, p_abort, yyerror. cbn. destruct (ps_error (pr_ps p)) eqn:E; cbn; [by rewrite E|done]. Qed.
Lemma runs_get {A} (f : parser -> A) p (Q : A -> parser -> Prop) : Q (f p) p -> runs (p_get f) p Q.
Proof. done. Qed.

(** The tokens left, that looked at included; a condition that is not there
    has none around it. *)
Definition ahead_left (p : parser) : nat := match pr_ahead p with Some End | None => 0 | Some _ => 1 end.
Definition work (p : parser) : nat := tokens_left (pr_ps p) + ahead_left p.
Definition parser_ok (p : parser) : Prop :=
  in_input (pr_ps p) /\ (pr_scope p = None -> pr_stack p = []).

(** [k] tokens or more were read between [p] and [p']; the conditions at [p']. *)
Definition reached (p : parser) (k : nat) (scope : option bool) (stack : list bool) (p' : parser) : Prop :=
  parser_ok p' /\ (work p' + k <= work p)%nat /\ pr_scope p' = scope /\ pr_stack p' = stack.

(** It runs and leaves the conditions as they were. *)
Definition runs_around {A} (m : parse A) (p : parser) : Prop :=
  runs m p (fun _ p' => reached p 0 (pr_scope p) (pr_stack p) p').

Lemma reached_refl p : parser_ok p -> reached p 0 (pr_scope p) (pr_stack p) p.
Proof. intros. split_and!; done || lia. Qed.
Lemma reached_trans p k scope stack p1 j scope' stack' p2 :
  reached p k scope stack p1 -> reached p1 j scope' stack' p2 -> reached p (k + j) scope' stack' p2.
Proof. intros (_ & H1 & _) (Hok & H2 & E). split_and!; [done|lia|apply E..]. Qed.
Lemma reached_le p k j scope stack p1 : reached p k scope stack p1 -> (j <= k)%nat -> reached p j scope stack p1.
Proof. intros (Hok & H1 & E) Hj. split_and!; [done|lia|apply E..]. Qed.

Section Steps.
Context {A B : Type} (p : parser) (k : nat) (scope : option bool) (stack : list bool) (p1 : parser).
Hypothesis at_p1 : reached p k scope stack p1.

Lemma then_peek (f : token -> parse B) Q :
  (forall t p2, reached p k scope stack p2 -> pr_ahead p2 = Some t -> runs (f t) p2 Q) ->
  runs (p_bind peek f) p1 Q.
Proof using at_p1.
  intros Hk. apply (runs_bind _ _ _ (fun t p2 => reached p k scope stack p2 /\ pr_ahead p2 = Some t)).
  2: { intros t p2 [H1 H2]. by apply Hk. }
  destruct at_p1 as ([Hi Hst] & Hw & Es & Et). unfold runs, CmdParse.peek. destruct (pr_ahead p1) as [t|] eqn:E; [done|].
  destruct (yylex_total wctomb home_of own_home (pr_environ p1) (pr_ps p1) Hi) as ([t ps] & -> & Hi' & Hn & Hs).
  cbn [mbind option_bind fst snd] in *. split; [|done]. split; [by split|]. split; [|done].
  unfold work, ahead_left in *. cbn [set_ahead set_ps pr_ahead pr_ps] in *. rewrite E in Hw.
  destruct t; try lia; specialize (Hs ltac:(done)); lia.
Qed.

Lemma then_shift (f : unit -> parse B) t Q : pr_ahead p1 = Some t -> t <> End ->
  (forall p2, reached p (S k) scope stack p2 -> runs (f tt) p2 Q) -> runs (p_bind shift f) p1 Q.
Proof using at_p1.
  intros E Ht Hk. apply (runs_bind _ _ _ (fun _ p2 => reached p (S k) scope stack p2)); [|intros [] p2; apply Hk].
  destruct at_p1 as (Hok & Hw & Es & Et). unfold runs, shift, p_set. split; [exact Hok|]. split; [|done].
  unfold work, ahead_left in *. cbn [set_ahead pr_ahead pr_ps]. rewrite E in Hw. destruct t; try lia. done.
Qed.

Lemma bind_call (m : parse A) (f : A -> parse B) j scope' stack' Q :
  runs m p1 (fun _ p2 => reached p1 j scope' stack' p2) ->
  (forall x p2, reached p (k + j) scope' stack' p2 -> runs (f x) p2 Q) -> runs (p_bind m f) p1 Q.
Proof using at_p1.
  intros Hm Hk. eapply runs_bind; [exact Hm|]. intros x p2 H2. apply Hk. by eapply reached_trans.
Qed.

Lemma bind_around (m : parse A) (f : A -> parse B) Q : runs_around m p1 ->
  (forall x p2, reached p k scope stack p2 -> runs (f x) p2 Q) -> runs (p_bind m f) p1 Q.
Proof using at_p1.
  intros Hm Hk. eapply bind_call; [exact Hm|]. destruct at_p1 as (_ & _ & -> & ->). rewrite Nat.add_0_r. exact Hk.
Qed.

Lemma bind_get (g : parser -> A) (f : A -> parse B) Q : runs (f (g p1)) p1 Q -> runs (p_bind (p_get g) f) p1 Q.
Proof. done. Qed.

Lemma tail_call (m : parse A) j scope' stack' : runs m p1 (fun _ p2 => reached p1 j scope' stack' p2) ->
  runs m p1 (fun _ p2 => reached p 0 scope' stack' p2).
Proof using at_p1.
  intros Hm. eapply runs_weaken; [exact Hm|]. intros x p2 H2. eapply reached_le; [exact (reached_trans _ _ _ _ _ _ _ _ _ at_p1 H2)|lia].
Qed.

Lemma tail_around (m : parse A) : runs_around m p1 -> runs m p1 (fun _ p2 => reached p 0 scope stack p2).
Proof using at_p1. intros Hm. eapply tail_call. destruct at_p1 as (_ & _ & <- & <-). exact Hm. Qed.

Lemma tail_ret (x : A) : runs (p_ret x) p1 (fun _ p2 => reached p 0 scope stack p2).
Proof using at_p1. apply runs_ret. eapply reached_le; [exact at_p1|lia]. Qed.
End Steps.

(** ** Tokens, conditions and assignments *)

Lemma expect_runs c p : parser_ok p -> runs (expect c) p (fun _ p' => reached p 1 (pr_scope p) (pr_stack p) p').
Proof.
  intros Hok. eapply then_peek; [by apply reached_refl|]. intros t p2 H2 Ht. destruct t; try apply runs_abort.
  destruct (_ =? c); [|apply runs_abort].
  pose proof (then_shift p 0 _ _ p2 H2 (fun _ => p_ret tt) (Char c0) (fun _ p' => reached p 1 (pr_scope p) (pr_stack p) p') Ht ltac:(done)) as Hs.
  unfold runs, p_bind, shift, p_set in *. apply Hs. intros p3 H3. exact H3.
Qed.

Lemma expanded_runs p : parser_ok p -> runs p_expanded p (fun _ p' => reached p 1 (pr_scope p) (pr_stack p) p').
Proof.
  intros Hok. eapply then_peek; [by apply reached_refl|]. intros t p2 H2 Ht.
  destruct t; try apply runs_abort; (eapply then_shift; [exact H2|exact Ht|done|]); intros p3 H3;
    by apply bind_get, runs_ret.
Qed.

(** A condition is opened inside those of [p], and closed. *)
Definition inside (scope : option bool) (stack : list bool) : list bool :=
  match scope with Some s => s :: stack | None => stack end.

Lemma if_open_runs p t : parser_ok p -> pr_ahead p = Some t -> t <> End ->
  runs if_open p (fun flag p' => reached p 2 (Some flag) (inside (pr_scope p) (pr_stack p)) p').
Proof.
  intros Hok Ht Hne. eapply then_shift; [by apply reached_refl|exact Ht|exact Hne|]. intros p2 H2.
  eapply bind_call; [exact H2|apply expanded_runs, H2|]. intros s p3 H3. destruct H2 as (_ & _ & E1 & E2). rewrite E1, E2 in H3.
  destruct H3 as ([Hi Hst] & Hw & Es & Et). unfold runs, p_bind, p_set, p_ret. cbn [set_scope].
  split; [split; [exact Hi|done]|]. split; [exact Hw|]. split; [done|]. cbn [pr_stack]. by rewrite Es, Et.
Qed.

Lemma if_else_runs p t b : parser_ok p -> pr_scope p = Some b -> pr_ahead p = Some t -> t <> End ->
  runs if_else p (fun _ p' => exists b', reached p 1 (Some b') (pr_stack p) p').
Proof.
  intros Hok Hb Ht Hne. unfold runs, if_else. rewrite Hb.
  pose proof (then_shift p 0 _ _ p (reached_refl p Hok) (fun _ => p_set (fun p => set_scope (Some (negb b)) (pr_stack p) p)) t
    (fun _ p' => exists b', reached p 1 (Some b') (pr_stack p) p') Ht Hne) as Hs.
  unfold runs in Hs. apply Hs. intros p3 ([Hi Hst] & Hw & Es & Et). unfold p_set. exists (negb b).
  split; [split; [exact Hi|done]|]. split; [exact Hw|]. split; [done|exact Et].
Qed.

Lemma if_elif_runs p t : parser_ok p -> pr_ahead p = Some t -> t <> End ->
  runs if_elif p (fun _ p' => exists b', reached p 2 (Some b') (pr_stack p) p').
Proof.
  intros Hok Ht Hne. eapply then_shift; [by apply reached_refl|exact Ht|exact Hne|]. intros p2 H2.
  eapply bind_call; [exact H2|apply expanded_runs, H2|]. intros s p3 H3. destruct H2 as (_ & _ & E1 & E2). rewrite E1, E2 in H3.
  destruct H3 as ([Hi Hst] & Hw & Es & Et). unfold runs, p_bind, p_set, p_ret. exists (format_true s).
  split; [split; [exact Hi|done]|]. split; [exact Hw|]. split; [done|exact Et].
Qed.

Lemma if_close_runs p : parser_ok p ->
  runs if_close p (fun _ p' => reached p 1 (head (pr_stack p)) (tail (pr_stack p)) p').
Proof.
  intros Hok. eapply then_peek; [by apply reached_refl|]. intros t p2 H2 Ht. destruct t; try apply runs_abort.
  pose proof (then_shift p 0 _ _ p2 H2 (fun _ => p_set (fun p => set_scope (head (pr_stack p)) (tail (pr_stack p)) p)) ENDIF
    (fun _ p' => reached p 1 (head (pr_stack p)) (tail (pr_stack p)) p') Ht ltac:(done)) as Hs.
  apply Hs. intros p3 ([Hi Hst] & Hw & Es & Et). unfold runs, p_set. rewrite <- Et.
  split; [split; [exact Hi|cbn [set_scope pr_scope pr_stack]; by destruct (pr_stack p3)]|]. done.
Qed.

Lemma inside_closed p : parser_ok p ->
  head (inside (pr_scope p) (pr_stack p)) = pr_scope p /\ tail (inside (pr_scope p) (pr_stack p)) = pr_stack p.
Proof. intros [_ Hst]. destruct (pr_scope p); [done|]. by rewrite Hst. Qed.

Lemma assignment_runs s flags p : parser_ok p -> runs_around (assignment s flags) p.
Proof.
  intros Hok. unfold CmdParse.assignment. apply bind_get. cbv beta zeta. destruct (_ <? _); [apply runs_abort|]. destruct (_ && _); [|by apply runs_ret, reached_refl].
  by apply (reached_refl p).
Qed.

Lemma hidden_assignment_runs p t : parser_ok p -> pr_ahead p = Some t -> t <> End ->
  runs_around hidden_assignment p.
Proof.
  intros Hok Ht Hne. eapply then_shift; [by apply reached_refl|exact Ht|exact Hne|]. intros p2 H2.
  eapply then_peek; [exact H2|]. intros t3 p3 H3 Ht3. destruct t3; try apply runs_abort.
  eapply then_shift; [exact H3|exact Ht3|done|]. intros p4 H4. eapply tail_around; [exact H4|]. apply assignment_runs, H4.
Qed.

(** ** The nonterminals *)

(** Each runs with eight calls for a token that is left, and a few more. *)
Record all_run (fuel : nat) : Prop := {
  r_statements braces acc p : parser_ok p -> (8 * work p + 4 <= fuel)%nat -> runs_around (p_statements fuel braces acc) p;
  r_statement p : parser_ok p -> (8 * work p + 3 <= fuel)%nat -> runs_around (p_statement fuel) p;
  r_commands p : parser_ok p -> (8 * work p + 2 <= fuel)%nat -> runs_around (p_commands fuel) p;
  r_more acc p : parser_ok p -> (8 * work p + 1 <= fuel)%nat -> runs_around (p_more fuel acc) p;
  r_command p : parser_ok p -> (8 * work p + 1 <= fuel)%nat -> runs_around (p_command fuel) p;
  r_arguments p : parser_ok p -> (8 * work p + 1 <= fuel)%nat -> runs_around (p_arguments fuel) p;
  r_condition lines flag p b : parser_ok p -> pr_scope p = Some b -> (8 * work p + 4 <= fuel)%nat ->
    runs (p_condition fuel lines flag) p (fun _ p' => reached p 0 (head (pr_stack p)) (tail (pr_stack p)) p');
  r_body lines p : parser_ok p -> (8 * work p + 3 <= fuel)%nat -> runs_around (p_body fuel lines) p;
  r_elif lines p t : parser_ok p -> pr_ahead p = Some t -> t <> End -> (8 * work p + 1 <= fuel)%nat ->
    runs (p_elif fuel lines) p (fun _ p' => exists b, reached p 0 (Some b) (pr_stack p) p')
}.

(** The fuel is enough, after what was read. *)
Ltac fueled := cbv beta in *; repeat match goal with H : reached _ _ _ _ ?q |- context [work ?q] => destruct H as (_ & H & _) end; lia.
Ltac ok := cbv beta in *; match goal with H : reached _ _ _ _ ?q |- parser_ok ?q => exact (proj1 H) end.

Section Step.
Variable fuel : nat.
Hypothesis IH : all_run fuel.

Lemma arguments_step p : parser_ok p -> (8 * work p + 1 <= S fuel)%nat -> runs_around (p_arguments (S fuel)) p.
Proof using IH.
  intros Hok Hf. cbn [CmdParse.p_arguments]. eapply then_peek; [by apply reached_refl|]. intros t p2 H2 Ht.
  assert (Hword : forall s, t <> End -> runs (let! _ := shift in let! arguments := p_arguments fuel in
    p_ret (CMD_PARSE_STRING s :: arguments))%parse p2 (fun _ p' => reached p 0 (pr_scope p) (pr_stack p) p')).
  { intros s Hne. eapply then_shift; [exact H2|exact Ht|exact Hne|]. intros p3 H3.
    eapply bind_around; [exact H3|apply (r_arguments _ IH); [ok|fueled]|]. intros l p4 H4. by eapply tail_ret. }
  destruct t as [s|s| | | | | | | |c| ]; try (by eapply tail_ret); [by apply Hword..|].
  destruct (decide (c = 123)) as [->|Hc].
  - eapply then_shift; [exact H2|exact Ht|done|]. intros p3 H3.
    eapply bind_around; [exact H3|apply (r_statements _ IH); [ok|fueled]|]. intros cs p4 H4.
    eapply bind_around; [exact H4|apply (r_arguments _ IH); [ok|fueled]|]. intros l p5 H5. by eapply tail_ret.
  - assert (Hr : runs (p_ret []) p2 (fun (_ : list cmd_parse_argument) p' => reached p 0 (pr_scope p) (pr_stack p) p')) by by eapply tail_ret.
    destruct c as [|c|c]; try done. repeat (destruct c as [c|c|]; try done).
Qed.

Lemma command_step p : parser_ok p -> (8 * work p + 1 <= S fuel)%nat -> runs_around (p_command (S fuel)) p.
Proof using IH.
  intros Hok Hf. cbn [CmdParse.p_command].
  assert (Hnamed : forall s k p2 t, reached p k (pr_scope p) (pr_stack p) p2 -> pr_ahead p2 = Some t -> t <> End ->
    runs (let! _ := shift in let! arguments := p_arguments fuel in let! line := p_get line_of in
      p_ret (PC line (CMD_PARSE_STRING s :: arguments)))%parse p2 (fun _ p' => reached p 0 (pr_scope p) (pr_stack p) p')).
  { intros s k p2 t H2 Ht Hne. eapply then_shift; [exact H2|exact Ht|exact Hne|]. intros p3 H3.
    eapply bind_around; [exact H3|apply (r_arguments _ IH); [ok|fueled]|]. intros l p4 H4.
    apply bind_get. by eapply tail_ret. }
  eapply then_peek; [by apply reached_refl|]. intros t p2 H2 Ht. destruct t as [s|s| | | | | | | |c| ]; try apply runs_abort.
  - by eapply Hnamed.
  - eapply then_shift; [exact H2|exact Ht|done|]. intros p3 H3.
    eapply bind_around; [exact H3|apply assignment_runs; ok|]. intros [] p4 H4.
    eapply then_peek; [exact H4|]. intros t5 p5 H5 Ht5.
    destruct t5; try (apply bind_get; by eapply tail_ret). by eapply Hnamed.
Qed.

(** The conditions after one are those before it was opened. *)
Lemma condition_closed lines k j p p2 flag b p3 : reached p k (pr_scope p) (pr_stack p) p2 ->
  reached p2 j (Some b) (inside (pr_scope p2) (pr_stack p2)) p3 -> (8 * work p3 + 4 <= fuel)%nat ->
  runs (p_condition fuel lines flag) p3 (fun _ p4 => reached p (k + j) (pr_scope p) (pr_stack p) p4).
Proof using IH.
  intros H2 H3 Hf. eapply runs_weaken.
  - eapply (r_condition _ IH lines flag p3 b); [ok|apply H3|exact Hf].
  - intros c p4 H4. pose proof H2 as (Hok2 & _ & Es2 & Et2). pose proof H3 as (_ & _ & _ & Et3).
    destruct (inside_closed p2 Hok2) as [E1 E2]. rewrite Et3, E1, E2, Es2, Et2 in H4.
    eapply reached_le; [eapply reached_trans; [exact H2|eapply reached_trans; [exact H3|exact H4] ]|lia].
Qed.

(** A condition is opened, parsed and closed. *)
Lemma condition_runs {B} lines k p p2 t (f : list cmd_parse_command -> parse B) Q :
  reached p k (pr_scope p) (pr_stack p) p2 -> pr_ahead p2 = Some t -> t <> End -> (8 * work p2 <= fuel + 12)%nat ->
  (forall c p3, reached p (k + 2) (pr_scope p) (pr_stack p) p3 -> runs (f c) p3 Q) ->
  runs (let! flag := if_open in let! c := p_condition fuel lines flag in f c)%parse p2 Q.
Proof using IH.
  intros H2 Ht Hne Hf Hk. eapply runs_bind; [by eapply if_open_runs; [ok| |]|]. cbv beta. intros flag p3 H3.
  eapply runs_bind; [|exact Hk]. eapply condition_closed; [exact H2|exact H3|]. destruct H3 as (_ & Hw & _). lia.
Qed.

Lemma more_step acc p : parser_ok p -> (8 * work p + 1 <= S fuel)%nat -> runs_around (p_more (S fuel) acc) p.
Proof using IH.
  intros Hok Hf. cbn [CmdParse.p_more]. eapply then_peek; [by apply reached_refl|]. intros t p2 H2 Ht.
  assert (Hr : runs (p_ret acc) p2 (fun _ p' => reached p 0 (pr_scope p) (pr_stack p) p')) by by eapply tail_ret.
  destruct t as [s|s| | | | | | | |c| ]; try exact Hr. destruct (decide (c = 59)) as [->|Hc].
  - eapply then_shift; [exact H2|exact Ht|done|]. intros p3 H3. eapply then_peek; [exact H3|]. intros t4 p4 H4 Ht4.
    assert (Hmore : forall acc k p5, reached p (S k) (pr_scope p) (pr_stack p) p5 ->
      runs (p_more fuel acc) p5 (fun _ p' => reached p 0 (pr_scope p) (pr_stack p) p')).
    { intros acc' k p5 H5. eapply tail_around; [exact H5|apply (r_more _ IH); [ok|fueled] ]. }
    assert (Hcommand : runs (let! c := p_command fuel in let! add := p_get (adds c) in
      p_more fuel (if add then acc ++ [c] else []))%parse p4 (fun _ p' => reached p 0 (pr_scope p) (pr_stack p) p')).
    { eapply bind_around; [exact H4|apply (r_command _ IH); [ok|fueled]|]. intros c p5 H5. apply bind_get. by eapply Hmore. }
    destruct t4 as [s|s| | | | | | | |c| ]; try exact Hcommand; try by eapply Hmore.
    eapply (condition_runs false 1 p p4); [exact H4|exact Ht4|done|fueled|]. intros c p5 H5. by eapply Hmore.
  - destruct c as [|c|c]; try exact Hr. repeat (destruct c as [c|c|]; try exact Hr). done.
Qed.

Lemma commands_step p : parser_ok p -> (8 * work p + 2 <= S fuel)%nat -> runs_around (p_commands (S fuel)) p.
Proof using IH.
  intros Hok Hf. cbn [CmdParse.p_commands]. eapply then_peek; [by apply reached_refl|]. intros t p2 H2 Ht.
  assert (Hmore : forall acc k p5, reached p k (pr_scope p) (pr_stack p) p5 ->
    runs (p_more fuel acc) p5 (fun _ p' => reached p 0 (pr_scope p) (pr_stack p) p')).
  { intros acc' k p5 H5. eapply tail_around; [exact H5|apply (r_more _ IH); [ok|fueled] ]. }
  assert (Hcommand : runs (let! c := p_command fuel in let! add := p_get (adds c) in
    p_more fuel (if add then [c] else []))%parse p2 (fun _ p' => reached p 0 (pr_scope p) (pr_stack p) p')).
  { eapply bind_around; [exact H2|apply (r_command _ IH); [ok|fueled]|]. intros c p5 H5. apply bind_get. by eapply Hmore. }
  destruct t; try exact Hcommand.
  eapply (condition_runs false 0 p p2); [exact H2|exact Ht|done|fueled|]. intros c p5 H5. by eapply Hmore.
Qed.

Lemma statement_step p : parser_ok p -> (8 * work p + 3 <= S fuel)%nat -> runs_around (p_statement (S fuel)) p.
Proof using IH.
  intros Hok Hf. cbn [CmdParse.p_statement]. eapply then_peek; [by apply reached_refl|]. intros t p2 H2 Ht. cbv zeta.
  assert (Hhere : forall (c : list cmd_parse_command) k p3, reached p k (pr_scope p) (pr_stack p) p3 ->
    runs (let! holds := p_get scope_holds in p_ret (if holds then c else []))%parse p3
      (fun _ p' => reached p 0 (pr_scope p) (pr_stack p) p')).
  { intros c k p3 H3. apply bind_get. by eapply tail_ret. }
  assert (Hcommands : runs (let! c := p_commands fuel in let! holds := p_get scope_holds in p_ret (if holds then c else []))%parse
    p2 (fun _ p' => reached p 0 (pr_scope p) (pr_stack p) p')).
  { eapply bind_around; [exact H2|apply (r_commands _ IH); [ok|fueled]|]. intros c p3 H3. by eapply Hhere. }
  destruct t; try exact Hcommands; try by eapply tail_ret.
  - eapply bind_around; [exact H2|by eapply hidden_assignment_runs; [ok| |]|]. intros [] p3 H3. by eapply tail_ret.
  - eapply runs_bind; [|intros c p3 H3; exact (Hhere c 0%nat p3 H3)].
    eapply runs_bind; [by eapply if_open_runs; [ok| |]|]. cbv beta. intros flag p3 H3.
    eapply then_peek; [exact H3|]. intros t4 p4 H4 _. pose proof H4 as (_ & Hw & _). pose proof H2 as (_ & Hw2 & _).
    assert (Hline : runs (let! c := p_condition fuel false flag in p_more fuel c)%parse p4
      (fun _ p' => reached p 0 (pr_scope p) (pr_stack p) p')).
    { eapply runs_bind; [eapply (condition_closed false 0 2 p p2); [exact H2|exact H4|lia]|]. intros c p5 H5.
      eapply tail_around; [exact H5|apply (r_more _ IH); [ok|fueled] ]. }
    destruct t4 as [s|s| | | | | | | |c| ]; try exact Hline. destruct (decide (c = 10)) as [->|Hc].
    + eapply runs_weaken; [eapply (condition_closed true 0 2 p p2); [exact H2|exact H4|lia]|].
      intros c p5 H5. eapply reached_le; [exact H5|lia].
    + destruct c as [|c|c]; try exact Hline. repeat (destruct c as [c|c|]; try exact Hline). done.
Qed.

(** After a statement: a newline, a brace or an error. *)
Lemma statements_step braces acc p : parser_ok p -> (8 * work p + 4 <= S fuel)%nat ->
  runs_around (p_statements (S fuel) braces acc) p.
Proof using IH.
  intros Hok Hf. cbn [CmdParse.p_statements].
  eapply bind_around; [by apply reached_refl|apply (r_statement _ IH); [done|lia]|]. intros s p2 H2. cbv zeta.
  eapply then_peek; [exact H2|]. intros t p3 H3 Ht.
  assert (Hgo : forall k p4, reached p (S k) (pr_scope p) (pr_stack p) p4 ->
    runs (p_statements fuel braces (acc ++ s)) p4 (fun _ p' => reached p 0 (pr_scope p) (pr_stack p) p')).
  { intros k p4 H4. eapply tail_around; [exact H4|apply (r_statements _ IH); [ok|fueled] ]. }
  destruct t as [w|w| | | | | | | |c| ]; try apply runs_abort. destruct (decide (c = 10)) as [->|Hc]; [|destruct (decide (c = 125)) as [->|Hc'] ].
  - eapply then_shift; [exact H3|exact Ht|done|]. intros p4 H4. destruct braces; [by eapply Hgo|].
    eapply then_peek; [exact H4|]. intros t5 p5 H5 _. destruct (ends_statements t5); [by eapply tail_ret|by eapply Hgo].
  - destruct braces; [|apply runs_abort]. eapply then_shift; [exact H3|exact Ht|done|]. intros p4 H4. by eapply tail_ret.
  - destruct c as [|c|c]; try apply runs_abort. repeat (destruct c as [c|c|]; try apply runs_abort); done.
Qed.

Lemma body_step lines p : parser_ok p -> (8 * work p + 3 <= S fuel)%nat -> runs_around (p_body (S fuel) lines) p.
Proof using IH.
  intros Hok Hf. cbn [CmdParse.p_body]. destruct lines; [|apply (r_commands _ IH); [done|lia] ].
  eapply bind_call; [by apply reached_refl|by apply expect_runs|]. intros [] p2 H2.
  eapply tail_around; [exact H2|apply (r_statements _ IH); [ok|fueled] ].
Qed.

Lemma elif_step lines p t : parser_ok p -> pr_ahead p = Some t -> t <> End -> (8 * work p + 1 <= S fuel)%nat ->
  runs (p_elif (S fuel) lines) p (fun _ p' => exists b, reached p 0 (Some b) (pr_stack p) p').
Proof using IH.
  intros Hok Ht Hne Hf. cbn [CmdParse.p_elif]. eapply runs_bind; [by eapply if_elif_runs|]. intros flag p2 (b & H2).
  eapply bind_around; [exact H2|apply (r_body _ IH); [ok|fueled]|]. intros body p3 H3.
  eapply then_peek; [exact H3|]. intros t4 p4 H4 Ht4.
  assert (Hr : forall (x : bool * list cmd_parse_command), runs (p_ret x) p4 (fun _ p' => exists b, reached p 0 (Some b) (pr_stack p) p')).
  { intros x. apply runs_ret. exists b. eapply reached_le; [exact H4|lia]. }
  destruct t4; try apply Hr.
  eapply runs_bind; [eapply (r_elif _ IH lines p4 ELIF); [ok|exact Ht4|done|fueled]|]. intros elif p5 (b' & H5).
  pose proof H4 as (_ & _ & _ & Et). rewrite Et in H5.
  apply runs_ret. exists b'. eapply reached_le; [eapply reached_trans; [exact H4|exact H5]|lia].
Qed.

Lemma condition_step lines flag p b : parser_ok p -> pr_scope p = Some b -> (8 * work p + 4 <= S fuel)%nat ->
  runs (p_condition (S fuel) lines flag) p (fun _ p' => reached p 0 (head (pr_stack p)) (tail (pr_stack p)) p').
Proof using IH.
  intros Hok Hb Hf. cbn [CmdParse.p_condition].
  eapply bind_around; [by apply reached_refl|apply (r_body _ IH); [done|lia]|]. intros body p2 H2. cbv zeta. rewrite Hb in H2.
  assert (Hclose : forall k b' (x : list cmd_parse_command) p3, reached p k (Some b') (pr_stack p) p3 ->
    runs (let! _ := if_close in p_ret x)%parse p3 (fun _ p' => reached p 0 (head (pr_stack p)) (tail (pr_stack p)) p')).
  { intros k b' x p3 H3. eapply bind_call; [exact H3|apply if_close_runs; ok|]. intros [] p4 H4.
    pose proof H3 as (_ & _ & _ & Et). rewrite Et in H4. by eapply tail_ret. }
  assert (Helse : forall k b' (g : list cmd_parse_command -> list cmd_parse_command) p3, reached p k (Some b') (pr_stack p) p3 ->
    pr_ahead p3 = Some ELSE ->
    runs (let! _ := if_else in let! c := p_body fuel lines in let! _ := if_close in p_ret (g c))%parse p3
      (fun _ p' => reached p 0 (head (pr_stack p)) (tail (pr_stack p)) p')).
  { intros k b' g p3 H3 Ht. eapply runs_bind; [by eapply if_else_runs; [ok|apply H3| |]|]. intros [] p4 (b4 & H4).
    pose proof H3 as (_ & _ & _ & Et). rewrite Et in H4. pose proof (reached_trans _ _ _ _ _ _ _ _ _ H3 H4) as H4'.
    eapply bind_around; [exact H4'|apply (r_body _ IH); [ok|fueled]|]. intros c p5 H5. by eapply Hclose. }
  eapply then_peek; [exact H2|]. intros t p3 H3 Ht. destruct t; try by eapply Hclose.
  - by eapply (Helse _ b (fun c => if flag then body else c)).
  - eapply runs_bind; [eapply (r_elif _ IH lines p3 ELIF); [ok|exact Ht|done|fueled]|]. intros elif p4 (b4 & H4).
    pose proof H3 as (_ & _ & _ & Et). rewrite Et in H4. pose proof (reached_trans _ _ _ _ _ _ _ _ _ H3 H4) as H4'.
    eapply then_peek; [exact H4'|]. intros t5 p5 H5 Ht5. destruct t5; try by eapply Hclose.
    by eapply (Helse _ b4 (fun c => if flag then body else if (elif.1 : bool) then elif.2 else c)).
Qed.
End Step.

Lemma all_run_ok fuel : all_run fuel.
Proof.
  induction fuel as [|fuel IH]; [constructor; intros; lia|]. constructor; intros.
  - by apply statements_step.
  - by apply statement_step.
  - by apply commands_step.
  - by apply more_step.
  - by apply command_step.
  - by apply arguments_step.
  - by eapply condition_step.
  - by apply body_step.
  - by eapply elif_step.
Qed.

(** C12. The parser of commands returns, whatever the text, its variables and
    the conditions in it: with the commands, or with an error and its message. *)
Theorem cmd_parse_do_buffer_returns buf file line env :
  exists cs p, cmd_parse_do_buffer wctomb home_of own_home format_expand pi_flags buf file line env = Some (cs, p) /\
    (cs = None -> is_Some (ps_error (pr_ps p))).
Proof.
  set (p := Parser (lex_string buf file line) None None [] env).
  assert (Hok : parser_ok p) by (split; [split; cbn; lia|done]).
  assert (Hw : work p = S (length buf)) by (unfold work, tokens_left, left, left_to_read; cbn; lia).
  assert (Hr : runs (p_lines wctomb home_of own_home format_expand pi_flags (parse_fuel buf)) p (fun _ _ => True)).
  { unfold p_lines. eapply then_peek; [by apply reached_refl|]. intros t p2 H2 _.
    assert (Hgo : runs (let! c := p_statements (parse_fuel buf) false [] in let! t := peek in
      match t with End => p_ret c | _ => syntax_error end)%parse p2 (fun _ _ => True)).
    { eapply bind_around; [exact H2|apply (r_statements _ (all_run_ok _)); [ok|unfold parse_fuel; fueled]|].
      intros c p3 H3. eapply then_peek; [exact H3|]. intros t4 p4 _ _. destruct t4; try apply runs_abort. by apply runs_ret. }
    destruct t; try exact Hgo. by apply runs_ret. }
  unfold runs, cmd_parse_do_buffer in *. fold p. destruct (p_lines _ _ _ _ _ _ p) as [ [ [cs|] p']|]; [| |done].
  - by exists (Some cs), p'.
  - by exists None, p'.
Qed.
End Parser.
