(* ===== verification/Style.v ===== *)
(** * Styles and attributes (src/tmux/terminal/style.c, core/attributes.c)

    A style is what "fg=red,bold" or "#[align=right]" says: a cell with
    attributes and colours, and what a status line does with the text.
    [style_parse] adds what a string says onto a style; [style_tostring]
    prints one in a buffer of 256 bytes, and [None] is the fatal error of
    xsnprintf when the buffer is too small. *)
From Stdlib Require Import Ascii String.
From S2P Require Import Prelude.
From S2P Require Import CString.
From S2P Require Import Utf8.
From S2P Require Import Grid.
From S2P Require Import Colour.

Open Scope string_scope.
Open Scope Z_scope.

(** [xsnprintf]: the string, if it fits. *)
Definition xsnprintf (len : nat) (s : string) : option string :=
  if (String.length s <? len)%nat then Some s else None.

(** [snprintf] truncates. *)
Definition snprintf (len : nat) (s : string) : string := str_take (len - 1) s.

(** ** Attributes *)

Definition attribute_words : list (Z * string) :=
  [(GRID_ATTR_CHARSET, "acs,"); (GRID_ATTR_BRIGHT, "bright,"); (GRID_ATTR_DIM, "dim,");
   (GRID_ATTR_UNDERSCORE, "underscore,"); (GRID_ATTR_BLINK, "blink,");
   (GRID_ATTR_REVERSE, "reverse,"); (GRID_ATTR_HIDDEN, "hidden,");
   (GRID_ATTR_ITALICS, "italics,"); (GRID_ATTR_STRIKETHROUGH, "strikethrough,");
   (GRID_ATTR_UNDERSCORE_2, "double-underscore,"); (GRID_ATTR_UNDERSCORE_3, "curly-underscore,");
   (GRID_ATTR_UNDERSCORE_4, "dotted-underscore,"); (GRID_ATTR_UNDERSCORE_5, "dashed-underscore,");
   (GRID_ATTR_OVERLINE, "overline,"); (GRID_ATTR_NOATTR, "noattr,")].

Definition attributes_tostring (attr : Z) : option string :=
  if attr =? 0 then Some "none"
  else
    buf ← xsnprintf 512 (foldr (fun '(bit, word) rest =>
                           if has attr bit then word +:+ rest else rest) "" attribute_words);
    Some (str_take (String.length buf - 1) buf).

Definition attribute_table : list (string * Z) :=
  [("acs", GRID_ATTR_CHARSET); ("bright", GRID_ATTR_BRIGHT); ("bold", GRID_ATTR_BRIGHT);
   ("dim", GRID_ATTR_DIM); ("underscore", GRID_ATTR_UNDERSCORE); ("blink", GRID_ATTR_BLINK);
   ("reverse", GRID_ATTR_REVERSE); ("hidden", GRID_ATTR_HIDDEN); ("italics", GRID_ATTR_ITALICS);
   ("strikethrough", GRID_ATTR_STRIKETHROUGH); ("double-underscore", GRID_ATTR_UNDERSCORE_2);
   ("curly-underscore", GRID_ATTR_UNDERSCORE_3); ("dotted-underscore", GRID_ATTR_UNDERSCORE_4);
   ("dashed-underscore", GRID_ATTR_UNDERSCORE_5); ("overline", GRID_ATTR_OVERLINE)].

(** The table's entry for the first [end] bytes. *)
Definition attribute_of (str : string) (end_ : nat) : option Z :=
  snd <$> find (fun '(name, _) => Nat.eqb end_ (String.length name) && strncaseeq end_ str name)
    attribute_table.

Definition attr_delimiters : string := " ,|".

(** The loop; [None]: it does not end. *)
Fixpoint attributes_from (fuel : nat) (attr : Z) (str : string) : option Z :=
  match fuel with
  | O => None
  | S fuel =>
      let end_ := strcspn attr_delimiters str in
      match attribute_of str end_ with
      | None => Some (-1)
      | Some a =>
          let str := str_drop (end_ + strspn attr_delimiters (str_drop end_ str)) str in
          if String.eqb str "" then Some (Z.lor attr a) else attributes_from fuel (Z.lor attr a) str
      end
  end.

Definition attributes_fromstring (str : string) : option Z :=
  if String.eqb str "" || Nat.eqb (strcspn attr_delimiters str) 0 then Some (-1)
  else if in_set attr_delimiters (last_char str) then Some (-1)
  else if strcaseeq str "default" || strcaseeq str "none" then Some 0
  else attributes_from (S (String.length str)) 0 str.

(** ** Styles *)

Inductive style_align :=
  | STYLE_ALIGN_DEFAULT | STYLE_ALIGN_LEFT | STYLE_ALIGN_CENTRE | STYLE_ALIGN_RIGHT
  | STYLE_ALIGN_ABSOLUTE_CENTRE.
Inductive style_list :=
  | STYLE_LIST_OFF | STYLE_LIST_ON | STYLE_LIST_FOCUS | STYLE_LIST_LEFT_MARKER
  | STYLE_LIST_RIGHT_MARKER.
Inductive style_range_type :=
  | STYLE_RANGE_NONE | STYLE_RANGE_LEFT | STYLE_RANGE_RIGHT | STYLE_RANGE_PANE
  | STYLE_RANGE_WINDOW | STYLE_RANGE_SESSION | STYLE_RANGE_USER | STYLE_RANGE_CONTROL.
Inductive style_default_type :=
  | STYLE_DEFAULT_BASE | STYLE_DEFAULT_PUSH | STYLE_DEFAULT_POP | STYLE_DEFAULT_SET.

#[export] Instance style_align_dec : EqDecision style_align.
Proof. solve_decision. Defined.
#[export] Instance style_list_dec : EqDecision style_list.
Proof. solve_decision. Defined.
#[export] Instance style_range_type_dec : EqDecision style_range_type.
Proof. solve_decision. Defined.
#[export] Instance style_default_type_dec : EqDecision style_default_type.
Proof. solve_decision. Defined.

(** [range_type], [range_argument] and [range_string], which are set together. *)
Record range := Range { range_type : style_range_type; range_argument : Z; range_string : string }.

Record style := Style {
  sy_gc : grid_cell;
  sy_ignore : bool;
  sy_fill : Z;
  sy_align : style_align;
  sy_list : style_list;
  sy_range : range;
  sy_width : Z;
  sy_width_percentage : bool;
  sy_pad : Z;
  sy_default_type : style_default_type
}.

Definition style_default : style :=
  Style (GC space_data 0 0 8 8 0 0) false 8 STYLE_ALIGN_DEFAULT STYLE_LIST_OFF
    (Range STYLE_RANGE_NONE 0 "") (-1) false (-1) STYLE_DEFAULT_BASE.

Definition on_gc (f : grid_cell -> grid_cell) (sy : style) : style :=
  Style (f (sy_gc sy)) (sy_ignore sy) (sy_fill sy) (sy_align sy) (sy_list sy) (sy_range sy)
    (sy_width sy) (sy_width_percentage sy) (sy_pad sy) (sy_default_type sy).
Definition set_ignore (b : bool) (sy : style) : style :=
  Style (sy_gc sy) b (sy_fill sy) (sy_align sy) (sy_list sy) (sy_range sy)
    (sy_width sy) (sy_width_percentage sy) (sy_pad sy) (sy_default_type sy).
Definition set_fill (c : Z) (sy : style) : style :=
  Style (sy_gc sy) (sy_ignore sy) c (sy_align sy) (sy_list sy) (sy_range sy)
    (sy_width sy) (sy_width_percentage sy) (sy_pad sy) (sy_default_type sy).
Definition set_align (a : style_align) (sy : style) : style :=
  Style (sy_gc sy) (sy_ignore sy) (sy_fill sy) a (sy_list sy) (sy_range sy)
    (sy_width sy) (sy_width_percentage sy) (sy_pad sy) (sy_default_type sy).
Definition set_list (l : style_list) (sy : style) : style :=
  Style (sy_gc sy) (sy_ignore sy) (sy_fill sy) (sy_align sy) l (sy_range sy)
    (sy_width sy) (sy_width_percentage sy) (sy_pad sy) (sy_default_type sy).
Definition set_range (r : range) (sy : style) : style :=
  Style (sy_gc sy) (sy_ignore sy) (sy_fill sy) (sy_align sy) (sy_list sy) r
    (sy_width sy) (sy_width_percentage sy) (sy_pad sy) (sy_default_type sy).
Definition set_width (w : Z) (percentage : bool) (sy : style) : style :=
  Style (sy_gc sy) (sy_ignore sy) (sy_fill sy) (sy_align sy) (sy_list sy) (sy_range sy)
    w percentage (sy_pad sy) (sy_default_type sy).
Definition set_pad (p : Z) (sy : style) : style :=
  Style (sy_gc sy) (sy_ignore sy) (sy_fill sy) (sy_align sy) (sy_list sy) (sy_range sy)
    (sy_width sy) (sy_width_percentage sy) p (sy_default_type sy).
Definition set_default_type (d : style_default_type) (sy : style) : style :=
  Style (sy_gc sy) (sy_ignore sy) (sy_fill sy) (sy_align sy) (sy_list sy) (sy_range sy)
    (sy_width sy) (sy_width_percentage sy) (sy_pad sy) d.

(** ** Parsing *)

Definition style_delimiters : string := String " " (String "," (String (ascii_of_N 10) "")).

(** [range=], what follows it; [None] is [goto error]. *)
Definition range_token (sy : style) (arg : string) : option style :=
  let '(name, found) := match str_cut "|" arg with
                        | Some (a, b) => (a, Some b)
                        | None => (arg, None)
                        end in
  let simple t := match found with
                  | Some _ => None
                  | None => Some (set_range (Range t 0 "") sy)
                  end in
  let number t s max :=
    match strtonum s 0 max with
    | inl n => Some (set_range (Range t (u32 n) "") sy)
    | inr _ => None
    end in
  let sigil t c s :=
    if negb (Ascii.eqb (hd_char s) c) || String.eqb (str_drop 1 s) "" then None
    else number t (str_drop 1 s) UINT_MAX in
  if bool_decide (found = Some "") then None
  else if strcaseeq name "left" then simple STYLE_RANGE_LEFT
  else if strcaseeq name "right" then simple STYLE_RANGE_RIGHT
  else if strcaseeq name "control" then s ← found; number STYLE_RANGE_CONTROL s 9
  else if strcaseeq name "pane" then s ← found; sigil STYLE_RANGE_PANE "%"%char s
  else if strcaseeq name "window" then s ← found; number STYLE_RANGE_WINDOW s UINT_MAX
  else if strcaseeq name "session" then s ← found; sigil STYLE_RANGE_SESSION "$"%char s
  else if strcaseeq name "user" then
    s ← found; Some (set_range (Range STYLE_RANGE_USER 0 (str_take 15 s)) sy)
  else Some sy.

Definition list_token (sy : style) (arg : string) : option style :=
  if strcaseeq arg "on" then Some (set_list STYLE_LIST_ON sy)
  else if strcaseeq arg "focus" then Some (set_list STYLE_LIST_FOCUS sy)
  else if strcaseeq arg "left-marker" then Some (set_list STYLE_LIST_LEFT_MARKER sy)
  else if strcaseeq arg "right-marker" then Some (set_list STYLE_LIST_RIGHT_MARKER sy)
  else None.

Definition align_token (sy : style) (arg : string) : option style :=
  if strcaseeq arg "left" then Some (set_align STYLE_ALIGN_LEFT sy)
  else if strcaseeq arg "centre" then Some (set_align STYLE_ALIGN_CENTRE sy)
  else if strcaseeq arg "right" then Some (set_align STYLE_ALIGN_RIGHT sy)
  else if strcaseeq arg "absolute-centre" then Some (set_align STYLE_ALIGN_ABSOLUTE_CENTRE sy)
  else None.

(** A colour that is given; 8 stands for the base's. *)
Definition fg_bg_token (base : grid_cell) (sy : style) (first : ascii) (arg : string) :
    option style :=
  let value := colour_fromstring arg in
  if value =? -1 then None
  else if Ascii.eqb (tolower first) "f" then
    Some (on_gc (set_gc_fg (if value =? 8 then gc_fg base else value)) sy)
  else if Ascii.eqb (tolower first) "b" then
    Some (on_gc (set_gc_bg (if value =? 8 then gc_bg base else value)) sy)
  else None.

Definition no_token (sy : style) (arg : string) : option style :=
  if String.eqb arg "attr" then
    Some (on_gc (fun gc => set_gc_attr (Z.lor (gc_attr gc) GRID_ATTR_NOATTR) gc) sy)
  else
    value ← attributes_fromstring arg;
    if value =? -1 then None
    else Some (on_gc (fun gc => set_gc_attr (without (gc_attr gc) value) gc) sy).

Definition width_token (sy : style) (tmp : string) (end_ : nat) : option style :=
  if (7 <? end_)%nat && Ascii.eqb (last_char tmp) "%" then
    match strtonum (str_take (end_ - 7) (str_drop 6 tmp)) 0 100 with
    | inl n => Some (set_width (s32 (u32 n)) true sy)
    | inr _ => None
    end
  else
    match strtonum (str_drop 6 tmp) 0 UINT_MAX with
    | inl n => Some (set_width (s32 (u32 n)) false sy)
    | inr _ => None
    end.

Definition pad_token (sy : style) (arg : string) : option style :=
  match strtonum arg 0 UINT_MAX with
  | inl n => Some (set_pad (s32 (u32 n)) sy)
  | inr _ => None
  end.

Definition default_token (base : grid_cell) (gc : grid_cell) : grid_cell :=
  GC (gc_data gc) (gc_attr base) (gc_flags base) (gc_fg base) (gc_bg base) (gc_us base) (gc_link gc).

(** One word of a style, [tmp], onto [sy]; [None] is [goto error]. *)
Definition style_token (base : grid_cell) (sy : style) (tmp : string) : option style :=
  let end_ := String.length tmp in
  if strcaseeq tmp "default" then Some (on_gc (default_token base) sy)
  else if strcaseeq tmp "ignore" then Some (set_ignore true sy)
  else if strcaseeq tmp "noignore" then Some (set_ignore false sy)
  else if strcaseeq tmp "push-default" then Some (set_default_type STYLE_DEFAULT_PUSH sy)
  else if strcaseeq tmp "pop-default" then Some (set_default_type STYLE_DEFAULT_POP sy)
  else if strcaseeq tmp "set-default" then Some (set_default_type STYLE_DEFAULT_SET sy)
  else if strcaseeq tmp "nolist" then Some (set_list STYLE_LIST_OFF sy)
  else if strncaseeq 5 tmp "list=" then list_token sy (str_drop 5 tmp)
  else if strcaseeq tmp "norange" then Some (set_range (sy_range style_default) sy)
  else if (6 <? end_)%nat && strncaseeq 6 tmp "range=" then range_token sy (str_drop 6 tmp)
  else if strcaseeq tmp "noalign" then Some (set_align (sy_align style_default) sy)
  else if (6 <? end_)%nat && strncaseeq 6 tmp "align=" then align_token sy (str_drop 6 tmp)
  else if (5 <? end_)%nat && strncaseeq 5 tmp "fill=" then
    let value := colour_fromstring (str_drop 5 tmp) in
    if value =? -1 then None else Some (set_fill value sy)
  else if (3 <? end_)%nat && strncaseeq 2 (str_drop 1 tmp) "g=" then
    fg_bg_token base sy (hd_char tmp) (str_drop 3 tmp)
  else if (3 <? end_)%nat && strncaseeq 3 tmp "us=" then
    let value := colour_fromstring (str_drop 3 tmp) in
    if value =? -1 then None
    else Some (on_gc (set_gc_us (if value =? 8 then gc_us base else value)) sy)
  else if strcaseeq tmp "none" then Some (on_gc (set_gc_attr 0) sy)
  else if (2 <? end_)%nat && strncaseeq 2 tmp "no" then no_token sy (str_drop 2 tmp)
  else if (6 <? end_)%nat && strncaseeq 6 tmp "width=" then width_token sy tmp end_
  else if (4 <? end_)%nat && strncaseeq 4 tmp "pad=" then pad_token sy (str_drop 4 tmp)
  else
    value ← attributes_fromstring tmp;
    if value =? -1 then None
    else Some (on_gc (fun gc => set_gc_attr (Z.lor (gc_attr gc) value) gc) sy).

(** The loop: 0 and the style, or -1 and the style it started with. *)
Fixpoint style_parse_from (fuel : nat) (base : grid_cell) (saved sy : style) (in_ : string) :
    option (Z * style) :=
  match fuel with
  | O => None
  | S fuel =>
      let in_ := str_drop (strspn style_delimiters in_) in_ in
      if String.eqb in_ "" then Some (0, sy)
      else
        let end_ := strcspn style_delimiters in_ in
        if (255 <? end_)%nat then Some (-1, saved)
        else
          match style_token base sy (str_take end_ in_) with
          | None => Some (-1, saved)
          | Some sy =>
              let in_ := str_drop (end_ + strspn style_delimiters (str_drop end_ in_)) in_ in
              if String.eqb in_ "" then Some (0, sy) else style_parse_from fuel base saved sy in_
          end
  end.

Definition style_parse (sy : style) (base : grid_cell) (in_ : string) : option (Z * style) :=
  if String.eqb in_ "" then Some (0, sy)
  else style_parse_from (S (String.length in_)) base sy sy in_.

(** ** Printing *)

(** What has been printed, the separator and the variable [tmp]. *)
Record printed := Printed { p_s : string; p_comma : string; p_tmp : string }.

Definition style_item (p : printed) (item : string) : option printed :=
  piece ← xsnprintf (256 - String.length (p_s p)) (p_comma p +:+ item);
  Some (Printed (p_s p +:+ piece) "," (p_tmp p)).
Definition style_item_if (b : bool) (item : string) (p : printed) : option printed :=
  if b then style_item p item else Some p.
Definition set_tmp (t : option string) (p : printed) : printed :=
  Printed (p_s p) (p_comma p) (default (p_tmp p) t).

(** The assignments to [tmp]; [None]: none is made. *)
Definition list_name (l : style_list) : option string :=
  match l with
  | STYLE_LIST_ON => Some "on"
  | STYLE_LIST_FOCUS => Some "focus"
  | STYLE_LIST_LEFT_MARKER => Some "left-marker"
  | STYLE_LIST_RIGHT_MARKER => Some "right-marker"
  | STYLE_LIST_OFF => None
  end.
Definition range_name (r : range) : option string :=
  match range_type r with
  | STYLE_RANGE_LEFT => Some "left"
  | STYLE_RANGE_RIGHT => Some "right"
  | STYLE_RANGE_PANE => Some (snprintf 21 ("pane|%" +:+ fmt_u (range_argument r)))
  | STYLE_RANGE_WINDOW => Some (snprintf 21 ("window|" +:+ fmt_u (range_argument r)))
  | STYLE_RANGE_SESSION => Some (snprintf 21 ("session|$" +:+ fmt_u (range_argument r)))
  | STYLE_RANGE_USER => Some (snprintf 21 ("user|" +:+ range_string r))
  | STYLE_RANGE_NONE | STYLE_RANGE_CONTROL => None
  end.
Definition align_name (a : style_align) : option string :=
  match a with
  | STYLE_ALIGN_LEFT => Some "left"
  | STYLE_ALIGN_CENTRE => Some "centre"
  | STYLE_ALIGN_RIGHT => Some "right"
  | STYLE_ALIGN_ABSOLUTE_CENTRE => Some "absolute-centre"
  | STYLE_ALIGN_DEFAULT => None
  end.
Definition default_name (d : style_default_type) : option string :=
  match d with
  | STYLE_DEFAULT_PUSH => Some "push-default"
  | STYLE_DEFAULT_POP => Some "pop-default"
  | STYLE_DEFAULT_SET => Some "set-default"
  | STYLE_DEFAULT_BASE => None
  end.

(** An item whose text is in [tmp]. *)
Definition named_item (b : bool) (name : option string) (prefix : string) (p : printed) :
    option printed :=
  if b then let p := set_tmp name p in style_item p (prefix +:+ p_tmp p) else Some p.

Definition attr_item (attr : Z) (p : printed) : option printed :=
  if attr =? 0 then Some p else s ← attributes_tostring attr; style_item p s.

Definition style_tostring (sy : style) : option string :=
  let gc := sy_gc sy in
  p ← named_item (negb (bool_decide (sy_list sy = STYLE_LIST_OFF))) (list_name (sy_list sy))
        "list=" (Printed "" "" "");
  p ← named_item (negb (bool_decide (range_type (sy_range sy) = STYLE_RANGE_NONE)))
        (range_name (sy_range sy)) "range=" p;
  p ← named_item (negb (bool_decide (sy_align sy = STYLE_ALIGN_DEFAULT)))
        (align_name (sy_align sy)) "align=" p;
  p ← named_item (negb (bool_decide (sy_default_type sy = STYLE_DEFAULT_BASE)))
        (default_name (sy_default_type sy)) "" p;
  p ← style_item_if (negb (sy_fill sy =? 8)) ("fill=" +:+ colour_tostring (sy_fill sy)) p;
  p ← style_item_if (negb (gc_fg gc =? 8)) ("fg=" +:+ colour_tostring (gc_fg gc)) p;
  p ← style_item_if (negb (gc_bg gc =? 8)) ("bg=" +:+ colour_tostring (gc_bg gc)) p;
  p ← style_item_if (negb (gc_us gc =? 8)) ("us=" +:+ colour_tostring (gc_us gc)) p;
  p ← attr_item (gc_attr gc) p;
  p ← style_item_if (0 <=? sy_width sy)
        (if sy_width_percentage sy then "width=" +:+ fmt_u (sy_width sy) +:+ "%"
         else "width=" +:+ fmt_u (sy_width sy)) p;
  p ← style_item_if (0 <=? sy_pad sy) ("pad=" +:+ fmt_u (sy_pad sy)) p;
  Some (if String.eqb (p_s p) "" then "default" else p_s p).

(** ** Using a style *)

(** [options_string_to_style]: the style of the option, if it is one. *)
Definition style_add (gc : grid_cell) (option_style : option style) : grid_cell :=
  let sy := default style_default option_style in
  let gc := if negb (gc_fg (sy_gc sy) =? 8) then set_gc_fg (gc_fg (sy_gc sy)) gc else gc in
  let gc := if negb (gc_bg (sy_gc sy) =? 8) then set_gc_bg (gc_bg (sy_gc sy)) gc else gc in
  let gc := if negb (gc_us (sy_gc sy) =? 8) then set_gc_us (gc_us (sy_gc sy)) gc else gc in
  set_gc_attr (Z.lor (gc_attr gc) (gc_attr (sy_gc sy))) gc.

Definition style_apply (option_style : option style) : grid_cell :=
  style_add grid_default_cell option_style.

Definition style_set (gc : grid_cell) : style := on_gc (fun _ => gc) style_default.

(** [utf8_set (&gc.data, ' ')]. *)
Definition set_space (gc : grid_cell) : grid_cell :=
  GC space_data (gc_attr gc) (gc_flags gc) (gc_fg gc) (gc_bg gc) (gc_us gc) (gc_link gc).

Definition style_set_scrollbar_style_from_option (option_style : option style) : style :=
  match option_style with
  | None => on_gc set_space (set_pad 0 (set_width 1 (sy_width_percentage style_default)
              (style_set grid_default_cell)))
  | Some sy =>
      let sy := if sy_width sy <? 1 then set_width 1 (sy_width_percentage sy) sy else sy in
      let sy := if sy_pad sy <? 0 then set_pad 0 sy else sy in
      on_gc set_space sy
  end.

(** A part of a status line that the mouse acts on. *)
Record style_range := StyleRange { sr_range : range; sr_start : Z; sr_end : Z }.

(** [None] for the list: NULL. *)
Definition style_ranges_get_range (srs : option (list style_range)) (x : Z) : option style_range :=
  l ← srs; find (fun sr => (sr_start sr <=? x) && (x <? sr_end sr)) l.
