(* ===== verification/GridFacts.v ===== *)
(** * Facts about lines and cells of the grid

    A line is what its cells read as ([line_view]); every operation is
    described by what it does to that view and keeps [line_ok]. *)
From S2P Require Import Prelude.
From S2P Require Import Utf8.
From S2P Require Import Utf8Props.
From S2P Require Import CellCodec.
From S2P Require Import Grid.

Definition extended (gce : grid_cell_entry) : bool := has (gce_flags gce) GRID_FLAG_EXTENDED.

(** Extended entries have an offset of their own. *)
Record line_ok (gl : grid_line) : Prop := {
  lo_ext : forall px gce, celldata gl !! px = Some gce -> extended gce = true ->
             0 <= gce_offset gce < extdsize gl;
  lo_uniq : forall px px' gce gce', celldata gl !! px = Some gce -> celldata gl !! px' = Some gce' ->
             extended gce = true -> extended gce' = true ->
             gce_offset gce = gce_offset gce' -> px = px';
  lo_used : 0 <= cellused gl <= cellsize gl
}.

Record grid_ok (gd : grid) : Prop := {
  go_lines : Forall line_ok (linedata gd);
  go_length : Z.of_nat (length (linedata gd)) = hsize gd + g_sy gd;
  go_h : 0 <= hsize gd;
  go_sy : 0 <= g_sy gd;
  go_sx : 0 <= g_sx gd;
  go_size : hsize gd + g_sy gd < 4294967296;
  go_scrolled : 0 <= hscrolled gd <= hsize gd
}.

Lemma line_ok_zero : line_ok gl_zero.
Proof. split; cbn; intros; try done; lia. Qed.

(** Flags are a byte: facts about them are checked on all of them. *)
Lemma byte_forall (P : Z -> bool) : forallb P (seqZ 0 256) = true ->
  forall f, 0 <= f < 256 -> P f = true.
Proof.
  intros H f Hf. rewrite forallb_forall in H. apply H. apply list_elem_of_In, elem_of_seqZ. lia.
Qed.

Lemma has_bit a k : 0 <= k -> has a (2 ^ k) = Z.testbit a k.
Proof.
  intros Hk. unfold has. destruct (Z.testbit a k) eqn:E.
  - apply negb_true_iff, Z.eqb_neq. intros F.
    assert (Hb : Z.testbit (Z.land a (2 ^ k)) k = false) by (by rewrite F, Z.bits_0).
    by rewrite Z.land_spec, E, Z.pow2_bits_true in Hb.
  - apply negb_false_iff, Z.eqb_eq, Z.bits_inj'. intros i Hi. rewrite Z.land_spec, Z.bits_0.
    destruct (decide (i = k)) as [->|Hne]; [by rewrite E|].
    by rewrite Z.pow2_bits_false, andb_false_r by lia.
Qed.

Lemma has_lor_self f b : b <> 0 -> has (Z.lor f b) b = true.
Proof.
  intros Hb. unfold has. rewrite Z.land_lor_distr_l, Z.land_diag.
  destruct (Z.eqb_spec (Z.lor (Z.land f b) b) 0) as [E|]; [|done].
  by apply Z.lor_eq_0_iff in E as [_ ?].
Qed.

Section Lines.
Context `{CellCodec}.

Definition entry_view (extd : list grid_extd_entry) (gce : grid_cell_entry) : grid_cell :=
  grid_get_cell1 (GL [gce] 0 extd 0 0) 0.

(** How an extended cell and a plain entry read. *)
Definition gee_view (gee : grid_extd_entry) : grid_cell :=
  let gc := GC (unpack (gee_data gee)) (gee_attr gee) (gee_flags gee) (gee_fg gee)
               (gee_bg gee) (gee_us gee) (gee_link gee) in
  if has (gee_flags gee) GRID_FLAG_TAB then grid_set_tab gc (gee_data gee) else gc.

Definition plain_view (gce : grid_cell_entry) : grid_cell :=
  let '(attr, fg, bg, data) := gce_bytes gce in
  GC (utf8_set data) attr
     (without (gce_flags gce) (Z.lor GRID_FLAG_FG256 GRID_FLAG_BG256))
     (if has (gce_flags gce) GRID_FLAG_FG256 then Z.lor fg COLOUR_FLAG_256 else fg)
     (if has (gce_flags gce) GRID_FLAG_BG256 then Z.lor bg COLOUR_FLAG_256 else bg) 8 0.

Lemma entry_view_eq extd gce : entry_view extd gce =
  if extended gce then
    if Z.of_nat (length extd) <=? gce_offset gce then grid_default_cell
    else gee_view (nth (Z.to_nat (gce_offset gce)) extd (GEE 0 0 0 0 0 0 0))
  else plain_view gce.
Proof. reflexivity. Qed.

Definition line_view (gl : grid_line) : list grid_cell :=
  map (entry_view (extddata gl)) (celldata gl).

Lemma get_cell1_view gl px : grid_get_cell1 gl px = entry_view (extddata gl) (get_gce gl px).
Proof. reflexivity. Qed.

Lemma get_view gl px : 0 <= px < cellsize gl ->
  line_view gl !! Z.to_nat px = Some (grid_get_cell1 gl px).
Proof.
  intros Hpx. unfold line_view. rewrite list_lookup_fmap, get_cell1_view. unfold get_gce, cellsize in *.
  destruct (lookup_lt_is_Some_2 (celldata gl) (Z.to_nat px)) as [gce E]; [lia|].
  rewrite E. cbn. by rewrite (nth_lookup_Some _ _ _ _ E).
Qed.

Lemma view_length gl : length (line_view gl) = length (celldata gl).
Proof. apply length_map. Qed.

(** An entry reads the same when its extended cell is the same. *)
Lemma entry_view_ext extd extd' gce :
  (extended gce = true -> 0 <= gce_offset gce < Z.of_nat (length extd) /\
     extd' !! Z.to_nat (gce_offset gce) = extd !! Z.to_nat (gce_offset gce)) ->
  entry_view extd' gce = entry_view extd gce.
Proof.
  intros He. rewrite !entry_view_eq. destruct (extended gce); [|done].
  destruct He as [Hr Hl]; [done|].
  destruct (lookup_lt_is_Some_2 extd (Z.to_nat (gce_offset gce))) as [gee E]; [lia|].
  rewrite E in Hl. pose proof (lookup_lt_Some _ _ _ Hl).
  rewrite !(proj2 (Z.leb_gt _ _)) by lia.
  by rewrite (nth_lookup_Some _ _ _ _ E), (nth_lookup_Some _ _ _ _ Hl).
Qed.

(** The three ways an entry of a line is written: in the entry itself, in a new
    extended cell, or in the extended cell it has. *)
Inductive stored (px : Z) (gl : grid_line) : grid_line -> grid_cell -> Prop :=
  | stored_plain gce f :
      extended gce = false ->
      stored px gl (set_gl_flags f (put_gce px gce gl)) (plain_view gce)
  | stored_new gce g f : gce_offset gce = extdsize gl -> extended gce = true ->
      stored px gl (set_extddata (extddata gl ++ [g]) (set_gl_flags f (put_gce px gce gl)))
        (gee_view g)
  | stored_old gce g f : gce_offset gce = gce_offset (get_gce gl px) ->
      extended gce = true -> extended (get_gce gl px) = true ->
      stored px gl (set_extddata (<[Z.to_nat (gce_offset gce):=g]> (extddata gl))
                     (set_gl_flags f (put_gce px gce gl)))
        (gee_view g).

Lemma entry_view_at extd gce g : extended gce = true -> 0 <= gce_offset gce ->
  extd !! Z.to_nat (gce_offset gce) = Some g -> entry_view extd gce = gee_view g.
Proof.
  intros He H0 Hl. rewrite entry_view_eq, He. pose proof (lookup_lt_Some _ _ _ Hl).
  rewrite (proj2 (Z.leb_gt _ _)) by lia. by rewrite (nth_lookup_Some _ _ _ _ Hl).
Qed.

Lemma get_gce_lookup gl px : 0 <= px < cellsize gl ->
  celldata gl !! Z.to_nat px = Some (get_gce gl px).
Proof.
  intros Hpx. unfold get_gce, cellsize in *.
  destruct (lookup_lt_is_Some_2 (celldata gl) (Z.to_nat px)) as [gce E]; [lia|].
  by rewrite E, (nth_lookup_Some _ _ _ _ E).
Qed.

Lemma map_insert_ext {A B} (f g : A -> B) (l : list A) n x :
  (n < length l)%nat ->
  (forall m y, l !! m = Some y -> m <> n -> f y = g y) ->
  map f (<[n:=x]> l) = <[n:=f x]> (map g l).
Proof.
  intros Hn Hfg. apply list_eq. intros m. rewrite list_lookup_fmap.
  destruct (decide (m = n)) as [-> | Hne].
  - rewrite !list_lookup_insert_eq by (rewrite ?length_map; done). done.
  - rewrite !list_lookup_insert_ne by done. rewrite list_lookup_fmap.
    destruct (l !! m) eqn:E; cbn; [|done]. f_equal. by eapply Hfg.
Qed.

Lemma stored_ok px gl gl' gc : line_ok gl -> 0 <= px < cellsize gl -> stored px gl gl' gc ->
  line_ok gl' /\ line_view gl' = <[Z.to_nat px:=gc]> (line_view gl) /\
  cellused gl' = cellused gl /\ gl_time gl' = gl_time gl.
Proof.
  intros [Hext Huniq Hused] Hpx Hst. pose proof (get_gce_lookup gl px Hpx) as Hg.
  assert (Hn : (Z.to_nat px < length (celldata gl))%nat) by (unfold cellsize in *; lia).
  assert (Hins : forall gce m e, <[Z.to_nat px:=gce]> (celldata gl) !! m = Some e ->
    (m = Z.to_nat px /\ e = gce) \/ (m <> Z.to_nat px /\ celldata gl !! m = Some e)).
  { intros gce m e He. destruct (decide (m = Z.to_nat px)) as [-> | Hne].
    - rewrite list_lookup_insert_eq in He by done. injection He as <-. by left.
    - rewrite list_lookup_insert_ne in He by done. by right. }
  destruct Hst as [gce f He|gce g f Ho He|gce g f Ho He Hold]; cbn.
  - split_and!; [split; cbn| |done|done].
    + intros m e Hm Hx. destruct (Hins _ _ _ Hm) as [[-> ->]|[_ Hm']]; [congruence|]. eauto.
    + intros m m' e e' Hm Hm' Hx Hx' Heq.
      destruct (Hins _ _ _ Hm) as [[-> ->]|[_ H1]]; [congruence|].
      destruct (Hins _ _ _ Hm') as [[-> ->]|[_ H2]]; [congruence|]. eauto.
    + unfold cellsize in *; cbn. rewrite length_insert. done.
    + unfold line_view; cbn. rewrite (map_insert_ext _ (entry_view (extddata gl))); [|done|done].
      by rewrite entry_view_eq, He.
  - assert (Hlook : (extddata gl ++ [g]) !! Z.to_nat (gce_offset gce) = Some g).
    { rewrite Ho. unfold extdsize. rewrite Nat2Z.id. by apply list_lookup_middle. }
    split_and!; [split; cbn| |done|done].
    + unfold extdsize in *; cbn. rewrite length_app; cbn. intros m e Hm Hx.
      destruct (Hins _ _ _ Hm) as [[-> ->]|[_ Hm']]; [lia|].
      specialize (Hext _ _ Hm' Hx). lia.
    + intros m m' e e' Hm Hm' Hx Hx' Heq.
      destruct (Hins _ _ _ Hm) as [[-> ->]|[_ H1]], (Hins _ _ _ Hm') as [[-> ->]|[_ H2]]; [done| | |].
      * specialize (Hext _ _ H2 Hx'). lia.
      * specialize (Hext _ _ H1 Hx). lia.
      * eauto.
    + unfold cellsize in *; cbn. rewrite length_insert. done.
    + unfold line_view; cbn. rewrite (map_insert_ext _ (entry_view (extddata gl))); [|done|].
      * f_equal. apply entry_view_at; [done| |done]. rewrite Ho. unfold extdsize; lia.
      * intros m e Hm _. apply entry_view_ext. intros Hx. specialize (Hext _ _ Hm Hx).
        unfold extdsize in *. split; [lia|]. rewrite lookup_app_l by lia. done.
  - pose proof (Hext _ _ Hg Hold) as Hr. rewrite <- Ho in Hr. unfold extdsize in Hr.
    split_and!; [split; cbn| |done|done].
    + unfold extdsize in *; cbn. rewrite length_insert. intros m e Hm Hx.
      destruct (Hins _ _ _ Hm) as [[-> ->]|[_ Hm']]; [lia|]. eauto.
    + intros m m' e e' Hm Hm' Hx Hx' Heq.
      destruct (Hins _ _ _ Hm) as [[-> ->]|[Hne H1]], (Hins _ _ _ Hm') as [[-> ->]|[Hne' H2]]; [done| | |].
      * exfalso. apply Hne'. symmetry. eapply (Huniq _ _ _ _ Hg H2 Hold Hx'). congruence.
      * exfalso. apply Hne. eapply (Huniq _ _ _ _ H1 Hg Hx Hold). congruence.
      * eauto.
    + unfold cellsize in *; cbn. rewrite length_insert. done.
    + unfold line_view; cbn. rewrite (map_insert_ext _ (entry_view (extddata gl))); [|done|].
      * f_equal. apply entry_view_at; [done|lia|]. apply list_lookup_insert_eq. lia.
      * intros m e Hm Hne. apply entry_view_ext. intros Hx. pose proof (Hext _ _ Hm Hx).
        unfold extdsize in *. split; [lia|]. rewrite list_lookup_insert_ne; [done|].
        intros Heq. apply Hne. symmetry. eapply (Huniq _ _ _ _ Hg Hm Hold Hx). lia.
Qed.

(** ** Storing cells *)

Definition colour_ok (c : Z) : Prop :=
  has c COLOUR_FLAG_RGB = true \/ 0 <= c < 256 \/ exists b, 0 <= b < 256 /\ c = COLOUR_FLAG_256 + b.

(** A cell as the rest of the program makes them: no flag that only means
    something in an entry, and a character that can be packed, a single byte,
    or a tab (whose data is spaces). *)
Record cell_ok (gc : grid_cell) : Prop := {
  ck_attr : 0 <= gc_attr gc;
  ck_flags : 0 <= gc_flags gc < 256;
  ck_bits : Z.land (gc_flags gc) 0x4b = 0;
  ck_fg : colour_ok (gc_fg gc);
  ck_bg : colour_ok (gc_bg gc);
  ck_data :
    if has (gc_flags gc) GRID_FLAG_TAB then
      has (gc_flags gc) GRID_FLAG_PADDING = false /\
      exists w, 0 <= w <= 32 /\ gc_data gc = UD (pad_data (replicate (Z.to_nat w) 32)) w w w
    else
      packable (gc_data gc) /\ ud_have (gc_data gc) = ud_size (gc_data gc) /\
      (1 < ud_size (gc_data gc) \/ 1 < ud_width (gc_data gc) \/
       exists ch, 0 <= ch < 256 /\ gc_data gc = utf8_set ch)
}.

(** The facts about flags, checked on every byte. *)
Lemma flags_clean f : 0 <= f < 256 -> Z.land f 0x4b = 0 ->
  without f GRID_FLAG_CLEARED = f /\ has f GRID_FLAG_EXTENDED = false /\
  without f (Z.lor GRID_FLAG_FG256 GRID_FLAG_BG256) = f.
Proof.
  intros Hf Hb. pose proof (byte_forall (fun f => negb (Z.land f 0x4b =? 0) ||
    ((without f GRID_FLAG_CLEARED =? f) && negb (has f GRID_FLAG_EXTENDED) &&
     (without f (Z.lor GRID_FLAG_FG256 GRID_FLAG_BG256) =? f))) ltac:(vm_compute; reflexivity) f Hf) as H1.
  cbn beta in H1. rewrite Hb in H1. cbn [Z.eqb negb orb] in H1.
  apply andb_prop in H1 as [H1 H3]. apply andb_prop in H1 as [H1 H2].
  apply Z.eqb_eq in H1, H3. by destruct (has f GRID_FLAG_EXTENDED).
Qed.

Definition stored_flags (f : Z) (fg256 bg256 : bool) : Z :=
  let f := if fg256 then Z.lor f GRID_FLAG_FG256 else f in
  if bg256 then Z.lor f GRID_FLAG_BG256 else f.

Lemma stored_flags_ok f a b : 0 <= f < 256 -> Z.land f 0x4b = 0 ->
  without (stored_flags f a b) (Z.lor GRID_FLAG_FG256 GRID_FLAG_BG256) = f /\
  has (stored_flags f a b) GRID_FLAG_FG256 = a /\ has (stored_flags f a b) GRID_FLAG_BG256 = b /\
  has (stored_flags f a b) GRID_FLAG_EXTENDED = false.
Proof.
  intros Hf Hb. pose proof (byte_forall (fun f => negb (Z.land f 0x4b =? 0) ||
    forallb (fun '(a, b) =>
    (without (stored_flags f a b) (Z.lor GRID_FLAG_FG256 GRID_FLAG_BG256) =? f) &&
    eqb (has (stored_flags f a b) GRID_FLAG_FG256) a &&
    eqb (has (stored_flags f a b) GRID_FLAG_BG256) b &&
    eqb (has (stored_flags f a b) GRID_FLAG_EXTENDED) false)
    [(true, true); (true, false); (false, true); (false, false)])
    ltac:(vm_compute; reflexivity) f Hf) as H1.
  cbn beta in H1. rewrite Hb in H1. change (negb (0 =? 0)) with false in H1.
  cbn [orb] in H1. rewrite forallb_forall in H1.
  specialize (H1 (a, b) ltac:(destruct a, b; cbn; tauto)). cbn beta iota in H1.
  apply andb_prop in H1 as [H1 H5]. apply andb_prop in H1 as [H1 H4].
  apply andb_prop in H1 as [H1 H3]. apply Z.eqb_eq in H1. by apply eqb_prop in H3, H4, H5.
Qed.

Lemma colour_stored c : colour_ok c -> has c COLOUR_FLAG_RGB = false ->
  (if has c COLOUR_FLAG_256 then Z.lor (Z.land c 0xff) COLOUR_FLAG_256 else Z.land c 0xff) = c.
Proof.
  intros [Hr|[Hc|(b & Hb & ->)]] Hn; [congruence| |].
  - change 0xff with (2 ^ 8 - 1). rewrite land_mask by lia. change (2 ^ 8) with 256.
    rewrite Z.mod_small by lia. unfold has, COLOUR_FLAG_256. rewrite Z.land_comm.
    change 0x1000000 with (1 * 2 ^ 24). rewrite land_shifted by lia. done.
  - change 0xff with (2 ^ 8 - 1). rewrite land_mask by lia. change (2 ^ 8) with 256.
    assert (Em : (COLOUR_FLAG_256 + b) mod 256 = b)
      by (unfold COLOUR_FLAG_256; Z.div_mod_to_equations; lia).
    assert (El : COLOUR_FLAG_256 + b = Z.lor (1 * 2 ^ 24) b)
      by (rewrite lor_shifted by lia; unfold COLOUR_FLAG_256; lia).
    rewrite Em. unfold has. rewrite El. change COLOUR_FLAG_256 with (1 * 2 ^ 24).
    rewrite Z.land_lor_distr_l, Z.land_diag, (Z.land_comm b), land_shifted by lia.
    change (Z.lor (1 * 2 ^ 24) 0 =? 0) with false. cbn [negb]. apply Z.lor_comm.
Qed.

Lemma need_plain gce gc : cell_ok gc -> grid_need_extended_cell gce gc = false ->
  plain_view (grid_store_cell gc (nth 0 (ud_data (gc_data gc)) 0)) = gc /\
  extended (grid_store_cell gc (nth 0 (ud_data (gc_data gc)) 0)) = false.
Proof.
  intros [Ha Hf Hb Hfg Hbg Hd] Hn. unfold grid_need_extended_cell in Hn.
  apply orb_false_elim in Hn as [Hn Ht]. apply orb_false_elim in Hn as [Hn Hl].
  apply orb_false_elim in Hn as [Hn Hu]. apply orb_false_elim in Hn as [Hn Hrb].
  apply orb_false_elim in Hn as [Hn Hrf]. apply orb_false_elim in Hn as [Hn Hw].
  apply orb_false_elim in Hn as [Hn Hs]. apply orb_false_elim in Hn as [_ Hat].
  apply negb_false_iff, Z.eqb_eq in Hl, Hu. apply Z.ltb_ge in Hw, Hs, Hat.
  destruct (flags_clean _ Hf Hb) as (E1 & _ & _).
  assert (Ed : gc_data gc = utf8_set (nth 0 (ud_data (gc_data gc)) 0)).
  { rewrite Ht in Hd. destruct Hd as (_ & _ & [?|[?|(ch & Hch & E)]]); [lia|lia|].
    rewrite E. done. }
  unfold grid_store_cell, plain_view, extended. cbn [gce_flags gce_bytes gce_union_of]. rewrite E1.
  change (if has (gc_bg gc) COLOUR_FLAG_256
    then Z.lor (if has (gc_fg gc) COLOUR_FLAG_256 then Z.lor (gc_flags gc) GRID_FLAG_FG256
                else gc_flags gc) GRID_FLAG_BG256
    else if has (gc_fg gc) COLOUR_FLAG_256 then Z.lor (gc_flags gc) GRID_FLAG_FG256
         else gc_flags gc)
    with (stored_flags (gc_flags gc) (has (gc_fg gc) COLOUR_FLAG_256) (has (gc_bg gc) COLOUR_FLAG_256)).
  destruct (stored_flags_ok (gc_flags gc) (has (gc_fg gc) COLOUR_FLAG_256)
    (has (gc_bg gc) COLOUR_FLAG_256) Hf Hb) as (-> & -> & -> & ->).
  rewrite !colour_stored by done. rewrite u8_small by lia.
  destruct gc; cbn in *. rewrite <- Ed. by subst.
Qed.

(** A cell in an extended cell reads as itself. *)
Lemma gee_view_ok gc : cell_ok gc ->
  gee_view (GEE (if has (gc_flags gc) GRID_FLAG_TAB then ud_width (gc_data gc)
                 else pack (gc_data gc)) (gc_attr gc) (without (gc_flags gc) GRID_FLAG_CLEARED)
                (gc_fg gc) (gc_bg gc) (gc_us gc) (gc_link gc)) = gc.
Proof.
  intros [Ha Hf Hb Hfg Hbg Hd]. destruct (flags_clean _ Hf Hb) as (E1 & _ & _). rewrite E1.
  unfold gee_view. cbn [gee_data gee_attr gee_flags gee_fg gee_bg gee_us gee_link].
  destruct (has (gc_flags gc) GRID_FLAG_TAB) eqn:Et.
  - destruct Hd as (Hp & w & Hw & Ed). unfold grid_set_tab. cbn. rewrite Ed. cbn.
    rewrite u8_small by lia.
    assert (Ef : without (Z.lor (gc_flags gc) GRID_FLAG_TAB) GRID_FLAG_PADDING = gc_flags gc).
    { pose proof (byte_forall (fun f => negb (has f GRID_FLAG_TAB) || has f GRID_FLAG_PADDING ||
        (without (Z.lor f GRID_FLAG_TAB) GRID_FLAG_PADDING =? f))
        ltac:(vm_compute; reflexivity) _ Hf) as H1. cbn beta in H1. rewrite Et, Hp in H1.
      by apply Z.eqb_eq. }
    rewrite Ef. destruct gc; cbn in *. by subst.
  - destruct Hd as (Hp & Hh & _). rewrite unpack_pack by done.
    destruct gc as [[]]; cbn in *. unfold ud_whole; cbn. by subst.
Qed.

Lemma insert_snoc {A} (l : list A) x y : <[length l:=x]> (l ++ [y]) = l ++ [x].
Proof. by rewrite insert_app_r_alt, Nat.sub_diag by done. Qed.

Lemma extd_nat gl : Z.to_nat (extdsize gl) = length (extddata gl).
Proof. unfold extdsize. lia. Qed.

Definition gee_of (gc : grid_cell) : grid_extd_entry :=
  GEE (if has (gc_flags gc) GRID_FLAG_TAB then ud_width (gc_data gc) else pack (gc_data gc))
      (gc_attr gc) (without (gc_flags gc) GRID_FLAG_CLEARED) (gc_fg gc) (gc_bg gc) (gc_us gc)
      (gc_link gc).

Lemma extended_cell_stored gl px gc : line_ok gl -> 0 <= px < cellsize gl ->
  exists gl' gce', grid_extended_cell gl (get_gce gl px) gc = Some (gl', gce') /\
    stored px gl (put_gce px gce' gl') (gee_view (gee_of gc)).
Proof.
  intros Hok Hpx. unfold grid_extended_cell. fold (extended (get_gce gl px)).
  destruct (extended (get_gce gl px)) eqn:E; cbn [negb].
  - pose proof (lo_ext _ Hok _ _ (get_gce_lookup gl px Hpx) E).
    rewrite (proj2 (Z.leb_gt _ _)) by lia. do 2 eexists. split; [done|].
    exact (stored_old px gl (get_gce gl px) (gee_of gc) _ eq_refl E E).
  - cbn [grid_get_extended_cell gce_offset gce_union_of extddata set_extddata].
    do 2 eexists. split; [done|].
    change (gce_offset (GCE (Offset (extdsize gl)) (Z.lor (without (gc_flags gc) GRID_FLAG_CLEARED)
      GRID_FLAG_EXTENDED))) with (extdsize gl).
    rewrite extd_nat, insert_snoc.
    apply (stored_new px gl (GCE (Offset (extdsize gl)) _) (gee_of gc)); [done|].
    by apply has_lor_self.
Qed.

Lemma store_cell_stored gl px gc : line_ok gl -> 0 <= px < cellsize gl -> cell_ok gc ->
  stored px gl (store_cell px gc (nth 0 (ud_data (gc_data gc)) 0) gl) gc.
Proof.
  intros Hok Hpx Hgc. unfold store_cell.
  destruct (grid_need_extended_cell (get_gce gl px) gc) eqn:En.
  - destruct (extended_cell_stored gl px gc Hok Hpx) as (gl' & gce' & -> & Hst).
    unfold gee_of in Hst. by rewrite gee_view_ok in Hst.
  - destruct (need_plain _ _ Hgc En) as [Ev Ee]. rewrite <- Ev at 3.
    replace gl with (set_gl_flags (gl_flags gl) gl) at 2 by (by destruct gl).
    by apply (stored_plain px gl _ (gl_flags gl)).
Qed.

(** A cleared cell: a space on the background; it has the flag for a cleared
    cell unless it had to be an extended cell. *)
Definition blank (bg flags : Z) : grid_cell := GC (utf8_set 32) 0 flags 8 bg 8 0.

Lemma gee_view_blank bg : gee_view (GEE (pack space_data) 0 0 8 bg 8 0) = blank bg 0.
Proof.
  unfold gee_view. cbn [gee_data gee_attr gee_flags gee_fg gee_bg gee_us gee_link].
  change (has 0 GRID_FLAG_TAB) with false. cbn iota.
  unfold space_data. rewrite unpack_pack; [done|]. apply packable_one. lia.
Qed.

Lemma alter_insert_same {A} (f : A -> A) (l : list A) n x : (n < length l)%nat ->
  alter f n (<[n:=x]> l) = <[n:=f x]> l.
Proof.
  intros Hn. apply list_eq. intros m. destruct (decide (m = n)) as [-> | Hne].
  - rewrite list_lookup_alter_eq, !list_lookup_insert_eq by done. done.
  - rewrite list_lookup_alter_ne, !list_lookup_insert_ne by done. done.
Qed.

Lemma clear_cell_stored gl px bg moved : line_ok gl -> 0 <= px < cellsize gl ->
  colour_ok bg -> exists flags, (flags = 0 \/ flags = GRID_FLAG_CLEARED) /\
  stored px gl (grid_clear_cell px bg moved gl) (blank bg flags).
Proof.
  intros Hok Hpx Hbg. unfold grid_clear_cell. fold (extended (get_gce gl px)).
  destruct (negb moved && extended (get_gce gl px) && (gce_offset (get_gce gl px) <? extdsize gl)) eqn:E.
  - apply andb_prop in E as [E Hlt]. apply andb_prop in E as [_ E]. apply Z.ltb_lt in Hlt.
    pose proof (lo_ext _ Hok _ _ (get_gce_lookup gl px Hpx) E).
    exists 0. split; [by left|]. rewrite <- gee_view_blank.
    unfold grid_extended_cell. cbn [grid_cleared_entry gce_flags].
    change (has (Z.lor GRID_FLAG_CLEARED GRID_FLAG_EXTENDED) GRID_FLAG_EXTENDED) with true.
    cbn [negb gce_offset gce_union_of]. rewrite (proj2 (Z.leb_gt _ _)) by done.
    change (GEE (if has (gc_flags grid_cleared_cell) GRID_FLAG_TAB
        then ud_width (gc_data grid_cleared_cell) else pack (gc_data grid_cleared_cell))
      (gc_attr grid_cleared_cell) (without (gc_flags grid_cleared_cell) GRID_FLAG_CLEARED)
      (gc_fg grid_cleared_cell) (gc_bg grid_cleared_cell) (gc_us grid_cleared_cell)
      (gc_link grid_cleared_cell)) with (GEE (pack space_data) 0 0 8 8 8 0).
    destruct (Z.eqb_spec bg 8) as [-> | Hne]; cbn [negb].
    + exact (stored_old px gl (GCE (Offset (gce_offset (get_gce gl px)))
        (Z.lor GRID_FLAG_CLEARED GRID_FLAG_EXTENDED)) _ _ eq_refl eq_refl E).
    + unfold set_extd_bg. cbn [extddata put_gce set_celldata set_extddata gce_offset gce_union_of].
      rewrite alter_insert_same by (unfold extdsize in *; lia).
      exact (stored_old px gl (GCE (Offset (gce_offset (get_gce gl px)))
        (Z.lor GRID_FLAG_CLEARED GRID_FLAG_EXTENDED)) _ _ eq_refl eq_refl E).
  - clear E. destruct (Z.eqb_spec bg 8) as [-> | Hne]; cbn [negb].
    { exists GRID_FLAG_CLEARED. split; [by right|].
      replace gl with (set_gl_flags (gl_flags gl) gl) at 2 by (by destruct gl).
      by apply (stored_plain px gl grid_cleared_entry (gl_flags gl)). }
    destruct (has bg COLOUR_FLAG_RGB) eqn:Er.
    + exists 0. split; [by left|]. rewrite <- gee_view_blank.
      unfold grid_extended_cell.
      cbn [grid_get_extended_cell grid_cleared_entry gce_flags gce_offset gce_union_of extddata
           set_extddata].
      change (has (Z.lor GRID_FLAG_CLEARED GRID_FLAG_EXTENDED) GRID_FLAG_EXTENDED) with true.
      cbn [negb]. unfold extdsize at 1. cbn [extddata set_extddata].
      change (gce_offset (GCE (Offset (extdsize gl)) (Z.lor GRID_FLAG_CLEARED GRID_FLAG_EXTENDED)))
        with (extdsize gl).
      rewrite length_app. rewrite (proj2 (Z.leb_gt _ _)) by (unfold extdsize; cbn; lia).
      unfold set_extd_bg. cbn [extddata put_gce set_celldata set_extddata].
      change (gce_offset (GCE (Offset (extdsize gl)) (Z.lor GRID_FLAG_CLEARED GRID_FLAG_EXTENDED)))
        with (extdsize gl).
      rewrite extd_nat.
      rewrite alter_insert_same by (rewrite length_app; cbn; lia). rewrite insert_snoc.
      apply (stored_new px gl (GCE (Offset (extdsize gl)) _) (GEE (pack space_data) 0 0 8 bg 8 0));
        done.
    + exists GRID_FLAG_CLEARED. split; [by right|].
      replace gl with (set_gl_flags (gl_flags gl) gl) at 2 by (by destruct gl).
      set (gce := GCE (Data 0 8 (u8 bg) 32) _).
      assert (Ev : plain_view gce = blank bg GRID_FLAG_CLEARED /\ extended gce = false).
      { pose proof (colour_stored bg Hbg Er) as Hc. unfold plain_view, extended, gce.
        cbn [gce_flags gce_bytes gce_union_of grid_cleared_entry].
        replace (u8 bg) with (Z.land bg 0xff)
          by (change 0xff with (2 ^ 8 - 1); rewrite land_mask by lia; done).
        unfold blank. destruct (has bg COLOUR_FLAG_256); cbn; by rewrite Hc. }
      destruct Ev as [<- Ee]. by apply (stored_plain px gl gce (gl_flags gl)).
Qed.

(** ** Runs of cells *)

Definition is_blank (bg : Z) (gc : grid_cell) : Prop :=
  gc = blank bg 0 \/ gc = blank bg GRID_FLAG_CLEARED.

Lemma take_insert_S {A} (l : list A) n x : (n < length l)%nat ->
  take (S n) (<[n:=x]> l) = take n l ++ [x].
Proof.
  intros Hn. rewrite (take_S_r _ n x) by (by apply list_lookup_insert_eq).
  by rewrite take_insert_ge by lia.
Qed.

Lemma clear_cells_ok bg n : colour_ok bg -> forall px gl, line_ok gl -> 0 <= px ->
  px + Z.of_nat n <= cellsize gl ->
  exists t, Forall (is_blank bg) t /\ length t = n /\
    line_ok (clear_cells px (Z.of_nat n) bg gl) /\
    line_view (clear_cells px (Z.of_nat n) bg gl) =
      take (Z.to_nat px) (line_view gl) ++ t ++ drop (Z.to_nat px + n) (line_view gl) /\
    cellused (clear_cells px (Z.of_nat n) bg gl) = cellused gl /\
    gl_time (clear_cells px (Z.of_nat n) bg gl) = gl_time gl.
Proof.
  intros Hbg. induction n as [|n IH]; intros px gl Hok Hpx Hle.
  { exists []. unfold clear_cells. cbn. split_and!; try done.
    by rewrite Nat.add_0_r, take_drop. }
  unfold clear_cells. rewrite seqZ_cons by lia. cbn [foldl].
  destruct (clear_cell_stored gl px bg false Hok) as (fl & Hfl & Hst); [lia|done|].
  destruct (stored_ok px gl _ _ Hok ltac:(lia) Hst) as (Hok1 & Hv1 & Hu1 & Ht1).
  assert (Hlen : length (line_view gl) = length (celldata gl)) by apply view_length.
  assert (Hc1 : cellsize (grid_clear_cell px bg false gl) = cellsize gl).
  { unfold cellsize. by rewrite <- !view_length, Hv1, length_insert. }
  destruct (IH (px + 1) _ Hok1) as (t & Hb & Ht & Hok2 & Hv2 & Hu2 & Ht2); [lia|lia|].
  fold (clear_cells (Z.succ px) (Z.pred (Z.of_nat (S n))) bg (grid_clear_cell px bg false gl)).
  replace (Z.succ px) with (px + 1) by lia.
  replace (Z.pred (Z.of_nat (S n))) with (Z.of_nat n) by lia.
  exists (blank bg fl :: t). split_and!; [|cbn; lia|done| |congruence|congruence].
  - constructor; [|done]. destruct Hfl as [-> | ->]; [by left|by right].
  - rewrite Hv2, Hv1. replace (Z.to_nat (px + 1)) with (S (Z.to_nat px)) by lia.
    unfold cellsize in *. rewrite take_insert_S by lia. rewrite drop_insert_lt by lia.
    rewrite <- !app_assoc. cbn [app]. 
    by replace (S (Z.to_nat px) + n)%nat with (Z.to_nat px + S n)%nat by lia.
Qed.

Lemma expand_size_ge w sx : sx <= expand_size w sx.
Proof. unfold expand_size. zcases; lia. Qed.

Lemma expand_line_ok w sx bg gl : line_ok gl -> colour_ok bg ->
  let gl' := expand_line w sx bg gl in
  line_ok gl' /\ sx <= cellsize gl' /\ cellused gl' = cellused gl /\ gl_time gl' = gl_time gl /\
  exists t, Forall (is_blank bg) t /\ line_view gl' = line_view gl ++ t /\
    (cellsize gl < sx -> cellsize gl' = expand_size w sx) /\
    (sx <= cellsize gl -> gl' = gl).
Proof.
  intros Hok Hbg gl'. subst gl'. unfold expand_line.
  destruct (Z.leb_spec sx (cellsize gl)) as [Hle|Hlt].
  { split_and!; try done. exists []. rewrite app_nil_r. split_and!; try done; lia. }
  pose proof (expand_size_ge w sx) as Hge. set (sx' := expand_size w sx) in *.
  set (k := Z.to_nat (sx' - cellsize gl)).
  set (gl0 := set_celldata (celldata gl ++ replicate k gce_zero) gl).
  assert (Hcs : cellsize gl0 = sx').
  { unfold gl0, cellsize. cbn. rewrite length_app, length_replicate. unfold k, cellsize in *. lia. }
  assert (Hl0 : forall px e, celldata gl0 !! px = Some e -> extended e = true -> celldata gl !! px = Some e).
  { intros px e Hpx He. unfold gl0 in Hpx; cbn in Hpx.
    apply lookup_app_Some in Hpx as [|[_ Hx]]; [done|].
    apply lookup_replicate in Hx as [-> _]. discriminate He. }
  assert (Hok0 : line_ok gl0).
  { destruct Hok as [Hext Huniq Hused]. split.
    - intros px e Hpx He. apply (Hext px e); [by apply Hl0|done].
    - intros px px' e e' H1 H2 He He'. apply (Huniq px px' e e'); auto.
    - rewrite Hcs. cbn. lia. }
  destruct (clear_cells_ok bg k Hbg (cellsize gl) gl0 Hok0) as (t & Hb & Ht & Hok1 & Hv & Hu & Htm).
  { unfold cellsize; lia. }
  { rewrite Hcs. unfold k. lia. }
  replace (sx' - cellsize gl) with (Z.of_nat k) by (unfold k; lia).
  assert (Hv' : line_view (clear_cells (cellsize gl) (Z.of_nat k) bg gl0) = line_view gl ++ t).
  { rewrite Hv. unfold line_view, gl0. cbn [celldata extddata set_celldata]. rewrite map_app.
    rewrite take_app_le by (rewrite length_map; unfold cellsize; lia).
    rewrite firstn_all2 by (rewrite length_map; unfold cellsize; lia).
    rewrite (drop_ge (_ ++ _)); [by rewrite app_nil_r|].
    rewrite length_app, !length_map, length_replicate. unfold cellsize. lia. }
  split_and!; [done| |done|done|].
  - unfold cellsize at 1. rewrite <- view_length, Hv', length_app, view_length, Ht.
    unfold k, cellsize in *. lia.
  - exists t. split_and!; [done|done| |lia]. intros _.
    unfold cellsize at 1. rewrite <- view_length, Hv', length_app, view_length, Ht.
    unfold k, cellsize in *. lia.
Qed.

(** More of a line that is long enough is used. *)
Lemma use_more n gl : line_ok gl -> n <= cellsize gl ->
  let gl' := if cellused gl <? n then set_cellused n gl else gl in
  line_ok gl' /\ line_view gl' = line_view gl /\ cellsize gl' = cellsize gl /\
  cellused gl' = Z.max (cellused gl) n /\ gl_time gl' = gl_time gl.
Proof.
  intros [H1 H2 H3] Hn. cbv zeta. destruct (Z.ltb_spec (cellused gl) n).
  - split_and!; try done; cbn; [|lia]. split; cbn; auto.
    change (cellsize (set_cellused n gl)) with (cellsize gl). lia.
  - split_and!; try done. lia.
Qed.

(** A cell that reads as [v] once it is stored. *)
Definition storable (gc v : grid_cell) : Prop := forall gl px, line_ok gl -> 0 <= px < cellsize gl ->
  stored px gl (store_cell px gc (nth 0 (ud_data (gc_data gc)) 0) gl) v.

Lemma cell_storable gc : cell_ok gc -> storable gc gc.
Proof. intros Hgc gl px Hok Hpx. by apply store_cell_stored. Qed.

Lemma default_storable : storable grid_default_cell (blank 8 0).
Proof.
  intros gl px Hok Hpx. unfold store_cell.
  destruct (grid_need_extended_cell (get_gce gl px) grid_default_cell) eqn:En.
  - destruct (extended_cell_stored gl px grid_default_cell Hok Hpx) as (gl' & gce' & -> & Hst).
    by rewrite <- gee_view_blank.
  - pose proof (stored_plain px gl (grid_store_cell grid_default_cell 32) (gl_flags gl) eq_refl) as Hp.
    by destruct gl.
Qed.

Lemma set_cell_line_ok w px gc v gl : line_ok gl -> 0 <= px -> storable gc v ->
  let gl' := set_cell_line w px gc gl in
  line_ok gl' /\ cellused gl' = Z.max (cellused gl) (px + 1) /\ gl_time gl' = gl_time gl /\
  exists t, Forall (is_blank 8) t /\ px < Z.of_nat (length (line_view gl ++ t)) /\
    line_view gl' = <[Z.to_nat px:=v]> (line_view gl ++ t).
Proof.
  intros Hok Hpx Hgc gl'. subst gl'. unfold set_cell_line.
  destruct (expand_line_ok w (px + 1) 8 gl Hok ltac:(right; left; lia))
    as (Hok1 & Hsz & Hu & Ht & t & Hb & Hv & _).
  set (gl1 := expand_line w (px + 1) 8 gl) in *.
  destruct (use_more (px + 1) gl1 Hok1 Hsz) as (Hok2 & Hv2 & Hs2 & Hu2 & Ht2).
  set (gl2 := if cellused gl1 <? px + 1 then _ else _) in *.
  destruct (stored_ok px gl2 _ v Hok2 ltac:(lia) (Hgc gl2 px Hok2 ltac:(lia)))
    as (Hok3 & Hv3 & Hu3 & Ht3).
  split_and!; [done|congruence|congruence|]. exists t. split_and!; [done| |by rewrite Hv3, Hv2, Hv].
  rewrite <- Hv, view_length. unfold cellsize in Hsz. lia.
Qed.

(** ** Compaction *)

Lemma compact_cells_ok extd : forall l idx, 0 <= idx ->
  (forall px e, l !! px = Some e -> extended e = true ->
     0 <= gce_offset e < Z.of_nat (length extd)) ->
  let '(l', es) := compact_cells extd idx l in
  length l' = length l /\
  Z.of_nat (length es) = Z.of_nat (length (filter (fun e => extended e = true) l)) /\
  (forall px e', l' !! px = Some e' -> extended e' = true ->
     idx <= gce_offset e' < idx + Z.of_nat (length es)) /\
  (forall px px' e e', l' !! px = Some e -> l' !! px' = Some e' ->
     extended e = true -> extended e' = true -> gce_offset e = gce_offset e' -> px = px') /\
  (forall pre, Z.of_nat (length pre) = idx ->
     map (entry_view (pre ++ es)) l' = map (entry_view extd) l).
Proof.
  induction l as [|e l IH]; intros idx Hidx Hext; cbn [compact_cells].
  { split_and!; try done. }
  assert (Hext' : forall px e, l !! px = Some e -> extended e = true ->
     0 <= gce_offset e < Z.of_nat (length extd)) by (intros px e'; apply (Hext (S px))).
  fold (extended e). destruct (extended e) eqn:Ee.
  - specialize (IH (idx + 1) ltac:(lia) Hext').
    destruct (compact_cells extd (idx + 1) l) as [l' es]. destruct IH as (H1 & H2 & H3 & H4 & H5).
    assert (Ex : extended (GCE (Offset idx) (gce_flags e)) = true) by exact Ee.
    split_and!; [cbn; lia| | | |].
    + rewrite filter_cons_True by done. cbn [length]. lia.
    + intros [|px] e' Hpx He'; cbn [length] in *; cbn in Hpx.
      * injection Hpx as <-. cbn. lia.
      * specialize (H3 _ _ Hpx He'). lia.
    + intros [|px] [|px'] a b Ha Hb Hxa Hxb Hoff; cbn in Ha, Hb; [done| | |].
      * injection Ha as <-. specialize (H3 _ _ Hb Hxb). cbn in Hoff. lia.
      * injection Hb as <-. specialize (H3 _ _ Ha Hxa). cbn in Hoff. lia.
      * f_equal. eauto.
    + intros pre Hpre. pose proof (Hext 0%nat e eq_refl Ee) as Hr.
      destruct (lookup_lt_is_Some_2 extd (Z.to_nat (gce_offset e))) as [g Eg]; [lia|].
      rewrite (nth_lookup_Some _ _ _ _ Eg). cbn [map]. f_equal.
      * rewrite (entry_view_at extd e g) by (done || lia).
        apply entry_view_at; [done|cbn; lia|]. cbn.
        replace (Z.to_nat idx) with (length pre) by lia. by apply list_lookup_middle.
      * specialize (H5 (pre ++ [g])). rewrite <- app_assoc in H5. apply H5.
        rewrite length_app; cbn; lia.
  - specialize (IH idx Hidx Hext').
    destruct (compact_cells extd idx l) as [l' es]. destruct IH as (H1 & H2 & H3 & H4 & H5).
    split_and!; [cbn; lia| | | |].
    + rewrite filter_cons_False by congruence. done.
    + intros [|px] e' Hpx He'; cbn in Hpx; [congruence|]. eauto.
    + intros [|px] [|px'] a b Ha Hb Hxa Hxb Hoff; cbn in Ha, Hb; try congruence.
      f_equal. eauto.
    + intros pre Hpre. cbn [map]. f_equal; [|by apply H5]. by rewrite !entry_view_eq, Ee.
Qed.

Lemma compact_line_ok gl : line_ok gl ->
  line_ok (grid_compact_line gl) /\ line_view (grid_compact_line gl) = line_view gl /\
  cellused (grid_compact_line gl) = cellused gl /\ gl_flags (grid_compact_line gl) = gl_flags gl /\
  gl_time (grid_compact_line gl) = gl_time gl /\
  extdsize (grid_compact_line gl) = Z.of_nat (length (filter (fun e => extended e = true) (celldata gl))).
Proof.
  intros Hok. unfold grid_compact_line. destruct (Z.eqb_spec (extdsize gl) 0) as [E0|E0].
  - split_and!; try done. assert (Hnil : filter (fun e => extended e = true) (celldata gl) = []).
    { destruct (filter _ (celldata gl)) as [|e l] eqn:Ef; [done|]. exfalso.
      assert (Hin : e ∈ filter (fun e => extended e = true) (celldata gl)) by (rewrite Ef; left).
      apply list_elem_of_filter in Hin as [Hx Hin]. apply list_elem_of_lookup in Hin as [px Hpx].
      pose proof (lo_ext _ Hok _ _ Hpx Hx). lia. }
    by rewrite Hnil.
  - pose proof (compact_cells_ok (extddata gl) (celldata gl) 0 ltac:(lia) (lo_ext _ Hok)) as Hc.
    destruct (compact_cells (extddata gl) 0 (celldata gl)) as [l' es].
    destruct Hc as (H1 & H2 & H3 & H4 & H5). split_and!; try done; [split; cbn|].
    + intros px e Hpx He. specialize (H3 _ _ Hpx He). unfold extdsize; cbn. lia.
    + exact H4.
    + unfold cellsize; cbn. rewrite H1. apply (lo_used _ Hok).
    + exact (H5 [] eq_refl).
Qed.

End Lines.

(** ** A decision procedure for concrete grids *)

Definition line_okb (gl : grid_line) : bool :=
  forallb (fun gce => negb (extended gce) ||
    ((0 <=? gce_offset gce) && (gce_offset gce <? extdsize gl))) (celldata gl) &&
  forallb (fun i => forallb (fun j =>
    match celldata gl !! i, celldata gl !! j with
    | Some a, Some b => negb (extended a) || negb (extended b) ||
                        negb (gce_offset a =? gce_offset b) || Nat.eqb i j
    | _, _ => true
    end) (seq 0 (length (celldata gl)))) (seq 0 (length (celldata gl))) &&
  (0 <=? cellused gl) && (cellused gl <=? cellsize gl).

Lemma line_okb_sound gl : line_okb gl = true -> line_ok gl.
Proof.
  unfold line_okb. intros Hb. apply andb_prop in Hb as [Hb H2]. apply andb_prop in Hb as [Hb H1].
  apply andb_prop in Hb as [He Hu]. rewrite forallb_forall in He, Hu.
  apply Z.leb_le in H1, H2. split; [| |lia].
  - intros px gce Hpx Hx. specialize (He gce). rewrite Hx in He. cbn [negb orb] in He.
    specialize (He ltac:(apply list_elem_of_In; by eapply list_elem_of_lookup_2)). 
    apply andb_prop in He as [? ?]. lia.
  - intros i j a b Hi Hj Ha Hbx Hab.
    specialize (Hu i ltac:(apply in_seq; pose proof (lookup_lt_Some _ _ _ Hi); lia)).
    rewrite forallb_forall in Hu.
    specialize (Hu j ltac:(apply in_seq; pose proof (lookup_lt_Some _ _ _ Hj); lia)).
    rewrite Hi, Hj, Ha, Hbx, Hab, Z.eqb_refl in Hu. cbn in Hu. by apply Nat.eqb_eq.
Qed.

Definition grid_okb (gd : grid) : bool :=
  forallb line_okb (linedata gd) &&
  (Z.of_nat (length (linedata gd)) =? hsize gd + g_sy gd) &&
  (0 <=? hsize gd) && (0 <=? g_sy gd) && (0 <=? g_sx gd) &&
  (hsize gd + g_sy gd <? 4294967296) && (0 <=? hscrolled gd) && (hscrolled gd <=? hsize gd).

Lemma grid_okb_sound gd : grid_okb gd = true -> grid_ok gd.
Proof.
  unfold grid_okb. intros Hb. do 7 (apply andb_prop in Hb as [Hb ?]).
  split; try lia. rewrite forallb_forall in Hb. apply Forall_forall. intros gl Hin.
  by apply line_okb_sound, Hb, list_elem_of_In.
Qed.

(** ** Copies of lines *)

Lemma copy_lines f dy n : forall dst, (dy + n <= length (linedata dst))%nat ->
  foldl (fun dst k => update_line (Z.of_nat dy + k) (fun _ => f k) dst) dst (seqZ 0 (Z.of_nat n)) =
  set_linedata (take dy (linedata dst) ++ map f (seqZ 0 (Z.of_nat n)) ++ drop (dy + n) (linedata dst)) dst.
Proof.
  induction n as [|n IH]; intros dst Hn.
  { change (seqZ 0 (Z.of_nat 0)) with (@nil Z). cbn [foldl map app].
    rewrite Nat.add_0_r, take_drop. by destruct dst. }
  replace (Z.of_nat (S n)) with (Z.of_nat n + 1) by lia.
  rewrite seqZ_app by lia. rewrite foldl_app, IH by lia.
  change (seqZ (0 + Z.of_nat n) 1) with [0 + Z.of_nat n]. cbn [foldl].
  unfold update_line. cbn [linedata set_linedata]. rewrite Z.add_0_l.
  replace (Z.to_nat (Z.of_nat dy + Z.of_nat n)) with (dy + n)%nat by lia.
  destruct (drop (dy + n) (linedata dst)) as [|x r] eqn:Ed.
  { apply (f_equal length) in Ed. rewrite length_drop in Ed. cbn in Ed. lia. }
  assert (Er : drop (dy + S n) (linedata dst) = r).
  { replace (dy + S n)%nat with (dy + n + 1)%nat by lia. rewrite <- drop_drop, Ed. done. }
  rewrite Er, map_app. cbn [map].
  assert (Hlen : length (take dy (linedata dst) ++ map f (seqZ 0 (Z.of_nat n))) = (dy + n)%nat).
  { rewrite length_app, length_take, length_map, length_seqZ. lia. }
  rewrite !app_assoc. rewrite <- (app_assoc _ [f _]).
  unfold set_linedata at 1 3. cbn [g_flags g_sx g_sy hscrolled hsize hlimit set_linedata].
  f_equal. revert Hlen. generalize (take dy (linedata dst) ++ map f (seqZ 0 (Z.of_nat n))).
  intros A Hlen. apply list_eq. intros i. destruct (decide (i = (dy + n)%nat)) as [-> | Hne].
  - rewrite list_lookup_alter_eq. rewrite <- Hlen. rewrite list_lookup_middle by done.
    cbn [fmap option_fmap option_map app]. by rewrite list_lookup_middle by done.
  - rewrite list_lookup_alter_ne by done. destruct (decide (i < dy + n)%nat).
    + by rewrite !lookup_app_l by lia.
    + rewrite !lookup_app_r by lia. rewrite Hlen.
      destruct (i - (dy + n))%nat as [|j] eqn:E; [lia|done].
Qed.

Lemma map_get_line gd y n : (y + n <= length (linedata gd))%nat ->
  map (fun k => grid_get_line gd (Z.of_nat y + k)) (seqZ 0 (Z.of_nat n)) =
  take n (drop y (linedata gd)).
Proof.
  intros Hn. apply list_eq. intros i. rewrite list_lookup_fmap.
  destruct (decide (i < n)%nat).
  - rewrite lookup_seqZ_lt by lia. cbn. rewrite lookup_take_lt, lookup_drop by lia.
    unfold grid_get_line. replace (Z.to_nat (Z.of_nat y + (0 + Z.of_nat i))) with (y + i)%nat by lia.
    destruct (lookup_lt_is_Some_2 (linedata gd) (y + i)) as [gl E]; [lia|].
    by rewrite E, (nth_lookup_Some _ _ _ _ E).
  - rewrite lookup_seqZ_ge by lia. by rewrite lookup_take_ge by lia.
Qed.

(** A new grid filled with lines of another. *)

Lemma copied_lines src dst dy sy n :
  (dy + n <= length (linedata dst))%nat -> (sy + n <= length (linedata src))%nat ->
  Z.of_nat (length (linedata dst)) = hsize dst + g_sy dst ->
  Z.of_nat (length (linedata src)) = hsize src + g_sy src ->
  grid_duplicate_lines dst (Z.of_nat dy) src (Z.of_nat sy) (Z.of_nat n) =
  set_linedata (take dy (linedata dst) ++ take n (drop sy (linedata src)) ++
                drop (dy + n) (linedata dst)) dst.
Proof.
  intros Hd Hs Hld Hls. unfold grid_duplicate_lines.
  rewrite (proj2 (Z.ltb_ge (hsize dst + g_sy dst) _)) by lia.
  rewrite (proj2 (Z.ltb_ge (hsize src + g_sy src) _)) by lia.
  rewrite (copy_lines (fun k => grid_get_line src (Z.of_nat sy + k))) by lia.
  by rewrite map_get_line by lia.
Qed.
