(* ===== verification/ColourProps.v ===== *)
(** * The properties of colours *)
From Stdlib Require Import Ascii String.
From S2P Require Import Prelude.
From S2P Require Import CString.
From S2P Require Import Grid.
From S2P Require Import GridFacts.
From S2P Require Import Colour.

(** The colours that have a name of their own. *)
Inductive colour_valid : Z -> Prop :=
  | colour_none : colour_valid (-1)
  | colour_basic c name : (c, name) ∈ basic_names -> colour_valid c
  | colour_index n : 0 <= n < 256 -> colour_valid (Z.lor n COLOUR_FLAG_256)
  | colour_rgb r g b : 0 <= r < 256 -> 0 <= g < 256 -> 0 <= b < 256 ->
      colour_valid (colour_join_rgb r g b).

Lemma scan_x_fmt n s : 0 <= n < 256 -> scan_x 2 (fmt_02x n +:+ s) = Some (n, s).
Proof.
  revert n. apply for_each_elim. vm_compute. repeat split.
Qed.

Lemma fmt_02x_hex n s : 0 <= n < 256 -> all_hex (fmt_02x n +:+ s) = all_hex s.
Proof.
  intros Hn. unfold fmt_02x.
  assert (Hq : 0 <= n / 16 mod 16 < 16) by (apply Z.mod_pos_bound; lia).
  assert (Hr : 0 <= n mod 16 < 16) by (apply Z.mod_pos_bound; lia).
  rewrite !str_app_cons. unfold all_hex. cbn [list_ascii_of_string forallb].
  by rewrite !hex_value_digit.
Qed.

Lemma join_rgb_sum r g b : 0 <= r < 256 -> 0 <= g < 256 -> 0 <= b < 256 ->
  colour_join_rgb r g b = 33554432 + r * 65536 + g * 256 + b.
Proof.
  intros Hr Hg Hb. unfold colour_join_rgb. rewrite !u8_small by done.
  rewrite (lor_shiftl r) by (rewrite ?Z.shiftl_mul_pow2; lia). rewrite Z.shiftl_mul_pow2 by lia.
  replace (r * 2 ^ 16 + g * 2 ^ 8) with ((r * 2 ^ 8 + g) * 2 ^ 8) by lia.
  rewrite lor_shifted by lia. rewrite Z.lor_comm. change COLOUR_FLAG_RGB with (2 * 2 ^ 24).
  rewrite lor_shifted by lia. lia.
Qed.

Lemma join_rgb_flags r g b : 0 <= r < 256 -> 0 <= g < 256 -> 0 <= b < 256 ->
  has (colour_join_rgb r g b) COLOUR_FLAG_RGB = true.
Proof. intros. unfold colour_join_rgb. by apply has_lor_self. Qed.

Lemma split_join_rgb r g b : 0 <= r < 256 -> 0 <= g < 256 -> 0 <= b < 256 ->
  colour_split_rgb (colour_join_rgb r g b) = (r, g, b).
Proof.
  intros. rewrite join_rgb_sum by done. unfold colour_split_rgb.
  change 0xff with (2 ^ 8 - 1). rewrite !land_mask, !Z.shiftr_div_pow2 by lia.
  change (2 ^ 16) with 65536. change (2 ^ 8) with 256.
  f_equal; [f_equal|]; Z.div_mod_to_equations; lia.
Qed.

Lemma colour_read_back c : colour_valid c -> colour_fromstring (colour_tostring c) = c.
Proof.
  destruct 1 as [|c name Hin|n Hn|r g b Hr Hg Hb].
  - vm_compute. reflexivity.
  - cut (Forall (fun '(c, _) => colour_fromstring (colour_tostring c) = c) basic_names).
    { rewrite Forall_forall. by intros H; apply (H _ Hin). }
    unfold basic_names. repeat apply Forall_cons_2; try apply Forall_nil_2; vm_compute; reflexivity.
  - apply Z.eqb_eq. apply (byte_forall (fun n =>
      colour_fromstring (colour_tostring (Z.lor n COLOUR_FLAG_256)) =? Z.lor n COLOUR_FLAG_256));
      [vm_compute; reflexivity|done].
  - unfold colour_tostring. rewrite (proj2 (Z.eqb_neq _ (-1))) by (rewrite join_rgb_sum; lia).
    rewrite join_rgb_flags, split_join_rgb by done. unfold colour_fromstring.
    assert (El : String.length (String "#" (fmt_02x r +:+ fmt_02x g +:+ fmt_02x b)) = 7%nat)
      by reflexivity.
    rewrite El. cbn [Nat.eqb]. rewrite <- (str_app_nil (fmt_02x b)).
    rewrite !fmt_02x_hex by done. cbn [all_hex list_ascii_of_string forallb negb].
    unfold scan_three. rewrite scan_x_fmt by done. cbn [mbind option_bind].
    rewrite scan_x_fmt by done. cbn [mbind option_bind]. by rewrite scan_x_fmt.
Qed.

(** Every colour reads back from its name: [colour_fromstring] of what
    [colour_tostring] prints for a colour that is none, basic, indexed or a
    triplet is that colour. *)
Theorem colour_string_roundtrip c : colour_valid c -> colour_fromstring (colour_tostring c) = c.
Proof. apply colour_read_back. Qed.

(** ** The palette of 256 colours *)

Definition triplet (n : Z) : Z * Z * Z := colour_split_rgb (colour_256toRGB n).

Lemma triplet_cube n : 0 <= n < 216 ->
  triplet (16 + n) = (q2c (n / 36), q2c (n / 6 mod 6), q2c (n mod 6)).
Proof. revert n. apply for_each_elim. vm_compute. repeat split. Qed.

Lemma triplet_grey n : 0 <= n < 24 -> triplet (232 + n) = (8 + 10 * n, 8 + 10 * n, 8 + 10 * n).
Proof. revert n. apply for_each_elim. vm_compute. repeat split. Qed.

Definition dist (n r g b : Z) : Z :=
  let '(r', g', b') := triplet n in colour_dist_sq r' g' b' r g b.

(** A bool that is true of every number below [n]. *)

Lemma cube_nearest v q : 0 <= v < 256 -> 0 <= q < 6 ->
  0 <= colour_to_6cube v < 6 /\
  (q2c (colour_to_6cube v) - v) * (q2c (colour_to_6cube v) - v) <= (q2c q - v) * (q2c q - v).
Proof.
  intros Hv Hq. pose proof (forall_range (fun v => (0 <=? colour_to_6cube v) &&
    (colour_to_6cube v <? 6) && forallb (fun q =>
      (q2c (colour_to_6cube v) - v) * (q2c (colour_to_6cube v) - v) <=? (q2c q - v) * (q2c q - v))
      (seqZ 0 6)) 256 ltac:(vm_compute; reflexivity) v Hv) as E. cbn beta in E.
  apply andb_prop in E as [E E3]. apply andb_prop in E as [E1 E2].
  pose proof (forall_range _ _ E3 q Hq) as E4. cbn beta in E4. apply Z.leb_le in E4.
  apply Z.leb_le in E1. apply Z.ltb_lt in E2. done.
Qed.

(** The index of the grey chosen for the sum of the components. *)
Definition grey_of (sum : Z) : Z :=
  if 238 <? sum / 3 then 23 else Z.quot (sum / 3 - 3) 10.

Lemma grey_nearest sum k : 0 <= sum < 766 -> 0 <= k < 24 ->
  0 <= grey_of sum < 24 /\
  let x := 8 + 10 * grey_of sum in let y := 8 + 10 * k in
  3 * (x * x) - 2 * x * sum <= 3 * (y * y) - 2 * y * sum.
Proof.
  intros Hs Hk. pose proof (forall_range (fun sum => (0 <=? grey_of sum) && (grey_of sum <? 24) &&
    forallb (fun k => let x := 8 + 10 * grey_of sum in let y := 8 + 10 * k in
      3 * (x * x) - 2 * x * sum <=? 3 * (y * y) - 2 * y * sum) (seqZ 0 24)) 766
    ltac:(vm_compute; reflexivity) sum Hs) as E. cbn beta in E.
  apply andb_prop in E as [E E3]. apply andb_prop in E as [E1 E2].
  pose proof (forall_range _ _ E3 k Hk) as E4. cbn beta zeta in *. apply Z.leb_le in E4.
  apply Z.leb_le in E1. apply Z.ltb_lt in E2. done.
Qed.

Lemma lor_256 n : 0 <= n < 256 -> Z.lor n COLOUR_FLAG_256 = n + COLOUR_FLAG_256.
Proof.
  intros. rewrite Z.lor_comm. change COLOUR_FLAG_256 with (1 * 2 ^ 24).
  rewrite lor_shifted by lia. lia.
Qed.

(** [colour_find_rgb] finds the colour nearest to a triplet among the 240
    colours of the palette after the 16 basic ones: the cube and the greys. *)
Theorem colour_find_rgb_nearest r g b :
  0 <= r < 256 -> 0 <= g < 256 -> 0 <= b < 256 ->
  exists n, colour_find_rgb r g b = Z.lor n COLOUR_FLAG_256 /\ 16 <= n < 256 /\
    forall m, 16 <= m < 256 -> dist n r g b <= dist m r g b.
Proof.
  intros Hr Hg Hb.
  destruct (cube_nearest r 0 Hr ltac:(lia)) as [Hqr _].
  destruct (cube_nearest g 0 Hg ltac:(lia)) as [Hqg _].
  destruct (cube_nearest b 0 Hb ltac:(lia)) as [Hqb _].
  destruct (grey_nearest (r + g + b) 0 ltac:(lia) ltac:(lia)) as [Hgi _].
  set (qr := colour_to_6cube r) in *. set (qg := colour_to_6cube g) in *.
  set (qb := colour_to_6cube b) in *. set (gi := grey_of (r + g + b)) in *.
  set (cube := 16 + 36 * qr + 6 * qg + qb).
  assert (Hcube : dist cube r g b = colour_dist_sq (q2c qr) (q2c qg) (q2c qb) r g b).
  { unfold dist. replace cube with (16 + (36 * qr + 6 * qg + qb)) by (unfold cube; lia).
    rewrite triplet_cube by lia. set (k := 36 * qr + 6 * qg + qb).
    assert (E1 : k / 36 = qr) by (unfold k; Z.div_mod_to_equations; lia).
    assert (E2 : k / 6 = 6 * qr + qg) by (unfold k; Z.div_mod_to_equations; lia).
    assert (E3 : (6 * qr + qg) mod 6 = qg) by (Z.div_mod_to_equations; lia).
    assert (E4 : k mod 6 = qb) by (unfold k; Z.div_mod_to_equations; lia).
    by rewrite E1, E2, E3, E4. }
  assert (Hgrey : dist (232 + gi) r g b =
    colour_dist_sq (8 + 10 * gi) (8 + 10 * gi) (8 + 10 * gi) r g b).
  { unfold dist. by rewrite triplet_grey. }
  (* the cube colour is the nearest of the cube, the grey the nearest grey *)
  assert (Hbest : forall m, 16 <= m < 256 ->
    dist cube r g b <= dist m r g b \/ dist (232 + gi) r g b <= dist m r g b).
  { intros m Hm. rewrite Hcube, Hgrey. destruct (Z.lt_ge_cases m 232) as [Hlt|Hge].
    - left. replace m with (16 + (m - 16)) by lia. unfold dist. rewrite triplet_cube by lia.
      set (k := m - 16). assert (Hk : 0 <= k < 216) by lia. unfold colour_dist_sq.
      pose proof (proj2 (cube_nearest r (k / 36) Hr ltac:(Z.div_mod_to_equations; lia))) as E1.
      pose proof (proj2 (cube_nearest g (k / 6 mod 6) Hg ltac:(Z.div_mod_to_equations; lia))) as E2.
      pose proof (proj2 (cube_nearest b (k mod 6) Hb ltac:(Z.div_mod_to_equations; lia))) as E3.
      fold qr in E1. fold qg in E2. fold qb in E3. lia.
    - right. replace m with (232 + (m - 232)) by lia. unfold dist. rewrite triplet_grey by lia.
      destruct (grey_nearest (r + g + b) (m - 232) ltac:(lia) ltac:(lia)) as [_ Hn].
      fold gi in Hn. unfold colour_dist_sq. cbn zeta in Hn. nia. }
  unfold colour_find_rgb. fold qr qg qb. fold (grey_of (r + g + b)). fold gi. fold cube.
  destruct ((q2c qr =? r) && (q2c qg =? g) && (q2c qb =? b)) eqn:Ex.
  - exists cube. assert (Hc : 16 <= cube < 256) by (unfold cube; lia).
    split_and!; [done|lia|lia|]. intros m _. rewrite Hcube.
    apply andb_prop in Ex as [Ex E3]. apply andb_prop in Ex as [E1 E2].
    apply Z.eqb_eq in E1, E2, E3. rewrite E1, E2, E3.
    replace (colour_dist_sq r g b r g b) with 0 by (unfold colour_dist_sq; ring).
    unfold dist. destruct (triplet m) as [[x y] z]. unfold colour_dist_sq.
    pose proof (Z.square_nonneg (x - r)). pose proof (Z.square_nonneg (y - g)).
    pose proof (Z.square_nonneg (z - b)). lia.
  - rewrite <- Hgrey, <- Hcube.
    destruct (Z.ltb_spec (dist (232 + gi) r g b) (dist cube r g b)).
    + exists (232 + gi). split_and!; [done|lia|lia|]. intros m Hm. destruct (Hbest m Hm); lia.
    + exists cube. assert (Hc : 16 <= cube < 256) by (unfold cube; lia).
      split_and!; [done|lia|lia|]. intros m Hm. destruct (Hbest m Hm); lia.
Qed.

(** ** Instances *)

Lemma colour_string_roundtrip_witness :
  colour_fromstring (colour_tostring (colour_join_rgb 18 52 86)) = colour_join_rgb 18 52 86.
Proof. apply colour_string_roundtrip, colour_rgb; lia. Defined.

Lemma colour_find_rgb_nearest_witness :
  exists n, colour_find_rgb 200 30 30 = Z.lor n COLOUR_FLAG_256 /\ 16 <= n < 256 /\
    forall m, 16 <= m < 256 -> dist n 200 30 30 <= dist m 200 30 30.
Proof. apply colour_find_rgb_nearest; lia. Defined.
