(* ===== verification/StyleProps.v ===== *)
(** * Properties of styles

    What is printed for a style reads back as it, and the styles that cannot be
    printed. *)
From Stdlib Require Import ZArith Lia Ascii String.
From S2P Require Import Prelude.
From S2P Require Import CString.
From S2P Require Import Utf8.
From S2P Require Import Grid.
From S2P Require Import Colour.
From S2P Require Import Style.
From S2P Require Import GridFacts.
From S2P Require Import ColourProps.

Open Scope string_scope.
Open Scope Z_scope.

(** ** Tokens *)

Lemma str_drop_0 s : str_drop 0 s = s.
Proof. by destruct s. Qed.

Lemma str_drop_length n s : String.length (str_drop n s) = (String.length s - n)%nat.
Proof. revert s; induction n as [|n IH]; intros [|c s]; cbn [str_drop String.length]; try done. Qed.



Lemma str_take_all n s : (String.length s <= n)%nat -> str_take n s = s.
Proof.
  unfold str_take. revert s; induction n as [|n IH]; intros [|c s] Hl; cbn in *; try done; [lia|].
  f_equal. apply IH. lia.
Qed.

Lemma str_empty s : String.eqb s "" = true <-> s = "".
Proof. apply String.eqb_eq. Qed.

(** No character of the word is in the set. *)
Fixpoint free_of (set w : string) : bool :=
  match w with EmptyString => true | String c w => negb (in_set set c) && free_of set w end.

Lemma free_of_app set a b : free_of set (a +:+ b) = free_of set a && free_of set b.
Proof. induction a as [|c a IH]; [done|]. rewrite str_app_cons. cbn [free_of]. by rewrite IH, andb_assoc. Qed.



(** ** Numbers *)

Lemma dec_aux_S f n acc : dec_aux (S f) n acc =
  if n <? 10 then String (digit (n mod 10)) acc
  else dec_aux f (n / 10) (String (digit (n mod 10)) acc).
Proof. reflexivity. Qed.

Lemma dec_aux_length f n acc k : 0 <= n < 10 ^ Z.of_nat (S k) ->
  (String.length (dec_aux f n acc) <= S k + String.length acc)%nat.
Proof.
  revert n acc k; induction f as [|f IH]; intros n acc k Hn; [unfold dec_aux; lia|].
  rewrite dec_aux_S. destruct (Z.ltb_spec n 10); [cbn [String.length]; lia|].
  rewrite Nat2Z.inj_succ, Z.pow_succ_r in Hn by lia.
  destruct k as [|k]; [change (10 ^ Z.of_nat 0) with 1 in Hn; lia|].
  etransitivity; [apply (IH _ _ k)|cbn [String.length]; lia].
  split; [apply Z.div_pos; lia|apply Z.div_lt_upper_bound; lia].
Qed.

Lemma fmt_u_short n : 0 <= n < 4294967296 -> (String.length (fmt_u n) <= 10)%nat.
Proof.
  intros Hn. unfold fmt_u. pose proof (dec_aux_length 20 n "" 9 ltac:(change (10 ^ Z.of_nat 10) with 10000000000; lia)) as H.
  cbn in H. lia.
Qed.


Lemma free_of_dec set f n acc : (forall d, 0 <= d < 10 -> in_set set (digit d) = false) ->
  0 <= n -> free_of set acc = true -> free_of set (dec_aux f n acc) = true.
Proof.
  intros Hs. revert n acc; induction f as [|f IH]; intros n acc Hn Ha; [done|]. rewrite dec_aux_S.
  assert (Hd : free_of set (String (digit (n mod 10)) acc) = true).
  { cbn [free_of]. rewrite Hs, Ha; [done|]. by apply Z.mod_pos_bound. }
  destruct (n <? 10); [done|]. apply IH; [by apply Z.div_pos|done].
Qed.

Lemma free_of_fmt_u n : 0 <= n -> free_of style_delimiters (fmt_u n) = true.
Proof.
  intros. apply free_of_dec; [|done|done]. apply for_each_elim. vm_compute. repeat split.
Qed.

(** ** Words *)

Definition good_word (w : string) : Prop :=
  w <> "" /\ free_of style_delimiters w = true /\ (String.length w <= 255)%nat.




Lemma concat_cons w w' ws : String.concat "," (w :: w' :: ws) = w +:+ String "," (String.concat "," (w' :: ws)).
Proof. reflexivity. Qed.

Lemma concat_free ws : Forall good_word ws -> ws <> [] ->
  exists c s, String.concat "," ws = String c s /\ in_set style_delimiters c = false.
Proof.
  intros [|w ws' (Hw & Hf & _) _]; [done|]. intros _.
  destruct w as [|c w]; [done|]. cbn [free_of] in Hf. apply andb_prop in Hf as [Hc%negb_true_iff _].
  destruct ws'; [by exists c, w|]. rewrite concat_cons, str_app_cons. eauto.
Qed.





(** ** The words a style is printed as *)

Definition named_words {A} (name : A -> option string) (prefix : string) (a : A) : list string :=
  match name a with Some n => [prefix +:+ n] | None => [] end.
Definition colour_words (prefix : string) (c : Z) : list string :=
  if c =? 8 then [] else [prefix +:+ colour_tostring c].
Definition attribute_names : list (Z * string) :=
  [(GRID_ATTR_CHARSET, "acs"); (GRID_ATTR_BRIGHT, "bright"); (GRID_ATTR_DIM, "dim");
   (GRID_ATTR_UNDERSCORE, "underscore"); (GRID_ATTR_BLINK, "blink");
   (GRID_ATTR_REVERSE, "reverse"); (GRID_ATTR_HIDDEN, "hidden");
   (GRID_ATTR_ITALICS, "italics"); (GRID_ATTR_STRIKETHROUGH, "strikethrough");
   (GRID_ATTR_UNDERSCORE_2, "double-underscore"); (GRID_ATTR_UNDERSCORE_3, "curly-underscore");
   (GRID_ATTR_UNDERSCORE_4, "dotted-underscore"); (GRID_ATTR_UNDERSCORE_5, "dashed-underscore");
   (GRID_ATTR_OVERLINE, "overline"); (GRID_ATTR_NOATTR, "noattr")].
Definition attr_words (attr : Z) : list string :=
  snd <$> filter (fun '(bit, _) => has attr bit = true) attribute_names.
Definition width_words (w : Z) (percentage : bool) : list string :=
  if 0 <=? w then ["width=" +:+ fmt_u w +:+ (if percentage then "%" else "")] else [].
Definition pad_words (p : Z) : list string :=
  if 0 <=? p then ["pad=" +:+ fmt_u p] else [].

Definition style_words (sy : style) : list string :=
  named_words list_name "list=" (sy_list sy) ++ named_words range_name "range=" (sy_range sy) ++
  named_words align_name "align=" (sy_align sy) ++ named_words default_name "" (sy_default_type sy) ++
  colour_words "fill=" (sy_fill sy) ++ colour_words "fg=" (gc_fg (sy_gc sy)) ++
  colour_words "bg=" (gc_bg (sy_gc sy)) ++ colour_words "us=" (gc_us (sy_gc sy)) ++
  attr_words (gc_attr (sy_gc sy)) ++ width_words (sy_width sy) (sy_width_percentage sy) ++
  pad_words (sy_pad sy).

(** What a style that style_parse can give holds: no range for a control, no
    bits and colours without a name, an argument and a string of its range. *)
Definition range_ok (r : range) : Prop :=
  match range_type r with
  | STYLE_RANGE_NONE | STYLE_RANGE_LEFT | STYLE_RANGE_RIGHT => range_argument r = 0 /\ range_string r = ""
  | STYLE_RANGE_PANE | STYLE_RANGE_WINDOW | STYLE_RANGE_SESSION =>
      0 <= range_argument r <= UINT_MAX /\ range_string r = ""
  | STYLE_RANGE_USER =>
      range_argument r = 0 /\ range_string r <> "" /\ (String.length (range_string r) <= 15)%nat /\
      free_of style_delimiters (range_string r) = true
  | STYLE_RANGE_CONTROL => False
  end.
Definition named_colour (c : Z) : Prop := colour_valid c /\ c <> -1.
Record style_ok (sy : style) : Prop := {
  ok_ignore : sy_ignore sy = false;
  ok_fill : named_colour (sy_fill sy);
  ok_fg : named_colour (gc_fg (sy_gc sy));
  ok_bg : named_colour (gc_bg (sy_gc sy));
  ok_us : named_colour (gc_us (sy_gc sy));
  ok_attr : 0 <= gc_attr (sy_gc sy) < 0x8000;
  ok_range : range_ok (sy_range sy);
  ok_width : 0 <= sy_width sy <= INT_MAX \/ sy_width sy = -1 /\ sy_width_percentage sy = false;
  ok_percentage : sy_width_percentage sy = true -> sy_width sy <= 100;
  ok_pad : -1 <= sy_pad sy <= INT_MAX
}.

(** *** They are good words *)

Lemma good_word_app w n : free_of style_delimiters w = true -> w <> "" ->
  free_of style_delimiters n = true -> (String.length w + String.length n <= 255)%nat ->
  good_word (w +:+ n).
Proof.
  intros. split; [by destruct w|]. split; [rewrite free_of_app; by apply andb_true_intro|].
  by rewrite str_length_app.
Qed.

Definition short_free (s : string) : bool :=
  free_of style_delimiters s && (String.length s <=? 16)%nat.

Lemma colour_word_free c : named_colour c -> short_free (colour_tostring c) = true.
Proof.
  intros [Hc Hn]. destruct Hc as [|c name Hin|n Hr|r g b Hr Hg Hb]; [done|..].
  - cut (Forall (fun '(c, _) => short_free (colour_tostring c) = true) basic_names).
    { rewrite Forall_forall. by intros H; apply (H _ Hin). }
    unfold basic_names. repeat apply Forall_cons_2; try apply Forall_nil_2; vm_compute; reflexivity.
  - apply (byte_forall (fun n => short_free (colour_tostring (Z.lor n COLOUR_FLAG_256))));
      [vm_compute; reflexivity|done].
  - unfold colour_tostring. rewrite (proj2 (Z.eqb_neq _ (-1))) by (rewrite join_rgb_sum; lia).
    rewrite join_rgb_flags, split_join_rgb by done.
    assert (Hf : forall n, 0 <= n < 256 -> free_of style_delimiters (fmt_02x n) = true)
      by (apply byte_forall; vm_compute; reflexivity).
    unfold short_free. cbn [free_of]. by rewrite !free_of_app, !Hf.
Qed.

Lemma good_words_app a b : Forall good_word a -> Forall good_word b -> Forall good_word (a ++ b).
Proof. intros. by apply Forall_app_2. Qed.

Lemma good_word_one w : good_word w -> Forall good_word [w].
Proof. intros. by apply Forall_cons_2; [|apply Forall_nil_2]. Qed.

Definition good_word_b (w : string) : bool :=
  negb (String.eqb w "") && free_of style_delimiters w && (String.length w <=? 255)%nat.

Lemma good_word_by w : good_word_b w = true -> good_word w.
Proof.
  unfold good_word_b. intros [[H1 H2]%andb_prop H3]%andb_prop. repeat split; [|done|by apply Nat.leb_le].
  intros ->. done.
Qed.

Lemma named_words_good {A} (name : A -> option string) prefix a :
  (forall n, name a = Some n -> good_word (prefix +:+ n)) -> Forall good_word (named_words name prefix a).
Proof. unfold named_words. intros Hn. destruct (name a); [apply good_word_one; eauto|apply Forall_nil_2]. Qed.

Lemma snprintf_fits s : (String.length s <= 20)%nat -> snprintf 21 s = s.
Proof. intros. by apply str_take_all. Qed.

Lemma range_name_fits r : range_ok r -> range_name r =
  match range_type r with
  | STYLE_RANGE_LEFT => Some "left"
  | STYLE_RANGE_RIGHT => Some "right"
  | STYLE_RANGE_PANE => Some ("pane|%" +:+ fmt_u (range_argument r))
  | STYLE_RANGE_WINDOW => Some ("window|" +:+ fmt_u (range_argument r))
  | STYLE_RANGE_SESSION => Some ("session|$" +:+ fmt_u (range_argument r))
  | STYLE_RANGE_USER => Some ("user|" +:+ range_string r)
  | STYLE_RANGE_NONE | STYLE_RANGE_CONTROL => None
  end.
Proof.
  unfold range_ok, range_name, UINT_MAX. intros Hr. destruct (range_type r); try done.
  all: rewrite snprintf_fits; [done|]; rewrite str_length_app; cbn [String.length].
  1-3: pose proof (fmt_u_short (range_argument r) ltac:(lia)); lia.
  destruct Hr as (_ & _ & Hl & _). lia.
Qed.

Lemma number_word_good w n : good_word_b w = true -> (String.length w <= 100)%nat ->
  0 <= n <= UINT_MAX -> good_word (w +:+ fmt_u n).
Proof.
  unfold UINT_MAX. intros [Hw [Hf _]]%good_word_by Hl Hn.
  pose proof (fmt_u_short n ltac:(lia)). apply good_word_app; [done|done| |lia].
  apply free_of_fmt_u. lia.
Qed.

Lemma range_words_good r : range_ok r -> Forall good_word (named_words range_name "range=" r).
Proof.
  intros Hr. apply named_words_good. intros n. rewrite (range_name_fits r) by done.
  unfold range_ok in Hr. destruct (range_type r); intros [= <-]; try by apply good_word_by.
  1-3: rewrite <- str_app_assoc; apply number_word_good; [done|by apply Nat.leb_le|apply Hr].
  destruct Hr as (_ & _ & Hl & Hf). rewrite <- str_app_assoc.
  apply good_word_app; [done|done|done|change (String.length ("range=" +:+ "user|")) with 11%nat; lia].
Qed.

Lemma colour_words_good prefix c : named_colour c -> good_word_b prefix = true ->
  (String.length prefix <= 100)%nat -> Forall good_word (colour_words prefix c).
Proof.
  intros Hc [Hp [Hf _]]%good_word_by Hl. unfold colour_words. destruct (c =? 8); [apply Forall_nil_2|].
  apply good_word_one. apply colour_word_free in Hc. unfold short_free in Hc.
  apply andb_prop in Hc as [Hc Hs%Nat.leb_le]. apply good_word_app; [done|done|done|lia].
Qed.

Lemma attr_words_good a : Forall good_word (attr_words a).
Proof.
  assert (H : Forall (fun p : Z * string => good_word_b p.2 = true) attribute_names)
    by (unfold attribute_names; forall_each reflexivity).
  unfold attr_words. apply Forall_fmap, Forall_forall. intros [b n] [_ Hin]%list_elem_of_filter.
  rewrite Forall_forall in H. apply good_word_by, (H (b, n) Hin).
Qed.

Lemma width_words_good w p : w <= INT_MAX -> Forall good_word (width_words w p).
Proof.
  unfold width_words, INT_MAX. intros Hw. destruct (Z.leb_spec 0 w); [|apply Forall_nil_2].
  apply good_word_one. pose proof (fmt_u_short w ltac:(lia)). pose proof (free_of_fmt_u w ltac:(lia)).
  apply good_word_app; [done|done|..].
  - rewrite free_of_app. apply andb_true_intro. split; [done|by destruct p].
  - rewrite str_length_app. cbn [String.length]. destruct p; cbn [String.length]; lia.
Qed.

Lemma pad_words_good p : p <= INT_MAX -> Forall good_word (pad_words p).
Proof.
  unfold pad_words, INT_MAX. intros Hw. destruct (Z.leb_spec 0 p); [|apply Forall_nil_2].
  apply good_word_one, number_word_good; [done|by apply Nat.leb_le|unfold UINT_MAX; lia].
Qed.

Lemma style_words_good sy : style_ok sy -> Forall good_word (style_words sy).
Proof.
  intros [Hi Hf Hfg Hbg Hus Ha Hr Hw Hp Hpd]. unfold style_words.
  repeat apply good_words_app.
  1,3,4: apply named_words_good; intros n; destruct (sy_list sy), (sy_align sy), (sy_default_type sy);
    intros [= <-]; by apply good_word_by.
  - by apply range_words_good.
  - apply colour_words_good; [done|done|by apply Nat.leb_le].
  - apply colour_words_good; [done|done|by apply Nat.leb_le].
  - apply colour_words_good; [done|done|by apply Nat.leb_le].
  - apply colour_words_good; [done|done|by apply Nat.leb_le].
  - apply attr_words_good.
  - apply width_words_good. unfold INT_MAX in *. lia.
  - apply pad_words_good. lia.
Qed.

(** ** What is printed *)

(** The buffer after some words, or the words do not fit. *)
Definition printed_as (ws : list string) (o : option printed) : Prop :=
  match o with
  | Some p => p_s p = String.concat "," ws /\ p_comma p = (if ws is [] then "" else ",") /\
              (String.length (p_s p) < 256)%nat
  | None => (256 <= String.length (String.concat "," ws))%nat
  end.

Lemma concat_app a b : a <> [] -> b <> [] ->
  String.concat "," (a ++ b) = String.concat "," a +:+ String "," (String.concat "," b).
Proof.
  intros Ha Hb. induction a as [|w a IH]; [done|]. destruct a as [|w' a].
  - cbn [app]. destruct b; [done|]. apply concat_cons.
  - cbn [app] in *. rewrite concat_cons, IH by done. rewrite concat_cons. by str_norm.
Qed.

Lemma concat_grows a b :
  (String.length (String.concat "," a) <= String.length (String.concat "," (a ++ b)))%nat.
Proof.
  destruct a as [|w a]; [cbn; lia|]. destruct b as [|w' b]; [by rewrite app_nil_r|].
  rewrite concat_app by done. rewrite str_length_app. lia.
Qed.

Lemma printed_as_bind ws items o f : printed_as ws o ->
  (forall p, printed_as ws (Some p) -> printed_as (ws ++ items) (f p)) ->
  printed_as (ws ++ items) (o ≫= f).
Proof.
  intros Ho Hf. destruct o as [p|]; cbn [mbind option_bind]; [by apply Hf|].
  cbn in *. pose proof (concat_grows ws items). lia.
Qed.

Lemma style_item_printed ws items p : items <> [] -> printed_as ws (Some p) ->
  printed_as (ws ++ items) (style_item p (String.concat "," items)).
Proof.
  intros Hi (Hs & Hc & Hl). unfold style_item, xsnprintf.
  assert (E : String.concat "," (ws ++ items) = p_s p +:+ (p_comma p +:+ String.concat "," items)).
  { rewrite Hs, Hc. destruct ws as [|w ws]; [by str_norm|]. rewrite concat_app by done. by str_norm. }
  assert (El : String.length (String.concat "," (ws ++ items)) =
    (String.length (p_s p) + String.length (p_comma p +:+ String.concat "," items))%nat)
    by (by rewrite E, str_length_app).
  destruct (Nat.ltb_spec (String.length (p_comma p +:+ String.concat "," items))
    (256 - String.length (p_s p))); cbn; [|lia].
  split; [by rewrite E|]. split; [by destruct ws, items|]. rewrite str_length_app. lia.
Qed.

Lemma style_item_if_printed ws items (b : bool) item p : items = (if b then [item] else []) ->
  printed_as ws (Some p) -> printed_as (ws ++ items) (style_item_if b item p).
Proof.
  intros -> Hp. unfold style_item_if. destruct b; [|by rewrite app_nil_r].
  by apply (style_item_printed ws [item]).
Qed.

Lemma named_item_printed {A} ws (b : bool) (name : A -> option string) a prefix p :
  b = (if name a is Some _ then true else false) ->
  printed_as ws (Some p) -> printed_as (ws ++ named_words name prefix a) (named_item b (name a) prefix p).
Proof.
  intros -> Hp. unfold named_item, named_words. destruct (name a) as [n|]; [|by rewrite app_nil_r].
  apply (style_item_printed ws [prefix +:+ n]); [done|]. destruct p. exact Hp.
Qed.

(** *** Attributes *)

Definition attr_bits (names : list (Z * string)) (a : Z) (acc : Z) : Z :=
  foldl (fun acc '(bit, _) => if has a bit then Z.lor acc bit else acc) acc names.

Lemma attr_bits_testbit names a acc i : Z.testbit (attr_bits names a acc) i =
  Z.testbit acc i || existsb (fun '(bit, _) => Z.testbit bit i && has a bit) names.
Proof.
  unfold attr_bits. revert acc; induction names as [|[b n] names IH]; intros acc; cbn [foldl existsb].
  - by rewrite orb_false_r.
  - rewrite IH. destruct (has a b); [by rewrite Z.lor_spec, andb_true_r, orb_assoc|by rewrite andb_false_r].
Qed.

Lemma bits_small a i k : 0 <= a < 2 ^ k -> 0 <= k <= i -> Z.testbit a i = false.
Proof.
  intros Ha Hk. rewrite Z.testbit_eqb by lia. rewrite Z.div_small; [done|].
  split; [lia|]. apply Z.lt_le_trans with (2 ^ k); [lia|]. apply Z.pow_le_mono_r; lia.
Qed.

Lemma attr_bits_all a : 0 <= a < 0x8000 -> attr_bits attribute_names a 0 = a.
Proof.
  intros Ha. apply Z.bits_inj'. intros i Hi. rewrite attr_bits_testbit, Z.bits_0, orb_false_l.
  destruct (Z.lt_ge_cases i 15) as [Hlt|Hge].
  - rewrite <- has_bit by done. generalize (has a). intros h. revert i Hi Hlt.
    cut (forall i, 0 <= i < 15 ->
      existsb (fun '(bit, _) => Z.testbit bit i && h bit) attribute_names = h (2 ^ i)); [auto|].
    apply for_each_elim. vm_compute. repeat split; by match goal with |- context [h ?x] => destruct (h x) end.
  - rewrite (bits_small a i 15) by lia. apply not_true_iff_false. intros E.
    apply existsb_exists in E as ([b n] & Hin & E). apply andb_prop in E as [E _].
    revert E. apply not_true_iff_false, (bits_small b i 15); [|lia].
    assert (Hb : Forall (fun p : Z * string => 0 <= p.1 < 2 ^ 15) attribute_names)
      by (unfold attribute_names; forall_each ltac:(by vm_compute)).
    rewrite Forall_forall in Hb. by apply (Hb (b, n)), list_elem_of_In.
Qed.

Definition words_of (names : list (Z * string)) (a : Z) : list string :=
  snd <$> filter (fun '(bit, _) => has a bit = true) names.

Lemma words_of_cons b n names a :
  words_of ((b, n) :: names) a = if has a b then n :: words_of names a else words_of names a.
Proof.
  unfold words_of. rewrite filter_cons. case_decide as Hd; cbn in Hd; [by rewrite Hd|].
  by apply not_true_is_false in Hd as ->.
Qed.

Lemma attr_bits_none names a acc : words_of names a = [] -> attr_bits names a acc = acc.
Proof.
  unfold attr_bits. revert acc; induction names as [|[b n] names IH]; intros acc; [done|].
  rewrite words_of_cons. cbn [foldl]. destruct (has a b); [done|]. apply IH.
Qed.

Definition attr_text (names : list (Z * string)) (a : Z) : string :=
  foldr (fun '(bit, word) rest => if has a bit then word +:+ rest else rest) ""
    ((fun '(bit, n) => (bit, n +:+ ",")) <$> names).

Lemma attr_text_words names a : attr_text names a =
  if words_of names a is [] then "" else String.concat "," (words_of names a) +:+ ",".
Proof.
  unfold attr_text. induction names as [|[b n] names IH]; [done|].
  rewrite words_of_cons. cbn [fmap list_fmap foldr]. rewrite IH. destruct (has a b); [|done].
  destruct (words_of names a); [by rewrite str_app_nil|]. rewrite concat_cons. by str_norm.
Qed.

Lemma attr_text_length names a :
  (String.length (attr_text names a) <= foldr (fun '(_, n) k => S (String.length n) + k) 0 names)%nat.
Proof.
  unfold attr_text. induction names as [|[b n] names IH]; [done|]. cbn [fmap list_fmap foldr].
  destruct (has a b); [|lia]. rewrite !str_length_app. cbn [String.length]. lia.
Qed.

(** The buffer of attributes_tostring is always large enough. *)
Lemma attributes_tostring_words a : 0 < a < 0x8000 ->
  attributes_tostring a = Some (String.concat "," (attr_words a)).
Proof.
  intros Ha. unfold attributes_tostring. destruct (Z.eqb_spec a 0) as [->|_]; [lia|].
  change (foldr _ "" attribute_words) with (attr_text attribute_names a).
  pose proof (attr_text_length attribute_names a) as Hl.
  change (foldr _ 0%nat attribute_names) with 156%nat in Hl.
  unfold xsnprintf. rewrite (proj2 (Nat.ltb_lt _ _)) by (eapply Nat.le_lt_trans; [exact Hl|by apply Nat.ltb_lt]).
  cbn [mbind option_bind]. f_equal. rewrite attr_text_words. unfold attr_words. fold (words_of attribute_names a).
  destruct (words_of attribute_names a) eqn:E.
  { apply (attr_bits_none _ _ 0) in E. rewrite attr_bits_all in E by lia. lia. }
  rewrite str_length_app, Nat.add_sub. apply str_take_app.
Qed.

Lemma attr_words_some a : 0 < a < 0x8000 -> attr_words a <> [].
Proof. intros Ha E. apply (attr_bits_none _ _ 0) in E. rewrite attr_bits_all in E by lia. lia. Qed.

Lemma attr_item_printed ws a p : 0 <= a < 0x8000 ->
  printed_as ws (Some p) -> printed_as (ws ++ attr_words a) (attr_item a p).
Proof.
  intros Ha Hp. unfold attr_item. destruct (Z.eqb_spec a 0) as [->|Hn].
  - by rewrite app_nil_r.
  - rewrite attributes_tostring_words by lia. cbn [mbind option_bind].
    apply style_item_printed; [apply attr_words_some; lia|done].
Qed.

(** *** The whole style *)

Lemma range_name_some r : range_ok r ->
  negb (bool_decide (range_type r = STYLE_RANGE_NONE)) = (if range_name r is Some _ then true else false).
Proof. unfold range_ok, range_name. by destruct (range_type r). Qed.

Lemma colour_item_printed ws prefix c p : printed_as ws (Some p) ->
  printed_as (ws ++ colour_words prefix c) (style_item_if (negb (c =? 8)) (prefix +:+ colour_tostring c) p).
Proof. apply style_item_if_printed. unfold colour_words. by destruct (c =? 8). Qed.

Lemma width_item_printed ws w (percentage : bool) p : printed_as ws (Some p) ->
  printed_as (ws ++ width_words w percentage)
    (style_item_if (0 <=? w) (if percentage then "width=" +:+ fmt_u w +:+ "%" else "width=" +:+ fmt_u w) p).
Proof.
  apply style_item_if_printed. unfold width_words. generalize (fmt_u w). intros s.
  destruct (0 <=? w), percentage; [done| |done|done]. by rewrite str_app_nil.
Qed.

(** The words, if they fit in the buffer. *)
Definition printed_style (ws : list string) : option string :=
  if (String.length (String.concat "," ws) <? 256)%nat
  then Some (if ws is [] then "default" else String.concat "," ws)
  else None.

Lemma style_print_step (all ws items rest : list string) (o : option printed) (k : printed -> option string) :
  all = ((ws ++ items) ++ rest)%list -> printed_as (ws ++ items) o ->
  (forall p, printed_as (ws ++ items) (Some p) -> k p = printed_style all) ->
  o ≫= k = printed_style all.
Proof.
  intros -> Ho Hk. destruct o as [p|]; cbn [mbind option_bind]; [by apply Hk|].
  cbn in Ho. pose proof (concat_grows (ws ++ items) rest). unfold printed_style.
  by rewrite (proj2 (Nat.ltb_ge _ _)) by lia.
Qed.

Lemma style_print_end (ws : list string) p : Forall good_word ws -> printed_as ws (Some p) ->
  Some (if String.eqb (p_s p) "" then "default" else p_s p) = printed_style ws.
Proof.
  intros Hg (Hs & _ & Hl). unfold printed_style. rewrite <- Hs, (proj2 (Nat.ltb_lt _ _)) by done.
  destruct ws as [|w ws]; [by rewrite Hs|].
  destruct (concat_free (w :: ws) Hg ltac:(done)) as (c & s & E & _). by rewrite Hs, E.
Qed.

(** The next item of the chain, printed as [tac] shows. *)
Ltac print_item tac :=
  eapply style_print_step; cycle 1; [tac| |unfold style_words; rewrite <- ?app_assoc, ?app_nil_l; reflexivity].

Lemma style_tostring_words sy : style_ok sy -> style_tostring sy = printed_style (style_words sy).
Proof.
  intros Hok. pose proof (style_words_good sy Hok) as Hgood.
  destruct Hok as [Hi Hf Hfg Hbg Hus Ha Hr Hw Hp Hpd]. unfold style_tostring. cbv zeta.
  assert (H0 : printed_as [] (Some (Printed "" "" ""))) by (split; [done|split; [done|cbn; lia]]).
  print_item ltac:(apply named_item_printed; [destruct (sy_list sy); reflexivity|exact H0]). intros p1 H1.
  print_item ltac:(apply named_item_printed; [by apply range_name_some|exact H1]). intros p2 H2.
  print_item ltac:(apply named_item_printed; [destruct (sy_align sy); reflexivity|exact H2]). intros p3 H3.
  print_item ltac:(apply named_item_printed; [destruct (sy_default_type sy); reflexivity|exact H3]).
  intros p4 H4. print_item ltac:(apply colour_item_printed; exact H4).
  intros p5 H5. print_item ltac:(apply colour_item_printed; exact H5).
  intros p6 H6. print_item ltac:(apply colour_item_printed; exact H6).
  intros p7 H7. print_item ltac:(apply colour_item_printed; exact H7).
  intros p8 H8. print_item ltac:(apply attr_item_printed; [done|exact H8]).
  intros p9 H9.
  print_item ltac:(apply width_item_printed; exact H9). intros p10 H10.
  eapply (style_print_step _ _ (pad_words (sy_pad sy)) []); cycle 1.
  { apply style_item_if_printed; [|exact H10]. reflexivity. }
  2: { unfold style_words. rewrite <- ?app_assoc, ?app_nil_l, app_nil_r. reflexivity. }
  intros p11 H11. apply style_print_end; [done|]. revert H11. unfold style_words.
  by rewrite <- ?app_assoc, ?app_nil_l.
Qed.

(** ** Reading the words back *)


























(** ** Parsing ends *)


Lemma attribute_of_some str n a : attribute_of str n = Some a -> (0 < n)%nat.
Proof.
  unfold attribute_of. intros Hf. apply fmap_Some in Hf as ([name b] & Hf & _).
  apply find_some in Hf as [Hin Hf]. apply andb_prop in Hf as [->%Nat.eqb_eq _].
  assert (H : Forall (fun p : string * Z => (0 < String.length p.1)%nat) attribute_table)
    by (unfold attribute_table; forall_each ltac:(by apply Nat.ltb_lt)).
  rewrite Forall_forall in H. by apply (H (name, b)), list_elem_of_In.
Qed.

Lemma attributes_from_total fuel attr str : (String.length str < fuel)%nat ->
  is_Some (attributes_from fuel attr str).
Proof.
  revert attr str; induction fuel as [|fuel IH]; intros attr str Hf; [lia|]. cbn [attributes_from].
  destruct (attribute_of str (strcspn attr_delimiters str)) as [a|] eqn:E; [|by eexists].
  apply attribute_of_some in E. destruct (String.eqb_spec
    (str_drop (strcspn attr_delimiters str + strspn attr_delimiters
       (str_drop (strcspn attr_delimiters str) str)) str) "") as [_|Hne]; [by eexists|].
  apply IH. rewrite str_drop_length.
  destruct str as [|c str]; [by destruct (strcspn _ _ + _)%nat in Hne|]. cbn [String.length] in *. lia.
Qed.

(** [None] is never the result of [attributes_fromstring]. *)
Lemma attributes_fromstring_total str : is_Some (attributes_fromstring str).
Proof.
  unfold attributes_fromstring. repeat case_match; try by eexists. apply attributes_from_total. lia.
Qed.

Lemma str_drop_spn set s c t : str_drop (strspn set s) s = String c t -> in_set set c = false.
Proof.
  induction s as [|x s IH]; [done|]. cbn [strspn]. destruct (in_set set x) eqn:E; [exact IH|].
  rewrite str_drop_0. by intros [= -> ->].
Qed.

Lemma style_parse_from_total fuel base saved sy s : (String.length s < fuel)%nat ->
  exists r sy', style_parse_from fuel base saved sy s = Some (r, sy') /\ (r = 0 \/ r = -1 /\ sy' = saved).
Proof.
  revert sy s; induction fuel as [|fuel IH]; intros sy s Hf; [lia|]. cbn [style_parse_from].
  pose proof (str_drop_length (strspn style_delimiters s) s) as Hl.
  destruct (str_drop (strspn style_delimiters s) s) as [|c t] eqn:E; [by eauto 10|].
  apply str_drop_spn in E. destruct (String.eqb_spec (String c t) "") as [|_]; [done|].
  destruct (255 <? _)%nat; [by exists (-1), saved; auto|].
  destruct (style_token _ _ _) as [sy'|]; [|by exists (-1), saved; auto].
  destruct (String.eqb _ ""); [by eauto 10|]. apply IH. rewrite str_drop_length.
  cbn [strcspn]. rewrite E. cbn [String.length Nat.add Nat.sub] in *. lia.
Qed.

(** Parsing always ends, and a style that cannot be parsed changes nothing. *)
Lemma style_parse_total base sy s : exists r sy',
  style_parse sy base s = Some (r, sy') /\ (r = 0 \/ r = -1 /\ sy' = sy).
Proof.
  unfold style_parse. destruct (String.eqb s ""); [by eauto 10|]. apply style_parse_from_total. lia.
Qed.

(** ** Properties *)

Open Scope string_scope.
Open Scope Z_scope.

(** ** Theorems *)


(** The string does not fit for some of them: then xsnprintf ends the program. *)
Lemma style_tostring_fits sy : style_ok sy ->
  style_tostring sy = None <-> (256 <= String.length (String.concat "," (style_words sy)))%nat.
Proof.
  intros Hok. rewrite style_tostring_words by done. unfold printed_style.
  destruct (Nat.ltb_spec (String.length (String.concat "," (style_words sy))) 256); split; (done || lia).
Qed.

(** *** What is lost, and what is fatal *)

Definition long_style : string :=
  "list=right-marker,range=right,align=absolute-centre,push-default,fill=brightmagenta,fg=brightmagenta," +:+
  "bg=brightmagenta,us=brightmagenta,acs,bright,dim,underscore,blink,reverse,hidden,italics," +:+
  "strikethrough,double-underscore,curly-underscore,dotted-underscore,dashed-underscore,overline".

(** A style that is accepted ends the program when it is printed: the
    words of [long_style] are all valid, and they do not fit in the buffer of
    [style_tostring]. *)
Theorem style_tostring_overflow : exists sy,
  style_parse (style_set grid_default_cell) grid_default_cell long_style = Some (0, sy) /\
  style_tostring sy = None.
Proof.
  exists (default style_default
    (snd <$> style_parse (style_set grid_default_cell) grid_default_cell long_style)).
  split; vm_compute; reflexivity.
Qed.

(** A control range is not printed: what is printed does not say it, and is
    not a style. *)
Lemma style_tostring_control n :
  style_tostring (set_range (Range STYLE_RANGE_CONTROL n "") (style_set grid_default_cell)) = Some "range=" /\
  style_parse (style_set grid_default_cell) grid_default_cell "range=" =
    Some (-1, style_set grid_default_cell).
Proof. split; vm_compute; reflexivity. Qed.

(** An option that is not a style changes the colour of underscores to black:
    the default style says 0, not 8. *)
Lemma style_add_default gc : gc_us (style_add gc None) = 0.
Proof. reflexivity. Qed.

(** ** Witness *)




