(* ===== verification/GridProps.v ===== *)
(** * The properties of the grid *)
From S2P Require Import Prelude.
From S2P Require Import Utf8.
From S2P Require Import Utf8Props.
From S2P Require Import CellCodec.
From S2P Require Import Grid.
From S2P Require Import GridFacts.

Section Props.
Context `{CellCodec}.

Lemma check_y gd py : grid_ok gd -> 0 <= py ->
  grid_check_y gd py = (py <? hsize gd + g_sy gd).
Proof. intros [] Hpy. unfold grid_check_y. by rewrite u32_small by lia. Qed.

Lemma get_line_lookup gd py : grid_ok gd -> 0 <= py < hsize gd + g_sy gd ->
  linedata gd !! Z.to_nat py = Some (grid_get_line gd py).
Proof.
  intros [] Hpy. unfold grid_get_line.
  destruct (lookup_lt_is_Some_2 (linedata gd) (Z.to_nat py)) as [gl E]; [lia|].
  by rewrite E, (nth_lookup_Some _ _ _ _ E).
Qed.

Lemma get_line_ok gd py : grid_ok gd -> 0 <= py < hsize gd + g_sy gd -> line_ok (grid_get_line gd py).
Proof.
  intros Hok Hpy. pose proof (get_line_lookup gd py Hok Hpy) as E.
  pose proof (go_lines _ Hok) as Hf. rewrite Forall_lookup in Hf. eauto.
Qed.

(** Reading a cell is reading the view of its line. *)
Lemma get_cell_view gd px py : grid_ok gd -> 0 <= px -> 0 <= py ->
  grid_get_cell gd px py =
  if py <? hsize gd + g_sy gd then
    default grid_default_cell (line_view (grid_get_line gd py) !! Z.to_nat px)
  else grid_default_cell.
Proof.
  intros Hok Hpx Hpy. unfold grid_get_cell. rewrite check_y by done.
  destruct (Z.ltb_spec py (hsize gd + g_sy gd)); cbn [negb orb]; [|done].
  destruct (Z.leb_spec (cellsize (grid_get_line gd py)) px).
  - rewrite (lookup_ge_None_2 (line_view _)); [done|]. rewrite view_length. unfold cellsize in *. lia.
  - by rewrite get_view by lia.
Qed.

Lemma get_update_line gd f py py' : grid_ok gd -> 0 <= py < hsize gd + g_sy gd -> 0 <= py' ->
  grid_get_line (update_line py f gd) py' =
  if decide (py' = py) then f (grid_get_line gd py) else grid_get_line gd py'.
Proof.
  intros Hok Hpy Hpy'. unfold grid_get_line, update_line. cbn [linedata set_linedata].
  pose proof (get_line_lookup gd py Hok Hpy) as E. unfold grid_get_line in E.
  case_decide as Heq.
  - subst py'. apply nth_lookup_Some. by rewrite list_lookup_alter_eq, E.
  - destruct (lookup_lt_is_Some (linedata gd) (Z.to_nat py')) as [_ _].
    rewrite <- !nth_lookup_or_length with (d := gl_zero) || idtac.
    rewrite !nth_lookup, list_lookup_alter_ne by lia. done.
Qed.

Lemma update_line_ok gd f py : grid_ok gd -> 0 <= py < hsize gd + g_sy gd ->
  line_ok (f (grid_get_line gd py)) -> grid_ok (update_line py f gd).
Proof.
  intros Hok Hpy Hf. pose proof (get_line_lookup gd py Hok Hpy) as E. destruct Hok.
  split; cbn; try done.
  - rewrite Forall_lookup in *. intros i gl Hi. destruct (decide (i = Z.to_nat py)) as [-> | Hne].
    + rewrite list_lookup_alter_eq, E in Hi. cbn in Hi. by injection Hi as <-.
    + rewrite list_lookup_alter_ne in Hi by done. eauto.
  - by rewrite length_alter.
Qed.

Lemma cells_equal_refl gc : grid_cells_equal gc gc = true.
Proof.
  unfold grid_cells_equal, grid_cells_look_equal. rewrite !Z.eqb_refl. cbn [andb].
  by apply bool_decide_true.
Qed.

(** Cells that are the same, or both blank: a line that grows reads as blank
    cells where it read as the default cell. *)
Definition empty_cell (gc : grid_cell) : Prop := gc = grid_default_cell \/ is_blank 8 gc.
Definition same_cell (a b : grid_cell) : Prop := a = b \/ (empty_cell a /\ empty_cell b).

#[global] Instance same_cell_equivalence : Equivalence same_cell.
Proof.
  split.
  - by left.
  - intros a b [->|[]]; [by left|by right].
  - intros a b c [->|[]]; [done|]. intros [->|[]]; by right.
Qed.

Lemma same_equal a b : same_cell a b -> grid_cells_equal a b = true.
Proof. by intros [-> |[[-> |[-> | ->]] [-> |[-> | ->]]]]; [apply cells_equal_refl|..]. Qed.

(** A line that grew reads the same. *)
Lemma grown_view (v t : list grid_cell) n : Forall (is_blank 8) t ->
  same_cell (default grid_default_cell ((v ++ t) !! n)) (default grid_default_cell (v !! n)).
Proof.
  intros Hb. destruct (v !! n) as [c|] eqn:E.
  - by rewrite (lookup_app_l_Some _ _ _ _ E).
  - rewrite lookup_app_r by (by apply lookup_ge_None). cbn.
    destruct (t !! _) as [c|] eqn:Et; cbn; [|done].
    right. split; [right; by eapply Forall_lookup in Hb|by left].
Qed.

Lemma set_cell_reads gd px py gc v :
  grid_ok gd -> 0 <= px -> 0 <= py < hsize gd + g_sy gd -> storable gc v ->
  let gd' := grid_set_cell gd px py gc in
  grid_ok gd' /\ grid_get_cell gd' px py = v /\
  (forall px' py', 0 <= px' -> 0 <= py' -> (px' <> px \/ py' <> py) ->
     same_cell (grid_get_cell gd' px' py') (grid_get_cell gd px' py')) /\
  hsize gd' = hsize gd /\ g_sx gd' = g_sx gd /\ g_sy gd' = g_sy gd.
Proof.
  intros Hok Hpx Hpy Hgc. cbv zeta. unfold grid_set_cell. rewrite check_y by (done || lia).
  rewrite (proj2 (Z.ltb_lt _ _)) by lia.
  pose proof (get_line_ok gd py Hok Hpy) as Hl.
  destruct (set_cell_line_ok (g_sx gd) px gc v _ Hl Hpx Hgc) as (Hl' & _ & _ & t & Hb & Hlt & Hv).
  pose proof (update_line_ok gd _ py Hok Hpy Hl') as Hok'.
  split_and!; [done| | |done|done|done].
  - rewrite get_cell_view by (done || lia). cbn [hsize g_sy update_line set_linedata].
    rewrite (proj2 (Z.ltb_lt _ _)) by lia. rewrite get_update_line, decide_True by (done || lia).
    rewrite Hv, list_lookup_insert_eq by lia. done.
  - intros px' py' Hpx' Hpy' Hne. rewrite !get_cell_view by (done || lia).
    cbn [hsize g_sy update_line set_linedata]. destruct (Z.ltb_spec py' (hsize gd + g_sy gd)) as [Hy|];
      [|done].
    rewrite get_update_line by done. case_decide as Heq; [|done].
    subst py'. rewrite Hv, list_lookup_insert_ne by (destruct Hne; [lia|done]).
    by apply grown_view.
Qed.

(** C23. Storing a cell and reading it back: [grid_get_cell] after
    [grid_set_cell] gives exactly the cell, whatever its attributes, colours,
    link and character (in the entry itself or in an extended cell); every
    other cell of the grid reads as before up to [grid_cells_equal] (a cell the
    line grows by reads as a cleared one), and the grid keeps its invariant
    and its size. *)
Theorem grid_set_get_cell gd px py gc :
  grid_ok gd -> 0 <= px -> 0 <= py < hsize gd + g_sy gd -> cell_ok gc ->
  let gd' := grid_set_cell gd px py gc in
  grid_ok gd' /\ grid_get_cell gd' px py = gc /\
  (forall px' py', 0 <= px' -> 0 <= py' -> (px' <> px \/ py' <> py) ->
     grid_cells_equal (grid_get_cell gd' px' py') (grid_get_cell gd px' py') = true) /\
  hsize gd' = hsize gd /\ g_sx gd' = g_sx gd /\ g_sy gd' = g_sy gd.
Proof.
  intros Hok Hpx Hpy Hgc. cbv zeta.
  destruct (set_cell_reads gd px py gc gc Hok Hpx Hpy (cell_storable gc Hgc)) as (H1 & H2 & H3 & H4).
  split_and!; try done; try apply H4. intros px' py' Hpx' Hpy' Hne. by apply same_equal, H3.
Qed.

(** [grid_compact_line] does not change what any cell of the line reads
    as, and keeps exactly one extended cell for each cell that has one. *)
Theorem grid_compact_line_ok gl : line_ok gl ->
  let gl' := grid_compact_line gl in
  line_ok gl' /\ cellsize gl' = cellsize gl /\ cellused gl' = cellused gl /\
  (forall px, 0 <= px < cellsize gl -> grid_get_cell1 gl' px = grid_get_cell1 gl px) /\
  extdsize gl' = Z.of_nat (length (filter (fun gce => extended gce = true) (celldata gl))).
Proof.
  intros Hok. cbv zeta. destruct (compact_line_ok gl Hok) as (H1 & H2 & H3 & _ & _ & H6).
  assert (Hs : cellsize (grid_compact_line gl) = cellsize gl).
  { unfold cellsize. by rewrite <- !view_length, H2. }
  split_and!; try done. intros px Hpx.
  pose proof (get_view (grid_compact_line gl) px ltac:(lia)) as E1.
  pose proof (get_view gl px Hpx) as E2. rewrite H2 in E1. congruence.
Qed.

(** ** Positions on logical lines *)

Definition count_ends (l : list grid_line) : Z :=
  Z.of_nat (length (filter (fun gl => wrapped gl = false) l)).

(** Lines before a logical line: none, or the last one ends a logical line. *)
Definition whole (l : list grid_line) : Prop :=
  l = [] \/ exists l' gl, l = l' ++ [gl] /\ wrapped gl = false.

Lemma split_whole (l : list grid_line) : exists pre w, l = pre ++ w /\ whole pre /\
  Forall (fun gl => wrapped gl = true) w.
Proof.
  induction l as [|gl l IH] using rev_ind; [by exists [], []; split_and!; [|left|]|].
  destruct IH as (pre & w & -> & Hp & Hw). destruct (wrapped gl) eqn:E.
  - exists pre, (w ++ [gl]). rewrite app_assoc. split_and!; [done|done|].
    apply Forall_app. by repeat constructor.
  - exists ((pre ++ w) ++ [gl]), []. rewrite app_nil_r. split_and!; [done| |done].
    right. by exists (pre ++ w), gl.
Qed.

Lemma whole_tail gl l : whole (gl :: l) -> whole l /\ 1 <= count_ends (gl :: l).
Proof.
  intros [|(l' & x & E & Hx)]; [done|]. split.
  - destruct l' as [|y l']; [by left; injection E as _ ->|]. injection E as _ ->.
    right. by exists l', x.
  - rewrite E. unfold count_ends. rewrite filter_app, length_app, filter_cons_True by done. cbn. lia.
Qed.

Lemma find_unwrapped_whole pre rest : whole pre -> forall yy ay,
  find_unwrapped (pre ++ rest) yy ay (ay + count_ends pre) = yy + Z.of_nat (length pre).
Proof.
  induction pre as [|gl pre IH]; intros Hw yy ay; cbn [app].
  - unfold count_ends; cbn. rewrite !Z.add_0_r. destruct rest; cbn; [done|]. by rewrite Z.eqb_refl.
  - destruct (whole_tail _ _ Hw) as [Hw' Hc]. cbn [find_unwrapped].
    destruct (Z.eqb_spec ay (ay + count_ends (gl :: pre))); [lia|].
    specialize (IH Hw' (yy + 1)). unfold count_ends in *.
    destruct (wrapped gl) eqn:E; [rewrite filter_cons_False by congruence|rewrite filter_cons_True by done];
      cbn [length]; [specialize (IH ay)|specialize (IH (ay + 1))];
      match goal with H : find_unwrapped _ _ _ ?n = _ |- find_unwrapped _ _ _ ?m = _ =>
        replace m with n by lia end; rewrite IH; lia.
Qed.

Definition used_sum (l : list grid_line) : Z := zsum (map cellused l).

Lemma used_sum_nonneg l : Forall line_ok l -> 0 <= used_sum l.
Proof.
  induction 1 as [|gl l Hgl _ IH]; [done|]. pose proof (lo_used _ Hgl).
  change (used_sum (gl :: l)) with (cellused gl + used_sum l). lia.
Qed.

Lemma walk_to_wrapped w : Forall (fun gl => wrapped gl = true) w -> forall gl rest yy px,
  Forall line_ok w -> 0 <= px < cellused gl ->
  walk_to (w ++ gl :: rest) yy (used_sum w + px) = Some (px, yy + Z.of_nat (length w)).
Proof.
  induction 1 as [|x w Hx Hw IH]; intros gl rest yy px Hok Hpx; cbn [app walk_to].
  - unfold used_sum; cbn. rewrite (proj2 (Z.leb_gt _ _)) by lia. rewrite andb_false_r.
    do 2 f_equal. lia.
  - apply Forall_cons in Hok as [Hokx Hok]. pose proof (used_sum_nonneg w Hok).
    change (used_sum (x :: w)) with (cellused x + used_sum w). rewrite Hx.
    rewrite (proj2 (Z.leb_le _ _)) by lia. cbn [andb].
    replace (cellused x + used_sum w + px - cellused x) with (used_sum w + px) by lia.
    rewrite IH by done. do 2 f_equal. cbn [length]. lia.
Qed.

Definition wrap_step (gd : grid) : Z * Z -> Z -> Z * Z := fun '(ax, ay) yy =>
    let gl := grid_get_line gd yy in
    if wrapped gl then (u32 (ax + cellused gl), ay) else (0, u32 (ay + 1)).

Lemma wrap_fold gd l : forall y0 ax ay,
  (forall k gl, l !! k = Some gl -> grid_get_line gd (y0 + Z.of_nat k) = gl) ->
  Forall line_ok l -> 0 <= ax -> 0 <= ay -> ax + used_sum l < 4294967296 ->
  ay + Z.of_nat (length l) < 4294967296 ->
  exists ax', foldl (wrap_step gd) (ax, ay) (seqZ y0 (Z.of_nat (length l))) =
                (ax', ay + count_ends l) /\
    (whole l -> l <> [] -> ax' = 0) /\
    (Forall (fun gl => wrapped gl = true) l -> ax' = ax + used_sum l).
Proof.
  induction l as [|gl l IH]; intros y0 ax ay Hl Hok Hax Hay Hs Hn.
  { exists ax. cbn. unfold count_ends, used_sum; cbn. rewrite Z.add_0_r. split_and!; try done. lia. }
  apply Forall_cons in Hok as [Hgl Hok]. pose proof (used_sum_nonneg l Hok).
  pose proof (lo_used _ Hgl). change (used_sum (gl :: l)) with (cellused gl + used_sum l) in *.
  cbn [length] in *. rewrite seqZ_cons by lia. cbn [foldl]. unfold wrap_step at 2.
  pose proof (Hl 0%nat gl eq_refl) as E. rewrite Z.add_0_r in E. rewrite E.
  replace (Z.pred (Z.of_nat (S (length l)))) with (Z.of_nat (length l)) by lia.
  assert (Hl' : forall k g, l !! k = Some g -> grid_get_line gd (Z.succ y0 + Z.of_nat k) = g).
  { intros k g Hk. rewrite <- (Hl (S k) g Hk). f_equal. lia. }
  destruct (wrapped gl) eqn:Ew.
  - rewrite (u32_small (ax + cellused gl)) by lia.
    destruct (IH (Z.succ y0) (ax + cellused gl) ay Hl' Hok) as (ax' & Hf & Hw1 & Hw2); [lia..|].
    exists ax'. rewrite Hf. split_and!.
    + unfold count_ends. by rewrite filter_cons_False by congruence.
    + intros Hw _. destruct (whole_tail _ _ Hw) as [Hw' Hc]. apply Hw1; [done|].
      intros ->. unfold count_ends in Hc. rewrite filter_cons_False in Hc by congruence. cbn in Hc. lia.
    + intros Hw. apply Forall_cons in Hw as [_ Hw]. rewrite (Hw2 Hw). lia.
  - rewrite (u32_small (ay + 1)) by lia.
    destruct (IH (Z.succ y0) 0 (ay + 1) Hl' Hok) as (ax' & Hf & Hw1 & Hw2); [lia..|].
    exists ax'. rewrite Hf. split_and!.
    + unfold count_ends. rewrite filter_cons_True by done. cbn [length]. f_equal. lia.
    + intros Hw _. destruct (whole_tail _ _ Hw) as [Hw' _].
      destruct l as [|x l]; [|by apply Hw1]. rewrite Hw2 by constructor. done.
    + intros Hw. apply Forall_cons in Hw as [Hw _]. congruence.
Qed.

(** A cell's position on the logical lines, and back: for every cell
    that is used, [grid_unwrap_position] of what [grid_wrap_position] gives is
    the position itself (as long as the lines together have fewer than
    [UINT_MAX] cells). *)
Theorem grid_wrap_unwrap_position gd px py :
  grid_ok gd -> used_sum (linedata gd) < UINT_MAX ->
  0 <= py < hsize gd + g_sy gd -> 0 <= px < cellused (grid_get_line gd py) ->
  let '(wx, wy) := grid_wrap_position gd px py in
  grid_unwrap_position gd wx wy = Some (px, py).
Proof.
  intros Hok Hsum Hpy Hpx. pose proof (get_line_lookup gd py Hok Hpy) as E.
  pose proof (go_lines _ Hok) as Hlines. pose proof (go_length _ Hok) as Hlen.
  pose proof (go_size _ Hok) as Hsize.
  set (gl := grid_get_line gd py) in *.
  pose proof (take_drop_middle _ _ _ E) as Hsplit.
  set (l1 := take (Z.to_nat py) (linedata gd)) in *.
  set (l2 := drop (S (Z.to_nat py)) (linedata gd)) in *.
  assert (Hl1 : length l1 = Z.to_nat py) by (unfold l1; rewrite length_take; lia).
  destruct (split_whole l1) as (pre & w & El1 & Hpre & Hw).
  rewrite <- Hsplit in Hlines, Hsum. rewrite El1 in Hlines, Hsum.
  apply Forall_app in Hlines as [Hl Hlines]. apply Forall_app in Hl as [Hlp Hlw].
  apply Forall_cons in Hlines as [Hgl Hl2].
  unfold used_sum in Hsum. rewrite !map_app, !zsum_app in Hsum. cbn [map] in Hsum.
  change (zsum (cellused gl :: map cellused l2)) with (cellused gl + used_sum l2) in Hsum.
  fold (used_sum pre) (used_sum w) in Hsum.
  pose proof (used_sum_nonneg _ Hlp). pose proof (used_sum_nonneg _ Hlw).
  pose proof (used_sum_nonneg _ Hl2). pose proof (f_equal length El1) as Hlen1.
  rewrite length_app in Hlen1. unfold UINT_MAX in Hsum.
  assert (Hg : forall k g, linedata gd !! k = Some g -> grid_get_line gd (Z.of_nat k) = g).
  { intros k g Hk. unfold grid_get_line. rewrite Nat2Z.id. by apply nth_lookup_Some. }
  assert (Hc0 : count_ends w = 0).
  { unfold count_ends. replace (filter (fun g => wrapped g = false) w) with (@nil grid_line); [done|].
    symmetry. clear -Hw. induction Hw as [|x w Hx _ IH]; [done|].
    by rewrite filter_cons_False by congruence. }
  assert (Hfold : foldl (wrap_step gd) (0, 0) (seqZ 0 py) = (used_sum w, count_ends pre)).
  { replace py with (Z.of_nat (length pre) + Z.of_nat (length w)) by lia.
    rewrite seqZ_app by lia. rewrite foldl_app.
    destruct (wrap_fold gd pre 0 0 0) as (ax1 & -> & Hax1 & Hax1'); [|done|lia..|].
    { intros k g Hk. apply Hg. rewrite <- Hsplit, El1. rewrite <- app_assoc.
      by apply lookup_app_l_Some. }
    destruct (wrap_fold gd w (0 + Z.of_nat (length pre)) 0 (0 + count_ends pre))
      as (ax2 & Hf & _ & Hax2); [|done|lia| |lia| |].
    { intros k g Hk. replace (0 + Z.of_nat (length pre) + Z.of_nat k)
        with (Z.of_nat (length pre + k)) by lia.
      apply Hg. rewrite <- Hsplit, El1. rewrite <- app_assoc, lookup_app_r by lia.
      replace (length pre + k - length pre)%nat with k by lia. by apply lookup_app_l_Some. }
    { unfold count_ends. lia. }
    { unfold count_ends. pose proof (length_filter (fun gl => wrapped gl = false) pre). lia. }
    assert (Hz : ax1 = 0).
    { destruct (decide (pre = [])) as [-> | Hne]; [by rewrite Hax1' by constructor|by apply Hax1]. }
    rewrite Hz, Hf, (Hax2 Hw), Hc0. f_equal; lia. }
  unfold grid_wrap_position. fold (wrap_step gd). rewrite Hfold. fold gl.
  rewrite (proj2 (Z.leb_gt (cellused gl) px)) by lia.
  rewrite (u32_small (used_sum w + px)) by lia.
  unfold grid_unwrap_position. rewrite (u32_small (hsize gd + g_sy gd - 1)) by lia.
  assert (Htake : exists r, take (Z.to_nat (hsize gd + g_sy gd - 1)) (linedata gd) = pre ++ r).
  { rewrite <- Hsplit, El1, <- app_assoc. rewrite take_app_ge by lia. by eexists. }
  destruct Htake as [r ->].
  pose proof (find_unwrapped_whole pre r Hpre 0 0) as Hfind. rewrite !Z.add_0_l in Hfind.
  rewrite Hfind, Nat2Z.id.
  rewrite (proj2 (Z.eqb_neq _ UINT_MAX)) by (unfold UINT_MAX; lia).
  replace (drop (length pre) (linedata gd)) with (w ++ gl :: l2).
  2:{ by rewrite <- Hsplit, El1, <- app_assoc, drop_app_length. }
  rewrite walk_to_wrapped by (done || lia). do 2 f_equal. lia.
Qed.

End Props.

(** ** Padding *)

(** A padding cell, which the code means to be the only cell of width
    zero ("because of this, they are always extended cells"), does not need an
    extended cell, so it is stored as a plain cell and reads back with width
    one. *)
Theorem grid_padding_reads_wide (codec : CellCodec) :
  ud_width (gc_data grid_padding_cell) = 0 /\
  let gd := grid_set_padding (grid_create 4 1 0) 1 0 in
  let gc := grid_get_cell gd 1 0 in
  has (gc_flags gc) GRID_FLAG_PADDING = true /\ ud_width (gc_data gc) = 1 /\
  gl_flags (grid_get_line gd 0) = 0.
Proof. split; [reflexivity|]. vm_compute. auto. Qed.

(** ** Instances *)

(** A red wide character with a link, after which a tab is written. *)
Definition wide_cell : grid_cell :=
  GC (UD (pad_data [0xe4; 0xbd; 0xa0]) 3 3 2) 1 0 (COLOUR_FLAG_RGB + 0xff0000) 8 8 5.

Lemma wide_cell_ok : cell_ok (H:=plain_codec) wide_cell.
Proof.
  split.
  - cbn; lia.
  - cbn; lia.
  - reflexivity.
  - left. reflexivity.
  - right. left. cbn. lia.
  - change (has (gc_flags wide_cell) GRID_FLAG_TAB) with false. cbn iota.
    split; [|split; [reflexivity|left; cbn; lia]]. split; [|left; cbn; lia].
    split; cbn; try reflexivity; try lia. repeat (constructor; [lia|]). constructor.
Qed.

Lemma grid_set_get_cell_witness :
  let gd' := grid_set_cell (H:=plain_codec) (grid_create 8 2 10) 3 1 wide_cell in
  grid_ok gd' /\ grid_get_cell (H:=plain_codec) gd' 3 1 = wide_cell.
Proof.
  destruct (grid_set_get_cell (H:=plain_codec) (grid_create 8 2 10) 3 1 wide_cell) as (Hok & E & _).
  - apply grid_okb_sound. vm_compute. reflexivity.
  - lia.
  - cbn. lia.
  - exact wide_cell_ok.
  - split; [exact Hok|exact E].
Defined.

(** Two extended cells of three are used. *)
Definition sparse_line : grid_line :=
  GL [GCE (Offset 2) GRID_FLAG_EXTENDED; grid_cleared_entry; GCE (Offset 0) GRID_FLAG_EXTENDED] 3
     [GEE (utf8_build_one 97) 0 0 1 8 8 0; GEE 0 0 0 0 0 0 0; GEE (utf8_build_one 98) 0 0 2 8 8 0] 2 0.

Lemma grid_compact_line_ok_witness :
  extdsize (grid_compact_line sparse_line) = 2 /\
  grid_get_cell1 (H:=plain_codec) (grid_compact_line sparse_line) 2 =
  grid_get_cell1 (H:=plain_codec) sparse_line 2.
Proof.
  destruct (grid_compact_line_ok (H:=plain_codec) sparse_line) as (_ & _ & _ & Hc & He).
  - apply line_okb_sound. vm_compute. reflexivity.
  - split; [rewrite He; vm_compute; reflexivity|]. apply Hc. split; vm_compute; congruence.
Defined.

(** Three lines, of which the first two are one logical line. *)
Definition wrapped_grid : grid :=
  let line f := GL [GCE (Data 0 8 8 97) 0; GCE (Data 0 8 8 98) 0] 2 [] f 0 in
  Grid 0 2 3 0 0 0 [line 0; line GRID_LINE_WRAPPED; line 0].

Lemma grid_wrap_unwrap_position_witness :
  grid_wrap_position wrapped_grid 1 2 = (3, 1) /\
  grid_unwrap_position wrapped_grid 3 1 = Some (1, 2).
Proof.
  split; [vm_compute; reflexivity|].
  apply (grid_wrap_unwrap_position wrapped_grid 1 2).
  - apply grid_okb_sound. vm_compute. reflexivity.
  - vm_compute. reflexivity.
  - split; vm_compute; congruence.
  - split; vm_compute; congruence.
Defined.

(** ** Text in the grid

    [grid_set_cells] puts the characters of a string next to each other, each
    with the attributes of one cell. *)

Lemma inserts_outside {A} (l k : list A) i j : (j < i \/ i + length k <= j)%nat ->
  list_inserts i k l !! j = l !! j.
Proof. intros [?|?]; [by apply list_lookup_inserts_lt|by apply list_lookup_inserts_ge]. Qed.

Section Text.
Context `{CellCodec}.

(** The cell of a character of the string. *)
Definition char_cell (gc : grid_cell) (ch : Z) : grid_cell :=
  GC (utf8_set ch) (gc_attr gc) (gc_flags gc) (gc_fg gc) (gc_bg gc) (gc_us gc) (gc_link gc).

(** A cell text can be written with: of one column and one byte. *)
Record text_cell (gc : grid_cell) : Prop := TextCell {
  tc_size : ud_size (gc_data gc) = 1;
  tc_width : ud_width (gc_data gc) = 1;
  tc_attr : 0 <= gc_attr gc;
  tc_flags : 0 <= gc_flags gc < 256;
  tc_bits : Z.land (gc_flags gc) 0x4b = 0;
  tc_tab : has (gc_flags gc) GRID_FLAG_TAB = false;
  tc_fg : colour_ok (gc_fg gc);
  tc_bg : colour_ok (gc_bg gc)
}.

Lemma char_cell_ok gc ch : text_cell gc -> 0 <= ch < 256 -> cell_ok (char_cell gc ch).
Proof.
  intros [] Hch. split; cbn; try done. rewrite tc_tab0. split_and!; [by apply packable_one|done|].
  right. right. by exists ch.
Qed.

Lemma gee_view_char gc ch : text_cell gc -> 0 <= ch < 256 ->
  gee_view (GEE (utf8_build_one ch) (gc_attr gc) (without (gc_flags gc) GRID_FLAG_CLEARED)
    (gc_fg gc) (gc_bg gc) (gc_us gc) (gc_link gc)) = char_cell gc ch.
Proof.
  intros Ht Hch. rewrite <- (gee_view_ok (char_cell gc ch)) by by apply char_cell_ok.
  unfold gee_view, char_cell. cbn [gc_flags gc_data gc_attr gc_fg gc_bg gc_us gc_link gee_flags gee_data
    gee_attr gee_fg gee_bg gee_us gee_link].
  rewrite (proj1 (flags_clean _ (tc_flags _ Ht) (tc_bits _ Ht))), (tc_tab _ Ht).
  rewrite unpack_one by done. rewrite unpack_pack by by apply packable_one. done.
Qed.

Lemma store_char_stored gl px gc ch : line_ok gl -> 0 <= px < cellsize gl -> text_cell gc ->
  0 <= ch < 256 -> stored px gl (store_char px gc ch gl) (char_cell gc ch).
Proof.
  intros Hok Hpx Ht Hch. unfold store_char.
  assert (En : grid_need_extended_cell (get_gce gl px) gc =
               grid_need_extended_cell (get_gce gl px) (char_cell gc ch)).
  { unfold grid_need_extended_cell. cbn. by rewrite (tc_size _ Ht), (tc_width _ Ht). }
  rewrite En. destruct (grid_need_extended_cell (get_gce gl px) (char_cell gc ch)) eqn:E.
  - unfold grid_extended_cell. fold (extended (get_gce gl px)). rewrite <- (gee_view_char gc ch Ht Hch).
    destruct (extended (get_gce gl px)) eqn:Ex; cbn [negb].
    + pose proof (lo_ext _ Hok _ _ (get_gce_lookup gl px Hpx) Ex) as Hr. unfold extdsize in *.
      rewrite (proj2 (Z.leb_gt _ _)) by lia. cbn. rewrite alter_insert_same by lia. cbn.
      exact (stored_old px gl (get_gce gl px) _ _ eq_refl Ex Ex).
    + cbn [grid_get_extended_cell gce_offset gce_union_of extddata set_extddata put_gce set_celldata].
      rewrite extd_nat, insert_snoc, alter_app_r_alt, Nat.sub_diag by done. cbn [alter list_alter gce_offset gce_union_of].
      apply (stored_new px gl (GCE (Offset (extdsize gl)) _) _); [done|]. by apply has_lor_self.
  - destruct (need_plain _ _ (char_cell_ok gc ch Ht Hch) E) as [Ev Ee].
    change (grid_store_cell gc ch) with (grid_store_cell (char_cell gc ch) ch).
    pose proof (stored_plain px gl _ (gl_flags gl) Ee) as Hp. rewrite Ev in Hp. by destruct gl.
Qed.

Lemma store_chars_ok gc s : text_cell gc -> Forall (fun ch => 0 <= ch < 256) s -> forall px gl,
  line_ok gl -> 0 <= px -> px + Z.of_nat (length s) <= cellsize gl ->
  let gl' := snd (foldl (fun '(i, gl) c => (i + 1, store_char i gc c gl)) (px, gl) s) in
  line_ok gl' /\ cellused gl' = cellused gl /\
  line_view gl' = list_inserts (Z.to_nat px) (map (char_cell gc) s) (line_view gl).
Proof.
  intros Ht Hs. induction Hs as [|ch s Hch Hs IH]; intros px gl Hok Hpx Hlen; [done|].
  cbn [foldl length map list_inserts] in *.
  destruct (stored_ok px gl _ _ Hok ltac:(lia) (store_char_stored gl px gc ch Hok ltac:(lia) Ht Hch))
    as (Hok1 & Hv1 & Hu1 & _).
  assert (Hsz : cellsize (store_char px gc ch gl) = cellsize gl).
  { unfold cellsize. by rewrite <- view_length, Hv1, length_insert, view_length. }
  destruct (IH (px + 1) _ Hok1 ltac:(lia) ltac:(lia)) as (Hok2 & Hu2 & Hv2).
  split_and!; [done|congruence|]. rewrite Hv2, Hv1.
  replace (Z.to_nat (px + 1)) with (S (Z.to_nat px)) by lia.
  by rewrite list_insert_inserts_lt by lia.
Qed.

Lemma set_cells_line_ok w px gc s gl : line_ok gl -> 0 <= px -> text_cell gc ->
  Forall (fun ch => 0 <= ch < 256) s ->
  let gl' := set_cells_line w px gc s gl in
  line_ok gl' /\ exists t, Forall (is_blank 8) t /\
    px + Z.of_nat (length s) <= Z.of_nat (length (line_view gl ++ t)) /\
    line_view gl' = list_inserts (Z.to_nat px) (map (char_cell gc) s) (line_view gl ++ t).
Proof.
  intros Hok Hpx Ht Hs gl'. subst gl'. unfold set_cells_line. set (n := Z.of_nat (length s)).
  destruct (expand_line_ok w (px + n) 8 gl Hok ltac:(right; left; lia))
    as (Hok1 & Hsz & Hu & Htm & t & Hb & Hv & _).
  destruct (use_more (px + n) _ Hok1) as (Hok2 & Hv2 & Hs2 & _ & _); [lia|].
  destruct (store_chars_ok gc s Ht Hs px _ Hok2 Hpx) as (Hok3 & _ & Hv3); [subst n; lia|].
  split; [done|]. exists t. split_and!; [done| |by rewrite Hv3, Hv2, Hv].
  rewrite <- Hv, view_length. unfold cellsize in *. subst n. lia.
Qed.

(** Writing a string: each character reads back as itself with the attributes of
    the cell, the other cells of the grid read as before. *)
Lemma set_cells_ok gd px py gc s :
  grid_ok gd -> 0 <= px -> 0 <= py < hsize gd + g_sy gd -> text_cell gc ->
  Forall (fun ch => 0 <= ch < 256) s ->
  let gd' := grid_set_cells gd px py gc s in
  grid_ok gd' /\
  (forall i ch, s !! i = Some ch -> grid_get_cell gd' (px + Z.of_nat i) py = char_cell gc ch) /\
  (forall px' py', 0 <= px' -> 0 <= py' ->
     (py' <> py \/ px' < px \/ px + Z.of_nat (length s) <= px') ->
     same_cell (grid_get_cell gd' px' py') (grid_get_cell gd px' py')) /\
  hsize gd' = hsize gd /\ g_sx gd' = g_sx gd /\ g_sy gd' = g_sy gd.
Proof.
  intros Hok Hpx Hpy Ht Hs. cbv zeta. unfold grid_set_cells. rewrite check_y by (done || lia).
  rewrite (proj2 (Z.ltb_lt _ _)) by lia.
  destruct (set_cells_line_ok (g_sx gd) px gc s _ (get_line_ok gd py Hok Hpy) Hpx Ht Hs)
    as (Hl' & t & Hb & Hlt & Hv).
  pose proof (update_line_ok gd _ py Hok Hpy Hl') as Hok'.
  split_and!; [done| | |done|done|done].
  - intros i ch Hi. pose proof (lookup_lt_Some _ _ _ Hi).
    rewrite get_cell_view by (done || lia). cbn [hsize g_sy update_line set_linedata].
    rewrite (proj2 (Z.ltb_lt _ _)) by lia. rewrite get_update_line, decide_True by (done || lia).
    rewrite Hv, list_lookup_inserts by (rewrite ?length_map; lia).
    replace (Z.to_nat (px + Z.of_nat i) - Z.to_nat px)%nat with i by lia.
    by rewrite list_lookup_fmap, Hi.
  - intros px' py' Hpx' Hpy' Hne. rewrite !get_cell_view by (done || lia).
    cbn [hsize g_sy update_line set_linedata]. destruct (Z.ltb_spec py' (hsize gd + g_sy gd)) as [Hy|];
      [|done].
    rewrite get_update_line by done. case_decide as Heq; [|done].
    subst py'. rewrite Hv, inserts_outside by (rewrite length_map; lia). by apply grown_view.
Qed.

End Text.
