(* ===== verification/Reflow.v ===== *)
(** * Reflow (src/tmux/screen/grid.c, [grid_reflow])

    The lines of a grid are moved to a new one, those too long for the new
    width split and those that were wrapped joined.  The target is a container
    of lines: [g_sy] of it is their number, its history is empty. *)
From S2P Require Import Prelude.
From S2P Require Import Utf8.
From S2P Require Import CellCodec.
From S2P Require Import Grid.

Section Reflow.
Context `{CellCodec}.

Definition set_g_sy n gd :=
  Grid (g_flags gd) (g_sx gd) n (hscrolled gd) (hsize gd) (hlimit gd) (linedata gd).
Definition set_g_sx n gd :=
  Grid (g_flags gd) n (g_sy gd) (hscrolled gd) (hsize gd) (hlimit gd) (linedata gd).
Definition set_g_flags f gd :=
  Grid f (g_sx gd) (g_sy gd) (hscrolled gd) (hsize gd) (hlimit gd) (linedata gd).

Definition grid_reflow_dead : grid_line := set_gl_flags GRID_LINE_DEAD gl_zero.

Definition dead (gl : grid_line) : bool := has (gl_flags gl) GRID_LINE_DEAD.

Definition kill_line (yy : Z) (gd : grid) : grid := update_line yy (fun _ => grid_reflow_dead) gd.

(** The index of the first new line is the old [g_sy]. *)
Definition grid_reflow_add (gd : grid) (n : Z) : grid :=
  set_g_sy (u32 (g_sy gd + n))
    (set_linedata (linedata gd ++ replicate (Z.to_nat n) gl_zero) gd).

(** A line to the end of the target. *)
Definition reflow_put (target : grid) (gl : grid_line) : grid :=
  let to := g_sy target in update_line to (fun _ => gl) (grid_reflow_add target 1).

(** The target and the source afterwards. *)
Definition grid_reflow_move (target gd : grid) (yy : Z) : grid * grid :=
  (reflow_put target (grid_get_line gd yy), kill_line yy gd).

Definition cell_width (gl : grid_line) (i : Z) : Z := ud_width (gc_data (grid_get_cell1 gl i)).

(** Joining as much of a line as fits, from cell [want] on: the target, the
    next column and the width of its last line, and the first cell left. *)
Fixpoint join_cells (n : nat) (from : grid_line) (sx to : Z) (target : grid)
    (at_ width want : Z) : grid * Z * Z * Z :=
  match n with
  | O => (target, at_, width, want)
  | S n =>
      let gc := grid_get_cell1 from want in
      let w := ud_width (gc_data gc) in
      if sx <? u32 (width + w) then (target, at_, width, want)
      else join_cells n from sx to (grid_set_cell target at_ to gc) (at_ + 1) (u32 (width + w))
             (want + 1)
  end.

(** What the loop of [grid_reflow_join] leaves: the lines it looked at, the
    last one it took cells from with the number of cells, and whether all were
    wrapped. *)
Record joined := Joined {
  j_target : grid;
  j_lines : Z;
  j_from : option grid_line;
  j_want : Z;
  j_wrapped : bool
}.

(** One turn for each line of the source, the last of which ends the loop. *)
Fixpoint join_loop (fuel : nat) (gd : grid) (sx yy to : Z) (at_ width : Z) (j : joined) :
    joined :=
  match fuel with
  | O => j
  | S fuel =>
      let line := u32 (yy + 1 + j_lines j) in
      if line =? u32 (hsize gd + g_sy gd) then j
      else
        let gl := grid_get_line gd line in
        let wrapped := wrapped gl && j_wrapped j in
        let stop := Joined (j_target j) (j_lines j) (j_from j) (j_want j) wrapped in
        if cellused gl =? 0 then
          if negb wrapped then stop
          else join_loop fuel gd sx yy to at_ width
                 (Joined (j_target j) (u32 (j_lines j + 1)) (j_from j) (j_want j) wrapped)
        else
          let gc := grid_get_cell1 gl 0 in
          let w := ud_width (gc_data gc) in
          if sx <? u32 (width + w) then stop
          else
            let '(target, at_, width, want) :=
              join_cells (Z.to_nat (cellused gl - 1)) gl sx to
                (grid_set_cell (j_target j) at_ to gc) (at_ + 1) (u32 (width + w)) 1 in
            let j := Joined target (u32 (j_lines j + 1)) (Some gl) want wrapped in
            if negb wrapped || negb (want =? cellused gl) || (width =? sx) then j
            else join_loop fuel gd sx yy to at_ width j
  end.

Definition unwrap (gl : grid_line) : grid_line :=
  set_gl_flags (without (gl_flags gl) GRID_LINE_WRAPPED) gl.

Definition wrap (gl : grid_line) : grid_line :=
  set_gl_flags (Z.lor (gl_flags gl) GRID_LINE_WRAPPED) gl.

(** [from->cellsize = from->cellused = left]. *)
Definition cut_line (left : Z) (gl : grid_line) : grid_line :=
  set_cellused left (set_celldata (take (Z.to_nat left) (celldata gl)) gl).

Definition grid_reflow_join (target gd : grid) (sx yy width : Z) (already : bool) : grid * grid :=
  let '(target, gd) := if already then (target, gd) else grid_reflow_move target gd yy in
  let to := u32 (g_sy target - 1) in
  let j := join_loop (S (length (linedata gd))) gd sx yy to (cellused (grid_get_line target to))
             width (Joined target 0 None 0 true) in
  let target := j_target j in
  let lines := j_lines j in
  match j_from j with
  | None => (target, gd)
  | Some from =>
      if lines =? 0 then (target, gd)
      else
        let left := u32 (cellused from - j_want j) in
        let '(target, gd, lines) :=
          if negb (left =? 0) then
            (target,
             update_line (u32 (yy + lines)) (cut_line left)
               (grid_move_cells gd 0 (j_want j) (u32 (yy + lines)) left 8),
             lines - 1)
          else (if negb (j_wrapped j) then update_line to unwrap target else target, gd, lines) in
        let gd := foldl (fun gd i => kill_line i gd) gd (seqZ (yy + 1) lines) in
        let gd :=
          if u32 (to + lines) <? hscrolled gd then set_hscrolled (u32 (hscrolled gd - lines)) gd
          else if to <? hscrolled gd then set_hscrolled to gd else gd in
        (target, gd)
  end.

(** The number of lines a long line takes, the first included. *)
Definition split_lines (gl : grid_line) (sx at_ : Z) : Z :=
  if negb (has (gl_flags gl) GRID_LINE_EXTENDED) then 1 + (cellused gl - 1) / sx
  else
    fst (foldl (fun '(lines, width) i =>
      let w := cell_width gl i in
      let '(lines, width) := if sx <? u32 (width + w) then (u32 (lines + 1), 0)
                             else (lines, width) in
      (lines, u32 (width + w))) (2, 0) (seqZ at_ (cellused gl - at_))).

(** The cells from [at_] on go to the new lines: the target, the last line and
    its width. *)
Definition split_cells (gl : grid_line) (sx at_ : Z) (target : grid) (line : Z) :
    grid * Z * Z :=
  let '(target, line, width, _) :=
    foldl (fun '(target, line, width, xx) i =>
      let gc := grid_get_cell1 gl i in
      let w := ud_width (gc_data gc) in
      let '(target, line, width, xx) :=
        if sx <? u32 (width + w) then (update_line line wrap target, line + 1, 0, 0)
        else (target, line, width, xx) in
      (grid_set_cell target xx line gc, line, u32 (width + w), xx + 1))
      (target, line, 0, 0) (seqZ at_ (cellused gl - at_)) in
  (target, line, width).

Definition grid_reflow_split (target gd : grid) (sx yy at_ : Z) : grid * grid :=
  let gl := grid_get_line gd yy in
  let lines := split_lines gl sx at_ in
  let first := g_sy target in
  let '(target, line, width) := split_cells gl sx at_ (grid_reflow_add target lines) (first + 1) in
  let target := if wrapped gl then update_line line wrap target else target in
  let target := update_line first (fun _ => wrap (cut_line at_ gl)) target in
  let gd := kill_line yy gd in
  let gd := if yy <=? hscrolled gd then set_hscrolled (u32 (hscrolled gd + lines - 1)) gd
            else gd in
  if (width <? sx) && wrapped gl then grid_reflow_join target gd sx yy width true
  else (target, gd).

(** The width of a line, and the cell at which the available width is hit. *)
Definition line_width (gl : grid_line) (sx : Z) : Z * Z :=
  if negb (has (gl_flags gl) GRID_LINE_EXTENDED)
  then (cellused gl, Z.min (cellused gl) sx)
  else
    foldl (fun '(width, at_) i =>
      let w := cell_width gl i in
      (u32 (width + w), if (at_ =? 0) && (sx <? u32 (width + w)) then i else at_))
      (0, 0) (seqZ 0 (cellused gl)).

(** One line of the source. *)
Definition reflow_line (sx : Z) : grid * grid -> Z -> grid * grid := fun '(target, gd) yy =>
  let gl := grid_get_line gd yy in
  if dead gl then (target, gd)
  else
    let '(width, at_) := line_width gl sx in
    if width =? sx then grid_reflow_move target gd yy
    else if sx <? width then grid_reflow_split target gd sx yy at_
    else if wrapped gl then grid_reflow_join target gd sx yy width false
    else grid_reflow_move target gd yy.

Definition grid_reflow (gd : grid) (sx : Z) : grid :=
  let '(target, gd) := foldl (reflow_line sx) (grid_create (g_sx gd) 0 0, gd)
                         (seqZ 0 (hsize gd + g_sy gd)) in
  let target := if g_sy target <? g_sy gd
                then grid_reflow_add target (g_sy gd - g_sy target) else target in
  let hsize' := u32 (g_sy target - g_sy gd) in
  Grid (g_flags gd) (g_sx gd) (g_sy gd) (Z.min (hscrolled gd) hsize') hsize' (hlimit gd)
       (linedata target).

End Reflow.
