(* ===== verification/Screen.v ===== *)
(** * Screens (src/tmux/screen/screen.c, src/tmux/screen/grid-view.c)

    A screen is a grid with a cursor, and the grid saved while a program uses
    the alternate screen.  [None] is a walk out of the grid. *)
From Stdlib Require Import Ascii String.
From S2P Require Import Prelude.
From S2P Require Import Utf8.
From S2P Require Import CellCodec.
From S2P Require Import Grid.
From S2P Require Import Reflow.

(** A selection of cells. *)
Record screen_sel := Sel {
  sel_hidden : bool;
  sel_rectangle : bool;
  sel_modekeys : Z;
  sel_sx : Z; sel_sy : Z;
  sel_ex : Z; sel_ey : Z;
  sel_clipx : Z;
  sel_cell : grid_cell
}.

Inductive screen_cursor_style :=
  SCREEN_CURSOR_DEFAULT | SCREEN_CURSOR_BLOCK | SCREEN_CURSOR_UNDERLINE | SCREEN_CURSOR_BAR.

(** What a screen shows besides its cells: the title with the stack of titles
    ([None] while it has not been made) and the count kept beside it, the path,
    the look of the cursor, the progress bar. *)
Record screen_info := Info {
  si_title : string;
  si_path : option string;
  si_titles : option (list string);
  si_ntitles : Z;
  si_cstyle : screen_cursor_style;
  si_default_cstyle : screen_cursor_style;
  si_ccolour : Z;
  si_default_ccolour : Z;
  si_default_mode : Z;
  si_progress_state : Z;
  si_progress : Z
}.

Definition set_si_title t i :=
  Info t (si_path i) (si_titles i) (si_ntitles i) (si_cstyle i) (si_default_cstyle i)
    (si_ccolour i) (si_default_ccolour i) (si_default_mode i) (si_progress_state i) (si_progress
    i).
Definition set_si_path p i :=
  Info (si_title i) p (si_titles i) (si_ntitles i) (si_cstyle i) (si_default_cstyle i)
    (si_ccolour i) (si_default_ccolour i) (si_default_mode i) (si_progress_state i) (si_progress
    i).
Definition set_si_titles l n i :=
  Info (si_title i) (si_path i) l n (si_cstyle i) (si_default_cstyle i) (si_ccolour i)
    (si_default_ccolour i) (si_default_mode i) (si_progress_state i) (si_progress i).
Definition set_si_cstyle c i :=
  Info (si_title i) (si_path i) (si_titles i) (si_ntitles i) c (si_default_cstyle i)
    (si_ccolour i) (si_default_ccolour i) (si_default_mode i) (si_progress_state i) (si_progress
    i).
Definition set_si_default_cursor c m col i :=
  Info (si_title i) (si_path i) (si_titles i) (si_ntitles i) (si_cstyle i) c (si_ccolour i)
    col m (si_progress_state i) (si_progress i).
Definition set_si_ccolour c i :=
  Info (si_title i) (si_path i) (si_titles i) (si_ntitles i) (si_cstyle i) (si_default_cstyle
    i) c (si_default_ccolour i) (si_default_mode i) (si_progress_state i) (si_progress i).
Definition set_si_progress st p i :=
  Info (si_title i) (si_path i) (si_titles i) (si_ntitles i) (si_cstyle i) (si_default_cstyle
    i) (si_ccolour i) (si_default_ccolour i) (si_default_mode i) st p.

Definition no_info : screen_info :=
  Info "" None None 0 SCREEN_CURSOR_DEFAULT SCREEN_CURSOR_DEFAULT (-1) (-1) 0 0 0.

Record screen := Screen {
  s_grid : grid;
  s_saved_grid : option grid;
  s_cx : Z;
  s_cy : Z;
  s_saved_cx : Z;
  s_saved_cy : Z;
  s_saved_cell : grid_cell;
  s_saved_flags : Z;
  s_rupper : Z;
  s_rlower : Z;
  s_tabs : list Z;
  s_mode : Z;
  s_sel : option screen_sel;
  s_info : screen_info
}.

Definition set_s_grid gd s :=
  Screen gd (s_saved_grid s) (s_cx s) (s_cy s) (s_saved_cx s) (s_saved_cy s) (s_saved_cell s)
    (s_saved_flags s) (s_rupper s) (s_rlower s) (s_tabs s) (s_mode s) (s_sel s) (s_info s).
Definition set_s_saved_grid gd s :=
  Screen (s_grid s) gd (s_cx s) (s_cy s) (s_saved_cx s) (s_saved_cy s) (s_saved_cell s)
    (s_saved_flags s) (s_rupper s) (s_rlower s) (s_tabs s) (s_mode s) (s_sel s) (s_info s).
Definition set_s_cursor cx cy s :=
  Screen (s_grid s) (s_saved_grid s) cx cy (s_saved_cx s) (s_saved_cy s) (s_saved_cell s)
    (s_saved_flags s) (s_rupper s) (s_rlower s) (s_tabs s) (s_mode s) (s_sel s) (s_info s).
Definition set_s_saved_cursor cx cy s :=
  Screen (s_grid s) (s_saved_grid s) (s_cx s) (s_cy s) cx cy (s_saved_cell s) (s_saved_flags
    s) (s_rupper s) (s_rlower s) (s_tabs s) (s_mode s) (s_sel s) (s_info s).
Definition set_s_saved_cell gc s :=
  Screen (s_grid s) (s_saved_grid s) (s_cx s) (s_cy s) (s_saved_cx s) (s_saved_cy s) gc
    (s_saved_flags s) (s_rupper s) (s_rlower s) (s_tabs s) (s_mode s) (s_sel s) (s_info s).
Definition set_s_saved_flags f s :=
  Screen (s_grid s) (s_saved_grid s) (s_cx s) (s_cy s) (s_saved_cx s) (s_saved_cy s)
    (s_saved_cell s) f (s_rupper s) (s_rlower s) (s_tabs s) (s_mode s) (s_sel s) (s_info s).
Definition set_s_region u l s :=
  Screen (s_grid s) (s_saved_grid s) (s_cx s) (s_cy s) (s_saved_cx s) (s_saved_cy s)
    (s_saved_cell s) (s_saved_flags s) u l (s_tabs s) (s_mode s) (s_sel s) (s_info s).
Definition set_s_tabs t s :=
  Screen (s_grid s) (s_saved_grid s) (s_cx s) (s_cy s) (s_saved_cx s) (s_saved_cy s)
    (s_saved_cell s) (s_saved_flags s) (s_rupper s) (s_rlower s) t (s_mode s) (s_sel s) (s_info
    s).
Definition set_s_mode m s :=
  Screen (s_grid s) (s_saved_grid s) (s_cx s) (s_cy s) (s_saved_cx s) (s_saved_cy s)
    (s_saved_cell s) (s_saved_flags s) (s_rupper s) (s_rlower s) (s_tabs s) m (s_sel s) (s_info
    s).
Definition set_s_sel sel s :=
  Screen (s_grid s) (s_saved_grid s) (s_cx s) (s_cy s) (s_saved_cx s) (s_saved_cy s)
    (s_saved_cell s) (s_saved_flags s) (s_rupper s) (s_rlower s) (s_tabs s) (s_mode s) sel
    (s_info s).
Definition set_s_info i s :=
  Screen (s_grid s) (s_saved_grid s) (s_cx s) (s_cy s) (s_saved_cx s) (s_saved_cy s)
    (s_saved_cell s) (s_saved_flags s) (s_rupper s) (s_rlower s) (s_tabs s) (s_mode s) (s_sel s)
    i.

Definition screen_size_x (s : screen) : Z := g_sx (s_grid s).
Definition screen_size_y (s : screen) : Z := g_sy (s_grid s).
Definition screen_hsize (s : screen) : Z := hsize (s_grid s).
Definition screen_is_alternate (s : screen) : bool :=
  match s_saved_grid s with Some _ => true | None => false end.

Section Screen.
Context `{CellCodec}.

(** ** The part of the grid that is on the screen (grid-view.c) *)

Definition grid_view_y (gd : grid) (y : Z) : Z := u32 (hsize gd + y).

Definition grid_view_get_cell gd px py := grid_get_cell gd px (grid_view_y gd py).
Definition grid_view_set_cell gd px py gc := grid_set_cell gd px (grid_view_y gd py) gc.
Definition grid_view_set_padding gd px py := grid_set_padding gd px (grid_view_y gd py).
Definition grid_view_set_cells gd px py gc s := grid_set_cells gd px (grid_view_y gd py) gc s.

Definition grid_view_clear (gd : grid) (px py nx ny bg : Z) : grid :=
  grid_clear gd px (grid_view_y gd py) nx ny bg.

(** The number of lines up to the last used one. *)
Definition last_used (gd : grid) : Z :=
  foldl (fun last yy => if negb (cellused (grid_get_line gd (grid_view_y gd yy)) =? 0)
                        then yy + 1 else last) 0 (seqZ 0 (g_sy gd)).

Definition grid_view_clear_history (now : Z) (gd : grid) (bg : Z) : grid :=
  let last := last_used gd in
  if last =? 0 then grid_view_clear gd 0 0 (g_sx gd) (g_sy gd) bg
  else
    let gd := Nat.iter (Z.to_nat last)
                (fun gd => grid_scroll_history now (grid_collect_history gd false) bg) gd in
    let gd := if last <? g_sy gd then grid_view_clear gd 0 0 (g_sx gd) (g_sy gd - last) bg
              else gd in
    set_hscrolled 0 gd.

Definition grid_view_scroll_region_up (now : Z) (gd : grid) (rupper rlower bg : Z) : grid :=
  if has (g_flags gd) GRID_HISTORY then
    let gd := grid_collect_history gd false in
    if (rupper =? 0) && (rlower =? u32 (g_sy gd - 1)) then grid_scroll_history now gd bg
    else grid_scroll_history_region now gd (grid_view_y gd rupper) (grid_view_y gd rlower) bg
  else
    let rupper := grid_view_y gd rupper in
    let rlower := grid_view_y gd rlower in
    grid_move_lines gd rupper (rupper + 1) (u32 (rlower - rupper)) bg.

Definition grid_view_scroll_region_down (gd : grid) (rupper rlower bg : Z) : grid :=
  let rupper := grid_view_y gd rupper in
  let rlower := grid_view_y gd rlower in
  grid_move_lines gd (rupper + 1) rupper (u32 (rlower - rupper)) bg.

Definition grid_view_insert_lines (gd : grid) (py ny bg : Z) : grid :=
  let py := grid_view_y gd py in
  let sy := grid_view_y gd (g_sy gd) in
  grid_move_lines gd (u32 (py + ny)) py (u32 (sy - py - ny)) bg.

Definition grid_view_insert_lines_region (gd : grid) (rlower py ny bg : Z) : grid :=
  let rlower := grid_view_y gd rlower in
  let py := grid_view_y gd py in
  let ny2 := u32 (rlower + 1 - py - ny) in
  grid_clear (grid_move_lines gd (u32 (rlower + 1 - ny2)) py ny2 bg) 0 (u32 (py + ny2))
    (g_sx gd) (u32 (ny - ny2)) bg.

Definition grid_view_delete_lines (gd : grid) (py ny bg : Z) : grid :=
  let py := grid_view_y gd py in
  let sy := grid_view_y gd (g_sy gd) in
  grid_clear (grid_move_lines gd py (u32 (py + ny)) (u32 (sy - py - ny)) bg) 0 (u32 (sy - ny))
    (g_sx gd) ny bg.

Definition grid_view_delete_lines_region (gd : grid) (rlower py ny bg : Z) : grid :=
  let rlower := grid_view_y gd rlower in
  let py := grid_view_y gd py in
  let ny2 := u32 (rlower + 1 - py - ny) in
  grid_clear (grid_move_lines gd py (u32 (py + ny)) ny2 bg) 0 (u32 (py + ny2))
    (g_sx gd) (u32 (ny - ny2)) bg.

Definition grid_view_insert_cells (gd : grid) (px py nx bg : Z) : grid :=
  let py := grid_view_y gd py in
  if u32 (g_sx gd - 1) <=? px then grid_clear gd px py 1 1 bg
  else grid_move_cells gd (u32 (px + nx)) px py (u32 (g_sx gd - px - nx)) bg.

Definition grid_view_delete_cells (gd : grid) (px py nx bg : Z) : grid :=
  let py := grid_view_y gd py in
  grid_clear (grid_move_cells gd px (u32 (px + nx)) py (u32 (g_sx gd - px - nx)) bg)
    (u32 (g_sx gd - nx)) py nx 1 bg.

(** ** Resizing *)

Definition screen_reset_tabs (s : screen) : screen :=
  set_s_tabs (filter (fun i => 0 < i /\ i mod 8 = 0) (seqZ 0 (screen_size_x s))) s.

(** The array of lines is cut or made longer. *)
Definition grid_adjust_lines (gd : grid) (lines : Z) : grid :=
  let n := Z.to_nat lines in
  set_linedata (take n (linedata gd) ++ replicate (n - length (linedata gd)) gl_zero) gd.

(** A lower screen: lines under the cursor are deleted if they may, then lines
    go to the history, or from the top.  The grid and the row of the cursor in
    it. *)
Definition resize_y_less (s : screen) (sy : Z) (eat_empty : bool) (cy : Z) : grid * Z :=
  let gd := s_grid s in
  let oldy := screen_size_y s in
  let needed := oldy - sy in
  let '(gd, needed) :=
    if eat_empty then
      let available := u32 (oldy - 1 - s_cy s) in
      let available := if (0 <? available) && (needed <? available) then needed else available in
      (if 0 <? available then grid_view_delete_lines gd (oldy - available) available 8 else gd,
       u32 (needed - available))
    else (gd, needed) in
  let available := s_cy s in
  if has (g_flags gd) GRID_HISTORY then
    (set_hsize (u32 (hsize gd + needed)) (set_hscrolled (u32 (hscrolled gd + needed)) gd), cy)
  else if (0 <? needed) && (0 <? available) then
    let available := if needed <? available then needed else available in
    (grid_view_delete_lines gd 0 available 8, u32 (cy - available))
  else (gd, cy).

(** A higher screen: lines that were scrolled into the history come back, then
    blank lines are added. *)
Definition resize_y_more (gd : grid) (oldy sy : Z) : grid :=
  let needed := sy - oldy in
  let available := hscrolled gd in
  let '(gd, available) :=
    if has (g_flags gd) GRID_HISTORY && (0 <? available) then
      let available := if needed <? available then needed else available in
      (set_hsize (u32 (hsize gd - available))
         (set_hscrolled (u32 (hscrolled gd - available)) gd), available)
    else (gd, 0) in
  let needed := u32 (needed - available) in
  let gd := foldl (fun gd i => grid_empty_line gd i 8) gd
              (seqZ (hsize gd + sy - needed) needed) in
  set_linedata (take (Z.to_nat (hsize gd + sy)) (linedata gd)) gd.

(** The screen and the row of the cursor in the grid. *)
Definition screen_resize_y (s : screen) (sy : Z) (eat_empty : bool) (cy : Z) : screen * Z :=
  let oldy := screen_size_y s in
  let '(gd, cy) := if sy <? oldy then resize_y_less s sy eat_empty cy else (s_grid s, cy) in
  let gd := grid_adjust_lines gd (hsize gd + sy) in
  let gd := if oldy <? sy then resize_y_more gd oldy sy else gd in
  (set_s_region 0 (u32 (sy - 1)) (set_s_grid (set_g_sy sy gd) s), cy).

(** The grid at its new width and the cursor in it. *)
Definition screen_reflow (s : screen) (new_x cx cy : Z) (cursor : bool) :
    option (screen * Z * Z) :=
  let '(wx, wy) := grid_wrap_position (s_grid s) cx cy in
  let gd := grid_reflow (s_grid s) new_x in
  '(cx, cy) ← (if cursor then grid_unwrap_position gd wx wy else Some (0, hsize gd));
  Some (set_s_grid gd s, cx, cy).

Definition screen_resize_cursor (s : screen) (sx sy : Z) (reflow eat_empty cursor : bool) :
    option screen :=
  let cx := s_cx s in
  let cy := u32 (screen_hsize s + s_cy s) in
  let sx := if sx <? 1 then 1 else sx in
  let sy := if sy <? 1 then 1 else sy in
  let '(s, reflow) :=
    if negb (sx =? screen_size_x s)
    then (screen_reset_tabs (set_s_grid (set_g_sx sx (s_grid s)) s), reflow)
    else (s, false) in
  let '(s, cy) := if negb (sy =? screen_size_y s) then screen_resize_y s sy eat_empty cy
                  else (s, cy) in
  '(s, cx, cy) ← (if reflow then screen_reflow s sx cx cy cursor else Some (s, cx, cy));
  Some (if screen_hsize s <=? cy then set_s_cursor cx (cy - screen_hsize s) s
        else set_s_cursor 0 0 s).

Definition screen_resize (s : screen) (sx sy : Z) (reflow : bool) : option screen :=
  screen_resize_cursor s sx sy reflow true true.

(** ** The alternate screen *)

Definition screen_alternate_on (s : screen) (gc : grid_cell) (cursor : bool) : screen :=
  if screen_is_alternate s then s
  else
    let sx := screen_size_x s in
    let sy := screen_size_y s in
    let saved := grid_duplicate_lines (grid_create sx sy 0) 0 (s_grid s) (screen_hsize s) sy in
    let s := set_s_saved_grid (Some saved) s in
    let s := if cursor then set_s_saved_cursor (s_cx s) (s_cy s) s else s in
    let s := set_s_saved_cell gc s in
    let gd := grid_view_clear (s_grid s) 0 0 sx sy 8 in
    set_s_grid (set_g_flags (without (g_flags gd) GRID_HISTORY) gd)
      (set_s_saved_flags (g_flags gd) s).

Definition clamp_cursor (s : screen) : screen :=
  set_s_cursor (if u32 (screen_size_x s - 1) <? s_cx s then u32 (screen_size_x s - 1) else s_cx s)
               (if u32 (screen_size_y s - 1) <? s_cy s then u32 (screen_size_y s - 1) else s_cy s) s.

(** The screen and the cell, when it is wanted and there is one. *)
Definition screen_alternate_off (s : screen) (cursor : bool) : option (screen * option grid_cell) :=
  let sx := screen_size_x s in
  let sy := screen_size_y s in
  s ← (match s_saved_grid s with
       | Some saved => screen_resize s (g_sx saved) (g_sy saved) false
       | None => Some s
       end);
  let '(s, gc) :=
    if cursor && negb (s_saved_cx s =? UINT_MAX) && negb (s_saved_cy s =? UINT_MAX)
    then (set_s_cursor (s_saved_cx s) (s_saved_cy s) s, Some (s_saved_cell s))
    else (s, None) in
  match s_saved_grid s with
  | None => Some (clamp_cursor s, gc)
  | Some saved =>
      let s := set_s_grid (grid_duplicate_lines (s_grid s) (screen_hsize s) saved 0 (g_sy saved))
                 s in
      let s := if has (s_saved_flags s) GRID_HISTORY
               then set_s_grid (set_g_flags (Z.lor (g_flags (s_grid s)) GRID_HISTORY) (s_grid s)) s
               else s in
      s ← screen_resize s sx sy true;
      Some (clamp_cursor (set_s_saved_grid None s), gc)
  end.

End Screen.
