(* ===== verification/ScreenInfo.v ===== *)
(** * Titles, cursor and selection of a screen (src/tmux/screen/screen.c)

    [None] is a NULL dereference. *)
From Stdlib Require Import Ascii String.
From S2P Require Import Prelude.
From S2P Require Import Utf8.
From S2P Require Import CellCodec.
From S2P Require Import Locale.
From S2P Require Import Grid.
From S2P Require Import Reflow.
From S2P Require Import Screen.

Definition MODE_CURSOR : Z := 0x1.
Definition MODE_INSERT : Z := 0x2.
Definition MODE_KCURSOR : Z := 0x4.
Definition MODE_KKEYPAD : Z := 0x8.
Definition MODE_WRAP : Z := 0x10.
Definition MODE_MOUSE_STANDARD : Z := 0x20.
Definition MODE_MOUSE_BUTTON : Z := 0x40.
Definition MODE_CURSOR_BLINKING : Z := 0x80.
Definition MODE_MOUSE_UTF8 : Z := 0x100.
Definition MODE_MOUSE_SGR : Z := 0x200.
Definition MODE_BRACKETPASTE : Z := 0x400.
Definition MODE_FOCUSON : Z := 0x800.
Definition MODE_MOUSE_ALL : Z := 0x1000.
Definition MODE_ORIGIN : Z := 0x2000.
Definition MODE_CRLF : Z := 0x4000.
Definition MODE_KEYS_EXTENDED : Z := 0x8000.
Definition MODE_CURSOR_VERY_VISIBLE : Z := 0x10000.
Definition MODE_CURSOR_BLINKING_SET : Z := 0x20000.
Definition MODE_KEYS_EXTENDED_2 : Z := 0x40000.
Definition MODE_THEME_UPDATES : Z := 0x80000.
Definition MODE_SYNC : Z := 0x100000.

Definition ALL_MOUSE_MODES : Z :=
  Z.lor MODE_MOUSE_STANDARD (Z.lor MODE_MOUSE_BUTTON MODE_MOUSE_ALL).
Definition EXTENDED_KEY_MODES : Z := Z.lor MODE_KEYS_EXTENDED MODE_KEYS_EXTENDED_2.


Definition MODEKEY_EMACS : Z := 0.

Definition s_has (s : screen) (m : Z) : bool := has (s_mode s) m.
Definition mode_set (m : Z) (s : screen) : screen := set_s_mode (Z.lor (s_mode s) m) s.
Definition mode_clear (m : Z) (s : screen) : screen := set_s_mode (without (s_mode s) m) s.
Definition on_info (f : screen_info -> screen_info) (s : screen) : screen :=
  set_s_info (f (s_info s)) s.

(** ** Titles *)

(** The list goes, the count stays. *)
Definition screen_free_titles (s : screen) : screen :=
  on_info (fun i => set_si_titles None (si_ntitles i) i) s.

(** [while (s->ntitles >= 10)]: the last entry is freed. *)
Fixpoint trim_titles (fuel : nat) (titles : option (list string)) (n : Z) :
    option (option (list string) * Z) :=
  if n <? 10 then Some (titles, n)
  else
    match fuel, titles with
    | S fuel, Some ((_ :: _) as l) => trim_titles fuel (Some (take (length l - 1) l)) (u32 (n - 1))
    | _, _ => None
    end.

Definition screen_push_title (s : screen) : option screen :=
  let i := s_info s in
  let l := default [] (si_titles i) in
  '(titles, n) ← trim_titles (S (length l)) (si_titles i) (si_ntitles i);
  Some (set_s_info (set_si_titles (Some (si_title i :: default [] titles)) (u32 (n + 1)) i) s).

Definition screen_pop_title (s : screen) : screen :=
  let i := s_info s in
  match si_titles i with
  | Some (t :: l) =>
      set_s_info (set_si_titles (Some l) (u32 (si_ntitles i - 1)) (set_si_title t i)) s
  | _ => s
  end.

(** ** Cursor and progress bar *)

Definition screen_set_cursor_style (style : Z) (cstyle : screen_cursor_style) (mode : Z) :
    screen_cursor_style * Z :=
  let blink m := Z.lor m MODE_CURSOR_BLINKING in
  let steady m := without m MODE_CURSOR_BLINKING in
  match style with
  | 0 => (SCREEN_CURSOR_DEFAULT, mode)
  | 1 => (SCREEN_CURSOR_BLOCK, blink mode)
  | 2 => (SCREEN_CURSOR_BLOCK, steady mode)
  | 3 => (SCREEN_CURSOR_UNDERLINE, blink mode)
  | 4 => (SCREEN_CURSOR_UNDERLINE, steady mode)
  | 5 => (SCREEN_CURSOR_BAR, blink mode)
  | 6 => (SCREEN_CURSOR_BAR, steady mode)
  | _ => (cstyle, mode)
  end.

(** [screen_set_default_cursor], of the two options it reads. *)
Definition screen_set_default_cursor (colour style : Z) (s : screen) : screen :=
  let i := s_info s in
  let '(cstyle, mode) := screen_set_cursor_style style (si_default_cstyle i) 0 in
  set_s_info (set_si_default_cursor cstyle mode colour i) s.

Definition screen_set_cursor_colour (c : Z) (s : screen) : screen := on_info (set_si_ccolour c) s.

Definition PROGRESS_BAR_INDETERMINATE : Z := 3.

Definition screen_set_progress_bar (pbs p : Z) (s : screen) : screen :=
  on_info (fun i => set_si_progress pbs
             (if (0 <=? p) && negb (pbs =? PROGRESS_BAR_INDETERMINATE) then p
              else si_progress i) i) s.

(** ** Selection *)

Definition screen_set_selection (sx sy ex ey : Z) (rectangle : bool) (clipx modekeys : Z)
    (gc : grid_cell) (s : screen) : screen :=
  set_s_sel (Some (Sel false rectangle modekeys sx sy ex ey clipx gc)) s.
Definition screen_clear_selection (s : screen) : screen := set_s_sel None s.
Definition screen_hide_selection (s : screen) : screen :=
  match s_sel s with
  | Some (Sel _ r m sx sy ex ey c gc) => set_s_sel (Some (Sel true r m sx sy ex ey c gc)) s
  | None => s
  end.

(** The columns of a rectangle: from the smaller of the ends to the larger. *)
Definition in_rectangle (sel : screen_sel) (px py : Z) : bool :=
  let sx := sel_sx sel in let sy := sel_sy sel in
  let ex := sel_ex sel in let ey := sel_ey sel in
  let row :=
    if sy <? ey then (sy <=? py) && (py <=? ey)
    else if ey <? sy then (ey <=? py) && (py <=? sy)
    else py =? sy in
  row && (if ex <? sx then (ex <=? px) && (px <=? sx) else (sx <=? px) && (px <=? ex)).

(** The cells from one end to the other in reading order; the last one is left
    out with emacs keys. *)
Definition in_lines (sel : screen_sel) (px py : Z) : bool :=
  let sx := sel_sx sel in let sy := sel_sy sel in
  let ex := sel_ex sel in let ey := sel_ey sel in
  let emacs := sel_modekeys sel =? MODEKEY_EMACS in
  let xe := if emacs then if ex =? 0 then 0 else ex - 1 else ex in
  let xs := if emacs then u32 (sx - 1) else sx in
  if sy <? ey then
    negb ((py <? sy) || (ey <? py) || ((py =? sy) && (px <? sx)) || ((py =? ey) && (xe <? px)))
  else if ey <? sy then
    negb ((sy <? py) || (py <? ey) || ((py =? ey) && (px <? ex)) ||
          ((py =? sy) && ((sx =? 0) || (xs <? px))))
  else
    (py =? sy) && (if ex <? sx then negb ((xs <? px) || (px <? ex))
                   else negb ((px <? sx) || (xe <? px))).

Definition screen_check_selection (s : screen) (px py : Z) : bool :=
  match s_sel s with
  | None => false
  | Some sel =>
      if sel_hidden sel || (px <? sel_clipx sel) then false
      else if sel_rectangle sel then in_rectangle sel px py
      else in_lines sel px py
  end.

(** The cell as shown, [None] when nothing is selected. *)
Definition screen_select_cell (s : screen) (src : grid_cell) : option grid_cell :=
  match s_sel s with
  | None => None
  | Some sel =>
      if sel_hidden sel then None
      else
        let dst := sel_cell sel in
        Some (GC (utf8_copy (gc_data src))
                (if has (gc_attr dst) GRID_ATTR_NOATTR
                 then Z.lor (gc_attr dst) (Z.land (gc_attr src) GRID_ATTR_CHARSET)
                 else Z.lor (gc_attr dst) (gc_attr src))
                (gc_flags src)
                (if COLOUR_DEFAULT (gc_fg dst) then gc_fg src else gc_fg dst)
                (if COLOUR_DEFAULT (gc_bg dst) then gc_bg src else gc_bg dst)
                (gc_us dst) (gc_link dst))
  end.

Section Names.
Context `{Locale}.

(** Whether the title was set, and the screen. *)
Definition screen_set_title (title : string) (s : screen) : option (bool * screen) :=
  t ← clean_name title "#";
  Some (match t with
        | Some t => (true, on_info (set_si_title t) s)
        | None => (false, s)
        end).

Definition screen_set_path (path : string) (s : screen) : option (bool * screen) :=
  t ← clean_name path "#";
  Some (match t with
        | Some t => (true, on_info (set_si_path (Some t)) s)
        | None => (false, s)
        end).

End Names.

(** ** Making a screen *)

Section Init.
Context `{CellCodec}.

(** With the value of the option extended-keys. *)
Definition reset_mode (extended_keys keep : Z) : Z :=
  let mode := Z.lor (Z.lor MODE_CURSOR MODE_WRAP) keep in
  if extended_keys =? 2 then Z.lor (without mode EXTENDED_KEY_MODES) MODE_KEYS_EXTENDED else mode.

Definition screen_reinit (extended_keys : Z) (s : screen) : option screen :=
  let s := set_s_region 0 (u32 (screen_size_y s - 1)) (set_s_cursor 0 0 s) in
  let s := set_s_mode (reset_mode extended_keys (Z.land (s_mode s) MODE_CRLF)) s in
  s ← (if screen_is_alternate s then fst <$> screen_alternate_off s false else Some s);
  let s := screen_reset_tabs (set_s_saved_cursor UINT_MAX UINT_MAX s) in
  let s := set_s_grid (grid_clear_lines (s_grid s) (screen_hsize s) (screen_size_y s) 8) s in
  Some (screen_set_progress_bar 0 0 (screen_free_titles (screen_clear_selection s))).

Definition screen_init (extended_keys sx sy hlimit ntitles : Z) : option screen :=
  screen_reinit extended_keys
    (Screen (grid_create sx sy hlimit) None 0 0 0 0 grid_default_cell 0 0 0 [] MODE_CURSOR None
       (set_si_titles None ntitles no_info)).

End Init.
