(* ===== verification/InputKeys.v ===== *)
(** * The keys written to a pane (src/tmux/terminal/input-keys.c)

    A key code becomes the bytes the program of a pane reads.  Of the screen
    only the modes matter; what is written to the pane is a list of bytes.  The
    conversion of a character to a wide one belongs to the C library. *)
From Stdlib Require Import Ascii String.
From S2P Require Import Prelude.
From S2P Require Import CString.
From S2P Require Import Utf8.
From S2P Require Import Locale.
From S2P Require Import KeyString.
From S2P Require Import Cmd.
From S2P Require Import Grid.
From S2P Require Import ScreenInfo.

Declare Scope key_scope.
Delimit Scope key_scope with key.
Infix "|||" := Z.lor (at level 50, left associativity) : key_scope.
Open Scope key_scope.

(** A string that starts with an escape. *)
Definition esc (s : string) : list Z := 27 :: bytes_of_string s.

(** ** The table *)

Definition input_key_defaults : list (Z * list Z) := [
  (KEYC_PASTE_START, esc "[200~");
  (KEYC_PASTE_START ||| KEYC_IMPLIED_META, esc "[200~");
  (KEYC_PASTE_END, esc "[201~");
  (KEYC_PASTE_END ||| KEYC_IMPLIED_META, esc "[201~");
  (KEYC_F1, esc "OP");
  (KEYC_F2, esc "OQ");
  (KEYC_F3, esc "OR");
  (KEYC_F4, esc "OS");
  (KEYC_F5, esc "[15~");
  (KEYC_F6, esc "[17~");
  (KEYC_F7, esc "[18~");
  (KEYC_F8, esc "[19~");
  (KEYC_F9, esc "[20~");
  (KEYC_F10, esc "[21~");
  (KEYC_F11, esc "[23~");
  (KEYC_F12, esc "[24~");
  (KEYC_IC, esc "[2~");
  (KEYC_DC, esc "[3~");
  (KEYC_HOME, esc "[1~");
  (KEYC_END, esc "[4~");
  (KEYC_NPAGE, esc "[6~");
  (KEYC_PPAGE, esc "[5~");
  (KEYC_BTAB, esc "[Z");
  (KEYC_UP ||| KEYC_CURSOR, esc "OA");
  (KEYC_DOWN ||| KEYC_CURSOR, esc "OB");
  (KEYC_RIGHT ||| KEYC_CURSOR, esc "OC");
  (KEYC_LEFT ||| KEYC_CURSOR, esc "OD");
  (KEYC_UP, esc "[A");
  (KEYC_DOWN, esc "[B");
  (KEYC_RIGHT, esc "[C");
  (KEYC_LEFT, esc "[D");
  (KEYC_KP_SLASH ||| KEYC_KEYPAD, esc "Oo");
  (KEYC_KP_STAR ||| KEYC_KEYPAD, esc "Oj");
  (KEYC_KP_MINUS ||| KEYC_KEYPAD, esc "Om");
  (KEYC_KP_SEVEN ||| KEYC_KEYPAD, esc "Ow");
  (KEYC_KP_EIGHT ||| KEYC_KEYPAD, esc "Ox");
  (KEYC_KP_NINE ||| KEYC_KEYPAD, esc "Oy");
  (KEYC_KP_PLUS ||| KEYC_KEYPAD, esc "Ok");
  (KEYC_KP_FOUR ||| KEYC_KEYPAD, esc "Ot");
  (KEYC_KP_FIVE ||| KEYC_KEYPAD, esc "Ou");
  (KEYC_KP_SIX ||| KEYC_KEYPAD, esc "Ov");
  (KEYC_KP_ONE ||| KEYC_KEYPAD, esc "Oq");
  (KEYC_KP_TWO ||| KEYC_KEYPAD, esc "Or");
  (KEYC_KP_THREE ||| KEYC_KEYPAD, esc "Os");
  (KEYC_KP_ENTER ||| KEYC_KEYPAD, esc "OM");
  (KEYC_KP_ZERO ||| KEYC_KEYPAD, esc "Op");
  (KEYC_KP_PERIOD ||| KEYC_KEYPAD, esc "On");
  (KEYC_KP_SLASH, bytes_of_string "/");
  (KEYC_KP_STAR, bytes_of_string "*");
  (KEYC_KP_MINUS, bytes_of_string "-");
  (KEYC_KP_SEVEN, bytes_of_string "7");
  (KEYC_KP_EIGHT, bytes_of_string "8");
  (KEYC_KP_NINE, bytes_of_string "9");
  (KEYC_KP_PLUS, bytes_of_string "+");
  (KEYC_KP_FOUR, bytes_of_string "4");
  (KEYC_KP_FIVE, bytes_of_string "5");
  (KEYC_KP_SIX, bytes_of_string "6");
  (KEYC_KP_ONE, bytes_of_string "1");
  (KEYC_KP_TWO, bytes_of_string "2");
  (KEYC_KP_THREE, bytes_of_string "3");
  (KEYC_KP_ENTER, [10]);
  (KEYC_KP_ZERO, bytes_of_string "0");
  (KEYC_KP_PERIOD, bytes_of_string ".");
  (KEYC_F1 ||| KEYC_BUILD_MODIFIERS, esc "[1;_P");
  (KEYC_F2 ||| KEYC_BUILD_MODIFIERS, esc "[1;_Q");
  (KEYC_F3 ||| KEYC_BUILD_MODIFIERS, esc "[1;_R");
  (KEYC_F4 ||| KEYC_BUILD_MODIFIERS, esc "[1;_S");
  (KEYC_F5 ||| KEYC_BUILD_MODIFIERS, esc "[15;_~");
  (KEYC_F6 ||| KEYC_BUILD_MODIFIERS, esc "[17;_~");
  (KEYC_F7 ||| KEYC_BUILD_MODIFIERS, esc "[18;_~");
  (KEYC_F8 ||| KEYC_BUILD_MODIFIERS, esc "[19;_~");
  (KEYC_F9 ||| KEYC_BUILD_MODIFIERS, esc "[20;_~");
  (KEYC_F10 ||| KEYC_BUILD_MODIFIERS, esc "[21;_~");
  (KEYC_F11 ||| KEYC_BUILD_MODIFIERS, esc "[23;_~");
  (KEYC_F12 ||| KEYC_BUILD_MODIFIERS, esc "[24;_~");
  (KEYC_UP ||| KEYC_BUILD_MODIFIERS, esc "[1;_A");
  (KEYC_DOWN ||| KEYC_BUILD_MODIFIERS, esc "[1;_B");
  (KEYC_RIGHT ||| KEYC_BUILD_MODIFIERS, esc "[1;_C");
  (KEYC_LEFT ||| KEYC_BUILD_MODIFIERS, esc "[1;_D");
  (KEYC_HOME ||| KEYC_BUILD_MODIFIERS, esc "[1;_H");
  (KEYC_END ||| KEYC_BUILD_MODIFIERS, esc "[1;_F");
  (KEYC_PPAGE ||| KEYC_BUILD_MODIFIERS, esc "[5;_~");
  (KEYC_NPAGE ||| KEYC_BUILD_MODIFIERS, esc "[6;_~");
  (KEYC_IC ||| KEYC_BUILD_MODIFIERS, esc "[2;_~");
  (KEYC_DC ||| KEYC_BUILD_MODIFIERS, esc "[3;_~")
].

Definition input_key_modifiers : list Z := [
  0;
  0;
  KEYC_SHIFT;
  KEYC_META ||| KEYC_IMPLIED_META;
  KEYC_SHIFT ||| KEYC_META ||| KEYC_IMPLIED_META;
  KEYC_CTRL;
  KEYC_SHIFT ||| KEYC_CTRL;
  KEYC_META ||| KEYC_IMPLIED_META ||| KEYC_CTRL;
  KEYC_SHIFT ||| KEYC_META ||| KEYC_IMPLIED_META ||| KEYC_CTRL
].

(** [data[strcspn (data, "_")] = '0' + j]. *)
Fixpoint put_modifier (data : list Z) (j : Z) : list Z :=
  match data with
  | [] => []
  | c :: data => if c =? 95 then 48 + j :: data else c :: put_modifier data j
  end.

(** The entries from the third modifier on, with their numbers. *)
Definition modifiers_from_2 (l : list Z) : list (Z * Z) :=
  drop 2 (imap (fun j m => (Z.of_nat j, m)) l).

(** [RB_INSERT] leaves an entry that is there. *)
Definition tree_insert (e : Z * list Z) (tree : gmap Z (list Z)) : gmap Z (list Z) :=
  match tree !! e.1 with Some _ => tree | None => <[e.1 := e.2]> tree end.

(** The entries one entry of the table makes. *)
Definition built_entries (e : Z * list Z) : list (Z * list Z) :=
  if negb (has e.1 KEYC_BUILD_MODIFIERS) then [e]
  else map (fun '(j, m) => (without e.1 KEYC_BUILD_MODIFIERS ||| m, put_modifier e.2 j))
         (modifiers_from_2 input_key_modifiers).

Definition input_key_build : gmap Z (list Z) :=
  fold_left (fun tree e => tree_insert e tree) (flat_map built_entries input_key_defaults) ∅.

Definition input_key_tree : gmap Z (list Z) := input_key_build.

Definition input_key_get (key : Z) : option (list Z) := input_key_tree !! key.

(** A character as two UTF-8 bytes. *)
Definition input_key_split2 (c : Z) : list Z :=
  if 0x7f <? c then [u8 (Z.shiftr c 6 ||| 0xc0); u8 (Z.land c 0x3f ||| 0x80)] else [u8 c].

(** ** Sending a key *)

(** The options read here. *)
Record key_options := KO {
  ko_backspace : Z;
  ko_extended_keys_format : Z
}.

(** What a function returns and what it has written. *)
Notation sent := (Z * list Z)%type.

(** What was written before. *)
Definition after_bytes (before : list Z) (r : sent) : sent := (r.1, before ++ r.2).

Definition standard_map_0 : list Z :=
  bytes_of_string "1!9(0)=+;:'" ++ [34] ++ bytes_of_string ",<.>/-8? 2" ++ [0].
Definition standard_map_1 : list Z :=
  bytes_of_string "119900=+;;''" ++ bytes_of_string ",,.." ++
  [0x1f; 0x1f; 0x7f; 0x7f; 0; 0] ++ [0].

(** [strchr]: the index of the first [c], the terminator included. *)
Fixpoint strchr_at (l : list Z) (c : Z) : option nat :=
  match l with
  | [] => None
  | x :: l => if x =? c then Some 0%nat else S <$> strchr_at l c
  end.

Section Keys.
Context `{Locale} (t : utf8_table) (o : key_options).

Definition utf8_towc (ud : utf8_data) : option Z := loc_mbtowc (ud_bytes ud).

(** The digit that stands for the modifiers. *)
Definition extended_modifier (key : Z) : option string :=
  let m := Z.land key KEYC_MASK_MODIFIERS in
  if m =? KEYC_SHIFT then Some "2"%string
  else if m =? KEYC_META then Some "3"%string
  else if m =? KEYC_SHIFT ||| KEYC_META then Some "4"%string
  else if m =? KEYC_CTRL then Some "5"%string
  else if m =? KEYC_SHIFT ||| KEYC_CTRL then Some "6"%string
  else if m =? KEYC_META ||| KEYC_CTRL then Some "7"%string
  else if m =? KEYC_SHIFT ||| KEYC_META ||| KEYC_CTRL then Some "8"%string
  else None.

(** The number of a key: its code point. *)
Definition extended_number (key : Z) : option Z :=
  if KEYC_IS_UNICODE key then utf8_towc (utf8_to_data t (u32 (Z.land key KEYC_MASK_KEY)))
  else Some (Z.land key KEYC_MASK_KEY).

Definition input_key_extended (key : Z) : sent :=
  match extended_modifier key with
  | None => (-1, [])
  | Some modifier =>
      match extended_number key with
      | None => (-1, [])
      | Some n =>
          (0, if ko_extended_keys_format o =? 1
              then esc ("[27;" +:+ modifier +:+ ";" +:+ fmt_u n +:+ "~")
              else esc ("[" +:+ fmt_u n +:+ ";" +:+ modifier +:+ "u"))
      end
  end.

(** The control code of a key with Ctrl: the key itself without. *)
Definition vt10x_control (key : Z) : option Z :=
  let onlykey := Z.land key KEYC_MASK_KEY in
  let key := if (onlykey =? 13) || (onlykey =? 10) || (onlykey =? 9) then without key KEYC_CTRL
             else key in
  if has key KEYC_CTRL then
    match strchr_at standard_map_0 (u8 onlykey) with
    | Some i => Some (nth i standard_map_1 0)
    | None =>
        if (51 <=? onlykey) && (onlykey <=? 55) then Some (onlykey - 24)
        else if (64 <=? onlykey) && (onlykey <=? 126) then Some (Z.land onlykey 0x1f)
        else None
    end
  else Some key.

Definition input_key_vt10x (key : Z) : sent :=
  after_bytes (if has key KEYC_META then [27] else [])
    (if KEYC_IS_UNICODE key then (0, ud_bytes (utf8_to_data t (u32 key)))
     else
       match vt10x_control key with
       | Some key => (0, [Z.land key 0x7f])
       | None => (-1, [])
       end).

Definition input_key_mode1 (key : Z) : sent :=
  let onlykey := Z.land key KEYC_MASK_KEY in
  if Z.land key (KEYC_CTRL ||| KEYC_META) =? KEYC_META then input_key_vt10x key
  else if has key KEYC_CTRL &&
          ((onlykey =? 32) || (onlykey =? 47) || (onlykey =? 64) || (onlykey =? 94) ||
           ((50 <=? onlykey) && (onlykey <=? 56)) || ((64 <=? onlykey) && (onlykey <=? 126)))
  then input_key_vt10x key
  else (-1, []).

(** Backspace without modifiers: the byte of the option, unless there is none. *)
Definition backspace_bytes (newkey : Z) : list Z :=
  let m := Z.land newkey KEYC_MASK_MODIFIERS in
  let k := Z.land newkey KEYC_MASK_KEY in
  let b :=
    if m =? 0 then u8 newkey
    else if m =? KEYC_CTRL then
      if k =? 63 then 0x7f
      else if (64 <=? k) && (k <=? 95) then k - 0x40
      else if (97 <=? k) && (k <=? 122) then k - 0x60
      else 255
    else 255 in
  if b =? 255 then [] else [b].

(** Backtab: S-Tab in the second extended mode, no modifiers otherwise. *)
Definition backtab (mode key : Z) : Z :=
  if Z.land key KEYC_MASK_KEY =? KEYC_BTAB then
    if has mode MODE_KEYS_EXTENDED_2 then 9 ||| without key KEYC_MASK_KEY ||| KEYC_SHIFT
    else without key KEYC_MASK_MODIFIERS
  else key.

(** A key without modifiers that goes as itself. *)
Definition plain_bytes (key : Z) : option (list Z) :=
  if without key KEYC_MASK_KEY =? 0 then
    if (key =? 9) || (key =? 13) || (key =? 27) || ((0x20 <=? key) && (key <=? 0x7f))
    then Some [u8 key]
    else if KEYC_IS_UNICODE key then Some (ud_bytes (utf8_to_data t (u32 key)))
    else None
  else None.

(** The key of the modes, and its sequence in the tree: the key itself, then
    without what may be left out. *)
Definition moded_key (mode key : Z) : Z :=
  let key := if has mode MODE_KKEYPAD then key else without key KEYC_KEYPAD in
  if has mode MODE_KCURSOR then key else without key KEYC_CURSOR.

Definition found_or (a : option (list Z)) (cond : bool) (key : Z) : option (list Z) :=
  match a with Some d => Some d | None => if cond then input_key_get key else None end.

(** Escape is a prefix of its own. *)
Definition prefix_meta (key : Z) : bool := has key KEYC_META && negb (has key KEYC_IMPLIED_META).

Definition tree_sequence (key : Z) : option (list Z) :=
  let a := input_key_get key in
  let a := found_or a (prefix_meta key) (without key KEYC_META) in
  let a := found_or a (has key KEYC_CURSOR) (without key KEYC_CURSOR) in
  found_or a (has key KEYC_KEYPAD) (without key KEYC_KEYPAD).

(** A key without a sequence: extended, or as the terminals of old do. *)
Definition constructed (mode key : Z) : sent :=
  let m := Z.land mode EXTENDED_KEY_MODES in
  if m =? MODE_KEYS_EXTENDED_2 then input_key_extended key
  else if m =? MODE_KEYS_EXTENDED then
    let r := input_key_mode1 key in
    if r.1 =? -1 then after_bytes r.2 (input_key_extended key) else (0, r.2)
  else input_key_vt10x key.

(** From the backtab on. *)
Definition input_key_rest (mode key : Z) : sent :=
  let key := backtab mode key in
  match plain_bytes key with
  | Some b => (0, b)
  | None =>
      let key := moded_key mode key in
      match tree_sequence key with
      | Some data =>
          if KEYC_IS_PASTE key && negb (has mode MODE_BRACKETPASTE) then (0, [])
          else (0, (if prefix_meta key then [27] else []) ++ data)
      | None =>
          if KEYC_IS_USER key || KEYC_IS_SPECIAL key || KEYC_IS_MOUSE key then (0, [])
          else constructed mode key
      end
  end.

Definition input_key (mode key : Z) : sent :=
  if KEYC_IS_MOUSE key then (0, [])
  else if has key KEYC_LITERAL then (0, [u8 key])
  else if Z.land key KEYC_MASK_KEY =? KEYC_BSPACE then
    if Z.land key KEYC_MASK_MODIFIERS =? 0 then (0, backspace_bytes (ko_backspace o))
    else input_key_rest mode
           (ko_backspace o ||| Z.land key (KEYC_MASK_FLAGS ||| KEYC_MASK_MODIFIERS))
  else input_key_rest mode key.

(** ** Sending the mouse *)

Definition MOTION_MOUSE_MODES : Z := MODE_MOUSE_BUTTON ||| MODE_MOUSE_ALL.
Definition MOUSE_PARAM_MAX : Z := 0xff.
Definition MOUSE_PARAM_UTF8_MAX : Z := 0x7ff.
Definition MOUSE_PARAM_BTN_OFF : Z := 0x20.
Definition MOUSE_PARAM_POS_OFF : Z := 0x21.

(** A release that is not for this pane. *)
Definition mouse_release_ignored (mode : Z) (m : mouse_event) : bool :=
  (if negb (me_sgr_type m =? 32) then MOUSE_DRAG (me_sgr_b m) && MOUSE_RELEASE (me_sgr_b m)
   else MOUSE_DRAG (me_b m) && MOUSE_RELEASE (me_b m) && MOUSE_RELEASE (me_lb m))
  && negb (has mode MODE_MOUSE_ALL).

Definition clamp_position (x : Z) : Z :=
  if MOUSE_PARAM_MAX <? u32 (x + MOUSE_PARAM_POS_OFF) then MOUSE_PARAM_MAX
  else u8 (u32 (x + MOUSE_PARAM_POS_OFF)).

(** The bytes of a mouse event at a place of the pane; [None] is an event it
    does not get. *)
Definition input_key_get_mouse (mode : Z) (m : mouse_event) (x y : Z) : option (list Z) :=
  if MOUSE_DRAG (me_b m) && negb (has mode MOTION_MOUSE_MODES) then None
  else if negb (has mode ALL_MOUSE_MODES) then None
  else if mouse_release_ignored mode m then None
  else if negb (me_sgr_type m =? 32) && has mode MODE_MOUSE_SGR then
    Some (esc ("[<" +:+ fmt_u (me_sgr_b m) +:+ ";" +:+ fmt_u (u32 (x + 1)) +:+ ";" +:+
               fmt_u (u32 (y + 1))) ++ [u8 (me_sgr_type m)])
  else if has mode MODE_MOUSE_UTF8 then
    if (MOUSE_PARAM_UTF8_MAX - MOUSE_PARAM_BTN_OFF <? me_b m) ||
       (MOUSE_PARAM_UTF8_MAX - MOUSE_PARAM_POS_OFF <? x) ||
       (MOUSE_PARAM_UTF8_MAX - MOUSE_PARAM_POS_OFF <? y) then None
    else Some (esc "[M" ++ input_key_split2 (me_b m + MOUSE_PARAM_BTN_OFF) ++
               input_key_split2 (x + MOUSE_PARAM_POS_OFF) ++
               input_key_split2 (y + MOUSE_PARAM_POS_OFF))
  else if MOUSE_PARAM_MAX <? u32 (me_b m + MOUSE_PARAM_BTN_OFF) then None
  else Some (esc "[M" ++ [u8 (u32 (me_b m + MOUSE_PARAM_BTN_OFF)); clamp_position x;
                          clamp_position y]).

(** What is read of the pane: its number, place, the modes of its screen, and
    whether it is to be seen ([window_pane_visible]). *)
Record key_pane := KP {
  kp_id : Z; kp_xoff : Z; kp_yoff : Z; kp_sx : Z; kp_sy : Z; kp_mode : Z;
  kp_zoomed : bool; kp_active : bool
}.

Definition window_pane_visible (wp : key_pane) : bool := negb (kp_zoomed wp) || kp_active wp.

Definition input_key_mouse (wp : key_pane) (m : mouse_event) : list Z :=
  if me_ignore m || negb (has (kp_mode wp) ALL_MOUSE_MODES) then []
  else
    match cmd_mouse_at (kp_xoff wp) (kp_yoff wp) (kp_sx wp) (kp_sy wp) m false with
    | None => []
    | Some (x, y) =>
        if negb (window_pane_visible wp) then []
        else default [] (input_key_get_mouse (kp_mode wp) m x y)
    end.

Definition input_key_pane (wp : key_pane) (key : Z) (m : option mouse_event) : sent :=
  if KEYC_IS_MOUSE key then
    (0, match m with
        | Some m => if negb (me_wp m =? -1) && (u32 (me_wp m) =? kp_id wp)
                    then input_key_mouse wp m else []
        | None => []
        end)
  else input_key (kp_mode wp) key.

End Keys.
