(* ===== verification/TtyKeys.v ===== *)
(** * Keys read from the terminal (src/tmux/terminal/tty-keys.c)

    What arrives from the outside terminal is kept in a buffer; [tty_keys_next]
    takes from its start a reply, a mouse event or a key.  Known sequences are in
    a ternary tree.  Calls to the rest of the server (what is done with a key,
    replies handed to the panes, features of the terminal, notices) are recorded
    in [tty_calls] in their order.  [None] is [fatalx] or an access out of
    bounds. *)
From Stdlib Require Import Ascii String.
From S2P Require Import Prelude.
From S2P Require Import CString.
From S2P Require Import Utf8.
From S2P Require Import Locale.
From S2P Require Import KeyString.
From S2P Require Import Base64.
From S2P Require Import Grid.
From S2P Require Import Colour.
From S2P Require Import CmdLex.
From S2P Require Import InputKeys.

Open Scope key_scope.

(** ** The tables *)

(** The capabilities of a terminal (src/tmux/tmux.h). *)
Inductive tty_code_code :=
  TTYC_ACSC | TTYC_AM | TTYC_AX | TTYC_BCE | TTYC_BEL | TTYC_BIDI | TTYC_BLINK | TTYC_BOLD |
  TTYC_CIVIS | TTYC_CLEAR | TTYC_CLMG | TTYC_CMG | TTYC_CNORM | TTYC_COLORS | TTYC_CR | TTYC_CS
  | TTYC_CSR | TTYC_CUB | TTYC_CUB1 | TTYC_CUD | TTYC_CUD1 | TTYC_CUF | TTYC_CUF1 | TTYC_CUP |
  TTYC_CUU | TTYC_CUU1 | TTYC_CVVIS | TTYC_DCH | TTYC_DCH1 | TTYC_DIM | TTYC_DL | TTYC_DL1 |
  TTYC_DSBP | TTYC_DSEKS | TTYC_DSFCS | TTYC_DSMG | TTYC_E3 | TTYC_ECH | TTYC_ED | TTYC_EL |
  TTYC_EL1 | TTYC_ENACS | TTYC_ENBP | TTYC_ENEKS | TTYC_ENFCS | TTYC_ENMG | TTYC_FSL | TTYC_HLS
  | TTYC_HOME | TTYC_HPA | TTYC_ICH | TTYC_ICH1 | TTYC_IL | TTYC_IL1 | TTYC_INDN | TTYC_INVIS |
  TTYC_KCBT | TTYC_KCUB1 | TTYC_KCUD1 | TTYC_KCUF1 | TTYC_KCUU1 | TTYC_KDC2 | TTYC_KDC3 |
  TTYC_KDC4 | TTYC_KDC5 | TTYC_KDC6 | TTYC_KDC7 | TTYC_KDCH1 | TTYC_KDN2 | TTYC_KDN3 | TTYC_KDN4
  | TTYC_KDN5 | TTYC_KDN6 | TTYC_KDN7 | TTYC_KEND | TTYC_KEND2 | TTYC_KEND3 | TTYC_KEND4 |
  TTYC_KEND5 | TTYC_KEND6 | TTYC_KEND7 | TTYC_KF1 | TTYC_KF10 | TTYC_KF11 | TTYC_KF12 |
  TTYC_KF13 | TTYC_KF14 | TTYC_KF15 | TTYC_KF16 | TTYC_KF17 | TTYC_KF18 | TTYC_KF19 | TTYC_KF2 |
  TTYC_KF20 | TTYC_KF21 | TTYC_KF22 | TTYC_KF23 | TTYC_KF24 | TTYC_KF25 | TTYC_KF26 | TTYC_KF27
  | TTYC_KF28 | TTYC_KF29 | TTYC_KF3 | TTYC_KF30 | TTYC_KF31 | TTYC_KF32 | TTYC_KF33 | TTYC_KF34
  | TTYC_KF35 | TTYC_KF36 | TTYC_KF37 | TTYC_KF38 | TTYC_KF39 | TTYC_KF4 | TTYC_KF40 | TTYC_KF41
  | TTYC_KF42 | TTYC_KF43 | TTYC_KF44 | TTYC_KF45 | TTYC_KF46 | TTYC_KF47 | TTYC_KF48 |
  TTYC_KF49 | TTYC_KF5 | TTYC_KF50 | TTYC_KF51 | TTYC_KF52 | TTYC_KF53 | TTYC_KF54 | TTYC_KF55 |
  TTYC_KF56 | TTYC_KF57 | TTYC_KF58 | TTYC_KF59 | TTYC_KF6 | TTYC_KF60 | TTYC_KF61 | TTYC_KF62 |
  TTYC_KF63 | TTYC_KF7 | TTYC_KF8 | TTYC_KF9 | TTYC_KHOM2 | TTYC_KHOM3 | TTYC_KHOM4 | TTYC_KHOM5
  | TTYC_KHOM6 | TTYC_KHOM7 | TTYC_KHOME | TTYC_KIC2 | TTYC_KIC3 | TTYC_KIC4 | TTYC_KIC5 |
  TTYC_KIC6 | TTYC_KIC7 | TTYC_KICH1 | TTYC_KIND | TTYC_KLFT2 | TTYC_KLFT3 | TTYC_KLFT4 |
  TTYC_KLFT5 | TTYC_KLFT6 | TTYC_KLFT7 | TTYC_KMOUS | TTYC_KNP | TTYC_KNXT2 | TTYC_KNXT3 |
  TTYC_KNXT4 | TTYC_KNXT5 | TTYC_KNXT6 | TTYC_KNXT7 | TTYC_KPP | TTYC_KPRV2 | TTYC_KPRV3 |
  TTYC_KPRV4 | TTYC_KPRV5 | TTYC_KPRV6 | TTYC_KPRV7 | TTYC_KRI | TTYC_KRIT2 | TTYC_KRIT3 |
  TTYC_KRIT4 | TTYC_KRIT5 | TTYC_KRIT6 | TTYC_KRIT7 | TTYC_KUP2 | TTYC_KUP3 | TTYC_KUP4 |
  TTYC_KUP5 | TTYC_KUP6 | TTYC_KUP7 | TTYC_MS | TTYC_NOBR | TTYC_OL | TTYC_OP | TTYC_RECT |
  TTYC_REV | TTYC_RGB | TTYC_RI | TTYC_RIN | TTYC_RMACS | TTYC_RMCUP | TTYC_RMKX | TTYC_SE |
  TTYC_SETAB | TTYC_SETAF | TTYC_SETAL | TTYC_SETRGBB | TTYC_SETRGBF | TTYC_SETULC |
  TTYC_SETULC1 | TTYC_SGR0 | TTYC_SITM | TTYC_SMACS | TTYC_SMCUP | TTYC_SMKX | TTYC_SMOL |
  TTYC_SMSO | TTYC_SMUL | TTYC_SMULX | TTYC_SMXX | TTYC_SPB | TTYC_SXL | TTYC_SS | TTYC_SWD |
  TTYC_SYNC | TTYC_TC | TTYC_TSL | TTYC_U8 | TTYC_VPA | TTYC_XT.

Definition tty_default_raw_keys : list (list Z * Z) := [
  (esc "O[", 27);
  (esc "Oo", KEYC_KP_SLASH ||| KEYC_KEYPAD);
  (esc "Oj", KEYC_KP_STAR ||| KEYC_KEYPAD);
  (esc "Om", KEYC_KP_MINUS ||| KEYC_KEYPAD);
  (esc "Ow", KEYC_KP_SEVEN ||| KEYC_KEYPAD);
  (esc "Ox", KEYC_KP_EIGHT ||| KEYC_KEYPAD);
  (esc "Oy", KEYC_KP_NINE ||| KEYC_KEYPAD);
  (esc "Ok", KEYC_KP_PLUS ||| KEYC_KEYPAD);
  (esc "Ot", KEYC_KP_FOUR ||| KEYC_KEYPAD);
  (esc "Ou", KEYC_KP_FIVE ||| KEYC_KEYPAD);
  (esc "Ov", KEYC_KP_SIX ||| KEYC_KEYPAD);
  (esc "Oq", KEYC_KP_ONE ||| KEYC_KEYPAD);
  (esc "Or", KEYC_KP_TWO ||| KEYC_KEYPAD);
  (esc "Os", KEYC_KP_THREE ||| KEYC_KEYPAD);
  (esc "OM", KEYC_KP_ENTER ||| KEYC_KEYPAD);
  (esc "Op", KEYC_KP_ZERO ||| KEYC_KEYPAD);
  (esc "On", KEYC_KP_PERIOD ||| KEYC_KEYPAD);
  (esc "OA", KEYC_UP ||| KEYC_CURSOR);
  (esc "OB", KEYC_DOWN ||| KEYC_CURSOR);
  (esc "OC", KEYC_RIGHT ||| KEYC_CURSOR);
  (esc "OD", KEYC_LEFT ||| KEYC_CURSOR);
  (esc "[A", KEYC_UP ||| KEYC_CURSOR);
  (esc "[B", KEYC_DOWN ||| KEYC_CURSOR);
  (esc "[C", KEYC_RIGHT ||| KEYC_CURSOR);
  (esc "[D", KEYC_LEFT ||| KEYC_CURSOR);
  (27 :: esc "OA", KEYC_UP ||| KEYC_CURSOR ||| KEYC_META);
  (27 :: esc "OB", KEYC_DOWN ||| KEYC_CURSOR ||| KEYC_META);
  (27 :: esc "OC", KEYC_RIGHT ||| KEYC_CURSOR ||| KEYC_META);
  (27 :: esc "OD", KEYC_LEFT ||| KEYC_CURSOR ||| KEYC_META);
  (27 :: esc "[A", KEYC_UP ||| KEYC_CURSOR ||| KEYC_META);
  (27 :: esc "[B", KEYC_DOWN ||| KEYC_CURSOR ||| KEYC_META);
  (27 :: esc "[C", KEYC_RIGHT ||| KEYC_CURSOR ||| KEYC_META);
  (27 :: esc "[D", KEYC_LEFT ||| KEYC_CURSOR ||| KEYC_META);
  (esc "OH", KEYC_HOME);
  (esc "OF", KEYC_END);
  (27 :: esc "OH", KEYC_HOME ||| KEYC_META ||| KEYC_IMPLIED_META);
  (27 :: esc "OF", KEYC_END ||| KEYC_META ||| KEYC_IMPLIED_META);
  (esc "[H", KEYC_HOME);
  (esc "[F", KEYC_END);
  (27 :: esc "[H", KEYC_HOME ||| KEYC_META ||| KEYC_IMPLIED_META);
  (27 :: esc "[F", KEYC_END ||| KEYC_META ||| KEYC_IMPLIED_META);
  (esc "Oa", KEYC_UP ||| KEYC_CTRL);
  (esc "Ob", KEYC_DOWN ||| KEYC_CTRL);
  (esc "Oc", KEYC_RIGHT ||| KEYC_CTRL);
  (esc "Od", KEYC_LEFT ||| KEYC_CTRL);
  (esc "[a", KEYC_UP ||| KEYC_SHIFT);
  (esc "[b", KEYC_DOWN ||| KEYC_SHIFT);
  (esc "[c", KEYC_RIGHT ||| KEYC_SHIFT);
  (esc "[d", KEYC_LEFT ||| KEYC_SHIFT);
  (esc "[11~", KEYC_F1);
  (esc "[12~", KEYC_F2);
  (esc "[13~", KEYC_F3);
  (esc "[14~", KEYC_F4);
  (esc "[15~", KEYC_F5);
  (esc "[17~", KEYC_F6);
  (esc "[18~", KEYC_F7);
  (esc "[19~", KEYC_F8);
  (esc "[20~", KEYC_F9);
  (esc "[21~", KEYC_F10);
  (esc "[23~", KEYC_F1 ||| KEYC_SHIFT);
  (esc "[24~", KEYC_F2 ||| KEYC_SHIFT);
  (esc "[25~", KEYC_F3 ||| KEYC_SHIFT);
  (esc "[26~", KEYC_F4 ||| KEYC_SHIFT);
  (esc "[28~", KEYC_F5 ||| KEYC_SHIFT);
  (esc "[29~", KEYC_F6 ||| KEYC_SHIFT);
  (esc "[31~", KEYC_F7 ||| KEYC_SHIFT);
  (esc "[32~", KEYC_F8 ||| KEYC_SHIFT);
  (esc "[33~", KEYC_F9 ||| KEYC_SHIFT);
  (esc "[34~", KEYC_F10 ||| KEYC_SHIFT);
  (esc "[23$", KEYC_F11 ||| KEYC_SHIFT);
  (esc "[24$", KEYC_F12 ||| KEYC_SHIFT);
  (esc "[11^", KEYC_F1 ||| KEYC_CTRL);
  (esc "[12^", KEYC_F2 ||| KEYC_CTRL);
  (esc "[13^", KEYC_F3 ||| KEYC_CTRL);
  (esc "[14^", KEYC_F4 ||| KEYC_CTRL);
  (esc "[15^", KEYC_F5 ||| KEYC_CTRL);
  (esc "[17^", KEYC_F6 ||| KEYC_CTRL);
  (esc "[18^", KEYC_F7 ||| KEYC_CTRL);
  (esc "[19^", KEYC_F8 ||| KEYC_CTRL);
  (esc "[20^", KEYC_F9 ||| KEYC_CTRL);
  (esc "[21^", KEYC_F10 ||| KEYC_CTRL);
  (esc "[23^", KEYC_F11 ||| KEYC_CTRL);
  (esc "[24^", KEYC_F12 ||| KEYC_CTRL);
  (esc "[11@", KEYC_F1 ||| KEYC_CTRL ||| KEYC_SHIFT);
  (esc "[12@", KEYC_F2 ||| KEYC_CTRL ||| KEYC_SHIFT);
  (esc "[13@", KEYC_F3 ||| KEYC_CTRL ||| KEYC_SHIFT);
  (esc "[14@", KEYC_F4 ||| KEYC_CTRL ||| KEYC_SHIFT);
  (esc "[15@", KEYC_F5 ||| KEYC_CTRL ||| KEYC_SHIFT);
  (esc "[17@", KEYC_F6 ||| KEYC_CTRL ||| KEYC_SHIFT);
  (esc "[18@", KEYC_F7 ||| KEYC_CTRL ||| KEYC_SHIFT);
  (esc "[19@", KEYC_F8 ||| KEYC_CTRL ||| KEYC_SHIFT);
  (esc "[20@", KEYC_F9 ||| KEYC_CTRL ||| KEYC_SHIFT);
  (esc "[21@", KEYC_F10 ||| KEYC_CTRL ||| KEYC_SHIFT);
  (esc "[23@", KEYC_F11 ||| KEYC_CTRL ||| KEYC_SHIFT);
  (esc "[24@", KEYC_F12 ||| KEYC_CTRL ||| KEYC_SHIFT);
  (esc "[I", KEYC_FOCUS_IN);
  (esc "[O", KEYC_FOCUS_OUT);
  (esc "[200~", KEYC_PASTE_START ||| KEYC_IMPLIED_META);
  (esc "[201~", KEYC_PASTE_END ||| KEYC_IMPLIED_META);
  (esc "[1;5Z", 9 ||| KEYC_CTRL ||| KEYC_SHIFT);
  (esc "[?997;1n", KEYC_REPORT_DARK_THEME);
  (esc "[?997;2n", KEYC_REPORT_LIGHT_THEME)
].

Definition tty_default_xterm_keys : list (list Z * Z) := [
  (esc "[1;_P", KEYC_F1);
  (esc "O1;_P", KEYC_F1);
  (esc "O_P", KEYC_F1);
  (esc "[1;_Q", KEYC_F2);
  (esc "O1;_Q", KEYC_F2);
  (esc "O_Q", KEYC_F2);
  (esc "[1;_R", KEYC_F3);
  (esc "O1;_R", KEYC_F3);
  (esc "O_R", KEYC_F3);
  (esc "[1;_S", KEYC_F4);
  (esc "O1;_S", KEYC_F4);
  (esc "O_S", KEYC_F4);
  (esc "[15;_~", KEYC_F5);
  (esc "[17;_~", KEYC_F6);
  (esc "[18;_~", KEYC_F7);
  (esc "[19;_~", KEYC_F8);
  (esc "[20;_~", KEYC_F9);
  (esc "[21;_~", KEYC_F10);
  (esc "[23;_~", KEYC_F11);
  (esc "[24;_~", KEYC_F12);
  (esc "[1;_A", KEYC_UP);
  (esc "[1;_B", KEYC_DOWN);
  (esc "[1;_C", KEYC_RIGHT);
  (esc "[1;_D", KEYC_LEFT);
  (esc "[1;_H", KEYC_HOME);
  (esc "[1;_F", KEYC_END);
  (esc "[5;_~", KEYC_PPAGE);
  (esc "[6;_~", KEYC_NPAGE);
  (esc "[2;_~", KEYC_IC);
  (esc "[3;_~", KEYC_DC)
].

Definition tty_default_xterm_modifiers : list Z := [
  0;
  0;
  KEYC_SHIFT;
  KEYC_META ||| KEYC_IMPLIED_META;
  KEYC_SHIFT ||| KEYC_META ||| KEYC_IMPLIED_META;
  KEYC_CTRL;
  KEYC_SHIFT ||| KEYC_CTRL;
  KEYC_META ||| KEYC_IMPLIED_META ||| KEYC_CTRL;
  KEYC_SHIFT ||| KEYC_META ||| KEYC_IMPLIED_META ||| KEYC_CTRL;
  KEYC_META ||| KEYC_IMPLIED_META
].

Definition tty_default_code_keys : list (tty_code_code * Z) := [
  (TTYC_KF1, KEYC_F1);
  (TTYC_KF2, KEYC_F2);
  (TTYC_KF3, KEYC_F3);
  (TTYC_KF4, KEYC_F4);
  (TTYC_KF5, KEYC_F5);
  (TTYC_KF6, KEYC_F6);
  (TTYC_KF7, KEYC_F7);
  (TTYC_KF8, KEYC_F8);
  (TTYC_KF9, KEYC_F9);
  (TTYC_KF10, KEYC_F10);
  (TTYC_KF11, KEYC_F11);
  (TTYC_KF12, KEYC_F12);
  (TTYC_KF13, KEYC_F1 ||| KEYC_SHIFT);
  (TTYC_KF14, KEYC_F2 ||| KEYC_SHIFT);
  (TTYC_KF15, KEYC_F3 ||| KEYC_SHIFT);
  (TTYC_KF16, KEYC_F4 ||| KEYC_SHIFT);
  (TTYC_KF17, KEYC_F5 ||| KEYC_SHIFT);
  (TTYC_KF18, KEYC_F6 ||| KEYC_SHIFT);
  (TTYC_KF19, KEYC_F7 ||| KEYC_SHIFT);
  (TTYC_KF20, KEYC_F8 ||| KEYC_SHIFT);
  (TTYC_KF21, KEYC_F9 ||| KEYC_SHIFT);
  (TTYC_KF22, KEYC_F10 ||| KEYC_SHIFT);
  (TTYC_KF23, KEYC_F11 ||| KEYC_SHIFT);
  (TTYC_KF24, KEYC_F12 ||| KEYC_SHIFT);
  (TTYC_KF25, KEYC_F1 ||| KEYC_CTRL);
  (TTYC_KF26, KEYC_F2 ||| KEYC_CTRL);
  (TTYC_KF27, KEYC_F3 ||| KEYC_CTRL);
  (TTYC_KF28, KEYC_F4 ||| KEYC_CTRL);
  (TTYC_KF29, KEYC_F5 ||| KEYC_CTRL);
  (TTYC_KF30, KEYC_F6 ||| KEYC_CTRL);
  (TTYC_KF31, KEYC_F7 ||| KEYC_CTRL);
  (TTYC_KF32, KEYC_F8 ||| KEYC_CTRL);
  (TTYC_KF33, KEYC_F9 ||| KEYC_CTRL);
  (TTYC_KF34, KEYC_F10 ||| KEYC_CTRL);
  (TTYC_KF35, KEYC_F11 ||| KEYC_CTRL);
  (TTYC_KF36, KEYC_F12 ||| KEYC_CTRL);
  (TTYC_KF37, KEYC_F1 ||| KEYC_SHIFT ||| KEYC_CTRL);
  (TTYC_KF38, KEYC_F2 ||| KEYC_SHIFT ||| KEYC_CTRL);
  (TTYC_KF39, KEYC_F3 ||| KEYC_SHIFT ||| KEYC_CTRL);
  (TTYC_KF40, KEYC_F4 ||| KEYC_SHIFT ||| KEYC_CTRL);
  (TTYC_KF41, KEYC_F5 ||| KEYC_SHIFT ||| KEYC_CTRL);
  (TTYC_KF42, KEYC_F6 ||| KEYC_SHIFT ||| KEYC_CTRL);
  (TTYC_KF43, KEYC_F7 ||| KEYC_SHIFT ||| KEYC_CTRL);
  (TTYC_KF44, KEYC_F8 ||| KEYC_SHIFT ||| KEYC_CTRL);
  (TTYC_KF45, KEYC_F9 ||| KEYC_SHIFT ||| KEYC_CTRL);
  (TTYC_KF46, KEYC_F10 ||| KEYC_SHIFT ||| KEYC_CTRL);
  (TTYC_KF47, KEYC_F11 ||| KEYC_SHIFT ||| KEYC_CTRL);
  (TTYC_KF48, KEYC_F12 ||| KEYC_SHIFT ||| KEYC_CTRL);
  (TTYC_KF49, KEYC_F1 ||| KEYC_META ||| KEYC_IMPLIED_META);
  (TTYC_KF50, KEYC_F2 ||| KEYC_META ||| KEYC_IMPLIED_META);
  (TTYC_KF51, KEYC_F3 ||| KEYC_META ||| KEYC_IMPLIED_META);
  (TTYC_KF52, KEYC_F4 ||| KEYC_META ||| KEYC_IMPLIED_META);
  (TTYC_KF53, KEYC_F5 ||| KEYC_META ||| KEYC_IMPLIED_META);
  (TTYC_KF54, KEYC_F6 ||| KEYC_META ||| KEYC_IMPLIED_META);
  (TTYC_KF55, KEYC_F7 ||| KEYC_META ||| KEYC_IMPLIED_META);
  (TTYC_KF56, KEYC_F8 ||| KEYC_META ||| KEYC_IMPLIED_META);
  (TTYC_KF57, KEYC_F9 ||| KEYC_META ||| KEYC_IMPLIED_META);
  (TTYC_KF58, KEYC_F10 ||| KEYC_META ||| KEYC_IMPLIED_META);
  (TTYC_KF59, KEYC_F11 ||| KEYC_META ||| KEYC_IMPLIED_META);
  (TTYC_KF60, KEYC_F12 ||| KEYC_META ||| KEYC_IMPLIED_META);
  (TTYC_KF61, KEYC_F1 ||| KEYC_META ||| KEYC_IMPLIED_META ||| KEYC_SHIFT);
  (TTYC_KF62, KEYC_F2 ||| KEYC_META ||| KEYC_IMPLIED_META ||| KEYC_SHIFT);
  (TTYC_KF63, KEYC_F3 ||| KEYC_META ||| KEYC_IMPLIED_META ||| KEYC_SHIFT);
  (TTYC_KICH1, KEYC_IC);
  (TTYC_KDCH1, KEYC_DC);
  (TTYC_KHOME, KEYC_HOME);
  (TTYC_KEND, KEYC_END);
  (TTYC_KNP, KEYC_NPAGE);
  (TTYC_KPP, KEYC_PPAGE);
  (TTYC_KCBT, KEYC_BTAB);
  (TTYC_KCUU1, KEYC_UP ||| KEYC_CURSOR);
  (TTYC_KCUD1, KEYC_DOWN ||| KEYC_CURSOR);
  (TTYC_KCUB1, KEYC_LEFT ||| KEYC_CURSOR);
  (TTYC_KCUF1, KEYC_RIGHT ||| KEYC_CURSOR);
  (TTYC_KDC2, KEYC_DC ||| KEYC_SHIFT);
  (TTYC_KDC3, KEYC_DC ||| KEYC_META ||| KEYC_IMPLIED_META);
  (TTYC_KDC4, KEYC_DC ||| KEYC_SHIFT ||| KEYC_META ||| KEYC_IMPLIED_META);
  (TTYC_KDC5, KEYC_DC ||| KEYC_CTRL);
  (TTYC_KDC6, KEYC_DC ||| KEYC_SHIFT ||| KEYC_CTRL);
  (TTYC_KDC7, KEYC_DC ||| KEYC_META ||| KEYC_IMPLIED_META ||| KEYC_CTRL);
  (TTYC_KIND, KEYC_DOWN ||| KEYC_SHIFT);
  (TTYC_KDN2, KEYC_DOWN ||| KEYC_SHIFT);
  (TTYC_KDN3, KEYC_DOWN ||| KEYC_META ||| KEYC_IMPLIED_META);
  (TTYC_KDN4, KEYC_DOWN ||| KEYC_SHIFT ||| KEYC_META ||| KEYC_IMPLIED_META);
  (TTYC_KDN5, KEYC_DOWN ||| KEYC_CTRL);
  (TTYC_KDN6, KEYC_DOWN ||| KEYC_SHIFT ||| KEYC_CTRL);
  (TTYC_KDN7, KEYC_DOWN ||| KEYC_META ||| KEYC_IMPLIED_META ||| KEYC_CTRL);
  (TTYC_KEND2, KEYC_END ||| KEYC_SHIFT);
  (TTYC_KEND3, KEYC_END ||| KEYC_META ||| KEYC_IMPLIED_META);
  (TTYC_KEND4, KEYC_END ||| KEYC_SHIFT ||| KEYC_META ||| KEYC_IMPLIED_META);
  (TTYC_KEND5, KEYC_END ||| KEYC_CTRL);
  (TTYC_KEND6, KEYC_END ||| KEYC_SHIFT ||| KEYC_CTRL);
  (TTYC_KEND7, KEYC_END ||| KEYC_META ||| KEYC_IMPLIED_META ||| KEYC_CTRL);
  (TTYC_KHOM2, KEYC_HOME ||| KEYC_SHIFT);
  (TTYC_KHOM3, KEYC_HOME ||| KEYC_META ||| KEYC_IMPLIED_META);
  (TTYC_KHOM4, KEYC_HOME ||| KEYC_SHIFT ||| KEYC_META ||| KEYC_IMPLIED_META);
  (TTYC_KHOM5, KEYC_HOME ||| KEYC_CTRL);
  (TTYC_KHOM6, KEYC_HOME ||| KEYC_SHIFT ||| KEYC_CTRL);
  (TTYC_KHOM7, KEYC_HOME ||| KEYC_META ||| KEYC_IMPLIED_META ||| KEYC_CTRL);
  (TTYC_KIC2, KEYC_IC ||| KEYC_SHIFT);
  (TTYC_KIC3, KEYC_IC ||| KEYC_META ||| KEYC_IMPLIED_META);
  (TTYC_KIC4, KEYC_IC ||| KEYC_SHIFT ||| KEYC_META ||| KEYC_IMPLIED_META);
  (TTYC_KIC5, KEYC_IC ||| KEYC_CTRL);
  (TTYC_KIC6, KEYC_IC ||| KEYC_SHIFT ||| KEYC_CTRL);
  (TTYC_KIC7, KEYC_IC ||| KEYC_META ||| KEYC_IMPLIED_META ||| KEYC_CTRL);
  (TTYC_KLFT2, KEYC_LEFT ||| KEYC_SHIFT);
  (TTYC_KLFT3, KEYC_LEFT ||| KEYC_META ||| KEYC_IMPLIED_META);
  (TTYC_KLFT4, KEYC_LEFT ||| KEYC_SHIFT ||| KEYC_META ||| KEYC_IMPLIED_META);
  (TTYC_KLFT5, KEYC_LEFT ||| KEYC_CTRL);
  (TTYC_KLFT6, KEYC_LEFT ||| KEYC_SHIFT ||| KEYC_CTRL);
  (TTYC_KLFT7, KEYC_LEFT ||| KEYC_META ||| KEYC_IMPLIED_META ||| KEYC_CTRL);
  (TTYC_KNXT2, KEYC_NPAGE ||| KEYC_SHIFT);
  (TTYC_KNXT3, KEYC_NPAGE ||| KEYC_META ||| KEYC_IMPLIED_META);
  (TTYC_KNXT4, KEYC_NPAGE ||| KEYC_SHIFT ||| KEYC_META ||| KEYC_IMPLIED_META);
  (TTYC_KNXT5, KEYC_NPAGE ||| KEYC_CTRL);
  (TTYC_KNXT6, KEYC_NPAGE ||| KEYC_SHIFT ||| KEYC_CTRL);
  (TTYC_KNXT7, KEYC_NPAGE ||| KEYC_META ||| KEYC_IMPLIED_META ||| KEYC_CTRL);
  (TTYC_KPRV2, KEYC_PPAGE ||| KEYC_SHIFT);
  (TTYC_KPRV3, KEYC_PPAGE ||| KEYC_META ||| KEYC_IMPLIED_META);
  (TTYC_KPRV4, KEYC_PPAGE ||| KEYC_SHIFT ||| KEYC_META ||| KEYC_IMPLIED_META);
  (TTYC_KPRV5, KEYC_PPAGE ||| KEYC_CTRL);
  (TTYC_KPRV6, KEYC_PPAGE ||| KEYC_SHIFT ||| KEYC_CTRL);
  (TTYC_KPRV7, KEYC_PPAGE ||| KEYC_META ||| KEYC_IMPLIED_META ||| KEYC_CTRL);
  (TTYC_KRIT2, KEYC_RIGHT ||| KEYC_SHIFT);
  (TTYC_KRIT3, KEYC_RIGHT ||| KEYC_META ||| KEYC_IMPLIED_META);
  (TTYC_KRIT4, KEYC_RIGHT ||| KEYC_SHIFT ||| KEYC_META ||| KEYC_IMPLIED_META);
  (TTYC_KRIT5, KEYC_RIGHT ||| KEYC_CTRL);
  (TTYC_KRIT6, KEYC_RIGHT ||| KEYC_SHIFT ||| KEYC_CTRL);
  (TTYC_KRIT7, KEYC_RIGHT ||| KEYC_META ||| KEYC_IMPLIED_META ||| KEYC_CTRL);
  (TTYC_KRI, KEYC_UP ||| KEYC_SHIFT);
  (TTYC_KUP2, KEYC_UP ||| KEYC_SHIFT);
  (TTYC_KUP3, KEYC_UP ||| KEYC_META ||| KEYC_IMPLIED_META);
  (TTYC_KUP4, KEYC_UP ||| KEYC_SHIFT ||| KEYC_META ||| KEYC_IMPLIED_META);
  (TTYC_KUP5, KEYC_UP ||| KEYC_CTRL);
  (TTYC_KUP6, KEYC_UP ||| KEYC_SHIFT ||| KEYC_CTRL);
  (TTYC_KUP7, KEYC_UP ||| KEYC_META ||| KEYC_IMPLIED_META ||| KEYC_CTRL)
].

(** ** The tree *)

(** An entry: a byte and its key; the entries of smaller and of larger bytes,
    and those of the next byte. *)
Inductive tty_key :=
  | Null
  | TKey (ch key : Z) (left right next : tty_key).

(** A pointer to an entry: the way to it from the root. *)
Inductive dir := DLeft | DRight | DNext.

(** [char] is signed. *)
Definition char_lt (a b : Z) : bool := sbyte a <? sbyte b.

(** [s] is not empty in the source's calls but for a user key: its terminator
    is then taken for a byte, and what follows it is read. *)
Fixpoint tty_keys_add1 (s : list Z) (key : Z) (tk : tty_key) {struct s} : option tty_key :=
  match s with
  | [] => None
  | c :: s' =>
      let entry ch k lft rgt next :=
        match s' with
        | [] => Some (TKey ch key lft rgt next)
        | _ => next ← tty_keys_add1 s' key next; Some (TKey ch k lft rgt next)
        end in
      (fix walk (tk : tty_key) : option tty_key :=
         match tk with
         | Null => entry c KEYC_UNKNOWN Null Null Null
         | TKey ch k lft rgt next =>
             if c =? ch then entry ch k lft rgt next
             else if char_lt c ch then lft ← walk lft; Some (TKey ch k lft rgt next)
             else rgt ← walk rgt; Some (TKey ch k lft rgt next)
         end) tk
  end.

Definition known (key : Z) : bool := negb (key =? KEYC_UNKNOWN).
Definition is_null (tk : tty_key) : bool := match tk with Null => true | _ => false end.

(** The way to the entry that was found and how many bytes it took; the bytes
    are counted when none is found too. *)
Fixpoint tty_keys_find1 (buf : list Z) (size : nat) (tk : tty_key) {struct buf} :
    option (list dir) * nat :=
  match buf with
  | [] => (None, size)
  | c :: buf' =>
      (fix walk (tk : tty_key) : option (list dir) * nat :=
         match tk with
         | Null => (None, size)
         | TKey ch key lft rgt next =>
             if c =? ch then
               if match buf' with [] => true | _ => false end || (is_null next && known key)
               then (Some [], S size)
               else let '(p, size) := tty_keys_find1 buf' (S size) next in (cons DNext <$> p, size)
             else if char_lt c ch then
               let '(p, size) := walk lft in (cons DLeft <$> p, size)
             else
               let '(p, size) := walk rgt in (cons DRight <$> p, size)
         end) tk
  end.

Definition tty_keys_find (tree : tty_key) (buf : list Z) : option (list dir) * nat :=
  tty_keys_find1 buf 0 tree.

(** The entry a pointer points to. *)
Fixpoint entry_at (p : list dir) (tk : tty_key) : tty_key :=
  match p, tk with
  | DLeft :: p, TKey _ _ lft _ _ => entry_at p lft
  | DRight :: p, TKey _ _ _ rgt _ => entry_at p rgt
  | DNext :: p, TKey _ _ _ _ next => entry_at p next
  | _, _ => tk
  end.

Definition entry_key (tk : tty_key) : Z := match tk with Null => KEYC_UNKNOWN | TKey _ k _ _ _ => k end.
Definition entry_next (tk : tty_key) : tty_key := match tk with Null => Null | TKey _ _ _ _ n => n end.

(** [tk->key = key]. *)
Fixpoint entry_set (p : list dir) (key : Z) (tk : tty_key) : tty_key :=
  match tk with
  | Null => Null
  | TKey ch k lft rgt next =>
      match p with
      | [] => TKey ch key lft rgt next
      | DLeft :: p => TKey ch k (entry_set p key lft) rgt next
      | DRight :: p => TKey ch k lft (entry_set p key rgt) next
      | DNext :: p => TKey ch k lft rgt (entry_set p key next)
      end
  end.

Definition tty_keys_add (tree : tty_key) (s : list Z) (key : Z) : option tty_key :=
  match fst (tty_keys_find tree s) with
  | None => tty_keys_add1 s key tree
  | Some p => Some (entry_set p key tree)
  end.

Fixpoint add_all (l : list (list Z * Z)) (tree : tty_key) : option tty_key :=
  match l with
  | [] => Some tree
  | (s, key) :: l => tree ← tty_keys_add tree s key; add_all l tree
  end.

(** The sequences with every modifier ([copy] has 16 bytes). *)
Definition xterm_keys : list (list Z * Z) :=
  flat_map (fun '(template, key) =>
    map (fun '(j, m) => (put_modifier (take 15 template) j, key ||| m))
      (modifiers_from_2 tty_default_xterm_modifiers)) tty_default_xterm_keys.

Definition not_empty (e : list Z * Z) : bool := match e.1 with [] => false | _ => true end.

(** The capabilities of the terminal, and the user's keys with their indices. *)
Definition tty_keys_build (term_string : tty_code_code -> list Z) (user_keys : list (Z * list Z)) :
    option tty_key :=
  tree ← add_all xterm_keys Null;
  tree ← add_all (List.filter not_empty tty_default_raw_keys) tree;
  tree ← add_all (List.filter not_empty
                    (map (fun '(c, key) => (term_string c, key)) tty_default_code_keys)) tree;
  add_all (map (fun '(i, s) => (s, KEYC_USER + i)) user_keys) tree.

(** ** The state *)

Definition TTY_TIMER : Z := 0x4.
Definition TTY_OSC52QUERY : Z := 0x40.
Definition TTY_HAVEDA : Z := 0x100.
Definition TTY_HAVEXDA : Z := 0x200.
Definition TTY_HAVEDA2 : Z := 0x800.
Definition TTY_WINSIZEQUERY : Z := 0x1000.
Definition TTY_WAITFG : Z := 0x2000.
Definition TTY_WAITBG : Z := 0x4000.
Definition TTY_BRACKETPASTE : Z := 0x8000.
Definition TTY_ALL_REQUEST_FLAGS : Z := TTY_HAVEDA ||| TTY_HAVEDA2 ||| TTY_HAVEXDA.

(** What the rest of the server is asked to do. *)
Inductive tty_call :=
  | server_client_handle_key (key : Z) (m : mouse_event) (buf : list Z)
  | session_theme_changed
  | reply_palette (idx c : Z)
  | reply_clipboard (buf : list Z) (clip : Z)
  | paste_add (data : list Z)
  | clipboard_timer_del
  | tty_add_features (name : string)
  | tty_default_features (name : string)
  | tty_update_features
  | tty_invalidate
  | window_update_focus
  | notify_client (name : string).

(** A timer of the event library: not set yet, waiting, or set and not waiting. *)
Inductive key_timer := TimerNew | TimerPending (ms : Z) | TimerIdle.

Record tty := Tty {
  tty_tree : tty_key;
  tty_in : list Z;
  tty_flags : Z;
  tty_sx : Z; tty_sy : Z; tty_xpixel : Z; tty_ypixel : Z;
  tty_mouse_last : Z * Z * Z;             (* x, y, b *)
  tty_fg : Z; tty_bg : Z;
  tty_timer : key_timer;
  tty_term_type : list Z;                 (* of the client *)
  tty_focused : bool;                     (* CLIENT_FOCUSED *)
  tty_utf8 : utf8_table;
  tty_calls : list tty_call
}.

Definition set_flags (f : Z) (t : tty) : tty :=
  let 'Tty a b _ c d e g h i j k l m n o := t in Tty a b f c d e g h i j k l m n o.
Definition set_in (b : list Z) (t : tty) : tty :=
  let 'Tty a _ f c d e g h i j k l m n o := t in Tty a b f c d e g h i j k l m n o.
Definition tty_set_size (c d e g : Z) (t : tty) : tty :=
  let 'Tty a b f _ _ _ _ h i j k l m n o := t in Tty a b f c d e g h i j k l m n o.
Definition set_mouse_last (h : Z * Z * Z) (t : tty) : tty :=
  let 'Tty a b f c d e g _ i j k l m n o := t in Tty a b f c d e g h i j k l m n o.
Definition set_fg (i : Z) (t : tty) : tty :=
  let 'Tty a b f c d e g h _ j k l m n o := t in Tty a b f c d e g h i j k l m n o.
Definition set_bg (j : Z) (t : tty) : tty :=
  let 'Tty a b f c d e g h i _ k l m n o := t in Tty a b f c d e g h i j k l m n o.
Definition set_timer (k : key_timer) (t : tty) : tty :=
  let 'Tty a b f c d e g h i j _ l m n o := t in Tty a b f c d e g h i j k l m n o.
Definition set_term_type (l : list Z) (t : tty) : tty :=
  let 'Tty a b f c d e g h i j k _ m n o := t in Tty a b f c d e g h i j k l m n o.
Definition set_focused (m : bool) (t : tty) : tty :=
  let 'Tty a b f c d e g h i j k l _ n o := t in Tty a b f c d e g h i j k l m n o.
Definition set_utf8 (n : utf8_table) (t : tty) : tty :=
  let 'Tty a b f c d e g h i j k l m _ o := t in Tty a b f c d e g h i j k l m n o.
Definition call (x : tty_call) (t : tty) : tty :=
  let 'Tty a b f c d e g h i j k l m n o := t in Tty a b f c d e g h i j k l m n (o ++ [x]).

Definition flag_on (f : Z) (t : tty) : tty := set_flags (tty_flags t ||| f) t.
Definition flag_off (f : Z) (t : tty) : tty := set_flags (without (tty_flags t) f) t.

(** ** Scanning the buffer *)

(** What the functions below return: 0, -1, 1 and -2. *)
Inductive found := Yes | No | Partial | Invalid.

(** The first bytes, one at a time, each one of a set: what is after them when
    there is something. *)
Fixpoint starts (pat : list (list Z)) (buf : list Z) : found * list Z :=
  match buf with
  | [] => (Partial, [])
  | c :: rest =>
      match pat with
      | [] => (Yes, buf)
      | set :: pat => if bool_decide (c ∈ set) then starts pat rest else (No, [])
      end
  end.

Definition CSI : list (list Z) := [[27]; [91]].
Definition OSC : list (list Z) := [[27]; [93]].

(** How many bytes there are before one that stops, [limit] at most. *)
Fixpoint scan_to (stop : Z -> Z -> bool) (limit : nat) (prev : Z) (buf : list Z) : nat :=
  match limit, buf with
  | S limit, c :: buf => if stop prev c then 0%nat else S (scan_to stop limit c buf)
  | _, _ => 0%nat
  end.

(** An escape and a backslash, or a bell. *)
Definition stop_st (prev c : Z) : bool := (prev =? 27) && (c =? 92).
Definition stop_osc (prev c : Z) : bool := stop_st prev c || (c =? 7).

(** What the handlers return: the result, [*size] and the terminal. *)
Notation handled := (found * nat * tty)%type.

(** Without the escape that ended it, as a C string. *)
Definition osc_text (l : list Z) : list Z :=
  c_string (match last l with Some 27 => take (length l - 1) l | _ => l end).

(** The text of an operating system command of [start] bytes before it: it
    and the whole size. *)
Definition osc_scan (start : nat) (rest : list Z) : found * nat * list Z :=
  let i := scan_to stop_osc 127 59 rest in
  if (i =? 127)%nat then (No, 0%nat, [])
  else if (i =? length rest)%nat then (Partial, 0%nat, [])
  else (Yes, (start + 1 + i)%nat, take i rest).

(** ** Replies of the terminal *)

Section Keys.
Context `{Locale} (wctomb : Z -> option (list Z)) (scan_cmyk : string -> option (Z * Z * Z)).

(** The terminal's erase character ([c_cc[VERASE]]), the value that stands for
    none ([_POSIX_VDISABLE]), the option [escape-time], whether there are
    requests to the client that wait, and what is on the stack where [tty_keys_extended_key] has a character it does not set
    to zero. *)
Record key_env := KE {
  ke_verase : Z;
  ke_vdisable : Z;
  ke_escape_time : Z;
  ke_requests : bool;
  ke_stack : list Z
}.
Context (env : key_env).

(** The clipboard: an operating system command of any length. *)
Definition clip_scan (rest : list Z) : nat * nat :=
  let end_ := scan_to stop_osc (length rest) 0 rest in
  (end_, match rest !! end_ with Some 7 => 1%nat | _ => 2%nat end).

Definition tty_keys_clipboard (buf : list Z) (t : tty) : handled :=
  match starts (OSC ++ [[53]; [50]; [59]]) buf with
  | (Yes, rest) =>
      let '(end_, terminator) := clip_scan rest in
      if (end_ =? length rest)%nat then (Partial, 0%nat, t)
      else
        let size := (5 + end_ + 1)%nat in
        let body := take (end_ - (terminator - 1)) rest in
        let clip := match body with
                    | c :: 59 :: _ => if c =? 59 then 0 else c
                    | _ => 0
                    end in
        let after := drop (scan_to (fun _ c => c =? 59) (length body) 0 body) body in
        match after with
        | [] | [_] => (Yes, size, t)
        | _ :: copy =>
            let needed := (Z.of_nat (length copy) + 3) / 4 * 3 in
            match b64_pton (c_string copy) needed with
            | None => (Yes, size, t)
            | Some out =>
                let t := call (reply_clipboard out clip) t in
                (Yes, size,
                 if has (tty_flags t) TTY_OSC52QUERY
                 then flag_off TTY_OSC52QUERY (call clipboard_timer_del (call (paste_add out) t))
                 else t)
            end
        end
  | (r, _) => (r, 0%nat, t)
  end.

(** [strsep (&cp, ";")], at most [n] times. *)
Fixpoint fields (n : nat) (s : string) : list string :=
  match n with
  | O => []
  | S n => match str_cut ";" s with
           | Some (f, rest) => f :: fields n rest
           | None => [s]
           end
  end.

(** A field as a number in a [char]; 0 when it is not one. *)
Definition da_number (f : string) : Z :=
  match scan_int f with
  | Some (v, EmptyString) => sbyte (u8 (clamp_ulong v))
  | _ => 0
  end.

(** The text of device attributes, up to the [c] that ends them. *)
Definition da_scan (rest : list Z) : found * nat * list Z :=
  let i := scan_to (fun _ c => (97 <=? c) && (c <=? 122)) 128 0 rest in
  if (i =? 128)%nat then (No, 0%nat, [])
  else if (i =? length rest)%nat then (Partial, 0%nat, [])
  else match rest !! i with
       | Some 99 => (Yes, (4 + i)%nat, c_string (take i rest))
       | _ => (No, 0%nat, [])
       end.

Definition da_feature (p : Z) (t : tty) : tty :=
  let add b name t := if (b : bool) then call (tty_add_features name) t else t in
  add (p =? 52) "clipboard"%string (add (p =? 28) "rectfill"%string
    (add (p =? 21) "margins"%string (add (p =? 4) "sixel"%string t))).

Definition da_numbers (text : list Z) : list Z := map da_number (fields 32 (string_of_bytes text)).

Definition tty_keys_device_attributes (buf : list Z) (t : tty) : handled :=
  if has (tty_flags t) TTY_HAVEDA then (No, 0%nat, t)
  else
    match starts (CSI ++ [[63]]) buf with
    | (Yes, rest) =>
        match da_scan rest with
        | (Yes, size, text) =>
            let p := da_numbers text in
            let p0 := hd 0 p in
            let t := if (61 <=? p0) && (p0 <=? 65)
                     then fold_left (fun t p => da_feature p t) (tail p) t else t in
            (Yes, size, flag_on TTY_HAVEDA (call tty_update_features t))
        | (r, _, _) => (r, 0%nat, t)
        end
    | (r, _) => (r, 0%nat, t)
    end.

Definition tty_keys_device_attributes2 (buf : list Z) (t : tty) : handled :=
  if has (tty_flags t) TTY_HAVEDA2 then (No, 0%nat, t)
  else
    match starts (CSI ++ [[62]]) buf with
    | (Yes, rest) =>
        match da_scan rest with
        | (Yes, size, text) =>
            let t := match hd 0 (da_numbers text) with
                     | 77 => call (tty_default_features "mintty"%string) t
                     | 84 => call (tty_default_features "tmux"%string) t
                     | 85 => call (tty_default_features "rxvt-unicode"%string) t
                     | _ => t
                     end in
            (Yes, size, flag_on TTY_HAVEDA2 (call tty_update_features t))
        | (r, _, _) => (r, 0%nat, t)
        end
    | (r, _) => (r, 0%nat, t)
    end.

(** The names of terminals and the features each stands for. *)
Definition terminal_names : list (string * string) :=
  [ ("iTerm2 ", "iTerm2"); ("tmux ", "tmux"); ("XTerm(", "XTerm"); ("mintty ", "mintty");
    ("foot(", "foot"); ("WezTerm ", "WezTerm") ]%string.

Definition xda_features (text : list Z) : option string :=
  snd <$> List.find (fun '(prefix, _) => String.prefix prefix (string_of_bytes text)) terminal_names.

Definition tty_keys_extended_device_attributes (buf : list Z) (t : tty) : handled :=
  if has (tty_flags t) TTY_HAVEXDA then (No, 0%nat, t)
  else
    match starts [[27]; [80]; [62]; [124]] buf with
    | (Yes, rest) =>
        let i := scan_to stop_st 127 124 rest in
        if (i =? 127)%nat then (No, 0%nat, t)
        else if (i =? length rest)%nat then (Partial, 0%nat, t)
        else
          let size := (5 + i)%nat in
          if (i =? 0)%nat then (Yes, size, t)
          else
            let text := c_string (take (i - 1) rest) in
            let t := match xda_features text with
                     | Some name => call (tty_default_features name) t
                     | None => t
                     end in
            (Yes, size, flag_on TTY_HAVEXDA (call tty_update_features (set_term_type text t)))
    | (r, _) => (r, 0%nat, t)
    end.

Definition parse_colour (text : list Z) : Z := colour_parseX11 scan_cmyk (string_of_bytes text).

Definition tty_keys_colours (buf : list Z) (t : tty) : handled :=
  match starts (OSC ++ [[49]; [48; 49]; [59]]) buf with
  | (Yes, rest) =>
      match osc_scan 5 rest with
      | (Yes, size, text) =>
          (Yes, size,
           match text with
           | [] => t
           | _ =>
               let n := parse_colour (osc_text text) in
               if n =? -1 then t
               else if bool_decide (buf !! 3%nat = Some 48) then flag_off TTY_WAITFG (set_fg n t)
               else flag_off TTY_WAITBG (set_bg n t)
           end)
      | (r, _, _) => (r, 0%nat, t)
      end
  | (r, _) => (r, 0%nat, t)
  end.

Definition tty_keys_palette (buf : list Z) (t : tty) : handled :=
  match starts (OSC ++ [[52]; [59]]) buf with
  | (Yes, rest) =>
      match osc_scan 4 rest with
      | (Yes, size, text) =>
          match text with
          | [] => (Yes, size, t)
          | _ =>
              let '(v, rest) := strtol (string_of_bytes (osc_text text)) in
              let idx := s32 v in
              match rest with
              | String ";" rest =>
                  if (idx <? 0) || (255 <? idx) then (No, size, t)
                  else
                    let c := colour_parseX11 scan_cmyk rest in
                    (Yes, size, if c =? -1 then t else call (reply_palette idx c) t)
              | _ => (No, size, t)
              end
          end
      | (r, _, _) => (r, 0%nat, t)
      end
  | (r, _) => (r, 0%nat, t)
  end.

(** ** Window size *)

(** Two numbers after a prefix, as [sscanf] with two [%u]. *)
Definition scan_two (prefix : string) (s : string) : option (Z * Z) :=
  s ← scan_lit prefix s;
  '(a, s) ← scan_u s;
  s ← scan_char ";" s;
  '(b, _) ← scan_u s;
  Some (a, b).

Definition digit_or_semicolon (c : Z) : bool := isdigit c || (c =? 59).

Definition tty_keys_winsz (buf : list Z) (t : tty) : handled :=
  if negb (has (tty_flags t) TTY_WINSIZEQUERY) then (No, 0%nat, t)
  else
    match starts CSI buf with
    | (Yes, rest) =>
        let n := scan_to (fun _ c => negb (digit_or_semicolon c)) 62 0 rest in
        if (n =? length rest)%nat then (Partial, 0%nat, t)
        else if (n =? 62)%nat || negb (bool_decide (rest !! n = Some 116)) then (No, 0%nat, t)
        else
          let tmp := string_of_bytes (take n rest) in
          let size := (2 + n + 1)%nat in
          match scan_two "8;" tmp with
          | Some (sy, sx) => (Yes, size, tty_set_size sx sy (tty_xpixel t) (tty_ypixel t) t)
          | None =>
              match scan_two "4;" tmp with
              | Some (ypixel, xpixel) =>
                  let per pixel cells := if (pixel =? 0) || (cells =? 0) then 0 else pixel / cells in
                  let t := tty_set_size (tty_sx t) (tty_sy t) (per xpixel (tty_sx t))
                             (per ypixel (tty_sy t)) t in
                  (Yes, size, flag_off TTY_WINSIZEQUERY (call tty_invalidate t))
              | None => (No, 0%nat, t)
              end
          end
    | (r, _) => (r, 0%nat, t)
    end.

(** ** The mouse *)

(** The mouse event of what was read, with the state kept for the next one. *)
Definition mouse_fill (x y b sgr_type sgr_b : Z) (m : mouse_event) (t : tty) : mouse_event * tty :=
  let '(lx, ly, lb) := tty_mouse_last t in
  (ME (me_valid m) (me_ignore m) (me_key m) (me_statusat m) (me_statuslines m) x y b lx ly lb
      (me_ox m) (me_oy m) (me_newmux_scroll_ignore m) (me_newmux_scroll_valid m)
      (me_newmux_scroll_lines_milli m) (me_newmux_scroll_precision m)
      (me_newmux_scroll_momentum m) (me_s m) (me_w m) (me_wp m) sgr_type sgr_b,
   set_mouse_last (x, y, b) t).

(** Digits up to one of the bytes that end them, added to an unsigned int: the
    value, the byte and what is after it. *)
Fixpoint sgr_number (ends : list Z) (n : Z) (size : nat) (buf : list Z) :
    found * nat * (Z * Z * list Z) :=
  match buf with
  | [] => (Partial, size, (n, 0, []))
  | ch :: buf =>
      if bool_decide (ch ∈ ends) then (Yes, S size, (n, ch, buf))
      else if (ch <? 48) || (57 <? ch) then (No, S size, (n, ch, buf))
      else sgr_number ends (u32 (10 * n + (ch - 48))) (S size) buf
  end.

(** [inl] is a result that ends the function; [inr] what is left to do. *)
Definition mouse_sgr (rest : list Z) (m : mouse_event) (t : tty) : handled * mouse_event :=
  match sgr_number [59] 0 3 rest with
  | (Yes, size, (sgr_b, _, rest)) =>
      match sgr_number [59] 0 size rest with
      | (Yes, size, (x, _, rest)) =>
          match sgr_number [77; 109] 0 size rest with
          | (Yes, size, (y, ch, _)) =>
              if (x <? 1) || (y <? 1) then (Invalid, size, t, m)
              else
                let b := if ch =? 109 then 3 else sgr_b in
                if (ch =? 109) && MOUSE_WHEEL sgr_b then (Invalid, size, t, m)
                else
                  let '(m, t) := mouse_fill (x - 1) (y - 1) b ch sgr_b m t in
                  (Yes, size, t, m)
          | (r, size, _) => (r, size, t, m)
          end
      | (r, size, _) => (r, size, t, m)
      end
  | (r, size, _) => (r, size, t, m)
  end.

Definition mouse_standard (rest : list Z) (m : mouse_event) (t : tty) : handled * mouse_event :=
  match rest with
  | b :: x :: y :: _ =>
      if (b <? MOUSE_PARAM_BTN_OFF) || (x <? MOUSE_PARAM_POS_OFF) || (y <? MOUSE_PARAM_POS_OFF)
      then (Invalid, 6%nat, t, m)
      else
        let '(m, t) := mouse_fill (x - MOUSE_PARAM_POS_OFF) (y - MOUSE_PARAM_POS_OFF)
                         (b - MOUSE_PARAM_BTN_OFF) 32 0 m t in
        (Yes, 6%nat, t, m)
  | _ => (Partial, (3 + length rest)%nat, t, m)
  end.

Definition tty_keys_mouse (buf : list Z) (m : mouse_event) (t : tty) : handled * mouse_event :=
  match starts CSI buf with
  | (Yes, 77 :: rest) => mouse_standard rest m t
  | (Yes, 60 :: rest) => mouse_sgr rest m t
  | (Yes, _) => (No, 0%nat, t, m)
  | (r, _) => (r, 0%nat, t, m)
  end.

Definition tty_keys_newmux_absll (n : Z) : Z := u64 (if n <? 0 then - (n + 1) + 1 else n).

(** The fields as numbers; [None] when one is not a number. *)
Fixpoint scroll_numbers (l : list string) : option (list Z) :=
  match l with
  | [] => Some []
  | f :: l =>
      match strtol f with
      | (v, EmptyString) => rest ← scroll_numbers l; Some (v :: rest)
      | _ => None
      end
  end.

(** Thousandths of lines, at least one line and what an unsigned int holds. *)
Definition scroll_lines (precision : bool) (yoff_milli ydelta : Z) (t : tty) : Z :=
  let delta := u64 (tty_keys_newmux_absll ydelta * 1000) in
  let lines :=
    if precision && negb (tty_ypixel t =? 0) && negb (tty_sy t =? 0) then
      Z.max (u64 (tty_keys_newmux_absll yoff_milli * tty_sy t) / tty_ypixel t) delta
    else delta in
  Z.min (if lines =? 0 then 1000 else lines) UINT_MAX.

Definition scroll_event (yoff ydelta precision momentum mx my : Z) (m : mouse_event) (t : tty) :
    mouse_event * tty :=
  let b := if 0 <? ydelta then MOUSE_WHEEL_UP else MOUSE_WHEEL_DOWN in
  let '(m, t') := mouse_fill (u32 mx) (u32 my) b 77 b m t in
  (ME (me_valid m) (me_ignore m) (me_key m) (me_statusat m) (me_statuslines m)
      (me_x m) (me_y m) (me_b m) (me_lx m) (me_ly m) (me_lb m) (me_ox m) (me_oy m)
      (me_newmux_scroll_ignore m) true
      (scroll_lines (negb (precision =? 0)) yoff ydelta t) (negb (precision =? 0)) (s32 momentum)
      (me_s m) (me_w m) (me_wp m) (me_sgr_type m) (me_sgr_b m), t').

Definition tty_keys_newmux_scroll (buf : list Z) (m : mouse_event) (t : tty) :
    handled * mouse_event :=
  match (match buf with [] => (No, []) | _ => starts (CSI ++ [[63]]) buf end) with
  | (Yes, rest) =>
      let n := scan_to (fun _ c => c =? 126) 157 0 rest in
      if (n =? length rest)%nat then (Partial, 0%nat, t, m)
      else if (n =? 157)%nat || negb (bool_decide (rest !! n = Some 126)) then (No, 0%nat, t, m)
      else
        let size := (3 + n + 1)%nat in
        let no := (No, size, t, m) in
        match fields 9 (string_of_bytes (c_string (take n rest))) with
        | name :: fs =>
            if negb (String.eqb name "7777") then no
            else
              match scroll_numbers fs with
              | Some [yoff; _; ydelta; _; precision; momentum] =>
                  let '(mx, my, _) := tty_mouse_last t in
                  if ydelta =? 0 then no
                  else
                    let '(m, t) := scroll_event yoff ydelta precision momentum mx my m t in
                    (Yes, size, t, m)
              | Some [yoff; _; ydelta; _; precision; momentum; mx; my] =>
                  if ydelta =? 0 then no
                  else if (mx <? 0) || (my <? 0) then no
                  else
                    let '(m, t) := scroll_event yoff ydelta precision momentum mx my m t in
                    (Yes, size, t, m)
              | _ => no
              end
        | [] => no
        end
  | (r, _) => (r, 0%nat, t, m)
  end.

(** ** Extended keys *)

(** A wide character as a character with its width ([utf8_fromwc]): only its
    own bytes are written over what [data] holds. *)
Definition utf8_fromwc (data : list Z) (wc : Z) : option utf8_data :=
  match wctomb wc with
  | None | Some [] => None
  | Some bytes =>
      let n := Z.of_nat (length bytes) in
      let data := bytes ++ drop (length bytes) data in
      width ← utf8_width loc_mbtowc loc_wcwidth loc_widths (UD data n n 0);
      Some (UD data n n (u8 width))
  end.

(** Inside the program a key is its packed character; [inr] is what the code
    rejects. *)
Definition internal_key (nkey : Z) (t : tty) : option (Z * tty + unit) :=
  if negb (nkey =? KEYC_BSPACE) && negb (without nkey 0x7f =? 0) then
    match utf8_fromwc (ke_stack env) (s32 nkey) with
    | None => Some (inr tt)
    | Some ud =>
        '(r, uc, u) ← utf8_from_data (tty_utf8 t) ud;
        Some (match r with UTF8_DONE => inl (uc, set_utf8 u t) | _ => inr tt end)
    end
  else Some (inl (nkey, t)).

Definition add_modifiers (modifiers nkey : Z) : Z :=
  if modifiers =? 0 then nkey
  else
    let m := modifiers - 1 in
    let add (b f key : Z) := if has m b then key ||| f else key in
    add 8 (KEYC_META ||| KEYC_IMPLIED_META)
      (add 4 KEYC_CTRL (add 2 (KEYC_META ||| KEYC_IMPLIED_META) (add 1 KEYC_SHIFT nkey))).

(** S-Tab is backtab. *)
Definition shift_tab (nkey : Z) : Z :=
  if (Z.land nkey KEYC_MASK_KEY =? 9) && has nkey KEYC_SHIFT
  then KEYC_BTAB ||| without (without nkey KEYC_MASK_KEY) KEYC_SHIFT else nkey.

(** Shift alone is lost on a printable character. *)
Definition shift_alone (nkey : Z) : Z :=
  let onlykey := Z.land nkey KEYC_MASK_KEY in
  if (((0x20 <? onlykey) && (onlykey <? 0x7f)) || KEYC_IS_UNICODE nkey) &&
     (Z.land nkey KEYC_MASK_MODIFIERS =? KEYC_SHIFT)
  then without nkey KEYC_SHIFT else nkey.

Definition key_of_numbers (number modifiers : Z) (t : tty) : option (Z * tty + unit) :=
  let bspace := negb (ke_verase env =? ke_vdisable env) && (number =? ke_verase env) in
  r ← internal_key (if bspace then KEYC_BSPACE else number) t;
  Some (match r with
        | inl (nkey, t) => inl (shift_alone (shift_tab (add_modifiers modifiers nkey)), t)
        | inr u => inr u
        end).

(** The number and the modifiers, by the byte that ends them. *)
Definition extended_numbers (end_ : option Z) (tmp : string) : option (Z * Z) :=
  match end_ with
  | Some 126 => '(modifiers, number) ← scan_two "27;" tmp; Some (number, modifiers)
  | Some 117 => scan_two "" tmp
  | _ => None
  end.

Definition tty_keys_extended_key (buf : list Z) (t : tty) : option (handled * Z) :=
  match starts CSI buf with
  | (Yes, rest) =>
      let n := scan_to (fun _ c => negb (digit_or_semicolon c)) 62 0 rest in
      if (n =? length rest)%nat then Some (Partial, 0%nat, t, 0)
      else if (n =? 62)%nat then Some (No, 0%nat, t, 0)
      else
        let tmp := string_of_bytes (take n rest) in
        let size := (2 + n + 1)%nat in
        match extended_numbers (rest !! n) tmp with
        | None => Some (No, 0%nat, t, 0)
        | Some (number, modifiers) =>
            r ← key_of_numbers number modifiers t;
            Some (match r with
                  | inl (key, t) => (Yes, size, t, key)
                  | inr _ => (No, size, t, 0)
                  end)
        end
  | (r, _) => Some (r, 0%nat, t, 0)
  end.

(** ** The next key *)

Definition paste_end : list Z := esc "[201~".
Definition tty_keys_partial_paste_end (buf : list Z) : bool :=
  match buf with
  | [] => false
  | _ => (length buf <? length paste_end)%nat && bool_decide (take (length buf) paste_end = buf)
  end.

(** A key of the tree, or a character. *)
Definition tree_key (buf : list Z) (expired : bool) (t : tty) : option (handled * Z) :=
  match tty_keys_find (tty_tree t) buf with
  | (Some p, size) =>
      let e := entry_at p (tty_tree t) in
      if known (entry_key e) then
        if negb (is_null (entry_next e)) && negb expired then Some (Partial, size, t, 0)
        else
          let key := entry_key e in
          let k := Z.land key KEYC_MASK_KEY in
          Some (Yes, size,
                if k =? KEYC_PASTE_START then flag_on TTY_BRACKETPASTE t
                else if k =? KEYC_PASTE_END then flag_off TTY_BRACKETPASTE t
                else t, key)
      else None
  | _ => None
  end.

(** [utf8_append] to every byte that is left. *)
Fixpoint append_bytes (more : utf8_state) (ud : utf8_data) (l : list Z) :
    option (utf8_state * utf8_data) :=
  match l with
  | [] => Some (more, ud)
  | ch :: l =>
      '(more, ud) ← utf8_append loc_mbtowc loc_wcwidth loc_widths false ud ch;
      append_bytes more ud l
  end.

Definition utf8_key_next (buf : list Z) (expired : bool) (t : tty) : option (handled * Z) :=
  match buf with
  | [] => None
  | ch :: rest =>
      '(more, ud) ← utf8_open loc_mbtowc loc_wcwidth loc_widths false ch;
      match more with
      | UTF8_MORE =>
          let size := Z.to_nat (ud_size ud) in
          if (length buf <? size)%nat then
            Some (if negb expired then Partial else No, size, t, 0)
          else
            '(more, ud) ← append_bytes more ud (take (size - 1) rest);
            match more with
            | UTF8_DONE =>
                '(r, uc, u) ← utf8_from_data (tty_utf8 t) ud;
                Some (match r with
                      | UTF8_DONE => (Yes, size, set_utf8 u t, uc)
                      | _ => (No, size, set_utf8 u t, 0)
                      end)
            | _ => Some (No, size, t, 0)
            end
      | _ => Some (No, 0%nat, t, 0)
      end
  end.

Definition tty_keys_next1 (buf : list Z) (expired : bool) (t : tty) : option (handled * Z) :=
  match tree_key buf expired t with
  | Some r => Some r
  | None => utf8_key_next buf expired t
  end.

(** What the steps of [tty_keys_next] come to: a key and the bytes it took, no
    key yet, or bytes to throw away. *)
Inductive next_step :=
  | Complete (key : Z) (size : nat) (m : mouse_event) (t : tty)
  | Wait (t : tty)
  | Discard (size : nat) (t : tty).

(** One [switch]: the key of what was found, or the steps after it. *)
Definition switch (r : handled) (key : Z) (m : mouse_event) (next : tty -> option next_step) :
    option next_step :=
  match r with
  | (Yes, size, t) => Some (Complete key size m t)
  | (No, _, t) => next t
  | (Partial, _, t) => Some (Wait t)
  | (Invalid, size, t) => Some (Discard size t)
  end.

(** The byte, or the byte after an escape with Meta. *)
Definition plain_key (buf : list Z) : option (Z * nat) :=
  match buf with
  | [] => None
  | b :: rest =>
      Some (match b, rest with
            | 27, b1 :: _ => (b1 ||| KEYC_META, 2%nat)
            | _, _ => (b, 1%nat)
            end)
  end.

Definition fix_space (key : Z) : Z :=
  if Z.land key KEYC_MASK_KEY =? 0 then 32 ||| KEYC_CTRL ||| Z.land key KEYC_META else key.

Definition fix_bspace (key : Z) : Z :=
  if ke_verase env =? ke_vdisable env then key
  else
    let key := if key =? ke_verase env then KEYC_BSPACE else key in
    if key =? ke_verase env ||| KEYC_META then KEYC_BSPACE ||| KEYC_META else key.

Definition fix_control (key : Z) : Z :=
  let onlykey := Z.land key KEYC_MASK_KEY in
  if (onlykey <? 0x20) && negb (onlykey =? 9) && negb (onlykey =? 13) && negb (onlykey =? 27) then
    let onlykey := onlykey ||| 0x40 in
    let onlykey := if (65 <=? onlykey) && (onlykey <=? 90) then onlykey ||| 0x20 else onlykey in
    onlykey ||| KEYC_CTRL ||| Z.land key KEYC_META
  else key.

(** From [first_key] on. *)
Definition first_key (buf : list Z) (expired : bool) (t : tty) : option next_step :=
  let plain (t : tty) :=
    '(key, size) ← plain_key buf;
    Some (Complete (fix_control (fix_bspace (fix_space key))) size mouse_zero t) in
  '(r, key) ← tty_keys_next1 buf expired t;
  switch r key mouse_zero (fun t =>
    match buf with
    | 27 :: (_ :: _) as rest =>
        '(r, key) ← tty_keys_next1 rest expired t;
        match r with
        | (Yes, size, t) =>
            Some (if has key KEYC_IMPLIED_META then Complete 27 1%nat mouse_zero t
                  else Complete (key ||| KEYC_META) (S size) mouse_zero t)
        | (Partial, _, t) => Some (Wait t)
        | (_, _, t) => plain t
        end
    | _ => plain t
    end).

Definition colours_switch (buf : list Z) (t : tty) : handled :=
  match tty_keys_colours buf t with
  | (Yes, size, t) => (Yes, size, call session_theme_changed t)
  | (Partial, size, t) => (Partial, size, call session_theme_changed t)
  | r => r
  end.

(** The switches before [first_key], in their order. *)
Definition replies_switch (buf : list Z) (t : tty) (next : tty -> option next_step) :
    option next_step :=
  let reply (h : list Z -> tty -> handled) next t := switch (h buf t) KEYC_UNKNOWN mouse_zero next in
  reply tty_keys_clipboard
    (reply tty_keys_device_attributes
      (reply tty_keys_device_attributes2
        (reply tty_keys_extended_device_attributes
          (reply colours_switch
            (reply tty_keys_palette next))))) t.

Definition all_switches (buf : list Z) (t : tty) : option next_step :=
  replies_switch buf t (fun t =>
    let '(r, m) := tty_keys_mouse buf mouse_zero t in
    switch r KEYC_MOUSE m (fun t =>
      let '(r, m) := tty_keys_newmux_scroll buf mouse_zero t in
      switch r KEYC_MOUSE m (fun t =>
        '(r, key) ← tty_keys_extended_key buf t;
        switch r key mouse_zero (fun t =>
          switch (tty_keys_winsz buf t) KEYC_UNKNOWN mouse_zero (fun t =>
            first_key buf false t))))).

(** How long to wait for the rest of a key. *)
Definition key_delay (buf : list Z) (t : tty) : Z :=
  let delay := if ke_escape_time env =? 0 then 1 else ke_escape_time env in
  let delay := if has (tty_flags t) TTY_BRACKETPASTE && tty_keys_partial_paste_end buf
               then Z.max delay 500 else delay in
  if has (tty_flags t) (TTY_WAITFG ||| TTY_WAITBG) ||
     negb (Z.land (tty_flags t) TTY_ALL_REQUEST_FLAGS =? TTY_ALL_REQUEST_FLAGS) ||
     ke_requests env
  then Z.max delay 500 else delay.

Definition timer_del (t : tty) : tty :=
  match tty_timer t with TimerNew => t | _ => set_timer TimerIdle t end.

Definition focus_events (key : Z) (t : tty) : tty :=
  if key =? KEYC_FOCUS_OUT then
    call (notify_client "client-focus-out"%string) (call window_update_focus (set_focused false t))
  else if key =? KEYC_FOCUS_IN then
    call window_update_focus (call (notify_client "client-focus-in"%string) (set_focused true t))
  else t.

(** A key is fired with the bytes it came from. *)
Definition fire_key (key : Z) (m : mouse_event) (bytes : list Z) (t : tty) : tty :=
  if key =? KEYC_UNKNOWN then t else call (server_client_handle_key key m bytes) t.

Definition drain (size : nat) (t : tty) : tty := set_in (drop size (tty_in t)) t.

Definition complete_key (buf : list Z) (key : Z) (size : nat) (m : mouse_event) (t : tty) : tty :=
  let t := flag_off TTY_TIMER (timer_del t) in
  drain size (fire_key key m (take size buf) (focus_events key t)).

(** At [partial_key]: an expired timer goes back to [first_key]. *)
Fixpoint next_from (fuel : nat) (buf : list Z) (s : next_step) : option (bool * tty) :=
  match s with
  | Complete key size m t => Some (true, complete_key buf key size m t)
  | Discard size t => Some (true, drain size t)
  | Wait t =>
      if has (tty_flags t) TTY_TIMER then
        match tty_timer t with
        | TimerIdle =>
            match fuel with
            | O => None
            | S fuel => s ← first_key buf true t; next_from fuel buf s
            end
        | _ => Some (false, t)
        end
      else
        Some (false, flag_on TTY_TIMER (set_timer (TimerPending (key_delay buf t)) (timer_del t)))
  end.

(** Whether a key was taken ([true] is 1). *)
Definition tty_keys_next (t : tty) : option (bool * tty) :=
  let buf := tty_in t in
  match buf with
  | [] => Some (false, t)
  | _ => s ← all_switches buf t; next_from 1 buf s
  end.

(** [while (tty_keys_next (tty)) ;] *)
Fixpoint next_while (fuel : nat) (t : tty) : option tty :=
  match fuel with
  | O => None
  | S fuel =>
      '(more, t) ← tty_keys_next t;
      if (more : bool) then next_while fuel t else Some t
  end.

(** The timer has gone off. *)
Definition tty_keys_callback (t : tty) : option tty :=
  let t := set_timer TimerIdle t in
  if has (tty_flags t) TTY_TIMER then next_while (S (length (tty_in t))) t else Some t.

End Keys.
