(* ===== verification/TtyKeysProps.v ===== *)
(** * Properties of keys

    The tree of the known sequences holds what was added to it, a key that was
    sent is read back, and reading always comes to an end. *)
From Stdlib Require Import ZArith Lia Ascii String.
From S2P Require Import Prelude.
From S2P Require Import CString.
From S2P Require Import Utf8.
From S2P Require Import Utf8Props.
From S2P Require Import Locale.
From S2P Require Import KeyString.
From S2P Require Import Base64.
From S2P Require Import Grid.
From S2P Require Import ScreenInfo.
From S2P Require Import Colour.
From S2P Require Import CmdLex.
From S2P Require Import InputKeys.
From S2P Require Import TtyKeys.

Open Scope key_scope.

(** ** The tree, a level at a time *)

(** The entry of a byte among those of a level: its key and what comes next. *)
Fixpoint level_get (c : Z) (tk : tty_key) : option (Z * tty_key) :=
  match tk with
  | Null => None
  | TKey ch k l r n =>
      if c =? ch then Some (k, n) else if char_lt c ch then level_get c l else level_get c r
  end.

(** The key of a sequence, if there is one. *)
Fixpoint key_at (s : list Z) (tk : tty_key) : option Z :=
  match s with
  | [] => None
  | c :: s' =>
      '(k, n) ← level_get c tk;
      match s' with
      | [] => if known k then Some k else None
      | _ => key_at s' n
      end
  end.

Definition level_or_new (c : Z) (tk : tty_key) : Z * tty_key :=
  default (KEYC_UNKNOWN, Null) (level_get c tk).

Lemma key_at_cons c s tk : s <> [] -> key_at (c :: s) tk = key_at s (level_or_new c tk).2.
Proof.
  intros Hs. cbn [key_at]. unfold level_or_new. destruct (level_get c tk) as [[k n]|]; cbn [mbind option_bind default].
  - by destruct s.
  - by destruct s.
Qed.

Lemma key_at_single c tk : key_at [c] tk =
  (let k := (level_or_new c tk).1 in if known k then Some k else None).
Proof. cbn [key_at]. unfold level_or_new. by destruct (level_get c tk) as [[k n]|]. Qed.

(** A level in which the entry of one byte has changed. *)
Definition level_put (c k : Z) (n tk tk' : tty_key) : Prop :=
  level_get c tk' = Some (k, n) /\ forall d, d <> c -> level_get d tk' = level_get d tk.

Lemma level_put_here c ch k k' l r n n' : c = ch -> level_put c k' n' (TKey ch k l r n) (TKey ch k' l r n').
Proof.
  intros ->. split; cbn [level_get]; [by rewrite Z.eqb_refl|].
  intros d Hd. by rewrite (proj2 (Z.eqb_neq d ch)).
Qed.

Lemma level_put_left c ch k k' l l' r n n' : c <> ch -> char_lt c ch = true ->
  level_put c k' n' l l' -> level_put c k' n' (TKey ch k l r n) (TKey ch k l' r n).
Proof.
  intros Hc Hlt [Hg Hd]. split; cbn [level_get].
  - by rewrite (proj2 (Z.eqb_neq c ch)), Hlt.
  - intros d H. destruct (d =? ch); [done|]. destruct (char_lt d ch); [by apply Hd|done].
Qed.

Lemma level_put_right c ch k k' l r r' n n' : c <> ch -> char_lt c ch = false ->
  level_put c k' n' r r' -> level_put c k' n' (TKey ch k l r n) (TKey ch k l r' n).
Proof.
  intros Hc Hlt [Hg Hd]. split; cbn [level_get].
  - by rewrite (proj2 (Z.eqb_neq c ch)), Hlt.
  - intros d H. destruct (d =? ch); [done|]. destruct (char_lt d ch); [done|by apply Hd].
Qed.

(** Every entry has a key or something after it. *)
Fixpoint live (tk : tty_key) : Prop :=
  match tk with
  | Null => True
  | TKey _ k l r n => live l /\ live r /\ live n /\ (known k = true \/ n <> Null)
  end.

Lemma live_key tk : live tk -> tk <> Null -> exists s k, key_at s tk = Some k.
Proof.
  induction tk as [|ch k l IHl r IHr n IHn]; [done|]. intros (_ & _ & Hn & Hk) _.
  destruct (known k) eqn:Ek.
  { exists [ch], k. cbn. rewrite Z.eqb_refl. cbn. by rewrite Ek. }
  destruct Hk as [|Hne]; [done|]. destruct (IHn Hn Hne) as (s & k' & Hs). exists (ch :: s), k'.
  assert (s <> []) by by destruct s.
  rewrite key_at_cons by done. unfold level_or_new. cbn [level_get]. by rewrite Z.eqb_refl.
Qed.

(** ** Adding a sequence *)

Lemma add1_level c s key tk : exists tk',
  tty_keys_add1 (c :: s) key tk = (
    n ← (match s with [] => Some (level_or_new c tk).2
         | _ => tty_keys_add1 s key (level_or_new c tk).2 end); Some (tk' n)) /\
  forall n, level_put c (match s with [] => key | _ => (level_or_new c tk).1 end) n tk (tk' n).
Proof.
  induction tk as [|ch k l IHl r IHr n IHn].
  - exists (fun n => TKey c (match s with [] => key | _ => KEYC_UNKNOWN end) Null Null n). split.
    + cbn. by destruct s.
    + intros n. split; cbn; [by rewrite Z.eqb_refl|]. intros d Hd.
      rewrite (proj2 (Z.eqb_neq d c)) by done. by destruct (char_lt d c).
  - unfold level_or_new in *. cbn [level_get]. destruct (Z.eqb_spec c ch) as [E|E].
    + exists (fun n => TKey ch (match s with [] => key | _ => k end) l r n). split.
      * cbn [tty_keys_add1]. rewrite (proj2 (Z.eqb_eq c ch)) by done. by destruct s.
      * intros n'. by apply level_put_here.
    + destruct (char_lt c ch) eqn:El.
      * destruct IHl as (l' & Hl & Hp). exists (fun n' => TKey ch k (l' n') r n). split.
        -- cbn [tty_keys_add1] in *. rewrite (proj2 (Z.eqb_neq c ch)), El by done. rewrite Hl.
           destruct s as [|d s]; [done|]. by destruct (tty_keys_add1 (d :: s) key (default (KEYC_UNKNOWN, Null) (level_get c l)).2).
        -- intros n'. by apply level_put_left.
      * destruct IHr as (r' & Hr & Hp). exists (fun n' => TKey ch k l (r' n') n). split.
        -- cbn [tty_keys_add1] in *. rewrite (proj2 (Z.eqb_neq c ch)), El by done. rewrite Hr.
           destruct s as [|d s]; [done|]. by destruct (tty_keys_add1 (d :: s) key (default (KEYC_UNKNOWN, Null) (level_get c r)).2).
        -- intros n'. by apply level_put_right.
Qed.

(** What an addition does to the keys. *)
Definition key_put (s : list Z) (key : Z) (tk tk' : tty_key) : Prop :=
  key_at s tk' = Some key /\ forall s', s' <> s -> key_at s' tk' = key_at s' tk.

Lemma key_put_level c s key k n tk tk' : level_put c k n tk tk' ->
  (s = [] -> k = key /\ known key = true /\ n = (level_or_new c tk).2) ->
  (s <> [] -> k = (level_or_new c tk).1 /\ key_put s key (level_or_new c tk).2 n) ->
  key_put (c :: s) key tk tk'.
Proof.
  intros [Hg Hd] H1 H2.
  assert (Hc : level_or_new c tk' = (k, n)) by (unfold level_or_new; by rewrite Hg).
  assert (Ho : forall d, d <> c -> level_or_new d tk' = level_or_new d tk)
    by (intros d H; unfold level_or_new; by rewrite Hd).
  split.
  - destruct (decide (s = [])) as [-> |Hs].
    + destruct H1 as (-> & Hk & _); [done|]. rewrite key_at_single, Hc. cbn. by rewrite Hk.
    + rewrite key_at_cons, Hc by done. by destruct (H2 Hs) as [_ [? _]].
  - intros [|d s'] Hne; [done|]. destruct (decide (d = c)) as [-> |Hdc].
    2: { destruct (decide (s' = [])) as [-> |Hs']; [by rewrite !key_at_single, Ho|].
         by rewrite !key_at_cons, Ho. }
    assert (s' <> s) by congruence. destruct (decide (s = [])) as [-> |Hs].
    + destruct H1 as (-> & Hk & ->); [done|]. rewrite !key_at_cons, Hc by done. done.
    + destruct (H2 Hs) as [-> [_ Hp]]. destruct (decide (s' = [])) as [-> |Hs'].
      * by rewrite !key_at_single, Hc.
      * rewrite !key_at_cons, Hc by done. by apply Hp.
Qed.

Lemma add1_put s key : s <> [] -> known key = true -> forall tk, exists tk',
  tty_keys_add1 s key tk = Some tk' /\ key_put s key tk tk'.
Proof.
  intros Hs Hk. induction s as [|c s IH]; [done|]. intros tk.
  destruct (add1_level c s key tk) as (f & -> & Hf).
  destruct (decide (s = [])) as [-> |Hs'].
  - eexists. split; [done|]. eapply key_put_level; [apply Hf|done|done].
  - destruct (IH Hs' (level_or_new c tk).2) as (n & E & Hp).
    replace (match s with [] => Some (level_or_new c tk).2
             | _ => tty_keys_add1 s key (level_or_new c tk).2 end) with (Some n) by (by destruct s).
    eexists. split; [done|]. eapply key_put_level; [apply Hf|done|]. intros _. split; [by destruct s|done].
Qed.

Lemma add1_live s key : known key = true -> forall tk tk', live tk ->
  tty_keys_add1 s key tk = Some tk' -> live tk' /\ tk' <> Null.
Proof.
  intros Hk. induction s as [|c s IH]; [done|].
  assert (He : forall ch k l r n tk', live l -> live r -> live n ->
    match s with
    | [] => Some (TKey ch key l r n)
    | _ => next ← tty_keys_add1 s key n; Some (TKey ch k l r next)
    end = Some tk' -> live tk' /\ tk' <> Null).
  { intros ch k l r n tk' Hl Hr Hn E. destruct s as [|d s]; [injection E as <-; cbn; split; [tauto|done]|].
    destruct (tty_keys_add1 (d :: s) key n) as [n'|] eqn:E'; [|done]. injection E as <-.
    destruct (IH _ _ Hn E'). cbn. split; [tauto|done]. }
  induction tk as [|ch k l IHl r IHr n IHn]; intros tk' Hlive E; cbn [tty_keys_add1] in E.
  { by eapply He; [..|exact E]. }
  destruct Hlive as (Hl & Hr & Hn & Hkn). destruct (c =? ch); [by eapply He; [..|exact E]|].
  destruct (char_lt c ch).
  - destruct (_ l) as [l'|] eqn:El in E; [|done]. injection E as <-. destruct (IHl l' Hl El).
    cbn. split; [tauto|done].
  - destruct (_ r) as [r'|] eqn:Er in E; [|done]. injection E as <-. destruct (IHr r' Hr Er).
    cbn. split; [tauto|done].
Qed.

(** ** Finding a sequence *)

(** A pointer to the entry of a byte of a level. *)
Record level_ptr (c k : Z) (n : tty_key) (tk : tty_key) (p0 : list dir) : Prop := {
  lp_key : entry_key (entry_at p0 tk) = k;
  lp_next : entry_next (entry_at p0 tk) = n;
  lp_down : forall p, entry_at (p0 ++ DNext :: p) tk = entry_at p n;
  lp_set : forall key, level_put c key n tk (entry_set p0 key tk);
  lp_set_down : forall p key, level_put c k (entry_set p key n) tk (entry_set (p0 ++ DNext :: p) key tk)
}.

Definition ends (buf : list Z) : bool := match buf with [] => true | _ => false end.

Lemma find1_eq c buf size ch key l r n :
  tty_keys_find1 (c :: buf) size (TKey ch key l r n) =
    if c =? ch then
      if ends buf || (is_null n && known key) then (Some [], S size)
      else let '(p, size) := tty_keys_find1 buf (S size) n in (cons DNext <$> p, size)
    else if char_lt c ch then
      let '(p, size) := tty_keys_find1 (c :: buf) size l in (cons DLeft <$> p, size)
    else let '(p, size) := tty_keys_find1 (c :: buf) size r in (cons DRight <$> p, size).
Proof. reflexivity. Qed.

Lemma find1_level c buf size tk :
  match level_get c tk with
  | None => tty_keys_find1 (c :: buf) size tk = (None, size)
  | Some (k, n) => exists p0, level_ptr c k n tk p0 /\
      tty_keys_find1 (c :: buf) size tk =
        if ends buf || (is_null n && known k) then (Some p0, S size)
        else let '(p, size) := tty_keys_find1 buf (S size) n in
             ((fun p => p0 ++ DNext :: p) <$> p, size)
  end.
Proof.
  induction tk as [|ch k l IHl r IHr n IHn]; [done|]. cbn [level_get]. rewrite find1_eq.
  destruct (Z.eqb_spec c ch) as [E|E].
  { exists []. split; [|done]. split; try done; intros; by apply level_put_here. }
  destruct (char_lt c ch) eqn:El.
  - destruct (level_get c l) as [[k' n']|] eqn:Eg; [|by rewrite IHl].
    destruct IHl as (p0 & [H1 H2 H3 H4 H5] & ->). exists (DLeft :: p0). split.
    + split; try done; intros; by apply level_put_left.
    + destruct (_ || _); [done|]. by destruct (tty_keys_find1 buf (S size) n') as [[p|] m].
  - destruct (level_get c r) as [[k' n']|] eqn:Eg; [|by rewrite IHr].
    destruct IHr as (p0 & [H1 H2 H3 H4 H5] & ->). exists (DRight :: p0). split.
    + split; try done; intros; by apply level_put_right.
    + destruct (_ || _); [done|]. by destruct (tty_keys_find1 buf (S size) n') as [[p|] m].
Qed.

(** What a pointer that was found for the sequence [s] is good for. *)
Record found_ptr (s : list Z) (tk : tty_key) (p : list dir) : Prop := {
  fp_key : key_at s tk = (let k := entry_key (entry_at p tk) in if known k then Some k else None);
  fp_put : forall key, known key = true -> key_put s key tk (entry_set p key tk)
}.

Lemma find1_some buf : forall size tk p n, tty_keys_find1 buf size tk = (Some p, n) ->
  exists m, n = (size + m)%nat /\ (0 < m <= length buf)%nat /\ found_ptr (take m buf) tk p /\
    (m = length buf \/ (entry_next (entry_at p tk) = Null /\ known (entry_key (entry_at p tk)) = true)).
Proof.
  induction buf as [|c buf IH]; intros size tk p n E; [done|].
  pose proof (find1_level c buf size tk) as Hl. destruct (level_get c tk) as [[k nx]|] eqn:Eg;
    [|by rewrite Hl in E].
  assert (Hc : level_or_new c tk = (k, nx)) by (unfold level_or_new; by rewrite Eg).
  destruct Hl as (p0 & [H1 H2 H3 H4 H5] & El). rewrite El in E. clear El.
  destruct (ends buf || (is_null nx && known k)) eqn:Ee.
  - injection E as <- <-. exists 1%nat. split_and!; [lia|cbn; lia|cbn; lia| |].
    + cbn [take]. split; [by rewrite key_at_single, Hc, H1|]. intros key Hk.
      eapply key_put_level; [apply H4| |done]. intros _. by rewrite Hc.
    + rewrite H1, H2. destruct buf as [|d buf]; [by left|]. right. cbn [ends orb] in Ee.
      apply andb_true_iff in Ee as [Hn ?]. by destruct nx.
  - destruct (tty_keys_find1 buf (S size) nx) as [[p1|] n1] eqn:Ef; [|done]. injection E as <- <-.
    destruct (IH _ _ _ _ Ef) as (m & -> & Hm & [Hk Hp] & Hend). exists (S m).
    assert (take m buf <> []) by (destruct m, buf; cbn in Hm |- *; lia || done).
    split_and!; [lia|cbn; lia|cbn; lia| |].
    + cbn [take]. split; [rewrite key_at_cons, Hc, H3 by done; exact Hk|]. intros key Hkey.
      eapply key_put_level; [apply H5|done|]. intros _. rewrite Hc. split; [done|by apply Hp].
    + rewrite H3. destruct Hend as [-> | ?]; [by left|by right].
Qed.

Lemma entry_set_live key : known key = true -> forall p tk, live tk -> live (entry_set p key tk).
Proof.
  intros Hk. assert (Hn : forall p tk, entry_set p key tk = Null -> tk = Null)
    by (intros [|[] p] []; done).
  induction p as [|d p IH]; intros [|ch k l r n]; try done; intros (Hl & Hr & Hnx & Hkn).
  - cbn. tauto.
  - destruct d; cbn; split_and!; try done; try (by apply IH).
    destruct Hkn as [|Hkn]; [by left|]. right. intros E. by apply Hn in E.
Qed.

(** A sequence that no other one extends is found at the start of the buffer,
    whatever follows it. *)
Lemma find1_key s k rest : forall size tk, live tk -> key_at s tk = Some k ->
  (forall s' k', key_at (s ++ s') tk = Some k' -> s' = []) ->
  exists p, tty_keys_find1 (s ++ rest) size tk = (Some p, (size + length s)%nat) /\
    entry_key (entry_at p tk) = k /\ entry_next (entry_at p tk) = Null.
Proof.
  induction s as [|c s IH]; intros size tk Hlive Hk Hext; [done|].
  pose proof (find1_level c (s ++ rest) size tk) as Hl.
  assert (Hlv : live (level_or_new c tk).2).
  { unfold level_or_new. clear -Hlive. induction tk as [|ch k l IHl r IHr n _]; [done|].
    destruct Hlive as (? & ? & ? & _). cbn. destruct (c =? ch); [done|]. destruct (char_lt c ch); auto. }
  destruct (level_get c tk) as [[k0 nx]|] eqn:Eg.
  2: { destruct (decide (s = [])) as [-> |Hs].
    - rewrite key_at_single in Hk. unfold level_or_new in Hk. by rewrite Eg in Hk.
    - rewrite key_at_cons in Hk by done. unfold level_or_new in Hk. rewrite Eg in Hk. by destruct s. }
  assert (Hc : level_or_new c tk = (k0, nx)) by (unfold level_or_new; by rewrite Eg).
  rewrite Hc in Hlv. destruct Hl as (p0 & [H1 H2 H3 _ _] & El). cbn [app]. rewrite El. clear El.
  destruct (decide (s = [])) as [-> |Hs].
  - rewrite key_at_single, Hc in Hk. cbn in Hk. destruct (known k0) eqn:Ek; [|done]. injection Hk as ->.
    assert (nx = Null) as ->.
    { destruct nx as [|ch k1 l r n] eqn:En; [done|]. exfalso. rewrite <- En in *.
      destruct (live_key nx Hlv) as (s' & k' & Hs'); [by rewrite En|].
      assert (Hne : s' <> []) by by destruct s'. apply Hne. apply (Hext s' k').
      cbn [app]. by rewrite key_at_cons, Hc. }
    rewrite orb_true_r. exists p0. split; [|done]. f_equal. cbn. lia.
  - rewrite key_at_cons, Hc in Hk by done. cbn [snd] in Hk.
    destruct (IH (S size) nx Hlv Hk) as (p & -> & Hp & Hnx).
    { intros s' k' Hs'. apply (Hext s' k'). cbn [app]. rewrite key_at_cons, Hc; [done|by destruct s]. }
    assert (Hstop : ends (s ++ rest) || (is_null nx && known k0) = false).
    { destruct s; [done|]. cbn. by destruct nx. }
    rewrite Hstop. exists (p0 ++ DNext :: p). rewrite H3. split; [|done]. cbn. f_equal. lia.
Qed.

(** ** The tree is a map *)

Definition key_map (l : list (list Z * Z)) : gmap (list Z) Z :=
  fold_left (fun m e => <[e.1:=e.2]> m) l ∅.

(** No sequence starts another one. *)
Definition prefix_free (l : list (list Z)) : Prop :=
  forall a b, a ∈ l -> b ∈ l -> a `prefix_of` b -> a = b.

Definition key_entry_ok (e : list Z * Z) : Prop := e.1 <> [] /\ known e.2 = true.

Record tree_map (m : gmap (list Z) Z) (tree : tty_key) : Prop := {
  tm_live : live tree;
  tm_keys : forall s, key_at s tree = m !! s
}.

Lemma key_put_map m s key tree tree' : tree_map m tree -> live tree' -> key_put s key tree tree' ->
  tree_map (<[s:=key]> m) tree'.
Proof.
  intros [_ Hm] Hl [Hs Ho]. split; [done|]. intros s'.
  destruct (decide (s' = s)) as [-> |Hne]; [by rewrite lookup_insert_eq|].
  rewrite lookup_insert_ne by done. by rewrite Ho.
Qed.

Lemma tty_keys_add_map m tree s key : tree_map m tree -> key_entry_ok (s, key) ->
  (forall s' k, m !! s' = Some k -> s' `prefix_of` s -> s' = s) ->
  exists tree', tty_keys_add tree s key = Some tree' /\ tree_map (<[s:=key]> m) tree'.
Proof.
  intros Hm [Hs Hk] Hp. cbn in Hs, Hk. unfold tty_keys_add, tty_keys_find.
  destruct (tty_keys_find1 s 0 tree) as [[p|] n] eqn:E; cbn [fst].
  - destruct (find1_some _ _ _ _ _ E) as (j & -> & Hj & [Hf Hput] & Hend).
    assert (j = length s) as ->.
    { destruct Hend as [?|[_ Hkn]]; [done|]. cbv zeta in Hf. rewrite Hkn, (tm_keys _ _ Hm) in Hf.
      pose proof (Hp _ _ Hf (prefix_take s j)) as Ht. apply (f_equal length) in Ht.
      rewrite length_take in Ht. lia. }
    rewrite firstn_all2 in Hput by lia. eexists. split; [done|].
    eapply key_put_map; [done| |by apply Hput]. apply entry_set_live; [done|apply Hm].
  - destruct (add1_put s key Hs Hk tree) as (tree' & Ht & Hput). exists tree'. split; [done|].
    eapply key_put_map; [done| |done]. by eapply add1_live; [|apply Hm|].
Qed.

Lemma add_all_map l : forall m tree, tree_map m tree -> Forall key_entry_ok l ->
  prefix_free (map fst l) ->
  (forall s k s', m !! s = Some k -> s' ∈ map fst l -> s `prefix_of` s' -> s = s') ->
  exists tree', add_all l tree = Some tree' /\
    tree_map (fold_left (fun m e => <[e.1:=e.2]> m) l m) tree'.
Proof.
  induction l as [|[s key] l IH]; intros m tree Hm Hok Hfree Hpre; [by exists tree|].
  apply Forall_cons in Hok as [He Hok]. cbn [add_all fold_left fst snd].
  destruct (tty_keys_add_map m tree s key Hm He) as (tree1 & -> & Hm1).
  { intros s' k Hs' Hp. apply (Hpre _ _ s Hs'); [left|done]. }
  apply IH; [done|done| |].
  - intros a b Ha Hb. apply Hfree; by right.
  - intros a k b Ha Hb Hp. destruct (decide (a = s)) as [-> |Hne].
    + apply Hfree; [left|by right|done].
    + rewrite lookup_insert_ne in Ha by done. eapply Hpre; [done|by right|done].
Qed.

Lemma key_map_elem l : forall (m : gmap (list Z) Z) s k, fold_left (fun m e => <[e.1:=e.2]> m) l m !! s = Some k ->
  s ∈ map fst l \/ m !! s = Some k.
Proof.
  induction l as [|[a b] l IH]; intros m s k Hs; [by right|]. cbn [map fold_left fst snd] in *.
  destruct (IH _ _ _ Hs) as [?|Hi]; [left; by right|].
  destruct (decide (s = a)) as [-> |Hne]; [left; left|]. right. by rewrite lookup_insert_ne in Hi.
Qed.

Section Keys.
Context `{Locale}.

Lemma key_map_in l s k : key_map l !! s = Some k -> s ∈ map fst l.
Proof.
  intros Hs. destruct (key_map_elem _ _ _ _ Hs) as [?|Hn]; [done|]. by rewrite lookup_empty in Hn.
Qed.

Lemma key_at_known s : forall tk k, key_at s tk = Some k -> known k = true.
Proof.
  induction s as [|c s IH]; intros tk k Hs; [done|]. destruct (decide (s = [])) as [-> |].
  - rewrite key_at_single in Hs. cbv zeta in Hs.
    destruct (known (level_or_new c tk).1) eqn:Ek; [by injection Hs as <-|done].
  - rewrite key_at_cons in Hs by done. by eapply IH.
Qed.

(** The next key in a tree that is a map. *)
Lemma tree_map_next1 l s k rest expired t : tree_map (key_map l) (tty_tree t) ->
  prefix_free (map fst l) -> key_map l !! s = Some k ->
  exists t', tty_keys_next1 (s ++ rest) expired t = Some (Yes, length s, t', k) /\
    tty_in t' = tty_in t.
Proof.
  intros [Hlive Hkeys] Hfree Hs.
  destruct (find1_key s k rest 0 (tty_tree t)) as (p & Ef & Hk & Hn); [done|by rewrite Hkeys| |].
  { intros s' k' Hs'. rewrite Hkeys in Hs'. assert (s = s ++ s') as Hss.
    { apply Hfree; [by eapply key_map_in..|by exists s']. }
    apply (f_equal length) in Hss. rewrite length_app in Hss. destruct s'; [done|cbn in Hss; lia]. }
  assert (Hkn : known k = true) by (rewrite <- Hkeys in Hs; by eapply key_at_known).
  unfold tty_keys_next1, tree_key, tty_keys_find. rewrite Ef, Hk, Hkn, Hn. cbn [is_null negb andb].
  eexists. split; [reflexivity|]. repeat case_match; by destruct t.
Qed.

Lemma add_all_keys l : Forall key_entry_ok l -> prefix_free (map fst l) ->
  exists tree, add_all l Null = Some tree /\ tree_map (key_map l) tree.
Proof.
  intros Hok Hfree. apply add_all_map; [|done|done|].
  - split; [done|]. intros [|c s]; by rewrite lookup_empty.
  - intros s k s' Hs. by rewrite lookup_empty in Hs.
Qed.

(** C18. Sequences of which none starts another one are a map: when the tree
    has been built of them, the next key at the start of a buffer that starts
    with one of them is the key last given to it, whatever follows and whether
    or not the timer has gone off; and an entry that has a key is only ever
    found for a sequence that was added, with its key. *)
Theorem tty_keys_refine_map l : Forall key_entry_ok l -> prefix_free (map fst l) ->
  exists tree, add_all l Null = Some tree /\
    (forall s k rest expired t, key_map l !! s = Some k -> tty_tree t = tree ->
       exists t', tty_keys_next1 (s ++ rest) expired t = Some (Yes, length s, t', k) /\
         tty_in t' = tty_in t) /\
    (forall buf p n, tty_keys_find tree buf = (Some p, n) ->
       known (entry_key (entry_at p tree)) = true ->
       key_map l !! take n buf = Some (entry_key (entry_at p tree))).
Proof.
  intros Hok Hfree. destruct (add_all_keys l Hok Hfree) as (tree & E & Hm). exists tree. split; [done|].
  split; [intros s k rest expired t Hs <-; by apply (tree_map_next1 l)|].
  intros buf p n Ef Hk. destruct (find1_some _ _ _ _ _ Ef) as (j & -> & _ & [Hf _] & _).
  cbv zeta in Hf. rewrite Hk in Hf. by rewrite <- (tm_keys _ _ Hm).
Qed.

End Keys.

Definition prefix_freeb (l : list (list Z)) : bool :=
  forallb (fun a => forallb (fun b => negb (bool_decide (take (length a) b = a)) || bool_decide (a = b)) l) l.

Lemma prefix_freeb_sound l : prefix_freeb l = true -> prefix_free l.
Proof.
  unfold prefix_freeb. rewrite forallb_forall. intros Hl a b Ha Hb [k ->].
  specialize (Hl a (proj1 (list_elem_of_In _ _) Ha)). rewrite forallb_forall in Hl.
  specialize (Hl _ (proj1 (list_elem_of_In _ _) Hb)). apply orb_true_iff in Hl as [Hl|Hl].
  - rewrite take_app_length, bool_decide_eq_true_2 in Hl by done. done.
  - by apply bool_decide_eq_true in Hl.
Qed.

Definition default_keys : list (list Z * Z) :=
  xterm_keys ++ List.filter not_empty tty_default_raw_keys.

Lemma default_keys_ok : Forall key_entry_ok default_keys /\ prefix_free (map fst default_keys).
Proof.
  split.
  - apply Forall_forall. intros e He. assert (Hall : forallb (fun e => not_empty e && known e.2) default_keys = true)
      by (vm_compute; reflexivity).
    rewrite forallb_forall in Hall. specialize (Hall e (proj1 (list_elem_of_In _ _) He)).
    apply andb_true_iff in Hall as [Hn ?]. split; [|done]. unfold not_empty in Hn. by destruct e.1.
  - apply prefix_freeb_sound. vm_compute. reflexivity.
Qed.

(** ** Extended keys *)

Lemma scan_to_stop stop l c rest : (forall p d, d ∈ l -> stop p d = false) -> (forall p, stop p c = true) ->
  forall limit prev, (length l < limit)%nat -> scan_to stop limit prev (l ++ c :: rest) = length l.
Proof.
  intros Hl Hc. induction l as [|d l IH]; intros [|limit] prev Hlt; cbn in Hlt |- *; try lia.
  - by rewrite Hc.
  - rewrite Hl by left. f_equal. apply IH; [|lia]. intros p e He. apply Hl. by right.
Qed.

(** The modifiers an extended key can have, and the number that stands for them. *)
Definition ext_mods : list Z :=
  [KEYC_SHIFT; KEYC_META; KEYC_SHIFT ||| KEYC_META; KEYC_CTRL; KEYC_SHIFT ||| KEYC_CTRL;
   KEYC_META ||| KEYC_CTRL; KEYC_SHIFT ||| KEYC_META ||| KEYC_CTRL].

Definition with_implied (m : Z) : Z := if has m KEYC_META then m ||| KEYC_IMPLIED_META else m.

(** The key that is read: S-Tab is backtab, Shift alone is lost on a printable
    character, Meta comes with the escape in the sequence. *)
Definition received (k m : Z) : Z :=
  if (k =? 9) && has m KEYC_SHIFT then KEYC_BTAB ||| with_implied (without m KEYC_SHIFT)
  else if (m =? KEYC_SHIFT) && (0x20 <? k) && negb (k =? 0x7f) then k
  else k ||| with_implied m.

Lemma in_ext_mods (P : Z -> Prop) : Forall P ext_mods -> forall m, m ∈ ext_mods -> P m.
Proof. intros Hf m Hm. rewrite Forall_forall in Hf. by apply Hf. Qed.

Ltac ext_digit d :=
  exists d; split; [lia|split; [by vm_compute|]]; intros key E; unfold extended_modifier; rewrite E;
  vm_compute; reflexivity.

Lemma ext_modifier m : m ∈ ext_mods -> exists d, 2 <= d <= 8 /\ add_modifiers d 0 = with_implied m /\
  forall key, Z.land key KEYC_MASK_MODIFIERS = m -> extended_modifier key = Some (fmt_u d).
Proof.
  revert m. apply in_ext_mods. unfold ext_mods.
  repeat (constructor; [cbv beta; first [ext_digit 2|ext_digit 3|ext_digit 4|ext_digit 5|
    ext_digit 6|ext_digit 7|ext_digit 8]|]). constructor.
Qed.

Lemma add_modifiers_lor d k : d <> 0 -> add_modifiers d k = k ||| add_modifiers d 0.
Proof.
  intros Hd. unfold add_modifiers. rewrite (proj2 (Z.eqb_neq d 0)) by done. cbv zeta.
  destruct (has (d - 1) 1), (has (d - 1) 2), (has (d - 1) 4), (has (d - 1) 8);
    by rewrite ?Z.lor_0_l, ?Z.lor_0_r, ?Z.lor_assoc.
Qed.

(** Keys of 40 bits, modifiers above. *)
Lemma land_high n k mask : 0 <= n -> 0 <= k < 2 ^ n -> Z.land mask (Z.ones n) = 0 -> Z.land k mask = 0.
Proof.
  intros Hn Hk Hm. rewrite <- (Z.mod_small k (2 ^ n)) by lia. rewrite <- Z.land_ones by lia.
  by rewrite <- Z.land_assoc, (Z.land_comm _ mask), Hm, Z.land_0_r.
Qed.

Lemma land_mask_key k : 0 <= k < 2 ^ 40 -> Z.land k KEYC_MASK_KEY = k.
Proof. intros Hk. change KEYC_MASK_KEY with (Z.ones 40). rewrite Z.land_ones by lia. by apply Z.mod_small. Qed.

Lemma has_lor k m f : has (k ||| m) f = has k f || has m f.
Proof.
  unfold has. rewrite Z.land_lor_distr_l. destruct (Z.eqb_spec (Z.land k f) 0) as [-> |Hk]; [done|].
  cbn [negb orb]. destruct (Z.eqb_spec (Z.land k f ||| Z.land m f) 0) as [E|]; [|done].
  by apply Z.lor_eq_0_iff in E as [? _].
Qed.

Lemma has_low k f : 0 <= k < 2 ^ 40 -> Z.land f (Z.ones 40) = 0 -> has k f = false.
Proof. intros Hk Hf. unfold has. by rewrite (land_high 40). Qed.

(** A character that is not ASCII keeps its modifiers but for Shift alone. *)
Lemma wide_received k m : 127 < k < 2 ^ 32 -> m ∈ ext_mods ->
  shift_alone (shift_tab (k ||| with_implied m)) = received k m.
Proof.
  intros Hk Hm. revert m Hm. apply in_ext_mods.
  assert (Hone : forall m, Z.land (with_implied m) KEYC_MASK_KEY = 0 ->
    Z.land (with_implied m) KEYC_MASK_MODIFIERS = m -> has m KEYC_META = false \/ m <> KEYC_SHIFT ->
    shift_alone (shift_tab (k ||| with_implied m)) = received k m).
  { intros m H1 H2 H3.
    assert (E1 : Z.land (k ||| with_implied m) KEYC_MASK_KEY = k)
      by (by rewrite Z.land_lor_distr_l, H1, Z.lor_0_r, land_mask_key by lia).
    assert (E2 : Z.land (k ||| with_implied m) KEYC_MASK_MODIFIERS = m)
      by (rewrite Z.land_lor_distr_l, H2, (land_high 40) by (lia || done); done).
    unfold shift_tab. rewrite E1, (proj2 (Z.eqb_neq k 9)) by lia. cbn [andb].
    assert (E3 : KEYC_IS_UNICODE (k ||| with_implied m) = true).
    { unfold KEYC_IS_UNICODE, is_type. rewrite E1, (proj2 (Z.ltb_lt 0x7f k)), andb_true_r by lia.
      replace KEYC_MASK_TYPE with (Z.land KEYC_MASK_KEY KEYC_MASK_TYPE) by done.
      rewrite Z.land_assoc, E1. apply Z.eqb_eq. change (KEYC_SHIFT_TYPE KEYC_TYPE_UNICODE) with 0.
      apply (land_high 32); [lia|lia|done]. }
    unfold shift_alone. rewrite E1, E2, E3, orb_true_r. cbn [andb]. unfold received.
    rewrite (proj2 (Z.eqb_neq k 9)) by lia. cbn [andb].
    rewrite (proj2 (Z.ltb_lt 0x20 k)), (proj2 (Z.eqb_neq k 0x7f)) by lia.
    destruct (Z.eqb_spec m KEYC_SHIFT) as [-> |]; [|done]. cbn [andb negb].
    destruct H3 as [H3|]; [|done]. unfold with_implied. rewrite H3. unfold without.
    apply Z.bits_inj'. intros i Hi. rewrite Z.ldiff_spec, Z.lor_spec.
    change KEYC_SHIFT with (2 ^ 46). rewrite Z.pow2_bits_eqb by done.
    destruct (Z.eqb_spec 46 i) as [<- |]; cbn [negb]; [|by rewrite orb_false_r, andb_true_r].
    rewrite andb_false_r. symmetry. apply Z.bits_above_log2; [lia|].
    apply Z.log2_lt_pow2; lia. }
  unfold ext_mods. repeat (constructor; [apply Hone; [done|done|first [by left|right; done]]|]). constructor.
Qed.

Lemma ascii_received k m : 0 <= k < 128 -> m ∈ ext_mods ->
  shift_alone (shift_tab (k ||| with_implied m)) = received k m.
Proof.
  intros Hk Hm. revert m Hm k Hk.
  refine (in_ext_mods (fun m => forall k, 0 <= k < 128 -> _ = received k m) _).
  assert (Hall : forall m, forallb (fun k => shift_alone (shift_tab (k ||| with_implied m)) =? received k m)
            (seqZ 0 128) = true -> forall k, 0 <= k < 128 ->
            shift_alone (shift_tab (k ||| with_implied m)) = received k m).
  { intros m Hf k Hk. rewrite forallb_forall in Hf. apply Z.eqb_eq, Hf, list_elem_of_In, elem_of_seqZ. lia. }
  unfold ext_mods. repeat (constructor; [apply Hall; vm_compute; reflexivity|]). constructor.
Qed.

Lemma bytes_string (c : ascii) (s : string) : bytes_of_string (String c s) = code c :: bytes_of_string s.
Proof. reflexivity. Qed.

(** Two numbers with a semicolon, or a semicolon-terminated prefix and two
    numbers, are digits and semicolons of at most 44 bytes. *)
Lemma numbers_bytes a b : Forall (fun c => digit_or_semicolon c = true)
    (bytes_of_string (fmt_u a +:+ ";" +:+ fmt_u b)) /\
  (length (bytes_of_string (fmt_u a +:+ ";" +:+ fmt_u b)) <= 41)%nat.
Proof.
  rewrite !bytes_app. split.
  - assert (Hf : forall n, Forall (fun c => digit_or_semicolon c = true) (bytes_of_string (fmt_u n))).
    { intros n. eapply Forall_impl; [apply fmt_u_bytes|]. intros c Hc. unfold digit_or_semicolon, isdigit.
      cbv beta in Hc. by rewrite (proj2 (Z.leb_le 48 c)), (proj2 (Z.leb_le c 57)) by lia. }
    apply Forall_app. split; [done|]. apply Forall_app. split; [|done]. by repeat constructor.
  - rewrite !length_app. pose proof (fmt_u_length a). pose proof (fmt_u_length b). cbn [length bytes_of_string]. cbn. lia.
Qed.

Lemma scan_two_numbers a b : 0 <= a < 4294967296 -> 0 <= b < 4294967296 ->
  scan_two "" (fmt_u a +:+ ";" +:+ fmt_u b) = Some (a, b).
Proof.
  intros Ha Hb. unfold scan_two. cbn [scan_lit mbind option_bind].
  pose proof (scan_u_fmt_u b "" Hb eq_refl) as Eb. rewrite str_app_nil in Eb.
  rewrite scan_u_fmt_u by done. cbn [mbind option_bind].
  change (scan_char ";" (";" +:+ fmt_u b)) with (Some (fmt_u b)). cbn [mbind option_bind].
  by rewrite Eb.
Qed.

Lemma scan_two_27 a b : 0 <= a < 4294967296 -> 0 <= b < 4294967296 ->
  scan_two "27;" ("27;" +:+ fmt_u a +:+ ";" +:+ fmt_u b) = Some (a, b).
Proof. intros Ha Hb. etransitivity; [|by apply scan_two_numbers]. reflexivity. Qed.

Section Extended.
Context `{Locale} (wctomb : Z -> option (list Z)) (scan_cmyk : string -> option (Z * Z * Z)).
Context (env : key_env) (o : key_options).

Definition not_erase (c : Z) : Prop := ke_verase env = ke_vdisable env \/ c <> ke_verase env.

(** A key without modifiers that is sent as the number of a character: ASCII,
    or one the C library converts both ways, of the width it is given, and that
    is in the table of characters. *)
Inductive numbered (t : tty) : Z -> Z -> Prop :=
  | numbered_ascii k : 0 <= k < 128 -> not_erase k -> numbered t k k
  | numbered_wide ud k wc : ud_ok ud -> 1 <= ud_size ud -> 127 < wc < 2147483648 -> not_erase wc ->
      wctomb wc = Some (ud_bytes ud) -> loc_mbtowc (ud_bytes ud) = Some wc ->
      utf8_width loc_mbtowc loc_wcwidth loc_widths ud = Some (ud_width ud) ->
      utf8_from_data (tty_utf8 t) ud = Some (UTF8_DONE, k, tty_utf8 t) ->
      ke_stack env = replicate UTF8_SIZE 0 ->
      numbered t k wc.

Lemma set_utf8_same t : set_utf8 (tty_utf8 t) t = t.
Proof. by destruct t. Qed.

Lemma wide_key u ud k : table_ok u -> ud_ok ud -> 1 <= ud_size ud ->
  utf8_from_data u ud = Some (UTF8_DONE, k, u) -> 127 < k < 2 ^ 32 /\ utf8_to_data u k = ud_whole ud.
Proof.
  intros Hu Hok Hs Hf. pose proof (from_data_ok u ud Hu Hok) as Hd. rewrite Hf in Hd.
  destruct Hd as (_ & Hd & _ & Hr & _). split; [|done]. split; [|lia].
  apply Z.nle_gt. intros Hk. apply (f_equal ud_size) in Hd. cbn [ud_whole ud_size] in Hd.
  unfold utf8_to_data in Hd. cbn [ud_size] in Hd. unfold UTF8_GET_SIZE in Hd.
  rewrite Z.shiftr_div_pow2, Z.div_small in Hd by (change (2 ^ 24) with 16777216; lia).
  rewrite Z.land_0_l in Hd. lia.
Qed.

(** The key is sent as its number. *)
Lemma numbered_sent t k n key : table_ok (tty_utf8 t) -> numbered t k n ->
  Z.land key KEYC_MASK_KEY = k -> extended_number (tty_utf8 t) key = Some n /\ 0 <= n < 2147483648.
Proof.
  intros Ht Hk Ek. unfold extended_number. rewrite Ek.
  assert (Huni : KEYC_IS_UNICODE key = (Z.land k KEYC_MASK_TYPE =? 0) && (0x7f <? k)).
  { unfold KEYC_IS_UNICODE, is_type. rewrite Ek, <- Ek. rewrite <- Z.land_assoc. reflexivity. }
  rewrite Huni. destruct Hk as [k Hk _|ud k wc Hok Hs Hwc _ Hto Hof Hw Hf Hst].
  - rewrite (proj2 (Z.ltb_ge 0x7f k)), andb_false_r by lia. split; [done|lia].
  - destruct (wide_key _ _ _ Ht Hok Hs Hf) as [Hr Hd].
    rewrite (land_high 32), (proj2 (Z.ltb_lt 0x7f k)) by (lia || done). cbn [Z.eqb andb].
    rewrite u32_small, Hd by lia. split; [exact Hof|lia].
Qed.

(** The number is read back as the key. *)
Lemma numbered_read t k n m : table_ok (tty_utf8 t) -> numbered t k n -> m ∈ ext_mods -> forall d, 2 <= d <= 8 ->
  add_modifiers d 0 = with_implied m ->
  key_of_numbers wctomb env n d t = Some (inl (received k m, t)).
Proof.
  intros Ht Hk Hm d Hd Ed. unfold key_of_numbers.
  assert (Hb : negb (ke_verase env =? ke_vdisable env) && (n =? ke_verase env) = false).
  { destruct Hk as [k Hk He|ud k wc _ _ _ He]; destruct He as [He|He];
      first [by rewrite (proj2 (Z.eqb_eq _ _) He) | by rewrite (proj2 (Z.eqb_neq _ _) He), andb_false_r]. }
  rewrite Hb. clear Hb. destruct Hk as [k Hk _|ud k wc Hok Hs Hwc _ Hto Hof Hw Hf Hst]; unfold internal_key.
  - assert (Hc : negb (k =? KEYC_BSPACE) && negb (without k 0x7f =? 0) = false).
    { unfold without. change 0x7f with (Z.ones 7). rewrite Z.ldiff_ones_r_low; [by rewrite andb_false_r|lia|].
      destruct (Z.eq_dec k 0) as [-> |]; [by vm_compute|]. apply Z.log2_lt_pow2; [lia|]. lia. }
    rewrite Hc. cbn [mbind option_bind]. rewrite add_modifiers_lor, Ed by lia.
    by rewrite ascii_received by (lia || done).
  - assert (Hc : negb (wc =? KEYC_BSPACE) && negb (without wc 0x7f =? 0) = true).
    { assert (KEYC_BSPACE > 2147483648) by (by vm_compute).
      rewrite (proj2 (Z.eqb_neq wc KEYC_BSPACE)) by lia. cbn [negb andb]. apply negb_true_iff, Z.eqb_neq.
      unfold without. intros E. change 0x7f with (Z.ones 7) in E. rewrite Z.ldiff_ones_r in E by lia.
      rewrite Z.shiftr_div_pow2, Z.shiftl_mul_pow2 in E by lia. change (2 ^ 7) with 128 in E.
      pose proof (Z.div_le_lower_bound wc 128 1 ltac:(lia) ltac:(lia)). lia. }
    destruct (wide_key _ _ _ Ht Hok Hs Hf) as [Hk _].
    rewrite Hc. unfold utf8_fromwc. rewrite s32_small, Hto by lia.
    destruct Hok as [Hlen Hby Hsz Hwd Hz]. assert (Hub : length (ud_bytes ud) = Z.to_nat (ud_size ud)).
    { unfold ud_bytes. rewrite length_take, Hlen. unfold UTF8_SIZE. lia. }
    destruct (ud_bytes ud) as [|b0 bs] eqn:Eb; [cbn in Hub; lia|]. rewrite <- Eb in *.
    rewrite Hub, Z2Nat.id by lia. rewrite Hst, drop_replicate, <- Hz.
    replace (ud_bytes ud ++ drop (Z.to_nat (ud_size ud)) (ud_data ud)) with (ud_data ud)
      by (unfold ud_bytes; by rewrite take_drop).
    assert (Hw' : utf8_width loc_mbtowc loc_wcwidth loc_widths (UD (ud_data ud) (ud_size ud) (ud_size ud) 0) =
              Some (ud_width ud)) by exact Hw.
    rewrite Hw'. cbn [mbind option_bind]. rewrite u8_small by lia.
    assert (Hf' : utf8_from_data (tty_utf8 t) (UD (ud_data ud) (ud_size ud) (ud_size ud) (ud_width ud)) =
              Some (UTF8_DONE, k, tty_utf8 t)) by exact Hf.
    rewrite Hf'. cbn [mbind option_bind]. rewrite set_utf8_same, add_modifiers_lor, Ed by lia.
    by rewrite wide_received.
Qed.

Lemma extended_scan body c rest t n d :
  Forall (fun c => digit_or_semicolon c = true) (bytes_of_string body) ->
  (length (bytes_of_string body) < 62)%nat -> digit_or_semicolon c = false ->
  extended_numbers (Some c) body = Some (n, d) ->
  tty_keys_extended_key wctomb env (27 :: 91 :: bytes_of_string body ++ c :: rest) t =
    r ← key_of_numbers wctomb env n d t;
    Some (match r with
          | inl (key, t) => (Yes, (2 + length (bytes_of_string body) + 1)%nat, t, key)
          | inr _ => (No, (2 + length (bytes_of_string body) + 1)%nat, t, 0)
          end).
Proof.
  intros Hb Hl Hc Hn. unfold tty_keys_extended_key. set (l := bytes_of_string body) in *.
  assert (Hst : starts CSI (27 :: 91 :: l ++ c :: rest) = (Yes, l ++ c :: rest)) by (by destruct l).
  rewrite Hst. rewrite scan_to_stop; [|by intros p x Hx; rewrite Forall_forall in Hb; rewrite Hb|by rewrite Hc|done].
  rewrite length_app, (proj2 (Nat.eqb_neq _ _)) by (cbn [length]; lia).
  rewrite (proj2 (Nat.eqb_neq _ _)) by lia.
  rewrite take_app_length, lookup_app_r, Nat.sub_diag by lia. cbn [lookup list_lookup].
  subst l. rewrite string_of_bytes_of_string, Hn. reflexivity.
Qed.

Lemma mouse_digit d rest m t : 48 <= d <= 57 ->
  tty_keys_mouse (27 :: 91 :: d :: rest) m t = (No, 0%nat, t, m).
Proof.
  intros Hd. assert (Hc : d ∈ seqZ 48 10) by (apply elem_of_seqZ; lia).
  revert Hc. cbn [seqZ]. change (seqZ 48 10) with [48; 49; 50; 51; 52; 53; 54; 55; 56; 57].
  rewrite !elem_of_cons, elem_of_nil. intros Hc. repeat (destruct Hc as [-> |Hc]; [reflexivity|]). done.
Qed.

(** Control sequences other than device attributes are not replies. *)
Lemma replies_no d rest t next : d <> 62 -> d <> 63 ->
  replies_switch scan_cmyk (27 :: 91 :: d :: rest) t next = next t.
Proof.
  intros H1 H2. set (buf := 27 :: 91 :: d :: rest).
  assert (Hno : forall x, x <> d -> starts (CSI ++ [[x]]) buf = (No, [])).
  { intros x Hx. change (starts (CSI ++ [[x]]) buf) with
      (if bool_decide (d ∈ [x]) then starts [] rest else (No, [])).
    rewrite bool_decide_eq_false_2; [done|]. intros [E|E%elem_of_nil]%elem_of_cons; done. }
  assert (Hosc : forall pat, starts (OSC ++ pat) buf = (No, [])) by done.
  assert (Hxda : starts [[27]; [80]; [62]; [124]] buf = (No, [])) by done.
  unfold replies_switch, tty_keys_clipboard, tty_keys_device_attributes,
    tty_keys_device_attributes2, tty_keys_extended_device_attributes, colours_switch,
    tty_keys_colours, tty_keys_palette.
  rewrite !Hosc, !Hno, Hxda by done. cbn [switch].
  by destruct (has (tty_flags t) TTY_HAVEDA); cbn [switch]; destruct (has (tty_flags t) TTY_HAVEDA2);
    cbn [switch]; destruct (has (tty_flags t) TTY_HAVEXDA).
Qed.

(** Those that start with a digit are not the mouse either. *)
Lemma switches_digit d rest t : 48 <= d <= 57 ->
  let buf := 27 :: 91 :: d :: rest in
  all_switches wctomb scan_cmyk env buf t =
    '(r, key) ← tty_keys_extended_key wctomb env buf t;
    switch r key mouse_zero (fun t =>
      switch (tty_keys_winsz buf t) KEYC_UNKNOWN mouse_zero (fun t => first_key env buf false t)).
Proof.
  intros Hd buf. unfold all_switches, buf. rewrite replies_no, mouse_digit by lia. cbn [switch].
  assert (Hns : tty_keys_newmux_scroll (27 :: 91 :: d :: rest) mouse_zero t = (No, 0%nat, t, mouse_zero)).
  { unfold tty_keys_newmux_scroll. change (starts (CSI ++ [[63]]) (27 :: 91 :: d :: rest)) with
      (if bool_decide (d ∈ [63]) then starts [] rest else (No, [])).
    rewrite bool_decide_eq_false_2; [done|]. intros [E|E%elem_of_nil]%elem_of_cons; [lia|done]. }
  by rewrite Hns.
Qed.

(** What a key does to the terminal when it is not a focus event. *)
Lemma complete_key_plain buf key size m t : Z.land key KEYC_MASK_KEY <> KEYC_UNKNOWN ->
  Z.land key KEYC_MASK_KEY <> KEYC_FOCUS_IN -> Z.land key KEYC_MASK_KEY <> KEYC_FOCUS_OUT ->
  let t' := complete_key buf key size m t in
  tty_in t' = drop size (tty_in t) /\
  tty_calls t' = tty_calls t ++ [server_client_handle_key key m (take size buf)].
Proof.
  intros Hu Hi Ho. unfold complete_key, focus_events, fire_key.
  assert (Hne : forall k, Z.land k KEYC_MASK_KEY = k -> Z.land key KEYC_MASK_KEY <> k -> (key =? k) = false).
  { intros k Hk Hn. apply Z.eqb_neq. intros ->. done. }
  rewrite !Hne by done. unfold timer_del, flag_off. by destruct t as [? ? ? ? ? ? ? ? ? ? [] ? ? ? ?].
Qed.

Lemma received_key k m : 0 <= k < 2 ^ 32 -> m ∈ ext_mods ->
  Z.land (received k m) KEYC_MASK_KEY = k \/ Z.land (received k m) KEYC_MASK_KEY = KEYC_BTAB.
Proof.
  intros Hk Hm. revert m Hm. apply in_ext_mods.
  assert (Hone : forall m, Z.land (with_implied m) KEYC_MASK_KEY = 0 ->
    Z.land (KEYC_BTAB ||| with_implied (without m KEYC_SHIFT)) KEYC_MASK_KEY = KEYC_BTAB ->
    Z.land (received k m) KEYC_MASK_KEY = k \/ Z.land (received k m) KEYC_MASK_KEY = KEYC_BTAB).
  { intros m H1 H2. unfold received. repeat case_match; [by right|left; apply land_mask_key; lia|left].
    by rewrite Z.land_lor_distr_l, H1, Z.lor_0_r, land_mask_key by lia. }
  unfold ext_mods. repeat (constructor; [apply Hone; done|]). constructor.
Qed.

(** The bytes of an extended key are read whole. *)
Lemma extended_read body c d0 bytes key rest t n d :
  bytes = 27 :: 91 :: bytes_of_string body ++ [c] ->
  Forall (fun c => digit_or_semicolon c = true) (bytes_of_string body) ->
  (length (bytes_of_string body) < 62)%nat -> digit_or_semicolon c = false ->
  extended_numbers (Some c) body = Some (n, d) ->
  head (bytes_of_string body) = Some d0 -> 48 <= d0 <= 57 ->
  key_of_numbers wctomb env n d t = Some (inl (key, t)) ->
  all_switches wctomb scan_cmyk env (bytes ++ rest) t = Some (Complete key (length bytes) mouse_zero t).
Proof.
  intros -> Hb Hl Hc Hn Hd0 Hd Hk. cbn [app]. rewrite <- app_assoc. cbn [app].
  pose proof (extended_scan body c rest t n d Hb Hl Hc Hn) as He. rewrite Hk in He.
  destruct (bytes_of_string body) as [|d1 l] eqn:Eb; [done|]. injection Hd0 as ->.
  cbn [app] in *. rewrite switches_digit by done. rewrite He. cbn [mbind option_bind switch].
  cbn [length]. rewrite length_app. cbn [length]. by do 2 f_equal.
Qed.

Lemma head_fmt_u n s : exists d, head (bytes_of_string (fmt_u n +:+ s)) = Some d /\ 48 <= d <= 57.
Proof.
  pose proof (hd_fmt_u n s) as Hh. destruct (fmt_u n +:+ s) as [|c r]; [by vm_compute in Hh|].
  exists (code c). split; [done|]. cbn [hd_char] in Hh. unfold is_digit in Hh. lia.
Qed.

(** C17. A key with modifiers that is sent in either of the extended formats
    is read back: when its bytes are at the start of what has come from the
    terminal, [tty_keys_next] takes exactly those bytes and hands the server
    one key, the key that was sent with its modifiers (S-Tab as backtab, Shift
    alone lost on a printable character, Meta marked as part of the sequence). *)
Theorem extended_key_read_back key k n m rest t : table_ok (tty_utf8 t) -> numbered t k n ->
  Z.land key KEYC_MASK_KEY = k -> Z.land key KEYC_MASK_MODIFIERS = m -> m ∈ ext_mods ->
  exists bytes, input_key_extended (tty_utf8 t) o key = (0, bytes) /\
    (tty_in t = bytes ++ rest ->
     exists t', tty_keys_next wctomb scan_cmyk env t = Some (true, t') /\ tty_in t' = rest /\
       tty_calls t' = tty_calls t ++ [server_client_handle_key (received k m) mouse_zero bytes]).
Proof.
  intros Ht Hk Ek Em Hm. destruct (ext_modifier m Hm) as (d & Hd & Ed & Hdig).
  destruct (numbered_sent t k n key Ht Hk Ek) as [Hn Hr].
  pose proof (numbered_read t k n m Ht Hk Hm d Hd Ed) as Hread.
  assert (Hk32 : 0 <= k < 2 ^ 32).
  { destruct Hk as [k ? _|ud k wc Hok Hs _ _ _ _ _ Hf _]; [lia|].
    destruct (wide_key _ _ _ Ht Hok Hs Hf). lia. }
  unfold input_key_extended. rewrite (Hdig key Em), Hn. eexists. split; [done|].
  intros Hin. unfold tty_keys_next. cbv zeta. rewrite Hin.
  match goal with |- context [all_switches _ _ _ (?b ++ rest) t] => set (bytes := b) in * end.
  assert (Hall : all_switches wctomb scan_cmyk env (bytes ++ rest) t =
                 Some (Complete (received k m) (length bytes) mouse_zero t)).
  { subst bytes. destruct (ko_extended_keys_format o =? 1).
    - destruct (numbers_bytes d n) as [Hb Hl].
      apply (extended_read ("27;" +:+ fmt_u d +:+ ";" +:+ fmt_u n) 126 50 _ _ _ _ n d).
      + unfold esc. rewrite !bytes_app. cbn [app]. rewrite <- !app_assoc. reflexivity.
      + rewrite bytes_app. apply Forall_app. split; [by repeat constructor|done].
      + rewrite bytes_app, length_app. cbn [length bytes_of_string]. cbn in Hl |- *. lia.
      + done.
      + unfold extended_numbers. rewrite scan_two_27 by lia. done.
      + done.
      + lia.
      + done.
    - destruct (numbers_bytes n d) as [Hb Hl]. destruct (head_fmt_u n (";" +:+ fmt_u d)) as (d0 & Hd0 & ?).
      apply (extended_read (fmt_u n +:+ ";" +:+ fmt_u d) 117 d0 _ _ _ _ n d); try done; try lia.
      + unfold esc. rewrite !bytes_app. cbn [app]. rewrite <- !app_assoc. reflexivity.
      + unfold extended_numbers. by rewrite scan_two_numbers by lia. }
  assert (Hne : exists b l, bytes ++ rest = b :: l) by (subst bytes; destruct (_ =? 1); cbn [app esc]; eauto).
  rewrite Hall. destruct Hne as (b & l & Hne). rewrite Hne. cbn [mbind option_bind next_from].
  rewrite <- Hne. eexists. split; [done|].
  assert (Hneq : forall x, 2 ^ 32 <= x -> x <> KEYC_BTAB -> Z.land (received k m) KEYC_MASK_KEY <> x)
    by (intros x Hx Hb; destruct (received_key k m Hk32 Hm) as [-> | ->]; [lia|congruence]).
  destruct (complete_key_plain (bytes ++ rest) (received k m) (length bytes) mouse_zero t) as [H1 H2];
    [by apply Hneq..|].
  rewrite H1, H2, Hin, drop_app_length, take_app_length. done.
Qed.

End Extended.

(** ** Reading comes to an end *)

(** What the handlers leave alone: the buffer and the timer. *)
Record kept (t t' : tty) : Prop := {
  kept_in : tty_in t' = tty_in t;
  kept_timer : tty_timer t' = tty_timer t;
  kept_flag : has (tty_flags t') TTY_TIMER = has (tty_flags t) TTY_TIMER
}.

Lemma tty_kept_refl t : kept t t.
Proof. by split. Qed.

Lemma tty_kept_trans t1 t2 t3 : kept t1 t2 -> kept t2 t3 -> kept t1 t3.
Proof. intros [A1 A2 A3] [B1 B2 B3]. split; congruence. Qed.

Lemma kept_call x t t' : kept t t' -> kept t (call x t').
Proof. intros [A B C]. by destruct t'. Qed.

Lemma has_without_other x f g : Z.land f g = 0 -> has (without x f) g = has x g.
Proof.
  intros Hfg. unfold has, without. do 2 f_equal. apply Z.bits_inj'. intros i Hi.
  rewrite !Z.land_spec, Z.ldiff_spec. apply (f_equal (fun z => Z.testbit z i)) in Hfg.
  rewrite Z.land_spec, Z.bits_0 in Hfg. destruct (Z.testbit x i), (Z.testbit f i), (Z.testbit g i); done.
Qed.

Lemma kept_on f t t' : Z.land f TTY_TIMER = 0 -> kept t t' -> kept t (flag_on f t').
Proof.
  intros Hf [A B C]. split; [by destruct t'|by destruct t'|]. rewrite <- C.
  transitivity (has (tty_flags t' ||| f) TTY_TIMER); [by destruct t'|].
  rewrite has_lor. unfold has at 2. by rewrite Hf, orb_false_r.
Qed.

Lemma kept_off f t t' : Z.land f TTY_TIMER = 0 -> kept t t' -> kept t (flag_off f t').
Proof.
  intros Hf [A B C]. split; [by destruct t'|by destruct t'|]. rewrite <- C.
  transitivity (has (without (tty_flags t') f) TTY_TIMER); [by destruct t'|]. by rewrite has_without_other.
Qed.

Lemma kept_size a b c d t t' : kept t t' -> kept t (tty_set_size a b c d t').
Proof. intros [A B C]. by destruct t'. Qed.
Lemma kept_last x t t' : kept t t' -> kept t (set_mouse_last x t').
Proof. intros [A B C]. by destruct t'. Qed.
Lemma kept_fg x t t' : kept t t' -> kept t (set_fg x t').
Proof. intros [A B C]. by destruct t'. Qed.
Lemma kept_bg x t t' : kept t t' -> kept t (set_bg x t').
Proof. intros [A B C]. by destruct t'. Qed.
Lemma kept_type x t t' : kept t t' -> kept t (set_term_type x t').
Proof. intros [A B C]. by destruct t'. Qed.
Lemma kept_utf8 x t t' : kept t t' -> kept t (set_utf8 x t').
Proof. intros [A B C]. by destruct t'. Qed.

Create HintDb kept.
#[export] Hint Resolve tty_kept_refl kept_call kept_size kept_last kept_fg kept_bg kept_type kept_utf8 : kept.
#[export] Hint Extern 1 (kept _ (flag_on _ _)) => apply kept_on; [reflexivity|] : kept.
#[export] Hint Extern 1 (kept _ (flag_off _ _)) => apply kept_off; [reflexivity|] : kept.

(** A result: what was taken is in the buffer, and it is not nothing. *)
Definition size_ok (buf : list Z) (size : nat) : Prop := (1 <= size <= length buf)%nat.

Definition handled_ok (buf : list Z) (t : tty) (r : handled) : Prop :=
  let '(f, size, t') := r in
  kept t t' /\ match f with Yes | Invalid => size_ok buf size | _ => True end.

Lemma starts_yes pat : forall buf rest, starts pat buf = (Yes, rest) ->
  length buf = (length pat + length rest)%nat.
Proof.
  induction pat as [|set pat IH]; intros [|c buf] rest E; cbn [starts] in E; try done.
  - by injection E as <-.
  - destruct (bool_decide _); [|done]. cbn [length]. rewrite (IH buf rest E). lia.
Qed.

Lemma starts_not pat buf r rest : starts pat buf = (r, rest) -> r <> Invalid.
Proof.
  revert buf. induction pat as [|set pat IH]; intros [|c buf] E; cbn [starts] in E; try congruence.
  destruct (bool_decide _); [by eapply IH|congruence].
Qed.

Lemma scan_to_le stop limit : forall prev buf, (scan_to stop limit prev buf <= length buf)%nat.
Proof.
  induction limit as [|limit IH]; intros prev [|c buf]; cbn; try lia.
  destruct (stop prev c); [lia|]. specialize (IH c buf). lia.
Qed.

(** The shape of most handlers: a prefix, then what is after it. *)
Lemma handled_starts pat buf t (f : list Z -> handled) :
  (forall rest, length buf = (length pat + length rest)%nat -> handled_ok buf t (f rest)) ->
  handled_ok buf t (match starts pat buf with (Yes, rest) => f rest | (r, _) => (r, 0%nat, t) end).
Proof.
  intros Hf. destruct (starts pat buf) as [r rest] eqn:E. destruct r.
  - apply Hf. by eapply starts_yes.
  - split; [apply tty_kept_refl|done].
  - split; [apply tty_kept_refl|done].
  - by destruct (starts_not _ _ _ _ E).
Qed.

Lemma handled_no buf t size : handled_ok buf t (No, size, t).
Proof. split; [apply tty_kept_refl|done]. Qed.
Lemma handled_partial buf t size : handled_ok buf t (Partial, size, t).
Proof. split; [apply tty_kept_refl|done]. Qed.
#[export] Hint Resolve handled_no handled_partial : kept.

(** A scan that did not reach the end. *)
Ltac scanned :=
  match goal with |- context [scan_to ?s ?l ?p ?r] =>
    let H := fresh "Hle" in pose proof (scan_to_le s l p r) as H;
    destruct (Nat.eqb_spec (scan_to s l p r) (length r)); [auto with kept|] end.

Ltac nothing := split; [apply tty_kept_refl|done].

Ltac taken := split; [auto 20 with kept|unfold size_ok; cbn [length app CSI OSC] in *; lia].

Lemma osc_scan_yes start rest size text : osc_scan start rest = (Yes, size, text) ->
  (size <= start + length rest)%nat /\ (1 <= size)%nat.
Proof.
  unfold osc_scan. pose proof (scan_to_le stop_osc 127 59 rest) as Hle.
  set (i := scan_to stop_osc 127 59 rest) in *. cbv zeta.
  destruct (i =? 127)%nat; [done|]. destruct (Nat.eqb_spec i (length rest)); [done|].
  intros E. injection E as E _. lia.
Qed.

Lemma da_scan_yes rest size text : da_scan rest = (Yes, size, text) -> (4 <= size <= 3 + length rest)%nat.
Proof.
  unfold da_scan. set (i := scan_to _ 128 0 rest). pose proof (scan_to_le (fun _ c => (97 <=? c) && (c <=? 122)) 128 0 rest) as Hle.
  fold i in Hle. destruct (_ =? 128)%nat; [done|]. destruct (Nat.eqb_spec i (length rest)); [done|].
  destruct (rest !! i) as [c|]; [|done]. intros E.
  assert (size = (4 + i)%nat) as ->; [|lia].
  destruct c as [|p|p]; try done. do 7 (destruct p as [p|p|]; try done). by injection E as <- <-.
Qed.

Lemma osc_scan_not start rest size text : osc_scan start rest <> (Invalid, size, text).
Proof. unfold osc_scan. by repeat case_match. Qed.
Lemma da_scan_not rest size text : da_scan rest <> (Invalid, size, text).
Proof. unfold da_scan. repeat case_match; try done. Qed.

Section Total.
Context `{Locale} (wctomb : Z -> option (list Z)) (scan_cmyk : string -> option (Z * Z * Z)).
Context (env : key_env).

Lemma clipboard_ok buf t : handled_ok buf t (tty_keys_clipboard buf t).
Proof.
  unfold tty_keys_clipboard. apply handled_starts. intros rest Hl. unfold clip_scan.
  set (term := match _ with Some 7 => 1%nat | _ => 2%nat end).
  scanned. cbv zeta. set (body := take _ rest). set (clip := match body with [] => 0 | _ => _ end).
  destruct (drop _ body) as [|? [|]]; [taken|taken|]. destruct (b64_pton _ _); [|taken].
  destruct (has _ _); taken.
Qed.

Lemma da_feature_kept p t t' : kept t t' -> kept t (da_feature p t').
Proof. intros Hk. unfold da_feature. repeat case_match; auto with kept. Qed.

Lemma device_attributes_ok buf t : handled_ok buf t (tty_keys_device_attributes buf t).
Proof.
  unfold tty_keys_device_attributes. destruct (has _ _); [auto with kept|]. apply handled_starts.
  intros rest Hl. destruct (da_scan rest) as [[[] size] text] eqn:E; [|auto with kept..|by apply da_scan_not in E].
  apply da_scan_yes in E. assert (Hf : forall l t0, kept t t0 -> kept t (fold_left (fun t p => da_feature p t) l t0)).
  { induction l as [|p l IH]; intros t0 Hk; [done|]. apply IH. by apply da_feature_kept. }
  cbv zeta. split; [|unfold size_ok; cbn in Hl; lia].
  apply kept_on; [done|]. apply kept_call. destruct (_ && _); [apply Hf|]; apply tty_kept_refl.
Qed.

Lemma device_attributes2_ok buf t : handled_ok buf t (tty_keys_device_attributes2 buf t).
Proof.
  unfold tty_keys_device_attributes2. destruct (has _ _); [auto with kept|]. apply handled_starts.
  intros rest Hl. destruct (da_scan rest) as [[[] size] text] eqn:E; [|auto with kept..|by apply da_scan_not in E].
  apply da_scan_yes in E. cbv zeta. split; [|unfold size_ok; cbn in Hl; lia].
  apply kept_on; [done|]. apply kept_call. repeat case_match; auto with kept.
Qed.

Lemma extended_da_ok buf t : handled_ok buf t (tty_keys_extended_device_attributes buf t).
Proof.
  unfold tty_keys_extended_device_attributes. destruct (has _ _); [auto with kept|]. apply handled_starts.
  intros rest Hl. cbv zeta. destruct (_ =? 127)%nat; [auto with kept|]. scanned.
  destruct (_ =? 0)%nat; [taken|]. destruct (xda_features _); taken.
Qed.

Lemma colours_ok buf t : handled_ok buf t (tty_keys_colours scan_cmyk buf t).
Proof.
  unfold tty_keys_colours. apply handled_starts. intros rest Hl.
  destruct (osc_scan 5 rest) as [[[] size] text] eqn:E; [|auto with kept..|by apply osc_scan_not in E].
  apply osc_scan_yes in E. split; [|unfold size_ok; cbn in Hl; lia].
  repeat case_match; auto with kept.
Qed.

Lemma palette_ok buf t : handled_ok buf t (tty_keys_palette scan_cmyk buf t).
Proof.
  unfold tty_keys_palette. apply handled_starts. intros rest Hl.
  destruct (osc_scan 4 rest) as [[[] size] text] eqn:E; [|auto with kept..|by apply osc_scan_not in E].
  apply osc_scan_yes in E. assert (size_ok buf size) by (unfold size_ok; cbn in Hl; lia).
  repeat case_match; try apply handled_no; split; auto with kept.
Qed.

Lemma winsz_ok buf t : handled_ok buf t (tty_keys_winsz buf t).
Proof.
  unfold tty_keys_winsz. destruct (negb _); [auto with kept|]. apply handled_starts. intros rest Hl.
  cbv zeta. scanned. destruct (_ || _); [auto with kept|].
  destruct (scan_two "8;" _) as [[]|]; [taken|]. destruct (scan_two "4;" _) as [[]|]; [taken|auto with kept].
Qed.

Lemma colours_switch_ok buf t : handled_ok buf t (colours_switch scan_cmyk buf t).
Proof.
  unfold colours_switch. pose proof (colours_ok buf t) as Hc.
  destruct (tty_keys_colours scan_cmyk buf t) as [[[] size] t']; destruct Hc as [Hk Hs]; split; auto with kept.
Qed.

(** *** The mouse *)

Lemma sgr_number_size ends l : forall n size f size' a b rest,
  sgr_number ends n size l = (f, size', (a, b, rest)) -> f <> Partial ->
  (size' + length rest = size + length l)%nat /\ (size < size')%nat.
Proof.
  induction l as [|ch l IH]; intros n size f size' a b rest E Hf; cbn [sgr_number] in E.
  { by injection E as <- <- <- <- <-. }
  destruct (bool_decide _); [injection E as <- <- <- <- <-; cbn; lia|].
  destruct (_ || _); [injection E as <- <- <- <- <-; cbn; lia|].
  destruct (IH _ _ _ _ _ _ _ E Hf). cbn. lia.
Qed.

Lemma sgr_number_not ends l : forall n size size' x, sgr_number ends n size l <> (Invalid, size', x).
Proof. induction l as [|ch l IH]; intros n size size' x; cbn [sgr_number]; [done|]. by repeat case_match. Qed.

Lemma mouse_fill_kept x y b s sb m t m' t' : mouse_fill x y b s sb m t = (m', t') -> kept t t'.
Proof.
  unfold mouse_fill. destruct (tty_mouse_last t) as [[]]. intros E. injection E as _ <-. auto with kept.
Qed.

Ltac sgr_step := match goal with |- context [sgr_number ?e ?n ?s ?l] =>
  let f := fresh "f" in let E := fresh "E" in
  destruct (sgr_number e n s l) as [[f ?] [[? ?] ?] ] eqn:E; destruct f;
    [apply sgr_number_size in E; [|done]|split; [apply tty_kept_refl|done]|
     split; [apply tty_kept_refl|done]|by apply sgr_number_not in E] end.

Lemma mouse_sgr_ok buf rest m t : length buf = (3 + length rest)%nat ->
  handled_ok buf t (mouse_sgr rest m t).1.
Proof.
  intros Hl. unfold mouse_sgr. sgr_step. sgr_step. sgr_step.
  destruct (_ || _); [split; [apply tty_kept_refl|unfold size_ok; lia]|].
  cbv zeta. destruct (_ && _); [split; [apply tty_kept_refl|unfold size_ok; lia]|].
  destruct (mouse_fill _ _ _ _ _ _ _) as [m' t'] eqn:Em. apply mouse_fill_kept in Em.
  split; [done|unfold size_ok; lia].
Qed.

Lemma mouse_ok buf m t : handled_ok buf t (tty_keys_mouse buf m t).1.
Proof.
  unfold tty_keys_mouse. destruct (starts CSI buf) as [f rest] eqn:E.
  destruct f; [|nothing..|by apply starts_not in E]. apply starts_yes in E. cbn in E.
  destruct rest as [|c rest]; [nothing|]. cbn [length] in E.
  assert (Hstd : handled_ok buf t (mouse_standard rest m t).1).
  { unfold mouse_standard. destruct rest as [|b [|x [|y rest'] ] ]; try nothing.
    cbn [length] in E. destruct (_ || _); [split; [apply tty_kept_refl|unfold size_ok; lia]|].
    destruct (mouse_fill _ _ _ _ _ _ _) as [m' t'] eqn:Em. apply mouse_fill_kept in Em.
    split; [done|unfold size_ok; lia]. }
  pose proof (mouse_sgr_ok buf rest m t ltac:(lia)) as Hsgr. clear -Hstd Hsgr.
  destruct c as [|p|p]; try nothing. do 7 (try (destruct p as [p|p|]; try nothing)); done.
Qed.

Lemma scroll_event_kept a b c d x y m t m' t' : scroll_event a b c d x y m t = (m', t') -> kept t t'.
Proof.
  unfold scroll_event. destruct (mouse_fill _ _ _ _ _ _ _) as [m1 t1] eqn:E. intros E'.
  injection E' as _ <-. by eapply mouse_fill_kept.
Qed.

Lemma newmux_scroll_ok buf m t : handled_ok buf t (tty_keys_newmux_scroll buf m t).1.
Proof.
  unfold tty_keys_newmux_scroll. destruct buf as [|c0 buf0]; [nothing|].
  set (buf := c0 :: buf0). destruct (starts _ buf) as [f rest] eqn:E.
  destruct f; [|nothing..|by apply starts_not in E]. apply starts_yes in E. cbn [length app CSI] in E.
  cbv zeta.
  set (n := scan_to _ 157 0 rest). pose proof (scan_to_le (fun _ c => c =? 126) 157 0 rest) as Hle.
  fold n in Hle. destruct (Nat.eqb_spec n (length rest)); [nothing|]. destruct (_ || _); [nothing|].
  destruct (fields 9 _) as [|name fs]; [nothing|]. destruct (negb _); [nothing|].
  destruct (scroll_numbers fs) as [l|]; [|nothing].
  repeat (destruct l as [|? l]; try nothing).
  1: destruct (tty_mouse_last t) as [[mx my] ?].
  all: repeat case_match; try nothing.
  all: match goal with E : scroll_event _ _ _ _ _ _ _ _ = _ |- _ => apply scroll_event_kept in E end;
    (split; [done|unfold size_ok; lia]).
Qed.

(** *** Keys *)

(** What the C library says of widths: a character takes at most two columns. *)
Definition widths_ok : Prop := forall ud w,
  utf8_width loc_mbtowc loc_wcwidth loc_widths ud = Some w -> 0 <= w <= 2.
Hypothesis Hwidth : widths_ok.

Lemma from_data_some u ud : ud_width ud <= 2 -> exists r uc u', utf8_from_data u ud = Some (r, uc, u').
Proof.
  intros Hw. unfold utf8_from_data. rewrite (proj2 (Z.ltb_ge 2 _)) by done.
  repeat case_match; eauto.
Qed.

Lemma fromwc_width data wc ud : utf8_fromwc wctomb data wc = Some ud -> ud_width ud <= 2.
Proof using Hwidth.
  unfold utf8_fromwc. destruct (wctomb wc) as [[|b bs]|]; [done| |done].
  destruct (utf8_width _ _ _ _) as [w|] eqn:E; [|done]. cbn [mbind option_bind]. intros E'.
  injection E' as <-. cbn [ud_width]. apply Hwidth in E. rewrite u8_small; lia.
Qed.

Lemma internal_key_ok nkey t : exists r, internal_key wctomb env nkey t = Some r /\
  match r with inl (_, t') => kept t t' | inr _ => True end.
Proof using Hwidth.
  unfold internal_key. destruct (_ && _); [|eexists; split; [done|apply tty_kept_refl] ].
  destruct (utf8_fromwc _ _ _) as [ud|] eqn:E; [|by eexists].
  destruct (from_data_some (tty_utf8 t) ud) as (r & uc & u & ->); [by eapply fromwc_width|].
  cbn [mbind option_bind]. eexists. split; [done|]. destruct r; auto with kept.
Qed.

Lemma extended_key_ok buf t : exists r key, tty_keys_extended_key wctomb env buf t = Some (r, key) /\
  handled_ok buf t r.
Proof using Hwidth.
  unfold tty_keys_extended_key. destruct (starts CSI buf) as [f rest] eqn:E.
  destruct f; [|by do 2 eexists; split; [done|nothing]..|by apply starts_not in E].
  apply starts_yes in E. cbn [length CSI] in E. cbv zeta.
  set (n := scan_to _ 62 0 rest). pose proof (scan_to_le (fun _ c => negb (digit_or_semicolon c)) 62 0 rest) as Hle.
  fold n in Hle. destruct (Nat.eqb_spec n (length rest)); [by do 2 eexists; split; [done|nothing]|].
  destruct (_ =? 62)%nat; [by do 2 eexists; split; [done|nothing]|].
  destruct (extended_numbers _ _) as [[nu mo]|]; [|by do 2 eexists; split; [done|nothing] ].
  unfold key_of_numbers. cbv zeta.
  match goal with |- context [internal_key _ _ ?k t] => destruct (internal_key_ok k t) as (r & -> & Hr) end.
  cbn [mbind option_bind]. destruct r as [[k' t']|]; do 2 eexists; (split; [reflexivity|]); [|nothing].
  split; [done|unfold size_ok; lia].
Qed.

Lemma tree_key_ok buf expired t r key : tree_key buf expired t = Some (r, key) ->
  handled_ok buf t r /\ (r.1.1 = Yes \/ (r.1.1 = Partial /\ expired = false)).
Proof.
  unfold tree_key. destruct (tty_keys_find (tty_tree t) buf) as [[p|] size] eqn:E; [|done].
  cbv zeta. destruct (known _); [|done]. destruct (find1_some _ _ _ _ _ E) as (m & -> & Hm & _).
  destruct (_ && _) eqn:Ee; intros E'; injection E' as <- <-.
  - split; [nothing|]. right. split; [done|]. apply andb_true_iff in Ee as [_ Ee]. by destruct expired.
  - split; [|by left]. split; [|unfold size_ok; lia]. repeat case_match; auto with kept.
Qed.

Lemma append_width ud ch ud' :
  utf8_append loc_mbtowc loc_wcwidth loc_widths false ud ch = Some (UTF8_DONE, ud') -> ud_width ud' <= 2.
Proof using Hwidth.
  unfold utf8_append. destruct (_ <=? _); [done|]. destruct (_ <? _); [done|]. cbv zeta.
  intros E. injection E as E. destruct (negb _); [done|]. destruct (_ =? 0xff); [done|].
  destruct (utf8_width _ _ _ _) as [w|] eqn:Ew; [|done]. injection E as <-. cbn [ud_width].
  apply Hwidth in Ew. rewrite u8_small; lia.
Qed.

Lemma append_bytes_ok l : forall ud n pre, reading ud n pre -> clean ud pre ->
  Z.of_nat (length pre + length l) = n -> l <> [] ->
  exists more ud', append_bytes UTF8_MORE ud l = Some (more, ud') /\ (more = UTF8_DONE -> ud_width ud' <= 2).
Proof using Hwidth.
  assert (Hgen : forall more0, forall ud n pre, reading ud n pre -> clean ud pre ->
    Z.of_nat (length pre + length l) = n -> l <> [] ->
    exists more ud', append_bytes more0 ud l = Some (more, ud') /\ (more = UTF8_DONE -> ud_width ud' <= 2));
    [|by apply Hgen].
  induction l as [|ch l IH]; intros more0 ud n pre Hr Hc Hl Hne; [done|]. cbn [length] in Hl.
  destruct (append_ok loc_mbtowc loc_wcwidth loc_widths false ud n pre ch Hr ltac:(lia) Hc)
    as (more & ud' & Ea & Hr' & Hm & Hm' & _).
  cbn [append_bytes]. rewrite Ea. cbn [mbind option_bind].
  destruct l as [|d l].
  - exists more, ud'. split; [done|]. intros ->. by eapply append_width.
  - cbn [length] in Hl. specialize (Hm' ltac:(lia)). destruct (Hm Hm') as [_ Hc'].
    eapply IH; [exact Hr'|exact Hc'| |done]. rewrite length_app. cbn [length]. lia.
Qed.

Lemma utf8_key_ok buf expired t : buf <> [] -> exists r key,
  utf8_key_next buf expired t = Some (r, key) /\ handled_ok buf t r /\
  (r.1.1 = Yes \/ r.1.1 = No \/ (r.1.1 = Partial /\ expired = false)).
Proof using Hwidth.
  intros Hne. destruct buf as [|ch rest]; [done|]. unfold utf8_key_next.
  destruct (open_ok loc_mbtowc loc_wcwidth loc_widths false ch) as [(n & ud & -> & Hr & Hc & _) | ->];
    cbn [mbind option_bind]; [|by do 2 eexists; split; [done|split; [nothing|auto] ] ].
  pose proof (rd_n _ _ _ Hr) as Hn. pose proof (rd_size _ _ _ Hr) as Hs. cbv zeta. rewrite Hs.
  destruct (Nat.ltb_spec (length (ch :: rest)) (Z.to_nat n)).
  { do 2 eexists. split; [done|]. split; [destruct expired; nothing|]. destruct expired; auto. }
  cbn [length] in *.
  destruct (append_bytes_ok (take (Z.to_nat n - 1) rest) ud n [ch] Hr Hc) as (more & ud' & -> & Hw).
  { rewrite length_take. cbn [length]. lia. }
  { intros E. apply (f_equal length) in E. rewrite length_take in E. cbn in E. lia. }
  cbn [mbind option_bind]. destruct more; try by do 2 eexists; split; [done|split; [nothing|auto] ].
  destruct (from_data_some (tty_utf8 t) ud') as (f & uc & u & ->); [by apply Hw|].
  cbn [mbind option_bind]. assert (size_ok (ch :: rest) (Z.to_nat n)) by (unfold size_ok; cbn [length]; lia).
  destruct f; do 2 eexists; (split; [reflexivity|]); (split; [by split; auto with kept|auto]).
Qed.

Lemma next1_ok buf expired t : buf <> [] -> exists r key,
  tty_keys_next1 buf expired t = Some (r, key) /\ handled_ok buf t r /\
  (r.1.1 = Yes \/ r.1.1 = No \/ (r.1.1 = Partial /\ expired = false)).
Proof using Hwidth.
  intros Hne. unfold tty_keys_next1. destruct (tree_key buf expired t) as [[r key]|] eqn:E; [|by apply utf8_key_ok].
  apply tree_key_ok in E as [Hr [Hf|Hf] ]; exists r, key; (split; [done|split; [done|] ]); [by left|by right; right].
Qed.

(** A step: what it takes is there, and what it leaves alone. *)
Definition step_ok (buf : list Z) (t : tty) (s : next_step) : Prop :=
  match s with
  | Complete _ size _ t' | Discard size t' => kept t t' /\ size_ok buf size
  | Wait t' => kept t t'
  end.

Definition some_step (buf : list Z) (t : tty) (s : option next_step) : Prop :=
  exists x, s = Some x /\ step_ok buf t x.

Lemma step_ok_kept buf t t' x : kept t t' -> step_ok buf t' x -> step_ok buf t x.
Proof.
  intros Hk Hx. destruct x; [destruct Hx; split; [by eapply tty_kept_trans|done]|by eapply tty_kept_trans|
    destruct Hx; split; [by eapply tty_kept_trans|done] ].
Qed.

Lemma step_kept buf t t' s : kept t t' -> some_step buf t' s -> some_step buf t s.
Proof. intros Hk (x & -> & Hx). exists x. split; [done|]. by eapply step_ok_kept. Qed.

Lemma switch_step buf t r key m next : handled_ok buf t r ->
  (forall t', kept t t' -> some_step buf t' (next t')) -> some_step buf t (switch r key m next).
Proof.
  destruct r as [[f size] t']. intros [Hk Hs] Hn. destruct f; cbn [switch].
  - by eexists.
  - eapply step_kept; [done|]. by apply Hn.
  - by eexists.
  - by eexists.
Qed.

(** From [first_key] on: an expired timer leaves nothing to wait for. *)
Lemma first_key_step buf expired t : buf <> [] -> exists x, first_key env buf expired t = Some x /\
  step_ok buf t x /\ (expired = true -> forall t', x <> Wait t').
Proof using Hwidth.
  intros Hne. unfold first_key.
  assert (Hplain : forall t', kept t t' -> exists x,
    ('(key, size) ← plain_key buf;
     Some (Complete (fix_control (fix_bspace env (fix_space key))) size mouse_zero t')) = Some x /\
    step_ok buf t x /\ (expired = true -> forall t', x <> Wait t')).
  { intros t' Hk. destruct buf as [|b rest]; [done|]. unfold plain_key. cbn [mbind option_bind].
    match goal with |- context [let '(key, size) := ?p in _] => assert (Hp : size_ok (b :: rest) p.2) end.
    { repeat case_match; unfold size_ok; cbn; lia. }
    destruct (match b with 27 => _ | _ => _ end) as [key size]. eexists. split; [reflexivity|]. by split. }
  destruct (next1_ok buf expired t Hne) as ([[f size] t1] & key & -> & [Hk Hs] & Hf).
  cbn [mbind option_bind]. cbn [fst] in Hf. destruct f; cbn [switch].
  - eexists. split; [done|]. by split.
  - destruct buf as [|b rest]; [done|].
    destruct (decide (b = 27)) as [-> |Hb].
    2: { specialize (Hplain _ Hk). destruct b as [|p|p]; try exact Hplain.
         do 7 (try (destruct p as [p|p|]; try exact Hplain)); done. }
    destruct rest as [|c rest]; [by apply Hplain|].
    destruct (next1_ok (c :: rest) expired t1) as ([[f size'] t2] & key2 & -> & [Hk2 Hs2] & Hf2); [done|].
    cbn [mbind option_bind]. cbn [fst] in Hf2. pose proof (tty_kept_trans _ _ _ Hk Hk2).
    destruct f; try (by apply Hplain).
    + unfold size_ok in *. cbn [length] in *.
      destruct (has key2 KEYC_IMPLIED_META); eexists; (split; [done|]); (split; [split; [done|]|done]);
        unfold size_ok; cbn [length]; lia.
    + destruct Hf2 as [?|[?|[_ ->] ] ]; [done..|]. eexists. split; [done|]. by split.
  - destruct Hf as [?|[?|[_ ->] ] ]; [done..|]. eexists. split; [done|]. by split.
  - destruct Hf as [?|[?|[? _] ] ]; done.
Qed.

Lemma all_switches_step buf t : buf <> [] ->
  some_step buf t (all_switches wctomb scan_cmyk env buf t).
Proof using Hwidth.
  intros Hne. unfold all_switches, replies_switch.
  repeat (apply switch_step; [first [apply clipboard_ok|apply device_attributes_ok|
    apply device_attributes2_ok|apply extended_da_ok|apply colours_switch_ok|apply palette_ok]|];
    intros ? _).
  match goal with |- context [tty_keys_mouse buf ?m ?u] =>
    pose proof (mouse_ok buf m u) as Hm; destruct (tty_keys_mouse buf m u) as [r m1] end.
  apply switch_step; [exact Hm|]. intros t1 _.
  match goal with |- context [tty_keys_newmux_scroll buf ?m ?u] =>
    pose proof (newmux_scroll_ok buf m u) as Hn; destruct (tty_keys_newmux_scroll buf m u) as [r1 m2] end.
  apply switch_step; [exact Hn|]. intros t2 _.
  destruct (extended_key_ok buf t2) as (r2 & key & -> & Hx). cbn [mbind option_bind].
  apply switch_step; [exact Hx|]. intros t3 _.
  apply switch_step; [apply winsz_ok|]. intros t4 _.
  destruct (first_key_step buf false t4 Hne) as (x & -> & Hs & _). by exists x.
Qed.

(** Nothing more can be read until the terminal sends more or the timer goes off. *)
Definition waiting (t : tty) : Prop :=
  has (tty_flags t) TTY_TIMER = true /\ tty_timer t <> TimerIdle.

(** What a call of [tty_keys_next] does to the buffer. *)
Definition next_result (t : tty) (more : bool) (t' : tty) : Prop :=
  if more then exists n, (1 <= n <= length (tty_in t))%nat /\ tty_in t' = drop n (tty_in t)
  else tty_in t' = tty_in t /\ (tty_in t = [] \/ waiting t').

Lemma complete_in buf key size m t : tty_in (complete_key buf key size m t) = drop size (tty_in t).
Proof.
  unfold complete_key, drain, fire_key, focus_events, flag_off, timer_del.
  destruct t as [? ? ? ? ? ? ? ? ? ? tm ? ? ? ?], tm; cbn; repeat case_match; done.
Qed.

Lemma drain_in size t : tty_in (drain size t) = drop size (tty_in t).
Proof. by destruct t. Qed.

Lemma timer_set ms t : let t' := flag_on TTY_TIMER (set_timer (TimerPending ms) (timer_del t)) in
  tty_in t' = tty_in t /\ waiting t'.
Proof.
  unfold waiting, flag_on, timer_del. destruct t as [? ? fl ? ? ? ? ? ? ? tm ? ? ? ?], tm; cbn;
    (split; [done|]); (split; [|done]); rewrite has_lor; apply orb_true_r.
Qed.

Lemma next_from_ok t x : tty_in t <> [] -> step_ok (tty_in t) t x -> exists more t',
  next_from env 1 (tty_in t) x = Some (more, t') /\ next_result t more t' /\
  (has (tty_flags t) TTY_TIMER = true -> tty_timer t = TimerIdle -> more = true).
Proof using Hwidth.
  intros Hne Hx.
  assert (Hdone : forall x, step_ok (tty_in t) t x -> (forall t', x <> Wait t') -> forall fuel,
    exists t', next_from env fuel (tty_in t) x = Some (true, t') /\ next_result t true t').
  { intros y Hy Hw fuel. destruct y as [key size m t1|t1|size t1]; [|by destruct (Hw t1)|];
      destruct Hy as [[Hin _ _] Hs]; destruct fuel; cbn [next_from]; (eexists; split; [done|]);
      exists size; (split; [done|]); by rewrite ?complete_in, ?drain_in, Hin. }
  destruct x as [key size m t1|t1|size t1].
  - destruct (Hdone _ Hx ltac:(done) 1%nat) as (t' & -> & Hr). by exists true, t'.
  - destruct Hx as [Hin Ht Hf]. cbn [next_from]. rewrite <- Hf, <- Ht.
    destruct (has (tty_flags t1) TTY_TIMER) eqn:Ef.
    + destruct (tty_timer t1) eqn:Et; try (eexists _, _; split; [done|]; split; [|done]; split; [done|];
        right; split; [done|by rewrite Et]).
      destruct (first_key_step (tty_in t) true t1 Hne) as (y & -> & Hy & Hw). cbn [mbind option_bind].
      destruct (Hdone y) with (fuel := 0%nat) as (t' & E & Hr).
      { apply (step_ok_kept _ _ t1); [split; congruence|done]. }
      { by apply Hw. }
      exists true, t'. split; [exact E|]. by split.
    + eexists _, _. split; [done|]. split; [|congruence].
      destruct (timer_set (key_delay env (tty_in t) t1) t1) as [Hi Hw]. split; [by rewrite Hi|by right].
  - destruct (Hdone _ Hx ltac:(done) 1%nat) as (t' & -> & Hr). by exists true, t'.
Qed.

Lemma tty_keys_next_ok t : exists more t', tty_keys_next wctomb scan_cmyk env t = Some (more, t') /\
  next_result t more t' /\
  (tty_in t <> [] -> has (tty_flags t) TTY_TIMER = true -> tty_timer t = TimerIdle -> more = true).
Proof using Hwidth.
  unfold tty_keys_next. cbv zeta. destruct (tty_in t) as [|b l] eqn:E.
  - exists false, t. split; [done|]. split; [|done]. split; [done|by left].
  - rewrite <- E in *. assert (Hne : tty_in t <> []) by (by rewrite E).
    destruct (all_switches_step (tty_in t) t Hne) as (x & -> & Hx). cbn [mbind option_bind].
    destruct (next_from_ok t x Hne Hx) as (more & t' & -> & Hr & Hm). exists more, t'. auto.
Qed.

(** The loop returns: each turn but the last takes something. *)
Lemma next_while_ok fuel : forall t, (length (tty_in t) < fuel)%nat -> exists t' n,
  next_while wctomb scan_cmyk env fuel t = Some t' /\ tty_in t' = drop n (tty_in t) /\
  (tty_in t' = [] \/ waiting t') /\
  (tty_in t <> [] -> has (tty_flags t) TTY_TIMER = true -> tty_timer t = TimerIdle -> (0 < n)%nat).
Proof using Hwidth.
  induction fuel as [|fuel IH]; intros t Hf; [lia|]. cbn [next_while].
  destruct (tty_keys_next_ok t) as (more & t1 & -> & Hr & Hm). cbn [mbind option_bind]. destruct more.
  - destruct Hr as (n & Hn & Hin). destruct (IH t1) as (t' & n' & -> & Hin' & He & _).
    { rewrite Hin, length_drop. lia. }
    exists t', (n + n')%nat. split_and!; [done|by rewrite Hin', Hin, drop_drop|done|intros; lia].
  - destruct Hr as [Hin Hw]. exists t1, 0%nat. rewrite drop_0. split_and!; [done|done|by rewrite Hin|].
    intros Hne Hfl Ht. by specialize (Hm Hne Hfl Ht).
Qed.

End Total.

(** C39. When the key timer goes off, [tty_keys_callback] returns whatever the
    terminal has sent: it takes bytes from the start of the buffer only, at
    least one when there is one and the timer was running (an expired timer
    never waits again), and stops when the buffer is empty or the start of a key
    is waiting for a timer that has been set again. *)
Theorem tty_keys_callback_returns `{Locale} wctomb scan_cmyk env t : widths_ok ->
  exists t' n, tty_keys_callback wctomb scan_cmyk env t = Some t' /\
    tty_in t' = drop n (tty_in t) /\
    (has (tty_flags t) TTY_TIMER = true ->
       (tty_in t' = [] \/ waiting t') /\ (tty_in t <> [] -> (0 < n)%nat)).
Proof.
  intros Hw. unfold tty_keys_callback. cbv zeta. set (t1 := set_timer TimerIdle t).
  assert (E1 : tty_in t1 = tty_in t) by by destruct t. assert (E2 : tty_flags t1 = tty_flags t) by by destruct t.
  assert (E3 : tty_timer t1 = TimerIdle) by by destruct t. rewrite E2.
  destruct (has (tty_flags t) TTY_TIMER) eqn:Ef; [|exists t1, 0%nat; by rewrite E1, drop_0].
  destruct (next_while_ok wctomb scan_cmyk env Hw (S (length (tty_in t1))) t1 ltac:(lia))
    as (t' & n & E & Hin & He & Hn).
  exists t', n. rewrite E, Hin, E1 in *. rewrite E2 in Hn. split_and!; auto.
Qed.

(** ** The mouse *)

Lemma sgr_dec ends f : forall n acc size r, Forall (fun e => e < 48 \/ 57 < e) ends ->
  0 <= n < 10 ^ Z.of_nat (S f) -> exists k,
  sgr_number ends 0 size (bytes_of_string (dec_aux (S f) n acc) ++ r) =
    sgr_number ends (u32 n) (size + k) (bytes_of_string acc ++ r) /\
  length (bytes_of_string (dec_aux (S f) n acc)) = (k + length (bytes_of_string acc))%nat.
Proof.
  assert (Hone : forall a d acc size r, Forall (fun e => e < 48 \/ 57 < e) ends -> 0 <= d < 10 ->
    sgr_number ends a size (bytes_of_string (String (digit d) acc) ++ r) =
    sgr_number ends (u32 (10 * a + d)) (S size) (bytes_of_string acc ++ r)).
  { intros a d acc size r He Hd. rewrite bytes_string, code_digit by done. cbn [app sgr_number].
    rewrite bool_decide_eq_false_2 by (rewrite Forall_forall in He; intros Hin; apply He in Hin; lia).
    rewrite (proj2 (Z.ltb_ge _ _)), (proj2 (Z.ltb_ge 57 _)) by lia. cbn [orb]. do 2 f_equal. lia. }
  assert (Hs : forall f n acc, dec_aux (S f) n acc =
    if n <? 10 then String (digit (n mod 10)) acc else dec_aux f (n / 10) (String (digit (n mod 10)) acc))
    by done.
  induction f as [|f IH]; intros n acc size r He Hn; rewrite Hs.
  - change (10 ^ Z.of_nat 1) with 10 in Hn. rewrite Z.mod_small by lia.
    rewrite (proj2 (Z.ltb_lt n 10)) by lia. exists 1%nat. rewrite Hone by done.
    split; [f_equal; lia|done].
  - pose proof (Z.mod_pos_bound n 10 ltac:(lia)) as Hm.
    destruct (Z.ltb_spec n 10).
    + exists 1%nat. rewrite Hone, Z.mod_small by (done || lia). split; [f_equal; lia|done].
    + rewrite Nat2Z.inj_succ, Z.pow_succ_r in Hn by lia.
      destruct (IH (n / 10) (String (digit (n mod 10)) acc) size r He) as (k & -> & Hl).
      { split; [apply Z.div_pos; lia|apply Z.div_lt_upper_bound; lia]. }
      exists (S k). rewrite Hone, Hl by done. split; [|rewrite bytes_string; cbn; lia].
      f_equal; [|lia]. unfold u32. rewrite <- Z.add_mod_idemp_l, Z.mul_mod_idemp_r, Z.add_mod_idemp_l by done.
      f_equal. pose proof (Z.div_mod n 10). lia.
Qed.

(** A printed number is read up to the byte that ends it. *)
Lemma sgr_fmt_u ends n e size r : Forall (fun e => e < 48 \/ 57 < e) ends -> e ∈ ends ->
  0 <= n < 4294967296 ->
  sgr_number ends 0 size (bytes_of_string (fmt_u n) ++ e :: r) =
    (Yes, (size + length (bytes_of_string (fmt_u n)) + 1)%nat, (n, e, r)).
Proof.
  intros He Hin Hn. destruct (sgr_dec ends 19 n "" size (e :: r) He) as (k & E & Hl);
    [change (10 ^ Z.of_nat 20) with 100000000000000000000; lia|].
  unfold fmt_u. rewrite E, Hl. cbn [bytes_of_string list_ascii_of_string map app length sgr_number].
  rewrite bool_decide_eq_true_2, u32_small by (done || lia). do 2 f_equal. lia.
Qed.

Definition sgr_bytes (b x y ty : Z) : list Z :=
  27 :: 91 :: 60 :: bytes_of_string (fmt_u b) ++ 59 :: bytes_of_string (fmt_u x) ++ 59 ::
    bytes_of_string (fmt_u y) ++ [ty].

Lemma sgr_sent b x y ty :
  esc ("[<" +:+ fmt_u b +:+ ";" +:+ fmt_u x +:+ ";" +:+ fmt_u y) ++ [ty] = sgr_bytes b x y ty.
Proof. unfold esc, sgr_bytes. rewrite !bytes_app. cbn [app]. by rewrite <- !app_assoc. Qed.

Lemma mouse_sgr_read b x y ty rest m t : 0 <= b < 4294967296 -> 1 <= x < 4294967296 ->
  1 <= y < 4294967296 -> ty = 77 \/ ty = 109 /\ MOUSE_WHEEL b = false ->
  tty_keys_mouse (sgr_bytes b x y ty ++ rest) m t =
    (let '(m, t) := mouse_fill (x - 1) (y - 1) (if ty =? 109 then 3 else b) ty b m t in
     (Yes, length (sgr_bytes b x y ty), t, m)).
Proof.
  intros Hb Hx Hy Hty.
  assert (Hends : Forall (fun e => e < 48 \/ 57 < e) [59] /\ Forall (fun e => e < 48 \/ 57 < e) [77; 109])
    by (split; repeat constructor; lia). destruct Hends as [Hsemi Hends].
  unfold sgr_bytes. cbn [app]. rewrite <- !app_assoc. cbn [app]. rewrite <- !app_assoc. cbn [app].
  rewrite <- !app_assoc. cbn [app].
  set (all := 27 :: _). change (tty_keys_mouse all m t) with
    (mouse_sgr (bytes_of_string (fmt_u b) ++ 59 :: bytes_of_string (fmt_u x) ++ 59 ::
       bytes_of_string (fmt_u y) ++ ty :: rest) m t).
  unfold mouse_sgr. rewrite sgr_fmt_u by (done || by left). rewrite sgr_fmt_u by (done || lia || by left).
  rewrite sgr_fmt_u; [|done|destruct Hty as [-> |[-> _] ]; [left|right; left]|lia].
  rewrite (proj2 (Z.ltb_ge x 1)), (proj2 (Z.ltb_ge y 1)) by lia. cbn [orb]. cbv zeta.
  replace ((ty =? 109) && MOUSE_WHEEL b) with false
    by (destruct Hty as [-> |[-> ->] ]; [done|by rewrite andb_false_r]).
  destruct (mouse_fill _ _ _ _ _ _ _) as [m1 t1]. do 3 f_equal.
  cbn [length]. rewrite !length_app. cbn [length]. rewrite !length_app. cbn [length]. rewrite !length_app. cbn [length].
  lia.
Qed.

Lemma mouse_standard_read b x y rest m t : 32 <= b -> 33 <= x -> 33 <= y ->
  tty_keys_mouse (27 :: 91 :: 77 :: b :: x :: y :: rest) m t =
    (let '(m, t) := mouse_fill (x - 33) (y - 33) (b - 32) 32 0 m t in (Yes, 6%nat, t, m)).
Proof.
  intros Hb Hx Hy. change (tty_keys_mouse (27 :: 91 :: 77 :: b :: x :: y :: rest) m t) with
    (mouse_standard (b :: x :: y :: rest) m t).
  unfold mouse_standard, MOUSE_PARAM_BTN_OFF, MOUSE_PARAM_POS_OFF.
  by rewrite (proj2 (Z.ltb_ge b 32)), (proj2 (Z.ltb_ge x 33)), (proj2 (Z.ltb_ge y 33)) by lia.
Qed.

(** The event that is read back: the place, held to the 223 columns and lines
    of the old format, the button (3 for a release) and what was read before. *)
Definition mouse_received (mode : Z) (m : mouse_event) (x y : Z) (t : tty) : mouse_event :=
  if negb (me_sgr_type m =? 32) && has mode MODE_MOUSE_SGR
  then (mouse_fill x y (if me_sgr_type m =? 109 then 3 else me_sgr_b m) (me_sgr_type m) (me_sgr_b m)
          mouse_zero t).1
  else (mouse_fill (Z.min x 222) (Z.min y 222) (me_b m) 32 0 mouse_zero t).1.

Section Mouse.
Context `{Locale} (wctomb : Z -> option (list Z)) (scan_cmyk : string -> option (Z * Z * Z)).
Context (env : key_env).

(** What the terminal says of an event: unsigned ints, a press or a release
    that is not of the wheel when the new format is used. *)
Record mouse_said (m : mouse_event) (x y : Z) : Prop := {
  ms_type : me_sgr_type m = 32 \/ me_sgr_type m = 77 \/ me_sgr_type m = 109;
  ms_wheel : me_sgr_type m = 109 -> MOUSE_WHEEL (me_sgr_b m) = false;
  ms_sgr_b : 0 <= me_sgr_b m < 4294967296;
  ms_b : 0 <= me_b m < 4294967000;
  ms_x : 0 <= x < 4294967000;
  ms_y : 0 <= y < 4294967000
}.

Lemma mouse_complete buf m t m1 t1 size : tty_in t = buf ->
  (exists c r, buf = 27 :: 91 :: c :: r /\ (c = 60 \/ c = 77)) ->
  tty_keys_mouse buf mouse_zero t = (Yes, size, t1, m1) -> m1 = m -> kept t t1 -> tty_calls t1 = tty_calls t ->
  exists t', tty_keys_next wctomb scan_cmyk env t = Some (true, t') /\ tty_in t' = drop size buf /\
    tty_calls t' = tty_calls t ++ [server_client_handle_key KEYC_MOUSE m (take size buf)].
Proof.
  intros Hin (c & r & Hb & Hc) Hm -> [Hki _ _] Hcl. unfold tty_keys_next. cbv zeta. rewrite Hin, Hb.
  unfold all_switches. rewrite replies_no by (destruct Hc as [-> | ->]; done). rewrite <- Hb, Hm.
  cbn [switch mbind option_bind next_from]. eexists. split; [done|].
  destruct (complete_key_plain buf KEYC_MOUSE size m t1) as [H1 H2]; [done..|].
  by rewrite H1, H2, Hki, Hin, Hcl.
Qed.

Lemma mouse_fill_same x y b s sb m t : exists t', mouse_fill x y b s sb m t = ((mouse_fill x y b s sb m t).1, t') /\
  kept t t' /\ tty_calls t' = tty_calls t.
Proof.
  unfold mouse_fill. destruct (tty_mouse_last t) as [[lx ly] lb]. eexists. split; [reflexivity|].
  split; [auto with kept|by destruct t].
Qed.

(** C19. A mouse event that a pane is sent is read back, unless the pane asked
    for the UTF-8 form, which is not understood: when its bytes are at the start
    of what has come from the terminal, [tty_keys_next] takes exactly those
    bytes and hands the server one mouse event with the same button, kind and
    place (held to column and line 222 in the old form). *)
Theorem mouse_read_back mode m x y bytes rest t : mouse_said m x y -> has mode MODE_MOUSE_UTF8 = false ->
  input_key_get_mouse mode m x y = Some bytes -> tty_in t = bytes ++ rest ->
  exists t', tty_keys_next wctomb scan_cmyk env t = Some (true, t') /\ tty_in t' = rest /\
    tty_calls t' = tty_calls t ++
      [server_client_handle_key KEYC_MOUSE (mouse_received mode m x y t) bytes].
Proof.
  intros [Hty Hwh Hsb Hb Hx Hy] Hutf. unfold input_key_get_mouse, mouse_received.
  destruct (_ && _); [done|]. destruct (negb (has mode ALL_MOUSE_MODES)); [done|].
  destruct (mouse_release_ignored mode m); [done|].
  destruct (negb (me_sgr_type m =? 32) && has mode MODE_MOUSE_SGR) eqn:Esgr.
  - intros E Hin. apply andb_true_iff in Esgr as [Ht%negb_true_iff%Z.eqb_neq _].
    assert (Hty' : me_sgr_type m = 77 \/ me_sgr_type m = 109) by tauto.
    rewrite !u32_small in E by lia. rewrite u8_small in E by (destruct Hty' as [-> | ->]; lia).
    rewrite sgr_sent in E. injection E as <-.
    destruct (mouse_fill_same x y (if me_sgr_type m =? 109 then 3 else me_sgr_b m) (me_sgr_type m)
      (me_sgr_b m) mouse_zero t) as (t1 & Ef & Hk & Hc).
    pose proof (mouse_sgr_read (me_sgr_b m) (x + 1) (y + 1) (me_sgr_type m) rest mouse_zero t
      Hsb ltac:(lia) ltac:(lia) ltac:(tauto)) as Hm.
    rewrite !Z.add_simpl_r, Ef in Hm.
    destruct (mouse_complete _ _ _ _ _ _ Hin ltac:(exists 60; eexists; split; [reflexivity|by left]) Hm eq_refl Hk Hc) as (t' & -> & H1 & H2).
    rewrite drop_app_length in H1. rewrite take_app_length in H2. by exists t'.
  - rewrite Hutf. destruct (Z.ltb_spec MOUSE_PARAM_MAX (u32 (me_b m + MOUSE_PARAM_BTN_OFF))) as [|Hbm]; [done|].
    unfold MOUSE_PARAM_MAX, MOUSE_PARAM_BTN_OFF in *. rewrite u32_small in * by lia.
    rewrite u8_small by lia.
    assert (Hclamp : forall z, 0 <= z < 4294967000 -> clamp_position z = Z.min z 222 + 33).
    { intros z Hz. unfold clamp_position, MOUSE_PARAM_MAX, MOUSE_PARAM_POS_OFF. rewrite u32_small by lia.
      destruct (Z.ltb_spec 255 (z + 33)); [lia|]. rewrite u8_small by lia. lia. }
    rewrite !Hclamp by done. intros E Hin. injection E as <-. cbn [app] in Hin.
    destruct (mouse_fill_same (Z.min x 222) (Z.min y 222) (me_b m) 32 0 mouse_zero t) as (t1 & Ef & Hk & Hc).
    pose proof (mouse_standard_read (me_b m + 32) (Z.min x 222 + 33) (Z.min y 222 + 33) rest mouse_zero t
      ltac:(lia) ltac:(lia) ltac:(lia)) as Hm.
    rewrite !Z.add_simpl_r, Ef in Hm.
    destruct (mouse_complete _ _ _ _ _ _ Hin ltac:(exists 77; eexists; split; [reflexivity|by right]) Hm eq_refl Hk Hc) as (t' & -> & H1 & H2).
    by exists t'.
Qed.

End Mouse.

(** ** Function keys with modifiers *)

(** The entries of the tree of input-keys.c that have modifiers: each one is
    sent as it is, and is in the tables of tty-keys.c. *)
Definition modified_entry_ok (tables : gmap (list Z) Z) (e : Z * list Z) : bool :=
  let '(k, d) := e in
  (Z.land k KEYC_MASK_MODIFIERS =? 0) ||
  (negb (KEYC_IS_MOUSE k) && negb (has k KEYC_LITERAL) &&
   negb (Z.land k KEYC_MASK_KEY =? KEYC_BSPACE) && negb (Z.land k KEYC_MASK_KEY =? KEYC_BTAB) &&
   negb (without k KEYC_MASK_KEY =? 0) && (without k KEYC_KEYPAD =? k) && (without k KEYC_CURSOR =? k) &&
   negb (KEYC_IS_PASTE k) && negb (prefix_meta k) &&
   bool_decide (tree_sequence k = Some d) && bool_decide (tables !! d = Some k)).

Lemma modified_entries_ok :
  (let tables := key_map default_keys in
   forallb (modified_entry_ok tables) (map_to_list input_key_tree)) = true.
Proof. vm_compute. reflexivity. Qed.

Lemma forallb_map (f : Z * list Z -> bool) (m : gmap Z (list Z)) k d :
  forallb f (map_to_list m) = true -> m !! k = Some d -> f (k, d) = true.
Proof.
  intros Hf Hk. rewrite forallb_forall in Hf. by apply Hf, list_elem_of_In, elem_of_map_to_list.
Qed.

Lemma default_tree : tty_keys_build (fun _ => []) [] = add_all default_keys Null.
Proof. vm_compute. reflexivity. Qed.

Section Function_keys.
Context `{Locale} (o : key_options).

(** C40. A function, cursor or editing key with modifiers is written to a pane
    as a sequence that the tables of the outside terminal know as the same key,
    whatever the modes of the pane: with the keys of the tables alone, the next
    key at the start of a buffer that starts with the sequence is that key. *)
Theorem function_key_read_back key data mode rest expired t :
  input_key_tree !! key = Some data -> Z.land key KEYC_MASK_MODIFIERS <> 0 ->
  tty_keys_build (fun _ => []) [] = Some (tty_tree t) ->
  input_key (tty_utf8 t) o mode key = (0, data) /\
  exists t', tty_keys_next1 (data ++ rest) expired t = Some (Yes, length data, t', key) /\
    tty_in t' = tty_in t.
Proof.
  intros Hkey Hmod Hbuild. pose proof (forallb_map _ _ key data modified_entries_ok Hkey) as Hall.
  unfold modified_entry_ok in Hall.
  rewrite (proj2 (Z.eqb_neq _ 0)) in Hall by done. cbn [orb] in Hall.
  rewrite !andb_true_iff, !negb_true_iff, !bool_decide_eq_true, !Z.eqb_eq in Hall.
  destruct Hall as [[[[[[[[[[H1 H2] H3] H4] H5] H6] H7] H8] H9] H10] H11].
  split.
  - unfold input_key. rewrite H1, H2, H3. unfold input_key_rest, backtab. rewrite H4.
    unfold plain_bytes. rewrite H5. unfold moded_key.
    replace (if has mode MODE_KKEYPAD then key else without key KEYC_KEYPAD) with key by (by destruct (has mode _)).
    replace (if has mode MODE_KCURSOR then key else without key KEYC_CURSOR) with key by (by destruct (has mode _)).
    rewrite H10, H8, H9. done.
  - destruct default_keys_ok as [Hok Hfree]. rewrite default_tree in Hbuild.
    destruct (add_all_keys default_keys Hok Hfree) as (tree & E & Hm). rewrite E in Hbuild.
    injection Hbuild as ->. by apply (tree_map_next1 default_keys).
Qed.

End Function_keys.

(** ** What the code does not mean to do *)

(** A longer sequence than a known one takes its place: [tty_keys_add] finds the
    shorter one, whatever is left of the string. *)
Lemma longer_key_replaces : exists tree tree', add_all default_keys Null = Some tree /\
  tty_keys_add tree (esc "Ooo") KEYC_USER = Some tree' /\
  key_at (esc "Oo") tree = Some (KEYC_KP_SLASH ||| KEYC_KEYPAD) /\
  key_at (esc "Oo") tree' = Some KEYC_USER /\ key_at (esc "Ooo") tree' = None.
Proof.
  destruct (add_all default_keys Null) as [tree|] eqn:E; [|vm_compute in E; discriminate E].
  exists tree. vm_compute in E. injection E as <-. eexists. split; [done|]. split; [vm_compute; reflexivity|].
  by split_and!; vm_compute.
Qed.

(** An empty user key is read past its end. *)
Lemma empty_user_key : tty_keys_build (fun _ => []) [(0, [])] = None.
Proof. vm_compute. reflexivity. Qed.

(** Scrolling by the height of one line ([tty_ypixel] is that of a cell) comes
    to as many lines as the terminal has. *)
Lemma scroll_one_line_height t : 0 < tty_ypixel t -> 0 < tty_sy t ->
  1000 * tty_ypixel t * tty_sy t < 18446744073709551616 ->
  scroll_lines true (1000 * tty_ypixel t) 1 t = Z.min (1000 * tty_sy t) UINT_MAX.
Proof.
  intros Hy Hs Hb. unfold scroll_lines, tty_keys_newmux_absll.
  rewrite (proj2 (Z.eqb_neq (tty_ypixel t) 0)), (proj2 (Z.eqb_neq (tty_sy t) 0)) by lia. cbn [negb andb].
  rewrite (proj2 (Z.ltb_ge (1000 * tty_ypixel t) 0)) by lia.
  change (u64 (u64 (if 1 <? 0 then - (1 + 1) + 1 else 1) * 1000)) with 1000.
  assert (E : forall z, 0 <= z < 18446744073709551616 -> u64 z = z) by (intros z Hz; by apply Z.mod_small).
  rewrite (E (1000 * _)), E by nia.
  replace (1000 * tty_ypixel t * tty_sy t / tty_ypixel t) with (1000 * tty_sy t).
  { rewrite Z.max_l by lia. by rewrite (proj2 (Z.eqb_neq _ 0)) by lia. }
  symmetry. replace (1000 * tty_ypixel t * tty_sy t) with (1000 * tty_sy t * tty_ypixel t) by ring.
  by apply Z.div_mul; lia.
Qed.

(** A key that is refused has already sent an escape. *)
Lemma refused_after_escape : @input_key_vt10x (UT ∅ ∅ 0) (KEYC_CTRL ||| KEYC_META ||| 36) = (-1, [27]).
Proof. vm_compute. reflexivity. Qed.

(** A C library of ASCII and characters of two bytes. *)
Definition sample_locale : Locale :=
  {| loc_mbtowc := mbtowc_sample; loc_wcwidth := fun _ => 1; loc_widths := ∅ |}.
Definition wctomb_sample (wc : Z) : option (list Z) :=
  if wc <? 128 then Some [wc] else Some [0xc0 ||| Z.shiftr wc 6; 0x80 ||| Z.land wc 63].

Definition sample_env (stack : list Z) : key_env := KE 127 0 500 false stack.
Definition sample_tty (tree : tty_key) (buf : list Z) (flags : Z) (timer : key_timer) : tty :=
  Tty tree buf flags 80 24 8 16 (0, 0, 0) (-1) (-1) timer [] true (UT ∅ ∅ 0) [].

(** A character of two bytes is packed with a third one from the stack. *)
Lemma wide_key_of_stack : let t := sample_tty Null [] 0 TimerNew in
  let key stack := @key_of_numbers sample_locale wctomb_sample (sample_env stack) 233 5 t in
  key (replicate 32 0) <> key (replicate 32 1).
Proof. vm_compute. discriminate. Qed.

(** ** Witnesses *)

Lemma tty_keys_refine_map_witness : exists tree, add_all default_keys Null = Some tree /\
  forall rest expired t, tty_tree t = tree ->
    exists t', @tty_keys_next1 sample_locale (esc "[1;5A" ++ rest) expired t =
      Some (Yes, 6%nat, t', KEYC_UP ||| KEYC_CTRL).
Proof.
  destruct default_keys_ok as [Hok Hfree].
  destruct (@tty_keys_refine_map sample_locale default_keys Hok Hfree) as (tree & E & Hk & _).
  exists tree. split; [exact E|]. intros rest expired t Ht.
  destruct (Hk (esc "[1;5A") (KEYC_UP ||| KEYC_CTRL) rest expired t) as (t' & Hn & _);
    [vm_compute; reflexivity|exact Ht|]. exists t'. exact Hn.
Defined.

Lemma no_chars_ok : table_ok (UT ∅ ∅ 0).
Proof.
  split; cbn; [intros d i H; by rewrite lookup_empty in H|intros i d H; by rewrite lookup_empty in H|lia].
Qed.

(** C-M-a and a letter after it. *)
Lemma extended_key_read_back_witness :
  let t := sample_tty Null (esc "[27;7;97~" ++ [120]) 0 TimerNew in
  exists t', @tty_keys_next sample_locale wctomb_sample (fun _ => None) (sample_env (replicate 32 0)) t = Some (true, t') /\
    tty_in t' = [120] /\
    tty_calls t' = [server_client_handle_key (97 ||| KEYC_META ||| KEYC_CTRL ||| KEYC_IMPLIED_META) mouse_zero
                      (esc "[27;7;97~")].
Proof.
  intros t.
  destruct (@extended_key_read_back sample_locale wctomb_sample (fun _ => None) (sample_env (replicate 32 0))
    (KO 127 1) (97 ||| KEYC_META ||| KEYC_CTRL) 97 97 (KEYC_META ||| KEYC_CTRL) [120] t)
    as (bytes & E & Hr); [exact no_chars_ok|constructor; [lia|right; cbn; lia]|reflexivity|reflexivity| |].
  - by apply (list_elem_of_lookup_2 _ 5).
  - vm_compute in E. injection E as <-. destruct (Hr eq_refl) as (t' & Hn & Hi & Hc).
    exists t'. split; [exact Hn|]. split; [exact Hi|exact Hc].
Defined.

Lemma sample_widths : @widths_ok sample_locale.
Proof.
  intros ud w. unfold utf8_width. destruct (@loc_mbtowc sample_locale _) as [wc|]; [|done].
  intros E. vm_compute in E. injection E as <-. lia.
Qed.

(** A lone escape that was waiting. *)
Lemma tty_keys_callback_returns_witness :
  let t := sample_tty Null [27] TTY_TIMER (TimerPending 500) in
  exists t' n, @tty_keys_callback sample_locale wctomb_sample (fun _ => None) (sample_env []) t = Some t' /\
    tty_in t' = drop n [27] /\ (0 < n)%nat.
Proof.
  intros t.
  destruct (@tty_keys_callback_returns sample_locale wctomb_sample (fun _ => None) (sample_env []) t sample_widths)
    as (t' & n & E & Hin & Hr). destruct (Hr eq_refl) as [_ Hn].
  exists t', n. split; [exact E|]. split; [exact Hin|]. by apply Hn.
Defined.

(** A press of the left button at column 300 for a pane without the new form. *)
Lemma mouse_read_back_witness :
  let m := ME true false 0 0 0 300 7 0 0 0 0 0 0 false false 0 false 0 1 1 1 77 0 in
  let t := sample_tty Null [27; 91; 77; 32; 255; 40] 0 TimerNew in
  exists t', @tty_keys_next sample_locale wctomb_sample (fun _ => None) (sample_env []) t = Some (true, t') /\
    tty_in t' = [] /\
    tty_calls t' = [server_client_handle_key KEYC_MOUSE (mouse_received MODE_MOUSE_STANDARD m 300 7 t)
                      [27; 91; 77; 32; 255; 40] ].
Proof.
  intros m t.
  apply (@mouse_read_back sample_locale wctomb_sample (fun _ => None) (sample_env []) MODE_MOUSE_STANDARD m 300 7
    [27; 91; 77; 32; 255; 40] [] t); [|reflexivity|vm_compute; reflexivity|reflexivity].
  split; cbn; [tauto|done|lia|lia|lia|lia].
Defined.

(** C-Up. *)
Lemma function_key_read_back_witness : exists tree, tty_keys_build (fun _ => []) [] = Some tree /\
  let t := sample_tty tree (esc "[1;5A") 0 TimerNew in
  input_key (H := sample_locale) (tty_utf8 t) (KO 127 0) MODE_KCURSOR (KEYC_UP ||| KEYC_CTRL) = (0, esc "[1;5A") /\
  exists t', @tty_keys_next1 sample_locale (esc "[1;5A") false t = Some (Yes, 6%nat, t', KEYC_UP ||| KEYC_CTRL).
Proof.
  destruct (tty_keys_build (fun _ => []) []) as [tree|] eqn:E; [|vm_compute in E; discriminate E].
  exists tree. split; [reflexivity|]. intros t.
  destruct (@function_key_read_back sample_locale (KO 127 0) (KEYC_UP ||| KEYC_CTRL) (esc "[1;5A") MODE_KCURSOR []
    false t) as [Hs (t' & Hn & _)]; [vm_compute; reflexivity|vm_compute; discriminate|exact E|].
  split; [exact Hs|]. rewrite app_nil_r in Hn. exists t'. exact Hn.
Defined.
