(* ===== verification/GridString.v ===== *)
(** * Cells as a string (src/tmux/screen/grid.c, [grid_string_cells])

    What capture-pane prints of a line: its characters, and on request the
    escape sequences that set their attributes.  The buffer that grows is the
    list of its bytes; the buffer of a code has its size, [code_len]. *)
From Stdlib Require Import Ascii String.
From S2P Require Import Prelude.
From S2P Require Import CString.
From S2P Require Import Utf8.
From S2P Require Import CellCodec.
From S2P Require Import Locale.
From S2P Require Import Hyperlinks.
From S2P Require Import Grid.
From S2P Require Import Colour.
From S2P Require Import ScreenInfo.

Definition GRID_STRING_WITH_SEQUENCES : Z := 0x1.
Definition GRID_STRING_ESCAPE_SEQUENCES : Z := 0x2.
Definition GRID_STRING_TRIM_SPACES : Z := 0x4.
Definition GRID_STRING_USED_ONLY : Z := 0x8.
Definition GRID_STRING_EMPTY_CELLS : Z := 0x10.

(** [char code[8192]]. *)
Definition code_len : nat := Z.to_nat 8192.

(** [strlcat] to a buffer of [len] bytes. *)
Definition cat (len : nat) (buf s : list Z) : list Z := take (len - 1) (buf ++ s).

(** ** Colours *)

(** The numbers of a colour that is an index or a triplet. *)
Definition colour_values (base c : Z) : option (list Z) :=
  if has c COLOUR_FLAG_256 then Some [base; 5; Z.land c 0xff]
  else if has c COLOUR_FLAG_RGB then
    let '(r, g, b) := colour_split_rgb c in Some [base; 2; r; g; b]
  else None.

Definition grid_string_cells_fg (gc : grid_cell) : list Z :=
  let c := gc_fg gc in
  match colour_values 38 c with
  | Some l => l
  | None =>
      if (0 <=? c) && (c <=? 7) then [c + 30]
      else if c =? 8 then [39]
      else if (90 <=? c) && (c <=? 97) then [c]
      else []
  end.

Definition grid_string_cells_bg (gc : grid_cell) : list Z :=
  let c := gc_bg gc in
  match colour_values 48 c with
  | Some l => l
  | None =>
      if (0 <=? c) && (c <=? 7) then [c + 40]
      else if c =? 8 then [49]
      else if (90 <=? c) && (c <=? 97) then [c + 10]
      else []
  end.

Definition grid_string_cells_us (gc : grid_cell) : list Z :=
  default [] (colour_values 58 (gc_us gc)).

(** ** Codes *)

(** The start of a control sequence, as a byte or written out. *)
Definition csi_start (flags : Z) : list Z :=
  if has flags GRID_STRING_ESCAPE_SEQUENCES then bytes_of_string "\033[" else [27; 91].

Definition join_codes (codes : list (list Z)) : list Z :=
  match codes with
  | [] => []
  | c :: codes => c ++ concat (map (cons 59) codes)
  end.

Definition number_code (n : Z) : list Z := bytes_of_string (fmt_d n).

(** [s] are the numbers that have been written before. *)
Definition grid_string_cells_add_code (len : nat) (buf s newc oldc : list Z) (flags : Z) : list Z :=
  let reset := match s with 0 :: _ => true | _ => false end in
  let first := nth 0 newc 0 in
  match newc with
  | [] => buf
  | _ =>
      if negb reset && bool_decide (newc = oldc) then buf
      else if reset && ((first =? 49) || (first =? 39)) then buf
      else
        let buf := cat len buf (csi_start flags) in
        let buf := cat len buf (join_codes (map number_code newc)) in
        cat len buf [109]
  end.

Definition grid_string_cells_add_hyperlink (len : nat) (buf id uri : list Z) (flags : Z) :
    bool * list Z :=
  if (len <=? length uri + length id + 17)%nat then (false, buf)
  else
    let escaped := has flags GRID_STRING_ESCAPE_SEQUENCES in
    let buf := cat len buf (if escaped then bytes_of_string "\033]8;" else [27; 93; 56; 59]) in
    let buf := cat len buf (match id with
                            | [] => [59]
                            | _ => bytes_of_string "id=" ++ id ++ [59]
                            end) in
    let buf := cat len buf uri in
    (true, cat len buf (if escaped then bytes_of_string "\033\\" else [27; 92])).

(** The attributes with their numbers. *)
Definition attrs : list (Z * Z) := [
  (GRID_ATTR_BRIGHT, 1);
  (GRID_ATTR_DIM, 2);
  (GRID_ATTR_ITALICS, 3);
  (GRID_ATTR_UNDERSCORE, 4);
  (GRID_ATTR_BLINK, 5);
  (GRID_ATTR_REVERSE, 7);
  (GRID_ATTR_HIDDEN, 8);
  (GRID_ATTR_STRIKETHROUGH, 9);
  (GRID_ATTR_UNDERSCORE_2, 42);
  (GRID_ATTR_UNDERSCORE_3, 43);
  (GRID_ATTR_UNDERSCORE_4, 44);
  (GRID_ATTR_UNDERSCORE_5, 45);
  (GRID_ATTR_OVERLINE, 53)
].

(** Whether the attributes must be reset: one is removed. *)
Definition needs_reset (lastgc gc : grid_cell) : bool :=
  existsb (fun '(mask, _) =>
    (has (Z.lnot (gc_attr gc)) mask && has (gc_attr lastgc) mask) ||
    (negb (gc_us lastgc =? 8) && (gc_us gc =? 8))) attrs.

(** The attributes that were set, after the reset. *)
Definition kept_attr (lastgc gc : grid_cell) : Z :=
  if needs_reset lastgc gc then Z.land (gc_attr lastgc) GRID_ATTR_CHARSET else gc_attr lastgc.

(** The numbers in [s]: 0 for a reset and those of the new attributes. *)
Definition attr_codes (lastgc gc : grid_cell) : list Z :=
  (if needs_reset lastgc gc then [0] else []) ++
  map snd (List.filter (fun '(mask, _) =>
    has (gc_attr gc) mask && negb (has (kept_attr lastgc gc) mask)) attrs).

(** A number below ten, or two digits with a colon. *)
Definition attr_code (n : Z) : list Z :=
  if n <? 10 then number_code n else number_code (n / 10) ++ 58 :: number_code (n mod 10).

(** The numbers of the attributes as they are written. *)
Definition write_attrs (len : nat) (s : list Z) (flags : Z) : list Z :=
  match s with
  | [] => []
  | _ => cat len (cat len (cat len [] (csi_start flags)) (join_codes (map attr_code s))) [109]
  end.

(** [sc] is the screen's set of hyperlinks with all of them, if there is one.
    The code and [has_link]. *)
Definition grid_string_cells_code (lastgc gc : grid_cell) (len : nat) (flags : Z)
    (sc : option (Z * links)) (has_link : bool) : list Z * bool :=
  let escaped := has flags GRID_STRING_ESCAPE_SEQUENCES in
  let s := attr_codes lastgc gc in
  let lastattr := kept_attr lastgc gc in
  let attr := gc_attr gc in
  let add buf f := grid_string_cells_add_code len buf s (f gc) (f lastgc) flags in
  let buf := write_attrs len s flags in
  let buf := add buf grid_string_cells_fg in
  let buf := add buf grid_string_cells_bg in
  let buf := add buf grid_string_cells_us in
  let buf := if has attr GRID_ATTR_CHARSET && negb (has lastattr GRID_ATTR_CHARSET)
             then cat len buf (if escaped then bytes_of_string "\016" else [14]) else buf in
  let buf := if negb (has attr GRID_ATTR_CHARSET) && has lastattr GRID_ATTR_CHARSET
             then cat len buf (if escaped then bytes_of_string "\017" else [15]) else buf in
  match sc with
  | Some (hl, w) =>
      if gc_link lastgc =? gc_link gc then (buf, has_link)
      else
        match hyperlinks_get hl (gc_link gc) w with
        | Some hlu =>
            let '(added, buf) := grid_string_cells_add_hyperlink len buf (hlu_internal_id hlu)
                                   (hlu_uri hlu) flags in (buf, added)
        | None =>
            if has_link then (snd (grid_string_cells_add_hyperlink len buf [] [] flags), false)
            else (buf, has_link)
        end
  | None => (buf, has_link)
  end.

Section Cells.
Context `{CellCodec} `{Locale}.

(** The bytes of a cell. *)
Definition cell_bytes (flags : Z) (gc : grid_cell) : list Z :=
  if has (gc_flags gc) GRID_FLAG_TAB then [9]
  else
    let data := take (Z.to_nat (ud_size (gc_data gc))) (ud_data (gc_data gc)) in
    if has flags GRID_STRING_ESCAPE_SEQUENCES && (ud_size (gc_data gc) =? 1) &&
       (nth 0 (ud_data (gc_data gc)) 0 =? 92)
    then [92; 92] else data.

(** What the loop over the columns keeps: the bytes so far, the buffer of the
    code, the last cell written if the caller keeps one, and whether a hyperlink
    is open. *)
Record string_state := SS {
  ss_buf : list Z;
  ss_code : list Z;
  ss_last : option grid_cell;
  ss_link : bool
}.

(** One column. *)
Definition string_cell (gd : grid) (py flags : Z) (sc : option (Z * links)) (st : string_state)
    (xx : Z) : string_state :=
  let gc := grid_get_cell gd xx py in
  let '(SS buf code last has_link) := st in
  if has (gc_flags gc) GRID_FLAG_PADDING then st
  else
    match last with
    | Some lastgc =>
        if has flags GRID_STRING_WITH_SEQUENCES then
          let '(code, has_link) := grid_string_cells_code lastgc gc code_len flags sc has_link in
          SS (buf ++ code ++ cell_bytes flags gc) code (Some gc) has_link
        else SS (buf ++ cell_bytes flags gc) code last has_link
    | None => SS (buf ++ cell_bytes flags gc) code last has_link
    end.

Fixpoint trim_spaces (reversed : list Z) : list Z :=
  match reversed with
  | 32 :: reversed => trim_spaces reversed
  | _ => reversed
  end.

(** [lastgc] is NULL ([None]) or points to a pointer, NULL ([Some None]) before
    the first cell: then it is the default cell.  The end of an open hyperlink
    is added to the code of the last cell, which is written again with it. *)
Definition grid_string_cells (gd : grid) (px py nx : Z) (lastgc : option (option grid_cell))
    (flags : Z) (sc : option (Z * links)) : list Z * option (option grid_cell) :=
  let last := default grid_default_cell <$> lastgc in
  match grid_peek_line gd py with
  | None => ([], Some <$> last)
  | Some gl =>
      let end_ := if has flags GRID_STRING_EMPTY_CELLS then cellsize gl else cellused gl in
      let '(SS buf code last has_link) :=
        foldl (string_cell gd py flags sc) (SS [] [] last false)
          (seqZ px (Z.min (u32 (px + nx)) end_ - px)) in
      let buf := if has_link
                 then buf ++ snd (grid_string_cells_add_hyperlink code_len code [] [] flags)
                 else buf in
      let buf := if has flags GRID_STRING_TRIM_SPACES then rev (trim_spaces (rev buf)) else buf in
      (buf, Some <$> last)
  end.

Definition grid_view_string_cells (gd : grid) (px py nx : Z) : list Z :=
  fst (grid_string_cells gd px (u32 (hsize gd + py)) nx None 0 None).

(** ** Sets of characters *)

(** The column of the first cell of the character at [px]: the loop over
    [--pxx] ends at column 0, or outside the line, where a cell is no padding. *)
Fixpoint before_padding (fuel : nat) (gd : grid) (pxx py : Z) : Z :=
  match fuel with
  | O => pxx
  | S fuel =>
      let pxx := u32 (pxx - 1) in
      if (0 <? pxx) && has (gc_flags (grid_get_cell gd pxx py)) GRID_FLAG_PADDING
      then before_padding fuel gd pxx py else pxx
  end.

(** The columns a tab has left, 1 when the character is in the set and 0. *)
Definition grid_in_set (gd : grid) (px py : Z) (set : list Z) : option Z :=
  let gc := grid_get_cell gd px py in
  let padding := has (gc_flags gc) GRID_FLAG_PADDING in
  let in_set := if padding then Some 0
                else has ← utf8_cstrhas loc_mbtowc loc_wcwidth loc_widths set (gc_data gc); Some (if (has : bool) then 1 else 0) in
  if bool_decide (9 ∈ set) then
    if padding then
      let pxx := before_padding (S (Z.to_nat px)) gd px py in
      let tmp_gc := grid_get_cell gd pxx py in
      if has (gc_flags tmp_gc) GRID_FLAG_TAB
      then Some (u32 (ud_width (gc_data tmp_gc) - (px - pxx))) else in_set
    else if has (gc_flags gc) GRID_FLAG_TAB then Some (ud_width (gc_data gc)) else in_set
  else in_set.

End Cells.
