(* ===== verification/GridReader.v ===== *)
(** * Moving over a grid (src/tmux/screen/grid-reader.c)

    The cursor of copy mode: it moves by cells, lines and words, and jumps to
    characters.  [None] is a read outside the lines of the grid, or a loop that
    does not end. *)
From S2P Require Import Prelude.
From S2P Require Import Utf8.
From S2P Require Import CellCodec.
From S2P Require Import Locale.
From S2P Require Import Grid.
From S2P Require Import GridString.

Record grid_reader := GR { gr_gd : grid; gr_cx : Z; gr_cy : Z }.

Definition set_cx (x : Z) (gr : grid_reader) : grid_reader := GR (gr_gd gr) x (gr_cy gr).
Definition set_cy (y : Z) (gr : grid_reader) : grid_reader := GR (gr_gd gr) (gr_cx gr) y.

Definition WHITESPACE : list Z := [9; 32].

Section Reader.
Context `{CellCodec} `{Locale}.

Definition grid_reader_start (gd : grid) (cx cy : Z) : grid_reader := GR gd cx cy.
Definition grid_reader_get_cursor (gr : grid_reader) : Z * Z := (gr_cx gr, gr_cy gr).

(** [gd->hsize + gd->sy - 1]. *)
Definition last_row (gd : grid) : Z := u32 (hsize gd + g_sy gd - 1).

(** [grid_get_line] and [grid_line_length], which read the line. *)
Definition row (gd : grid) (y : Z) : option grid_line := linedata gd !! Z.to_nat y.
Definition row_wrapped (gd : grid) (y : Z) : option bool :=
  gl ← row gd y; Some (has (gl_flags gl) GRID_LINE_WRAPPED).
Definition row_length (gd : grid) (y : Z) : option Z :=
  gl ← row gd y; Some (grid_line_length gd y).

Definition grid_reader_line_length (gr : grid_reader) : option Z := row_length (gr_gd gr) (gr_cy gr).

Definition padding_at (gd : grid) (x y : Z) : bool := has (gc_flags (grid_get_cell gd x y)) GRID_FLAG_PADDING.

(** Back over padding, as far as column 0. *)
Fixpoint back_padding (gd : grid) (y : Z) (x : nat) : nat :=
  match x with
  | O => O
  | S x' => if padding_at gd (Z.of_nat x) y then back_padding gd y x' else x
  end.
Definition off_padding (gr : grid_reader) : grid_reader :=
  set_cx (Z.of_nat (back_padding (gr_gd gr) (gr_cy gr) (Z.to_nat (gr_cx gr)))) gr.

(** Forward over padding, as far as column [px]. *)
Fixpoint forward_padding (fuel : nat) (gd : grid) (y px x : Z) : Z :=
  match fuel with
  | O => x
  | S fuel => if (x <? px) && padding_at gd x y then forward_padding fuel gd y px (x + 1) else x
  end.

Definition grid_reader_cursor_down (gr : grid_reader) : grid_reader :=
  off_padding (if gr_cy gr <? last_row (gr_gd gr) then set_cy (gr_cy gr + 1) gr else gr).

Definition grid_reader_cursor_up (gr : grid_reader) : grid_reader :=
  off_padding (if 0 <? gr_cy gr then set_cy (gr_cy gr - 1) gr else gr).

(** The first line of the wrapped lines that end at line [y]. *)
Fixpoint wrap_start (gd : grid) (y : nat) : option nat :=
  match y with
  | O => Some O
  | S y' => w ← row_wrapped gd (Z.of_nat y'); if (w : bool) then wrap_start gd y' else Some y
  end.

Definition grid_reader_cursor_start_of_line (gr : grid_reader) (wrap : bool) : option grid_reader :=
  cy ← (if wrap then Z.of_nat <$> wrap_start (gr_gd gr) (Z.to_nat (gr_cy gr)) else Some (gr_cy gr));
  Some (GR (gr_gd gr) 0 cy).

(** The last line of the wrapped lines that start at line [y]. *)
Definition wrap_end (gd : grid) (y : Z) : option Z :=
  iterate (S (Z.to_nat (last_row gd - y))) (fun y =>
    if y <? last_row gd then
      w ← row_wrapped gd y; Some (if (w : bool) then inl (y + 1) else inr y)
    else Some (inr y)) y.

Definition grid_reader_cursor_end_of_line (gr : grid_reader) (wrap all : bool) : option grid_reader :=
  cy ← (if wrap then wrap_end (gr_gd gr) (gr_cy gr) else Some (gr_cy gr));
  let gr := set_cy cy gr in
  cx ← (if all then Some (g_sx (gr_gd gr)) else grid_reader_line_length gr);
  Some (set_cx cx gr).

Definition grid_reader_cursor_right (gr : grid_reader) (wrap all onemore : bool) : option grid_reader :=
  let gd := gr_gd gr in
  px ← (if all then Some (g_sx gd)
        else n ← grid_reader_line_length gr;
             Some (if onemore then n else if n =? 0 then n else n - 1));
  if wrap && (px <=? gr_cx gr) && (gr_cy gr <? last_row gd) then
    gr ← grid_reader_cursor_start_of_line gr false; Some (grid_reader_cursor_down gr)
  else if gr_cx gr <? px then
    Some (set_cx (forward_padding (Z.to_nat (px - gr_cx gr)) gd (gr_cy gr) px (gr_cx gr + 1)) gr)
  else Some gr.

Definition grid_reader_cursor_left (gr : grid_reader) (wrap : bool) : option grid_reader :=
  let gr := off_padding gr in
  up ← (if (gr_cx gr =? 0) && (0 <? gr_cy gr)
        then w ← row_wrapped (gr_gd gr) (gr_cy gr - 1); Some (wrap || (w : bool)) else Some false);
  if (up : bool) then grid_reader_cursor_end_of_line (grid_reader_cursor_up gr) false false
  else if 0 <? gr_cx gr then Some (set_cx (gr_cx gr - 1) gr) else Some gr.

(** ** Words *)

(** Words are not broken at the end of a wrapped line: the last column there,
    the length of the line elsewhere. *)
Definition row_limit (gd : grid) (y : Z) : option Z :=
  w ← row_wrapped gd y; if (w : bool) then Some (u32 (g_sx gd - 1)) else row_length gd y.

(** The result, the reader and [xx]. *)
Definition grid_reader_handle_wrap (gr : grid_reader) (xx yy : Z) : option (bool * grid_reader * Z) :=
  iterate (S (S (Z.to_nat (yy - gr_cy gr)))) (fun '(gr, xx) =>
    if xx <? gr_cx gr then
      if gr_cy gr =? yy then Some (inr (false, gr, xx))
      else
        gr ← grid_reader_cursor_start_of_line gr false;
        let gr := grid_reader_cursor_down gr in
        xx ← row_limit (gr_gd gr) (gr_cy gr); Some (inl (gr, xx))
    else Some (inr (true, gr, xx))) (gr, xx).

Definition grid_reader_in_set (gr : grid_reader) (set : list Z) : option Z :=
  grid_in_set (gr_gd gr) (gr_cx gr) (gr_cy gr) set.

(** More turns than there are places to visit. *)
Definition reader_fuel (gr : grid_reader) : nat :=
  Z.to_nat ((Z.max 0 (last_row (gr_gd gr)) + 2) * (g_sx (gr_gd gr) + gr_cx gr + 3)).

(** [do gr->cx++; while (handle_wrap && cond)]. *)
Definition skip_while (cond : grid_reader -> option bool) (yy : Z) (gr : grid_reader) (xx : Z) :
    option (grid_reader * Z) :=
  iterate (reader_fuel gr) (fun '(gr, xx) =>
    r ← grid_reader_handle_wrap (set_cx (u32 (gr_cx gr + 1)) gr) xx yy;
    let '(more, gr, xx) := r in
    if (more : bool) then c ← cond gr; Some (if (c : bool) then inl (gr, xx) else inr (gr, xx))
    else Some (inr (gr, xx))) (gr, xx).

(** The conditions, with the calls in the order of the code. *)
Definition in_set_b (gr : grid_reader) (set : list Z) : option bool :=
  n ← grid_reader_in_set gr set; Some (negb (n =? 0)).
Definition in_separators (separators : list Z) (gr : grid_reader) : option bool :=
  s ← in_set_b gr separators;
  if (s : bool) then w ← in_set_b gr WHITESPACE; Some (negb w) else Some false.
Definition in_letters (separators : list Z) (gr : grid_reader) : option bool :=
  s ← in_set_b gr separators;
  if (s : bool) then Some false else w ← in_set_b gr WHITESPACE; Some (negb w).
Definition in_letters_end (separators : list Z) (gr : grid_reader) : option bool :=
  w ← in_set_b gr WHITESPACE;
  if (w : bool) then Some false else s ← in_set_b gr separators; Some (negb s).

(** [while (handle_wrap && (width = in_set (WHITESPACE))) gr->cx += width]. *)
Definition skip_white (yy : Z) (gr : grid_reader) (xx : Z) : option grid_reader :=
  iterate (reader_fuel gr) (fun '(gr, xx) =>
    r ← grid_reader_handle_wrap gr xx yy;
    let '(more, gr, xx) := r in
    if (more : bool) then
      width ← grid_reader_in_set gr WHITESPACE;
      Some (if width =? 0 then inr gr else inl (set_cx (u32 (gr_cx gr + width)) gr, xx))
    else Some (inr gr)) (gr, xx).

Definition grid_reader_cursor_next_word (gr : grid_reader) (separators : list Z) : option grid_reader :=
  xx ← row_limit (gr_gd gr) (gr_cy gr);
  let yy := last_row (gr_gd gr) in
  r ← grid_reader_handle_wrap gr xx yy;
  let '(more, gr, xx) := r in
  if negb more then Some gr
  else
    white ← in_set_b gr WHITESPACE;
    r ← (if negb white then
           s ← in_set_b gr separators;
           if (s : bool) then skip_while (in_separators separators) yy gr xx
           else skip_while (in_letters separators) yy gr xx
         else Some (gr, xx));
    let '(gr, xx) := r in skip_white yy gr xx.

Definition grid_reader_cursor_next_word_end (gr : grid_reader) (separators : list Z) :
    option grid_reader :=
  xx ← row_limit (gr_gd gr) (gr_cy gr);
  let yy := last_row (gr_gd gr) in
  iterate (reader_fuel gr) (fun '(gr, xx) =>
    r ← grid_reader_handle_wrap gr xx yy;
    let '(more, gr, xx) := r in
    if negb more then Some (inr gr)
    else
      white ← in_set_b gr WHITESPACE;
      if (white : bool) then Some (inl (set_cx (u32 (gr_cx gr + 1)) gr, xx))
      else
        s ← in_set_b gr separators;
        r ← (if (s : bool) then skip_while (in_separators separators) yy gr xx
             else skip_while (in_letters_end separators) yy gr xx);
        Some (inr (fst r))) (gr, xx).

(** Back to a character of a word, with [word_is_letters] there, or with [None]
    to the start of the grid. *)
Definition back_to_word (separators : list Z) (stop_at_eol : bool) (gr : grid_reader) :
    option (grid_reader * option Z) :=
  iterate (reader_fuel gr) (fun gr =>
    if 0 <? gr_cx gr then
      let gr := set_cx (gr_cx gr - 1) gr in
      white ← in_set_b gr WHITESPACE;
      if (white : bool) then Some (inl gr)
      else s ← in_set_b gr separators; Some (inr (gr, Some (if (s : bool) then 0 else 1)))
    else if gr_cy gr =? 0 then Some (inr (gr, None))
    else
      gr ← grid_reader_cursor_end_of_line (grid_reader_cursor_up gr) false false;
      if stop_at_eol && (0 <? gr_cx gr) then
        at_eol ← in_set_b (set_cx (gr_cx gr - 1) gr) WHITESPACE;
        Some (if (at_eol : bool) then inr (gr, Some 0) else inl gr)
      else Some (inl gr)) gr.

(** Back to the first place of the word: the last one that was in it. *)
Definition back_in_word (separators : list Z) (word_is_letters : Z) (gr : grid_reader) :
    option grid_reader :=
  iterate (reader_fuel gr) (fun gr =>
    let old := gr in
    start ← (if gr_cx gr =? 0 then
               if gr_cy gr =? 0 then Some None
               else
                 w ← row_wrapped (gr_gd gr) (gr_cy gr - 1);
                 if negb w then Some None
                 else Some <$> grid_reader_cursor_end_of_line (grid_reader_cursor_up gr) false true
             else Some (Some gr));
    match start with
    | None => Some (inr old)
    | Some gr =>
        let gr := if 0 <? gr_cx gr then set_cx (gr_cx gr - 1) gr else gr in
        white ← in_set_b gr WHITESPACE;
        if (white : bool) then Some (inr old)
        else
          s ← grid_reader_in_set gr separators;
          Some (if word_is_letters =? s then inr old else inl gr)
    end) gr.

Definition grid_reader_cursor_previous_word (gr : grid_reader) (separators : list Z)
    (already stop_at_eol : bool) : option grid_reader :=
  back ← (if already then Some true else in_set_b gr WHITESPACE);
  if (back : bool) then
    r ← back_to_word separators stop_at_eol gr;
    match r with
    | (gr, Some word_is_letters) => back_in_word separators word_is_letters gr
    | (gr, None) => Some gr
    end
  else
    s ← in_set_b gr separators; back_in_word separators (if (s : bool) then 0 else 1) gr.

(** ** Characters *)

Definition grid_reader_cell_equals_data (gc : grid_cell) (ud : utf8_data) : bool :=
  if has (gc_flags gc) GRID_FLAG_PADDING then false
  else if has (gc_flags gc) GRID_FLAG_TAB && (ud_size ud =? 1) && (nth 0 (ud_data ud) 0 =? 9) then true
  else (ud_size (gc_data gc) =? ud_size ud) &&
       bool_decide (ud_bytes (gc_data gc) = take (Z.to_nat (ud_size (gc_data gc))) (ud_data ud)).

Definition jump_in_row (gd : grid) (jc : utf8_data) (py : Z) (columns : list Z) : option Z :=
  find (fun px => grid_reader_cell_equals_data (grid_get_cell gd px py) jc) columns.

(** The result and the reader. *)
Definition grid_reader_cursor_jump (gr : grid_reader) (jc : utf8_data) : option (bool * grid_reader) :=
  let gd := gr_gd gr in
  let yy := last_row gd in
  iterate (S (S (Z.to_nat (yy - gr_cy gr)))) (fun '(px, py) =>
    if yy <? py then Some (inr (false, gr))
    else
      xx ← row_length gd py;
      match jump_in_row gd jc py (seqZ px (xx - px)) with
      | Some px => Some (inr (true, GR gd px py))
      | None =>
          if py =? yy then Some (inr (false, gr))
          else w ← row_wrapped gd py;
               Some (if (w : bool) then inl (0, py + 1) else inr (false, gr))
      end) (gr_cx gr, gr_cy gr).

Definition grid_reader_cursor_jump_back (gr : grid_reader) (jc : utf8_data) :
    option (bool * grid_reader) :=
  let gd := gr_gd gr in
  iterate (S (S (Z.to_nat (gr_cy gr)))) (fun '(xx, py) =>
    if py =? 0 then Some (inr (false, gr))
    else
      match jump_in_row gd jc (py - 1) (reverse (seqZ 0 xx)) with
      | Some px => Some (inr (true, GR gd px (py - 1)))
      | None =>
          if py =? 1 then Some (inr (false, gr))
          else
            w ← row_wrapped gd (py - 2);
            if negb w then Some (inr (false, gr))
            else xx ← row_length gd (py - 2); Some (inl (xx, py - 1))
      end) (u32 (gr_cx gr + 1), u32 (gr_cy gr + 1)).

Definition not_blank (gc : grid_cell) : bool :=
  (negb (ud_size (gc_data gc) =? 1) || negb (nth 0 (ud_data (gc_data gc)) 0 =? 32)) &&
  negb (has (gc_flags gc) GRID_FLAG_TAB) && negb (has (gc_flags gc) GRID_FLAG_PADDING).

Definition grid_reader_cursor_back_to_indentation (gr : grid_reader) : option grid_reader :=
  let gd := gr_gd gr in
  let yy := last_row gd in
  start ← grid_reader_cursor_start_of_line gr true;
  iterate (S (S (Z.to_nat (yy - gr_cy start)))) (fun py =>
    if yy <? py then Some (inr gr)
    else
      xx ← row_length gd py;
      match find (fun px => not_blank (grid_get_cell gd px py)) (seqZ 0 xx) with
      | Some px => Some (inr (GR gd px py))
      | None => w ← row_wrapped gd py; Some (if negb w then inr gr else inl (py + 1))
      end) (gr_cy start).

End Reader.
