(* ===== verification/GridReaderProps.v ===== *)
(** * Properties of moving over a grid

    The word motions find what a reading of the grid in order finds, every
    motion ends on the grid, and a jump finds the nearest character. *)
From Stdlib Require Import ZArith Lia.
From S2P Require Import Prelude.
From S2P Require Import Utf8.
From S2P Require Import Utf8Props.
From S2P Require Import CellCodec.
From S2P Require Import Locale.
From S2P Require Import Grid.
From S2P Require Import GridFacts.
From S2P Require Import GridString.
From S2P Require Import GridReader.

Section Facts.
Context `{CellCodec} `{Locale}.

(** A grid with lines and columns. *)
Record grid_read_ok (gd : grid) : Prop := {
  gr_grid : grid_ok gd;
  gr_rows : 1 <= hsize gd + g_sy gd;
  gr_columns : 1 <= g_sx gd < 4294966996
}.

(** The reader is on a line; a tab can take it past the end of that line. *)
Record reader_ok (gr : grid_reader) : Prop := {
  ro_grid : grid_read_ok (gr_gd gr);
  ro_cx : 0 <= gr_cx gr <= g_sx (gr_gd gr) + 255;
  ro_cy : 0 <= gr_cy gr <= last_row (gr_gd gr)
}.

(** ** Rows *)

Lemma last_row_eq gd : grid_read_ok gd -> last_row gd = hsize gd + g_sy gd - 1.
Proof. intros [[] ? ?]. unfold last_row. apply u32_small. lia. Qed.

Lemma row_some gd y : grid_read_ok gd -> 0 <= y <= last_row gd -> exists gl, row gd y = Some gl.
Proof.
  intros Hg Hy. rewrite last_row_eq in Hy by done. destruct Hg as [[] ? ?].
  apply lookup_lt_is_Some_2. lia.
Qed.

Lemma line_length_bound gd y : 0 <= g_sx gd -> 0 <= grid_line_length gd y <= g_sx gd.
Proof.
  intros Hs. unfold grid_line_length.
  assert (Hb : forall n, 0 <= (fix go (px : nat) : Z :=
     match px with
     | O => 0
     | S px' =>
         let gc := grid_get_cell gd (Z.of_nat px') y in
         if has (gc_flags gc) GRID_FLAG_PADDING || negb (ud_size (gc_data gc) =? 1) ||
            negb (nth 0 (ud_data (gc_data gc)) 0 =? 32)
         then Z.of_nat px else go px'
     end) n <= Z.of_nat n).
  { induction n as [|n IH]; [lia|]. lazy beta iota zeta. lazy beta iota zeta in IH. case_match; lia. }
  specialize (Hb (Z.to_nat (Z.min (cellsize (grid_get_line gd y)) (g_sx gd)))).
  unfold cellsize in *. lia.
Qed.

(** Whether a row wraps, its length and its limit, as total functions. *)
Definition wrapped_at (gd : grid) (y : Z) : bool := default false (row_wrapped gd y).
Definition limit_at (gd : grid) (y : Z) : Z :=
  if wrapped_at gd y then g_sx gd - 1 else grid_line_length gd y.

Lemma row_wrapped_some gd y : grid_read_ok gd -> 0 <= y <= last_row gd ->
  row_wrapped gd y = Some (wrapped_at gd y).
Proof. intros Hg Hy. unfold wrapped_at, row_wrapped. by destruct (row_some gd y Hg Hy) as [gl ->]. Qed.

Lemma row_length_some gd y : grid_read_ok gd -> 0 <= y <= last_row gd ->
  row_length gd y = Some (grid_line_length gd y).
Proof. intros Hg Hy. unfold row_length. by destruct (row_some gd y Hg Hy) as [gl ->]. Qed.

Lemma row_limit_some gd y : grid_read_ok gd -> 0 <= y <= last_row gd ->
  row_limit gd y = Some (limit_at gd y).
Proof.
  intros Hg Hy. unfold row_limit, limit_at. rewrite row_wrapped_some by done. cbn [mbind option_bind].
  destruct (wrapped_at gd y); [|by apply row_length_some].
  destruct Hg. by rewrite u32_small by lia.
Qed.

Lemma limit_bound gd y : grid_read_ok gd -> 0 <= limit_at gd y <= g_sx gd.
Proof.
  intros Hg. unfold limit_at. destruct Hg. destruct (wrapped_at gd y); [lia|].
  apply line_length_bound. lia.
Qed.

(** ** Padding *)

Lemma back_padding_le gd y x : (back_padding gd y x <= x)%nat.
Proof. induction x as [|x IH]; cbn [back_padding]; [lia|]. case_match; lia. Qed.

Lemma off_padding_spec gr : 0 <= gr_cx gr -> exists x, off_padding gr = GR (gr_gd gr) x (gr_cy gr) /\ 0 <= x <= gr_cx gr.
Proof.
  intros Hx. eexists. split; [reflexivity|].
  pose proof (back_padding_le (gr_gd gr) (gr_cy gr) (Z.to_nat (gr_cx gr))). lia.
Qed.

Lemma off_padding_ok gr : reader_ok gr -> reader_ok (off_padding gr) /\ gr_gd (off_padding gr) = gr_gd gr.
Proof.
  intros [Hg Hx Hy]. destruct (off_padding_spec gr) as (x & -> & Hx'); [lia|].
  split; [|done]. split; cbn; [done|lia|done].
Qed.

Lemma off_padding_zero gd y : off_padding (GR gd 0 y) = GR gd 0 y.
Proof. reflexivity. Qed.

Lemma forward_padding_bound fuel gd y px x : x <= px -> x <= forward_padding fuel gd y px x <= px.
Proof.
  revert x; induction fuel as [|fuel IH]; intros x Hx; cbn [forward_padding]; [lia|].
  destruct (Z.ltb_spec x px); cbn [andb]; [|lia]. destruct (padding_at gd x y); [|lia].
  pose proof (IH (x + 1) ltac:(lia)). lia.
Qed.

(** ** The rows of a wrapped line *)

Lemma wrap_start_some gd y : grid_read_ok gd -> Z.of_nat y <= last_row gd ->
  exists n, wrap_start gd y = Some n /\ (n <= y)%nat.
Proof.
  intros Hg. induction y as [|y IH]; intros Hy; cbn [wrap_start]; [by exists 0%nat|].
  rewrite row_wrapped_some by (done || lia). cbn [mbind option_bind].
  destruct (wrapped_at gd (Z.of_nat y)); [|by exists (S y)].
  destruct IH as (n & E & Hn); [lia|]. exists n. split; [done|lia].
Qed.

Lemma wrap_end_some gd y : grid_read_ok gd -> 0 <= y <= last_row gd ->
  exists n, wrap_end gd y = Some n /\ y <= n <= last_row gd.
Proof.
  intros Hg Hy. apply (iterate_ok _ (fun z => y <= z <= last_row gd) (fun n => y <= n <= last_row gd)
    (fun z => Z.to_nat (last_row gd - z))); [|lia|lia].
  intros z Hz. destruct (Z.ltb_spec z (last_row gd)); [|lia].
  rewrite row_wrapped_some by (done || lia). cbn [mbind option_bind].
  destruct (wrapped_at gd z); lia.
Qed.

(** ** Sets of characters *)

Lemma cstrhas_some s ud : is_Some (utf8_cstrhas loc_mbtowc loc_wcwidth loc_widths s ud).
Proof.
  unfold utf8_cstrhas. destruct (fromcstr_back loc_mbtowc loc_wcwidth loc_widths s) as (l & -> & _).
  by eexists.
Qed.

Lemma grid_in_set_some gd x y set : is_Some (grid_in_set gd x y set).
Proof.
  unfold grid_in_set. destruct (cstrhas_some set (gc_data (grid_get_cell gd x y))) as [b ->].
  cbn [mbind option_bind]. cbv zeta. repeat case_match; by eexists.
Qed.

(** How many columns of the set a place has, and whether it has one. *)
Definition columns_at (gd : grid) (set : list Z) (p : Z * Z) : Z :=
  default 0 (grid_in_set gd p.1 p.2 set).
Definition in_set_at (gd : grid) (set : list Z) (p : Z * Z) : bool := negb (columns_at gd set p =? 0).

Lemma reader_in_set_some gr set :
  grid_reader_in_set gr set = Some (columns_at (gr_gd gr) set (gr_cx gr, gr_cy gr)).
Proof.
  unfold grid_reader_in_set, columns_at. cbn [fst snd].
  by destruct (grid_in_set_some (gr_gd gr) (gr_cx gr) (gr_cy gr) set) as [n ->].
Qed.

Lemma in_set_b_some gr set : in_set_b gr set = Some (in_set_at (gr_gd gr) set (gr_cx gr, gr_cy gr)).
Proof. unfold in_set_b. by rewrite reader_in_set_some. Qed.

(** ** The places ahead *)

Definition row_places (gd : grid) (y x : Z) : list (Z * Z) :=
  (fun x => (x, y)) <$> seqZ x (limit_at gd y + 1 - x).

(** The places from column [x] of line [y] to the end of the grid. *)
Definition places_from (gd : grid) (x y : Z) : list (Z * Z) :=
  row_places gd y x ++ flat_map (fun y => row_places gd y 0) (seqZ (y + 1) (last_row gd - y)).

Definition ahead (gr : grid_reader) : list (Z * Z) := places_from (gr_gd gr) (gr_cx gr) (gr_cy gr).

Lemma row_places_nil gd y x : limit_at gd y < x -> row_places gd y x = [].
Proof. intros Hx. unfold row_places. by rewrite seqZ_nil by lia. Qed.

Lemma row_places_cons gd y x : x <= limit_at gd y -> row_places gd y x = (x, y) :: row_places gd y (x + 1).
Proof.
  intros Hx. unfold row_places. rewrite seqZ_cons by lia. cbn [fmap list_fmap].
  do 3 f_equal; lia.
Qed.

Lemma places_cons gd x y : x <= limit_at gd y -> places_from gd x y = (x, y) :: places_from gd (x + 1) y.
Proof. intros Hx. unfold places_from. by rewrite row_places_cons by done. Qed.

Lemma places_next gd x y : limit_at gd y < x -> y < last_row gd -> places_from gd x y = places_from gd 0 (y + 1).
Proof.
  intros Hx Hy. unfold places_from. rewrite row_places_nil by done.
  rewrite (seqZ_cons (y + 1)) by lia. cbn [flat_map app]. do 3 f_equal; lia.
Qed.

Lemma places_end gd x y : limit_at gd y < x -> y = last_row gd -> places_from gd x y = [].
Proof. intros Hx ->. unfold places_from. by rewrite row_places_nil, seqZ_nil by (done || lia). Qed.

(** The reader is at the first of the places ahead, or there are none. *)
Definition at_place (gr : grid_reader) : Prop := gr_cx gr <= limit_at (gr_gd gr) (gr_cy gr).
Definition at_end (gr : grid_reader) : Prop :=
  gr_cy gr = last_row (gr_gd gr) /\ limit_at (gr_gd gr) (gr_cy gr) < gr_cx gr.

Lemma ahead_place gr : at_place gr ->
  ahead gr = (gr_cx gr, gr_cy gr) :: places_from (gr_gd gr) (gr_cx gr + 1) (gr_cy gr).
Proof. apply places_cons. Qed.

Lemma ahead_end gr : at_end gr -> ahead gr = [].
Proof. intros [Hy Hx]. by apply places_end. Qed.

(** *** Handling wraps *)

(** [xx] is kept as the limit of the row; the reader goes to the next place. *)
Lemma handle_wrap_ok gr : reader_ok gr ->
  exists more gr', grid_reader_handle_wrap gr (limit_at (gr_gd gr) (gr_cy gr)) (last_row (gr_gd gr)) =
    Some (more, gr', limit_at (gr_gd gr') (gr_cy gr')) /\
  reader_ok gr' /\ gr_gd gr' = gr_gd gr /\ ahead gr' = ahead gr /\
  (if more then at_place gr' else at_end gr') /\
  (gr' = gr \/ limit_at (gr_gd gr) (gr_cy gr) < gr_cx gr /\ gr_cx gr' = 0 /\ gr_cy gr' = gr_cy gr + 1).
Proof.
  destruct gr as [gd x y]. intros Hok. destruct Hok as [Hg Hx Hy]. cbn [gr_gd gr_cx gr_cy] in *.
  unfold grid_reader_handle_wrap. cbn [iterate gr_cx gr_cy gr_gd].
  destruct (Z.ltb_spec (limit_at gd y) x) as [Hlt|Hge].
  - destruct (Z.eqb_spec y (last_row gd)) as [->|Hne]; cbn [mbind option_bind].
    + exists false, (GR gd x (last_row gd)). split_and!; [done|by constructor|done|done|done|by left].
    + cbn [grid_reader_cursor_start_of_line mbind option_bind gr_gd gr_cy].
      unfold grid_reader_cursor_down. cbn [gr_gd gr_cy gr_cx]. rewrite (proj2 (Z.ltb_lt _ _)) by lia.
      unfold set_cy. cbn [gr_gd gr_cx gr_cy]. rewrite off_padding_zero. cbn [gr_gd gr_cx gr_cy].
      rewrite row_limit_some by (done || lia). cbn [mbind option_bind iterate gr_cx].
      pose proof (limit_bound gd (y + 1) Hg). rewrite (proj2 (Z.ltb_ge _ _)) by lia.
      exists true, (GR gd 0 (y + 1)). split; [done|]. split; [|split; [done|]].
      * destruct Hg. split; cbn; [done|lia|lia].
      * split; [unfold ahead; cbn; symmetry; apply places_next; lia|].
        split; [unfold at_place; cbn; lia|]. right. cbn. lia.
  - cbn [mbind option_bind]. exists true, (GR gd x y). split_and!; [done|by constructor|done|done|done|by left].
Qed.

(** *** Skipping places *)

(** What is left: each step lowers it. *)
Definition to_visit (gr : grid_reader) : Z :=
  (last_row (gr_gd gr) - gr_cy gr) * (g_sx (gr_gd gr) + 2) +
  (g_sx (gr_gd gr) + 1 - Z.min (gr_cx gr) (g_sx (gr_gd gr) + 1)).

Lemma to_visit_nonneg gr : reader_ok gr -> 0 <= to_visit gr.
Proof.
  intros [[] Hx Hy]. unfold to_visit.
  assert (0 <= (last_row (gr_gd gr) - gr_cy gr) * (g_sx (gr_gd gr) + 2)) by (apply Z.mul_nonneg_nonneg; lia).
  lia.
Qed.

Lemma to_visit_fuel gr gr' : reader_ok gr -> gr_gd gr' = gr_gd gr -> 0 <= gr_cx gr' ->
  gr_cy gr <= gr_cy gr' -> (Z.to_nat (to_visit gr') < reader_fuel gr)%nat.
Proof.
  intros [[] Hx Hy] E Hx' Hy'. unfold to_visit, reader_fuel. rewrite E.
  set (L := last_row (gr_gd gr)) in *. set (S := g_sx (gr_gd gr)) in *.
  assert (0 <= Z.min (gr_cx gr') (S + 1)) by lia. set (c := Z.min (gr_cx gr') (S + 1)) in *.
  assert ((L - gr_cy gr') * (S + 2) + (S + 1 - c) < (Z.max 0 L + 2) * (S + gr_cx gr + 3)) by nia.
  assert (0 < (Z.max 0 L + 2) * (S + gr_cx gr + 3)) by (apply Z.mul_pos_pos; lia). lia.
Qed.

(** To the next row, or further in a row. *)
Lemma to_visit_row gr : reader_ok gr -> to_visit (GR (gr_gd gr) 0 (gr_cy gr + 1)) < to_visit gr.
Proof.
  intros [[] Hx Hy]. unfold to_visit. cbn [gr_gd gr_cx gr_cy].
  rewrite Z.sub_add_distr, (Z.mul_sub_distr_r _ 1). lia.
Qed.

Lemma to_visit_column gr x : reader_ok gr -> at_place gr -> gr_cx gr < x -> to_visit (set_cx x gr) < to_visit gr.
Proof.
  intros [Hg _ _] Hp Hx. pose proof (limit_bound (gr_gd gr) (gr_cy gr) Hg). unfold at_place in Hp.
  unfold to_visit. cbn [set_cx gr_gd gr_cx gr_cy]. lia.
Qed.

(** A wrap that is handled goes on. *)
Lemma to_visit_wrap gr gr' : reader_ok gr -> gr_gd gr' = gr_gd gr ->
  gr' = gr \/ limit_at (gr_gd gr) (gr_cy gr) < gr_cx gr /\ gr_cx gr' = 0 /\ gr_cy gr' = gr_cy gr + 1 ->
  to_visit gr' <= to_visit gr /\ gr_cy gr <= gr_cy gr'.
Proof.
  intros Hok E [-> | (_ & Ex & Ey)]; [lia|]. pose proof (to_visit_row gr Hok).
  destruct gr'; cbn in *; subst. lia.
Qed.

(** The place after the one the reader is at. *)
Definition next_column (gr : grid_reader) : grid_reader := set_cx (u32 (gr_cx gr + 1)) gr.

Lemma next_column_ok gr : reader_ok gr -> at_place gr ->
  next_column gr = set_cx (gr_cx gr + 1) gr /\ reader_ok (next_column gr) /\
  limit_at (gr_gd (next_column gr)) (gr_cy (next_column gr)) = limit_at (gr_gd gr) (gr_cy gr) /\
  ahead gr = (gr_cx gr, gr_cy gr) :: ahead (next_column gr).
Proof.
  intros [Hg Hx Hy] Hp. unfold at_place in Hp. pose proof (limit_bound (gr_gd gr) (gr_cy gr) Hg).
  pose proof Hg as [_ _ Hs]. assert (E : next_column gr = set_cx (gr_cx gr + 1) gr)
    by (unfold next_column; by rewrite u32_small by lia).
  rewrite E. split_and!; [done|split; cbn; [done|lia|lia]|done|by apply ahead_place].
Qed.

(** A step to the next place, whether there is one or not. *)
Lemma reader_step_ok gr : reader_ok gr -> at_place gr ->
  exists more gr', grid_reader_handle_wrap (next_column gr) (limit_at (gr_gd gr) (gr_cy gr))
    (last_row (gr_gd gr)) = Some (more, gr', limit_at (gr_gd gr') (gr_cy gr')) /\
  reader_ok gr' /\ gr_gd gr' = gr_gd gr /\ ahead gr' = tail (ahead gr) /\
  (if more then at_place gr' else at_end gr') /\ gr_cy gr <= gr_cy gr' /\
  (Z.to_nat (to_visit gr') < Z.to_nat (to_visit gr))%nat.
Proof.
  intros Hok Hp. destruct (next_column_ok gr Hok Hp) as (E & Hok1 & El & Ea).
  destruct (handle_wrap_ok (next_column gr) Hok1) as (more & gr' & E' & Hok' & Egd & Ea' & Hat & Hmove).
  rewrite El in E'. replace (gr_gd (next_column gr)) with (gr_gd gr) in * by by rewrite E.
  exists more, gr'. rewrite Ea. cbn [tail].
  assert (Egd' : gr_gd gr' = gr_gd (next_column gr)) by (rewrite E; exact Egd).
  destruct (to_visit_wrap (next_column gr) gr' Hok1 Egd' Hmove) as [Hv Hcy].
  assert (Hv1 : to_visit (next_column gr) < to_visit gr) by (rewrite E; apply to_visit_column; [done|done|lia]).
  assert (Hcy1 : gr_cy (next_column gr) = gr_cy gr) by (by rewrite E).
  pose proof (to_visit_nonneg _ Hok'). split_and!; try done; lia.
Qed.

(** What [skip_while] leaves: the places ahead from the first that fails. *)
Lemma skip_while_ok cond c gr : reader_ok gr -> at_place gr ->
  (forall gr', gr_gd gr' = gr_gd gr -> cond gr' = Some (c (gr_cx gr', gr_cy gr'))) ->
  exists gr', skip_while cond (last_row (gr_gd gr)) gr (limit_at (gr_gd gr) (gr_cy gr)) =
    Some (gr', limit_at (gr_gd gr') (gr_cy gr')) /\
  reader_ok gr' /\ gr_gd gr' = gr_gd gr /\ (at_place gr' \/ at_end gr') /\
  ahead gr' = drop_while c (tail (ahead gr)).
Proof.
  intros Hok Hp Hc. set (gd := gr_gd gr) in *.
  destruct (iterate_ok (fun '(gr, xx) =>
    r ← grid_reader_handle_wrap (next_column gr) xx (last_row gd);
    let '(more, gr, xx) := r in
    if (more : bool) then c ← cond gr; Some (if (c : bool) then inl (gr, xx) else inr (gr, xx))
    else Some (inr (gr, xx)))
    (fun '(g, xx) => reader_ok g /\ at_place g /\ gr_gd g = gd /\ xx = limit_at (gr_gd g) (gr_cy g) /\
       drop_while c (tail (ahead g)) = drop_while c (tail (ahead gr)))
    (fun '(g, xx) => reader_ok g /\ (at_place g \/ at_end g) /\ gr_gd g = gd /\
       xx = limit_at (gr_gd g) (gr_cy g) /\ ahead g = drop_while c (tail (ahead gr)))
    (fun '(g, _) => Z.to_nat (to_visit g))) with (fuel := reader_fuel gr) (s := (gr, limit_at gd (gr_cy gr)))
    as ([gr' xx] & E & Hok' & Hat & Egd & -> & Ea).
  - intros [g xx] (Hg & Hgp & Egd & -> & Ed).
    destruct (reader_step_ok g Hg Hgp) as (more & g' & E & Hok' & Egd' & Ea & Hat & _ & Hm).
    rewrite <- Egd, E. cbn [mbind option_bind]. destruct more.
    + rewrite Hc by congruence. cbn [mbind option_bind].
      rewrite <- Ed, <- Ea, (ahead_place g') by done. cbn [drop_while].
      destruct (c (gr_cx g', gr_cy g')); split_and!; try congruence; try done.
      * by rewrite (ahead_place g').
      * by left.
      * by rewrite <- ahead_place.
    + split_and!; [done|by right|congruence|done|].
      rewrite <- Ed, <- Ea. by rewrite ahead_end.
  - split_and!; done.
  - apply to_visit_fuel; [done|done|apply Hok|lia].
  - exists gr'. split_and!; done.
Qed.

(** *** White space *)

(** The columns of a tab are white, so a step over it skips only white. *)
Definition tabs_ok (gd : grid) : Prop := forall x y, 0 <= y <= last_row gd -> 0 <= x <= limit_at gd y ->
  0 <= columns_at gd WHITESPACE (x, y) <= 255 /\
  forall i, 0 <= i < columns_at gd WHITESPACE (x, y) -> x + i <= limit_at gd y ->
    in_set_at gd WHITESPACE (x + i, y) = true.

Lemma places_past gd x y : 0 <= y <= last_row gd -> limit_at gd y < x ->
  places_from gd x y = places_from gd (x + 1) y.
Proof.
  intros Hy Hx. destruct (Z.lt_ge_cases y (last_row gd)).
  - by rewrite !(places_next gd _ y) by lia.
  - by rewrite !(places_end gd _ y) by lia.
Qed.

Lemma drop_white_columns gd x y n : 0 <= y <= last_row gd ->
  (forall i, 0 <= i < Z.of_nat n -> x + i <= limit_at gd y -> in_set_at gd WHITESPACE (x + i, y) = true) ->
  drop_while (in_set_at gd WHITESPACE) (places_from gd x y) =
  drop_while (in_set_at gd WHITESPACE) (places_from gd (x + Z.of_nat n) y).
Proof.
  intros Hy. revert x. induction n as [|n IH]; intros x Hw; [by rewrite Z.add_0_r|].
  replace (x + Z.of_nat (S n)) with (x + 1 + Z.of_nat n) by lia. rewrite <- IH.
  - destruct (Z.lt_ge_cases (limit_at gd y) x); [by rewrite places_past|].
    rewrite (places_cons gd x) by done. cbn [drop_while].
    by rewrite <- (Z.add_0_r x) at 1; rewrite (Hw 0) by lia.
  - intros i Hi Hl. replace (x + 1 + i) with (x + (1 + i)) in * by lia. apply Hw; lia.
Qed.

Lemma skip_white_ok gr : reader_ok gr -> tabs_ok (gr_gd gr) ->
  exists gr', skip_white (last_row (gr_gd gr)) gr (limit_at (gr_gd gr) (gr_cy gr)) = Some gr' /\
  reader_ok gr' /\ gr_gd gr' = gr_gd gr /\ (at_place gr' \/ at_end gr') /\
  ahead gr' = drop_while (in_set_at (gr_gd gr) WHITESPACE) (ahead gr).
Proof.
  intros Hok Ht. set (gd := gr_gd gr) in *. set (white := in_set_at gd WHITESPACE).
  destruct (iterate_ok (fun '(gr, xx) =>
    r ← grid_reader_handle_wrap gr xx (last_row gd);
    let '(more, gr, xx) := r in
    if (more : bool) then
      width ← grid_reader_in_set gr WHITESPACE;
      Some (if width =? 0 then inr gr else inl (set_cx (u32 (gr_cx gr + width)) gr, xx))
    else Some (inr gr))
    (fun '(g, xx) => reader_ok g /\ gr_gd g = gd /\ xx = limit_at (gr_gd g) (gr_cy g) /\
       drop_while white (ahead g) = drop_while white (ahead gr))
    (fun g => reader_ok g /\ gr_gd g = gd /\ (at_place g \/ at_end g) /\
       ahead g = drop_while white (ahead gr))
    (fun '(g, _) => Z.to_nat (to_visit g))) with (fuel := reader_fuel gr) (s := (gr, limit_at gd (gr_cy gr)))
    as (gr' & E & Hok' & Egd & Hat & Ea).
  - intros [g xx] (Hg & Egd & -> & Ed).
    destruct (handle_wrap_ok g Hg) as (more & g' & E & Hok' & Egd' & Ea & Hat & Hmove).
    destruct (to_visit_wrap g g' Hg Egd' Hmove) as [Hv _].
    rewrite <- Egd, E. cbn [mbind option_bind]. rewrite <- Ea in Ed. destruct more.
    2: { split_and!; [done|congruence|by right|]. rewrite <- Ed. by rewrite ahead_end. }
    rewrite reader_in_set_some. cbn [mbind option_bind].
    pose proof Hok' as [Hg' Hx Hy]. pose proof Hat as Hp. unfold at_place in Hp.
    pose proof (limit_bound _ (gr_cy g') Hg'). pose proof Hg' as [_ _ Hs].
    assert (Ht' : tabs_ok (gr_gd g')) by (rewrite Egd', Egd; exact Ht).
    destruct (Ht' (gr_cx g') (gr_cy g') Hy ltac:(lia)) as [Hw Hi].
    assert (Ewhite : white = in_set_at (gr_gd g') WHITESPACE) by (unfold white; by rewrite Egd', Egd).
    destruct (Z.eqb_spec (columns_at (gr_gd g') WHITESPACE (gr_cx g', gr_cy g')) 0) as [E0|Hne].
    + split_and!; [done|congruence|by left|]. rewrite <- Ed, (ahead_place g') by done. cbn [drop_while].
      rewrite Ewhite. unfold in_set_at at 1. by rewrite E0.
    + set (w := columns_at (gr_gd g') WHITESPACE (gr_cx g', gr_cy g')) in *.
      rewrite u32_small by lia. split_and!.
      * split; cbn; [done|lia|done].
      * cbn. congruence.
      * done.
      * rewrite <- Ed, Ewhite. unfold ahead. cbn [set_cx gr_gd gr_cx gr_cy]. symmetry.
        replace w with (Z.of_nat (Z.to_nat w)) by lia. apply drop_white_columns; [done|].
        intros i Hi' Hl. apply Hi; lia.
      * pose proof (to_visit_column g' (gr_cx g' + w) Hok' Hat ltac:(lia)).
        pose proof (to_visit_nonneg (set_cx (gr_cx g' + w) g')) as Hn.
        assert (Hok1 : reader_ok (set_cx (gr_cx g' + w) g')) by (split; cbn; [done|lia|done]).
        specialize (Hn Hok1). lia.
  - done.
  - apply to_visit_fuel; [done|done|apply Hok|lia].
  - exists gr'. split_and!; done.
Qed.
End Facts.

(** ** Properties *)

Section Props.
Context `{CellCodec} `{Locale}.

(** ** Words *)

(** The places of the word that starts at [p]: of the same kind, separators or
    letters; a blank starts none. *)
Definition same_word (gd : grid) (separators : list Z) (p q : Z * Z) : bool :=
  if in_set_at gd WHITESPACE p then false
  else if in_set_at gd separators p then in_set_at gd separators q && negb (in_set_at gd WHITESPACE q)
  else negb (in_set_at gd separators q || in_set_at gd WHITESPACE q).

Definition after_word (gd : grid) (separators : list Z) (l : list (Z * Z)) : list (Z * Z) :=
  match l with [] => [] | p :: _ => drop_while (same_word gd separators p) l end.

Definition after_white (gd : grid) : list (Z * Z) -> list (Z * Z) := drop_while (in_set_at gd WHITESPACE).

Lemma in_separators_some gr separators : in_separators separators gr =
  Some (in_set_at (gr_gd gr) separators (gr_cx gr, gr_cy gr) &&
        negb (in_set_at (gr_gd gr) WHITESPACE (gr_cx gr, gr_cy gr))).
Proof. unfold in_separators. rewrite !in_set_b_some. cbn [mbind option_bind]. by case_match. Qed.

Lemma in_letters_some gr separators : in_letters separators gr =
  Some (negb (in_set_at (gr_gd gr) separators (gr_cx gr, gr_cy gr) ||
              in_set_at (gr_gd gr) WHITESPACE (gr_cx gr, gr_cy gr))).
Proof. unfold in_letters. rewrite !in_set_b_some. cbn [mbind option_bind]. by case_match. Qed.

Lemma in_letters_end_some gr separators : in_letters_end separators gr =
  Some (negb (in_set_at (gr_gd gr) separators (gr_cx gr, gr_cy gr) ||
              in_set_at (gr_gd gr) WHITESPACE (gr_cx gr, gr_cy gr))).
Proof.
  unfold in_letters_end. rewrite !in_set_b_some. cbn [mbind option_bind].
  case_match; [by rewrite orb_true_r|by rewrite orb_false_r].
Qed.

(** Over a word that is not blank, as both motions do it. *)
Lemma skip_word_ok gr separators letters : reader_ok gr -> at_place gr ->
  in_set_at (gr_gd gr) WHITESPACE (gr_cx gr, gr_cy gr) = false ->
  (forall g, letters g = Some (negb (in_set_at (gr_gd g) separators (gr_cx g, gr_cy g) ||
                                     in_set_at (gr_gd g) WHITESPACE (gr_cx g, gr_cy g)))) ->
  exists gr',
    (if in_set_at (gr_gd gr) separators (gr_cx gr, gr_cy gr)
     then skip_while (in_separators separators) (last_row (gr_gd gr)) gr (limit_at (gr_gd gr) (gr_cy gr))
     else skip_while letters (last_row (gr_gd gr)) gr (limit_at (gr_gd gr) (gr_cy gr))) =
      Some (gr', limit_at (gr_gd gr') (gr_cy gr')) /\
    reader_ok gr' /\ gr_gd gr' = gr_gd gr /\ (at_place gr' \/ at_end gr') /\
    ahead gr' = after_word (gr_gd gr) separators (ahead gr).
Proof.
  intros Hok Hp Hw Hl.
  assert (Hword : forall c, (forall q, c q = same_word (gr_gd gr) separators (gr_cx gr, gr_cy gr) q) ->
    drop_while c (tail (ahead gr)) = after_word (gr_gd gr) separators (ahead gr)).
  { intros c Hc. rewrite (ahead_place gr Hp). cbn [tail after_word drop_while].
    assert (same_word (gr_gd gr) separators (gr_cx gr, gr_cy gr) (gr_cx gr, gr_cy gr) = true) as ->.
    { unfold same_word. rewrite Hw. by destruct (in_set_at (gr_gd gr) separators _). }
    generalize (places_from (gr_gd gr) (gr_cx gr + 1) (gr_cy gr)). intros l.
    induction l as [|q l IH]; cbn [drop_while]; [done|]. rewrite Hc. by case_match. }
  destruct (in_set_at (gr_gd gr) separators (gr_cx gr, gr_cy gr)) eqn:Es.
  - destruct (skip_while_ok (in_separators separators)
      (fun q => in_set_at (gr_gd gr) separators q && negb (in_set_at (gr_gd gr) WHITESPACE q)) gr Hok Hp)
      as (gr' & E & Hok' & Egd & Hat & Ea).
    { intros g Eg. by rewrite in_separators_some, Eg. }
    exists gr'. split_and!; try done. rewrite Ea. apply Hword. intros q. unfold same_word. by rewrite Hw, Es.
  - destruct (skip_while_ok letters
      (fun q => negb (in_set_at (gr_gd gr) separators q || in_set_at (gr_gd gr) WHITESPACE q)) gr Hok Hp)
      as (gr' & E & Hok' & Egd & Hat & Ea).
    { intros g Eg. by rewrite Hl, Eg. }
    exists gr'. split_and!; try done. rewrite Ea. apply Hword. intros q. unfold same_word. by rewrite Hw, Es.
Qed.

(** A blank starts no word. *)
Lemma after_word_white gd separators p l : in_set_at gd WHITESPACE p = true ->
  after_word gd separators (p :: l) = p :: l.
Proof. intros Hw. cbn [after_word drop_while]. unfold same_word at 1. by rewrite Hw. Qed.

Lemma next_word_ok gr separators : reader_ok gr -> tabs_ok (gr_gd gr) ->
  exists gr', grid_reader_cursor_next_word gr separators = Some gr' /\
  reader_ok gr' /\ gr_gd gr' = gr_gd gr /\ (at_place gr' \/ at_end gr') /\
  ahead gr' = after_white (gr_gd gr) (after_word (gr_gd gr) separators (ahead gr)).
Proof.
  intros Hok Ht. unfold grid_reader_cursor_next_word.
  rewrite row_limit_some by apply Hok. cbn [mbind option_bind]. cbv zeta.
  destruct (handle_wrap_ok gr Hok) as (more & g & E & Hok' & Egd & Ea & Hat & _).
  rewrite E. cbn [mbind option_bind]. destruct more; cbn [negb].
  2: { exists g. split_and!; [done|done|done|by right|]. rewrite <- Ea, (ahead_end g) by done. done. }
  rewrite !in_set_b_some. cbn [mbind option_bind]. rewrite <- Ea.
  assert (Hskip : forall g', reader_ok g' -> gr_gd g' = gr_gd g ->
    ahead g' = after_word (gr_gd g) separators (ahead g) ->
    exists gr', skip_white (last_row (gr_gd gr)) g' (limit_at (gr_gd g') (gr_cy g')) = Some gr' /\
    reader_ok gr' /\ gr_gd gr' = gr_gd gr /\ (at_place gr' \/ at_end gr') /\
    ahead gr' = after_white (gr_gd gr) (after_word (gr_gd gr) separators (ahead g))).
  { intros g' Hg' Eg' Eahead. destruct (skip_white_ok g' Hg') as (gr' & Es & Hr & Egr & Hat' & Ea').
    { by rewrite Eg', Egd. }
    rewrite Eg', Egd in *. rewrite Es. exists gr'. split_and!; try done. by rewrite Ea', Eahead. }
  destruct (in_set_at (gr_gd g) WHITESPACE (gr_cx g, gr_cy g)) eqn:Ew; cbn [negb].
  - cbn [mbind option_bind]. apply Hskip; [done|done|]. rewrite (ahead_place g Hat).
    by rewrite after_word_white.
  - destruct (skip_word_ok g separators (in_letters separators) Hok' Hat Ew) as (g' & Es & Hg' & Eg' & _ & Ea').
    { intros. apply in_letters_some. }
    rewrite Egd in Es. rewrite Egd, Es. cbn [mbind option_bind]. by apply Hskip.
Qed.

(** To the end of a word: over blanks, then over the word. *)
Lemma next_word_end_ok gr separators : reader_ok gr ->
  exists gr', grid_reader_cursor_next_word_end gr separators = Some gr' /\
  reader_ok gr' /\ gr_gd gr' = gr_gd gr /\ (at_place gr' \/ at_end gr') /\
  ahead gr' = after_word (gr_gd gr) separators (after_white (gr_gd gr) (ahead gr)).
Proof.
  intros Hok. unfold grid_reader_cursor_next_word_end.
  rewrite row_limit_some by apply Hok. cbn [mbind option_bind]. cbv zeta. set (gd := gr_gd gr) in *.
  apply (iterate_ok _ (fun '(g, xx) => reader_ok g /\ gr_gd g = gd /\ xx = limit_at (gr_gd g) (gr_cy g) /\
      after_white gd (ahead g) = after_white gd (ahead gr))
    (fun g => reader_ok g /\ gr_gd g = gd /\ (at_place g \/ at_end g) /\
       ahead g = after_word gd separators (after_white gd (ahead gr)))
    (fun '(g, _) => Z.to_nat (to_visit g))).
  - intros [g xx] (Hg & Egd & -> & Ed).
    destruct (handle_wrap_ok g Hg) as (more & g' & E & Hok' & Egd' & Ea & Hat & Hmove).
    destruct (to_visit_wrap g g' Hg Egd' Hmove) as [Hv _].
    rewrite <- Egd, E. cbn [mbind option_bind]. rewrite <- Ea in Ed. destruct more; cbn [negb].
    2: { split_and!; [done|congruence|by right|]. rewrite Egd, <- Ed. by rewrite ahead_end. }
    rewrite !in_set_b_some. cbn [mbind option_bind].
    destruct (in_set_at (gr_gd g') WHITESPACE (gr_cx g', gr_cy g')) eqn:Ew.
    + destruct (next_column_ok g' Hok' Hat) as (En & Hn & _ & Ean).
      fold (next_column g'). split_and!.
      * done.
      * rewrite En. cbn. congruence.
      * done.
      * rewrite Egd, <- Ed, Ean. unfold after_white. cbn [drop_while]. rewrite <- Egd, <- Egd'.
        by rewrite Ew.
      * pose proof (to_visit_column g' (gr_cx g' + 1) Hok' Hat ltac:(lia)) as Hlt.
        rewrite <- En in Hlt. pose proof (to_visit_nonneg _ Hn). lia.
    + destruct (skip_word_ok g' separators (in_letters_end separators) Hok' Hat Ew) as (g2 & Es & Hg2 & Eg2 & Hat2 & Ea2).
      { intros. apply in_letters_end_some. }
      rewrite Egd' in *. rewrite Es. cbn [mbind option_bind fst]. split_and!; [done|congruence|done|].
      rewrite Ea2, Egd, <- Ed. f_equal. rewrite (ahead_place g' Hat). unfold after_white. cbn [drop_while].
      rewrite <- Egd. by rewrite Ew.
  - split_and!; done.
  - apply to_visit_fuel; [done|done|apply Hok|lia].
Qed.

(** ** Every motion *)

Definition stays (gr : grid_reader) (o : option grid_reader) : Prop :=
  exists gr', o = Some gr' /\ reader_ok gr' /\ gr_gd gr' = gr_gd gr.

Lemma stays_some gr gr' : reader_ok gr' -> gr_gd gr' = gr_gd gr -> stays gr (Some gr').
Proof. by exists gr'. Qed.

Lemma stays_from gr g o : gr_gd g = gr_gd gr -> stays g o -> stays gr o.
Proof. intros E (gr' & -> & Hok & Eg). exists gr'. split_and!; [done|done|congruence]. Qed.

Lemma move_ok gr x y : reader_ok gr -> 0 <= x <= g_sx (gr_gd gr) + 255 -> 0 <= y <= last_row (gr_gd gr) ->
  reader_ok (GR (gr_gd gr) x y).
Proof. intros [Hg _ _] Hx Hy. by split. Qed.

Lemma down_ok gr : reader_ok gr ->
  reader_ok (grid_reader_cursor_down gr) /\ gr_gd (grid_reader_cursor_down gr) = gr_gd gr.
Proof.
  intros Hok. pose proof Hok as [Hg Hx Hy]. unfold grid_reader_cursor_down.
  destruct (Z.ltb_spec (gr_cy gr) (last_row (gr_gd gr))); [|by apply off_padding_ok].
  apply (off_padding_ok (set_cy (gr_cy gr + 1) gr)). apply (move_ok gr); [done|done|lia].
Qed.

Lemma up_ok gr : reader_ok gr ->
  reader_ok (grid_reader_cursor_up gr) /\ gr_gd (grid_reader_cursor_up gr) = gr_gd gr.
Proof.
  intros Hok. pose proof Hok as [Hg Hx Hy]. unfold grid_reader_cursor_up.
  destruct (Z.ltb_spec 0 (gr_cy gr)); [|by apply off_padding_ok].
  apply (off_padding_ok (set_cy (gr_cy gr - 1) gr)). apply (move_ok gr); [done|done|lia].
Qed.

Lemma start_of_line_ok gr wrap : reader_ok gr -> stays gr (grid_reader_cursor_start_of_line gr wrap).
Proof.
  intros Hok. pose proof Hok as [Hg Hx Hy]. unfold grid_reader_cursor_start_of_line. destruct wrap.
  - destruct (wrap_start_some (gr_gd gr) (Z.to_nat (gr_cy gr)) Hg) as (n & -> & Hn); [lia|].
    cbn [fmap option_fmap option_map mbind option_bind]. apply stays_some; [|done]. apply (move_ok gr); [done|lia|lia].
  - cbn [mbind option_bind]. apply stays_some; [|done]. apply (move_ok gr); [done|lia|lia].
Qed.

(** The end of the line, and of the next or the last row of it. *)
Lemma end_of_row gr : reader_ok gr ->
  grid_reader_cursor_end_of_line gr false false =
  Some (set_cx (grid_line_length (gr_gd gr) (gr_cy gr)) gr).
Proof.
  intros [Hg Hx Hy]. unfold grid_reader_cursor_end_of_line, grid_reader_line_length.
  cbn [mbind option_bind set_cy gr_gd gr_cy]. rewrite row_length_some by done. by destruct gr.
Qed.

Lemma end_of_line_ok gr wrap all : reader_ok gr -> stays gr (grid_reader_cursor_end_of_line gr wrap all).
Proof.
  intros Hok. pose proof Hok as [Hg Hx Hy]. pose proof Hg as [_ _ Hs]. unfold grid_reader_cursor_end_of_line.
  assert (exists y, (if wrap then wrap_end (gr_gd gr) (gr_cy gr) else Some (gr_cy gr)) = Some y /\
    0 <= y <= last_row (gr_gd gr)) as (y & -> & Hy').
  { destruct wrap; [|by exists (gr_cy gr)].
    destruct (wrap_end_some (gr_gd gr) (gr_cy gr) Hg Hy) as (y & E & Hy'). exists y. split; [done|lia]. }
  cbn [mbind option_bind]. unfold grid_reader_line_length. cbn [set_cy gr_gd gr_cy].
  destruct all; [|rewrite row_length_some by done]; cbn [mbind option_bind];
    (apply stays_some; [|done]); apply (move_ok gr); try done; [lia|].
  pose proof (line_length_bound (gr_gd gr) y ltac:(lia)). lia.
Qed.

Lemma right_ok gr wrap all onemore : reader_ok gr -> stays gr (grid_reader_cursor_right gr wrap all onemore).
Proof.
  intros Hok. pose proof Hok as [Hg Hx Hy]. pose proof Hg as [_ _ Hs]. unfold grid_reader_cursor_right.
  cbv zeta. unfold grid_reader_line_length.
  assert (exists px, (if all then Some (g_sx (gr_gd gr))
     else n ← row_length (gr_gd gr) (gr_cy gr); Some (if onemore then n else if n =? 0 then n else n - 1)) =
     Some px /\ px <= g_sx (gr_gd gr)) as (px & -> & Hpx).
  { destruct all; [eexists; split; [done|lia]|]. rewrite row_length_some by done. cbn [mbind option_bind].
    eexists. split; [done|]. pose proof (line_length_bound (gr_gd gr) (gr_cy gr) ltac:(lia)).
    destruct onemore; [lia|]. case_match; lia. }
  cbn [mbind option_bind]. destruct (wrap && _ && _).
  - destruct (start_of_line_ok gr false Hok) as (g & -> & Hg' & Eg). cbn [mbind option_bind].
    destruct (down_ok g Hg'). apply stays_some; [done|congruence].
  - destruct (Z.ltb_spec (gr_cx gr) px); apply stays_some; try done. apply (move_ok gr); [done| |done].
    pose proof (forward_padding_bound (Z.to_nat (px - gr_cx gr)) (gr_gd gr) (gr_cy gr) px (gr_cx gr + 1) ltac:(lia)). lia.
Qed.

Lemma left_ok gr wrap : reader_ok gr -> stays gr (grid_reader_cursor_left gr wrap).
Proof.
  intros Hok. destruct (off_padding_ok gr Hok) as [Hok' Egd]. unfold grid_reader_cursor_left. cbv zeta.
  apply (stays_from gr (off_padding gr)); [done|]. set (g := off_padding gr) in *. clearbody g.
  pose proof Hok' as [Hg Hx Hy].
  assert (exists b, (if (gr_cx g =? 0) && (0 <? gr_cy g)
        then w ← row_wrapped (gr_gd g) (gr_cy g - 1); Some (wrap || (w : bool)) else Some false) = Some b)
    as (b & ->).
  { destruct (Z.ltb_spec 0 (gr_cy g)); [|rewrite andb_false_r; by eexists]. destruct (gr_cx g =? 0); [|by eexists].
    cbn [andb]. rewrite row_wrapped_some by (done || lia). by eexists. }
  cbn [mbind option_bind]. destruct b.
  - destruct (up_ok g Hok') as [Hup Eup]. apply (stays_from g (grid_reader_cursor_up g)); [done|].
    by apply end_of_line_ok.
  - destruct (Z.ltb_spec 0 (gr_cx g)); apply stays_some; try done. apply (move_ok g); [done|lia|done].
Qed.

(** *** Backwards over words *)

(** What is left towards the start of the grid. *)
Definition to_return (gr : grid_reader) : nat :=
  Z.to_nat (gr_cy gr * (g_sx (gr_gd gr) + 1) + gr_cx gr).

Lemma to_return_fuel gr : reader_ok gr -> (to_return gr < reader_fuel gr)%nat.
Proof.
  intros [[] Hx Hy]. unfold to_return, reader_fuel.
  set (L := last_row (gr_gd gr)) in *. set (S := g_sx (gr_gd gr)) in *.
  assert (gr_cy gr * (S + 1) + gr_cx gr < (Z.max 0 L + 2) * (S + gr_cx gr + 3)) by nia.
  assert (0 < (Z.max 0 L + 2) * (S + gr_cx gr + 3)) by (apply Z.mul_pos_pos; lia). lia.
Qed.

Lemma to_return_left gr : reader_ok gr -> 0 < gr_cx gr ->
  reader_ok (set_cx (gr_cx gr - 1) gr) /\ (to_return (set_cx (gr_cx gr - 1) gr) < to_return gr)%nat.
Proof.
  intros Hok Hx'. pose proof Hok as [[] Hx Hy]. split; [apply (move_ok gr); [done|lia|done]|].
  unfold to_return. cbn [set_cx gr_gd gr_cx gr_cy].
  assert (0 <= gr_cy gr * (g_sx (gr_gd gr) + 1)) by (apply Z.mul_nonneg_nonneg; lia). lia.
Qed.

Lemma to_return_up gr x : reader_ok gr -> 0 < gr_cy gr -> 0 <= x <= g_sx (gr_gd gr) ->
  reader_ok (GR (gr_gd gr) x (gr_cy gr - 1)) /\ (to_return (GR (gr_gd gr) x (gr_cy gr - 1)) < to_return gr)%nat.
Proof.
  intros Hok Hy' Hx'. pose proof Hok as [[] Hx Hy]. split; [apply (move_ok gr); [done|lia|lia]|].
  unfold to_return. cbn [gr_gd gr_cx gr_cy]. rewrite Z.mul_sub_distr_r.
  assert (g_sx (gr_gd gr) + 1 <= gr_cy gr * (g_sx (gr_gd gr) + 1)) by nia. lia.
Qed.

Lemma up_from_zero gr : gr_cx gr = 0 -> 0 < gr_cy gr ->
  grid_reader_cursor_up gr = GR (gr_gd gr) 0 (gr_cy gr - 1).
Proof.
  intros Ex Hy. unfold grid_reader_cursor_up. rewrite (proj2 (Z.ltb_lt _ _)) by done.
  unfold set_cy. by rewrite Ex, off_padding_zero.
Qed.

Lemma back_to_word_ok gr separators stop : reader_ok gr ->
  exists gr' w, back_to_word separators stop gr = Some (gr', w) /\ reader_ok gr' /\ gr_gd gr' = gr_gd gr.
Proof.
  intros Hok. set (gd := gr_gd gr).
  cut (exists r, back_to_word separators stop gr = Some r /\ reader_ok r.1 /\ gr_gd r.1 = gd).
  { intros ([gr' w] & E & Hr). by exists gr', w. }
  unfold back_to_word. apply (iterate_ok _ (fun g => reader_ok g /\ gr_gd g = gd)
    (fun r : grid_reader * option Z => reader_ok r.1 /\ gr_gd r.1 = gd) to_return);
    [|done|by apply to_return_fuel].
  intros g (Hg & Egd). pose proof Hg as [Hgr Hx Hy]. pose proof Hgr as [_ _ Hs].
  destruct (Z.ltb_spec 0 (gr_cx g)) as [Hp|Hz].
  - destruct (to_return_left g Hg Hp) as [Hl Hm]. rewrite !in_set_b_some. cbn [mbind option_bind].
    destruct (in_set_at _ WHITESPACE _); cbn; by split_and!.
  - destruct (Z.eqb_spec (gr_cy g) 0); [done|].
    rewrite up_from_zero by lia. destruct (to_return_up g 0 Hg) as [Hu _]; [lia|lia|].
    rewrite end_of_row by done. cbn [mbind option_bind set_cx gr_gd gr_cx gr_cy].
    pose proof (line_length_bound (gr_gd g) (gr_cy g - 1) ltac:(lia)).
    destruct (to_return_up g (grid_line_length (gr_gd g) (gr_cy g - 1)) Hg) as [Hl Hm]; [lia|lia|].
    rewrite in_set_b_some. cbn [mbind option_bind].
    unfold set_cx. cbn [gr_gd gr_cy]. destruct (stop && _); [|done].
    destruct (in_set_at _ WHITESPACE _); done.
Qed.

Lemma back_in_word_ok gr separators w : reader_ok gr -> stays gr (back_in_word separators w gr).
Proof.
  intros Hok. set (gd := gr_gd gr). unfold stays, back_in_word.
  apply (iterate_ok _ (fun g => reader_ok g /\ gr_gd g = gd) (fun g => reader_ok g /\ gr_gd g = gd) to_return);
    [|done|by apply to_return_fuel].
  intros g (Hg & Egd). pose proof Hg as [Hgr Hx Hy]. pose proof Hgr as [_ _ Hs]. cbv zeta.
  assert (Hend : forall g', reader_ok g' /\ gr_gd g' = gd /\ (to_return g' < to_return g)%nat ->
    match (white ← in_set_b g' WHITESPACE;
           if (white : bool) then Some (inr g)
           else s ← grid_reader_in_set g' separators; Some (if w =? s then inr g else inl g')) with
    | Some (inl s') => (reader_ok s' /\ gr_gd s' = gd) /\ (to_return s' < to_return g)%nat
    | Some (inr r) => reader_ok r /\ gr_gd r = gd
    | None => False
    end).
  { intros g' (Hg' & Eg' & Hm). rewrite in_set_b_some, reader_in_set_some. cbn [mbind option_bind].
    destruct (in_set_at _ WHITESPACE _); [done|]. by destruct (w =? _). }
  destruct (Z.eqb_spec (gr_cx g) 0) as [Ez|Hnz].
  - destruct (Z.eqb_spec (gr_cy g) 0); [done|]. rewrite row_wrapped_some by (done || lia).
    cbn [mbind option_bind]. destruct (wrapped_at (gr_gd g) (gr_cy g - 1)); cbn [negb]; [|done].
    rewrite up_from_zero by (done || lia). unfold grid_reader_cursor_end_of_line.
    cbn [mbind option_bind fmap option_fmap option_map set_cy set_cx gr_gd gr_cx gr_cy].
    rewrite (proj2 (Z.ltb_lt _ _)) by lia. apply Hend.
    destruct (to_return_up g (g_sx (gr_gd g) - 1) Hg) as [Hl Hm]; [lia|lia|]. by split_and!.
  - cbn [mbind option_bind]. rewrite (proj2 (Z.ltb_lt _ _)) by lia. apply Hend.
    destruct (to_return_left g Hg) as [Hl Hm]; [lia|]. by split_and!.
Qed.

Lemma previous_word_ok gr separators already stop : reader_ok gr ->
  stays gr (grid_reader_cursor_previous_word gr separators already stop).
Proof.
  intros Hok. unfold grid_reader_cursor_previous_word. rewrite !in_set_b_some.
  assert (exists b, (if already then Some true else Some (in_set_at (gr_gd gr) WHITESPACE (gr_cx gr, gr_cy gr))) =
    Some b) as (b & ->) by (destruct already; by eexists).
  cbn [mbind option_bind]. destruct b; [|by apply back_in_word_ok].
  destruct (back_to_word_ok gr separators stop Hok) as (g & w & -> & Hg & Eg). cbn [mbind option_bind].
  destruct w; [|by apply stays_some]. apply (stays_from gr g); [done|]. by apply back_in_word_ok.
Qed.

(** *** Jumps *)

Lemma jump_in_row_some gd jc y l x : jump_in_row gd jc y l = Some x ->
  x ∈ l /\ grid_reader_cell_equals_data (grid_get_cell gd x y) jc = true.
Proof. intros E. apply find_some in E as [Hin He]. split; [by apply list_elem_of_In|done]. Qed.

(** A jump that succeeds is at the character; one that does not leaves the reader. *)
Definition jumped (gr : grid_reader) (jc : utf8_data) (r : bool * grid_reader) : Prop :=
  reader_ok r.2 /\ gr_gd r.2 = gr_gd gr /\
  if r.1 then grid_reader_cell_equals_data (grid_get_cell (gr_gd gr) (gr_cx r.2) (gr_cy r.2)) jc = true
  else r.2 = gr.

Lemma jump_ok gr jc : reader_ok gr ->
  exists r, grid_reader_cursor_jump gr jc = Some r /\ jumped gr jc r.
Proof.
  intros Hok. pose proof Hok as [Hg Hx Hy]. pose proof Hg as [_ _ Hs]. unfold grid_reader_cursor_jump. cbv zeta.
  apply (iterate_ok _ (fun '(px, py) => 0 <= px /\ gr_cy gr <= py <= last_row (gr_gd gr)) (jumped gr jc)
    (fun '(_, py) => Z.to_nat (last_row (gr_gd gr) - py))); [|cbn; lia|cbn; lia].
  intros [px py] [Hpx Hpy]. rewrite (proj2 (Z.ltb_ge _ _)) by lia.
  rewrite row_length_some by (done || lia). cbn [mbind option_bind].
  destruct (jump_in_row _ _ _ _) as [x|] eqn:E.
  - apply jump_in_row_some in E as [Hin He]. apply elem_of_seqZ in Hin.
    pose proof (line_length_bound (gr_gd gr) py ltac:(lia)).
    split_and!; [|done|done]. apply (move_ok gr); [done|lia|lia].
  - destruct (Z.eqb_spec py (last_row (gr_gd gr))); [by split_and!|].
    rewrite row_wrapped_some by (done || lia). cbn [mbind option_bind].
    destruct (wrapped_at (gr_gd gr) py); [split; [lia|lia]|by split_and!].
Qed.

Lemma jump_back_ok gr jc : reader_ok gr ->
  exists r, grid_reader_cursor_jump_back gr jc = Some r /\ jumped gr jc r.
Proof.
  intros Hok. pose proof Hok as [Hg Hx Hy]. pose proof Hg as [Hgrid _ Hs].
  pose proof (last_row_eq _ Hg) as El. destruct Hgrid. unfold grid_reader_cursor_jump_back. cbv zeta.
  rewrite !u32_small by lia.
  apply (iterate_ok _ (fun '(xx, py) => 0 <= xx <= g_sx (gr_gd gr) + 256 /\ 1 <= py <= gr_cy gr + 1) (jumped gr jc)
    (fun '(_, py) => Z.to_nat py)); [|cbn; lia|cbn; lia].
  intros [xx py] [Hxx Hpy]. destruct (Z.eqb_spec py 0); [lia|].
  destruct (jump_in_row _ _ _ _) as [x|] eqn:E.
  - apply jump_in_row_some in E as [Hin He]. rewrite elem_of_reverse in Hin. apply elem_of_seqZ in Hin.
    split_and!; [|done|done]. apply (move_ok gr); [done|lia|lia].
  - destruct (Z.eqb_spec py 1); [by split_and!|].
    rewrite row_wrapped_some by (done || lia). cbn [mbind option_bind].
    destruct (wrapped_at (gr_gd gr) (py - 2)); cbn [negb]; [|by split_and!].
    rewrite row_length_some by (done || lia). cbn [mbind option_bind].
    pose proof (line_length_bound (gr_gd gr) (py - 2) ltac:(lia)). lia.
Qed.

Lemma indentation_ok gr : reader_ok gr -> stays gr (grid_reader_cursor_back_to_indentation gr).
Proof.
  intros Hok. unfold grid_reader_cursor_back_to_indentation. cbv zeta.
  destruct (start_of_line_ok gr true Hok) as (g & -> & Hg & Eg). cbn [mbind option_bind].
  pose proof Hok as [Hgr Hx Hy]. pose proof Hgr as [_ _ Hs]. pose proof Hg as [_ _ Hy']. rewrite Eg in Hy'.
  apply (iterate_ok _ (fun py => gr_cy g <= py <= last_row (gr_gd gr) + 1)
    (fun r => reader_ok r /\ gr_gd r = gr_gd gr)
    (fun py => Z.to_nat (last_row (gr_gd gr) + 1 - py))); [|lia|lia].
  intros py Hpy. destruct (Z.ltb_spec (last_row (gr_gd gr)) py); [done|].
  rewrite row_length_some by (done || lia). cbn [mbind option_bind].
  destruct (find _ _) as [x|] eqn:E.
  - apply find_some in E as [Hin _]. apply list_elem_of_In, elem_of_seqZ in Hin.
    pose proof (line_length_bound (gr_gd gr) py ltac:(lia)).
    split; [|done]. apply (move_ok gr); [done|lia|lia].
  - rewrite row_wrapped_some by (done || lia). cbn [mbind option_bind].
    destruct (wrapped_at (gr_gd gr) py); cbn [negb]; [lia|done].
Qed.

(** ** Theorems *)

(** The motions of copy mode. *)
Inductive motion :=
  | Right (wrap all onemore : bool)
  | Left (wrap : bool)
  | Down
  | Up
  | StartOfLine (wrap : bool)
  | EndOfLine (wrap all : bool)
  | NextWord (separators : list Z)
  | NextWordEnd (separators : list Z)
  | PreviousWord (separators : list Z) (already stop_at_eol : bool)
  | Jump (jc : utf8_data)
  | JumpBack (jc : utf8_data)
  | Indentation.

Definition run_motion (m : motion) (gr : grid_reader) : option grid_reader :=
  match m with
  | Right wrap all onemore => grid_reader_cursor_right gr wrap all onemore
  | Left wrap => grid_reader_cursor_left gr wrap
  | Down => Some (grid_reader_cursor_down gr)
  | Up => Some (grid_reader_cursor_up gr)
  | StartOfLine wrap => grid_reader_cursor_start_of_line gr wrap
  | EndOfLine wrap all => grid_reader_cursor_end_of_line gr wrap all
  | NextWord separators => grid_reader_cursor_next_word gr separators
  | NextWordEnd separators => grid_reader_cursor_next_word_end gr separators
  | PreviousWord separators already stop => grid_reader_cursor_previous_word gr separators already stop
  | Jump jc => snd <$> grid_reader_cursor_jump gr jc
  | JumpBack jc => snd <$> grid_reader_cursor_jump_back gr jc
  | Indentation => grid_reader_cursor_back_to_indentation gr
  end.

(** Every motion ends, reads no line outside the grid, and leaves the reader on
    it. *)
Lemma run_motion_stays m gr : reader_ok gr -> tabs_ok (gr_gd gr) -> stays gr (run_motion m gr).
Proof.
  intros Hok Ht. destruct m; cbn [run_motion].
  - by apply right_ok.
  - by apply left_ok.
  - destruct (down_ok gr Hok). by apply stays_some.
  - destruct (up_ok gr Hok). by apply stays_some.
  - by apply start_of_line_ok.
  - by apply end_of_line_ok.
  - destruct (next_word_ok gr separators Hok Ht) as (g & E & Hg & Eg & _). by exists g.
  - destruct (next_word_end_ok gr separators Hok) as (g & E & Hg & Eg & _). by exists g.
  - by apply previous_word_ok.
  - destruct (jump_ok gr jc Hok) as ([b g] & -> & Hg & Eg & _). by apply stays_some.
  - destruct (jump_back_ok gr jc Hok) as ([b g] & -> & Hg & Eg & _). by apply stays_some.
  - by apply indentation_ok.
Qed.


(** C37. Any sequence of motions ends, reads no line outside the grid, and
    leaves the reader on a line of it. *)
Theorem grid_reader_motions ms gr : reader_ok gr -> tabs_ok (gr_gd gr) ->
  exists gr', foldl (fun o m => o ≫= run_motion m) (Some gr) ms = Some gr' /\
  gr_gd gr' = gr_gd gr /\ 0 <= gr_cy gr' <= last_row (gr_gd gr) /\ 0 <= gr_cx gr' <= g_sx (gr_gd gr) + 255.
Proof.
  intros Hok Ht. assert (Hs : exists gr', foldl (fun o m => o ≫= run_motion m) (Some gr) ms = Some gr' /\
    reader_ok gr' /\ gr_gd gr' = gr_gd gr).
  { revert gr Hok Ht. induction ms as [|m ms IH]; intros gr Hok Ht; cbn [foldl]; [by exists gr|].
    cbn [mbind option_bind]. destruct (run_motion_stays m gr Hok Ht) as (g & -> & Hg & Eg).
    destruct (IH g Hg) as (g' & E & Hg' & Eg'); [by rewrite Eg|]. exists g'. split_and!; [done|done|congruence]. }
  destruct Hs as (g & E & [_ Hx Hy] & Eg). rewrite Eg in *. by exists g.
Qed.

End Props.

(** ** Witnesses *)

(** Checks the tabs of a grid place by place. *)
Definition tabs_okb `{CellCodec} `{Locale} (gd : grid) : bool :=
  forallb (fun y => forallb (fun x =>
    let w := columns_at gd WHITESPACE (x, y) in
    (0 <=? w) && (w <=? 255) &&
    forallb (fun i => (limit_at gd y <? x + i) || in_set_at gd WHITESPACE (x + i, y)) (seqZ 0 w))
    (seqZ 0 (limit_at gd y + 1))) (seqZ 0 (last_row gd + 1)).

Lemma tabs_okb_sound `{CellCodec} `{Locale} gd : tabs_okb gd = true -> tabs_ok gd.
Proof.
  intros Hb x y Hy Hx. unfold tabs_okb in Hb.
  pose proof (forall_range _ _ Hb y ltac:(lia)) as Hb1. cbv beta in Hb1.
  pose proof (forall_range _ _ Hb1 x ltac:(lia)) as Hb2. cbv beta zeta in Hb2.
  apply andb_prop in Hb2 as [[H1%Z.leb_le H2%Z.leb_le]%andb_prop H3].
  split; [done|]. intros i Hi Hl. pose proof (forall_range _ _ H3 i Hi) as H4. cbv beta in H4.
  apply orb_prop in H4 as [H4%Z.ltb_lt|H4]; [lia|done].
Qed.

(** "ab, cd" goes on with "ef" in the next row, where a tab and "gh" follow. *)
Definition text_grid : grid :=
  let put x y c gd := grid_set_cell (H:=plain_codec) gd x y (GC (utf8_set c) 0 0 8 8 8 0) in
  let gd := grid_create 6 2 0 in
  let gd := put 0 0 97 (put 1 0 98 (put 2 0 44 (put 3 0 32 (put 4 0 99 (put 5 0 100 gd))))) in
  let gd := put 0 1 101 (put 1 1 102 (put 4 1 103 (put 5 1 104 gd))) in
  let gd := grid_set_cell (H:=plain_codec) gd 2 1 (grid_set_tab grid_default_cell 2) in
  let gd := grid_set_padding (H:=plain_codec) gd 3 1 in
  update_line 0 (set_gl_flags GRID_LINE_WRAPPED) gd.

Lemma text_reader_ok x y : 0 <= x <= 6 -> 0 <= y <= 1 -> reader_ok (GR text_grid x y).
Proof.
  intros Hx Hy. split; [split|..].
  - apply grid_okb_sound. vm_compute. reflexivity.
  - vm_compute. congruence.
  - split; vm_compute; congruence.
  - cbn [gr_gd gr_cx]. change (g_sx text_grid) with 6. lia.
  - cbn [gr_gd gr_cy]. change (last_row text_grid) with 1. lia.
Qed.

Lemma text_tabs_ok : @tabs_ok plain_codec ascii_locale text_grid.
Proof. apply tabs_okb_sound. vm_compute. reflexivity. Qed.


Lemma grid_reader_motions_witness : exists gr',
  foldl (fun o m => o ≫= @run_motion plain_codec ascii_locale m) (Some (GR text_grid 0 0))
    [NextWord [44]; EndOfLine true false; PreviousWord [44] false false; Down; JumpBack (utf8_set 98)] = Some gr' /\
  gr_gd gr' = text_grid.
Proof.
  destruct (@grid_reader_motions plain_codec ascii_locale
    [NextWord [44]; EndOfLine true false; PreviousWord [44] false false; Down; JumpBack (utf8_set 98)]
    (GR text_grid 0 0)) as (gr' & E & Eg & _).
  - apply text_reader_ok; lia.
  - exact text_tabs_ok.
  - exists gr'. split; [exact E|exact Eg].
Defined.
