(* ===== verification/ScreenWrite.v ===== *)
(** * Writing to a screen (src/tmux/screen/screen-write.c)

    What each operation does to the screen of its context.  What it sends to
    the terminals that show the screen (tty_write, with the list of what is to
    be sent, the dirty lines and the flush of both) is not part of the state.
    The text collected for the current line is kept with the item that will be
    stored, not in a buffer of its line: it lies at the cursor, which does not
    move while an item is pending. *)
From Stdlib Require Import Ascii String.
From S2P Require Import Prelude.
From S2P Require Import Utf8.
From S2P Require Import CellCodec.
From S2P Require Import Locale.
From S2P Require Import Utf8Combined.
From S2P Require Import Grid.
From S2P Require Import Reflow.
From S2P Require Import Screen.
From S2P Require Import ScreenInfo.

(** What a context is set up with: whether it writes to a pane, the options of
    the pane and the server, the time, and whether a run of cells of the pane
    is not behind a floating pane. *)
Record write_env := Env {
  we_pane : bool;
  we_scroll_on_clear : bool;
  we_alternate_screen : bool;
  we_always_wide : bool;
  we_extended_keys : Z;
  we_now : Z;
  we_visible : Z -> Z -> Z -> bool
}.

(** The screen, the item being collected (its cell and its text) and the flag
    of the pane that keeps its history over one clear. *)
Record write_ctx := Ctx {
  c_s : screen;
  c_gc : grid_cell;
  c_text : list Z;
  c_protected : bool
}.

Definition set_c_s s c := Ctx s (c_gc c) (c_text c) (c_protected c).
Definition set_c_item gc text c := Ctx (c_s c) gc text (c_protected c).
Definition set_c_protected p c := Ctx (c_s c) (c_gc c) (c_text c) p.
(** A new item. *)
Definition new_item (c : write_ctx) : write_ctx := set_c_item (c_gc c) [] c.

Definition on_s (f : screen -> screen) (c : write_ctx) : write_ctx := set_c_s (f (c_s c)) c.
Definition on_grid (f : grid -> grid) (c : write_ctx) : write_ctx :=
  on_s (fun s => set_s_grid (f (s_grid s)) s) c.

Definition c_sx (c : write_ctx) : Z := screen_size_x (c_s c).
Definition c_sy (c : write_ctx) : Z := screen_size_y (c_s c).
Definition c_cx (c : write_ctx) : Z := s_cx (c_s c).
Definition c_cy (c : write_ctx) : Z := s_cy (c_s c).
Definition c_line (c : write_ctx) : grid_line :=
  grid_get_line (s_grid (c_s c)) (grid_view_y (s_grid (c_s c)) (c_cy c)).

(** ** Cursor *)

(** [screen_write_set_cursor]: -1 leaves a coordinate as it is. *)
Definition place (size : Z) (last : bool) (old new : Z) : Z :=
  if new =? -1 then old
  else if (if last then size else u32 (size - 1)) <? u32 new then u32 (size - 1) else u32 new.

Definition screen_write_set_cursor (cx cy : Z) (c : write_ctx) : write_ctx :=
  let cx := s32 cx in
  let cy := s32 cy in
  if negb (cx =? -1) && (u32 cx =? c_cx c) && negb (cy =? -1) && (u32 cy =? c_cy c) then c
  else on_s (fun s => set_s_cursor (place (screen_size_x s) true (s_cx s) cx)
                                   (place (screen_size_y s) false (s_cy s) cy) s) c.

Definition screen_write_cursorup (ny : Z) (c : write_ctx) : write_ctx :=
  let s := c_s c in
  let cx := s_cx s in let cy := s_cy s in
  let ny := if ny =? 0 then 1 else ny in
  let ny := if cy <? s_rupper s then if cy <? ny then cy else ny
            else if u32 (cy - s_rupper s) <? ny then u32 (cy - s_rupper s) else ny in
  let cx := if cx =? screen_size_x s then cx - 1 else cx in
  screen_write_set_cursor cx (u32 (cy - ny)) c.

Definition screen_write_cursordown (ny : Z) (c : write_ctx) : write_ctx :=
  let s := c_s c in
  let cx := s_cx s in let cy := s_cy s in
  let ny := if ny =? 0 then 1 else ny in
  let limit := if s_rlower s <? cy then u32 (screen_size_y s - 1 - cy)
               else u32 (s_rlower s - cy) in
  let ny := if limit <? ny then limit else ny in
  if cx =? screen_size_x s then screen_write_set_cursor (cx - 1) (u32 (cy + ny)) c
  else if ny =? 0 then c
  else screen_write_set_cursor cx (u32 (cy + ny)) c.

Definition screen_write_cursorright (nx : Z) (c : write_ctx) : write_ctx :=
  let s := c_s c in
  let nx := if nx =? 0 then 1 else nx in
  let limit := u32 (screen_size_x s - 1 - s_cx s) in
  let nx := if limit <? nx then limit else nx in
  if nx =? 0 then c else screen_write_set_cursor (u32 (s_cx s + nx)) (s_cy s) c.

Definition screen_write_cursorleft (nx : Z) (c : write_ctx) : write_ctx :=
  let s := c_s c in
  let nx := if nx =? 0 then 1 else nx in
  let nx := if s_cx s <? nx then s_cx s else nx in
  if nx =? 0 then c else screen_write_set_cursor (s_cx s - nx) (s_cy s) c.

Section Write.
Context `{CellCodec} `{Locale} (env : write_env).

Definition screen_write_backspace (c : write_ctx) : write_ctx :=
  let s := c_s c in
  let gd := s_grid s in
  if s_cx s =? 0 then
    if s_cy s =? 0 then c
    else if wrapped (grid_get_line gd (u32 (hsize gd + s_cy s - 1)))
         then screen_write_set_cursor (u32 (screen_size_x s - 1)) (s_cy s - 1) c
         else screen_write_set_cursor (s_cx s) (s_cy s) c
  else screen_write_set_cursor (s_cx s - 1) (s_cy s) c.

(** [origin]: the row is relative to the region in origin mode. *)
Definition screen_write_cursormove (px py : Z) (origin : bool) (c : write_ctx) : write_ctx :=
  let s := c_s c in
  let py := if origin && negb (py =? -1) && s_has s MODE_ORIGIN then
              if u32 (s_rlower s - s_rupper s) <? u32 py then s32 (s_rlower s)
              else s32 (py + s_rupper s)
            else py in
  let px := if negb (px =? -1) && (u32 (screen_size_x s - 1) <? u32 px)
            then s32 (screen_size_x s - 1) else px in
  let py := if negb (py =? -1) && (u32 (screen_size_y s - 1) <? u32 py)
            then s32 (screen_size_y s - 1) else py in
  screen_write_set_cursor px py c.

Definition screen_write_carriagereturn (c : write_ctx) : write_ctx :=
  screen_write_set_cursor 0 (-1) c.

Definition screen_write_scrollregion (rupper rlower : Z) (c : write_ctx) : write_ctx :=
  let last := u32 (c_sy c - 1) in
  let rupper := if last <? rupper then last else rupper in
  let rlower := if last <? rlower then last else rlower in
  if rlower <=? rupper then c
  else on_s (set_s_region rupper rlower) (screen_write_set_cursor 0 0 c).

Definition screen_write_mode_set (m : Z) (c : write_ctx) : write_ctx := on_s (mode_set m) c.
Definition screen_write_mode_clear (m : Z) (c : write_ctx) : write_ctx := on_s (mode_clear m) c.
(** Of a pane, whose screen this is. *)
Definition screen_write_start_sync (pane : bool) (c : write_ctx) : write_ctx :=
  if pane then on_s (mode_set MODE_SYNC) c else c.
Definition screen_write_stop_sync (pane : bool) (c : write_ctx) : write_ctx :=
  if pane then on_s (mode_clear MODE_SYNC) c else c.

(** ** Scrolling *)

Definition mark_wrapped (c : write_ctx) : write_ctx :=
  on_grid (fun gd => update_line (grid_view_y gd (c_cy c)) wrap gd) c.

Definition screen_write_linefeed (wrapped : bool) (bg : Z) (c : write_ctx) : write_ctx :=
  let c := if wrapped then mark_wrapped c else c in
  let s := c_s c in
  if s_cy s =? s_rlower s then
    on_grid (fun gd => grid_view_scroll_region_up (we_now env) gd (s_rupper s) (s_rlower s) bg) c
  else if s_cy s <? u32 (screen_size_y s - 1) then screen_write_set_cursor (-1) (s_cy s + 1) c
  else c.

Definition scroll_lines (s : screen) (lines : Z) : Z :=
  if lines =? 0 then 1
  else if u32 (s_rlower s - s_rupper s + 1) <? lines then u32 (s_rlower s - s_rupper s + 1)
  else lines.

Definition screen_write_scrollup (lines bg : Z) (c : write_ctx) : write_ctx :=
  let s := c_s c in
  on_grid (Nat.iter (Z.to_nat (scroll_lines s lines))
    (fun gd => grid_view_scroll_region_up (we_now env) gd (s_rupper s) (s_rlower s) bg)) c.

Definition screen_write_scrolldown (lines bg : Z) (c : write_ctx) : write_ctx :=
  let s := c_s c in
  on_grid (Nat.iter (Z.to_nat (scroll_lines s lines))
    (fun gd => grid_view_scroll_region_down gd (s_rupper s) (s_rlower s) bg)) c.

Definition screen_write_reverseindex (bg : Z) (c : write_ctx) : write_ctx :=
  let s := c_s c in
  if s_cy s =? s_rupper s
  then on_grid (fun gd => grid_view_scroll_region_down gd (s_rupper s) (s_rlower s) bg) c
  else if 0 <? s_cy s then screen_write_set_cursor (-1) (s_cy s - 1) c
  else c.

(** ** Characters and lines in the middle *)

(** The number of characters that fit from the cursor, with the operation done
    on them if there are any. *)
Definition at_cursor (f : grid -> Z -> Z -> Z -> grid) (nx : Z) (c : write_ctx) : write_ctx :=
  let s := c_s c in
  let nx := if nx =? 0 then 1 else nx in
  let left := u32 (screen_size_x s - s_cx s) in
  let nx := if left <? nx then left else nx in
  if (nx =? 0) || (u32 (screen_size_x s - 1) <? s_cx s) then c
  else on_grid (fun gd => f gd (s_cx s) (s_cy s) nx) c.

Definition screen_write_insertcharacter (nx bg : Z) : write_ctx -> write_ctx :=
  at_cursor (fun gd px py nx => grid_view_insert_cells gd px py nx bg) nx.
Definition screen_write_deletecharacter (nx bg : Z) : write_ctx -> write_ctx :=
  at_cursor (fun gd px py nx => grid_view_delete_cells gd px py nx bg) nx.
Definition screen_write_clearcharacter (nx bg : Z) : write_ctx -> write_ctx :=
  at_cursor (fun gd px py nx => grid_view_clear gd px py nx 1 bg) nx.

(** Lines go to the end of the region, or of the screen when the cursor is out
    of the region. *)
Definition at_line (whole : grid -> Z -> Z -> grid) (part : grid -> Z -> Z -> Z -> grid)
    (ny : Z) (c : write_ctx) : write_ctx :=
  let s := c_s c in
  let cy := s_cy s in
  let ny := if ny =? 0 then 1 else ny in
  let out := (cy <? s_rupper s) || (s_rlower s <? cy) in
  let left := if out then u32 (screen_size_y s - cy) else u32 (s_rlower s + 1 - cy) in
  let ny := if left <? ny then left else ny in
  if ny =? 0 then c
  else if out then on_grid (fun gd => whole gd cy ny) c
  else on_grid (fun gd => part gd (s_rlower s) cy ny) c.

Definition screen_write_insertline (ny bg : Z) : write_ctx -> write_ctx :=
  at_line (fun gd py ny => grid_view_insert_lines gd py ny bg)
          (fun gd rlower py ny => grid_view_insert_lines_region gd rlower py ny bg) ny.
Definition screen_write_deleteline (ny bg : Z) : write_ctx -> write_ctx :=
  at_line (fun gd py ny => grid_view_delete_lines gd py ny bg)
          (fun gd rlower py ny => grid_view_delete_lines_region gd rlower py ny bg) ny.

(** ** Clearing *)

Definition screen_write_clearline (bg : Z) (c : write_ctx) : write_ctx :=
  if (cellsize (c_line c) =? 0) && COLOUR_DEFAULT bg then c
  else new_item (on_grid (fun gd => grid_view_clear gd 0 (c_cy c) (c_sx c) 1 bg) c).

Definition screen_write_clearendofline (bg : Z) (c : write_ctx) : write_ctx :=
  if c_cx c =? 0 then screen_write_clearline bg c
  else if (u32 (c_sx c - 1) <? c_cx c) ||
          ((cellsize (c_line c) <=? c_cx c) && COLOUR_DEFAULT bg) then c
  else new_item (on_grid (fun gd => grid_view_clear gd (c_cx c) (c_cy c) (c_sx c - c_cx c) 1 bg) c).

Definition screen_write_clearstartofline (bg : Z) (c : write_ctx) : write_ctx :=
  if u32 (c_sx c - 1) <=? c_cx c then screen_write_clearline bg c
  else new_item (on_grid (fun gd =>
    if u32 (c_sx c - 1) <? c_cx c then grid_view_clear gd 0 (c_cy c) (c_sx c) 1 bg
    else grid_view_clear gd 0 (c_cy c) (c_cx c + 1) 1 bg) c).

(** With a history, a pane may scroll what it clears into it. *)
Definition scrolls_into_history (c : write_ctx) : bool :=
  has (g_flags (s_grid (c_s c))) GRID_HISTORY && we_pane env && we_scroll_on_clear env.

Definition screen_write_clearendofscreen (bg : Z) (c : write_ctx) : write_ctx :=
  let cx := c_cx c in let cy := c_cy c in let sx := c_sx c in let sy := c_sy c in
  if (cx =? 0) && (cy =? 0) && scrolls_into_history c
  then on_grid (fun gd => grid_view_clear_history (we_now env) gd bg) c
  else on_grid (fun gd =>
         let gd := if cx <=? u32 (sx - 1) then grid_view_clear gd cx cy (sx - cx) 1 bg else gd in
         grid_view_clear gd 0 (u32 (cy + 1)) sx (u32 (sy - (cy + 1))) bg) c.

Definition screen_write_clearstartofscreen (bg : Z) (c : write_ctx) : write_ctx :=
  let cx := c_cx c in let cy := c_cy c in let sx := c_sx c in
  on_grid (fun gd =>
    let gd := if 0 <? cy then grid_view_clear gd 0 0 sx cy bg else gd in
    if u32 (sx - 1) <? cx then grid_view_clear gd 0 cy sx 1 bg
    else grid_view_clear gd 0 cy (cx + 1) 1 bg) c.

Definition screen_write_clearscreen (bg : Z) (c : write_ctx) : write_ctx :=
  if scrolls_into_history c
  then on_grid (fun gd => grid_view_clear_history (we_now env) gd bg) c
  else on_grid (fun gd => grid_view_clear gd 0 0 (c_sx c) (c_sy c) bg) c.

Definition screen_write_clearhistory (c : write_ctx) : write_ctx :=
  if we_pane env && c_protected c then set_c_protected false c
  else on_grid grid_clear_history c.

Definition screen_write_reset (c : write_ctx) : write_ctx :=
  let c := on_s screen_reset_tabs c in
  let c := screen_write_scrollregion 0 (u32 (c_sy c - 1)) c in
  let c := on_s (set_s_mode (reset_mode (we_extended_keys env) 0)) c in
  screen_write_set_cursor 0 0 (screen_write_clearscreen 8 c).

Definition screen_write_alignmenttest (c : write_ctx) : write_ctx :=
  let gc := GC (utf8_set 69) 0 0 8 8 8 0 in
  let c := on_grid (fun gd => foldl (fun gd yy => foldl (fun gd xx =>
             grid_view_set_cell gd xx yy gc) gd (seqZ 0 (c_sx c))) gd (seqZ 0 (c_sy c))) c in
  let c := screen_write_set_cursor 0 0 c in
  on_s (set_s_region 0 (u32 (c_sy c - 1))) c.

(** ** The alternate screen *)

Definition screen_write_alternateon (gc : grid_cell) (cursor : bool) (c : write_ctx) : write_ctx :=
  if we_pane env && negb (we_alternate_screen env) then c
  else on_s (fun s => screen_alternate_on s gc cursor) c.

(** The context and the cell the caller goes on with. *)
Definition screen_write_alternateoff (gc : grid_cell) (cursor : bool) (c : write_ctx) :
    option (write_ctx * grid_cell) :=
  if we_pane env && negb (we_alternate_screen env) then Some (c, gc)
  else
    '(s, saved) ← screen_alternate_off (c_s c) cursor;
    Some (set_c_s s c, default gc saved).

(** ** Cells *)

Definition view_cell (c : write_ctx) (px : Z) : grid_cell :=
  grid_view_get_cell (s_grid (c_s c)) px (c_cy c).
Definition put_view (px : Z) (gc : grid_cell) (c : write_ctx) : write_ctx :=
  on_grid (fun gd => grid_view_set_cell gd px (c_cy c) gc) c.
Definition is_padding (gc : grid_cell) : bool := has (gc_flags gc) GRID_FLAG_PADDING.

(** Padding from [xx] to the left is made default cells, column 0 apart: where
    it stops. *)
Fixpoint erase_left (n : nat) (xx : Z) (c : write_ctx) : Z * write_ctx :=
  match n with
  | O => (xx, c)
  | S n =>
      if negb (is_padding (view_cell c xx)) then (xx, c)
      else erase_left n (xx - 1) (put_view xx grid_default_cell c)
  end.

(** Padding from [xx] on to the right is made [gc]. *)
Fixpoint erase_right (n : nat) (xx : Z) (gc : grid_cell) (c : write_ctx) : write_ctx :=
  match n with
  | O => c
  | S n =>
      if negb (is_padding (view_cell c xx)) then c
      else erase_right n (xx + 1) gc (put_view xx gc c)
  end.

Definition utf8_append_data (a b : utf8_data) : utf8_data :=
  let size := u8 (ud_size a + ud_size b) in
  UD (take (Z.to_nat (ud_size a)) (ud_data a) ++ take (Z.to_nat (ud_size b)) (ud_data b) ++
      drop (Z.to_nat (ud_size a + ud_size b)) (ud_data a)) (ud_have a) size (ud_width a).
Definition set_ud_width (w : Z) (ud : utf8_data) : utf8_data :=
  UD (ud_data ud) (ud_have ud) (ud_size ud) w.
Definition set_gc_data (ud : utf8_data) (gc : grid_cell) : grid_cell :=
  GC ud (gc_attr gc) (gc_flags gc) (gc_fg gc) (gc_bg gc) (gc_us gc) (gc_link gc).
Definition set_gc_flags (f : Z) (gc : grid_cell) : grid_cell :=
  GC (gc_data gc) (gc_attr gc) f (gc_fg gc) (gc_bg gc) (gc_us gc) (gc_link gc).

(** What becomes of a character next to the one before it: it is not for it,
    it is dropped, or it joins it (and may make it wide). *)
Inductive combining := NotCombined | Dropped | Combined (wide : bool).

Definition combines (last ud : utf8_data) (zero_width force_wide : bool) : combining :=
  if zero_width then Combined force_wide
  else
    match hanguljamo_check_state last ud with
    | HANGULJAMO_STATE_NOT_COMPOSABLE => Dropped
    | HANGULJAMO_STATE_CHOSEONG => NotCombined
    | HANGULJAMO_STATE_COMPOSABLE => Combined force_wide
    | HANGULJAMO_STATE_NOT_HANGULJAMO =>
        if utf8_should_combine last ud || utf8_should_combine ud last then Combined true
        else if negb (utf8_has_zwj last) then NotCombined
        else Combined force_wide
    end.

(** Whether the character is done with, and the context. *)
Definition screen_write_combine (gc : grid_cell) (c : write_ctx) : bool * write_ctx :=
  let ud := gc_data gc in
  let cx := c_cx c in
  if utf8_is_hangul_filler ud then (true, c)
  else
    let zero_width := utf8_is_zwj ud || utf8_is_vs ud || (ud_width ud =? 0) in
    let force_wide := negb (utf8_is_zwj ud) && utf8_is_vs ud && we_always_wide env in
    if (ud_size ud <? 2) || (cx =? 0) then (zero_width, c)
    else
      let n := if negb (cx =? 1) && is_padding (view_cell c (cx - 1)) then 2 else 1 in
      let last := view_cell c (cx - n) in
      if negb (n =? ud_width (gc_data last)) || is_padding last then (zero_width, c)
      else
        match combines (gc_data last) ud zero_width force_wide with
        | NotCombined => (false, c)
        | Dropped => (true, c)
        | Combined force_wide =>
            if Z.of_nat UTF8_SIZE <? ud_size (gc_data last) + ud_size ud then (false, c)
            else
              let joined := utf8_append_data (gc_data last) ud in
              let force_wide := (ud_width joined =? 1) && force_wide in
              let joined := if force_wide then set_ud_width 2 joined else joined in
              let n := if force_wide then 2 else n in
              let cx := if force_wide then cx + 1 else cx in
              let c := put_view (cx - n) (set_gc_data joined last) c in
              let c := if force_wide
                       then on_grid (fun gd => grid_view_set_padding gd (cx - 1) (c_cy c)) c
                       else c in
              if negb (we_visible env (cx - n) (c_cy c) n) then (true, c)
              else (true, screen_write_set_cursor cx (c_cy c)
                            (screen_write_set_cursor (cx - n) (c_cy c) c))
        end.

(** Whether cells were cleared because their character goes. *)
Definition screen_write_overwrite (gc : grid_cell) (width : Z) (c : write_ctx) :
    bool * write_ctx :=
  let cx := c_cx c in
  let '(done, c) :=
    if is_padding gc then
      let '(xx, c) := erase_left (Z.to_nat cx) cx c in
      (true, put_view xx grid_default_cell c)
    else (false, c) in
  if negb (width =? 1) || negb (ud_width (gc_data gc) =? 1) || is_padding gc then
    let first := u32 (cx + width - 1 + 1) in
    let fill := if has (gc_flags gc) GRID_FLAG_TAB
                then set_gc_data (utf8_set 32) gc else grid_default_cell in
    (done || ((first <? c_sx c) && is_padding (view_cell c first)),
     erase_right (Z.to_nat (c_sx c - first)) first fill c)
  else (done, c).

(** Whether the line already shows the cell there: nothing is stored then. *)
Definition already_there (gc : grid_cell) (c : write_ctx) : bool :=
  let gl := c_line c in
  if cellsize gl <=? c_cx c then grid_cells_equal gc grid_default_cell
  else
    let gce := get_gce gl (c_cx c) in
    let '(attr, fg, bg, data) := gce_bytes gce in
    negb (has (gce_flags gce) GRID_FLAG_EXTENDED) &&
    (gc_flags gc =? gce_flags gce) && (gc_attr gc =? attr) && (gc_fg gc =? fg) &&
    (gc_bg gc =? bg) && (ud_width (gc_data gc) =? 1) && (ud_size (gc_data gc) =? 1) &&
    (data =? nth 0 (ud_data (gc_data gc)) 0).

(** The cell is stored with the flag of the selection as it is. *)
Definition store_selected (gc : grid_cell) (skip : bool) (c : write_ctx) : write_ctx :=
  let selected := screen_check_selection (c_s c) (c_cx c) (c_cy c) in
  let flagged := has (gc_flags gc) GRID_FLAG_SELECTED in
  if selected && negb flagged
  then put_view (c_cx c) (set_gc_flags (Z.lor (gc_flags gc) GRID_FLAG_SELECTED) gc) c
  else if negb selected && flagged
  then put_view (c_cx c) (set_gc_flags (without (gc_flags gc) GRID_FLAG_SELECTED) gc) c
  else if skip then c
  else put_view (c_cx c) gc c.

(** Padding after a wide character. *)
Definition pad_after (width : Z) (c : write_ctx) : write_ctx :=
  on_grid (fun gd => foldl (fun gd xx => grid_view_set_padding gd xx (c_cy c)) gd
                       (seqZ (c_cx c + 1) (width - 1))) c.

(** The cell at the cursor, which then moves on. *)
Definition write_here (gc : grid_cell) (width : Z) (c : write_ctx) : write_ctx :=
  let insert := s_has (c_s c) MODE_INSERT in
  let '(done, c) :=
    if has (gl_flags (c_line c)) GRID_LINE_EXTENDED
    then screen_write_overwrite (view_cell c (c_cx c)) width c else (false, c) in
  let c := pad_after width c in
  let skip := negb insert && negb done && (width <=? 1) && already_there gc c in
  let c := store_selected gc skip c in
  let not_wrap := if s_has (c_s c) MODE_WRAP then 0 else 1 in
  if c_cx c <=? u32 (c_sx c - not_wrap - width)
  then screen_write_set_cursor (u32 (c_cx c + width)) (-1) c
  else screen_write_set_cursor (u32 (c_sx c - not_wrap)) (-1) c.

Definition screen_write_cell (gc : grid_cell) (c : write_ctx) : write_ctx :=
  let width := ud_width (gc_data gc) in
  let sx := c_sx c in
  if is_padding gc then c
  else
    let '(combined, c) := screen_write_combine gc c in
    let wraps := s_has (c_s c) MODE_WRAP in
    if combined then c
    else if negb wraps && (1 <? width) &&
            ((sx <? width) || (negb (c_cx c =? sx) && (u32 (sx - width) <? c_cx c))) then c
    else
      let c := if s_has (c_s c) MODE_INSERT
               then on_grid (fun gd => grid_view_insert_cells gd (c_cx c) (c_cy c) width 8) c
               else c in
      let c := if wraps && (u32 (sx - width) <? c_cx c)
               then screen_write_set_cursor 0 (-1) (screen_write_linefeed true 8 c) else c in
      if (u32 (sx - width) <? c_cx c) || (u32 (c_sy c - 1) <? c_cy c) then c
      else write_here gc width c.

Definition screen_write_putc (gc : grid_cell) (ch : Z) (c : write_ctx) : write_ctx :=
  screen_write_cell (set_gc_data (utf8_set ch) gc) c.

(** ** Collecting plain characters *)

(** The padding before the cursor that the text will end, with the character
    it belongs to. *)
Definition clear_before (c : write_ctx) : write_ctx :=
  let cx := c_cx c in
  if cx =? 0 then c
  else
    let '(xx, c) := erase_left (Z.to_nat cx) cx c in
    if xx =? cx then c
    else
      let gc := view_cell c xx in
      if (1 <? ud_width (gc_data gc)) || is_padding gc then put_view xx grid_default_cell c else c.

Definition screen_write_collect_end (c : write_ctx) : write_ctx :=
  match c_text c with
  | [] => c
  | text =>
      let gc := c_gc c in
      let c := clear_before (new_item c) in
      let c := on_grid (fun gd => grid_view_set_cells gd (c_cx c) (c_cy c) gc text) c in
      let c := screen_write_set_cursor (u32 (c_cx c + Z.of_nat (length text))) (-1) c in
      erase_right (Z.to_nat (c_sx c - c_cx c)) (c_cx c) grid_default_cell c
  end.

(** Whether a cell can be collected. *)
Definition collectable (gc : grid_cell) (s : screen) : bool :=
  let ud := gc_data gc in
  (ud_width ud =? 1) && (ud_size ud =? 1) && (nth 0 (ud_data ud) 0 <? 0x7f) &&
  negb (has (gc_flags gc) GRID_FLAG_TAB) && negb (has (gc_attr gc) GRID_ATTR_CHARSET) &&
  s_has s MODE_WRAP && negb (s_has s MODE_INSERT) &&
  match s_sel s with Some _ => false | None => true end.

Definition screen_write_collect_add (gc : grid_cell) (c : write_ctx) : write_ctx :=
  let sx := c_sx c in
  if negb (collectable gc (c_s c)) then screen_write_cell gc (screen_write_collect_end c)
  else
    let c := if (u32 (sx - 1) <? c_cx c) ||
                (u32 (sx - 1 - c_cx c) <? Z.of_nat (length (c_text c)))
             then screen_write_collect_end c else c in
    let c := if u32 (sx - 1) <? c_cx c
             then screen_write_set_cursor 0 (-1) (screen_write_linefeed true 8 c) else c in
    let item := if (0 <? length (c_text c))%nat then c_gc c else gc in
    set_c_item item (c_text c ++ [nth 0 (ud_data (gc_data gc)) 0]) c.

(** The end of writing. *)
Definition screen_write_stop (c : write_ctx) : write_ctx := screen_write_collect_end c.

(** ** Text *)

(** The width of what [screen_write_vnputs] will write. *)
Definition screen_write_strlen (msg : list Z) : option Z :=
  (fix go (fuel : nat) (l : list Z) (size : Z) : option Z :=
     match fuel, l with
     | S fuel, ch :: l' =>
         let plain := if (ch =? 9) || ((0x1f <? ch) && (ch <? 0x7f)) then size + 1 else size in
         if 0x7f <? ch then
           match utf8_open loc_mbtowc loc_wcwidth loc_widths false ch with
           | None => None
           | Some (UTF8_MORE, ud) =>
               if Z.of_nat (length l') <? ud_size ud - 1 then Some size
               else
                 let n := Z.to_nat (ud_size ud - 1) in
                 match utf8_feed loc_mbtowc loc_wcwidth loc_widths false UTF8_MORE ud (take n l') with
                 | None => None
                 | Some (UTF8_DONE, ud, _) => go fuel (drop n l') (size + ud_width ud)
                 | Some _ => go fuel (drop n l') size
                 end
           | Some _ => go fuel l' plain
           end
         else go fuel l' plain
     | _, _ => Some size
     end) (length msg) msg 0.

(** A string of at most [maxlen] columns (no limit when it is not positive); a
    character that does not fit is replaced by spaces and ends it. *)
Definition screen_write_vnputs (maxlen : Z) (gc : grid_cell) (msg : list Z) (c : write_ctx) :
    option write_ctx :=
  (fix go (fuel : nat) (gc : grid_cell) (l : list Z) (size : Z) (c : write_ctx) :
       option write_ctx :=
     match fuel, l with
     | S fuel, ch :: l' =>
         let plain :=
           if (0 <? maxlen) && (maxlen <? size + 1) then Some c
           else if ch =? 1 then
             go fuel (GC (gc_data gc) (Z.lxor (gc_attr gc) GRID_ATTR_CHARSET) (gc_flags gc)
                        (gc_fg gc) (gc_bg gc) (gc_us gc) (gc_link gc)) l' size c
           else if ch =? 10 then
             go fuel gc l' size (screen_write_carriagereturn (screen_write_linefeed false 8 c))
           else if (ch =? 9) || ((0x1f <? ch) && (ch <? 0x7f)) then
             go fuel gc l' (size + 1) (screen_write_putc gc ch c)
           else go fuel gc l' size c in
         if 0x7f <? ch then
           match utf8_open loc_mbtowc loc_wcwidth loc_widths false ch with
           | None => None
           | Some (UTF8_MORE, ud) =>
               if Z.of_nat (length l') <? ud_size ud - 1 then Some c
               else
                 let n := Z.to_nat (ud_size ud - 1) in
                 match utf8_feed loc_mbtowc loc_wcwidth loc_widths false UTF8_MORE ud (take n l') with
                 | None => None
                 | Some (UTF8_DONE, ud, _) =>
                     let gc := set_gc_data ud gc in
                     if (0 <? maxlen) && (maxlen <? size + ud_width ud)
                     then Some (Nat.iter (Z.to_nat (maxlen - size)) (screen_write_putc gc 32) c)
                     else go fuel gc (drop n l') (size + ud_width ud) (screen_write_cell gc c)
                 | Some (_, ud, _) => go fuel (set_gc_data ud gc) (drop n l') size c
                 end
           | Some (_, ud) =>
               (* the failed character is left in the cell, which is not used *)
               plain
           end
         else plain
     | _, _ => Some c
     end) (length msg) gc msg 0 c.

(** *** Text over several lines *)

Definition is_char (ch : Z) (ud : utf8_data) : bool :=
  (ud_size ud =? 1) && (nth 0 (ud_data ud) 0 =? ch).

(** The number of characters that fit in [left] columns. *)
Fixpoint text_fit (text : list utf8_data) (left at_ : Z) : nat :=
  match text with
  | [] => O
  | ud :: text =>
      if is_char 10 ud || (left <? u32 (at_ + ud_width ud)) then O
      else S (text_fit text left (u32 (at_ + ud_width ud)))
  end.

(** The last space among the first characters, the first one apart: walking
    back from [end]. *)
Fixpoint last_space (text : list utf8_data) (n : nat) : nat :=
  match n with
  | O => O
  | S n' => match text !! n with
            | Some ud => if is_char 32 ud then n else last_space text n'
            | None => last_space text n'
            end
  end.

(** How many characters go on this line, and where the next line starts. *)
Definition text_break (text : list utf8_data) (left : Z) : nat * nat :=
  let stop := text_fit text left 0 in
  match text !! stop with
  | None => (stop, stop)
  | Some ud =>
      if is_char 10 ud || is_char 32 ud then (stop, S stop)
      else match last_space text stop with
           | O => (stop, stop)
           | S i => (S i, S (S i))
           end
  end.

Definition screen_write_text (cx width lines : Z) (more : bool) (gc : grid_cell) (msg : list Z)
    (c : write_ctx) : option (bool * write_ctx) :=
  text ← utf8_fromcstr loc_mbtowc loc_wcwidth loc_widths msg;
  let last_line := u32 (c_cy c + lines - 1) in
  let fix go (fuel : nat) (text : list utf8_data) (left : Z) (c : write_ctx) :
      option (list utf8_data * write_ctx) :=
    match fuel with
    | O => None
    | S fuel =>
        let '(stop, next) := text_break text left in
        let c := foldl (fun c ud => screen_write_cell (set_gc_data (utf8_copy ud) gc) c) c
                   (take stop text) in
        let text := drop next text in
        match text with
        | [] => Some (text, c)
        | _ => if c_cy c =? last_line then Some (text, c)
               else go fuel text width (screen_write_cursormove cx (s32 (c_cy c + 1)) false c)
        end
    end in
  '(rest, c) ← go (Z.to_nat lines + 1 + length text)%nat text (u32 (cx + width - c_cx c)) c;
  let at_end := c_cx c =? u32 (cx + width) in
  if ((c_cy c =? last_line) && (negb more || at_end)) ||
     match rest with [] => false | _ => true end
  then Some (false, c)
  else Some (true, if negb more || at_end
                   then screen_write_cursormove cx (s32 (c_cy c + 1)) false c else c).

End Write.
