(* ===== verification/InputTable.v ===== *)
(** * The tables of the input parser (src/tmux/terminal/input.c)

    The states with their transitions, and the escape and control sequences
    the parser knows. *)
From Stdlib Require Import Ascii String.
From S2P Require Import Prelude.
From S2P Require Import CString.

(** ** States *)

Inductive input_state :=
  | ground | esc_enter | esc_intermediate | csi_enter | csi_parameter | csi_intermediate
  | csi_ignore | dcs_enter | dcs_parameter | dcs_intermediate | dcs_handler | dcs_escape
  | dcs_ignore | osc_string | apc_string | rename_string | consume_st.

#[global] Instance input_state_eq_dec : EqDecision input_state.
Proof. solve_decision. Defined.

(** The functions a transition can run. *)
Inductive handler :=
  | H_print | H_intermediate | H_parameter | H_input | H_c0_dispatch | H_esc_dispatch
  | H_csi_dispatch | H_dcs_dispatch | H_top_bit_set | H_end_bel.

#[global] Instance handler_eq_dec : EqDecision handler.
Proof. solve_decision. Defined.

(** Bytes from [first] to [last]; no state means that the state stays. *)
Record input_transition := Tr {
  tr_first : Z;
  tr_last : Z;
  tr_handler : option handler;
  tr_state : option input_state
}.

Definition INPUT_STATE_ANYWHERE : list input_transition := [
  Tr 0x18 0x18 (Some H_c0_dispatch) (Some ground);
  Tr 0x1a 0x1a (Some H_c0_dispatch) (Some ground);
  Tr 0x1b 0x1b None (Some esc_enter)
].

Definition input_state_ground_table : list input_transition :=
  INPUT_STATE_ANYWHERE ++ [
   Tr 0x00 0x17 (Some H_c0_dispatch) None;
   Tr 0x19 0x19 (Some H_c0_dispatch) None;
   Tr 0x1c 0x1f (Some H_c0_dispatch) None;
   Tr 0x20 0x7e (Some H_print) None;
   Tr 0x7f 0x7f None None;
   Tr 0x80 0xff (Some H_top_bit_set) None
  ].

Definition input_state_esc_enter_table : list input_transition :=
  INPUT_STATE_ANYWHERE ++ [
   Tr 0x00 0x17 (Some H_c0_dispatch) None;
   Tr 0x19 0x19 (Some H_c0_dispatch) None;
   Tr 0x1c 0x1f (Some H_c0_dispatch) None;
   Tr 0x20 0x2f (Some H_intermediate) (Some esc_intermediate);
   Tr 0x30 0x4f (Some H_esc_dispatch) (Some ground);
   Tr 0x50 0x50 None (Some dcs_enter);
   Tr 0x51 0x57 (Some H_esc_dispatch) (Some ground);
   Tr 0x58 0x58 None (Some consume_st);
   Tr 0x59 0x59 (Some H_esc_dispatch) (Some ground);
   Tr 0x5a 0x5a (Some H_esc_dispatch) (Some ground);
   Tr 0x5b 0x5b None (Some csi_enter);
   Tr 0x5c 0x5c (Some H_esc_dispatch) (Some ground);
   Tr 0x5d 0x5d None (Some osc_string);
   Tr 0x5e 0x5e None (Some consume_st);
   Tr 0x5f 0x5f None (Some apc_string);
   Tr 0x60 0x6a (Some H_esc_dispatch) (Some ground);
   Tr 0x6b 0x6b None (Some rename_string);
   Tr 0x6c 0x7e (Some H_esc_dispatch) (Some ground);
   Tr 0x7f 0xff None None
  ].

Definition input_state_esc_intermediate_table : list input_transition :=
  INPUT_STATE_ANYWHERE ++ [
   Tr 0x00 0x17 (Some H_c0_dispatch) None;
   Tr 0x19 0x19 (Some H_c0_dispatch) None;
   Tr 0x1c 0x1f (Some H_c0_dispatch) None;
   Tr 0x20 0x2f (Some H_intermediate) None;
   Tr 0x30 0x7e (Some H_esc_dispatch) (Some ground);
   Tr 0x7f 0xff None None
  ].

Definition input_state_csi_enter_table : list input_transition :=
  INPUT_STATE_ANYWHERE ++ [
   Tr 0x00 0x17 (Some H_c0_dispatch) None;
   Tr 0x19 0x19 (Some H_c0_dispatch) None;
   Tr 0x1c 0x1f (Some H_c0_dispatch) None;
   Tr 0x20 0x2f (Some H_intermediate) (Some csi_intermediate);
   Tr 0x30 0x39 (Some H_parameter) (Some csi_parameter);
   Tr 0x3a 0x3a (Some H_parameter) (Some csi_parameter);
   Tr 0x3b 0x3b (Some H_parameter) (Some csi_parameter);
   Tr 0x3c 0x3f (Some H_intermediate) (Some csi_parameter);
   Tr 0x40 0x7e (Some H_csi_dispatch) (Some ground);
   Tr 0x7f 0xff None None
  ].

Definition input_state_csi_parameter_table : list input_transition :=
  INPUT_STATE_ANYWHERE ++ [
   Tr 0x00 0x17 (Some H_c0_dispatch) None;
   Tr 0x19 0x19 (Some H_c0_dispatch) None;
   Tr 0x1c 0x1f (Some H_c0_dispatch) None;
   Tr 0x20 0x2f (Some H_intermediate) (Some csi_intermediate);
   Tr 0x30 0x39 (Some H_parameter) None;
   Tr 0x3a 0x3a (Some H_parameter) None;
   Tr 0x3b 0x3b (Some H_parameter) None;
   Tr 0x3c 0x3f None (Some csi_ignore);
   Tr 0x40 0x7e (Some H_csi_dispatch) (Some ground);
   Tr 0x7f 0xff None None
  ].

Definition input_state_csi_intermediate_table : list input_transition :=
  INPUT_STATE_ANYWHERE ++ [
   Tr 0x00 0x17 (Some H_c0_dispatch) None;
   Tr 0x19 0x19 (Some H_c0_dispatch) None;
   Tr 0x1c 0x1f (Some H_c0_dispatch) None;
   Tr 0x20 0x2f (Some H_intermediate) None;
   Tr 0x30 0x3f None (Some csi_ignore);
   Tr 0x40 0x7e (Some H_csi_dispatch) (Some ground);
   Tr 0x7f 0xff None None
  ].

Definition input_state_csi_ignore_table : list input_transition :=
  INPUT_STATE_ANYWHERE ++ [
   Tr 0x00 0x17 (Some H_c0_dispatch) None;
   Tr 0x19 0x19 (Some H_c0_dispatch) None;
   Tr 0x1c 0x1f (Some H_c0_dispatch) None;
   Tr 0x20 0x3f None None;
   Tr 0x40 0x7e None (Some ground);
   Tr 0x7f 0xff None None
  ].

Definition input_state_dcs_enter_table : list input_transition :=
  INPUT_STATE_ANYWHERE ++ [
   Tr 0x00 0x17 None None;
   Tr 0x19 0x19 None None;
   Tr 0x1c 0x1f None None;
   Tr 0x20 0x2f (Some H_intermediate) (Some dcs_intermediate);
   Tr 0x30 0x39 (Some H_parameter) (Some dcs_parameter);
   Tr 0x3a 0x3a None (Some dcs_ignore);
   Tr 0x3b 0x3b (Some H_parameter) (Some dcs_parameter);
   Tr 0x3c 0x3f (Some H_intermediate) (Some dcs_parameter);
   Tr 0x40 0x7e (Some H_input) (Some dcs_handler);
   Tr 0x7f 0xff None None
  ].

Definition input_state_dcs_parameter_table : list input_transition :=
  INPUT_STATE_ANYWHERE ++ [
   Tr 0x00 0x17 None None;
   Tr 0x19 0x19 None None;
   Tr 0x1c 0x1f None None;
   Tr 0x20 0x2f (Some H_intermediate) (Some dcs_intermediate);
   Tr 0x30 0x39 (Some H_parameter) None;
   Tr 0x3a 0x3a None (Some dcs_ignore);
   Tr 0x3b 0x3b (Some H_parameter) None;
   Tr 0x3c 0x3f None (Some dcs_ignore);
   Tr 0x40 0x7e (Some H_input) (Some dcs_handler);
   Tr 0x7f 0xff None None
  ].

Definition input_state_dcs_intermediate_table : list input_transition :=
  INPUT_STATE_ANYWHERE ++ [
   Tr 0x00 0x17 None None;
   Tr 0x19 0x19 None None;
   Tr 0x1c 0x1f None None;
   Tr 0x20 0x2f (Some H_intermediate) None;
   Tr 0x30 0x3f None (Some dcs_ignore);
   Tr 0x40 0x7e (Some H_input) (Some dcs_handler);
   Tr 0x7f 0xff None None
  ].

Definition input_state_dcs_handler_table : list input_transition :=
  [
   Tr 0x00 0x1a (Some H_input) None;
   Tr 0x1b 0x1b None (Some dcs_escape);
   Tr 0x1c 0xff (Some H_input) None
  ].

Definition input_state_dcs_escape_table : list input_transition :=
  [
   Tr 0x00 0x5b (Some H_input) (Some dcs_handler);
   Tr 0x5c 0x5c (Some H_dcs_dispatch) (Some ground);
   Tr 0x5d 0xff (Some H_input) (Some dcs_handler)
  ].

Definition input_state_dcs_ignore_table : list input_transition :=
  INPUT_STATE_ANYWHERE ++ [
   Tr 0x00 0x17 None None;
   Tr 0x19 0x19 None None;
   Tr 0x1c 0x1f None None;
   Tr 0x20 0xff None None
  ].

Definition input_state_osc_string_table : list input_transition :=
  INPUT_STATE_ANYWHERE ++ [
   Tr 0x00 0x06 None None;
   Tr 0x07 0x07 (Some H_end_bel) (Some ground);
   Tr 0x08 0x17 None None;
   Tr 0x19 0x19 None None;
   Tr 0x1c 0x1f None None;
   Tr 0x20 0xff (Some H_input) None
  ].

Definition input_state_apc_string_table : list input_transition :=
  INPUT_STATE_ANYWHERE ++ [
   Tr 0x00 0x17 None None;
   Tr 0x19 0x19 None None;
   Tr 0x1c 0x1f None None;
   Tr 0x20 0xff (Some H_input) None
  ].

Definition input_state_rename_string_table : list input_transition :=
  INPUT_STATE_ANYWHERE ++ [
   Tr 0x00 0x17 None None;
   Tr 0x19 0x19 None None;
   Tr 0x1c 0x1f None None;
   Tr 0x20 0xff (Some H_input) None
  ].

Definition input_state_consume_st_table : list input_transition :=
  INPUT_STATE_ANYWHERE ++ [
   Tr 0x00 0x17 None None;
   Tr 0x19 0x19 None None;
   Tr 0x1c 0x1f None None;
   Tr 0x20 0xff None None
  ].

Definition transitions (st : input_state) : list input_transition :=
  match st with
  | ground => input_state_ground_table
  | esc_enter => input_state_esc_enter_table
  | esc_intermediate => input_state_esc_intermediate_table
  | csi_enter => input_state_csi_enter_table
  | csi_parameter => input_state_csi_parameter_table
  | csi_intermediate => input_state_csi_intermediate_table
  | csi_ignore => input_state_csi_ignore_table
  | dcs_enter => input_state_dcs_enter_table
  | dcs_parameter => input_state_dcs_parameter_table
  | dcs_intermediate => input_state_dcs_intermediate_table
  | dcs_handler => input_state_dcs_handler_table
  | dcs_escape => input_state_dcs_escape_table
  | dcs_ignore => input_state_dcs_ignore_table
  | osc_string => input_state_osc_string_table
  | apc_string => input_state_apc_string_table
  | rename_string => input_state_rename_string_table
  | consume_st => input_state_consume_st_table
  end.

(** ** Sequences *)

Inductive input_esc_type :=
  | INPUT_ESC_DECALN | INPUT_ESC_DECKPAM | INPUT_ESC_DECKPNM | INPUT_ESC_DECRC
  | INPUT_ESC_DECSC | INPUT_ESC_HTS | INPUT_ESC_IND | INPUT_ESC_NEL | INPUT_ESC_RI
  | INPUT_ESC_RIS | INPUT_ESC_SCSG0_OFF | INPUT_ESC_SCSG0_ON | INPUT_ESC_SCSG1_OFF
  | INPUT_ESC_SCSG1_ON | INPUT_ESC_ST.

Inductive input_csi_type :=
  | INPUT_CSI_CBT | INPUT_CSI_CNL | INPUT_CSI_CPL | INPUT_CSI_CUB | INPUT_CSI_CUD
  | INPUT_CSI_CUF | INPUT_CSI_CUP | INPUT_CSI_CUU | INPUT_CSI_DA | INPUT_CSI_DA_TWO
  | INPUT_CSI_DCH | INPUT_CSI_DECSCUSR | INPUT_CSI_DECSTBM | INPUT_CSI_DL
  | INPUT_CSI_DSR | INPUT_CSI_DSR_PRIVATE | INPUT_CSI_ECH | INPUT_CSI_ED | INPUT_CSI_EL
  | INPUT_CSI_HPA | INPUT_CSI_ICH | INPUT_CSI_IL | INPUT_CSI_MODOFF | INPUT_CSI_MODSET
  | INPUT_CSI_QUERY_PRIVATE | INPUT_CSI_RCP | INPUT_CSI_REP | INPUT_CSI_RM
  | INPUT_CSI_RM_PRIVATE | INPUT_CSI_SCP | INPUT_CSI_SD | INPUT_CSI_SGR | INPUT_CSI_SM
  | INPUT_CSI_SM_GRAPHICS | INPUT_CSI_SM_PRIVATE | INPUT_CSI_SU | INPUT_CSI_TBC
  | INPUT_CSI_VPA | INPUT_CSI_WINOPS | INPUT_CSI_XDA.

(** An entry: its last byte, the intermediate bytes and what it is. *)
Record input_table_entry (T : Type) := Entry {
  e_ch : Z;
  e_interm : list Z;
  e_type : T
}.
Arguments Entry {T}.
Arguments e_ch {T}.
Arguments e_interm {T}.
Arguments e_type {T}.

Definition input_esc_table : list (input_table_entry input_esc_type) := [
  Entry 48 [40] INPUT_ESC_SCSG0_ON;
  Entry 48 [41] INPUT_ESC_SCSG1_ON;
  Entry 55 [] INPUT_ESC_DECSC;
  Entry 56 [] INPUT_ESC_DECRC;
  Entry 56 [35] INPUT_ESC_DECALN;
  Entry 61 [] INPUT_ESC_DECKPAM;
  Entry 62 [] INPUT_ESC_DECKPNM;
  Entry 66 [40] INPUT_ESC_SCSG0_OFF;
  Entry 66 [41] INPUT_ESC_SCSG1_OFF;
  Entry 68 [] INPUT_ESC_IND;
  Entry 69 [] INPUT_ESC_NEL;
  Entry 72 [] INPUT_ESC_HTS;
  Entry 77 [] INPUT_ESC_RI;
  Entry 92 [] INPUT_ESC_ST;
  Entry 99 [] INPUT_ESC_RIS
].

Definition input_csi_table : list (input_table_entry input_csi_type) := [
  Entry 64 [] INPUT_CSI_ICH;
  Entry 65 [] INPUT_CSI_CUU;
  Entry 66 [] INPUT_CSI_CUD;
  Entry 67 [] INPUT_CSI_CUF;
  Entry 68 [] INPUT_CSI_CUB;
  Entry 69 [] INPUT_CSI_CNL;
  Entry 70 [] INPUT_CSI_CPL;
  Entry 71 [] INPUT_CSI_HPA;
  Entry 72 [] INPUT_CSI_CUP;
  Entry 74 [] INPUT_CSI_ED;
  Entry 75 [] INPUT_CSI_EL;
  Entry 76 [] INPUT_CSI_IL;
  Entry 77 [] INPUT_CSI_DL;
  Entry 80 [] INPUT_CSI_DCH;
  Entry 83 [] INPUT_CSI_SU;
  Entry 83 [63] INPUT_CSI_SM_GRAPHICS;
  Entry 84 [] INPUT_CSI_SD;
  Entry 88 [] INPUT_CSI_ECH;
  Entry 90 [] INPUT_CSI_CBT;
  Entry 96 [] INPUT_CSI_HPA;
  Entry 98 [] INPUT_CSI_REP;
  Entry 99 [] INPUT_CSI_DA;
  Entry 99 [62] INPUT_CSI_DA_TWO;
  Entry 100 [] INPUT_CSI_VPA;
  Entry 102 [] INPUT_CSI_CUP;
  Entry 103 [] INPUT_CSI_TBC;
  Entry 104 [] INPUT_CSI_SM;
  Entry 104 [63] INPUT_CSI_SM_PRIVATE;
  Entry 108 [] INPUT_CSI_RM;
  Entry 108 [63] INPUT_CSI_RM_PRIVATE;
  Entry 109 [] INPUT_CSI_SGR;
  Entry 109 [62] INPUT_CSI_MODSET;
  Entry 110 [] INPUT_CSI_DSR;
  Entry 110 [62] INPUT_CSI_MODOFF;
  Entry 110 [63] INPUT_CSI_DSR_PRIVATE;
  Entry 112 [63; 36] INPUT_CSI_QUERY_PRIVATE;
  Entry 113 [32] INPUT_CSI_DECSCUSR;
  Entry 113 [62] INPUT_CSI_XDA;
  Entry 114 [] INPUT_CSI_DECSTBM;
  Entry 115 [] INPUT_CSI_SCP;
  Entry 116 [] INPUT_CSI_WINOPS;
  Entry 117 [] INPUT_CSI_RCP
].

Definition input_table_compare {T} (ch : Z) (interm : list Z) (entry : input_table_entry T) : Z :=
  if negb (ch =? e_ch entry) then ch - e_ch entry else strcmp interm (e_interm entry).

(** [bsearch]: the half of the table that the comparison points to. *)
Fixpoint bsearch {T} (fuel : nat) (cmp : T -> Z) (table : list T) : option T :=
  match fuel with
  | O => None
  | S fuel =>
      let mid := (length table / 2)%nat in
      e ← table !! mid;
      if cmp e =? 0 then Some e
      else if cmp e <? 0 then bsearch fuel cmp (take mid table)
      else bsearch fuel cmp (drop (S mid) table)
  end.

Definition input_lookup {T} (table : list (input_table_entry T)) (ch : Z) (interm : list Z) :
    option T :=
  e_type <$> bsearch (S (length table)) (input_table_compare ch interm) table.
