(* ===== verification/Input.v ===== *)
(** * The input parser (src/tmux/terminal/input.c)

    The parser keeps a context ([input_ctx]) beside the screen it writes to;
    [term] is both, with the palette, the hyperlinks and what has been done
    outside: replies, notifications, clipboard.  Every handler of the source
    returns 0, so none has a result here.  [None] is [fatalx] or an access out
    of bounds. *)
From Stdlib Require Import Ascii String.
From S2P Require Import Prelude.
From S2P Require Import CString.
From S2P Require Import Utf8.
From S2P Require Import CellCodec.
From S2P Require Import Locale.
From S2P Require Import Base64.
From S2P Require Import Hyperlinks.
From S2P Require Import Grid.
From S2P Require Import Colour.
From S2P Require Import Reflow.
From S2P Require Import Screen.
From S2P Require Import ScreenInfo.
From S2P Require Import ScreenWrite.
From S2P Require Import InputTable.

(** ** The state *)

Record input_cell := ICell {
  ic_cell : grid_cell;
  ic_set : Z;
  ic_g0set : Z;
  ic_g1set : Z
}.

Inductive input_param := INPUT_MISSING | INPUT_NUMBER (num : Z) | INPUT_STRING (str : list Z).

Inductive input_end_type := INPUT_END_ST | INPUT_END_BEL.

Inductive input_request_type :=
  INPUT_REQUEST_PALETTE | INPUT_REQUEST_CLIPBOARD | INPUT_REQUEST_QUEUE.

#[global] Instance input_request_type_eq_dec : EqDecision input_request_type.
Proof. solve_decision. Defined.

Record input_request := Request {
  ir_type : input_request_type;
  ir_t : Z;
  ir_end : input_end_type;
  ir_idx : Z;
  ir_data : string
}.

(** [old_cell], [old_cx], [old_cy] and [old_mode]. *)
Record saved_state := Saved {
  old_cell : input_cell;
  old_cx : Z;
  old_cy : Z;
  old_mode : Z
}.

(** What has been collected of a sequence.  [q_space] is the size of the buffer;
    the buffer itself is shorter than [q_buf] when the ground state has cut it. *)
Record sequence := Sequence {
  q_interm : list Z;
  q_param : list Z;
  q_buf : list Z;
  q_space : Z;
  q_end : input_end_type
}.

(** The character being put together, whether there is one, and the last one. *)
Record characters := Characters {
  utf8data : utf8_data;
  utf8started : bool;
  last_char : utf8_data
}.

Record input_ctx := Ictx {
  i_cell : input_cell;
  i_saved : saved_state;
  i_seq : sequence;
  i_params : list input_param;
  i_chars : characters;
  i_ch : Z;
  i_state : input_state;
  i_flags : Z;
  i_requests : list input_request;
  i_since_ground : list Z
}.

Definition INPUT_DISCARD : Z := 0x1.
Definition INPUT_LAST : Z := 0x2.
Definition INPUT_BUF_START : Z := 32.

(** What the parser does besides. *)
Inductive effect :=
  | Bell                                    (* alerts_queue, WINDOW_BELL *)
  | Sent (reply : string)                   (* to the program *)
  | TitleChanged                            (* notify_pane, pane-title-changed *)
  | WindowRedrawn                           (* borders and status *)
  | FullRedraw
  | PaneRedraw                              (* PANE_REDRAW *)
  | StyleChanged (theme : bool)             (* PANE_STYLECHANGED, PANE_THEMECHANGED *)
  | ThemeRead                               (* last_theme, no PANE_THEMECHANGED *)
  | ThemeSeen                               (* no PANE_THEMECHANGED *)
  | Renamed (name : list Z)                 (* automatic-rename off *)
  | NameUnset                               (* automatic-rename as it is by default *)
  | Passed (data : list Z) (always : bool)  (* screen_write_rawstring *)
  | Clipboard (clip data : list Z) (pane : bool)
  | Asked (type : input_request_type) (idx : Z)
  | Changed.                                (* window activity, PANE_CHANGED *)

Record term := Term {
  t_in : input_ctx;
  t_w : write_ctx;
  t_palette : colour_palette;
  t_hyperlinks : Z;
  t_links : links;
  t_out : list effect
}.

(** Where the parser runs: with a pane ([ictx->wp]) or not, with something to
    reply to ([ictx->event]), with a client ([ictx->c]); whether a client shows
    the window; the time; the options; what other parts answer. *)
Record input_env := IEnv {
  ie_write : write_env;
  ie_pane : bool;
  ie_event : bool;
  ie_client : bool;
  ie_attached : bool;
  ie_now : Z;
  ie_buffer_size : Z;
  ie_cursor_style : Z;
  ie_allow_set_title : bool;
  ie_allow_rename : bool;
  ie_allow_passthrough : Z;
  ie_set_clipboard : Z;
  ie_get_clipboard : Z;
  ie_xpixel : Z;
  ie_ypixel : Z;
  ie_theme : client_theme;
  ie_version : string;
  ie_fg : colour_palette -> Z;
  ie_bg : colour_palette -> Z;
  ie_paste_top : option (list Z);
  ie_scan_cmyk : string -> option (Z * Z * Z)
}.

(** *** Changing a part *)

Definition on_in (f : input_ctx -> input_ctx) (t : term) : term :=
  Term (f (t_in t)) (t_w t) (t_palette t) (t_hyperlinks t) (t_links t) (t_out t).
Definition on_w (f : write_ctx -> write_ctx) (t : term) : term :=
  Term (t_in t) (f (t_w t)) (t_palette t) (t_hyperlinks t) (t_links t) (t_out t).
Definition set_palette (p : colour_palette) (t : term) : term :=
  Term (t_in t) (t_w t) p (t_hyperlinks t) (t_links t) (t_out t).
Definition set_links (l : links) (t : term) : term :=
  Term (t_in t) (t_w t) (t_palette t) (t_hyperlinks t) l (t_out t).
Definition emit (e : effect) (t : term) : term :=
  Term (t_in t) (t_w t) (t_palette t) (t_hyperlinks t) (t_links t) (t_out t ++ [e]).

Definition set_i_cell x i :=
  Ictx x (i_saved i) (i_seq i) (i_params i) (i_chars i) (i_ch i) (i_state i) (i_flags i)
    (i_requests i) (i_since_ground i).
Definition set_i_saved x i :=
  Ictx (i_cell i) x (i_seq i) (i_params i) (i_chars i) (i_ch i) (i_state i) (i_flags i)
    (i_requests i) (i_since_ground i).
Definition set_i_seq x i :=
  Ictx (i_cell i) (i_saved i) x (i_params i) (i_chars i) (i_ch i) (i_state i) (i_flags i)
    (i_requests i) (i_since_ground i).
Definition set_i_params x i :=
  Ictx (i_cell i) (i_saved i) (i_seq i) x (i_chars i) (i_ch i) (i_state i) (i_flags i)
    (i_requests i) (i_since_ground i).
Definition set_i_chars x i :=
  Ictx (i_cell i) (i_saved i) (i_seq i) (i_params i) x (i_ch i) (i_state i) (i_flags i)
    (i_requests i) (i_since_ground i).
Definition set_i_ch x i :=
  Ictx (i_cell i) (i_saved i) (i_seq i) (i_params i) (i_chars i) x (i_state i) (i_flags i)
    (i_requests i) (i_since_ground i).
Definition set_i_state x i :=
  Ictx (i_cell i) (i_saved i) (i_seq i) (i_params i) (i_chars i) (i_ch i) x (i_flags i)
    (i_requests i) (i_since_ground i).
Definition set_i_flags x i :=
  Ictx (i_cell i) (i_saved i) (i_seq i) (i_params i) (i_chars i) (i_ch i) (i_state i) x
    (i_requests i) (i_since_ground i).
Definition set_i_requests x i :=
  Ictx (i_cell i) (i_saved i) (i_seq i) (i_params i) (i_chars i) (i_ch i) (i_state i)
    (i_flags i) x (i_since_ground i).
Definition set_i_since_ground x i :=
  Ictx (i_cell i) (i_saved i) (i_seq i) (i_params i) (i_chars i) (i_ch i) (i_state i)
    (i_flags i) (i_requests i) x.

Definition set_flag (f : Z) : term -> term := on_in (fun i => set_i_flags (Z.lor (i_flags i) f) i).
Definition clear_flag (f : Z) : term -> term := on_in (fun i => set_i_flags (without (i_flags i) f) i).
Definition flag_set (f : Z) (t : term) : bool := has (i_flags (t_in t)) f.
(** The cell characters are written with. *)
Definition cell_of (t : term) : grid_cell := ic_cell (i_cell (t_in t)).
Definition on_cell (f : grid_cell -> grid_cell) : term -> term :=
  on_in (fun i => let c := i_cell i in
                  set_i_cell (ICell (f (ic_cell c)) (ic_set c) (ic_g0set c) (ic_g1set c)) i).
Definition seq_of (t : term) : sequence := i_seq (t_in t).
Definition params_of (t : term) : list input_param := i_params (t_in t).
Definition ch_of (t : term) : Z := i_ch (t_in t).
Definition screen_of (t : term) : screen := c_s (t_w t).
Definition on_screen (f : screen -> screen) : term -> term := on_w (on_s f).

Definition attr_on (a : Z) (gc : grid_cell) : grid_cell := set_gc_attr (Z.lor (gc_attr gc) a) gc.
Definition attr_off (a : Z) (gc : grid_cell) : grid_cell := set_gc_attr (without (gc_attr gc) a) gc.

(** ** Parameters *)

(** The fields between separators ([strsep]). *)
Fixpoint strsep (sep : Z) (l : list Z) : list (list Z) :=
  match l with
  | [] => [[]]
  | c :: l =>
      if c =? sep then [] :: strsep sep l
      else match strsep sep l with
           | f :: fs => (c :: f) :: fs
           | [] => [[c]]
           end
  end.

Definition to_number (l : list Z) : option Z :=
  match strtonum (string_of_bytes l) 0 INT_MAX with inl n => Some n | inr _ => None end.

Definition param_of_field (f : list Z) : option input_param :=
  match f with
  | [] => Some INPUT_MISSING
  | _ => if bool_decide (58 ∈ f) then Some (INPUT_STRING f) else INPUT_NUMBER <$> to_number f
  end.

(** Whether every field was a parameter and there were fewer than 24. *)
Fixpoint split_fields (fields : list (list Z)) (acc : list input_param) :
    bool * list input_param :=
  match fields with
  | [] => (true, acc)
  | f :: fields =>
      match param_of_field f with
      | None => (false, acc)
      | Some p =>
          if (length (acc ++ [p]) =? 24)%nat then (false, acc ++ [p])
          else split_fields fields (acc ++ [p])
      end
  end.

Definition input_split (t : term) : bool * term :=
  match q_param (seq_of t) with
  | [] => (true, on_in (set_i_params []) t)
  | l => let '(ok, params) := split_fields (strsep 59 l) [] in
         (ok, on_in (set_i_params params) t)
  end.

Definition get_param (params : list input_param) (validx : nat) (minval defval : Z) : Z :=
  match params !! validx with
  | None | Some INPUT_MISSING => defval
  | Some (INPUT_STRING _) => -1
  | Some (INPUT_NUMBER n) => if n <? minval then minval else n
  end.
Definition input_get (t : term) (validx : nat) (minval defval : Z) : Z :=
  get_param (params_of t) validx minval defval.

Definition ESC : string := String (ascii_of_N 27) "".
Definition BEL : string := String (ascii_of_N 7) "".
Definition ST : string := ESC +:+ "\".

(** ** Selection of graphic rendition *)

Definition GRID_ATTR_ALL_UNDERSCORE : Z :=
  Z.lor GRID_ATTR_UNDERSCORE (Z.lor GRID_ATTR_UNDERSCORE_2 (Z.lor GRID_ATTR_UNDERSCORE_3
    (Z.lor GRID_ATTR_UNDERSCORE_4 GRID_ATTR_UNDERSCORE_5))).

Definition input_csi_dispatch_sgr_256_do (fgbg c : Z) (gc : grid_cell) : grid_cell :=
  if (c =? -1) || (255 <? c) then
    if fgbg =? 38 then set_gc_fg 8 gc else if fgbg =? 48 then set_gc_bg 8 gc else gc
  else
    let c := Z.lor c COLOUR_FLAG_256 in
    if fgbg =? 38 then set_gc_fg c gc
    else if fgbg =? 48 then set_gc_bg c gc
    else if fgbg =? 58 then set_gc_us c gc else gc.

(** [None] when the values are no colour. *)
Definition input_csi_dispatch_sgr_rgb_do (fgbg r g b : Z) (gc : grid_cell) : option grid_cell :=
  let bad v := (v =? -1) || (255 <? v) in
  if bad r || bad g || bad b then None
  else
    let c := colour_join_rgb r g b in
    Some (if fgbg =? 38 then set_gc_fg c gc
          else if fgbg =? 48 then set_gc_bg c gc
          else if fgbg =? 58 then set_gc_us c gc else gc).

(** Fewer than eight numbers, -1 for one that is missing. *)
Fixpoint colon_numbers (fields : list (list Z)) (acc : list Z) : option (list Z) :=
  match fields with
  | [] => Some acc
  | f :: fields =>
      n ← (match f with [] => Some (-1) | _ => to_number f end);
      if (length (acc ++ [n]) =? 8)%nat then None else colon_numbers fields (acc ++ [n])
  end.

Definition underscore (style : Z) (gc : grid_cell) : grid_cell :=
  let gc' := attr_off GRID_ATTR_ALL_UNDERSCORE gc in
  match style with
  | 0 => gc'
  | 1 => attr_on GRID_ATTR_UNDERSCORE gc'
  | 2 => attr_on GRID_ATTR_UNDERSCORE_2 gc'
  | 3 => attr_on GRID_ATTR_UNDERSCORE_3 gc'
  | 4 => attr_on GRID_ATTR_UNDERSCORE_4 gc'
  | 5 => attr_on GRID_ATTR_UNDERSCORE_5 gc'
  | _ => gc
  end.

Definition input_csi_dispatch_sgr_colon (s : list Z) (gc : grid_cell) : grid_cell :=
  match colon_numbers (strsep 58 s) [] with
  | None => gc
  | Some p =>
      let n := length p in
      let at_ i := nth i p (-1) in
      if (n =? 0)%nat then gc
      else if at_ 0%nat =? 4 then if (n =? 2)%nat then underscore (at_ 1%nat) gc else gc
      else if (n <? 2)%nat ||
              negb ((at_ 0%nat =? 38) || (at_ 0%nat =? 48) || (at_ 0%nat =? 58)) then gc
      else if at_ 1%nat =? 2 then
        let i := if (n =? 5)%nat then 2%nat else 3%nat in
        if (n <? 3)%nat || (n <? i + 3)%nat then gc
        else default gc (input_csi_dispatch_sgr_rgb_do (at_ 0%nat) (at_ i) (at_ (i + 1)%nat)
                           (at_ (i + 2)%nat) gc)
      else if at_ 1%nat =? 5 then
        if (n <? 3)%nat then gc else input_csi_dispatch_sgr_256_do (at_ 0%nat) (at_ 2%nat) gc
      else gc
  end.

(** One of the other numbers. *)
Definition sgr_number (n : Z) (gc : grid_cell) : grid_cell :=
  match n with
  | 0 => set_gc_link (gc_link gc) grid_default_cell
  | 1 => attr_on GRID_ATTR_BRIGHT gc
  | 2 => attr_on GRID_ATTR_DIM gc
  | 3 => attr_on GRID_ATTR_ITALICS gc
  | 4 => underscore 1 gc
  | 5 | 6 => attr_on GRID_ATTR_BLINK gc
  | 7 => attr_on GRID_ATTR_REVERSE gc
  | 8 => attr_on GRID_ATTR_HIDDEN gc
  | 9 => attr_on GRID_ATTR_STRIKETHROUGH gc
  | 21 => underscore 2 gc
  | 22 => attr_off (Z.lor GRID_ATTR_BRIGHT GRID_ATTR_DIM) gc
  | 23 => attr_off GRID_ATTR_ITALICS gc
  | 24 => underscore 0 gc
  | 25 => attr_off GRID_ATTR_BLINK gc
  | 27 => attr_off GRID_ATTR_REVERSE gc
  | 28 => attr_off GRID_ATTR_HIDDEN gc
  | 29 => attr_off GRID_ATTR_STRIKETHROUGH gc
  | 39 => set_gc_fg 8 gc
  | 49 => set_gc_bg 8 gc
  | 53 => attr_on GRID_ATTR_OVERLINE gc
  | 55 => attr_off GRID_ATTR_OVERLINE gc
  | 59 => set_gc_us 8 gc
  | _ =>
      if (30 <=? n) && (n <=? 37) then set_gc_fg (n - 30) gc
      else if (40 <=? n) && (n <=? 47) then set_gc_bg (n - 40) gc
      else if (90 <=? n) && (n <=? 97) then set_gc_fg n gc
      else if (100 <=? n) && (n <=? 107) then set_gc_bg (n - 10) gc
      else gc
  end.

(** From parameter [i] on; a colour takes several. *)
Fixpoint sgr_from (fuel : nat) (params : list input_param) (i : nat) (gc : grid_cell) : grid_cell :=
  match fuel with
  | O => gc
  | S fuel =>
      match params !! i with
      | None => gc
      | Some (INPUT_STRING s) =>
          sgr_from fuel params (S i) (input_csi_dispatch_sgr_colon s gc)
      | Some _ =>
          let n := get_param params i 0 0 in
          if n =? -1 then sgr_from fuel params (S i) gc
          else if (n =? 38) || (n =? 48) || (n =? 58) then
            let arg k := get_param params (S i + k) 0 (-1) in
            if arg 0%nat =? 2 then
              match input_csi_dispatch_sgr_rgb_do n (arg 1%nat) (arg 2%nat) (arg 3%nat) gc with
              | Some gc => sgr_from fuel params (S i + 4) gc
              | None => sgr_from fuel params (S i + 1) gc
              end
            else if arg 0%nat =? 5 then
              sgr_from fuel params (S i + 2) (input_csi_dispatch_sgr_256_do n (arg 1%nat) gc)
            else sgr_from fuel params (S i + 1) gc
          else sgr_from fuel params (S i) (sgr_number n gc)
      end
  end.

Definition input_csi_dispatch_sgr (params : list input_param) (gc : grid_cell) : grid_cell :=
  match params with
  | [] => grid_default_cell
  | _ => sgr_from (length params) params 0 gc
  end.
