(* ===== verification/InputOsc.v ===== *)
(** * Replies, operating system commands and device control strings
    (src/tmux/terminal/input.c) *)
From Stdlib Require Import Ascii String.
From S2P Require Import Prelude.
From S2P Require Import CString.
From S2P Require Import Utf8.
From S2P Require Import CellCodec.
From S2P Require Import Locale.
From S2P Require Import Base64.
From S2P Require Import Hyperlinks.
From S2P Require Import Grid.
From S2P Require Import Colour.
From S2P Require Import Reflow.
From S2P Require Import Screen.
From S2P Require Import ScreenInfo.
From S2P Require Import ScreenWrite.
From S2P Require Import InputTable.
From S2P Require Import Input.

Section Osc.
Context `{CellCodec} `{Locale} (env : input_env).

(** ** Replies *)

Definition input_send_reply (reply : string) (t : term) : term :=
  if ie_event env then emit (Sent reply) t else t.

Definition input_make_request (type : input_request_type) (end_ : input_end_type) (idx : Z)
    (data : string) (t : term) : term :=
  on_in (fun i => set_i_requests (i_requests i ++ [Request type (ie_now env) end_ idx data]) i) t.

(** [add]: after the requests that have not been answered. *)
Definition input_reply (add : bool) (reply : string) (t : term) : term :=
  match i_requests (t_in t) with
  | _ :: _ => if add then input_make_request INPUT_REQUEST_QUEUE INPUT_END_ST 0 reply t
              else input_send_reply reply t
  | [] => input_send_reply reply t
  end.

(** A request to the client that was last active of those that show the window. *)
Definition input_add_request (type : input_request_type) (idx : Z) (t : term) : term :=
  if negb (ie_pane env) || negb (ie_attached env) then t
  else emit (Asked type idx) (input_make_request type (q_end (seq_of t)) idx "" t).

Definition end_string (e : input_end_type) : string :=
  match e with INPUT_END_BEL => BEL | INPUT_END_ST => ST end.

Definition input_osc_colour_reply (add : bool) (n idx c : Z) (end_ : input_end_type) (t : term) :
    term :=
  let c := if c =? -1 then c else colour_force_rgb c in
  if c =? -1 then t
  else
    let '(r, g, b) := colour_split_rgb c in
    let twice x := fmt_02x x +:+ fmt_02x x in
    let rgb := "rgb:" +:+ twice r +:+ "/" +:+ twice g +:+ "/" +:+ twice b +:+ end_string end_ in
    input_reply add
      (ESC +:+ "]" +:+ fmt_u n +:+ ";" +:+ (if n =? 4 then fmt_d idx +:+ ";" else "") +:+ rgb) t.

(** ** Palette *)

(** The string before the next semicolon and what is after it, if there is one. *)
Fixpoint cut_field (s : string) : string * option string :=
  match s with
  | EmptyString => ("", None)
  | String c s' =>
      if Ascii.eqb c ";" then ("", Some s')
      else let '(f, rest) := cut_field s' in (String c f, rest)
  end.

(** The entries of OSC 4: whether one changed the palette. *)
Fixpoint osc_4_from (fuel : nat) (s : string) (redraw : bool) (t : term) : option (bool * term) :=
  match fuel, s with
  | S fuel, String _ _ =>
      let '(idx, next) := strtol s in
      match next with
      | String ";" next =>
          if (idx <? 0) || (256 <=? idx) then Some (redraw, t)
          else
            let '(f, rest) := cut_field next in
            let rest := default "" rest in
            if String.eqb f "?" then
              c ← colour_palette_get (t_palette t) (Z.lor idx COLOUR_FLAG_256);
              if negb (c =? -1)
              then osc_4_from fuel rest redraw
                     (input_osc_colour_reply true 4 idx c (q_end (seq_of t)) t)
              else osc_4_from fuel rest redraw (input_add_request INPUT_REQUEST_PALETTE idx t)
            else
              let c := colour_parseX11 (ie_scan_cmyk env) f in
              if c =? -1 then osc_4_from fuel rest redraw t
              else
                let '(changed, p) := colour_palette_set (t_palette t) idx c in
                osc_4_from fuel rest (redraw || changed) (set_palette p t)
      | _ => Some (redraw, t)
      end
  | _, _ => Some (redraw, t)
  end.

Definition redraw_if (b : bool) (t : term) : term := if b then emit FullRedraw t else t.

Definition input_osc_4 (p : string) (t : term) : option term :=
  '(redraw, t) ← osc_4_from (String.length p) p false t;
  Some (redraw_if redraw t).

Fixpoint osc_104_from (fuel : nat) (s : string) (redraw : bool) (t : term) : bool * term :=
  match fuel, s with
  | S fuel, String _ _ =>
      let '(idx, s) := strtol s in
      let set (rest : string) :=
        if (idx <? 0) || (256 <=? idx) then (redraw, t)
        else
          let '(changed, p) := colour_palette_set (t_palette t) idx (-1) in
          osc_104_from fuel rest (redraw || changed) (set_palette p t) in
      match s with
      | String ";" rest => set rest
      | EmptyString => set ""
      | _ => (redraw, t)
      end
  | _, _ => (redraw, t)
  end.

Definition input_osc_104 (p : string) (t : term) : term :=
  match p with
  | EmptyString => emit FullRedraw (set_palette (colour_palette_clear (t_palette t)) t)
  | _ => let '(redraw, t) := osc_104_from (String.length p) p false t in redraw_if redraw t
  end.

Definition set_pal_fg (c : Z) (p : colour_palette) : colour_palette :=
  Palette c (pal_bg p) (pal_palette p) (pal_default p).
Definition set_pal_bg (c : Z) (p : colour_palette) : colour_palette :=
  Palette (pal_fg p) c (pal_palette p) (pal_default p).

(** A colour of the palette is set, and the pane (if any) is marked. *)
Definition set_default (set : Z -> colour_palette -> colour_palette) (theme : bool) (c : Z)
    (t : term) : term :=
  let t := set_palette (set c (t_palette t)) t in
  emit FullRedraw (if ie_pane env then emit (StyleChanged theme) t else t).

Definition input_osc_10 (p : string) (t : term) : term :=
  if String.eqb p "?" then
    if ie_pane env
    then input_osc_colour_reply true 10 0 (ie_fg env (t_palette t)) (q_end (seq_of t)) t
    else t
  else
    let c := colour_parseX11 (ie_scan_cmyk env) p in
    if c =? -1 then t else set_default set_pal_fg false c t.

Definition input_osc_110 (p : string) (t : term) : term :=
  match p with EmptyString => set_default set_pal_fg false 8 t | _ => t end.

Definition input_osc_11 (p : string) (t : term) : term :=
  if String.eqb p "?" then
    if ie_pane env
    then input_osc_colour_reply true 11 0 (ie_bg env (t_palette t)) (q_end (seq_of t)) t
    else t
  else
    let c := colour_parseX11 (ie_scan_cmyk env) p in
    if c =? -1 then t else set_default set_pal_bg true c t.

Definition input_osc_111 (p : string) (t : term) : term :=
  match p with EmptyString => set_default set_pal_bg true 8 t | _ => t end.

Definition input_osc_12 (p : string) (t : term) : term :=
  if String.eqb p "?" then
    if ie_pane env then
      let i := s_info (screen_of t) in
      input_osc_colour_reply true 12 0
        (if si_ccolour i =? -1 then si_default_ccolour i else si_ccolour i) (q_end (seq_of t)) t
    else t
  else
    let c := colour_parseX11 (ie_scan_cmyk env) p in
    if c =? -1 then t else on_screen (screen_set_cursor_colour c) t.

Definition input_osc_112 (p : string) (t : term) : term :=
  match p with EmptyString => on_screen (screen_set_cursor_colour (-1)) t | _ => t end.

(** ** Hyperlinks *)

(** The parameters up to the semicolon: the identifier, if one is given, and
    the URI.  [None] for a string that is not well formed. *)
Fixpoint osc_8_params (p : list Z) (field : list Z) (ident : option (list Z)) :
    option (option (list Z) * list Z) :=
  match p with
  | [] => None
  | c :: p =>
      if (c =? 58) || (c =? 59) then
        let is_id := (4 <=? length field)%nat && bool_decide (take 3 field = [105; 100; 61]) in
        match is_id, ident with
        | true, Some _ => None
        | _, _ =>
            let ident := if is_id then Some (drop 3 field) else ident in
            if c =? 59 then Some (ident, p) else osc_8_params p [] ident
        end
      else osc_8_params p (field ++ [c]) ident
  end.

Definition input_osc_8 (p : string) (t : term) : option term :=
  match osc_8_params (bytes_of_string p) [] None with
  | None => Some t
  | Some (_, []) => Some (on_cell (set_gc_link 0) t)
  | Some (ident, uri) =>
      '(n, l) ← hyperlinks_put (t_hyperlinks t) uri (default [] ident) (t_links t);
      Some (on_cell (set_gc_link n) (set_links l t))
  end.

(** ** Progress *)

Definition input_set_progress_bar (state p : Z) (t : term) : term :=
  let t := on_screen (screen_set_progress_bar state p) t in
  if ie_pane env then emit WindowRedrawn t else t.

(** The digits of a number that is at most 1009: [None] when there is another
    character or it passes 100 too early. *)
Fixpoint progress_digits (l : list Z) (progress : Z) : option Z :=
  match l with
  | [] => if 100 <? progress then None else Some progress
  | c :: l =>
      if (48 <=? c) && (c <=? 57) then
        if 100 <? progress then None else progress_digits l (progress * 10 + c - 48)
      else None
  end.

Definition input_osc_9 (p : string) (t : term) : term :=
  match bytes_of_string p with
  | 52 :: 59 :: c :: pb =>
      if (c <? 48) || (52 <? c) then t
      else
        match pb with
        | [] | [59] => input_set_progress_bar (c - 48) (-1) t
        | 59 :: digits =>
            match progress_digits digits 0 with
            | Some n => input_set_progress_bar (c - 48) n t
            | None => t
            end
        | _ => t
        end
  | _ => t
  end.

(** ** Prompts *)

Definition GRID_LINE_START_PROMPT : Z := 0x8.
Definition GRID_LINE_START_OUTPUT : Z := 0x10.

Definition flag_line (f : Z) (gl : grid_line) : grid_line :=
  set_gl_flags (Z.lor (gl_flags gl) f) gl.

Definition input_osc_133 (p : string) (t : term) : term :=
  let s := screen_of t in
  let gd := s_grid s in
  let line := u32 (s_cy s + hsize gd) in
  if u32 (hsize gd + g_sy gd - 1) <? line then t
  else
    match p with
    | String "A" _ => on_w (on_grid (update_line line (flag_line GRID_LINE_START_PROMPT))) t
    | String "C" _ => on_w (on_grid (update_line line (flag_line GRID_LINE_START_OUTPUT))) t
    | _ => t
    end.

(** ** Clipboard *)

(** What is sent; nothing when the data does not fit in an int. *)
Definition input_reply_clipboard (buf : list Z) (end_ : input_end_type) (clip : list Z)
    (t : term) : term :=
  let len := Z.of_nat (length buf) in
  let send out :=
    emit (Sent (ESC +:+ "]52;" +:+ string_of_bytes clip +:+ ";" +:+ string_of_bytes out
                +:+ end_string end_)) t in
  match buf with
  | [] => send []
  | _ =>
      if INT_MAX * 3 / 4 - 1 <=? len then t
      else match b64_ntop buf (4 * ((len + 2) / 3) + 1) with
           | Some out => send out
           | None => t
           end
  end.

Definition input_osc_52_reply (clip : list Z) (t : term) : term :=
  let state := ie_get_clipboard env in
  if state =? 0 then t
  else if state =? 1 then
    match ie_paste_top env with
    | None => t
    | Some buf => input_reply_clipboard buf (q_end (seq_of t)) (take 1 clip) t
    end
  else
    input_add_request INPUT_REQUEST_CLIPBOARD
      (match q_end (seq_of t) with INPUT_END_ST => 0 | INPUT_END_BEL => 1 end) t.

(** The selections that are allowed, each once. *)
Definition clip_of (l : list Z) : list Z :=
  foldl (fun clip c => if bool_decide (c ∈ bytes_of_string "cpqs01234567") &&
                          negb (bool_decide (c ∈ clip)) then clip ++ [c] else clip) [] l.

Definition input_osc_52 (p : string) (t : term) : term :=
  if negb (ie_set_clipboard env =? 2) then t
  else
    let l := bytes_of_string p in
    match list_find (fun c => c = 59) l with
    | None => t
    | Some (i, _) =>
        let data := drop (S i) l in
        let clip := clip_of (take (S i) l) in
        match data with
        | [] => t
        | [63] => input_osc_52_reply clip t
        | _ =>
            match b64_pton data ((Z.of_nat (length data) + 3) / 4 * 3) with
            | None => t
            | Some out =>
                if negb (ie_pane env) && negb (ie_client env) then t
                else emit (Clipboard clip out (ie_pane env)) t
            end
        end
    end.

(** ** The end of a string *)

Fixpoint take_digits (number : Z) (l : list Z) : Z * list Z :=
  match l with
  | c :: l' => if (48 <=? c) && (c <=? 57) then take_digits (u32 (number * 10 + c - 48)) l'
               else (number, l)
  | [] => (number, l)
  end.

Definition set_title (title : string) (t : term) : option term :=
  if negb (ie_pane env) || negb (ie_allow_set_title env) then Some t
  else
    '(changed, s) ← screen_set_title title (screen_of t);
    let t := on_screen (fun _ => s) t in
    Some (if changed : bool then emit WindowRedrawn (emit TitleChanged t) else t).

Definition osc_dispatch (number : Z) (p : string) (t : term) : option term :=
  match number with
  | 0 | 2 => set_title p t
  | 4 => input_osc_4 p t
  | 7 =>
      '(changed, s) ← screen_set_path p (screen_of t);
      let t := on_screen (fun _ => s) t in
      Some (if (changed : bool) && ie_pane env then emit WindowRedrawn t else t)
  | 8 => input_osc_8 p t
  | 9 => Some (input_osc_9 p t)
  | 10 => Some (input_osc_10 p t)
  | 11 => Some (input_osc_11 p t)
  | 12 => Some (input_osc_12 p t)
  | 52 => Some (input_osc_52 p t)
  | 104 => Some (input_osc_104 p t)
  | 110 => Some (input_osc_110 p t)
  | 111 => Some (input_osc_111 p t)
  | 112 => Some (input_osc_112 p t)
  | 133 => Some (input_osc_133 p t)
  | _ => Some t
  end.

Definition input_exit_osc (t : term) : option term :=
  let buf := q_buf (seq_of t) in
  if flag_set INPUT_DISCARD t then Some t
  else
    match buf with
    | [] => Some t
    | c :: _ =>
        if (c <? 48) || (57 <? c) then Some t
        else
          let '(number, rest) := take_digits 0 buf in
          match rest with
          | [] => osc_dispatch number "" t
          | 59 :: p => osc_dispatch number (string_of_bytes p) t
          | _ => Some t
          end
    end.

Definition input_exit_apc (t : term) : option term :=
  if flag_set INPUT_DISCARD t then Some t
  else set_title (string_of_bytes (q_buf (seq_of t))) t.

Definition input_exit_rename (t : term) : option term :=
  let buf := q_buf (seq_of t) in
  if negb (ie_pane env) || flag_set INPUT_DISCARD t || negb (ie_allow_rename env) then Some t
  else
    valid ← utf8_isvalid loc_mbtowc loc_wcwidth loc_widths buf;
    if negb valid then Some t
    else Some (emit WindowRedrawn
                 (match buf with [] => emit NameUnset t | _ => emit (Renamed buf) t end)).

(** ** Device control strings *)

Definition input_handle_decrqss (t : term) : term :=
  let s := screen_of t in
  let buf := q_buf (seq_of t) in
  if negb (bool_decide (take 2 (drop 1 buf) = [32; 113]))
  then input_reply true (ESC +:+ "P0$r" +:+ ST) t
  else
    let blinking := s_has s MODE_CURSOR_BLINKING in
    let style := ie_cursor_style env in
    let ps :=
      match si_cstyle (s_info s) with
      | SCREEN_CURSOR_BLOCK => if blinking then 1 else 2
      | SCREEN_CURSOR_UNDERLINE => if blinking then 3 else 4
      | SCREEN_CURSOR_BAR => if blinking then 5 else 6
      | SCREEN_CURSOR_DEFAULT => if (style <? 0) || (6 <? style) then 0 else style
      end in
    input_reply true (ESC +:+ "P1$r q" +:+ fmt_d ps +:+ " q" +:+ ST) t.

Definition input_dcs_dispatch (t : term) : option term :=
  let buf := q_buf (seq_of t) in
  let prefix := bytes_of_string "tmux;" in
  if flag_set INPUT_DISCARD t then Some t
  else if bool_decide (q_interm (seq_of t) = [36]) && bool_decide (head buf = Some 113)
  then Some (input_handle_decrqss t)
  else if ie_allow_passthrough env =? 0 then Some t
  else if bool_decide (take 5 buf = prefix)
  then Some (emit (Passed (drop 5 buf) (ie_allow_passthrough env =? 2)) t)
  else Some t.

(** ** The theme *)

Definition input_report_current_theme (t : term) : term :=
  if negb (ie_pane env) then t
  else
    let t := emit ThemeRead t in
    match ie_theme env with
    | THEME_DARK => input_reply false (ESC +:+ "[?997;1n") t
    | THEME_LIGHT => input_reply false (ESC +:+ "[?997;2n") t
    | THEME_UNKNOWN => t
    end.

End Osc.
