(* ===== verification/InputParse.v ===== *)
(** * Parsing the output of a program (src/tmux/terminal/input.c)

    The handlers of the transitions, the dispatch of control characters, escape
    and control sequences, and the loop over the bytes. *)
From Stdlib Require Import Ascii String.
From S2P Require Import Prelude.
From S2P Require Import CString.
From S2P Require Import Utf8.
From S2P Require Import CellCodec.
From S2P Require Import Locale.
From S2P Require Import Hyperlinks.
From S2P Require Import Grid.
From S2P Require Import Colour.
From S2P Require Import Reflow.
From S2P Require Import Screen.
From S2P Require Import ScreenInfo.
From S2P Require Import ScreenWrite.
From S2P Require Import InputTable.
From S2P Require Import Input.
From S2P Require Import InputOsc.

(** ** Collecting a sequence *)

Definition set_seq (q : sequence) : term -> term := on_in (set_i_seq q).

(** [input_clear]. *)
Definition input_clear (t : term) : term :=
  clear_flag INPUT_DISCARD (set_seq (Sequence [] [] [] (q_space (seq_of t)) INPUT_END_ST) t).

(** [input_ground]: the buffer is cut to its first size, its contents counted
    as before. *)
Definition input_ground (t : term) : term :=
  let q := seq_of t in
  let space := if INPUT_BUF_START <? q_space q then INPUT_BUF_START else q_space q in
  set_seq (Sequence (q_interm q) (q_param q) (q_buf q) space (q_end q))
    (on_in (set_i_since_ground []) t).

Definition input_intermediate (t : term) : term :=
  let q := seq_of t in
  if (length (q_interm q) =? 3)%nat then set_flag INPUT_DISCARD t
  else set_seq (Sequence (q_interm q ++ [ch_of t]) (q_param q) (q_buf q) (q_space q) (q_end q)) t.

Definition input_parameter (t : term) : term :=
  let q := seq_of t in
  if (length (q_param q) =? 63)%nat then set_flag INPUT_DISCARD t
  else set_seq (Sequence (q_interm q) (q_param q ++ [ch_of t]) (q_buf q) (q_space q) (q_end q)) t.

(** The size of the buffer after it has been doubled until one more byte and
    the NUL fit; [None] when it would be larger than it may be. *)
Fixpoint grow (fuel : nat) (limit len available : Z) : Z * bool :=
  match fuel with
  | O => (available, false)
  | S fuel =>
      if available <=? len + 1 then
        if limit <? available * 2 then (available, false)
        else grow fuel limit len (available * 2)
      else (available, true)
  end.

Section Parse.
Context `{CellCodec} `{Locale} (env : input_env).

Notation we := (ie_write env).

Definition input_input (t : term) : term :=
  let q := seq_of t in
  let len := Z.of_nat (length (q_buf q)) in
  let '(space, fits) := grow 64 (ie_buffer_size env) len (q_space q) in
  if (fits : bool)
  then set_seq (Sequence (q_interm q) (q_param q) (q_buf q ++ [ch_of t]) space (q_end q)) t
  else set_flag INPUT_DISCARD
         (set_seq (Sequence (q_interm q) (q_param q) (q_buf q) space (q_end q)) t).

Definition input_end_bel (t : term) : term :=
  let q := seq_of t in
  set_seq (Sequence (q_interm q) (q_param q) (q_buf q) (q_space q) INPUT_END_BEL) t.

(** ** Characters *)

(** Add the cell to the screen. *)
Definition add_cell (t : term) : term := on_w (screen_write_collect_add we (cell_of t)) t.

Definition set_chars (c : characters) : term -> term := on_in (set_i_chars c).

(** The replacement character. *)
Definition invalid_char : utf8_data := UD (pad_data [0xef; 0xbf; 0xbd]) 3 3 1.

Definition input_stop_utf8 (t : term) : term :=
  let c := i_chars (t_in t) in
  let t := if utf8started c
           then add_cell (on_cell (set_gc_data (utf8_copy invalid_char)) t) else t in
  set_chars (Characters (utf8data c) false (last_char c)) t.

(** Whether the character set is the line drawing one. *)
Definition uses_charset (t : term) : bool :=
  let c := i_cell (t_in t) in
  (if ic_set c =? 0 then ic_g0set c else ic_g1set c) =? 1.
Definition set_charset (t : term) : term :=
  on_cell (if uses_charset t then attr_on GRID_ATTR_CHARSET else attr_off GRID_ATTR_CHARSET) t.

(** The last character is the one of the cell. *)
Definition set_last_char (t : term) : term :=
  let c := i_chars (t_in t) in
  set_flag INPUT_LAST
    (set_chars (Characters (utf8data c) (utf8started c) (utf8_copy (gc_data (cell_of t)))) t).

Definition input_print (t : term) : term :=
  let t := set_charset (input_stop_utf8 t) in
  let t := add_cell (on_cell (set_gc_data (utf8_set (ch_of t))) t) in
  on_cell (attr_off GRID_ATTR_CHARSET) (set_last_char t).

Definition input_top_bit_set (t : term) : option term :=
  let t := clear_flag INPUT_LAST t in
  let c := i_chars (t_in t) in
  if negb (utf8started c) then
    '(st, ud) ← utf8_open loc_mbtowc loc_wcwidth loc_widths false (ch_of t);
    let t := set_chars (Characters ud true (last_char c)) t in
    Some (match st with UTF8_MORE => t | _ => input_stop_utf8 t end)
  else
    '(st, ud) ← utf8_append loc_mbtowc loc_wcwidth loc_widths false (utf8data c) (ch_of t);
    let t := set_chars (Characters ud true (last_char c)) t in
    Some (match st with
          | UTF8_MORE => t
          | UTF8_ERROR => input_stop_utf8 t
          | UTF8_DONE =>
              let t := set_chars (Characters ud false (last_char c)) t in
              set_last_char (add_cell (on_cell (set_gc_data (utf8_copy ud)) t))
          end).

(** ** Resetting and saving *)

Definition default_input_cell : input_cell := ICell grid_default_cell 0 0 0.

Definition input_reset_cell : term -> term :=
  on_in (fun i => set_i_cell default_input_cell
                    (set_i_saved (Saved default_input_cell 0 0 (old_mode (i_saved i))) i)).

Definition input_save_state (t : term) : term :=
  let s := screen_of t in
  on_in (fun i => set_i_saved (Saved (i_cell i) (s_cx s) (s_cy s) (s_mode s)) i) t.

Definition input_restore_state (t : term) : term :=
  let sv := i_saved (t_in t) in
  let t := on_in (set_i_cell (old_cell sv)) t in
  let t := on_w (if has (old_mode sv) MODE_ORIGIN then screen_write_mode_set MODE_ORIGIN
                 else screen_write_mode_clear MODE_ORIGIN) t in
  on_w (screen_write_cursormove (s32 (old_cx sv)) (s32 (old_cy sv)) false) t.

(** With [clear], the screen of the pane (if there is one) is reset too. *)
Definition input_reset (clear : bool) (t : term) : term :=
  let t := input_reset_cell t in
  let t := if clear && ie_pane env
           then on_w (fun c => screen_write_stop (screen_write_reset we (new_item c))) t else t in
  on_in (fun i => set_i_flags 0 (set_i_state ground i)) (input_clear t).

(** ** Control characters *)

Definition bit_test (tabs : list Z) (i : Z) : bool := bool_decide (i ∈ tabs).

(** Up to the next tab stop, or the last column: where it is and whether
    something that does not look like the first cell is on the way. *)
Fixpoint next_tab (fuel : nat) (s : screen) (line : Z) (first_gc : grid_cell) (cx : Z)
    (has_content : bool) : Z * bool :=
  match fuel with
  | O => (cx, has_content)
  | S fuel =>
      let gc := grid_get_cell (s_grid s) cx line in
      let has_content :=
        has_content || negb ((ud_size (gc_data gc) =? 1) && (nth 0 (ud_data (gc_data gc)) 0 =? 32) &&
                             grid_cells_look_equal gc first_gc) in
      let cx := u32 (cx + 1) in
      if bit_test (s_tabs s) cx then (cx, has_content)
      else if cx <? u32 (screen_size_x s - 1) then next_tab fuel s line first_gc cx has_content
      else (cx, has_content)
  end.

Definition set_cx (cx : Z) : term -> term := on_screen (fun s => set_s_cursor cx (s_cy s) s).

Definition horizontal_tab (t : term) : term :=
  let s := screen_of t in
  let gd := s_grid s in
  if u32 (screen_size_x s - 1) <=? s_cx s then t
  else
    let line := u32 (s_cy s + hsize gd) in
    let first_gc := grid_get_cell gd (s_cx s) line in
    let '(cx, has_content) :=
      next_tab (Z.to_nat (screen_size_x s)) s line first_gc (s_cx s) false in
    let width := u32 (cx - s_cx s) in
    if has_content || (Z.of_nat UTF8_SIZE <? width) then set_cx cx t
    else on_w (screen_write_collect_add we (grid_set_tab first_gc width)) t.

Definition input_c0_dispatch (t : term) : term :=
  let t := input_stop_utf8 t in
  let bg := gc_bg (cell_of t) in
  clear_flag INPUT_LAST
    match ch_of t with
    | 7 => if ie_pane env then emit Bell t else t
    | 8 => on_w screen_write_backspace t
    | 9 => horizontal_tab t
    | 10 | 11 | 12 =>
        let t := on_w (screen_write_linefeed we false bg) t in
        if s_has (screen_of t) MODE_CRLF then on_w screen_write_carriagereturn t else t
    | 13 => on_w screen_write_carriagereturn t
    | 14 => on_in (fun i => let c := i_cell i in
                            set_i_cell (ICell (ic_cell c) 1 (ic_g0set c) (ic_g1set c)) i) t
    | 15 => on_in (fun i => let c := i_cell i in
                            set_i_cell (ICell (ic_cell c) 0 (ic_g0set c) (ic_g1set c)) i) t
    | _ => t
    end.

(** ** Escape sequences *)

Definition set_g0 (v : Z) : term -> term :=
  on_in (fun i => let c := i_cell i in set_i_cell (ICell (ic_cell c) (ic_set c) v (ic_g1set c)) i).
Definition set_g1 (v : Z) : term -> term :=
  on_in (fun i => let c := i_cell i in set_i_cell (ICell (ic_cell c) (ic_set c) (ic_g0set c) v) i).

Definition esc_command (type : input_esc_type) (t : term) : term :=
  let bg := gc_bg (cell_of t) in
  match type with
  | INPUT_ESC_RIS =>
      let t := input_reset_cell (set_palette (colour_palette_clear (t_palette t)) t) in
      emit FullRedraw (on_w (screen_write_reset we) t)
  | INPUT_ESC_IND => on_w (screen_write_linefeed we false bg) t
  | INPUT_ESC_NEL =>
      on_w (screen_write_linefeed we false bg) (on_w screen_write_carriagereturn t)
  | INPUT_ESC_HTS =>
      on_screen (fun s => if s_cx s <? screen_size_x s then set_s_tabs (s_cx s :: s_tabs s) s else s) t
  | INPUT_ESC_RI => on_w (screen_write_reverseindex bg) t
  | INPUT_ESC_DECKPAM => on_w (screen_write_mode_set MODE_KKEYPAD) t
  | INPUT_ESC_DECKPNM => on_w (screen_write_mode_clear MODE_KKEYPAD) t
  | INPUT_ESC_DECSC => input_save_state t
  | INPUT_ESC_DECRC => input_restore_state t
  | INPUT_ESC_DECALN => on_w screen_write_alignmenttest t
  | INPUT_ESC_SCSG0_ON => set_g0 1 t
  | INPUT_ESC_SCSG0_OFF => set_g0 0 t
  | INPUT_ESC_SCSG1_ON => set_g1 1 t
  | INPUT_ESC_SCSG1_OFF => set_g1 0 t
  | INPUT_ESC_ST => t
  end.

Definition input_esc_dispatch (t : term) : term :=
  if flag_set INPUT_DISCARD t then t
  else
    match input_lookup input_esc_table (ch_of t) (q_interm (seq_of t)) with
    | None => t
    | Some type => clear_flag INPUT_LAST (esc_command type t)
    end.

(** ** Control sequences *)

(** One of the numbers of a mode command. *)
Definition rm_number (n : Z) : write_ctx -> write_ctx :=
  match n with
  | 4 => screen_write_mode_clear MODE_INSERT
  | 34 => screen_write_mode_set MODE_CURSOR_VERY_VISIBLE
  | _ => fun c => c
  end.
Definition sm_number (n : Z) : write_ctx -> write_ctx :=
  match n with
  | 4 => screen_write_mode_set MODE_INSERT
  | 34 => screen_write_mode_clear MODE_CURSOR_VERY_VISIBLE
  | _ => fun c => c
  end.

(** Each of the parameters in turn. *)
Definition each_param (f : Z -> term -> option term) (t : term) : option term :=
  foldl (fun (t : option term) i => t ← t; f (input_get t i 0 (-1)) t) (Some t)
    (seq 0 (length (params_of t))).

Definition input_csi_dispatch_rm (t : term) : option term :=
  each_param (fun n t => Some (on_w (rm_number n) t)) t.
Definition input_csi_dispatch_sm (t : term) : option term :=
  each_param (fun n t => Some (on_w (sm_number n) t)) t.

(** [DECCOLM] and [DECOM] go home. *)
Definition home (t : term) : term := on_w (screen_write_cursormove 0 0 true) t.

Definition alternate_off (cursor : bool) (t : term) : option term :=
  '(c, gc) ← screen_write_alternateoff we (cell_of t) cursor (t_w t);
  Some (on_cell (fun _ => gc) (on_w (fun _ => c) t)).
Definition alternate_on (cursor : bool) (t : term) : term :=
  on_w (screen_write_alternateon we (cell_of t) cursor) t.

Definition mode_on (m : Z) : term -> term := on_w (screen_write_mode_set m).
Definition mode_off (m : Z) : term -> term := on_w (screen_write_mode_clear m).

Definition rm_private_number (n : Z) (t : term) : option term :=
  match n with
  | 1 => Some (mode_off MODE_KCURSOR t)
  | 3 => Some (on_w (screen_write_clearscreen we (gc_bg (cell_of t))) (home t))
  | 6 => Some (home (mode_off MODE_ORIGIN t))
  | 7 => Some (mode_off MODE_WRAP t)
  | 12 => Some (mode_on MODE_CURSOR_BLINKING_SET (mode_off MODE_CURSOR_BLINKING t))
  | 25 => Some (mode_off MODE_CURSOR t)
  | 1000 | 1001 | 1002 | 1003 => Some (mode_off ALL_MOUSE_MODES t)
  | 1004 => Some (mode_off MODE_FOCUSON t)
  | 1005 => Some (mode_off MODE_MOUSE_UTF8 t)
  | 1006 => Some (mode_off MODE_MOUSE_SGR t)
  | 47 | 1047 => alternate_off false t
  | 1049 => alternate_off true t
  | 2004 => Some (mode_off MODE_BRACKETPASTE t)
  | 2031 =>
      let t := mode_off MODE_THEME_UPDATES t in
      Some (if ie_pane env then emit ThemeSeen t else t)
  | 2026 =>
      let t := on_w (screen_write_stop_sync (ie_pane env)) t in
      Some (if ie_pane env then emit PaneRedraw t else t)
  | _ => Some t
  end.

Definition sm_private_number (n : Z) (t : term) : option term :=
  match n with
  | 1 => Some (mode_on MODE_KCURSOR t)
  | 3 => Some (on_w (screen_write_clearscreen we (gc_bg (cell_of t))) (home t))
  | 6 => Some (home (mode_on MODE_ORIGIN t))
  | 7 => Some (mode_on MODE_WRAP t)
  | 12 => Some (mode_on MODE_CURSOR_BLINKING_SET (mode_on MODE_CURSOR_BLINKING t))
  | 25 => Some (mode_on MODE_CURSOR t)
  | 1000 => Some (mode_on MODE_MOUSE_STANDARD (mode_off ALL_MOUSE_MODES t))
  | 1002 => Some (mode_on MODE_MOUSE_BUTTON (mode_off ALL_MOUSE_MODES t))
  | 1003 => Some (mode_on MODE_MOUSE_ALL (mode_off ALL_MOUSE_MODES t))
  | 1004 => Some (mode_on MODE_FOCUSON t)
  | 1005 => Some (mode_on MODE_MOUSE_UTF8 t)
  | 1006 => Some (mode_on MODE_MOUSE_SGR t)
  | 47 | 1047 => Some (alternate_on false t)
  | 1049 => Some (alternate_on true t)
  | 2004 => Some (mode_on MODE_BRACKETPASTE t)
  | 2031 =>
      let t := mode_on MODE_THEME_UPDATES t in
      Some (if ie_pane env then emit ThemeRead t else t)
  | 2026 => Some (on_w (screen_write_start_sync (ie_pane env)) t)
  | _ => Some t
  end.

Definition input_csi_dispatch_rm_private : term -> option term := each_param rm_private_number.
Definition input_csi_dispatch_sm_private : term -> option term := each_param sm_private_number.

(** Window operations from parameter [m] on: some take one or two more. *)
Fixpoint winops_from (fuel : nat) (m : nat) (t : term) : option term :=
  match fuel with
  | O => Some t
  | S fuel =>
      let s := screen_of t in
      let x := screen_size_x s in let y := screen_size_y s in
      let xp := ie_xpixel env in let yp := ie_ypixel env in
      let arg k := input_get t (m + k) 0 (-1) in
      let reply op a b := input_reply env true (ESC +:+ "[" +:+ op +:+ fmt_u (u32 a) +:+ ";" +:+
                                               fmt_u (u32 b) +:+ "t") t in
      let in_window t' := winops_from fuel (S m) (if ie_pane env then t' else t) in
      match arg 0%nat with
      | -1 => Some t
      | 3 | 4 | 8 =>
          if (arg 1%nat =? -1) || (arg 2%nat =? -1) then Some t else winops_from fuel (m + 3) t
      | 9 | 10 => if arg 1%nat =? -1 then Some t else winops_from fuel (m + 2) t
      | 14 => in_window (reply "4;" (y * yp) (x * xp))
      | 15 => in_window (reply "5;" (y * yp) (x * xp))
      | 16 => in_window (reply "6;" yp xp)
      | 18 => winops_from fuel (S m) (reply "8;" y x)
      | 19 => winops_from fuel (S m) (reply "9;" y x)
      | 22 =>
          match arg 1%nat with
          | -1 => Some t
          | 0 | 2 =>
              s ← screen_push_title s;
              winops_from fuel (m + 2) (on_screen (fun _ => s) t)
          | _ => winops_from fuel (m + 2) t
          end
      | 23 =>
          match arg 1%nat with
          | -1 => Some t
          | 0 | 2 =>
              let t := on_screen screen_pop_title t in
              winops_from fuel (m + 2)
                (if ie_pane env then emit WindowRedrawn (emit TitleChanged t) else t)
          | _ => winops_from fuel (m + 2) t
          end
      | _ => winops_from fuel (S m) t
      end
  end.

Definition input_csi_dispatch_winops (t : term) : option term :=
  winops_from (S (length (params_of t))) 0 t.

(** [n] tab stops to the left. *)
Fixpoint previous_tab (fuel : nat) (tabs : list Z) (cx : Z) : Z :=
  match fuel with
  | O => cx
  | S fuel =>
      let cx := cx - 1 in
      if (0 <? cx) && negb (bit_test tabs cx) then previous_tab fuel tabs cx else cx
  end.
Fixpoint back_tabs (fuel : nat) (tabs : list Z) (cx n : Z) : Z :=
  match fuel with
  | O => cx
  | S fuel =>
      if (0 <? cx) && (0 <? n) then back_tabs fuel tabs (previous_tab (Z.to_nat cx) tabs cx) (n - 1)
      else cx
  end.

Definition back_tab (n : Z) (t : term) : term :=
  let s := screen_of t in
  let last := u32 (screen_size_x s - 1) in
  let cx := if last <? s_cx s then last else s_cx s in
  if n =? -1 then t else set_cx (back_tabs (Z.to_nat cx) (s_tabs s) cx n) t.

(** [REP]: the last character again, up to the end of the line. *)
Definition repeat_char (n : Z) (t : term) : term :=
  let s := screen_of t in
  let m := s32 (screen_size_x s - s_cx s) in
  let n := if m <? n then m else n in
  if flag_set INPUT_LAST t then
    let t := set_charset t in
    let t := on_cell (set_gc_data (utf8_copy (last_char (i_chars (t_in t))))) t in
    Nat.iter (Z.to_nat n) add_cell t
  else t.

Definition clear_tab (n : Z) (s : screen) : screen :=
  match n with
  | 0 => if s_cx s <? screen_size_x s
         then set_s_tabs (filter (fun i => i <> s_cx s) (s_tabs s)) s else s
  | 3 => set_s_tabs (filter (fun i => screen_size_x s - 1 < i) (s_tabs s)) s
  | _ => s
  end.

Definition cursor_style (n : Z) (s : screen) : screen :=
  let i := s_info s in
  let '(style, mode) := screen_set_cursor_style n (si_cstyle i) (s_mode s) in
  let s := set_s_mode mode (set_s_info (set_si_cstyle style i) s) in
  if n =? 0 then mode_clear MODE_CURSOR_BLINKING_SET s else s.

(** The mode of the reports of extended keys. *)
Definition set_extended_keys (n m : Z) (t : term) : term :=
  let ek := we_extended_keys we in
  if negb (n =? 4) || (ek =? 0) then t
  else
    let t := mode_off EXTENDED_KEY_MODES t in
    if m =? 2 then mode_on MODE_KEYS_EXTENDED_2 t
    else if (m =? 1) || (ek =? 2) then mode_on MODE_KEYS_EXTENDED t else t.
Definition unset_extended_keys (n : Z) (t : term) : term :=
  if negb (n =? 4) then t
  else
    let t := mode_off EXTENDED_KEY_MODES t in
    if we_extended_keys we =? 2 then mode_on MODE_KEYS_EXTENDED t else t.

Definition query_private (n : Z) (t : term) : term :=
  let s := screen_of t in
  let reply n v := input_reply env true (ESC +:+ "[?" +:+ n +:+ ";" +:+ fmt_d v +:+ "$y") t in
  let enabled m := if s_has s m then 1 else 2 in
  let style := ie_cursor_style env in
  let explicit :=
    match si_cstyle (s_info s) with SCREEN_CURSOR_DEFAULT => false | _ => true end ||
    s_has s MODE_CURSOR_BLINKING_SET in
  match n with
  | 12 => reply "12" (if explicit then enabled MODE_CURSOR_BLINKING
                      else if (style =? 1) || (style =? 3) || (style =? 5) then 1 else 2)
  | 1004 => reply "1004" (enabled MODE_FOCUSON)
  | 1006 => reply "1006" (enabled MODE_MOUSE_SGR)
  | 2004 => reply "2004" (enabled MODE_BRACKETPASTE)
  | 2026 => reply "2026" (enabled MODE_SYNC)
  | 2031 => reply "2031" 2
  | _ => t
  end.

(** [ED] and [EL]. *)
Definition erase_display (n bg : Z) (t : term) : term :=
  match n with
  | 0 => on_w (screen_write_clearendofscreen we bg) t
  | 1 => on_w (screen_write_clearstartofscreen bg) t
  | 2 => on_w (screen_write_clearscreen we bg) t
  | 3 => if input_get t 1 0 0 =? 0 then on_w (screen_write_clearhistory we) t else t
  | _ => t
  end.
Definition erase_line (n bg : Z) : write_ctx -> write_ctx :=
  match n with
  | 0 => screen_write_clearendofline bg
  | 1 => screen_write_clearstartofline bg
  | 2 => screen_write_clearline bg
  | _ => fun c => c
  end.

Definition csi_command (type : input_csi_type) (t : term) : option term :=
  let bg := gc_bg (cell_of t) in
  let s := screen_of t in
  let n1 := input_get t 0 1 1 in
  let n0 := input_get t 0 0 0 in
  let m1 := input_get t 1 1 1 in
  (* with a number of at least 1 *)
  let count (f : Z -> write_ctx -> write_ctx) :=
    Some (if n1 =? -1 then t else on_w (f n1) t) in
  match type with
  | INPUT_CSI_CBT => Some (back_tab n1 t)
  | INPUT_CSI_CUB => count screen_write_cursorleft
  | INPUT_CSI_CUD => count screen_write_cursordown
  | INPUT_CSI_CUF => count screen_write_cursorright
  | INPUT_CSI_CUU => count screen_write_cursorup
  | INPUT_CSI_CUP =>
      Some (if (n1 =? -1) || (m1 =? -1) then t
            else on_w (screen_write_cursormove (m1 - 1) (n1 - 1) true) t)
  | INPUT_CSI_MODSET => Some (set_extended_keys n0 (input_get t 1 0 0) t)
  | INPUT_CSI_MODOFF => Some (unset_extended_keys n0 t)
  | INPUT_CSI_WINOPS => input_csi_dispatch_winops t
  | INPUT_CSI_CNL => count (fun n c => screen_write_cursordown n (screen_write_carriagereturn c))
  | INPUT_CSI_CPL => count (fun n c => screen_write_cursorup n (screen_write_carriagereturn c))
  | INPUT_CSI_DA => Some (if n0 =? 0 then input_reply env true (ESC +:+ "[?1;2c") t else t)
  | INPUT_CSI_DA_TWO => Some (if n0 =? 0 then input_reply env true (ESC +:+ "[>84;0;0c") t else t)
  | INPUT_CSI_ECH => count (fun n => screen_write_clearcharacter n bg)
  | INPUT_CSI_DCH => count (fun n => screen_write_deletecharacter n bg)
  | INPUT_CSI_DECSTBM =>
      let m := input_get t 1 1 (screen_size_y s) in
      Some (if (n1 =? -1) || (m =? -1) then t
            else on_w (screen_write_scrollregion (u32 (n1 - 1)) (u32 (m - 1))) t)
  | INPUT_CSI_DL => count (fun n => screen_write_deleteline n bg)
  | INPUT_CSI_DSR_PRIVATE => Some (if n0 =? 996 then input_report_current_theme env t else t)
  | INPUT_CSI_QUERY_PRIVATE => Some (query_private n0 t)
  | INPUT_CSI_DSR =>
      Some (match n0 with
            | 5 => input_reply env true (ESC +:+ "[0n") t
            | 6 => input_reply env true (ESC +:+ "[" +:+ fmt_u (u32 (s_cy s + 1)) +:+ ";" +:+
                                         fmt_u (u32 (s_cx s + 1)) +:+ "R") t
            | _ => t
            end)
  | INPUT_CSI_ED => Some (erase_display n0 bg t)
  | INPUT_CSI_EL => Some (on_w (erase_line n0 bg) t)
  | INPUT_CSI_HPA => count (fun n => screen_write_cursormove (n - 1) (-1) true)
  | INPUT_CSI_ICH => count (fun n => screen_write_insertcharacter n bg)
  | INPUT_CSI_IL => count (fun n => screen_write_insertline n bg)
  | INPUT_CSI_REP => Some (if n1 =? -1 then t else repeat_char n1 t)
  | INPUT_CSI_RCP => Some (input_restore_state t)
  | INPUT_CSI_RM => input_csi_dispatch_rm t
  | INPUT_CSI_RM_PRIVATE => input_csi_dispatch_rm_private t
  | INPUT_CSI_SCP => Some (input_save_state t)
  | INPUT_CSI_SGR => Some (on_cell (input_csi_dispatch_sgr (params_of t)) t)
  | INPUT_CSI_SM => input_csi_dispatch_sm t
  | INPUT_CSI_SM_PRIVATE => input_csi_dispatch_sm_private t
  | INPUT_CSI_SM_GRAPHICS => Some t
  | INPUT_CSI_SU => count (fun n => screen_write_scrollup we n bg)
  | INPUT_CSI_SD => count (fun n => screen_write_scrolldown n bg)
  | INPUT_CSI_TBC => Some (on_screen (clear_tab n0) t)
  | INPUT_CSI_VPA => count (fun n => screen_write_cursormove (-1) (n - 1) true)
  | INPUT_CSI_DECSCUSR => Some (if n0 =? -1 then t else on_screen (cursor_style n0) t)
  | INPUT_CSI_XDA =>
      Some (if n0 =? 0 then input_reply env true (ESC +:+ "P>|tmux " +:+ ie_version env +:+ ST) t
            else t)
  end.

Definition input_csi_dispatch (t : term) : option term :=
  if flag_set INPUT_DISCARD t then Some t
  else
    let '(ok, t) := input_split t in
    if negb ok then Some t
    else
      match input_lookup input_csi_table (ch_of t) (q_interm (seq_of t)) with
      | None => Some t
      | Some type => t ← csi_command type t; Some (clear_flag INPUT_LAST t)
      end.

(** ** The machine *)

Definition run_handler (h : handler) (t : term) : option term :=
  match h with
  | H_print => Some (input_print t)
  | H_intermediate => Some (input_intermediate t)
  | H_parameter => Some (input_parameter t)
  | H_input => Some (input_input t)
  | H_c0_dispatch => Some (input_c0_dispatch t)
  | H_esc_dispatch => Some (input_esc_dispatch t)
  | H_csi_dispatch => input_csi_dispatch t
  | H_dcs_dispatch => input_dcs_dispatch env t
  | H_top_bit_set => input_top_bit_set t
  | H_end_bel => Some (input_end_bel t)
  end.

(** A string starts: [input_enter_dcs], [input_enter_osc], [input_enter_apc] and
    [input_enter_rename]. *)
Definition input_enter_string (t : term) : term := clear_flag INPUT_LAST (input_clear t).

(** The functions of a state. *)
Definition enter_state (st : input_state) (t : term) : term :=
  match st with
  | ground => input_ground t
  | esc_enter | csi_enter => input_clear t
  | dcs_enter | osc_string | apc_string | rename_string | consume_st => input_enter_string t
  | _ => t
  end.
Definition exit_state (st : input_state) (t : term) : option term :=
  match st with
  | osc_string => input_exit_osc env t
  | apc_string => input_exit_apc env t
  | rename_string => input_exit_rename env t
  | _ => Some t
  end.

Definition input_set_state (st : input_state) (t : term) : option term :=
  t ← exit_state (i_state (t_in t)) t;
  Some (enter_state st (on_in (set_i_state st) t)).

Definition in_transition (ch : Z) (itr : input_transition) : bool :=
  (tr_first itr <=? ch) && (ch <=? tr_last itr).
Definition find_transition (st : input_state) (ch : Z) : option input_transition :=
  snd <$> list_find (fun itr => in_transition ch itr = true) (transitions st).

(** One byte, with its transition. *)
Definition input_step (itr : input_transition) (t : term) : option term :=
  let t := if bool_decide (tr_handler itr = Some H_print) then t
           else on_w screen_write_collect_end t in
  t ← (match tr_handler itr with Some h => run_handler h t | None => Some t end);
  t ← (match tr_state itr with Some st => input_set_state st t | None => Some t end);
  Some (if decide (i_state (t_in t) = ground) then t
        else on_in (fun i => set_i_since_ground (i_since_ground i ++ [i_ch i]) i) t).

(** The bytes, with the state and the transition of the byte before: the
    transition is used again while the state is the same and it fits. *)
Fixpoint input_parse_from (cache : option (input_state * input_transition)) (buf : list Z)
    (t : term) : option term :=
  match buf with
  | [] => Some t
  | ch :: buf =>
      let t := on_in (set_i_ch ch) t in
      let st := i_state (t_in t) in
      itr ← (match cache with
             | Some (state, itr) =>
                 if bool_decide (st = state) && in_transition ch itr then Some itr
                 else find_transition st ch
             | None => find_transition st ch
             end);
      t ← input_step itr t;
      input_parse_from (Some (st, itr)) buf t
  end.
Definition input_parse (buf : list Z) (t : term) : option term := input_parse_from None buf t.

(** [input_parse_buffer] and [input_parse_screen]: the screen is written from
    the first byte to the last. *)
Definition input_parse_buffer (buf : list Z) (t : term) : option term :=
  match buf with
  | [] => Some t
  | _ =>
      t ← input_parse buf (on_w new_item (emit Changed t));
      Some (on_w screen_write_stop t)
  end.
Definition input_parse_screen (buf : list Z) (t : term) : option term :=
  match buf with
  | [] => Some t
  | _ =>
      t ← input_parse buf (on_w new_item t);
      Some (on_w screen_write_stop t)
  end.

(** [input_init], of a context that is zeroed. *)
Definition input_init (w : write_ctx) (p : colour_palette) (hl : Z) (l : links) : term :=
  let zero := ICell (GC ud_zero 0 0 0 0 0 0) 0 0 0 in
  input_reset false
    (Term (Ictx zero (Saved zero 0 0 0) (Sequence [] [] [] INPUT_BUF_START INPUT_END_ST) []
             (Characters ud_zero false ud_zero) 0 ground 0 [] []) w p hl l []).

(** ** Requests *)

(** [input_request_timer_callback]: what is older than the timeout goes, and a
    reply that has waited for it is sent. *)
Definition INPUT_REQUEST_TIMEOUT : Z := 500.
Definition expire_requests (now : Z) (t : term) : term :=
  foldl (fun t ir =>
    if u64 (now - INPUT_REQUEST_TIMEOUT) <=? ir_t ir then
      on_in (fun i => set_i_requests (i_requests i ++ [ir]) i) t
    else match ir_type ir with
         | INPUT_REQUEST_QUEUE => input_send_reply env (ir_data ir) t
         | _ => t
         end) (on_in (set_i_requests []) t) (i_requests (t_in t)).

End Parse.
