(* ===== verification/GridSafe.v ===== *)
(** * What keeps the accesses to a grid in bounds

    A line is safe when the extended entries point into its extended cells; a
    grid when its lines are safe and it has as many as its history and screen
    need.  Every operation keeps both, whatever is stored. *)
From S2P Require Import Prelude.
From S2P Require Import Utf8.
From S2P Require Import CellCodec.
From S2P Require Import Grid.
From S2P Require Import GridFacts.
From S2P Require Import Reflow.
From S2P Require Import Screen.

Create HintDb safe.

(** A cell that is not marked as an extended one. *)
Definition cell_plain (gc : grid_cell) : Prop := has (gc_flags gc) GRID_FLAG_EXTENDED = false.

Definition gee_plain (gee : grid_extd_entry) : Prop :=
  has (gee_flags gee) GRID_FLAG_EXTENDED = false.
(** The entry points to one of [n] extended cells, if to any. *)
Definition gce_points (n : Z) (gce : grid_cell_entry) : Prop :=
  extended gce = true -> 0 <= gce_offset gce < n.

Record line_safe (gl : grid_line) : Prop := LineSafe {
  ls_points : Forall (gce_points (extdsize gl)) (celldata gl);
  ls_plain : Forall gee_plain (extddata gl);
  ls_used : 0 <= cellused gl <= cellsize gl
}.

Lemma line_safe_zero : line_safe gl_zero.
Proof. by split; cbn. Qed.

Lemma has_without f b c : has (without f b) c = has (Z.land f (Z.lnot b)) c.
Proof. unfold without. by rewrite Z.ldiff_land. Qed.

Lemma plain_without f b : has f GRID_FLAG_EXTENDED = false ->
  has (without f b) GRID_FLAG_EXTENDED = false.
Proof.
  unfold has. rewrite !negb_false_iff, !Z.eqb_eq. intros Hf. unfold without.
  rewrite Z.ldiff_land, <- Z.land_assoc, (Z.land_comm _ GRID_FLAG_EXTENDED), Z.land_assoc, Hf.
  by rewrite Z.land_0_l.
Qed.

Lemma plain_lor f b : has f GRID_FLAG_EXTENDED = false -> has b GRID_FLAG_EXTENDED = false ->
  has (Z.lor f b) GRID_FLAG_EXTENDED = false.
Proof.
  unfold has. rewrite !negb_false_iff, !Z.eqb_eq. intros Hf Hb.
  by rewrite Z.land_lor_distr_l, Hf, Hb.
Qed.

Lemma gce_points_mono n m gce : n <= m -> gce_points n gce -> gce_points m gce.
Proof. intros Hnm Hp He. specialize (Hp He). lia. Qed.

Lemma get_gce_points gl px : line_safe gl -> gce_points (extdsize gl) (get_gce gl px).
Proof.
  intros [Hp _ _]. unfold get_gce. rewrite Forall_forall in Hp.
  destruct (nth_in_or_default (Z.to_nat px) (celldata gl) gce_zero) as [Hin | ->]; [|done].
  apply Hp. by apply list_elem_of_In.
Qed.

Section Lines.
Context `{CellCodec}.

(** A change of the cells and extended cells of a line: the sizes stay. *)
Record line_keeps (gl gl' : grid_line) : Prop := LineKeeps {
  lk_safe : line_safe gl';
  lk_size : cellsize gl' = cellsize gl;
  lk_used : cellused gl' = cellused gl
}.

Lemma line_keeps_refl gl : line_safe gl -> line_keeps gl gl.
Proof. by split. Qed.

Lemma line_keeps_trans gl1 gl2 gl3 : line_keeps gl1 gl2 -> line_keeps gl2 gl3 -> line_keeps gl1 gl3.
Proof. intros [] []. split; [done|congruence..]. Qed.

(** New extended cells: there are no fewer of them. *)
Lemma set_extd_keeps gl l : line_safe gl -> (length (extddata gl) <= length l)%nat ->
  Forall gee_plain l -> line_keeps gl (set_extddata l gl).
Proof.
  intros [Hp Hf Hu] Hl Hpl. split; [|done..]. split; [|done..].
  eapply Forall_impl; [exact Hp|]. intros gce. apply gce_points_mono. unfold extdsize; cbn. lia.
Qed.

Lemma put_gce_keeps gl px gce : line_safe gl -> gce_points (extdsize gl) gce ->
  line_keeps gl (put_gce px gce gl).
Proof.
  intros [Hp Hf Hu] Hg.
  assert (Hs : cellsize (put_gce px gce gl) = cellsize gl)
    by (unfold cellsize; cbn; by rewrite length_insert).
  split; [|done..]. split; [|done|by rewrite Hs].
  cbn [put_gce set_celldata celldata extddata]. by apply Forall_insert.
Qed.

Lemma set_flags_keeps gl f : line_safe gl -> line_keeps gl (set_gl_flags f gl).
Proof. by intros []. Qed.

(** [grid_extended_cell] does not fail. *)
Lemma extended_cell_keeps gl gce gc : line_safe gl -> gce_points (extdsize gl) gce ->
  cell_plain gc -> exists gl' gce', grid_extended_cell gl gce gc = Some (gl', gce') /\
    line_keeps gl gl' /\ gce_points (extdsize gl') gce' /\
    0 <= gce_offset gce' < extdsize gl' /\ celldata gl' = celldata gl.
Proof.
  intros Hs Hg Hc. pose proof Hs as [Hp Hf Hu]. unfold grid_extended_cell.
  destruct (has (gce_flags gce) GRID_FLAG_EXTENDED) eqn:He; cbn [negb].
  - specialize (Hg He). rewrite (proj2 (Z.leb_gt _ _)) by lia. eexists _, _. split; [done|].
    assert (Hl : extdsize (set_extddata (<[Z.to_nat (gce_offset gce) := GEE
       (if has (gc_flags gc) GRID_FLAG_TAB then ud_width (gc_data gc) else pack (gc_data gc))
       (gc_attr gc) (without (gc_flags gc) GRID_FLAG_CLEARED) (gc_fg gc) (gc_bg gc) (gc_us gc)
       (gc_link gc)]> (extddata gl)) gl) = extdsize gl)
      by (unfold extdsize; cbn; by rewrite length_insert).
    split; [|by split; [intros _; unfold extdsize in *; cbn in *; lia|split; [unfold extdsize in *; cbn in *; lia|]]].
    eapply line_keeps_trans; [|apply set_extd_keeps].
    + by apply set_flags_keeps.
    + by split.
    + cbn. by rewrite length_insert.
    + cbn. apply Forall_insert; [done|]. by apply plain_without.
  - cbn [grid_get_extended_cell]. eexists _, _. split; [done|].
    assert (Hn : Z.to_nat (extdsize gl) = length (extddata gl)) by (unfold extdsize; lia).
    assert (Hr : 0 <= extdsize gl < Z.of_nat (length (extddata gl ++ [GEE 0 0 0 0 0 0 0])))
      by (rewrite length_app; unfold extdsize; cbn; lia).
    split; [|split; [intros _|split; [|done]];
             unfold extdsize; cbn [set_extddata set_gl_flags extddata gce_offset gce_union_of];
             rewrite length_insert; exact Hr].
    apply (line_keeps_trans gl (set_gl_flags (Z.lor (gl_flags gl) GRID_LINE_EXTENDED) gl));
      [by apply set_flags_keeps|].
    refine (set_extd_keeps (set_gl_flags _ gl) _ _ _ _); [by split| |].
    + cbn. rewrite length_insert, length_app. lia.
    + cbn. apply Forall_insert; [|by apply plain_without]. apply Forall_app. split; [done|].
      by apply Forall_singleton.
Qed.

Lemma set_extd_bg_keeps gl gce bg : line_safe gl -> line_keeps gl (set_extd_bg gce bg gl).
Proof.
  intros Hs. apply set_extd_keeps; [done| |].
  - by rewrite length_alter.
  - apply Forall_alter; [apply Hs|]. intros x Hx Hp. exact Hp.
Qed.

Lemma cleared_plain : cell_plain grid_cleared_cell.
Proof. done. Qed.

Lemma clear_cell_keeps gl px bg moved : line_safe gl ->
  line_keeps gl (grid_clear_cell px bg moved gl).
Proof.
  intros Hs. pose proof (get_gce_points gl px Hs) as Hg. unfold grid_clear_cell.
  destruct (negb moved && has _ _ && _) eqn:E.
  - apply andb_true_iff in E as [E Ho]. apply andb_true_iff in E as [_ He]. apply Z.ltb_lt in Ho.
    specialize (Hg He).
    destruct (extended_cell_keeps gl (GCE (Offset (gce_offset (get_gce gl px)))
      (Z.lor (gce_flags grid_cleared_entry) GRID_FLAG_EXTENDED)) grid_cleared_cell)
      as (gl' & gce' & -> & Hk & Hp' & _); [done|by intros _|done|].
    assert (Hk' : line_keeps gl (put_gce px gce' gl')).
    { eapply line_keeps_trans; [exact Hk|]. apply put_gce_keeps; [apply Hk|done]. }
    destruct (negb (bg =? 8)); [|done].
    eapply line_keeps_trans; [exact Hk'|]. apply set_extd_bg_keeps, Hk'.
  - clear E. destruct (negb (bg =? 8)); [|by apply put_gce_keeps].
    destruct (has bg COLOUR_FLAG_RGB).
    + cbn [grid_get_extended_cell].
      assert (Hk0 : line_keeps gl (set_extddata (extddata gl ++ [GEE 0 0 0 0 0 0 0]) gl)).
      { apply set_extd_keeps; [done|rewrite length_app; lia|].
        apply Forall_app. split; [apply Hs|by apply Forall_singleton]. }
      destruct (extended_cell_keeps (set_extddata (extddata gl ++ [GEE 0 0 0 0 0 0 0]) gl)
        (GCE (Offset (extdsize gl)) (Z.lor (gce_flags grid_cleared_entry) GRID_FLAG_EXTENDED))
        grid_cleared_cell) as (gl' & gce' & -> & Hk & Hp' & _); [apply Hk0| |done|].
      { intros _. unfold extdsize. cbn. rewrite length_app. cbn. lia. }
      assert (Hk' : line_keeps gl (put_gce px gce' gl')).
      { eapply line_keeps_trans; [exact Hk0|]. eapply line_keeps_trans; [exact Hk|].
        apply put_gce_keeps; [apply Hk|done]. }
      eapply line_keeps_trans; [exact Hk'|]. apply set_extd_bg_keeps, Hk'.
    + apply put_gce_keeps; [done|]. by destruct (has bg COLOUR_FLAG_256).
Qed.

Lemma clear_cells_keeps px nx bg gl : line_safe gl -> line_keeps gl (clear_cells px nx bg gl).
Proof.
  intros Hs. unfold clear_cells. generalize (seqZ px nx). intros l. revert gl Hs.
  induction l as [|x l IH]; intros gl Hs; [by apply line_keeps_refl|]. cbn [foldl].
  pose proof (clear_cell_keeps gl x bg false Hs) as Hk.
  eapply line_keeps_trans; [exact Hk|]. apply IH, Hk.
Qed.

Lemma store_plain gc c : cell_plain gc -> extended (grid_store_cell gc c) = false.
Proof.
  intros Hc. unfold extended, grid_store_cell. cbn [gce_flags].
  assert (H0 : has (without (gc_flags gc) GRID_FLAG_CLEARED) GRID_FLAG_EXTENDED = false)
    by (by apply plain_without).
  destruct (has (gc_fg gc) _), (has (gc_bg gc) _); repeat (apply plain_lor; [|done]); done.
Qed.

Lemma store_cell_keeps px gc c gl : line_safe gl -> cell_plain gc ->
  line_keeps gl (store_cell px gc c gl).
Proof.
  intros Hs Hc. unfold store_cell. destruct (grid_need_extended_cell _ _).
  - destruct (extended_cell_keeps gl (get_gce gl px) gc) as (gl' & gce' & -> & Hk & Hp & _);
      [done|by apply get_gce_points|done|].
    eapply line_keeps_trans; [exact Hk|]. apply put_gce_keeps; [apply Hk|done].
  - apply put_gce_keeps; [done|]. intros He. by rewrite store_plain in He.
Qed.

Lemma store_char_keeps px gc c gl : line_safe gl -> cell_plain gc ->
  line_keeps gl (store_char px gc c gl).
Proof.
  intros Hs Hc. unfold store_char. destruct (grid_need_extended_cell _ _).
  - destruct (extended_cell_keeps gl (get_gce gl px) gc) as (gl' & gce' & -> & Hk & Hp & _);
      [done|by apply get_gce_points|done|].
    assert (Hk' : line_keeps gl (put_gce px gce' gl')).
    { eapply line_keeps_trans; [exact Hk|]. apply put_gce_keeps; [apply Hk|done]. }
    eapply line_keeps_trans; [exact Hk'|]. apply set_extd_keeps; [apply Hk'|by rewrite length_alter|].
    apply Forall_alter; [apply Hk'|]. intros x Hx Hpx. exact Hpx.
  - apply put_gce_keeps; [done|]. intros He. by rewrite store_plain in He.
Qed.

(** A longer line. *)
Lemma append_safe gl n : line_safe gl ->
  line_safe (set_celldata (celldata gl ++ replicate n gce_zero) gl).
Proof.
  intros [Hp Hf Hu]. split; cbn; [|done|].
  - apply Forall_app. split; [done|]. by apply Forall_replicate.
  - unfold cellsize in *. cbn. rewrite length_app, length_replicate. lia.
Qed.

Lemma expand_line_safe w sx bg gl : line_safe gl -> 
  line_safe (expand_line w sx bg gl) /\ sx <= cellsize (expand_line w sx bg gl) /\
  cellsize gl <= cellsize (expand_line w sx bg gl) /\
  cellused (expand_line w sx bg gl) = cellused gl.
Proof.
  intros Hs. unfold expand_line. destruct (Z.leb_spec sx (cellsize gl)); [done|].
  pose proof (expand_size_ge w sx) as He.
  set (gl' := set_celldata _ _). assert (Hs' : line_safe gl') by (by apply append_safe).
  assert (Hz : cellsize gl' = expand_size w sx).
  { unfold gl', cellsize. cbn. rewrite length_app, length_replicate. unfold cellsize in *. lia. }
  destruct (clear_cells_keeps (cellsize gl) (expand_size w sx - cellsize gl) bg gl' Hs')
    as [Hc1 Hc2 Hc3].
  split; [done|]. rewrite Hc2, Hc3, Hz. split; [lia|]. split; [lia|done].
Qed.

Lemma set_used_safe n gl : line_safe gl -> n <= cellsize gl ->
  line_safe (if cellused gl <? n then set_cellused n gl else gl).
Proof.
  intros [Hp Hf Hu] Hn. destruct (Z.ltb_spec (cellused gl) n); [|by split].
  split; cbn; [done..|]. unfold cellsize in *. cbn. lia.
Qed.

Lemma set_cell_line_safe w px gc gl : line_safe gl -> cell_plain gc ->
  line_safe (set_cell_line w px gc gl).
Proof.
  intros Hs Hc. unfold set_cell_line. destruct (expand_line_safe w (px + 1) 8 gl Hs) as (He & Hz & _).
  apply store_cell_keeps; [|done]. by apply set_used_safe.
Qed.

Lemma set_cells_line_safe w px gc s gl : line_safe gl -> cell_plain gc ->
  line_safe (set_cells_line w px gc s gl).
Proof.
  intros Hs Hc. unfold set_cells_line.
  destruct (expand_line_safe w (px + Z.of_nat (length s)) 8 gl Hs) as (He & Hz & _).
  apply (set_used_safe (px + Z.of_nat (length s))) in He; [|done].
  revert He. generalize (if cellused (expand_line w (px + Z.of_nat (length s)) 8 gl) <?
    px + Z.of_nat (length s) then set_cellused (px + Z.of_nat (length s))
    (expand_line w (px + Z.of_nat (length s)) 8 gl) else expand_line w (px + Z.of_nat (length s)) 8 gl).
  clear Hs Hz. generalize px. induction s as [|c s IH]; intros i gl' Hs; [done|]. cbn [foldl].
  apply IH. by apply store_char_keeps.
Qed.

Lemma clear_in_line_safe w px nx bg gl : line_safe gl -> line_safe (clear_in_line w px nx bg gl).
Proof.
  intros Hs. unfold clear_in_line. destruct (_ && _); [done|].
  apply clear_cells_keeps. by apply expand_line_safe.
Qed.

Lemma list_move_length {A} to from n (l : list A) : 0 <= to -> 0 <= n ->
  to + n <= Z.of_nat (length l) -> length (list_move to from n l) = length l.
Proof.
  intros. unfold list_move. rewrite !length_app, !length_take, !length_drop, ?length_take, ?length_drop.
  lia.
Qed.

Lemma list_move_forall {A} (P : A -> Prop) to from n l : Forall P l -> Forall P (list_move to from n l).
Proof.
  intros Hl. unfold list_move. rewrite !Forall_app.
  auto using Forall_take, Forall_drop.
Qed.

Lemma move_in_line_safe w dx px nx bg gl : 0 <= dx -> 0 <= nx -> line_safe gl ->
  line_safe (move_in_line w dx px nx bg gl).
Proof.
  intros Hdx Hnx Hs. unfold move_in_line.
  destruct (expand_line_safe w (px + nx) 8 gl Hs) as (Hs1 & Hz1 & _).
  set (gl1 := expand_line w (px + nx) 8 gl) in *.
  destruct (expand_line_safe w (dx + nx) 8 gl1 Hs1) as (Hs2 & Hz2 & Hz2' & _).
  set (gl2 := expand_line w (dx + nx) 8 gl1) in *.
  assert (Hl : length (list_move dx px nx (celldata gl2)) = length (celldata gl2))
    by (apply list_move_length; [done..|unfold cellsize in *; lia]).
  assert (Hs3 : line_safe (set_celldata (list_move dx px nx (celldata gl2)) gl2)).
  { destruct Hs2 as [Hp Hf Hu]. split; cbn; [by apply list_move_forall|done|].
    unfold cellsize in *. cbn. by rewrite Hl. }
  apply (set_used_safe (dx + nx)) in Hs3; [|unfold cellsize in *; cbn; lia].
  revert Hs3. generalize (if cellused (set_celldata (list_move dx px nx (celldata gl2)) gl2) <? dx + nx
    then set_cellused (dx + nx) (set_celldata (list_move dx px nx (celldata gl2)) gl2)
    else set_celldata (list_move dx px nx (celldata gl2)) gl2).
  generalize (seqZ px nx). intros l. induction l as [|x l IH]; intros g Hg; [done|]. cbn [foldl].
  apply IH. destruct (_ && _); [done|]. by apply clear_cell_keeps.
Qed.

Lemma empty_line_safe w bg : line_safe (empty_line w bg).
Proof.
  unfold empty_line. destruct (COLOUR_DEFAULT bg); [apply line_safe_zero|].
  apply expand_line_safe, line_safe_zero.
Qed.

Lemma compact_cells_safe extd l : forall idx, 0 <= idx -> Forall gee_plain extd ->
  let '(cells, es) := compact_cells extd idx l in
  Forall (gce_points (idx + Z.of_nat (length es))) cells /\ Forall gee_plain es /\
  length cells = length l.
Proof.
  induction l as [|gce l IH]; intros idx Hi Hx; [done|]. cbn [compact_cells].
  destruct (has (gce_flags gce) GRID_FLAG_EXTENDED) eqn:He.
  - specialize (IH (idx + 1) ltac:(lia) Hx). destruct (compact_cells extd (idx + 1) l) as [cells es].
    destruct IH as (Hp & Hf & Hl). split; [|split; [|cbn; lia]].
    + constructor.
      * intros _. cbn. lia.
      * eapply Forall_impl; [exact Hp|]. intros g. apply gce_points_mono. cbn [length]. lia.
    + constructor; [|done].
      destruct (nth_in_or_default (Z.to_nat (gce_offset gce)) extd (GEE 0 0 0 0 0 0 0)) as [Hin | ->];
        [|done].
      rewrite Forall_forall in Hx. apply Hx. by apply list_elem_of_In.
  - specialize (IH idx Hi Hx). destruct (compact_cells extd idx l) as [cells es].
    destruct IH as (Hp & Hf & Hl). split; [|split; [done|cbn; lia]].
    constructor; [|done]. intros He'. unfold extended in He'. congruence.
Qed.

Lemma compact_line_safe gl : line_safe gl -> line_safe (grid_compact_line gl).
Proof.
  intros [Hp Hf Hu]. unfold grid_compact_line. destruct (extdsize gl =? 0); [by split|].
  pose proof (compact_cells_safe (extddata gl) (celldata gl) 0 ltac:(lia) Hf) as Hc.
  destruct (compact_cells _ _ _) as [cells es]. destruct Hc as (H1 & H2 & H3).
  split; cbn; [done..|]. unfold cellsize in *. cbn. by rewrite H3.
Qed.

Lemma get_cell_plain gd px py : Forall line_safe (linedata gd) -> cell_plain (grid_get_cell gd px py).
Proof.
  intros Hl. unfold grid_get_cell. destruct (_ || _); [done|].
  assert (Hs : line_safe (grid_get_line gd py)).
  { unfold grid_get_line. destruct (nth_in_or_default (Z.to_nat py) (linedata gd) gl_zero) as [Hin | ->];
      [|apply line_safe_zero]. rewrite Forall_forall in Hl. apply Hl. by apply list_elem_of_In. }
  pose proof (get_gce_points _ px Hs) as Hg. unfold grid_get_cell1.
  destruct (has (gce_flags _) GRID_FLAG_EXTENDED) eqn:He.
  - destruct (extdsize _ <=? _); [done|].
    assert (Hgee : gee_plain (nth (Z.to_nat (gce_offset (get_gce (grid_get_line gd py) px)))
              (extddata (grid_get_line gd py)) (GEE 0 0 0 0 0 0 0))).
    { destruct (nth_in_or_default (Z.to_nat (gce_offset (get_gce (grid_get_line gd py) px)))
        (extddata (grid_get_line gd py)) (GEE 0 0 0 0 0 0 0)) as [Hin | ->]; [|done].
      destruct Hs as [_ Hf _]. rewrite Forall_forall in Hf. apply Hf. by apply list_elem_of_In. }
    destruct (has (gee_flags _) GRID_FLAG_TAB); [|exact Hgee].
    unfold cell_plain. cbn [grid_set_tab gc_flags]. apply plain_without, plain_lor; [exact Hgee|done].
  - destruct (gce_bytes _) as [[[attr fg] bg] data]. unfold cell_plain. cbn [gc_flags].
    by apply plain_without.
Qed.

End Lines.

(** ** Grids *)

(** [B] is a bound of the history. *)
Record grid_safe (B : Z) (gd : grid) : Prop := GridSafe {
  gs_lines : Forall line_safe (linedata gd);
  gs_length : Z.of_nat (length (linedata gd)) = hsize gd + g_sy gd;
  gs_hsize : 0 <= hsize gd <= B;
  gs_sx : 1 <= g_sx gd < 1073741824;
  gs_sy : 1 <= g_sy gd;
  gs_bound : B + g_sy gd < 1073741824;
  gs_hlimit : 0 <= hlimit gd <= B;
  gs_one : 1 <= B;
  gs_hscrolled : 0 <= hscrolled gd <= hsize gd
}.

Section Grids.
Context `{CellCodec} (B : Z).
Notation safe := (grid_safe B).

(** The size of the screen stays. *)
Record keeps (gd gd' : grid) : Prop := Keeps {
  k_safe : safe gd';
  k_sx : g_sx gd' = g_sx gd;
  k_sy : g_sy gd' = g_sy gd
}.

Lemma keeps_refl gd : safe gd -> keeps gd gd.
Proof. by split. Qed.

Lemma keeps_trans gd1 gd2 gd3 : keeps gd1 gd2 -> keeps gd2 gd3 -> keeps gd1 gd3.
Proof. intros [] []. split; [done|congruence..]. Qed.

(** One operation after another. *)
Lemma keeps_then gd gd' (f : grid -> grid) : keeps gd gd' ->
  (safe gd' -> g_sx gd' = g_sx gd -> g_sy gd' = g_sy gd -> keeps gd' (f gd')) -> keeps gd (f gd').
Proof. intros [Hs Hx Hy] Hf. eapply keeps_trans; [by split|by apply Hf]. Qed.

Lemma foldl_keeps {A} (f : grid -> A -> grid) l gd : safe gd ->
  (forall gd x, safe gd -> keeps gd (f gd x)) -> keeps gd (foldl f gd l).
Proof.
  intros Hs Hf. revert gd Hs. induction l as [|x l IH]; intros gd Hs; [by apply keeps_refl|].
  cbn [foldl]. pose proof (Hf gd x Hs) as Hk. eapply keeps_trans; [exact Hk|]. apply IH, Hk.
Qed.

Lemma iter_keeps (f : grid -> grid) n gd : safe gd -> (forall gd, safe gd -> keeps gd (f gd)) ->
  keeps gd (Nat.iter n f gd).
Proof.
  intros Hs Hf. induction n as [|n IH]; [by apply keeps_refl|]. cbn [Nat.iter].
  apply (keeps_then gd _ f IH). intros Hs' _ _. by apply Hf.
Qed.

Lemma alter_forall {A} (P : A -> Prop) f n (l : list A) : Forall P l -> (forall x, P x -> P (f x)) ->
  Forall P (alter f n l).
Proof. intros Hl Hf. apply Forall_alter; auto. Qed.

Lemma update_keeps py f gd : safe gd -> (forall gl, line_safe gl -> line_safe (f gl)) ->
  keeps gd (update_line py f gd).
Proof.
  intros [] Hf. split; [|done..]. split; cbn; try done.
  - by apply alter_forall.
  - by rewrite length_alter.
Qed.

Lemma flags_safe gl f : line_safe gl -> line_safe (set_gl_flags f gl).
Proof. by intros []. Qed.

Lemma unwrap_keeps py gd : safe gd -> keeps gd (unwrap_line py gd).
Proof. intros Hs. apply update_keeps; [done|]. intros gl Hl. by apply flags_safe. Qed.

Lemma set_cell_keeps gd px py gc : safe gd -> cell_plain gc -> keeps gd (grid_set_cell gd px py gc).
Proof.
  intros Hs Hc. unfold grid_set_cell. destruct (grid_check_y gd py); [|by apply keeps_refl].
  apply update_keeps; [done|]. intros gl Hl. by apply set_cell_line_safe.
Qed.

Lemma set_cells_keeps gd px py gc s : safe gd -> cell_plain gc ->
  keeps gd (grid_set_cells gd px py gc s).
Proof.
  intros Hs Hc. unfold grid_set_cells. destruct (grid_check_y gd py); [|by apply keeps_refl].
  apply update_keeps; [done|]. intros gl Hl. by apply set_cells_line_safe.
Qed.

Lemma empty_keeps gd py bg : safe gd -> keeps gd (grid_empty_line gd py bg).
Proof. intros Hs. apply update_keeps; [done|]. intros _ _. apply empty_line_safe. Qed.

Lemma clear_lines_keeps gd py ny bg : safe gd -> keeps gd (grid_clear_lines gd py ny bg).
Proof.
  intros Hs. unfold grid_clear_lines. destruct (ny =? 0); [by apply keeps_refl|].
  destruct (_ || _); [by apply keeps_refl|].
  assert (Hk : keeps gd (foldl (fun gd yy => grid_empty_line gd yy bg) gd (seqZ py ny)))
    by (apply foldl_keeps; [done|]; intros; by apply empty_keeps).
  destruct (negb (py =? 0)); [|done].
  apply (keeps_then gd _ (unwrap_line (py - 1)) Hk). intros. by apply unwrap_keeps.
Qed.

Lemma clear_keeps gd px py nx ny bg : safe gd -> keeps gd (grid_clear gd px py nx ny bg).
Proof.
  intros Hs. unfold grid_clear. destruct (_ || _); [by apply keeps_refl|].
  destruct (_ && _); [by apply clear_lines_keeps|]. destruct (_ || _); [by apply keeps_refl|].
  apply foldl_keeps; [done|]. intros g x Hg. apply update_keeps; [done|].
  intros gl Hl. by apply clear_in_line_safe.
Qed.

Lemma move_lines_keeps gd dy py ny bg : safe gd -> 0 <= dy < 2147483648 -> 0 <= ny < 2147483648 ->
  keeps gd (grid_move_lines gd dy py ny bg).
Proof.
  intros Hs Hdy Hny. unfold grid_move_lines. destruct (_ || _); [by apply keeps_refl|].
  destruct (negb (grid_check_y gd py) || _ || _ || _) eqn:E; [by apply keeps_refl|].
  apply orb_false_iff in E as [_ E]. apply negb_false_iff in E.
  unfold grid_check_y in E. apply Z.ltb_lt in E.
  pose proof (gs_length _ _ Hs). pose proof (gs_hsize _ _ Hs). pose proof (gs_bound _ _ Hs).
  pose proof (gs_sy _ _ Hs). rewrite (u32_small (hsize gd + g_sy gd)) in E by lia.
  set (g1 := if negb (dy =? 0) then unwrap_line (dy - 1) gd else gd).
  assert (Hk1 : keeps gd g1)
    by (unfold g1; destruct (negb (dy =? 0)); [by apply unwrap_keeps|by apply keeps_refl]).
  assert (Hlen : length (linedata g1) = length (linedata gd)).
  { unfold g1. destruct (negb (dy =? 0)); [|done]. cbn. by rewrite length_alter. }
  assert (Hk2 : keeps g1 (set_linedata (list_move dy py ny (linedata g1)) g1)).
  { destruct Hk1 as [[] Hx Hy]. split; [|done..]. split; cbn; try done.
    - by apply list_move_forall.
    - destruct (decide (ny = 0)) as [-> | Hn0].
      + rewrite list_move_length; [done|lia..|]. unfold u32 in E.
        assert (dy <= hsize gd + g_sy gd); [|lia]. 
        destruct (decide (dy = 0)); [lia|]. rewrite Z.mod_small in E by lia. lia.
      + rewrite u32_small in E by lia. by rewrite list_move_length by lia. }
  assert (Hk3 := keeps_trans _ _ _ Hk1 Hk2).
  set (g2 := set_linedata _ g1) in *.
  assert (Hk4 : keeps gd (foldl (fun gd yy => if (yy <? dy) || (dy + ny <=? yy)
                                  then grid_empty_line gd yy bg else gd) g2 (seqZ py ny))).
  { eapply keeps_trans; [exact Hk3|]. apply foldl_keeps; [apply Hk3|]. intros g x Hg.
    destruct (_ || _); [by apply empty_keeps|by apply keeps_refl]. }
  destruct (negb (py =? 0) && _); [|done].
  apply (keeps_then gd _ (unwrap_line (py - 1)) Hk4). intros. by apply unwrap_keeps.
Qed.

Lemma move_cells_keeps gd dx px py nx bg : safe gd -> 0 <= dx -> 0 <= nx ->
  keeps gd (grid_move_cells gd dx px py nx bg).
Proof.
  intros Hs Hdx Hnx. unfold grid_move_cells. destruct (_ || _); [by apply keeps_refl|].
  destruct (negb _); [by apply keeps_refl|]. apply update_keeps; [done|].
  intros gl Hl. by apply move_in_line_safe.
Qed.

(** *** History *)

(** The history has room for one more line afterwards. *)
Lemma collect_keeps gd : safe gd ->
  keeps gd (grid_collect_history gd false) /\ hsize (grid_collect_history gd false) < B.
Proof.
  intros Hs. pose proof Hs as []. unfold grid_collect_history.
  destruct (Z.eqb_spec (hsize gd) 0) as [E|E]; cbn [orb];
    [split; [by apply keeps_refl|lia]|].
  destruct (Z.ltb_spec (hsize gd) (hlimit gd)) as [L|L]; cbn [orb];
    [split; [by apply keeps_refl|lia]|].
  set (ny := if hlimit gd / 10 <? 1 then 1 else hlimit gd / 10).
  assert (Hny : 1 <= (if hsize gd <? ny then hsize gd else ny) <= hsize gd).
  { unfold ny. destruct (Z.ltb_spec (hlimit gd / 10) 1); zcases; lia. }
  set (k := if hsize gd <? ny then hsize gd else ny) in *. clearbody k.
  split; [|cbn; lia]. split; [|done..]. split; cbn; try done; try lia.
  - by apply Forall_drop.
  - unfold grid_trim_history. rewrite length_drop. lia.
Qed.

Lemma scroll_history_keeps now gd bg : safe gd -> hsize gd < B ->
  keeps gd (grid_scroll_history now gd bg).
Proof.
  intros [] Hb. unfold grid_scroll_history. split; [|done..].
  split; cbn [set_hsize set_hscrolled set_linedata update_line linedata hsize g_sx g_sy hlimit hscrolled];
    try done; rewrite ?u32_small by lia; try lia.
  - apply alter_forall.
    + apply Forall_app. split; [done|]. apply Forall_singleton, empty_line_safe.
    + intros gl Hl. by destruct (compact_line_safe gl Hl).
  - rewrite length_alter, length_app. cbn [length]. lia.
Qed.

Lemma scroll_region_keeps now gd upper lower bg : safe gd -> hsize gd < B ->
  0 <= upper <= lower -> lower < hsize gd + g_sy gd ->
  keeps gd (grid_scroll_history_region now gd upper lower bg).
Proof.
  intros [Sl Sn Sh Sx Sy Sb Slim So Ss] Hb Hu Hlo. unfold grid_scroll_history_region.
  set (h := Z.to_nat (hsize gd)).
  assert (Hnth : forall n (l : list grid_line), Forall line_safe l -> line_safe (nth n l gl_zero)).
  { intros n l Hl. destruct (nth_in_or_default n l gl_zero) as [Hin | ->]; [|apply line_safe_zero].
    rewrite Forall_forall in Hl. apply Hl. by apply list_elem_of_In. }
  set (l1 := take h (linedata gd) ++ nth h (linedata gd) gl_zero :: drop h (linedata gd)).
  assert (H1 : Forall line_safe l1).
  { apply Forall_app. split; [by apply Forall_take|]. constructor; [by apply Hnth|by apply Forall_drop]. }
  assert (Hn1 : length l1 = S (length (linedata gd))).
  { unfold l1. rewrite length_app, length_take. cbn [length]. rewrite length_drop. unfold h. lia. }
  set (l2 := <[h := set_gl_time now (nth (Z.to_nat (upper + 1)) l1 gl_zero)]> l1).
  assert (H2 : Forall line_safe l2).
  { apply Forall_insert; [done|]. destruct (Hnth (Z.to_nat (upper + 1)) l1 H1). by split. }
  set (l3 := list_move (upper + 1) (upper + 1 + 1) (lower + 1 - (upper + 1)) l2).
  assert (Hn3 : length l3 = S (length (linedata gd))).
  { unfold l3. rewrite list_move_length; unfold l2; rewrite ?length_insert; lia. }
  split; [|done..].
  split; cbn [set_hsize set_hscrolled grid_empty_line set_linedata update_line linedata hsize g_sx g_sy
              hlimit hscrolled]; try done; rewrite ?u32_small by lia; try lia.
  - apply alter_forall; [by apply list_move_forall|]. intros _ _. apply empty_line_safe.
  - rewrite length_alter. fold l1 l2 l3. lia.
Qed.

Lemma clear_history_keeps gd : safe gd -> keeps gd (grid_clear_history gd).
Proof.
  intros []. split; [|done..]. unfold grid_clear_history, grid_trim_history.
  split; cbn; try done; try lia.
  - by apply Forall_take, Forall_drop.
  - rewrite length_take, length_drop. lia.
Qed.

Lemma set_hscrolled_keeps gd : safe gd -> keeps gd (set_hscrolled 0 gd).
Proof. intros []. split; [|done..]. split; cbn; try done; lia. Qed.

Lemma set_g_flags_keeps f gd : safe gd -> keeps gd (set_g_flags f gd).
Proof. by intros []. Qed.

(** *** The part on the screen *)

Lemma view_y gd y : safe gd -> 0 <= y <= g_sy gd -> grid_view_y gd y = hsize gd + y.
Proof. intros [] Hy. unfold grid_view_y. by rewrite u32_small by lia. Qed.

Lemma view_clear_keeps gd px py nx ny bg : safe gd -> keeps gd (grid_view_clear gd px py nx ny bg).
Proof. apply clear_keeps. Qed.

Lemma view_clear_history_keeps now gd bg : safe gd -> keeps gd (grid_view_clear_history now gd bg).
Proof.
  intros Hs. unfold grid_view_clear_history. destruct (_ =? 0); [by apply clear_keeps|].
  set (f := fun gd => grid_scroll_history now (grid_collect_history gd false) bg).
  assert (H1 : keeps gd (Nat.iter (Z.to_nat (last_used gd)) f gd)).
  { apply iter_keeps; [done|]. intros g Hg. destruct (collect_keeps g Hg) as [Hk Hb].
    unfold f. eapply keeps_trans; [exact Hk|]. apply scroll_history_keeps; [apply Hk|done]. }
  set (g1 := Nat.iter _ f gd) in *.
  assert (H2 : keeps gd (if last_used gd <? g_sy g1 then grid_view_clear g1 0 0 (g_sx g1)
                           (g_sy g1 - last_used gd) bg else g1)).
  { destruct (_ <? _); [|done]. eapply keeps_trans; [exact H1|]. apply clear_keeps, H1. }
  eapply keeps_trans; [exact H2|]. apply set_hscrolled_keeps, H2.
Qed.

Lemma region_up_keeps now gd rupper rlower bg : safe gd -> 0 <= rupper <= rlower ->
  rlower < g_sy gd -> keeps gd (grid_view_scroll_region_up now gd rupper rlower bg).
Proof.
  intros Hs Hu Hl. unfold grid_view_scroll_region_up. destruct (has _ _).
  - destruct (collect_keeps gd Hs) as [Hk Hb]. pose proof (k_sy _ _ Hk) as Hy.
    eapply keeps_trans; [exact Hk|]. set (g1 := grid_collect_history gd false) in *.
    destruct (_ && _); [apply scroll_history_keeps; [apply Hk|done]|].
    rewrite !view_y by (apply Hk || lia).
    pose proof (gs_hsize _ _ (k_safe _ _ Hk)). apply scroll_region_keeps; [apply Hk|lia..].
  - rewrite !view_y by (done || lia). pose proof (gs_hsize _ _ Hs). pose proof (gs_bound _ _ Hs).
    apply move_lines_keeps; [done|lia|]. rewrite u32_small; lia.
Qed.

Lemma region_down_keeps gd rupper rlower bg : safe gd -> 0 <= rupper <= rlower ->
  rlower < g_sy gd -> keeps gd (grid_view_scroll_region_down gd rupper rlower bg).
Proof.
  intros Hs Hu Hl. unfold grid_view_scroll_region_down. rewrite !view_y by (done || lia).
  pose proof (gs_hsize _ _ Hs). pose proof (gs_bound _ _ Hs).
  apply move_lines_keeps; [done|lia|]. rewrite u32_small; lia.
Qed.

(** The lines from [py] to the end of the screen or of the region, [ny] of which
    are inserted or deleted. *)
Lemma insert_lines_keeps gd py ny bg : safe gd -> 0 <= py -> 0 <= ny -> py + ny <= g_sy gd ->
  keeps gd (grid_view_insert_lines gd py ny bg).
Proof.
  intros Hs Hp Hn Hl. unfold grid_view_insert_lines. rewrite !view_y by (done || lia).
  pose proof (gs_hsize _ _ Hs). pose proof (gs_bound _ _ Hs).
  apply move_lines_keeps; [done|rewrite u32_small; lia..].
Qed.

Lemma delete_lines_keeps gd py ny bg : safe gd -> 0 <= py -> 0 <= ny -> py + ny <= g_sy gd ->
  keeps gd (grid_view_delete_lines gd py ny bg).
Proof.
  intros Hs Hp Hn Hl. unfold grid_view_delete_lines. rewrite !view_y by (done || lia).
  pose proof (gs_hsize _ _ Hs). pose proof (gs_bound _ _ Hs).
  assert (Hk : keeps gd (grid_move_lines gd (hsize gd + py) (u32 (hsize gd + py + ny))
            (u32 (hsize gd + g_sy gd - (hsize gd + py) - ny)) bg))
    by (apply move_lines_keeps; [done|lia|rewrite u32_small; lia]).
  eapply keeps_trans; [exact Hk|]. apply clear_keeps, Hk.
Qed.

Lemma insert_region_keeps gd rlower py ny bg : safe gd -> 0 <= py -> 0 <= ny ->
  py + ny <= rlower + 1 -> 0 <= rlower < g_sy gd ->
  keeps gd (grid_view_insert_lines_region gd rlower py ny bg).
Proof.
  intros Hs Hp Hn Hl Hr. unfold grid_view_insert_lines_region. rewrite !view_y by (done || lia).
  pose proof (gs_hsize _ _ Hs). pose proof (gs_bound _ _ Hs).
  rewrite (u32_small (_ - _ - ny)) by lia.
  eapply keeps_trans; [|apply clear_keeps]; [|eapply k_safe];
    (apply move_lines_keeps; [done|rewrite ?u32_small by lia; lia..]).
Qed.

Lemma delete_region_keeps gd rlower py ny bg : safe gd -> 0 <= py -> 0 <= ny ->
  py + ny <= rlower + 1 -> 0 <= rlower < g_sy gd ->
  keeps gd (grid_view_delete_lines_region gd rlower py ny bg).
Proof.
  intros Hs Hp Hn Hl Hr. unfold grid_view_delete_lines_region. rewrite !view_y by (done || lia).
  pose proof (gs_hsize _ _ Hs). pose proof (gs_bound _ _ Hs).
  rewrite (u32_small (_ - _ - ny)) by lia.
  eapply keeps_trans; [|apply clear_keeps]; [|eapply k_safe];
    (apply move_lines_keeps; [done|rewrite ?u32_small by lia; lia..]).
Qed.

Lemma insert_cells_keeps gd px py nx bg : safe gd -> keeps gd (grid_view_insert_cells gd px py nx bg).
Proof.
  intros Hs. unfold grid_view_insert_cells. destruct (_ <=? _); [by apply clear_keeps|].
  apply move_cells_keeps; [done|apply u32_range..].
Qed.

Lemma delete_cells_keeps gd px py nx bg : safe gd -> 0 <= px ->
  keeps gd (grid_view_delete_cells gd px py nx bg).
Proof.
  intros Hs Hp. unfold grid_view_delete_cells.
  assert (Hk : keeps gd (grid_move_cells gd px (u32 (px + nx)) (grid_view_y gd py)
            (u32 (g_sx gd - px - nx)) bg)) by (apply move_cells_keeps; [done|lia|apply u32_range]).
  eapply keeps_trans; [exact Hk|]. apply clear_keeps, Hk.
Qed.

(** *** Copies *)

Lemma create_safe sx sy : 1 <= sx < 1073741824 -> 1 <= sy -> 1 <= B -> B + sy < 1073741824 ->
  safe (grid_create sx sy 0).
Proof.
  intros. split; cbn; try done; try lia.
  - apply Forall_replicate, line_safe_zero.
  - rewrite length_replicate. lia.
Qed.

Lemma duplicate_keeps dst dy src sy ny : safe dst -> Forall line_safe (linedata src) ->
  keeps dst (grid_duplicate_lines dst dy src sy ny).
Proof.
  intros Hs Hsrc. unfold grid_duplicate_lines. apply foldl_keeps; [done|].
  intros g k Hg. apply update_keeps; [done|]. intros _ _. unfold grid_get_line.
  destruct (nth_in_or_default (Z.to_nat (sy + k)) (linedata src) gl_zero) as [Hin | ->];
    [|apply line_safe_zero].
  rewrite Forall_forall in Hsrc. apply Hsrc. by apply list_elem_of_In.
Qed.

End Grids.
