(* ===== verification/ScreenSafe.v ===== *)
(** * What keeps a screen in order

    The cursor lies on the screen (or just after the last column), the scroll
    region is a region of it, the saved grid has its size; every operation of
    screen-write.c keeps it so. *)
From Stdlib Require Import Ascii String.
From S2P Require Import Prelude.
From S2P Require Import Utf8.
From S2P Require Import CellCodec.
From S2P Require Import Locale.
From S2P Require Import Utf8Combined.
From S2P Require Import Grid.
From S2P Require Import GridFacts.
From S2P Require Import Reflow.
From S2P Require Import Screen.
From S2P Require Import ScreenInfo.
From S2P Require Import ScreenWrite.
From S2P Require Import GridSafe.

Section Safe.
Context `{CellCodec} `{Locale} (B : Z) (env : write_env).
Notation keeps := (keeps B).

Definition titles_ok (i : screen_info) : Prop :=
  si_ntitles i = Z.of_nat (length (default [] (si_titles i))) /\
  (length (default [] (si_titles i)) <= 10)%nat.

Record screen_safe (s : screen) : Prop := ScreenSafe {
  ss_grid : grid_safe B (s_grid s);
  ss_cx : 0 <= s_cx s <= screen_size_x s;
  ss_cy : 0 <= s_cy s < screen_size_y s;
  ss_region : 0 <= s_rupper s <= s_rlower s /\ s_rlower s < screen_size_y s;
  ss_saved : forall gd, s_saved_grid s = Some gd ->
    grid_safe B gd /\ g_sx gd = screen_size_x s /\ g_sy gd = screen_size_y s;
  ss_cell : cell_plain (s_saved_cell s);
  ss_saved_cursor : 0 <= s_saved_cx s /\ 0 <= s_saved_cy s;
  ss_titles : titles_ok (s_info s)
}.

(** No text is being collected. *)
Record idle (c : write_ctx) : Prop := Idle {
  id_screen : screen_safe (c_s c);
  id_gc : cell_plain (c_gc c);
  id_text : c_text c = []
}.

(** The text being collected fits after the cursor. *)
Record ctx_safe (c : write_ctx) : Prop := CtxSafe {
  cs_screen : screen_safe (c_s c);
  cs_gc : cell_plain (c_gc c);
  cs_text : c_cx c + Z.of_nat (length (c_text c)) <= c_sx c
}.

Lemma idle_safe c : idle c -> ctx_safe c.
Proof.
  intros [Hs Hg Ht]. split; [done..|]. rewrite Ht. cbn.
  pose proof (ss_cx _ Hs). unfold c_cx, c_sx. lia.
Qed.

(** ** The parts *)

Lemma set_grid_safe s gd : screen_safe s -> keeps (s_grid s) gd -> screen_safe (set_s_grid gd s).
Proof.
  intros [] [Hs Hx Hy]. split; unfold screen_size_x, screen_size_y in *; cbn; rewrite ?Hx, ?Hy; done.
Qed.

Lemma set_cursor_safe s cx cy : screen_safe s -> 0 <= cx <= screen_size_x s ->
  0 <= cy < screen_size_y s -> screen_safe (set_s_cursor cx cy s).
Proof. by intros [] Hx Hy. Qed.

Lemma set_region_safe s u l : screen_safe s -> 0 <= u <= l -> l < screen_size_y s ->
  screen_safe (set_s_region u l s).
Proof. by intros [] Hu Hl. Qed.

Lemma set_mode_safe s m : screen_safe s -> screen_safe (set_s_mode m s).
Proof. by intros []. Qed.

Lemma set_tabs_safe s t : screen_safe s -> screen_safe (set_s_tabs t s).
Proof. by intros []. Qed.

Lemma set_info_safe s i : screen_safe s -> titles_ok i -> screen_safe (set_s_info i s).
Proof. by intros [] Hi. Qed.

Lemma on_s_idle f c : idle c -> (screen_safe (c_s c) -> screen_safe (f (c_s c))) -> idle (on_s f c).
Proof. intros [Hs Hg Ht] Hf. split; cbn; auto. Qed.

Lemma on_grid_idle f c : idle c ->
  (grid_safe B (s_grid (c_s c)) -> keeps (s_grid (c_s c)) (f (s_grid (c_s c)))) -> idle (on_grid f c).
Proof.
  intros Hi Hf. apply on_s_idle; [done|]. intros Hs. apply set_grid_safe; [done|]. apply Hf, Hs.
Qed.

Lemma new_item_idle c : idle c -> idle (new_item c).
Proof. by intros []. Qed.

Lemma new_item_safe c : ctx_safe c -> idle (new_item c).
Proof. by intros []. Qed.

Lemma place_range size last old new : 1 <= size < 4294967296 ->
  0 <= old <= (if last : bool then size else size - 1) ->
  0 <= place size last old new <= (if last then size else size - 1).
Proof.
  intros Hs Ho. unfold place. destruct (new =? -1); [done|].
  pose proof (u32_range new). rewrite (u32_small (size - 1)) by lia.
  destruct last.
  - destruct (Z.ltb_spec size (u32 new)); lia.
  - destruct (Z.ltb_spec (size - 1) (u32 new)); lia.
Qed.

Lemma cursor_idle cx cy c : idle c -> idle (screen_write_set_cursor cx cy c).
Proof.
  intros Hi. unfold screen_write_set_cursor. destruct (_ && _); [done|].
  apply on_s_idle; [done|]. intros Hs. pose proof (gs_sx _ _ (ss_grid _ Hs)) as Hx.
  pose proof (gs_sy _ _ (ss_grid _ Hs)) as Hy. pose proof (gs_bound _ _ (ss_grid _ Hs)) as Hb.
  pose proof (gs_hsize _ _ (ss_grid _ Hs)) as Hh.
  pose proof (ss_cx _ Hs). pose proof (ss_cy _ Hs). apply set_cursor_safe; [done|..].
  - apply place_range; unfold screen_size_x in *; lia.
  - pose proof (place_range (screen_size_y (c_s c)) false (s_cy (c_s c)) (s32 cy)) as Hp.
    unfold screen_size_y in *. cbn beta iota in Hp. lia.
Qed.

Lemma cursor_zero c : 1 <= c_sx c -> c_cx (screen_write_set_cursor 0 (-1) c) = 0.
Proof.
  intros Hx. unfold screen_write_set_cursor. rewrite (s32_small (-1)), (s32_small 0) by lia.
  change (-1 =? -1) with true. cbn [negb andb]. rewrite andb_false_r.
  unfold c_cx. cbn. unfold place. change (0 =? -1) with false. change (u32 0) with 0.
  unfold c_sx in Hx. rewrite (proj2 (Z.ltb_ge _ _)) by lia. done.
Qed.

Lemma cursor_size cx cy c : c_sx (screen_write_set_cursor cx cy c) = c_sx c.
Proof. unfold screen_write_set_cursor. by destruct (_ && _). Qed.

(** *** Automation: an operation is made of the parts *)

Ltac parts :=
  repeat first
    [ assumption
    | apply cursor_idle
    | apply new_item_idle
    | match goal with
      | |- idle (if ?b then _ else _) => destruct b
      | |- context [let '(_, _) := ?x in _] => destruct x eqn:?
      end ].

Lemma cursorup_idle ny c : idle c -> idle (screen_write_cursorup ny c).
Proof. intros. unfold screen_write_cursorup. parts. Qed.
Lemma cursordown_idle ny c : idle c -> idle (screen_write_cursordown ny c).
Proof. intros. unfold screen_write_cursordown. parts. Qed.
Lemma cursorright_idle nx c : idle c -> idle (screen_write_cursorright nx c).
Proof. intros. unfold screen_write_cursorright. parts. Qed.
Lemma cursorleft_idle nx c : idle c -> idle (screen_write_cursorleft nx c).
Proof. intros. unfold screen_write_cursorleft. parts. Qed.
Lemma backspace_idle c : idle c -> idle (screen_write_backspace c).
Proof. intros. unfold screen_write_backspace. parts. Qed.
Lemma cursormove_idle px py o c : idle c -> idle (screen_write_cursormove px py o c).
Proof. intros. unfold screen_write_cursormove. parts. Qed.
Lemma carriagereturn_idle c : idle c -> idle (screen_write_carriagereturn c).
Proof. intros. unfold screen_write_carriagereturn. parts. Qed.
Lemma mode_set_idle m c : idle c -> idle (screen_write_mode_set m c).
Proof. intros. apply on_s_idle; [done|]. intros. by apply set_mode_safe. Qed.
Lemma mode_clear_idle m c : idle c -> idle (screen_write_mode_clear m c).
Proof. intros. apply on_s_idle; [done|]. intros. by apply set_mode_safe. Qed.
Lemma start_sync_idle b c : idle c -> idle (screen_write_start_sync b c).
Proof. intros. unfold screen_write_start_sync. destruct b; [by apply mode_set_idle|done]. Qed.
Lemma stop_sync_idle b c : idle c -> idle (screen_write_stop_sync b c).
Proof. intros. unfold screen_write_stop_sync. destruct b; [by apply mode_clear_idle|done]. Qed.

Lemma scrollregion_idle u l c : idle c -> 0 <= u -> 0 <= l -> idle (screen_write_scrollregion u l c).
Proof.
  intros Hi Hu Hl. unfold screen_write_scrollregion.
  destruct (Z.leb_spec (if u32 (c_sy c - 1) <? l then u32 (c_sy c - 1) else l)
              (if u32 (c_sy c - 1) <? u then u32 (c_sy c - 1) else u)) as [Hle | Hlt]; [done|].
  set (c' := screen_write_set_cursor 0 0 c). assert (Hi' : idle c') by (by apply cursor_idle).
  assert (Hsy : screen_size_y (c_s c') = c_sy c).
  { unfold c', screen_write_set_cursor. by destruct (_ && _). }
  pose proof (id_screen _ Hi) as Hs. pose proof (gs_sy _ _ (ss_grid _ Hs)) as Hy.
  pose proof (gs_bound _ _ (ss_grid _ Hs)). pose proof (gs_hsize _ _ (ss_grid _ Hs)).
  apply on_s_idle; [done|]. intros Hs'. apply set_region_safe; [done|..].
  - destruct (u32 (c_sy c - 1) <? u); [pose proof (u32_range (c_sy c - 1)); lia|lia].
  - rewrite Hsy. revert Hlt. rewrite u32_small by (unfold c_sy, screen_size_y; lia). zcases; lia.
Qed.

(** ** Scrolling *)

Lemma mark_wrapped_idle c : idle c -> idle (mark_wrapped c).
Proof.
  intros Hi. apply on_grid_idle; [done|]. intros Hg. apply update_keeps; [done|].
  intros gl Hl. by apply flags_safe.
Qed.

Lemma region_up_idle bg c : idle c ->
  idle (on_grid (fun gd => grid_view_scroll_region_up (we_now env) gd (s_rupper (c_s c))
                             (s_rlower (c_s c)) bg) c).
Proof.
  intros Hi. pose proof (ss_region _ (id_screen _ Hi)) as [Hu Hl].
  apply on_grid_idle; [done|]. intros Hg. by apply region_up_keeps.
Qed.

Lemma mark_wrapped_region c : s_rupper (c_s (mark_wrapped c)) = s_rupper (c_s c).
Proof. done. Qed.

Lemma linefeed_idle w bg c : idle c -> idle (screen_write_linefeed env w bg c).
Proof.
  intros Hi. unfold screen_write_linefeed.
  assert (Hi' : idle (if w then mark_wrapped c else c)) by (destruct w; [by apply mark_wrapped_idle|done]).
  destruct (_ =? _); [by apply region_up_idle|]. destruct (_ <? _); [by apply cursor_idle|done].
Qed.

Lemma scrollup_idle n bg c : idle c -> idle (screen_write_scrollup env n bg c).
Proof.
  intros Hi. unfold screen_write_scrollup. pose proof (ss_region _ (id_screen _ Hi)) as [Hu Hl].
  apply on_grid_idle; [done|]. intros Hg. cut (keeps (s_grid (c_s c))
    (Nat.iter (Z.to_nat (scroll_lines (c_s c) n)) (fun gd => grid_view_scroll_region_up (we_now env) gd
       (s_rupper (c_s c)) (s_rlower (c_s c)) bg) (s_grid (c_s c)))); [done|].
  induction (Z.to_nat _) as [|k IH]; [by apply keeps_refl|]. rewrite Nat.iter_succ.
  eapply keeps_trans; [exact IH|]. destruct IH as [Hs Hx Hy].
  apply region_up_keeps; [done..|]. rewrite Hy. done.
Qed.

Lemma scrolldown_idle n bg c : idle c -> idle (screen_write_scrolldown n bg c).
Proof.
  intros Hi. unfold screen_write_scrolldown. pose proof (ss_region _ (id_screen _ Hi)) as [Hu Hl].
  apply on_grid_idle; [done|]. intros Hg. cut (keeps (s_grid (c_s c))
    (Nat.iter (Z.to_nat (scroll_lines (c_s c) n)) (fun gd => grid_view_scroll_region_down gd
       (s_rupper (c_s c)) (s_rlower (c_s c)) bg) (s_grid (c_s c)))); [done|].
  induction (Z.to_nat _) as [|k IH]; [by apply keeps_refl|]. rewrite Nat.iter_succ.
  eapply keeps_trans; [exact IH|]. destruct IH as [Hs Hx Hy].
  apply region_down_keeps; [done..|]. rewrite Hy. done.
Qed.

Lemma reverseindex_idle bg c : idle c -> idle (screen_write_reverseindex bg c).
Proof.
  intros Hi. unfold screen_write_reverseindex. pose proof (ss_region _ (id_screen _ Hi)) as [Hu Hl].
  destruct (_ =? _); [|parts]. apply on_grid_idle; [done|]. intros Hg. by apply region_down_keeps.
Qed.

(** ** Characters and lines *)

Lemma at_cursor_idle f n c : idle c ->
  (forall gd px py nx, grid_safe B gd -> 0 <= px -> keeps gd (f gd px py nx)) -> idle (at_cursor f n c).
Proof.
  intros Hi Hf. unfold at_cursor. destruct (_ || _); [done|].
  apply on_grid_idle; [done|]. intros Hg. apply Hf; [done|]. apply (ss_cx _ (id_screen _ Hi)).
Qed.

Lemma insertcharacter_idle n bg c : idle c -> idle (screen_write_insertcharacter n bg c).
Proof. intros Hi. apply at_cursor_idle; [done|]. intros. by apply insert_cells_keeps. Qed.
Lemma deletecharacter_idle n bg c : idle c -> idle (screen_write_deletecharacter n bg c).
Proof. intros Hi. apply at_cursor_idle; [done|]. intros. by apply delete_cells_keeps. Qed.
Lemma clearcharacter_idle n bg c : idle c -> idle (screen_write_clearcharacter n bg c).
Proof. intros Hi. apply at_cursor_idle; [done|]. intros. by apply clear_keeps. Qed.

Lemma at_line_idle whole part n c : idle c -> 0 <= n ->
  (forall gd py ny, grid_safe B gd -> 0 <= py -> 0 <= ny -> py + ny <= g_sy gd ->
     keeps gd (whole gd py ny)) ->
  (forall gd rl py ny, grid_safe B gd -> 0 <= py -> 0 <= ny -> py + ny <= rl + 1 ->
     0 <= rl < g_sy gd -> keeps gd (part gd rl py ny)) ->
  idle (at_line whole part n c).
Proof.
  intros Hi Hn Hw Hp. pose proof (id_screen _ Hi) as Hs. pose proof (ss_region _ Hs) as [Hu Hl].
  pose proof (ss_cy _ Hs) as Hcy. pose proof (gs_bound _ _ (ss_grid _ Hs)) as Hb.
  pose proof (gs_hsize _ _ (ss_grid _ Hs)) as Hh. unfold screen_size_y in *.
  unfold at_line, screen_size_y.
  destruct (Z.ltb_spec (s_cy (c_s c)) (s_rupper (c_s c))) as [Ha|Ha]; cbn [orb];
    [|destruct (Z.ltb_spec (s_rlower (c_s c)) (s_cy (c_s c))) as [Hc|Hc]];
    rewrite u32_small by lia;
    (destruct (_ =? 0); [done|]; apply on_grid_idle; [done|]; intros Hg).
  - apply Hw; [done|lia|zcases; lia|zcases; lia].
  - apply Hw; [done|lia|zcases; lia|zcases; lia].
  - apply Hp; [done|lia|zcases; lia|zcases; lia|lia].
Qed.

Lemma insertline_idle n bg c : idle c -> 0 <= n -> idle (screen_write_insertline n bg c).
Proof.
  intros Hi Hn. apply at_line_idle; [done..| |]; intros.
  - by apply insert_lines_keeps.
  - by apply insert_region_keeps.
Qed.
Lemma deleteline_idle n bg c : idle c -> 0 <= n -> idle (screen_write_deleteline n bg c).
Proof.
  intros Hi Hn. apply at_line_idle; [done..| |]; intros.
  - by apply delete_lines_keeps.
  - by apply delete_region_keeps.
Qed.

(** ** Clearing *)

Lemma clear_idle px py nx ny bg c : idle c ->
  idle (on_grid (fun gd => grid_view_clear gd px py nx ny bg) c).
Proof. intros Hi. apply on_grid_idle; [done|]. intros. by apply clear_keeps. Qed.

Lemma clearline_idle bg c : idle c -> idle (screen_write_clearline bg c).
Proof.
  intros Hi. unfold screen_write_clearline. destruct (_ && _); [done|].
  by apply new_item_idle, clear_idle.
Qed.

Lemma clearendofline_idle bg c : idle c -> idle (screen_write_clearendofline bg c).
Proof.
  intros Hi. unfold screen_write_clearendofline. destruct (_ =? _); [by apply clearline_idle|].
  destruct (_ || _); [done|]. by apply new_item_idle, clear_idle.
Qed.

Lemma clearstartofline_idle bg c : idle c -> idle (screen_write_clearstartofline bg c).
Proof.
  intros Hi. unfold screen_write_clearstartofline. destruct (_ <=? _); [by apply clearline_idle|].
  apply new_item_idle, on_grid_idle; [done|]. intros Hg. destruct (_ <? _); by apply clear_keeps.
Qed.

Lemma view_history_idle bg c : idle c ->
  idle (on_grid (fun gd => grid_view_clear_history (we_now env) gd bg) c).
Proof. intros Hi. apply on_grid_idle; [done|]. intros. by apply view_clear_history_keeps. Qed.

Lemma clearendofscreen_idle bg c : idle c -> idle (screen_write_clearendofscreen env bg c).
Proof.
  intros Hi. unfold screen_write_clearendofscreen. destruct (_ && _); [by apply view_history_idle|].
  apply on_grid_idle; [done|]. intros Hg. eapply keeps_trans; [|apply clear_keeps].
  - destruct (_ <=? _); [by apply clear_keeps|by apply keeps_refl].
  - destruct (_ <=? _); [by apply (clear_keeps B)|done].
Qed.

Lemma clearstartofscreen_idle bg c : idle c -> idle (screen_write_clearstartofscreen bg c).
Proof.
  intros Hi. unfold screen_write_clearstartofscreen. apply on_grid_idle; [done|]. intros Hg.
  set (g1 := if 0 <? c_cy c then _ else _).
  assert (Hk : keeps (s_grid (c_s c)) g1)
    by (unfold g1; destruct (_ <? _); [by apply clear_keeps|by apply keeps_refl]).
  clearbody g1. eapply keeps_trans; [exact Hk|]. destruct (_ <? _); apply clear_keeps, Hk.
Qed.

Lemma clearscreen_idle bg c : idle c -> idle (screen_write_clearscreen env bg c).
Proof.
  intros Hi. unfold screen_write_clearscreen.
  destruct (scrolls_into_history _ _); [by apply view_history_idle|by apply clear_idle].
Qed.

Lemma clearhistory_idle c : idle c -> idle (screen_write_clearhistory env c).
Proof.
  intros Hi. unfold screen_write_clearhistory. destruct (_ && _).
  - by destruct Hi.
  - apply on_grid_idle; [done|]. intros. by apply clear_history_keeps.
Qed.

Lemma reset_tabs_idle c : idle c -> idle (on_s screen_reset_tabs c).
Proof. intros Hi. apply on_s_idle; [done|]. intros. by apply set_tabs_safe. Qed.

Lemma reset_idle c : idle c -> idle (screen_write_reset env c).
Proof.
  intros Hi. unfold screen_write_reset. apply cursor_idle, clearscreen_idle, on_s_idle.
  - apply scrollregion_idle; [by apply reset_tabs_idle|lia|apply u32_range].
  - intros. by apply set_mode_safe.
Qed.

Lemma alignmenttest_idle c : idle c -> idle (screen_write_alignmenttest c).
Proof.
  intros Hi. unfold screen_write_alignmenttest. set (c1 := screen_write_set_cursor 0 0 _).
  assert (Hi1 : idle c1).
  { apply cursor_idle, on_grid_idle; [done|]. intros Hg. apply foldl_keeps; [done|].
    intros g y Hg'. apply foldl_keeps; [done|]. intros g' x Hg''. by apply set_cell_keeps. }
  clearbody c1. apply on_s_idle; [done|]. intros Hs.
  pose proof (gs_sy _ _ (ss_grid _ Hs)). pose proof (gs_bound _ _ (ss_grid _ Hs)).
  pose proof (gs_hsize _ _ (ss_grid _ Hs)). unfold c_sy, screen_size_y.
  rewrite u32_small by lia. apply set_region_safe; [done|lia|unfold screen_size_y; lia].
Qed.

End Safe.

#[export] Hint Resolve idle_safe cursorup_idle cursordown_idle cursorright_idle cursorleft_idle
  backspace_idle cursormove_idle carriagereturn_idle mode_set_idle mode_clear_idle start_sync_idle
  stop_sync_idle scrollregion_idle linefeed_idle scrollup_idle scrolldown_idle reverseindex_idle
  insertcharacter_idle deletecharacter_idle clearcharacter_idle insertline_idle deleteline_idle
  clearline_idle clearendofline_idle clearstartofline_idle clearendofscreen_idle
  clearstartofscreen_idle clearscreen_idle clearhistory_idle reset_idle alignmenttest_idle : safe.
#[export] Hint Resolve set_mode_safe set_tabs_safe set_info_safe : safe.
