(* ===== verification/ScreenWriteSafe.v ===== *)
(** * Writing characters keeps a screen in order *)
From Stdlib Require Import Ascii String.
From S2P Require Import Prelude.
From S2P Require Import Utf8.
From S2P Require Import CellCodec.
From S2P Require Import Locale.
From S2P Require Import Utf8Combined.
From S2P Require Import Grid.
From S2P Require Import GridFacts.
From S2P Require Import Reflow.
From S2P Require Import Screen.
From S2P Require Import ScreenInfo.
From S2P Require Import ScreenWrite.
From S2P Require Import GridSafe.
From S2P Require Import ScreenSafe.

Section Cells.
Context `{CellCodec} `{Locale} (B : Z) (env : write_env).
Notation keeps := (keeps B).
Notation idle := (idle B).
Notation screen_safe := (screen_safe B).
Notation ctx_safe := (ctx_safe B).

Lemma view_cell_plain c px : idle c -> cell_plain (view_cell c px).
Proof. intros Hi. apply get_cell_plain, (ss_grid _ _ (id_screen _ _ Hi)). Qed.

Lemma put_view_idle px gc c : idle c -> cell_plain gc -> idle (put_view px gc c).
Proof. intros Hi Hp. apply on_grid_idle; [done|]. intros Hg. by apply set_cell_keeps. Qed.

Lemma erase_left_idle n : forall xx c, idle c -> idle (snd (erase_left n xx c)).
Proof.
  induction n as [|n IH]; intros xx c Hi; [done|]. cbn [erase_left].
  destruct (negb _); [done|]. by apply IH, put_view_idle.
Qed.

Lemma erase_right_idle n : forall xx gc c, idle c -> cell_plain gc -> idle (erase_right n xx gc c).
Proof.
  induction n as [|n IH]; intros xx gc c Hi Hp; [done|]. cbn [erase_right].
  destruct (negb _); [done|]. apply IH; [by apply put_view_idle|done].
Qed.

Lemma combine_idle gc c : idle c -> idle (snd (screen_write_combine env gc c)).
Proof.
  intros Hi. unfold screen_write_combine. destruct (utf8_is_hangul_filler _); [done|].
  destruct (_ || _); [done|].
  set (n := if negb _ && _ then 2 else 1). set (last := view_cell c (c_cx c - n)).
  assert (Hlast : cell_plain last) by (by apply view_cell_plain).
  destruct (_ || _); [done|]. destruct (combines _ _ _ _) as [| |wide]; [done..|].
  destruct (_ <? _); [done|].
  set (joined := utf8_append_data _ _). generalize ((ud_width joined =? 1) && wide). intros b.
  set (data := if b then set_ud_width 2 joined else joined).
  set (cx' := if b then c_cx c + 1 else c_cx c). set (n' := if b then 2 else n).
  assert (H1 : idle (put_view (cx' - n') (set_gc_data data last) c)) by (by apply put_view_idle).
  set (c1 := put_view _ _ c) in *. clearbody c1.
  assert (H2 : idle (if b then on_grid (fun gd => grid_view_set_padding gd (cx' - 1) (c_cy c1)) c1 else c1)).
  { destruct b; [|done]. apply on_grid_idle; [done|]. intros Hg. by apply set_cell_keeps. }
  set (c2 := if b then _ else c1) in *. clearbody c2.
  match goal with |- idle (snd (if ?v then _ else _)) => destruct v end; [exact H2|].
  cbn [snd]. by do 2 apply cursor_idle.
Qed.

Lemma overwrite_idle gc width c : idle c -> cell_plain gc ->
  idle (snd (screen_write_overwrite gc width c)).
Proof.
  intros Hi Hp. unfold screen_write_overwrite.
  assert (H1 : idle (snd (if is_padding gc
            then let '(xx, c0) := erase_left (Z.to_nat (c_cx c)) (c_cx c) c in
                 (true, put_view xx grid_default_cell c0) else (false, c)))).
  { destruct (is_padding gc); [|done].
    pose proof (erase_left_idle (Z.to_nat (c_cx c)) (c_cx c) c Hi) as He.
    destruct (erase_left _ _ _) as [xx c0]. by apply put_view_idle. }
  destruct (if is_padding gc then _ else _) as [done0 c1]. cbn [snd] in H1.
  destruct (_ || _); [|done]. cbn [snd]. apply erase_right_idle; [done|].
  by destruct (has (gc_flags gc) GRID_FLAG_TAB).
Qed.

Lemma store_selected_idle gc skip c : idle c -> cell_plain gc -> idle (store_selected gc skip c).
Proof.
  intros Hi Hp. unfold store_selected. destruct (_ && _).
  - apply put_view_idle; [done|]. by apply plain_lor.
  - destruct (_ && _); [apply put_view_idle; [done|]; by apply plain_without|].
    destruct skip; [done|]. by apply put_view_idle.
Qed.

Lemma pad_after_idle width c : idle c -> idle (pad_after width c).
Proof.
  intros Hi. apply on_grid_idle; [done|]. intros Hg. apply foldl_keeps; [done|].
  intros g x Hg'. by apply set_cell_keeps.
Qed.

Lemma write_here_idle gc width c : idle c -> cell_plain gc -> idle (write_here gc width c).
Proof.
  intros Hi Hp. unfold write_here.
  assert (H1 : idle (snd (if has (gl_flags (c_line c)) GRID_LINE_EXTENDED
            then screen_write_overwrite (view_cell c (c_cx c)) width c else (false, c)))).
  { destruct (has _ _); [|done]. apply overwrite_idle; [done|by apply view_cell_plain]. }
  destruct (if has _ _ then _ else _) as [done0 c1]. cbn [snd] in H1.
  assert (H2 : idle (pad_after width c1)) by (by apply pad_after_idle).
  set (c2 := pad_after width c1) in *. clearbody c2.
  assert (H3 : idle (store_selected gc (negb (s_has (c_s c) MODE_INSERT) && negb done0 &&
            (width <=? 1) && already_there gc c2) c2)) by (by apply store_selected_idle).
  set (c3 := store_selected _ _ c2) in *. clearbody c3.
  destruct (_ <=? _); by apply cursor_idle.
Qed.

Lemma cell_idle gc c : idle c -> cell_plain gc -> idle (screen_write_cell env gc c).
Proof.
  intros Hi Hp. unfold screen_write_cell. destruct (is_padding gc); [done|].
  pose proof (combine_idle gc c Hi) as H1. destruct (screen_write_combine env gc c) as [b c1].
  cbn [snd] in H1. destruct b; [done|]. destruct (_ && _); [done|].
  set (c2 := if s_has (c_s c1) MODE_INSERT then _ else c1).
  assert (H2 : idle c2).
  { unfold c2. destruct (s_has _ _); [|done]. apply on_grid_idle; [done|].
    intros Hg. by apply insert_cells_keeps. }
  set (c3 := if _ && _ then _ else c2).
  assert (H3 : idle c3).
  { unfold c3. destruct (_ && _); [|done]. by apply cursor_idle, linefeed_idle. }
  clearbody c3. destruct (_ || _); [done|]. by apply write_here_idle.
Qed.

(** ** Collecting *)

Lemma put_view_size px gc c : c_sx (put_view px gc c) = c_sx c.
Proof.
  unfold c_sx, screen_size_x, put_view, grid_view_set_cell, grid_set_cell. cbn.
  by destruct (grid_check_y _ _).
Qed.

Lemma erase_left_size n : forall xx c, c_sx (snd (erase_left n xx c)) = c_sx c.
Proof.
  induction n as [|n IH]; intros xx c; [done|]. cbn [erase_left].
  destruct (negb _); [done|]. by rewrite IH, put_view_size.
Qed.

Lemma erase_right_size n : forall xx gc c, c_sx (erase_right n xx gc c) = c_sx c.
Proof.
  induction n as [|n IH]; intros xx gc c; [done|]. cbn [erase_right].
  destruct (negb _); [done|]. by rewrite IH, put_view_size.
Qed.

Lemma clear_before_ok c : idle c -> idle (clear_before c) /\ c_sx (clear_before c) = c_sx c.
Proof.
  intros Hi. unfold clear_before. destruct (_ =? 0); [done|].
  pose proof (erase_left_idle (Z.to_nat (c_cx c)) (c_cx c) c Hi) as He.
  pose proof (erase_left_size (Z.to_nat (c_cx c)) (c_cx c) c) as Hz.
  destruct (erase_left _ _ _) as [xx c1]. cbn [snd] in He, Hz.
  destruct (_ =? _); [done|]. destruct (_ || _); [|done].
  split; [by apply put_view_idle|]. by rewrite put_view_size.
Qed.

Lemma collect_end_ok c : ctx_safe c ->
  idle (screen_write_collect_end c) /\ c_sx (screen_write_collect_end c) = c_sx c.
Proof.
  intros Hc. unfold screen_write_collect_end. destruct (c_text c) as [|x l] eqn:E.
  { split; [|done]. by destruct Hc; split. }
  destruct (clear_before_ok (new_item c)) as [H1 H2]; [by apply new_item_safe|].
  set (c1 := clear_before _) in *. clearbody c1.
  assert (H3 : idle (on_grid (fun gd => grid_view_set_cells gd (c_cx c1) (c_cy c1) (c_gc c) (x :: l)) c1) /\
    c_sx (on_grid (fun gd => grid_view_set_cells gd (c_cx c1) (c_cy c1) (c_gc c) (x :: l)) c1) = c_sx c1).
  { split.
    - apply on_grid_idle; [done|]. intros Hg. apply set_cells_keeps; [done|]. apply Hc.
    - unfold c_sx, screen_size_x, grid_view_set_cells, grid_set_cells. cbn. by destruct (grid_check_y _ _). }
  set (c2 := on_grid _ c1) in *. clearbody c2. destruct H3 as [H3 H4].
  rewrite erase_right_size, cursor_size, H4, H2. split; [|done].
  apply erase_right_idle; [by apply cursor_idle|done].
Qed.

Lemma linefeed_size w bg c : idle c -> c_sx (screen_write_linefeed env w bg c) = c_sx c.
Proof.
  intros Hi. unfold screen_write_linefeed.
  assert (Hw : idle (if w then mark_wrapped c else c)) by (destruct w; [by apply mark_wrapped_idle|done]).
  assert (Hx : c_sx (if w then mark_wrapped c else c) = c_sx c) by (by destruct w).
  set (c1 := if w then _ else c) in *. clearbody c1.
  destruct (_ =? _).
  - pose proof (ss_region _ _ (id_screen _ _ Hw)) as [Hu Hl].
    unfold c_sx, screen_size_x in *. cbn. rewrite <- Hx.
    eapply (k_sx B), region_up_keeps; [apply (id_screen _ _ Hw)|done..].
  - destruct (_ <? _); [by rewrite cursor_size|done].
Qed.

(** A cell that cannot be collected is written at once. *)
Lemma collect_add_idle gc c : ctx_safe c -> cell_plain gc -> collectable gc (c_s c) = false ->
  idle (screen_write_collect_add env gc c).
Proof.
  intros Hc Hp Hn. unfold screen_write_collect_add. rewrite Hn. cbn [negb].
  apply cell_idle; [by apply collect_end_ok|done].
Qed.

Lemma collect_add_safe gc c : ctx_safe c -> cell_plain gc ->
  ctx_safe (screen_write_collect_add env gc c).
Proof.
  intros Hc Hp. unfold screen_write_collect_add.
  destruct (negb _); [apply idle_safe, cell_idle; [by apply collect_end_ok|done]|].
  pose proof (gs_sx _ _ (ss_grid _ _ (cs_screen _ _ Hc))) as Hx.
  assert (Hsx : 1 <= c_sx c < 1073741824) by done. rewrite u32_small by lia.
  destruct (collect_end_ok c Hc) as [He Hez].
  (* what is pending ends here, or fits with one more *)
  set (c1 := if _ || _ then screen_write_collect_end c else c).
  assert (H1 : ctx_safe c1 /\ c_sx c1 = c_sx c /\
     (idle c1 \/ c_cx c1 + Z.of_nat (length (c_text c1)) < c_sx c)).
  { unfold c1. destruct (Z.ltb_spec (c_sx c - 1) (c_cx c)) as [Hw|Hw]; cbn [orb].
    - split; [by apply idle_safe|]. split; [done|by left].
    - pose proof (ss_cx _ _ (cs_screen _ _ Hc)) as Hcx. fold (c_cx c) in Hcx.
      rewrite u32_small by lia. destruct (Z.ltb_spec (c_sx c - 1 - c_cx c) (Z.of_nat (length (c_text c)))).
      + split; [by apply idle_safe|]. split; [done|by left].
      + split; [done|]. split; [done|]. right. lia. }
  clearbody c1. destruct H1 as (Hc1 & Hz1 & Hfit).
  set (c2 := if c_sx c - 1 <? c_cx c1 then _ else c1).
  assert (H2 : screen_safe (c_s c2) /\ cell_plain (c_gc c2) /\ c_sx c2 = c_sx c /\
     c_cx c2 + Z.of_nat (length (c_text c2)) < c_sx c).
  { unfold c2. destruct (Z.ltb_spec (c_sx c - 1) (c_cx c1)) as [Hw|Hw].
    - destruct Hfit as [Hi|Hfit]; [|lia].
      assert (Hl : idle (screen_write_linefeed env true 8 c1)) by (by apply linefeed_idle).
      assert (Hs : idle (screen_write_set_cursor 0 (-1) (screen_write_linefeed env true 8 c1)))
        by (by apply cursor_idle).
      split; [apply Hs|]. split; [apply Hs|]. rewrite (id_text _ _ Hs).
      rewrite cursor_size, linefeed_size, Hz1 by done. split; [done|].
      rewrite cursor_zero by (rewrite linefeed_size, Hz1 by done; lia). cbn. lia.
    - destruct Hc1 as [? ? Ht]. split; [done|]. split; [done|]. split; [done|].
      destruct Hfit as [Hi|]; [|done]. rewrite (id_text _ _ Hi). cbn. lia. }
  clearbody c2. destruct H2 as (Hs2 & Hg2 & Hz2 & Ht2).
  split; [done| |].
  - unfold cell_plain. cbn [c_gc set_c_item]. destruct (Nat.ltb 0 _); done.
  - unfold set_c_item, c_cx, c_sx. cbn [c_text c_s]. rewrite length_app. cbn [length].
    fold (c_cx c2) (c_sx c2). lia.
Qed.

(** ** The alternate screen *)

Lemma alternate_on_safe s gc cursor : screen_safe s -> cell_plain gc ->
  screen_safe (screen_alternate_on s gc cursor).
Proof.
  intros Hs Hp. unfold screen_alternate_on. destruct (screen_is_alternate s); [done|].
  pose proof (ss_grid _ _ Hs) as Hg. pose proof (gs_sx _ _ Hg). pose proof (gs_sy _ _ Hg).
  pose proof (gs_bound _ _ Hg). pose proof (gs_one _ _ Hg).
  assert (Hd : keeps (grid_create (screen_size_x s) (screen_size_y s) 0)
            (grid_duplicate_lines (grid_create (screen_size_x s) (screen_size_y s) 0) 0 (s_grid s)
               (screen_hsize s) (screen_size_y s))).
  { apply duplicate_keeps; [by apply create_safe|apply Hg]. }
  set (saved := grid_duplicate_lines _ _ _ _ _) in *. clearbody saved.
  assert (Hk : keeps (s_grid s) (grid_view_clear (s_grid s) 0 0 (screen_size_x s) (screen_size_y s) 8))
    by (by apply clear_keeps).
  set (gd := grid_view_clear _ _ _ _ _ _) in *.
  assert (Hk' : keeps (s_grid s) (set_g_flags (without (g_flags gd) GRID_HISTORY) gd))
    by (eapply keeps_trans; [exact Hk|]; apply set_g_flags_keeps, Hk).
  pose proof (set_grid_safe B s _ Hs Hk') as Hs'. destruct Hs' as [T1 T2 T3 T4 T5 T6 T7 T8].
  destruct Hd as [D1 D2 D3].
  assert (Hall : forall cx cy, 0 <= cx -> 0 <= cy -> screen_safe (set_s_grid
     (set_g_flags (without (g_flags gd) GRID_HISTORY) gd) (set_s_saved_flags (g_flags gd)
     (set_s_saved_cell gc (set_s_saved_cursor cx cy (set_s_saved_grid (Some saved) s)))))).
  { intros cx cy Hcx Hcy. split; [exact T1|exact T2|exact T3|exact T4| |exact Hp|done|exact T8].
    intros g Eg. cbn in Eg. apply (inj Some) in Eg as <-. split; [done|].
    rewrite D2, D3. split; symmetry; apply Hk'. }
  destruct (ss_cx _ _ Hs), (ss_cy _ _ Hs), (ss_saved_cursor _ _ Hs).
  destruct cursor; [by apply (Hall (s_cx s) (s_cy s))|].
  specialize (Hall (s_saved_cx s) (s_saved_cy s)). by apply Hall.
Qed.

(** A resize to the same size at most moves the cursor. *)
Lemma resize_same s reflow : 1 <= screen_size_x s -> 1 <= screen_size_y s -> 0 <= s_cx s ->
  exists x y, 0 <= x /\ 0 <= y /\
    screen_resize s (screen_size_x s) (screen_size_y s) reflow = Some (set_s_cursor x y s).
Proof.
  intros Hx Hy Hc. unfold screen_resize, screen_resize_cursor.
  rewrite (proj2 (Z.ltb_ge _ 1) Hx), (proj2 (Z.ltb_ge _ 1) Hy), !Z.eqb_refl. cbn [negb].
  rewrite Z.eqb_refl. cbn [negb mbind option_bind]. destruct (Z.leb_spec (screen_hsize s) (u32 (screen_hsize s + s_cy s))).
  - eexists _, _. split; [|split; [|done]]; [done|lia].
  - exists 0, 0. done.
Qed.

Lemma alternate_off_safe s cursor : screen_safe s ->
  exists s' gc, screen_alternate_off s cursor = Some (s', gc) /\ screen_safe s' /\
    (forall g, gc = Some g -> cell_plain g).
Proof.
  intros Hs. pose proof (gs_sx _ _ (ss_grid _ _ Hs)) as Hx. pose proof (gs_sy _ _ (ss_grid _ _ Hs)) as Hy.
  pose proof (gs_bound _ _ (ss_grid _ _ Hs)) as Hb. pose proof (gs_hsize _ _ (ss_grid _ _ Hs)) as Hh.
  assert (Hclamp : forall s1, 0 <= s_cx s1 -> 0 <= s_cy s1 ->
     screen_size_x s1 = screen_size_x s -> screen_size_y s1 = screen_size_y s ->
     screen_safe (set_s_cursor 0 0 s1) -> screen_safe (clamp_cursor s1)).
  { intros s1 Hcx Hcy Ex Ey []. unfold clamp_cursor. rewrite Ex, Ey.
    unfold screen_size_x, screen_size_y in *. rewrite !u32_small by lia.
    split; try done; cbn; unfold screen_size_x, screen_size_y in *; cbn in *.
    - destruct (Z.ltb_spec (g_sx (s_grid s) - 1) (s_cx s1)); lia.
    - destruct (Z.ltb_spec (g_sy (s_grid s) - 1) (s_cy s1)); lia. }
  unfold screen_alternate_off. destruct (s_saved_grid s) as [saved|] eqn:Es.
  - destruct (ss_saved _ _ Hs saved Es) as (Hsv & Hsx & Hsy). rewrite Hsx, Hsy.
    destruct (resize_same s false) as (x & y & Hxn & Hyn & ->);
      [unfold screen_size_x; lia|unfold screen_size_y; lia|apply (ss_cx _ _ Hs)|].
    cbn [mbind option_bind].
    set (s1 := set_s_cursor x y s).
    assert (Hcell : cell_plain (s_saved_cell s1)) by apply (ss_cell _ _ Hs).
    destruct (ss_saved_cursor _ _ Hs) as [Hu Hv].
    assert (Hmid : exists s2 gc, (if cursor && negb (s_saved_cx s1 =? UINT_MAX) &&
         negb (s_saved_cy s1 =? UINT_MAX)
       then (set_s_cursor (s_saved_cx s1) (s_saved_cy s1) s1, Some (s_saved_cell s1))
       else (s1, None)) = (s2, gc) /\ (exists x y, 0 <= x /\ 0 <= y /\ s2 = set_s_cursor x y s) /\
       (forall g, gc = Some g -> cell_plain g)).
    { destruct (_ && _); eexists _, _; (split; [done|]); split.
      - by exists (s_saved_cx s), (s_saved_cy s).
      - by intros g [= <-].
      - by exists x, y.
      - done. }
    destruct Hmid as (s2 & gc & -> & (x2 & y2 & Hx2 & Hy2 & ->) & Hgc).
    change (s_saved_grid (set_s_cursor x2 y2 s)) with (s_saved_grid s). rewrite Es.
    cbn [s_grid set_s_cursor screen_hsize].
    change (screen_hsize (set_s_cursor x2 y2 s)) with (screen_hsize s).
    assert (Hk : keeps (s_grid s) (grid_duplicate_lines (s_grid s) (screen_hsize s) saved 0 (g_sy saved)))
      by (apply duplicate_keeps; [apply Hs|apply Hsv]).
    set (g1 := grid_duplicate_lines _ _ _ _ _) in *. clearbody g1.
    set (s3 := if has _ _ then _ else _).
    assert (H3 : exists g2, keeps (s_grid s) g2 /\ s3 = set_s_grid g2 (set_s_cursor x2 y2 s)).
    { unfold s3. destruct (has _ _).
      - exists (set_g_flags (Z.lor (g_flags g1) GRID_HISTORY) g1). split; [|done].
        eapply keeps_trans; [exact Hk|]. apply set_g_flags_keeps, Hk.
      - by exists g1. }
    clearbody s3. destruct H3 as (g2 & Hk2 & ->).
    assert (Ex : screen_size_x (set_s_grid g2 (set_s_cursor x2 y2 s)) = screen_size_x s) by apply Hk2.
    assert (Ey : screen_size_y (set_s_grid g2 (set_s_cursor x2 y2 s)) = screen_size_y s) by apply Hk2.
    destruct (resize_same (set_s_grid g2 (set_s_cursor x2 y2 s)) true) as (x3 & y3 & Hx3 & Hy3 & He);
      [rewrite Ex; unfold screen_size_x; lia|rewrite Ey; unfold screen_size_y; lia|done|].
    rewrite Ex, Ey in He. rewrite He. cbn [mbind option_bind].
    eexists _, _. split; [done|]. split; [|done]. apply Hclamp; [done..|].
    pose proof (set_grid_safe B s g2 Hs Hk2) as [T1 T2 T3 T4 T5 T6 T7 T8].
    split; try done; cbn in *; unfold screen_size_x, screen_size_y in *; cbn in *; lia.
  - cbn [mbind option_bind]. destruct (ss_saved_cursor _ _ Hs) as [Hu Hv].
    destruct (ss_cx _ _ Hs), (ss_cy _ _ Hs).
    assert (Hz : forall x y, screen_safe (set_s_cursor 0 0 (set_s_cursor x y s))).
    { intros x y. destruct Hs. split; try done; cbn; unfold screen_size_x, screen_size_y in *; cbn; lia. }
    destruct (_ && _); cbn [s_saved_grid set_s_cursor]; rewrite Es; eexists _, _; (split; [done|]).
    + split; [apply Hclamp; try done; apply Hz|]. intros g [= <-]. apply (ss_cell _ _ Hs).
    + split; [|done]. apply Hclamp; try done. pose proof (Hz (s_cx s) (s_cy s)) as Hzz. by destruct s.
Qed.

Lemma alternateon_idle gc cursor c : idle c -> cell_plain gc ->
  idle (screen_write_alternateon env gc cursor c).
Proof.
  intros Hi Hp. unfold screen_write_alternateon. destruct (_ && _); [done|].
  apply on_s_idle; [done|]. intros Hs. by apply alternate_on_safe.
Qed.

Lemma alternateoff_idle gc cursor c : idle c -> cell_plain gc ->
  exists c' gc', screen_write_alternateoff env gc cursor c = Some (c', gc') /\ idle c' /\
    cell_plain gc'.
Proof.
  intros Hi Hp. unfold screen_write_alternateoff. destruct (_ && _); [by exists c, gc|].
  destruct (alternate_off_safe (c_s c) cursor (id_screen _ _ Hi)) as (s & g & -> & Hs & Hg).
  cbn [mbind option_bind]. eexists _, _. split; [done|]. split; [by destruct Hi|].
  destruct g as [g|]; [by apply Hg|done].
Qed.

(** ** Titles *)

Lemma trim_titles_ok fuel l n : n = Z.of_nat (length l) -> (length l <= 10)%nat -> (1 <= fuel)%nat ->
  exists l', trim_titles fuel (Some l) n = Some (Some l', Z.of_nat (length l')) /\ (length l' <= 9)%nat.
Proof.
  intros -> Hl Hf. destruct fuel as [|fuel]; [lia|]. cbn [trim_titles].
  destruct (Z.ltb_spec (Z.of_nat (length l)) 10); [exists l; split; [done|lia]|].
  assert (Hten : length l = 10%nat) by lia. destruct l as [|x l]; [done|].
  assert (Hn : u32 (Z.of_nat (length (x :: l)) - 1) = 9) by (by rewrite Hten).
  rewrite Hn. assert (Ht : length (take (length (x :: l) - 1) (x :: l)) = 9%nat)
    by (rewrite length_take; lia).
  exists (take (length (x :: l) - 1) (x :: l)). rewrite Ht. split; [|lia]. by destruct fuel.
Qed.

Lemma push_title_ok s : screen_safe s -> exists s', screen_push_title s = Some s' /\ screen_safe s'.
Proof.
  intros Hs. destruct (ss_titles _ _ Hs) as [Hn Hl]. unfold screen_push_title.
  destruct (si_titles (s_info s)) as [l|] eqn:E; cbn [from_option] in *; unfold id in *.
  - destruct (trim_titles_ok (S (length l)) l (si_ntitles (s_info s)) Hn Hl) as (l' & -> & Hl'); [lia|].
    cbn [mbind option_bind]. eexists. split; [done|]. apply set_info_safe; [done|].
    split; cbn; [rewrite u32_small by lia; lia|lia].
  - rewrite Hn. eexists. split; [reflexivity|]. apply set_info_safe; [done|]. split; [done|].
    cbn; lia.
Qed.

Lemma pop_title_safe s : screen_safe s -> screen_safe (screen_pop_title s).
Proof.
  intros Hs. destruct (ss_titles _ _ Hs) as [Hn Hl]. unfold screen_pop_title.
  destruct (si_titles (s_info s)) as [[|x l]|]; [done| |done]. cbn in Hn, Hl.
  apply set_info_safe; [done|]. split; cbn; [rewrite u32_small by lia; lia|lia].
Qed.

End Cells.

#[export] Hint Resolve view_cell_plain put_view_idle cell_idle alternateon_idle pop_title_safe : safe.
