(* ===== verification/InputSafe.v ===== *)
(** * What keeps the parser in order: strings and replies

    [live P q st t]: the screen is as [P] says, the cells of the parser are
    plain, a character that has started can be continued, the tables have their
    sizes; and what has been collected ([q]) and the state ([st]) are as they
    were.  Every command keeps it. *)
From Stdlib Require Import Ascii String.
From S2P Require Import Prelude.
From S2P Require Import CString.
From S2P Require Import Utf8.
From S2P Require Import Utf8Props.
From S2P Require Import CellCodec.
From S2P Require Import Locale.
From S2P Require Import Hyperlinks.
From S2P Require Import Grid.
From S2P Require Import Colour.
From S2P Require Import ColourProps.
From S2P Require Import Reflow.
From S2P Require Import Screen.
From S2P Require Import ScreenInfo.
From S2P Require Import ScreenWrite.
From S2P Require Import GridSafe.
From S2P Require Import ScreenSafe.
From S2P Require Import InputTable.
From S2P Require Import Input.
From S2P Require Import InputOsc.

(** A character of which a part has been read can be read further. *)
Definition chars_ok (c : characters) : Prop :=
  utf8started c = true ->
  exists n pre, reading (utf8data c) n pre /\ Z.of_nat (length pre) < n /\ clean (utf8data c) pre.

Definition entries_256 (l : option (list Z)) : Prop :=
  match l with Some l => length l = 256%nat | None => True end.
Definition palette_ok (p : colour_palette) : Prop :=
  entries_256 (pal_palette p) /\ entries_256 (pal_default p).

Record live (P : write_ctx -> Prop) (q : sequence) (st : input_state) (t : term) : Prop := Live {
  lv_w : P (t_w t);
  lv_cell : cell_plain (cell_of t);
  lv_old : cell_plain (ic_cell (old_cell (i_saved (t_in t))));
  lv_params : (length (params_of t) <= 24)%nat;
  lv_chars : chars_ok (i_chars (t_in t));
  lv_palette : palette_ok (t_palette t);
  lv_links : is_Some (l_trees (t_links t) !! t_hyperlinks t);
  lv_seq : seq_of t = q;
  lv_state : i_state (t_in t) = st
}.

(** A command that may fail does not, and keeps the parser in order. *)
Definition good (P : write_ctx -> Prop) (q : sequence) (st : input_state) (o : option term) : Prop :=
  exists t, o = Some t /\ live P q st t.

(** ** Changing a part *)

Section Parts.
Context (P : write_ctx -> Prop) (q : sequence) (st : input_state).
Notation live := (live P q st).
Notation good := (good P q st).

Lemma good_some t : live t -> good (Some t).
Proof. intros Hl. by exists t. Qed.

Lemma good_bind o f : good o -> (forall t, live t -> good (f t)) -> good (t ← o; f t).
Proof. intros (t & -> & Hl) Hf. cbn. auto. Qed.

Lemma live_emit e t : live t -> live (emit e t).
Proof. by intros []. Qed.

Lemma live_set_flag f t : live t -> live (set_flag f t).
Proof. by intros []. Qed.

Lemma live_clear_flag f t : live t -> live (clear_flag f t).
Proof. by intros []. Qed.

Lemma live_requests r t : live t -> live (on_in (set_i_requests r) t).
Proof. by intros []. Qed.

Lemma live_request r t : live t -> live (on_in (fun i => set_i_requests (i_requests i ++ [r]) i) t).
Proof. by intros []. Qed.

Lemma live_on_cell f t : live t -> (cell_plain (cell_of t) -> cell_plain (f (cell_of t))) ->
  live (on_cell f t).
Proof. intros [] Hf. split; try done. by apply Hf. Qed.

Lemma live_set_palette p t : live t -> palette_ok p -> live (set_palette p t).
Proof. by intros []. Qed.

Lemma live_set_links l t : live t -> is_Some (l_trees l !! t_hyperlinks t) -> live (set_links l t).
Proof. by intros []. Qed.

Lemma live_if (b : bool) t t' : live t -> live t' -> live (if b then t else t').
Proof. by destruct b. Qed.

End Parts.

Lemma live_on_w P Q q st f t : live P q st t -> (P (t_w t) -> Q (f (t_w t))) ->
  live Q q st (on_w f t).
Proof. intros [] Hf. split; try done. by apply Hf. Qed.

Lemma live_weaken P Q q st t : live P q st t -> (P (t_w t) -> Q (t_w t)) -> live Q q st t.
Proof. intros [] Hf. split; try done. by apply Hf. Qed.

#[export] Hint Resolve good_some live_emit live_set_flag live_clear_flag live_requests live_request
  live_if : safe.

(** ** Names *)

Section Names.
Context `{Locale}.

Lemma strvis_total src flag : exists dst,
  utf8_strvis loc_mbtowc loc_wcwidth loc_widths src flag = Some dst.
Proof.
  assert (Hx : exists r, utf8_strvis loc_mbtowc loc_wcwidth loc_widths src flag = Some r /\ True)
    by (apply (loop_ind loc_mbtowc loc_wcwidth loc_widths false _ _ _ (fun _ _ => True)); done).
  destruct Hx as (r & Hr & _). by exists r.
Qed.

Lemma isvalid_total src : exists b,
  utf8_isvalid loc_mbtowc loc_wcwidth loc_widths src = Some b.
Proof.
  unfold utf8_isvalid. assert (Hf : (length src <= length src)%nat) by lia.
  revert Hf. generalize (length src) at 2 3 as fuel. intros fuel. revert src.
  induction fuel as [|fuel IH]; intros [|ch src] Hf; cbn in Hf; try lia; [by eexists..|].
  destruct (open_ok loc_mbtowc loc_wcwidth loc_widths false ch)
    as [(n & ud & -> & Hr & Hc & _) | ->].
  - destruct (feed_ok loc_mbtowc loc_wcwidth loc_widths false src ud n [ch] Hr)
      as (more & ud' & pre & rest & -> & -> & _); [destruct Hr; cbn; lia|done|].
    rewrite length_app in Hf. destruct more; [by eexists|apply IH; lia|by eexists].
  - destruct (_ || _); [by eexists|]. apply IH. lia.
Qed.

Lemma clean_name_total name forbid : exists r, clean_name name forbid = Some r.
Proof.
  unfold clean_name. destruct name as [|c s]; [by eexists|].
  destruct (isvalid_total (bytes_of_string (String c s))) as [b ->]. cbn [mbind option_bind].
  destruct b; cbn [negb]; [|by eexists].
  match goal with |- context [utf8_strvis _ _ _ ?l ?f] => destruct (strvis_total l f) as [d ->] end.
  by eexists.
Qed.

Lemma hyperlinks_put_total hl uri ident w : is_Some (l_trees w !! hl) ->
  exists n w', hyperlinks_put hl uri ident w = Some (n, w') /\ is_Some (l_trees w' !! hl).
Proof.
  intros [t Ht]. unfold hyperlinks_put. rewrite Ht. cbn [mbind option_bind].
  match goal with |- context [utf8_strvis _ _ _ uri ?f] =>
    destruct (strvis_total uri f) as [u ->], (strvis_total ident f) as [i ->] end.
  cbn [mbind option_bind]. destruct (match ident with [] => None | _ => _ end); [by eexists _, _|].
  unfold insert_uri. eexists _, _. split; [reflexivity|]. cbn [global_hyperlinks_count].
  assert (Hin : is_Some ((<[hl:=HL (u32 (next_inner t + 1))
      (rb_insert hyperlinks_by_inner_cmp
         (HLU hl (next_inner t) i (external_id_of (hyperlinks_next_external_id w)) u) (by_inner t))
      (rb_insert hyperlinks_by_uri_cmp
         (HLU hl (next_inner t) i (external_id_of (hyperlinks_next_external_id w)) u) (by_uri t))
      (references t)]> (l_trees w)) !! hl)) by (rewrite lookup_insert_eq; by eexists).
  destruct (_ =? _); [|exact Hin]. cbn [global_hyperlinks].
  destruct (_ ++ _) as [|first l]; [exact Hin|]. unfold hyperlinks_remove. cbn [l_trees].
  destruct (decide (hlu_tree first = hl)) as [->|Hne].
  - rewrite lookup_alter_eq. by apply fmap_is_Some.
  - by rewrite lookup_alter_ne.
Qed.

End Names.

(** ** The palette *)

Lemma flagged_index idx : 0 <= idx < 256 ->
  (90 <=? Z.lor idx COLOUR_FLAG_256) && (Z.lor idx COLOUR_FLAG_256 <=? 97) = false /\
  has (Z.lor idx COLOUR_FLAG_256) COLOUR_FLAG_256 = true /\
  without (Z.lor idx COLOUR_FLAG_256) COLOUR_FLAG_256 = idx.
Proof. revert idx. apply for_each_elim. vm_compute. repeat split. Qed.

Lemma palette_get_total p idx : palette_ok p -> 0 <= idx < 256 ->
  exists c, colour_palette_get p (Z.lor idx COLOUR_FLAG_256) = Some c.
Proof.
  intros [Hp Hd] Hi. unfold colour_palette_get. destruct (flagged_index idx Hi) as (-> & -> & ->).
  assert (Hlook : forall l, entries_256 l -> exists c,
    match l with
    | Some l => c ← (if idx <? 0 then None else l !! Z.to_nat idx); Some c
    | None => Some (-1)
    end = Some c).
  { intros [l|] Hl; [|by eexists]. rewrite (proj2 (Z.ltb_ge idx 0)) by lia. cbn in Hl.
    destruct (lookup_lt_is_Some_2 l (Z.to_nat idx)) as [c ->]; [lia|]. by eexists. }
  destruct (Hlook _ Hp) as [c ->]. cbn [mbind option_bind]. destruct (negb _); [by eexists|].
  by apply Hlook.
Qed.

Lemma palette_set_ok p n c : palette_ok p -> palette_ok (snd (colour_palette_set p n c)).
Proof.
  intros [Hp Hd]. unfold colour_palette_set. destruct (_ || _); [done|].
  destruct (pal_palette p) as [l|] eqn:E.
  - split; cbn; [by rewrite length_insert|done].
  - destruct (_ =? _); [split; cbn [snd]; by rewrite ?E|]. split; cbn; [by rewrite length_insert|done].
Qed.

Lemma palette_clear_ok p : palette_ok p -> palette_ok (colour_palette_clear p).
Proof. by intros []. Qed.

#[export] Hint Resolve palette_set_ok palette_clear_ok : safe.

(** ** Changes beside the cells *)

Section Aside.
Context `{CellCodec} `{Locale} (B : Z).
Notation screen_safe := (screen_safe B).

(** What changes neither the size of the screen nor the cursor. *)
Definition aside (f : screen -> screen) : Prop := forall s, screen_safe s ->
  screen_safe (f s) /\ s_cx (f s) = s_cx s /\ screen_size_x (f s) = screen_size_x s.
Definition aside_closed (P : write_ctx -> Prop) : Prop :=
  (forall c, P c -> screen_safe (c_s c)) /\ forall f c, aside f -> P c -> P (on_s f c).

Lemma idle_aside : aside_closed (idle B).
Proof.
  split; [by intros c []|]. intros f c Hf [Hs Hg Ht]. destruct (Hf (c_s c) Hs) as (? & _ & _).
  by split.
Qed.

Lemma ctx_aside : aside_closed (ctx_safe B).
Proof.
  split; [by intros c []|]. intros f c Hf [Hs Hg Ht]. destruct (Hf (c_s c) Hs) as (? & Hx & Hz).
  split; [done..|]. unfold c_cx, c_sx in *. cbn. by rewrite Hx, Hz.
Qed.

Lemma aside_info f : (forall i, titles_ok i -> titles_ok (f i)) -> aside (on_info f).
Proof.
  intros Hf s Hs. split; [|done]. apply set_info_safe; [done|]. apply Hf. by destruct Hs.
Qed.

Lemma aside_line py f : (forall gl, line_safe gl -> line_safe (f gl)) ->
  aside (fun s => set_s_grid (update_line py f (s_grid s)) s).
Proof.
  intros Hf s Hs. destruct (update_keeps B py f (s_grid s) (ss_grid _ _ Hs) Hf) as [Hg Hx Hy].
  split; [|split; [done|by unfold screen_size_x; cbn]]. by apply set_grid_safe.
Qed.

(** ** Replies and strings *)

Context (env : input_env) (P : write_ctx -> Prop) (HP : aside_closed P).
Context (q : sequence) (st : input_state).
#[local] Set Default Proof Using "Type HP".
Notation live := (live P q st).
Notation good := (good P q st).

Lemma live_on_screen f t : live t -> aside f -> live (on_screen f t).
Proof. intros Hl Hf. eapply live_on_w; [done|]. by apply HP. Qed.

Lemma live_screen t : live t -> screen_safe (screen_of t).
Proof. intros Hl. apply HP, Hl. Qed.

Lemma live_send_reply r t : live t -> live (input_send_reply env r t).
Proof. unfold input_send_reply. auto with safe. Qed.

Lemma live_reply add r t : live t -> live (input_reply env add r t).
Proof.
  intros Hl. unfold input_reply. destruct (i_requests _); [by apply live_send_reply|].
  destruct add; [by apply live_request|by apply live_send_reply].
Qed.

Lemma live_add_request type idx t : live t -> live (input_add_request env type idx t).
Proof.
  intros Hl. unfold input_add_request. apply live_if; [done|]. by apply live_emit, live_request.
Qed.

Lemma live_colour_reply add n idx c e t : live t -> live (input_osc_colour_reply env add n idx c e t).
Proof.
  intros Hl. unfold input_osc_colour_reply. destruct (_ =? _); [done|].
  destruct (colour_split_rgb _) as [[r g] b]. by apply live_reply.
Qed.

Lemma live_redraw b t : live t -> live (redraw_if b t).
Proof. unfold redraw_if. auto with safe. Qed.

Lemma osc_4_from_good fuel : forall s redraw t, live t ->
  exists r t', osc_4_from env fuel s redraw t = Some (r, t') /\ live t'.
Proof.
  induction fuel as [|fuel IH]; intros s redraw t Hl; [by eexists _, _|]. cbn [osc_4_from].
  destruct s as [|c0 s]; [by eexists _, _|]. destruct (strtol _) as [idx next].
  destruct next as [|c1 next]; [by eexists _, _|].
  repeat match goal with |- context [match ?b with true => _ | false => _ end] =>
    is_var b; destruct b end; try by eexists _, _.
  destruct c1 as [b0 b1 b2 b3 b4 b5 b6 b7].
  destruct b0, b1, b2, b3, b4, b5, b6, b7; try by eexists _, _.
  destruct (Z.ltb_spec idx 0); [by eexists _, _|].
  destruct (Z.leb_spec 256 idx); [by eexists _, _|]. cbn [orb].
  destruct (cut_field next) as [f rest]. destruct (String.eqb f "?").
  - destruct (palette_get_total (t_palette t) idx (lv_palette _ _ _ _ Hl)) as [c ->]; [lia|].
    cbn [mbind option_bind]. destruct (negb _); apply IH;
      [by apply live_colour_reply|by apply live_add_request].
  - destruct (_ =? -1); [by apply IH|].
    pose proof (palette_set_ok (t_palette t) idx (colour_parseX11 (ie_scan_cmyk env) f)
                  (lv_palette _ _ _ _ Hl)) as Hp.
    destruct (colour_palette_set _ _ _) as [ch p]. apply IH. by apply live_set_palette.
Qed.

Lemma osc_4_good p t : live t -> good (input_osc_4 env p t).
Proof.
  intros Hl. unfold input_osc_4. destruct (osc_4_from_good (String.length p) p false t Hl)
    as (r & t' & -> & Hl'). cbn. apply good_some. by apply live_redraw.
Qed.

Lemma osc_104_from_live fuel : forall s redraw t, live t -> live (snd (osc_104_from fuel s redraw t)).
Proof.
  induction fuel as [|fuel IH]; intros s redraw t Hl; [done|]. cbn [osc_104_from].
  destruct s as [|c0 s]; [done|]. destruct (strtol _) as [idx next].
  assert (Hset : forall rest, live (snd
    (if (idx <? 0) || (256 <=? idx) then (redraw, t)
     else let '(changed, p) := colour_palette_set (t_palette t) idx (-1) in
          osc_104_from fuel rest (redraw || changed) (set_palette p t)))).
  { intros rest. destruct (_ || _); [done|].
    pose proof (palette_set_ok (t_palette t) idx (-1) (lv_palette _ _ _ _ Hl)) as Hp.
    destruct (colour_palette_set _ _ _) as [ch p]. apply IH. by apply live_set_palette. }
  destruct next as [|[b0 b1 b2 b3 b4 b5 b6 b7] next]; [apply Hset|].
  destruct b0, b1, b2, b3, b4, b5, b6, b7; first [done | apply Hset].
Qed.

Lemma osc_104_live p t : live t -> live (input_osc_104 p t).
Proof.
  intros Hl. unfold input_osc_104. pose proof (palette_clear_ok _ (lv_palette _ _ _ _ Hl)).
  destruct p as [|c p]; [by apply live_emit, live_set_palette|].
  pose proof (osc_104_from_live (String.length (String c p)) (String c p) false t Hl) as Hf.
  destruct (osc_104_from _ _ _ _) as [r t']. by apply live_redraw.
Qed.

Lemma set_default_live (set : Z -> colour_palette -> colour_palette) theme c t :
  (forall p, palette_ok p -> palette_ok (set c p)) -> live t -> live (set_default env set theme c t).
Proof.
  intros Hset Hl. unfold set_default. apply live_emit, live_if; [apply live_emit|];
    apply live_set_palette; by try apply Hset, (lv_palette _ _ _ _ Hl).
Qed.

Lemma palette_fg_ok c p : palette_ok p -> palette_ok (set_pal_fg c p).
Proof. by intros []. Qed.
Lemma palette_bg_ok c p : palette_ok p -> palette_ok (set_pal_bg c p).
Proof. by intros []. Qed.

Lemma osc_colours_live p t : live t ->
  live (input_osc_10 env p t) /\ live (input_osc_11 env p t) /\ live (input_osc_12 env p t) /\
  live (input_osc_110 env p t) /\ live (input_osc_111 env p t) /\ live (input_osc_112 p t).
Proof.
  intros Hl.
  assert (Hfg : forall th c, live (set_default env set_pal_fg th c t))
    by (intros; apply set_default_live; [apply palette_fg_ok|done]).
  assert (Hbg : forall th c, live (set_default env set_pal_bg th c t))
    by (intros; apply set_default_live; [apply palette_bg_ok|done]).
  assert (Hcc : forall c, live (on_screen (screen_set_cursor_colour c) t))
    by (intros; apply live_on_screen; [done|]; by apply aside_info).
  pose proof live_colour_reply as Hr. unfold input_osc_10, input_osc_11, input_osc_12.
  split_and!; try (destruct (String.eqb p "?"); [destruct (ie_pane env); auto|destruct (_ =? -1); auto]);
    unfold input_osc_110, input_osc_111, input_osc_112; destruct p; auto.
Qed.

Lemma osc_8_good p t : live t -> good (input_osc_8 p t).
Proof.
  intros Hl. unfold input_osc_8. destruct (osc_8_params _ _ _) as [[ident [|c uri]]|];
    [by apply good_some, live_on_cell| |by apply good_some].
  destruct (hyperlinks_put_total (t_hyperlinks t) (c :: uri) (default [] ident) (t_links t)
              (lv_links _ _ _ _ Hl)) as (n & l & -> & Hn).
  cbn [mbind option_bind]. apply good_some, live_on_cell; [|done]. by apply live_set_links.
Qed.

Lemma osc_9_live p t : live t -> live (input_osc_9 env p t).
Proof.
  intros Hl.
  assert (Hbar : forall s n, live (input_set_progress_bar env s n t)).
  { intros s n. unfold input_set_progress_bar.
    assert (live (on_screen (screen_set_progress_bar s n) t))
      by (apply live_on_screen; [done|]; by apply aside_info). auto with safe. }
  unfold input_osc_9. generalize (bytes_of_string p) as l. intros l.
  repeat (case_match; try done).
Qed.

Lemma osc_133_live p t : live t -> live (input_osc_133 p t).
Proof.
  intros Hl. unfold input_osc_133. destruct (_ <? _); [done|].
  assert (Hf : forall f, live (on_w (on_grid (update_line
            (u32 (s_cy (screen_of t) + hsize (s_grid (screen_of t)))) (flag_line f))) t)).
  { intros f. apply (live_on_screen (fun s => set_s_grid (update_line _ (flag_line f) (s_grid s)) s));
      [done|]. apply aside_line. intros gl Hg. by apply flags_safe. }
  destruct p as [|[b0 b1 b2 b3 b4 b5 b6 b7] p]; [done|].
  destruct b0, b1, b2, b3, b4, b5, b6, b7; first [done | apply Hf].
Qed.

Lemma osc_52_live p t : live t -> live (input_osc_52 env p t).
Proof.
  intros Hl.
  assert (Hc : forall buf e clip, live (input_reply_clipboard buf e clip t)).
  { intros buf e clip. unfold input_reply_clipboard. destruct buf; [by apply live_emit|].
    destruct (_ <=? _); [done|]. destruct (Base64.b64_ntop _ _); [by apply live_emit|done]. }
  assert (Hr : forall clip, live (input_osc_52_reply env clip t)).
  { intros clip. unfold input_osc_52_reply. destruct (_ =? 0); [done|].
    destruct (_ =? 1); [by destruct (ie_paste_top env)|by apply live_add_request]. }
  unfold input_osc_52. destruct (negb _); [done|]. destruct (list_find _ _) as [[i c]|]; [|done].
  generalize (drop (S i) (bytes_of_string p)) as data. intros data.
  assert (Hd : live match Base64.b64_pton data ((Z.of_nat (length data) + 3) / 4 * 3) with
                    | None => t
                    | Some out =>
                        if negb (ie_pane env) && negb (ie_client env) then t
                        else emit (Clipboard (clip_of (take (S i) (bytes_of_string p))) out
                                     (ie_pane env)) t
                    end).
  { destruct (Base64.b64_pton _ _); [|done]. auto with safe. }
  repeat (case_match; try done).
Qed.

Lemma set_title_good title t : live t -> good (set_title env title t).
Proof.
  intros Hl. unfold set_title. destruct (_ || _); [by apply good_some|].
  unfold screen_set_title. destruct (clean_name_total title "#") as [r ->]. cbn [mbind option_bind].
  destruct r as [r|]; cbn [mbind option_bind]; apply good_some.
  - apply live_emit, live_emit. apply (live_on_screen (on_info (set_si_title r))); [done|].
    by apply aside_info.
  - apply (live_on_screen (fun s => s)) in Hl; [|by intros s]. by destruct t as [? [] ? ? ? ?].
Qed.

Lemma set_path_good p t : live t ->
  good ('(changed, s) ← screen_set_path p (screen_of t);
        let t := on_screen (fun _ => s) t in
        Some (if (changed : bool) && ie_pane env then emit WindowRedrawn t else t)).
Proof.
  intros Hl. unfold screen_set_path. destruct (clean_name_total p "#") as [r ->].
  cbn [mbind option_bind]. destruct r as [r|]; cbn [mbind option_bind andb]; apply good_some.
  - assert (Hp : live (on_screen (on_info (set_si_path (Some r))) t))
      by (apply live_on_screen; [done|]; by apply aside_info).
    apply live_if; [by apply live_emit|done].
  - apply (live_on_screen (fun s => s)) in Hl; [|by intros s]. by destruct t as [? [] ? ? ? ?].
Qed.

Lemma osc_dispatch_good number p t : live t -> good (osc_dispatch env number p t).
Proof.
  intros Hl. destruct (osc_colours_live p t Hl) as (? & ? & ? & ? & ? & ?).
  pose proof (set_title_good p t Hl). pose proof (set_path_good p t Hl).
  pose proof (osc_4_good p t Hl). pose proof (osc_8_good p t Hl).
  pose proof (osc_9_live p t Hl). pose proof (osc_52_live p t Hl).
  pose proof (osc_104_live p t Hl). pose proof (osc_133_live p t Hl).
  pose proof good_some. unfold osc_dispatch. repeat case_match; auto.
Qed.

Lemma exit_osc_good t : live t -> good (input_exit_osc env t).
Proof.
  intros Hl. pose proof (good_some P q st t Hl) as Hg. unfold input_exit_osc.
  destruct (flag_set _ _); [done|]. destruct (q_buf _) as [|c l]; [done|].
  destruct (_ || _); [done|]. destruct (take_digits _ _) as [number rest].
  repeat (case_match; try done); by apply osc_dispatch_good.
Qed.

Lemma exit_apc_good t : live t -> good (input_exit_apc env t).
Proof.
  intros Hl. unfold input_exit_apc. destruct (flag_set _ _); [by apply good_some|].
  by apply set_title_good.
Qed.

Lemma exit_rename_good t : live t -> good (input_exit_rename env t).
Proof.
  intros Hl. unfold input_exit_rename. destruct (_ || _); [by apply good_some|].
  destruct (isvalid_total (q_buf (seq_of t))) as [b ->]. cbn [mbind option_bind].
  destruct (negb b); [by apply good_some|]. apply good_some, live_emit.
  destruct (q_buf _); by apply live_emit.
Qed.

Lemma dcs_good t : live t -> good (input_dcs_dispatch env t).
Proof.
  intros Hl. unfold input_dcs_dispatch. destruct (flag_set _ _); [by apply good_some|].
  destruct (_ && _); [|destruct (_ =? 0); [by apply good_some|];
                       destruct (bool_decide _); [by apply good_some, live_emit|by apply good_some]].
  apply good_some. unfold input_handle_decrqss. destruct (negb _); by apply live_reply.
Qed.

Lemma report_theme_live t : live t -> live (input_report_current_theme env t).
Proof.
  intros Hl. unfold input_report_current_theme. destruct (negb _); [done|].
  destruct (ie_theme env); [by apply live_emit|by apply live_reply, live_emit..].
Qed.

End Aside.
