(* ===== verification/InputParseSafe.v ===== *)
(** * What keeps the parser in order: characters and commands *)
From Stdlib Require Import Ascii String.
From S2P Require Import Prelude.
From S2P Require Import CString.
From S2P Require Import Utf8.
From S2P Require Import Utf8Props.
From S2P Require Import CellCodec.
From S2P Require Import Locale.
From S2P Require Import Hyperlinks.
From S2P Require Import Grid.
From S2P Require Import GridFacts.
From S2P Require Import Colour.
From S2P Require Import Reflow.
From S2P Require Import Screen.
From S2P Require Import ScreenInfo.
From S2P Require Import ScreenWrite.
From S2P Require Import GridSafe.
From S2P Require Import ScreenSafe.
From S2P Require Import ScreenWriteSafe.
From S2P Require Import InputTable.
From S2P Require Import Input.
From S2P Require Import InputOsc.
From S2P Require Import InputParse.
From S2P Require Import InputSafe.

(** ** Cells *)

Lemma plain_data d gc : cell_plain gc -> cell_plain (set_gc_data d gc).
Proof. done. Qed.
Lemma plain_attr_on a gc : cell_plain gc -> cell_plain (attr_on a gc).
Proof. done. Qed.
Lemma plain_attr_off a gc : cell_plain gc -> cell_plain (attr_off a gc).
Proof. done. Qed.

Lemma plain_set_tab gc w : cell_plain gc -> cell_plain (grid_set_tab gc w).
Proof. intros Hp. apply plain_without. by apply plain_lor. Qed.

Lemma plain_colour (f g h : grid_cell -> grid_cell) (a b c : bool) gc :
  cell_plain (f gc) -> cell_plain (g gc) -> cell_plain (h gc) -> cell_plain gc ->
  cell_plain (if a then f gc else if b then g gc else if c then h gc else gc).
Proof. by destruct a, b, c. Qed.

Lemma plain_256 fgbg c gc : cell_plain gc -> cell_plain (input_csi_dispatch_sgr_256_do fgbg c gc).
Proof. intros Hp. unfold input_csi_dispatch_sgr_256_do. repeat case_match; done. Qed.

Lemma plain_rgb fgbg r g b gc gc' : cell_plain gc ->
  input_csi_dispatch_sgr_rgb_do fgbg r g b gc = Some gc' -> cell_plain gc'.
Proof.
  intros Hp. unfold input_csi_dispatch_sgr_rgb_do. destruct (_ || _); [done|]. intros [= <-].
  by apply plain_colour.
Qed.

Lemma plain_underscore n gc : cell_plain gc -> cell_plain (underscore n gc).
Proof. intros Hp. unfold underscore. repeat (case_match; try done). Qed.

Lemma plain_colon s gc : cell_plain gc -> cell_plain (input_csi_dispatch_sgr_colon s gc).
Proof.
  intros Hp. unfold input_csi_dispatch_sgr_colon. destruct (colon_numbers _ _) as [p|]; [|done].
  cbn zeta. destruct (_ =? _)%nat; [done|]. destruct (_ =? 4).
  { destruct (_ =? _)%nat; [by apply plain_underscore|done]. }
  destruct (_ || _); [done|]. destruct (_ =? 2).
  - destruct (_ || _); [done|].
    destruct (input_csi_dispatch_sgr_rgb_do _ _ _ _ _) eqn:E; [|done]. by eapply plain_rgb.
  - destruct (_ =? 5); [|done]. destruct (_ <? _)%nat; [done|]. by apply plain_256.
Qed.

Lemma plain_number n gc : cell_plain gc -> cell_plain (sgr_number n gc).
Proof.
  intros Hp. assert (Hd : forall a b c d : bool, cell_plain
     (if a then set_gc_fg (n - 30) gc else if b then set_gc_bg (n - 40) gc
      else if c then set_gc_fg n gc else if d then set_gc_bg (n - 10) gc else gc))
    by (by intros [] [] [] []).
  pose proof (plain_underscore 0 gc Hp). pose proof (plain_underscore 1 gc Hp).
  pose proof (plain_underscore 2 gc Hp).
  unfold sgr_number. repeat (case_match; try done).
Qed.

Lemma plain_sgr_from fuel : forall params i gc, cell_plain gc -> cell_plain (sgr_from fuel params i gc).
Proof.
  induction fuel as [|fuel IH]; intros params i gc Hp; [done|]. cbn [sgr_from].
  assert (Hn : cell_plain (let n := get_param params i 0 0 in
    if n =? -1 then sgr_from fuel params (S i) gc
    else if (n =? 38) || (n =? 48) || (n =? 58) then
      let arg k := get_param params (S i + k) 0 (-1) in
      if arg 0%nat =? 2 then
        match input_csi_dispatch_sgr_rgb_do n (arg 1%nat) (arg 2%nat) (arg 3%nat) gc with
        | Some gc => sgr_from fuel params (S i + 4) gc
        | None => sgr_from fuel params (S i + 1) gc
        end
      else if arg 0%nat =? 5 then
        sgr_from fuel params (S i + 2) (input_csi_dispatch_sgr_256_do n (arg 1%nat) gc)
      else sgr_from fuel params (S i + 1) gc
    else sgr_from fuel params (S i) (sgr_number n gc))).
  { cbn zeta. destruct (_ =? -1); [by apply IH|]. destruct (_ || _).
    - destruct (_ =? 2).
      + destruct (input_csi_dispatch_sgr_rgb_do _ _ _ _ _) eqn:E; [|by apply IH].
        apply IH. by eapply plain_rgb.
      + destruct (_ =? 5); apply IH; [by apply plain_256|done].
    - by apply IH, plain_number. }
  destruct (params !! i) as [[]|]; [exact Hn|exact Hn|by apply IH, plain_colon|done].
Qed.

Lemma plain_sgr params gc : cell_plain gc -> cell_plain (input_csi_dispatch_sgr params gc).
Proof. intros Hp. unfold input_csi_dispatch_sgr. destruct params; [done|]. by apply plain_sgr_from. Qed.

#[export] Hint Resolve plain_data plain_attr_on plain_attr_off plain_set_tab plain_sgr : safe.

(** ** Parameters *)

Lemma split_fields_length fields : forall acc, (length acc < 24)%nat ->
  (length (snd (split_fields fields acc)) <= 24)%nat.
Proof.
  induction fields as [|f fields IH]; intros acc Ha; cbn [split_fields snd]; [lia|].
  destruct (param_of_field f) as [p|]; cbn [snd]; [|lia].
  assert (Hl : length (acc ++ [p]) = S (length acc)) by (rewrite length_app; cbn; lia).
  destruct (Nat.eqb_spec (length (acc ++ [p])) 24); cbn [snd]; [lia|]. apply IH. lia.
Qed.

Lemma get_param_low params i m d : m <= d ->
  get_param params i m d = -1 \/ m <= get_param params i m d.
Proof.
  intros Hd. unfold get_param. destruct (params !! i) as [[]|]; [by right| |by left|by right].
  right. destruct (Z.ltb_spec num m); lia.
Qed.

Section Parse.
Context `{CellCodec} `{Locale} (B : Z) (env : input_env).
Context (q : sequence) (st : input_state).
Notation idle := (idle B).
Notation ctx_safe := (ctx_safe B).
Notation live := (live idle q st).
Notation open := (InputSafe.live ctx_safe q st).
Notation good := (good idle q st).
Notation closed := (idle_aside B).

Lemma live_open t : live t -> open t.
Proof. intros Hl. eapply live_weaken; [exact Hl|]. apply idle_safe. Qed.

Lemma live_w f t : live t -> (forall c, idle c -> idle (f c)) -> live (on_w f t).
Proof. intros Hl Hf. eapply live_on_w; [done|]. apply Hf. Qed.

Lemma live_aside f t : live t -> aside B f -> live (on_screen f t).
Proof. intros Hl Hf. by apply (live_on_screen B _ closed). Qed.

Lemma live_say add r t : live t -> live (input_reply env add r t).
Proof. apply (live_reply B env _ closed). Qed.

Lemma live_on_safe f t : live t -> (forall s, screen_safe B s -> screen_safe B (f s)) ->
  live (on_screen f t).
Proof. intros Hl Hf. apply live_w; [done|]. intros c Hc. apply on_s_idle; auto. Qed.

(** A command that changes only the screen. *)
Ltac screen := apply live_w; [|intros ? ?].

(** ** Characters *)

Lemma open_add t : open t -> open (add_cell env t).
Proof.
  intros Hl. pose proof (lv_cell _ _ _ _ Hl). eapply live_on_w; [done|]. intros Hc.
  by apply collect_add_safe.
Qed.

Lemma live_chars P c t : InputSafe.live P q st t -> chars_ok c -> InputSafe.live P q st (set_chars c t).
Proof. by intros []. Qed.

Lemma no_char ud last : chars_ok (Characters ud false last).
Proof. done. Qed.

Lemma open_stop t : open t -> open (input_stop_utf8 env t).
Proof.
  intros Hl. unfold input_stop_utf8. apply live_chars; [|done].
  destruct (utf8started _); [|done]. by apply open_add, live_on_cell.
Qed.

(** The replacement character is not collected. *)
Lemma live_stop t : live t -> live (input_stop_utf8 env t).
Proof.
  intros Hl. unfold input_stop_utf8. apply live_chars; [|done].
  destruct (utf8started _); [|done].
  assert (Hc : live (on_cell (set_gc_data (utf8_copy invalid_char)) t)) by (by apply live_on_cell).
  pose proof (lv_cell _ _ _ _ Hc). eapply live_on_w; [exact Hc|]. intros Hi.
  apply collect_add_idle; [by apply idle_safe|done|done].
Qed.

Lemma open_last P t : InputSafe.live P q st t -> InputSafe.live P q st (set_last_char t).
Proof.
  intros Hl. unfold set_last_char. apply live_set_flag, live_chars; [done|]. apply (lv_chars _ _ _ _ Hl).
Qed.

Lemma live_charset P t : InputSafe.live P q st t -> InputSafe.live P q st (set_charset t).
Proof. intros Hl. unfold set_charset. apply live_on_cell; [done|]. by destruct (uses_charset t). Qed.

Lemma open_print t : open t -> open (input_print env t).
Proof.
  intros Hl. unfold input_print. apply live_on_cell; [|done].
  apply open_last, open_add, live_on_cell; [|done]. by apply live_charset, open_stop.
Qed.

(** A character that is not valid is replaced. *)
Lemma replaced ud last t : open t ->
  open (input_stop_utf8 env (set_chars (Characters ud true last) t)).
Proof.
  intros Hl. change (open (set_chars (Characters ud false last)
    (add_cell env (on_cell (set_gc_data (utf8_copy invalid_char)) t)))).
  apply live_chars; [|done]. by apply open_add, live_on_cell.
Qed.

Lemma top_bit_good t : open t -> InputSafe.good ctx_safe q st (input_top_bit_set env t).
Proof.
  intros Hl. unfold input_top_bit_set. cbn zeta. apply (live_clear_flag _ _ _ INPUT_LAST) in Hl.
  set (t1 := clear_flag INPUT_LAST t) in *. clearbody t1.
  pose proof (lv_chars _ _ _ _ Hl) as Hc. destruct (utf8started (i_chars (t_in t1))) eqn:E; cbn [negb].
  - destruct (Hc E) as (n & pre & Hr & Hlt & Hcl).
    destruct (append_ok loc_mbtowc loc_wcwidth loc_widths false _ n pre (ch_of t1) Hr Hlt Hcl)
      as (more & ud & -> & Hr' & Hmore & _). cbn [mbind option_bind]. apply good_some. destruct more.
    + destruct (Hmore eq_refl) as [Hlt' Hcl']. apply live_chars; [done|]. intros _.
      eexists n, _. split; [exact Hr'|]. split; [rewrite length_app; cbn; lia|done].
    + apply open_last, open_add, live_on_cell; [|done].
      by apply (live_chars _ (Characters ud false (last_char (i_chars (t_in t1)))) t1).
    + by apply replaced.
  - destruct (open_ok loc_mbtowc loc_wcwidth loc_widths false (ch_of t1))
      as [(n & ud & -> & Hr & Hcl & _) | ->]; cbn [mbind option_bind]; apply good_some.
    + apply live_chars; [done|]. intros _. exists n, [ch_of t1]. split; [done|].
      destruct Hr. split; [cbn; lia|done].
    + by apply replaced.
Qed.

(** ** Control characters *)

Lemma next_tab_range fuel s line gc : forall cx has,
  0 <= cx < u32 (screen_size_x s - 1) ->
  0 <= fst (next_tab fuel s line gc cx has) <= u32 (screen_size_x s - 1).
Proof.
  induction fuel as [|fuel IH]; intros cx has Hc; [cbn; lia|]. cbn [next_tab].
  pose proof (u32_range (screen_size_x s - 1)). rewrite (u32_small (cx + 1)) by lia.
  destruct (bit_test _ _); [cbn; lia|].
  destruct (Z.ltb_spec (cx + 1) (u32 (screen_size_x s - 1))); [apply IH; lia|cbn; lia].
Qed.

Lemma live_set_cx cx t : live t -> 0 <= cx <= screen_size_x (screen_of t) -> live (set_cx cx t).
Proof.
  intros Hl Hc. eapply live_on_w; [exact Hl|]. intros Hi. apply on_s_idle; [done|]. intros Hs.
  apply set_cursor_safe; [done|done|]. apply (ss_cy _ _ Hs).
Qed.

Lemma live_tab t : live t -> live (horizontal_tab env t).
Proof.
  intros Hl. unfold horizontal_tab. set (s := screen_of t).
  pose proof (lv_w _ _ _ _ Hl) as Hi. pose proof (id_screen _ _ Hi) as Hs.
  change (c_s (t_w t)) with s in Hs. pose proof (ss_cx _ _ Hs). pose proof (gs_sx _ _ (ss_grid _ _ Hs)).
  destruct (Z.leb_spec (u32 (screen_size_x s - 1)) (s_cx s)); [done|].
  set (first := grid_get_cell _ _ _).
  assert (Hp : cell_plain first) by (apply get_cell_plain, (ss_grid _ _ Hs)).
  pose proof (next_tab_range (Z.to_nat (screen_size_x s)) s (u32 (s_cy s + hsize (s_grid s))) first
                (s_cx s) false) as Hr.
  destruct (next_tab _ _ _ _ _ _) as [cx has_]. cbn [fst] in Hr.
  assert (Hx : 1 <= screen_size_x s < 1073741824) by done. rewrite u32_small in * by lia.
  destruct (_ || _); [apply live_set_cx; [done|]; fold s; lia|].
  apply live_w; [done|]. intros c Hc. apply collect_add_idle; [by apply idle_safe|by apply plain_set_tab|].
  assert (Ht : has (gc_flags (grid_set_tab first (u32 (cx - s_cx s)))) GRID_FLAG_TAB = true).
  { cbn. unfold has, without. rewrite negb_true_iff, Z.eqb_neq. intros E.
    assert (Hb : Z.testbit (Z.land (Z.ldiff (Z.lor (gc_flags first) GRID_FLAG_TAB) GRID_FLAG_PADDING)
                              GRID_FLAG_TAB) 7 = false) by (by rewrite E, Z.bits_0).
    rewrite Z.land_spec, Z.ldiff_spec, Z.lor_spec in Hb.
    change (Z.testbit GRID_FLAG_TAB 7) with true in Hb.
    change (Z.testbit GRID_FLAG_PADDING 7) with false in Hb.
    rewrite orb_true_r in Hb. done. }
  unfold collectable. rewrite Ht. cbn [negb]. by rewrite !andb_false_r.
Qed.

Lemma live_g f t : live t -> (forall c, ic_cell (f c) = ic_cell c) ->
  live (on_in (fun i => set_i_cell (f (i_cell i)) i) t).
Proof. intros [] Hf. split; try done. unfold cell_of. cbn. by rewrite Hf. Qed.

Lemma live_set_g0 v t : live t -> live (set_g0 v t).
Proof. intros Hl. by apply (live_g (fun c => ICell (ic_cell c) (ic_set c) v (ic_g1set c))). Qed.
Lemma live_set_g1 v t : live t -> live (set_g1 v t).
Proof. intros Hl. by apply (live_g (fun c => ICell (ic_cell c) (ic_set c) (ic_g0set c) v)). Qed.

Lemma live_c0 t : live t -> live (input_c0_dispatch env t).
Proof.
  intros Hl. unfold input_c0_dispatch. apply live_clear_flag. apply live_stop in Hl.
  set (t1 := input_stop_utf8 env t) in *. clearbody t1.
  assert (Hlf : forall t, live t -> live (on_w (screen_write_linefeed (ie_write env) false (gc_bg (cell_of t1))) t))
    by (intros t2 Ht2; apply live_w; [done|]; intros; by apply linefeed_idle).
  assert (Hcr : forall t, live t -> live (on_w screen_write_carriagereturn t))
    by (intros t2 Ht2; apply live_w; [done|]; intros; by apply carriagereturn_idle).
  assert (Hbs : live (on_w screen_write_backspace t1))
    by (apply live_w; [done|]; intros; by apply backspace_idle).
  pose proof (live_tab _ Hl). pose proof (live_emit _ _ _ Bell _ Hl).
  assert (Hset : forall v, live (on_in (fun i => let c := i_cell i in
            set_i_cell (ICell (ic_cell c) v (ic_g0set c) (ic_g1set c)) i) t1))
    by (intros v; by apply (live_g (fun c => ICell (ic_cell c) v (ic_g0set c) (ic_g1set c)))).
  repeat (case_match; auto).
Qed.

(** ** Saving and resetting *)

Lemma live_reset_cell P t : InputSafe.live P q st t -> InputSafe.live P q st (input_reset_cell t).
Proof. by intros []. Qed.

Lemma live_save t : live t -> live (input_save_state t).
Proof. by intros []. Qed.

Lemma live_mode_on m t : live t -> live (mode_on m t).
Proof. intros Hl. screen; [done|]. by apply mode_set_idle. Qed.
Lemma live_mode_off m t : live t -> live (mode_off m t).
Proof. intros Hl. screen; [done|]. by apply mode_clear_idle. Qed.

Lemma live_restore t : live t -> live (input_restore_state t).
Proof.
  intros Hl. unfold input_restore_state. screen; [|by apply cursormove_idle].
  assert (Hc : live (on_in (set_i_cell (old_cell (i_saved (t_in t)))) t)) by (destruct Hl; by split).
  destruct (has _ _); [by apply live_mode_on|by apply live_mode_off].
Qed.

#[local] Hint Resolve live_w live_aside live_say live_stop live_save live_restore live_mode_on
  live_mode_off live_reset_cell live_set_g0 live_set_g1 : safe.

(** ** Escape sequences *)

Lemma live_esc_command type t : live t -> live (esc_command env type t).
Proof.
  intros Hl. unfold esc_command. destruct type; eauto 6 with safe.
  - apply live_on_safe; [done|]. intros s Hs. destruct (_ <? _); [|done]. by apply set_tabs_safe.
  - apply live_emit, live_w; [|eauto with safe]. apply live_reset_cell, live_set_palette; [done|].
    apply palette_clear_ok, (lv_palette _ _ _ _ Hl).
Qed.

Lemma live_esc t : live t -> live (input_esc_dispatch env t).
Proof.
  intros Hl. unfold input_esc_dispatch. destruct (flag_set _ _); [done|].
  destruct (input_lookup _ _ _); [|done]. by apply live_clear_flag, live_esc_command.
Qed.

(** ** Control sequences *)

Lemma each_good f t : (forall n t, live t -> good (f n t)) -> live t -> good (each_param f t).
Proof.
  intros Hf Hl. unfold each_param. generalize (seq 0 (length (params_of t))) as l. intros l.
  assert (Hg : good (Some t)) by (by apply good_some). revert Hg. generalize (Some t) as o.
  induction l as [|i l IH]; intros o Hg; [done|]. cbn [foldl]. apply IH.
  apply good_bind; [done|]. intros t' Hl'. by apply Hf.
Qed.

Lemma live_home t : live t -> live (home t).
Proof. intros Hl. unfold home. auto with safe. Qed.

Lemma alternate_off_good cursor t : live t -> good (alternate_off env cursor t).
Proof.
  intros Hl. unfold alternate_off. pose proof (lv_cell _ _ _ _ Hl).
  destruct (alternateoff_idle B (ie_write env) (cell_of t) cursor (t_w t))
    as (c & gc & -> & Hc & Hg); [apply (lv_w _ _ _ _ Hl)|done|].
  cbn [mbind option_bind]. apply good_some, live_on_cell; [|done]. by eapply live_on_w.
Qed.

Lemma live_alternate_on cursor t : live t -> live (alternate_on env cursor t).
Proof. intros Hl. pose proof (lv_cell _ _ _ _ Hl). unfold alternate_on. auto with safe. Qed.

#[local] Hint Resolve live_home alternate_off_good live_alternate_on : safe.

Lemma rm_private_good n t : live t -> good (rm_private_number env n t).
Proof.
  intros Hl.
  assert (Hc : live (on_w (screen_write_clearscreen (ie_write env) (gc_bg (cell_of t))) (home t)))
    by eauto with safe.
  unfold rm_private_number. repeat case_match; eauto 6 with safe.
Qed.

Lemma sm_private_good n t : live t -> good (sm_private_number env n t).
Proof.
  intros Hl.
  assert (Hc : live (on_w (screen_write_clearscreen (ie_write env) (gc_bg (cell_of t))) (home t)))
    by eauto with safe.
  unfold sm_private_number. repeat case_match; eauto 6 with safe.
Qed.

Lemma live_rm_number n t : live t -> live (on_w (rm_number n) t).
Proof. intros Hl. unfold rm_number. repeat case_match; eauto with safe. Qed.
Lemma live_sm_number n t : live t -> live (on_w (sm_number n) t).
Proof. intros Hl. unfold sm_number. repeat case_match; eauto with safe. Qed.

Lemma live_pop t : live t -> live (on_screen screen_pop_title t).
Proof. intros Hl. apply live_on_safe; [done|]. intros s. by apply pop_title_safe. Qed.

Lemma push_title_good (f : term -> option term) t : live t -> (forall t, live t -> good (f t)) ->
  good (s ← screen_push_title (screen_of t); f (on_screen (fun _ => s) t)).
Proof.
  intros Hl Hf. pose proof (id_screen _ _ (lv_w _ _ _ _ Hl)) as Hs.
  destruct (push_title_ok B (screen_of t) Hs) as (s & -> & Hs'). cbn [mbind option_bind].
  apply Hf. by apply live_on_safe.
Qed.

Lemma winops_good fuel : forall m t, live t -> good (winops_from env fuel m t).
Proof.
  induction fuel as [|fuel IH]; intros m t Hl; [by apply good_some|]. cbn [winops_from].
  assert (Hr : forall m r, good (winops_from env fuel m (input_reply env true r t)))
    by (intros; apply IH; by apply live_say).
  assert (Hw : forall m r, good (winops_from env fuel m
            (if ie_pane env then input_reply env true r t else t)))
    by (intros; apply IH, live_if; [by apply live_say|done]).
  assert (Hpush : forall m, good (s ← screen_push_title (screen_of t);
            winops_from env fuel m (on_screen (fun _ => s) t)))
    by (intros m1; apply (push_title_good (winops_from env fuel m1)); [done|]; intros; by apply IH).
  assert (Hpop : forall m, good (winops_from env fuel m
            (if ie_pane env then emit WindowRedrawn (emit TitleChanged (on_screen screen_pop_title t))
             else on_screen screen_pop_title t)))
    by (intros; apply IH, live_if; [apply live_emit, live_emit|]; by apply live_pop).
  pose proof (good_some _ _ _ _ Hl). cbn zeta. repeat case_match; auto.
Qed.

(** *** Tabs *)

Lemma previous_tab_range fuel tabs : forall cx, 0 < cx -> 0 <= previous_tab fuel tabs cx <= cx.
Proof.
  induction fuel as [|fuel IH]; intros cx Hc; cbn [previous_tab]; [lia|].
  destruct (Z.ltb_spec 0 (cx - 1)); cbn [andb]; [|lia]. destruct (negb _); [|lia].
  pose proof (IH (cx - 1)). lia.
Qed.

Lemma back_tabs_range fuel tabs : forall cx n, 0 <= cx -> 0 <= back_tabs fuel tabs cx n <= cx.
Proof.
  induction fuel as [|fuel IH]; intros cx n Hc; cbn [back_tabs]; [lia|].
  destruct (Z.ltb_spec 0 cx); cbn [andb]; [|lia]. destruct (0 <? n); [|lia].
  pose proof (previous_tab_range (Z.to_nat cx) tabs cx).
  pose proof (IH (previous_tab (Z.to_nat cx) tabs cx) (n - 1)). lia.
Qed.

Lemma live_back_tab n t : live t -> live (back_tab n t).
Proof.
  intros Hl. unfold back_tab. cbn zeta. destruct (n =? -1); [done|]. set (s := screen_of t).
  pose proof (id_screen _ _ (lv_w _ _ _ _ Hl)) as Hs. change (c_s (t_w t)) with s in Hs.
  pose proof (ss_cx _ _ Hs). pose proof (gs_sx _ _ (ss_grid _ _ Hs)).
  assert (Hx : 1 <= screen_size_x s < 1073741824) by done. rewrite u32_small by lia.
  apply live_set_cx; [done|]. fold s.
  destruct (Z.ltb_spec (screen_size_x s - 1) (s_cx s)).
  - pose proof (back_tabs_range (Z.to_nat (screen_size_x s - 1)) (s_tabs s) (screen_size_x s - 1) n). lia.
  - pose proof (back_tabs_range (Z.to_nat (s_cx s)) (s_tabs s) (s_cx s) n). lia.
Qed.

Lemma live_clear_tab n t : live t -> live (on_screen (clear_tab n) t).
Proof.
  intros Hl. apply live_on_safe; [done|]. intros s Hs. unfold clear_tab.
  repeat case_match; auto with safe.
Qed.

Lemma live_cursor_style n t : live t -> live (on_screen (cursor_style n) t).
Proof.
  intros Hl. apply live_on_safe; [done|]. intros s Hs. unfold cursor_style.
  destruct (screen_set_cursor_style _ _ _) as [style mode]. pose proof (ss_titles _ _ Hs).
  assert (Hs' : screen_safe B (set_s_mode mode (set_s_info (set_si_cstyle style (s_info s)) s)))
    by (apply set_mode_safe; by apply set_info_safe).
  destruct (n =? 0); [|done]. by apply set_mode_safe.
Qed.

(** *** The last character again *)

Lemma repeat_open n t : live t -> open (repeat_char env n t).
Proof.
  intros Hl. apply live_open in Hl. unfold repeat_char. cbn zeta. destruct (flag_set _ _); [|done].
  set (t1 := on_cell _ _).
  assert (Ht1 : open t1) by (apply live_on_cell; [by apply live_charset|done]).
  clearbody t1. induction (Z.to_nat _) as [|k IH]; [done|]. rewrite Nat.iter_succ.
  by apply open_add.
Qed.

(** *** The commands *)

Lemma good_open o : good o -> InputSafe.good ctx_safe q st o.
Proof. intros (t & -> & Hl). apply good_some. by apply live_open. Qed.

Lemma live_query n t : live t -> live (query_private env n t).
Proof. intros Hl. unfold query_private. cbn zeta. repeat case_match; auto with safe. Qed.

Lemma live_erase_display n bg t : live t -> live (erase_display env n bg t).
Proof. intros Hl. unfold erase_display. repeat case_match; eauto with safe. Qed.

Lemma live_erase_line n bg t : live t -> live (on_w (erase_line n bg) t).
Proof. intros Hl. unfold erase_line. repeat case_match; eauto with safe. Qed.

Lemma live_keys n m t : live t ->
  live (set_extended_keys env n m t) /\ live (unset_extended_keys env n t).
Proof.
  intros Hl. unfold set_extended_keys, unset_extended_keys. cbn zeta.
  split; repeat case_match; auto with safe.
Qed.

Lemma live_theme t : live t -> live (input_report_current_theme env t).
Proof. apply (report_theme_live B env _ closed). Qed.

#[local] Hint Resolve live_query live_erase_display live_erase_line live_theme live_back_tab
  live_clear_tab live_cursor_style live_rm_number live_sm_number : safe.

(** A command with a number that is at least one. *)
Lemma live_count f t : live t -> (forall n c, 0 <= n -> idle c -> idle (f n c)) ->
  good (Some (if input_get t 0 1 1 =? -1 then t else on_w (f (input_get t 0 1 1)) t)).
Proof.
  intros Hl Hf. apply good_some. destruct (Z.eqb_spec (input_get t 0 1 1) (-1)); [done|].
  apply live_w; [done|]. intros c Hc. apply Hf; [|done].
  destruct (get_param_low (params_of t) 0 1 1); unfold input_get in *; lia.
Qed.

Lemma csi_idle type t : type <> INPUT_CSI_REP -> live t -> good (csi_command env type t).
Proof.
  intros Hrep Hl. pose proof (live_count) as Hcount. pose proof (live_keys) as Hkeys.
  unfold csi_command. cbn zeta.
  destruct type; try done; try (apply good_some; eauto with safe; fail);
    try (apply good_some, Hkeys; done).
  all: try (match goal with |- context [on_w (?f (input_get _ 0 1 1) ?bg) _] =>
         apply (Hcount (fun n => f n bg)); [done|]; intros; by auto with safe end).
  all: try (apply Hcount; [done|]; intros; by auto with safe).
  - apply good_some, live_if; [done|]. apply live_w; [done|]. intros c Hc.
    apply scrollregion_idle; [done|apply u32_range..].
  - apply good_some. repeat case_match; auto with safe.
  - apply each_good; [|done]. intros. by apply good_some, live_rm_number.
  - apply each_good; [|done]. intros. by apply rm_private_good.
  - apply good_some, live_on_cell; [done|]. apply plain_sgr.
  - apply each_good; [|done]. intros. by apply good_some, live_sm_number.
  - apply each_good; [|done]. intros. by apply sm_private_good.
  - by apply winops_good.
Qed.

Lemma csi_good type t : live t -> InputSafe.good ctx_safe q st (csi_command env type t).
Proof.
  intros Hl. assert (Hd : type = INPUT_CSI_REP \/ type <> INPUT_CSI_REP)
    by (destruct type; first [by left | by right]).
  destruct Hd as [->|Hrep]; [|by apply good_open, csi_idle].
  unfold csi_command. cbn zeta. apply good_some. destruct (_ =? -1); [by apply live_open|].
  by apply repeat_open.
Qed.

Lemma split_live t : live t -> live (snd (input_split t)).
Proof.
  intros Hl. unfold input_split.
  assert (Hp : forall l, (length l <= 24)%nat -> live (on_in (set_i_params l) t))
    by (intros l Hlen; destruct Hl; by split).
  destruct (q_param _) as [|c l]; [apply Hp; cbn; lia|].
  pose proof (split_fields_length (strsep 59 (c :: l)) []) as Hlen.
  destruct (split_fields _ _) as [ok params]. apply Hp, Hlen. cbn. lia.
Qed.

Lemma csi_dispatch_good t : live t -> InputSafe.good ctx_safe q st (input_csi_dispatch env t).
Proof.
  intros Hl. unfold input_csi_dispatch. destruct (flag_set _ _); [by apply good_some, live_open|].
  apply split_live in Hl. destruct (input_split t) as [ok t1]. cbn [snd] in Hl.
  destruct (negb ok); [by apply good_some, live_open|].
  destruct (input_lookup _ _ _) as [type|]; [|by apply good_some, live_open].
  apply good_bind; [by apply csi_good|]. intros t' Hl'. by apply good_some, live_clear_flag.
Qed.
End Parse.
