(* ===== verification/InputMachine.v ===== *)
(** * The machine of the input parser, and control sequences as a whole

    Its states have a transition for every byte, the transition that is kept
    from byte to byte is the one that would be found, and a step keeps the
    parser in order; then what the bytes of [ESC \[ parameters command] do to
    the parser, up to the command. *)
From Stdlib Require Import Ascii String.
From S2P Require Import Prelude.
From S2P Require Import CString.
From S2P Require Import Utf8.
From S2P Require Import CellCodec.
From S2P Require Import Locale.
From S2P Require Import Hyperlinks.
From S2P Require Import Grid.
From S2P Require Import Colour.
From S2P Require Import ColourProps.
From S2P Require Import Reflow.
From S2P Require Import Screen.
From S2P Require Import ScreenInfo.
From S2P Require Import ScreenWrite.
From S2P Require Import GridSafe.
From S2P Require Import ScreenSafe.
From S2P Require Import ScreenWriteSafe.
From S2P Require Import InputTable.
From S2P Require Import Input.
From S2P Require Import InputOsc.
From S2P Require Import InputParse.
From S2P Require Import InputSafe.
From S2P Require Import InputParseSafe.

(** ** The tables *)

#[global] Instance input_transition_eq_dec : EqDecision input_transition.
Proof. solve_decision. Defined.

Lemma transition_exists st ch : 0 <= ch < 256 -> is_Some (find_transition st ch).
Proof.
  intros Hch. apply not_eq_None_Some. revert ch Hch.
  destruct st; apply for_each_elim; vm_compute; repeat split; discriminate.
Qed.

(** In the table of a state the ranges do not overlap. *)
Definition unique_in (st : input_state) : bool :=
  forallb (fun itr => forallb (fun ch => negb (in_transition ch itr) ||
    bool_decide (find_transition st ch = Some itr)) (seqZ (tr_first itr) (tr_last itr - tr_first itr + 1)))
    (transitions st).

Lemma transition_unique st itr ch : itr ∈ transitions st -> in_transition ch itr = true ->
  find_transition st ch = Some itr.
Proof.
  intros Hin Hch. assert (Hu : unique_in st = true) by (by destruct st; vm_compute).
  unfold unique_in in Hu. rewrite forallb_forall in Hu.
  specialize (Hu itr (proj1 (list_elem_of_In _ _) Hin)). rewrite forallb_forall in Hu.
  assert (Hr : tr_first itr <= ch <= tr_last itr) by (unfold in_transition in Hch; lia).
  specialize (Hu ch). rewrite Hch in Hu. cbn [negb orb] in Hu. eapply bool_decide_eq_true_1, Hu.
  apply list_elem_of_In, elem_of_seqZ. lia.
Qed.

Lemma transition_found st ch itr : find_transition st ch = Some itr ->
  itr ∈ transitions st /\ in_transition ch itr = true.
Proof.
  unfold find_transition. destruct (list_find _ _) as [[i x]|] eqn:E; [|done]. cbn. intros [= ->].
  apply list_find_Some in E as (Hl & Hp & _). split; [by eapply list_elem_of_lookup_2|done].
Qed.

(** What a table does from the ground. *)
Definition clears (st : input_state) : bool :=
  match st with
  | ground | esc_enter | csi_enter | dcs_enter | osc_string | apc_string | rename_string
  | consume_st => true
  | _ => false
  end.

Lemma ground_clears itr st : itr ∈ transitions ground -> tr_state itr = Some st -> clears st = true.
Proof.
  intros Hin Hst.
  assert (Ha : Forall (fun i => match tr_state i with Some s => clears s = true | None => True end)
                 (transitions ground)) by (repeat constructor).
  rewrite Forall_forall in Ha. specialize (Ha _ Hin). by rewrite Hst in Ha.
Qed.

(** ** What has been collected *)

(** The sizes of the buffers; [limit] is the option input-buffer-size. *)
Record seq_ok (limit : Z) (st : input_state) (q : sequence) : Prop := SeqOk {
  so_interm : (length (q_interm q) <= 3)%nat;
  so_param : (length (q_param q) <= 63)%nat;
  so_space : INPUT_BUF_START <= q_space q <= Z.max INPUT_BUF_START limit;
  so_buf : st <> ground -> Z.of_nat (length (q_buf q)) < q_space q
}.

Lemma grow_bounds fuel limit len : forall available, 0 < available <= Z.max INPUT_BUF_START limit ->
  available <= fst (grow fuel limit len available) <= Z.max INPUT_BUF_START limit /\
  (snd (grow fuel limit len available) = true -> len + 1 < fst (grow fuel limit len available)).
Proof.
  induction fuel as [|fuel IH]; intros available Ha; cbn [grow]; [split; [cbn [fst]; lia|done]|].
  destruct (Z.leb_spec available (len + 1)); [|split; cbn [fst snd]; [lia|intros _; lia]].
  destruct (Z.ltb_spec limit (available * 2)); [split; [cbn [fst]; lia|done]|].
  destruct (IH (available * 2)) as [H1 H2]; [lia|]. split; [lia|exact H2].
Qed.

(** The parser is in order between two bytes. *)
Definition input_ok `{CellCodec} `{Locale} (B : Z) (env : input_env) (t : term) : Prop :=
  live (ctx_safe B) (seq_of t) (i_state (t_in t)) t /\
  seq_ok (ie_buffer_size env) (i_state (t_in t)) (seq_of t).

Section Machine.
Context `{CellCodec} `{Locale} (B : Z) (env : input_env).
Notation idle := (idle B).
Notation ctx_safe := (ctx_safe B).
Notation input_ok := (input_ok B env).
Notation seq_ok := (seq_ok (ie_buffer_size env)).

Lemma live_same P q st t : live P q st t -> live P (seq_of t) (i_state (t_in t)) t.
Proof. intros Hl. by rewrite (lv_seq _ _ _ _ Hl), (lv_state _ _ _ _ Hl). Qed.

Lemma ok_of q st t : live ctx_safe q st t -> seq_ok st q -> input_ok t.
Proof.
  intros Hl Hq. split; [by eapply live_same|]. by rewrite (lv_seq _ _ _ _ Hl), (lv_state _ _ _ _ Hl).
Qed.

Lemma set_seq_live P q q' st t : live P q st t -> live P q' st (set_seq q' t).
Proof. by intros []. Qed.

Lemma idle_live q st t : live idle q st t -> live ctx_safe q st t.
Proof. intros Hl. eapply live_weaken; [exact Hl|]. apply idle_safe. Qed.

(** *** Collecting *)

Lemma collect_ok q st t : live idle q st t -> seq_ok st q ->
  input_ok (input_intermediate t) /\ input_ok (input_parameter t) /\ input_ok (input_input env t) /\
  input_ok (input_end_bel t).
Proof.
  intros Hl Hq. pose proof (idle_live _ _ _ Hl) as Ho. destruct Hq as [Hi Hp Hs Hb].
  assert (Hd : forall t', live ctx_safe q st t' -> input_ok (set_flag INPUT_DISCARD t'))
    by (intros t' Hl'; eapply (ok_of q); [by apply live_set_flag|by split]).
  assert (Hset : forall q', seq_ok st q' -> input_ok (set_seq q' t))
    by (intros q' Hq'; eapply ok_of; [by eapply set_seq_live|done]).
  unfold input_intermediate, input_parameter, input_input, input_end_bel.
  rewrite (lv_seq _ _ _ _ Hl). split_and!.
  - destruct (Nat.eqb_spec (length (q_interm q)) 3); [by apply Hd|]. apply Hset.
    split; cbn; try done. rewrite length_app; cbn; lia.
  - destruct (Nat.eqb_spec (length (q_param q)) 63); [by apply Hd|]. apply Hset.
    split; cbn; try done. rewrite length_app; cbn; lia.
  - pose proof (grow_bounds 64 (ie_buffer_size env) (Z.of_nat (length (q_buf q))) (q_space q)) as Hg.
    destruct (grow _ _ _ _) as [space fits]. cbn [fst snd] in Hg. unfold INPUT_BUF_START in *.
    destruct fits.
    + apply Hset. split; cbn; try done; [unfold INPUT_BUF_START; lia|].
      intros Hst. rewrite length_app; cbn. lia.
    + eapply ok_of; [apply live_set_flag; by eapply set_seq_live|]. split; cbn; try done;
        [unfold INPUT_BUF_START; lia|]. intros Hst. specialize (Hb Hst). lia.
  - apply Hset. by split.
Qed.

(** *** A handler *)

Lemma handler_ok h t : live idle (seq_of t) (i_state (t_in t)) t -> h <> H_print ->
  seq_ok (i_state (t_in t)) (seq_of t) ->
  exists t', run_handler env h t = Some t' /\ input_ok t' /\ i_state (t_in t') = i_state (t_in t).
Proof.
  intros Hl Hh Hq. pose proof (collect_ok _ _ _ Hl Hq) as (Hi & Hp & Hin & Hb).
  assert (Hg : forall o, good ctx_safe (seq_of t) (i_state (t_in t)) o ->
            exists t', o = Some t' /\ input_ok t' /\ i_state (t_in t') = i_state (t_in t)).
  { intros o (t' & -> & Hl'). exists t'. split; [done|]. split; [by eapply ok_of|].
    apply (lv_state _ _ _ _ Hl'). }
  destruct h; try done; cbn [run_handler].
  - eexists. split; [done|]. split; [exact Hi|]. unfold input_intermediate. by case_match.
  - eexists. split; [done|]. split; [exact Hp|]. unfold input_parameter. by case_match.
  - eexists. split; [done|]. split; [exact Hin|]. unfold input_input.
    destruct (grow _ _ _ _) as [? []]; done.
  - apply Hg, good_some, idle_live. by apply live_c0.
  - apply Hg, good_some, idle_live. by apply live_esc.
  - apply Hg. by apply csi_dispatch_good.
  - apply Hg. apply (dcs_good B env _ (ctx_aside B)). by apply idle_live.
  - apply Hg. apply top_bit_good. by apply idle_live.
  - eexists. split; [done|]. by split.
Qed.

(** *** Changing state *)

Lemma exit_ok st t : input_ok t -> good ctx_safe (seq_of t) (i_state (t_in t)) (exit_state env st t).
Proof.
  intros [Hl _]. pose proof (ctx_aside B) as Ha. destruct st; try by apply good_some.
  - by apply (exit_osc_good B).
  - by apply (exit_apc_good B).
  - by apply (exit_rename_good B).
Qed.

Lemma enter_ok st q t : live ctx_safe q st t -> seq_ok st q \/
  (clears st = true /\ exists st', seq_ok st' q) -> input_ok (enter_state st t) /\
  i_state (t_in (enter_state st t)) = st.
Proof.
  intros Hl Hq. pose proof (lv_seq _ _ _ _ Hl) as Eq.
  assert (Hs : INPUT_BUF_START <= q_space q <= Z.max INPUT_BUF_START (ie_buffer_size env))
    by (destruct Hq as [Hq|(_ & st' & Hq)]; apply Hq).
  assert (Hclear : seq_ok st (Sequence [] [] [] (q_space (seq_of t)) INPUT_END_ST)).
  { rewrite Eq. split; cbn; [lia|lia|done|]. unfold INPUT_BUF_START in *. lia. }
  assert (Hc : input_ok (input_clear t) /\ i_state (t_in (input_clear t)) = st).
  { split; [|apply (lv_state _ _ _ _ Hl)]. unfold input_clear. eapply ok_of; [|exact Hclear].
    apply live_clear_flag. eapply set_seq_live. exact Hl. }
  assert (He : input_ok (input_enter_string t) /\ i_state (t_in (input_enter_string t)) = st).
  { destruct Hc as [[Hc1 Hc2] Hc3]. unfold input_enter_string. split; [|exact Hc3].
    split; [by apply live_clear_flag|done]. }
  assert (Hsame : clears st = false -> input_ok t /\ i_state (t_in t) = st).
  { intros Hn. destruct Hq as [Hq|(Hq & _)]; [|congruence].
    split; [by eapply ok_of|apply (lv_state _ _ _ _ Hl)]. }
  destruct st; cbn [enter_state]; try exact Hc; try exact He; try (apply Hsame; reflexivity).
  split; [|apply (lv_state _ _ _ _ Hl)]. unfold input_ground. eapply ok_of;
    [eapply set_seq_live; destruct Hl; by split|].
  rewrite Eq. assert (Hlen : (length (q_interm q) <= 3)%nat /\ (length (q_param q) <= 63)%nat)
    by (destruct Hq as [Hq|(_ & st' & Hq)]; split; apply Hq).
  split; cbn; [apply Hlen|apply Hlen| |done].
  destruct (Z.ltb_spec INPUT_BUF_START (q_space q)); lia.
Qed.

Lemma set_state_ok st t : input_ok t -> (i_state (t_in t) = ground -> clears st = true) ->
  exists t', input_set_state env st t = Some t' /\ input_ok t' /\ i_state (t_in t') = st.
Proof.
  intros Hok Hg. unfold input_set_state.
  destruct (exit_ok (i_state (t_in t)) t Hok) as (t1 & -> & Hl). cbn [mbind option_bind].
  eexists. split; [done|]. destruct Hok as [_ Hq]. apply (enter_ok st (seq_of t)).
  - destruct Hl. by split.
  - destruct (clears st) eqn:Ec; [right; eauto|]. left. destruct Hq. split; try done.
    intros _. apply so_buf0. intros E. by specialize (Hg E).
Qed.

(** *** A step *)

Lemma since_ok l t : input_ok t -> input_ok (on_in (set_i_since_ground l) t).
Proof. intros [[] Hq]. by split. Qed.

Lemma step_ok itr t : input_ok t -> itr ∈ transitions (i_state (t_in t)) ->
  exists t', input_step env itr t = Some t' /\ input_ok t' /\
    i_state (t_in t') = default (i_state (t_in t)) (tr_state itr).
Proof.
  intros Hok Hin. unfold input_step. set (st := i_state (t_in t)) in *.
  set (t1 := if bool_decide _ then t else _).
  assert (H1 : exists t2, match tr_handler itr with Some h => run_handler env h t1 | None => Some t1 end
             = Some t2 /\ input_ok t2 /\ i_state (t_in t2) = st).
  { destruct Hok as [Hl Hq]. unfold t1. case_bool_decide as Hp.
    - rewrite Hp. cbn [run_handler]. eexists. split; [done|].
      pose proof (open_print B env _ _ _ Hl) as Hp'. split; [by eapply ok_of|].
      apply (lv_state _ _ _ _ Hp').
    - assert (Hi : live idle (seq_of t) st (on_w screen_write_collect_end t))
        by (eapply live_on_w; [exact Hl|apply collect_end_ok]).
      destruct (tr_handler itr) as [h|].
      + apply handler_ok; [exact Hi| |exact Hq]. intros ->. by apply Hp.
      + eexists. split; [done|]. split; [|done]. eapply ok_of; [by apply idle_live|done]. }
  destruct H1 as (t2 & -> & Hok2 & Est). cbn [mbind option_bind].
  assert (H2 : exists t3, match tr_state itr with Some s => input_set_state env s t2 | None => Some t2 end
             = Some t3 /\ input_ok t3 /\ i_state (t_in t3) = default st (tr_state itr)).
  { destruct (tr_state itr) as [s|] eqn:Es; [|by eexists]. apply set_state_ok; [done|].
    intros Eg. rewrite Est in Eg. eapply ground_clears; [|exact Es]. by rewrite <- Eg. }
  destruct H2 as (t3 & -> & Hok3 & Est3). cbn [mbind option_bind].
  destruct (decide _); eexists; (split; [done|]); [done|]. split; [|done].
  destruct Hok3 as [[] Hq3]. by split.
Qed.

(** *** The loop *)

(** The transition that is kept is one of the state it was found in. *)
Definition cache_ok (cache : option (input_state * input_transition)) : Prop :=
  match cache with Some (st, itr) => itr ∈ transitions st | None => True end.

Lemma cached_transition cache st ch : cache_ok cache ->
  match cache with
  | Some (state, itr) =>
      if bool_decide (st = state) && in_transition ch itr then Some itr else find_transition st ch
  | None => find_transition st ch
  end = find_transition st ch.
Proof.
  intros Hc. destruct cache as [[state itr]|]; [|done]. case_bool_decide as Es; [|done]. cbn [andb].
  destruct (in_transition ch itr) eqn:E; [|done]. subst. symmetry. by apply transition_unique.
Qed.

(** The state after a byte, by the tables alone. *)
Definition next_state (st : input_state) (ch : Z) : input_state :=
  default st (itr ← find_transition st ch; tr_state itr).

Lemma parse_from_ok buf : forall cache t, cache_ok cache -> input_ok t ->
  Forall (fun ch => 0 <= ch < 256) buf ->
  exists t', input_parse_from env cache buf t = Some t' /\ input_ok t' /\
    i_state (t_in t') = foldl next_state (i_state (t_in t)) buf.
Proof.
  induction buf as [|ch buf IH]; intros cache t Hc Hok Hb; [by exists t|].
  apply Forall_cons in Hb as [Hch Hb]. cbn [input_parse_from foldl].
  rewrite cached_transition by done.
  destruct (transition_exists (i_state (t_in t)) ch Hch) as [itr Hitr].
  change (i_state (t_in (on_in (set_i_ch ch) t))) with (i_state (t_in t)).
  assert (Hn : next_state (i_state (t_in t)) ch = default (i_state (t_in t)) (tr_state itr))
    by (unfold next_state; by rewrite Hitr).
  rewrite Hitr, Hn. cbn [mbind option_bind]. apply transition_found in Hitr as [Hin _].
  assert (Hok' : input_ok (on_in (set_i_ch ch) t)) by (destruct Hok as [[] Hq]; by split).
  destruct (step_ok itr _ Hok' Hin) as (t1 & -> & Hok1 & E1). cbn [mbind option_bind].
  change (i_state (t_in (on_in (set_i_ch ch) t))) with (i_state (t_in t)) in E1.
  rewrite <- E1. by apply IH.
Qed.

End Machine.

(** ** Numbers *)

Lemma to_number_fmt_u n : 0 <= n <= INT_MAX -> to_number (bytes_of_string (fmt_u n)) = Some n.
Proof.
  intros Hn. unfold to_number. rewrite string_of_bytes_of_string. unfold strtonum, INT_MAX in *.
  assert (E : scan_int (fmt_u n) = Some (n, ""%string)).
  { rewrite <- (str_app_nil (fmt_u n)). apply scan_int_fmt_u; [lia|done]. }
  rewrite E. change (2147483647 <? 0) with false. cbn iota.
  unfold clamp_long, LLONG_MIN, LLONG_MAX.
  rewrite (Z.min_r _ n), (Z.max_r _ n) by lia.
  destruct (Z.ltb_spec n (-9223372036854775808)); [lia|].
  destruct (Z.ltb_spec n 0); [lia|]. destruct (Z.ltb_spec 9223372036854775807 n); [lia|].
  by destruct (Z.ltb_spec 2147483647 n); [lia|].
Qed.

Lemma strsep_none sep l : sep ∉ l -> strsep sep l = [l].
Proof.
  induction l as [|c l IH]; intros Hn; [done|]. cbn [strsep].
  apply not_elem_of_cons in Hn as [Hc Hl]. destruct (Z.eqb_spec c sep); [congruence|]. by rewrite IH.
Qed.

Lemma strsep_app sep a b : sep ∉ a -> strsep sep (a ++ sep :: b) = a :: strsep sep b.
Proof.
  induction a as [|c a IH]; intros Hn; cbn [strsep app]; [by rewrite Z.eqb_refl|].
  apply not_elem_of_cons in Hn as [Hc Hl]. destruct (Z.eqb_spec c sep); [congruence|]. by rewrite IH.
Qed.

(** A number as a parameter. *)
Lemma param_of_number n : 0 <= n <= INT_MAX ->
  param_of_field (bytes_of_string (fmt_u n)) = Some (INPUT_NUMBER n).
Proof.
  intros Hn. pose proof (fmt_u_bytes n) as Hb. pose proof (to_number_fmt_u n Hn) as Ht.
  unfold param_of_field. rewrite bool_decide_eq_false_2.
  2:{ intros Hin. rewrite Forall_forall in Hb. specialize (Hb _ Hin). lia. }
  rewrite Ht. by destruct (bytes_of_string (fmt_u n)).
Qed.

(** ** One byte *)

Section Seq.
Context `{CellCodec} `{Locale} (env : input_env).

(** A byte, with the transition looked up. *)
Definition parse_byte (t : option term) (ch : Z) : option term :=
  t ← t;
  itr ← find_transition (i_state (t_in t)) ch;
  input_step env itr (on_in (set_i_ch ch) t).

Lemma parse_none buf : foldl parse_byte None buf = None.
Proof. by induction buf. Qed.

Lemma parse_from_each buf : forall cache t, cache_ok cache ->
  input_parse_from env cache buf t = foldl parse_byte (Some t) buf.
Proof.
  induction buf as [|ch buf IH]; intros cache t Hc; [done|]. cbn [input_parse_from foldl].
  rewrite cached_transition by done.
  change (i_state (t_in (on_in (set_i_ch ch) t))) with (i_state (t_in t)).
  cbn [parse_byte mbind option_bind].
  destruct (find_transition _ _) as [itr|] eqn:E; cbn [mbind option_bind]; [|by rewrite parse_none].
  destruct (input_step _ _ _) as [t1|]; cbn [mbind option_bind]; [|by rewrite parse_none].
  apply IH. by apply transition_found in E as [Hin _].
Qed.

Lemma parse_each buf t : input_parse env buf t = foldl parse_byte (Some t) buf.
Proof. by apply parse_from_each. Qed.

Lemma parse_app a b t : input_parse env (a ++ b) t = (t' ← input_parse env a t; input_parse env b t').
Proof.
  rewrite !parse_each, foldl_app.
  destruct (foldl parse_byte (Some t) a) as [t'|]; cbn [mbind option_bind];
    [by rewrite parse_each|apply parse_none].
Qed.

(** ** Parameters *)

(** What a sequence that is being read leaves alone. *)
Record untouched (t0 t : term) : Prop := Untouched {
  un_w : t_w t = screen_write_collect_end (t_w t0);
  un_cell : i_cell (t_in t) = i_cell (t_in t0);
  un_saved : i_saved (t_in t) = i_saved (t_in t0);
  un_chars : i_chars (t_in t) = i_chars (t_in t0);
  un_requests : i_requests (t_in t) = i_requests (t_in t0);
  un_palette : t_palette t = t_palette t0;
  un_hyperlinks : t_hyperlinks t = t_hyperlinks t0;
  un_links : t_links t = t_links t0;
  un_out : t_out t = t_out t0
}.

(** The parameter bytes [ps] have been read. *)
Record gathered (t0 : term) (ps : list Z) (t : term) : Prop := Gathered {
  ga_state : i_state (t_in t) = csi_enter \/ i_state (t_in t) = csi_parameter;
  ga_untouched : untouched t0 t;
  ga_interm : q_interm (seq_of t) = [];
  ga_param : q_param (seq_of t) = take 63 ps;
  ga_discard : flag_set INPUT_DISCARD t = bool_decide (63 < length ps)%nat
}.

Definition is_param (ch : Z) : Prop := 0x30 <= ch <= 0x3b.

Lemma clear_discard f : has (without f INPUT_DISCARD) INPUT_DISCARD = false.
Proof.
  unfold has, without. rewrite negb_false_iff, Z.eqb_eq, Z.ldiff_land.
  apply Z.bits_inj'. intros i Hi. rewrite !Z.land_spec, Z.lnot_spec, Z.bits_0 by done.
  by destruct (Z.testbit _ i), (Z.testbit _ i).
Qed.

Lemma set_discard f : has (Z.lor f INPUT_DISCARD) INPUT_DISCARD = true.
Proof.
  unfold has. rewrite negb_true_iff, Z.eqb_neq. intros E.
  assert (Hb : Z.testbit (Z.land (Z.lor f INPUT_DISCARD) INPUT_DISCARD) 0 = false)
    by (by rewrite E, Z.bits_0).
  rewrite Z.land_spec, Z.lor_spec in Hb. change (Z.testbit INPUT_DISCARD 0) with true in Hb.
  by rewrite orb_true_r in Hb.
Qed.

(** Whether leaving a state does something. *)
Definition exits (st : input_state) : bool :=
  match st with osc_string | apc_string | rename_string => true | _ => false end.

Lemma exit_none st t : exits st = false -> exit_state env st t = Some t.
Proof. by destruct st. Qed.

Lemma enter_state_state st t : i_state (t_in (enter_state st t)) = i_state (t_in t).
Proof. by destruct st. Qed.

(** A byte outside the ground is kept. *)
Definition keep_byte (t : term) : term :=
  on_in (fun i => set_i_since_ground (i_since_ground i ++ [i_ch i]) i) t.

Lemma byte_at st ch itr t : i_state (t_in t) = st -> find_transition st ch = Some itr ->
  parse_byte (Some t) ch = input_step env itr (on_in (set_i_ch ch) t).
Proof. intros Es Ei. cbn [parse_byte mbind option_bind]. rewrite Es, Ei. done. Qed.

(** Without a handler, to another state. *)
Lemma step_to a b st t : exits (i_state (t_in t)) = false -> st <> ground ->
  input_step env (Tr a b None (Some st)) t =
  Some (keep_byte (enter_state st (on_in (set_i_state st) (on_w screen_write_collect_end t)))).
Proof.
  intros He Hst. unfold input_step. rewrite bool_decide_eq_false_2 by done.
  cbn [tr_handler tr_state mbind option_bind]. unfold input_set_state.
  change (i_state (t_in (on_w screen_write_collect_end t))) with (i_state (t_in t)).
  rewrite exit_none by done. cbn [mbind option_bind].
  rewrite decide_False; [done|]. by rewrite enter_state_state.
Qed.

Lemma gather_start t0 : i_state (t_in t0) = ground ->
  screen_write_collect_end (screen_write_collect_end (t_w t0)) = screen_write_collect_end (t_w t0) ->
  exists t, foldl parse_byte (Some t0) [27; 91] = Some t /\ gathered t0 [] t.
Proof.
  intros Hst Hw. cbn [foldl].
  rewrite (byte_at ground 27 (Tr 0x1b 0x1b None (Some esc_enter)) t0 Hst eq_refl).
  rewrite step_to by (change (i_state (t_in (on_in (set_i_ch 27) t0))) with (i_state (t_in t0));
    by rewrite ?Hst).
  match goal with |- context [Some (keep_byte ?x)] => set (t1 := keep_byte x) end.
  rewrite (byte_at esc_enter 91 (Tr 0x5b 0x5b None (Some csi_enter)) t1 eq_refl eq_refl).
  rewrite step_to by done. eexists. split; [done|].
  split; [by left|split; try done| | |]; try done. apply clear_discard.
Qed.

Lemma param_transitions ch : is_param ch ->
  (exists a b, find_transition csi_enter ch = Some (Tr a b (Some H_parameter) (Some csi_parameter))) /\
  (exists a b, find_transition csi_parameter ch = Some (Tr a b (Some H_parameter) None)).
Proof.
  intros Hp. assert (Hr : 0 <= ch - 0x30 < 12) by (unfold is_param in Hp; lia).
  replace ch with ((ch - 0x30) + 0x30) by lia. revert Hr. generalize (ch - 0x30) as k. intros k Hk. revert k Hk.
  apply for_each_elim. cbv -[find_transition]. repeat split; try by eexists _, _.
Qed.

Lemma step_parameter a b next t : exits (i_state (t_in t)) = false -> i_state (t_in t) <> ground ->
  next = None \/ next = Some csi_parameter ->
  input_step env (Tr a b (Some H_parameter) next) t =
  Some (keep_byte (let t := input_parameter (on_w screen_write_collect_end t) in
                   match next with Some st => on_in (set_i_state st) t | None => t end)).
Proof.
  intros He Hst Hn. unfold input_step. rewrite bool_decide_eq_false_2 by done.
  cbn [tr_handler tr_state run_handler mbind option_bind].
  set (t1 := input_parameter _). assert (E1 : i_state (t_in t1) = i_state (t_in t))
    by (unfold t1, input_parameter; by case_match).
  destruct Hn as [-> | ->]; cbn [mbind option_bind].
  - rewrite decide_False; [done|]. by rewrite E1.
  - unfold input_set_state. rewrite E1, exit_none by done. cbn [mbind option_bind enter_state].
    rewrite decide_False; done.
Qed.

Lemma gathered_next t0 ps next t : gathered t0 ps t -> next = None \/ next = Some csi_parameter ->
  gathered t0 ps (keep_byte (match next with Some st => on_in (set_i_state st) t | None => t end)).
Proof.
  intros [Hst [] Hi Hp Hd] Hn. destruct Hn as [-> | ->]; (split; [|by split|done..]); [done|by right].
Qed.

Lemma gather_parameter t0 ps t ch : gathered t0 ps t ->
  screen_write_collect_end (screen_write_collect_end (t_w t0)) = screen_write_collect_end (t_w t0) ->
  gathered t0 (ps ++ [ch]) (input_parameter (on_w screen_write_collect_end (on_in (set_i_ch ch) t))).
Proof.
  intros [Hst [] Hi Hp Hd] Hw. unfold input_parameter.
  change (seq_of (on_w screen_write_collect_end (on_in (set_i_ch ch) t))) with (seq_of t).
  assert (Hlp : length (q_param (seq_of t)) = Nat.min 63 (length ps)) by (by rewrite Hp, length_take).
  assert (Hu : untouched t0 (on_w screen_write_collect_end (on_in (set_i_ch ch) t)))
    by (split; try done; cbn [t_w on_w on_in]; by rewrite un_w0).
  destruct Hu. destruct (Nat.eqb_spec (length (q_param (seq_of t))) 63) as [E63|E63].
  - split; [done|by split|done| |].
    + change (q_param (seq_of t) = take 63 (ps ++ [ch])). rewrite take_app_le; [done|lia].
    + etransitivity; [apply set_discard|]. symmetry. apply bool_decide_eq_true_2.
      rewrite length_app; cbn; lia.
  - split; [done|by split|done| |].
    + change (q_param (seq_of t) ++ [ch] = take 63 (ps ++ [ch])). rewrite Hp.
      rewrite !take_ge; [done|rewrite length_app; cbn; lia|lia].
    + etransitivity; [exact Hd|]. apply bool_decide_ext. rewrite length_app; cbn; lia.
Qed.

Lemma gather_one t0 ps t ch : gathered t0 ps t -> is_param ch ->
  screen_write_collect_end (screen_write_collect_end (t_w t0)) = screen_write_collect_end (t_w t0) ->
  exists t', parse_byte (Some t) ch = Some t' /\ gathered t0 (ps ++ [ch]) t'.
Proof.
  intros Hg Hch Hw. destruct (param_transitions ch Hch) as [(a & b & E1) (a' & b' & E2)].
  pose proof (gather_parameter t0 ps t ch Hg Hw) as Hg'. destruct (ga_state _ _ _ Hg) as [Hst|Hst].
  - rewrite (byte_at csi_enter ch _ t Hst E1), step_parameter
      by (auto; change (i_state (t_in (on_in (set_i_ch ch) t))) with (i_state (t_in t)); by rewrite ?Hst).
    eexists. split; [done|]. apply (gathered_next _ _ (Some csi_parameter)); auto.
  - rewrite (byte_at csi_parameter ch _ t Hst E2), step_parameter
      by (auto; change (i_state (t_in (on_in (set_i_ch ch) t))) with (i_state (t_in t)); by rewrite ?Hst).
    eexists. split; [done|]. apply (gathered_next _ _ None); auto.
Qed.

Lemma gather_all t0 more : forall ps t, gathered t0 ps t -> Forall is_param more ->
  screen_write_collect_end (screen_write_collect_end (t_w t0)) = screen_write_collect_end (t_w t0) ->
  exists t', foldl parse_byte (Some t) more = Some t' /\ gathered t0 (ps ++ more) t'.
Proof.
  induction more as [|ch more IH]; intros ps t Hg Hm Hw; [exists t; by rewrite app_nil_r|].
  apply Forall_cons in Hm as [Hch Hm]. cbn [foldl].
  destruct (gather_one t0 ps t ch Hg Hch Hw) as (t1 & -> & Hg1).
  destruct (IH _ _ Hg1 Hm Hw) as (t2 & E & Hg2). exists t2. split; [done|].
  by rewrite <- app_assoc in Hg2.
Qed.

(** ** The command *)

Lemma final_transition ch : 0x40 <= ch <= 0x7e ->
  find_transition csi_enter ch = Some (Tr 0x40 0x7e (Some H_csi_dispatch) (Some ground)) /\
  find_transition csi_parameter ch = Some (Tr 0x40 0x7e (Some H_csi_dispatch) (Some ground)).
Proof.
  intros Hc. split; (apply transition_unique; [|unfold in_transition; cbn; lia]);
    apply list_elem_of_In; cbn; tauto.
Qed.

Lemma step_csi a b t v : input_csi_dispatch env (on_w screen_write_collect_end t) = Some v ->
  exits (i_state (t_in v)) = false ->
  input_step env (Tr a b (Some H_csi_dispatch) (Some ground)) t =
  Some (input_ground (on_in (set_i_state ground) v)).
Proof.
  intros Hd He. unfold input_step. rewrite bool_decide_eq_false_2 by done.
  cbn [tr_handler tr_state run_handler mbind option_bind]. rewrite Hd. cbn [mbind option_bind].
  unfold input_set_state. rewrite exit_none by done. done.
Qed.

(** The bytes of a control sequence: its command is run on what was gathered. *)
Lemma csi_run t0 ps c (R : term -> Prop) : i_state (t_in t0) = ground ->
  screen_write_collect_end (screen_write_collect_end (t_w t0)) = screen_write_collect_end (t_w t0) ->
  Forall is_param ps -> 0x40 <= c <= 0x7e ->
  (forall w, gathered t0 ps w -> ch_of w = c ->
     exists v, input_csi_dispatch env w = Some v /\ exits (i_state (t_in v)) = false /\ R v) ->
  exists v, input_parse env (27 :: 91 :: ps ++ [c]) t0 =
    Some (input_ground (on_in (set_i_state ground) v)) /\ R v.
Proof.
  intros Hst Hw Hps Hc HR. rewrite parse_each.
  change (27 :: 91 :: ps ++ [c]) with ([27; 91] ++ ps ++ [c]). rewrite !foldl_app.
  destruct (gather_start t0 Hst Hw) as (t1 & -> & Hg1).
  destruct (gather_all t0 ps [] t1 Hg1 Hps Hw) as (t2 & -> & Hg2). cbn [foldl app] in *.
  assert (Hw2 : gathered t0 ps (on_w screen_write_collect_end (on_in (set_i_ch c) t2))).
  { destruct Hg2 as [Hs [] Hi Hp Hd]. split; [done|split; try done|done..].
    cbn [t_w on_w on_in]. by rewrite un_w0. }
  destruct (HR _ Hw2 eq_refl) as (v & Hv & He & Hr). exists v. split; [|done].
  destruct (final_transition c Hc) as [E1 E2]. destruct (ga_state _ _ _ Hg2) as [Hs|Hs].
  - rewrite (byte_at csi_enter c _ t2 Hs E1). by apply step_csi.
  - rewrite (byte_at csi_parameter c _ t2 Hs E2). by apply step_csi.
Qed.

(** The parameters that are too many or too large. *)
Lemma split_fields_many fields : forall acc, (length acc < 24)%nat ->
  (24 <= length acc + length fields)%nat -> fst (split_fields fields acc) = false.
Proof.
  induction fields as [|f fields IH]; intros acc Ha Hl; cbn in Hl; [lia|]. cbn [split_fields].
  destruct (param_of_field f) as [p|]; [|done].
  assert (Hlen : length (acc ++ [p]) = S (length acc)) by (rewrite length_app; cbn; lia).
  destruct (Nat.eqb_spec (length (acc ++ [p])) 24); [done|]. apply IH; lia.
Qed.

Lemma split_fields_bad fields f : f ∈ fields -> param_of_field f = None -> forall acc,
  fst (split_fields fields acc) = false.
Proof.
  induction fields as [|g fields IH]; intros Hin Hf acc; [by apply elem_of_nil in Hin|].
  cbn [split_fields]. apply elem_of_cons in Hin as [->|Hin]; [by rewrite Hf|].
  destruct (param_of_field g) as [p|]; [|done]. destruct (_ =? _)%nat; [done|]. by apply IH.
Qed.

(** A number above [INT_MAX] is none. *)
Lemma large_number n : INT_MAX < n < 10 ^ 20 -> param_of_field (bytes_of_string (fmt_u n)) = None.
Proof.
  intros Hn. pose proof (fmt_u_bytes n) as Hb. unfold param_of_field.
  assert (E : scan_int (fmt_u n) = Some (n, ""%string)).
  { rewrite <- (str_app_nil (fmt_u n)). apply scan_int_fmt_u; [unfold INT_MAX in Hn; lia|done]. }
  assert (Ht : to_number (bytes_of_string (fmt_u n)) = None).
  { unfold to_number. rewrite string_of_bytes_of_string. unfold strtonum. rewrite E.
    unfold INT_MAX, clamp_long, LLONG_MIN, LLONG_MAX in *.
    change (2147483647 <? 0) with false. cbn iota.
    destruct (Z.ltb_spec n (-9223372036854775808)); [lia|].
    destruct (Z.ltb_spec (Z.max (-9223372036854775808) (Z.min 9223372036854775807 n)) 0); [lia|].
    destruct (Z.ltb_spec 9223372036854775807 n); [done|].
    destruct (Z.ltb_spec 2147483647 (Z.max (-9223372036854775808) (Z.min 9223372036854775807 n)));
      [done|lia]. }
  rewrite bool_decide_eq_false_2.
  2:{ intros Hin. rewrite Forall_forall in Hb. specialize (Hb _ Hin). lia. }
  rewrite Ht. pose proof (hd_fmt_u n "") as Hd. rewrite str_app_nil in Hd.
  destruct (fmt_u n); [by vm_compute in Hd|done].
Qed.

(** *** Commands with one and two numbers *)

(** The bytes of one number, of two. *)
Definition one_number (n : Z) : list Z := bytes_of_string (fmt_u n).
Definition two_numbers (n m : Z) : list Z := bytes_of_string (fmt_u n +:+ ";" +:+ fmt_u m).

Lemma number_not ch n : ch < 48 \/ 57 < ch -> ch ∉ bytes_of_string (fmt_u n).
Proof.
  intros Hc Hin. pose proof (fmt_u_bytes n) as Hb. rewrite Forall_forall in Hb.
  specialize (Hb _ Hin). lia.
Qed.

Lemma one_number_params n : Forall is_param (one_number n).
Proof. eapply Forall_impl; [apply fmt_u_bytes|]. unfold is_param. lia. Qed.

Lemma two_numbers_eq n m : two_numbers n m = one_number n ++ 59 :: one_number m.
Proof. unfold two_numbers. by rewrite !bytes_app. Qed.

Lemma two_numbers_params n m : Forall is_param (two_numbers n m).
Proof.
  rewrite two_numbers_eq. apply Forall_app. split; [apply one_number_params|].
  constructor; [unfold is_param; lia|apply one_number_params].
Qed.

Lemma split_numbers t0 ps l w : gathered t0 ps w -> (length ps <= 63)%nat -> ps <> [] ->
  split_fields (strsep 59 ps) [] = (true, l) ->
  flag_set INPUT_DISCARD w = false /\ input_split w = (true, on_in (set_i_params l) w).
Proof.
  intros [_ _ _ Hp Hd] Hlen Hne Hs. split; [by rewrite Hd, bool_decide_eq_false_2 by lia|].
  unfold input_split. rewrite Hp, take_ge by lia. destruct ps; [done|]. by rewrite Hs.
Qed.

(** The command of a sequence with good parameters is run. *)
Lemma csi_parsed t0 ps l c type (R : term -> Prop) : i_state (t_in t0) = ground ->
  screen_write_collect_end (screen_write_collect_end (t_w t0)) = screen_write_collect_end (t_w t0) ->
  Forall is_param ps -> (length ps <= 63)%nat -> ps <> [] ->
  split_fields (strsep 59 ps) [] = (true, l) -> 0x40 <= c <= 0x7e ->
  input_lookup input_csi_table c [] = Some type ->
  (forall w, untouched t0 w -> params_of w = l -> exists v, csi_command env type w = Some v /\
     i_state (t_in v) = i_state (t_in w) /\ R v) ->
  exists v, input_parse env (27 :: 91 :: ps ++ [c]) t0 =
    Some (input_ground (on_in (set_i_state ground) (clear_flag INPUT_LAST v))) /\ R v.
Proof.
  intros Hst Hw Hps Hlen Hne Hs Hc Ht HR.
  destruct (csi_run t0 ps c (fun v' => exists v, v' = clear_flag INPUT_LAST v /\ R v) Hst Hw Hps Hc)
    as (v' & -> & v & -> & Hv); [|by exists v].
  intros w Hg Hch. destruct (split_numbers t0 ps l w Hg Hlen Hne Hs) as [Hd Hsp].
  unfold input_csi_dispatch. rewrite Hd, Hsp. cbn [negb].
  change (ch_of (on_in (set_i_params l) w)) with (ch_of w).
  change (q_interm (seq_of (on_in (set_i_params l) w))) with (q_interm (seq_of w)).
  rewrite Hch, (ga_interm _ _ _ Hg), Ht.
  destruct (HR (on_in (set_i_params l) w)) as (v & -> & Es & Hv).
  { destruct (ga_untouched _ _ _ Hg). by split. }
  { done. }
  cbn [mbind option_bind]. eexists. split; [done|]. split; [|by exists v].
  change (exits (i_state (t_in v)) = false). rewrite Es.
  change (exits (i_state (t_in w)) = false). by destruct (ga_state _ _ _ Hg) as [-> | ->].
Qed.

Lemma csi_one t0 n c type (R : term -> Prop) : i_state (t_in t0) = ground ->
  screen_write_collect_end (screen_write_collect_end (t_w t0)) = screen_write_collect_end (t_w t0) ->
  0 <= n <= INT_MAX -> 0x40 <= c <= 0x7e -> input_lookup input_csi_table c [] = Some type ->
  (forall w, untouched t0 w -> params_of w = [INPUT_NUMBER n] ->
     exists v, csi_command env type w = Some v /\ i_state (t_in v) = i_state (t_in w) /\ R v) ->
  exists v, input_parse env (27 :: 91 :: one_number n ++ [c]) t0 =
    Some (input_ground (on_in (set_i_state ground) (clear_flag INPUT_LAST v))) /\ R v.
Proof.
  intros Hst Hw Hn Hc Ht HR. pose proof (fmt_u_length n).
  apply (csi_parsed t0 _ [INPUT_NUMBER n] c type R); auto.
  - apply one_number_params.
  - unfold one_number. lia.
  - intros E. pose proof (hd_fmt_u n "") as Hd. rewrite str_app_nil in Hd. unfold one_number in E.
    destruct (fmt_u n); [by vm_compute in Hd|done].
  - unfold one_number. rewrite strsep_none by (apply number_not; lia).
    cbn [split_fields]. by rewrite param_of_number.
Qed.

Lemma csi_two t0 n m c type (R : term -> Prop) : i_state (t_in t0) = ground ->
  screen_write_collect_end (screen_write_collect_end (t_w t0)) = screen_write_collect_end (t_w t0) ->
  0 <= n <= INT_MAX -> 0 <= m <= INT_MAX -> 0x40 <= c <= 0x7e ->
  input_lookup input_csi_table c [] = Some type ->
  (forall w, untouched t0 w -> params_of w = [INPUT_NUMBER n; INPUT_NUMBER m] ->
     exists v, csi_command env type w = Some v /\ i_state (t_in v) = i_state (t_in w) /\ R v) ->
  exists v, input_parse env (27 :: 91 :: two_numbers n m ++ [c]) t0 =
    Some (input_ground (on_in (set_i_state ground) (clear_flag INPUT_LAST v))) /\ R v.
Proof.
  intros Hst Hw Hn Hm Hc Ht HR. pose proof (fmt_u_length n). pose proof (fmt_u_length m).
  apply (csi_parsed t0 _ [INPUT_NUMBER n; INPUT_NUMBER m] c type R); auto.
  - apply two_numbers_params.
  - rewrite two_numbers_eq, length_app. unfold one_number. cbn [length]. lia.
  - rewrite two_numbers_eq. by destruct (one_number n).
  - rewrite two_numbers_eq, strsep_app, strsep_none by (apply number_not; lia).
    unfold one_number. cbn [split_fields]. by rewrite !param_of_number.
Qed.

End Seq.
