(* ===== verification/GridStringFacts.v ===== *)
(** * Facts about the codes of captured cells

    What the numbers [grid_string_cells_code] writes do to the cell of the
    parser when it reads them: they make its attributes and colours those of the
    captured cell. *)
From Stdlib Require Import Ascii String.
From S2P Require Import Prelude.
From S2P Require Import CString.
From S2P Require Import Utf8.
From S2P Require Import CellCodec.
From S2P Require Import Locale.
From S2P Require Import Grid.
From S2P Require Import GridFacts.
From S2P Require Import Colour.
From S2P Require Import ColourProps.
From S2P Require Import ScreenInfo.
From S2P Require Import ScreenWrite.
From S2P Require Import GridString.
From S2P Require Import InputTable.
From S2P Require Import Input.
From S2P Require Import InputMachine.

(** ** Attributes *)

(** The attributes a program can set with a number of its own. *)
Definition SGR_ATTRS : Z := 0x1f7f.

Record sgr_attr (a : Z) : Prop := SgrAttr {
  sa_mask : Z.land a SGR_ATTRS = a;
  sa_underscore : Z.land a GRID_ATTR_ALL_UNDERSCORE ∈ [0; 0x4; 0x200; 0x400; 0x800; 0x1000]
}.

Definition is_underscore (mask : Z) : bool := has GRID_ATTR_ALL_UNDERSCORE mask.

(** What a number does to the attributes. *)
Definition attr_effect (a mask : Z) : Z :=
  Z.lor (if is_underscore mask then without a GRID_ATTR_ALL_UNDERSCORE else a) mask.

Definition code_effect (gc : grid_cell) (n : Z) : grid_cell :=
  if n <? 10 then sgr_number n gc else input_csi_dispatch_sgr_colon (attr_code n) gc.

Definition code_param (n : Z) : input_param :=
  if n <? 10 then INPUT_NUMBER n else INPUT_STRING (attr_code n).

Lemma code_effect_attr mask n gc : (mask, n) ∈ attrs -> n <> 53 ->
  code_effect gc n = set_gc_attr (attr_effect (gc_attr gc) mask) gc.
Proof.
  intros Hin Hn. unfold attrs in Hin. rewrite !elem_of_cons, elem_of_nil in Hin.
  repeat (destruct Hin as [[= -> ->]|Hin]); try done; by destruct gc.
Qed.

Definition code_numbers : list Z := 0 :: map snd attrs.

Lemma sgr_codes_from s : forall params i gc, Forall (fun n => n ∈ code_numbers) s ->
  drop i params = map code_param s -> sgr_from (length s) params i gc = foldl code_effect gc s.
Proof.
  induction s as [|n s IH]; intros params i gc Hs Hd; [done|].
  apply Forall_cons in Hs as [Hn Hs]. cbn [length sgr_from foldl].
  assert (E0 : params !! i = Some (code_param n)).
  { rewrite <- (Nat.add_0_r i), <- lookup_drop. by rewrite Hd. }
  assert (Hd' : drop (S i) params = map code_param s) by (by rewrite <- (drop_drop params 1 i), Hd || by
    rewrite <- Nat.add_1_r, <- drop_drop, Hd).
  rewrite E0. unfold get_param. rewrite E0.
  unfold code_numbers, attrs in Hn. rewrite map_cons in Hn. cbn [map snd] in Hn.
  rewrite !elem_of_cons, elem_of_nil in Hn.
  repeat (destruct Hn as [->|Hn]); try done; exact (IH _ _ _ Hs Hd').
Qed.

Lemma sgr_codes s gc : Forall (fun n => n ∈ code_numbers) s -> s <> [] ->
  input_csi_dispatch_sgr (map code_param s) gc = foldl code_effect gc s.
Proof.
  intros Hs Hne. unfold input_csi_dispatch_sgr. destruct (map code_param s) as [|p l] eqn:E.
  { by destruct s. }
  rewrite <- E, length_map. by apply sgr_codes_from.
Qed.

Lemma fold_attrs l : forall gc, Forall (fun e => e ∈ attrs /\ snd e <> 53) l ->
  foldl code_effect gc (map snd l) = set_gc_attr (foldl attr_effect (gc_attr gc) (map fst l)) gc.
Proof.
  induction l as [|[mask n] l IH]; intros gc Hl; [by destruct gc|].
  apply Forall_cons in Hl as [[Hin Hn] Hl]. cbn [map fst snd foldl].
  rewrite (code_effect_attr mask n) by done. by rewrite IH.
Qed.

(** An underscore is only added when there was none: the others are not lost. *)
Lemma effect_lor sel : forall a, NoDup sel ->
  (forall m, m ∈ sel -> is_underscore m = true -> Z.land a GRID_ATTR_ALL_UNDERSCORE = 0) ->
  (forall m m', m ∈ sel -> m' ∈ sel -> is_underscore m = true -> is_underscore m' = true -> m = m') ->
  (forall m, m ∈ sel -> is_underscore m = false -> Z.land m GRID_ATTR_ALL_UNDERSCORE = 0) ->
  foldl attr_effect a sel = foldl Z.lor a sel.
Proof.
  induction sel as [|m sel IH]; intros a Hnd Ha Hp Hd; [done|]. cbn [foldl].
  apply NoDup_cons in Hnd as [Hm Hnd].
  assert (E : attr_effect a m = Z.lor a m).
  { unfold attr_effect. destruct (is_underscore m) eqn:Eu; [|done].
    specialize (Ha m ltac:(left) Eu). f_equal. unfold without.
    rewrite <- (Z.lor_ldiff_and a GRID_ATTR_ALL_UNDERSCORE) at 2. by rewrite Ha, Z.lor_0_r. }
  rewrite E. apply IH; [done| |intros; apply Hp; by try right|intros; apply Hd; by try right].
  intros m' Hin Hu. assert (Ea : Z.land a GRID_ATTR_ALL_UNDERSCORE = 0)
    by (by apply (Ha m'); [right|]).
  destruct (is_underscore m) eqn:Eu.
  - destruct Hm. by rewrite (Hp m m'); [|left|right|..].
  - rewrite Z.land_lor_distr_l, Ea. by rewrite (Hd m); [|left|].
Qed.

(** The masks that are added. *)
Definition added (last a : Z) : list (Z * Z) :=
  List.filter (fun '(mask, _) => has a mask && negb (has last mask)) attrs.

Lemma testbit_if (b : bool) k i : 0 <= k -> Z.testbit (if b then 2 ^ k else 0) i = b && (i =? k).
Proof.
  intros Hk. destruct b; [|by rewrite Z.bits_0]. rewrite Z.pow2_bits_eqb by done. by rewrite Z.eqb_sym.
Qed.

Lemma lor_filter (f : Z -> bool) l : forall a,
  foldl Z.lor a (List.filter f l) = foldl Z.lor a (map (fun m => if f m then m else 0) l).
Proof.
  induction l as [|m l IH]; intros a; [done|]. cbn [List.filter map foldl].
  destruct (f m); [by cbn [foldl]; rewrite IH|]. by rewrite IH, Z.lor_0_r.
Qed.

Lemma map_fst_added last a : map fst (added last a) =
  List.filter (fun mask => has a mask && negb (has last mask)) (map fst attrs).
Proof.
  unfold added. generalize attrs as l. induction l as [|[m n] l IH]; [done|]. cbn [List.filter map fst].
  destruct (_ && _); cbn [map fst]; by rewrite IH.
Qed.

(** *** The bits of the attributes *)

Definition attr_bits : list Z := [0; 1; 6; 2; 3; 4; 5; 8; 9; 10; 11; 12; 13].

Lemma attrs_bits : map fst attrs = map (Z.pow 2) attr_bits.
Proof. reflexivity. Qed.

Lemma lor_bits (f : Z -> bool) ks i : Forall (Z.le 0) ks -> forall a,
  Z.testbit (foldl Z.lor a (map (fun m => if f m then m else 0) (map (Z.pow 2) ks))) i =
  Z.testbit a i || existsb (fun k => f (2 ^ k) && (i =? k)) ks.
Proof.
  induction 1 as [|k ks Hk Hks IH]; intros a; [by rewrite orb_false_r|]. cbn [map foldl existsb].
  rewrite IH, Z.lor_spec, testbit_if by done. by rewrite orb_assoc.
Qed.

Lemma masked_bit a i : Z.land a SGR_ATTRS = a -> 0 <= i -> Z.testbit a i = true -> i ∈ attr_bits.
Proof.
  intros Ha Hi Hb. rewrite <- Ha, Z.land_spec, andb_true_iff in Hb. destruct Hb as [_ Hb].
  assert (Hlt : 0 <= i < 13).
  { split; [done|]. apply Z.nle_gt. intros Hle. rewrite Z.bits_above_log2 in Hb; [done|done|].
    change (Z.log2 SGR_ATTRS) with 12. lia. }
  revert Hb. revert i Hlt Hi. apply (for_each_elim (fun i => 0 <= i -> Z.testbit SGR_ATTRS i = true -> i ∈ attr_bits) 13).
  cbn. repeat split; intros; try done; set_solver.
Qed.

(** No attribute is removed. *)
Definition only_added (last a : Z) : Prop := forall m, m ∈ map fst attrs -> has last m = true -> has a m = true.

Lemma lor_added last a : sgr_attr last -> sgr_attr a -> only_added last a ->
  foldl Z.lor last (map fst (added last a)) = a.
Proof.
  intros [Hl _] [Ha _] Ho. rewrite map_fst_added, lor_filter, attrs_bits.
  apply Z.bits_inj'. intros i Hi. rewrite lor_bits by (repeat constructor; lia).
  destruct (decide (i ∈ attr_bits)) as [Hin|Hout].
  - assert (E : existsb (fun k => (has a (2 ^ k) && negb (has last (2 ^ k))) && (i =? k)) attr_bits =
                Z.testbit a i && negb (Z.testbit last i)).
    { apply Bool.eq_iff_eq_true. rewrite existsb_exists, <- !has_bit by done. split.
      - intros (k & _ & Hk). apply andb_true_iff in Hk as [Hk ->%Z.eqb_eq]. done.
      - intros Hb. exists i. split; [by apply list_elem_of_In|]. by rewrite Hb, Z.eqb_refl. }
    rewrite E. pose proof (Ho (2 ^ i)) as Hoi. rewrite !has_bit in Hoi by done.
    assert (Hm : 2 ^ i ∈ map fst attrs) by (rewrite attrs_bits; by apply list_elem_of_fmap_2).
    specialize (Hoi Hm). destruct (Z.testbit last i), (Z.testbit a i); cbn; try done; by specialize (Hoi eq_refl).
  - assert (E : existsb (fun k => (has a (2 ^ k) && negb (has last (2 ^ k))) && (i =? k)) attr_bits = false).
    { apply not_true_iff_false. rewrite existsb_exists. intros (k & Hk & Hb).
      apply andb_true_iff in Hb as [_ ->%Z.eqb_eq]. by apply Hout, list_elem_of_In. }
    rewrite E, orb_false_r.
    destruct (Z.testbit last i) eqn:E1; [by destruct (Hout (masked_bit _ _ Hl Hi E1))|].
    destruct (Z.testbit a i) eqn:E2; [by destruct (Hout (masked_bit _ _ Ha Hi E2))|done].
Qed.

(** The underscores among the attributes. *)
Lemma underscore_bit a m : m ∈ map fst attrs -> is_underscore m = true ->
  has a m = has (Z.land a GRID_ATTR_ALL_UNDERSCORE) m.
Proof.
  intros Hm Hu. unfold has. rewrite <- Z.land_assoc. do 2 f_equal.
  revert Hu. cbn in Hm. rewrite !elem_of_cons, elem_of_nil in Hm.
  by repeat (destruct Hm as [->|Hm]); try done.
Qed.

Lemma added_elem last a m : m ∈ map fst (added last a) ->
  m ∈ map fst attrs /\ has a m = true /\ has last m = false.
Proof.
  rewrite map_fst_added. intros Hin. apply list_elem_of_In, filter_In in Hin as [Hin Hb].
  apply andb_true_iff in Hb as [Hb1 Hb2]. split; [by apply list_elem_of_In|]. by apply negb_true_iff in Hb2.
Qed.

Ltac split_elem H := cbn in H; unfold attr_bits in H; rewrite !elem_of_cons, elem_of_nil in H; repeat (destruct H as [->|H]); try done.

Lemma one_underscore v m m' : v ∈ [0; 0x4; 0x200; 0x400; 0x800; 0x1000] ->
  m ∈ map fst attrs -> m' ∈ map fst attrs -> is_underscore m = true -> is_underscore m' = true ->
  has v m = true -> has v m' = true -> m = m'.
Proof.
  intros Hv Hm Hm' Hu Hu' H1 H2. split_elem Hm; split_elem Hm'; revert H1 H2; split_elem Hv.
Qed.

Lemma no_underscore v : v ∈ [0; 0x4; 0x200; 0x400; 0x800; 0x1000] ->
  v = 0 \/ exists m, m ∈ map fst attrs /\ is_underscore m = true /\ has v m = true.
Proof.
  intros Hv. cbn in Hv. rewrite !elem_of_cons, elem_of_nil in Hv.
  destruct Hv as [->|Hv]; [by left|right].
  repeat (destruct Hv as [->|Hv]; [|]); try done;
    match goal with |- context [has ?v _ = true] => exists v end; repeat split; try done; set_solver.
Qed.

Lemma added_effect last a : sgr_attr last -> sgr_attr a -> only_added last a ->
  foldl attr_effect last (map fst (added last a)) = a.
Proof.
  intros Hl Ha Ho. rewrite effect_lor; [by apply lor_added|..].
  - rewrite map_fst_added. apply NoDup_ListNoDup, List.NoDup_filter, NoDup_ListNoDup.
    apply (bool_decide_unpack _). by vm_compute.
  - intros m Hm Hu. apply added_elem in Hm as (Hin & Ham & Hlm).
    destruct (no_underscore _ (sa_underscore _ Hl)) as [|(m' & Hin' & Hu' & Hv)]; [done|].
    rewrite <- underscore_bit in Hv by done.
    assert (m = m') as ->; [|congruence].
    apply (one_underscore _ m m' (sa_underscore _ Ha)); try done; rewrite <- underscore_bit by done; auto.
  - intros m m' Hm Hm' Hu Hu'. apply added_elem in Hm as (? & ? & _), Hm' as (? & ? & _).
    apply (one_underscore _ m m' (sa_underscore _ Ha)); try done; by rewrite <- underscore_bit.
  - intros m Hm. apply added_elem in Hm as (Hin & _). split_elem Hin.
Qed.

(** ** The attributes of the pen *)

Definition with_colours (fg bg us : Z) (gc : grid_cell) : grid_cell :=
  set_gc_us us (set_gc_bg bg (set_gc_fg fg gc)).

(** A cell that was drawn with attributes a program can set. *)
Record sgr_cell (gc : grid_cell) : Prop := SgrCell {
  sc_attr : sgr_attr (gc_attr gc);
  sc_flags : gc_flags gc = 0;
  sc_link : gc_link gc = 0
}.

(** The pen draws as the cell does. *)
Record drawn_as (gc pen : grid_cell) : Prop := DrawnAs {
  da_attr : gc_attr pen = gc_attr gc;
  da_flags : gc_flags pen = gc_flags gc;
  da_fg : gc_fg pen = gc_fg gc;
  da_bg : gc_bg pen = gc_bg gc;
  da_us : gc_us pen = gc_us gc;
  da_link : gc_link pen = gc_link gc
}.

Lemma sgr_attr_0 : sgr_attr 0.
Proof. split; [done|]. left. Qed.

Lemma no_charset a : sgr_attr a -> has a GRID_ATTR_CHARSET = false.
Proof.
  intros [Ha _]. unfold has. rewrite <- Ha, <- Z.land_assoc. change (Z.land SGR_ATTRS GRID_ATTR_CHARSET) with 0.
  by rewrite Z.land_0_r.
Qed.

Lemma no_overline a : sgr_attr a -> has a GRID_ATTR_OVERLINE = false.
Proof.
  intros [Ha _]. unfold has. rewrite <- Ha, <- Z.land_assoc. change (Z.land SGR_ATTRS GRID_ATTR_OVERLINE) with 0.
  by rewrite Z.land_0_r.
Qed.

Lemma kept_attr_reset last gc : sgr_attr (gc_attr last) ->
  kept_attr last gc = if needs_reset last gc then 0 else gc_attr last.
Proof.
  intros Hl. unfold kept_attr. destruct (needs_reset last gc); [|done].
  pose proof (no_charset _ Hl) as Hc. unfold has in Hc. by apply negb_false_iff, Z.eqb_eq in Hc.
Qed.

Lemma kept_only_added last gc : sgr_attr (gc_attr last) -> sgr_attr (gc_attr gc) ->
  only_added (kept_attr last gc) (gc_attr gc).
Proof.
  intros Hl Hg m Hm Hh. rewrite kept_attr_reset in Hh by done.
  destruct (needs_reset last gc) eqn:Er; [done|].
  destruct (has (gc_attr gc) m) eqn:E; [done|]. exfalso. unfold needs_reset in Er.
  apply not_true_iff_false in Er. apply Er, existsb_exists.
  apply list_elem_of_fmap in Hm as ([m' n] & -> & Hin). exists (m', n).
  split; [by apply list_elem_of_In|]. cbn in Hh, E. rewrite Hh, andb_true_r, orb_true_iff. left.
  assert (Hb : exists k, 0 <= k /\ m' = 2 ^ k).
  { assert (Hm : m' ∈ map fst attrs) by (by apply (list_elem_of_fmap_2 fst _ (m', n))).
    rewrite attrs_bits in Hm. apply list_elem_of_fmap in Hm as (k & -> & Hk). exists k. split; [|done].
    split_elem Hk. }
  destruct Hb as (k & Hk & ->). rewrite has_bit in * by done. by rewrite Z.lnot_spec, E.
Qed.

(** Reading the attribute numbers: the attributes are the cell's; the colours
    are as they were, or the default ones after a reset. *)
Lemma attr_codes_effect last gc pen : sgr_cell last -> sgr_cell gc -> drawn_as last pen ->
  foldl code_effect pen (attr_codes last gc) =
  if needs_reset last gc
  then set_gc_attr (gc_attr gc) (set_gc_link (gc_link pen) grid_default_cell)
  else set_gc_attr (gc_attr gc) pen.
Proof.
  intros [Hl _ _] [Hg _ _] Hd. unfold attr_codes. rewrite foldl_app.
  assert (Hcodes : Forall (fun e => e ∈ attrs /\ snd e <> 53) (added (kept_attr last gc) (gc_attr gc))).
  { apply List.Forall_forall. intros [m n] Hin. apply filter_In in Hin as [Hin Hb]. apply list_elem_of_In in Hin.
    split; [done|]. intros E. cbn in E. subst n.
    assert (m = GRID_ATTR_OVERLINE) as -> by (unfold attrs in Hin; rewrite !elem_of_cons, elem_of_nil in Hin;
      repeat destruct Hin as [[= ?]|Hin]; done).
    by rewrite no_overline in Hb. }
  pose proof (kept_only_added last gc Hl Hg) as Ho.
  change (List.filter _ attrs) with (added (kept_attr last gc) (gc_attr gc)).
  rewrite fold_attrs by done. revert Ho. rewrite kept_attr_reset by done. intros Ho.
  destruct (needs_reset last gc); cbn [foldl].
  - change (gc_attr (code_effect pen 0)) with 0. by rewrite added_effect by (done || apply sgr_attr_0).
  - rewrite (da_attr _ _ Hd). by rewrite added_effect.
Qed.

(** ** Colours *)

(** A colour with numbers of its own. *)
Inductive many_valued : Z -> Prop :=
  | Indexed n : 0 <= n < 256 -> many_valued (Z.lor n COLOUR_FLAG_256)
  | Triplet r g b : 0 <= r < 256 -> 0 <= g < 256 -> 0 <= b < 256 -> many_valued (colour_join_rgb r g b).

(** The colours a program can set, of characters and of underscores. *)
Definition sgr_colour (c : Z) : Prop := (0 <= c <= 8 \/ 90 <= c <= 97) \/ many_valued c.
Definition sgr_underscore (c : Z) : Prop := c = 8 \/ many_valued c.

Record sgr_colours (gc : grid_cell) : Prop := SgrColours {
  co_fg : sgr_colour (gc_fg gc);
  co_bg : sgr_colour (gc_bg gc);
  co_us : sgr_underscore (gc_us gc)
}.

Lemma indexed_facts n : 0 <= n < 256 ->
  has (Z.lor n COLOUR_FLAG_256) COLOUR_FLAG_256 = true /\ Z.land (Z.lor n COLOUR_FLAG_256) 0xff = n.
Proof.
  intros Hn. assert (E : Z.lor n COLOUR_FLAG_256 = COLOUR_FLAG_256 + n).
  { rewrite Z.lor_comm. change COLOUR_FLAG_256 with (1 * 2 ^ 24). apply lor_shifted; lia. }
  split; [by apply has_lor_self|]. rewrite E.
  change 0xff with (2 ^ 8 - 1). rewrite land_mask by lia. change COLOUR_FLAG_256 with (65536 * 2 ^ 8).
  rewrite Z.add_comm, Z.mod_add by done. by apply Z.mod_small.
Qed.

Lemma triplet_not_indexed r g b : 0 <= r < 256 -> 0 <= g < 256 -> 0 <= b < 256 ->
  has (colour_join_rgb r g b) COLOUR_FLAG_256 = false.
Proof.
  intros. unfold has. rewrite join_rgb_sum by done. apply negb_false_iff, Z.eqb_eq.
  change COLOUR_FLAG_256 with (2 ^ 24).
  apply Z.bits_inj'. intros i Hi. rewrite Z.land_spec, Z.bits_0.
  destruct (decide (i = 24)) as [->|Hne]; [|by rewrite Z.pow2_bits_false, andb_false_r by lia].
  rewrite Z.testbit_eqb by lia. apply andb_false_iff. left. apply Z.eqb_neq.
  Z.div_mod_to_equations. lia.
Qed.

Local Ltac not_below :=
  repeat match goal with |- context [?x <? ?y] => rewrite (proj2 (Z.ltb_ge x y)) by lia end.

(** What is written for such a colour, and what it means. *)
Lemma many_values base c : many_valued c -> exists l, colour_values base c = Some (base :: l) /\
  (forall base', colour_values base' c = Some (base' :: l)) /\
  Forall (fun n => 0 <= n < 256) l /\ (length l <= 4)%nat /\
  (base = 38 \/ base = 48 \/ base = 58 -> forall gc,
    input_csi_dispatch_sgr (map INPUT_NUMBER (base :: l)) gc =
    if base =? 38 then set_gc_fg c gc else if base =? 48 then set_gc_bg c gc else set_gc_us c gc).
Proof.
  intros Hc. destruct Hc as [n Hn|r g b Hr Hg Hb].
  - destruct (indexed_facts n Hn) as [E1 E2]. exists [5; n]. unfold colour_values. rewrite E1, E2.
    split_and!; [done|done|repeat constructor; lia|cbn; lia|].
    unfold input_csi_dispatch_sgr, sgr_from.
    intros [-> |[-> | ->]] gc; cbn -[Z.lor]; unfold input_csi_dispatch_sgr_256_do; not_below;
      by rewrite (proj2 (Z.eqb_neq n (-1))) by lia.
  - pose proof (triplet_not_indexed r g b Hr Hg Hb) as E1. pose proof (join_rgb_flags r g b Hr Hg Hb) as E2.
    exists [2; r; g; b]. unfold colour_values. rewrite E1, E2, split_join_rgb by done.
    split_and!; [done|done|repeat constructor; lia|cbn; lia|].
    intros Hbase gc. unfold input_csi_dispatch_sgr, sgr_from, input_csi_dispatch_sgr_rgb_do.
    assert (Hbad : forall v, 0 <= v < 256 -> (v =? -1) = false) by lia.
    destruct Hbase as [-> |[-> | ->]]; cbn -[colour_join_rgb]; not_below; by rewrite (Hbad r), (Hbad g), (Hbad b).
Qed.

(** What is written of a colour of a cell, and what reading it does. *)
Record written (values : grid_cell -> list Z) (get : grid_cell -> Z)
    (set : Z -> grid_cell -> grid_cell) (gc : grid_cell) : Prop := Written {
  wr_numbers : Forall (fun n => 0 <= n < 256) (values gc);
  wr_length : (length (values gc) <= 5)%nat;
  wr_effect : values gc <> [] -> forall pen,
    input_csi_dispatch_sgr (map INPUT_NUMBER (values gc)) pen = set (get gc) pen;
  wr_default : nth 0 (values gc) 0 = 39 \/ nth 0 (values gc) 0 = 49 -> get gc = 8;
  wr_none : values gc = [] -> get gc = 8
}.

(** The colours that are one number. *)
Lemma one_value values get set gc n : values gc = [n] -> 0 <= n < 256 ->
  (n = 39 \/ n = 49 -> get gc = 8) -> (forall pen, input_csi_dispatch_sgr [INPUT_NUMBER n] pen = set (get gc) pen) ->
  written values get set gc.
Proof.
  intros E Hn Hd He. split; rewrite E; [by constructor|cbn; lia|by intros _|exact Hd|done].
Qed.

Lemma more_values values get set gc l base : values gc = base :: l -> base = 38 \/ base = 48 \/ base = 58 ->
  Forall (fun n => 0 <= n < 256) l -> (length l <= 4)%nat ->
  (forall pen, input_csi_dispatch_sgr (map INPUT_NUMBER (base :: l)) pen = set (get gc) pen) ->
  written values get set gc.
Proof.
  intros E Hb Hl Hn He. split; rewrite E; [constructor; [lia|done]|cbn; lia|by intros _| |done].
  cbn. intros [?|?]; lia.
Qed.

Lemma basic_value c : 0 <= c <= 8 \/ 90 <= c <= 97 -> colour_values 38 c = None /\ colour_values 48 c = None.
Proof.
  intros Hc. assert (E : has c COLOUR_FLAG_256 = false /\ has c COLOUR_FLAG_RGB = false).
  { assert (Hr : 0 <= c < 98) by lia. clear Hc. revert c Hr. apply for_each_elim. by vm_compute. }
  destruct E as [E1 E2]. unfold colour_values. by rewrite E1, E2.
Qed.

Ltac each_value H :=
  match type of H with
  | ?a <= ?c <= ?b => let E := fresh in
      assert (E : 0 <= c - a < b - a + 1) by lia; replace c with ((c - a) + a) by lia;
      revert E; generalize (c - a) as k; intros k E; revert k E
  end.

Lemma fg_written gc : sgr_colour (gc_fg gc) -> written grid_string_cells_fg gc_fg set_gc_fg gc.
Proof.
  destruct gc as [d a f c bg us lk]. cbn [gc_fg]. intros [Hc'|Hm].
  2:{ destruct (many_values 38 c Hm) as (l & E1 & _ & Hl & Hn & He).
    apply (more_values _ _ _ _ l 38); auto. unfold grid_string_cells_fg. cbn [gc_fg]. by rewrite E1. }
  destruct (basic_value c Hc') as [E1 _].
  assert (Hv : exists n, grid_string_cells_fg (GC d a f c bg us lk) = [n] /\ 0 <= n < 256 /\
    (n = 39 \/ n = 49 -> c = 8) /\ forall pen, input_csi_dispatch_sgr [INPUT_NUMBER n] pen = set_gc_fg c pen).
  { unfold grid_string_cells_fg. cbn [gc_fg]. rewrite E1. clear - Hc'.
    destruct Hc' as [Hc|Hc]; each_value Hc;
      apply for_each_elim; cbv -[input_csi_dispatch_sgr set_gc_fg Z.le Z.lt]; repeat split;
      eexists; (split_and!; [done|lia|lia|lia|by intros []]). }
  destruct Hv as (n & E & Hn & Hd & He). by apply (one_value _ _ _ _ n).
Qed.

Lemma bg_written gc : sgr_colour (gc_bg gc) -> written grid_string_cells_bg gc_bg set_gc_bg gc.
Proof.
  destruct gc as [d a f fg c us lk]. cbn [gc_bg]. intros [Hc'|Hm].
  2:{ destruct (many_values 48 c Hm) as (l & E1 & _ & Hl & Hn & He).
    apply (more_values _ _ _ _ l 48); auto. unfold grid_string_cells_bg. cbn [gc_bg]. by rewrite E1. }
  destruct (basic_value c Hc') as [_ E1].
  assert (Hv : exists n, grid_string_cells_bg (GC d a f fg c us lk) = [n] /\ 0 <= n < 256 /\
    (n = 39 \/ n = 49 -> c = 8) /\ forall pen, input_csi_dispatch_sgr [INPUT_NUMBER n] pen = set_gc_bg c pen).
  { unfold grid_string_cells_bg. cbn [gc_bg]. rewrite E1. clear - Hc'.
    destruct Hc' as [Hc|Hc]; each_value Hc;
      apply for_each_elim; cbv -[input_csi_dispatch_sgr set_gc_bg Z.le Z.lt]; repeat split;
      eexists; (split_and!; [done|lia|lia|lia|by intros []]). }
  destruct Hv as (n & E & Hn & Hd & He). by apply (one_value _ _ _ _ n).
Qed.

Lemma us_written gc : sgr_underscore (gc_us gc) -> written grid_string_cells_us gc_us set_gc_us gc.
Proof.
  destruct gc as [d a f fg bg c lk]. cbn [gc_us]. intros [-> |Hm].
  - assert (E : grid_string_cells_us (GC d a f fg bg 8 lk) = []) by done.
    by split; rewrite ?E; [constructor|cbn; lia|..].
  - destruct (many_values 58 c Hm) as (l & E1 & _ & Hl & Hn & He).
    apply (more_values _ _ _ _ l 58); auto. unfold grid_string_cells_us. cbn [gc_us]. by rewrite E1.
Qed.

(** Whether the numbers of a colour are written. *)
Definition is_reset (s : list Z) : bool := match s with 0 :: _ => true | _ => false end.

Definition emitted (s newc oldc : list Z) : bool :=
  match newc with
  | [] => false
  | first :: _ =>
      negb (negb (is_reset s) && bool_decide (newc = oldc)) &&
      negb (is_reset s && ((first =? 49) || (first =? 39)))
  end.

Lemma add_code_emitted len buf s newc oldc flags :
  grid_string_cells_add_code len buf s newc oldc flags =
  if emitted s newc oldc
  then cat len (cat len (cat len buf (csi_start flags)) (join_codes (map number_code newc))) [109]
  else buf.
Proof.
  unfold grid_string_cells_add_code, emitted. fold (is_reset s). destruct newc as [|n newc]; [done|].
  cbn [nth]. destruct (negb (is_reset s) && _); [done|]. by destruct (is_reset s && _).
Qed.

(** After it the pen has the colour of the cell. *)
Lemma colour_step values get set s last gc pen :
  (forall c pen, get (set c pen) = c) ->
  written values get set last -> written values get set gc ->
  get pen = (if is_reset s then 8 else get last) ->
  (get last <> 8 -> get gc = 8 -> values gc = [] -> is_reset s = true) ->
  if emitted s (values gc) (values last)
  then values gc <> [] /\ input_csi_dispatch_sgr (map INPUT_NUMBER (values gc)) pen = set (get gc) pen
  else get pen = get gc.
Proof.
  intros Hgs [_ _ Le _ Ln] [_ _ Ge Gd Gn] Hpen Hr. destruct (values gc) as [|n l] eqn:E.
  { cbn [emitted]. specialize (Gn eq_refl). rewrite Hpen. destruct (is_reset s); [done|].
    destruct (decide (get last = 8)) as [->|Hne]; [done|]. by specialize (Hr Hne Gn eq_refl). }
  unfold emitted. destruct (is_reset s); cbn [negb andb].
  - destruct ((n =? 49) || (n =? 39)) eqn:Ed; cbn [negb]; [|by split; [|apply Ge]].
    rewrite Hpen. symmetry. apply Gd. cbn. lia.
  - rewrite andb_true_r. case_bool_decide as Eq; cbn [negb]; [|by split; [|apply Ge]].
    rewrite Hpen. rewrite <- (Hgs (get last) pen), <- (Hgs (get gc) pen).
    rewrite <- (Ge ltac:(done) pen), Eq, (Le ltac:(by rewrite <- Eq) pen). done.
Qed.

Lemma fg_some gc : sgr_colour (gc_fg gc) -> grid_string_cells_fg gc <> [].
Proof.
  intros [Hc|Hm]; unfold grid_string_cells_fg.
  - destruct (basic_value _ Hc) as [-> _]. destruct Hc as [Hc|Hc]; repeat case_match; try done; lia.
  - by destruct (many_values 38 _ Hm) as (l & -> & _).
Qed.

Lemma bg_some gc : sgr_colour (gc_bg gc) -> grid_string_cells_bg gc <> [].
Proof.
  intros [Hc|Hm]; unfold grid_string_cells_bg.
  - destruct (basic_value _ Hc) as [_ ->]. destruct Hc as [Hc|Hc]; repeat case_match; try done; lia.
  - by destruct (many_values 48 _ Hm) as (l & -> & _).
Qed.
