(* ===== verification/InputProps.v ===== *)
(** * The properties of the input parser *)
From Stdlib Require Import Ascii String.
From S2P Require Import Prelude.
From S2P Require Import CString.
From S2P Require Import Utf8.
From S2P Require Import CellCodec.
From S2P Require Import Locale.
From S2P Require Import Hyperlinks.
From S2P Require Import Grid.
From S2P Require Import Colour.
From S2P Require Import Reflow.
From S2P Require Import Screen.
From S2P Require Import ScreenInfo.
From S2P Require Import ScreenWrite.
From S2P Require Import GridSafe.
From S2P Require Import ScreenSafe.
From S2P Require Import ScreenWriteSafe.
From S2P Require Import InputTable.
From S2P Require Import Input.
From S2P Require Import InputOsc.
From S2P Require Import InputParse.
From S2P Require Import InputSafe.
From S2P Require Import InputParseSafe.
From S2P Require Import InputMachine.

(** ** A terminal to try the properties on *)

Definition small_env : input_env :=
  IEnv (Env true false true false 0 0 (fun _ _ _ => true)) true true true true 0 1048576 0 true true
    0 2 1 8 16 THEME_DARK "3.6" (fun _ => 7) (fun _ => 0) None (fun _ => None).

(** Ten columns and four lines, the cursor in a corner. *)
Definition small_screen : screen :=
  Screen (grid_create 10 4 100) None 0 0 0 0 grid_default_cell 0 0 3 [8] (Z.lor MODE_CURSOR MODE_WRAP)
    None no_info.

Definition small_term : term :=
  @input_init plain_codec small_env (Ctx small_screen grid_default_cell [] false) colour_palette_init 0
    (snd (hyperlinks_init (Links ∅ [] 0 1))).

Lemma small_screen_safe : screen_safe 100 small_screen.
Proof.
  assert (Hl : Forall line_safe (linedata (s_grid small_screen))) by (vm_compute; repeat constructor; done).
  assert (Hg : grid_safe 100 (s_grid small_screen)) by (split; [exact Hl|..]; done).
  split; [exact Hg|..]; try (cbn; done); try (cbn; lia). split; [done|cbn; lia].
Qed.

Lemma small_ok : @input_ok plain_codec ascii_locale 100 small_env small_term.
Proof.
  pose proof small_screen_safe as Hs. split.
  - split; [by split|done|done|cbn; lia|done|done|by eexists|done|done].
  - split; cbn; try done; try lia.
Qed.

Section Props.
Context `{CellCodec} `{Locale}.

(** ** Every byte *)

(** C6. Whatever bytes a program writes, input_parse_buffer returns: no
    transition is missing (fatalx), a character is never read past its end, no
    NULL pointer is used and no access leaves the palette, the buffers or the
    list of 24 parameters. The terminal stays in order: the cursor on the
    screen, the lines of the grid consistent, the collected text within the
    line, the buffers of the parser within their sizes. *)
Theorem input_parse_buffer_ok B env buf t : input_ok B env t ->
  Forall (fun ch => 0 <= ch < 256) buf ->
  exists t', input_parse_buffer env buf t = Some t' /\ input_ok B env t' /\
    (length (q_interm (seq_of t')) <= 3)%nat /\ (length (q_param (seq_of t')) <= 63)%nat /\
    (length (params_of t') <= 24)%nat /\
    q_space (seq_of t') <= Z.max INPUT_BUF_START (ie_buffer_size env) /\
    0 <= s_cx (screen_of t') <= screen_size_x (screen_of t') /\
    0 <= s_cy (screen_of t') < screen_size_y (screen_of t').
Proof.
  intros Hok Hb.
  assert (Hr : exists t', input_parse_buffer env buf t = Some t' /\ input_ok B env t').
  { unfold input_parse_buffer. destruct buf as [|ch buf]; [by exists t|].
    assert (Hok' : input_ok B env (on_w new_item (emit Changed t))).
    { destruct Hok as [Hl Hq]. eapply ok_of; [|exact Hq]. eapply live_on_w; [apply live_emit, Hl|].
      intros Hc. by apply idle_safe, new_item_safe. }
    destruct (parse_from_ok B env (ch :: buf) None _ I Hok' Hb) as (t' & E & [Hl Hq] & _).
    unfold input_parse. rewrite E. cbn [mbind option_bind]. eexists. split; [done|].
    eapply ok_of; [|exact Hq]. eapply live_on_w; [exact Hl|]. intros Hc.
    apply idle_safe. by apply collect_end_ok. }
  destruct Hr as (t' & -> & Hok'). exists t'. split; [done|]. split; [done|].
  destruct Hok' as [Hl Hq]. destruct (lv_w _ _ _ _ Hl) as [Hs _ _]. destruct Hq.
  pose proof (lv_params _ _ _ _ Hl). pose proof (ss_cx _ _ Hs). pose proof (ss_cy _ _ Hs).
  unfold screen_of. split_and!; lia.
Qed.

(** ** One byte after the other *)

(** C29. Keeping the transition of the byte before makes no difference: a
    buffer is parsed as if every byte looked its transition up in the table of
    the state. It does not matter how the output of a program is cut into
    reads: parsing one part and then the other is parsing both. *)
Theorem input_parse_bytewise env a b t :
  input_parse env a t = foldl (parse_byte env) (Some t) a /\
  input_parse env (a ++ b) t = (t' ← input_parse env a t; input_parse env b t').
Proof. split; [apply parse_each|apply parse_app]. Qed.

(** ** The automaton of the tables *)

(** C30. The parser refines the automaton of its tables: whatever the handlers
    do, the state after some bytes is the one the automaton reaches from the
    state before. *)
Theorem input_parse_refines B env buf t : input_ok B env t ->
  Forall (fun ch => 0 <= ch < 256) buf ->
  exists t', input_parse env buf t = Some t' /\ input_ok B env t' /\
    i_state (t_in t') = foldl next_state (i_state (t_in t)) buf.
Proof. intros Hok Hb. by apply parse_from_ok. Qed.

(** From every state these bytes lead to the ground. *)
Definition grounds (buf : list Z) (st : input_state) : bool :=
  bool_decide (foldl next_state st buf = ground).

(** C31. The parser never stays in a sequence for good: ESC \ brings every state
    to the ground except the one after an ESC in a device control string, and
    twice brings that too; CAN and SUB end everything but the data of a device
    control string, BEL ends an OSC string. *)
Theorem input_terminators B env t : input_ok B env t ->
  let st := i_state (t_in t) in
  let ends buf := exists t', input_parse env buf t = Some t' /\ i_state (t_in t') = ground in
  ends [27; 92; 27; 92] /\ (st <> dcs_escape -> ends [27; 92]) /\
  (st <> dcs_handler -> st <> dcs_escape -> ends [24] /\ ends [26]) /\
  (st = osc_string -> ends [7]).
Proof.
  intros Hok st ends.
  assert (He : forall buf, Forall (fun ch => 0 <= ch < 256) buf -> grounds buf st = true -> ends buf).
  { intros buf Hb Hg. destruct (parse_from_ok B env buf None t I Hok Hb) as (t' & E & _ & Es).
    exists t'. split; [done|]. rewrite Es. by apply bool_decide_eq_true_1 in Hg. }
  clearbody ends. split_and!; intros; [|apply He|split; apply He|apply He];
    try apply He; try (repeat constructor; lia); clearbody st; destruct st; done.
Qed.

(** ** Sequences that are ignored *)

Lemma untouched_trans t0 t1 t2 : untouched t0 t1 -> t_w t2 = t_w t1 -> t_palette t2 = t_palette t1 ->
  t_hyperlinks t2 = t_hyperlinks t1 -> t_links t2 = t_links t1 -> t_out t2 = t_out t1 ->
  i_cell (t_in t2) = i_cell (t_in t1) -> i_saved (t_in t2) = i_saved (t_in t1) ->
  i_chars (t_in t2) = i_chars (t_in t1) -> i_requests (t_in t2) = i_requests (t_in t1) ->
  untouched t0 t2.
Proof. intros []. intros. split; congruence. Qed.

Lemma collect_end_twice B c : ctx_safe B c ->
  screen_write_collect_end (screen_write_collect_end c) = screen_write_collect_end c.
Proof.
  intros Hc. destruct (collect_end_ok B c Hc) as [[_ _ Ht] _].
  unfold screen_write_collect_end at 1. by rewrite Ht.
Qed.

(** C32. A control sequence with more than 63 bytes of parameters, with 24
    parameters or more, or with a number above INT_MAX is read to its end and
    has no effect: the screen (but for the text collected before, which is
    written), the cell, the saved state, the palette, the links, the replies
    and requests stay as they are, and the parser is in the ground state. *)
Theorem input_csi_discarded B env ps c t : input_ok B env t -> i_state (t_in t) = ground ->
  Forall is_param ps -> 0x40 <= c <= 0x7e ->
  (63 < length ps)%nat \/ (24 <= length (strsep 59 ps))%nat \/
  (exists n, INT_MAX < n < 10 ^ 20 /\ bytes_of_string (fmt_u n) ∈ strsep 59 ps) ->
  exists t', input_parse env (27 :: 91 :: ps ++ [c]) t = Some t' /\ i_state (t_in t') = ground /\
    untouched t t'.
Proof.
  intros [Hl _] Hst Hps Hc Hbad. pose proof (collect_end_twice B _ (lv_w _ _ _ _ Hl)) as Hw.
  destruct (csi_run env t ps c (untouched t) Hst Hw Hps Hc) as (v & -> & Hv).
  2:{ eexists. split; [done|]. split; [done|]. by eapply untouched_trans. }
  intros w [Hs Hu Hi Hp Hd] _. unfold input_csi_dispatch. rewrite Hd.
  assert (Hex : exits (i_state (t_in w)) = false) by (by destruct Hs as [-> | ->]).
  case_bool_decide as Hlen; [by exists w|].
  assert (Hsplit : exists params, input_split w = (false, on_in (set_i_params params) w)).
  { assert (Hf : fst (split_fields (strsep 59 ps) []) = false).
    { destruct Hbad as [?|[?|(n & Hn & Hin)]]; [lia|by apply split_fields_many; cbn; lia|].
      eapply split_fields_bad; [exact Hin|by apply large_number]. }
    unfold input_split. rewrite Hp, take_ge by lia. destruct ps as [|ch ps].
    - destruct Hbad as [?|[?|(n & Hn & Hin)]]; [cbn in *; lia|cbn in *; lia|].
      apply large_number in Hn. apply list_elem_of_singleton in Hin. by rewrite Hin in Hn.
    - destruct (split_fields _ _) as [ok params]. cbn in Hf. subst ok. by eexists. }
  destruct Hsplit as [params ->]. cbn [negb]. eexists. split; [done|]. split; [done|].
  by eapply untouched_trans.
Qed.

(** ** The position of the cursor *)

(** CSI r ; c H and CSI 6 n. *)
Definition cup (r c : Z) : string := ESC +:+ "[" +:+ fmt_u r +:+ ";" +:+ fmt_u c +:+ "H".
Definition dsr : string := ESC +:+ "[6n".

Lemma cup_bytes r c : bytes_of_string (cup r c) = 27 :: 91 :: two_numbers r c ++ [72].
Proof. unfold cup, two_numbers. by rewrite !bytes_app, <- !app_assoc. Qed.

Lemma cursormove_to B c px py : idle B c -> s_has (c_s c) MODE_ORIGIN = false ->
  0 <= px < 2147483647 -> 0 <= py < 2147483647 ->
  let c' := screen_write_cursormove px py true c in
  c_text c' = [] /\ screen_size_x (c_s c') = c_sx c /\ screen_size_y (c_s c') = c_sy c /\
  c_cx c' = Z.min px (c_sx c - 1) /\ c_cy c' = Z.min py (c_sy c - 1).
Proof.
  intros [Hs _ Ht] Ho Hx Hy. unfold screen_write_cursormove. rewrite Ho, andb_false_r.
  pose proof (gs_sx _ _ (ss_grid _ _ Hs)). pose proof (gs_sy _ _ (ss_grid _ _ Hs)).
  pose proof (gs_bound _ _ (ss_grid _ _ Hs)). pose proof (gs_one _ _ (ss_grid _ _ Hs)).
  unfold c_sx, c_sy, c_cx, c_cy in *. unfold screen_size_x, screen_size_y in *.
  set (sx := g_sx (s_grid (c_s c))) in *. set (sy := g_sy (s_grid (c_s c))) in *.
  rewrite (proj2 (Z.eqb_neq px (-1))), (proj2 (Z.eqb_neq py (-1))) by lia. cbn [negb andb].
  rewrite !u32_small by lia. rewrite !s32_small by lia.
  set (x := if sx - 1 <? px then sx - 1 else px). set (y := if sy - 1 <? py then sy - 1 else py).
  assert (Ex : x = Z.min px (sx - 1)) by (unfold x; destruct (Z.ltb_spec (sx - 1) px); lia).
  assert (Ey : y = Z.min py (sy - 1)) by (unfold y; destruct (Z.ltb_spec (sy - 1) py); lia).
  clearbody x y. unfold screen_write_set_cursor. rewrite !s32_small by lia.
  rewrite (proj2 (Z.eqb_neq x (-1))), (proj2 (Z.eqb_neq y (-1))) by lia. cbn [negb andb].
  unfold c_cx, c_cy. rewrite !u32_small by lia. destruct (_ && _) eqn:E.
  - apply andb_true_iff in E as [E1 E2]. rewrite andb_true_r in E1.
    apply Z.eqb_eq in E1, E2. split_and!; [done|done|done|lia|lia].
  - cbn. unfold place. rewrite !u32_small by lia.
    rewrite (proj2 (Z.eqb_neq x (-1))), (proj2 (Z.eqb_neq y (-1))) by lia. unfold screen_size_x, screen_size_y.
    fold sx sy. rewrite !u32_small by lia.
    destruct (Z.ltb_spec sx x), (Z.ltb_spec (sy - 1) y); split_and!; try done; lia.
Qed.

Lemma collect_end_idle B c : idle B c -> screen_write_collect_end c = c.
Proof. intros [_ _ Ht]. unfold screen_write_collect_end. by rewrite Ht. Qed.

Lemma run_cup B env r c t : idle B (t_w t) -> i_state (t_in t) = ground ->
  1 <= r <= INT_MAX -> 1 <= c <= INT_MAX ->
  exists t', input_parse env (27 :: 91 :: two_numbers r c ++ [72]) t = Some t' /\
    i_state (t_in t') = ground /\ t_out t' = t_out t /\ i_requests (t_in t') = i_requests (t_in t) /\
    t_w t' = screen_write_cursormove (c - 1) (r - 1) true (t_w t).
Proof.
  intros Hi Hst Hr Hc. pose proof (collect_end_idle B _ Hi) as Hend.
  destruct (csi_two env t r c 72 INPUT_CSI_CUP (fun v => t_w v = screen_write_cursormove (c - 1)
    (r - 1) true (t_w t) /\ t_out v = t_out t /\ i_requests (t_in v) = i_requests (t_in t)))
    as (v & -> & Hw & Ho & Hq); try done; try lia; [by rewrite !Hend| |by eexists].
  intros w [] Hp. cbn [csi_command]. unfold input_get. rewrite Hp. cbn [get_param lookup list_lookup].
  destruct (Z.ltb_spec r 1); [lia|]. destruct (Z.ltb_spec c 1); [lia|].
  rewrite (proj2 (Z.eqb_neq r (-1))), (proj2 (Z.eqb_neq c (-1))) by lia. cbn [orb].
  eexists. split; [done|]. split; [done|]. cbn [t_w on_w t_out t_in]. by rewrite un_w, Hend.
Qed.

Lemma run_dsr B env t : idle B (t_w t) -> i_state (t_in t) = ground -> i_requests (t_in t) = [] ->
  ie_event env = true ->
  exists t', input_parse env (bytes_of_string dsr) t = Some t' /\ t_w t' = t_w t /\
    t_out t' = t_out t ++ [Sent (ESC +:+ "[" +:+ fmt_u (u32 (s_cy (screen_of t) + 1)) +:+ ";" +:+
                                 fmt_u (u32 (s_cx (screen_of t) + 1)) +:+ "R")].
Proof.
  intros Hi Hst Hq Hev. pose proof (collect_end_idle B _ Hi) as Hend.
  change (bytes_of_string dsr) with (27 :: 91 :: one_number 6 ++ [110]).
  destruct (csi_one env t 6 110 INPUT_CSI_DSR (fun v => t_w v = t_w t /\ t_out v = t_out t ++
    [Sent (ESC +:+ "[" +:+ fmt_u (u32 (s_cy (screen_of t) + 1)) +:+ ";" +:+
           fmt_u (u32 (s_cx (screen_of t) + 1)) +:+ "R")]))
    as (v & -> & Hw & Ho); try done; try (unfold INT_MAX; lia); [by rewrite !Hend| |by eexists].
  intros w [] Hp. cbn [csi_command]. unfold input_get. rewrite Hp. cbn [get_param lookup list_lookup].
  change (6 <? 0) with false. cbn iota. unfold input_reply. rewrite un_requests, Hq.
  unfold input_send_reply. rewrite Hev. eexists. split; [done|]. split; [done|].
  cbn [emit t_w t_out]. unfold screen_of. by rewrite un_w, un_out, Hend.
Qed.

(** C11. The cursor is where a program puts it: after CSI r ; c H the report
    of CSI 6 n is CSI r ; c R, with a row or column beyond the screen taken as
    the last one. *)
Theorem input_cursor_report B env r c t : input_ok B env t -> i_state (t_in t) = ground ->
  c_text (t_w t) = [] -> i_requests (t_in t) = [] -> ie_event env = true ->
  s_has (screen_of t) MODE_ORIGIN = false -> 1 <= r <= INT_MAX -> 1 <= c <= INT_MAX ->
  let row := Z.min r (screen_size_y (screen_of t)) in
  let column := Z.min c (screen_size_x (screen_of t)) in
  exists t', input_parse env (bytes_of_string (cup r c +:+ dsr)) t = Some t' /\
    s_cy (screen_of t') = row - 1 /\ s_cx (screen_of t') = column - 1 /\
    t_out t' = t_out t ++ [Sent (ESC +:+ "[" +:+ fmt_u row +:+ ";" +:+ fmt_u column +:+ "R")].
Proof.
  intros [Hl _] Hst Htext Hreq Hev Ho Hr Hc row column.
  assert (Hi : idle B (t_w t)) by (by destruct (lv_w _ _ _ _ Hl)).
  pose proof (id_screen _ _ Hi) as Hs. pose proof (gs_sx _ _ (ss_grid _ _ Hs)).
  pose proof (gs_sy _ _ (ss_grid _ _ Hs)). pose proof (gs_bound _ _ (ss_grid _ _ Hs)).
  pose proof (gs_one _ _ (ss_grid _ _ Hs)).
  destruct (cursormove_to B (t_w t) (c - 1) (r - 1) Hi Ho) as (_ & _ & _ & Hcx & Hcy);
    [unfold INT_MAX in *; lia..|]. unfold c_cx, c_cy, c_sx, c_sy in Hcx, Hcy.
  rewrite bytes_app, cup_bytes, parse_app.
  destruct (run_cup B env r c t Hi Hst Hr Hc) as (t1 & -> & Hst1 & Ho1 & Hq1 & Hw1).
  cbn [mbind option_bind]. assert (Hi1 : idle B (t_w t1)) by (rewrite Hw1; by apply cursormove_idle).
  destruct (run_dsr B env t1 Hi1 Hst1) as (t2 & -> & Hw2 & Ho2); [congruence|done|].
  exists t2. split; [done|]. unfold row, column. unfold screen_of in *. rewrite Hw2.
  unfold screen_size_x, screen_size_y in *. rewrite Hw1 in *. rewrite Hcx, Hcy in *.
  split_and!; [lia|lia|]. rewrite Ho2, Ho1, !u32_small by lia. repeat f_equal; lia.
Qed.

End Props.

(** ** Instances *)

(** An OSC title, colours and a wrapped line. *)
Definition some_bytes : list Z := bytes_of_string (ESC +:+ "]0;title" +:+ BEL +:+ ESC +:+ "[1;31mhello world").

Lemma some_bytes_range : Forall (fun ch => 0 <= ch < 256) some_bytes.
Proof. vm_compute. repeat constructor; discriminate. Qed.

Lemma input_parse_buffer_ok_witness : exists t',
  @input_parse_buffer plain_codec ascii_locale small_env some_bytes small_term = Some t' /\
  0 <= s_cx (screen_of t') <= screen_size_x (screen_of t').
Proof.
  destruct (@input_parse_buffer_ok plain_codec ascii_locale 100 small_env some_bytes small_term small_ok
    some_bytes_range) as (t' & E & _ & _ & _ & _ & _ & Hx & _).
  exists t'. split; [exact E|exact Hx].
Defined.

Lemma input_parse_refines_witness : exists t',
  @input_parse plain_codec ascii_locale small_env [27; 93; 48] small_term = Some t' /\
  i_state (t_in t') = osc_string.
Proof.
  destruct (@input_parse_refines plain_codec ascii_locale 100 small_env [27; 93; 48] small_term small_ok)
    as (t' & E & _ & Es); [repeat constructor; lia|].
  exists t'. split; [exact E|]. rewrite Es. reflexivity.
Defined.

Lemma input_terminators_witness : exists t',
  @input_parse plain_codec ascii_locale small_env [27; 92; 27; 92] small_term = Some t' /\
  i_state (t_in t') = ground.
Proof.
  destruct (@input_terminators plain_codec ascii_locale 100 small_env small_term small_ok) as [E _].
  exact E.
Defined.

Lemma input_csi_discarded_witness : exists t',
  @input_parse plain_codec ascii_locale small_env (27 :: 91 :: repeat 49 64 ++ [65]) small_term = Some t' /\
  i_state (t_in t') = ground /\ @untouched plain_codec small_term t'.
Proof.
  apply (@input_csi_discarded plain_codec ascii_locale 100 small_env (repeat 49 64) 65 small_term small_ok
    eq_refl); [vm_compute; repeat constructor; discriminate|lia|left; vm_compute; lia].
Defined.

Lemma input_cursor_report_witness : exists t',
  @input_parse plain_codec ascii_locale small_env (bytes_of_string (cup 2 300 +:+ dsr)) small_term = Some t' /\
  t_out t' = [Sent (ESC +:+ "[2;10R")].
Proof.
  destruct (@input_cursor_report plain_codec ascii_locale 100 small_env 2 300 small_term small_ok
    eq_refl eq_refl eq_refl eq_refl eq_refl) as (t' & E & _ & _ & Eo); [unfold INT_MAX; lia..|].
  exists t'. split; [exact E|]. rewrite Eo. reflexivity.
Defined.
