(* ===== verification/ScreenProps.v ===== *)
(** * The properties of screens *)
From Stdlib Require Import Ascii String.
From S2P Require Import Prelude.
From S2P Require Import Utf8.
From S2P Require Import CellCodec.
From S2P Require Import Locale.
From S2P Require Import Grid.
From S2P Require Import GridFacts.
From S2P Require Import Reflow.
From S2P Require Import Screen.
From S2P Require Import ScreenInfo.
From S2P Require Import ScreenWrite.
From S2P Require Import GridSafe.
From S2P Require Import ScreenSafe.
From S2P Require Import ScreenWriteSafe.
From S2P Require Import Input.
From S2P Require Import InputProps.

Section Props.
Context `{CellCodec} (B : Z).
Notation screen_safe := (screen_safe B).

(** ** The alternate screen *)

(** The lines on the screen. *)
Definition visible (s : screen) : list grid_line :=
  drop (Z.to_nat (screen_hsize s)) (linedata (s_grid s)).

(** What a screen keeps while it is the alternate one. *)
Record held (s1 s2 : screen) : Prop := Held {
  he_grid : s_saved_grid s2 = s_saved_grid s1;
  he_cx : s_saved_cx s2 = s_saved_cx s1;
  he_cy : s_saved_cy s2 = s_saved_cy s1;
  he_cell : s_saved_cell s2 = s_saved_cell s1;
  he_flags : s_saved_flags s2 = s_saved_flags s1;
  he_sx : screen_size_x s2 = screen_size_x s1;
  he_sy : screen_size_y s2 = screen_size_y s1
}.

Lemma fold_flags {A} (f : grid -> A -> grid) l : (forall g x, g_flags (f g x) = g_flags g) ->
  forall g, g_flags (foldl f g l) = g_flags g.
Proof. intros Hf. induction l as [|x l IH]; intros g; [done|]. cbn [foldl]. by rewrite IH. Qed.

Lemma view_clear_flags gd px py nx ny bg : g_flags (grid_view_clear gd px py nx ny bg) = g_flags gd.
Proof.
  unfold grid_view_clear, grid_clear, grid_clear_lines.
  repeat case_match; cbn; by rewrite ?fold_flags.
Qed.

(** The saved grid holds the lines that were visible. *)
Lemma alternate_on_saved s gc : screen_safe s -> screen_is_alternate s = false ->
  let s1 := screen_alternate_on s gc true in
  (exists gd, s_saved_grid s1 = Some gd /\ linedata gd = visible s /\ hsize gd = 0 /\
     g_sx gd = screen_size_x s /\ g_sy gd = screen_size_y s) /\
  s_saved_cx s1 = s_cx s /\ s_saved_cy s1 = s_cy s /\ s_saved_cell s1 = gc /\
  s_saved_flags s1 = g_flags (s_grid s).
Proof.
  intros Hs Hn s1. subst s1. unfold screen_alternate_on. rewrite Hn.
  pose proof (ss_grid _ _ Hs) as Hg. pose proof (gs_length _ _ Hg). pose proof (gs_hsize _ _ Hg).
  pose proof (gs_sy _ _ Hg). split; [|split_and!; try done; apply view_clear_flags].
  eexists. split; [reflexivity|].
  pose proof (copied_lines (s_grid s) (grid_create (screen_size_x s) (screen_size_y s) 0) 0
    (Z.to_nat (screen_hsize s)) (Z.to_nat (screen_size_y s))) as Hc.
  unfold screen_hsize, screen_size_y, screen_size_x in *. rewrite !Z2Nat.id in Hc by lia.
  change (Z.of_nat 0) with 0 in Hc. rewrite Hc;
    [|cbn; rewrite length_replicate; lia|lia|cbn; rewrite length_replicate; lia|lia].
  cbn. rewrite drop_replicate, Nat.sub_diag, app_nil_r. split_and!; try done.
  rewrite take_0, app_nil_l. unfold visible, screen_hsize. rewrite take_ge; [done|rewrite length_drop; lia].
Qed.

Lemma resize_here s reflow : 1 <= screen_size_x s -> 1 <= screen_size_y s -> 0 <= screen_hsize s ->
  0 <= s_cy s -> screen_hsize s + s_cy s < 4294967296 ->
  screen_resize s (screen_size_x s) (screen_size_y s) reflow = Some (set_s_cursor (s_cx s) (s_cy s) s).
Proof.
  intros Hx Hy Hh Hc Hb. unfold screen_resize, screen_resize_cursor.
  rewrite (proj2 (Z.ltb_ge _ 1) Hx), (proj2 (Z.ltb_ge _ 1) Hy), !Z.eqb_refl. cbn [negb].
  rewrite Z.eqb_refl. cbn [negb mbind option_bind].
  rewrite u32_small by lia. rewrite (proj2 (Z.leb_le _ _)) by lia. do 2 f_equal. lia.
Qed.

(** C10. Leaving the alternate screen gives back what was on the screen when it
    was entered: whatever has been written meanwhile, the lines of the screen,
    the cursor (from after the last column, to it), the cell and the flag that
    lines go to the history are as they were; the history is not touched. *)
Theorem screen_alternate_restores s gc s2 : screen_safe s -> screen_is_alternate s = false ->
  let s1 := screen_alternate_on s gc true in
  screen_safe s2 -> held s1 s2 ->
  screen_size_x s2 = screen_size_x s -> screen_size_y s2 = screen_size_y s ->
  exists s3, screen_alternate_off s2 true = Some (s3, Some gc) /\
    screen_is_alternate s3 = false /\ visible s3 = visible s /\
    s_cx s3 = Z.min (s_cx s) (screen_size_x s - 1) /\ s_cy s3 = s_cy s /\
    take (Z.to_nat (screen_hsize s2)) (linedata (s_grid s3)) =
      take (Z.to_nat (screen_hsize s2)) (linedata (s_grid s2)) /\
    (has (g_flags (s_grid s)) GRID_HISTORY = true -> has (g_flags (s_grid s3)) GRID_HISTORY = true).
Proof.
  intros Hs Hn s1 Hs2 [Hg Hcx Hcy Hcell Hfl _ _] Hsx Hsy.
  destruct (alternate_on_saved s gc Hs Hn) as ((gd & Egd & Hl & Hh & Hgx & Hgy) & E1 & E2 & E3 & E4).
  fold s1 in Egd, E1, E2, E3, E4. rewrite Egd in Hg. rewrite E1 in Hcx. rewrite E2 in Hcy.
  rewrite E3 in Hcell. rewrite E4 in Hfl. clearbody s1. clear Egd E1 E2 E3 E4.
  pose proof (ss_grid _ _ Hs2) as G2. pose proof (gs_sx _ _ G2) as Gx. pose proof (gs_sy _ _ G2) as Gy.
  pose proof (gs_hsize _ _ G2) as Gh. pose proof (gs_bound _ _ G2) as Gb. pose proof (gs_length _ _ G2) as Gl.
  pose proof (ss_cy _ _ Hs2) as C2. pose proof (ss_cx _ _ Hs) as C1. pose proof (ss_cy _ _ Hs) as C1'.
  assert (Hdup : grid_duplicate_lines (s_grid s2) (hsize (s_grid s2)) gd 0 (g_sy gd) =
    set_linedata (take (Z.to_nat (hsize (s_grid s2))) (linedata (s_grid s2)) ++ visible s) (s_grid s2)).
  { pose proof (copied_lines gd (s_grid s2) (Z.to_nat (hsize (s_grid s2))) 0 (Z.to_nat (g_sy gd))) as Hc.
    pose proof (gs_length _ _ (ss_grid _ _ Hs)) as L1. pose proof (gs_hsize _ _ (ss_grid _ _ Hs)).
    unfold screen_size_y, screen_size_x in *.
    assert (Hlg : Z.of_nat (length (linedata gd)) = g_sy gd).
    { rewrite Hl. unfold visible, screen_hsize. rewrite length_drop. lia. }
    rewrite !Z2Nat.id in Hc by lia. change (Z.of_nat 0) with 0 in Hc. rewrite Hc by lia.
    rewrite drop_0, (take_ge (linedata gd)), Hl by lia.
    rewrite (drop_ge (linedata (s_grid s2))) by lia. by rewrite app_nil_r. }
  unfold screen_alternate_off. rewrite Hg, Hgx, Hgy, <- Hsx, <- Hsy.
  unfold screen_size_x, screen_size_y, screen_hsize in *.
  rewrite resize_here by (unfold screen_size_x, screen_size_y, screen_hsize; lia).
  cbn -[screen_resize grid_duplicate_lines clamp_cursor Z.eqb has Z.lor Z.to_nat Z.min Z.leb UINT_MAX take drop visible screen_is_alternate].
  rewrite Hcx, Hcy, Hcell.
  rewrite !(proj2 (Z.eqb_neq _ UINT_MAX)) by (unfold UINT_MAX; lia).
  cbn -[screen_resize grid_duplicate_lines clamp_cursor Z.eqb has Z.lor Z.to_nat Z.min Z.leb take drop visible screen_is_alternate].
  rewrite Hg, Hdup.
  rewrite Hfl. set (b := has (g_flags (s_grid s)) GRID_HISTORY).
  match goal with |- context [screen_resize ?X _ _ _] => set (s4 := X) end.
  assert (E4 : screen_size_x s4 = g_sx (s_grid s2) /\ screen_size_y s4 = g_sy (s_grid s2) /\
    screen_hsize s4 = hsize (s_grid s2) /\ s_cx s4 = s_cx s /\ s_cy s4 = s_cy s /\
    linedata (s_grid s4) =
      take (Z.to_nat (hsize (s_grid s2))) (linedata (s_grid s2)) ++ visible s /\
    (b = true -> has (g_flags (s_grid s4)) GRID_HISTORY = true)).
  { subst s4. destruct b; cbn; split_and!; try done. intros _. unfold has.
    apply negb_true_iff, Z.eqb_neq. rewrite Z.land_lor_distr_l. intros [_ Hz]%Z.lor_eq_0_iff. done. }
  clearbody s4. destruct E4 as (X1 & X2 & X3 & X4 & X5 & X6 & X7).
  rewrite <- X1, <- X2, resize_here by (unfold screen_size_x, screen_size_y, screen_hsize in *; lia).
  eexists. split; [reflexivity|]. unfold clamp_cursor, visible, screen_size_x, screen_size_y, screen_hsize in *.
  cbn.
  rewrite !u32_small by lia. rewrite X3, X4, X5, X6.
  split_and!; try done.
  - rewrite drop_app_length'; [done|]. rewrite length_take. lia.
  - destruct (Z.ltb_spec (g_sx (s_grid s4) - 1) (s_cx s)); lia.
  - destruct (Z.ltb_spec (g_sy (s_grid s4) - 1) (s_cy s)); lia.
  - rewrite take_app_length'; [done|]. rewrite length_take. lia.
Qed.

(** ** The stack of titles *)

Lemma resize_info s sx sy reflow s' : screen_resize s sx sy reflow = Some s' -> s_info s' = s_info s.
Proof.
  unfold screen_resize, screen_resize_cursor, screen_resize_y, screen_reflow. intros E.
  repeat first [case_match | progress simplify_option_eq | done].
Qed.

Lemma alternate_off_info s cursor s' gc :
  screen_alternate_off s cursor = Some (s', gc) -> s_info s' = s_info s.
Proof.
  unfold screen_alternate_off. intros E.
  repeat first [case_match | progress simplify_option_eq].
  all: repeat match goal with
       | Hr : screen_resize _ _ _ _ = Some _ |- _ => apply resize_info in Hr; cbn in Hr
       end; cbn; congruence.
Qed.

(** Spawning a pane again (screen_reinit) frees its stack of titles and
    keeps the number of them: after ten titles were pushed, the next push looks
    for the oldest title of an empty stack and dereferences NULL. *)
Theorem screen_reinit_keeps_ntitles s s' ek : titles_ok (s_info s) ->
  length (default [] (si_titles (s_info s))) = 10%nat ->
  screen_reinit ek s = Some s' -> si_titles (s_info s') = None /\ screen_push_title s' = None.
Proof.
  intros [Hn _] Hl E. rewrite Hl in Hn.
  assert (Hi : si_titles (s_info s') = None /\ si_ntitles (s_info s') = 10).
  { unfold screen_reinit in E. apply bind_Some in E as (s1 & E1 & E). injection E as <-.
    assert (Hi : s_info s1 = s_info s); [|cbn; by rewrite Hi].
    case_match; [|by injection E1 as <-].
    apply fmap_Some in E1 as ([s2 gc] & E2 & ->). by apply alternate_off_info in E2. }
  destruct Hi as [E1 E2]. split; [done|]. unfold screen_push_title. by rewrite E1, E2.
Qed.

End Props.

(** ** Examples *)

(** Something written at the last line of the alternate screen. *)
Definition scribbled : screen :=
  let s := screen_alternate_on (H:=plain_codec) small_screen grid_default_cell true in
  set_s_cursor 4 3 (set_s_grid
    (grid_view_set_cell (H:=plain_codec) (s_grid s) 3 3 (set_gc_fg 2 grid_default_cell)) s).

Lemma screen_alternate_restores_witness :
  exists s3, screen_alternate_off (H:=plain_codec) scribbled true = Some (s3, Some grid_default_cell) /\
    visible s3 = visible small_screen.
Proof.
  destruct (@screen_alternate_restores plain_codec 100 small_screen grid_default_cell scribbled)
    as (s3 & E & _ & Hv & _).
  - exact small_screen_safe.
  - done.
  - split; try done.
    + split; [vm_compute; repeat constructor; done|done..].
    + intros gd [= <-]. split; [|done]. split; [vm_compute; repeat constructor; done|done..].
    + split; [done|cbn; lia].
  - by split.
  - done.
  - done.
  - by exists s3.
Defined.

Lemma screen_reinit_keeps_ntitles_witness :
  exists s s', @screen_reinit plain_codec 0 s = Some s' /\ screen_push_title s' = None.
Proof.
  set (s := on_info (set_si_titles (Some (replicate 10 "a"%string)) 10) small_screen).
  exists s. eexists. split; [reflexivity|].
  by apply (@screen_reinit_keeps_ntitles plain_codec s _ 0).
Defined.
