(* ===== verification/TextProps.v ===== *)
(** * Printing text on a terminal *)
From Stdlib Require Import Ascii String.
From S2P Require Import Prelude.
From S2P Require Import Utf8.
From S2P Require Import Utf8Props.
From S2P Require Import CellCodec.
From S2P Require Import Locale.
From S2P Require Import Grid.
From S2P Require Import GridFacts.
From S2P Require Import ColourProps.
From S2P Require Import GridProps.
From S2P Require Import Reflow.
From S2P Require Import Screen.
From S2P Require Import ScreenInfo.
From S2P Require Import ScreenWrite.
From S2P Require Import InputTable.
From S2P Require Import Input.
From S2P Require Import InputOsc.
From S2P Require Import InputParse.
From S2P Require Import InputSafe.
From S2P Require Import InputMachine.
From S2P Require Import InputProps.

Section Edits.
Context `{CellCodec}.

(** The columns in [P] of the line [row] may have become default cells. *)
Record row_edit (row : Z) (P : Z -> Prop) (gd gd' : grid) : Prop := RowEdit {
  re_ok : grid_ok gd';
  re_hsize : hsize gd' = hsize gd;
  re_sx : g_sx gd' = g_sx gd;
  re_sy : g_sy gd' = g_sy gd;
  re_cells : forall px py, 0 <= px -> 0 <= py ->
    same_cell (grid_get_cell gd' px py) (grid_get_cell gd px py) \/
    (py = row /\ P px /\ empty_cell (grid_get_cell gd' px py))
}.

Lemma edit_none row P gd : grid_ok gd -> row_edit row P gd gd.
Proof. intros Hok. split; try done. intros. by left. Qed.

Lemma same_empty a b : same_cell a b -> empty_cell b -> empty_cell a.
Proof. by intros [-> |[]]. Qed.

Lemma edit_trans row P Q gd1 gd2 gd3 :
  row_edit row P gd1 gd2 -> row_edit row Q gd2 gd3 -> row_edit row (fun px => P px \/ Q px) gd1 gd3.
Proof.
  intros [H1 H2 H3 H4 H5] [K1 K2 K3 K4 K5]. split; [done|congruence..|]. intros px py Hx Hy.
  destruct (K5 px py Hx Hy) as [E|(E1 & E2 & E3)]; [|right; tauto].
  destruct (H5 px py Hx Hy) as [F|(F1 & F2 & F3)]; [left; by etrans|right].
  split_and!; [done|by left|by eapply same_empty].
Qed.

Lemma edit_weaken row (P Q : Z -> Prop) gd gd' : (forall px, P px -> Q px) ->
  row_edit row P gd gd' -> row_edit row Q gd gd'.
Proof.
  intros HPQ [H1 H2 H3 H4 H5]. split; try done. intros px py Hx Hy.
  destruct (H5 px py Hx Hy) as [|(? & ? & ?)]; [by left|right; auto].
Qed.

Lemma edit_default gd px row : grid_ok gd -> 0 <= px -> 0 <= row < hsize gd + g_sy gd ->
  row_edit row (eq px) gd (grid_set_cell gd px row grid_default_cell).
Proof.
  intros Hok Hpx Hrow.
  destruct (set_cell_reads gd px row _ _ Hok Hpx Hrow default_storable) as (H1 & H2 & H3 & H4 & H5 & H6).
  split; try done. intros px' py' Hx Hy.
  destruct (decide (px' = px /\ py' = row)) as [[-> ->]|Hne].
  - right. split_and!; [done..|]. rewrite H2. right. by left.
  - left. apply H3; [done..|]. lia.
Qed.

End Edits.

Section Contexts.
Context `{CellCodec} `{Locale}.

Notation gd_of c := (s_grid (c_s c)).
Definition row_of (c : write_ctx) : Z := grid_view_y (gd_of c) (c_cy c).

(** The cursor is on a line of the screen. *)
Record on_line (c : write_ctx) : Prop := OnLine {
  ol_grid : grid_ok (gd_of c);
  ol_cx : 0 <= c_cx c;
  ol_cy : 0 <= c_cy c < c_sy c
}.

Lemma row_range c : on_line c -> row_of c = hsize (gd_of c) + c_cy c /\
  0 <= row_of c < hsize (gd_of c) + g_sy (gd_of c).
Proof.
  intros [[] ? Hy]. unfold row_of, grid_view_y, c_sy, screen_size_y in *. rewrite u32_small by lia. lia.
Qed.

(** Only the grid has changed, and only in the columns [P] of the line. *)
Record edited (P : Z -> Prop) (c c' : write_ctx) : Prop := Edited {
  ed_ctx : c' = on_grid (fun _ => gd_of c') c;
  ed_row : row_edit (row_of c) P (gd_of c) (gd_of c')
}.

Lemma edited_line P c c' : on_line c -> edited P c c' ->
  on_line c' /\ row_of c' = row_of c /\ c_cx c' = c_cx c.
Proof.
  intros [Hg Hx Hy] [-> [H1 H2 H3 H4 _]]. unfold row_of, grid_view_y, c_cy, c_sy, c_cx, screen_size_y in *.
  cbn in *. split_and!; [|by rewrite H2|done]. split; [done..|]. unfold c_cy, c_sy, screen_size_y. cbn. by rewrite H4.
Qed.

Lemma edited_none P c : on_line c -> edited P c c.
Proof. intros [Hg _ _]. split; [by destruct c as [[]]|by apply edit_none]. Qed.

Lemma edited_trans (P Q R : Z -> Prop) c1 c2 c3 : on_line c1 -> edited P c1 c2 -> edited Q c2 c3 ->
  (forall px, P px -> R px) -> (forall px, Q px -> R px) -> edited R c1 c3.
Proof.
  intros Hl H1 H2 HP HQ. destruct (edited_line _ _ _ Hl H1) as (_ & Er & _).
  destruct H1 as [E1 H1], H2 as [E2 H2]. split.
  - rewrite E2 at 1. rewrite E1. done.
  - rewrite Er in H2. eapply edit_weaken; [|by eapply edit_trans]. cbn. intros px [?|?]; auto.
Qed.

Lemma edited_weaken (P Q : Z -> Prop) c c' : (forall px, P px -> Q px) -> edited P c c' -> edited Q c c'.
Proof. intros HPQ [H1 H2]. split; [done|by eapply edit_weaken]. Qed.

Lemma edited_put px c : on_line c -> 0 <= px -> edited (eq px) c (put_view px grid_default_cell c).
Proof.
  intros Hl Hpx. destruct (row_range c Hl) as [_ Hr]. split; [done|].
  apply edit_default; [apply Hl|done|done].
Qed.

Lemma erase_right_edit n : forall xx c, on_line c -> 0 <= xx ->
  edited (fun px => xx <= px) c (erase_right n xx grid_default_cell c).
Proof.
  induction n as [|n IH]; intros xx c Hl Hxx; cbn [erase_right]; [by apply edited_none|].
  case_match; [by apply edited_none|]. pose proof (edited_put xx c Hl Hxx) as He.
  eapply edited_trans; [done|exact He|apply IH; [by eapply edited_line|lia]|cbn; lia..].
Qed.

Lemma erase_left_edit n : forall xx c, on_line c -> Z.of_nat n <= xx ->
  0 <= fst (erase_left n xx c) <= xx /\ edited (fun px => px <= xx) c (snd (erase_left n xx c)).
Proof.
  induction n as [|n IH]; intros xx c Hl Hxx; cbn [erase_left].
  { split; [cbn; lia|by apply edited_none]. }
  case_match; [split; [cbn; lia|by apply edited_none]|].
  pose proof (edited_put xx c Hl ltac:(lia)) as He.
  destruct (IH (xx - 1) _ (proj1 (edited_line _ _ _ Hl He)) ltac:(lia)) as [Hr He'].
  split; [lia|]. eapply edited_trans; [done|exact He|exact He'|cbn; lia..].
Qed.

(** The cell of the cursor is part of a wide character before it. *)
Definition cuts (gd : grid) (px row : Z) : Prop := is_padding (grid_get_cell gd px row) = true.

Lemma clear_before_edit c : on_line c ->
  edited (fun px => px <= c_cx c /\ cuts (gd_of c) (c_cx c) (row_of c)) c (clear_before c).
Proof.
  intros Hl. unfold cuts. destruct (is_padding _) eqn:Ec.
  2:{ assert (E : clear_before c = c); [|rewrite E; by apply edited_none].
      unfold clear_before. case_match; [done|]. pose proof (ol_cx _ Hl).
      destruct (Z.to_nat (c_cx c)); cbn [erase_left]; [by rewrite Z.eqb_refl|].
      unfold view_cell, grid_view_get_cell. unfold row_of in Ec. rewrite Ec. cbn [negb]. by rewrite Z.eqb_refl. }
  apply (edited_weaken (fun px => px <= c_cx c)); [done|].
  unfold clear_before. case_match; [by apply edited_none|].
  pose proof (ol_cx _ Hl). destruct (erase_left_edit (Z.to_nat (c_cx c)) (c_cx c) c Hl ltac:(lia)) as [Hr He].
  destruct (erase_left _ _ _) as [xx c1]. cbn in Hr, He. destruct (edited_line _ _ _ Hl He) as (Hl1 & _ & _).
  repeat case_match; try done.
  eapply edited_trans; [done|exact He|apply edited_put; [done|lia]|cbn; lia..].
Qed.

(** ** Storing the collected text *)

(** What the text leaves: its characters in their columns; other columns of the
    line may have lost a wide character that the text has cut. *)
Record text_shown (row cx : Z) (gc : grid_cell) (l : list Z) (gd gd' : grid) : Prop := TextShown {
  ts_ok : grid_ok gd';
  ts_hsize : hsize gd' = hsize gd;
  ts_sx : g_sx gd' = g_sx gd;
  ts_sy : g_sy gd' = g_sy gd;
  ts_text : forall i ch, l !! i = Some ch ->
    same_cell (grid_get_cell gd' (cx + Z.of_nat i) row) (char_cell gc ch);
  ts_line : forall px, 0 <= px -> px < cx \/ cx + Z.of_nat (length l) <= px ->
    same_cell (grid_get_cell gd' px row) (grid_get_cell gd px row) \/
    empty_cell (grid_get_cell gd' px row);
  ts_rows : forall px py, 0 <= px -> 0 <= py -> py <> row ->
    same_cell (grid_get_cell gd' px py) (grid_get_cell gd px py);
  ts_left : ~ cuts gd cx row -> forall px, 0 <= px < cx ->
    same_cell (grid_get_cell gd' px row) (grid_get_cell gd px row);
  ts_next : cx + Z.of_nat (length l) < g_sx gd -> ~ cuts gd' (cx + Z.of_nat (length l)) row
}.

Lemma edit_text_edit row cx gc l gd gd1 gd2 : 0 <= cx -> 0 <= row < hsize gd + g_sy gd -> text_cell gc ->
  Forall (fun ch => 0 <= ch < 256) l -> row_edit row (fun px => px <= cx /\ cuts gd cx row) gd gd1 ->
  row_edit row (fun px => cx + Z.of_nat (length l) <= px) (grid_set_cells gd1 cx row gc l) gd2 ->
  (cx + Z.of_nat (length l) < g_sx gd -> ~ cuts gd2 (cx + Z.of_nat (length l)) row) ->
  text_shown row cx gc l gd gd2.
Proof.
  intros Hcx Hrow Hgc Hl [A1 A2 A3 A4 A5] [B1 B2 B3 B4 B5] Hnext.
  destruct (set_cells_ok gd1 cx row gc l A1 Hcx ltac:(lia) Hgc Hl) as (C1 & C2 & C3 & C4 & C5 & C6).
  split; [done|congruence..| | | | |exact Hnext].
  - intros i ch Hi. pose proof (lookup_lt_Some _ _ _ Hi). rewrite <- (C2 _ _ Hi).
    destruct (B5 (cx + Z.of_nat i) row) as [|(_ & ? & _)]; [lia|lia|done|lia].
  - intros px Hpx Hout. destruct (B5 px row) as [Eb|(_ & _ & Eb)]; [lia|lia| |by right].
    pose proof (C3 px row Hpx ltac:(lia) ltac:(lia)) as Ec.
    destruct (A5 px row) as [Ea|(_ & _ & Ea)]; [lia|lia| |].
    + left. rewrite Eb, Ec. exact Ea.
    + right. by eapply same_empty; [etrans; [exact Eb|exact Ec]|].
  - intros px py Hpx Hpy Hne.
    destruct (B5 px py) as [Eb|(? & _)]; [done|done| |done].
    destruct (A5 px py) as [Ea|(? & _)]; [done|done| |done].
    rewrite Eb, (C3 px py) by (done || lia). exact Ea.
  - intros Hc px Hpx. destruct (B5 px row) as [Eb|(_ & ? & _)]; [lia|lia| |lia].
    destruct (A5 px row) as [Ea|(_ & [_ ?] & _)]; [lia|lia| |done].
    rewrite Eb, (C3 px row) by lia. exact Ea.
Qed.

Lemma empty_no_padding gc : empty_cell gc -> is_padding gc = false.
Proof. intros [-> |[-> | ->]]; done. Qed.

(** No padding is left at the column the text ends before. *)
Lemma erase_right_next n xx c : on_line c -> 0 <= xx -> n <> O ->
  ~ cuts (gd_of (erase_right n xx grid_default_cell c)) xx (row_of c).
Proof.
  intros Hl Hxx Hn. destruct n as [|n]; [done|]. cbn [erase_right].
  destruct (is_padding (view_cell c xx)) eqn:E; cbn [negb]; [|unfold cuts; intros F; by rewrite (F : is_padding (view_cell c xx) = true) in E].
  pose proof (edited_put xx c Hl Hxx) as He. destruct (edited_line _ _ _ Hl He) as (Hl1 & Er & _).
  pose proof (erase_right_edit n (xx + 1) _ Hl1 ltac:(lia)) as [_ [_ _ _ _ Hc]]. rewrite Er in Hc.
  destruct (row_range c Hl) as [_ Hrow].
  destruct (Hc xx (row_of c)) as [Es|(_ & ? & _)]; [lia|lia| |lia].
  destruct (set_cell_reads (gd_of c) xx (row_of c) _ _ (ol_grid _ Hl) Hxx Hrow default_storable)
    as (_ & H2 & _).
  unfold cuts. rewrite empty_no_padding; [done|]. eapply same_empty; [exact Es|].
  assert (Ep : grid_get_cell (gd_of (put_view xx grid_default_cell c)) xx (row_of c) =
    grid_get_cell (grid_set_cell (gd_of c) xx (row_of c) grid_default_cell) xx (row_of c)) by done.
  rewrite Ep, H2. right. by left.
Qed.

Lemma advance x c : 0 <= x <= c_sx c -> c_sx c < 1073741824 ->
  screen_write_set_cursor (u32 x) (-1) c = on_s (set_s_cursor x (c_cy c)) c.
Proof.
  intros Hx Hsx. unfold screen_write_set_cursor. rewrite u32_small, s32_small by lia.
  change (s32 (-1)) with (-1). change (negb (-1 =? -1)) with false. rewrite andb_false_r. cbn [andb].
  unfold on_s, place, c_sx in *. cbv beta iota. rewrite (proj2 (Z.eqb_neq x (-1))) by lia. rewrite u32_small by lia.
  by rewrite (proj2 (Z.ltb_ge (screen_size_x (c_s c)) x)) by lia.
Qed.

Lemma collect_end_eq c : c_text c <> [] -> screen_write_collect_end c =
  let c2 := clear_before (new_item c) in
  let c3 := on_grid (fun gd => grid_view_set_cells gd (c_cx c2) (c_cy c2) (c_gc c) (c_text c)) c2 in
  let c4 := screen_write_set_cursor (u32 (c_cx c3 + Z.of_nat (length (c_text c)))) (-1) c3 in
  erase_right (Z.to_nat (c_sx c4 - c_cx c4)) (c_cx c4) grid_default_cell c4.
Proof. intros Hne. unfold screen_write_collect_end. by destruct (c_text c). Qed.

(** The collected text is stored and the cursor moves after it. *)
Lemma collect_end_text c : on_line c -> c_text c <> [] -> text_cell (c_gc c) ->
  Forall (fun ch => 0 <= ch < 256) (c_text c) -> c_sx c < 1073741824 ->
  c_cx c + Z.of_nat (length (c_text c)) <= c_sx c ->
  let cx := c_cx c + Z.of_nat (length (c_text c)) in
  exists gd', screen_write_collect_end c =
    new_item (on_s (set_s_cursor cx (c_cy c)) (on_grid (fun _ => gd') c)) /\
    text_shown (row_of c) (c_cx c) (c_gc c) (c_text c) (gd_of c) gd'.
Proof.
  intros Hl Hne Hgc Hb Hsx Hfit cx. pose proof (ol_cx _ Hl). pose proof (ol_cy _ Hl).
  destruct (row_range c Hl) as [_ Hrow].
  assert (Hl1 : on_line (new_item c)) by (by destruct Hl).
  pose proof (clear_before_edit _ Hl1) as He. destruct (edited_line _ _ _ Hl1 He) as (Hl2 & Er & Ecx).
  destruct He as [E2 He]. set (c2 := clear_before (new_item c)) in *.
  set (gd3 := grid_set_cells (gd_of c2) (c_cx c) (row_of c) (c_gc c) (c_text c)).
  set (c3 := on_s (set_s_cursor cx (c_cy c)) (on_grid (fun _ => gd3) (new_item c))).
  assert (Hg3 : grid_ok gd3 /\ hsize gd3 = hsize (gd_of c) /\ g_sx gd3 = g_sx (gd_of c) /\
    g_sy gd3 = g_sy (gd_of c)).
  { destruct He as [A1 A2 A3 A4 _]. cbn in A2, A3, A4.
    destruct (set_cells_ok (gd_of c2) (c_cx c) (row_of c) (c_gc c) (c_text c)) as (C1 & _ & _ & C4 & C5 & C6);
      [done|done|lia|done|done|]. unfold gd3. split_and!; [done|congruence..]. }
  destruct Hg3 as (G1 & G2 & G3 & G4).
  assert (Hput : on_grid (fun gd => grid_view_set_cells gd (c_cx c2) (c_cy c2) (c_gc c) (c_text c)) c2 =
    on_grid (fun _ => gd3) (new_item c)).
  { assert (HX : forall X, on_grid (fun _ => X) c2 = on_grid (fun _ => X) (new_item c))
      by (intros X; by rewrite E2).
    rewrite <- HX. unfold gd3. change (row_of c) with (row_of (new_item c)).
    by rewrite <- Er, <- (Ecx : c_cx c2 = c_cx c). }
  assert (E3 : screen_write_collect_end c = erase_right (Z.to_nat (c_sx c - cx)) cx grid_default_cell c3).
  { rewrite collect_end_eq by done. cbv zeta. fold c2. rewrite Hput.
    assert (Ea : c_sx (on_grid (fun _ => gd3) (new_item c)) = c_sx c)
      by (unfold c_sx, screen_size_x; cbn; by rewrite G3).
    rewrite advance by (rewrite ?Ea; unfold c_cx in *; cbn in *; lia).
    unfold c3. f_equal. f_equal. unfold c_sx, screen_size_x in *. cbn in *. by rewrite Ea. }
  assert (Hl3 : on_line c3).
  { split; [done|unfold c_cx; cbn; lia|]. unfold c_cy, c_sy, screen_size_y in *. cbn. by rewrite G4. }
  destruct (erase_right_edit (Z.to_nat (c_sx c - cx)) cx c3 Hl3 ltac:(lia)) as [E4 He4].
  rewrite <- E3 in E4, He4. eexists. split; [exact E4|].
  assert (Er3 : row_of c3 = row_of c) by (unfold row_of, grid_view_y; cbn; by rewrite G2).
  rewrite Er3 in He4. eapply edit_text_edit; [done|done|done|done|exact He|exact He4|].
  intros Hlt. rewrite <- Er3. rewrite E3. apply erase_right_next; [done|lia|].
  unfold c_sx, screen_size_x. fold cx in Hlt. lia.
Qed.

End Contexts.

(** ** Properties *)

Section Props.
Context `{CellCodec} `{Locale} (env : input_env).

Definition printable (ch : Z) : Prop := 0x20 <= ch < 0x7f.

(** Cells that differ in their character alone. *)
Definition same_pen (a b : grid_cell) : Prop := forall ch, char_cell a ch = char_cell b ch.

(** The pen is in order and the text it writes can be collected. *)
Record text_ready (t : term) : Prop := TextReady {
  rd_state : i_state (t_in t) = ground;
  rd_started : utf8started (i_chars (t_in t)) = false;
  rd_charset : uses_charset t = false;
  rd_pen : text_cell (set_gc_data (utf8_set 0x20) (cell_of t));
  rd_attr : has (gc_attr (cell_of t)) GRID_ATTR_CHARSET = false;
  rd_wrap : s_has (screen_of t) MODE_WRAP = true;
  rd_insert : s_has (screen_of t) MODE_INSERT = false;
  rd_sel : s_sel (screen_of t) = None
}.

(** The characters [l] have been printed and are still to be stored. *)
Record printing (t0 : term) (l : list Z) (t : term) : Prop := Printing {
  pr_ready : text_ready t;
  pr_screen : c_s (t_w t) = c_s (t_w t0);
  pr_text : c_text (t_w t) = l;
  pr_item : l <> [] -> text_cell (c_gc (t_w t)) /\ same_pen (c_gc (t_w t)) (cell_of t0);
  pr_pen : same_pen (cell_of t) (cell_of t0);
  pr_out : t_out t = t_out t0
}.

Lemma without_none f b : has f b = false -> without f b = f.
Proof.
  intros Hf. unfold has, without in *. apply negb_false_iff, Z.eqb_eq in Hf.
  rewrite <- (Z.lor_ldiff_and f b) at 2. by rewrite Hf, Z.lor_0_r.
Qed.

Lemma attr_off_none gc : has (gc_attr gc) GRID_ATTR_CHARSET = false -> attr_off GRID_ATTR_CHARSET gc = gc.
Proof. intros Hf. unfold attr_off. rewrite without_none by done. by destruct gc. Qed.

Lemma print_transition ch : printable ch ->
  exists a b, find_transition ground ch = Some (Tr a b (Some H_print) None).
Proof.
  intros Hp. assert (Hr : 0 <= ch - 0x20 < 95) by (unfold printable in Hp; lia).
  replace ch with ((ch - 0x20) + 0x20) by lia. revert Hr. generalize (ch - 0x20) as k. intros k Hk.
  revert k Hk. apply for_each_elim. cbv -[find_transition]. repeat split; by eexists _, _.
Qed.

Lemma collect_add_more gc c : collectable gc (c_s c) = true -> 0 <= c_cx c ->
  c_cx c + Z.of_nat (length (c_text c)) < c_sx c -> c_sx c < 1073741824 ->
  screen_write_collect_add (ie_write env) gc c =
  set_c_item (if (0 <? length (c_text c))%nat then c_gc c else gc)
    (c_text c ++ [nth 0 (ud_data (gc_data gc)) 0]) c.
Proof.
  intros Hc Hcx Hfit Hsx. unfold screen_write_collect_add. rewrite Hc. cbn [negb].
  rewrite !u32_small by lia.
  rewrite (proj2 (Z.ltb_ge (c_sx c - 1) (c_cx c))), (proj2 (Z.ltb_ge (c_sx c - 1 - c_cx c) _)) by lia.
  cbn [orb]. by rewrite (proj2 (Z.ltb_ge (c_sx c - 1) (c_cx c))) by lia.
Qed.

Lemma ready_collectable t ch : text_ready t -> printable ch ->
  collectable (set_gc_data (utf8_set ch) (cell_of t)) (screen_of t) = true.
Proof.
  intros [_ _ _ Hp Ha Hw Hi Hs] Hch. unfold collectable.
  pose proof (tc_tab _ Hp) as Ht. cbn in *. rewrite Hw, Hi, Hs, Ha, Ht. cbn. rewrite (proj2 (Z.ltb_lt _ _)); [done|]. apply Hch.
Qed.

(** What printing a character comes to. *)
Lemma input_print_ready t : text_ready t -> printable (ch_of t) -> 0 <= c_cx (t_w t) ->
  c_cx (t_w t) + Z.of_nat (length (c_text (t_w t))) < c_sx (t_w t) -> c_sx (t_w t) < 1073741824 ->
  let gc := set_gc_data (utf8_set (ch_of t)) (cell_of t) in
  let t' := input_print env t in
  i_state (t_in t') = i_state (t_in t) /\ utf8started (i_chars (t_in t')) = false /\ cell_of t' = gc /\
  uses_charset t' = uses_charset t /\ t_out t' = t_out t /\
  t_w t' = set_c_item (if (0 <? length (c_text (t_w t)))%nat then c_gc (t_w t) else gc)
             (c_text (t_w t) ++ [ch_of t]) (t_w t).
Proof.
  intros Hr Hch Hcx Hfit Hsx. pose proof (ready_collectable t _ Hr Hch) as Hc.
  destruct Hr as [_ Hs Hu _ Ha _ _ _].
  destruct t as [[[gc st g0 g1] sv sq ps [d started lc] ch state fl rq sg] w pal hl links out].
  cbn [t_in t_w i_chars utf8started cell_of i_cell ic_cell ch_of i_ch screen_of i_state t_out] in *.
  subst started. unfold input_print, input_stop_utf8, set_charset. cbn [t_in i_chars utf8started].
  change (uses_charset (set_chars _ _)) with
    (uses_charset (Term (Ictx (ICell gc st g0 g1) sv sq ps (Characters d false lc) ch state fl rq sg)
                     w pal hl links out)).
  rewrite Hu. unfold add_cell. cbn.
  assert (Ho : attr_off GRID_ATTR_CHARSET gc = gc) by by apply attr_off_none.
  rewrite Ho. rewrite collect_add_more by done. split_and!; try done. by apply attr_off_none.
Qed.

Lemma print_step t0 l t ch : printing t0 l t -> printable ch ->
  c_cx (t_w t0) + Z.of_nat (length l) < c_sx (t_w t0) -> 0 <= c_cx (t_w t0) ->
  c_sx (t_w t0) < 1073741824 ->
  exists t', parse_byte env (Some t) ch = Some t' /\ printing t0 (l ++ [ch]) t'.
Proof.
  intros [Hr Hs Ht Hi Hp Ho] Hch Hfit Hcx Hsx. destruct (print_transition ch Hch) as (a & b & E).
  rewrite (byte_at env ground ch _ t (rd_state _ Hr) E). unfold input_step.
  rewrite bool_decide_eq_true_2 by done. cbn [tr_handler tr_state run_handler mbind option_bind].
  set (t1 := on_in (set_i_ch ch) t).
  assert (Hr1 : text_ready t1) by (by destruct Hr).
  destruct (input_print_ready t1 Hr1 Hch) as (P1 & P2 & P3 & P4 & P5 & P6);
    [unfold c_cx, c_sx in *; cbn; rewrite ?Hs, ?Ht; done..|].
  rewrite decide_True by (rewrite P1; apply Hr). eexists. split; [done|].
  assert (E6 : c_s (t_w (input_print env t1)) = c_s (t_w t)) by (by rewrite P6).
  split.
  - destruct Hr. split; unfold screen_of in *; rewrite ?E6; try done; [by rewrite P1|by rewrite P4|..];
      by rewrite P3.
  - by rewrite E6.
  - rewrite P6. cbn. by rewrite Ht.
  - intros _. rewrite P6. cbn [c_gc set_c_item]. change (t_w t1) with (t_w t). rewrite Ht.
    destruct l as [|x l']; [|by apply Hi].
    split; [by destruct Hr as [_ _ _ []]; split|exact Hp].
  - rewrite P3. exact Hp.
  - by rewrite P5.
Qed.

Lemma print_run l : forall l0 t0 t, printing t0 l0 t -> Forall printable l ->
  c_cx (t_w t0) + Z.of_nat (length (l0 ++ l)) <= c_sx (t_w t0) -> 0 <= c_cx (t_w t0) ->
  c_sx (t_w t0) < 1073741824 ->
  exists t', input_parse env l t = Some t' /\ printing t0 (l0 ++ l) t'.
Proof.
  intros l0 t0 t Hp Hl. rewrite parse_each. revert l0 t Hp.
  induction Hl as [|ch l Hch Hl IH]; intros l0 t Hp Hfit Hcx Hsx.
  { exists t. split; [done|]. by rewrite app_nil_r. }
  rewrite length_app in Hfit. cbn [length] in Hfit.
  destruct (print_step t0 l0 t ch Hp Hch) as (t1 & E1 & Hp1); [lia|done|done|].
  destruct (IH (l0 ++ [ch]) t1 Hp1) as (t' & E' & Hp'); [rewrite !length_app; cbn; lia|done|done|].
  exists t'. split; [by cbn [foldl]; rewrite E1|]. by rewrite <- app_assoc in Hp'.
Qed.

Lemma shown_pen row cx a b l gd gd' : same_pen a b ->
  text_shown row cx a l gd gd' -> text_shown row cx b l gd gd'.
Proof.
  intros Hp Hts. destruct (Hts) as [? ? ? ? _ ? ? ? ?]. split; try done.
  intros i ch Hi. rewrite <- Hp. by apply (ts_text _ _ _ _ _ _ Hts).
Qed.

(** C7. Text on a terminal: when a program writes printable characters and they
    fit after the cursor, input_parse_buffer returns with each character in
    its column of the cursor's line, drawn with the attributes, the colours and
    the hyperlink the program has chosen, and the cursor after the last one
    (which may be after the last column). Nothing else of the screen changes:
    the other lines read as before, and so do the other columns of the line, but
    for the columns of a wide character that the text has cut. No reply is sent,
    and the parser is ready for more with the same attributes. *)
Theorem input_text_shown l t : text_ready t -> on_line (t_w t) -> Forall printable l -> l <> [] ->
  s_cx (screen_of t) + Z.of_nat (length l) <= screen_size_x (screen_of t) < 1073741824 ->
  let s := screen_of t in
  exists t' gd', input_parse_buffer env l t = Some t' /\
    screen_of t' = set_s_cursor (s_cx s + Z.of_nat (length l)) (s_cy s) (set_s_grid gd' s) /\
    text_shown (grid_view_y (s_grid s) (s_cy s)) (s_cx s) (cell_of t) l (s_grid s) gd' /\
    t_out t' = t_out t ++ [Changed] /\ i_state (t_in t') = ground /\ same_pen (cell_of t') (cell_of t).
Proof.
  intros Hr Hl Hb Hne [Hfit Hsx] s. pose proof (ol_cx _ Hl) as Hcx.
  set (t0 := on_w new_item (emit Changed t)).
  assert (Hp0 : printing t0 [] t0) by (split; [by destruct Hr|done..]).
  destruct (print_run l [] t0 t0 Hp0 Hb Hfit Hcx Hsx) as (t1 & E & [H1 H2 H3 H4 H5 H6]).
  destruct (H4 Hne) as [Hg Hpen]. change ([] ++ l) with l in *.
  destruct (collect_end_text (t_w t1)) as (gd' & Ee & Hsh).
  - destruct Hl as [G1 G2 G3]. split; unfold c_cx, c_cy, c_sy in *; rewrite H2; done.
  - by rewrite H3.
  - done.
  - rewrite H3. eapply Forall_impl; [exact Hb|]. unfold printable. cbn. lia.
  - unfold c_sx. by rewrite H2.
  - unfold c_cx, c_sx. by rewrite H2, H3.
  - unfold row_of, c_cx, c_cy in *. rewrite H3 in *. rewrite H2 in *.
    exists (on_w screen_write_stop t1), gd'. split_and!.
    + unfold input_parse_buffer. destruct l; [done|]. by fold t0; rewrite E.
    + unfold screen_of, screen_write_stop. cbn [t_w on_w]. rewrite Ee. cbn. by rewrite H2.
    + by eapply shown_pen.
    + cbn. by rewrite H6.
    + apply H1.
    + exact H5.
Qed.

End Props.

Lemma small_ready : text_ready small_term.
Proof. split; try done. split; cbn; try done; right; left; lia. Qed.

Lemma small_on_line : on_line (t_w small_term).
Proof. split; [|done..]. apply grid_okb_sound. by vm_compute. Qed.

Lemma input_text_shown_witness :
  exists t', @input_parse_buffer plain_codec ascii_locale small_env [104; 105; 33] small_term = Some t' /\
    s_cx (screen_of t') = 3.
Proof.
  destruct (@input_text_shown plain_codec ascii_locale small_env [104; 105; 33] small_term)
    as (t' & gd' & E & Es & _).
  - apply small_ready.
  - apply small_on_line.
  - repeat constructor; done.
  - done.
  - done.
  - exists t'. split; [exact E|]. by rewrite Es.
Defined.
