(* ===== verification/GridStringProps.v ===== *)
(** * A captured line, printed again

    The bytes [grid_string_cells] makes of a line with its attributes, read by
    the parser of a terminal, draw the same cells. *)
From Stdlib Require Import Ascii String.
From S2P Require Import Prelude.
From S2P Require Import CString.
From S2P Require Import Utf8.
From S2P Require Import CellCodec.
From S2P Require Import Locale.
From S2P Require Import Grid.
From S2P Require Import GridFacts.
From S2P Require Import GridProps.
From S2P Require Import Colour.
From S2P Require Import ColourProps.
From S2P Require Import Reflow.
From S2P Require Import Screen.
From S2P Require Import ScreenInfo.
From S2P Require Import GridString.
From S2P Require Import ScreenWrite.
From S2P Require Import InputTable.
From S2P Require Import Input.
From S2P Require Import InputOsc.
From S2P Require Import InputParse.
From S2P Require Import InputSafe.
From S2P Require Import InputMachine.
From S2P Require Import GridStringFacts.
From S2P Require Import InputProps.
From S2P Require Import TextProps.

(** ** The bytes of a code *)












Section Replay.
Context `{CellCodec} `{Locale} (env : input_env).

(** ** One sequence *)



(** ** What has been drawn *)





(** ** Between two bytes of the line *)





Lemma text_cell_data pen gc : text_cell (set_gc_data (utf8_set 0x20) pen) -> same_pen gc pen ->
  ud_size (gc_data gc) = 1 -> ud_width (gc_data gc) = 1 -> text_cell gc.
Proof.
  intros [T1 T2 T3 T4 T5 T6 T7 T8] Hs Hz Hw. specialize (Hs 0). unfold char_cell in Hs.
  injection Hs as E1 E2 E3 E4 E5 E6. cbn in *. by split; rewrite ?E1, ?E2, ?E3, ?E4.
Qed.

Section Line.
Variables (t0 : term).
Hypothesis (Hline : on_line (t_w t0)) (Hsx : c_sx (t_w t0) < 1073741824).
Notation cx := (c_cx (t_w t0)).
Notation row := (row_of (t_w t0)).





End Line.
End Replay.

(** ** The code of a cell *)













Section Code.
Context `{CellCodec} `{Locale} (env : input_env).
Variables (t0 : term).
Hypothesis (Hline : on_line (t_w t0)) (Hsx : c_sx (t_w t0) < 1073741824).
Notation fits l := (c_cx (t_w t0) + Z.of_nat (length l) <= c_sx (t_w t0)).






Variables (gd : grid) (py flags : Z).
Hypothesis (Hwith : has flags GRID_STRING_WITH_SEQUENCES = true)
  (Hesc : has flags GRID_STRING_ESCAPE_SEQUENCES = false).



End Code.

Section Props.
Context `{CellCodec} `{Locale} (env : input_env).



End Props.

(** ** A line to try it on *)





(** An overlined cell is captured as [5:3], which is no attribute. *)
Lemma overline_lost pen :
  let gc := set_gc_attr GRID_ATTR_OVERLINE grid_default_cell in
  fst (grid_string_cells_code grid_default_cell gc code_len 1 None false) = [27; 91] ++ [53; 58; 51] ++ [109] /\
  input_csi_dispatch_sgr_colon [53; 58; 51] pen = pen.
Proof. split; [by vm_compute|by destruct pen]. Qed.
