(* ===== verification/History.v ===== *)
(** * The history of a closed pane (src/tmux/commands/cmd-newmux-recovery.c)

    When a pane or window is soft-deleted its screen is copied into its
    history, so that a clear by the shell at its return loses nothing; the
    histories of a restored window are compared with snapshots taken before. *)
From S2P Require Import Prelude.
From S2P Require Import Utf8.
From S2P Require Import CellCodec.
From S2P Require Import Grid.
From S2P Require Import Screen.

Section History.
Context `{CellCodec}.

Definition newmux_grid_line_equal (gd1 : grid) (py1 : Z) (gd2 : grid) (py2 : Z) : bool :=
  match grid_peek_line gd1 py1, grid_peek_line gd2 py2 with
  | Some gl1, Some gl2 =>
      (cellused gl1 =? cellused gl2) && (gl_flags gl1 =? gl_flags gl2) &&
      forallb (fun xx => grid_cells_equal (grid_get_cell gd1 xx py1) (grid_get_cell gd2 xx py2))
        (seqZ 0 (Z.max (g_sx gd1) (g_sx gd2)))
  | _, _ => false
  end.

Definition newmux_alternate_saved_grid_in_history (s : screen) : bool :=
  let gd := s_grid s in
  match s_saved_grid s with
  | None => false
  | Some saved =>
      if (g_sy saved =? 0) || (hsize gd <? g_sy saved) then false
      else forallb (fun yy => newmux_grid_line_equal gd (hsize gd - g_sy saved + yy) saved yy)
             (seqZ 0 (g_sy saved))
  end.

Definition newmux_visible_grid_in_history (s : screen) : bool :=
  let gd := s_grid s in
  if (g_sy gd =? 0) || (hsize gd <? g_sy gd) then false
  else forallb (fun yy => newmux_grid_line_equal gd (hsize gd - g_sy gd + yy) gd (hsize gd + yy))
         (seqZ 0 (g_sy gd)).

(** A zeroed line is put at the end of the history and the line copied to it. *)
Definition newmux_grid_insert_history_line (gd src : grid) (src_y : Z) : grid :=
  let l := linedata gd in
  let h := Z.to_nat (hsize gd) in
  let gd := set_linedata (take h l ++ gl_zero :: take (Z.to_nat (g_sy gd)) (drop h l)) gd in
  let gd := set_hsize (u32 (hsize gd + 1)) gd in
  grid_duplicate_lines gd (hsize gd - 1) src src_y 1.

Definition insert_history_lines (gd src : grid) : grid :=
  foldl (fun gd yy => newmux_grid_insert_history_line gd src yy) gd (seqZ 0 (g_sy src)).

Definition newmux_preserve_visible_grid (s : screen) : screen :=
  let gd := s_grid s in
  if (g_sy gd =? 0) || newmux_visible_grid_in_history s then s
  else
    let snapshot := grid_duplicate_lines (grid_create (g_sx gd) (g_sy gd) 0) 0 gd (hsize gd)
                      (g_sy gd) in
    set_s_grid (grid_collect_history (insert_history_lines gd snapshot) true) s.

Definition newmux_preserve_alternate_saved_grid (s : screen) : screen :=
  match s_saved_grid s with
  | None => s
  | Some saved =>
      if newmux_alternate_saved_grid_in_history s then s
      else set_s_grid (grid_collect_history (insert_history_lines (s_grid s) saved) true) s
  end.

Definition newmux_preserve_pane_history (s : screen) : screen :=
  newmux_preserve_alternate_saved_grid (newmux_preserve_visible_grid s).

(** ** Snapshots *)

Record newmux_pane_history_snapshot := Snapshot {
  sn_pane_id : Z;
  sn_hsize : Z;
  sn_grid : grid
}.

(** The snapshots of the panes that have a history, in the order of the panes. *)
Definition newmux_history_snapshots_take (panes : list (Z * screen)) :
    list newmux_pane_history_snapshot :=
  omap (fun '(id, s) =>
    let gd := s_grid s in
    if hsize gd =? 0 then None
    else Some (Snapshot id (hsize gd)
           (grid_duplicate_lines (grid_create (g_sx gd) (hsize gd) 0) 0 gd 0 (hsize gd)))) panes.

Definition newmux_grid_history_matches_snapshot (gd snapshot : grid) : bool :=
  if hsize snapshot =? 0 then hsize gd =? 0
  else if negb (hsize gd =? hsize snapshot) then false
  else forallb (fun yy => newmux_grid_line_equal gd yy snapshot yy) (seqZ 0 (hsize snapshot)).

(** One snapshot; the pane may be gone. *)
Definition restore_if_shrunk (snapshot : newmux_pane_history_snapshot) (s : screen) : screen :=
  let gd := s_grid s in
  if newmux_grid_history_matches_snapshot gd (sn_grid snapshot) then s
  else
    let gd := grid_clear_history gd in
    let gd := foldl (fun gd yy => newmux_grid_insert_history_line gd (sn_grid snapshot) yy) gd
                (seqZ 0 (sn_hsize snapshot)) in
    set_s_grid (grid_collect_history gd true) s.

Definition newmux_history_snapshots_restore_if_shrunk
    (snapshots : list newmux_pane_history_snapshot) (panes : gmap Z screen) : gmap Z screen :=
  foldl (fun panes sn => alter (restore_if_shrunk sn) (sn_pane_id sn) panes) panes snapshots.

End History.
