(* ===== verification/HistoryProps.v ===== *)
(** * The properties of the history of closed panes *)
From S2P Require Import Prelude.
From S2P Require Import Utf8.
From S2P Require Import Utf8Props.
From S2P Require Import CellCodec.
From S2P Require Import Grid.
From S2P Require Import Screen.
From S2P Require Import GridFacts.
From S2P Require Import GridProps.
From S2P Require Import History.

Definition history_lines (gd : grid) : list grid_line := take (Z.to_nat (hsize gd)) (linedata gd).
Definition screen_lines (gd : grid) : list grid_line := drop (Z.to_nat (hsize gd)) (linedata gd).

(** A grid with its history and its screen: the rest of it does not change. *)
Definition with_history (gd : grid) (h scr : list grid_line) (scrolled : Z) : grid :=
  Grid (g_flags gd) (g_sx gd) (g_sy gd) scrolled (Z.of_nat (length h)) (hlimit gd) (h ++ scr).

Section Props.
Context `{CellCodec}.

Lemma history_screen gd : grid_ok gd ->
  gd = with_history gd (history_lines gd) (screen_lines gd) (hscrolled gd) /\
  Z.of_nat (length (history_lines gd)) = hsize gd /\
  Z.of_nat (length (screen_lines gd)) = g_sy gd.
Proof.
  intros [_ Hl Hh Hsy _ _ _]. unfold with_history, history_lines, screen_lines.
  assert (E : Z.of_nat (length (take (Z.to_nat (hsize gd)) (linedata gd))) = hsize gd)
    by (rewrite length_take; lia).
  rewrite E, take_drop, length_drop. destruct gd; cbn in *. split_and!; [done|done|lia].
Qed.

Lemma with_history_ok gd h scr k : grid_ok gd -> Forall line_ok h -> Forall line_ok scr ->
  Z.of_nat (length scr) = g_sy gd -> Z.of_nat (length h) + g_sy gd < 4294967296 ->
  0 <= k <= Z.of_nat (length h) -> grid_ok (with_history gd h scr k).
Proof.
  intros [] Hh Hs Hl Hsz Hk. split; cbn; try done; try lia.
  - by apply Forall_app.
  - rewrite length_app. lia.
Qed.

Lemma history_ok gd : grid_ok gd -> Forall line_ok (history_lines gd) /\ Forall line_ok (screen_lines gd).
Proof. intros Hok. destruct Hok. split; [by apply Forall_take|by apply Forall_drop]. Qed.

Lemma with_history_lines gd h scr k :
  history_lines (with_history gd h scr k) = h /\ screen_lines (with_history gd h scr k) = scr.
Proof.
  unfold history_lines, screen_lines, with_history; cbn. rewrite Nat2Z.id.
  by rewrite take_app_length, drop_app_length.
Qed.

(** ** Copies of lines *)

Lemma duplicate_fresh gd sx y n : grid_ok gd -> 0 <= y -> 0 <= n -> y + n <= hsize gd + g_sy gd ->
  linedata (grid_duplicate_lines (grid_create sx n 0) 0 gd y n) =
    take (Z.to_nat n) (drop (Z.to_nat y) (linedata gd)) /\
  hsize (grid_duplicate_lines (grid_create sx n 0) 0 gd y n) = 0 /\
  g_sy (grid_duplicate_lines (grid_create sx n 0) 0 gd y n) = n /\
  g_sx (grid_duplicate_lines (grid_create sx n 0) 0 gd y n) = sx.
Proof.
  intros Hok Hy Hn Hle. pose proof (go_length _ Hok).
  unfold grid_duplicate_lines. cbn [hsize g_sy grid_create].
  rewrite (proj2 (Z.ltb_ge (0 + n) (0 + n))) by lia. rewrite (proj2 (Z.ltb_ge _ (y + n))) by lia.
  pose proof (copy_lines (fun k => grid_get_line gd (y + k)) 0 (Z.to_nat n) (grid_create sx n 0)) as Hc.
  cbn [Nat.add] in Hc. change (Z.of_nat 0) with 0 in Hc. rewrite !Z2Nat.id in Hc by lia.
  rewrite Hc by (cbn; rewrite length_replicate; lia). cbn.
  rewrite drop_replicate, Nat.sub_diag, app_nil_r. split_and!; try done.
  pose proof (map_get_line gd (Z.to_nat y) (Z.to_nat n)) as Hm. rewrite !Z2Nat.id in Hm by lia.
  apply Hm. lia.
Qed.

(** ** Inserting lines *)

Lemma insert_line_spec gd src y : grid_ok gd -> 0 <= y < hsize src + g_sy src ->
  hsize gd + g_sy gd + 1 < 4294967296 ->
  newmux_grid_insert_history_line gd src y =
    with_history gd (history_lines gd ++ [grid_get_line src y]) (screen_lines gd) (hscrolled gd).
Proof.
  intros Hok Hy Hsz. pose proof Hok as [_ Hl Hh Hsy _ _ _].
  destruct (history_screen gd Hok) as (_ & Hhl & Hsl).
  unfold newmux_grid_insert_history_line. cbv zeta. cbn [hsize set_linedata set_hsize].
  rewrite (u32_small (hsize gd + 1)) by lia.
  rewrite (firstn_all2 (n := Z.to_nat (g_sy gd))) by (rewrite length_drop; lia).
  fold (history_lines gd) (screen_lines gd).
  unfold grid_duplicate_lines. cbn [hsize g_sy set_hsize set_linedata].
  rewrite !(proj2 (Z.ltb_ge (hsize gd + 1 + g_sy gd) _)) by lia. cbv iota.
  rewrite (proj2 (Z.ltb_ge _ (y + 1))) by lia. cbv iota.
  change (seqZ 0 1) with [0]. cbn [foldl]. rewrite !Z.add_0_r.
  replace (hsize gd + 1 - 1) with (hsize gd) by lia.
  unfold update_line, with_history, set_linedata, set_hsize. cbn.
  rewrite length_app. cbn [length]. f_equal; [lia|].
  replace (Z.to_nat (hsize gd)) with (length (history_lines gd)) by lia.
  rewrite alter_app_r_alt by lia. rewrite Nat.sub_diag. cbn. by rewrite <- app_assoc.
Qed.

Lemma insert_lines_fold gd src n : grid_ok gd -> Forall line_ok (linedata src) ->
  Z.of_nat (length (linedata src)) = hsize src + g_sy src ->
  Z.of_nat n <= hsize src + g_sy src ->
  hsize gd + g_sy gd + Z.of_nat n < 4294967296 ->
  foldl (fun gd yy => newmux_grid_insert_history_line gd src yy) gd (seqZ 0 (Z.of_nat n)) =
    with_history gd (history_lines gd ++ take n (linedata src)) (screen_lines gd) (hscrolled gd) /\
  grid_ok (with_history gd (history_lines gd ++ take n (linedata src)) (screen_lines gd)
             (hscrolled gd)).
Proof.
  intros Hok Hsrc Hls Hn Hsz. destruct (history_ok gd Hok) as [Hho Hso].
  destruct (history_screen gd Hok) as (E0 & Hhl & Hsl). pose proof (go_scrolled _ Hok) as Hscr.
  assert (Hgood : forall m, (m <= n)%nat -> grid_ok (with_history gd (history_lines gd ++ take m (linedata src))
    (screen_lines gd) (hscrolled gd))).
  { intros m Hm. apply with_history_ok; try done.
    - apply Forall_app. split; [done|by apply Forall_take].
    - rewrite length_app, length_take. lia.
    - rewrite length_app, length_take. lia. }
  split; [|by apply Hgood]. clear Hsz.
  assert (H' : forall m, (m <= n)%nat ->
    foldl (fun gd yy => newmux_grid_insert_history_line gd src yy) gd (seqZ 0 (Z.of_nat m)) =
    with_history gd (history_lines gd ++ take m (linedata src)) (screen_lines gd) (hscrolled gd)).
  { induction m as [|m IH]; intros Hm.
    - cbn. by rewrite app_nil_r.
    - replace (Z.of_nat (S m)) with (Z.of_nat m + 1) by lia. rewrite seqZ_app, foldl_app, IH by lia.
      change (seqZ (0 + Z.of_nat m) 1) with [0 + Z.of_nat m]. cbn [foldl]. rewrite Z.add_0_l.
      pose proof (go_size _ (Hgood (S m) ltac:(lia))) as Hs. cbn in Hs.
      rewrite length_app, length_take in Hs.
      rewrite insert_line_spec; [|apply Hgood; lia|lia|].
      2:{ cbn. rewrite length_app, length_take. lia. }
      destruct (with_history_lines gd (history_lines gd ++ take m (linedata src)) (screen_lines gd)
        (hscrolled gd)) as [-> ->]. cbn [hscrolled with_history].
      unfold with_history; cbn. rewrite <- !app_assoc. f_equal; f_equal.
      all: rewrite ?app_assoc; f_equal; rewrite <- ?app_assoc; f_equal.
      all: unfold grid_get_line; rewrite Nat2Z.id;
        destruct (lookup_lt_is_Some_2 (linedata src) m) as [gl E]; [lia|];
        rewrite (nth_lookup_Some _ _ _ _ E); by rewrite (take_S_r _ _ _ E). }
  by apply H'.
Qed.

(** ** Trimming *)

(** How many lines [grid_collect_history] with [all] removes. *)
Definition collected (gd : grid) : Z :=
  if (hsize gd =? 0) || (hsize gd <? hlimit gd) then 0
  else Z.min (hsize gd) (Z.max 1 (hsize gd - hlimit gd)).

Lemma collect_spec gd : grid_ok gd -> 0 <= hlimit gd ->
  grid_collect_history gd true =
    with_history gd (drop (Z.to_nat (collected gd)) (history_lines gd)) (screen_lines gd)
      (Z.min (hscrolled gd) (hsize gd - collected gd)) /\
  grid_ok (grid_collect_history gd true) /\ 0 <= collected gd <= hsize gd.
Proof.
  intros Hok Hlim. destruct (history_screen gd Hok) as (E0 & Hhl & Hsl).
  destruct (history_ok gd Hok) as [Hho Hso]. pose proof (go_h _ Hok). pose proof (go_size _ Hok).
  pose proof (go_scrolled _ Hok).
  assert (Hr : 0 <= collected gd <= hsize gd) by (unfold collected; destruct (_ || _); lia).
  assert (E : grid_collect_history gd true =
    with_history gd (drop (Z.to_nat (collected gd)) (history_lines gd)) (screen_lines gd)
      (Z.min (hscrolled gd) (hsize gd - collected gd))).
  { unfold grid_collect_history, collected in *.
    destruct ((hsize gd =? 0) || (hsize gd <? hlimit gd)) eqn:Ec.
    { rewrite drop_0, Z.sub_0_r, Z.min_l by lia. done. }
    apply orb_false_elim in Ec as [E1 E2]. apply Z.eqb_neq in E1. apply Z.ltb_ge in E2.
    cbv zeta iota. set (ny := if hsize gd <? _ then _ else _).
    replace ny with (Z.min (hsize gd) (Z.max 1 (hsize gd - hlimit gd))) by (unfold ny; destruct (Z.ltb_spec (hsize gd - hlimit gd) 1); zcases; lia).
    unfold with_history. f_equal; [rewrite length_drop; lia|].
    assert (El : linedata gd = history_lines gd ++ screen_lines gd) by (symmetry; apply take_drop).
    unfold grid_trim_history. rewrite El at 1. rewrite drop_app_le by lia. done. }
  split_and!; [done| |lia|lia]. rewrite E. apply with_history_ok; try done.
  - by apply Forall_drop.
  - rewrite length_drop. lia.
  - rewrite length_drop. lia.
Qed.

(** ** Preserving the screen *)

Lemma line_equal_same gd1 y1 gd2 y2 : grid_ok gd1 -> grid_ok gd2 ->
  0 <= y1 < hsize gd1 + g_sy gd1 -> 0 <= y2 < hsize gd2 + g_sy gd2 ->
  grid_get_line gd1 y1 = grid_get_line gd2 y2 -> newmux_grid_line_equal gd1 y1 gd2 y2 = true.
Proof.
  intros Hok1 Hok2 Hy1 Hy2 E. unfold newmux_grid_line_equal, grid_peek_line.
  rewrite !check_y by (done || lia). rewrite !(proj2 (Z.ltb_lt _ _)) by lia. cbn iota.
  rewrite E, !Z.eqb_refl. cbn [andb]. apply forallb_forall. intros x Hx.
  apply list_elem_of_In, elem_of_seqZ in Hx. rewrite !get_cell_view by (done || lia).
  rewrite !(proj2 (Z.ltb_lt _ _)) by lia. rewrite E. apply cells_equal_refl.
Qed.

(** The lines inserted for a grid without history are its lines. *)
Lemma insert_all gd src : grid_ok gd -> Forall line_ok (linedata src) -> hsize src = 0 ->
  Z.of_nat (length (linedata src)) = g_sy src -> hsize gd + g_sy gd + g_sy src < 4294967296 ->
  insert_history_lines gd src =
    with_history gd (history_lines gd ++ linedata src) (screen_lines gd) (hscrolled gd) /\
  grid_ok (with_history gd (history_lines gd ++ linedata src) (screen_lines gd) (hscrolled gd)).
Proof.
  intros Hok Hsrc Hh Hl Hsz. unfold insert_history_lines. rewrite <- Hl.
  destruct (insert_lines_fold gd src (length (linedata src)) Hok Hsrc) as [E1 E2]; try lia.
  rewrite firstn_all in E1, E2. done.
Qed.

(** The visible grid is in the history when the history ends with its lines. *)
Lemma visible_in_history gd h scr k s : grid_ok (with_history gd (h ++ scr) scr k) ->
  scr <> [] -> Z.of_nat (length scr) = g_sy gd ->
  newmux_visible_grid_in_history (set_s_grid (with_history gd (h ++ scr) scr k) s) = true.
Proof.
  intros Hok Hne Hl. unfold newmux_visible_grid_in_history. cbn [s_grid set_s_grid].
  set (gd' := with_history gd (h ++ scr) scr k) in *.
  assert (Hh : hsize gd' = Z.of_nat (length h) + g_sy gd) by (cbn; rewrite length_app; lia).
  assert (Hs : g_sy gd' = g_sy gd) by done.
  assert (Hpos : 0 < g_sy gd) by (destruct scr; [done|cbn in Hl; lia]).
  rewrite (proj2 (Z.eqb_neq (g_sy gd') 0)) by lia. rewrite (proj2 (Z.ltb_ge _ _)) by lia. cbn [orb].
  apply forallb_forall. intros y Hy. apply list_elem_of_In, elem_of_seqZ in Hy.
  apply line_equal_same; [done|done|lia|lia|]. 
  unfold grid_get_line. change (linedata gd') with ((h ++ scr) ++ scr).
  rewrite Hh. rewrite Hs. rewrite <- app_assoc.
  rewrite app_nth2 by lia. rewrite app_nth1 by lia.
  rewrite app_nth2 by lia. rewrite app_nth2 by lia. f_equal. lia.
Qed.

(** C8. [newmux_preserve_visible_grid] leaves the screen as it is and puts a
    copy of it at the end of the history, unless it is there already: the
    history afterwards is the old one followed by the lines of the screen, less
    the oldest lines beyond the limit.  When the limit leaves room for more
    than the screen, the copy is whole, and doing it again changes nothing. *)
Theorem newmux_preserve_visible_grid_ok s :
  let gd := s_grid s in
  grid_ok gd -> 0 <= hlimit gd -> hsize gd + 2 * g_sy gd < 4294967296 ->
  let s' := newmux_preserve_visible_grid s in
  let gd' := s_grid s' in
  grid_ok gd' /\ screen_lines gd' = screen_lines gd /\ s_saved_grid s' = s_saved_grid s /\
  (gd' = gd \/ exists old, history_lines gd ++ screen_lines gd = old ++ history_lines gd' /\
     (hsize gd + g_sy gd < hlimit gd -> old = [])) /\
  (0 < g_sy gd < hlimit gd ->
     newmux_visible_grid_in_history s' = true /\ newmux_preserve_visible_grid s' = s').
Proof.
  intros gd Hok Hlim Hsz. cbv zeta. unfold newmux_preserve_visible_grid. fold gd.
  destruct ((g_sy gd =? 0) || newmux_visible_grid_in_history s) eqn:Ed.
  { split_and!; try done; [by left|]. intros Hsy.
    rewrite (proj2 (Z.eqb_neq _ _)) in Ed by lia. cbn [orb] in Ed. split; [done|].
    fold gd. by rewrite Ed, orb_true_r. }
  apply orb_false_elim in Ed as [Esy Ev]. apply Z.eqb_neq in Esy.
  pose proof (go_sy _ Hok). pose proof (go_h _ Hok). cbn [s_grid s_saved_grid set_s_grid].
  destruct (history_screen gd Hok) as (_ & Hhl & Hsl). destruct (history_ok gd Hok) as [Hho Hso].
  set (snap := grid_duplicate_lines _ _ _ _ _).
  destruct (duplicate_fresh gd (g_sx gd) (hsize gd) (g_sy gd) Hok) as (El & Eh & Es & _); [lia..|].
  fold snap in El, Eh, Es. rewrite firstn_all2 in El by (unfold screen_lines in *; lia).
  fold (screen_lines gd) in El.
  destruct (insert_all gd snap Hok) as [Ei Hoki]; [by rewrite El|done|by rewrite El, Es|lia|].
  rewrite Ei, El in *. set (gd1 := with_history gd _ _ _) in *.
  destruct (with_history_lines gd (history_lines gd ++ screen_lines gd) (screen_lines gd) (hscrolled gd))
    as [E1 E2]. fold gd1 in E1, E2.
  destruct (collect_spec gd1 Hoki Hlim) as (Ec & Hokc & Hcr). rewrite E1, E2 in Ec.
  destruct (with_history_lines gd1 (drop (Z.to_nat (collected gd1)) (history_lines gd ++ screen_lines gd))
    (screen_lines gd) (Z.min (hscrolled gd1) (hsize gd1 - collected gd1))) as [E3 E4].
  rewrite <- Ec in E3, E4.
  assert (Hh1 : hsize gd1 = hsize gd + g_sy gd) by (cbn; rewrite length_app; lia).
  split_and!; [done|done|done| |].
  - right. exists (take (Z.to_nat (collected gd1)) (history_lines gd ++ screen_lines gd)).
    rewrite E3, take_drop. split; [done|]. intros Hlt. unfold collected. rewrite Hh1.
    change (hlimit gd1) with (hlimit gd). rewrite (proj2 (Z.ltb_lt _ _)) by lia.
    by rewrite orb_true_r.
  - intros Hsy. assert (Hv : newmux_visible_grid_in_history
      (set_s_grid (grid_collect_history gd1 true) s) = true).
    { rewrite Ec in *. assert (Hle : (Z.to_nat (collected gd1) <= length (history_lines gd))%nat).
      { unfold collected. rewrite Hh1. change (hlimit gd1) with (hlimit gd).
        destruct (Z.eqb_spec (hsize gd + g_sy gd) 0); [cbn; lia|].
        destruct (Z.ltb_spec (hsize gd + g_sy gd) (hlimit gd)); cbn [orb]; lia. }
      rewrite drop_app_le in * by done.
      apply (visible_in_history gd1); [done| |done].
      intros Hn. rewrite Hn in Hsl. cbn in Hsl. lia. }
    split; [done|]. cbn [s_grid set_s_grid]. rewrite Hv, orb_true_r. done.
Qed.

(** ** Snapshots *)

(** [newmux_history_snapshots_restore_if_shrunk] compares the history with
    the snapshot's own history, which is always empty (the snapshot holds the
    lines as its screen): a pane that lost its whole history, the case it is
    there for, is taken to match and left as it is.  A pane that still has a
    history, even an unchanged one, is always given the lines of the snapshot
    again, and loses its oldest line each time it is at its limit. *)
Theorem newmux_restore_if_shrunk_does_not s0 s1 id :
  let gd0 := s_grid s0 in let gd1 := s_grid s1 in
  grid_ok gd0 -> hsize gd0 <> 0 -> grid_ok gd1 -> 0 <= hlimit gd1 ->
  hsize gd0 + g_sy gd1 < 4294967296 ->
  exists sn, newmux_history_snapshots_take [(id, s0)] = [sn] /\
    (hsize gd1 = 0 -> restore_if_shrunk sn s1 = s1) /\
    (hsize gd1 <> 0 ->
       let gd' := s_grid (restore_if_shrunk sn s1) in
       screen_lines gd' = screen_lines gd1 /\ hscrolled gd' = 0 /\
       exists old, history_lines gd0 = old ++ history_lines gd' /\
         (hsize gd0 = hlimit gd1 -> length old = 1%nat)).
Proof.
  intros gd0 gd1. assert (Eg0 : s_grid s0 = gd0) by done. assert (Eg1 : s_grid s1 = gd1) by done.
  clearbody gd0 gd1.
  intros Hok0 Hne Hok1 Hlim Hsz. cbn [newmux_history_snapshots_take omap list_omap]. rewrite Eg0.
  rewrite (proj2 (Z.eqb_neq _ _)) by done. eexists. split; [done|].
  pose proof (go_h _ Hok0). pose proof (go_sy _ Hok0). pose proof (go_sy _ Hok1). pose proof (go_h _ Hok1).
  destruct (duplicate_fresh gd0 (g_sx gd0) 0 (hsize gd0) Hok0) as (El & Eh & Es & _); [lia..|].
  set (snap := grid_duplicate_lines _ _ _ _ _) in *. change (drop (Z.to_nat 0) ?l) with l in El.
  fold (history_lines gd0) in El. destruct (history_screen gd0 Hok0) as (_ & Hhl & _).
  destruct (history_ok gd0 Hok0) as [Hho _].
  unfold restore_if_shrunk, newmux_grid_history_matches_snapshot. rewrite Eg1. cbn [sn_grid sn_hsize].
  rewrite Eh. change (0 =? 0) with true. cbn iota. split.
  { intros ->. done. }
  intros Hne1. rewrite (proj2 (Z.eqb_neq _ _)) by done. cbv zeta. cbn [s_grid].
  destruct (history_screen gd1 Hok1) as (_ & Hhl1 & Hsl1). destruct (history_ok gd1 Hok1) as [_ Hso1].
  assert (Hclear : grid_clear_history gd1 = with_history gd1 [] (screen_lines gd1) 0).
  { unfold grid_clear_history, with_history, grid_trim_history. fold (screen_lines gd1).
    rewrite firstn_all2 by lia. done. }
  assert (Hokc : grid_ok (grid_clear_history gd1)).
  { rewrite Hclear. pose proof (go_size _ Hok1). apply with_history_ok; try done; cbn; lia. }
  assert (Hins : foldl (fun gd yy => newmux_grid_insert_history_line gd snap yy)
      (grid_clear_history gd1) (seqZ 0 (hsize gd0)) = insert_history_lines (grid_clear_history gd1) snap)
    by (unfold insert_history_lines; by rewrite Es).
  rewrite Hins.
  destruct (insert_all (grid_clear_history gd1) snap Hokc) as [Ei Hoki];
    [by rewrite El|done|by rewrite El, Es|rewrite Es; cbn; lia|].
  rewrite Ei, El in *. rewrite Hclear in *.
  destruct (with_history_lines gd1 [] (screen_lines gd1) 0) as [E1 E2]. rewrite E1, E2 in *.
  cbn [app] in *. set (gd2 := with_history _ (history_lines gd0) _ _) in *.
  destruct (with_history_lines (with_history gd1 [] (screen_lines gd1) 0) (history_lines gd0)
    (screen_lines gd1) (hscrolled (with_history gd1 [] (screen_lines gd1) 0))) as [E3 E4].
  fold gd2 in E3, E4.
  destruct (collect_spec gd2 Hoki Hlim) as (Ec & _ & Hcr). rewrite E3, E4 in Ec.
  destruct (with_history_lines gd2 (drop (Z.to_nat (collected gd2)) (history_lines gd0))
    (screen_lines gd1) (Z.min (hscrolled gd2) (hsize gd2 - collected gd2))) as [E5 E6].
  cbn [s_grid set_s_grid]. rewrite Ec, E5, E6. assert (Hh2 : hsize gd2 = hsize gd0) by exact Hhl.
  split_and!; [done|cbn; lia|].
  exists (take (Z.to_nat (collected gd2)) (history_lines gd0)). rewrite take_drop. split; [done|].
  intros Heq. rewrite length_take. unfold collected. rewrite Hh2.
  change (hlimit gd2) with (hlimit gd1). rewrite Heq, Z.ltb_irrefl, orb_false_r.
  rewrite (proj2 (Z.eqb_neq _ _)) by lia. lia.
Qed.

End Props.

(** ** Instances *)

(** A screen of two lines and one line of history. *)
Definition small_grid : grid :=
  let line c := GL [GCE (Data 0 8 8 c) 0; grid_cleared_entry] 1 [] 0 0 in
  Grid GRID_HISTORY 2 2 1 1 10 [line 97; line 98; line 99].

Definition small_screen (gd : grid) : screen :=
  Screen gd None 0 0 UINT_MAX UINT_MAX grid_default_cell 0 0 1 [] 0 None no_info.

Lemma newmux_preserve_visible_grid_ok_witness :
  let s' := newmux_preserve_visible_grid (H:=plain_codec) (small_screen small_grid) in
  hsize (s_grid s') = 3 /\ newmux_visible_grid_in_history (H:=plain_codec) s' = true /\
  screen_lines (s_grid s') = screen_lines small_grid.
Proof.
  destruct (newmux_preserve_visible_grid_ok (H:=plain_codec) (small_screen small_grid))
    as (_ & Hs & _ & _ & Hv).
  - apply grid_okb_sound. vm_compute. reflexivity.
  - cbn. lia.
  - cbn. lia.
  - destruct Hv as [Hv _]; [cbn; lia|]. split; [vm_compute; reflexivity|]. split; [exact Hv|exact Hs].
Defined.

Lemma newmux_restore_if_shrunk_does_not_witness :
  let gd1 := grid_clear_history small_grid in
  exists sn, newmux_history_snapshots_take [(7, small_screen small_grid)] = [sn] /\
    restore_if_shrunk (H:=plain_codec) sn (small_screen gd1) = small_screen gd1.
Proof.
  destruct (newmux_restore_if_shrunk_does_not (H:=plain_codec) (small_screen small_grid)
    (small_screen (grid_clear_history small_grid)) 7) as (sn & E & Hr & _).
  - apply grid_okb_sound. vm_compute. reflexivity.
  - cbn. lia.
  - apply grid_okb_sound. vm_compute. reflexivity.
  - cbn. lia.
  - cbn. lia.
  - exists sn. split; [exact E|]. apply Hr. reflexivity.
Defined.
