(* ===== verification/Winlink.v ===== *)
(** * Window links (src/tmux/windows/window.c, the [winlink_] functions)

    The windows of a session are a tree ordered by index: the list of the
    links in that order.  A link is known by its address [wl_id], which the
    current window of the session and its stack of last windows keep. *)
From Stdlib Require Import Sorting.Sorted.
From S2P Require Import Prelude.

Definition WINLINK_BELL : Z := 0x1.
Definition WINLINK_ACTIVITY : Z := 0x2.
Definition WINLINK_SILENCE : Z := 0x4.
Definition WINLINK_ALERTFLAGS : Z := 0x7.
Definition WINLINK_VISITED : Z := 0x8.

Record winlink := WL {
  wl_id : Z;
  wl_idx : Z;
  wl_session : Z;
  wl_window : Z;
  wl_flags : Z
}.

#[global] Instance winlink_eq_dec : EqDecision winlink.
Proof. solve_decision. Defined.

Definition set_wl_idx (idx : Z) (wl : winlink) : winlink :=
  WL (wl_id wl) idx (wl_session wl) (wl_window wl) (wl_flags wl).
Definition set_wl_flags (flags : Z) (wl : winlink) : winlink :=
  WL (wl_id wl) (wl_idx wl) (wl_session wl) (wl_window wl) flags.

Definition wl_alert (wl : winlink) : bool := negb (Z.land (wl_flags wl) WINLINK_ALERTFLAGS =? 0).
Definition wl_visited (wl : winlink) : bool := negb (Z.land (wl_flags wl) WINLINK_VISITED =? 0).

Notation winlinks := (list winlink).

(** The link with an address. *)
Definition wl_get (wwl : winlinks) (id : Z) : option winlink :=
  snd <$> list_find (fun wl => wl_id wl = id) wwl.

Definition wl_alter (f : winlink -> winlink) (id : Z) (wwl : winlinks) : winlinks :=
  map (fun wl => if decide (wl_id wl = id) then f wl else wl) wwl.

Definition winlink_find_by_window (wwl : winlinks) (w : Z) : option winlink :=
  snd <$> list_find (fun wl => wl_window wl = w) wwl.

Definition winlink_find_by_index (wwl : winlinks) (idx : Z) : option winlink :=
  snd <$> list_find (fun wl => wl_idx wl = idx) wwl.

(** [RB_INSERT]: an element with the same key is kept instead. *)
Fixpoint wl_insert (wl : winlink) (wwl : winlinks) : winlinks :=
  match wwl with
  | [] => [wl]
  | x :: wwl' =>
      if wl_idx wl <? wl_idx x then wl :: wwl
      else if wl_idx wl =? wl_idx x then wwl
      else x :: wl_insert wl wwl'
  end.

Definition wl_delete (id : Z) (wwl : winlinks) : winlinks :=
  filter (fun wl => wl_id wl <> id) wwl.

(** The first free index from [i] on, going round at [INT_MAX]; with more
    tries than there are links one is found before [i] is reached again. *)
Fixpoint next_index_from (fuel : nat) (wwl : winlinks) (i : Z) : option Z :=
  match fuel with
  | O => None
  | S fuel =>
      match winlink_find_by_index wwl i with
      | None => Some i
      | Some _ => next_index_from fuel wwl (if i =? INT_MAX then 0 else i + 1)
      end
  end.

Definition winlink_next_index (wwl : winlinks) (idx : Z) : option Z :=
  next_index_from (S (length wwl)) wwl idx.

Definition winlink_count (wwl : winlinks) : Z := Z.of_nat (length wwl).

(** The new link and the links with it, or NULL; its window is set by the
    caller. *)
Definition winlink_add (wwl : winlinks) (id idx session window flags : Z) :
    option (winlink * winlinks) :=
  idx ← (if idx <? 0 then winlink_next_index wwl (- idx - 1)
         else match winlink_find_by_index wwl idx with Some _ => None | None => Some idx end);
  let wl := WL id idx session window flags in
  Some (wl, wl_insert wl wwl).

(** [RB_NEXT] and [RB_PREV] of the link with an address. *)
Fixpoint wl_after (wwl : winlinks) (id : Z) : winlinks :=
  match wwl with
  | [] => []
  | wl :: wwl => if decide (wl_id wl = id) then wwl else wl_after wwl id
  end.

Definition winlink_next (wwl : winlinks) (id : Z) : option winlink := head (wl_after wwl id).

Definition winlink_previous (wwl : winlinks) (id : Z) : option winlink :=
  head (wl_after (reverse wwl) id).

Fixpoint winlink_next_by_number (wwl : winlinks) (wl : winlink) (n : nat) : option winlink :=
  match n with
  | O => Some wl
  | S n =>
      match winlink_next wwl (wl_id wl) with
      | Some wl => winlink_next_by_number wwl wl n
      | None => match head wwl with
                | Some wl => winlink_next_by_number wwl wl n
                | None => None
                end
      end
  end.

Definition winlink_previous_by_number (wwl : winlinks) (wl : winlink) (n : nat) : option winlink :=
  winlink_next_by_number (reverse wwl) wl n.

(** ** Making room for a window *)

(** The next free index, when it is below [INT_MAX]. *)
Fixpoint shuffle_last (fuel : nat) (wwl : winlinks) (last : Z) : option Z :=
  if last <? INT_MAX then
    match winlink_find_by_index wwl last with
    | None => Some last
    | Some _ => match fuel with O => None | S fuel => shuffle_last fuel wwl (last + 1) end
    end
  else None.

(** Everything from [last - 1] down to [idx] moves up by one, each link taken
    out of the tree and put back. *)
Fixpoint shuffle_move (n : nat) (wwl : winlinks) (last : Z) : winlinks :=
  match n with
  | O => wwl
  | S n =>
      let wwl := match winlink_find_by_index wwl (last - 1) with
                 | Some wl => wl_insert (set_wl_idx (wl_idx wl + 1) wl) (wl_delete (wl_id wl) wwl)
                 | None => wwl
                 end in
      shuffle_move n wwl (last - 1)
  end.

(** The free index and the links; [None] is -1 (the links do not change). *)
Definition winlink_shuffle_up (wwl : winlinks) (wl : option winlink) (before : bool) :
    option (Z * winlinks) :=
  wl ← wl;
  let idx := if before then wl_idx wl else wl_idx wl + 1 in
  last ← shuffle_last (length wwl) wwl idx;
  Some (idx, shuffle_move (Z.to_nat (last - idx)) wwl last).

(** ** Well-formed trees *)

(** Ordered by index, with distinct indexes and distinct links. *)
Record wwl_ok (wwl : winlinks) : Prop := {
  wwl_sorted : StronglySorted Z.lt (map wl_idx wwl);
  wwl_ids : NoDup (map wl_id wwl);
  wwl_range : Forall (fun wl => 0 <= wl_idx wl <= INT_MAX) wwl
}.

(** ** Facts about the links of a session *)

(** ** Looking up *)

Lemma find_index_None wwl idx : winlink_find_by_index wwl idx = None <->
  Forall (fun wl => wl_idx wl <> idx) wwl.
Proof.
  unfold winlink_find_by_index. destruct (list_find _ wwl) as [[i wl]|] eqn:E; cbn.
  - split; [done|]. intros Hf. apply list_find_Some in E as (E & Hp & _).
    rewrite Forall_lookup in Hf. by specialize (Hf _ _ E).
  - by rewrite list_find_None in E.
Qed.

Lemma find_index_Some wwl idx wl : winlink_find_by_index wwl idx = Some wl ->
  wl ∈ wwl /\ wl_idx wl = idx.
Proof.
  unfold winlink_find_by_index. destruct (list_find _ wwl) as [[i x]|] eqn:E; cbn; [|done].
  intros [= ->]. apply list_find_Some in E as (E & Hp & _). split; [|done].
  by eapply list_elem_of_lookup_2.
Qed.

Lemma ss_app_inv (l1 l2 : list Z) : StronglySorted Z.lt (l1 ++ l2) ->
  StronglySorted Z.lt l1 /\ StronglySorted Z.lt l2 /\
  forall a b, a ∈ l1 -> b ∈ l2 -> a < b.
Proof.
  induction l1 as [|x l1 IH]; cbn; intros Hs.
  - split_and!; [constructor|done|]. by intros ? ? ?%elem_of_nil.
  - inversion Hs as [|? ? Hs' Hf]; subst. destruct (IH Hs') as (H1 & H2 & H3).
    rewrite Forall_app in Hf. destruct Hf as [Hf1 Hf2]. split_and!; [by constructor|done|].
    intros a b [-> | Ha]%elem_of_cons Hb; [|by apply H3].
    rewrite Forall_forall in Hf2. by apply Hf2.
Qed.

Lemma ss_app (l1 l2 : list Z) : StronglySorted Z.lt l1 -> StronglySorted Z.lt l2 ->
  (forall a b, a ∈ l1 -> b ∈ l2 -> a < b) -> StronglySorted Z.lt (l1 ++ l2).
Proof.
  induction 1 as [|x l1 Hs IH Hf]; intros H2 H3; cbn; [done|].
  constructor.
  - apply IH; [done|]. intros; apply H3; [by right|done].
  - apply Forall_app. split; [done|]. apply Forall_forall. intros b Hb. apply H3; [by left|done].
Qed.

Lemma ss_seqZ a n : StronglySorted Z.lt (seqZ a n).
Proof.
  destruct (Z.le_gt_cases 0 n); [|rewrite seqZ_nil by lia; constructor].
  rewrite <- (Z2Nat.id n) by done. revert a. induction (Z.to_nat n) as [|k IH]; intros a;
    [rewrite seqZ_nil by lia; constructor|].
  rewrite seqZ_cons by lia. replace (Z.pred (Z.of_nat (S k))) with (Z.of_nat k) by lia.
  constructor; [apply IH|]. apply Forall_forall. intros b Hb%elem_of_seqZ. lia.
Qed.

(** A tree cut in two. *)
Lemma wwl_app l1 l2 : wwl_ok (l1 ++ l2) <->
  wwl_ok l1 /\ wwl_ok l2 /\
  (forall a b, a ∈ l1 -> b ∈ l2 -> wl_idx a < wl_idx b /\ wl_id a <> wl_id b).
Proof.
  split.
  - intros [Hs Hi Hr]. rewrite map_app in Hs, Hi. apply ss_app_inv in Hs as (Hs1 & Hs2 & Hs3).
    apply NoDup_app in Hi as (Hi1 & Hi2 & Hi3). apply Forall_app in Hr as [Hr1 Hr2].
    split_and!; [by split|by split|]. intros a b Ha Hb. split.
    + apply Hs3; by apply list_elem_of_fmap_2.
    + intros E. apply (Hi2 (wl_id a)); [by apply list_elem_of_fmap_2|].
      rewrite E. by apply list_elem_of_fmap_2.
  - intros ([Hs1 Hi1 Hr1] & [Hs2 Hi2 Hr2] & H). split.
    + rewrite map_app. apply ss_app; [done|done|].
      intros a b (x & -> & Hx)%list_elem_of_fmap (y & -> & Hy)%list_elem_of_fmap. by apply H.
    + rewrite map_app. apply NoDup_app. split_and!; [done| |done].
      intros a (x & -> & Hx)%list_elem_of_fmap (y & E & Hy)%list_elem_of_fmap.
      by apply (H x y).
    + by apply Forall_app.
Qed.

Lemma wwl_cons wl l : wwl_ok (wl :: l) <->
  0 <= wl_idx wl <= INT_MAX /\ wwl_ok l /\
  (forall b, b ∈ l -> wl_idx wl < wl_idx b /\ wl_id wl <> wl_id b).
Proof.
  change (wl :: l) with ([wl] ++ l). rewrite wwl_app. split.
  - intros ([_ _ Hr] & Hl & H). apply Forall_inv in Hr. split_and!; [lia|lia|done|].
    intros b Hb. apply H; [by left|done].
  - intros (Hr & Hl & H). split_and!; [|done|].
    + split; cbn.
      * apply SSorted_cons; [apply SSorted_nil|constructor].
      * apply NoDup_singleton.
      * by constructor.
    + intros a b ->%list_elem_of_singleton Hb. by apply H.
Qed.

Lemma wwl_nil : wwl_ok [].
Proof. split; cbn; constructor. Qed.

(** ** Inserting *)

Lemma insert_middle wl l1 l2 :
  (forall a, a ∈ l1 -> wl_idx a < wl_idx wl) -> (forall b, b ∈ l2 -> wl_idx wl < wl_idx b) ->
  wl_insert wl (l1 ++ l2) = l1 ++ wl :: l2.
Proof.
  induction l1 as [|x l1 IH]; intros H1 H2; cbn.
  - destruct l2 as [|y l2]; [done|]. cbn. rewrite (proj2 (Z.ltb_lt _ _)); [done|].
    apply H2. by left.
  - pose proof (H1 x ltac:(by left)). rewrite (proj2 (Z.ltb_ge _ _)) by lia.
    rewrite (proj2 (Z.eqb_neq _ _)) by lia. rewrite IH; [done| |done].
    intros; apply H1; by right.
Qed.

(** A tree is split by a free index. *)
Lemma split_at wwl idx : wwl_ok wwl -> Forall (fun wl => wl_idx wl <> idx) wwl ->
  exists l1 l2, wwl = l1 ++ l2 /\ (forall a, a ∈ l1 -> wl_idx a < idx) /\
    (forall b, b ∈ l2 -> idx < wl_idx b).
Proof.
  induction wwl as [|x wwl IH]; intros Hok Hf.
  { exists [], []. split_and!; [done|by intros ? ?%elem_of_nil..]. }
  apply wwl_cons in Hok as (Hr & Hok & Hx). apply Forall_cons in Hf as [Hne Hf].
  destruct (Z.lt_ge_cases (wl_idx x) idx) as [Hlt|Hge].
  - destruct (IH Hok Hf) as (l1 & l2 & -> & H1 & H2). exists (x :: l1), l2. split_and!; [done| |done].
    intros a [-> | Ha]%elem_of_cons; [done|by apply H1].
  - exists [], (x :: wwl). split_and!; [done|by intros ? ?%elem_of_nil|].
    intros b [-> | Hb]%elem_of_cons; [lia|]. specialize (Hx b Hb). lia.
Qed.

(** Putting a link with a free index and a new address in a tree. *)
Lemma insert_ok wl wwl : wwl_ok wwl -> 0 <= wl_idx wl <= INT_MAX ->
  winlink_find_by_index wwl (wl_idx wl) = None -> wl_id wl ∉ map wl_id wwl ->
  wwl_ok (wl_insert wl wwl) /\ wl_insert wl wwl ≡ₚ wl :: wwl.
Proof.
  intros Hok Hr Hf Hid. apply find_index_None in Hf.
  destruct (split_at wwl _ Hok Hf) as (l1 & l2 & -> & H1 & H2).
  rewrite insert_middle by done. split; [|by rewrite <- Permutation_middle].
  apply wwl_app in Hok as (Hok1 & Hok2 & H12). apply wwl_app. split_and!; [done| |].
  - apply wwl_cons. split_and!; [lia|lia|done|]. intros b Hb. split; [by apply H2|].
    intros E. apply Hid. rewrite E, map_app. apply elem_of_app. right. by apply list_elem_of_fmap_2.
  - intros a b Ha [-> | Hb]%elem_of_cons; [|by apply H12]. split; [by apply H1|].
    intros E. apply Hid. rewrite <- E, map_app. apply elem_of_app. left. by apply list_elem_of_fmap_2.
Qed.

(** ** The next free index *)

Lemma find_cons x wwl i : wl_idx x <> i -> winlink_find_by_index (x :: wwl) i = winlink_find_by_index wwl i.
Proof.
  intros Hne. unfold winlink_find_by_index. cbn. rewrite decide_False by done.
  by destruct (list_find _ wwl) as [[? ?]|].
Qed.

(** Of as many indexes as there are links and one more, one is free. *)
Lemma free_index wwl (l : list Z) : NoDup l -> (length wwl < length l)%nat ->
  exists i, i ∈ l /\ winlink_find_by_index wwl i = None.
Proof.
  intros Hnd Hlen. destruct (decide (Exists (fun i => winlink_find_by_index wwl i = None) l)) as [He|He].
  { apply Exists_exists in He as (i & Hi & Hf). by exists i. }
  exfalso. assert (Hall : l ⊆ map wl_idx wwl).
  { intros i Hi. destruct (winlink_find_by_index wwl i) as [wl|] eqn:E.
    - apply find_index_Some in E as [Hin <-]. by apply list_elem_of_fmap_2.
    - exfalso. apply He, Exists_exists. by exists i. }
  pose proof (NoDup_incl_length (l:=l) (l':=map wl_idx wwl)) as Hl.
  rewrite length_map in Hl. assert (Hle : (length l <= length wwl)%nat); [|lia].
  apply Hl.
  - by apply NoDup_ListNoDup.
  - intros i Hi. by apply list_elem_of_In, Hall, list_elem_of_In.
Qed.

Definition index_after (i : Z) : Z := if i =? INT_MAX then 0 else i + 1.

Fixpoint index_iter (n : nat) (i : Z) : list Z :=
  match n with O => [] | S n => i :: index_iter n (index_after i) end.

Lemma index_iter_spec n : forall i, 0 <= i <= INT_MAX -> Z.of_nat n <= INT_MAX + 1 ->
  Forall (fun j => 0 <= j <= INT_MAX) (index_iter n i) /\ NoDup (index_iter n i) /\
  length (index_iter n i) = n.
Proof.
  intros i Hi Hn.
  assert (H : forall k, (k <= n)%nat -> index_iter k i =
    map (fun j => (i + j) mod (INT_MAX + 1)) (seqZ 0 (Z.of_nat k)) /\ True) .
  { intros k Hk. split; [|done].
    assert (Hg : forall k o, index_iter k ((i + o) mod (INT_MAX + 1)) =
      map (fun j => (i + j) mod (INT_MAX + 1)) (seqZ o (Z.of_nat k))).
    { clear. induction k as [|k IH]; intros o; [by rewrite seqZ_nil by lia|].
      rewrite seqZ_cons by lia. cbn [index_iter map]. f_equal.
      replace (Z.pred (Z.of_nat (S k))) with (Z.of_nat k) by lia. rewrite <- IH. f_equal.
      unfold index_after, INT_MAX. zcases; Z.div_mod_to_equations; lia. }
    specialize (Hg k 0). rewrite Z.add_0_r, Z.mod_small in Hg by lia. done. }
  destruct (H n ltac:(lia)) as [-> _]. split_and!.
  - apply Forall_map, Forall_forall. intros j _. cbn.
    pose proof (Z.mod_pos_bound (i + j) (INT_MAX + 1)). unfold INT_MAX in *. lia.
  - apply NoDup_fmap_2_strong; [|apply NoDup_seqZ].
    intros a b Ha%elem_of_seqZ Hb%elem_of_seqZ E. unfold INT_MAX in *.
    Z.div_mod_to_equations. lia.
  - rewrite length_map, length_seqZ. lia.
Qed.

Lemma next_index_found n : forall wwl i, 0 <= i <= INT_MAX ->
  (exists j, j ∈ index_iter n i /\ winlink_find_by_index wwl j = None) ->
  exists j, next_index_from n wwl i = Some j /\ winlink_find_by_index wwl j = None /\
    0 <= j <= INT_MAX.
Proof.
  induction n as [|n IH]; intros wwl i Hi (j & Hj & Hf); cbn in *; [by apply elem_of_nil in Hj|].
  destruct (winlink_find_by_index wwl i) as [wl|] eqn:E; [|by exists i].
  apply elem_of_cons in Hj as [-> | Hj]; [congruence|]. apply IH; [|by exists j].
  unfold INT_MAX in *. zcases; lia.
Qed.

Lemma next_index_ok wwl i : 0 <= i <= INT_MAX -> Z.of_nat (length wwl) <= INT_MAX ->
  exists j, winlink_next_index wwl i = Some j /\ winlink_find_by_index wwl j = None /\
    0 <= j <= INT_MAX.
Proof.
  intros Hi Hl. destruct (index_iter_spec (S (length wwl)) i Hi ltac:(lia)) as (_ & Hnd & Hlen).
  apply next_index_found; [done|]. apply free_index; [done|]. lia.
Qed.

(** ** Shuffling up *)

Definition bump (wl : winlink) : winlink := set_wl_idx (wl_idx wl + 1) wl.

Lemma shuffle_last_spec fuel : forall wwl idx last, shuffle_last fuel wwl idx = Some last ->
  idx <= last < INT_MAX /\ winlink_find_by_index wwl last = None /\
  forall i, idx <= i < last -> winlink_find_by_index wwl i <> None.
Proof.
  induction fuel as [|fuel IH]; intros wwl idx last; cbn;
    destruct (Z.ltb_spec idx INT_MAX); try done; destruct (winlink_find_by_index wwl idx) eqn:E;
    try done; try (intros [= <-]; split_and!; [lia|lia|done|lia]).
  intros Hs. apply IH in Hs as (Hr & Hf & Hi). split_and!; [lia|lia|done|].
  intros i Hii. destruct (decide (i = idx)) as [-> | Hne]; [congruence|]. apply Hi. lia.
Qed.

Lemma shuffle_last_total wwl idx : 0 <= idx -> idx + Z.of_nat (length wwl) < INT_MAX ->
  shuffle_last (length wwl) wwl idx <> None.
Proof.
  intros Hidx Hl Hnone.
  assert (Hall : forall f i, shuffle_last f wwl i = None -> i + Z.of_nat f < INT_MAX ->
    Forall (fun j => winlink_find_by_index wwl j <> None) (seqZ i (Z.of_nat f + 1))).
  { induction f as [|f IH]; intros i; cbn [shuffle_last]; intros Hs Hf.
    - rewrite (proj2 (Z.ltb_lt _ _)) in Hs by lia. rewrite seqZ_cons by lia.
      constructor; [by destruct (winlink_find_by_index wwl i)|]. rewrite seqZ_nil by lia. constructor.
    - rewrite (proj2 (Z.ltb_lt _ _)) in Hs by lia. rewrite seqZ_cons by lia.
      destruct (winlink_find_by_index wwl i) eqn:E; [|done]. constructor; [congruence|].
      replace (Z.pred (Z.of_nat (S f) + 1)) with (Z.of_nat f + 1) by lia.
      replace (Z.succ i) with (i + 1) by lia. apply IH; [done|lia]. }
  specialize (Hall _ _ Hnone ltac:(lia)).
  destruct (free_index wwl (seqZ idx (Z.of_nat (length wwl) + 1))) as (j & Hj & Hf).
  { apply NoDup_seqZ. }
  { rewrite length_seqZ. lia. }
  rewrite Forall_forall in Hall. by apply (Hall j).
Qed.

(** The links from [idx] on: a run of consecutive indexes and the rest. *)
Lemma shuffle_split wwl idx last : wwl_ok wwl -> idx <= last ->
  winlink_find_by_index wwl last = None ->
  (forall i, idx <= i < last -> winlink_find_by_index wwl i <> None) ->
  exists l1 run l2, wwl = l1 ++ run ++ l2 /\ (forall a, a ∈ l1 -> wl_idx a < idx) /\
    map wl_idx run = seqZ idx (last - idx) /\ (forall b, b ∈ l2 -> last < wl_idx b).
Proof.
  intros Hok Hle Hf Hall. apply find_index_None in Hf.
  destruct (split_at wwl _ Hok Hf) as (l & l2 & -> & H1 & H2).
  apply wwl_app in Hok as (Hok & Hok2 & H12).
  assert (Hall' : forall i, idx <= i < last -> exists wl, wl ∈ l /\ wl_idx wl = i).
  { intros i Hi. specialize (Hall i Hi).
    destruct (winlink_find_by_index (l ++ l2) i) as [wl|] eqn:E; [|done].
    apply find_index_Some in E as [Hin Heq]. apply elem_of_app in Hin as [Hin|Hin]; [by exists wl|].
    specialize (H2 _ Hin). lia. }
  clear Hall Hf H12 Hok2.
  enough (H : exists l1 run, l = l1 ++ run /\ (forall a, a ∈ l1 -> wl_idx a < idx) /\
    map wl_idx run = seqZ idx (last - idx)).
  { destruct H as (l1 & run & -> & Ha & Hr). exists l1, run, l2. by rewrite <- app_assoc. }
  clear H2 l2. revert last Hle H1 Hall' Hok.
  induction l as [|x l IH] using rev_ind; intros last Hle H1 Hall Hok.
  { destruct (decide (idx = last)) as [-> | Hne].
    - exists [], []. split_and!; [done|by intros ? ?%elem_of_nil|]. by rewrite seqZ_nil by lia.
    - destruct (Hall idx) as (wl & Hin & _); [lia|]. by apply elem_of_nil in Hin. }
  pose proof (H1 x ltac:(apply elem_of_app; right; by left)) as Hx.
  apply wwl_app in Hok as (Hok & _ & Hlx).
  destruct (decide (idx = last)) as [-> | Hne].
  { exists (l ++ [x]), []. rewrite app_nil_r. split_and!; [done|done|]. by rewrite seqZ_nil by lia. }
  assert (Hxl : wl_idx x = last - 1).
  { destruct (Hall (last - 1)) as (wl & Hin & Heq); [lia|].
    apply elem_of_app in Hin as [Hin|Hin]; [|apply list_elem_of_singleton in Hin; congruence].
    destruct (Hlx wl x Hin ltac:(by left)). lia. }
  destruct (IH (last - 1)) as (l1 & run & -> & Ha & Hr); [lia| | |done|].
  { intros a Ha. destruct (Hlx a x Ha ltac:(by left)). lia. }
  { intros i Hi. destruct (Hall i) as (wl & Hin & Heq); [lia|].
    apply elem_of_app in Hin as [Hin|Hin]; [by exists wl|].
    apply list_elem_of_singleton in Hin. subst wl. lia. }
  exists l1, (run ++ [x]). rewrite app_assoc. split_and!; [done|done|].
  rewrite map_app, Hr. cbn. rewrite Hxl.
  replace (last - idx) with (last - 1 - idx + 1) by lia. rewrite seqZ_app by lia. f_equal.
  change [last - 1] with (seqZ (last - 1) 1). f_equal. lia.
Qed.

Lemma delete_other id l : id ∉ map wl_id l -> wl_delete id l = l.
Proof.
  unfold wl_delete. induction l as [|x l IH]; intros Hn; [done|].
  cbn [map] in Hn. apply not_elem_of_cons in Hn as [Hx Hn].
  rewrite filter_cons_True by congruence. by rewrite IH.
Qed.

Lemma delete_middle x l1 l2 : wl_id x ∉ map wl_id l1 -> wl_id x ∉ map wl_id l2 ->
  wl_delete (wl_id x) (l1 ++ x :: l2) = l1 ++ l2.
Proof.
  intros H1 H2. unfold wl_delete. rewrite filter_app, filter_cons_False by (intros Hc; by apply Hc).
  fold (wl_delete (wl_id x) l1) (wl_delete (wl_id x) l2). by rewrite !delete_other.
Qed.

Lemma find_index_middle x l1 l2 : wwl_ok (l1 ++ x :: l2) ->
  winlink_find_by_index (l1 ++ x :: l2) (wl_idx x) = Some x.
Proof.
  intros Hok. destruct (winlink_find_by_index (l1 ++ x :: l2) (wl_idx x)) as [y|] eqn:E.
  - apply find_index_Some in E as [Hin Heq]. f_equal.
    apply wwl_app in Hok as (_ & Hok & H12). apply wwl_cons in Hok as (_ & _ & Hx).
    apply elem_of_app in Hin as [Hin|Hin].
    + destruct (H12 y x Hin ltac:(by left)). lia.
    + apply elem_of_cons in Hin as [-> | Hin]; [done|]. destruct (Hx y Hin). lia.
  - apply find_index_None in E. apply Forall_app in E as [_ E]. by apply Forall_inv in E.
Qed.

Lemma ids_middle x l1 l2 : wwl_ok (l1 ++ x :: l2) ->
  wl_id x ∉ map wl_id l1 /\ wl_id x ∉ map wl_id l2.
Proof.
  intros Hok. apply wwl_app in Hok as (_ & Hok & H12). apply wwl_cons in Hok as (_ & _ & Hx).
  split; intros (y & E & Hy)%list_elem_of_fmap.
  - by destruct (H12 y x Hy ltac:(by left)).
  - by destruct (Hx y Hy).
Qed.

Lemma shuffle_move_run run : forall l1 l2 idx last, wwl_ok (l1 ++ run ++ l2) ->
  (forall a, a ∈ l1 -> wl_idx a < idx) -> map wl_idx run = seqZ idx (last - idx) ->
  (forall b, b ∈ l2 -> last < wl_idx b) -> idx <= last -> 0 <= idx -> last <= INT_MAX ->
  shuffle_move (length run) (l1 ++ run ++ l2) last = l1 ++ map bump run ++ l2 /\
  wwl_ok (l1 ++ map bump run ++ l2).
Proof.
  induction run as [|x run IH] using rev_ind; intros l1 l2 idx last Hok H1 Hr H2 Hle H0 Hmax.
  { done. }
  assert (Hlast : last - idx = Z.of_nat (length run) + 1).
  { apply (f_equal length) in Hr. rewrite length_map, length_app, length_seqZ in Hr. cbn in Hr. lia. }
  replace (last - idx) with (last - 1 - idx + 1) in Hr by lia.
  rewrite map_app, seqZ_app in Hr by lia.
  apply app_inj_1 in Hr as [Hr Hx]; [|rewrite length_map, length_seqZ; lia].
  change (seqZ (idx + (last - 1 - idx)) 1) with [idx + (last - 1 - idx)] in Hx.
  injection Hx as Hx.
  rewrite length_app. cbn [length]. rewrite Nat.add_1_r. cbn [shuffle_move].
  rewrite <- app_assoc in *. cbn [app] in *. rewrite (app_assoc l1) in *.
  replace (last - 1) with (wl_idx x) by lia. rewrite find_index_middle by done.
  destruct (ids_middle _ _ _ Hok) as [Hid1 Hid2].
  rewrite delete_middle by done. pose proof Hok as Hok'.
  apply wwl_app in Hok as (Hok1 & Hok2 & H12). apply wwl_cons in Hok2 as (Hxr & Hok2 & Hx2).
  fold (bump x). rewrite insert_middle.
  2:{ intros a Ha. destruct (H12 a x Ha ltac:(by left)). cbn. lia. }
  2:{ intros b Hb. specialize (H2 b Hb). cbn. lia. }
  rewrite <- app_assoc.
  destruct (IH l1 (bump x :: l2) idx (wl_idx x)) as [E Hok3].
  - rewrite app_assoc. apply wwl_app. split_and!; [done| |].
    + apply wwl_cons. split_and!; [cbn; lia|cbn; lia|done|]. intros b Hb.
      split; [specialize (H2 b Hb); cbn; lia|]. by apply Hx2.
    + intros a b Ha [-> | Hb]%elem_of_cons.
      * destruct (H12 a x Ha ltac:(by left)). split; [cbn; lia|done].
      * apply H12; [done|by right].
  - done.
  - by replace (wl_idx x - idx) with (last - 1 - idx) by lia.
  - intros b [-> | Hb]%elem_of_cons; [cbn; lia|]. specialize (H2 b Hb). lia.
  - lia.
  - done.
  - lia.
  - rewrite E, map_app. cbn [map]. rewrite <- app_assoc. cbn [app]. done.
Qed.

(** [winlink_shuffle_up] makes a hole: the links from the hole on, as far as
    their indexes are consecutive, have moved up by one. *)
Lemma shuffle_up_ok wwl wl before idx wwl' : wwl_ok wwl -> wl ∈ wwl ->
  winlink_shuffle_up wwl (Some wl) before = Some (idx, wwl') ->
  idx = (if before then wl_idx wl else wl_idx wl + 1) /\
  exists l1 run l2, wwl = l1 ++ run ++ l2 /\ wwl' = l1 ++ map bump run ++ l2 /\
    (forall a, a ∈ l1 -> wl_idx a < idx) /\ (forall b, b ∈ map bump run ++ l2 -> idx < wl_idx b) /\
    (forall b, b ∈ run -> idx <= wl_idx b) /\ 0 <= idx < INT_MAX /\
    wwl_ok wwl'.
Proof.
  intros Hok Hin Hs. unfold winlink_shuffle_up in Hs. cbn in Hs.
  pose proof (wwl_range _ Hok) as Hr. rewrite Forall_forall in Hr. specialize (Hr wl Hin).
  set (i := if before then wl_idx wl else wl_idx wl + 1) in *.
  assert (Hi : 0 <= i) by (unfold i; destruct before; lia).
  destruct (shuffle_last (length wwl) wwl i) as [last|] eqn:El; [|done]. cbn in Hs.
  apply shuffle_last_spec in El as (Hlast & Hf & Hall).
  destruct (shuffle_split wwl i last Hok) as (l1 & run & l2 & -> & H1 & Hrun & H2); [lia|done|done|].
  injection Hs as <- <-. split; [done|].
  assert (Hlen : Z.to_nat (last - i) = length run).
  { apply (f_equal length) in Hrun. rewrite length_map, length_seqZ in Hrun. lia. }
  destruct (shuffle_move_run run l1 l2 i last Hok H1 Hrun H2) as [E Hok']; [lia..|].
  assert (Hge : forall b, b ∈ run -> i <= wl_idx b).
  { intros b Hb. assert (Hb' : wl_idx b ∈ seqZ i (last - i)) by (rewrite <- Hrun; by apply list_elem_of_fmap_2).
    apply elem_of_seqZ in Hb'. lia. }
  exists l1, run, l2. rewrite Hlen, E. split_and!; try done; try lia.
  intros b [Hb|Hb]%elem_of_app; [|specialize (H2 b Hb); lia].
  apply list_elem_of_fmap in Hb as (c & -> & Hc). specialize (Hge c Hc). cbn. lia.
Qed.

(** A sorted tree is cut by an index in one way. *)
Lemma split_unique (l1 l2 m1 m2 : list winlink) i : l1 ++ l2 = m1 ++ m2 ->
  (forall a, a ∈ l1 -> wl_idx a < i) -> (forall b, b ∈ l2 -> i <= wl_idx b) ->
  (forall a, a ∈ m1 -> wl_idx a < i) -> (forall b, b ∈ m2 -> i <= wl_idx b) ->
  l1 = m1 /\ l2 = m2.
Proof.
  revert m1. induction l1 as [|x l1 IH]; intros [|y m1] E H1 H2 H3 H4; cbn in E.
  - done.
  - exfalso. specialize (H2 y). specialize (H3 y). rewrite E in H2.
    pose proof (H2 ltac:(by left)). pose proof (H3 ltac:(by left)). lia.
  - exfalso. specialize (H1 x). specialize (H4 x). rewrite <- E in H4.
    pose proof (H1 ltac:(by left)). pose proof (H4 ltac:(by left)). lia.
  - injection E as -> E. destruct (IH m1 E) as [-> ->]; try done.
    + intros a Ha. apply H1. by right.
    + intros a Ha. apply H3. by right.
Qed.

(** There is room for one more window. *)
Definition roomy (l : list winlink) : Prop :=
  Forall (fun wl => wl_idx wl + Z.of_nat (length l) + 1 < INT_MAX) l /\
  Z.of_nat (length l) < INT_MAX.

Lemma shuffle_up_total l wl before : wwl_ok l -> wl ∈ l -> roomy l ->
  is_Some (winlink_shuffle_up l (Some wl) before).
Proof.
  intros Hok Hin [Hroom Hlen]. rewrite Forall_forall in Hroom. specialize (Hroom wl Hin).
  pose proof (wwl_range _ Hok) as Hr. rewrite Forall_forall in Hr. specialize (Hr wl Hin).
  unfold winlink_shuffle_up. cbn.
  destruct (shuffle_last _ l _) as [last|] eqn:E; [by eexists|].
  exfalso. revert E. apply shuffle_last_total; destruct before; lia.
Qed.

(** A window is put in a place: what is before and after it keeps its order. *)
Lemma shuffle_place l1 l2 wl (before : bool) id sid wid flags : wwl_ok (l1 ++ l2) ->
  roomy (l1 ++ l2) -> wl ∈ l1 ++ l2 ->
  let i := if before then wl_idx wl else wl_idx wl + 1 in
  (forall a, a ∈ l1 -> wl_idx a < i) -> (forall b, b ∈ l2 -> i <= wl_idx b) ->
  id ∉ map wl_id (l1 ++ l2) ->
  exists l' l2', winlink_shuffle_up (l1 ++ l2) (Some wl) before = Some (i, l') /\
    winlink_add l' id i sid wid flags =
      Some (WL id i sid wid flags, l1 ++ WL id i sid wid flags :: l2') /\
    map wl_window l2' = map wl_window l2 /\ map wl_id l2' = map wl_id l2 /\
    wwl_ok (l1 ++ WL id i sid wid flags :: l2').
Proof.
  intros Hok Hroom Hin i H1 H2 Hid.
  destruct (shuffle_up_total _ wl before Hok Hin Hroom) as [[idx l'] Hs].
  destruct (shuffle_up_ok _ _ _ _ _ Hok Hin Hs) as (Hi & m1 & run & m2 & E & E' & Ha & Hb & Hb' & Hr & Hok').
  fold i in Hi. subst idx.
  assert (Hge : forall b, b ∈ run ++ m2 -> i <= wl_idx b).
  { intros b [Hrun|Hm2]%elem_of_app; [by apply Hb'|].
    specialize (Hb b ltac:(apply elem_of_app; by right)). lia. }
  destruct (split_unique l1 l2 m1 (run ++ m2) i E H1 H2 Ha Hge) as [-> ->].
  exists l', (map bump run ++ m2). split; [done|].
  assert (Hf : winlink_find_by_index l' i = None).
  { apply find_index_None. rewrite E'. apply Forall_app. split; apply Forall_forall; intros x Hx.
    - specialize (Ha x Hx). lia.
    - specialize (Hb x Hx). lia. }
  assert (Hins : wl_insert (WL id i sid wid flags) l' =
    m1 ++ WL id i sid wid flags :: map bump run ++ m2).
  { rewrite E'. by apply insert_middle. }
  assert (Hids : map wl_id l' = map wl_id (m1 ++ run ++ m2)).
  { rewrite E', !map_app, map_map. done. }
  split_and!.
  - unfold winlink_add. rewrite (proj2 (Z.ltb_ge _ _)) by lia. rewrite Hf. cbn. by rewrite Hins.
  - by rewrite !map_app, map_map.
  - by rewrite !map_app, map_map.
  - rewrite <- Hins. apply insert_ok; [done|cbn; lia|done|]. cbn. by rewrite Hids.
Qed.

(** A decision procedure. *)
Fixpoint wwl_okb (l : list winlink) : bool :=
  match l with
  | [] => true
  | x :: l => (0 <=? wl_idx x) && (wl_idx x <=? INT_MAX) &&
      forallb (fun b => (wl_idx x <? wl_idx b) && negb (wl_id x =? wl_id b)) l && wwl_okb l
  end.

Lemma wwl_okb_sound l : wwl_okb l = true -> wwl_ok l.
Proof.
  induction l as [|x l IH]; [intros _; apply wwl_nil|]. cbn. intros Hb.
  apply andb_prop in Hb as [Hb Hl]. apply andb_prop in Hb as [Hb Hf].
  apply andb_prop in Hb as [H0 Hm]. apply wwl_cons. split_and!; [lia|lia|by apply IH|].
  intros b Hin. rewrite forallb_forall in Hf. specialize (Hf b (proj1 (list_elem_of_In _ _) Hin)). lia.
Qed.
