(* ===== verification/World.v ===== *)
(** * The state of the server (src/tmux/tmux.h, windows/session.c, windows/window.c)

    Sessions, windows and panes are known by their ids; a window link by an
    address ([wl_id]) handed out by [next_wl].  The layout cell of a tiled pane
    is the leaf of its window's layout that carries its id, that of a floating
    pane is in [w_floating].  The flags are the bits of the code.  Clients,
    hooks and redrawing are not part of the state. *)
From Stdlib Require Import Ascii String.
From S2P Require Import Prelude.
From S2P Require Import Layout.
From S2P Require Import Winlink.
From S2P Require Import Utf8.
From S2P Require Import Grid.
From S2P Require Import Screen.

Definition PANE_REDRAW : Z := 0x1.
Definition PANE_VISITED : Z := 0x8.
Definition PANE_ZOOMED : Z := 0x10.
Definition PANE_FLOATING : Z := 0x20.
Definition PANE_CHANGED : Z := 0x80.
Definition PANE_STYLECHANGED : Z := 0x1000.
Definition PANE_THEMECHANGED : Z := 0x2000.
Definition PANE_REDRAWSCROLLBAR : Z := 0x8000.
Definition PANE_NEWMUX_HISTORY_PROTECTED : Z := 0x10000.

Definition WINDOW_ALERTFLAGS : Z := 0x7.
Definition WINDOW_ZOOMED : Z := 0x8.
Definition WINDOW_WASZOOMED : Z := 0x10.

Definition PANE_SCROLLBARS_OFF : Z := 0.
Definition PANE_SCROLLBARS_MODAL : Z := 1.
Definition PANE_SCROLLBARS_ALWAYS : Z := 2.
Definition PANE_SCROLLBARS_RIGHT : Z := 0.
Definition PANE_SCROLLBARS_LEFT : Z := 1.

(** A mode of a pane, by the code's [window_mode] it points to. *)
Inductive window_mode := window_copy_mode | window_view_mode | window_other_mode.

Record pane := Pane {
  wp_id : Z;
  wp_window : Z;
  wp_flags : Z;
  wp_sx : Z;
  wp_sy : Z;
  wp_xoff : Z;
  wp_yoff : Z;
  wp_modes : list window_mode;
  wp_sb_width : Z;                (* the scrollbar style *)
  wp_sb_pad : Z;
  wp_fd : Z;
  wp_argc : Z;
  wp_name : option string;        (* what [osdep_get_name] says of the process *)
  wp_shell : option string;
  wp_dirty : option string;       (* the pane option @newmux-dirty *)
  wp_base : screen
}.

(** The options of a window the code here reads. *)
Record woptions := WO {
  o_pane_base_index : Z;
  o_border_status : Z;
  o_scrollbars : Z;
  o_scrollbars_position : Z
}.

Record window := Window {
  w_id : Z;
  w_name : string;
  w_panes : list Z;
  w_zindex : list Z;
  w_last_panes : list Z;
  w_active : option Z;
  w_sx : Z;
  w_sy : Z;
  w_layout_root : option layout_cell;
  w_saved_layout_root : option layout_cell;
  w_floating : list layout_cell;
  w_flags : Z;
  w_references : Z;
  w_options : woptions
}.

Record session := Session {
  s_id : Z;
  s_name : string;
  s_curw : option Z;
  s_lastw : list Z;
  s_windows : list winlink;
  s_base_index : Z;               (* the option base-index *)
  s_renumber : bool               (* the option renumber-windows *)
}.

Record world := World {
  sessions : gmap Z session;
  session_groups : list (string * list Z);
  windows : gmap Z window;
  panes : gmap Z pane;
  next_session_id : Z;
  next_window_id : Z;
  next_wl : Z;
  global_base_index : Z;
  global_renumber : bool;
  global_w_options : woptions
}.

(** ** Assignments to one field or a few *)

Definition set_curw v0 s :=
  Session (s_id s) (s_name s) v0 (s_lastw s) (s_windows s) (s_base_index s) (s_renumber s).
Definition set_lastw v0 s :=
  Session (s_id s) (s_name s) (s_curw s) v0 (s_windows s) (s_base_index s) (s_renumber s).
Definition set_windows v0 s :=
  Session (s_id s) (s_name s) (s_curw s) (s_lastw s) v0 (s_base_index s) (s_renumber s).

Definition set_w_name v0 w :=
  Window (w_id w) v0 (w_panes w) (w_zindex w) (w_last_panes w) (w_active w) (w_sx w) (w_sy w)
  (w_layout_root w) (w_saved_layout_root w) (w_floating w) (w_flags w) (w_references w)
  (w_options w).
Definition set_w_panes v0 w :=
  Window (w_id w) (w_name w) v0 (w_zindex w) (w_last_panes w) (w_active w) (w_sx w) (w_sy w)
  (w_layout_root w) (w_saved_layout_root w) (w_floating w) (w_flags w) (w_references w)
  (w_options w).
Definition set_w_zindex v0 w :=
  Window (w_id w) (w_name w) (w_panes w) v0 (w_last_panes w) (w_active w) (w_sx w) (w_sy w)
  (w_layout_root w) (w_saved_layout_root w) (w_floating w) (w_flags w) (w_references w)
  (w_options w).
Definition set_w_last_panes v0 w :=
  Window (w_id w) (w_name w) (w_panes w) (w_zindex w) v0 (w_active w) (w_sx w) (w_sy w)
  (w_layout_root w) (w_saved_layout_root w) (w_floating w) (w_flags w) (w_references w)
  (w_options w).
Definition set_w_active v0 w :=
  Window (w_id w) (w_name w) (w_panes w) (w_zindex w) (w_last_panes w) v0 (w_sx w) (w_sy w)
  (w_layout_root w) (w_saved_layout_root w) (w_floating w) (w_flags w) (w_references w)
  (w_options w).
Definition set_w_size v0 v1 w :=
  Window (w_id w) (w_name w) (w_panes w) (w_zindex w) (w_last_panes w) (w_active w) v0 v1
  (w_layout_root w) (w_saved_layout_root w) (w_floating w) (w_flags w) (w_references w)
  (w_options w).
Definition set_w_layout_root v0 w :=
  Window (w_id w) (w_name w) (w_panes w) (w_zindex w) (w_last_panes w) (w_active w) (w_sx w)
  (w_sy w) v0 (w_saved_layout_root w) (w_floating w) (w_flags w) (w_references w) (w_options
  w).
Definition set_w_saved_layout_root v0 w :=
  Window (w_id w) (w_name w) (w_panes w) (w_zindex w) (w_last_panes w) (w_active w) (w_sx w)
  (w_sy w) (w_layout_root w) v0 (w_floating w) (w_flags w) (w_references w) (w_options w).
Definition set_w_floating v0 w :=
  Window (w_id w) (w_name w) (w_panes w) (w_zindex w) (w_last_panes w) (w_active w) (w_sx w)
  (w_sy w) (w_layout_root w) (w_saved_layout_root w) v0 (w_flags w) (w_references w)
  (w_options w).
Definition set_w_flags v0 w :=
  Window (w_id w) (w_name w) (w_panes w) (w_zindex w) (w_last_panes w) (w_active w) (w_sx w)
  (w_sy w) (w_layout_root w) (w_saved_layout_root w) (w_floating w) v0 (w_references w)
  (w_options w).
Definition set_w_references v0 w :=
  Window (w_id w) (w_name w) (w_panes w) (w_zindex w) (w_last_panes w) (w_active w) (w_sx w)
  (w_sy w) (w_layout_root w) (w_saved_layout_root w) (w_floating w) (w_flags w) v0 (w_options
  w).

Definition set_p_window v0 p :=
  Pane (wp_id p) v0 (wp_flags p) (wp_sx p) (wp_sy p) (wp_xoff p) (wp_yoff p) (wp_modes p)
  (wp_sb_width p) (wp_sb_pad p) (wp_fd p) (wp_argc p) (wp_name p) (wp_shell p) (wp_dirty p)
  (wp_base p).
Definition set_p_flags v0 p :=
  Pane (wp_id p) (wp_window p) v0 (wp_sx p) (wp_sy p) (wp_xoff p) (wp_yoff p) (wp_modes p)
  (wp_sb_width p) (wp_sb_pad p) (wp_fd p) (wp_argc p) (wp_name p) (wp_shell p) (wp_dirty p)
  (wp_base p).
Definition set_p_size v0 v1 p :=
  Pane (wp_id p) (wp_window p) (wp_flags p) v0 v1 (wp_xoff p) (wp_yoff p) (wp_modes p)
  (wp_sb_width p) (wp_sb_pad p) (wp_fd p) (wp_argc p) (wp_name p) (wp_shell p) (wp_dirty p)
  (wp_base p).
Definition set_p_off v0 v1 p :=
  Pane (wp_id p) (wp_window p) (wp_flags p) (wp_sx p) (wp_sy p) v0 v1 (wp_modes p)
  (wp_sb_width p) (wp_sb_pad p) (wp_fd p) (wp_argc p) (wp_name p) (wp_shell p) (wp_dirty p)
  (wp_base p).
Definition set_p_base v0 p :=
  Pane (wp_id p) (wp_window p) (wp_flags p) (wp_sx p) (wp_sy p) (wp_xoff p) (wp_yoff p)
  (wp_modes p) (wp_sb_width p) (wp_sb_pad p) (wp_fd p) (wp_argc p) (wp_name p) (wp_shell p)
  (wp_dirty p) v0.

Definition set_sessions v0 w :=
  World v0 (session_groups w) (windows w) (panes w) (next_session_id w) (next_window_id w)
  (next_wl w) (global_base_index w) (global_renumber w) (global_w_options w).
Definition set_groups v0 w :=
  World (sessions w) v0 (windows w) (panes w) (next_session_id w) (next_window_id w) (next_wl
  w) (global_base_index w) (global_renumber w) (global_w_options w).
Definition set_w_windows v0 w :=
  World (sessions w) (session_groups w) v0 (panes w) (next_session_id w) (next_window_id w)
  (next_wl w) (global_base_index w) (global_renumber w) (global_w_options w).
Definition set_panes v0 w :=
  World (sessions w) (session_groups w) (windows w) v0 (next_session_id w) (next_window_id w)
  (next_wl w) (global_base_index w) (global_renumber w) (global_w_options w).
Definition set_next_session v0 w :=
  World (sessions w) (session_groups w) (windows w) (panes w) v0 (next_window_id w) (next_wl
  w) (global_base_index w) (global_renumber w) (global_w_options w).
Definition set_next_window v0 w :=
  World (sessions w) (session_groups w) (windows w) (panes w) (next_session_id w) v0 (next_wl
  w) (global_base_index w) (global_renumber w) (global_w_options w).
Definition set_next_wl v0 w :=
  World (sessions w) (session_groups w) (windows w) (panes w) (next_session_id w)
  (next_window_id w) v0 (global_base_index w) (global_renumber w) (global_w_options w).

(** A session, a window or a pane after a change. *)
Definition upd_session (f : session -> session) (sid : Z) (w : world) : world :=
  set_sessions (alter f sid (sessions w)) w.
Definition upd_window (f : window -> window) (wid : Z) (w : world) : world :=
  set_w_windows (alter f wid (windows w)) w.
Definition upd_pane (f : pane -> pane) (pid : Z) (w : world) : world :=
  set_panes (alter f pid (panes w)) w.
Definition put_session (s : session) (w : world) : world :=
  set_sessions (<[s_id s:=s]> (sessions w)) w.
Definition put_window (x : window) (w : world) : world :=
  set_w_windows (<[w_id x:=x]> (windows w)) w.
Definition put_pane (p : pane) (w : world) : world := set_panes (<[wp_id p:=p]> (panes w)) w.

Definition p_has (p : pane) (bit : Z) : bool := has (wp_flags p) bit.
Definition w_has (x : window) (bit : Z) : bool := has (w_flags x) bit.
Definition p_raise (bits : Z) (p : pane) : pane := set_p_flags (Z.lor (wp_flags p) bits) p.
Definition p_lower (bits : Z) (p : pane) : pane := set_p_flags (without (wp_flags p) bits) p.
Definition w_raise (bits : Z) (x : window) : window := set_w_flags (Z.lor (w_flags x) bits) x.
Definition w_lower (bits : Z) (x : window) : window := set_w_flags (without (w_flags x) bits) x.
