(* ===== verification/Session.v ===== *)
(** * Sessions (src/tmux/windows/session.c)

    A function of the code that changes the server's state takes the [world]
    and gives it back, with its return value.  [None] is a NULL dereference. *)
From Stdlib Require Import Ascii String.
From stdpp Require Import sorting.
From S2P Require Import Prelude.
From S2P Require Import CString.
From S2P Require Import Winlink.
From S2P Require Import World.

(** ** Finding sessions *)

Definition session_find_by_id (w : world) (id : Z) : option session := sessions w !! id.

Definition session_le (a b : session) : Prop := String.leb (s_name a) (s_name b) = true.

#[global] Instance session_le_dec a b : Decision (session_le a b).
Proof. unfold session_le. apply _. Defined.

(** The sessions in the order of the tree, by name. *)
Definition sessions_by_name (w : world) : list session :=
  merge_sort session_le (map snd (map_to_list (sessions w))).

Definition session_find (w : world) (name : string) : option session :=
  snd <$> list_find (fun s => s_name s = name) (sessions_by_name w).

Definition session_find_by_id_str (w : world) (s : string) : option session :=
  match s with
  | String "$" s =>
      match strtonum s 0 UINT_MAX with
      | inl id => session_find_by_id w id
      | inr _ => None
      end
  | _ => None
  end.

(** A name, or the next id, with or without a prefix, that no session has:
    more tries than there are sessions are never needed. *)
Fixpoint session_new_name (fuel : nat) (w : world) (prefix : option string) (id : Z) :
    option (Z * string) :=
  match fuel with
  | O => None
  | S fuel =>
      let name := match prefix with
                  | Some prefix => prefix +:+ "-" +:+ fmt_u id
                  | None => fmt_u id
                  end in
      match session_find w name with
      | None => Some (id, name)
      | Some _ => session_new_name fuel w prefix (u32 (id + 1))
      end
  end.

(** With a name already taken [RB_INSERT] would not insert it: the callers look
    first. *)
Definition session_create (w : world) (prefix name : option string) (base_index : Z)
    (renumber : bool) : option (session * world) :=
  '(id, name) ← (match name with
                 | Some name => Some (next_session_id w, name)
                 | None => session_new_name (S (size (sessions w))) w prefix (next_session_id w)
                 end);
  let s := Session id name None [] [] base_index renumber in
  Some (s, set_next_session (u32 (id + 1)) (put_session s w)).

(** ** References to windows *)

Definition window_add_ref (wid : Z) (w : world) : world :=
  upd_window (fun x => set_w_references (u32 (w_references x + 1)) x) wid w.

(** At the last reference the window and its panes are destroyed. *)
Definition window_remove_ref (wid : Z) (w : world) : world :=
  match windows w !! wid with
  | None => w
  | Some x =>
      if u32 (w_references x - 1) =? 0
      then set_w_windows (delete wid (windows w)) (set_panes (foldr delete (panes w) (w_panes x)) w)
      else upd_window (fun x => set_w_references (u32 (w_references x - 1)) x) wid w
  end.

(** Link a window to a session at an index ([winlink_add] and
    [winlink_set_window]); NULL when the index is in use. *)
Definition link_window (sid : Z) (idx wid flags : Z) (w : world) : option (winlink * world) :=
  s ← sessions w !! sid;
  '(wl, wwl) ← winlink_add (s_windows s) (next_wl w) idx sid wid flags;
  Some (wl, window_add_ref wid (set_next_wl (next_wl w + 1) (put_session (set_windows wwl s) w))).

(** [winlink_remove] of a session's link. *)
Definition unlink_window (sid : Z) (wl : winlink) (w : world) : world :=
  window_remove_ref (wl_window wl)
    (upd_session (fun s => set_windows (wl_delete (wl_id wl) (s_windows s)) s) sid w).

(** ** The stack of last windows *)

Definition winlink_stack_remove (wl : Z) (s : session) : session :=
  match wl_get (s_windows s) wl with
  | Some x =>
      if wl_visited x then
        set_windows (wl_alter (fun x => set_wl_flags (Z.ldiff (wl_flags x) WINLINK_VISITED) x) wl
                              (s_windows s))
          (set_lastw (filter (fun l => l <> wl) (s_lastw s)) s)
      else s
  | None => s
  end.

Definition winlink_stack_push (wl : option Z) (s : session) : session :=
  match wl with
  | None => s
  | Some wl =>
      let s := winlink_stack_remove wl s in
      set_windows (wl_alter (fun x => set_wl_flags (Z.lor (wl_flags x) WINLINK_VISITED) x) wl
                            (s_windows s))
        (set_lastw (wl :: s_lastw s) s)
  end.

(** The alerts of the window and of all its links. *)
Definition winlink_clear_flags (wid : Z) (w : world) : world :=
  let w := upd_window (w_lower WINDOW_ALERTFLAGS) wid w in
  set_sessions ((fun s => set_windows
      (map (fun x => if decide (wl_window x = wid)
                     then set_wl_flags (Z.ldiff (wl_flags x) WINLINK_ALERTFLAGS) x else x)
           (s_windows s)) s) <$> sessions w) w.

(** ** The current window *)

(** [session_set_current]: the return value and the world. *)
Definition session_set_current (w : world) (sid : Z) (wl : option Z) : Z * world :=
  match sessions w !! sid, wl with
  | Some s, Some wl =>
      if decide (s_curw s = Some wl) then (1, w)
      else
        let s := winlink_stack_remove wl s in
        let s := winlink_stack_push (s_curw s) s in
        let s := set_curw (Some wl) s in
        match wl_get (s_windows s) wl with
        | Some x => (0, winlink_clear_flags (wl_window x) (put_session s w))
        | None => (0, put_session s w)
        end
  | _, _ => (-1, w)
  end.

Definition first_alert (l : list winlink) : option winlink :=
  snd <$> list_find (fun wl => wl_alert wl = true) l.

(** [session_next_alert] and [session_previous_alert] from the first link of a
    list on. *)
Definition session_next (w : world) (sid : Z) (alert : bool) : Z * world :=
  match sessions w !! sid with
  | None => (-1, w)
  | Some s =>
      match s_curw s with
      | None => (-1, w)
      | Some cur =>
          let after := wl_after (s_windows s) cur in
          match (if alert then first_alert after else head after) with
          | Some wl => session_set_current w sid (Some (wl_id wl))
          | None =>
              match (if alert then first_alert (s_windows s) else head (s_windows s)) with
              | Some wl => session_set_current w sid (Some (wl_id wl))
              | None => (-1, w)
              end
          end
      end
  end.

Definition session_previous (w : world) (sid : Z) (alert : bool) : Z * world :=
  match sessions w !! sid with
  | None => (-1, w)
  | Some s =>
      match s_curw s with
      | None => (-1, w)
      | Some cur =>
          let l := reverse (s_windows s) in
          let before := wl_after l cur in
          match (if alert then first_alert before else head before) with
          | Some wl => session_set_current w sid (Some (wl_id wl))
          | None =>
              match (if alert then first_alert l else head l) with
              | Some wl => session_set_current w sid (Some (wl_id wl))
              | None => (-1, w)
              end
          end
      end
  end.

Definition session_select (w : world) (sid idx : Z) : Z * world :=
  match sessions w !! sid with
  | None => (-1, w)
  | Some s => session_set_current w sid (wl_id <$> winlink_find_by_index (s_windows s) idx)
  end.

Definition session_last (w : world) (sid : Z) : Z * world :=
  match sessions w !! sid with
  | None => (-1, w)
  | Some s =>
      match head (s_lastw s) with
      | None => (-1, w)
      | Some wl => if decide (s_curw s = Some wl) then (1, w)
                   else session_set_current w sid (Some wl)
      end
  end.

(** [session_last(s) != 0 && session_previous(s, 0) != 0) session_next(s, 0)]. *)
Definition session_leave (w : world) (sid : Z) : world :=
  let '(r, w) := session_last w sid in
  if r =? 0 then w
  else
    let '(r, w) := session_previous w sid false in
    if r =? 0 then w else snd (session_next w sid false).

(** ** Session groups *)

Definition session_group_contains (w : world) (target : Z) : option (string * list Z) :=
  snd <$> list_find (fun sg => target ∈ snd sg) (session_groups w).

Definition session_group_find (w : world) (name : string) : option (string * list Z) :=
  snd <$> list_find (fun sg => fst sg = name) (session_groups w).

Definition session_group_new (w : world) (name : string) : world :=
  match session_group_find w name with
  | Some _ => w
  | None => set_groups ((name, []) :: session_groups w) w
  end.

Definition session_group_add (w : world) (name : string) (sid : Z) : world :=
  match session_group_contains w sid with
  | Some _ => w
  | None =>
      set_groups (map (fun sg => if decide (fst sg = name) then (name, snd sg ++ [sid]) else sg)
                      (session_groups w)) w
  end.

Definition session_group_remove (w : world) (sid : Z) : world :=
  match session_group_contains w sid with
  | None => w
  | Some (name, _) =>
      set_groups (filter (fun sg => snd sg <> [])
        (map (fun sg => if decide (fst sg = name) then (name, filter (fun i => i <> sid) (snd sg))
                        else sg) (session_groups w))) w
  end.

Definition session_group_count (sg : string * list Z) : Z := Z.of_nat (length (snd sg)).

(** Link the target's windows to session [sid], whose tree is empty now. *)
Fixpoint link_all (sid : Z) (wls : list winlink) (w : world) : option world :=
  match wls with
  | [] => Some w
  | wl :: wls =>
      '(_, w) ← link_window sid (wl_idx wl) (wl_window wl)
                  (Z.land (wl_flags wl) WINLINK_ALERTFLAGS) w;
      link_all sid wls w
  end.

(** The stack, rebuilt from the indexes its links had. *)
Definition relink_lastw (old : list winlink) (s : session) : session :=
  foldl (fun s id =>
    match (wl ← wl_get old id; winlink_find_by_index (s_windows s) (wl_idx wl)) with
    | Some wl2 =>
        set_windows (wl_alter (fun x => set_wl_flags (Z.lor (wl_flags x) WINLINK_VISITED) x)
                       (wl_id wl2) (s_windows s))
          (set_lastw (s_lastw s ++ [wl_id wl2]) s)
    | None => s
    end) (set_lastw [] s) (s_lastw s).

Definition session_group_synchronize1 (w : world) (target sid : Z) : option world :=
  t ← sessions w !! target;
  s ← sessions w !! sid;
  match s_windows t with
  | [] => Some w
  | ww =>
      (* if the current window has vanished, move to the next now *)
      let gone := match s_curw s with
                  | Some c => match wl_get (s_windows s) c with
                              | Some wl => match winlink_find_by_index ww (wl_idx wl) with
                                           | Some _ => false | None => true end
                              | None => false
                              end
                  | None => false
                  end in
      let w := if gone then session_leave w sid else w in
      s ← sessions w !! sid;
      let old := s_windows s in
      w ← link_all sid ww (upd_session (set_windows []) sid w);
      s ← sessions w !! sid;
      (* fix up the current window and the stack *)
      cur ← (match s_curw s with
             | Some c => wl_get old c
             | None => c ← s_curw t; wl_get ww c
             end);
      let s := set_curw (wl_id <$> winlink_find_by_index (s_windows s) (wl_idx cur)) s in
      let s := relink_lastw old s in
      (* then free the old links *)
      Some (foldl (fun w wl => window_remove_ref (wl_window wl) w) (put_session s w) old)
  end.

Definition session_group_synchronize_from (w : world) (target : Z) : option world :=
  match session_group_contains w target with
  | None => Some w
  | Some (_, l) =>
      foldl (fun w s => w ← w;
        if decide (s = target) then Some w else session_group_synchronize1 w target s) (Some w) l
  end.

Definition session_group_synchronize_to (w : world) (sid : Z) : option world :=
  match session_group_contains w sid with
  | None => Some w
  | Some (_, l) =>
      match list_find (fun t => t <> sid) l with
      | Some (_, target) => session_group_synchronize1 w target sid
      | None => Some w
      end
  end.

(** ** Attaching and detaching windows *)

(** The link, or the error. *)
Definition session_attach (w : world) (sid wid idx : Z) :
    option ((winlink + string) * world) :=
  match link_window sid idx wid 0 w with
  | None => Some (inr ("index in use: " +:+ fmt_d idx)%string, w)
  | Some (wl, w) => w ← session_group_synchronize_from w sid; Some (inl wl, w)
  end.

(** Whether the session is empty now. *)
Definition session_empty (w : world) (sid : Z) : bool :=
  match sessions w !! sid with
  | Some s => match s_windows s with [] => true | _ => false end
  | None => true
  end.

Definition session_detach (w : world) (sid wl : Z) : option (bool * world) :=
  s ← sessions w !! sid;
  let w := if decide (s_curw s = Some wl) then session_leave w sid else w in
  s ← sessions w !! sid;
  x ← wl_get (s_windows s) wl;
  let w := upd_session (winlink_stack_remove wl) sid w in
  let w := unlink_window sid x w in
  w ← session_group_synchronize_from w sid;
  Some (session_empty w sid, w).

Definition session_has (w : world) (sid wid : Z) : bool :=
  match sessions w !! sid with
  | Some s => bool_decide (wid ∈ map wl_window (s_windows s))
  | None => false
  end.

Definition session_is_linked (w : world) (sid wid : Z) : bool :=
  match windows w !! wid with
  | Some x => negb (w_references x =? match session_group_contains w sid with
                                      | Some sg => session_group_count sg
                                      | None => 1
                                      end)
  | None => false
  end.

(** ** Destroying and renumbering *)

Definition session_destroy (w : world) (sid : Z) : world :=
  match sessions w !! sid with
  | None => w
  | Some s =>
      match s_curw s with
      | None => w
      | Some _ =>
          let w := session_group_remove (set_sessions (delete sid (sessions w)) w) sid in
          foldl (fun w wl => window_remove_ref (wl_window wl) w) w (s_windows s)
      end
  end.

(** The marked pane, which would follow its link, is not modelled. *)
Fixpoint renumber_links (sid : Z) (wls : list winlink) (new_idx : Z) (w : world) : option world :=
  match wls with
  | [] => Some w
  | wl :: wls =>
      '(_, w) ← link_window sid new_idx (wl_window wl)
                  (Z.land (wl_flags wl) WINLINK_ALERTFLAGS) w;
      renumber_links sid wls (new_idx + 1) w
  end.

Definition session_renumber_windows (w : world) (sid : Z) : option world :=
  s ← sessions w !! sid;
  let old := s_windows s in
  w ← renumber_links sid old (s_base_index s) (upd_session (set_windows []) sid w);
  s' ← sessions w !! sid;
  (* the new index of the current window: 0 when there is none *)
  let new_curw_idx :=
    match list_find (fun wl => Some (wl_id wl) = s_curw s) old with
    | Some (i, _) => s_base_index s + Z.of_nat i
    | None => 0
    end in
  (* a link on the stack is found again by its window *)
  let s2 := foldl (fun s2 id =>
      match (wl ← wl_get old id; winlink_find_by_window (s_windows s2) (wl_window wl)) with
      | Some wl_new =>
          set_windows (wl_alter (fun x => set_wl_flags (Z.lor (wl_flags x) WINLINK_VISITED) x)
                         (wl_id wl_new) (s_windows s2))
            (set_lastw (s_lastw s2 ++ [wl_id wl_new]) s2)
      | None => s2
      end) (set_lastw [] s') (s_lastw s) in
  let s2 := set_curw (wl_id <$> winlink_find_by_index (s_windows s2) new_curw_idx) s2 in
  Some (foldl (fun w wl => window_remove_ref (wl_window wl) w) (put_session s2 w) old).
