(* ===== verification/SessionFacts.v ===== *)
(** * Facts about sessions

    Most operations change only the flags of the links of a session, so links
    are compared without them. *)
From Stdlib Require Import Ascii String.
From S2P Require Import Prelude.
From S2P Require Import Grid.
From S2P Require Import Winlink.
From S2P Require Import World.
From S2P Require Import Session.

(** A link without its flags. *)
Definition bare (wl : winlink) : winlink := set_wl_flags 0 wl.

(** A session without the flags of its links, its current window and its stack
    of last windows. *)
Definition shape (s : session) : session :=
  Session (s_id s) (s_name s) None [] (map bare (s_windows s)) (s_base_index s) (s_renumber s).

(** A window without its alerts. *)
Definition quiet (x : window) : window := w_lower WINDOW_ALERTFLAGS x.

(** The state without all of these: what the sessions and windows are. *)
Definition forget (w : world) : world :=
  World (shape <$> sessions w) (session_groups w) (quiet <$> windows w) (panes w)
    (next_session_id w) (next_window_id w) (next_wl w) (global_base_index w) (global_renumber w)
    (global_w_options w).

Definition curws (w : world) : gmap Z (option Z) := s_curw <$> sessions w.

Lemma map_bare_alter (f : winlink -> winlink) id l : (forall wl, bare (f wl) = bare wl) ->
  map bare (wl_alter f id l) = map bare l.
Proof.
  intros Hf. unfold wl_alter. rewrite map_map. apply map_ext. intros wl. by case_decide.
Qed.

Lemma bare_flags n wl : bare (set_wl_flags n wl) = bare wl.
Proof. done. Qed.

#[global] Hint Resolve bare_flags : core.

Lemma map_wl_id l l' : map bare l = map bare l' -> map wl_id l = map wl_id l'.
Proof.
  intros E. apply (f_equal (map wl_id)) in E. by rewrite !map_map in E.
Qed.
Lemma map_wl_idx l l' : map bare l = map bare l' -> map wl_idx l = map wl_idx l'.
Proof. intros E. apply (f_equal (map wl_idx)) in E. by rewrite !map_map in E. Qed.
Lemma map_wl_window l l' : map bare l = map bare l' -> map wl_window l = map wl_window l'.
Proof. intros E. apply (f_equal (map wl_window)) in E. by rewrite !map_map in E. Qed.

(** ** Looking up links *)

Lemma list_find_bare (P : winlink -> Prop) `{forall x, Decision (P x)} l :
  (forall wl, P (bare wl) <-> P wl) ->
  list_find P (map bare l) = (fun '(i, x) => (i, bare x)) <$> list_find P l.
Proof.
  intros HP. induction l as [|x l IH]; [done|]. cbn.
  destruct (decide (P x)) as [Hx|Hx].
  - rewrite decide_True by (by apply HP). done.
  - rewrite decide_False by (by rewrite HP). rewrite IH.
    by destruct (list_find P l) as [[? ?]|].
Qed.

Lemma wl_get_bare l id : wl_get (map bare l) id = bare <$> wl_get l id.
Proof.
  unfold wl_get. rewrite list_find_bare by done. by destruct (list_find _ l) as [[? ?]|].
Qed.

Lemma wl_get_some l id wl : wl_get l id = Some wl -> wl ∈ l /\ wl_id wl = id.
Proof.
  unfold wl_get. destruct (list_find _ l) as [[i x]|] eqn:E; [|done]. cbn. intros [= ->].
  apply list_find_Some in E as (E & Hp & _). split; [by eapply list_elem_of_lookup_2|done].
Qed.

Lemma wl_get_in l wl : NoDup (map wl_id l) -> wl ∈ l -> wl_get l (wl_id wl) = Some wl.
Proof.
  intros Hnd Hin. unfold wl_get. apply list_elem_of_lookup_1 in Hin as [i Hi].
  assert (E : list_find (fun x => wl_id x = wl_id wl) l = Some (i, wl)); [|by rewrite E].
  apply list_find_Some. split_and!; [done|done|]. intros j y Hj Hlt Hy.
  assert (j = i); [|lia]. eapply NoDup_lookup; [done| |]; rewrite list_lookup_fmap.
  - by rewrite Hj.
  - rewrite Hi. cbn. by rewrite Hy.
Qed.

Lemma wl_delete_bare id l : map bare (wl_delete id l) = wl_delete id (map bare l).
Proof.
  unfold wl_delete. induction l as [|x l IH]; [done|]. cbn [map].
  destruct (decide (wl_id x = id)) as [E|E].
  - rewrite !filter_cons_False by (cbn; by intros []). done.
  - rewrite !filter_cons_True by done. cbn. by rewrite IH.
Qed.

Lemma wl_insert_bare wl l : map bare (wl_insert wl l) = wl_insert (bare wl) (map bare l).
Proof.
  induction l as [|x l IH]; [done|]. cbn. destruct (_ <? _); [done|].
  destruct (_ =? _); [done|]. cbn. by rewrite IH.
Qed.

Lemma wwl_ok_bare l : wwl_ok (map bare l) <-> wwl_ok l.
Proof.
  split; intros [H1 H2 H3]; split.
  - by rewrite map_map in H1.
  - by rewrite map_map in H2.
  - rewrite Forall_map in H3. exact H3.
  - by rewrite map_map.
  - by rewrite map_map.
  - rewrite Forall_map. exact H3.
Qed.

(** ** What the operations change *)

(** Sessions are filed under their ids. *)
Definition keyed (w : world) : Prop := forall sid s, sessions w !! sid = Some s -> s_id s = sid.

Lemma forget_session w sid : sessions (forget w) !! sid = shape <$> sessions w !! sid.
Proof. apply lookup_fmap. Qed.

Lemma forget_window w wid : windows (forget w) !! wid = quiet <$> windows w !! wid.
Proof. apply lookup_fmap. Qed.

Lemma shape_bare s : shape (shape s) = shape s.
Proof. unfold shape. cbn. f_equal. rewrite map_map. by apply map_ext. Qed.

Lemma forget_keyed w : keyed (forget w) <-> keyed w.
Proof.
  split; intros Hk sid s E.
  - specialize (Hk sid (shape s)). rewrite forget_session, E in Hk. by apply Hk.
  - rewrite forget_session in E. destruct (sessions w !! sid) as [s0|] eqn:E0; [|done].
    injection E as <-. by apply (Hk sid s0).
Qed.

Lemma keyed_same w w' : forget w' = forget w -> keyed w -> keyed w'.
Proof. intros E Hk. apply forget_keyed. rewrite E. by apply forget_keyed. Qed.

(** A session is put back with other flags, current window or stack. *)
Lemma forget_put w s s' : sessions w !! s_id s = Some s -> shape s' = shape s ->
  forget (put_session s' w) = forget w.
Proof.
  intros E Hsh. assert (Hid : s_id s' = s_id s) by (by injection Hsh).
  unfold forget, put_session. cbn. f_equal. rewrite fmap_insert, Hsh, Hid.
  apply insert_id. by rewrite lookup_fmap, E.
Qed.

Lemma forget_upd w sid f : (forall s, shape (f s) = shape s) ->
  forget (upd_session f sid w) = forget w.
Proof.
  intros Hf. unfold forget, upd_session, set_sessions. cbn. f_equal. by apply fmap_alter_same.
Qed.

Lemma stack_remove_shape wl s : shape (winlink_stack_remove wl s) = shape s /\
  s_curw (winlink_stack_remove wl s) = s_curw s.
Proof.
  unfold winlink_stack_remove. destruct (wl_get _ wl) as [x|]; [|done].
  destruct (wl_visited x); [|done]. split; [|done]. unfold shape. cbn.
  by rewrite map_bare_alter by auto.
Qed.

Lemma stack_push_shape wl s : shape (winlink_stack_push wl s) = shape s /\
  s_curw (winlink_stack_push wl s) = s_curw s.
Proof.
  destruct wl as [wl|]; [|done]. cbn. destruct (stack_remove_shape wl s) as [E1 E2].
  split; [|done]. rewrite <- E1. unfold shape. cbn. by rewrite map_bare_alter by auto.
Qed.

Lemma shape_curw c s : shape (set_curw c s) = shape s.
Proof. done. Qed.

Lemma w_lower_idem b x : w_lower b (w_lower b x) = w_lower b x.
Proof.
  unfold w_lower. cbn. unfold without. by rewrite Z.ldiff_ldiff_l, Z.lor_diag.
Qed.

Lemma curws_put w s : curws (put_session s w) = <[s_id s := s_curw s]> (curws w).
Proof. unfold curws, put_session. cbn. by rewrite fmap_insert. Qed.

Lemma forget_clear_flags wid w : forget (winlink_clear_flags wid w) = forget w /\
  curws (winlink_clear_flags wid w) = curws w.
Proof.
  split.
  - unfold forget, winlink_clear_flags. cbn. f_equal.
    + rewrite <- map_fmap_compose. apply map_fmap_ext. intros sid s _. unfold shape. cbn. f_equal.
      rewrite map_map. apply map_ext. intros x. by case_decide.
    + apply fmap_alter_same. intros x. apply w_lower_idem.
  - unfold curws, winlink_clear_flags. cbn. by rewrite <- map_fmap_compose.
Qed.

(** Selecting a link: the current window is set, the rest is flags. *)
Lemma set_current_same w sid o : keyed w ->
  let '(r, w') := session_set_current w sid o in
  forget w' = forget w /\
  curws w' = match sessions w !! sid, o with
             | Some _, Some wl => <[sid := Some wl]> (curws w)
             | _, _ => curws w
             end.
Proof.
  intros Hk. unfold session_set_current. destruct (sessions w !! sid) as [s|] eqn:E.
  2:{ by destruct o. }
  destruct o as [wl|]; [|done].
  case_decide as Hc.
  { split; [done|]. rewrite insert_id; [done|]. unfold curws. rewrite lookup_fmap, E. cbn.
    by rewrite Hc. }
  pose proof (Hk _ _ E) as Hid.
  set (s' := set_curw (Some wl) _).
  assert (Hsh : shape s' = shape s).
  { unfold s'. rewrite shape_curw.
    destruct (stack_push_shape (s_curw (winlink_stack_remove wl s)) (winlink_stack_remove wl s))
      as [E1 _]. rewrite E1. apply stack_remove_shape. }
  assert (Hid' : s_id s' = s_id s) by (by injection Hsh).
  assert (Hcs : s_curw s' = Some wl) by done. clearbody s'.
  assert (Hput : forget (put_session s' w) = forget w).
  { apply forget_put with s; [by rewrite Hid|done]. }
  assert (Hcw : curws (put_session s' w) = <[sid := Some wl]> (curws w)).
  { by rewrite curws_put, Hid', Hid, Hcs. }
  destruct (wl_get (s_windows s') wl) as [x|]; [|done].
  destruct (forget_clear_flags (wl_window x) (put_session s' w)) as [-> ->]. done.
Qed.

(** ** Linking and unlinking windows do not look at flags *)

Lemma find_index_bare l idx : winlink_find_by_index (map bare l) idx =
  bare <$> winlink_find_by_index l idx.
Proof.
  unfold winlink_find_by_index. rewrite list_find_bare by done.
  by destruct (list_find _ l) as [[? ?]|].
Qed.

Lemma find_window_bare l w : winlink_find_by_window (map bare l) w =
  bare <$> winlink_find_by_window l w.
Proof.
  unfold winlink_find_by_window. rewrite list_find_bare by done.
  by destruct (list_find _ l) as [[? ?]|].
Qed.

Lemma next_index_bare l n : forall i, next_index_from n (map bare l) i = next_index_from n l i.
Proof.
  induction n as [|n IH]; intros i; [done|]. cbn. rewrite find_index_bare.
  destruct (winlink_find_by_index l i); cbn; [apply IH|done].
Qed.

Lemma winlink_add_bare l id idx sid wid f :
  winlink_add (map bare l) id idx sid wid 0 =
  (fun '(wl, l') => (bare wl, map bare l')) <$> winlink_add l id idx sid wid f.
Proof.
  unfold winlink_add, winlink_next_index. rewrite length_map, next_index_bare, find_index_bare.
  destruct (idx <? 0).
  - destruct (next_index_from _ l _) as [i|]; [|done]. cbn. by rewrite wl_insert_bare.
  - destruct (winlink_find_by_index l idx); [done|]. cbn. by rewrite wl_insert_bare.
Qed.

Lemma shape_set_windows l s : shape (set_windows l s) = set_windows (map bare l) (shape s).
Proof. done. Qed.

Lemma forget_put_session s w : forget (put_session s w) = put_session (shape s) (forget w).
Proof. unfold forget, put_session. cbn. by rewrite fmap_insert. Qed.

Lemma forget_upd_window f wid w : (forall x, quiet (f x) = f (quiet x)) ->
  forget (upd_window f wid w) = upd_window f wid (forget w).
Proof.
  intros Hf. unfold forget, upd_window, set_w_windows. cbn. f_equal. by apply fmap_alter_comm.
Qed.

Lemma forget_add_ref wid w : forget (window_add_ref wid w) = window_add_ref wid (forget w).
Proof. by apply forget_upd_window. Qed.

Lemma forget_remove_ref wid w : forget (window_remove_ref wid w) = window_remove_ref wid (forget w).
Proof.
  unfold window_remove_ref. rewrite forget_window. destruct (windows w !! wid) as [x|] eqn:E; [|done].
  cbn [fmap option_fmap option_map]. change (w_references (quiet x)) with (w_references x).
  destruct (_ =? 0).
  - unfold forget. cbn. f_equal. by rewrite fmap_delete.
  - by apply forget_upd_window.
Qed.

Lemma link_window_forget sid idx wid f w :
  link_window sid idx wid 0 (forget w) =
  (fun '(wl, w') => (bare wl, forget w')) <$> link_window sid idx wid f w.
Proof.
  unfold link_window. rewrite forget_session. destruct (sessions w !! sid) as [s|]; [|done]. cbn.
  rewrite (winlink_add_bare _ _ _ _ _ f).
  destruct (winlink_add (s_windows s) _ _ _ _ f) as [[wl wwl]|]; [|done]. cbn. do 2 f_equal.
  rewrite forget_add_ref. f_equal. unfold forget, set_next_wl, put_session. cbn.
  by rewrite fmap_insert.
Qed.

Lemma unlink_window_forget sid wl w :
  forget (unlink_window sid wl w) = unlink_window sid (bare wl) (forget w).
Proof.
  unfold unlink_window. rewrite forget_remove_ref. cbn. f_equal.
  unfold forget, upd_session, set_sessions. cbn. f_equal. apply fmap_alter_comm. intros s.
  by rewrite shape_set_windows, wl_delete_bare.
Qed.

Lemma remove_ref_sessions wid w : sessions (window_remove_ref wid w) = sessions w.
Proof.
  unfold window_remove_ref. destruct (windows w !! wid); [|done]. by destruct (_ =? 0).
Qed.

Lemma unlink_curws sid wl w : curws (unlink_window sid wl w) = curws w.
Proof.
  unfold unlink_window, curws. rewrite remove_ref_sessions. unfold upd_session. cbn.
  by apply fmap_alter_same.
Qed.

Lemma link_curws sid idx wid f w wl w' : keyed w -> link_window sid idx wid f w = Some (wl, w') ->
  curws w' = curws w.
Proof.
  intros Hk Hl. unfold link_window in Hl. destruct (sessions w !! sid) as [s|] eqn:E; [|done].
  cbn in Hl. destruct (winlink_add _ _ _ _ _ _) as [[wl0 wwl]|]; [|done]. injection Hl as <- <-.
  unfold curws, window_add_ref, upd_window, set_next_wl, put_session. cbn.
  rewrite (Hk _ _ E), fmap_insert. apply insert_id. by rewrite lookup_fmap, E.
Qed.

Lemma link_keyed sid idx wid f w wl w' : keyed w -> link_window sid idx wid f w = Some (wl, w') ->
  keyed w'.
Proof.
  intros Hk Hl. unfold link_window in Hl. destruct (sessions w !! sid) as [s|] eqn:E; [|done].
  cbn in Hl. destruct (winlink_add _ _ _ _ _ _) as [[wl0 wwl]|]; [|done]. injection Hl as <- <-.
  intros sid' s'. unfold window_add_ref, upd_window, set_next_wl, put_session. cbn.
  rewrite (Hk _ _ E). intros [[<- <-]|[Hne E']]%lookup_insert_Some; [exact (Hk _ _ E)|by apply Hk].
Qed.

Lemma unlink_keyed sid wl w : keyed w -> keyed (unlink_window sid wl w).
Proof.
  intros Hk sid' s'. unfold unlink_window. rewrite remove_ref_sessions. unfold upd_session. cbn.
  intros [(-> & s & E & ->)|[Hne E]]%lookup_alter_Some; [exact (Hk _ _ E)|by apply Hk].
Qed.

(** ** Without session groups *)

Definition ungrouped (w : world) : Prop := session_groups w = [].

Lemma ungrouped_sync w sid : ungrouped w -> session_group_synchronize_from w sid = Some w.
Proof.
  unfold ungrouped, session_group_synchronize_from, session_group_contains. by intros ->.
Qed.

Lemma ungrouped_same w w' : forget w' = forget w -> ungrouped w -> ungrouped w'.
Proof.
  unfold ungrouped. intros E. change (session_groups (forget w) = [] -> session_groups (forget w') = []).
  by rewrite E.
Qed.

Lemma remove_ref_groups wid w : session_groups (window_remove_ref wid w) = session_groups w.
Proof.
  unfold window_remove_ref. destruct (windows w !! wid); [|done]. by destruct (_ =? 0).
Qed.

Lemma unlink_ungrouped sid wl w : ungrouped w -> ungrouped (unlink_window sid wl w).
Proof. unfold ungrouped, unlink_window. by rewrite remove_ref_groups. Qed.

Lemma session_next_same w sid alert : keyed w ->
  forget (snd (session_next w sid alert)) = forget w.
Proof.
  intros Hk. unfold session_next. destruct (sessions w !! sid) as [s|]; [|done].
  destruct (s_curw s) as [c|]; [|done]. cbn zeta.
  destruct (if alert then _ else _) as [wl|].
  - pose proof (set_current_same w sid (Some (wl_id wl)) Hk) as Hs.
    destruct (session_set_current w sid _). apply Hs.
  - destruct (if alert then _ else _) as [wl|]; [|done].
    pose proof (set_current_same w sid (Some (wl_id wl)) Hk) as Hs.
    destruct (session_set_current w sid _). apply Hs.
Qed.

Lemma session_previous_same w sid alert : keyed w ->
  forget (snd (session_previous w sid alert)) = forget w.
Proof.
  intros Hk. unfold session_previous. destruct (sessions w !! sid) as [s|]; [|done].
  destruct (s_curw s) as [c|]; [|done]. cbn zeta.
  destruct (if alert then _ else _) as [wl|].
  - pose proof (set_current_same w sid (Some (wl_id wl)) Hk) as Hs.
    destruct (session_set_current w sid _). apply Hs.
  - destruct (if alert then _ else _) as [wl|]; [|done].
    pose proof (set_current_same w sid (Some (wl_id wl)) Hk) as Hs.
    destruct (session_set_current w sid _). apply Hs.
Qed.

Lemma session_last_same w sid : keyed w -> forget (snd (session_last w sid)) = forget w.
Proof.
  intros Hk. unfold session_last. destruct (sessions w !! sid) as [s|]; [|done].
  destruct (head _) as [wl|]; [|done]. case_decide; [done|].
  pose proof (set_current_same w sid (Some wl) Hk) as Hs.
  destruct (session_set_current w sid _). apply Hs.
Qed.

Lemma session_leave_same w sid : keyed w -> forget (session_leave w sid) = forget w.
Proof.
  intros Hk. unfold session_leave. pose proof (session_last_same w sid Hk) as H1.
  destruct (session_last w sid) as [r w1]. cbn in H1. destruct (r =? 0); [done|].
  assert (Hk1 : keyed w1) by (by apply (keyed_same w)).
  pose proof (session_previous_same w1 sid false Hk1) as H2.
  destruct (session_previous w1 sid false) as [r2 w2]. cbn in H2. rewrite H1 in H2.
  destruct (r2 =? 0); [done|].
  rewrite session_next_same; [done|]. by apply (keyed_same w).
Qed.
