(* ===== verification/Window.v ===== *)
(** * Windows and panes (src/tmux/windows/window.c, windows/layout.c)

    A function of the code that changes the server's state takes the [world]
    and gives it back.  [None] is undefined behaviour: a NULL dereference, or a
    walk out of a list or a grid.  The screen a mode of a pane shows and the
    queue of sizes to send to its process are not part of the state. *)
From Stdlib Require Import Ascii String.
From S2P Require Import Prelude.
From S2P Require Import CString.
From S2P Require Import Layout.
From S2P Require Import LayoutCustom.
From S2P Require Import Utf8.
From S2P Require Import Locale.
From S2P Require Import CellCodec.
From S2P Require Import Grid.
From S2P Require Import Screen.
From S2P Require Import Winlink.
From S2P Require Import World.
From S2P Require Import Session.

(** ** Lists of panes *)

(** [TAILQ_NEXT] and [TAILQ_PREV] of an element. *)
Fixpoint next_of (x : Z) (l : list Z) : option Z :=
  match l with
  | [] => None
  | y :: l => if decide (x = y) then head l else next_of x l
  end.

Definition prev_of (x : Z) (l : list Z) : option Z := next_of x (reverse l).

(** [TAILQ_INSERT_BEFORE]; the list does not change without the element. *)
Fixpoint insert_before (at_ x : Z) (l : list Z) : list Z :=
  match l with
  | [] => []
  | y :: l => if decide (y = at_) then x :: y :: l else y :: insert_before at_ x l
  end.

Definition tailq_remove (x : Z) (l : list Z) : list Z := filter (fun y => y <> x) l.

Definition window_find_by_id (w : world) (id : Z) : option window := windows w !! id.
Definition window_pane_find_by_id (w : world) (id : Z) : option pane := panes w !! id.

Definition window_has_pane (x : window) (pid : Z) : bool := bool_decide (pid ∈ w_panes x).

Definition window_count_panes (w : world) (x : window) (with_floating : bool) : Z :=
  Z.of_nat (length (filter (fun pid =>
    with_floating = true \/ (p ← panes w !! pid; Some (p_has p PANE_FLOATING)) = Some false)
    (w_panes x))).

Definition window_has_floating_panes (w : world) (x : window) : bool :=
  existsb (fun pid => match panes w !! pid with
                      | Some p => p_has p PANE_FLOATING | None => false end) (w_panes x).

Definition window_pane_at_index (x : window) (idx : Z) : option Z :=
  let n := idx - o_pane_base_index (w_options x) in
  if n <? 0 then None else w_panes x !! Z.to_nat n.

(** The index of a pane and whether it was found. *)
Definition window_pane_index (x : window) (pid : Z) : Z * bool :=
  match list_find (fun q => q = pid) (w_panes x) with
  | Some (i, _) => (u32 (o_pane_base_index (w_options x) + Z.of_nat i), true)
  | None => (u32 (o_pane_base_index (w_options x) + Z.of_nat (length (w_panes x))), false)
  end.

Fixpoint window_pane_next_by_number (x : window) (pid : Z) (n : nat) : option Z :=
  match n with
  | O => Some pid
  | S n => match next_of pid (w_panes x) with
           | Some q => window_pane_next_by_number x q n
           | None => q ← head (w_panes x); window_pane_next_by_number x q n
           end
  end.

Fixpoint window_pane_previous_by_number (x : window) (pid : Z) (n : nat) : option Z :=
  match n with
  | O => Some pid
  | S n => match prev_of pid (w_panes x) with
           | Some q => window_pane_previous_by_number x q n
           | None => q ← last (w_panes x); window_pane_previous_by_number x q n
           end
  end.

(** ** The stack of last panes *)

Definition window_pane_stack_remove (wid : Z) (pid : option Z) (w : world) : world :=
  match pid with
  | None => w
  | Some pid =>
      match panes w !! pid with
      | Some p =>
          if p_has p PANE_VISITED then
            upd_pane (p_lower PANE_VISITED) pid
              (upd_window (fun x => set_w_last_panes (tailq_remove pid (w_last_panes x)) x) wid w)
          else w
      | None => w
      end
  end.

Definition window_pane_stack_push (wid : Z) (pid : option Z) (w : world) : world :=
  match pid with
  | None => w
  | Some pid =>
      let w := window_pane_stack_remove wid (Some pid) w in
      upd_pane (p_raise PANE_VISITED) pid
        (upd_window (fun x => set_w_last_panes (pid :: w_last_panes x) x) wid w)
  end.

(** A pane is about to leave a window.  [order] is the list it is linked in: its
    neighbours are those of the list even when it was just taken out of it. *)
Definition window_lost_pane (wid pid : Z) (order : list Z) (w : world) : world :=
  let w := window_pane_stack_remove wid (Some pid) w in
  match windows w !! wid with
  | None => w
  | Some x =>
      if decide (w_active x = Some pid) then
        let active := match head (w_last_panes x) with
                      | Some q => Some q
                      | None => match prev_of pid order with
                                | Some q => Some q
                                | None => next_of pid order
                                end
                      end in
        let w := upd_window (set_w_active active) wid w in
        match active with
        | None => w
        | Some q => upd_pane (p_raise PANE_CHANGED) q (window_pane_stack_remove wid (Some q) w)
        end
      else w
  end.

(** ** Layouts and panes *)

Fixpoint find_leaf (lc : layout_cell) (pid : Z) : option (list nat) :=
  match lc with
  | LC _ _ _ _ _ wp cs =>
      if decide (wp = Some pid) then Some []
      else (fix go i cs := match cs with
                           | [] => None
                           | c :: cs => match find_leaf c pid with
                                        | Some p => Some (i :: p)
                                        | None => go (S i) cs
                                        end
                           end) 0%nat cs
  end.

(** [wp->layout_cell]: a path in the tree or a cell of its own. *)
Inductive pane_place := InTree (path : list nat) | Floating (lc : layout_cell).

Definition layout_cell_of (x : window) (pid : Z) : option pane_place :=
  match (root ← w_layout_root x; find_leaf root pid) with
  | Some p => Some (InTree p)
  | None =>
      if w_has x WINDOW_ZOOMED then None
      else Floating <$> (snd <$> list_find (fun lc => lc_wp lc = Some pid) (w_floating x))
  end.

(** The options the layout code reads, with the scrollbar style of the active
    pane. *)
Definition window_env (w : world) (x : window) : layout_env :=
  let o := w_options x in
  match (pid ← w_active x; panes w !! pid) with
  | Some p => LayoutEnv (o_border_status o) (negb (o_scrollbars o =? 0)) (wp_sb_width p)
                (wp_sb_pad p)
  | None => LayoutEnv (o_border_status o) (negb (o_scrollbars o =? 0)) 0 0
  end.

Inductive pane_mode := WINDOW_PANE_NO_MODE | WINDOW_PANE_COPY_MODE | WINDOW_PANE_VIEW_MODE.

#[global] Instance pane_mode_eq_dec : EqDecision pane_mode.
Proof. solve_decision. Defined.

Definition window_pane_mode (p : pane) : pane_mode :=
  match wp_modes p with
  | window_copy_mode :: _ => WINDOW_PANE_COPY_MODE
  | window_view_mode :: _ => WINDOW_PANE_VIEW_MODE
  | _ => WINDOW_PANE_NO_MODE
  end.

Definition window_pane_show_scrollbar (p : pane) (sb_option : Z) : bool :=
  if screen_is_alternate (wp_base p) then false
  else (sb_option =? PANE_SCROLLBARS_ALWAYS) ||
       ((sb_option =? PANE_SCROLLBARS_MODAL) &&
        negb (bool_decide (window_pane_mode p = WINDOW_PANE_NO_MODE))).

Section Window.
Context `{CellCodec} `{Locale}.

Definition window_pane_resize (p : pane) (sx sy : Z) : option pane :=
  if (sx =? wp_sx p) && (sy =? wp_sy p) then Some p
  else
    base ← screen_resize (wp_base p) sx sy (negb (screen_is_alternate (wp_base p)));
    Some (set_p_base base (set_p_size sx sy p)).

(** The offset and width of a pane next to its scrollbar, from those of its cell. *)
Definition beside_scrollbar (position sb_w sb_pad xoff sx : Z) : Z * Z :=
  let sb_w := if sb_w <? 1 then 1 else sb_w in
  let sb_pad := if sb_pad <? 0 then 0 else sb_pad in
  if position =? PANE_SCROLLBARS_LEFT then
    if s32 sx - sb_w <? PANE_MINIMUM
    then (s32 (xoff + s32 sx - PANE_MINIMUM), PANE_MINIMUM)
    else (s32 (xoff + sb_w + sb_pad), u32 (sx - sb_w - sb_pad))
  else if s32 sx - sb_w - sb_pad <? PANE_MINIMUM then (xoff, PANE_MINIMUM)
  else (xoff, u32 (sx - sb_w - sb_pad)).

(** One pane of [layout_fix_panes]. *)
Definition fix_pane (env : layout_env) (x : window) (p : pane) : option pane :=
  match layout_cell_of x (wp_id p) with
  | None => Some p
  | Some place =>
      '(lc, e) ← (match place with
                  | InTree path =>
                      root ← w_layout_root x; lc ← cell_at root path;
                      Some (lc, edge_at edge_root root path)
                  | Floating lc => Some (lc, edge_none)
                  end);
      let xoff := lc_xoff lc in
      let yoff := lc_yoff lc in
      let sx := lc_sx lc in
      let sy := lc_sy lc in
      let '(yoff, sy) :=
        if negb (p_has p PANE_FLOATING) && layout_add_horizontal_border env e
        then ((if pane_border_status env =? PANE_STATUS_TOP then s32 (yoff + 1) else yoff),
              u32 (sy - 1))
        else (yoff, sy) in
      let '(xoff, sx, p) :=
        if window_pane_show_scrollbar p (o_scrollbars (w_options x))
        then
          (beside_scrollbar (o_scrollbars_position (w_options x)) (wp_sb_width p) (wp_sb_pad p)
             xoff sx, p_raise PANE_REDRAWSCROLLBAR p)
        else (xoff, sx, p) in
      window_pane_resize (set_p_off xoff yoff p) sx sy
  end.

Definition layout_fix_panes (wid : Z) (skip : option Z) (w : world) : option world :=
  x ← windows w !! wid;
  let env := window_env w x in
  foldl (fun w pid =>
      w ← w;
      if decide (skip = Some pid) then Some w
      else p ← panes w !! pid; p ← fix_pane env x p; Some (put_pane p w))
    (Some w) (w_panes x).

(** [layout_init]. *)
Definition window_layout_init (wid pid : Z) (w : world) : option world :=
  x ← windows w !! wid;
  layout_fix_panes wid None
    (upd_window (set_w_layout_root (Some (layout_init (w_sx x) (w_sy x) pid))) wid w).

Definition layout_close_pane (pid : Z) (w : world) : option world :=
  p ← panes w !! pid;
  x ← windows w !! wp_window p;
  match layout_cell_of x pid with
  | None => Some w
  | Some place =>
      x ← (match place with
           | Floating lc => Some (set_w_floating (filter (fun c => lc_wp c <> Some pid)
                                                   (w_floating x)) x)
           | InTree path =>
               root ← w_layout_root x;
               match path with
               | [] => if p_has p PANE_FLOATING then None   (* the root is freed but kept *)
                       else Some (set_w_layout_root None x)
               | _ => match layout_destroy_cell (window_env w x) edge_root root path with
                      | Ok root => Some (set_w_layout_root root x)
                      | _ => None
                      end
               end
           end);
      let w := put_window x w in
      match w_layout_root x with
      | None => Some w
      | Some root =>
          layout_fix_panes (w_id x) None
            (put_window (set_w_layout_root (Some (layout_fix_offsets root)) x) w)
      end
  end.

(** ** Zoom *)

(** The return value and the world. *)
Definition window_unzoom (wid : Z) (w : world) : option (Z * world) :=
  x ← windows w !! wid;
  if negb (w_has x WINDOW_ZOOMED) then Some (-1, w)
  else
    let x := set_w_saved_layout_root None
               (set_w_layout_root (w_saved_layout_root x) (w_lower WINDOW_ZOOMED x)) in
    let w := foldl (fun w pid => upd_pane (p_lower PANE_ZOOMED) pid w) (put_window x w)
               (w_panes x) in
    w ← layout_fix_panes wid None w;
    Some (0, w).

Definition window_set_active_pane (wid pid : Z) (w : world) : option (Z * world) :=
  x ← windows w !! wid;
  if decide (w_active x = Some pid) then Some (0, w)
  else
    w ← (if w_has x WINDOW_ZOOMED then snd <$> window_unzoom wid w else Some w);
    let w := window_pane_stack_remove wid (Some pid) w in
    let w := window_pane_stack_push wid (w_active x) w in
    Some (1, upd_pane (p_raise PANE_CHANGED) pid (upd_window (set_w_active (Some pid)) wid w)).

Definition window_zoom (pid : Z) (w : world) : option (Z * world) :=
  p ← panes w !! pid;
  let wid := wp_window p in
  x ← windows w !! wid;
  if w_has x WINDOW_ZOOMED then Some (-1, w)
  else if window_count_panes w x true =? 1 then Some (-1, w)
  else
    w ← (if decide (w_active x = Some pid) then Some w
         else snd <$> window_set_active_pane wid pid w);
    let w := upd_pane (p_raise PANE_ZOOMED) pid w in
    let w := upd_window (fun x => set_w_saved_layout_root (w_layout_root x) x) wid w in
    w ← (x ← windows w !! wid;
         (* the pane is the only one with a cell, as in a zoomed window *)
         layout_fix_panes wid None
           (put_window (w_raise WINDOW_ZOOMED
              (set_w_layout_root (Some (layout_init (w_sx x) (w_sy x) pid)) x)) w));
    Some (0, w).

Definition window_push_zoom (wid : Z) (always flag : bool) (w : world) : option (bool * world) :=
  x ← windows w !! wid;
  let w := if flag && (always || w_has x WINDOW_ZOOMED)
           then upd_window (w_raise WINDOW_WASZOOMED) wid w
           else upd_window (w_lower WINDOW_WASZOOMED) wid w in
  '(r, w) ← window_unzoom wid w;
  Some (r =? 0, w).

Definition window_pop_zoom (wid : Z) (w : world) : option (bool * world) :=
  x ← windows w !! wid;
  if w_has x WINDOW_WASZOOMED then
    active ← w_active x;
    '(r, w) ← window_zoom active w;
    Some (r =? 0, w)
  else Some (false, w).

(** ** Windows *)

Definition window_create (sx sy : Z) (w : world) : window * world :=
  let x := Window (next_window_id w) "" [] [] [] None sx sy None None [] 0 0
             (global_w_options w) in
  (x, set_next_window (u32 (next_window_id w + 1)) (put_window x w)).

Definition window_set_name (wid : Z) (new_name : string) (w : world) : option world :=
  name ← clean_name new_name "#";
  Some (match name with
        | Some name => upd_window (set_w_name name) wid w
        | None => w
        end).

Definition window_resize (wid sx sy : Z) (w : world) : world := upd_window (set_w_size sx sy) wid w.

(** A pane is destroyed. *)
Definition window_remove_pane (wid pid : Z) (w : world) : option world :=
  x ← windows w !! wid;
  let w := window_lost_pane wid pid (w_panes x) w in
  let w := upd_window (fun x => set_w_zindex (tailq_remove pid (w_zindex x))
                                  (set_w_panes (tailq_remove pid (w_panes x)) x)) wid w in
  Some (set_panes (delete pid (panes w)) w).

(** ** Saved layouts *)

(** The layout of a window as a string, of the tree [root]. *)
Definition window_layout_dump (w : world) (x : window) (root : option layout_cell) :
    option string :=
  layout_dump (map (fun pid =>
      (match panes w !! pid with Some p => p_has p PANE_FLOATING | None => false end,
       match layout_cell_of x pid with
       | Some (Floating lc) => Some lc
       | Some (InTree path) => root ← w_layout_root x; cell_at root path
       | None => None
       end)) (w_zindex x)) root.

(** [layout_parse]: an error leaves the window as it is. *)
Definition window_layout_parse (wid : Z) (layout : string) (w : world) :
    option (option string * world) :=
  x ← windows w !! wid;
  match layout_parse (window_env w x) (w_sx x) (w_sy x) (w_panes x) layout with
  | Undef => None
  | Err cause => Some (Some cause, w)
  | Ok r =>
      let w := match p_size r with Some (sx, sy) => window_resize wid sx sy w | None => w end in
      let w := upd_window (fun x => set_w_zindex (p_zindex r)
                 (set_w_floating (p_floating r) (set_w_layout_root (Some (p_root r)) x))) wid w in
      let w := foldl (fun w pid => upd_pane (p_raise PANE_FLOATING) pid w) w
                 (omap id (flat_map leaves (p_floating r))) in
      w ← layout_fix_panes wid None w;
      Some (None, w)
  end.

End Window.
