(* ===== verification/CmdQueue.v ===== *)
(** * The queues of commands (src/tmux/commands/cmd-queue.c)

    Every client has a queue of items, and there is a global one; an item is a
    command of a list or a callback, and shares a state with the items it came
    with.  The heap is explicit: items, states, lists of commands and clients
    are found by their addresses, an address that is not there has been freed
    and [None] is a use of it.  The links of a queue (TAILQ) are the list of its
    items; the pointers [next] of the items that are not yet on a queue are
    kept, as the code goes along them.  What is outside the file is the class
    [Commands]: the commands and callbacks, finding clients and targets, the
    options. *)
From Stdlib Require Import Ascii String.
From S2P Require Import Prelude.
From S2P Require Import CString.
From S2P Require Import Utf8.
From S2P Require Import Locale.
From S2P Require Import KeyString.
From S2P Require Import Arguments.
From S2P Require Import CmdTable.
From S2P Require Import Grid.
From S2P Require Import Winlink.
From S2P Require Import World.
From S2P Require Import Window.

(** ** Data *)

Definition CMDQ_FIRED : Z := 0x1.
Definition CMDQ_WAITING : Z := 0x2.
Definition CMDQ_STATE_CONTROL : Z := 0x2.
Definition CMDQ_STATE_NOHOOKS : Z := 0x4.
Definition CLIENT_CONTROL : Z := 0x2000.
Definition CLIENT_UTF8 : Z := 0x10000.

Inductive cmd_retval := CMD_RETURN_ERROR | CMD_RETURN_NORMAL | CMD_RETURN_WAIT | CMD_RETURN_STOP.
#[global] Instance cmd_retval_eq_dec : EqDecision cmd_retval.
Proof. solve_decision. Defined.

Inductive cmdq_type := CMDQ_COMMAND | CMDQ_CALLBACK.

(** The callbacks of the file, and the others by a number and their data. *)
Inductive cmdq_cb := cmdq_empty_command | cmdq_error_callback (error : list Z) | other_cb (cb data : Z).

(** A session, a link, a window and a pane by their ids. *)
Record cmd_find_state := FS {
  fs_flags : Z;
  fs_s : option Z;
  fs_wl : option Z;
  fs_w : option Z;
  fs_wp : option Z;
  fs_idx : Z
}.

Record key_event := KeyEvent { ev_key : Z; ev_m : mouse_event; ev_buf : list Z }.

(** The key and the value of every format. *)
Definition formats : Type := gmap (list Z) (list Z).

Record cmdq_state := State {
  st_references : Z;
  st_flags : Z;
  st_formats : option formats;
  st_event : key_event;
  st_current : cmd_find_state
}.

(** A queue by the client it is of. *)
Definition queue_id : Type := option Z.

Record cmdq_item := Item {
  it_queue : option queue_id;
  it_next : option Z;
  it_client : option Z;
  it_target_client : option Z;
  it_type : cmdq_type;
  it_group : Z;
  it_number : Z;
  it_time : Z;
  it_flags : Z;
  it_state : Z;
  it_source : cmd_find_state;
  it_target : cmd_find_state;
  it_cmdlist : option Z;
  it_cmd : option cmd;
  it_cb : option cmdq_cb
}.

Record cmdq_list := Queue { cq_item : option Z; cq_list : list Z }.

Record client := Client {
  c_name : list Z;
  c_flags : Z;
  c_session : option Z;
  c_references : Z;
  c_retval : Z
}.

(** What is called outside the file, with its arguments. *)
Inductive output :=
  | control_write (c : Z) (line : list Z)
  | server_add_message (message : list Z)
  | cfg_add_cause (file : option (list Z)) (line : Z) (message : list Z)
  | file_error (c : Z) (message : list Z)
  | status_message_set (c : Z) (message : list Z)
  | server_client_print (c : option Z) (data : list Z)
  | server_client_free (c : Z).

Record server (rest : Type) := Server {
  q_items : gmap Z cmdq_item;
  q_states : gmap Z cmdq_state;
  q_lists : gmap Z (cmd_list * Z);        (* with the references *)
  q_queues : gmap queue_id cmdq_list;
  q_clients : gmap Z client;
  q_number : Z;
  q_next : Z;                             (* the next address *)
  q_out : list output;
  q_world : world;
  q_rest : rest
}.
Arguments Server {rest}.
Arguments q_items {rest}. Arguments q_states {rest}. Arguments q_lists {rest}.
Arguments q_queues {rest}. Arguments q_clients {rest}. Arguments q_number {rest}.
Arguments q_next {rest}. Arguments q_out {rest}. Arguments q_world {rest}. Arguments q_rest {rest}.

(** ** Assignments to one field or a few *)

Section Setters.
Context {rest : Type}.
Implicit Types s : server rest.

Definition set_items x s := Server x (q_states s) (q_lists s) (q_queues s) (q_clients s)
  (q_number s) (q_next s) (q_out s) (q_world s) (q_rest s).
Definition set_states x s := Server (q_items s) x (q_lists s) (q_queues s) (q_clients s)
  (q_number s) (q_next s) (q_out s) (q_world s) (q_rest s).
Definition set_lists x s := Server (q_items s) (q_states s) x (q_queues s) (q_clients s)
  (q_number s) (q_next s) (q_out s) (q_world s) (q_rest s).
Definition set_queues x s := Server (q_items s) (q_states s) (q_lists s) x (q_clients s)
  (q_number s) (q_next s) (q_out s) (q_world s) (q_rest s).
Definition set_clients x s := Server (q_items s) (q_states s) (q_lists s) (q_queues s) x
  (q_number s) (q_next s) (q_out s) (q_world s) (q_rest s).
Definition set_number x s := Server (q_items s) (q_states s) (q_lists s) (q_queues s) (q_clients s)
  x (q_next s) (q_out s) (q_world s) (q_rest s).
Definition set_next x s := Server (q_items s) (q_states s) (q_lists s) (q_queues s) (q_clients s)
  (q_number s) x (q_out s) (q_world s) (q_rest s).
Definition put x s := Server (q_items s) (q_states s) (q_lists s) (q_queues s) (q_clients s)
  (q_number s) (q_next s) (q_out s ++ [x]) (q_world s) (q_rest s).

Definition upd_item (f : cmdq_item -> cmdq_item) i s := set_items (alter f i (q_items s)) s.
Definition upd_state (f : cmdq_state -> cmdq_state) st s := set_states (alter f st (q_states s)) s.
Definition upd_queue (f : cmdq_list -> cmdq_list) q s := set_queues (alter f q (q_queues s)) s.
Definition upd_client (f : client -> client) c s := set_clients (alter f c (q_clients s)) s.
End Setters.

Definition set_it_next x it := Item (it_queue it) x (it_client it) (it_target_client it) (it_type it)
  (it_group it) (it_number it) (it_time it) (it_flags it) (it_state it) (it_source it) (it_target it)
  (it_cmdlist it) (it_cmd it) (it_cb it).
Definition set_it_client x it := Item (it_queue it) (it_next it) x (it_target_client it) (it_type it)
  (it_group it) (it_number it) (it_time it) (it_flags it) (it_state it) (it_source it) (it_target it)
  (it_cmdlist it) (it_cmd it) (it_cb it).
Definition set_it_queue x it := Item x (it_next it) (it_client it) (it_target_client it) (it_type it)
  (it_group it) (it_number it) (it_time it) (it_flags it) (it_state it) (it_source it) (it_target it)
  (it_cmdlist it) (it_cmd it) (it_cb it).
Definition set_it_target_client x it := Item (it_queue it) (it_next it) (it_client it) x (it_type it)
  (it_group it) (it_number it) (it_time it) (it_flags it) (it_state it) (it_source it) (it_target it)
  (it_cmdlist it) (it_cmd it) (it_cb it).
Definition set_it_time n t it := Item (it_queue it) (it_next it) (it_client it) (it_target_client it)
  (it_type it) (it_group it) n t (it_flags it) (it_state it) (it_source it) (it_target it)
  (it_cmdlist it) (it_cmd it) (it_cb it).
Definition set_it_flags x it := Item (it_queue it) (it_next it) (it_client it) (it_target_client it)
  (it_type it) (it_group it) (it_number it) (it_time it) x (it_state it) (it_source it) (it_target it)
  (it_cmdlist it) (it_cmd it) (it_cb it).
Definition set_it_source x it := Item (it_queue it) (it_next it) (it_client it) (it_target_client it)
  (it_type it) (it_group it) (it_number it) (it_time it) (it_flags it) (it_state it) x (it_target it)
  (it_cmdlist it) (it_cmd it) (it_cb it).
Definition set_it_target x it := Item (it_queue it) (it_next it) (it_client it) (it_target_client it)
  (it_type it) (it_group it) (it_number it) (it_time it) (it_flags it) (it_state it) (it_source it) x
  (it_cmdlist it) (it_cmd it) (it_cb it).

Definition set_st_references x st :=
  State x (st_flags st) (st_formats st) (st_event st) (st_current st).
Definition set_st_formats x st :=
  State (st_references st) (st_flags st) x (st_event st) (st_current st).
Definition set_cq_item x q := Queue x (cq_list q).
Definition set_cq_list x q := Queue (cq_item q) x.
Definition set_c_references x c := Client (c_name c) (c_flags c) (c_session c) x (c_retval c).
Definition set_c_retval x c := Client (c_name c) (c_flags c) (c_session c) (c_references c) x.

(** ** Targets (src/tmux/commands/cmd-find.c) *)

Definition cmd_find_clear_state (flags : Z) : cmd_find_state := FS flags None None None None (-1).

Definition cmd_find_empty_state (fs : cmd_find_state) : bool :=
  match fs with FS _ None None None None _ => true | _ => false end.

(** The session is there, the link is one of its own to the window, and the
    window has the pane. *)
Definition cmd_find_valid_state (w : world) (fs : cmd_find_state) : bool :=
  match fs_s fs, fs_wl fs, fs_w fs, fs_wp fs with
  | Some sid, Some wl, Some wid, Some pid =>
      match sessions w !! sid, windows w !! wid with
      | Some s, Some x =>
          existsb (fun l => (wl_window l =? wid) && (wl_id l =? wl)) (s_windows s) && window_has_pane x pid
      | _, _ => false
      end
  | _, _, _, _ => false
  end.

Definition cmd_find_copy_state (dst src : cmd_find_state) : cmd_find_state :=
  FS (fs_flags dst) (fs_s src) (fs_wl src) (fs_w src) (fs_wp src) (fs_idx src).

(** ** What the queue asks of the rest of the server *)

Class Commands (rest : Type) := {
  (* the client a flag names, or the current one; whether to be quiet *)
  cmd_find_client : Z -> option (list Z) -> bool -> server rest -> option (option Z * server rest);
  (* [None] is an error that has been reported *)
  cmd_find_target : Z -> option (list Z) -> cmd_find_type -> Z -> server rest ->
    option (option cmd_find_state * server rest);
  (* whether a target was found, and what is left in the state *)
  cmd_find_from_client : option Z -> server rest -> bool * cmd_find_state;
  cmd_exec : cmd -> Z -> server rest -> option (cmd_retval * server rest);
  run_cb : Z -> Z -> Z -> server rest -> option (cmd_retval * server rest);
  (* the option of a session, or a global one: the lists of its array *)
  hook_array : option Z -> list Z -> server rest -> option (list (option Z));
  time_now : rest -> Z;
  cfg_finished : rest -> bool;
  proc_get_peer_uid : rest -> Z -> Z;
  getuid : Z;
  getpwuid : Z -> option (list Z);
  key_chars : rest -> utf8_table
}.

Section Queue.
Context {rest : Type} `{Commands rest} `{Locale}.
Implicit Types s : server rest.

Definition bytes (s : string) : list Z := bytes_of_string s.

(** ** Queues and states *)

Definition cmdq_new : cmdq_list := Queue None [].

(** The global queue is made when it is first asked for. *)
Definition cmdq_get (c : option Z) s : option (queue_id * server rest) :=
  match q_queues s !! c, c with
  | Some _, _ => Some (c, s)
  | None, None => Some (None, set_queues (<[None:=cmdq_new]> (q_queues s)) s)
  | None, Some _ => None
  end.

Definition cmdq_free (q : queue_id) s : option (server rest) :=
  x ← q_queues s !! q;
  match cq_list x with
  | [] => Some (set_queues (delete q (q_queues s)) s)
  | _ => None
  end.

Definition new_key_event (event : option key_event) : key_event :=
  match event with Some e => e | None => KeyEvent KEYC_NONE mouse_zero [] end.

Definition cmdq_new_state (current : option cmd_find_state) (event : option key_event) (flags : Z) s :
    Z * server rest :=
  let zero := FS 0 None None None None 0 in
  let cur := match current with
             | Some fs => if cmd_find_valid_state (q_world s) fs then cmd_find_copy_state zero fs
                          else cmd_find_clear_state 0
             | None => cmd_find_clear_state 0
             end in
  (q_next s, set_next (q_next s + 1)
     (set_states (<[q_next s:=State 1 flags None (new_key_event event) cur]> (q_states s)) s)).

Definition cmdq_link_state (st : Z) s : option (server rest) :=
  _ ← q_states s !! st;
  Some (upd_state (fun x => set_st_references (st_references x + 1) x) st s).

Definition cmdq_copy_state (st : Z) (current : option cmd_find_state) s : option (Z * server rest) :=
  x ← q_states s !! st;
  Some (cmdq_new_state (Some (default (st_current x) current)) (Some (st_event x)) (st_flags x) s).

Definition cmdq_free_state (st : Z) s : option (server rest) :=
  x ← q_states s !! st;
  let n := st_references x - 1 in
  Some (if n =? 0 then set_states (delete st (q_states s)) s else upd_state (set_st_references n) st s).

Definition cmdq_add_format (st : Z) (key value : list Z) s : option (server rest) :=
  x ← q_states s !! st;
  Some (upd_state (set_st_formats (Some (<[key:=value]> (default ∅ (st_formats x))))) st s).

(** [format_merge]: what is added wins. *)
Definition format_merge (ft from : formats) : formats := from ∪ ft.

Definition cmdq_add_formats (st : Z) (ft : formats) s : option (server rest) :=
  x ← q_states s !! st;
  Some (upd_state (set_st_formats (Some (format_merge (default ∅ (st_formats x)) ft))) st s).

Definition cmdq_merge_formats (i : Z) (ft : formats) s : option formats :=
  it ← q_items s !! i;
  x ← q_states s !! it_state it;
  let ft := match it_cmd it with
            | Some cmd => <[bytes "command":=ce_name (cmd_get_entry cmd)]> ft
            | None => ft
            end in
  Some (match st_formats x with Some from => format_merge ft from | None => ft end).

(** ** Putting items on a queue *)

(** [if (c != NULL) c->references++;] *)
Definition client_ref (c : option Z) s : option (server rest) :=
  match c with
  | None => Some s
  | Some c => x ← q_clients s !! c; Some (upd_client (set_c_references (c_references x + 1)) c s)
  end.

(** Along the pointers [next] of the items. *)
Fixpoint append_chain (fuel : nat) (c : option Z) (q : queue_id) (item : Z) s : option (server rest) :=
  match fuel with
  | O => None
  | S fuel =>
      it ← q_items s !! item;
      let next := it_next it in
      s ← client_ref c s;
      let s := upd_item (fun it => set_it_queue (Some q) (set_it_client c (set_it_next None it))) item s in
      let s := upd_queue (fun x => set_cq_list (cq_list x ++ [item]) x) q s in
      match next with
      | None => Some s
      | Some item => append_chain fuel c q item s
      end
  end.

(** The chain has no more items than there are. *)
Definition chain_fuel s : nat := S (size (q_items s)).

(** The last item of the queue is given back. *)
Definition cmdq_append (c : option Z) (item : Z) s : option (option Z * server rest) :=
  '(q, s) ← cmdq_get c s;
  s ← append_chain (chain_fuel s) c q item s;
  x ← q_queues s !! q;
  Some (last (cq_list x), s).

(** [TAILQ_INSERT_AFTER] *)
Fixpoint tailq_insert_after (after x : Z) (l : list Z) : list Z :=
  match l with
  | [] => []
  | y :: l => if decide (y = after) then y :: x :: l else y :: tailq_insert_after after x l
  end.

Fixpoint insert_chain (fuel : nat) (c : option Z) (q : queue_id) (after item : Z) s : option (Z * server rest) :=
  match fuel with
  | O => None
  | S fuel =>
      it ← q_items s !! item;
      a ← q_items s !! after;
      let next := it_next it in
      let s := upd_item (set_it_next (it_next a)) item s in
      let s := upd_item (set_it_next (Some item)) after s in
      s ← client_ref c s;
      let s := upd_item (fun it => set_it_queue (Some q) (set_it_client c it)) item s in
      let s := upd_queue (fun x => set_cq_list (tailq_insert_after after item (cq_list x)) x) q s in
      match next with
      | None => Some (item, s)
      | Some next => insert_chain fuel c q item next s
      end
  end.

Definition cmdq_insert_after (after item : Z) s : option (Z * server rest) :=
  a ← q_items s !! after;
  q ← it_queue a;
  insert_chain (chain_fuel s) (it_client a) q after item s.

(** ** Making items *)

(** [xcalloc]: the item before its fields are set. *)
Definition item_zero (type : cmdq_type) (st : Z) : cmdq_item :=
  let zero := FS 0 None None None None 0 in
  Item None None None None type 0 0 0 0 st zero zero None None None.

Definition cmdq_get_callback (cb : cmdq_cb) s : Z * server rest :=
  let '(st, s) := cmdq_new_state None None 0 s in
  let z := item_zero CMDQ_CALLBACK st in
  let it := Item (it_queue z) (it_next z) (it_client z) (it_target_client z) (it_type z) 0 (it_number z)
    (it_time z) (it_flags z) st (it_source z) (it_target z) None None (Some cb) in
  (q_next s, set_next (q_next s + 1) (set_items (<[q_next s:=it]> (q_items s)) s)).

Definition cmdq_get_error (error : list Z) s : Z * server rest :=
  cmdq_get_callback (cmdq_error_callback error) s.

(** The items of the commands, each the [next] of the one before. *)
Fixpoint get_commands (cmdlist st : Z) (l : list cmd) (first last : option Z) s :
    option (option Z * server rest) :=
  match l with
  | [] => Some (first, s)
  | c :: l =>
      let z := item_zero CMDQ_COMMAND st in
      let item := q_next s in
      s ← cmdq_link_state st s;
      let it := Item (it_queue z) (it_next z) (it_client z) (it_target_client z) (it_type z) (cmd_get_group c)
        (it_number z) (it_time z) (it_flags z) st (it_source z) (it_target z) (Some cmdlist) (Some c) None in
      let s := set_next (item + 1) (set_items (<[item:=it]> (q_items s)) s) in
      x ← q_lists s !! cmdlist;
      let s := set_lists (<[cmdlist:=(x.1, x.2 + 1)]> (q_lists s)) s in
      let s := match last with Some last => upd_item (set_it_next (Some item)) last s | None => s end in
      get_commands cmdlist st l (Some (default item first)) (Some item) s
  end.

Definition cmdq_get_command (cmdlist : Z) (state : option Z) s : option (Z * server rest) :=
  x ← q_lists s !! cmdlist;
  match cmds x.1 with
  | [] => Some (cmdq_get_callback cmdq_empty_command s)
  | l =>
      let '(st, s) := match state with Some st => (st, s) | None => cmdq_new_state None None 0 s end in
      '(first, s) ← get_commands cmdlist st l None None s;
      s ← (match state with Some _ => Some s | None => cmdq_free_state st s end);
      first ← first;
      Some (first, s)
  end.

(** ** Removing items *)

(** [server_client_unref] of server/server-client.c: a client without references
    is freed when the event loop next runs. *)
Definition server_client_unref (c : Z) s : option (server rest) :=
  x ← q_clients s !! c;
  let n := c_references x - 1 in
  let s := upd_client (set_c_references n) c s in
  Some (if n =? 0 then put (server_client_free c) s else s).

(** [cmd_list_free] of commands/cmd.c *)
Definition cmd_list_free (cmdlist : Z) s : option (server rest) :=
  x ← q_lists s !! cmdlist;
  let n := x.2 - 1 in
  Some (set_lists (if n =? 0 then delete cmdlist (q_lists s) else <[cmdlist:=(x.1, n)]> (q_lists s)) s).

Definition cmdq_remove (i : Z) s : option (server rest) :=
  it ← q_items s !! i;
  s ← (match it_client it with Some c => server_client_unref c s | None => Some s end);
  s ← (match it_cmdlist it with Some l => cmd_list_free l s | None => Some s end);
  s ← cmdq_free_state (it_state it) s;
  q ← it_queue it;
  let s := upd_queue (fun x => set_cq_list (tailq_remove i (cq_list x)) x) q s in
  Some (set_items (delete i (q_items s)) s).

(** Each of the items after [i] that has its group, the next one read first. *)
Fixpoint remove_matching (group : Z) (l : list Z) s : option (server rest) :=
  match l with
  | [] => Some s
  | this :: l =>
      it ← q_items s !! this;
      s ← (if it_group it =? group then cmdq_remove this s else Some s);
      remove_matching group l s
  end.

(** The items after one. *)
Fixpoint tailq_after (x : Z) (l : list Z) : list Z :=
  match l with [] => [] | y :: l => if decide (y = x) then l else tailq_after x l end.

Definition cmdq_remove_group (i : Z) s : option (server rest) :=
  it ← q_items s !! i;
  if it_group it =? 0 then Some s
  else
    q ← it_queue it;
    x ← q_queues s !! q;
    remove_matching (it_group it) (tailq_after i (cq_list x)) s.

Definition cmdq_continue (i : Z) s : option (server rest) :=
  _ ← q_items s !! i;
  Some (upd_item (fun it => set_it_flags (without (it_flags it) CMDQ_WAITING) it) i s).

(** ** Messages *)

Definition cmdq_guard (i : Z) (guard : string) (flags : Z) s : option (server rest) :=
  it ← q_items s !! i;
  match it_client it with
  | None => Some s
  | Some c =>
      x ← q_clients s !! c;
      Some (if has (c_flags x) CLIENT_CONTROL
            then put (control_write c (bytes ("%" +:+ guard +:+ " " +:+ fmt_d (it_time it) +:+ " " +:+
                        fmt_u (it_number it) +:+ " " +:+ fmt_d flags))) s
            else s)
  end.

(** The user of a client, unless it is the one of the server. *)
Definition message_user (c : Z) s : list Z :=
  let uid := proc_get_peer_uid (q_rest s) c in
  if negb (uid =? 4294967295) && negb (uid =? getuid)
  then match getpwuid uid with Some name => bytes "[" ++ name ++ bytes "]" | None => bytes "[unknown]" end
  else [].

Definition cmdq_add_message (i : Z) s : option (server rest) :=
  it ← q_items s !! i;
  st ← q_states s !! it_state it;
  cmd ← it_cmd it;
  tmp ← cmd_print cmd;
  match it_client it with
  | Some c =>
      x ← q_clients s !! c;
      let who := c_name x ++ message_user c s in
      let event_key := ev_key (st_event st) in
      Some (put (server_add_message
              (if bool_decide (is_Some (c_session x)) && negb (event_key =? KEYC_NONE)
               then who ++ bytes (" key " +:+ key_string_lookup_key (key_chars (q_rest s)) event_key false +:+ ": ") ++ tmp
               else who ++ bytes " command: " ++ tmp)) s)
  | None => Some (put (server_add_message (bytes "command: " ++ tmp)) s)
  end.

Definition cmdq_print_data (i : Z) (data : list Z) s : option (server rest) :=
  it ← q_items s !! i;
  Some (put (server_client_print (it_client it) data) s).

(** [toupper] of the C locale. *)
Definition toupper (c : Z) : Z := if (97 <=? c) && (c <=? 122) then c - 32 else c.

Definition cmdq_error (i : Z) (msg : list Z) s : option (server rest) :=
  it ← q_items s !! i;
  match it_client it with
  | None =>
      cmd ← it_cmd it;
      let '(Cmd _ _ file line _ _ _) := cmd in
      Some (put (cfg_add_cause file line msg) s)
  | Some c =>
      x ← q_clients s !! c;
      if bool_decide (c_session x = None) || has (c_flags x) CLIENT_CONTROL then
        let s := put (server_add_message (c_name x ++ bytes " message: " ++ msg)) s in
        msg ← (if has (c_flags x) CLIENT_UTF8 then Some msg
               else utf8_sanitize loc_mbtowc loc_wcwidth loc_widths msg);
        let s := if has (c_flags x) CLIENT_CONTROL then put (control_write c msg) s
                 else put (file_error c (msg ++ [10])) s in
        Some (upd_client (set_c_retval 1) c s)
      else
        Some (put (status_message_set c (match msg with ch :: rest => toupper ch :: rest | [] => [] end)) s)
  end.

(** ** Hooks *)

(** [hook_argument_%d] *)
Definition argument_formats (a : args) : option (list (list Z * list Z)) :=
  mapM (fun i => v ← args_string a i; v ← v; Some (bytes ("hook_argument_" +:+ fmt_d i), v)) (seqZ 0 (args_count a)).

(** [hook_flag_%c] and [hook_flag_%c_%d] *)
Definition flag_formats (a : args) : option (list (list Z * list Z)) :=
  @concat _ <$> mapM (fun e =>
    let name := bytes "hook_flag_" ++ [ae_flag e] in
    value ← (match args_get a (ae_flag e) with Ok v => Some v | _ => None end);
    values ← mapM (fun v => match v with ARGS_STRING s => Some s | _ => None end) (ae_values e);
    Some ((name, default (bytes "1") value) ::
          imap (fun i v => (name ++ bytes ("_" +:+ fmt_d (Z.of_nat i)), v)) values)) (args_tree a).

Fixpoint add_formats (st : Z) (l : list (list Z * list Z)) s : option (server rest) :=
  match l with
  | [] => Some s
  | (key, value) :: l => s ← cmdq_add_format st key value s; add_formats st l s
  end.

Fixpoint insert_lists (st : Z) (l : list (option Z)) (item : Z) s : option (server rest) :=
  match l with
  | [] => Some s
  | None :: l => insert_lists st l item s
  | Some cmdlist :: l =>
      '(new_item, s) ← cmdq_get_command cmdlist (Some st) s;
      '(item, s) ← cmdq_insert_after item new_item s;
      insert_lists st l item s
  end.

Definition cmdq_insert_hook (session : option Z) (item : Z) (current : option cmd_find_state) (name : list Z) s :
    option (server rest) :=
  it ← q_items s !! item;
  state ← q_states s !! it_state it;
  cmd ← it_cmd it;
  let a := cmd_get_args cmd in
  if has (st_flags state) CMDQ_STATE_NOHOOKS then Some s
  else match hook_array session name s with
       | None => Some s
       | Some lists =>
           let '(new_state, s) := cmdq_new_state current (Some (st_event state)) CMDQ_STATE_NOHOOKS s in
           arguments ← args_print a;
           arguments' ← argument_formats a;
           flags ← flag_formats a;
           s ← add_formats new_state ((bytes "hook", name) :: (bytes "hook_arguments", arguments) ::
                                      arguments' ++ flags) s;
           s ← insert_lists new_state lists item s;
           cmdq_free_state new_state s
       end.

(** ** Running an item *)

(** Whether the flag names something, and what is left in the state. *)
Definition cmdq_find_flag (i : Z) (flag : cmd_entry_flag) s : option (bool * cmd_find_state * server rest) :=
  it ← q_items s !! i;
  if ef_flag flag =? 0 then Some (true, (cmd_find_from_client (it_target_client it) s).2, s)
  else
    cmd ← it_cmd it;
    value ← (match args_get (cmd_get_args cmd) (ef_flag flag) with Ok v => Some v | _ => None end);
    '(fs, s) ← cmd_find_target i value (ef_type flag) (ef_flags flag) s;
    Some (match fs with Some fs => (true, fs, s) | None => (false, cmd_find_clear_state 0, s) end).

(** The target a hook has: the one of the item, the current one of its state,
    or that of its client. *)
Definition hook_target (i : Z) s : option (option cmd_find_state) :=
  it ← q_items s !! i;
  st ← q_states s !! it_state it;
  Some (if cmd_find_valid_state (q_world s) (it_target it) then Some (it_target it)
        else if cmd_find_valid_state (q_world s) (st_current st) then Some (st_current st)
        else match cmd_find_from_client (it_client it) s with (true, fs) => Some fs | _ => None end).

(** The client a command is for; [None] is an error. *)
Definition find_target_client (i : Z) (cmd : cmd) s : option (option (option Z) * server rest) :=
  let flags := ce_flags (cmd_get_entry cmd) in
  let quiet := has flags CMD_CLIENT_CANFAIL in
  let find (flag : Z) :=
    t ← (match args_get (cmd_get_args cmd) flag with Ok v => Some v | _ => None end);
    '(tc, s) ← cmd_find_client i t quiet s;
    Some (if bool_decide (tc = None) && negb quiet then None else Some tc, s) in
  if has flags CMD_CLIENT_CFLAG then find 99
  else if has flags CMD_CLIENT_TFLAG then find 116
  else '(tc, s) ← cmd_find_client i None true s; Some (Some tc, s).

(** Up to the label [out]. *)
Definition fire_body (i : Z) (cmd : cmd) s : option (cmd_retval * server rest) :=
  let entry := cmd_get_entry cmd in
  '(tc, s) ← find_target_client i cmd s;
  match tc with
  | None => Some (CMD_RETURN_ERROR, s)
  | Some tc =>
      let s := upd_item (set_it_target_client tc) i s in
      '(ok, fs, s) ← cmdq_find_flag i (ce_source entry) s;
      let s := upd_item (set_it_source fs) i s in
      if negb ok then Some (CMD_RETURN_ERROR, s)
      else
        '(ok, fs, s) ← cmdq_find_flag i (ce_target entry) s;
        let s := upd_item (set_it_target fs) i s in
        if negb ok then Some (CMD_RETURN_ERROR, s)
        else
          '(retval, s) ← cmd_exec cmd i s;
          if bool_decide (retval = CMD_RETURN_ERROR) then Some (retval, s)
          else if has (ce_flags entry) CMD_AFTERHOOK then
            fsp ← hook_target i s;
            match fsp with
            | None => Some (retval, s)
            | Some fs =>
                s ← cmdq_insert_hook (fs_s fs) i (Some fs) (bytes "after-" ++ ce_name entry) s;
                Some (retval, s)
            end
          else Some (retval, s)
  end.

(** The label [out]. *)
Definition fire_out (i : Z) (saved : option Z) (flags : Z) (retval : cmd_retval) s : option (server rest) :=
  let s := upd_item (set_it_client saved) i s in
  if bool_decide (retval = CMD_RETURN_ERROR) then
    fsp ← hook_target i s;
    s ← cmdq_insert_hook (fs ← fsp; fs_s fs) i fsp (bytes "command-error") s;
    cmdq_guard i "error" flags s
  else cmdq_guard i "end" flags s.

Definition cmdq_fire_command (i : Z) s : option (cmd_retval * server rest) :=
  it ← q_items s !! i;
  st ← q_states s !! it_state it;
  cmd ← it_cmd it;
  s ← (if cfg_finished (q_rest s) then cmdq_add_message i s else Some s);
  let flags := if has (st_flags st) CMDQ_STATE_CONTROL then 1 else 0 in
  s ← cmdq_guard i "begin" flags s;
  s ← (match it_client it with
       | Some _ => Some s
       | None => '(c, s) ← cmd_find_client i None true s; Some (upd_item (set_it_client c) i s)
       end);
  '(retval, s) ← fire_body i cmd s;
  s ← fire_out i (it_client it) flags retval s;
  Some (retval, s).

Definition cmdq_fire_callback (i : Z) s : option (cmd_retval * server rest) :=
  it ← q_items s !! i;
  cb ← it_cb it;
  match cb with
  | cmdq_empty_command => Some (CMD_RETURN_NORMAL, s)
  | cmdq_error_callback error => s ← cmdq_error i error s; Some (CMD_RETURN_NORMAL, s)
  | other_cb cb data => run_cb cb data i s
  end.

(** ** Going through a queue *)

(** An item that has not been run is, and after an error the rest of its group
    is removed. *)
Definition fire (i : Z) s : option (cmd_retval * server rest) :=
  let number := u32 (q_number s + 1) in
  let s := upd_item (set_it_time number (time_now (q_rest s))) i (set_number number s) in
  it ← q_items s !! i;
  '(retval, s) ← (match it_type it with
                  | CMDQ_COMMAND =>
                      '(retval, s) ← cmdq_fire_command i s;
                      s ← (if bool_decide (retval = CMD_RETURN_ERROR) then cmdq_remove_group i s else Some s);
                      Some (retval, s)
                  | CMDQ_CALLBACK => cmdq_fire_callback i s
                  end);
  Some (retval, upd_item (fun it => set_it_flags (Z.lor (it_flags it) CMDQ_FIRED) it) i s).

(** One turn of the loop: it goes on with the number of items that were run, or
    has ended with it. *)
Definition next_turn (c : queue_id) (x : Z * server rest) : option ((Z * server rest) + (Z * server rest)) :=
  let '(items, s) := x in
  q ← q_queues s !! c;
  let item := head (cq_list q) in
  let s := upd_queue (set_cq_item item) c s in
  match item with
  | None => Some (inr (items, s))
  | Some i =>
      it ← q_items s !! i;
      if has (it_flags it) CMDQ_WAITING then Some (inr (items, s))
      else if negb (has (it_flags it) CMDQ_FIRED) then
        '(retval, s) ← fire i s;
        if bool_decide (retval = CMD_RETURN_WAIT)
        then Some (inr (items, upd_item (fun it => set_it_flags (Z.lor (it_flags it) CMDQ_WAITING) it) i s))
        else s ← cmdq_remove i s; Some (inl (u32 (items + 1), s))
      else s ← cmdq_remove i s; Some (inl (items, s))
  end.

(** The number of items run. *)
Definition cmdq_next (fuel : nat) (c : option Z) s : option (Z * server rest) :=
  '(q, s) ← cmdq_get c s;
  x ← q_queues s !! q;
  match cq_list x with
  | [] => Some (0, s)
  | i :: _ =>
      it ← q_items s !! i;
      if has (it_flags it) CMDQ_WAITING then Some (0, s) else iterate fuel (next_turn q) (0, s)
  end.

(** The item that is running, if any. *)
Definition cmdq_running (c : option Z) s : option (option Z * server rest) :=
  '(q, s) ← cmdq_get c s;
  x ← q_queues s !! q;
  match cq_item x with
  | None => Some (None, s)
  | Some i =>
      it ← q_items s !! i;
      Some (if has (it_flags it) CMDQ_WAITING then None else Some i, s)
  end.

End Queue.
