(* ===== verification/CmdQueueProps.v ===== *)
(** * The queues of commands: no use of what has been freed, the order of the
    commands, and that a queue is gone through *)
From Stdlib Require Import Ascii String.
From S2P Require Import Prelude.
From S2P Require Import CString.
From S2P Require Import Utf8.
From S2P Require Import Utf8Props.
From S2P Require Import Locale.
From S2P Require Import KeyString.
From S2P Require Import Arguments.
From S2P Require Import CmdTable.
From S2P Require Import Grid.
From S2P Require Import Winlink.
From S2P Require Import World.
From S2P Require Import Window.
From S2P Require Import CmdQueue.

(** The fields of a server after a change of one. *)
Ltac fields := cbn [q_items q_states q_lists q_queues q_clients q_number q_next q_out q_world q_rest
  set_items set_states set_lists set_queues set_clients set_number set_next put
  upd_item upd_state upd_queue upd_client] in *.

(** ** Counting items *)

Definition uses (f : Z -> cmdq_item -> bool) (m : gmap Z cmdq_item) : Z :=
  map_fold (fun i it n => Z.b2z (f i it) + n) 0 m.

Lemma uses_insert f m i it : m !! i = None -> uses f (<[i:=it]> m) = Z.b2z (f i it) + uses f m.
Proof. intros Hi. unfold uses. rewrite map_fold_insert_L; [done|intros; lia|done]. Qed.

Lemma uses_delete f m i it : m !! i = Some it -> uses f m = Z.b2z (f i it) + uses f (delete i m).
Proof. intros Hi. rewrite <- uses_insert by apply lookup_delete_eq. by rewrite insert_delete_id. Qed.

Lemma uses_alter f g m i it : m !! i = Some it ->
  uses f (alter g i m) = uses f m - Z.b2z (f i it) + Z.b2z (f i (g it)).
Proof.
  intros Hi. rewrite (uses_delete f m i it Hi), (uses_delete f (alter g i m) i (g it)).
  - assert (E : delete i (alter g i m) = delete i m); [|rewrite E; lia].
    apply map_eq. intros j. destruct (decide (i = j)) as [->|Hj].
    + by rewrite !lookup_delete_eq.
    + by rewrite !lookup_delete_ne, lookup_alter_ne by done.
  - by rewrite lookup_alter_eq, Hi.
Qed.

Lemma uses_alter_same f g m i : (forall it, m !! i = Some it -> f i (g it) = f i it) ->
  uses f (alter g i m) = uses f m.
Proof.
  intros Hg. destruct (m !! i) as [it|] eqn:Hi.
  - rewrite (uses_alter f g m i it Hi), (Hg it eq_refl). lia.
  - f_equal. apply map_eq. intros j. destruct (decide (i = j)) as [->|Hj].
    + by rewrite lookup_alter_eq, Hi.
    + by rewrite lookup_alter_ne.
Qed.

Lemma uses_ext f g m : (forall i it, m !! i = Some it -> f i it = g i it) -> uses f m = uses g m.
Proof.
  unfold uses. induction m as [|i it m Hi IH] using map_ind; intros Hfg; [done|].
  pose proof (uses_insert f m i it Hi) as E1. pose proof (uses_insert g m i it Hi) as E2.
  unfold uses in E1, E2. rewrite E1, E2, (Hfg i it) by apply lookup_insert_eq. rewrite IH; [done|].
  intros j x Hj. apply Hfg. rewrite lookup_insert_ne; [done|congruence].
Qed.

Lemma uses_nonneg f m : 0 <= uses f m.
Proof.
  induction m as [|i it m Hi IH] using map_ind; [done|]. rewrite uses_insert by done.
  destruct (f i it); cbn; lia.
Qed.

Lemma uses_le_one f m i it : m !! i = Some it -> f i it = true -> 1 <= uses f m.
Proof.
  intros Hi Hf. rewrite (uses_delete f m i it Hi), Hf. pose proof (uses_nonneg f (delete i m)). cbn. lia.
Qed.

Lemma uses_two f m i j a b : m !! i = Some a -> m !! j = Some b -> i <> j -> f i a = true -> f j b = true ->
  2 <= uses f m.
Proof.
  intros Hi Hj Hne Ha Hb. rewrite (uses_delete f m i a Hi), Ha.
  pose proof (uses_le_one f (delete i m) j b) as H2. rewrite lookup_delete_ne in H2 by done.
  specialize (H2 Hj Hb). cbn. lia.
Qed.

Lemma tailq_remove_elem i l j : j ∈ tailq_remove i l <-> j ∈ l /\ j <> i.
Proof. unfold tailq_remove. rewrite list_elem_of_filter. tauto. Qed.

Lemma tailq_remove_head i l j : head l = Some j -> j <> i -> head (tailq_remove i l) = Some j.
Proof.
  destruct l as [|k l]; [done|]. cbn [head]. intros [= ->] Hne. unfold tailq_remove. by rewrite filter_cons_True.
Qed.

Lemma tailq_remove_absent i l : i ∉ l -> tailq_remove i l = l.
Proof.
  unfold tailq_remove. induction l as [|j l IH]; intros Hi; [done|].
  apply not_elem_of_cons in Hi as [Hne Hi]. rewrite filter_cons_True by done. by rewrite IH.
Qed.

Lemma tailq_remove_split i l1 l2 : i ∉ l1 -> i ∉ l2 -> tailq_remove i (l1 ++ i :: l2) = l1 ++ l2.
Proof.
  intros H1 H2. rewrite <- (tailq_remove_absent i l1 H1) at 2. rewrite <- (tailq_remove_absent i l2 H2) at 2.
  unfold tailq_remove. rewrite filter_app, filter_cons_False; [done|]. intros Hne. by apply Hne.
Qed.

Lemma filter_same (P Q : Z -> Prop) `{forall x, Decision (P x)} `{forall x, Decision (Q x)} (l : list Z) :
  (forall x, x ∈ l -> P x <-> Q x) -> filter P l = filter Q l.
Proof.
  induction l as [|x l IH]; intros HPQ; [done|]. assert (Hx : P x <-> Q x) by (apply HPQ; constructor).
  rewrite !filter_cons, IH by (intros y Hy; apply HPQ; by constructor).
  destruct (decide (P x)), (decide (Q x)); tauto.
Qed.

(** ** The queues are in order *)

Section Queue.
Context {rest : Type} `{Locale}.
Implicit Types s : server rest.

(** The client an item has a reference to: that of the item that is running is
    kept aside while it has another one. *)
Definition holder (cur : option (Z * option Z)) (i : Z) (it : cmdq_item) : option Z :=
  match cur with
  | Some (j, saved) => if i =? j then saved else it_client it
  | None => it_client it
  end.

(** What the printing of a command and its formats needs. *)
Record cmd_ok (c : cmd) : Prop := CmdOk {
  co_print : is_Some (cmd_print c);
  co_args : is_Some (args_print (cmd_get_args c));
  co_arguments : is_Some (argument_formats (cmd_get_args c));
  co_flags : is_Some (flag_formats (cmd_get_args c));
  co_get : forall flag, args_get (cmd_get_args c) flag <> Undef
}.

(** A message of the error callback is for a client: it is not on the global
    queue. *)
Definition item_ok (it : cmdq_item) : Prop :=
  match it_type it with
  | CMDQ_COMMAND => (exists c, it_cmd it = Some c /\ cmd_ok c) /\ is_Some (it_cmdlist it)
  | CMDQ_CALLBACK =>
      exists cb, it_cb it = Some cb /\
        forall e, cb = cmdq_error_callback e -> it_queue it = None \/ it_client it <> None
  end.

(** Every address that is kept is one of something that is there and counts the
    references to it; [cur] is the item that is running, with its own client,
    and [held] the states that are held besides. *)
Record queues_ok (cur : option (Z * option Z)) (held : list Z) (s : server rest) : Prop := QueuesOk {
  qk_item : forall i it, q_items s !! i = Some it -> item_ok it /\ i < q_next s;
  qk_state : forall i it, q_items s !! i = Some it -> is_Some (q_states s !! it_state it);
  qk_list : forall i it l, q_items s !! i = Some it -> it_cmdlist it = Some l -> is_Some (q_lists s !! l);
  qk_client : forall i it c, q_items s !! i = Some it -> it_client it = Some c \/ holder cur i it = Some c ->
    is_Some (q_clients s !! c);
  qk_held : forall st, st ∈ held -> is_Some (q_states s !! st);
  qk_states : forall st x, q_states s !! st = Some x -> st < q_next s /\
    uses (fun _ it => it_state it =? st) (q_items s) + Z.of_nat (length (filter (fun y => y = st) held))
      <= st_references x;
  qk_lists : forall l x, q_lists s !! l = Some x -> Forall cmd_ok (cmds x.1) /\
    uses (fun _ it => bool_decide (it_cmdlist it = Some l)) (q_items s) <= x.2;
  qk_clients : forall c x, q_clients s !! c = Some x -> is_Some (q_queues s !! Some c) /\
    uses (fun i it => bool_decide (holder cur i it = Some c)) (q_items s) <= c_references x;
  qk_on : forall q x i, q_queues s !! q = Some x -> i ∈ cq_list x ->
    exists it, q_items s !! i = Some it /\ it_queue it = Some q;
  qk_in : forall i it q, q_items s !! i = Some it -> it_queue it = Some q ->
    exists x, q_queues s !! q = Some x /\ i ∈ cq_list x;
  qk_nodup : forall q x, q_queues s !! q = Some x -> NoDup (cq_list x);
  qk_running : forall q x i, q_queues s !! q = Some x -> cq_item x = Some i -> head (cq_list x) = Some i;
  qk_flags : forall i it, q_items s !! i = Some it -> it_flags it = 0 \/
    exists q x, it_queue it = Some q /\ q_queues s !! q = Some x /\ head (cq_list x) = Some i;
  qk_cur : forall i saved, cur = Some (i, saved) -> exists it, q_items s !! i = Some it /\ it_queue it <> None
}.

(** What of an item the rest of the server may not change. *)
Record same_item (a b : cmdq_item) : Prop := SameItem {
  si_queue : it_queue a = it_queue b;
  si_client : it_client a = it_client b;
  si_type : it_type a = it_type b;
  si_group : it_group a = it_group b;
  si_state : it_state a = it_state b;
  si_cmdlist : it_cmdlist a = it_cmdlist b;
  si_cmd : it_cmd a = it_cmd b;
  si_cb : it_cb a = it_cb b;
  si_flags : it_flags a = it_flags b
}.

#[global] Instance same_item_pre : PreOrder same_item.
Proof.
  split; [by split|]. intros a b c [] []. split; congruence.
Qed.

Lemma same_item_sym a b : same_item a b -> same_item b a.
Proof. intros []. by split. Qed.

(** ** Changes that leave the queues in order *)

(** An address of an item after one item has changed. *)
Lemma upd_item_some f i s j y : q_items (upd_item f i s) !! j = Some y ->
  exists x, q_items s !! j = Some x /\ y = (if decide (i = j) then f x else x).
Proof.
  cbn. intros Hj. apply lookup_alter_Some in Hj as [(-> & x & Hx & ->)|(Hne & Hj)].
  - exists x. by rewrite decide_True.
  - exists y. by rewrite decide_False.
Qed.

Lemma upd_item_same f i s j y : (forall it, q_items s !! i = Some it -> same_item it (f it)) ->
  q_items (upd_item f i s) !! j = Some y -> exists x, q_items s !! j = Some x /\ same_item x y.
Proof.
  intros Hf Hj. apply upd_item_some in Hj as (x & Hx & ->). exists x. split; [done|].
  destruct (decide (i = j)) as [->|]; [by apply Hf|reflexivity].
Qed.

Lemma upd_item_there f i s j : is_Some (q_items s !! j) -> is_Some (q_items (upd_item f i s) !! j).
Proof. cbn. intros. by apply lookup_alter_is_Some. Qed.

Lemma same_item_ok a b : same_item a b -> item_ok a -> item_ok b.
Proof. intros [Eq Ec E _ _ E1 E2 E3 _]. unfold item_ok. by rewrite <- E, <- E1, <- E2, <- E3, <- Eq, <- Ec. Qed.

Lemma same_holder cur i a b : same_item a b -> holder cur i a = holder cur i b.
Proof. intros []. unfold holder. destruct cur as [ [j saved]|]; [by destruct (i =? j)|done]. Qed.

(** A change of an item that the queues do not see. *)
Lemma ok_upd_item cur held f i s : (forall it, q_items s !! i = Some it -> same_item it (f it)) ->
  queues_ok cur held s -> queues_ok cur held (upd_item f i s).
Proof.
  intros Hf Hok. pose proof (fun j y => upd_item_same f i s j y Hf) as Hs. split.
  - intros j y Hj. apply Hs in Hj as (x & Hx & Hxy). destruct (qk_item _ _ _ Hok j x Hx).
    split; [by eapply same_item_ok|done].
  - intros j y Hj. apply Hs in Hj as (x & Hx & []). rewrite <- si_state0. by apply (qk_state _ _ _ Hok j).
  - intros j y l Hj. apply Hs in Hj as (x & Hx & []). rewrite <- si_cmdlist0. by apply (qk_list _ _ _ Hok j).
  - intros j y c Hj. apply Hs in Hj as (x & Hx & Hxy). rewrite <- (same_holder cur j x y Hxy).
    destruct Hxy. rewrite <- si_client0. by apply (qk_client _ _ _ Hok j).
  - apply (qk_held _ _ _ Hok).
  - intros st x Hx. destruct (qk_states _ _ _ Hok st x Hx) as [Hn Hu]. split; [done|]. cbn [upd_item set_items q_items].
    rewrite uses_alter_same; [done|]. intros it Hi. by destruct (Hf it Hi) as [_ _ _ _ -> _ _ _ _].
  - intros l x Hx. destruct (qk_lists _ _ _ Hok l x Hx) as [Hn Hu]. split; [done|]. cbn [upd_item set_items q_items].
    rewrite uses_alter_same; [done|]. intros it Hi. by destruct (Hf it Hi) as [_ _ _ _ _ -> _ _ _].
  - intros c x Hx. destruct (qk_clients _ _ _ Hok c x Hx) as [Hn Hu]. split; [done|]. cbn [upd_item set_items q_items].
    rewrite uses_alter_same; [done|]. intros it Hi. by rewrite (same_holder cur i it (f it)) by by apply Hf.
  - intros q x j Hq Hj. destruct (qk_on _ _ _ Hok q x j Hq Hj) as (it & Hit & E).
    destruct (upd_item_there f i s j) as [y Hy]; [by eexists|]. exists y. split; [done|].
    apply Hs in Hy as (z & Hz & []). congruence.
  - intros j y q Hj. apply Hs in Hj as (x & Hx & []). rewrite <- si_queue0. by apply (qk_in _ _ _ Hok j).
  - apply (qk_nodup _ _ _ Hok).
  - apply (qk_running _ _ _ Hok).
  - intros j y Hj. apply Hs in Hj as (x & Hx & []). rewrite <- si_queue0, <- si_flags0.
    by apply (qk_flags _ _ _ Hok j).
  - intros j saved E. destruct (qk_cur _ _ _ Hok j saved E) as (it & Hit & Hq).
    destruct (upd_item_there f i s j) as [y Hy]; [by eexists|]. exists y. split; [done|].
    apply Hs in Hy as (z & Hz & []). congruence.
Qed.

(** What has been freed is not made again. *)
Record gone (s s' : server rest) : Prop := Gone {
  gn_next : q_next s <= q_next s';
  gn_items : forall j, j < q_next s -> q_items s !! j = None -> q_items s' !! j = None
}.

#[global] Instance gone_pre : PreOrder gone.
Proof. split; [by split|]. intros a b c [] []. split; [lia|]. intros j Hj Hn. apply gn_items1; [lia|by apply gn_items0]. Qed.

Lemma gone_same s s' : q_items s' = q_items s -> q_next s' = q_next s -> gone s s'.
Proof. intros Ei En. split; [lia|]. intros j _ Hj. by rewrite Ei. Qed.

Lemma gone_alter f i s s' : q_items s' = alter f i (q_items s) -> q_next s' = q_next s -> gone s s'.
Proof. intros Ei En. split; [lia|]. intros j _ Hj. rewrite Ei. by apply lookup_alter_None. Qed.

Lemma gone_subset s s' : (forall j it, q_items s' !! j = Some it -> is_Some (q_items s !! j)) ->
  q_next s' = q_next s -> gone s s'.
Proof.
  intros Ei En. split; [lia|]. intros j _ Hj. destruct (q_items s' !! j) eqn:E; [|done].
  apply Ei in E. rewrite Hj in E. by destruct E.
Qed.

Lemma gone_from f i s s' : gone (upd_item f i s) s' -> gone s s'.
Proof. intros Hg. etrans; [|exact Hg]. by apply (gone_alter f i). Qed.

(** Messages and the exit values of clients. *)
Record reports (s s' : server rest) : Prop := Reports {
  rp_items : q_items s' = q_items s;
  rp_states : q_states s' = q_states s;
  rp_lists : q_lists s' = q_lists s;
  rp_queues : q_queues s' = q_queues s;
  rp_number : q_number s' = q_number s;
  rp_next : q_next s' = q_next s;
  rp_world : q_world s' = q_world s;
  rp_rest : q_rest s' = q_rest s;
  rp_clients : forall c, c_references <$> q_clients s' !! c = c_references <$> q_clients s !! c
}.

#[global] Instance reports_pre : PreOrder reports.
Proof. split; [by split|]. intros a b c [] []. split; try congruence. Qed.

Lemma reports_put x s : reports s (put x s).
Proof. by split. Qed.

Lemma reports_client s s' c x : reports s s' -> q_clients s' !! c = Some x ->
  exists y, q_clients s !! c = Some y /\ c_references y = c_references x.
Proof.
  intros Hr Hc. pose proof (rp_clients _ _ Hr c) as E. rewrite Hc in E.
  destruct (q_clients s !! c) as [y|]; [|done]. exists y. cbn in E. split; congruence.
Qed.

Lemma ok_reports cur held s s' : reports s s' -> queues_ok cur held s -> queues_ok cur held s'.
Proof.
  intros Hr Hok. pose proof (fun c x => reports_client s s' c x Hr) as Hc.
  destruct Hr as [E1 E2 E3 E4 E5 E6 E7 E8 Hr], Hok. split; rewrite ?E1, ?E2, ?E3, ?E4, ?E6; try done.
  - intros i it c Hi Hit. specialize (qk_client0 i it c Hi Hit) as [x Hx]. specialize (Hr c).
    rewrite Hx in Hr. by destruct (q_clients s' !! c).
  - intros c x Hx. apply Hc in Hx as (y & Hy & <-). by apply qk_clients0.
Qed.

(** ** The counts of references *)

(** What one state, list or client has does not depend on the others. *)
Lemma ok_new_state cur held current event flags s : queues_ok cur held s ->
  let '(st, s') := cmdq_new_state current event flags s in
  queues_ok cur (st :: held) s' /\ st = q_next s /\ q_items s' = q_items s /\ q_queues s' = q_queues s /\
  q_clients s' = q_clients s /\ q_lists s' = q_lists s /\ q_number s' = q_number s /\
  (exists x, q_states s' !! st = Some x /\ st_flags x = flags) /\
  (forall y, y < q_next s -> q_states s' !! y = q_states s !! y).
Proof.
  intros Hok. unfold cmdq_new_state. split_and!; try done.
  - assert (Hfree : q_states s !! q_next s = None).
    { destruct (q_states s !! q_next s) as [x|] eqn:E; [|done]. apply (qk_states _ _ _ Hok) in E. lia. }
    assert (Hnew : forall i it, q_items s !! i = Some it -> it_state it <> q_next s).
    { intros i it Hi E. destruct (qk_state _ _ _ Hok i it Hi) as [x Hx]. congruence. }
    destruct Hok. split; fields; try done.
    + intros i it Hi. destruct (qk_item0 i it Hi). split; [done|lia].
    + intros i it Hi. rewrite lookup_insert_ne; [by eapply qk_state0|]. apply not_eq_sym. by eapply Hnew.
    + intros st. rewrite elem_of_cons. intros [->|Hst]; [by rewrite lookup_insert_eq|].
      destruct (decide (st = q_next s)) as [->|]; [by rewrite lookup_insert_eq|].
      rewrite lookup_insert_ne by done. by apply qk_held0.
    + intros st x. destruct (decide (st = q_next s)) as [->|Hst].
      * rewrite lookup_insert_eq. intros E. injection E as <-. cbn [st_references]. split; [lia|].
        assert (E : uses (fun _ it => it_state it =? q_next s) (q_items s) = uses (fun _ _ => false) (q_items s)).
        { apply uses_ext. intros i it Hi. apply Z.eqb_neq. by eapply Hnew. }
        assert (E0 : uses (fun _ _ => false) (q_items s) = 0).
        { unfold uses. generalize (q_items s). intros m. clear. induction m as [|i it m Hi IH] using map_ind; [done|].
          rewrite map_fold_insert_L; [exact IH|intros; lia|done]. }
        assert (Eh : filter (fun y => y = q_next s) held = []).
        { destruct (filter _ held) as [|y l] eqn:E1; [done|].
          assert (Hy : y ∈ filter (fun y => y = q_next s) held) by (rewrite E1; constructor).
          apply list_elem_of_filter in Hy as [-> Hy]. apply qk_held0 in Hy as [z Hz]. congruence. }
        rewrite filter_cons_True, Eh by done. cbn [length]. lia.
      * rewrite lookup_insert_ne by congruence. intros Hx. destruct (qk_states0 st x Hx).
        rewrite filter_cons_False by congruence. split; [lia|done].
  - eexists. cbn. rewrite lookup_insert_eq. done.
  - intros y Hy. cbn. rewrite lookup_insert_ne by lia. done.
Qed.

(** Nothing but the states has changed, and not their flags. *)
Record states_only (s s' : server rest) : Prop := StatesOnly {
  so_items : q_items s' = q_items s;
  so_lists : q_lists s' = q_lists s;
  so_queues : q_queues s' = q_queues s;
  so_clients : q_clients s' = q_clients s;
  so_number : q_number s' = q_number s;
  so_next : q_next s' = q_next s;
  so_world : q_world s' = q_world s;
  so_rest : q_rest s' = q_rest s;
  so_flags : forall i it x, q_items s !! i = Some it -> q_states s !! it_state it = Some x ->
    exists x', q_states s' !! it_state it = Some x' /\ st_flags x' = st_flags x
}.

Lemma ok_free_state cur held st s : queues_ok cur (st :: held) s ->
  exists s', cmdq_free_state st s = Some s' /\ queues_ok cur held s' /\ states_only s s' /\
    (forall y, y <> st -> q_states s' !! y = q_states s !! y).
Proof.
  intros Hok. destruct (qk_held _ _ _ Hok st) as [x Hx]; [constructor|].
  unfold cmdq_free_state. rewrite Hx. cbn [mbind option_bind]. eexists. split; [done|]. rewrite assoc by apply _. split.
  2: { intros y Hy. destruct (_ =? 0); fields; [by rewrite lookup_delete_ne|by rewrite lookup_alter_ne]. }
  destruct (qk_states _ _ _ Hok st x Hx) as [_ Hu]. rewrite filter_cons_True in Hu by done. cbn [length] in Hu.
  pose proof (uses_nonneg (fun _ it => it_state it =? st) (q_items s)) as Hn.
  assert (Hused : st_references x = 1 -> forall i it, q_items s !! i = Some it -> it_state it <> st).
  { intros E i it Hi Est. pose proof (uses_le_one (fun _ it => it_state it =? st) _ i it Hi) as Hl.
    cbn beta in Hl. rewrite Est, Z.eqb_refl in Hl. specialize (Hl eq_refl). lia. }
  destruct Hok. destruct (st_references x - 1 =? 0) eqn:E; split.
  - apply Z.eqb_eq in E. split; fields; try done.
    + intros i it Hi. rewrite lookup_delete_ne; [by eapply qk_state0|]. apply not_eq_sym. eapply Hused; [lia|done].
    + intros y Hy. destruct (decide (y = st)) as [->|Hne].
      * assert (In : st ∈ filter (fun y => y = st) held) by (by apply list_elem_of_filter).
        destruct (filter (fun y => y = st) held); [by apply not_elem_of_nil in In|]. cbn [length] in Hu. lia.
      * rewrite lookup_delete_ne by done. apply qk_held0. by constructor.
    + intros y z Hy. apply lookup_delete_Some in Hy as [Hne Hy]. destruct (qk_states0 y z Hy) as [Hl Hz].
      by rewrite filter_cons_False in Hz.
  - split; fields; try done. intros i it y Hi Hy. rewrite lookup_delete_ne; [by exists y|].
    apply Z.eqb_eq in E. apply not_eq_sym. eapply Hused; [lia|done].
  - split; fields; try done.
    + intros i it Hi. apply lookup_alter_is_Some. by eapply qk_state0.
    + intros y Hy. apply lookup_alter_is_Some. apply qk_held0. by constructor.
    + intros y z Hy. apply lookup_alter_Some in Hy as [(<- & w & Hw & ->)|[Hne Hy]].
      * destruct (qk_states0 st w Hw). cbn. split; lia.
      * destruct (qk_states0 y z Hy) as [Hl Hz]. by rewrite filter_cons_False in Hz.
  - split; fields; try done. intros i it y Hi Hy. destruct (decide (st = it_state it)) as [->|Hne].
    + rewrite lookup_alter_eq, Hy. by eexists.
    + rewrite lookup_alter_ne by done. by exists y.
Qed.

Lemma ok_link_state cur held st s : queues_ok cur held s -> is_Some (q_states s !! st) ->
  exists s', cmdq_link_state st s = Some s' /\ queues_ok cur (st :: held) s' /\ states_only s s'.
Proof.
  intros Hok [x Hx]. unfold cmdq_link_state. rewrite Hx. cbn [mbind option_bind]. eexists. split; [done|].
  destruct Hok. split; [split; fields; try done|split; fields; try done].
  - intros i it Hi. apply lookup_alter_is_Some. by eapply qk_state0.
  - intros y. rewrite elem_of_cons. intros Hy. apply lookup_alter_is_Some.
    destruct Hy as [->|Hy]; [by eexists|by apply qk_held0].
  - intros y z Hy. apply lookup_alter_Some in Hy as [(<- & w & Hw & ->)|[Hne Hy]].
    + destruct (qk_states0 st w Hw). rewrite filter_cons_True by done. cbn [length st_references set_st_references]. lia.
    + destruct (qk_states0 y z Hy) as [Hl Hz]. by rewrite filter_cons_False.
  - intros i it y Hi Hy. destruct (decide (st = it_state it)) as [->|Hne].
    + rewrite lookup_alter_eq, Hy. by eexists.
    + rewrite lookup_alter_ne by done. by exists y.
Qed.

Lemma ok_held_there cur held st s : queues_ok cur (st :: held) s -> is_Some (q_states s !! st).
Proof. intros Hok. apply (qk_held _ _ _ Hok). constructor. Qed.

(** The reference to a state that is held is that of a new item. *)
Definition new_item (it : cmdq_item) s : server rest :=
  set_lists (match it_cmdlist it with
             | Some l => alter (fun x => (x.1, x.2 + 1)) l (q_lists s) | None => q_lists s end)
    (set_next (q_next s + 1) (set_items (<[q_next s:=it]> (q_items s)) s)).

Lemma ok_new_item cur held s it : queues_ok cur (it_state it :: held) s -> item_ok it ->
  it_queue it = None -> it_client it = None -> it_flags it = 0 ->
  (forall l, it_cmdlist it = Some l -> is_Some (q_lists s !! l)) ->
  queues_ok cur held (new_item it s).
Proof.
  intros Hok Hit Hq Hc Hf Hl. pose proof (ok_held_there _ _ _ _ Hok) as Hst.
  assert (Hfree : q_items s !! q_next s = None).
  { destruct (q_items s !! q_next s) as [x|] eqn:E; [|done]. apply (qk_item _ _ _ Hok) in E. lia. }
  assert (Hold : holder cur (q_next s) it = None).
  { destruct cur as [ [j saved]|]; [|done]. destruct (qk_cur _ _ _ Hok j saved eq_refl) as (x & Hx & _).
    cbn. destruct (Z.eqb_spec (q_next s) j) as [E|]; [congruence|done]. }
  assert (Hlist : forall l, is_Some (q_lists s !! l) -> is_Some (q_lists (new_item it s) !! l)).
  { intros l Hx. unfold new_item. fields. destruct (it_cmdlist it); [by apply lookup_alter_is_Some|done]. }
  destruct Hok. split; try (unfold new_item; fields; done).
  - intros i x. unfold new_item. fields. rewrite lookup_insert_Some. intros [[<- <-]|[Hne Hi]]; [split; [done|lia]|].
    destruct (qk_item0 i x Hi). split; [done|lia].
  - intros i x. unfold new_item. fields. rewrite lookup_insert_Some. intros [[<- <-]|[Hne Hi]]; [done|by eapply qk_state0].
  - intros i x l. unfold new_item at 1. fields. rewrite lookup_insert_Some. intros Hi El. apply Hlist.
    destruct Hi as [[<- <-]|[Hne Hi]]; [by apply Hl|by eapply qk_list0].
  - intros i x c. unfold new_item. fields. rewrite lookup_insert_Some. intros [[<- <-]|[Hne Hi]]; [|by eapply qk_client0].
    rewrite Hc, Hold. by intros [|].
  - intros st Hs. apply qk_held0. by constructor.
  - intros st x Hx. unfold new_item. fields. destruct (qk_states0 st x Hx) as [Hn Hu]. split; [lia|].
    rewrite uses_insert by done. destruct (decide (it_state it = st)) as [E|E].
    + rewrite filter_cons_True in Hu by done. cbn [length] in Hu. rewrite E, Z.eqb_refl. cbn [Z.b2z]. lia.
    + rewrite filter_cons_False in Hu by done. rewrite (proj2 (Z.eqb_neq _ _) E). cbn [Z.b2z]. lia.
  - intros l x. unfold new_item. fields. rewrite uses_insert by done. destruct (it_cmdlist it) as [k|] eqn:Ek.
    + intros Hx. apply lookup_alter_Some in Hx as [(<- & w & Hw & ->)|[Hne Hx]].
      * destruct (qk_lists0 k w Hw). cbn [fst snd]. rewrite bool_decide_eq_true_2 by done. cbn [Z.b2z]. split; [done|lia].
      * destruct (qk_lists0 l x Hx). rewrite bool_decide_eq_false_2 by congruence. cbn [Z.b2z]. split; [done|lia].
    + intros Hx. destruct (qk_lists0 l x Hx). rewrite bool_decide_eq_false_2 by congruence. cbn [Z.b2z]. split; [done|lia].
  - intros c x Hx. unfold new_item. fields. destruct (qk_clients0 c x Hx) as [Hn Hu]. split; [done|].
    rewrite uses_insert by done. rewrite Hold, bool_decide_eq_false_2 by done. cbn [Z.b2z]. lia.
  - intros q x i Hx Hi. destruct (qk_on0 q x i Hx Hi) as (y & Hy & E). unfold new_item. fields.
    rewrite lookup_insert_ne by congruence. by exists y.
  - intros i x q. unfold new_item. fields. rewrite lookup_insert_Some. intros [[<- <-]|[Hne Hi]]; [congruence|].
    by apply qk_in0.
  - intros i x. unfold new_item. fields. rewrite lookup_insert_Some. intros [[<- <-]|[Hne Hi]]; [by left|].
    by apply qk_flags0.
  - intros i saved E. destruct (qk_cur0 i saved E) as (x & Hx & Hxq). unfold new_item. fields.
    rewrite lookup_insert_ne by congruence. by exists x.
Qed.

(** The reference to the client of an item that is put on a queue. *)
Definition ref_client (c : option Z) s : server rest :=
  match c with
  | Some c => upd_client (fun x => set_c_references (c_references x + 1) x) c s
  | None => s
  end.

Lemma client_ref_some c s : (forall d, c = Some d -> is_Some (q_clients s !! d)) ->
  client_ref c s = Some (ref_client c s).
Proof.
  intros Hc. destruct c as [c|]; [|done]. destruct (Hc c eq_refl) as [x Hx]. cbn. rewrite Hx. cbn. f_equal.
  unfold upd_client. apply (f_equal (fun m => set_clients m s)). apply map_eq. intros d. destruct (decide (c = d)) as [->|].
  - by rewrite !lookup_alter_eq, Hx.
  - by rewrite !lookup_alter_ne.
Qed.

(** Where an item is put: it is new there, and not before the first one. *)
Record puts (i : Z) (ins : list Z -> list Z) (l : list Z) : Prop := Puts {
  pu_elem : forall j, j ∈ ins l <-> j = i \/ j ∈ l;
  pu_nodup : i ∉ l -> NoDup l -> NoDup (ins l);
  pu_head : forall h, head l = Some h -> head (ins l) = Some h
}.

Lemma puts_end i l : puts i (fun l => l ++ [i]) l.
Proof.
  split.
  - intros j. rewrite elem_of_app, list_elem_of_singleton. tauto.
  - intros Hi Hl. apply NoDup_app. split_and!; [done| |apply NoDup_singleton].
    intros j Hj. rewrite list_elem_of_singleton. by intros ->.
  - by destruct l.
Qed.

Lemma puts_after a i l : a ∈ l -> puts i (tailq_insert_after a i) l.
Proof.
  intros Ha. assert (He : forall j, j ∈ tailq_insert_after a i l <-> j = i \/ j ∈ l).
  { induction l as [|y l IH]; [by apply not_elem_of_nil in Ha|]. intros j. cbn [tailq_insert_after].
    destruct (decide (y = a)) as [->|Hne]; [set_solver|]. rewrite elem_of_cons, IH by set_solver. set_solver. }
  split; [done| |].
  - clear He Ha. induction l as [|y l IH]; intros Hi Hl; [constructor|]. cbn [tailq_insert_after].
    apply NoDup_cons in Hl as [Hy Hl]. apply not_elem_of_cons in Hi as [Hne Hi].
    destruct (decide (y = a)) as [->|Hya].
    + repeat apply NoDup_cons_2; set_solver.
    + apply NoDup_cons. split; [|by apply IH]. assert (He : forall j, j ∈ tailq_insert_after a i l -> j = i \/ j ∈ l).
      { clear. induction l as [|z l IH]; [set_solver|]. cbn [tailq_insert_after]. intros j.
        destruct (decide (z = a)); set_solver. }
      intros Hj. destruct (He y Hj); congruence.
  - intros h. destruct l as [|y l]; [done|]. cbn [tailq_insert_after]. by destruct (decide (y = a)).
Qed.

(** An error is not put on the global queue. *)
Definition placeable (c : option Z) (it : cmdq_item) : Prop :=
  c = None -> forall e, it_cb it <> Some (cmdq_error_callback e).

(** An item that is not on a queue is put on one. *)
Lemma ok_place cur held s i it f c q x ins : queues_ok cur held s ->
  q_items s !! i = Some it -> it_queue it = None -> q_queues s !! q = Some x -> puts i ins (cq_list x) ->
  (forall d, c = Some d -> is_Some (q_clients s !! d)) -> placeable c it ->
  it_queue (f it) = Some q -> it_client (f it) = c -> it_type (f it) = it_type it ->
  it_state (f it) = it_state it -> it_cmdlist (f it) = it_cmdlist it -> it_cmd (f it) = it_cmd it ->
  it_cb (f it) = it_cb it -> it_flags (f it) = it_flags it ->
  queues_ok cur held (upd_queue (fun x => set_cq_list (ins (cq_list x)) x) q (upd_item f i (ref_client c s))).
Proof.
  intros Hok Hi Hq Hx [He Hn Hh] Hc Hpl Fq Fc Ft Fs Fl Fm Fb Ff. set (s' := upd_queue _ _ _).
  assert (Hout : forall q y, q_queues s !! q = Some y -> i ∉ cq_list y).
  { intros q' y Hy Hiy. destruct (qk_on _ _ _ Hok q' y i Hy Hiy) as (z & Hz & Ez). congruence. }
  assert (Hcur : forall j saved, cur = Some (j, saved) -> j <> i).
  { intros j saved E ->. destruct (qk_cur _ _ _ Hok i saved E) as (z & Hz & Ez). congruence. }
  assert (Hhold : holder cur i (f it) = c).
  { destruct cur as [ [j saved]|]; cbn; [|done]. destruct (Z.eqb_spec i j) as [<-|]; [|done].
    by destruct (Hcur i saved eq_refl). }
  assert (Ei : q_items s' = alter f i (q_items s)) by (by destruct c).
  assert (Es : q_states s' = q_states s) by (by destruct c).
  assert (El : q_lists s' = q_lists s) by (by destruct c).
  assert (En : q_next s' = q_next s) by (by destruct c).
  assert (Eq : q_queues s' = alter (fun x => set_cq_list (ins (cq_list x)) x) q (q_queues s)) by (by destruct c).
  assert (Ec : forall d y, q_clients s' !! d = Some y -> exists z, q_clients s !! d = Some z /\
    c_references y = c_references z + Z.b2z (bool_decide (c = Some d))).
  { intros d y. unfold s', ref_client. fields. destruct c as [c|].
    - fields. intros Hy. apply lookup_alter_Some in Hy as [(<- & z & Hz & ->)|[Hne Hy]].
      + exists z. by rewrite bool_decide_eq_true_2.
      + exists y. rewrite bool_decide_eq_false_2 by congruence. cbn. split; [done|lia].
    - intros Hy. exists y. rewrite bool_decide_eq_false_2 by done. cbn. split; [done|lia]. }
  assert (Ec' : forall d, is_Some (q_clients s !! d) -> is_Some (q_clients s' !! d)).
  { intros d. unfold s', ref_client. fields. destruct c as [c|]; [|done]. fields. by rewrite lookup_alter_is_Some. }
  assert (Eitem : forall j y, q_items s' !! j = Some y -> j = i /\ y = f it \/ j <> i /\ q_items s !! j = Some y).
  { intros j y. rewrite Ei. intros Hy. apply lookup_alter_Some in Hy as [(<- & z & Hz & ->)|[Hne Hy]]; [|by right].
    left. split; congruence. }
  assert (Equeue : forall p y, q_queues s' !! p = Some y -> exists z, q_queues s !! p = Some z /\
    cq_item y = cq_item z /\ cq_list y = if decide (p = q) then ins (cq_list z) else cq_list z).
  { intros p y. rewrite Eq. intros Hy. apply lookup_alter_Some in Hy as [(<- & z & Hz & ->)|[Hne Hy]].
    - exists z. by rewrite decide_True.
    - exists y. by rewrite decide_False. }
  assert (Equeue' : forall p y, q_queues s !! p = Some y -> exists z, q_queues s' !! p = Some z /\
    cq_list z = if decide (p = q) then ins (cq_list y) else cq_list y).
  { intros p y Hy. rewrite Eq. destruct (decide (p = q)) as [->|Hne].
    - rewrite lookup_alter_eq, Hy. by eexists.
    - rewrite lookup_alter_ne by done. by exists y. }
  destruct Hok. clearbody s'. split; rewrite ?Es, ?El, ?En; try done.
  - intros j y Hj. apply Eitem in Hj as [[-> ->]|[_ Hj]]; [|by apply qk_item0].
    destruct (qk_item0 i it Hi) as [Hit Hlt]. split; [|done]. unfold item_ok in *. rewrite Ft, Fm, Fl, Fb, Fc.
    destruct (it_type it); [done|]. destruct Hit as (cb & Ecb & _). exists cb. split; [done|].
    intros e ->. right. intros ->. by apply (Hpl eq_refl e).
  - intros j y Hj. apply Eitem in Hj as [[-> ->]|[_ Hj]]; [rewrite Fs|]; by eapply qk_state0.
  - intros j y l Hj. apply Eitem in Hj as [[-> ->]|[_ Hj]]; [rewrite Fl|]; by eapply qk_list0.
  - intros j y d Hj Hd. apply Ec'. apply Eitem in Hj as [[-> ->]|[_ Hj]]; [|by eapply qk_client0].
    rewrite Fc, Hhold in Hd. apply Hc. tauto.
  - intros st y Hy. destruct (qk_states0 st y Hy) as [Hl Hu]. split; [done|].
    rewrite Ei, uses_alter_same; [done|]. intros z Hz. replace z with it by congruence. by rewrite Fs.
  - intros l y Hy. destruct (qk_lists0 l y Hy) as [Hl Hu]. split; [done|].
    rewrite Ei, uses_alter_same; [done|]. intros z Hz. replace z with it by congruence. by rewrite Fl.
  - intros d y Hy. apply Ec in Hy as (z & Hz & E). destruct (qk_clients0 d z Hz) as [Hl Hu]. split.
    + destruct Hl as [w Hw]. apply Equeue' in Hw as (w' & Hw' & _). by exists w'.
    + rewrite Ei, (uses_alter _ f _ i it Hi), Hhold.
      destruct (bool_decide (holder cur i it = Some d)), (bool_decide (c = Some d)); cbn [Z.b2z] in *; lia.
  - intros p y j Hy Hj. apply Equeue in Hy as (z & Hz & _ & E). rewrite E in Hj.
    assert (Hother : j ∈ cq_list z -> exists it, q_items s' !! j = Some it /\ it_queue it = Some p).
    { intros Hjz. destruct (qk_on0 p z j Hz Hjz) as (w & Hw & Ew). exists w. split; [|done].
      rewrite Ei, lookup_alter_ne; [done|]. intros <-. by apply (Hout p z). }
    destruct (decide (p = q)) as [->|]; [|by apply Hother]. replace z with x in * by congruence.
    apply He in Hj as [->|Hj]; [|by apply Hother]. exists (f it). split; [|done]. by rewrite Ei, lookup_alter_eq, Hi.
  - intros j y p Hj Ep. apply Eitem in Hj as [[-> ->]|[_ Hj]].
    + rewrite Fq in Ep. injection Ep as <-. apply Equeue' in Hx as (z & Hz & E). exists z. split; [done|].
      rewrite E, decide_True by done. apply He. by left.
    + destruct (qk_in0 j y p Hj Ep) as (w & Hw & Hjw). pose proof Hw as Hw'. apply Equeue' in Hw as (z & Hz & E).
      exists z. split; [done|]. rewrite E. destruct (decide (p = q)) as [->|]; [|done].
      replace w with x in * by congruence. apply He. by right.
  - intros p y Hy. apply Equeue in Hy as (z & Hz & _ & ->). destruct (decide (p = q)) as [->|]; [|by eapply qk_nodup0].
    replace z with x in * by congruence. apply Hn; [by eapply Hout|by eapply qk_nodup0].
  - intros p y j Hy Hj. apply Equeue in Hy as (z & Hz & E & ->). rewrite E in Hj. specialize (qk_running0 p z j Hz Hj).
    destruct (decide (p = q)) as [->|]; [|done]. replace z with x in * by congruence. by apply Hh.
  - intros j y Hj. apply Eitem in Hj as [[-> ->]|[_ Hj]].
    + rewrite Ff. left. destruct (qk_flags0 i it Hi) as [|(? & ? & ? & _)]; [done|congruence].
    + destruct (qk_flags0 j y Hj) as [|(p & z & E & Hz & Hd)]; [by left|]. right. pose proof Hz as Hz'.
      apply Equeue' in Hz as (w & Hw & Ew). exists p, w. split_and!; [done..|]. rewrite Ew.
      destruct (decide (p = q)) as [->|]; [|done]. replace z with x in * by congruence. by apply Hh.
  - intros j saved E. destruct (qk_cur0 j saved E) as (z & Hz & Ez). exists z. split; [|done].
    rewrite Ei, lookup_alter_ne; [done|]. intros <-. by apply (Hcur i saved).
Qed.

(** Items of which each is the [next] of the one before, on no queue. *)
Fixpoint chain (m : gmap Z cmdq_item) (l : list Z) : Prop :=
  match l with
  | [] => True
  | i :: l => (exists it, m !! i = Some it /\ it_next it = head l /\ it_queue it = None) /\ chain m l
  end.

Lemma chain_ext m m' l : (forall j, j ∈ l -> m' !! j = m !! j) -> chain m l -> chain m' l.
Proof.
  induction l as [|i l IH]; [done|]. intros E [(it & Hi & Hn) Hl]. split.
  - exists it. split; [|done]. rewrite E; [done|constructor].
  - apply IH; [|done]. intros j Hj. apply E. by constructor.
Qed.

Lemma chain_free m l i it : chain m l -> i ∈ l -> m !! i = Some it -> it_queue it = None.
Proof.
  induction l as [|j l IH]; [set_solver|]. intros [(x & Hx & _ & Hq) Hl]. rewrite elem_of_cons.
  intros [->|Hi] Hit; [congruence|by apply IH].
Qed.

Lemma chain_there m l j : chain m l -> j ∈ l -> is_Some (m !! j).
Proof.
  induction l as [|i l IH]; [by intros _ Hj%not_elem_of_nil|]. intros [(it & Hi & _) Hl]. rewrite elem_of_cons.
  intros [->|Hj]; [by eexists|by apply IH].
Qed.

(** What an item keeps when it is put on the queue [q] with the client [c]. *)
Record put_on (q : queue_id) (c : option Z) (a b : cmdq_item) : Prop := PutOn {
  po_queue : it_queue b = Some q;
  po_client : it_client b = c;
  po_type : it_type b = it_type a;
  po_group : it_group b = it_group a;
  po_state : it_state b = it_state a;
  po_cmdlist : it_cmdlist b = it_cmdlist a;
  po_cmd : it_cmd b = it_cmd a;
  po_cb : it_cb b = it_cb a;
  po_flags : it_flags b = it_flags a
}.

(** The items [l] have been put on the queue [q], and nothing else has changed. *)
Record placed (q : queue_id) (c : option Z) (l : list Z) (s s' : server rest) : Prop := Placed {
  pl_others : forall j it, j ∉ l -> q_items s !! j = Some it ->
    exists it', q_items s' !! j = Some it' /\ same_item it it';
  pl_items : forall j it, j ∈ l -> q_items s !! j = Some it ->
    exists it', q_items s' !! j = Some it' /\ put_on q c it it';
  pl_states : q_states s' = q_states s;
  pl_lists : q_lists s' = q_lists s;
  pl_number : q_number s' = q_number s;
  pl_next : q_next s' = q_next s;
  pl_world : q_world s' = q_world s;
  pl_rest : q_rest s' = q_rest s;
  pl_out : q_out s' = q_out s;
  pl_clients : forall d, is_Some (q_clients s !! d) -> is_Some (q_clients s' !! d);
  pl_queues : forall p, p <> q -> q_queues s' !! p = q_queues s !! p;
  pl_gone : gone s s'
}.

Lemma placed_refl q c s : placed q c [] s s.
Proof.
  split; try done.
  - intros j it _ Hj. by exists it.
  - intros j it Hj. by apply not_elem_of_nil in Hj.
Qed.

Lemma same_put_on q c a b d : same_item a b -> put_on q c b d -> put_on q c a d.
Proof. intros [] []. split; congruence. Qed.

Lemma put_on_same q c a b d : put_on q c a b -> same_item b d -> put_on q c a d.
Proof. intros [] []. split; congruence. Qed.

Lemma placed_app q c l1 l2 s1 s2 s3 : (forall j, j ∈ l1 -> j ∉ l2) ->
  placed q c l1 s1 s2 -> placed q c l2 s2 s3 -> placed q c (l1 ++ l2) s1 s3.
Proof.
  intros Hd [] []. split; try congruence.
  - intros j it Hj Hi. apply not_elem_of_app in Hj as [H1 H2].
    destruct (pl_others0 j it H1 Hi) as (it' & Hi' & E'). destruct (pl_others1 j it' H2 Hi') as (it2 & Hi2 & E2).
    exists it2. split; [done|by etrans].
  - intros j it. rewrite elem_of_app. intros [Hj|Hj] Hi.
    + destruct (pl_items0 j it Hj Hi) as (it' & Hi' & E'). destruct (pl_others1 j it' (Hd j Hj) Hi') as (it2 & Hi2 & E2).
      exists it2. split; [done|by eapply put_on_same].
    + destruct (pl_others0 j it) as (it' & Hi' & E'); [by intros H1; apply (Hd j)|done|].
      destruct (pl_items1 j it' Hj Hi') as (it2 & Hi2 & E2). exists it2. split; [done|by eapply same_put_on].
  - intros d Hdc. by apply pl_clients1, pl_clients0.
  - intros p Hp. by rewrite pl_queues1, pl_queues0.
  - by etrans.
Qed.

Lemma placed_next q c l f i s s' : (forall it, same_item it (f it)) ->
  placed q c l (upd_item f i s) s' -> placed q c l s s'.
Proof.
  intros Hf []. split; try done; [intros j it Hj Hi..|by eapply gone_from].
  - destruct (pl_others0 j (if decide (i = j) then f it else it)) as (it' & Hi' & E'); [done| |].
    + fields. destruct (decide (i = j)) as [->|]; [by rewrite lookup_alter_eq, Hi|by rewrite lookup_alter_ne].
    + exists it'. split; [done|]. etrans; [|done]. by destruct (decide (i = j)).
  - destruct (pl_items0 j (if decide (i = j) then f it else it)) as (it' & Hi' & E'); [done| |].
    + fields. destruct (decide (i = j)) as [->|]; [by rewrite lookup_alter_eq, Hi|by rewrite lookup_alter_ne].
    + exists it'. split; [done|]. eapply same_put_on; [|done]. by destruct (decide (i = j)).
Qed.

Lemma place_step q c f i ins s it : q_items s !! i = Some it -> put_on q c it (f it) ->
  placed q c [i] s (upd_queue (fun x => set_cq_list (ins (cq_list x)) x) q (upd_item f i (ref_client c s))).
Proof.
  intros Hi Hf. split; try by destruct c.
  - intros j x Hj Hx. exists x. split; [|done]. assert (Hne : i <> j) by set_solver.
    destruct c; cbn [ref_client]; fields; by rewrite lookup_alter_ne.
  - intros j x Hj Hx. apply list_elem_of_singleton in Hj as ->. exists (f it).
    replace x with it by congruence. split; [|done]. destruct c; cbn [ref_client]; fields; by rewrite lookup_alter_eq, Hi.
  - intros d Hd. destruct c; cbn [ref_client]; fields; [by apply lookup_alter_is_Some|done].
  - intros p Hp. destruct c; cbn [ref_client]; fields; by rewrite lookup_alter_ne.
  - apply (gone_alter f i); by destruct c.
Qed.

Lemma place_list q c f i ins s x : q_queues s !! q = Some x ->
  q_queues (upd_queue (fun x => set_cq_list (ins (cq_list x)) x) q (upd_item f i (ref_client c s))) !! q =
    Some (Queue (cq_item x) (ins (cq_list x))).
Proof. intros Hx. destruct c; cbn [ref_client]; fields; by rewrite lookup_alter_eq, Hx. Qed.

(** The items that are left may be put on the queue as before. *)
Lemma placeable_left q c item l s s1 : placed q c [item] s s1 -> item ∉ l ->
  chain (q_items s) l -> (forall j it, j ∈ item :: l -> q_items s !! j = Some it -> placeable c it) ->
  forall j it, j ∈ l -> q_items s1 !! j = Some it -> placeable c it.
Proof.
  intros Hp Hil Hch Hpl j it Hj Hi. destruct (chain_there _ _ _ Hch Hj) as [y Hy].
  destruct (pl_others _ _ _ _ _ Hp j y) as (y' & Hy' & Ey); [set_solver|done|].
  replace it with y' by congruence. unfold placeable. rewrite <- (si_cb _ _ Ey). apply (Hpl j); [by constructor|done].
Qed.

(** The chain goes to the end of the queue. *)
Lemma append_chain_ok fuel : forall cur held c q item l s x, queues_ok cur held s ->
  chain (q_items s) (item :: l) -> NoDup (item :: l) -> (length l < fuel)%nat ->
  q_queues s !! q = Some x -> (forall d, c = Some d -> is_Some (q_clients s !! d)) ->
  (forall j it, j ∈ item :: l -> q_items s !! j = Some it -> placeable c it) ->
  exists s', append_chain fuel c q item s = Some s' /\ queues_ok cur held s' /\ placed q c (item :: l) s s' /\
    q_queues s' !! q = Some (Queue (cq_item x) (cq_list x ++ item :: l)).
Proof.
  induction fuel as [|fuel IH]; intros cur held c q item l s x Hok Hch Hnd Hlen Hx Hc Hpl; [lia|].
  destruct Hch as [(it & Hi & Hn & Hq) Hch]. apply NoDup_cons in Hnd as [Hil Hnd].
  cbn [append_chain]. rewrite Hi. cbn [mbind option_bind]. rewrite client_ref_some by done. cbn [mbind option_bind].
  set (f := fun it => set_it_queue (Some q) (set_it_client c (set_it_next None it))).
  set (s1 := upd_queue (fun x => set_cq_list (cq_list x ++ [item]) x) q (upd_item f item (ref_client c s))).
  assert (Hf : put_on q c it (f it)) by done.
  assert (Hok1 : queues_ok cur held s1) by (apply (ok_place cur held s item it f c q x (fun l => l ++ [item])); try done; [apply puts_end|apply (Hpl item); [constructor|done] ]).
  assert (Hp1 : placed q c [item] s s1) by (by apply (place_step q c f item (fun l => l ++ [item]) s it)).
  assert (Hx1 : q_queues s1 !! q = Some (Queue (cq_item x) (cq_list x ++ [item]))).
  { by apply (place_list q c f item (fun l => l ++ [item]) s x). }
  rewrite Hn. destruct l as [|next l]; cbn [head].
  - exists s1. done.
  - destruct (IH cur held c q next l s1 (Queue (cq_item x) (cq_list x ++ [item])) Hok1) as (s2 & E2 & Hok2 & Hp2 & Hx2); [|done|cbn in Hlen; lia|done| | |].
    + eapply chain_ext; [|exact Hch]. intros j Hj. subst s1. destruct c; cbn [ref_client]; fields; rewrite lookup_alter_ne; try done;
        by intros <-.
    + intros d Hd. by apply (pl_clients _ _ _ _ _ Hp1), Hc.
    + by eapply placeable_left.
    + exists s2. split_and!; [done..| |].
      * apply (placed_app q c [item] (next :: l) s s1 s2); [|done..]. intros j ->%list_elem_of_singleton. done.
      * rewrite Hx2. cbn. by rewrite <- app_assoc.
Qed.

Lemma insert_after_split a i l1 l2 : a ∉ l1 ->
  tailq_insert_after a i (l1 ++ a :: l2) = l1 ++ a :: i :: l2.
Proof.
  induction l1 as [|y l1 IH]; intros Ha; cbn [app tailq_insert_after]; [by rewrite decide_True|].
  apply not_elem_of_cons in Ha as [Hne Ha]. rewrite decide_False by done. by rewrite IH.
Qed.

Lemma last_cons_next (y : Z) l d : List.last (y :: l) d = List.last l y.
Proof.
  revert y d. induction l as [|z l IH]; intros y d; [done|].
  change (List.last (z :: l) d = List.last (z :: l) y). by rewrite !IH.
Qed.

(** The chain goes after an item of the queue, and its last item is given back. *)
Lemma insert_chain_ok fuel : forall cur held c q after a item l s x l1 l2, queues_ok cur held s ->
  chain (q_items s) (item :: l) -> NoDup (item :: l) -> (length l < fuel)%nat ->
  q_items s !! after = Some a -> it_queue a = Some q ->
  q_queues s !! q = Some x -> cq_list x = l1 ++ after :: l2 -> (forall d, c = Some d -> is_Some (q_clients s !! d)) ->
  (forall j it, j ∈ item :: l -> q_items s !! j = Some it -> placeable c it) ->
  exists s', insert_chain fuel c q after item s = Some (List.last l item, s') /\ queues_ok cur held s' /\
    placed q c (item :: l) s s' /\ q_queues s' !! q = Some (Queue (cq_item x) (l1 ++ after :: (item :: l) ++ l2)).
Proof.
  induction fuel as [|fuel IH];
    intros cur held c q after a item l s x l1 l2 Hok Hch Hnd Hlen Ha Haq Hx El Hc Hpl; [lia|].
  destruct Hch as [(it & Hi & Hn & Hq) Hch]. apply NoDup_cons in Hnd as [Hil Hnd].
  cbn [insert_chain]. rewrite Hi, Ha. cbn [mbind option_bind].
  assert (Hne : after <> item) by (intros ->; congruence).
  set (s0 := upd_item _ after _). set (it1 := set_it_next (it_next a) it).
  assert (Hsame : forall n (it : cmdq_item), same_item it (set_it_next n it)) by done.
  assert (Hok0 : queues_ok cur held s0) by (subst s0; by repeat apply ok_upd_item).
  rewrite (client_ref_some c s0) by done. cbn [mbind option_bind].
  set (f := fun it => set_it_queue (Some q) (set_it_client c it)).
  set (s1 := upd_queue (fun x => set_cq_list (tailq_insert_after after item (cq_list x)) x) q
               (upd_item f item (ref_client c s0))).
  assert (Hi0 : q_items s0 !! item = Some it1).
  { subst s0. fields. by rewrite lookup_alter_ne, lookup_alter_eq, Hi. }
  assert (Hin : after ∈ cq_list x) by (rewrite El; set_solver).
  assert (Hl1 : after ∉ l1).
  { pose proof (qk_nodup _ _ _ Hok q x Hx) as Hd. rewrite El in Hd. apply NoDup_app in Hd as (_ & Hd & _).
    intros H1. apply (Hd after H1). constructor. }
  assert (Hok1 : queues_ok cur held s1).
  { apply (ok_place cur held s0 item it1 f c q x (tailq_insert_after after item)); try done;
      [by apply puts_after|apply (Hpl item it); [constructor|done] ]. }
  assert (Hp1 : placed q c [item] s s1).
  { eapply placed_next; [apply (Hsame (it_next a))|]. eapply placed_next; [apply (Hsame (Some item))|].
    by apply (place_step q c f item (tailq_insert_after after item) s0 it1). }
  assert (Hx1 : q_queues s1 !! q = Some (Queue (cq_item x) (l1 ++ after :: item :: l2))).
  { rewrite <- (insert_after_split after item l1 l2) by done. rewrite <- El.
    by apply (place_list q c f item (tailq_insert_after after item) s0 x). }
  rewrite Hn. destruct l as [|next l]; cbn [head]; [by exists s1|].
  destruct (pl_items _ _ _ _ _ Hp1 item it) as (it' & Hi' & Hit'); [by constructor|done|].
  destruct (IH cur held c q item it' next l s1 (Queue (cq_item x) (l1 ++ after :: item :: l2)) (l1 ++ [after]) l2 Hok1)
    as (s2 & E2 & Hok2 & Hp2 & Hx2); [|done|cbn in Hlen; lia|done|by destruct Hit'|done|cbn; by rewrite <- app_assoc| | |].
  - eapply chain_ext; [|exact Hch]. intros j Hj.
    assert (Hja : after <> j) by (intros <-; rewrite (chain_free _ _ _ _ Hch Hj Ha) in Haq; done).
    assert (Hji : item <> j) by (by intros <-).
    subst s1 s0. destruct c; cbn [ref_client]; fields; by rewrite !lookup_alter_ne.
  - intros d Hd. by apply (pl_clients _ _ _ _ _ Hp1), Hc.
  - by eapply placeable_left.
  - exists s2. split_and!; [by rewrite E2, last_cons_next|done| |].
    + apply (placed_app q c [item] (next :: l) s s1 s2); [|done..]. by intros j ->%list_elem_of_singleton.
    + rewrite Hx2. cbn. by rewrite <- !app_assoc.
Qed.

Lemma chain_short m l : chain m l -> NoDup l -> (length l <= size m)%nat.
Proof.
  intros Hch Hnd. rewrite <- (size_list_to_set (C := gset Z) l Hnd), <- size_dom.
  apply subseteq_size. intros i Hi. apply elem_of_list_to_set in Hi. apply elem_of_dom.
  induction l as [|j l IH]; [set_solver|]. destruct Hch as [(it & Hj & _) Hch]. apply NoDup_cons in Hnd as [_ Hnd].
  apply elem_of_cons in Hi as [->|Hi]; [by eexists|by apply IH].
Qed.

Lemma insert_after_ok cur held after a q item l s x l1 l2 : queues_ok cur held s ->
  chain (q_items s) (item :: l) -> NoDup (item :: l) ->
  q_items s !! after = Some a -> it_queue a = Some q ->
  q_queues s !! q = Some x -> cq_list x = l1 ++ after :: l2 ->
  (forall j it, j ∈ item :: l -> q_items s !! j = Some it -> placeable (it_client a) it) ->
  exists s', cmdq_insert_after after item s = Some (List.last l item, s') /\ queues_ok cur held s' /\
    placed q (it_client a) (item :: l) s s' /\
    q_queues s' !! q = Some (Queue (cq_item x) (l1 ++ after :: (item :: l) ++ l2)).
Proof.
  intros Hok Hch Hnd Ha Hq Hx El Hpl. unfold cmdq_insert_after. rewrite Ha. cbn [mbind option_bind]. rewrite Hq.
  cbn [mbind option_bind]. eapply insert_chain_ok; try done.
  - pose proof (chain_short _ _ Hch Hnd) as Hs. cbn [length] in Hs. unfold chain_fuel. lia.
  - intros d Hd. apply (qk_client _ _ _ Hok after a d Ha). by left.
Qed.

Lemma cmdq_append_ok cur held c item l s x : queues_ok cur held s ->
  chain (q_items s) (item :: l) -> NoDup (item :: l) ->
  q_queues s !! c = Some x -> (forall d, c = Some d -> is_Some (q_clients s !! d)) ->
  (forall j it, j ∈ item :: l -> q_items s !! j = Some it -> placeable c it) ->
  exists s', cmdq_append c item s = Some (Some (List.last l item), s') /\ queues_ok cur held s' /\
    placed c c (item :: l) s s' /\ q_queues s' !! c = Some (Queue (cq_item x) (cq_list x ++ item :: l)).
Proof.
  intros Hok Hch Hnd Hx Hc Hpl. unfold cmdq_append, cmdq_get. rewrite Hx. cbn [mbind option_bind].
  destruct (append_chain_ok (chain_fuel s) cur held c c item l s x) as (s' & E & Hok' & Hp & Hx'); try done.
  { pose proof (chain_short _ _ Hch Hnd) as Hs. cbn [length] in Hs. unfold chain_fuel. lia. }
  exists s'. rewrite E. cbn [mbind option_bind]. rewrite Hx'. cbn [mbind option_bind cq_list].
  split_and!; try done. do 2 f_equal. rewrite last_app_cons. clear. revert item.
  induction l as [|y l IH]; intros item; [done|]. by rewrite last_cons_cons, IH, last_cons_next.
Qed.

(** ** Making items *)

(** What there was is still there, and on its queue. *)
Record made (s s' : server rest) : Prop := Made {
  mk_items : forall j it, q_items s !! j = Some it -> exists it', q_items s' !! j = Some it' /\ same_item it it';
  mk_states : forall y x, q_states s !! y = Some x -> exists x', q_states s' !! y = Some x' /\ st_flags x' = st_flags x;
  mk_lists : forall l x, q_lists s !! l = Some x -> exists x', q_lists s' !! l = Some x' /\ x'.1 = x.1;
  mk_queues : q_queues s' = q_queues s;
  mk_clients : q_clients s' = q_clients s;
  mk_number : q_number s' = q_number s;
  mk_next : q_next s <= q_next s';
  mk_world : q_world s' = q_world s;
  mk_rest : q_rest s' = q_rest s;
  mk_gone : gone s s'
}.

#[global] Instance made_pre : PreOrder made.
Proof.
  split.
  - intros s. split; try done; intros; by eexists.
  - intros a b c [] []. split; try congruence; try lia.
    + intros j it Hj. destruct (mk_items0 j it Hj) as (x & Hx & E). destruct (mk_items1 j x Hx) as (y & Hy & E').
      exists y. split; [done|by etrans].
    + intros j it Hj. destruct (mk_states0 j it Hj) as (x & Hx & E). destruct (mk_states1 j x Hx) as (y & Hy & E').
      exists y. split; [done|congruence].
    + intros j it Hj. destruct (mk_lists0 j it Hj) as (x & Hx & E). destruct (mk_lists1 j x Hx) as (y & Hy & E').
      exists y. split; [done|congruence].
    + by etrans.
Qed.

Lemma made_new_item cur held it s : queues_ok cur held s -> made s (new_item it s).
Proof.
  intros Hok. split; try done; unfold new_item; fields; [..|lia|].
  - intros j x Hj. exists x. split; [|done]. rewrite lookup_insert_ne; [done|].
    intros <-. apply (qk_item _ _ _ Hok) in Hj. lia.
  - intros y x Hy. by exists x.
  - intros l x Hx. destruct (it_cmdlist it) as [k|]; [|by exists x].
    destruct (decide (k = l)) as [->|Hne].
    + rewrite lookup_alter_eq, Hx. by eexists.
    + rewrite lookup_alter_ne by done. by exists x.
  - split; fields; [lia|]. intros j Hj. rewrite lookup_insert_ne by lia. done.
Qed.

Lemma made_upd_item f i s : (forall it, same_item it (f it)) -> made s (upd_item f i s).
Proof.
  intros Hf. split; try done; try (fields; intros; by eexists); [|by apply (gone_alter f i)].
  fields. intros j it Hj. destruct (decide (i = j)) as [->|Hne].
  - rewrite lookup_alter_eq, Hj. by eexists.
  - rewrite lookup_alter_ne by done. by exists it.
Qed.

Lemma made_link_state st s s' : cmdq_link_state st s = Some s' -> made s s'.
Proof.
  unfold cmdq_link_state. destruct (q_states s !! st) as [x|] eqn:Hx; [|done]. cbn. intros E. injection E as <-.
  split; try done; try (fields; intros; by eexists).
  fields. intros y z Hy. destruct (decide (st = y)) as [->|Hne].
  - rewrite lookup_alter_eq, Hy. by eexists.
  - rewrite lookup_alter_ne by done. by exists z.
Qed.

(** An item made of a command. *)
Definition of_cmd (st cmdlist : Z) (m : gmap Z cmdq_item) (j : Z) (c : cmd) : Prop :=
  exists it, m !! j = Some it /\ it_type it = CMDQ_COMMAND /\ it_cmd it = Some c /\
    it_group it = cmd_get_group c /\ it_state it = st /\ it_cmdlist it = Some cmdlist /\ it_cb it = None.

Lemma of_cmd_made st cmdlist s s' j c : made s s' -> of_cmd st cmdlist (q_items s) j c ->
  of_cmd st cmdlist (q_items s') j c.
Proof.
  intros Hm (it & Hj & H1 & H2 & H3 & H4 & H5 & H6). destruct (mk_items _ _ Hm j it Hj) as (it' & Hj' & []).
  exists it'. split_and!; congruence.
Qed.

Lemma insert_as_alter {A} (m : gmap Z A) i x (f : A -> A) : m !! i = Some x -> <[i:=f x]> m = alter f i m.
Proof.
  intros Hi. apply map_eq. intros j. destruct (decide (i = j)) as [->|Hne].
  - by rewrite lookup_insert_eq, lookup_alter_eq, Hi.
  - by rewrite lookup_insert_ne, lookup_alter_ne.
Qed.

(** One command: the state is linked, the item made, and it is the [next] of
    the one before. *)
Definition command_item (cmdlist st : Z) (c : cmd) : cmdq_item :=
  let z := item_zero CMDQ_COMMAND st in
  Item (it_queue z) (it_next z) (it_client z) (it_target_client z) (it_type z) (cmd_get_group c)
    (it_number z) (it_time z) (it_flags z) st (it_source z) (it_target z) (Some cmdlist) (Some c) None.

Definition set_last (item : Z) (last : option Z) s : server rest :=
  match last with Some last => upd_item (set_it_next (Some item)) last s | None => s end.

Lemma get_commands_step cmdlist st c l first last s s1 : is_Some (q_lists s !! cmdlist) ->
  cmdq_link_state st s = Some s1 ->
  get_commands cmdlist st (c :: l) first last s =
    get_commands cmdlist st l (Some (default (q_next s) first)) (Some (q_next s))
      (set_last (q_next s) last (new_item (command_item cmdlist st c) s1)).
Proof.
  intros [x Hx] E. cbn [get_commands]. rewrite E. cbn [mbind option_bind].
  assert (E1 : q_lists s1 = q_lists s /\ q_next s1 = q_next s).
  { revert E. unfold cmdq_link_state. destruct (q_states s !! st); [|done]. cbn. intros E. by injection E as <-. }
  destruct E1 as [El En]. fields. rewrite El, Hx. cbn [mbind option_bind].
  f_equal. unfold new_item, command_item. cbn [it_cmdlist]. fields. rewrite En, El. rewrite <- (insert_as_alter _ _ _ _ Hx).
  by destruct last.
Qed.

Lemma chain_snoc s last item it it' l : chain (q_items s) (l ++ [last]) -> NoDup (l ++ [last]) ->
  last <> item -> item ∉ l -> q_items s !! item = None ->
  it_next it = None -> it_queue it = None -> it' = it ->
  chain (alter (set_it_next (Some item)) last (<[item:=it']> (q_items s))) (l ++ [last; item]).
Proof.
  intros Hch Hnd Hne Hil Hfree Hn Hq ->. induction l as [|y l IH].
  - destruct Hch as [(x & Hx & Hxn & Hxq) _]. cbn. split_and!; [|..|done].
    + exists (set_it_next (Some item) x). by rewrite lookup_alter_eq, lookup_insert_ne, Hx by done.
    + exists it. by rewrite lookup_alter_ne, lookup_insert_eq by done.
  - destruct Hch as [(x & Hx & Hxn & Hxq) Hch]. cbn [app] in Hnd. apply NoDup_cons in Hnd as [Hy Hnd].
    apply not_elem_of_cons in Hil as [Hyi Hil]. cbn [app chain]. split; [|by apply IH].
    exists x. rewrite lookup_alter_ne, lookup_insert_ne by set_solver. split_and!; [done| |done].
    rewrite Hxn. by destruct l.
Qed.

(** The items of the commands [l] after those that have been made. *)
Lemma get_commands_ok cur st cmdlist l : forall held s ids, queues_ok cur held s ->
  is_Some (q_states s !! st) -> is_Some (q_lists s !! cmdlist) -> Forall cmd_ok l ->
  chain (q_items s) ids -> NoDup ids -> (forall j, j ∈ ids -> j < q_next s) ->
  exists s' new, get_commands cmdlist st l (head ids) (last ids) s = Some (head (ids ++ new), s') /\
    queues_ok cur held s' /\ made s s' /\ chain (q_items s') (ids ++ new) /\ NoDup (ids ++ new) /\
    Forall2 (of_cmd st cmdlist (q_items s')) new l /\ (forall j, j ∈ new -> q_next s <= j).
Proof.
  induction l as [|c l IH]; intros held s ids Hok Hst Hl Hcs Hch Hnd Hlt.
  { exists s, []. rewrite app_nil_r. split_and!; try done. by intros j Hj%not_elem_of_nil. }
  apply Forall_cons in Hcs as [Hc Hcs]. destruct (ok_link_state cur held st s Hok Hst) as (s1 & E1 & Hok1 & Hs1).
  rewrite (get_commands_step cmdlist st c l (head ids) (last ids) s s1 Hl E1).
  set (it := command_item cmdlist st c). set (s2 := new_item it s1). set (s3 := set_last (q_next s) (last ids) s2).
  assert (Hl1 : is_Some (q_lists s1 !! cmdlist)) by (by rewrite (so_lists _ _ Hs1)).
  assert (Hok2 : queues_ok cur held s2).
  { apply ok_new_item; try done; [split; [by exists c|by eexists]|]. intros k Ek. by injection Ek as <-. }
  assert (Hok3 : queues_ok cur held s3) by (subst s3; destruct (last ids); [by apply ok_upd_item|done]).
  assert (Hm : made s s3).
  { etrans; [by eapply made_link_state|]. etrans; [by eapply made_new_item|].
    subst s3. destruct (last ids); [by apply made_upd_item|done]. }
  assert (En : q_next s3 = q_next s + 1).
  { subst s3 s2. rewrite <- (so_next _ _ Hs1). by destruct (last ids). }
  assert (Hfree : q_items s !! q_next s = None).
  { destruct (q_items s !! q_next s) as [x|] eqn:E; [|done]. apply (qk_item _ _ _ Hok) in E. lia. }
  assert (Hnew : (q_next s) ∉ ids) by (intros Hj%Hlt; lia).
  assert (Ei : q_items s2 = <[q_next s:=it]> (q_items s)).
  { subst s2. unfold new_item. fields. by rewrite (so_items _ _ Hs1), (so_next _ _ Hs1). }
  assert (Hch3 : chain (q_items s3) (ids ++ [q_next s])).
  { subst s3. destruct (last ids) as [k|] eqn:Ek.
    - apply last_Some in Ek as [l' ->]. rewrite <- app_assoc. cbn [set_last app]. fields. rewrite Ei.
      apply not_elem_of_app in Hnew as [Hn1 Hn2]. apply (chain_snoc s k (q_next s) it it l'); try done. set_solver.
    - apply last_None in Ek as ->. cbn [set_last app chain head]. rewrite Ei. split; [|done]. exists it. by rewrite lookup_insert_eq. }
  destruct (IH held s3 (ids ++ [q_next s])) as (s4 & new & E4 & Hok4 & Hm4 & Hch4 & Hnd4 & Hf4 & Hlt4); try done.
  - destruct Hst as [x Hx]. destruct (mk_states _ _ Hm st x Hx) as (y & Hy & _). by exists y.
  - destruct Hl as [x Hx]. destruct (mk_lists _ _ Hm cmdlist x Hx) as (y & Hy & _). by exists y.
  - apply NoDup_app. split_and!; [done| |apply NoDup_singleton]. intros j Hj Hj'.
    apply list_elem_of_singleton in Hj' as ->. done.
  - intros j. rewrite elem_of_app, list_elem_of_singleton, En. intros [Hj%Hlt| -> ]; lia.
  - exists s4, (q_next s :: new). rewrite <- app_assoc in E4, Hch4, Hnd4. cbn [app] in E4, Hch4, Hnd4.
    split_and!; try done.
    + rewrite <- E4. f_equal; [by destruct ids|]. by rewrite last_snoc.
    + by etrans.
    + constructor; [|done]. eapply of_cmd_made; [exact Hm4|]. subst s3.
      exists it.
      assert (Hit : q_items (set_last (q_next s) (last ids) s2) !! q_next s = Some it).
      { destruct (last ids) as [k|] eqn:Ek; cbn [set_last]; fields; rewrite Ei; [|by rewrite lookup_insert_eq].
        rewrite lookup_alter_ne, lookup_insert_eq; [done|]. intros ->. apply last_Some in Ek as [l' ->].
        apply Hnew. set_solver. }
      by split.
    + intros j. rewrite elem_of_cons. intros [->|Hj]; [lia|]. apply Hlt4 in Hj. lia.
Qed.

Lemma made_new_state cur held current event flags s : queues_ok cur held s ->
  made s (cmdq_new_state current event flags s).2.
Proof.
  intros Hok. split; try done; try (fields; intros; by eexists); [|cbn; lia|split; [cbn; lia|done] ].
  intros y x Hy. exists x. split; [|done]. cbn. rewrite lookup_insert_ne; [done|].
  intros <-. apply (qk_states _ _ _ Hok) in Hy. lia.
Qed.

(** An item made of a callback, with a state of its own. *)
Definition of_cb (cb : cmdq_cb) (s : server rest) (j : Z) : Prop :=
  exists it x, q_items s !! j = Some it /\ it_type it = CMDQ_CALLBACK /\ it_cb it = Some cb /\ it_group it = 0 /\
    q_states s !! it_state it = Some x /\ st_flags x = 0.

Lemma get_callback_ok cur held cb s : queues_ok cur held s ->
  exists i s', cmdq_get_callback cb s = (i, s') /\ queues_ok cur held s' /\ made s s' /\
    chain (q_items s') [i] /\ of_cb cb s' i /\ q_next s <= i.
Proof.
  intros Hok. pose proof (ok_new_state cur held None None 0 s Hok) as Hn.
  pose proof (made_new_state cur held None None 0 s Hok) as Hm.
  unfold cmdq_get_callback. destruct (cmdq_new_state None None 0 s) as [st s1] eqn:E1.
  destruct Hn as (Hok1 & Hst & Ei & _ & _ & _ & _ & (x & Hx & Hf) & _).
  eexists _, _. split; [done|]. match goal with |- queues_ok _ _ (set_next _ (set_items (<[_:=?x]> _) _)) /\ _ => set (it := x) end.
  change (set_next _ _) with (new_item it s1).
  assert (Hok2 : queues_ok cur held (new_item it s1)) by (by apply ok_new_item; [done|by exists cb; split; [|left]|..]).
  assert (Hit : q_items (new_item it s1) !! q_next s1 = Some it) by (unfold new_item; fields; by rewrite lookup_insert_eq).
  pose proof (mk_next _ _ Hm) as Hle. cbn in Hle.
  split_and!; try done.
  - etrans; [exact Hm|]. by eapply made_new_item.
  - split; [|done]. by exists it.
  - exists it, x. split_and!; try done.
Qed.

(** The items of a list of commands, in their order; one that does nothing
    for an empty list. *)
Lemma get_command_ok cur held cmdlist state s x : queues_ok cur held s -> q_lists s !! cmdlist = Some x ->
  (forall st, state = Some st -> is_Some (q_states s !! st)) ->
  exists i ids s', cmdq_get_command cmdlist state s = Some (i, s') /\ queues_ok cur held s' /\ made s s' /\
    chain (q_items s') (i :: ids) /\ NoDup (i :: ids) /\ (forall j, j ∈ i :: ids -> q_next s <= j) /\
    match cmds x.1 with
    | [] => ids = [] /\ of_cb cmdq_empty_command s' i
    | l => exists st y, Forall2 (of_cmd st cmdlist (q_items s')) (i :: ids) l /\ q_states s' !! st = Some y /\
        match state with
        | Some st0 => st = st0
        | None => st_flags y = 0
        end
    end.
Proof.
  intros Hok Hx Hst. unfold cmdq_get_command. rewrite Hx. cbn [mbind option_bind].
  destruct (qk_lists _ _ _ Hok cmdlist x Hx) as [Hcs _].
  destruct (cmds x.1) as [|c l] eqn:El.
  { destruct (get_callback_ok cur held cmdq_empty_command s Hok) as (i & s' & E & Hok' & Hm & Hch & Hcb & Hlt).
    exists i, [], s'. rewrite E. split_and!; try done; [apply NoDup_singleton|]. by intros j ->%list_elem_of_singleton. }
  destruct state as [st|].
  - specialize (Hst st eq_refl).
    destruct (get_commands_ok cur st cmdlist (c :: l) held s []) as (s' & new & E & Hok' & Hm & Hch & Hnd & Hf & Hlt);
      [done|done|by eexists|done|done|apply NoDup_nil_2|by intros j Hj%not_elem_of_nil|].
    cbn [app head last] in E. rewrite E. cbn [mbind option_bind].
    destruct new as [|i ids]; [by apply Forall2_length in Hf|]. cbn [app head]. cbn [mbind option_bind].
    destruct Hst as [y Hy]. destruct (mk_states _ _ Hm st y Hy) as (y' & Hy' & _).
    exists i, ids, s'. split_and!; try done. by exists st, y'.
  - pose proof (ok_new_state cur held None None 0 s Hok) as Hn.
    pose proof (made_new_state cur held None None 0 s Hok) as Hm0.
    destruct (cmdq_new_state None None 0 s) as [st s1]. cbn [snd] in Hm0.
    destruct Hn as (Hok1 & Est & Ei & _ & _ & Els & _ & (y & Hy & Hfl) & _).
    destruct (get_commands_ok cur st cmdlist (c :: l) (st :: held) s1 []) as (s2 & new & E & Hok2 & Hm & Hch & Hnd & Hf & Hlt);
      [done|by eexists|rewrite Els; by eexists|done|done|apply NoDup_nil_2|by intros j Hj%not_elem_of_nil|].
    cbn [app head last] in E. rewrite E. cbn [mbind option_bind].
    destruct (ok_free_state cur held st s2 Hok2) as (s' & E' & Hok' & Hso & Hoth). rewrite E'. cbn [mbind option_bind].
    destruct new as [|i ids]; [by apply Forall2_length in Hf|]. cbn [app head]. cbn [mbind option_bind].
    assert (Hm' : made s s').
    { destruct Hso. assert (Hm2 : made s s2) by (by etrans). destruct Hm2. split; try congruence.
      - by rewrite so_items0.
      - intros z w Hz. destruct (mk_states0 z w Hz) as (w' & Hw' & Ew). exists w'. split; [|done]. rewrite Hoth; [done|].
        intros ->. apply (qk_states _ _ _ Hok) in Hz. lia.
      - by rewrite so_lists0.
      - etrans; [done|by apply gone_same].
    }
    destruct (mk_states _ _ Hm st y Hy) as (y2 & Hy2 & Ef2).
    pose proof Hf as Hf'. apply Forall2_cons in Hf' as [(it & Hit & _ & _ & _ & Eit & _ & _) _].
    destruct (so_flags _ _ Hso i it y2) as (y' & Hy' & Ef'); [done|by rewrite Eit|]. rewrite Eit in Hy'.
    exists i, ids, s'. rewrite (so_items _ _ Hso). split_and!; try done.
    + intros j Hj. apply Hlt in Hj. pose proof (mk_next _ _ Hm0). lia.
    + exists st, y'. split_and!; [done..|congruence].
Qed.

(** ** What a change leaves of the items on the queues *)

(** The same item, but that it may no longer wait. *)
Record still (a b : cmdq_item) : Prop := Still {
  sl_same : same_item (set_it_flags 0 a) (set_it_flags 0 b);
  sl_flags : it_flags b = it_flags a \/ it_flags b = without (it_flags a) CMDQ_WAITING
}.

Lemma same_still a b : same_item a b -> still a b.
Proof. intros []. split; [by split|by left]. Qed.

#[global] Instance still_pre : PreOrder still.
Proof.
  split; [by split; [done|left]|]. intros a b c [H1 F1] [H2 F2]. split; [by etrans|].
  assert (E : forall z, without (without z CMDQ_WAITING) CMDQ_WAITING = without z CMDQ_WAITING).
  { intros z. unfold without. apply Z.bits_inj'. intros n Hn. rewrite !Z.ldiff_spec.
    by destruct (Z.testbit z n), (Z.testbit CMDQ_WAITING n). }
  destruct F1 as [<-|E1], F2 as [->|E2]; [by left|by right|by right|]. right. by rewrite E2, E1.
Qed.

Record kept (s s' : server rest) : Prop := Kept {
  kp_items : forall j it p, q_items s !! j = Some it -> it_queue it = Some p ->
    exists it', q_items s' !! j = Some it' /\ still it it';
  kp_states : forall j it p x, q_items s !! j = Some it -> it_queue it = Some p ->
    q_states s !! it_state it = Some x -> exists x', q_states s' !! it_state it = Some x' /\ st_flags x' = st_flags x;
  kp_clients : forall c, is_Some (q_clients s !! c) -> is_Some (q_clients s' !! c);
  kp_running : forall p x, q_queues s !! p = Some x -> exists x', q_queues s' !! p = Some x' /\ cq_item x' = cq_item x;
  kp_gone : gone s s'
}.

Lemma still_queue a b : still a b -> it_queue b = it_queue a.
Proof. intros [ [] _]. done. Qed.

Lemma still_state a b : still a b -> it_state b = it_state a.
Proof. intros [ [] _]. done. Qed.

#[global] Instance kept_pre : PreOrder kept.
Proof.
  split.
  - intros s. split; try done; intros; by eexists.
  - intros a b c [] []. split.
    + intros j it p Hj Hq. destruct (kp_items0 j it p Hj Hq) as (x & Hx & E).
      destruct (kp_items1 j x p Hx) as (y & Hy & E'); [by rewrite (still_queue _ _ E)|].
      exists y. split; [done|by etrans].
    + intros j it p x Hj Hq Hx. destruct (kp_items0 j it p Hj Hq) as (y & Hy & E).
      destruct (kp_states0 j it p x Hj Hq Hx) as (x' & Hx' & Ex).
      rewrite <- (still_state _ _ E) in *. destruct (kp_states1 j y p x' Hy) as (x2 & Hx2 & E2); [|done|].
      * by rewrite (still_queue _ _ E).
      * exists x2. split; [done|congruence].
    + intros d Hd. by apply kp_clients1, kp_clients0.
    + intros p x Hx. destruct (kp_running0 p x Hx) as (y & Hy & E). destruct (kp_running1 p y Hy) as (z & Hz & E').
      exists z. split; [done|congruence].
    + by etrans.
Qed.

Lemma made_kept s s' : made s s' -> kept s s'.
Proof.
  intros []. split; try congruence.
  - intros j it p Hj _. destruct (mk_items0 j it Hj) as (x & Hx & E). exists x. split; [done|by apply same_still].
  - intros j it p x _ _ Hx. by apply mk_states0.
  - intros p x Hx. exists x. by rewrite mk_queues0.
Qed.

Lemma placed_kept q c l s s' x x' : placed q c l s s' -> chain (q_items s) l ->
  q_queues s !! q = Some x -> q_queues s' !! q = Some x' -> cq_item x' = cq_item x -> kept s s'.
Proof.
  intros [] Hch Hx Hx' Eq. split; try congruence.
  - intros j it p Hj Hp. destruct (pl_others0 j it) as (y & Hy & E); [|done|].
    + intros Hin. by rewrite (chain_free _ _ _ _ Hch Hin Hj) in Hp.
    + exists y. split; [done|by apply same_still].
  - intros j it p y _ _ Hy. rewrite pl_states0. by exists y.
  - exact pl_clients0.
  - intros p y Hy. destruct (decide (p = q)) as [->|Hne]; [exists x'; split; congruence|].
    exists y. by rewrite pl_queues0.
Qed.

Lemma reports_kept s s' : reports s s' -> kept s s'.
Proof.
  intros Hr. pose proof (rp_clients _ _ Hr) as Hc. destruct Hr. split; try congruence.
  - intros j it p Hj _. exists it. rewrite rp_items0. by split.
  - intros j it p x _ _ Hx. exists x. by rewrite rp_states0.
  - intros c [x Hx]. specialize (Hc c). rewrite Hx in Hc. by destruct (q_clients s' !! c).
  - intros p x Hx. exists x. by rewrite rp_queues0.
  - by apply gone_same.
Qed.

Lemma states_only_kept s s' : states_only s s' -> kept s s'.
Proof.
  intros []. split; try congruence.
  - intros j it p Hj _. exists it. by rewrite so_items0.
  - intros j it p x Hj _ Hx. by eapply so_flags0.
  - intros p x Hx. exists x. by rewrite so_queues0.
  - by apply gone_same.
Qed.

Lemma upd_item_kept f i s : (forall it, q_items s !! i = Some it -> still it (f it)) -> kept s (upd_item f i s).
Proof.
  intros Hf. split; try done; try (fields; intros; by eexists); [|by apply (gone_alter f i)].
  fields. intros j it p Hj _. destruct (decide (i = j)) as [->|Hne].
  - rewrite lookup_alter_eq, Hj. exists (f it). split; [done|by apply Hf].
  - rewrite lookup_alter_ne by done. by exists it.
Qed.

(** ** The work that is left on a queue *)

(** A cost for every command and callback, and one for the hooks. *)
Context (cost_cmd : cmd -> nat) (cost_cb : Z -> Z -> nat) (hook_cost : nat).

Definition weight_of (it : cmdq_item) (flags : Z) : nat :=
  match it_type it with
  | CMDQ_COMMAND =>
      match it_cmd it with
      | Some c => cost_cmd c * (if has flags CMDQ_STATE_NOHOOKS then 1 else hook_cost)
      | None => 0
      end
  | CMDQ_CALLBACK => match it_cb it with Some (other_cb cb data) => cost_cb cb data | _ => 1 end
  end.

Definition weight (s : server rest) (j : Z) : nat :=
  match q_items s !! j with
  | Some it => match q_states s !! it_state it with Some x => weight_of it (st_flags x) | None => 0 end
  | None => 0
  end.

Definition load (s : server rest) (l : list Z) : nat := sum_list_with (weight s) l.

(** What the commands of a list cost when they are run as a hook. *)
Definition list_cost (l : cmd_list) : nat :=
  match cmds l with [] => 1 | l => sum_list_with cost_cmd l end.

Lemma load_app s l1 l2 : load s (l1 ++ l2) = (load s l1 + load s l2)%nat.
Proof. apply sum_list_with_app. Qed.

Lemma load_kept cur held s s' q x l : queues_ok cur held s -> kept s s' ->
  q_queues s !! q = Some x -> (forall j, j ∈ l -> j ∈ cq_list x) -> load s' l = load s l.
Proof.
  intros Hok Hk Hx Hl. unfold load. induction l as [|j l IH]; [done|]. cbn [sum_list_with].
  rewrite IH by (intros; apply Hl; by constructor). f_equal.
  destruct (qk_on _ _ _ Hok q x j Hx) as (it & Hj & Hq); [apply Hl; constructor|].
  destruct (qk_state _ _ _ Hok j it Hj) as [y Hy].
  destruct (kp_items _ _ Hk j it q Hj Hq) as (it' & Hj' & E).
  destruct (kp_states _ _ Hk j it q y Hj Hq Hy) as (y' & Hy' & Ef).
  unfold weight. rewrite Hj, Hj', (still_state _ _ E), Hy, Hy', Ef.
  destruct E as [ [_ _ Et _ _ _ Ec Eb _] _]. cbn in Et, Ec, Eb. unfold weight_of. by rewrite Et, Ec, Eb.
Qed.

(** ** Hooks *)

Lemma ok_upd_state cur held f st s :
  (forall x, st_references (f x) = st_references x /\ st_flags (f x) = st_flags x) ->
  queues_ok cur held s -> queues_ok cur held (upd_state f st s) /\ states_only s (upd_state f st s).
Proof.
  intros Hf Hok. split.
  - destruct Hok. split; fields; try done.
    + intros i it Hi. apply lookup_alter_is_Some. by eapply qk_state0.
    + intros y Hy. apply lookup_alter_is_Some. by apply qk_held0.
    + intros y z Hy. apply lookup_alter_Some in Hy as [(<- & w & Hw & ->)|[Hne Hy]]; [|by apply qk_states0].
      destruct (Hf w) as [-> _]. by apply qk_states0.
  - split; fields; try done. intros i it x Hi Hx. destruct (decide (st = it_state it)) as [->|Hne].
    + rewrite lookup_alter_eq, Hx. exists (f x). split; [done|]. by destruct (Hf x).
    + rewrite lookup_alter_ne by done. by exists x.
Qed.

Lemma states_only_trans s1 s2 s3 : states_only s1 s2 -> states_only s2 s3 -> states_only s1 s3.
Proof.
  intros [] []. split; try congruence. intros i it x Hi Hx. destruct (so_flags0 i it x Hi Hx) as (y & Hy & E).
  rewrite <- so_items0 in Hi. destruct (so_flags1 i it y Hi Hy) as (z & Hz & E'). exists z. split; [done|congruence].
Qed.

Lemma add_formats_ok cur held st l : forall s, queues_ok cur (st :: held) s ->
  exists s', add_formats st l s = Some s' /\ queues_ok cur (st :: held) s' /\ states_only s s' /\
    (st_flags <$> q_states s' !! st) = (st_flags <$> q_states s !! st).
Proof.
  induction l as [|[key value] l IH]; intros s Hok.
  { exists s. split_and!; try done. split; try done. intros; by eexists. }
  destruct (ok_held_there _ _ _ _ Hok) as [x Hx]. cbn [add_formats]. unfold cmdq_add_format. rewrite Hx.
  cbn [mbind option_bind]. set (f := set_st_formats _).
  destruct (ok_upd_state cur (st :: held) f st s) as [Hok1 Hs1]; [done|done|].
  destruct (IH _ Hok1) as (s' & E & Hok' & Hs' & Ef). exists s'. split_and!; try done.
  - by eapply states_only_trans.
  - rewrite Ef. fields. by rewrite lookup_alter_eq, Hx.
Qed.

(** What a list of lists of commands costs as hooks. *)
Definition hooks_load s (lists : list (option Z)) : nat :=
  sum_list_with (fun o : option Z =>
    match (c ← o; q_lists s !! c) with Some x => list_cost x.1 | None => 0%nat end) lists.

Lemma hooks_load_same s s' lists : (forall l x, q_lists s !! l = Some x -> exists x', q_lists s' !! l = Some x' /\ x'.1 = x.1) ->
  (forall x, Some x ∈ lists -> is_Some (q_lists s !! x)) ->
  hooks_load s' lists = hooks_load s lists.
Proof.
  intros Hl. unfold hooks_load. induction lists as [|o lists IH]; intros Hs; [done|]. cbn [sum_list_with].
  rewrite IH by (intros; apply Hs; by constructor). f_equal. destruct o as [c|]; [|done].
  destruct (Hs c) as [x Hx]; [constructor|]. destruct (Hl c x Hx) as (x' & Hx' & E).
  cbn [mbind option_bind]. by rewrite Hx, Hx', E.
Qed.

Lemma weight_of_cmd s st cmdlist j c y : of_cmd st cmdlist (q_items s) j c -> q_states s !! st = Some y ->
  weight s j = (cost_cmd c * (if has (st_flags y) CMDQ_STATE_NOHOOKS then 1 else hook_cost))%nat.
Proof.
  intros (it & Hj & Ht & Hc & _ & Hs & _ & _) Hy. unfold weight, weight_of. by rewrite Hj, Hs, Hy, Ht, Hc.
Qed.

Lemma load_commands s st cmdlist ids l y : Forall2 (of_cmd st cmdlist (q_items s)) ids l -> q_states s !! st = Some y ->
  load s ids = (sum_list_with cost_cmd l * (if has (st_flags y) CMDQ_STATE_NOHOOKS then 1 else hook_cost))%nat.
Proof.
  intros Hf Hy. unfold load. induction Hf as [|j c ids l Hj Hf IH]; [done|]. cbn [sum_list_with].
  rewrite IH, (weight_of_cmd s st cmdlist j c y) by done. lia.
Qed.

Lemma weight_of_cb cb s j : of_cb cb s j -> weight s j = match cb with other_cb cb data => cost_cb cb data | _ => 1%nat end.
Proof.
  intros (it & x & Hj & Ht & Hc & _ & Hx & _). unfold weight, weight_of. by rewrite Hj, Hx, Ht, Hc.
Qed.

Lemma weight_placed q c l s s' j : placed q c l s s' -> j ∈ l -> is_Some (q_items s !! j) -> weight s' j = weight s j.
Proof.
  intros [] Hj [it Hi]. destruct (pl_items0 j it Hj Hi) as (it' & Hi' & []). unfold weight, weight_of.
  by rewrite Hi, Hi', pl_states0, po_state0, po_type0, po_cmd0, po_cb0.
Qed.

Lemma load_placed q c l s s' : placed q c l s s' -> chain (q_items s) l -> load s' l = load s l.
Proof.
  intros Hp Hch. assert (Hl : forall j, j ∈ l -> weight s' j = weight s j).
  { intros j Hj. eapply weight_placed; [done..|]. by eapply chain_there. }
  clear Hp Hch. unfold load. induction l as [|j l IH]; [done|]. cbn [sum_list_with].
  rewrite Hl by constructor. f_equal. apply IH. intros k Hk. apply Hl. by constructor.
Qed.

Lemma split_last (i : Z) ids : exists l, i :: ids = l ++ [List.last ids i].
Proof.
  exists (List.removelast (i :: ids)). rewrite <- (last_cons_next i ids i).
  by apply List.app_removelast_last.
Qed.

(** The work of the items of a list of commands with the state [st] of a hook. *)
Lemma get_command_load s st cmdlist ids c y : q_states s !! st = Some y ->
  has (st_flags y) CMDQ_STATE_NOHOOKS = true ->
  match cmds c with
  | [] => exists i, ids = [i] /\ of_cb cmdq_empty_command s i
  | l => Forall2 (of_cmd st cmdlist (q_items s)) ids l
  end -> load s ids = list_cost c.
Proof.
  intros Hy Hf Hids. unfold list_cost. destruct (cmds c) as [|c0 l] eqn:E.
  - destruct Hids as (i & -> & Hi). unfold load. cbn [sum_list_with]. by rewrite (weight_of_cb _ _ _ Hi).
  - rewrite (load_commands _ _ _ _ _ _ Hids Hy), Hf. lia.
Qed.

(** They may be put on any queue. *)
Lemma get_command_placeable s st cmdlist ids l client :
  match l with
  | [] => exists i, ids = [i] /\ of_cb cmdq_empty_command s i
  | l => Forall2 (of_cmd st cmdlist (q_items s)) ids l
  end -> forall j it, j ∈ ids -> q_items s !! j = Some it -> placeable client it.
Proof.
  intros Hids j it Hj Hi _ e E. destruct l as [|c l].
  - destruct Hids as (i & -> & (z & y & Hz & _ & Ez & _)). apply list_elem_of_singleton in Hj as ->. congruence.
  - apply list_elem_of_lookup in Hj as [k Hk]. destruct (Forall2_lookup_l _ _ _ _ _ Hids Hk) as (c' & _ & (z & Hz & _ & _ & _ & _ & _ & Ez)).
    congruence.
Qed.

(** The lists of a hook go one after the other behind the item. *)
Lemma insert_lists_ok cur held st lists : forall s item a q x l1 l2 y, queues_ok cur (st :: held) s ->
  (forall c, Some c ∈ lists -> is_Some (q_lists s !! c)) -> q_states s !! st = Some y ->
  has (st_flags y) CMDQ_STATE_NOHOOKS = true ->
  q_items s !! item = Some a -> it_queue a = Some q -> q_queues s !! q = Some x -> cq_list x = l1 ++ item :: l2 ->
  exists s' new, insert_lists st lists item s = Some s' /\ queues_ok cur (st :: held) s' /\ kept s s' /\
    q_queues s' !! q = Some (Queue (cq_item x) (l1 ++ item :: new ++ l2)) /\
    (forall p, p <> q -> q_queues s' !! p = q_queues s !! p) /\ load s' new = hooks_load s lists.
Proof.
  induction lists as [|o lists IH]; intros s item a q x l1 l2 y Hok Hls Hy Hf Ha Hq Hx El.
  { exists s, []. split_and!; try done. rewrite Hx. f_equal. cbn [app]. rewrite <- El. by destruct x. }
  destruct o as [c|].
  2: { destruct (IH s item a q x l1 l2 y) as (s' & new & Hnew); [done|set_solver|done..|]. by exists s', new. }
  destruct (Hls c) as [z Hz]; [constructor|]. cbn [insert_lists].
  destruct (get_command_ok cur (st :: held) c (Some st) s z Hok Hz) as
    (i & ids & s1 & E1 & Hok1 & Hm1 & Hch1 & Hnd1 & _ & Hids); [intros ? [= <-]; by eexists|].
  assert (Hids' : match cmds z.1 with
                  | [] => exists k, i :: ids = [k] /\ of_cb cmdq_empty_command s1 k
                  | l => Forall2 (of_cmd st c (q_items s1)) (i :: ids) l
                  end).
  { destruct (cmds z.1); [destruct Hids as [-> Hi]; by exists i|]. by destruct Hids as (st' & y' & Hf' & _ & ->). }
  clear Hids. rewrite E1. cbn [mbind option_bind].
  destruct (mk_items _ _ Hm1 item a Ha) as (a1 & Ha1 & Eq1). destruct (mk_states _ _ Hm1 st y Hy) as (y1 & Hy1 & Ey1).
  destruct (insert_after_ok cur (st :: held) item a1 q i ids s1 x l1 l2) as (s2 & E2 & Hok2 & Hp2 & Hx2); try done.
  { destruct Eq1. congruence. }
  { by rewrite (mk_queues _ _ Hm1). }
  { apply (get_command_placeable s1 st c (i :: ids) (cmds z.1)). by destruct (cmds z.1). }
  rewrite E2. cbn [mbind option_bind]. destruct (split_last i ids) as [init Hinit].
  set (item' := List.last ids i) in *.
  assert (Hin : item' ∈ i :: ids) by (rewrite Hinit; set_solver).
  destruct (chain_there _ _ _ Hch1 Hin) as [b Hb]. destruct (pl_items _ _ _ _ _ Hp2 item' b Hin Hb) as (b' & Hb' & Eb).
  assert (Hl2 : forall d w, q_lists s !! d = Some w -> exists w', q_lists s2 !! d = Some w' /\ w'.1 = w.1).
  { intros d w Hw. rewrite (pl_lists _ _ _ _ _ Hp2). by apply (mk_lists _ _ Hm1). }
  assert (Hls' : forall c, Some c ∈ lists -> is_Some (q_lists s !! c)) by (intros; apply Hls; by constructor).
  destruct (IH s2 item' b' q (Queue (cq_item x) (l1 ++ item :: (i :: ids) ++ l2)) (l1 ++ item :: init) l2 y1)
    as (s' & new & E & Hok' & Hk' & Hx' & Hp' & Hload); try done.
  - intros d Hd. destruct (Hls' d Hd) as [w Hw]. destruct (Hl2 d w Hw) as (w' & Hw' & _). by exists w'.
  - by rewrite (pl_states _ _ _ _ _ Hp2).
  - by rewrite Ey1.
  - by destruct Eb.
  - cbn [cq_list]. rewrite Hinit. cbn. rewrite <- !app_assoc. done.
  - exists s', ((i :: ids) ++ new). split_and!; try done.
    + etrans; [by apply made_kept|]. etrans; [|done]. eapply placed_kept; [done|done|by rewrite (mk_queues _ _ Hm1)|done|done].
    + rewrite Hx'. cbn [cq_item]. rewrite Hinit. cbn. rewrite <- !app_assoc. cbn. by rewrite <- ?app_assoc.
    + intros p Hp. by rewrite Hp', (pl_queues _ _ _ _ _ Hp2), (mk_queues _ _ Hm1).
    + rewrite load_app, Hload, (hooks_load_same s s2) by done. unfold hooks_load at 2. cbn [sum_list_with mbind option_bind].
      rewrite Hz. f_equal. rewrite (load_kept cur (st :: held) s2 s' q _ _ Hok2 Hk' Hx2) by (cbn; set_solver).
      rewrite (load_placed _ _ _ _ _ Hp2 Hch1). apply (get_command_load s1 st c _ z.1 y1); [done|by rewrite Ey1|done].
Qed.

(** What an item that is run may do to the queues: it puts items behind itself
    and at the ends of the queues. *)
Record grows (i : Z) (q : queue_id) (l : list Z) (s s' : server rest) : Prop := Grows {
  gr_kept : kept s s';
  gr_queue : exists x' new app, q_queues s' !! q = Some x' /\ cq_list x' = i :: new ++ l ++ app;
  gr_others : forall p y, p <> q -> q_queues s !! p = Some y ->
    exists y' app, q_queues s' !! p = Some y' /\ cq_list y' = cq_list y ++ app
}.

Lemma grows_trans i q l new app s1 s2 s3 : grows i q l s1 s2 ->
  (exists x, q_queues s2 !! q = Some x /\ cq_list x = i :: new ++ l ++ app) ->
  grows i q (new ++ l ++ app) s2 s3 -> grows i q l s1 s3.
Proof.
  intros [Hk1 Hq1 Ho1] _ [Hk2 (x & new' & app' & Hx & El) Ho2]. split.
  - by etrans.
  - exists x, (new' ++ new), (app ++ app'). split; [done|]. by rewrite El, <- !app_assoc.
  - intros p y Hp Hy. destruct (Ho1 p y Hp Hy) as (y1 & app1 & Hy1 & E1). destruct (Ho2 p y1 Hp Hy1) as (y2 & app2 & Hy2 & E2).
    exists y2, (app1 ++ app2). split; [done|]. by rewrite E2, E1, app_assoc.
Qed.

Lemma grows_same i q l x s s' : kept s s' -> q_queues s' = q_queues s -> q_queues s !! q = Some x ->
  cq_list x = i :: l -> grows i q l s s'.
Proof.
  intros Hk Eq Hx El. split; [done|..].
  - exists x, [], []. rewrite Eq, app_nil_r. done.
  - intros p y _ Hy. exists y, []. by rewrite Eq, app_nil_r.
Qed.

(** An item that is run: the first of its queue, for the first time. *)
Record first_of (i : Z) (q : queue_id) (l : list Z) (it : cmdq_item) (s : server rest) : Prop := FirstOf {
  fo_item : q_items s !! i = Some it;
  fo_queue : it_queue it = Some q;
  fo_list : exists x, q_queues s !! q = Some x /\ cq_list x = i :: l;
  fo_flags : has (it_flags it) CMDQ_FIRED = false /\ has (it_flags it) CMDQ_WAITING = false
}.

Context `{Commands rest}.

(** What the rest of the server promises to the queues. *)
Class CommandsOk : Prop := {
  find_client_ok : forall cur held i t quiet s, queues_ok cur held s -> is_Some (q_items s !! i) ->
    exists c s', cmd_find_client i t quiet s = Some (c, s') /\ reports s s' /\
      (forall d, c = Some d -> is_Some (q_clients s' !! d));
  find_target_ok : forall cur held i value type flags s, queues_ok cur held s -> is_Some (q_items s !! i) ->
    exists r s', cmd_find_target i value type flags s = Some (r, s') /\ reports s s';
  hook_array_ok : forall cur held session name s l c, queues_ok cur held s ->
    hook_array session name s = Some l -> Some c ∈ l -> is_Some (q_lists s !! c);
  exec_ok : forall c i saved s it q l, queues_ok (Some (i, saved)) [] s -> first_of i q l it s ->
    it_type it = CMDQ_COMMAND -> it_cmd it = Some c ->
    exists r s', cmd_exec c i s = Some (r, s') /\ queues_ok (Some (i, saved)) [] s' /\ grows i q l s s';
  cb_ok : forall cb data i s it q l, queues_ok None [] s -> first_of i q l it s ->
    it_type it = CMDQ_CALLBACK -> it_cb it = Some (other_cb cb data) ->
    exists r s', run_cb cb data i s = Some (r, s') /\ queues_ok None [] s' /\ grows i q l s s'
}.

Definition queue_load s (q : queue_id) : nat :=
  match q_queues s !! q with Some x => load s (cq_list x) | None => 0 end.

(** What is run inserts only what costs less. *)
Record costs_ok : Prop := CostsOk {
  ct_cmd : forall c, (0 < cost_cmd c)%nat;
  ct_hook : (0 < hook_cost)%nat;
  ct_cb : forall cb data, (0 < cost_cb cb data)%nat;
  ct_hooks : forall session name s l, hook_array session name s = Some l -> (hooks_load s l < hook_cost)%nat;
  ct_exec : forall c i saved s it st q l r s', queues_ok (Some (i, saved)) [] s -> first_of i q l it s ->
    it_type it = CMDQ_COMMAND -> it_cmd it = Some c ->
    q_states s !! it_state it = Some st -> cmd_exec c i s = Some (r, s') ->
    (queue_load s' q <= queue_load s q +
       (cost_cmd c - 1) * (if has (st_flags st) CMDQ_STATE_NOHOOKS then 1 else hook_cost))%nat;
  ct_run : forall cb data i s it q l r s', queues_ok None [] s -> first_of i q l it s -> it_cb it = Some (other_cb cb data) ->
    run_cb cb data i s = Some (r, s') -> (queue_load s' q < queue_load s q + cost_cb cb data)%nat
}.

Context `{CommandsOk}.

Lemma formats_there c : cmd_ok c -> exists a b d, args_print (cmd_get_args c) = Some a /\
  argument_formats (cmd_get_args c) = Some b /\ flag_formats (cmd_get_args c) = Some d.
Proof. intros [_ [a Ha] [b Hb] [d Hd] _]. by exists a, b, d. Qed.

(** A hook puts its commands behind the item. *)
Lemma insert_hook_ok cur held session i current name s it c st q x l1 l2 : queues_ok cur held s ->
  q_items s !! i = Some it -> it_cmd it = Some c -> cmd_ok c -> q_states s !! it_state it = Some st ->
  it_queue it = Some q -> q_queues s !! q = Some x -> cq_list x = l1 ++ i :: l2 ->
  exists s' new, cmdq_insert_hook session i current name s = Some s' /\ queues_ok cur held s' /\ kept s s' /\
    q_queues s' !! q = Some (Queue (cq_item x) (l1 ++ i :: new ++ l2)) /\
    (forall p, p <> q -> q_queues s' !! p = q_queues s !! p) /\
    (costs_ok -> load s' new = 0 \/ has (st_flags st) CMDQ_STATE_NOHOOKS = false /\ load s' new < hook_cost)%nat.
Proof using All.
  intros Hok Hi Hc Hco Hst Hq Hx El. unfold cmdq_insert_hook. rewrite Hi. cbn [mbind option_bind].
  rewrite Hst. cbn [mbind option_bind]. rewrite Hc. cbn [mbind option_bind].
  assert (Hnone : exists s' new, Some s = Some s' /\ queues_ok cur held s' /\ kept s s' /\
    q_queues s' !! q = Some (Queue (cq_item x) (l1 ++ i :: new ++ l2)) /\
    (forall p, p <> q -> q_queues s' !! p = q_queues s !! p) /\
    (costs_ok -> load s' new = 0 \/ has (st_flags st) CMDQ_STATE_NOHOOKS = false /\ load s' new < hook_cost)%nat).
  { exists s, []. split_and!; try done; [rewrite Hx; cbn [app]; rewrite <- El; by destruct x|by left]. }
  destruct (has (st_flags st) CMDQ_STATE_NOHOOKS) eqn:Enh; [exact Hnone|].
  destruct (hook_array session name s) as [lists|] eqn:Eh; [|exact Hnone]. clear Hnone.
  pose proof (ok_new_state cur held current (Some (st_event st)) CMDQ_STATE_NOHOOKS s Hok) as Hn.
  pose proof (made_new_state cur held current (Some (st_event st)) CMDQ_STATE_NOHOOKS s Hok) as Hm.
  destruct (cmdq_new_state _ _ _ s) as [ns s1]. cbn [snd] in Hm.
  destruct Hn as (Hok1 & Ens & Ei & Eqs & _ & Els & _ & (y & Hy & Hyf) & _).
  destruct (formats_there c Hco) as (a & b & d & Ea & Eb & Ed).
  rewrite Ea. cbn [mbind option_bind]. rewrite Eb. cbn [mbind option_bind]. rewrite Ed. cbn [mbind option_bind].
  match goal with |- context [add_formats ns ?l s1] => set (fl := l) end.
  destruct (add_formats_ok cur held ns fl s1 Hok1) as (s2 & E2 & Hok2 & Hs2 & Ef2).
  rewrite E2. cbn [mbind option_bind]. rewrite Hy in Ef2. destruct (q_states s2 !! ns) as [y2|] eqn:Hy2; [|done].
  cbn in Ef2. injection Ef2 as Ef2.
  assert (Hi2 : q_items s2 !! i = Some it) by (by rewrite (so_items _ _ Hs2), Ei).
  assert (Hx2 : q_queues s2 !! q = Some x) by (by rewrite (so_queues _ _ Hs2), Eqs).
  assert (El2 : q_lists s2 = q_lists s) by (by rewrite (so_lists _ _ Hs2), Els).
  assert (Hls : forall c, Some c ∈ lists -> is_Some (q_lists s !! c)) by (intros; by eapply hook_array_ok).
  destruct (insert_lists_ok cur held ns lists s2 i it q x l1 l2 y2) as (s3 & new & E3 & Hok3 & Hk3 & Hx3 & Hp3 & Hload);
    try done; [intros k Hk; rewrite El2; by apply Hls|by rewrite Ef2, Hyf|].
  rewrite E3. cbn [mbind option_bind].
  destruct (ok_free_state cur held ns s3 Hok3) as (s4 & E4 & Hok4 & Hs4 & _). exists s4, new. split_and!; try done.
  - etrans; [by apply made_kept|]. etrans; [by apply states_only_kept|]. etrans; [done|by apply states_only_kept].
  - by rewrite (so_queues _ _ Hs4).
  - intros p Hp. by rewrite (so_queues _ _ Hs4), Hp3, (so_queues _ _ Hs2), Eqs.
  - intros Hcost. right. split; [done|].
    rewrite (load_kept cur (ns :: held) s3 s4 q _ new Hok3 (states_only_kept _ _ Hs4) Hx3) by (cbn; set_solver).
    rewrite Hload, (hooks_load_same s s2) by (try done; rewrite El2; intros k w Hw; by exists w).
    by eapply ct_hooks.
Qed.

(** ** Running an item *)

Lemma without_absent z n : has z n = false -> without z n = z.
Proof.
  unfold has, without. rewrite negb_false_iff, Z.eqb_eq. intros E. apply Z.bits_inj'. intros k Hk.
  rewrite Z.ldiff_spec. assert (Hb : Z.testbit (Z.land z n) k = false) by (by rewrite E, Z.bits_0).
  rewrite Z.land_spec in Hb. by destruct (Z.testbit z k), (Z.testbit n k).
Qed.

(** A change of the item that is running, but for what the queues see. *)
Lemma first_of_kept i q l it s s' : first_of i q l it s -> kept s s' -> q_queues s' = q_queues s ->
  exists it', first_of i q l it' s' /\ same_item it it'.
Proof.
  intros [Hi Hq (x & Hx & El) Hf] Hk Eq. destruct (kp_items _ _ Hk i it q Hi Hq) as (it' & Hi' & [ [] Fl]).
  cbn in *. assert (it_flags it' = it_flags it) by (destruct Fl as [->| ->]; [done|apply without_absent, Hf]).
  exists it'. split; [|by split; congruence]. split; [done|congruence| |congruence]. exists x. by rewrite Eq.
Qed.

(** The running item has another client for a while. *)
Lemma ok_set_client i saved it c s : queues_ok (Some (i, saved)) [] s -> q_items s !! i = Some it ->
  it_type it = CMDQ_COMMAND -> (forall d, c = Some d -> is_Some (q_clients s !! d)) ->
  queues_ok (Some (i, saved)) [] (upd_item (set_it_client c) i s).
Proof.
  intros Hok Hi Ht Hc.
  assert (Hs : forall j y, q_items (upd_item (set_it_client c) i s) !! j = Some y ->
    exists z, q_items s !! j = Some z /\ y = if decide (i = j) then set_it_client c z else z).
  { intros j y. apply upd_item_some. }
  destruct Hok. split; fields; try done.
  - intros j y Hj. apply Hs in Hj as (z & Hz & ->). destruct (qk_item0 j z Hz) as [Hz1 Hz2].
    split; [|done]. destruct (decide (i = j)) as [<-|]; [|done]. replace z with it in * by congruence.
    unfold item_ok in *. cbn. by rewrite Ht in *.
  - intros j y Hj. apply Hs in Hj as (z & Hz & ->). pose proof (qk_state0 j z Hz). by destruct (decide (i = j)).
  - intros j y k Hj. apply Hs in Hj as (z & Hz & ->). pose proof (qk_list0 j z k Hz). by destruct (decide (i = j)).
  - intros j y d Hj. apply Hs in Hj as (z & Hz & ->). destruct (decide (i = j)) as [<-|]; [|by apply qk_client0].
    intros [Hd|Hd]; [by apply Hc|]. apply (qk_client0 i z d Hz). right. cbn in *. by rewrite Z.eqb_refl in *.
  - intros st x Hx. rewrite uses_alter_same by done. by apply qk_states0.
  - intros k x Hx. rewrite uses_alter_same by done. by apply qk_lists0.
  - intros d x Hx. rewrite uses_alter_same; [by apply qk_clients0|]. intros z _. cbn. by rewrite Z.eqb_refl.
  - intros q x j Hx Hj. destruct (qk_on0 q x j Hx Hj) as (z & Hz & Ez).
    exists (if decide (i = j) then set_it_client c z else z). split; [|by destruct (decide (i = j))].
    destruct (decide (i = j)) as [<-|]; [by rewrite lookup_alter_eq, Hz|by rewrite lookup_alter_ne].
  - intros j y q Hj. apply Hs in Hj as (z & Hz & ->). pose proof (qk_in0 j z q Hz). by destruct (decide (i = j)).
  - intros j y Hj. apply Hs in Hj as (z & Hz & ->). pose proof (qk_flags0 j z Hz). by destruct (decide (i = j)).
  - intros j sv E. injection E as <- <-. destruct (qk_cur0 i saved eq_refl) as (z & Hz & Ez).
    exists (set_it_client c z). by rewrite lookup_alter_eq, Hz.
Qed.

(** An item starts to run with its own client, and ends with it. *)
Lemma ok_start i it s : queues_ok None [] s -> q_items s !! i = Some it -> it_queue it <> None ->
  queues_ok (Some (i, it_client it)) [] s.
Proof.
  intros Hok Hi Hq. assert (Hh : forall j z, q_items s !! j = Some z -> holder (Some (i, it_client it)) j z = it_client z).
  { intros j z Hz. cbn. destruct (Z.eqb_spec j i) as [->|]; [congruence|done]. }
  destruct Hok. split; try done.
  - intros j z c Hz Hc. apply (qk_client0 j z c Hz). rewrite Hh in Hc by done. by left; destruct Hc.
  - intros c x Hx. destruct (qk_clients0 c x Hx) as [Hl Hu]. split; [done|].
    erewrite uses_ext; [exact Hu|]. intros j z Hz. by rewrite Hh.
  - intros j saved E. injection E as <- <-. by exists it.
Qed.

Lemma ok_end i it s : queues_ok (Some (i, it_client it)) [] s -> q_items s !! i = Some it -> queues_ok None [] s.
Proof.
  intros Hok Hi. assert (Hh : forall j z, q_items s !! j = Some z -> holder (Some (i, it_client it)) j z = it_client z).
  { intros j z Hz. cbn. destruct (Z.eqb_spec j i) as [->|]; [congruence|done]. }
  destruct Hok. split; try done.
  - intros j z c Hz Hc. apply (qk_client0 j z c Hz). left. by destruct Hc.
  - intros c x Hx. destruct (qk_clients0 c x Hx) as [Hl Hu]. split; [done|].
    erewrite uses_ext; [exact Hu|]. intros j z Hz. cbn beta. by rewrite (Hh j z Hz).
Qed.

(** ** Messages *)

Lemma client_there cur held s i it c : queues_ok cur held s -> q_items s !! i = Some it -> it_client it = Some c ->
  exists x, q_clients s !! c = Some x.
Proof. intros Hok Hi Hc. apply (qk_client _ _ _ Hok i it c Hi). by left. Qed.

Lemma guard_reports cur held i guard flags s : queues_ok cur held s -> is_Some (q_items s !! i) ->
  exists s', cmdq_guard i guard flags s = Some s' /\ reports s s'.
Proof.
  intros Hok [it Hi]. unfold cmdq_guard. rewrite Hi. cbn [mbind option_bind].
  destruct (it_client it) as [c|] eqn:Ec; [|by exists s].
  destruct (client_there _ _ _ _ _ _ Hok Hi Ec) as [x Hx]. rewrite Hx. cbn [mbind option_bind].
  eexists. split; [done|]. destruct (has _ _); [apply reports_put|done].
Qed.

Lemma add_message_reports cur held i it c s : queues_ok cur held s -> q_items s !! i = Some it ->
  it_cmd it = Some c -> cmd_ok c -> exists s', cmdq_add_message i s = Some s' /\ reports s s'.
Proof.
  intros Hok Hi Hc Hco. unfold cmdq_add_message. rewrite Hi. cbn [mbind option_bind].
  destruct (qk_state _ _ _ Hok i it Hi) as [st Hst]. rewrite Hst. cbn [mbind option_bind]. rewrite Hc.
  destruct (co_print _ Hco) as [tmp Et]. cbn [mbind option_bind]. rewrite Et. cbn [mbind option_bind].
  destruct (it_client it) as [d|] eqn:Ec; [|eexists; split; [done|apply reports_put]].
  destruct (client_there _ _ _ _ _ _ Hok Hi Ec) as [x Hx]. rewrite Hx. cbn [mbind option_bind].
  eexists. split; [done|apply reports_put].
Qed.

Lemma sanitize_total msg : is_Some (utf8_sanitize loc_mbtowc loc_wcwidth loc_widths msg).
Proof.
  destruct (loop_ind loc_mbtowc loc_wcwidth loc_widths false
    (fun ud l => replicate (Z.to_nat (ud_width ud)) 95 ++ l)
    (fun ch _ l => (if (0x1f <? sbyte ch) && (sbyte ch <? 0x7f) then ch else 95) :: l) [] (fun _ _ => True))
    with (fuel := length msg) (src := msg) as (r & E & _); try done.
Qed.

Lemma reports_retval c s : reports s (upd_client (set_c_retval 1) c s).
Proof.
  split; try done. intros d. fields. destruct (decide (c = d)) as [->|Hne]; [|by rewrite lookup_alter_ne].
  rewrite lookup_alter_eq. by destruct (q_clients s !! d).
Qed.

Lemma error_reports cur held i it msg s : queues_ok cur held s -> q_items s !! i = Some it ->
  it_client it <> None -> exists s', cmdq_error i msg s = Some s' /\ reports s s'.
Proof.
  intros Hok Hi Hc. unfold cmdq_error. rewrite Hi. cbn [mbind option_bind].
  destruct (it_client it) as [c|] eqn:Ec; [|done].
  destruct (client_there _ _ _ _ _ _ Hok Hi Ec) as [x Hx]. rewrite Hx. cbn [mbind option_bind].
  destruct (_ || _); [|eexists; split; [done|apply reports_put] ].
  match goal with |- exists s', (m ← ?b; _) = _ /\ _ => assert (Hb : is_Some b) end.
  { destruct (has _ CLIENT_UTF8); [by eexists|apply sanitize_total]. }
  destruct Hb as [m ->]. cbn [mbind option_bind]. eexists. split; [done|].
  set (s1 := put _ s). assert (R1 : reports s s1) by apply reports_put.
  match goal with |- reports _ (upd_client _ _ ?t) => assert (R2 : reports s1 t) end.
  { destruct (has _ CLIENT_CONTROL); apply reports_put. }
  etrans; [exact R1|]. etrans; [exact R2|apply reports_retval].
Qed.

(** ** What a change leaves that puts nothing on a queue *)

Lemma weight_upd_item f i s j : (forall it, it_type (f it) = it_type it /\ it_cmd (f it) = it_cmd it /\
    it_cb (f it) = it_cb it /\ it_state (f it) = it_state it) -> weight (upd_item f i s) j = weight s j.
Proof.
  intros Hf. unfold weight. fields. destruct (decide (i = j)) as [->|Hne]; [|by rewrite lookup_alter_ne].
  rewrite lookup_alter_eq. destruct (q_items s !! j) as [it|]; [|done]. cbn.
  destruct (Hf it) as (E1 & E2 & E3 & ->). destruct (q_states s !! it_state it); [|done].
  unfold weight_of. by rewrite E1, E2, E3.
Qed.

Lemma load_ext s s' l : (forall j, weight s' j = weight s j) -> load s' l = load s l.
Proof. intros E. unfold load. induction l as [|j l IH]; [done|]. cbn [sum_list_with]. by rewrite E, IH. Qed.

Lemma queue_load_upd_item f i s q : (forall it, it_type (f it) = it_type it /\ it_cmd (f it) = it_cmd it /\
    it_cb (f it) = it_cb it /\ it_state (f it) = it_state it) -> queue_load (upd_item f i s) q = queue_load s q.
Proof.
  intros Hf. unfold queue_load. fields. destruct (q_queues s !! q) as [x|]; [|done].
  apply load_ext. intros j. by apply weight_upd_item.
Qed.

Lemma queue_load_reports s s' q : reports s s' -> queue_load s' q = queue_load s q.
Proof.
  intros []. unfold queue_load. rewrite rp_queues0. destruct (q_queues s !! q) as [x|]; [|done].
  apply load_ext. intros j. unfold weight. by rewrite rp_items0, rp_states0.
Qed.

Record calm (cur : option (Z * option Z)) (s s' : server rest) : Prop := Calm {
  cm_ok : queues_ok cur [] s';
  cm_kept : kept s s';
  cm_queues : q_queues s' = q_queues s;
  cm_load : forall q, queue_load s' q = queue_load s q
}.

Lemma calm_refl cur s : queues_ok cur [] s -> calm cur s s.
Proof. by split. Qed.

Lemma calm_trans cur s1 s2 s3 : calm cur s1 s2 -> calm cur s2 s3 -> calm cur s1 s3.
Proof. intros [] []. split; [done|by etrans|congruence|]. intros q. by rewrite cm_load1. Qed.

Lemma calm_reports cur s s' : queues_ok cur [] s -> reports s s' -> calm cur s s'.
Proof.
  intros Hok Hr. split; [by eapply ok_reports|by apply reports_kept|apply (rp_queues _ _ Hr)|].
  intros q. by apply queue_load_reports.
Qed.

Lemma calm_upd_item cur f i s : queues_ok cur [] s -> (forall it, same_item it (f it)) ->
  calm cur s (upd_item f i s).
Proof.
  intros Hok Hf. split; [by apply ok_upd_item|apply upd_item_kept; intros; by apply same_still|done|].
  intros q. apply queue_load_upd_item. intros it. by destruct (Hf it).
Qed.

Lemma first_of_calm cur i q l it s s' : first_of i q l it s -> calm cur s s' ->
  exists it', first_of i q l it' s' /\ same_item it it'.
Proof. intros Hf []. by eapply first_of_kept. Qed.

Lemma first_there i q l it s : first_of i q l it s -> is_Some (q_items s !! i).
Proof. intros []. by eexists. Qed.

(** ** Running a command *)

Lemma args_get_ok c flag : cmd_ok c -> exists v, (match args_get (cmd_get_args c) flag with Ok v => Some v | _ => None end) = Some v \/
  exists e, args_get (cmd_get_args c) flag = Err e.
Proof.
  intros Hc. destruct (args_get (cmd_get_args c) flag) as [v|e|] eqn:E; [by exists v; left|by exists None; right; exists e|].
  by destruct (co_get _ Hc flag).
Qed.

Lemma args_get_some c flag : cmd_ok c ->
  exists v, (match args_get (cmd_get_args c) flag with Ok v => Some v | _ => None end) = Some v.
Proof.
  intros Hc. destruct (args_get_ok c flag Hc) as (v & [E|(e & E)]); [by exists v|].
  unfold args_get in E. destruct (args_find _ flag) as [a|]; [|done]. by destruct (last (ae_values a)) as [ [] |].
Qed.

Lemma find_target_client_ok cur i c s : queues_ok cur [] s -> is_Some (q_items s !! i) -> cmd_ok c ->
  exists tc s', find_target_client i c s = Some (tc, s') /\ reports s s'.
Proof using All.
  intros Hok Hi Hc. unfold find_target_client.
  destruct (has _ CMD_CLIENT_CFLAG); [|destruct (has _ CMD_CLIENT_TFLAG)].
  - destruct (args_get_some c 99 Hc) as [v ->]. cbn [mbind option_bind].
    destruct (find_client_ok cur [] i v (has (ce_flags (cmd_get_entry c)) CMD_CLIENT_CANFAIL) s Hok Hi) as (tc & s' & -> & Hr & _).
    cbn [mbind option_bind]. by eexists _, s'.
  - destruct (args_get_some c 116 Hc) as [v ->]. cbn [mbind option_bind].
    destruct (find_client_ok cur [] i v (has (ce_flags (cmd_get_entry c)) CMD_CLIENT_CANFAIL) s Hok Hi) as (tc & s' & -> & Hr & _).
    cbn [mbind option_bind]. by eexists _, s'.
  - destruct (find_client_ok cur [] i None true s Hok Hi) as (tc & s' & -> & Hr & _).
    cbn [mbind option_bind]. by eexists _, s'.
Qed.

Lemma find_flag_ok cur i it c flag s : queues_ok cur [] s -> q_items s !! i = Some it -> it_cmd it = Some c ->
  cmd_ok c -> exists b fs s', cmdq_find_flag i flag s = Some (b, fs, s') /\ reports s s'.
Proof using All.
  intros Hok Hi Hc Hco. unfold cmdq_find_flag. rewrite Hi. cbn [mbind option_bind].
  destruct (ef_flag flag =? 0); [by eexists _, _, s|]. rewrite Hc. cbn [mbind option_bind].
  destruct (args_get_some c (ef_flag flag) Hco) as [v ->]. cbn [mbind option_bind].
  destruct (find_target_ok cur [] i v (ef_type flag) (ef_flags flag) s Hok) as (r & s' & -> & Hr); [by eexists|].
  cbn [mbind option_bind]. by destruct r as [fs|]; eexists _, _, s'.
Qed.

(** What may have become of the queue of an item that is run, and what it may
    have got. *)
Record ran_ok (cur : option (Z * option Z)) (i : Z) (q : queue_id) (l : list Z) (n : nat) (s s' : server rest) : Prop :=
  RanOk {
  ra_ok : queues_ok cur [] s';
  ra_grows : grows i q l s s';
  ra_load : costs_ok -> (queue_load s' q <= queue_load s q + n)%nat
}.

Lemma ran_calm cur i q l it s s' n : first_of i q l it s -> calm cur s s' -> ran_ok cur i q l n s s'.
Proof.
  intros [Hi Hq (x & Hx & El) Hf] []. split; [done|by eapply grows_same|]. intros _. rewrite cm_load0. lia.
Qed.

Lemma calm_ran cur i q l it s1 s2 s3 n : first_of i q l it s1 -> calm cur s1 s2 -> ran_ok cur i q l n s2 s3 ->
  ran_ok cur i q l n s1 s3.
Proof.
  intros [Hi Hq (x & Hx & El) Hf] [] [Hok [Hk Hx' Ho] Hl]. split; [done| |].
  - split; [by etrans|done|]. intros p y Hp Hy. rewrite <- cm_queues0 in Hy. by apply Ho.
  - intros Hc. specialize (Hl Hc). by rewrite cm_load0 in Hl.
Qed.

Lemma hook_target_ok cur i s : queues_ok cur [] s -> is_Some (q_items s !! i) -> is_Some (hook_target i s).
Proof.
  intros Hok [it Hi]. unfold hook_target. rewrite Hi. cbn [mbind option_bind].
  destruct (qk_state _ _ _ Hok i it Hi) as [st Hst]. rewrite Hst. by eexists.
Qed.

(** A hook after what an item has already put on its queue. *)
Lemma ran_hook cur i q l it c st session current name n s s' : queues_ok cur [] s -> first_of i q l it s ->
  it_cmd it = Some c -> cmd_ok c -> q_states s !! it_state it = Some st -> ran_ok cur i q l n s s' ->
  exists s2, cmdq_insert_hook session i current name s' = Some s2 /\
    ran_ok cur i q l (n + if has (st_flags st) CMDQ_STATE_NOHOOKS then 0 else hook_cost - 1) s s2.
Proof using All.
  intros Hok0 Hfo Hc Hco Hst [Hok Hg Hl]. pose proof Hg as [Hk (x & new & more & Hx & El) Ho].
  destruct (kp_items _ _ Hk i it q (fo_item _ _ _ _ _ Hfo) (fo_queue _ _ _ _ _ Hfo)) as (it' & Hi' & E').
  destruct (kp_states _ _ Hk i it q st (fo_item _ _ _ _ _ Hfo) (fo_queue _ _ _ _ _ Hfo) Hst) as (st' & Hst' & Ef').
  destruct E' as [ [E1 E2 E3 E4 E5 E6 E7 E8 E9] _]. cbn in *.
  destruct (insert_hook_ok cur [] session i current name s' it' c st' q x [] (new ++ l ++ more))
    as (s2 & new2 & E & Hok2 & Hk2 & Hx2 & Hp2 & Hload); try done;
    [congruence|by rewrite <- E5|rewrite <- E1; apply (fo_queue _ _ _ _ _ Hfo)|].
  exists s2. split; [done|]. split; [done| |].
  - split; [by etrans| |].
    + eexists _, (new2 ++ new), more. split; [exact Hx2|]. cbn. by rewrite <- app_assoc.
    + intros p y Hp Hy. rewrite Hp2 by done. by apply Ho.
  - intros Hcost. specialize (Hl Hcost). specialize (Hload Hcost).
    assert (Eload : queue_load s2 q = (queue_load s' q + load s2 new2)%nat).
    { unfold queue_load. rewrite Hx2, Hx, El. cbn [cq_list app].
      change (i :: new2 ++ new ++ l ++ more) with ([i] ++ new2 ++ (new ++ l ++ more)).
      change (i :: new ++ l ++ more) with ([i] ++ (new ++ l ++ more)). rewrite (load_app s2 [i]), (load_app s2 new2), (load_app s' [i]).
      rewrite (load_kept cur [] s' s2 q x [i]), (load_kept cur [] s' s2 q x (new ++ l ++ more))
        by (try done; rewrite El; set_solver). lia. }
    rewrite Eload. rewrite <- Ef'. destruct Hload as [Hz|[-> Hz]]; [|lia]. lia.
Qed.

(** What a command and the hook after it may put on the queue. *)
Definition hooked (flags : Z) : nat := if has flags CMDQ_STATE_NOHOOKS then 0 else hook_cost - 1.
Definition inserted (c : cmd) (flags : Z) : nat :=
  (cost_cmd c - 1) * (if has flags CMDQ_STATE_NOHOOKS then 1 else hook_cost).

(** The same state, with the same flags, while an item is run. *)
Lemma kept_state cur held s s' i it it' q st : queues_ok cur held s -> kept s s' ->
  q_items s !! i = Some it -> it_queue it = Some q -> q_states s !! it_state it = Some st -> same_item it it' ->
  exists st', q_states s' !! it_state it' = Some st' /\ st_flags st' = st_flags st.
Proof.
  intros Hok Hk Hi Hq Hst Hs. rewrite <- (si_state _ _ Hs). by apply (kp_states _ _ Hk i it q).
Qed.

Lemma fire_exec_ok i saved q l it c st s : queues_ok (Some (i, saved)) [] s -> first_of i q l it s ->
  it_type it = CMDQ_COMMAND -> it_cmd it = Some c -> cmd_ok c -> q_states s !! it_state it = Some st ->
  exists r s', ('(retval, s) ← cmd_exec c i s;
          if bool_decide (retval = CMD_RETURN_ERROR) then Some (retval, s)
          else if has (ce_flags (cmd_get_entry c)) CMD_AFTERHOOK then
            fsp ← hook_target i s;
            match fsp with
            | None => Some (retval, s)
            | Some fs =>
                s ← cmdq_insert_hook (fs_s fs) i (Some fs) (bytes "after-" ++ ce_name (cmd_get_entry c)) s;
                Some (retval, s)
            end
          else Some (retval, s)) = Some (r, s') /\
    ran_ok (Some (i, saved)) i q l
      (inserted c (st_flags st) + if decide (r = CMD_RETURN_ERROR) then 0 else hooked (st_flags st)) s s'.
Proof using All.
  intros Hok Hfo Ht Hc Hco Hst.
  destruct (exec_ok c i saved s it q l Hok Hfo Ht Hc) as (r & s1 & E & Hok1 & Hg). rewrite E. cbn [mbind option_bind].
  assert (Hr : forall n, ran_ok (Some (i, saved)) i q l (inserted c (st_flags st) + n) s s1).
  { intros n. split; [done..|]. intros Hcost. pose proof (ct_exec Hcost c i saved s it st q l r s1 Hok Hfo Ht Hc Hst E).
    unfold inserted. lia. }
  destruct (decide (r = CMD_RETURN_ERROR)) as [->|Hne].
  { rewrite bool_decide_eq_true_2 by done. by eexists _, s1. }
  rewrite bool_decide_eq_false_2 by done.
  assert (Hd : exists r' s', Some (r, s1) = Some (r', s') /\ ran_ok (Some (i, saved)) i q l
    (inserted c (st_flags st) + if decide (r' = CMD_RETURN_ERROR) then 0 else hooked (st_flags st)) s s').
  { exists r, s1. split; [done|]. apply Hr. }
  destruct (has _ CMD_AFTERHOOK); [|exact Hd].
  assert (Hi1 : is_Some (q_items s1 !! i)).
  { destruct (kp_items _ _ (gr_kept _ _ _ _ _ Hg) i it q) as (it' & Hi' & _); [apply Hfo..|by eexists]. }
  destruct (hook_target_ok _ i s1 Hok1 Hi1) as [fsp ->]. cbn [mbind option_bind]. destruct fsp as [fs|]; [|exact Hd].
  destruct (ran_hook (Some (i, saved)) i q l it c st (fs_s fs) (Some fs)
    (bytes "after-" ++ ce_name (cmd_get_entry c)) (inserted c (st_flags st)) s s1) as (s2 & -> & Hr2); try done.
  { specialize (Hr 0%nat). by rewrite Nat.add_0_r in Hr. }
  cbn [mbind option_bind]. exists r, s2. split; [done|]. by rewrite decide_False.
Qed.

(** The targets are found before. *)
Lemma fire_body_ok i saved q l it c st s : queues_ok (Some (i, saved)) [] s -> first_of i q l it s ->
  it_type it = CMDQ_COMMAND -> it_cmd it = Some c -> cmd_ok c -> q_states s !! it_state it = Some st ->
  exists r s', fire_body i c s = Some (r, s') /\
    ran_ok (Some (i, saved)) i q l
      (inserted c (st_flags st) + if decide (r = CMD_RETURN_ERROR) then 0 else hooked (st_flags st)) s s'.
Proof using All.
  intros Hok Hfo Ht Hc Hco Hst. set (cur := Some (i, saved)). unfold fire_body.
  destruct (find_target_client_ok cur i c s Hok (first_there _ _ _ _ _ Hfo) Hco) as (tc & s1 & -> & R1).
  cbn [mbind option_bind]. assert (C1 : calm cur s s1) by (by apply calm_reports).
  destruct tc as [tc|]; [|by eexists _, s1; split; [|eapply ran_calm] ].
  set (s2 := upd_item (set_it_target_client tc) i s1).
  assert (C2 : calm cur s s2).
  { eapply calm_trans; [exact C1|]. apply calm_upd_item; [apply C1|by split]. }
  destruct (first_of_calm cur i q l it s s2 Hfo C2) as (it2 & Hfo2 & S2).
  destruct (find_flag_ok cur i it2 c (ce_source (cmd_get_entry c)) s2 (cm_ok _ _ _ C2)) as (b & fs & s3 & -> & R3);
    [apply Hfo2|by rewrite <- (si_cmd _ _ S2)|done|]. cbn [mbind option_bind].
  set (s4 := upd_item (set_it_source fs) i s3).
  assert (C4 : calm cur s s4).
  { eapply calm_trans; [exact C2|]. assert (C3 : calm cur s2 s3) by (apply calm_reports; [apply C2|done]).
    eapply calm_trans; [exact C3|]. apply calm_upd_item; [apply C3|by split]. }
  destruct b; cbn [negb]; [|by eexists _, s4; split; [|eapply ran_calm] ].
  destruct (first_of_calm cur i q l it s s4 Hfo C4) as (it4 & Hfo4 & S4).
  destruct (find_flag_ok cur i it4 c (ce_target (cmd_get_entry c)) s4 (cm_ok _ _ _ C4)) as (b & fs' & s5 & -> & R5);
    [apply Hfo4|by rewrite <- (si_cmd _ _ S4)|done|]. cbn [mbind option_bind].
  set (s6 := upd_item (set_it_target fs') i s5).
  assert (C6 : calm cur s s6).
  { eapply calm_trans; [exact C4|]. assert (C5 : calm cur s4 s5) by (apply calm_reports; [apply C4|done]).
    eapply calm_trans; [exact C5|]. apply calm_upd_item; [apply C5|by split]. }
  destruct b; cbn [negb]; [|by eexists _, s6; split; [|eapply ran_calm] ].
  destruct (first_of_calm cur i q l it s s6 Hfo C6) as (it6 & Hfo6 & S6).
  destruct (kept_state cur [] s s6 i it it6 q st Hok (cm_kept _ _ _ C6) (fo_item _ _ _ _ _ Hfo)
    (fo_queue _ _ _ _ _ Hfo) Hst S6) as (st6 & Hst6 & Ef).
  destruct (fire_exec_ok i saved q l it6 c st6 s6 (cm_ok _ _ _ C6) Hfo6) as (r & s7 & E & Hr);
    [by rewrite <- (si_type _ _ S6)|by rewrite <- (si_cmd _ _ S6)|done..|].
  exists r, s7. split; [exact E|]. rewrite Ef in Hr. by eapply calm_ran.
Qed.

(** The client of the item is given back to it. *)
Lemma kept_restore i it c saved s t : q_items s !! i = Some it -> it_client it = saved -> it_queue it <> None ->
  kept (upd_item (set_it_client c) i s) t -> kept s (upd_item (set_it_client saved) i t).
Proof.
  intros Hi Hs Hq [Ki Ks Kc Kr Kg]. split; fields; try done; [..|apply gone_from in Kg; etrans; [exact Kg|];
    by apply (gone_alter (set_it_client saved) i)].
  - intros j a p Hj Hp. destruct (decide (i = j)) as [->|Hne].
    + destruct (Ki j (set_it_client c a) p) as (b & Hb & [ [] Fb]); [by rewrite lookup_alter_eq, Hj|done|].
      rewrite lookup_alter_eq, Hb. eexists. split; [done|]. replace it with a in * by congruence.
      cbn in *. split; [|done]. by split.
    + destruct (Ki j a p) as (b & Hb & E); [by rewrite lookup_alter_ne|done|].
      exists b. by rewrite lookup_alter_ne.
  - intros j a p x Hj Hp Hx. destruct (decide (i = j)) as [->|Hne].
    + by apply (Ks j (set_it_client c a) p x); [rewrite lookup_alter_eq, Hj|..].
    + by apply (Ks j a p x); [rewrite lookup_alter_ne|..].
Qed.

Lemma ran_restore i it c q l n s t : q_items s !! i = Some it -> it_queue it <> None ->
  ran_ok (Some (i, it_client it)) i q l n (upd_item (set_it_client c) i s) t ->
  (forall b, q_items t !! i = Some b -> it_type b = CMDQ_COMMAND) ->
  (forall d, it_client it = Some d -> is_Some (q_clients s !! d)) ->
  ran_ok None i q l n s (upd_item (set_it_client (it_client it)) i t).
Proof.
  intros Hi Hq [Hok [Hk Hx Ho] Hl] Ht Hc.
  destruct (it_queue it) as [p|] eqn:Ep; [|done].
  destruct (kp_items _ _ Hk i (set_it_client c it) p) as (b & Hb & Eb); [fields; by rewrite lookup_alter_eq, Hi|done|].
  assert (Hok1 : queues_ok (Some (i, it_client it)) [] (upd_item (set_it_client (it_client it)) i t)).
  { apply (ok_set_client i _ b); [done|done|by apply Ht|]. intros d Hd. by apply (kp_clients _ _ Hk), Hc. }
  split.
  - apply (ok_end i (set_it_client (it_client it) b)); [exact Hok1|]. fields. by rewrite lookup_alter_eq, Hb.
  - split; [|done..]. apply (kept_restore i it c); [done|done|congruence|done].
  - intros Hcost. specialize (Hl Hcost). rewrite !queue_load_upd_item in * by done. done.
Qed.

Lemma upd_client_id i it s : q_items s !! i = Some it -> upd_item (set_it_client (it_client it)) i s = s.
Proof.
  intros Hi. unfold upd_item. replace (alter _ i (q_items s)) with (q_items s); [by destruct s|].
  apply map_eq. intros j. destruct (decide (i = j)) as [->|Hne]; [|by rewrite lookup_alter_ne].
  rewrite lookup_alter_eq, Hi. by destruct it.
Qed.

Lemma current_client i it s : queues_ok None [] s -> q_items s !! i = Some it ->
  exists s' c, (match it_client it with
       | Some _ => Some s
       | None => '(c, s) ← cmd_find_client i None true s; Some (upd_item (set_it_client c) i s)
       end) = Some (upd_item (set_it_client c) i s') /\ reports s s' /\
    (forall d, c = Some d -> is_Some (q_clients s' !! d)).
Proof using All.
  intros Hok Hi. destruct (it_client it) as [c|] eqn:Ec.
  - exists s, (Some c). split_and!; [|done|].
    + rewrite <- Ec. by rewrite upd_client_id.
    + intros d [= <-]. eapply client_there; done.
  - destruct (find_client_ok None [] i None true s Hok) as (c & s' & -> & R & Hc); [by eexists|]. by exists s', c.
Qed.

Lemma ran_reports cur i q l n s s' s2 : ran_ok cur i q l n s s' -> reports s' s2 -> ran_ok cur i q l n s s2.
Proof.
  intros [Hok [Hk (x & new & more & Hx & El) Ho] Hl] Hr. split; [by eapply ok_reports| |].
  - split.
    + etrans; [exact Hk|]. by apply reports_kept.
    + exists x, new, more. by rewrite (rp_queues _ _ Hr).
    + intros p y Hp Hy. rewrite (rp_queues _ _ Hr). by apply Ho.
  - intros Hc. rewrite (queue_load_reports _ _ _ Hr). by apply Hl.
Qed.

Lemma ran_more cur i q l n m s s' : (n <= m)%nat -> ran_ok cur i q l n s s' -> ran_ok cur i q l m s s'.
Proof. intros Hn [Hok Hg Hl]. split; [done..|]. intros Hc. specialize (Hl Hc). lia. Qed.

Lemma ran_there cur i q l n it s s' : first_of i q l it s -> ran_ok cur i q l n s s' ->
  exists it', q_items s' !! i = Some it' /\ still it it'.
Proof. intros Hf [_ [Hk _ _] _]. apply (kp_items _ _ Hk i it q); apply Hf. Qed.

(** From the client the item has while it is run to the guard at the end. *)
Lemma fire_with_ok i q l it c st c3 flags s : queues_ok None [] s -> first_of i q l it s ->
  it_type it = CMDQ_COMMAND -> it_cmd it = Some c -> cmd_ok c -> q_states s !! it_state it = Some st ->
  (forall d, c3 = Some d -> is_Some (q_clients s !! d)) ->
  exists r s1 s2, fire_body i c (upd_item (set_it_client c3) i s) = Some (r, s1) /\
    fire_out i (it_client it) flags r s1 = Some s2 /\
    ran_ok None i q l (inserted c (st_flags st) + hooked (st_flags st)) s s2.
Proof using All.
  intros Hok Hfo Ht Hc Hco Hst H3. pose proof (fo_item _ _ _ _ _ Hfo) as Hi.
  assert (Hq : it_queue it <> None) by (rewrite (fo_queue _ _ _ _ _ Hfo); done).
  set (s0 := upd_item (set_it_client c3) i s).
  assert (Hok0 : queues_ok (Some (i, it_client it)) [] s0) by (eapply ok_set_client; [by apply ok_start|done..]).
  assert (Hfo0 : first_of i q l (set_it_client c3 it) s0).
  { destruct Hfo. split; try done. subst s0. fields. by rewrite lookup_alter_eq, Hi. }
  destruct (fire_body_ok i (it_client it) q l (set_it_client c3 it) c st s0 Hok0 Hfo0) as (r & s1 & E1 & Hr1); try done.
  assert (Hi1 : exists b, q_items s1 !! i = Some b /\ still (set_it_client c3 it) b) by (by eapply ran_there).
  apply ran_restore in Hr1; [|done|done| |].
  2: { intros b Hb. destruct Hi1 as (b' & Hb' & [ [] _]). replace b with b' by congruence. cbn in *. congruence. }
  2: { intros d Hd. by eapply client_there. }
  exists r, s1. set (s2 := upd_item (set_it_client (it_client it)) i s1) in *.
  destruct (ran_there None i q l _ it s s2 Hfo Hr1) as (it2 & Hi2 & S2).
  assert (Hend : forall guard t, ran_ok None i q l (inserted c (st_flags st) + hooked (st_flags st)) s t ->
    exists t', cmdq_guard i guard flags t = Some t' /\ ran_ok None i q l (inserted c (st_flags st) + hooked (st_flags st)) s t').
  { intros guard t Hr. destruct (ran_there None i q l _ it s t Hfo Hr) as (b & Hb & _).
    destruct (guard_reports None [] i guard flags t (ra_ok _ _ _ _ _ _ _ Hr)) as (t' & Et & Rt); [by eexists|].
    exists t'. split; [done|by eapply ran_reports]. }
  unfold fire_out. fold s2. destruct (decide (r = CMD_RETURN_ERROR)) as [->|Hne].
  - rewrite bool_decide_eq_true_2 by done.
    destruct (hook_target_ok None i s2 (ra_ok _ _ _ _ _ _ _ Hr1)) as [fsp ->]; [by eexists|]. cbn [mbind option_bind].
    destruct (ran_hook None i q l it c st (fs ← fsp; fs_s fs) fsp (bytes "command-error")
      (inserted c (st_flags st) + 0) s s2) as (s3 & E3 & Hr3); try done. cbn [mbind option_bind] in E3. rewrite E3.
    cbn [mbind option_bind]. destruct (Hend "error" s3) as (s4 & E4 & Hr4).
    { eapply ran_more; [|exact Hr3]. unfold hooked. lia. }
    exists s4. done.
  - rewrite bool_decide_eq_false_2 by done. destruct (Hend "end" s2) as (s4 & E4 & Hr4).
    { eapply ran_more; [|exact Hr1]. lia. }
    by exists s4.
Qed.

(** A command is run whatever happens, what it inserts is behind it, and costs
    less than it. *)
Lemma fire_command_ok i q l it st s : queues_ok None [] s -> first_of i q l it s ->
  it_type it = CMDQ_COMMAND -> q_states s !! it_state it = Some st ->
  exists r s', cmdq_fire_command i s = Some (r, s') /\
    ran_ok None i q l (match it_cmd it with Some c => inserted c (st_flags st) + hooked (st_flags st) | None => 0 end) s s'.
Proof using All.
  intros Hok Hfo Ht Hst. destruct (qk_item _ _ _ Hok i it (fo_item _ _ _ _ _ Hfo)) as [Hit _].
  unfold item_ok in Hit. rewrite Ht in Hit. destruct Hit as [(c & Hc & Hco) _].
  unfold cmdq_fire_command. rewrite (fo_item _ _ _ _ _ Hfo). cbn [mbind option_bind]. rewrite Hst. cbn [mbind option_bind].
  rewrite Hc. cbn [mbind option_bind].
  assert (E1 : exists s1, (if cfg_finished (q_rest s) then cmdq_add_message i s else Some s) = Some s1 /\ reports s s1).
  { destruct (cfg_finished _); [|by exists s]. eapply add_message_reports; [done|apply Hfo|done..]. }
  destruct E1 as (s1 & -> & R1). cbn [mbind option_bind].
  assert (C1 : calm None s s1) by (by apply calm_reports).
  destruct (first_of_calm None i q l it s s1 Hfo C1) as (it1 & Hfo1 & S1).
  destruct (guard_reports None [] i "begin" (if has (st_flags st) CMDQ_STATE_CONTROL then 1 else 0) s1 (cm_ok _ _ _ C1)
    (first_there _ _ _ _ _ Hfo1)) as (s2 & -> & R2). cbn [mbind option_bind].
  assert (C2 : calm None s s2).
  { eapply calm_trans; [exact C1|]. apply calm_reports; [apply C1|done]. }
  destruct (first_of_calm None i q l it s s2 Hfo C2) as (it2 & Hfo2 & S2).
  destruct (current_client i it2 s2 (cm_ok _ _ _ C2) (fo_item _ _ _ _ _ Hfo2)) as (s3 & c3 & E3 & R3 & H3).
  rewrite (si_client _ _ S2), E3. cbn [mbind option_bind].
  assert (C3 : calm None s s3).
  { eapply calm_trans; [exact C2|]. apply calm_reports; [apply C2|done]. }
  destruct (first_of_calm None i q l it s s3 Hfo C3) as (it3 & Hfo3 & S3).
  destruct (kept_state None [] s s3 i it it3 q st Hok (cm_kept _ _ _ C3) (fo_item _ _ _ _ _ Hfo)
    (fo_queue _ _ _ _ _ Hfo) Hst S3) as (st3 & Hst3 & Ef).
  destruct (fire_with_ok i q l it3 c st3 c3 (if has (st_flags st) CMDQ_STATE_CONTROL then 1 else 0) s3
    (cm_ok _ _ _ C3) Hfo3) as (r & s5 & s7 & E5 & E7 & Hr);
    [by rewrite <- (si_type _ _ S3)|by rewrite <- (si_cmd _ _ S3)|done..|].
  rewrite E5. cbn [mbind option_bind]. rewrite <- (si_client _ _ S2), (si_client _ _ S3), E7. cbn [mbind option_bind].
  exists r, s7. split; [done|]. rewrite Ef in Hr. by eapply calm_ran.
Qed.

(** ** Removing items *)

(** What is left after items have been removed from the queue [q]. *)
Record shrinks (q : queue_id) (s s' : server rest) : Prop := Shrinks {
  sh_items : forall j it, q_items s' !! j = Some it -> q_items s !! j = Some it;
  sh_states : forall j it x, q_items s' !! j = Some it -> q_states s !! it_state it = Some x ->
    exists x', q_states s' !! it_state it = Some x' /\ st_flags x' = st_flags x;
  sh_clients : forall c, is_Some (q_clients s !! c) -> is_Some (q_clients s' !! c);
  sh_queues : forall p, p <> q -> q_queues s' !! p = q_queues s !! p;
  sh_gone : gone s s'
}.

Lemma shrinks_refl q s : shrinks q s s.
Proof. split; try done. intros j it x _ Hx. by exists x. Qed.

Lemma shrinks_trans q s1 s2 s3 : shrinks q s1 s2 -> shrinks q s2 s3 -> shrinks q s1 s3.
Proof.
  intros [] []. split.
  - intros j it Hj. by apply sh_items0, sh_items1.
  - intros j it x Hj Hx. destruct (sh_states0 j it x) as (y & Hy & E); [by apply sh_items1|done|].
    destruct (sh_states1 j it y Hj Hy) as (z & Hz & E'). exists z. split; [done|congruence].
  - intros c Hc. by apply sh_clients1, sh_clients0.
  - intros p Hp. by rewrite sh_queues1, sh_queues0.
  - by etrans.
Qed.

(** The references of an item that is removed are given back. *)
Lemma unref_some c s : is_Some (q_clients s !! c) -> exists s', server_client_unref c s = Some s' /\
  q_items s' = q_items s /\ q_states s' = q_states s /\ q_lists s' = q_lists s /\ q_queues s' = q_queues s /\
  q_next s' = q_next s /\ q_clients s' = alter (fun x => set_c_references (c_references x - 1) x) c (q_clients s).
Proof.
  intros [x Hx]. unfold server_client_unref. rewrite Hx. cbn [mbind option_bind]. eexists. split; [done|].
  assert (E : alter (set_c_references (c_references x - 1)) c (q_clients s) =
    alter (fun x => set_c_references (c_references x - 1) x) c (q_clients s)).
  { apply map_eq. intros d. destruct (decide (c = d)) as [->|Hne]; [by rewrite !lookup_alter_eq, Hx|by rewrite !lookup_alter_ne]. }
  destruct (_ =? 0); fields; by rewrite E.
Qed.

Lemma list_free_some k s : is_Some (q_lists s !! k) -> exists s', cmd_list_free k s = Some s' /\
  q_items s' = q_items s /\ q_states s' = q_states s /\ q_queues s' = q_queues s /\ q_clients s' = q_clients s /\
  q_next s' = q_next s /\ (forall l, l <> k -> q_lists s' !! l = q_lists s !! l) /\
  (forall x, q_lists s !! k = Some x -> q_lists s' !! k = if x.2 - 1 =? 0 then None else Some (x.1, x.2 - 1)).
Proof.
  intros [x Hx]. unfold cmd_list_free. rewrite Hx. cbn [mbind option_bind]. eexists. split; [done|]. fields.
  split_and!; try done.
  - intros l Hl. destruct (_ =? 0); [by rewrite lookup_delete_ne|by rewrite lookup_insert_ne].
  - intros y [= <-]. destruct (_ =? 0); [by rewrite lookup_delete_eq|by rewrite lookup_insert_eq].
Qed.

(** What is left of the server without the item [i] of the queue [q]. *)
Record without_item (i : Z) (it : cmdq_item) (q : queue_id) (s s' : server rest) : Prop := WithoutItem {
  wi_items : q_items s' = delete i (q_items s);
  wi_states : forall st x, q_states s' !! st = Some x -> exists y, q_states s !! st = Some y /\
    st_references x = st_references y - Z.b2z (bool_decide (it_state it = st)) /\ st_flags x = st_flags y;
  wi_states' : forall st x, q_states s !! st = Some x -> it_state it <> st \/ st_references x <> 1 ->
    exists y, q_states s' !! st = Some y /\ st_flags y = st_flags x;
  wi_lists : forall l x, q_lists s' !! l = Some x -> exists y, q_lists s !! l = Some y /\
    x.1 = y.1 /\ x.2 = y.2 - Z.b2z (bool_decide (it_cmdlist it = Some l));
  wi_lists' : forall l x, q_lists s !! l = Some x -> it_cmdlist it <> Some l \/ x.2 <> 1 -> is_Some (q_lists s' !! l);
  wi_clients : forall c x, q_clients s' !! c = Some x -> exists y, q_clients s !! c = Some y /\
    c_references x = c_references y - Z.b2z (bool_decide (it_client it = Some c));
  wi_clients' : forall c, is_Some (q_clients s !! c) -> is_Some (q_clients s' !! c);
  wi_queues : q_queues s' = alter (fun x => set_cq_list (tailq_remove i (cq_list x)) x) q (q_queues s);
  wi_next : q_next s' = q_next s
}.

Lemma free_state_some st s x : q_states s !! st = Some x -> exists s', cmdq_free_state st s = Some s' /\
  q_items s' = q_items s /\ q_lists s' = q_lists s /\ q_queues s' = q_queues s /\ q_clients s' = q_clients s /\
  q_next s' = q_next s /\ (forall y, y <> st -> q_states s' !! y = q_states s !! y) /\
  q_states s' !! st = if st_references x - 1 =? 0 then None else Some (set_st_references (st_references x - 1) x).
Proof.
  intros Hx. unfold cmdq_free_state. rewrite Hx. cbn [mbind option_bind]. eexists. split; [done|].
  split_and!; try (destruct (_ =? 0); done).
  - intros y Hy. destruct (_ =? 0); fields; [by rewrite lookup_delete_ne|by rewrite lookup_alter_ne].
  - destruct (_ =? 0); fields; [by rewrite lookup_delete_eq|by rewrite lookup_alter_eq, Hx].
Qed.

Lemma remove_some i it q s : queues_ok None [] s -> q_items s !! i = Some it -> it_queue it = Some q ->
  exists s', cmdq_remove i s = Some s' /\ without_item i it q s s'.
Proof.
  intros Hok Hi Hq. unfold cmdq_remove. rewrite Hi. cbn [mbind option_bind].
  assert (E1 : exists s1, (match it_client it with Some c => server_client_unref c s | None => Some s end) = Some s1 /\
    q_items s1 = q_items s /\ q_states s1 = q_states s /\ q_lists s1 = q_lists s /\ q_queues s1 = q_queues s /\
    q_next s1 = q_next s /\ q_clients s1 = match it_client it with
      | Some c => alter (fun x => set_c_references (c_references x - 1) x) c (q_clients s) | None => q_clients s end).
  { destruct (it_client it) as [c|] eqn:Ec; [|by exists s].
    apply unref_some. apply (qk_client _ _ _ Hok i it c Hi). by left. }
  destruct E1 as (s1 & -> & I1 & S1 & L1 & Q1 & N1 & C1). cbn [mbind option_bind].
  assert (E2 : exists s2, (match it_cmdlist it with Some l => cmd_list_free l s1 | None => Some s1 end) = Some s2 /\
    q_items s2 = q_items s /\ q_states s2 = q_states s /\ q_queues s2 = q_queues s /\ q_clients s2 = q_clients s1 /\
    q_next s2 = q_next s /\ (forall l, it_cmdlist it <> Some l -> q_lists s2 !! l = q_lists s !! l) /\
    (forall l x, it_cmdlist it = Some l -> q_lists s !! l = Some x ->
       q_lists s2 !! l = if x.2 - 1 =? 0 then None else Some (x.1, x.2 - 1))).
  { destruct (it_cmdlist it) as [k|] eqn:Ek.
    - destruct (qk_list _ _ _ Hok i it k Hi Ek) as [x Hx]. rewrite <- L1 in Hx.
      destruct (list_free_some k s1) as (s2 & E & I & S & Q & C & N & Ho & He); [by eexists|].
      exists s2. split_and!; try congruence.
      + intros l Hl. rewrite Ho, L1; [done|congruence].
      + intros l y El Hy. replace l with k by congruence. apply He. rewrite L1. congruence.
    - exists s1. split_and!; try done. intros l _. by rewrite L1. }
  destruct E2 as (s2 & -> & I2 & S2 & Q2 & C2 & N2 & Lo & Le). cbn [mbind option_bind].
  destruct (qk_state _ _ _ Hok i it Hi) as [st Hst].
  destruct (free_state_some (it_state it) s2 st) as (s3 & -> & I3 & L3 & Q3 & C3 & N3 & So & Se); [by rewrite S2|].
  cbn [mbind option_bind]. rewrite Hq. cbn [mbind option_bind]. eexists. split; [done|]. split; fields.
  - by rewrite I3, I2.
  - intros y x Hx. destruct (decide (it_state it = y)) as [<-|Hne].
    + rewrite Se in Hx. destruct (_ =? 0); [done|]. injection Hx as <-. exists st.
      rewrite bool_decide_eq_true_2 by done. done.
    + rewrite So, S2 in Hx by done. exists x. rewrite bool_decide_eq_false_2 by done. cbn. split_and!; [done|lia|done].
  - intros y x Hx Hd. destruct (decide (it_state it = y)) as [<-|Hne].
    + rewrite Se. replace x with st in * by congruence. destruct (Z.eqb_spec (st_references st - 1) 0); [lia|by eexists].
    + rewrite So, S2 by done. by exists x.
  - intros l x. rewrite L3. intros Hx. destruct (decide (it_cmdlist it = Some l)) as [E|Hne].
    + destruct (qk_list _ _ _ Hok i it l Hi E) as [y Hy]. rewrite (Le l y E Hy) in Hx. destruct (y.2 - 1 =? 0); [done|].
      injection Hx as <-. exists y. by rewrite bool_decide_eq_true_2.
    + rewrite Lo in Hx by done. exists x. rewrite bool_decide_eq_false_2 by done. cbn. split_and!; [done..|lia].
  - intros l x Hx Hd. rewrite L3. destruct (decide (it_cmdlist it = Some l)) as [E|Hne].
    + rewrite (Le l x E Hx). destruct (Z.eqb_spec (x.2 - 1) 0); [destruct Hd; [done|lia]|by eexists].
    + rewrite Lo by done. by eexists.
  - intros c x. rewrite C3, C2, C1. destruct (it_client it) as [d|].
    + intros Hx. apply lookup_alter_Some in Hx as [(<- & y & Hy & ->)|[Hne Hx]].
      * exists y. by rewrite bool_decide_eq_true_2.
      * exists x. rewrite bool_decide_eq_false_2 by congruence. cbn. split; [done|lia].
    + intros Hx. exists x. rewrite bool_decide_eq_false_2 by done. cbn. split; [done|lia].
  - intros c. rewrite C3, C2, C1. destruct (it_client it) as [d|]; [by rewrite lookup_alter_is_Some|done].
  - by rewrite Q3, Q2.
  - by rewrite N3.
Qed.

(** The queues are in order without the item, when the item that is running is
    no longer kept or is the first one. *)
Lemma ok_without i it q x g s s' : queues_ok None [] s -> q_items s !! i = Some it -> it_queue it = Some q ->
  q_queues s !! q = Some x -> without_item i it q s s' ->
  (forall j, g = Some j -> head (tailq_remove i (cq_list x)) = Some j) ->
  queues_ok None [] (upd_queue (set_cq_item g) q s').
Proof using All.
  intros Hok Hi Hq Hx [Wi Ws Ws' Wl Wl' Wc Wc' Wq Wn] Hg. set (s2 := upd_queue (set_cq_item g) q s').
  assert (Ei : forall j y, q_items s2 !! j = Some y -> q_items s !! j = Some y /\ i <> j).
  { intros j y. subst s2. fields. rewrite Wi. rewrite lookup_delete_Some. tauto. }
  assert (Ei' : forall j y, q_items s !! j = Some y -> i <> j -> q_items s2 !! j = Some y).
  { intros j y Hj Hne. subst s2. fields. by rewrite Wi, lookup_delete_ne. }
  assert (Eq : forall p y, q_queues s2 !! p = Some y -> exists z, q_queues s !! p = Some z /\
    cq_list y = (if decide (p = q) then tailq_remove i (cq_list z) else cq_list z) /\
    cq_item y = if decide (p = q) then g else cq_item z).
  { intros p y. subst s2. fields. rewrite Wq. intros Hy. destruct (decide (p = q)) as [->|Hne].
    - rewrite !lookup_alter_eq, Hx in Hy. cbn in Hy. injection Hy as <-. by exists x.
    - rewrite !lookup_alter_ne in Hy by done. by exists y. }
  assert (Eq' : forall p z, q_queues s !! p = Some z -> exists y, q_queues s2 !! p = Some y /\
    cq_list y = if decide (p = q) then tailq_remove i (cq_list z) else cq_list z).
  { intros p z Hz. subst s2. fields. rewrite Wq. destruct (decide (p = q)) as [->|Hne].
    - rewrite !lookup_alter_eq, Hz. by eexists.
    - rewrite !lookup_alter_ne by done. by exists z. }
  destruct Hok. split; subst s2; fields; try done.
  - intros j y Hj. apply Ei in Hj as [Hj _]. rewrite Wn. by apply qk_item0.
  - intros j y Hj. apply Ei in Hj as [Hj Hne]. destruct (qk_state0 j y Hj) as [st Hst].
    destruct (Ws' (it_state y) st Hst) as (z & Hz & _); [|by eexists].
    destruct (decide (it_state it = it_state y)) as [E|]; [right|by left].
    destruct (qk_states0 _ _ Hst) as [_ Hu]. cbn in Hu.
    pose proof (uses_two (fun _ it => it_state it =? it_state y) _ i j it y Hi Hj Hne) as H2.
    cbn beta in H2. rewrite E, Z.eqb_refl in H2. specialize (H2 eq_refl eq_refl). lia.
  - intros j y l Hj El. apply Ei in Hj as [Hj Hne]. destruct (qk_list0 j y l Hj El) as [z Hz].
    apply (Wl' l z Hz). destruct (decide (it_cmdlist it = Some l)) as [E|]; [right|by left].
    destruct (qk_lists0 _ _ Hz) as [_ Hu].
    pose proof (uses_two (fun _ it => bool_decide (it_cmdlist it = Some l)) _ i j it y Hi Hj Hne) as H2.
    cbn beta in H2. rewrite !bool_decide_eq_true_2 in H2 by done. specialize (H2 eq_refl eq_refl). lia.
  - intros j y c Hj Hc. apply Ei in Hj as [Hj _]. apply Wc'. by eapply qk_client0.
  - by intros st Hst%not_elem_of_nil.
  - intros st y Hy. destruct (Ws st y Hy) as (z & Hz & Er & _). destruct (qk_states0 st z Hz) as [Hl Hu].
    rewrite Wn. split; [done|]. rewrite (uses_delete _ _ i it Hi) in Hu. rewrite Wi, Er. rewrite filter_nil in *.
    cbn [length] in *. cbn beta in Hu.
    destruct (Z.eqb_spec (it_state it) st) as [E|E];
      [rewrite bool_decide_eq_true_2 by done|rewrite bool_decide_eq_false_2 by done]; cbn [Z.b2z] in *; lia.
  - intros l y Hy. destruct (Wl l y Hy) as (z & Hz & E1 & E2). destruct (qk_lists0 l z Hz) as [Hl Hu].
    rewrite E1, E2. split; [done|]. rewrite (uses_delete _ _ i it Hi) in Hu. rewrite Wi. lia.
  - intros c y Hy. destruct (Wc c y Hy) as (z & Hz & Er). destruct (qk_clients0 c z Hz) as [[w Hw] Hu]. split.
    + destruct (Eq' _ _ Hw) as (w' & Hw' & _). by exists w'.
    + rewrite (uses_delete _ _ i it Hi) in Hu. rewrite Wi, Er. cbn [holder] in *. lia.
  - intros p y j Hy Hj. destruct (Eq p y Hy) as (z & Hz & El & _). rewrite El in Hj.
    assert (Hjz : j ∈ cq_list z /\ i <> j).
    { destruct (decide (p = q)) as [->|]; [apply tailq_remove_elem in Hj as [? ?]; by split|]. split; [done|].
      intros <-. destruct (qk_on0 p z i Hz Hj) as (a & Ha & Ea). congruence. }
    destruct (qk_on0 p z j Hz (proj1 Hjz)) as (a & Ha & Ea). exists a. split; [by apply Ei'; [|apply Hjz]|done].
  - intros j y p Hj Ep. apply Ei in Hj as [Hj Hne]. destruct (qk_in0 j y p Hj Ep) as (z & Hz & Hjz).
    destruct (Eq' p z Hz) as (w & Hw & El). exists w. split; [done|]. rewrite El.
    destruct (decide (p = q)); [by apply tailq_remove_elem|done].
  - intros p y Hy. destruct (Eq p y Hy) as (z & Hz & -> & _). specialize (qk_nodup0 p z Hz).
    destruct (decide (p = q)); [by apply NoDup_filter|done].
  - intros p y j Hy Hj. destruct (Eq p y Hy) as (z & Hz & El & Er). rewrite Er in Hj. rewrite El.
    destruct (decide (p = q)) as [->|]; [|by eapply qk_running0]. replace z with x by congruence. by apply Hg.
  - intros j y Hj. apply Ei in Hj as [Hj Hne]. destruct (qk_flags0 j y Hj) as [|(p & z & E & Hz & Hh)]; [by left|].
    right. destruct (Eq' p z Hz) as (w & Hw & El). exists p, w. split_and!; [done..|]. rewrite El.
    destruct (decide (p = q)); [by apply tailq_remove_head|done].
Qed.

(** One item is removed: when it is not the first one the queues stay in order;
    the first one is what was running. *)
Lemma remove_ok i it q x s : queues_ok None [] s -> q_items s !! i = Some it -> it_queue it = Some q ->
  q_queues s !! q = Some x ->
  exists s', cmdq_remove i s = Some s' /\
    (forall g, (forall j, g = Some j -> head (tailq_remove i (cq_list x)) = Some j) ->
       queues_ok None [] (upd_queue (set_cq_item g) q s')) /\
    q_queues s' !! q = Some (Queue (cq_item x) (tailq_remove i (cq_list x))) /\ shrinks q s s' /\
    q_items s' = delete i (q_items s).
Proof using All.
  intros Hok Hi Hq Hx. destruct (remove_some i it q s Hok Hi Hq) as (s' & E & Hw). exists s'. split_and!; [done| | | |apply Hw].
  - intros g Hg. by eapply ok_without.
  - destruct Hw. rewrite wi_queues0, lookup_alter_eq, Hx. done.
  - pose proof Hw as []. split.
    + intros j y. rewrite wi_items0, lookup_delete_Some. tauto.
    + intros j y z. rewrite wi_items0, lookup_delete_Some. intros [Hne Hj] Hz. apply (wi_states'0 _ _ Hz).
      destruct (decide (it_state it = it_state y)) as [E1|]; [right|by left].
      destruct (qk_states _ _ _ Hok _ _ Hz) as [_ Hu]. rewrite filter_nil in Hu. cbn [length] in Hu.
      pose proof (uses_two (fun _ it => it_state it =? it_state y) _ i j it y Hi Hj Hne) as H2.
      cbn beta in H2. rewrite E1, Z.eqb_refl in H2. specialize (H2 eq_refl eq_refl). lia.
    + done.
    + intros p Hp. by rewrite wi_queues0, lookup_alter_ne.
    + apply gone_subset; [|done]. intros j y. rewrite wi_items0, lookup_delete_Some. intros [_ Hy]. by eexists.
Qed.

Lemma set_same_item q x s : q_queues s !! q = Some x -> upd_queue (set_cq_item (cq_item x)) q s = s.
Proof.
  intros Hx. unfold upd_queue. replace (alter _ q (q_queues s)) with (q_queues s); [by destruct s|].
  apply map_eq. intros p. destruct (decide (q = p)) as [->|Hne]; [|by rewrite lookup_alter_ne].
  rewrite lookup_alter_eq, Hx. by destruct x.
Qed.

(** The group of an item. *)
Definition group_of s (j : Z) : option Z := it_group <$> q_items s !! j.

(** The items of a group are removed, and the others stay as they are. *)
Lemma remove_matching_ok g q ids : forall s x l0, queues_ok None [] s -> q_queues s !! q = Some x ->
  cq_list x = l0 ++ ids -> l0 <> [] ->
  exists s', remove_matching g ids s = Some s' /\ queues_ok None [] s' /\
    q_queues s' !! q = Some (Queue (cq_item x) (l0 ++ filter (fun j => group_of s j <> Some g) ids)) /\ shrinks q s s'.
Proof using All.
  induction ids as [|j ids IH]; intros s x l0 Hok Hx El Hl0.
  { exists s. split_and!; [done..| |apply shrinks_refl]. rewrite Hx, filter_nil, app_nil_r.
    rewrite app_nil_r in El. rewrite <- El. by destruct x. }
  cbn [remove_matching]. destruct (qk_on _ _ _ Hok q x j Hx) as (it & Hj & Hq); [rewrite El; set_solver|].
  rewrite Hj. cbn [mbind option_bind].
  destruct (Z.eqb_spec (it_group it) g) as [Eg|Eg].
  - destruct (remove_ok j it q x s Hok Hj Hq Hx) as (s1 & -> & Hok1 & Hx1 & Hs1 & Ei1). cbn [mbind option_bind].
    pose proof (qk_nodup _ _ _ Hok q x Hx) as Hnd. rewrite El in Hnd. apply NoDup_app in Hnd as (Hn1 & Hn2 & Hn3).
    apply NoDup_cons in Hn3 as [Hn3 Hn4].
    assert (Erm : tailq_remove j (cq_list x) = l0 ++ ids).
    { rewrite El. apply tailq_remove_split; [|done]. intros Hin. apply (Hn2 j Hin). constructor. }
    rewrite Erm in Hx1.
    assert (Hok1' : queues_ok None [] s1).
    { rewrite <- (set_same_item q _ s1 Hx1). apply Hok1. cbn [cq_item]. intros k Hk. rewrite Erm.
      pose proof (qk_running _ _ _ Hok q x k Hx Hk) as Hh. rewrite El in Hh. destruct l0; [done|exact Hh]. }
    destruct (IH s1 (Queue (cq_item x) (l0 ++ ids)) l0 Hok1' Hx1 eq_refl Hl0) as (s2 & E2 & Hok2 & Hx2 & Hs2).
    exists s2. split_and!; [done..| |by eapply shrinks_trans].
    rewrite Hx2. cbn [cq_item]. do 3 f_equal. rewrite filter_cons_False.
    2: { unfold group_of. rewrite Hj. cbn. intros Hne. apply Hne. by rewrite Eg. }
    apply filter_same. intros k Hk. unfold group_of. rewrite Ei1, lookup_delete_ne; [done|]. by intros <-.
  - cbn [mbind option_bind]. destruct (IH s x (l0 ++ [j]) Hok Hx) as (s2 & E2 & Hok2 & Hx2 & Hs2);
      [by rewrite <- app_assoc|by destruct l0|]. exists s2. split_and!; [done..| |done].
    rewrite Hx2. rewrite filter_cons_True; [by rewrite <- app_assoc|].
    unfold group_of. rewrite Hj. cbn. congruence.
Qed.

(** ** A turn of the loop *)

(** The flags of the first item of a queue. *)
Lemma ok_set_flags i it q x n s : queues_ok None [] s -> q_items s !! i = Some it -> it_queue it = Some q ->
  q_queues s !! q = Some x -> head (cq_list x) = Some i ->
  queues_ok None [] (upd_item (fun it => set_it_flags (n it) it) i s).
Proof.
  intros Hok Hi Hq Hx Hh. set (f := fun it => set_it_flags (n it) it).
  assert (Hs : forall j y, q_items (upd_item f i s) !! j = Some y ->
    exists z, q_items s !! j = Some z /\ y = if decide (i = j) then f z else z) by apply upd_item_some.
  destruct Hok. split; fields; try done.
  - intros j y Hj. apply Hs in Hj as (z & Hz & ->). destruct (qk_item0 j z Hz). by destruct (decide (i = j)).
  - intros j y Hj. apply Hs in Hj as (z & Hz & ->). pose proof (qk_state0 j z Hz). by destruct (decide (i = j)).
  - intros j y k Hj. apply Hs in Hj as (z & Hz & ->). pose proof (qk_list0 j z k Hz). by destruct (decide (i = j)).
  - intros j y d Hj. apply Hs in Hj as (z & Hz & ->). pose proof (qk_client0 j z d Hz). by destruct (decide (i = j)).
  - intros st y Hy. rewrite uses_alter_same by done. by apply qk_states0.
  - intros k y Hy. rewrite uses_alter_same by done. by apply qk_lists0.
  - intros d y Hy. rewrite uses_alter_same by done. by apply qk_clients0.
  - intros p y j Hy Hj. destruct (qk_on0 p y j Hy Hj) as (z & Hz & Ez).
    exists (if decide (i = j) then f z else z). split; [|by destruct (decide (i = j))].
    destruct (decide (i = j)) as [<-|]; [by rewrite lookup_alter_eq, Hz|by rewrite lookup_alter_ne].
  - intros j y p Hj. apply Hs in Hj as (z & Hz & ->). pose proof (qk_in0 j z p Hz). by destruct (decide (i = j)).
  - intros j y Hj. apply Hs in Hj as (z & Hz & ->). destruct (decide (i = j)) as [<-|]; [|by apply qk_flags0].
    right. exists q, x. split_and!; [|done..]. by replace z with it by congruence.
Qed.

Lemma ok_number cur held n s : queues_ok cur held s -> queues_ok cur held (set_number n s).
Proof. intros []. by split. Qed.

(** Setting what is running to the first item. *)
Lemma ok_running c s x : queues_ok None [] s -> q_queues s !! c = Some x ->
  queues_ok None [] (upd_queue (set_cq_item (head (cq_list x))) c s).
Proof.
  intros [] Hx.
  assert (Eq : forall p y, q_queues (upd_queue (set_cq_item (head (cq_list x))) c s) !! p = Some y ->
    exists z, q_queues s !! p = Some z /\ cq_list y = cq_list z /\
      cq_item y = if decide (p = c) then head (cq_list z) else cq_item z).
  { fields. intros p y Hy. apply lookup_alter_Some in Hy as [(<- & z & Hz & ->)|[Hne Hy]].
    - exists z. rewrite decide_True by done. split_and!; [done..|]. by replace z with x by congruence.
    - exists y. by rewrite decide_False. }
  assert (Eq' : forall p z, q_queues s !! p = Some z ->
    exists y, q_queues (upd_queue (set_cq_item (head (cq_list x))) c s) !! p = Some y /\ cq_list y = cq_list z).
  { fields. intros p z Hz. destruct (decide (c = p)) as [->|]; [rewrite lookup_alter_eq, Hz; by eexists|].
    rewrite lookup_alter_ne by done. by exists z. }
  split; try done.
  - intros d y Hy. destruct (qk_clients0 d y Hy) as [[z Hz] Hu]. split; [|done].
    destruct (Eq' _ _ Hz) as (w & Hw & _). by exists w.
  - intros p y j Hy Hj. destruct (Eq p y Hy) as (z & Hz & El & _). rewrite El in Hj. by apply (qk_on0 p z j).
  - intros j it p Hj Hq. destruct (qk_in0 j it p Hj Hq) as (z & Hz & Hjz). destruct (Eq' p z Hz) as (w & Hw & El).
    exists w. by rewrite El.
  - intros p y Hy. destruct (Eq p y Hy) as (z & Hz & -> & _). by apply (qk_nodup0 p z).
  - intros p y j Hy Hj. destruct (Eq p y Hy) as (z & Hz & El & Er). rewrite El. rewrite Er in Hj.
    destruct (decide (p = c)); [done|by apply (qk_running0 p z)].
  - intros j it Hj. destruct (qk_flags0 j it Hj) as [|(p & z & E & Hz & Hh)]; [by left|]. right.
    destruct (Eq' p z Hz) as (w & Hw & El). exists p, w. by rewrite El.
Qed.

Lemma fire_callback_ok i q l it s : queues_ok None [] s -> first_of i q l it s -> it_type it = CMDQ_CALLBACK ->
  exists r s', cmdq_fire_callback i s = Some (r, s') /\ ran_ok None i q l (weight s i - 1) s s'.
Proof using All.
  intros Hok Hfo Ht. pose proof (fo_item _ _ _ _ _ Hfo) as Hi.
  destruct (qk_item _ _ _ Hok i it Hi) as [Hit _]. unfold item_ok in Hit. rewrite Ht in Hit.
  destruct Hit as (cb & Hcb & Herr). unfold cmdq_fire_callback. rewrite Hi. cbn [mbind option_bind].
  rewrite Hcb. cbn [mbind option_bind]. destruct cb as [|e|cb data].
  - eexists _, s. split; [done|]. eapply ran_calm; [done|by apply calm_refl].
  - destruct (error_reports None [] i it e s Hok Hi) as (s' & -> & R).
    { destruct (Herr e eq_refl) as [E|]; [|done]. rewrite (fo_queue _ _ _ _ _ Hfo) in E. done. }
    cbn [mbind option_bind]. eexists _, s'. split; [done|]. eapply ran_calm; [done|by apply calm_reports].
  - destruct (cb_ok cb data i s it q l Hok Hfo Ht Hcb) as (r & s' & E & Hok' & Hg). exists r, s'.
    split; [done|]. split; [done..|]. intros Hcost.
    pose proof (ct_run Hcost cb data i s it q l r s' Hok Hfo Hcb E) as Hl.
    destruct (qk_state _ _ _ Hok i it Hi) as [st Hst].
    unfold weight. rewrite Hi, Hst. unfold weight_of. rewrite Ht, Hcb. lia.
Qed.

Lemma weight_positive cur held i it s : queues_ok cur held s -> q_items s !! i = Some it -> costs_ok -> (0 < weight s i)%nat.
Proof.
  intros Hok Hi Hcost. destruct (qk_state _ _ _ Hok i it Hi) as [st Hst].
  destruct (qk_item _ _ _ Hok i it Hi) as [Hit _]. unfold weight. rewrite Hi, Hst. unfold item_ok in Hit.
  unfold weight_of. destruct (it_type it).
  - destruct Hit as [(c & -> & _) _]. pose proof (ct_cmd Hcost c). pose proof (ct_hook Hcost).
    destruct (has _ _); nia.
  - destruct Hit as (cb & -> & _). destruct cb as [| |cb data]; [lia..|]. apply (ct_cb Hcost).
Qed.

Lemma fire_command_ok' i q l it s : queues_ok None [] s -> first_of i q l it s -> it_type it = CMDQ_COMMAND ->
  exists r s', cmdq_fire_command i s = Some (r, s') /\ ran_ok None i q l (weight s i - 1) s s'.
Proof using All.
  intros Hok Hfo Ht. pose proof (fo_item _ _ _ _ _ Hfo) as Hi. destruct (qk_state _ _ _ Hok i it Hi) as [st Hst].
  destruct (fire_command_ok i q l it st s Hok Hfo Ht Hst) as (r & s' & E & [Hok' Hg Hl]). exists r, s'.
  split; [done|]. split; [done..|]. intros Hcost. specialize (Hl Hcost).
  destruct (qk_item _ _ _ Hok i it Hi) as [Hit _]. unfold item_ok in Hit. rewrite Ht in Hit.
  destruct Hit as [(c & Hc & _) _]. rewrite Hc in Hl. unfold weight. rewrite Hi, Hst. unfold weight_of. rewrite Ht, Hc.
  pose proof (ct_cmd Hcost c). pose proof (ct_hook Hcost). unfold inserted, hooked in Hl.
  destruct (has _ _); [lia|nia].
Qed.

(** Whether an item stays when the one before it has returned [r]. *)
Definition stays (r : cmd_retval) (g : Z) s (j : Z) : Prop :=
  ~ (r = CMD_RETURN_ERROR /\ g <> 0 /\ group_of s j = Some g).

#[global] Instance stays_dec r g s j : Decision (stays r g s j).
Proof. unfold stays. apply _. Defined.

(** What has become of the queue [i :: l] when its first item has been run. *)
Record fired (i : Z) (q : queue_id) (l : list Z) (g : Z) (r : cmd_retval) (s s' : server rest) : Prop := Fired {
  fi_ok : queues_ok None [] s';
  fi_queue : exists x' new more, q_queues s' !! q = Some x' /\
    cq_list x' = i :: new ++ filter (stays r g s) l ++ more;
  fi_items : forall j a b, j ∈ l -> q_items s !! j = Some a -> q_items s' !! j = Some b -> still a b;
  fi_others : forall p y, p <> q -> q_queues s !! p = Some y ->
    exists y' more, q_queues s' !! p = Some y' /\ cq_list y' = cq_list y ++ more;
  fi_load : costs_ok -> (queue_load s' q < queue_load s q + weight s i)%nat;
  fi_weight : weight s' i = weight s i;
  fi_gone : gone s s';
  fi_removed : forall j, j ∈ l -> ~ stays r g s j -> q_items s' !! j = None
}.

Lemma group_kept cur held s s' q x j : queues_ok cur held s -> kept s s' -> q_queues s !! q = Some x ->
  j ∈ cq_list x -> group_of s' j = group_of s j.
Proof.
  intros Hok Hk Hx Hj. destruct (qk_on _ _ _ Hok q x j Hx Hj) as (a & Ha & Hq).
  destruct (kp_items _ _ Hk j a q Ha Hq) as (b & Hb & [ [] _]). unfold group_of. rewrite Ha, Hb. cbn in *. congruence.
Qed.

Lemma load_filter (P : Z -> Prop) `{forall j, Decision (P j)} s l : (load s (filter P l) <= load s l)%nat.
Proof.
  unfold load. induction l as [|j l IH]; [done|]. rewrite filter_cons. destruct (decide (P j)); cbn [sum_list_with]; lia.
Qed.

Lemma load_shrinks cur held q x s s' l : queues_ok cur held s -> queues_ok None [] s' -> shrinks q s s' ->
  q_queues s' !! q = Some x -> (forall j, j ∈ l -> j ∈ cq_list x) -> load s' l = load s l.
Proof.
  intros Hok Hok' Hs Hx Hl. unfold load. induction l as [|j l IH]; [done|]. cbn [sum_list_with].
  rewrite IH by (intros k Hk; apply Hl; by constructor). f_equal.
  destruct (qk_on _ _ _ Hok' q x j Hx) as (it & Hj & _); [apply Hl; constructor|].
  pose proof (sh_items _ _ _ Hs j it Hj) as Hj0. destruct (qk_state _ _ _ Hok j it Hj0) as [st Hst].
  destruct (sh_states _ _ _ Hs j it st Hj Hst) as (st' & Hst' & Ef). unfold weight. by rewrite Hj, Hj0, Hst, Hst', Ef.
Qed.

Lemma filter_all (P : Z -> Prop) `{forall j, Decision (P j)} (l : list Z) : (forall j, P j) -> filter P l = l.
Proof. intros HP. induction l as [|j l IH]; [done|]. rewrite filter_cons_True by done. by rewrite IH. Qed.

(** The group whose items are removed after an error: a callback has none. *)
Definition fail_group (it : cmdq_item) : Z :=
  match it_type it with CMDQ_COMMAND => it_group it | CMDQ_CALLBACK => 0 end.

Lemma ran_weight i q l it n s s' : queues_ok None [] s -> first_of i q l it s -> ran_ok None i q l n s s' ->
  weight s' i = weight s i.
Proof.
  intros Hok Hfo [_ [Hk _ _] _]. destruct (fo_list _ _ _ _ _ Hfo) as (y & Hy & Ely).
  pose proof (load_kept None [] s s' q y [i] Hok Hk Hy) as Hl. unfold load in Hl. cbn [sum_list_with] in Hl.
  rewrite !Nat.add_0_r in Hl. apply Hl. intros j ->%list_elem_of_singleton. rewrite Ely. constructor.
Qed.

Lemma ran_fired i q l it r n s s' : queues_ok None [] s -> first_of i q l it s -> ran_ok None i q l n s s' ->
  (n < weight s i \/ ~ costs_ok)%nat -> r <> CMD_RETURN_ERROR \/ fail_group it = 0 ->
  fired i q l (fail_group it) r s s'.
Proof.
  intros Hok Hfo Hran Hn Hr. pose proof (ran_weight _ _ _ _ _ _ _ Hok Hfo Hran) as Hw.
  destruct Hran as [Hok' [Hk (x & new & more & Hx & El) Ho] Hl].
  assert (Hall : forall j, stays r (fail_group it) s j) by (intros j; unfold stays; naive_solver).
  split; [done| | |done| |done|apply Hk|intros j _ Hn'; by destruct Hn'].
  - exists x, new, more. split; [done|]. by rewrite filter_all.
  - intros j a b Hj Ha Hb. destruct (fo_list _ _ _ _ _ Hfo) as (y & Hy & Ely).
    destruct (qk_on _ _ _ Hok q y j Hy) as (a' & Ha' & Hq); [rewrite Ely; by constructor|].
    destruct (kp_items _ _ Hk j a' q Ha' Hq) as (b' & Hb' & E). congruence.
  - intros Hcost. specialize (Hl Hcost). destruct Hn; [lia|done].
Qed.

(** After an error the other items of the group are removed. *)
Lemma ran_remove_group i q l it n s s' : queues_ok None [] s -> first_of i q l it s -> it_type it = CMDQ_COMMAND ->
  ran_ok None i q l n s s' -> (n < weight s i \/ ~ costs_ok)%nat ->
  exists s2, cmdq_remove_group i s' = Some s2 /\ fired i q l (fail_group it) CMD_RETURN_ERROR s s2.
Proof using All.
  intros Hok Hfo Ht Hran Hn. pose proof Hran as [Hok' [Hk (x & new & more & Hx & El) Ho] Hl].
  destruct (kp_items _ _ Hk i it q (fo_item _ _ _ _ _ Hfo) (fo_queue _ _ _ _ _ Hfo)) as (it' & Hi' & [ [E1 E2 E3 E4 E5 E6 E7 E8 E9] _]).
  cbn in *. unfold cmdq_remove_group. rewrite Hi'. cbn [mbind option_bind].
  assert (Eg : fail_group it = it_group it') by (unfold fail_group; by rewrite Ht).
  destruct (Z.eqb_spec (it_group it') 0) as [E0|E0].
  { exists s'. split; [done|]. eapply ran_fired; [done..|]. right. congruence. }
  rewrite <- E1, (fo_queue _ _ _ _ _ Hfo). cbn [mbind option_bind]. rewrite Hx. cbn [mbind option_bind].
  rewrite El. cbn [tailq_after]. rewrite decide_True by done.
  destruct (remove_matching_ok (it_group it') q (new ++ l ++ more) s' x [i] Hok' Hx El) as (s2 & -> & Hok2 & Hx2 & Hs2); [done|].
  exists s2. split; [done|]. destruct (fo_list _ _ _ _ _ Hfo) as (y & Hy & Ely). split; [done| | | | | |by etrans; [apply Hk|apply Hs2]|].
  - eexists _, _, _. split; [exact Hx2|]. cbn [cq_list app]. f_equal. rewrite !filter_app. f_equal. f_equal.
    apply filter_same. intros j Hj. unfold stays. rewrite (group_kept None [] s s' q y j Hok Hk Hy) by (rewrite Ely; by constructor).
    rewrite Eg. naive_solver.
  - intros j a b Hj Ha Hb. destruct (qk_on _ _ _ Hok q y j Hy) as (a' & Ha' & Hq); [rewrite Ely; by constructor|].
    destruct (kp_items _ _ Hk j a' q Ha' Hq) as (b' & Hb' & E). apply (sh_items _ _ _ Hs2) in Hb. congruence.
  - intros p z Hp Hz. destruct (Ho p z Hp Hz) as (w & m & Hw & Em). exists w, m. by rewrite (sh_queues _ _ _ Hs2).
  - intros Hcost. specialize (Hl Hcost). destruct Hn as [Hn|]; [|done].
    assert (Hle : (queue_load s2 q <= queue_load s' q)%nat); [|lia].
    unfold queue_load. rewrite Hx2, Hx, El. cbn [cq_list].
    rewrite (load_shrinks None [] q _ s' s2 _ Hok' Hok2 Hs2 Hx2) by done.
    change (i :: new ++ l ++ more) with ([i] ++ new ++ l ++ more). rewrite (load_app s' [i]), (load_app s' [i]).
    apply Nat.add_le_mono_l, load_filter.
  - rewrite <- (ran_weight _ _ _ _ _ _ _ Hok Hfo Hran).
    pose proof (load_shrinks None [] q _ s' s2 [i] Hok' Hok2 Hs2 Hx2) as E. unfold load in E. cbn [sum_list_with] in E.
    rewrite !Nat.add_0_r in E. apply E. intros j ->%list_elem_of_singleton. cbn [cq_list]. constructor.
  - intros j Hj Hns. destruct (q_items s2 !! j) as [b|] eqn:Hb; [|done]. exfalso. apply Hns. intros (_ & _ & Egr).
    pose proof (sh_items _ _ _ Hs2 j b Hb) as Hb'.
    destruct (qk_on _ _ _ Hok q y j Hy) as (a & Ha & Hq); [rewrite Ely; by constructor|].
    destruct (kp_items _ _ Hk j a q Ha Hq) as (b' & Hb2 & E). replace b' with b in * by congruence.
    destruct (qk_in _ _ _ Hok2 j b q) as (z & Hz & Hjz); [done|by rewrite (still_queue _ _ E)|].
    rewrite Hx2 in Hz. injection Hz as <-. cbn [cq_list] in Hjz. apply elem_of_cons in Hjz as [->|Hjz].
    + pose proof (qk_nodup _ _ _ Hok q y Hy) as Hnd. rewrite Ely in Hnd. by apply NoDup_cons in Hnd as [Hil _].
    + apply list_elem_of_filter in Hjz as [Hjz _]. apply Hjz. unfold group_of in *. rewrite Hb'. rewrite Ha in Egr.
      cbn in Egr |- *. destruct E as [ [] _]. cbn in *. congruence.
Qed.

Lemma kept_number n s : kept s (set_number n s).
Proof. split; try done; intros; by eexists. Qed.

(** The first item of a queue is run. *)
Lemma fire_ok i q l it s : queues_ok None [] s -> first_of i q l it s ->
  exists r s', fire i s = Some (r, s') /\ fired i q l (fail_group it) r s s'.
Proof using All.
  intros Hok Hfo. unfold fire. set (n := u32 _). set (s0 := upd_item _ i _).
  assert (C0 : calm None s s0).
  { assert (Hn : queues_ok None [] (set_number n s)) by by apply ok_number.
    split; [by apply ok_upd_item|etrans; [apply (kept_number n)|apply upd_item_kept; intros; by apply same_still]|done|].
    intros p. unfold s0. by rewrite queue_load_upd_item. }
  destruct (first_of_calm None i q l it s s0 Hfo C0) as (it0 & Hfo0 & S0).
  assert (Ew : weight s0 i = weight s i) by (unfold s0; by rewrite weight_upd_item).
  rewrite (fo_item _ _ _ _ _ Hfo0). cbn [mbind option_bind].
  assert (Hlt : (weight s i - 1 < weight s i \/ ~ costs_ok)%nat).
  { destruct (decide (0 < weight s i)%nat); [left; lia|right]. intros Hcost.
    pose proof (weight_positive None [] i it s Hok (fo_item _ _ _ _ _ Hfo) Hcost). lia. }
  assert (Hbody : exists r s2, (match it_type it0 with
                  | CMDQ_COMMAND =>
                      '(retval, s) ← cmdq_fire_command i s0;
                      s ← (if bool_decide (retval = CMD_RETURN_ERROR) then cmdq_remove_group i s else Some s);
                      Some (retval, s)
                  | CMDQ_CALLBACK => cmdq_fire_callback i s0
                  end) = Some (r, s2) /\ fired i q l (fail_group it) r s s2).
  { destruct (it_type it0) eqn:Et.
    - destruct (fire_command_ok' i q l it0 s0 (cm_ok _ _ _ C0) Hfo0 Et) as (r & s1 & -> & Hran).
      cbn [mbind option_bind]. rewrite Ew in Hran. apply (calm_ran _ _ _ _ it s) in Hran; [|done..].
      assert (Et' : it_type it = CMDQ_COMMAND) by (by rewrite (si_type _ _ S0)).
      destruct (decide (r = CMD_RETURN_ERROR)) as [->|Hne].
      + rewrite bool_decide_eq_true_2 by done.
        destruct (ran_remove_group i q l it _ s s1 Hok Hfo Et' Hran Hlt) as (s2 & -> & Hf). by eexists _, s2.
      + rewrite bool_decide_eq_false_2 by done. eexists r, s1. split; [done|]. eapply ran_fired; [done..|by left].
    - destruct (fire_callback_ok i q l it0 s0 (cm_ok _ _ _ C0) Hfo0 Et) as (r & s1 & -> & Hran).
      rewrite Ew in Hran. apply (calm_ran _ _ _ _ it s) in Hran; [|done..].
      exists r, s1. split; [done|]. eapply ran_fired; [done..|right]. unfold fail_group. by rewrite (si_type _ _ S0), Et. }
  destruct Hbody as (r & s2 & -> & [Hok2 (x & new & more & Hx & El) Hi2 Ho2 Hl2 Hw2 Hg2 Hr2]). cbn [mbind option_bind].
  exists r. eexists. split; [done|].
  destruct (qk_on _ _ _ Hok2 q x i Hx) as (b & Hb & Hbq); [rewrite El; constructor|].
  destruct (fo_list _ _ _ _ _ Hfo) as (y & Hy & Ely). pose proof (qk_nodup _ _ _ Hok q y Hy) as Hnd. rewrite Ely in Hnd.
  apply NoDup_cons in Hnd as [Hil _]. split; fields.
  - eapply (ok_set_flags i b q x (fun it => Z.lor (it_flags it) CMDQ_FIRED)); [done..|by rewrite El].
  - exists x, new, more. done.
  - intros j a c Hj Ha Hc. rewrite lookup_alter_ne in Hc by (by intros <-). by eapply Hi2.
  - done.
  - intros Hcost. rewrite queue_load_upd_item by done. by apply Hl2.
  - by rewrite weight_upd_item.
  - etrans; [exact Hg2|]. by eapply gone_alter.
  - intros j Hj Hn. apply lookup_alter_None. by apply Hr2.
Qed.

(** Between two turns the item that was running is gone, and what is running is
    set at the start of the next one. *)
Definition between (c : queue_id) s : Prop :=
  exists x, q_queues s !! c = Some x /\ queues_ok None [] (upd_queue (set_cq_item (head (cq_list x))) c s).

Definition in_queue s (c : queue_id) : list Z := match q_queues s !! c with Some x => cq_list x | None => [] end.

Lemma in_queue_is c s x : q_queues s !! c = Some x -> in_queue s c = cq_list x.
Proof. intros Hx. unfold in_queue. by rewrite Hx. Qed.

Lemma in_queue_set c g s : in_queue (upd_queue (set_cq_item g) c s) c = in_queue s c.
Proof. unfold in_queue. fields. rewrite lookup_alter_eq. by destruct (q_queues s !! c). Qed.

Lemma queue_load_set c g s p : queue_load (upd_queue (set_cq_item g) c s) p = queue_load s p.
Proof.
  unfold queue_load. fields. destruct (decide (c = p)) as [->|Hne]; [|by rewrite lookup_alter_ne].
  rewrite lookup_alter_eq. by destruct (q_queues s !! p).
Qed.

(** The first item goes away at the end of a turn. *)
Lemma remove_first i it c l s : queues_ok None [] s -> q_items s !! i = Some it -> it_queue it = Some c ->
  in_queue s c = i :: l -> exists s', cmdq_remove i s = Some s' /\ between c s' /\ in_queue s' c = l /\
    shrinks c s s' /\ q_items s' !! i = None /\ (queue_load s' c + weight s i = queue_load s c)%nat.
Proof using All.
  intros Hok Hi Hq El. unfold in_queue in El. destruct (q_queues s !! c) as [x|] eqn:Hx; [|done].
  destruct (remove_ok i it c x s Hok Hi Hq Hx) as (s' & E & Hg & Hx' & Hs & Ei). exists s'.
  pose proof (qk_nodup _ _ _ Hok c x Hx) as Hnd. rewrite El in Hnd. apply NoDup_cons in Hnd as [Hil Hnd].
  assert (Er : tailq_remove i (cq_list x) = l).
  { rewrite El. apply (tailq_remove_split i [] l); [apply not_elem_of_nil|done]. }
  rewrite Er in *. specialize (Hg (head l) (fun j H => H)).
  split_and!; [done| | |done|by rewrite Ei, lookup_delete_eq|].
  - exists (Queue (cq_item x) l). done.
  - unfold in_queue. by rewrite Hx'.
  - unfold queue_load. rewrite Hx', Hx, El. cbn [cq_list].
    change (load s (i :: l)) with (weight s i + load s l)%nat.
    pose proof (load_shrinks None [] c (Queue (head l) l) s (upd_queue (set_cq_item (head l)) c s') l Hok Hg) as Hl.
    rewrite <- Hl; [|split; try apply Hs|by fields; rewrite lookup_alter_eq, Hx'|done].
    + assert (E1 : load (upd_queue (set_cq_item (head l)) c s') l = load s' l) by by apply load_ext. lia.
    + intros p Hp. fields. rewrite lookup_alter_ne by done. by apply Hs.
    + etrans; [apply Hs|by apply gone_same].
Qed.

(** What runs in a turn, with its group and what it returned. *)
Definition ran (c : queue_id) s : list (Z * Z * cmd_retval) :=
  match head (in_queue s c) with
  | None => []
  | Some i =>
      match q_items s !! i with
      | None => []
      | Some it =>
          if has (it_flags it) CMDQ_FIRED then []
          else match fire i (upd_queue (set_cq_item (Some i)) c s) with
               | Some (r, _) => [(i, fail_group it, r)]
               | None => []
               end
      end
  end.

(** No item that was run has failed with the group of the item. *)
Definition unfailed (tr : list (Z * Z * cmd_retval)) s (j : Z) : Prop :=
  Forall (fun e => stays e.2 e.1.2 s j) tr.

#[global] Instance unfailed_dec tr s j : Decision (unfailed tr s j).
Proof. unfold unfailed. apply _. Defined.

(** A turn that goes on. *)
Record went_on (c : queue_id) (i : Z) (l : list Z) s s' : Prop := WentOn {
  wo_between : between c s';
  wo_queue : exists new more, in_queue s' c = new ++ filter (unfailed (ran c s) s) l ++ more;
  wo_items : forall j a b, j ∈ l -> q_items s !! j = Some a -> q_items s' !! j = Some b -> still a b;
  wo_ran : (ran c s = [] /\ exists it, q_items s !! i = Some it /\ has (it_flags it) CMDQ_FIRED = true) \/
    exists g r, ran c s = [(i, g, r)];
  wo_load : costs_ok -> (queue_load s' c < queue_load s c)%nat;
  wo_gone : gone s s';
  wo_first : q_items s' !! i = None;
  wo_removed : forall j, j ∈ l -> ~ unfailed (ran c s) s j -> q_items s' !! j = None
}.

(** The queue is empty, or its first item waits. *)
Definition at_rest (c : queue_id) s : Prop :=
  queues_ok None [] s /\ exists x, q_queues s !! c = Some x /\
    (cq_list x = [] \/ exists i it, head (cq_list x) = Some i /\ q_items s !! i = Some it /\
       has (it_flags it) CMDQ_WAITING = true).

Lemma set_flag_has z b : has b b = true -> has (Z.lor z b) b = true.
Proof.
  unfold has. rewrite !negb_true_iff, !Z.eqb_neq. intros Hb E. apply Hb. apply Z.bits_inj'. intros k Hk.
  assert (Ek : Z.testbit (Z.land (Z.lor z b) b) k = false) by (by rewrite E, Z.bits_0).
  rewrite Z.land_spec, Z.lor_spec in Ek. rewrite Z.land_spec, Z.bits_0.
  by destruct (Z.testbit z k), (Z.testbit b k).
Qed.

Lemma unfailed_one i g r s j : unfailed [(i, g, r)] s j <-> stays r g s j.
Proof. unfold unfailed. rewrite Forall_singleton. done. Qed.

(** The first item has been run: it waits, or goes away. *)
Lemma turn_fired c i it x n s : queues_ok None [] s -> q_queues s !! c = Some x -> q_items s !! i = Some it ->
  has (it_flags it) CMDQ_FIRED = false -> has (it_flags it) CMDQ_WAITING = false ->
  forall l s0, cq_list x = i :: l -> s = upd_queue (set_cq_item (Some i)) c s0 -> q_items s0 = q_items s ->
  exists r, ('(retval, s) ← fire i s;
        if bool_decide (retval = CMD_RETURN_WAIT)
        then Some (inr (n, upd_item (fun it => set_it_flags (Z.lor (it_flags it) CMDQ_WAITING) it) i s))
        else s ← cmdq_remove i s; Some (inl (u32 (n + 1), s))) = Some r /\
    match r with inl (_, s') => went_on c i l s0 s' | inr (_, s') => at_rest c s' /\ in_queue s' c <> [] end.
Proof using All.
  intros Hok Hx Hi Hf Hw l s0 El Es Ei.
  assert (Hq : it_queue it = Some c).
  { destruct (qk_on _ _ _ Hok c x i Hx) as (a & Ha & Haq); [rewrite El; constructor|]. congruence. }
  assert (Hfo : first_of i c l it s) by (split; [done|done|by exists x|done]).
  assert (Hl0 : in_queue s0 c = i :: l).
  { transitivity (in_queue s c); [by rewrite Es, in_queue_set|]. unfold in_queue. by rewrite Hx. }
  destruct (fire_ok i c l it s Hok Hfo) as (r & s1 & E & [Hok1 (x1 & new & more & Hx1 & El1) Hi1 Ho1 Hl1 Hw1 Hg1 Hr1]).
  rewrite E. cbn [mbind option_bind].
  destruct (qk_on _ _ _ Hok1 c x1 i Hx1) as (b & Hb & Hbq); [rewrite El1; constructor|].
  destruct (decide (r = CMD_RETURN_WAIT)) as [->|Hne].
  - rewrite bool_decide_eq_true_2 by done. eexists. split; [done|].
    split; [split|unfold in_queue; fields; by rewrite Hx1, El1].
    + eapply (ok_set_flags i b c x1 (fun it => Z.lor (it_flags it) CMDQ_WAITING)); [done..|by rewrite El1].
    + exists x1. split; [done|]. right. exists i. eexists. rewrite El1. split_and!; [done| |].
      * fields. by rewrite lookup_alter_eq, Hb.
      * cbn. by apply set_flag_has.
  - rewrite bool_decide_eq_false_2 by done.
    destruct (remove_first i b c (new ++ filter (stays r (fail_group it) s) l ++ more) s1 Hok1 Hb Hbq) as
      (s2 & E2 & Hbt & Hl2 & Hs2 & Hn2 & Hload); [unfold in_queue; by rewrite Hx1|].
    rewrite E2. cbn [mbind option_bind]. eexists. split; [done|].
    assert (Eran : ran c s0 = [(i, fail_group it, r)]).
    { unfold ran. rewrite Hl0. cbn [head]. rewrite Ei, Hi, Hf, <- Es, E. done. }
    split; [done| | | | | |done|].
    + exists new, more. rewrite Hl2. do 2 f_equal. apply filter_same. intros j Hj. rewrite Eran, unfailed_one.
      unfold stays, group_of. by rewrite Ei.
    + intros j a d Hj Ha Hd. rewrite Ei in Ha. apply (sh_items _ _ _ Hs2) in Hd. by eapply Hi1.
    + right. by eexists _, _.
    + intros Hcost. specialize (Hl1 Hcost). rewrite Hw1 in Hload.
      assert (E0 : queue_load s c = queue_load s0 c) by (by rewrite Es, queue_load_set). lia.
    + etrans; [|apply Hs2]. etrans; [|exact Hg1]. rewrite Es. by apply gone_same.
    + intros j Hj. rewrite Eran, unfailed_one. intros Hns. destruct (q_items s2 !! j) as [b'|] eqn:Eb; [|done].
      apply (sh_items _ _ _ Hs2) in Eb. rewrite (Hr1 j Hj) in Eb; [done|]. intros Hst. apply Hns.
      revert Hst. unfold stays, group_of. by rewrite Ei.
Qed.

(** Every turn is defined: it goes on with the rest of the queue, or the loop
    is at its end. *)
Lemma next_turn_ok c n s : between c s -> exists r, next_turn c (n, s) = Some r /\
  match r with
  | inl (_, s') => exists i l, in_queue s c = i :: l /\ went_on c i l s s'
  | inr (_, s') => at_rest c s' /\ (in_queue s' c = [] -> in_queue s c = [])
  end.
Proof using All.
  intros (x & Hx & Hok). unfold next_turn. rewrite Hx. cbn [mbind option_bind].
  assert (Hx1 : forall g, q_queues (upd_queue (set_cq_item g) c s) !! c = Some (set_cq_item g x)).
  { intros g. fields. by rewrite lookup_alter_eq, Hx. }
  destruct (cq_list x) as [|i l] eqn:El; cbn [head] in *.
  { eexists. split; [done|]. split; [|intros _; unfold in_queue; by rewrite Hx]. split; [done|].
    eexists. split; [apply Hx1|]. by left. }
  set (s1 := upd_queue (set_cq_item (Some i)) c s) in *. specialize (Hx1 (Some i)). fold s1 in Hx1.
  destruct (qk_on _ _ _ Hok c _ i Hx1) as (it & Hi & Hq); [cbn; rewrite El; constructor|].
  rewrite Hi. change (q_items s !! i = Some it) in Hi. cbn [mbind option_bind].
  destruct (has (it_flags it) CMDQ_WAITING) eqn:Ew.
  { eexists. split; [done|]. split; [|unfold in_queue; rewrite Hx1; cbn; by rewrite El]. split; [done|].
    eexists. split; [exact Hx1|]. right. exists i, it. cbn. by rewrite El. }
  destruct (has (it_flags it) CMDQ_FIRED) eqn:Ef; cbn [negb].
  - destruct (remove_first i it c l s1 Hok Hi Hq) as (s2 & -> & Hbt & Hl2 & Hs2 & Hn2 & Hload).
    { unfold in_queue. rewrite Hx1. done. }
    cbn [mbind option_bind]. eexists. split; [done|]. exists i, l.
    assert (Hl0 : in_queue s c = i :: l) by (unfold in_queue; by rewrite Hx).
    assert (Eran : ran c s = []) by (unfold ran; rewrite Hl0; cbn [head]; by rewrite Hi, Ef).
    split; [done|]. split; [done| | | | |by etrans; [|apply (sh_gone _ _ _ Hs2)]; apply gone_same|done|intros j _ Hn; rewrite Eran in Hn; destruct Hn; by constructor].
    + exists [], []. rewrite Hl2, app_nil_r, Eran, filter_all; [done|]. intros j. by constructor.
    + intros j a b Hj Ha Hb. apply (sh_items _ _ _ Hs2) in Hb. change (q_items s1) with (q_items s) in Hb.
      replace b with a by congruence. reflexivity.
    + left. split; [done|]. by exists it.
    + intros Hcost. pose proof (weight_positive None [] i it s1 Hok Hi Hcost).
      assert (E0 : queue_load s1 c = queue_load s c) by apply queue_load_set. lia.
  - destruct (turn_fired c i it _ n s1 Hok Hx1 Hi Ef Ew l s) as (r & E & Hr); [done..|].
    exists r. split; [exact E|]. destruct r as [ [m s']|[m s'] ]; [|by destruct Hr].
    exists i, l.
    split; [|done]. unfold in_queue. by rewrite Hx.
Qed.

(** Turns that go on, with what is run in them. *)
Inductive runs (c : queue_id) : server rest -> list (Z * Z * cmd_retval) -> server rest -> Prop :=
  | runs_none s : runs c s [] s
  | runs_turn n m s s1 s2 tr : next_turn c (n, s) = Some (inl (m, s1)) -> runs c s1 tr s2 ->
      runs c s (ran c s ++ tr) s2.

Lemma start_between c s : queues_ok None [] s -> is_Some (q_queues s !! c) -> between c s.
Proof. intros Hok [x Hx]. exists x. split; [done|by apply ok_running]. Qed.

Lemma turn_went_on c n m s s1 : between c s -> next_turn c (n, s) = Some (inl (m, s1)) ->
  exists i l, in_queue s c = i :: l /\ went_on c i l s s1.
Proof using All.
  intros Hb E. destruct (next_turn_ok c n s Hb) as (r & E' & Hr). rewrite E in E'. by injection E' as <-.
Qed.

Lemma runs_between c s tr s' : runs c s tr s' -> between c s -> between c s'.
Proof using All.
  induction 1 as [|n m s s1 s2 tr E _ IH]; [done|]. intros Hb. apply IH.
  destruct (turn_went_on c n m s s1 Hb E) as (i & l & _ & []). done.
Qed.

Lemma unfailed_app t1 t2 s j : unfailed (t1 ++ t2) s j <-> unfailed t1 s j /\ unfailed t2 s j.
Proof. unfold unfailed. by rewrite Forall_app. Qed.

(** What is known of an item that is still on the queue after a turn. *)
Lemma went_on_item c i l s s1 j : in_queue s c = i :: l -> between c s -> went_on c i l s s1 ->
  j ∈ l -> j ∈ in_queue s1 c -> exists a b, q_items s !! j = Some a /\ q_items s1 !! j = Some b /\ still a b /\ it_flags a = 0.
Proof.
  intros El (x & Hx & Hok) Hw Hj Hj1. unfold in_queue in El. rewrite Hx in El.
  assert (Hx1 : q_queues (upd_queue (set_cq_item (head (cq_list x))) c s) !! c = Some (set_cq_item (head (cq_list x)) x)).
  { fields. by rewrite lookup_alter_eq, Hx. }
  destruct (qk_on _ _ _ Hok c _ j Hx1) as (a & Ha & Hq); [cbn; rewrite El; by constructor|].
  change (q_items s !! j = Some a) in Ha.
  destruct Hw as [(y & Hy & Hok1) _ Hi _ _]. unfold in_queue in Hj1. rewrite Hy in Hj1.
  destruct (qk_on _ _ _ Hok1 c (set_cq_item (head (cq_list y)) y) j) as (b & Hb & _);
    [fields; by rewrite lookup_alter_eq, Hy|done|].
  change (q_items s1 !! j = Some b) in Hb. exists a, b. split_and!; [done..|by eapply Hi|].
  destruct (qk_flags _ _ _ Hok j a Ha) as [|(p & z & Ep & Hz & Hh)]; [done|].
  rewrite Hq in Ep. injection Ep as <-. rewrite Hx1 in Hz. injection Hz as <-. cbn in Hh. rewrite El in Hh.
  injection Hh as ->. pose proof (qk_nodup _ _ _ Hok c _ Hx1) as Hnd. cbn in Hnd. rewrite El in Hnd.
  apply NoDup_cons in Hnd as [Hn _]. done.
Qed.

Lemma still_group a b : still a b -> it_group b = it_group a.
Proof. intros [ [] _]. done. Qed.

(** What has been freed stays so; an item is run while it is there, and is
    freed then. *)
Lemma runs_gone c s tr s' : runs c s tr s' -> between c s -> gone s s'.
Proof using All.
  induction 1 as [|n m s s1 s2 tr E _ IH]; [done|]. intros Hb.
  destruct (turn_went_on c n m s s1 Hb E) as (i & l & _ & []). etrans; [done|by apply IH].
Qed.

Definition ids (tr : list (Z * Z * cmd_retval)) : list Z := map (fun e => e.1.1) tr.

Lemma ids_app t1 t2 : ids (t1 ++ t2) = ids t1 ++ ids t2.
Proof. apply map_app. Qed.

Lemma went_on_ids c i l s s1 j : went_on c i l s s1 -> j ∈ ids (ran c s) -> j = i.
Proof.
  intros [_ _ _ [ [-> _]|(g & r & ->)] _ _ _ _]; [by intros ?%not_elem_of_nil|]. by intros ?%list_elem_of_singleton.
Qed.

Lemma queue_there c s j : between c s -> j ∈ in_queue s c -> is_Some (q_items s !! j) /\ j < q_next s.
Proof.
  intros (x & Hx & Hok) Hj. unfold in_queue in Hj. rewrite Hx in Hj.
  destruct (qk_on _ _ _ Hok c (set_cq_item (head (cq_list x)) x) j) as (a & Ha & _);
    [fields; by rewrite lookup_alter_eq, Hx|done|]. split; [by exists a|]. by apply (qk_item _ _ _ Hok j a).
Qed.

Lemma queue_nodup c s : between c s -> NoDup (in_queue s c).
Proof.
  intros (x & Hx & Hok). unfold in_queue. rewrite Hx.
  apply (qk_nodup _ _ _ Hok c (set_cq_item (head (cq_list x)) x)). fields. by rewrite lookup_alter_eq, Hx.
Qed.

Lemma runs_absent c s tr s' j : runs c s tr s' -> between c s -> j < q_next s -> q_items s !! j = None -> j ∉ ids tr.
Proof using All.
  induction 1 as [|n m s s1 s2 tr E _ IH]; intros Hb Hj Hn; [apply not_elem_of_nil|].
  destruct (turn_went_on c n m s s1 Hb E) as (i & l & El & Hw). rewrite ids_app, not_elem_of_app. split.
  - intros Hji. apply (went_on_ids _ _ _ _ _ _ Hw) in Hji as ->.
    destruct (queue_there c s i Hb) as [ [a Ha] _]; [rewrite El; constructor|congruence].
  - pose proof (wo_gone _ _ _ _ _ Hw) as [Hlt Hg]. apply IH; [apply Hw|lia|by apply Hg].
Qed.

(** An item is run once. *)
Lemma runs_once c s tr s' : runs c s tr s' -> between c s -> NoDup (ids tr).
Proof using All.
  induction 1 as [|n m s s1 s2 tr E Hr IH]; intros Hb; [apply NoDup_nil_2|].
  destruct (turn_went_on c n m s s1 Hb E) as (i & l & El & Hw). pose proof Hw as [Hb1 _ _ Hran _ Hg Hi _].
  rewrite ids_app. apply NoDup_app. split_and!; [|intros j Hj|by apply IH].
  - destruct Hran as [ [-> _]|(g & r & ->)]; [apply NoDup_nil_2|apply NoDup_singleton].
  - apply (went_on_ids _ _ _ _ _ _ Hw) in Hj as ->. apply (runs_absent c s1 tr s2); [done..| |done].
    destruct (queue_there c s i Hb) as [_ Hlt]; [rewrite El; constructor|]. pose proof (gn_next _ _ Hg). lia.
Qed.

(** An item that another one has failed is freed. *)
Lemma runs_removed c s tr s' j : runs c s tr s' -> between c s -> j ∈ in_queue s c -> ~ unfailed tr s j ->
  q_items s' !! j = None /\ j < q_next s'.
Proof using All.
  intros Hr Hb Hj. destruct (queue_there c s j Hb Hj) as [_ Hlt]. revert Hb Hj Hlt.
  induction Hr as [|n m s s1 s2 tr E Hr IH]; intros Hb Hj Hlt Hn; [destruct Hn; by constructor|].
  destruct (turn_went_on c n m s s1 Hb E) as (i & l & El & Hw). pose proof (runs_gone _ _ _ _ Hr (wo_between _ _ _ _ _ Hw)) as Hg.
  pose proof Hw as [Hb1 (new & more & El1) _ _ _ [Hnx _] Hi Hrm].
  assert (Hdone : q_items s1 !! j = None -> q_items s2 !! j = None /\ j < q_next s2).
  { intros Hj1. destruct Hg as [Hnx2 Hg]. split; [apply Hg; [lia|done]|lia]. }
  pose proof Hj as Hj'. rewrite El in Hj'. apply elem_of_cons in Hj' as [->|Hjl]; [by apply Hdone|].
  destruct (decide (unfailed (ran c s) s j)) as [Hu|Hu]; [|by apply Hdone, Hrm].
  assert (Hj1 : j ∈ in_queue s1 c) by (rewrite El1, !elem_of_app, list_elem_of_filter; tauto).
  apply IH; [done|done|lia|]. intros Hu1. apply Hn. rewrite unfailed_app. split; [done|].
  destruct (went_on_item c i l s s1 j El Hb Hw Hjl Hj1) as (a & b & Ha & Hbb & S & _).
  revert Hu1. unfold unfailed. rewrite !Forall_forall. intros Hu1 e He. specialize (Hu1 e He).
  revert Hu1. unfold stays, group_of. rewrite Ha, Hbb. cbn. by rewrite (still_group _ _ S).
Qed.

(** Where the loop is with the queue [l1 ++ l2 ++ more] when it has run [tr]:
    it has done with [l1] before it came to [l2], or there is something before
    what is left of [l2]. *)
Inductive in_order (c : queue_id) (l1 l2 : list Z) (s : server rest) (tr : list (Z * Z * cmd_retval)) (s' : server rest) : Prop :=
  | order_done t1 t2 s1 more' : tr = t1 ++ t2 -> runs c s t1 s1 -> runs c s1 t2 s' ->
      in_queue s1 c = filter (unfailed t1 s) l2 ++ more' ->
      (forall j, j ∈ l2 -> j ∉ ids t1) ->
      (forall j, j ∈ l1 -> unfailed t1 s j -> j ∈ ids t1 \/
         exists it, q_items s !! j = Some it /\ has (it_flags it) CMDQ_FIRED = true) ->
      in_order c l1 l2 s tr s'
  | order_held left more' : left <> [] ->
      in_queue s' c = left ++ filter (unfailed tr s) l2 ++ more' -> (forall j, j ∈ l2 -> j ∉ ids tr) ->
      in_order c l1 l2 s tr s'.

(** Of an item behind the first one that has not been failed by it, the rest of
    the loop knows as much. *)
Lemma unfailed_later c i l s s1 tr j : in_queue s c = i :: l -> between c s -> went_on c i l s s1 ->
  j ∈ l -> unfailed (ran c s) s j -> (unfailed tr s1 j <-> unfailed tr s j) /\ j ∈ in_queue s1 c /\
  forall b, q_items s1 !! j = Some b -> has (it_flags b) CMDQ_FIRED = false.
Proof.
  intros El Hb Hw Hj Hu. pose proof (wo_queue _ _ _ _ _ Hw) as (new & more & El1).
  assert (Hj1 : j ∈ in_queue s1 c) by (rewrite El1, !elem_of_app, list_elem_of_filter; tauto).
  destruct (went_on_item c i l s s1 j El Hb Hw Hj Hj1) as (a & b & Ha & Hbb & S & Ea). split_and!; [|done|].
  - unfold unfailed. apply Forall_iff. intros e. unfold stays, group_of. rewrite Ha, Hbb. cbn. by rewrite (still_group _ _ S).
  - intros b' Hb'. replace b' with b by congruence. by destruct S as [_ [->| ->]]; rewrite ?Ea.
Qed.

(** The items of [l2] come after those before them. *)
Lemma runs_split c s tr s' : runs c s tr s' -> forall l1 l2 more, between c s ->
  in_queue s c = l1 ++ l2 ++ more -> in_order c l1 l2 s tr s'.
Proof using All.
  induction 1 as [s|n m s s1 s2 tr E Hr IH]; intros l1 l2 more Hb El.
  { destruct l1 as [|i p].
    - apply (order_done c [] l2 s [] s [] [] s more); [done|constructor|constructor| | |].
      + rewrite filter_all; [done|]. intros j. constructor.
      + intros j _. apply not_elem_of_nil.
      + intros j Hj. by apply not_elem_of_nil in Hj.
    - apply (order_held c _ _ _ _ _ (i :: p) more); [done| |intros j _; apply not_elem_of_nil].
      rewrite filter_all; [done|]. intros j. constructor. }
  destruct l1 as [|i p].
  { apply (order_done c [] l2 s _ s2 [] (ran c s ++ tr) s more); [done|constructor|by econstructor| | |].
    - rewrite filter_all; [done|]. intros j. constructor.
    - intros j _. apply not_elem_of_nil.
    - intros j Hj. by apply not_elem_of_nil in Hj. }
  destruct (turn_went_on c n m s s1 Hb E) as (i' & l & El' & Hw). pose proof El' as El0.
  rewrite El in El'. cbn [app] in El'. injection El' as <- <-.
  pose proof Hw as [Hb1 (new & mo & El1) _ Hran _ Hg Hi Hrm]. set (K := unfailed (ran c s) s) in *.
  pose proof (fun tr j => unfailed_later c i _ s s1 tr j El0 Hb Hw) as Hlater. fold K in Hlater.
  assert (Hnd : i ∉ p ++ l2 ++ more).
  { pose proof (queue_nodup c s Hb) as Hnd. rewrite El0 in Hnd. by apply NoDup_cons in Hnd as [Hn _]. }
  assert (Hr1 : forall j, j ∈ l2 -> j ∉ ids (ran c s)).
  { intros j Hj Hji. apply (went_on_ids _ _ _ _ _ _ Hw) in Hji as ->. set_solver. }
  assert (Ef : forall t, filter (unfailed (ran c s ++ t) s) l2 = filter (unfailed t s1) (filter K l2)).
  { intros t. rewrite list_filter_filter. apply filter_same. intros j Hj. rewrite unfailed_app. fold K.
    split; [intros [HK Hu]; split; [|done]|intros [Hu HK]; split; [done|] ];
      destruct (Hlater t j) as [Hiff _]; [set_solver|done|by apply Hiff|set_solver|done|by apply Hiff]. }
  assert (Hno : forall t s3, runs c s1 t s3 -> (forall j, j ∈ filter K l2 -> j ∉ ids t) -> forall j, j ∈ l2 -> j ∉ ids (ran c s ++ t)).
  { intros t s3 Ht Hn j Hj. rewrite ids_app, not_elem_of_app. split; [by apply Hr1|].
    destruct (decide (K j)) as [HK|HK]; [by apply Hn, list_elem_of_filter|].
    destruct (queue_there c s j Hb) as [_ Hlt]; [rewrite El; set_solver|]. destruct Hg as [Hnx _].
    eapply runs_absent; [done..|lia|]. apply Hrm; [set_solver|done]. }
  rewrite !filter_app in El1.
  destruct (IH (new ++ filter K p) (filter K l2) (filter K more ++ mo) Hb1) as
    [t1 t2 s3 more' -> R1 R2 El3 Hn Hall|left more' Hl Els Hn]; [by rewrite El1, <- !app_assoc| |].
  - apply (order_done c _ _ _ _ _ (ran c s ++ t1) t2 s3 more'); [by rewrite app_assoc|by econstructor|done|by rewrite Ef|by eapply Hno|].
    intros j. rewrite elem_of_cons, unfailed_app, ids_app, elem_of_app. intros Hj [HK Hu]. destruct Hj as [->|Hj].
    + destruct Hran as [ [_ Hf]|(g & r & ->)]; [by right|]. left. left. cbn. constructor.
    + destruct (Hlater t1 j) as (Hiff & _ & Hfl); [set_solver|done|].
      assert (Hjn : j ∈ new ++ filter K p) by (apply elem_of_app; right; by apply list_elem_of_filter).
      destruct (Hall j Hjn) as [Ht|(it & Hit & Hf)]; [by apply Hiff|by left; right|].
      by rewrite (Hfl it Hit) in Hf.
  - apply (order_held c _ _ _ _ _ left more'); [done|by rewrite Ef|by eapply Hno].
Qed.

(** ** The loop *)

Lemma turn_count c n m s s1 : next_turn c (n, s) = Some (inl (m, s1)) ->
  (ran c s = [] /\ m = n) \/ (length (ran c s) = 1%nat /\ m = u32 (n + 1)).
Proof.
  unfold next_turn, ran, in_queue. destruct (q_queues s !! c) as [x|]; [|done]. cbn [mbind option_bind].
  destruct (cq_list x) as [|i l]; [done|]. cbn [head]. fields.
  destruct (q_items s !! i) as [it|]; [|done]. cbn [mbind option_bind].
  destruct (has (it_flags it) CMDQ_WAITING); [done|]. destruct (has (it_flags it) CMDQ_FIRED); cbn [negb].
  - destruct (cmdq_remove i _) as [s2|]; [|done]. cbn. intros [= -> _]. by left.
  - change (upd_queue (set_cq_item (Some i)) c s) with (set_queues (alter (set_cq_item (Some i)) c (q_queues s)) s).
    destruct (fire i _) as [ [r s2]|]; [|done]. cbn [mbind option_bind]. case_bool_decide; [done|].
    destruct (cmdq_remove i s2) as [s3|]; [|done]. cbn. intros [= <- _]. by right.
Qed.

Lemma turn_counts c n m s s' : next_turn c (n, s) = Some (inr (m, s')) -> m = n.
Proof.
  unfold next_turn. destruct (q_queues s !! c) as [x|]; [|done]. cbn [mbind option_bind].
  destruct (head (cq_list x)) as [i|]; [|by intros [= -> _] ]. fields.
  destruct (q_items s !! i) as [it|]; [|done]. cbn [mbind option_bind].
  destruct (has (it_flags it) CMDQ_WAITING); [by intros [= -> _]|]. destruct (has (it_flags it) CMDQ_FIRED); cbn [negb].
  { by destruct (cmdq_remove i _). }
  destruct (fire i _) as [ [r s2]|]; [|done]. cbn [mbind option_bind].
  case_bool_decide; [by intros [= -> _]|by destruct (cmdq_remove i s2)].
Qed.

(** The turns of the loop up to its last one, with what they ran counted. *)
Lemma iterate_runs c fuel : forall k s n' s', between c s ->
  iterate fuel (next_turn c) (u32 k, s) = Some (n', s') ->
  exists tr s1, runs c s tr s1 /\ next_turn c (n', s1) = Some (inr (n', s')) /\
    n' = u32 (k + Z.of_nat (length tr)).
Proof using All.
  induction fuel as [|fuel IH]; intros k s n' s' Hb E; [done|]. cbn [iterate] in E.
  destruct (next_turn c (u32 k, s)) as [ [ [m s1]|[m s1] ]|] eqn:Et; cbn [mbind option_bind] in E; [| |done].
  - destruct (turn_went_on c _ m s s1 Hb Et) as (i & l & _ & Hw). destruct Hw.
    assert (Em : m = u32 (k + Z.of_nat (length (ran c s)))).
    { destruct (turn_count c _ m s s1 Et) as [ [-> ->]|[-> ->] ]; cbn; [f_equal; lia|].
      unfold u32. by rewrite Zplus_mod_idemp_l. }
    rewrite Em in E. destruct (IH _ s1 n' s' wo_between0 E) as (tr & s2 & Hr & E2 & En).
    exists (ran c s ++ tr), s2. split_and!; [by econstructor|done|]. rewrite En, length_app. f_equal. lia.
  - injection E as -> ->. pose proof (turn_counts c _ _ s s' Et) as ->. exists [], s.
    split_and!; [apply runs_none|done|]. cbn. by rewrite Z.add_0_r.
Qed.

(** ** Lists of commands *)

(** The items [js] are the commands [l], on the queue [q] with the state [st]. *)
Definition commands_of (q : queue_id) (c : option Z) (st : Z) s (js : list Z) (l : list cmd) : Prop :=
  Forall2 (fun j cmd => exists it, q_items s !! j = Some it /\ it_type it = CMDQ_COMMAND /\ it_cmd it = Some cmd /\
    it_group it = cmd_get_group cmd /\ it_queue it = Some q /\ it_client it = c /\ it_state it = st) js l.

Lemma placed_commands q c st cmdlist ids l s s' : placed q c ids s s' -> Forall2 (of_cmd st cmdlist (q_items s)) ids l ->
  commands_of q c st s' ids l.
Proof.
  intros Hp. unfold commands_of. assert (Hin : forall j, j ∈ ids -> j ∈ ids) by done. revert Hin. generalize ids at 1 3 4 as js.
  intros js Hin Hf. induction Hf as [|j x js l (it & Hj & Et & Ec & Eg & Es & _ & _) _ IH]; constructor.
  - destruct (pl_items _ _ _ _ _ Hp j it) as (it' & Hj' & []); [apply Hin; constructor|done|].
    exists it'. split_and!; [done|congruence..].
  - apply IH. intros k Hk. apply Hin. by constructor.
Qed.

(** The items a list of commands is made into, before they are on a queue. *)
Lemma list_made cur held cmdlist state s x : queues_ok cur held s -> q_lists s !! cmdlist = Some x -> cmds x.1 <> [] ->
  (forall st, state = Some st -> is_Some (q_states s !! st)) ->
  exists i ids s' st, cmdq_get_command cmdlist state s = Some (i, s') /\ queues_ok cur held s' /\ made s s' /\
    chain (q_items s') (i :: ids) /\ NoDup (i :: ids) /\ Forall2 (of_cmd st cmdlist (q_items s')) (i :: ids) (cmds x.1) /\
    (forall st0, state = Some st0 -> st = st0) /\
    forall client j it, j ∈ i :: ids -> q_items s' !! j = Some it -> placeable client it.
Proof.
  intros Hok Hx Hne Hst. destruct (get_command_ok cur held cmdlist state s x Hok Hx Hst) as
    (i & ids & s' & E & Hok' & Hm & Hch & Hnd & _ & Hcs).
  destruct (cmds x.1) as [|c l] eqn:El; [done|]. destruct Hcs as (st & y & Hf & _ & Es).
  exists i, ids, s', st. split_and!; try done; [intros st0 ->; done|].
  intros client. by apply (get_command_placeable s' st cmdlist (i :: ids) (c :: l) client).
Qed.

Lemma append_commands_ok cur held c cmdlist state s x y : queues_ok cur held s -> q_lists s !! cmdlist = Some x ->
  cmds x.1 <> [] -> (forall st, state = Some st -> is_Some (q_states s !! st)) ->
  q_queues s !! c = Some y -> (forall d, c = Some d -> is_Some (q_clients s !! d)) ->
  exists i s1 js s2 st, cmdq_get_command cmdlist state s = Some (i, s1) /\ cmdq_append c i s1 = Some (last js, s2) /\
    queues_ok cur held s2 /\ q_queues s2 !! c = Some (Queue (cq_item y) (cq_list y ++ js)) /\
    commands_of c c st s2 js (cmds x.1) /\ forall st0, state = Some st0 -> st = st0.
Proof.
  intros Hok Hx Hne Hst Hy Hc.
  destruct (list_made cur held cmdlist state s x) as (i & ids & s1 & st & E & Hok1 & Hm & Hch & Hnd & Hf & Es & Hpl); [done..|].
  destruct (cmdq_append_ok cur held c i ids s1 y) as (s2 & E2 & Hok2 & Hp & Hq); try done.
  { by rewrite (mk_queues _ _ Hm). }
  { intros d Hd. rewrite (mk_clients _ _ Hm). by apply Hc. }
  { intros j it. by apply Hpl. }
  exists i, s1, (i :: ids), s2, st. split_and!; try done; [|by eapply placed_commands].
  rewrite E2. do 2 f_equal. clear. revert i. induction ids as [|j ids IH]; intros i; [done|].
  by rewrite last_cons_cons, last_cons_next, IH.
Qed.

Lemma insert_commands_ok cur held after a q cmdlist state s x y l1 l2 : queues_ok cur held s ->
  q_lists s !! cmdlist = Some x -> cmds x.1 <> [] -> (forall st, state = Some st -> is_Some (q_states s !! st)) ->
  q_items s !! after = Some a -> it_queue a = Some q -> q_queues s !! q = Some y -> cq_list y = l1 ++ after :: l2 ->
  exists i s1 js j s2 st, cmdq_get_command cmdlist state s = Some (i, s1) /\ cmdq_insert_after after i s1 = Some (j, s2) /\
    last js = Some j /\ queues_ok cur held s2 /\ q_queues s2 !! q = Some (Queue (cq_item y) (l1 ++ after :: js ++ l2)) /\
    commands_of q (it_client a) st s2 js (cmds x.1) /\ forall st0, state = Some st0 -> st = st0.
Proof.
  intros Hok Hx Hne Hst Ha Hq Hy El.
  destruct (list_made cur held cmdlist state s x) as (i & ids & s1 & st & E & Hok1 & Hm & Hch & Hnd & Hf & Es & Hpl); [done..|].
  destruct (mk_items _ _ Hm after a Ha) as (a' & Ha' & Sa).
  destruct (insert_after_ok cur held after a' q i ids s1 y l1 l2) as (s2 & E2 & Hok2 & Hp & Hq2); try done.
  { by rewrite <- (si_queue _ _ Sa). }
  { by rewrite (mk_queues _ _ Hm). }
  { intros j it. by apply Hpl. }
  rewrite <- (si_client _ _ Sa) in Hp.
  exists i, s1, (i :: ids), (List.last ids i), s2, st. split_and!; try done; [|by eapply placed_commands].
  clear. revert i. induction ids as [|j ids IH]; intros i; [done|]. by rewrite last_cons_cons, last_cons_next, IH.
Qed.

Lemma cmdq_next_there fuel (c : option Z) s x : q_queues s !! c = Some x ->
  cmdq_next fuel c s = match cq_list x with
    | [] => Some (0, s)
    | i :: _ =>
        it ← q_items s !! i;
        if has (it_flags it) CMDQ_WAITING then Some (0, s) else iterate fuel (next_turn c) (0, s)
    end.
Proof.
  intros Hx. unfold cmdq_next, cmdq_get. rewrite Hx. cbn [mbind option_bind].
  refine (eq_trans (f_equal (fun o => o ≫= _) _) _); [exact Hx|done].
Qed.

(** ** What is promised *)

(** C14. The queues of commands: whatever commands and callbacks do to a server
    in order, no turn of the loop uses an item, a state, a list of commands or
    a client that has been freed; and when nothing costs as much as it inserts,
    [cmdq_next] returns, with an empty queue or with its first item waiting. *)
Theorem cmdq_next_returns c s : queues_ok None [] s -> is_Some (q_queues s !! c) ->
  (forall tr s1 n, runs c s tr s1 -> is_Some (next_turn c (n, s1))) /\
  forall fuel, costs_ok -> (queue_load s c < fuel)%nat ->
    exists n s', cmdq_next fuel c s = Some (n, s') /\ at_rest c s'.
Proof using All.
  intros Hok Hq. pose proof (start_between c s Hok Hq) as Hb. split.
  { intros tr s1 n Hr. destruct (next_turn_ok c n s1 (runs_between _ _ _ _ Hr Hb)) as (r & E & _). by exists r. }
  intros fuel Hcost Hlt. destruct Hq as [x Hx]. rewrite (cmdq_next_there fuel c s x Hx).
  destruct (cq_list x) as [|i l] eqn:El.
  { exists 0, s. split; [done|]. split; [done|]. exists x. by split; [|left]. }
  destruct (qk_on _ _ _ Hok c x i Hx) as (it & Hi & _); [rewrite El; constructor|]. rewrite Hi. cbn [mbind option_bind].
  destruct (has (it_flags it) CMDQ_WAITING) eqn:Ew.
  { exists 0, s. split; [done|]. split; [done|]. exists x. split; [done|]. right. exists i, it. by rewrite El. }
  destruct (iterate_ok (next_turn c) (fun z => between c z.2) (fun z => at_rest c z.2) (fun z => queue_load z.2 c))
    with (fuel := fuel) (s := (0, s)) as ( [n s'] & E & Hr); [|done|done|by exists n, s'].
  intros [n z] Hz. cbn [snd] in *. destruct (next_turn_ok c n z Hz) as (r & -> & Hr).
  destruct r as [ [m z']|[m z'] ]; [|by destruct Hr]. destruct Hr as (j & k & _ & []). cbn. by split; [|apply wo_load0].
Qed.

(** C13. The commands of a queue are run in their order: [cmdq_next] runs each
    item at most once and counts them; before it comes to an item it has done
    with those that were before it, with all that they inserted, and it has run
    those of them no error has removed; and what a command that failed has
    removed is just the rest of its group. *)
Theorem cmdq_next_in_order fuel c s n s' : queues_ok None [] s -> is_Some (q_queues s !! c) ->
  cmdq_next fuel c s = Some (n, s') ->
  exists tr s1, runs c s tr s1 /\ (s' = s1 \/ next_turn c (n, s1) = Some (inr (n, s'))) /\ at_rest c s' /\
    n = u32 (Z.of_nat (length tr)) /\ NoDup (ids tr) /\
    forall l1 l2 more, in_queue s c = l1 ++ l2 ++ more -> in_order c l1 l2 s tr s1.
Proof using All.
  intros Hok Hq E. pose proof (start_between c s Hok Hq) as Hb.
  assert (Hrun : exists tr s1, runs c s tr s1 /\ (s' = s1 \/ next_turn c (n, s1) = Some (inr (n, s'))) /\
    at_rest c s' /\ n = u32 (Z.of_nat (length tr))).
  { destruct Hq as [x Hx]. rewrite (cmdq_next_there fuel c s x Hx) in E.
    destruct (cq_list x) as [|i l] eqn:El.
    { injection E as <- <-. exists [], s. split; [constructor|]. split; [by left|]. split; [|done]. split; [done|].
      exists x. by split; [|left]. }
    destruct (q_items s !! i) as [it|] eqn:Hi; [|done]. cbn [mbind option_bind] in E.
    destruct (has (it_flags it) CMDQ_WAITING) eqn:Ew.
    { injection E as <- <-. exists [], s. split; [constructor|]. split; [by left|]. split; [|done]. split; [done|].
      exists x. split; [done|]. right. exists i, it. by rewrite El. }
    destruct (iterate_runs c fuel 0 s n s' Hb E) as (tr & s1 & Hr & Et & En). exists tr, s1. split_and!; [done|by right| |done].
    destruct (next_turn_ok c n s1 (runs_between _ _ _ _ Hr Hb)) as (r & E' & Hr'). rewrite Et in E'. injection E' as <-. apply Hr'. }
  destruct Hrun as (tr & s1 & Hr & Hend & Hrest & En). exists tr, s1. split_and!; try done; [by eapply runs_once|].
  intros l1 l2 more El. by eapply runs_split.
Qed.

(** C15. When a command fails, what is left of its group in the queue is freed
    and never run. *)
Theorem failed_group_not_run c s t1 s1 t2 s2 i g j : queues_ok None [] s -> is_Some (q_queues s !! c) ->
  runs c s t1 s1 -> runs c s1 t2 s2 -> (i, g, CMD_RETURN_ERROR) ∈ t1 -> g <> 0 ->
  j ∈ in_queue s c -> group_of s j = Some g -> q_items s1 !! j = None /\ j ∉ ids t2.
Proof using All.
  intros Hok Hq R1 R2 Hin Hg Hj Ej. pose proof (start_between c s Hok Hq) as Hb.
  destruct (runs_removed c s t1 s1 j R1 Hb Hj) as [Hn Hlt].
  { unfold unfailed. rewrite Forall_forall. intros Hall. by apply (Hall _ Hin). }
  split; [done|]. eapply runs_absent; [done|by eapply runs_between|done|done].
Qed.

(** C16. A list of commands becomes items that stand in a queue in the order of
    the commands: at its end, or directly behind an item; each has the group of
    its command and the client of the queue or of that item, and all share one
    state. *)
Theorem commands_queued cur held cmdlist state s x : queues_ok cur held s -> q_lists s !! cmdlist = Some x ->
  cmds x.1 <> [] -> (forall st, state = Some st -> is_Some (q_states s !! st)) ->
  (forall c y, q_queues s !! c = Some y -> (forall d, c = Some d -> is_Some (q_clients s !! d)) ->
    exists i s1 js s2 st, cmdq_get_command cmdlist state s = Some (i, s1) /\ cmdq_append c i s1 = Some (last js, s2) /\
      queues_ok cur held s2 /\ q_queues s2 !! c = Some (Queue (cq_item y) (cq_list y ++ js)) /\
      commands_of c c st s2 js (cmds x.1) /\ forall st0, state = Some st0 -> st = st0) /\
  (forall after a q y l1 l2, q_items s !! after = Some a -> it_queue a = Some q -> q_queues s !! q = Some y ->
    cq_list y = l1 ++ after :: l2 ->
    exists i s1 js j s2 st, cmdq_get_command cmdlist state s = Some (i, s1) /\ cmdq_insert_after after i s1 = Some (j, s2) /\
      last js = Some j /\ queues_ok cur held s2 /\ q_queues s2 !! q = Some (Queue (cq_item y) (l1 ++ after :: js ++ l2)) /\
      commands_of q (it_client a) st s2 js (cmds x.1) /\ forall st0, state = Some st0 -> st = st0).
Proof.
  intros Hok Hx Hne Hst. split.
  - intros c y Hy Hc. by apply append_commands_ok.
  - intros after a q y l1 l2 Ha Hq Hy El. by apply insert_commands_ok.
Qed.

End Queue.

(** ** A server with a few commands *)

#[local] Instance queue_locale : Locale := ascii_locale.

Definition named (name : string) (c : cmd) : bool := bool_decide (ce_name (cmd_get_entry c) = bytes name).

(** Only [set-hook] inserts commands. *)
Definition sample_cost (c : cmd) : nat := if named "set-hook" c then 2 else 1.
Definition sample_cb_cost (cb data : Z) : nat := 1.
Definition sample_hook_cost : nat := 8.

(** The list 0 is the hook [sample], when it is short. *)
Definition sample_hook (session : option Z) (name : list Z) (s : server unit) : option (list (option Z)) :=
  x ← q_lists s !! 0;
  if bool_decide (name = bytes "sample") && bool_decide (list_cost sample_cost x.1 < sample_hook_cost)%nat
  then Some [Some 0] else None.

Definition commands_with (exec : cmd -> Z -> server unit -> option (cmd_retval * server unit)) : Commands unit := {|
  cmd_find_client := fun _ _ _ s => Some (None, s);
  cmd_find_target := fun _ _ _ _ s => Some (Some (cmd_find_clear_state 0), s);
  cmd_find_from_client := fun _ _ => (false, cmd_find_clear_state 0);
  cmd_exec := exec;
  run_cb := fun _ _ _ s => Some (CMD_RETURN_NORMAL, s);
  hook_array := sample_hook;
  time_now := fun _ => 0;
  cfg_finished := fun _ => true;
  proc_get_peer_uid := fun _ _ => 0;
  getuid := 0;
  getpwuid := fun _ => None;
  key_chars := fun _ => UT ∅ ∅ 0
|}.

(** Commands that only return something. *)
Definition quiet_exec (c : cmd) : cmd_retval :=
  if named "kill-session" c then CMD_RETURN_ERROR
  else if named "wait-for" c then CMD_RETURN_WAIT
  else CMD_RETURN_NORMAL.

Definition quiet_commands : Commands unit := commands_with (fun c _ s => Some (quiet_exec c, s)).

(** [set-hook] puts the hook behind itself. *)
Definition sample_exec (c : cmd) (i : Z) (s : server unit) : option (cmd_retval * server unit) :=
  if named "set-hook" c
  then s ← @cmdq_insert_hook unit quiet_commands queue_locale None i None (bytes "sample") s; Some (CMD_RETURN_NORMAL, s)
  else Some (quiet_exec c, s).

Definition sample_server_commands : Commands unit := commands_with sample_exec.

(** What is left to show of commands of this kind is what they run. *)
Lemma commands_with_ok exec :
  (forall c i saved s it q l, queues_ok (Some (i, saved)) [] s -> first_of i q l it s ->
    it_type it = CMDQ_COMMAND -> it_cmd it = Some c ->
    exists r s', exec c i s = Some (r, s') /\ queues_ok (Some (i, saved)) [] s' /\ grows i q l s s') ->
  @CommandsOk unit queue_locale (commands_with exec).
Proof.
  intros Hexec. split.
  - intros cur held i t quiet s _ _. exists None, s. by split_and!.
  - intros cur held i value type flags s _ _. by eexists _, s.
  - intros cur held session name s l c _. cbn. unfold sample_hook. destruct (q_lists s !! 0) as [x|] eqn:E; [|done].
    cbn [mbind option_bind]. destruct (_ && _); [|done]. intros [= <-] [= ->]%list_elem_of_singleton. by rewrite E.
  - exact Hexec.
  - intros cb data i s it q l Hok [Hi Hq (x & Hx & El) _] _ _. exists CMD_RETURN_NORMAL, s.
    split_and!; [done..|]. by eapply grows_same.
Qed.

Lemma commands_with_costs exec :
  (forall c i saved s it st q l r s', queues_ok (Some (i, saved)) [] s -> first_of i q l it s ->
    it_type it = CMDQ_COMMAND -> it_cmd it = Some c ->
    q_states s !! it_state it = Some st -> exec c i s = Some (r, s') ->
    (queue_load sample_cost sample_cb_cost sample_hook_cost s' q <= queue_load sample_cost sample_cb_cost sample_hook_cost s q +
       (sample_cost c - 1) * (if has (st_flags st) CMDQ_STATE_NOHOOKS then 1 else sample_hook_cost))%nat) ->
  @costs_ok unit queue_locale sample_cost sample_cb_cost sample_hook_cost (commands_with exec).
Proof.
  intros Hexec. split.
  - intros c. unfold sample_cost. destruct (named _ c); lia.
  - unfold sample_hook_cost. lia.
  - intros cb data. unfold sample_cb_cost. lia.
  - intros session name s l. cbn. unfold sample_hook. destruct (q_lists s !! 0) as [x|] eqn:E; [|done].
    cbn [mbind option_bind]. case_bool_decide; [|done]. case_bool_decide as Hc; [|done]. intros [= <-].
    unfold hooks_load. cbn [sum_list_with mbind option_bind]. rewrite E. cbn. cbn in Hc. lia.
  - exact Hexec.
  - intros cb data i s it q l r s' _ _ _. cbn. intros [= _ <-]. unfold sample_cb_cost. lia.
Qed.

Lemma quiet_ok : @CommandsOk unit queue_locale quiet_commands.
Proof.
  apply commands_with_ok. intros c i saved s it q l Hok [Hi Hq (x & Hx & El) _] _ _. exists (quiet_exec c), s.
  split_and!; [done..|]. by eapply grows_same.
Qed.

Lemma quiet_costs : @costs_ok unit queue_locale sample_cost sample_cb_cost sample_hook_cost quiet_commands.
Proof. apply commands_with_costs. intros c i saved s it st q l r s' _ _ _ _ _ [= _ <-]. apply Nat.le_add_r. Qed.

(** [set-hook] does what a hook does. *)
Lemma sample_exec_ok c i saved s it st q l : queues_ok (Some (i, saved)) [] s -> first_of i q l it s ->
  it_type it = CMDQ_COMMAND -> it_cmd it = Some c -> q_states s !! it_state it = Some st ->
  exists r s', sample_exec c i s = Some (r, s') /\
    @ran_ok unit queue_locale sample_cost sample_cb_cost sample_hook_cost quiet_commands (Some (i, saved)) i q l
      ((sample_cost c - 1) * (if has (st_flags st) CMDQ_STATE_NOHOOKS then 1 else sample_hook_cost)) s s'.
Proof.
  intros Hok Hfo Ht Hc Hst. unfold sample_exec, sample_cost. destruct (named "set-hook" c).
  - assert (Hco : cmd_ok c).
    { destruct (qk_item _ _ _ Hok i it (fo_item _ _ _ _ _ Hfo)) as [Hit _]. unfold item_ok in Hit. rewrite Ht in Hit.
      destruct Hit as [(c' & Ec & Hco) _]. congruence. }
    destruct (@ran_hook unit queue_locale sample_cost sample_cb_cost sample_hook_cost quiet_commands quiet_ok
      (Some (i, saved)) i q l it c st None None (bytes "sample") 0 s s Hok Hfo Hc Hco Hst) as (s2 & E & Hr).
    { apply (ran_calm _ _ _ _ i q l it); [done|]. by apply calm_refl. }
    exists CMD_RETURN_NORMAL, s2. rewrite E. split; [done|]. eapply ran_more; [|exact Hr].
    destruct (has _ _); cbn; lia.
  - exists (quiet_exec c), s. split; [done|]. eapply (ran_calm _ _ _ _ i q l it); [done|]. by apply calm_refl.
Qed.

Lemma sample_commands_ok : @CommandsOk unit queue_locale sample_server_commands.
Proof.
  apply commands_with_ok. intros c i saved s it q l Hok Hfo Ht Hc.
  destruct (qk_state _ _ _ Hok i it (fo_item _ _ _ _ _ Hfo)) as [st Hst].
  destruct (sample_exec_ok c i saved s it st q l Hok Hfo Ht Hc Hst) as (r & s' & E & []). by exists r, s'.
Qed.

Lemma sample_costs : @costs_ok unit queue_locale sample_cost sample_cb_cost sample_hook_cost sample_server_commands.
Proof.
  apply commands_with_costs. intros c i saved s it st q l r s' Hok Hfo Ht Hc Hst E.
  destruct (sample_exec_ok c i saved s it st q l Hok Hfo Ht Hc Hst) as (r' & s2 & E' & [_ _ Hl]).
  rewrite E in E'. injection E' as <- <-. apply Hl, quiet_costs.
Qed.

Definition simple_cmd (e : cmd_entry) (group : Z) (value : string) : cmd :=
  Cmd e group None 0 0 [] [ARGS_STRING (bytes value)].

(** The first three commands are of one group. *)
Definition sample_list : cmd_list :=
  CmdList 7 [simple_cmd cmd_set_hook_entry 7 "sample"; simple_cmd cmd_kill_session_entry 7 "1";
             simple_cmd cmd_display_message_entry 7 "no"; simple_cmd cmd_display_message_entry 8 "yes"].

Definition sample_hooks : cmd_list := CmdList 9 [simple_cmd cmd_display_message_entry 9 "hook"].

(** A client, without items on its queue. *)
Definition sample_server : server unit :=
  Server ∅ ∅ {[0 := (sample_hooks, 1); 1 := (sample_list, 1)]} {[None := Queue None []; Some 5 := Queue None []]}
    {[5 := Client (bytes "client") 0 None 1 0]} 0 10 []
    (World ∅ [] ∅ ∅ 0 0 0 0 false (WO 0 0 0 0)) tt.

Lemma simple_cmd_ok e group value : is_Some (cmd_print (simple_cmd e group value)) ->
  is_Some (args_print (cmd_get_args (simple_cmd e group value))) ->
  is_Some (argument_formats (cmd_get_args (simple_cmd e group value))) -> cmd_ok (simple_cmd e group value).
Proof. intros H1 H2 H3. split; [done..|by eexists|done]. Qed.

Lemma sample_lists_ok : Forall cmd_ok (cmds sample_hooks) /\ Forall cmd_ok (cmds sample_list).
Proof. split; repeat constructor; apply simple_cmd_ok; vm_compute; by eexists. Qed.

Lemma uses_empty f : uses f ∅ = 0.
Proof. done. Qed.

Lemma sample_server_ok : queues_ok None [] sample_server.
Proof.
  split; try (intros *; cbn; by rewrite lookup_empty); try done.
  - by intros st Hst%not_elem_of_nil.
  - intros l x. cbn [sample_server q_lists q_items]. rewrite uses_empty. destruct sample_lists_ok as [H0 H1].
    intros [ [<- <-]|[_ [<- <-]%lookup_singleton_Some] ]%lookup_insert_Some; split; (done || cbn; lia).
  - intros c x. cbn [sample_server q_clients q_items q_queues]. rewrite uses_empty.
    intros [<- <-]%lookup_singleton_Some. by split; [eexists|].
  - intros q x i. cbn [sample_server q_queues].
    intros [ [<- <-]|[_ [<- <-]%lookup_singleton_Some] ]%lookup_insert_Some; by intros ?%not_elem_of_nil.
  - intros q x. cbn [sample_server q_queues].
    intros [ [<- <-]|[_ [<- <-]%lookup_singleton_Some] ]%lookup_insert_Some; apply NoDup_nil_2.
  - intros q x i. cbn [sample_server q_queues].
    by intros [ [<- <-]|[_ [<- <-]%lookup_singleton_Some] ]%lookup_insert_Some.
Qed.

(** The commands of a list are put on the queue of the client. *)
Definition queue_list (cmdlist : Z) (s : server unit) : server unit :=
  default s (
    '(i, s) ← cmdq_get_command cmdlist None s;
    '(_, s) ← cmdq_append (Some 5) i s;
    Some s).

Lemma queue_list_ok cmdlist s x : queues_ok None [] s -> q_lists s !! cmdlist = Some x -> cmds x.1 <> [] ->
  is_Some (q_queues s !! Some 5) -> is_Some (q_clients s !! 5) ->
  queues_ok None [] (queue_list cmdlist s) /\ is_Some (q_queues (queue_list cmdlist s) !! Some 5).
Proof.
  intros Hok Hx Hne [y Hy] Hc.
  destruct (append_commands_ok None [] (Some 5) cmdlist None s x y) as (i & s1 & js & s2 & st & E1 & E2 & Hok2 & Hy2 & _);
    [done..|by intros d [= <-]|].
  unfold queue_list. rewrite E1. cbn [mbind option_bind]. rewrite E2. cbn. by rewrite Hy2.
Qed.

Definition queued : server unit := queue_list 1 sample_server.

Lemma queued_ok : queues_ok None [] queued /\ is_Some (q_queues queued !! Some 5).
Proof. by apply (queue_list_ok 1 sample_server (sample_list, 1)); [apply sample_server_ok|..|eexists|eexists]. Qed.

#[local] Instance queue_commands : Commands unit := sample_server_commands.
#[local] Instance queue_commands_ok : @CommandsOk unit queue_locale queue_commands := sample_commands_ok.

Lemma cmdq_next_returns_witness :
  (queue_load sample_cost sample_cb_cost sample_hook_cost queued (Some 5%Z) < 41)%nat /\
  exists n s', cmdq_next 41 (Some 5) queued = Some (n, s') /\ at_rest (Some 5) s' /\ n = 4.
Proof.
  assert (Hl : (queue_load sample_cost sample_cb_cost sample_hook_cost queued (Some 5%Z) < 41)%nat)
    by (apply Nat.ltb_lt; vm_compute; reflexivity).
  split; [exact Hl|]. destruct queued_ok as [Hok Hq].
  destruct (cmdq_next_returns sample_cost sample_cb_cost sample_hook_cost (Some 5) queued Hok Hq) as [_ Hret].
  destruct (Hret 41%nat sample_costs Hl) as (n & s' & E & Hr). exists n, s'. split; [exact E|]. split; [exact Hr|].
  assert (En : fst <$> cmdq_next 41 (Some 5) queued = Some 4) by (vm_compute; reflexivity).
  rewrite E in En. cbn in En. congruence.
Defined.

(** The command that fails removes the one of its group, the hook has been run
    before it, and the last one is run. *)
Lemma cmdq_next_in_order_witness : exists s' tr s1, cmdq_next 41 (Some 5) queued = Some (4, s') /\
  runs (Some 5) queued tr s1 /\ NoDup (ids tr) /\ in_order (Some 5) [11; 12] [13; 14] queued tr s1.
Proof.
  destruct queued_ok as [Hok Hq].
  assert (En : is_Some (cmdq_next 41 (Some 5) queued) /\ fst <$> cmdq_next 41 (Some 5) queued = Some 4)
    by (split; [vm_compute; by eexists|vm_compute; reflexivity]).
  destruct En as [ [ [n s'] E] En]. rewrite E in En. cbn in En. injection En as ->.
  destruct (cmdq_next_in_order sample_cost sample_cb_cost sample_hook_cost 41 (Some 5) queued 4 s' Hok Hq E) as
    (tr & s1 & Hr & _ & _ & _ & Hnd & Hall). exists s', tr, s1. split; [exact E|]. split; [exact Hr|]. split; [exact Hnd|].
  apply (Hall [11; 12] [13; 14] []). vm_compute. reflexivity.
Defined.

(** A number of turns, with what they run. *)
Fixpoint take_turns (n : nat) (c : queue_id) (s : server unit) : option (list (Z * Z * cmd_retval) * server unit) :=
  match n with
  | O => Some ([], s)
  | S n =>
      match next_turn c (0, s) with
      | Some (inl (_, s1)) => '(tr, s2) ← take_turns n c s1; Some (ran c s ++ tr, s2)
      | _ => None
      end
  end.

Lemma take_turns_runs n c : forall s tr s', take_turns n c s = Some (tr, s') -> runs c s tr s'.
Proof.
  induction n as [|n IH]; intros s tr s' E; cbn [take_turns] in E.
  { injection E as <- <-. constructor. }
  destruct (next_turn c (0, s)) as [ [ [m s1]|]|] eqn:Et; [|done..].
  destruct (take_turns n c s1) as [ [tr1 s2]|] eqn:E1; [|done]. cbn in E. injection E as <- <-.
  econstructor; [exact Et|by apply IH].
Qed.

Lemma failed_group_not_run_witness : exists t1 s1 t2 s2, take_turns 3 (Some 5) queued = Some (t1, s1) /\
  take_turns 1 (Some 5) s1 = Some (t2, s2) /\ t1 = [(11, 7, CMD_RETURN_NORMAL); (16, 9, CMD_RETURN_NORMAL); (12, 7, CMD_RETURN_ERROR)] /\
  q_items s1 !! 13 = None /\ 13 ∉ ids t2.
Proof.
  destruct queued_ok as [Hok Hq].
  destruct (take_turns 3 (Some 5) queued) as [ [t1 s1]|] eqn:E1; [|vm_compute in E1; discriminate].
  assert (Et : fst <$> take_turns 3 (Some 5) queued =
    Some [(11, 7, CMD_RETURN_NORMAL); (16, 9, CMD_RETURN_NORMAL); (12, 7, CMD_RETURN_ERROR)]) by (vm_compute; reflexivity).
  assert (E2 : is_Some ('(_, s) ← take_turns 3 (Some 5) queued; take_turns 1 (Some 5) s)) by (vm_compute; by eexists).
  rewrite E1 in Et, E2. cbn [mbind option_bind] in E2. destruct E2 as [ [t2 s2] E2]. cbn in Et. injection Et as Et.
  exists t1, s1, t2, s2. split; [done|]. split; [exact E2|]. split; [exact Et|].
  apply (failed_group_not_run sample_cost sample_cb_cost sample_hook_cost (Some 5) queued t1 s1 t2 s2 12 7 13 Hok Hq).
  - by eapply take_turns_runs.
  - by eapply take_turns_runs.
  - rewrite Et. by repeat constructor.
  - done.
  - vm_compute. by repeat constructor.
  - vm_compute. reflexivity.
Defined.

Lemma commands_queued_witness : exists i s1 js s2 st, cmdq_get_command 1 None sample_server = Some (i, s1) /\
  cmdq_append (Some 5) i s1 = Some (last js, s2) /\ in_queue s2 (Some 5) = js /\
  commands_of (Some 5) (Some 5) st s2 js (cmds sample_list).
Proof.
  destruct (commands_queued None [] 1 None sample_server (sample_list, 1)) as [Happ _];
    [apply sample_server_ok|done|done|done|].
  destruct (Happ (Some 5) (Queue None [])) as (i & s1 & js & s2 & st & E1 & E2 & _ & Hq & Hc & _);
    [done|intros d [= <-]; by eexists|].
  exists i, s1, js, s2, st. split; [exact E1|]. split; [exact E2|]. split; [|exact Hc]. exact (in_queue_is (Some 5) s2 _ Hq).
Defined.

(** The items of a list share the numbers of its groups: a list that is queued
    twice (two jobs of the same binding end) has one group, and an error in the
    first run removes the commands of the second one too. *)
Definition failing_list : cmd_list :=
  CmdList 7 [simple_cmd cmd_kill_session_entry 7 "1"; simple_cmd cmd_display_message_entry 7 "after"].

Definition failing_server : server unit := set_lists {[1 := (failing_list, 1)]} sample_server.

Lemma second_run_removed :
  in_queue (queue_list 1 (queue_list 1 failing_server)) (Some 5) = [11; 12; 14; 15] /\
  ('(n, s) ← cmdq_next 41 (Some 5) (queue_list 1 (queue_list 1 failing_server)); Some (n, in_queue s (Some 5))) = Some (1, []).
Proof. vm_compute. split; reflexivity. Qed.
