(* ===== verification/Server.v ===== *)
(** * Killing and linking windows (src/tmux/server/server-fn.c)

    The clients, which these functions also tell, are not part of the state;
    nor is the marked pane. *)
From Stdlib Require Import Ascii String.
From S2P Require Import Prelude.
From S2P Require Import CString.
From S2P Require Import CellCodec.
From S2P Require Import Winlink.
From S2P Require Import World.
From S2P Require Import Session.
From S2P Require Import Locale.
From S2P Require Import Window.

Definition server_destroy_session_group (sid : Z) (w : world) : world :=
  match session_group_contains w sid with
  | None => session_destroy w sid
  | Some (_, l) => foldl session_destroy w l
  end.

Definition server_unlink_window (sid wl : Z) (w : world) : option world :=
  '(empty, w) ← session_detach w sid wl;
  Some (if (empty : bool) then server_destroy_session_group sid w else w).

Definition server_renumber_session (sid : Z) (w : world) : option world :=
  s ← sessions w !! sid;
  if s_renumber s then
    match session_group_contains w sid with
    | Some (_, l) => foldl (fun w sid => w ← w; session_renumber_windows w sid) (Some w) l
    | None => session_renumber_windows w sid
    end
  else Some w.

Definition server_renumber_all (w : world) : option world :=
  foldl (fun w s => w ← w; server_renumber_session (s_id s) w) (Some w) (sessions_by_name w).

(** [server_link_window]: the new link, or the error. *)
Definition server_link_window (src srcwl_window dst dstidx : Z) (killflag selectflag : bool)
    (w : world) : option ((winlink + string) * world) :=
  let srcsg := session_group_contains w src in
  let dstsg := session_group_contains w dst in
  if negb (src =? dst) && bool_decide (srcsg <> None) && bool_decide (dstsg <> None) &&
     bool_decide (fst <$> srcsg = fst <$> dstsg)
  then Some (inr "sessions are grouped"%string, w)
  else
    d ← sessions w !! dst;
    let dstwl := if dstidx =? -1 then None else winlink_find_by_index (s_windows d) dstidx in
    if bool_decide ((wl_window <$> dstwl) = Some srcwl_window)
    then Some (inr ("same index: " +:+ fmt_d dstidx)%string, w)
    else
      let '(w, selectflag) :=
        match dstwl with
        | Some wl =>
            if killflag then
              let w := upd_session (winlink_stack_remove (wl_id wl)) dst w in
              let w := unlink_window dst wl w in
              if decide (s_curw d = Some (wl_id wl))
              then (upd_session (set_curw None) dst w, true) else (w, selectflag)
            else (w, selectflag)
        | None => (w, selectflag)
        end in
      let idx := if dstidx =? -1 then -1 - s_base_index d else dstidx in
      '(r, w) ← session_attach w dst srcwl_window idx;
      match r with
      | inr cause => Some (inr cause, w)
      | inl wl =>
          Some (inl wl, if selectflag then snd (session_select w dst (wl_idx wl)) else w)
      end.

Section Server.
Context `{CellCodec}.

Definition server_unzoom_window (wid : Z) (w : world) : option world := snd <$> window_unzoom wid w.

(** Every link of a session to a window goes; each turn removes one. *)
Fixpoint kill_links (fuel : nat) (sid wid : Z) (w : world) : option world :=
  match sessions w !! sid with
  | None => Some w
  | Some s =>
      match winlink_find_by_window (s_windows s) wid with
      | None => Some w
      | Some wl =>
          match fuel with
          | O => None
          | S fuel =>
              '(empty, w) ← session_detach w sid (wl_id wl);
              if (empty : bool) then Some (server_destroy_session_group sid w)
              else kill_links fuel sid wid w
          end
      end
  end.

(** The sessions in turn, by name; one that was destroyed with its group is
    passed over. *)
Definition server_kill_window (wid : Z) (renumber : bool) (w : world) : option world :=
  foldl (fun w s =>
      w ← w;
      if negb (session_has w (s_id s) wid) then Some w
      else
        w ← server_unzoom_window wid w;
        w ← kill_links (length (s_windows s)) (s_id s) wid w;
        if renumber && bool_decide (is_Some (sessions w !! s_id s))
        then server_renumber_session (s_id s) w else Some w)
    (Some w) (sessions_by_name w).

Definition server_kill_pane (pid : Z) (w : world) : option world :=
  p ← panes w !! pid;
  let wid := wp_window p in
  x ← windows w !! wid;
  if window_count_panes w x true =? 1 then server_kill_window wid true w
  else
    w ← server_unzoom_window wid w;
    w ← layout_close_pane pid w;
    window_remove_pane wid pid w.

End Server.
