(* ===== verification/Recovery.v ===== *)
(** * Closing and reopening panes and windows (src/tmux/commands/cmd-newmux-recovery.c)

    A closed pane or window is moved, alive, to the recovery session; an item on
    a stack says where it was.  [None] is undefined behaviour.  Redrawing,
    hooks, the clients and [recalculate_sizes], which only schedules resizes
    for them, are not part of the state. *)
From Stdlib Require Import Ascii String.
From S2P Require Import Prelude.
From S2P Require Import CString.
From S2P Require Import CellCodec.
From S2P Require Import Grid.
From S2P Require Import Screen.
From S2P Require Import History.
From S2P Require Import Winlink.
From S2P Require Import World.
From S2P Require Import Session.
From S2P Require Import Locale.
From S2P Require Import Window.
From S2P Require Import Server.

Definition NEWMUX_RECOVERY_MAX_ITEMS : Z := 32.
Definition NEWMUX_RECOVERY_SESSION : string := "__newmux-recovery".

Inductive newmux_closed_type :=
  | NEWMUX_CLOSED_PANE
  | NEWMUX_CLOSED_WINDOW
  | NEWMUX_CLOSED_SESSION.

#[global] Instance newmux_closed_type_eq_dec : EqDecision newmux_closed_type.
Proof. solve_decision. Defined.

(** The time of closing is not kept; the ids of the neighbours are [int]s. *)
Record newmux_closed_item := Item {
  it_type : newmux_closed_type;
  it_sequence : Z;
  it_session_id : Z;
  it_session_name : string;
  it_window_id : Z;
  it_window_name : string;
  it_window_index : Z;
  it_window_position : Z;
  it_left_window_id : Z;
  it_right_window_id : Z;
  it_window_layout : option string;
  it_pane_id : Z;
  it_pane_index : Z;
  it_active_pane_index : Z;
  it_recovery_session_id : Z;
  it_recovery_window_id : Z
}.

Definition set_recovery (sid wid : Z) (i : newmux_closed_item) : newmux_closed_item :=
  Item (it_type i) (it_sequence i) (it_session_id i) (it_session_name i) (it_window_id i)
    (it_window_name i) (it_window_index i) (it_window_position i) (it_left_window_id i)
    (it_right_window_id i) (it_window_layout i) (it_pane_id i) (it_pane_index i)
    (it_active_pane_index i) sid wid.

Definition newmux_closed_type_string (t : newmux_closed_type) : string :=
  match t with
  | NEWMUX_CLOSED_PANE => "pane"
  | NEWMUX_CLOSED_WINDOW => "window"
  | NEWMUX_CLOSED_SESSION => "session"
  end.

(** ** The stacks *)

(** The latest closed item is the head of [closed]; [reserved] is a queue. *)
Record stacks := Stacks {
  closed : list newmux_closed_item;
  reserved : list newmux_closed_item;
  next_sequence : Z;
  closed_count : Z
}.

Definition newmux_stack_clear (st : stacks) : stacks := Stacks [] [] 0 0.

(** The oldest items go while there are too many. *)
Fixpoint stack_trim (fuel : nat) (l : list newmux_closed_item) (count : Z) :
    list newmux_closed_item * Z :=
  match fuel with
  | O => (l, count)
  | S fuel =>
      if NEWMUX_RECOVERY_MAX_ITEMS <? count
      then stack_trim fuel (take (length l - 1) l) (u32 (count - 1))
      else (l, count)
  end.

Definition newmux_stack_push (item : newmux_closed_item) (st : stacks) : stacks :=
  let l := item :: closed st in
  let '(l, count) := stack_trim (length l) l (u32 (closed_count st + 1)) in
  Stacks l (reserved st) (next_sequence st) count.

Definition newmux_stack_pop (st : stacks) : option newmux_closed_item * stacks :=
  match closed st with
  | [] => (None, st)
  | item :: l => (Some item, Stacks l (reserved st) (next_sequence st) (u32 (closed_count st - 1)))
  end.

Definition newmux_reserved_push (item : newmux_closed_item) (st : stacks) : stacks :=
  Stacks (closed st) (reserved st ++ [item]) (next_sequence st) (closed_count st).

Definition newmux_reserved_pop_by_sequence (sequence : Z) (st : stacks) :
    option newmux_closed_item * stacks :=
  match list_find (fun i => it_sequence i = sequence) (reserved st) with
  | None => (None, st)
  | Some (k, item) =>
      (Some item, Stacks (closed st) (delete k (reserved st)) (next_sequence st) (closed_count st))
  end.

(** [++newmux_closed_next_sequence]. *)
Definition take_sequence (st : stacks) : Z * stacks :=
  let n := u32 (next_sequence st + 1) in
  (n, Stacks (closed st) (reserved st) n (closed_count st)).

(** ** The order of the windows of a session *)

Definition newmux_window_position (s : session) (wid : Z) : Z :=
  match list_find (fun wl => wl_window wl = wid) (s_windows s) with
  | Some (i, _) => Z.of_nat i
  | None => Z.of_nat (length (s_windows s))
  end.

Definition newmux_winlink_at_position (s : session) (position : Z) : option winlink :=
  s_windows s !! Z.to_nat position.

(** The position of the link's window, and the windows left and right of it. *)
Definition window_order (s : session) (wl : winlink) : Z * Z * Z :=
  (s32 (newmux_window_position s (wl_window wl)),
   match winlink_previous (s_windows s) (wl_id wl) with
   | Some l => s32 (wl_window l) | None => -1 end,
   match winlink_next (s_windows s) (wl_id wl) with
   | Some r => s32 (wl_window r) | None => -1 end).

Definition newmux_window_order_string (i : newmux_closed_item) : string :=
  let neighbour id := if 0 <=? id then "@" +:+ fmt_u (u32 id) else "none"%string in
  "target_position=" +:+ fmt_d (it_window_position i) +:+ " left_window_id=" +:+
  neighbour (it_left_window_id i) +:+ " right_window_id=" +:+ neighbour (it_right_window_id i).

(** [winlink_shuffle_up] of a session's links: -1, or the free index. *)
Definition shuffle_up (sid : Z) (wl : winlink) (before : bool) (w : world) : Z * world :=
  match sessions w !! sid with
  | None => (-1, w)
  | Some s =>
      match winlink_shuffle_up (s_windows s) (Some wl) before with
      | Some (idx, wwl) => (idx, put_session (set_windows wwl s) w)
      | None => (-1, w)
      end
  end.

(** ** Moving windows between sessions *)

Definition newmux_session_detach_silent (sid : Z) (wl : winlink) (w : world) :
    option (bool * world) :=
  s ← sessions w !! sid;
  let w :=
    if decide (s_curw s = Some (wl_id wl)) then
      let next := match winlink_next (s_windows s) (wl_id wl) with
                  | Some n => Some n
                  | None => winlink_previous (s_windows s) (wl_id wl)
                  end in
      match next with
      | Some n => snd (session_set_current w sid (Some (wl_id n)))
      | None => upd_session (set_curw None) sid w
      end
    else w in
  let w := upd_session (winlink_stack_remove (wl_id wl)) sid w in
  let w := unlink_window sid wl w in
  w ← session_group_synchronize_from w sid;
  Some (session_empty w sid, w).

Definition newmux_session_attach_silent (sid wid idx : Z) (w : world) :
    option ((winlink + string) * world) :=
  match link_window sid idx wid 0 w with
  | None => Some (inr ("index in use: " +:+ fmt_d idx)%string, w)
  | Some (wl, w) =>
      s ← sessions w !! sid;
      let w := if decide (s_curw s = None)
               then snd (session_set_current w sid (Some (wl_id wl))) else w in
      w ← session_group_synchronize_from w sid;
      Some (inl wl, w)
  end.

Definition newmux_session_attach_at_original_index (sid wid idx : Z) (w : world) :
    option ((winlink + string) * world) :=
  s ← sessions w !! sid;
  if idx <? 0 then newmux_session_attach_silent sid wid (-1) w
  else
    match winlink_find_by_index (s_windows s) idx with
    | None => newmux_session_attach_silent sid wid idx w
    | Some wl =>
        let '(i, w) := shuffle_up sid wl true w in
        if i =? -1 then Some (inr ("index in use: " +:+ fmt_d idx)%string, w)
        else newmux_session_attach_silent sid wid idx w
    end.

(** The link to a neighbour that is still a window of the session. *)
Definition neighbour_link (w : world) (s : session) (id : Z) : option winlink :=
  if 0 <=? id then
    match window_find_by_id w (u32 id) with
    | Some x => winlink_find_by_window (s_windows s) (w_id x)
    | None => None
    end
  else None.

Definition newmux_session_attach_at_saved_position (sid wid : Z) (i : newmux_closed_item)
    (w : world) : option ((winlink + string) * world) :=
  s ← sessions w !! sid;
  let attach wl before cause :=
    let '(idx, w) := shuffle_up sid wl before w in
    if idx =? -1 then Some (inr cause, w) else newmux_session_attach_silent sid wid idx w in
  match neighbour_link w s (it_left_window_id i) with
  | Some wl => attach wl false
                 ("index in use after window: @" +:+ fmt_u (u32 (it_left_window_id i)))%string
  | None =>
      match neighbour_link w s (it_right_window_id i) with
      | Some wl => attach wl true
                     ("index in use before window: @" +:+ fmt_u (u32 (it_right_window_id i)))%string
      | None =>
          if 0 <=? it_window_position i then
            match newmux_winlink_at_position s (it_window_position i) with
            | None => newmux_session_attach_silent sid wid (-1) w
            | Some wl => attach wl true
                           ("index in use at position: " +:+ fmt_d (it_window_position i))%string
            end
          else newmux_session_attach_at_original_index sid wid (it_window_index i) w
      end
  end.

(** ** What a pane is doing *)

Fixpoint after_slash (s base : string) : string :=
  match s with
  | EmptyString => base
  | String c s => after_slash s (if Ascii.eqb c "/" then s else base)
  end.

(** For a pane with no arguments ([argc] is 0), the only ones the code asks
    about: the arguments make an empty command. *)
Definition newmux_pane_current_command_is_shell (p : pane) : bool :=
  let cmd := match wp_name p with
             | Some (String _ _ as cmd) => cmd
             | _ => match wp_shell p with Some sh => sh | None => ""%string end
             end in
  let base := after_slash cmd cmd in
  let base := match base with
              | String c rest => if Ascii.eqb c "-" then rest else base
              | EmptyString => base
              end in
  String.eqb base "zsh" || String.eqb base "bash" || String.eqb base "fish" ||
  String.eqb base "sh".

Section Recovery.
Context `{CellCodec} `{Locale}.

Definition newmux_pane_looks_fresh (p : pane) : bool :=
  let gd := s_grid (wp_base p) in
  if (wp_fd p =? -1) || negb (bool_decide (wp_modes p = [])) then false
  else if negb (wp_argc p =? 0) then false
  else if negb (newmux_pane_current_command_is_shell p) then false
  else if screen_is_alternate (wp_base p) || negb (hsize gd =? 0) then false
  else
    Z.of_nat (length (filter (fun yy =>
      match grid_peek_line gd (u32 (hsize gd + yy)) with
      | Some gl => negb (cellused gl =? 0) | None => false end = true) (seqZ 0 (g_sy gd)))) <=? 1.

Definition newmux_window_looks_fresh (w : world) (x : window) : bool :=
  if negb (window_count_panes w x true =? 1) then false
  else match (pid ← head (w_panes x); panes w !! pid) with
       | Some p => newmux_pane_looks_fresh p
       | None => false
       end.

Definition newmux_pane_is_dirty (p : pane) : bool :=
  match wp_dirty p with
  | Some v => negb (String.eqb v "") && negb (String.eqb v "0")
  | None => false
  end.

Definition newmux_window_is_dirty (w : world) (x : window) : bool :=
  existsb (fun pid => match panes w !! pid with
                      | Some p => newmux_pane_is_dirty p | None => false end) (w_panes x).

(** ** Closing *)

Definition newmux_recovery_session_get (w : world) : option (session * world) :=
  match session_find w NEWMUX_RECOVERY_SESSION with
  | Some s => Some (s, w)
  | None => session_create w None (Some NEWMUX_RECOVERY_SESSION) (global_base_index w)
              (global_renumber w)
  end.

Definition newmux_dump_window_layout (w : world) (x : window) : option string :=
  match w_saved_layout_root x with
  | Some r => window_layout_dump w x (Some r)
  | None => window_layout_dump w x (w_layout_root x)
  end.

Definition newmux_item_from_pane (sequence : Z) (w : world) (s : session) (wl : winlink)
    (pid : Z) : option newmux_closed_item :=
  x ← windows w !! wl_window wl;
  p ← panes w !! pid;
  px ← windows w !! wp_window p;
  active ← w_active x;
  let '(position, lft, rgt) := window_order s wl in
  let pane_index := match window_pane_index px pid with (i, true) => i | _ => 0 end in
  let active_index := match window_pane_index x active with (i, true) => i | _ => pane_index end in
  Some (Item NEWMUX_CLOSED_PANE sequence (s_id s) (s_name s) (w_id x) (w_name x) (wl_idx wl)
          position lft rgt (newmux_dump_window_layout w x) pid pane_index active_index 0 0).

Definition newmux_item_from_window (sequence : Z) (w : world) (s : session) (wl : winlink) :
    option newmux_closed_item :=
  x ← windows w !! wl_window wl;
  active ← w_active x;
  let '(position, lft, rgt) := window_order s wl in
  let active_index := match window_pane_index x active with (i, true) => i | _ => 0 end in
  Some (Item NEWMUX_CLOSED_WINDOW sequence (s_id s) (s_name s) (w_id x) (w_name x) (wl_idx wl)
          position lft rgt (newmux_dump_window_layout w x) 0 0 active_index 0 0).

Definition preserve_history (pid : Z) (w : world) : world :=
  upd_pane (fun p => set_p_base (newmux_preserve_pane_history (wp_base p)) p) pid w.

(** A new window around the pane [p], which has left its own. *)
Definition recovery_window (p : pane) (sequence : Z) (w : world) : option (Z * world) :=
  let '(x, w) := window_create (wp_sx p) (wp_sy p) w in
  let wid := w_id x in
  let p := p_raise (Z.lor PANE_STYLECHANGED (Z.lor PANE_THEMECHANGED PANE_CHANGED))
             (set_p_window wid p) in
  let x := set_w_active (Some (wp_id p)) (set_w_zindex [wp_id p] (set_w_panes [wp_id p] x)) in
  w ← window_set_name wid ("newmux-recovery-" +:+ fmt_u sequence) (put_window x (put_pane p w));
  w ← window_layout_init wid (wp_id p) w;
  Some (wid, w).

(** The item with the place the pane went to, or the error. *)
Definition newmux_break_live_pane (i : newmux_closed_item) (src_wl : winlink) (pid : Z)
    (w : world) : option ((newmux_closed_item + string) * world) :=
  let src := wl_window src_wl in
  '(dst_s, w) ← newmux_recovery_session_get w;
  w ← server_unzoom_window src w;
  let w := preserve_history pid w in
  x ← windows w !! src;
  let order := w_panes x in
  let w := put_window (set_w_zindex (tailq_remove pid (w_zindex x))
                         (set_w_panes (tailq_remove pid order) x)) w in
  let w := window_lost_pane src pid order w in
  w ← layout_close_pane pid w;
  p ← panes w !! pid;
  '(dst, w) ← recovery_window p (it_sequence i) w;
  '(r, w) ← session_attach w (s_id dst_s) dst (-1);
  match r with
  | inr cause => Some (inr cause, w)
  | inl wl =>
      s ← sessions w !! s_id dst_s;
      let w := if decide (s_curw s = None) then snd (session_select w (s_id s) (wl_idx wl))
               else w in
      Some (inl (set_recovery (s_id s) dst i), w)
  end.

Definition newmux_break_live_window (i : newmux_closed_item) (src : Z) (src_wl : winlink)
    (w : world) : option ((newmux_closed_item + string) * world) :=
  let wid := wl_window src_wl in
  '(dst_s, w) ← newmux_recovery_session_get w;
  w ← server_unzoom_window wid w;
  x ← windows w !! wid;
  let w := foldl (fun w pid => preserve_history pid w) w (w_panes x) in
  '(r, w) ← newmux_session_attach_silent (s_id dst_s) wid (-1) w;
  match r with
  | inr cause => Some (inr cause, w)
  | inl _ =>
      let i := set_recovery (s_id dst_s) wid i in
      '(empty, w) ← newmux_session_detach_silent src src_wl w;
      if (empty : bool)
      then Some (inr "newmux recovery failed: source session became empty"%string, w)
      else Some (inl i, w)
  end.

(** ** Reopening *)

Definition newmux_insert_pane_at_index (pid idx : Z) (x : window) : window :=
  match window_pane_at_index x idx with
  | Some q => set_w_zindex (insert_before q pid (w_zindex x))
                (set_w_panes (insert_before q pid (w_panes x)) x)
  | None => set_w_zindex (w_zindex x ++ [pid]) (set_w_panes (w_panes x ++ [pid]) x)
  end.

Definition newmux_select_pane_index (wid idx : Z) (w : world) : option world :=
  x ← windows w !! wid;
  match window_pane_at_index x idx with
  | None => Some w
  | Some pid => snd <$> window_set_active_pane wid pid w
  end.

Definition newmux_restore_destination_session (w : world) (target : option session)
    (i : newmux_closed_item) : option session :=
  match session_find_by_id w (it_session_id i) with
  | Some s => Some s
  | None =>
      let other :=
        match target with
        | Some s => if String.eqb (s_name s) NEWMUX_RECOVERY_SESSION then None else Some s
        | None => None
        end in
      if String.prefix "newmux-tab-" (it_session_name i)
      then match session_find w "newmux" with Some s => Some s | None => other end
      else other
  end.

Definition protect_pane (pid : Z) (w : world) : world :=
  upd_pane (p_raise PANE_NEWMUX_HISTORY_PROTECTED) pid w.

(** The error, if any, and the world. *)
Definition newmux_restore_live_pane (target : option session) (i : newmux_closed_item)
    (w : world) : option (option string * world) :=
  match newmux_restore_destination_session w target i with
  | None => Some (Some "newmux restore failed: original session missing"%string, w)
  | Some dst_s =>
      match (x ← window_find_by_id w (it_window_id i);
             wl ← winlink_find_by_window (s_windows dst_s) (w_id x); Some (x, wl)) with
      | None => Some (Some "newmux restore failed: original window missing"%string, w)
      | Some (dst_w, dst_wl) =>
          match session_find_by_id w (it_recovery_session_id i),
                window_find_by_id w (it_recovery_window_id i),
                window_pane_find_by_id w (it_pane_id i) with
          | Some recovery_s, Some recovery_w, Some src =>
              match winlink_find_by_window (s_windows recovery_s) (w_id recovery_w) with
              | None => Some (Some "newmux restore failed: recovery window missing"%string, w)
              | Some _ =>
                  let dst := w_id dst_w in
                  let rec := w_id recovery_w in
                  let pid := wp_id src in
                  w ← server_unzoom_window dst w;
                  w ← server_unzoom_window rec w;
                  w ← layout_close_pane pid w;
                  x ← windows w !! rec;
                  (* taken out of a list it is not in *)
                  if negb (window_has_pane x pid) then None
                  else
                    let w := window_lost_pane rec pid (w_panes x) w in
                    let w := upd_window (fun x =>
                               set_w_zindex (tailq_remove pid (w_zindex x))
                                 (set_w_panes (tailq_remove pid (w_panes x)) x)) rec w in
                    let w := upd_pane (fun p =>
                               p_raise (Z.lor PANE_STYLECHANGED
                                          (Z.lor PANE_THEMECHANGED PANE_CHANGED))
                                 (set_p_window dst p)) pid w in
                    let w := upd_window (newmux_insert_pane_at_index pid (it_pane_index i)) dst w in
                    '(r, w) ← (match it_window_layout i with
                               | Some layout => window_layout_parse dst layout w
                               | None => Some (None, w)
                               end);
                    match r with
                    | Some cause =>
                        Some (Some ("newmux restore layout failed: " +:+ cause)%string, w)
                    | None =>
                        w ← newmux_select_pane_index dst (it_active_pane_index i) w;
                        let w := protect_pane pid w in
                        let w := snd (session_select w (s_id dst_s) (wl_idx dst_wl)) in
                        x ← windows w !! rec;
                        w ← (if window_count_panes w x true =? 0
                             then server_kill_window rec true w else Some w);
                        Some (None, w)
                    end
              end
          | _, _, _ => Some (Some "newmux restore failed: live pane missing"%string, w)
          end
      end
  end.

(** The panes of a window with their screens, and the screens put back. *)
Definition window_screens (w : world) (x : window) : list (Z * screen) :=
  omap (fun pid => p ← panes w !! pid; Some (pid, wp_base p)) (w_panes x).

Definition restore_screens (snapshots : list newmux_pane_history_snapshot) (w : world) : world :=
  foldl (fun w sn => upd_pane (fun p => set_p_base (restore_if_shrunk sn (wp_base p)) p)
                       (sn_pane_id sn) w) w snapshots.

Definition newmux_restore_live_window (target : option session) (i : newmux_closed_item)
    (w : world) : option (option string * world) :=
  match newmux_restore_destination_session w target i with
  | None => Some (Some "newmux restore failed: original session missing"%string, w)
  | Some dst_s =>
      match session_find_by_id w (it_recovery_session_id i),
            window_find_by_id w (it_window_id i) with
      | Some recovery_s, Some x =>
          match winlink_find_by_window (s_windows recovery_s) (w_id x) with
          | None => Some (Some "newmux restore failed: recovery window missing"%string, w)
          | Some recovery_wl =>
              let snapshots := newmux_history_snapshots_take (window_screens w x) in
              '(r, w) ← newmux_session_attach_at_saved_position (s_id dst_s) (w_id x) i w;
              match r with
              | inr cause => Some (Some cause, w)
              | inl dst_wl =>
                  w ← server_unlink_window (s_id recovery_s) (wl_id recovery_wl) w;
                  let w := snd (session_select w (s_id dst_s) (wl_idx dst_wl)) in
                  let w := restore_screens snapshots w in
                  let w := foldl (fun w pid => protect_pane pid w) w (w_panes x) in
                  Some (None, w)
              end
          end
      | _, _ => Some (Some "newmux restore failed: live window missing"%string, w)
      end
  end.

Definition newmux_restore_closed_item (target : option session) (i : newmux_closed_item)
    (w : world) : option (option string * world) :=
  match it_type i with
  | NEWMUX_CLOSED_PANE => newmux_restore_live_pane target i w
  | NEWMUX_CLOSED_WINDOW => newmux_restore_live_window target i w
  | NEWMUX_CLOSED_SESSION =>
      Some (Some "newmux restore failed: unsupported item type"%string, w)
  end.

Definition newmux_recovery_clear (w : world) (st : stacks) : world * stacks :=
  (match session_find w NEWMUX_RECOVERY_SESSION with
   | Some s => session_destroy w (s_id s)
   | None => w
   end, newmux_stack_clear st).

End Recovery.
