(* ===== verification/RecoveryCmd.v ===== *)
(** * The recovery commands (src/tmux/commands/cmd-newmux-recovery.c)

    Each command takes its arguments and target and the state, and gives its
    return value and the state, with what it printed.  [None] is undefined
    behaviour.  Of newmux-create-window the choice of the index is modelled, not
    the start of the process in the new window. *)
From Stdlib Require Import Ascii String.
From S2P Require Import Prelude.
From S2P Require Import CString.
From S2P Require Import CellCodec.
From S2P Require Import Winlink.
From S2P Require Import World.
From S2P Require Import Session.
From S2P Require Import Locale.
From S2P Require Import Window.
From S2P Require Import Server.
From S2P Require Import Recovery.

Inductive cmd_retval := CMD_RETURN_NORMAL | CMD_RETURN_ERROR.

Inductive message := cmdq_print (s : string) | cmdq_error (s : string).

(** The arguments the commands read. *)
Record args := Args {
  arg_P : bool;
  arg_S : option string;
  arg_i : option string;
  arg_s : option string
}.

(** The target: ids of a session, one of its links, and a pane. *)
Record cmd_find_state := Target {
  fs_s : option Z;
  fs_wl : option Z;
  fs_wp : option Z
}.

Record server := Server {
  sv_world : world;
  sv_stacks : stacks;
  sv_out : list message
}.

Definition say (m : message) (sv : server) : server :=
  Server (sv_world sv) (sv_stacks sv) (sv_out sv ++ [m]).
Definition print (s : string) : server -> server := say (cmdq_print s).
Definition print_if (b : bool) (s : string) (sv : server) : server :=
  if b then print s sv else sv.
Definition with_world (w : world) (sv : server) : server := Server w (sv_stacks sv) (sv_out sv).
Definition with_stacks (st : stacks) (sv : server) : server := Server (sv_world sv) st (sv_out sv).
Definition fail_with (s : string) (sv : server) : cmd_retval * server :=
  (CMD_RETURN_ERROR, say (cmdq_error s) sv).

Definition push (i : newmux_closed_item) (sv : server) : server :=
  with_stacks (newmux_stack_push i (sv_stacks sv)) sv.

Definition fs_session (sv : server) (t : cmd_find_state) : option session :=
  sid ← fs_s t; sessions (sv_world sv) !! sid.

(** The session and the link of a target that has both. *)
Definition fs_link (sv : server) (t : cmd_find_state) : option (session * winlink) :=
  s ← fs_session sv t; id ← fs_wl t; wl ← wl_get (s_windows s) id; Some (s, wl).

(** Whether a link is the only one of its session. *)
Definition only_window (s : session) (wl : winlink) : bool :=
  match winlink_next (s_windows s) (wl_id wl), winlink_previous (s_windows s) (wl_id wl) with
  | None, None => true
  | _, _ => false
  end.

Definition newmux_primary_session_from_args (sv : server) (a : args) (fallback : option session) :
    option session * server :=
  match arg_s a with
  | None | Some EmptyString => (fallback, sv)
  | Some name =>
      match session_find (sv_world sv) name with
      | Some s => (Some s, sv)
      | None => (None, say (cmdq_error ("newmux session missing: " +:+ name)) sv)
      end
  end.

Definition newmux_print_window_result (action : string) (s : session) (wl : winlink) (wid : Z)
    (extra : option string) (sv : server) : server :=
  print ("ok=1 action=" +:+ action +:+ " kind=window window=@" +:+ fmt_u wid +:+ " window_id=@" +:+
         fmt_u wid +:+ " window_index=" +:+ fmt_d (wl_idx wl) +:+ " target_index=" +:+
         fmt_u (newmux_window_position s wid) +:+
         match extra with Some e => " " +:+ e | None => "" end)%string sv.

Definition newmux_print_closed_item (i : newmux_closed_item) (reserved : bool) (sv : server) :
    server :=
  let w := sv_world sv in
  let tail := ((if reserved then " reserved=1" else "") +:+
               (if reserved then " restored=0" else " restored=1"))%string in
  let '(window_index, target_index) :=
    match (s ← session_find_by_id w (it_session_id i);
           x ← window_find_by_id w (it_window_id i);
           wl ← winlink_find_by_window (s_windows s) (w_id x);
           Some (wl_idx wl, s32 (newmux_window_position s (w_id x)))) with
    | Some r => r
    | None => (it_window_index i, it_window_position i)
    end in
  let order := newmux_window_order_string i in
  let seq := fmt_u (it_sequence i) in
  let win := fmt_u (it_window_id i) in
  print (match it_type i with
  | NEWMUX_CLOSED_PANE =>
      "ok=1 kind=pane sequence=" +:+ seq +:+ " window=@" +:+ win +:+ " window_id=@" +:+ win +:+
      " pane_id=%" +:+ fmt_u (it_pane_id i) +:+ " window_index=" +:+ fmt_d window_index +:+
      " target_index=" +:+ fmt_d target_index +:+ " " +:+ order +:+ " live=1" +:+ tail
  | NEWMUX_CLOSED_WINDOW =>
      "ok=1 kind=window sequence=" +:+ seq +:+ " window=@" +:+ win +:+ " window_id=@" +:+ win +:+
      " window_index=" +:+ fmt_d window_index +:+ " target_index=" +:+ fmt_d target_index +:+
      " " +:+ order +:+ " live=1" +:+ tail
  | NEWMUX_CLOSED_SESSION => "ok=1 kind=session sequence=" +:+ seq +:+ " live=1" +:+ tail
  end)%string sv.

(** The index a new window is put at and the links moved for it: -1, the first
    free index, also when there is no room. *)
Definition newmux_create_window_index (a : args) (t : cmd_find_state) (sv : server) :
    (Z * server) + server :=
  match newmux_primary_session_from_args sv a (fs_session sv t) with
  | (None, sv) => inr sv
  | (Some s, sv) =>
      let place wl before :=
        match wl with
        | Some wl => let '(idx, w) := shuffle_up (s_id s) wl before (sv_world sv) in
                     inl (idx, with_world w sv)
        | None => inl (-1, sv)
        end in
      match arg_i a with
      | Some value =>
          match strtonum value 0 INT_MAX with
          | inr _ => inr (say (cmdq_error ("invalid target index: " +:+ value)) sv)
          | inl position => place (newmux_winlink_at_position s (u32 position)) true
          end
      | None =>
          match fs_link sv t with
          | Some (s', wl) => if s_id s' =? s_id s then place (Some wl) false
                             else place (c ← s_curw s; wl_get (s_windows s) c) false
          | None => place (c ← s_curw s; wl_get (s_windows s) c) false
          end
      end
  end.

Section Commands.
Context `{CellCodec} `{Locale}.

(** After a window or pane was moved away, or was not. *)
Definition broken (r : newmux_closed_item + string) (sv : server) : cmd_retval * server :=
  match r with
  | inr cause => fail_with cause sv
  | inl i => (CMD_RETURN_NORMAL, push i sv)
  end.

Definition cmd_newmux_soft_delete_pane_exec (t : cmd_find_state) (sv : server) :
    option (cmd_retval * server) :=
  match fs_wp t with
  | None => Some (CMD_RETURN_ERROR, sv)
  | Some pid =>
      '(s, wl) ← fs_link sv t;
      x ← windows (sv_world sv) !! wl_window wl;
      if window_count_panes (sv_world sv) x true =? 1
      then Some (fail_with "newmux live pane recovery does not delete the last pane yet" sv)
      else
        let '(sequence, st) := take_sequence (sv_stacks sv) in
        i ← newmux_item_from_pane sequence (sv_world sv) s wl pid;
        '(r, w) ← newmux_break_live_pane i wl pid (sv_world sv);
        Some (broken r (with_world w (with_stacks st sv)))
  end.

Definition last_tab : string := "newmux live tab recovery does not delete the last tab yet".

(** A window goes to the recovery session. *)
Definition soft_delete_window (s : session) (wl : winlink) (sv : server) :
    option ((newmux_closed_item + string) * server) :=
  let '(sequence, st) := take_sequence (sv_stacks sv) in
  i ← newmux_item_from_window sequence (sv_world sv) s wl;
  '(r, w) ← newmux_break_live_window i (s_id s) wl (sv_world sv);
  Some (r, with_world w (with_stacks st sv)).

Definition cmd_newmux_soft_delete_window_exec (t : cmd_find_state) (sv : server) :
    option (cmd_retval * server) :=
  match fs_wl t with
  | None => Some (CMD_RETURN_ERROR, sv)
  | Some _ =>
      '(s, wl) ← fs_link sv t;
      if only_window s wl then Some (fail_with last_tab sv)
      else
        x ← windows (sv_world sv) !! wl_window wl;
        if newmux_window_looks_fresh (sv_world sv) x then
          w ← server_kill_window (w_id x) true (sv_world sv);
          Some (CMD_RETURN_NORMAL, with_world w sv)
        else
          '(r, sv) ← soft_delete_window s wl sv;
          Some (broken r sv)
  end.

Definition cmd_newmux_soft_delete_session_exec (sv : server) : cmd_retval * server :=
  fail_with "newmux live session recovery is not implemented yet" sv.

Definition cmd_newmux_delete_window_exec (a : args) (t : cmd_find_state) (sv : server) :
    option (cmd_retval * server) :=
  match fs_wl t with
  | None => Some (CMD_RETURN_ERROR, sv)
  | Some _ =>
      '(ts, twl) ← fs_link sv t;
      match newmux_primary_session_from_args sv a (Some ts) with
      | (None, sv) => Some (CMD_RETURN_ERROR, sv)
      | (Some ps, sv) =>
          let wid := wl_window twl in
          let '(s, wl) := match winlink_find_by_window (s_windows ps) wid with
                          | Some wl => (ps, wl) | None => (ts, twl) end in
          if only_window s wl then Some (fail_with last_tab sv)
          else
            x ← windows (sv_world sv) !! wid;
            if negb (newmux_window_is_dirty (sv_world sv) x) then
              let sv := if arg_P a then newmux_print_window_result "delete" s wl wid
                                          (Some "mode=hard soft=0"%string) sv else sv in
              w ← server_kill_window wid true (sv_world sv);
              Some (CMD_RETURN_NORMAL, with_world w sv)
            else
              '(r, sv) ← soft_delete_window s wl sv;
              match r with
              | inr _ => Some (broken r sv)
              | inl i =>
                  let win := fmt_u (it_window_id i) in
                  Some (CMD_RETURN_NORMAL, print_if (arg_P a)
                    ("ok=1 action=delete kind=window mode=soft soft=1 sequence=" +:+
                     fmt_u (it_sequence i) +:+ " window=@" +:+ win +:+ " window_id=@" +:+ win +:+
                     " window_index=" +:+ fmt_d (it_window_index i) +:+ " target_index=" +:+
                     fmt_d (it_window_position i) +:+ " " +:+ newmux_window_order_string i +:+
                     " live=1")%string (push i sv))
              end
      end
  end.

(** An item that is off its stack is restored, or pushed again. *)
Definition restore (a : args) (t : cmd_find_state) (i : newmux_closed_item) (sv : server) :
    option (cmd_retval * server) :=
  '(r, w) ← newmux_restore_closed_item (fs_session sv t) i (sv_world sv);
  let sv := with_world w sv in
  match r with
  | Some cause => Some (CMD_RETURN_ERROR, push i (say (cmdq_error cause) sv))
  | None => Some (CMD_RETURN_NORMAL, if arg_P a then newmux_print_closed_item i false sv else sv)
  end.

Definition cmd_newmux_reopen_latest_closed_exec (a : args) (t : cmd_find_state) (sv : server) :
    option (cmd_retval * server) :=
  let '(i, st) := newmux_stack_pop (sv_stacks sv) in
  let sv := with_stacks st sv in
  match i with
  | None => Some (CMD_RETURN_NORMAL,
                  print_if (arg_P a) "ok=1 action=restore restored=0 reason=empty_stack" sv)
  | Some i => restore a t i sv
  end.

Definition cmd_newmux_reserve_latest_closed_exec (a : args) (sv : server) : cmd_retval * server :=
  let '(i, st) := newmux_stack_pop (sv_stacks sv) in
  let sv := with_stacks st sv in
  match i with
  | None => (CMD_RETURN_NORMAL, sv)
  | Some i =>
      let sv := if arg_P a then newmux_print_closed_item i true sv else sv in
      (CMD_RETURN_NORMAL, with_stacks (newmux_reserved_push i (sv_stacks sv)) sv)
  end.

(** The sequence of the arguments, or the error. *)
Definition sequence_from_args (a : args) : Z + string :=
  match arg_S a with
  | None => inr "missing reserved sequence"%string
  | Some value =>
      match strtonum value 1 UINT_MAX with
      | inl n => inl n
      | inr _ => inr ("invalid reserved sequence: " +:+ value)%string
      end
  end.

Definition cmd_newmux_claim_reserved_closed_exec (a : args) (t : cmd_find_state) (sv : server) :
    option (cmd_retval * server) :=
  match sequence_from_args a with
  | inr cause => Some (fail_with cause sv)
  | inl sequence =>
      let '(i, st) := newmux_reserved_pop_by_sequence sequence (sv_stacks sv) in
      let sv := with_stacks st sv in
      match i with
      | None => Some (CMD_RETURN_NORMAL, sv)
      | Some i => restore a t i sv
      end
  end.

Definition cmd_newmux_release_reserved_closed_exec (a : args) (sv : server) :
    cmd_retval * server :=
  match sequence_from_args a with
  | inr cause => fail_with cause sv
  | inl sequence =>
      let '(i, st) := newmux_reserved_pop_by_sequence sequence (sv_stacks sv) in
      let sv := with_stacks st sv in
      match i with
      | None =>
          (CMD_RETURN_NORMAL, print_if (arg_P a)
             ("ok=1 action=release released=0 reason=missing sequence=" +:+ fmt_u sequence) sv)
      | Some i =>
          (CMD_RETURN_NORMAL, print_if (arg_P a)
             ("ok=1 action=release released=1 sequence=" +:+ fmt_u sequence) (push i sv))
      end
  end.

Definition list_line (i : newmux_closed_item) : string :=
  (fmt_u (it_sequence i) +:+ " " +:+ newmux_closed_type_string (it_type i) +:+ " session=" +:+
   it_session_name i +:+ " window=" +:+ it_window_name i +:+
   match it_type i with
   | NEWMUX_CLOSED_PANE => " pane=%" +:+ fmt_u (it_pane_id i)
   | _ => ""
   end +:+ " live=1")%string.

Definition cmd_newmux_list_recently_closed_exec (sv : server) : cmd_retval * server :=
  (CMD_RETURN_NORMAL, foldl (fun sv i => print (list_line i) sv) sv (closed (sv_stacks sv))).

Definition cmd_newmux_clear_recently_closed_exec (sv : server) : cmd_retval * server :=
  let '(w, st) := newmux_recovery_clear (sv_world sv) (sv_stacks sv) in
  (CMD_RETURN_NORMAL, with_stacks st (with_world w sv)).

(** ** Sequences of commands *)

Inductive command :=
  | SoftDeletePane (t : cmd_find_state)
  | SoftDeleteWindow (t : cmd_find_state)
  | SoftDeleteSession
  | DeleteWindow (a : args) (t : cmd_find_state)
  | ReopenLatest (a : args) (t : cmd_find_state)
  | ReserveLatest (a : args)
  | ClaimReserved (a : args) (t : cmd_find_state)
  | ReleaseReserved (a : args)
  | ListRecent
  | ClearRecent.

Definition exec (c : command) (sv : server) : option (cmd_retval * server) :=
  match c with
  | SoftDeletePane t => cmd_newmux_soft_delete_pane_exec t sv
  | SoftDeleteWindow t => cmd_newmux_soft_delete_window_exec t sv
  | SoftDeleteSession => Some (cmd_newmux_soft_delete_session_exec sv)
  | DeleteWindow a t => cmd_newmux_delete_window_exec a t sv
  | ReopenLatest a t => cmd_newmux_reopen_latest_closed_exec a t sv
  | ReserveLatest a => Some (cmd_newmux_reserve_latest_closed_exec a sv)
  | ClaimReserved a t => cmd_newmux_claim_reserved_closed_exec a t sv
  | ReleaseReserved a => Some (cmd_newmux_release_reserved_closed_exec a sv)
  | ListRecent => Some (cmd_newmux_list_recently_closed_exec sv)
  | ClearRecent => Some (cmd_newmux_clear_recently_closed_exec sv)
  end.

(** Between two commands anything else may happen to the sessions and windows. *)
Inductive step : server -> server -> Prop :=
  | step_command c sv r sv' : exec c sv = Some (r, sv') -> step sv sv'
  | step_other sv w : step sv (with_world w sv).

End Commands.
