(* ===== verification/RecoveryFacts.v ===== *)
(** * Facts about moving windows between sessions *)
From Stdlib Require Import Ascii String.
From stdpp Require Import sorting.
From S2P Require Import Prelude.
From S2P Require Import CellCodec.
From S2P Require Import Screen.
From S2P Require Import History.
From S2P Require Import Winlink.
From S2P Require Import World.
From S2P Require Import Session.
From S2P Require Import SessionFacts.
From S2P Require Import Locale.
From S2P Require Import Window.
From S2P Require Import Server.
From S2P Require Import Recovery.

(** The windows of a session, in order. *)
Definition order (w : world) (sid : Z) : option (list Z) :=
  (fun s => map wl_window (s_windows s)) <$> sessions w !! sid.

Lemma order_same w w' sid : forget w' = forget w -> order w' sid = order w sid.
Proof.
  intros E. assert (Es : sessions (forget w') !! sid = sessions (forget w) !! sid) by (by rewrite E).
  rewrite !forget_session in Es. unfold order.
  destruct (sessions w' !! sid), (sessions w !! sid); try done. cbn in *. f_equal.
  injection Es as _ _ Es _ _. by apply map_wl_window.
Qed.

(** A world that keeps its sessions under their ids and has no session groups. *)
Record plain_world (w : world) : Prop := {
  pw_keyed : keyed w;
  pw_ungrouped : ungrouped w
}.

Lemma plain_same w w' : forget w' = forget w -> plain_world w -> plain_world w'.
Proof.
  intros E [Hk Hg]. split; [by apply (keyed_same w)|by apply (ungrouped_same w)].
Qed.

(** The world with the window [wid] linked to [s]. *)
Definition linked (w : world) (s : session) (wwl : list winlink) (wid : Z) : world :=
  window_add_ref wid (set_next_wl (next_wl w + 1) (put_session (set_windows wwl s) w)).

Lemma link_linked w sid s idx wid flags wl wwl : sessions w !! sid = Some s ->
  winlink_add (s_windows s) (next_wl w) idx sid wid flags = Some (wl, wwl) ->
  link_window sid idx wid flags w = Some (wl, linked w s wwl wid).
Proof. intros E Ha. unfold link_window. rewrite E. cbn. by rewrite Ha. Qed.

Lemma linked_plain w sid s wwl wid : sessions w !! sid = Some s -> plain_world w ->
  plain_world (linked w s wwl wid).
Proof.
  intros E [Hk Hg]. split; [|done]. intros sid' s'. unfold linked, window_add_ref, upd_window. cbn.
  rewrite (Hk _ _ E). intros [[<- <-]|[Hne E']]%lookup_insert_Some; [exact (Hk _ _ E)|by apply Hk].
Qed.

Lemma linked_sessions w s wwl wid :
  sessions (linked w s wwl wid) = <[s_id s := set_windows wwl s]> (sessions w).
Proof. done. Qed.

Lemma set_current_plain w sid o : plain_world w -> plain_world (snd (session_set_current w sid o)).
Proof.
  intros Hp. pose proof (set_current_same w sid o (pw_keyed _ Hp)) as Hs.
  destruct (session_set_current w sid o) as [r w']. by apply (plain_same w); [apply Hs|].
Qed.

Lemma attach_silent_spec w sid s wid idx wl wwl : plain_world w -> sessions w !! sid = Some s ->
  winlink_add (s_windows s) (next_wl w) idx sid wid 0 = Some (wl, wwl) ->
  exists w', newmux_session_attach_silent sid wid idx w = Some (inl wl, w') /\
    forget w' = forget (linked w s wwl wid) /\ plain_world w' /\
    curws w' = <[sid := Some (default (wl_id wl) (s_curw s))]> (curws w).
Proof.
  intros Hp E Ha. unfold newmux_session_attach_silent. rewrite (link_linked w sid s _ _ _ _ _ E Ha).
  pose proof (linked_plain w sid s wwl wid E Hp) as Hp1.
  pose proof (pw_keyed _ Hp _ _ E) as Hid.
  pose proof (link_curws _ _ _ _ _ _ _ (pw_keyed _ Hp) (link_linked w sid s _ _ _ _ _ E Ha)) as Hc.
  set (w1 := linked w s wwl wid) in *.
  assert (E1 : sessions w1 !! sid = Some (set_windows wwl s)).
  { unfold w1. rewrite linked_sessions, Hid. by rewrite lookup_insert_eq. }
  rewrite E1. cbn [mbind option_bind]. change (s_curw (set_windows wwl s)) with (s_curw s).
  case_decide as Hcur.
  - pose proof (set_current_same w1 sid (Some (wl_id wl)) (pw_keyed _ Hp1)) as Hs.
    pose proof (set_current_plain w1 sid (Some (wl_id wl)) Hp1) as Hp2.
    destruct (session_set_current w1 sid _) as [r w2]. destruct Hs as [Hf Hcw]. cbn in Hp2.
    exists w2. cbn [snd]. rewrite ungrouped_sync by apply Hp2. split_and!; [done|done|done|].
    rewrite Hcw, E1, Hc, Hcur. done.
  - exists w1. rewrite ungrouped_sync by apply Hp1. split_and!; [done|done|done|].
    rewrite Hc. symmetry. apply insert_id. unfold curws. rewrite lookup_fmap, E. cbn.
    by destruct (s_curw s).
Qed.

Lemma detach_silent_spec w sid s wl : plain_world w -> sessions w !! sid = Some s ->
  exists w', newmux_session_detach_silent sid wl w = Some (session_empty w' sid, w') /\
    forget w' = unlink_window sid (bare wl) (forget w) /\ plain_world w'.
Proof.
  intros Hp E. unfold newmux_session_detach_silent. rewrite E. cbn [mbind option_bind].
  set (w1 := if decide _ then _ else w).
  assert (Hf : forget w1 = forget w).
  { unfold w1. case_decide; [|done].
    destruct (match winlink_next _ _ with Some n => _ | None => _ end) as [n|].
    - pose proof (set_current_same w sid (Some (wl_id n)) (pw_keyed _ Hp)) as Hs.
      destruct (session_set_current w sid _). apply Hs.
    - by apply forget_upd. }
  clearbody w1.
  set (w2 := unlink_window sid wl _).
  assert (Hf2 : forget w2 = unlink_window sid (bare wl) (forget w)).
  { unfold w2. rewrite unlink_window_forget. rewrite forget_upd; [by rewrite Hf|].
    intros s'. apply stack_remove_shape. }
  assert (Hp2 : plain_world w2).
  { assert (Hp1 : plain_world (upd_session (winlink_stack_remove (wl_id wl)) sid w1)).
    { apply (plain_same w); [|done]. rewrite forget_upd; [done|]. intros; apply stack_remove_shape. }
    destruct Hp1. unfold w2. split; [by apply unlink_keyed|by apply unlink_ungrouped]. }
  clearbody w2. rewrite ungrouped_sync by apply Hp2. by exists w2.
Qed.

Lemma session_detach_spec w sid s wl : plain_world w -> sessions w !! sid = Some s ->
  wl_get (s_windows s) (wl_id wl) = Some wl ->
  exists w', session_detach w sid (wl_id wl) = Some (session_empty w' sid, w') /\
    forget w' = unlink_window sid (bare wl) (forget w) /\ plain_world w'.
Proof.
  intros Hp E Hg. unfold session_detach. rewrite E. cbn [mbind option_bind].
  set (w1 := if decide _ then _ else w).
  assert (Hf : forget w1 = forget w).
  { unfold w1. case_decide; [|done]. by apply session_leave_same, Hp. }
  clearbody w1.
  assert (Es : sessions (forget w1) !! sid = sessions (forget w) !! sid) by (by rewrite Hf).
  rewrite !forget_session, E in Es. destruct (sessions w1 !! sid) as [s1|]; [|done].
  cbn [mbind option_bind]. injection Es as _ _ Es _ _.
  assert (Eg : bare <$> wl_get (s_windows s1) (wl_id wl) = Some (bare wl)).
  { rewrite <- wl_get_bare, Es, wl_get_bare, Hg. done. }
  destruct (wl_get (s_windows s1) (wl_id wl)) as [x|]; [|done]. injection Eg as Ei1 Ei2 Ei3 Ei4.
  assert (Eg : bare x = bare wl) by (unfold bare, set_wl_flags; congruence).
  cbn [mbind option_bind].
  set (w2 := unlink_window sid x _).
  assert (Hf2 : forget w2 = unlink_window sid (bare wl) (forget w)).
  { unfold w2. rewrite unlink_window_forget. rewrite forget_upd; [by rewrite Hf, Eg|].
    intros s'. apply stack_remove_shape. }
  assert (Hp2 : plain_world w2).
  { assert (Hp1 : plain_world (upd_session (winlink_stack_remove (wl_id wl)) sid w1)).
    { apply (plain_same w); [|done]. rewrite forget_upd; [done|]. intros; apply stack_remove_shape. }
    destruct Hp1. unfold w2. split; [by apply unlink_keyed|by apply unlink_ungrouped]. }
  clearbody w2. rewrite ungrouped_sync by apply Hp2. by exists w2.
Qed.

(** ** The place a window is put in *)

(** The place after the left neighbour that was saved, else before the right
    one, else at the position, among the windows of the session. *)
Definition saved_place (i : newmux_closed_item) (ws : list Z) : option nat :=
  match list_find (fun w => 0 <= it_left_window_id i /\ w = it_left_window_id i) ws with
  | Some (k, _) => Some (S k)
  | None =>
      match list_find (fun w => 0 <= it_right_window_id i /\ w = it_right_window_id i) ws with
      | Some (k, _) => Some k
      | None =>
          if decide (0 <= it_window_position i < Z.of_nat (length ws))
          then Some (Z.to_nat (it_window_position i)) else None
      end
  end.

(** The neighbours of an item are [int]s. *)
Definition int_neighbours (i : newmux_closed_item) : Prop :=
  it_left_window_id i < 2147483648 /\ it_right_window_id i < 2147483648.

(** The windows of the session exist, and the addresses of links are fresh. *)
Record session_fits (w : world) (s : session) : Prop := {
  sf_wwl : wwl_ok (s_windows s);
  sf_roomy : roomy (s_windows s);
  sf_fresh : Forall (fun wl => wl_id wl < next_wl w) (s_windows s);
  sf_keys : forall wid x, windows w !! wid = Some x -> w_id x = wid;
  sf_windows : Forall (fun wl => is_Some (windows w !! wl_window wl)) (s_windows s)
}.

Lemma find_window_split l id wl : winlink_find_by_window l id = Some wl ->
  exists p q, l = p ++ wl :: q /\ wl_window wl = id /\ id ∉ map wl_window p.
Proof.
  unfold winlink_find_by_window. destruct (list_find _ l) as [[k x]|] eqn:E; [|done].
  cbn. intros [= ->]. apply list_find_Some in E as (E & Hw & Hf).
  exists (take k l), (drop (S k) l). split; [by rewrite take_drop_middle|]. split; [done|].
  intros (y & Ey & Hy)%list_elem_of_fmap. apply list_elem_of_lookup_1 in Hy as [j Hj].
  apply lookup_take_Some in Hj as [Hj Hlt]. by apply (Hf j y).
Qed.

Lemma find_window_None l id : winlink_find_by_window l id = None -> id ∉ map wl_window l.
Proof.
  unfold winlink_find_by_window. destruct (list_find _ l) as [[k x]|] eqn:E; [done|]. intros _.
  apply list_find_None in E. intros (y & Ey & Hy)%list_elem_of_fmap.
  rewrite Forall_forall in E. by apply (E y).
Qed.

Lemma neighbour_link_find w s id : session_fits w s -> id < 2147483648 ->
  neighbour_link w s id = if 0 <=? id then winlink_find_by_window (s_windows s) id else None.
Proof.
  intros Hs Hid. unfold neighbour_link, window_find_by_id. destruct (Z.leb_spec 0 id); [|done].
  rewrite u32_small by lia. destruct (windows w !! id) as [x|] eqn:Ex.
  - by rewrite (sf_keys _ _ Hs _ _ Ex).
  - destruct (winlink_find_by_window (s_windows s) id) as [wl|] eqn:E; [|done].
    destruct (find_window_split _ _ _ E) as (p & q & El & <- & _).
    pose proof (sf_windows _ _ Hs) as Hw. rewrite El, Forall_app, Forall_cons in Hw.
    destruct Hw as (_ & [x Ex'] & _). congruence.
Qed.

Lemma find_place (ws : list Z) (P : Z -> Prop) `{forall x, Decision (P x)} p x q :
  ws = p ++ x :: q -> P x -> Forall (fun y => ~ P y) p -> list_find P ws = Some (length p, x).
Proof.
  intros -> Hx Hp. apply list_find_Some. split_and!; [by apply list_lookup_middle|done|].
  intros j y Hj Hlt. rewrite lookup_app_l in Hj by done. rewrite Forall_forall in Hp.
  apply Hp. by eapply list_elem_of_lookup_2.
Qed.

Lemma insert_at_app {A} (l1 l2 : list A) x : list_insert_at (length l1) x (l1 ++ l2) = l1 ++ x :: l2.
Proof. unfold list_insert_at. by rewrite take_app_length, drop_app_length. Qed.

(** The links are moved up and the window is attached in between. *)
Lemma attach_placed w sid s wid wl (before : bool) l1 l2 : plain_world w ->
  sessions w !! sid = Some s -> session_fits w s -> s_windows s = l1 ++ l2 -> wl ∈ s_windows s ->
  let i := if before then wl_idx wl else wl_idx wl + 1 in
  (forall a, a ∈ l1 -> wl_idx a < i) -> (forall b, b ∈ l2 -> i <= wl_idx b) ->
  exists w1 w' wl' wwl, shuffle_up sid wl before w = (i, w1) /\ (i =? -1) = false /\
    newmux_session_attach_silent sid wid i w1 = Some (inl wl', w') /\
    forget w' = forget (linked w s wwl wid) /\ plain_world w' /\
    curws w' = <[sid := Some (default (wl_id wl') (s_curw s))]> (curws w) /\
    wl' = WL (next_wl w) i sid wid 0 /\ wwl_ok wwl /\
    exists l2', wwl = l1 ++ wl' :: l2' /\ map wl_window l2' = map wl_window l2 /\
      map wl_id l2' = map wl_id l2.
Proof.
  intros Hp E Hs El Hin i H1 H2.
  pose proof (sf_wwl _ _ Hs) as Hok. pose proof (sf_roomy _ _ Hs) as Hr. rewrite El in Hok, Hr, Hin.
  assert (Hi : 0 <= i).
  { pose proof (wwl_range _ Hok) as Hrg. rewrite Forall_forall in Hrg. specialize (Hrg _ Hin).
    unfold i. destruct before; lia. }
  assert (Hid : next_wl w ∉ map wl_id (l1 ++ l2)).
  { intros (y & Ey & Hy)%list_elem_of_fmap. pose proof (sf_fresh _ _ Hs) as Hf.
    rewrite El, Forall_forall in Hf. specialize (Hf y Hy). lia. }
  destruct (shuffle_place l1 l2 wl before (next_wl w) sid wid 0 Hok Hr Hin H1 H2 Hid)
    as (l' & l2' & Hsh & Hadd & Hw & Hids & Hok').
  unfold shuffle_up. rewrite E, El, Hsh.
  set (w1 := put_session (set_windows l' s) w).
  pose proof (pw_keyed _ Hp _ _ E) as Hsid.
  assert (E1 : sessions w1 !! sid = Some (set_windows l' s)).
  { unfold w1, put_session. cbn. rewrite Hsid. by rewrite lookup_insert_eq. }
  assert (Hp1 : plain_world w1).
  { destruct Hp as [Hk Hg]. split; [|done]. intros sid' s'. unfold w1, put_session. cbn.
    rewrite Hsid. intros [[<- <-]|[_ E']]%lookup_insert_Some; [exact Hsid|exact (Hk _ _ E')]. }
  assert (Hcw1 : curws w1 = curws w).
  { unfold w1. rewrite curws_put. change (s_id (set_windows l' s)) with (s_id s). rewrite Hsid.
    apply insert_id. unfold curws. by rewrite lookup_fmap, E. }
  destruct (attach_silent_spec w1 sid (set_windows l' s) wid i _ _ Hp1 E1 Hadd)
    as (w' & Ha & Hf & Hp' & Hc).
  exists w1, w', (WL (next_wl w) i sid wid 0), (l1 ++ WL (next_wl w) i sid wid 0 :: l2').
  split_and!; try done.
  - apply Z.eqb_neq. fold i. lia.
  - rewrite Hf. f_equal. unfold linked, w1, put_session, set_next_wl, set_sessions. cbn. f_equal.
    by rewrite insert_insert_eq.
  - rewrite Hc, Hcw1. done.
  - by exists l2'.
Qed.

Lemma split_indexes l1 x l2 : wwl_ok (l1 ++ x :: l2) ->
  (forall a, a ∈ l1 -> wl_idx a < wl_idx x) /\ (forall b, b ∈ l2 -> wl_idx x < wl_idx b).
Proof.
  intros Hok. apply wwl_app in Hok as (_ & Hok & H1). apply wwl_cons in Hok as (_ & _ & H2).
  split; intros y Hy; [by apply H1; [|left]|by apply H2].
Qed.

(** A window is put in its saved place. *)
Lemma attach_saved_place w sid s wid i k : plain_world w -> sessions w !! sid = Some s ->
  session_fits w s -> int_neighbours i ->
  saved_place i (map wl_window (s_windows s)) = Some k ->
  exists w' wl' wwl,
    newmux_session_attach_at_saved_position sid wid i w = Some (inl wl', w') /\
    forget w' = forget (linked w s wwl wid) /\ plain_world w' /\
    curws w' = <[sid := Some (default (wl_id wl') (s_curw s))]> (curws w) /\
    wl_id wl' = next_wl w /\ wl_window wl' = wid /\ wl' ∈ wwl /\ wwl_ok wwl /\
    map wl_window wwl = list_insert_at k wid (map wl_window (s_windows s)) /\
    map wl_id wwl = list_insert_at k (next_wl w) (map wl_id (s_windows s)).
Proof.
  intros Hp E Hs [Hil Hir] Hk. pose proof (sf_wwl _ _ Hs) as Hok.
  unfold newmux_session_attach_at_saved_position. rewrite E. cbn [mbind option_bind].
  rewrite !neighbour_link_find by done.
  (* all cases: the links before and after the place *)
  assert (Hplace : forall wl (before : bool) l1 l2, s_windows s = l1 ++ l2 -> wl ∈ s_windows s ->
    (forall a, a ∈ l1 -> wl_idx a < if before then wl_idx wl else wl_idx wl + 1) ->
    (forall b, b ∈ l2 -> (if before then wl_idx wl else wl_idx wl + 1) <= wl_idx b) ->
    k = length l1 -> forall cause : string,
    exists w' wl' wwl,
      (let '(idx, w) := shuffle_up sid wl before w in
       if idx =? -1 then Some (inr cause, w) else newmux_session_attach_silent sid wid idx w) =
        Some (inl wl', w') /\
      forget w' = forget (linked w s wwl wid) /\ plain_world w' /\
      curws w' = <[sid := Some (default (wl_id wl') (s_curw s))]> (curws w) /\
      wl_id wl' = next_wl w /\ wl_window wl' = wid /\ wl' ∈ wwl /\ wwl_ok wwl /\
      map wl_window wwl = list_insert_at k wid (map wl_window (s_windows s)) /\
      map wl_id wwl = list_insert_at k (next_wl w) (map wl_id (s_windows s))).
  { intros wl before l1 l2 El Hin H1 H2 -> cause.
    destruct (attach_placed w sid s wid wl before l1 l2 Hp E Hs El Hin H1 H2)
      as (w1 & w' & wl' & wwl & Hsh & Hne & Ha & Hf & Hp' & Hc & Ewl & Hok' & l2' & Ew & Hww & Hii).
    exists w', wl', wwl. rewrite Hsh, Hne. split_and!; try done.
    - by rewrite Ewl.
    - by rewrite Ewl.
    - rewrite Ew. apply elem_of_app. right. by left.
    - rewrite El, Ew, !map_app. cbn [map]. rewrite Hww, Ewl.
      rewrite <- (length_map wl_window l1). by rewrite insert_at_app.
    - rewrite El, Ew, !map_app. cbn [map]. rewrite Hii, Ewl.
      rewrite <- (length_map wl_id l1). by rewrite insert_at_app. }
  unfold saved_place in Hk.
  destruct (if 0 <=? it_left_window_id i then _ else None) as [wl|] eqn:El.
  { destruct (Z.leb_spec 0 (it_left_window_id i)) as [Hl|]; [|done].
    destruct (find_window_split _ _ _ El) as (p & q & Eq & Hwl & Hnp).
    rewrite (find_place _ _ (map wl_window p) (wl_window wl) (map wl_window q)) in Hk.
    2:{ by rewrite Eq, map_app. }
    2:{ by rewrite Hwl. }
    2:{ apply Forall_forall. intros y Hy [_ ->]. done. }
    injection Hk as <-. rewrite Eq in Hok. destruct (split_indexes _ _ _ Hok) as [Ha Hb].
    apply (Hplace wl false (p ++ [wl]) q).
    - by rewrite Eq, <- app_assoc.
    - rewrite Eq. apply elem_of_app. right. by left.
    - intros a [Hin| ->%list_elem_of_singleton]%elem_of_app; [specialize (Ha a Hin); lia|lia].
    - intros b Hin. specialize (Hb b Hin). lia.
    - rewrite length_app, length_map. cbn. lia. }
  assert (Hnl : list_find (fun w0 => 0 <= it_left_window_id i /\ w0 = it_left_window_id i)
                  (map wl_window (s_windows s)) = None).
  { apply list_find_None, Forall_forall. intros y Hy [Hl ->].
    rewrite (proj2 (Z.leb_le _ _)) in El by done. by apply find_window_None in El. }
  rewrite Hnl in Hk. clear Hnl El.
  destruct (if 0 <=? it_right_window_id i then _ else None) as [wl|] eqn:Er.
  { destruct (Z.leb_spec 0 (it_right_window_id i)) as [Hl|]; [|done].
    destruct (find_window_split _ _ _ Er) as (p & q & Eq & Hwl & Hnp).
    rewrite (find_place _ _ (map wl_window p) (wl_window wl) (map wl_window q)) in Hk.
    2:{ by rewrite Eq, map_app. }
    2:{ by rewrite Hwl. }
    2:{ apply Forall_forall. intros y Hy [_ ->]. done. }
    injection Hk as <-. rewrite Eq in Hok. destruct (split_indexes _ _ _ Hok) as [Ha Hb].
    apply (Hplace wl true p (wl :: q)).
    - done.
    - rewrite Eq. apply elem_of_app. right. by left.
    - done.
    - intros b [-> | Hin]%elem_of_cons; [lia|]. specialize (Hb b Hin). lia.
    - by rewrite length_map. }
  assert (Hnr : list_find (fun w0 => 0 <= it_right_window_id i /\ w0 = it_right_window_id i)
                  (map wl_window (s_windows s)) = None).
  { apply list_find_None, Forall_forall. intros y Hy [Hl ->].
    rewrite (proj2 (Z.leb_le _ _)) in Er by done. by apply find_window_None in Er. }
  rewrite Hnr in Hk. case_decide as Hpos; [|done]. injection Hk as Hk.
  rewrite (proj2 (Z.leb_le _ _)) by lia. rewrite length_map in Hpos.
  unfold newmux_winlink_at_position. rewrite Hk.
  destruct (s_windows s !! k) as [wl|] eqn:Ek; [|apply lookup_ge_None in Ek; lia].
  pose proof (take_drop_middle _ _ _ Ek) as Eq. rewrite <- Eq in Hok.
  destruct (split_indexes _ _ _ Hok) as [Ha Hb].
  apply (Hplace wl true (take k (s_windows s)) (wl :: drop (S k) (s_windows s))).
  - done.
  - by eapply list_elem_of_lookup_2.
  - done.
  - intros b [-> | Hin]%elem_of_cons; [lia|]. specialize (Hb b Hin). lia.
  - rewrite length_take. lia.
Qed.

(** ** Lookups after linking and unlinking *)

Lemma same_session w w' sid s : forget w' = forget w -> sessions w !! sid = Some s ->
  exists s', sessions w' !! sid = Some s' /\ shape s' = shape s.
Proof.
  intros Hf E. assert (Es : sessions (forget w') !! sid = sessions (forget w) !! sid) by (by rewrite Hf).
  rewrite !forget_session, E in Es. destruct (sessions w' !! sid) as [s'|]; [|done].
  exists s'. split; [done|]. by apply (inj Some) in Es.
Qed.

Lemma same_window w w' wid x : forget w' = forget w -> windows w !! wid = Some x ->
  exists x', windows w' !! wid = Some x' /\ quiet x' = quiet x.
Proof.
  intros Hf E. assert (Es : windows (forget w') !! wid = windows (forget w) !! wid) by (by rewrite Hf).
  rewrite !forget_window, E in Es. destruct (windows w' !! wid) as [x'|]; [|done].
  exists x'. split; [done|]. by apply (inj Some) in Es.
Qed.

Lemma shape_windows s s' : shape s' = shape s -> map bare (s_windows s') = map bare (s_windows s).
Proof. intros E. by injection E. Qed.

Lemma unlink_sessions sid wl w : sessions (unlink_window sid wl w) =
  alter (fun s => set_windows (wl_delete (wl_id wl) (s_windows s)) s) sid (sessions w).
Proof. unfold unlink_window. by rewrite remove_ref_sessions. Qed.

Lemma unlink_next_wl sid wl w : next_wl (unlink_window sid wl w) = next_wl w.
Proof.
  unfold unlink_window, window_remove_ref. destruct (_ !! wl_window wl); [|done].
  by destruct (_ =? 0).
Qed.

(** A window that has another link is still there when one goes. *)
Lemma unlink_windows sid wl w x : windows w !! wl_window wl = Some x -> 2 <= w_references x < 4294967296 ->
  windows (unlink_window sid wl w) =
    <[wl_window wl := set_w_references (w_references x - 1) x]> (windows w).
Proof.
  intros E Hr. unfold unlink_window, window_remove_ref, upd_session. cbn. rewrite E.
  rewrite u32_small by lia. rewrite (proj2 (Z.eqb_neq _ _)) by lia.
  unfold upd_window. cbn. apply map_eq. intros wid.
  destruct (decide (wl_window wl = wid)) as [<- | Hne].
  - rewrite lookup_alter_eq, lookup_insert_eq, E. cbn. by rewrite u32_small by lia.
  - by rewrite lookup_alter_ne, lookup_insert_ne by done.
Qed.

Lemma linked_windows w s wwl wid x : windows w !! wid = Some x -> 0 <= w_references x < 4294967295 ->
  windows (linked w s wwl wid) = <[wid := set_w_references (w_references x + 1) x]> (windows w).
Proof.
  intros E Hr. unfold linked, window_add_ref, upd_window. cbn. apply map_eq. intros wid'.
  destruct (decide (wid = wid')) as [<- | Hne].
  - rewrite lookup_alter_eq, lookup_insert_eq, E. cbn. by rewrite u32_small by lia.
  - by rewrite lookup_alter_ne, lookup_insert_ne by done.
Qed.

(** A window is linked at the first free index. *)
Lemma add_free l id sid wid : wwl_ok l -> Z.of_nat (length l) < INT_MAX -> id ∉ map wl_id l ->
  exists j, winlink_add l id (-1) sid wid 0 = Some (WL id j sid wid 0, wl_insert (WL id j sid wid 0) l) /\
    wwl_ok (wl_insert (WL id j sid wid 0) l) /\
    wl_insert (WL id j sid wid 0) l ≡ₚ WL id j sid wid 0 :: l.
Proof.
  intros Hok Hl Hid. destruct (next_index_ok l 0) as (j & Hj & Hf & Hr); [unfold INT_MAX; lia|lia|].
  exists j. unfold winlink_add. change (-1 <? 0) with true. cbn iota.
  change (- -1 - 1) with 0. rewrite Hj. split; [done|]. by apply insert_ok.
Qed.

Lemma session_find_some w name s : keyed w -> session_find w name = Some s ->
  sessions w !! s_id s = Some s /\ s_name s = name.
Proof.
  intros Hk. unfold session_find, sessions_by_name.
  destruct (list_find _ _) as [[k x]|] eqn:E; [|done]. cbn. intros [= ->].
  apply list_find_Some in E as (E & Hn & _). split; [|done].
  apply list_elem_of_lookup_2 in E. rewrite merge_sort_Permutation in E.
  apply list_elem_of_fmap in E as ([sid y] & Ey & Hin). cbn in Ey. subst y.
  apply elem_of_map_to_list in Hin. by rewrite (Hk _ _ Hin).
Qed.

(** The recovery session: the one there is or a new one. *)
Lemma recovery_session_spec w : plain_world w -> sessions w !! next_session_id w = None ->
  exists r wa, newmux_recovery_session_get w = Some (r, wa) /\ plain_world wa /\
    sessions wa = <[s_id r := r]> (sessions w) /\ s_name r = NEWMUX_RECOVERY_SESSION /\
    (sessions w !! s_id r = Some r \/
     s_id r = next_session_id w /\ s_windows r = [] /\ s_curw r = None) /\
    windows wa = windows w /\ panes wa = panes w /\ next_wl wa = next_wl w.
Proof.
  intros Hp Hnew. unfold newmux_recovery_session_get.
  destruct (session_find w NEWMUX_RECOVERY_SESSION) as [r|] eqn:E.
  - destruct (session_find_some _ _ _ (pw_keyed _ Hp) E) as [Er Hn].
    exists r, w. split_and!; try done; [|by left]. by rewrite insert_id.
  - eexists _, _. split; [reflexivity|]. split_and!; try done; [|by right].
    destruct Hp as [Hk Hg]. split; [|done]. intros sid s. cbn.
    intros [[<- <-]|[_ E']]%lookup_insert_Some; [done|exact (Hk _ _ E')].
Qed.

Lemma preserve_fold (l : list Z) `{CellCodec} w : exists ps,
  foldl (fun w pid => preserve_history pid w) w l = set_panes ps w.
Proof.
  revert w. induction l as [|pid l IH]; intros w; cbn.
  - exists (panes w). by destruct w.
  - destruct (IH (preserve_history pid w)) as [ps ->]. by exists ps.
Qed.

Lemma protect_fold (l : list Z) w : exists ps,
  foldl (fun w pid => protect_pane pid w) w l = set_panes ps w.
Proof.
  revert w. induction l as [|pid l IH]; intros w; cbn.
  - exists (panes w). by destruct w.
  - destruct (IH (protect_pane pid w)) as [ps ->]. by exists ps.
Qed.

Lemma screens_fold `{CellCodec} l w : exists ps, restore_screens l w = set_panes ps w.
Proof.
  unfold restore_screens. revert w. induction l as [|sn l IH]; intros w; cbn.
  - exists (panes w). by destruct w.
  - match goal with |- context [foldl _ ?w1 l] => destruct (IH w1) as [ps ->] end. by exists ps.
Qed.

(** ** Closing a window *)

(** The link [wl] of the session [s] can be closed: to the window [x], which is
    not zoomed, from a session that keeps others. *)
Record closable (w : world) (sid : Z) (s : session) (wl : winlink) (x : window) : Prop := {
  cl_plain : plain_world w;
  cl_new : sessions w !! next_session_id w = None;
  cl_session : sessions w !! sid = Some s;
  cl_name : s_name s <> NEWMUX_RECOVERY_SESSION;
  cl_fits : session_fits w s;
  cl_once : NoDup (map wl_window (s_windows s));
  cl_ids : Forall (fun wl => 0 <= wl_window wl < 2147483648) (s_windows s);
  cl_link : wl ∈ s_windows s;
  cl_more : (2 <= length (s_windows s))%nat;
  cl_window : windows w !! wl_window wl = Some x;
  cl_unzoomed : w_has x WINDOW_ZOOMED = false;
  cl_active : is_Some (w_active x);
  cl_refs : 1 <= w_references x < 4294967294;
  cl_recovery : forall rid r, sessions w !! rid = Some r -> s_name r = NEWMUX_RECOVERY_SESSION ->
    wwl_ok (s_windows r) /\ Z.of_nat (length (s_windows r)) < INT_MAX /\
    Forall (fun wl => wl_id wl < next_wl w) (s_windows r) /\
    wl_window wl ∉ map wl_window (s_windows r)
}.

(** A window that is in the recovery session and was in [s]. *)
Record closed_window (w w' : world) (sid : Z) (s : session) (wl : winlink) (rid : Z) : Prop := {
  cw_plain : plain_world w';
  cw_other : rid <> sid;
  cw_session : exists s', sessions w' !! sid = Some s' /\
    map bare (s_windows s') = map bare (wl_delete (wl_id wl) (s_windows s));
  cw_recovery : exists r, sessions w' !! rid = Some r /\ NoDup (map wl_id (s_windows r)) /\
    is_Some (winlink_find_by_window (s_windows r) (wl_window wl));
  cw_windows : quiet <$> windows w' = quiet <$> windows w;
  cw_next : next_wl w' = next_wl w + 1
}.

Lemma find_window_is_Some l id : is_Some (winlink_find_by_window l id) <-> id ∈ map wl_window l.
Proof.
  split.
  - intros [wl Hf]. destruct (find_window_split _ _ _ Hf) as (p & q & -> & <- & _).
    rewrite map_app. apply elem_of_app. right. by left.
  - intros Hin. destruct (winlink_find_by_window l id) eqn:E; [done|].
    by apply find_window_None in E.
Qed.

Section Break.
Context `{CellCodec} `{Locale}.

Lemma unzoomed_stays w wid x : windows w !! wid = Some x -> w_has x WINDOW_ZOOMED = false ->
  server_unzoom_window wid w = Some w.
Proof. intros E Hz. unfold server_unzoom_window, window_unzoom. rewrite E. cbn. by rewrite Hz. Qed.

(** The window goes: its session keeps the other links in order, the recovery
    session has it, and windows and panes do not change but for the history of
    the panes. *)
Lemma break_window_spec w sid s wl x i : closable w sid s wl x ->
  exists w' rid, newmux_break_live_window i sid wl w =
      Some (inl (set_recovery rid (wl_window wl) i), w') /\
    closed_window w w' sid s wl rid.
Proof.
  intros Hc. destruct (recovery_session_spec w (cl_plain _ _ _ _ _ Hc) (cl_new _ _ _ _ _ Hc))
    as (r & wa & Hget & Hpa & Hsa & Hrn & Hrold & Hwa & Hpn & Hna).
  pose proof (cl_session _ _ _ _ _ Hc) as Hs. pose proof (cl_refs _ _ _ _ _ Hc) as Href.
  assert (Hne : s_id r <> sid).
  { intros E. destruct Hrold as [Hr|(Hr & _ & _)].
    - rewrite E, Hs in Hr. injection Hr as ->. by apply (cl_name _ _ _ _ _ Hc).
    - rewrite E in Hr. pose proof (cl_new _ _ _ _ _ Hc). congruence. }
  assert (Hrok : wwl_ok (s_windows r) /\ Z.of_nat (length (s_windows r)) < INT_MAX /\
    Forall (fun wl => wl_id wl < next_wl w) (s_windows r) /\
    wl_window wl ∉ map wl_window (s_windows r)).
  { destruct Hrold as [Hr|(_ & -> & _)]; [by apply (cl_recovery _ _ _ _ _ Hc _ _ Hr)|].
    split_and!; [apply wwl_nil|done|by constructor|by apply not_elem_of_nil]. }
  destruct Hrok as (Hrok & Hrl & Hrf & Hrw).
  unfold newmux_break_live_window. rewrite Hget. cbn [mbind option_bind].
  assert (Hxa : windows wa !! wl_window wl = Some x) by (rewrite Hwa; apply Hc).
  rewrite (unzoomed_stays _ _ _ Hxa) by apply Hc. cbn [mbind option_bind].
  rewrite Hxa. cbn [mbind option_bind].
  destruct (preserve_fold (w_panes x) wa) as [ps ->]. set (wb := set_panes ps wa).
  assert (Hpb : plain_world wb) by (destruct Hpa; by split).
  assert (Hrb : sessions wb !! s_id r = Some r).
  { unfold wb. cbn. by rewrite Hsa, lookup_insert_eq. }
  assert (Hid : next_wl wb ∉ map wl_id (s_windows r)).
  { unfold wb. cbn. rewrite Hna. intros (y & Ey & Hy)%list_elem_of_fmap.
    rewrite Forall_forall in Hrf. specialize (Hrf y Hy). lia. }
  destruct (add_free (s_windows r) (next_wl wb) (s_id r) (wl_window wl) Hrok Hrl Hid)
    as (j & Hadd & Hok1 & Hperm).
  set (wlr := WL (next_wl wb) j (s_id r) (wl_window wl) 0) in *.
  destruct (attach_silent_spec wb (s_id r) r _ _ _ _ Hpb Hrb Hadd) as (w1 & Hat & Hf1 & Hp1 & _).
  rewrite Hat. cbn [mbind option_bind].
  set (wwl := wl_insert wlr (s_windows r)) in *.
  assert (Hsl : sessions (linked wb r wwl (wl_window wl)) !! sid = Some s).
  { rewrite linked_sessions, lookup_insert_ne by done. unfold wb. cbn.
    by rewrite Hsa, lookup_insert_ne. }
  destruct (same_session _ _ _ _ Hf1 Hsl) as (s1 & Hs1 & Hsh1).
  destruct (detach_silent_spec w1 sid s1 wl Hp1 Hs1) as (w2 & Hdt & Hf2 & Hp2).
  rewrite Hdt. cbn [mbind option_bind].
  assert (Hf2' : forget w2 = forget (unlink_window sid wl (linked wb r wwl (wl_window wl))))
    by (by rewrite Hf2, unlink_window_forget, Hf1).
  assert (Hs2 : sessions (unlink_window sid wl (linked wb r wwl (wl_window wl))) !! sid =
    Some (set_windows (wl_delete (wl_id wl) (s_windows s)) s)).
  { by rewrite unlink_sessions, lookup_alter_eq, Hsl. }
  destruct (same_session _ _ _ _ Hf2' Hs2) as (s2 & Hs2' & Hsh2).
  pose proof (shape_windows _ _ Hsh2) as Hw2. cbn in Hw2.
  assert (Hempty : session_empty w2 sid = false).
  { unfold session_empty. rewrite Hs2'. destruct (s_windows s2) as [|a l] eqn:E2; [|done].
    cbn in Hw2. exfalso. symmetry in Hw2. apply map_eq_nil in Hw2.
    pose proof (cl_link _ _ _ _ _ Hc) as Hin. apply list_elem_of_split in Hin as (l1 & l2 & El).
    pose proof (sf_wwl _ _ (cl_fits _ _ _ _ _ Hc)) as Hok. rewrite El in Hok, Hw2.
    destruct (ids_middle _ _ _ Hok) as [Ha Hb]. rewrite delete_middle in Hw2 by done.
    pose proof (cl_more _ _ _ _ _ Hc) as Hm. apply app_eq_nil in Hw2 as [-> ->].
    rewrite El in Hm. cbn in Hm. lia. }
  rewrite Hempty. exists w2, (s_id r). split; [done|]. split; try done.
  - by exists s2.
  - assert (Hsr : sessions (unlink_window sid wl (linked wb r wwl (wl_window wl))) !! s_id r =
      Some (set_windows wwl r)).
    { by rewrite unlink_sessions, lookup_alter_ne, linked_sessions, lookup_insert_eq. }
    destruct (same_session _ _ _ _ Hf2' Hsr) as (r2 & Hr2 & Hrsh).
    pose proof (shape_windows _ _ Hrsh) as Hrw2. cbn in Hrw2.
    exists r2. split; [done|]. split.
    + rewrite (map_wl_id _ _ Hrw2). apply Hok1.
    + apply find_window_is_Some. rewrite (map_wl_window _ _ Hrw2).
      apply (Permutation_map wl_window) in Hperm. rewrite Hperm. by left.
  - apply (f_equal windows) in Hf2'. cbn in Hf2'. rewrite Hf2'.
    assert (Hxb : windows wb !! wl_window wl = Some x) by done.
    pose proof (linked_windows wb r wwl _ _ Hxb ltac:(lia)) as Hlw.
    rewrite (unlink_windows sid wl _ (set_w_references (w_references x + 1) x)).
    + rewrite Hlw, insert_insert_eq, fmap_insert. unfold wb. cbn. rewrite Hwa.
      apply insert_id. rewrite lookup_fmap, (cl_window _ _ _ _ _ Hc). cbn. f_equal.
      destruct x; cbn. unfold quiet, w_lower, set_w_flags. cbn. f_equal. lia.
    + by rewrite Hlw, lookup_insert_eq.
    + cbn. lia.
  - apply (f_equal next_wl) in Hf2. cbn in Hf2. rewrite Hf2, unlink_next_wl.
    apply (f_equal next_wl) in Hf1. change (next_wl w1 = next_wl wb + 1) in Hf1.
    change (next_wl w1 = next_wl w + 1). by rewrite Hf1, <- Hna.
Qed.

End Break.

(** ** Reopening a window *)

Lemma Forall_bare (P : winlink -> Prop) l l' : (forall wl, P (bare wl) <-> P wl) ->
  map bare l' = map bare l -> Forall P l -> Forall P l'.
Proof.
  intros HP E Hl. assert (Hb : Forall P (map bare l')).
  { rewrite E. apply Forall_map. eapply Forall_impl; [exact Hl|]. intros x Hx. by apply HP. }
  rewrite Forall_map in Hb. eapply Forall_impl; [exact Hb|]. intros x Hx. by apply HP.
Qed.

Lemma length_bare l l' : map bare l' = map bare l -> length l' = length l.
Proof. intros E. apply (f_equal length) in E. by rewrite !length_map in E. Qed.

(** The session that is left has the same properties. *)
Lemma fits_without w w' s s' wl l1 l2 : session_fits w s -> s_windows s = l1 ++ wl :: l2 ->
  map bare (s_windows s') = map bare (l1 ++ l2) -> next_wl w <= next_wl w' ->
  quiet <$> windows w' = quiet <$> windows w -> session_fits w' s'.
Proof.
  intros [Hok [Hr1 Hr2] Hf Hk Hw] El E Hn Hq. rewrite El in *.
  assert (Hlen : (length (l1 ++ wl :: l2) = S (length (l1 ++ l2)))%nat)
    by (rewrite !length_app; cbn; lia).
  assert (Hsub : forall P : winlink -> Prop, Forall P (l1 ++ wl :: l2) -> Forall P (l1 ++ l2)).
  { intros P. rewrite !Forall_app, Forall_cons. tauto. }
  assert (Hlook : forall wid, quiet <$> windows w' !! wid = quiet <$> windows w !! wid).
  { intros wid. apply (f_equal (lookup wid)) in Hq. by rewrite !lookup_fmap in Hq. }
  split.
  - apply wwl_ok_bare. rewrite E. apply wwl_ok_bare.
    apply wwl_app in Hok as (H1 & H2 & H3). apply wwl_cons in H2 as (_ & H2 & _).
    apply wwl_app. split_and!; [done|done|]. intros a b Ha Hb. apply H3; [done|by right].
  - unfold roomy. rewrite (length_bare _ _ E). split; [|lia].
    apply (Forall_bare _ (l1 ++ l2)); [done|done|]. apply Hsub.
    eapply Forall_impl; [exact Hr1|]. cbn. intros a Ha. lia.
  - apply (Forall_bare _ (l1 ++ l2)); [done|done|]. apply Hsub.
    eapply Forall_impl; [exact Hf|]. cbn. intros a Ha. lia.
  - intros wid x' Ex. specialize (Hlook wid). rewrite Ex in Hlook.
    destruct (windows w !! wid) as [x|] eqn:Ex0; [|done]. rewrite <- (Hk _ _ Ex0).
    by injection Hlook.
  - apply (Forall_bare _ (l1 ++ l2)); [done|done|]. apply Hsub.
    eapply Forall_impl; [exact Hw|]. intros a [x Ex]. specialize (Hlook (wl_window a)).
    rewrite Ex in Hlook. by destruct (windows w' !! wl_window a).
Qed.

Lemma find_index_in l wl : wwl_ok l -> wl ∈ l -> winlink_find_by_index l (wl_idx wl) = Some wl.
Proof.
  intros Hok Hin. apply list_elem_of_split in Hin as (l1 & l2 & ->). by apply find_index_middle.
Qed.

Section Reopen.
Context `{CellCodec} `{Locale}.

(** Destroying another session, or none, does not touch a session. *)
Lemma unlink_other w rid r wlr sid s : plain_world w -> rid <> sid -> sessions w !! rid = Some r ->
  wl_get (s_windows r) (wl_id wlr) = Some wlr -> sessions w !! sid = Some s ->
  exists w' s', server_unlink_window rid (wl_id wlr) w = Some w' /\ plain_world w' /\
    sessions w' !! sid = Some s' /\ shape s' = shape s.
Proof.
  intros Hp Hne Hr Hg Hs. unfold server_unlink_window.
  destruct (session_detach_spec w rid r wlr Hp Hr Hg) as (w1 & -> & Hf & Hp1).
  cbn [mbind option_bind].
  assert (Hs' : sessions (unlink_window rid wlr w) !! sid = Some s).
  { by rewrite unlink_sessions, lookup_alter_ne. }
  assert (Hf' : forget w1 = forget (unlink_window rid wlr w)) by (by rewrite Hf, unlink_window_forget).
  destruct (same_session _ _ _ _ Hf' Hs') as (s' & Es & Hsh).
  destruct (session_empty w1 rid); [|by exists w1, s'].
  exists (server_destroy_session_group rid w1), s'. split; [done|].
  unfold server_destroy_session_group, session_group_contains.
  rewrite (pw_ungrouped _ Hp1). cbn. unfold session_destroy.
  destruct (sessions w1 !! rid) as [r1|] eqn:Er; [|done]. destruct (s_curw r1); [|done].
  unfold session_group_remove, session_group_contains. cbn. rewrite (pw_ungrouped _ Hp1). cbn.
  assert (Hfold : forall l w, sessions (foldl (fun w wl => window_remove_ref (wl_window wl) w) w l) =
      sessions w /\ session_groups (foldl (fun w wl => window_remove_ref (wl_window wl) w) w l) =
      session_groups w).
  { induction l as [|y l IH]; intros w0; [done|]. cbn. destruct (IH (window_remove_ref (wl_window y) w0))
      as [-> ->]. by rewrite remove_ref_sessions, remove_ref_groups. }
  destruct (Hfold (s_windows r1) (set_sessions (delete rid (sessions w1)) w1)) as [E1 E2].
  split_and!; [|rewrite E1; cbn; by rewrite lookup_delete_ne|done].
  split; [|unfold ungrouped; rewrite E2; apply Hp1].
  intros sid' s0. rewrite E1. cbn. intros [_ E0]%lookup_delete_Some. by apply (pw_keyed _ Hp1).
Qed.

(** The window comes back in its saved place, and is the current one. *)
Lemma restore_window_spec w w' sid s wl x i target k : closable w sid s wl x ->
  closed_window w w' sid s wl (it_recovery_session_id i) ->
  it_session_id i = sid -> it_window_id i = wl_window wl -> int_neighbours i ->
  saved_place i (map wl_window (wl_delete (wl_id wl) (s_windows s))) = Some k ->
  exists w'' s'' cur, newmux_restore_live_window target i w' = Some (None, w'') /\
    sessions w'' !! sid = Some s'' /\
    map wl_window (s_windows s'') =
      list_insert_at k (wl_window wl) (map wl_window (wl_delete (wl_id wl) (s_windows s))) /\
    s_curw s'' = Some (wl_id cur) /\ cur ∈ s_windows s'' /\ wl_window cur = wl_window wl.
Proof.
  intros Hc Hcw Hsi Hwi Hint Hk.
  destruct Hcw as [Hp Hne (s1 & Es1 & Hb1) (r & Er & Hnd & [wlr Hfr]) Hq Hnx].
  set (rid := it_recovery_session_id i) in *.
  (* the session that is left *)
  pose proof (cl_link _ _ _ _ _ Hc) as Hin. apply list_elem_of_split in Hin as (l1 & l2 & El).
  pose proof (cl_fits _ _ _ _ _ Hc) as Hfit. pose proof (sf_wwl _ _ Hfit) as Hok. rewrite El in Hok.
  destruct (ids_middle _ _ _ Hok) as [Hid1 Hid2].
  assert (Hdel : wl_delete (wl_id wl) (s_windows s) = l1 ++ l2) by (rewrite El; by apply delete_middle).
  rewrite Hdel in *.
  assert (Hfit1 : session_fits w' s1).
  { apply (fits_without w _ s _ wl l1 l2); try done. lia. }
  assert (Ex' : exists x', windows w' !! wl_window wl = Some x' /\ w_id x' = wl_window wl).
  { apply (f_equal (lookup (wl_window wl))) in Hq. rewrite !lookup_fmap, (cl_window _ _ _ _ _ Hc) in Hq.
    destruct (windows w' !! wl_window wl) as [x'|] eqn:Ex; [|done]. exists x'. split; [done|].
    by apply (sf_keys _ _ Hfit1). }
  destruct Ex' as (x' & Ex' & Hidx).
  unfold newmux_restore_live_window, newmux_restore_destination_session, session_find_by_id,
    window_find_by_id. fold rid. rewrite Hsi, Es1, Er, Hwi, Ex', Hidx, Hfr.
  pose proof (pw_keyed _ Hp _ _ Es1) as Hsid. rewrite Hsid.
  assert (Hk1 : saved_place i (map wl_window (s_windows s1)) = Some k)
    by (by rewrite (map_wl_window _ _ Hb1)).
  destruct (attach_saved_place w' sid s1 (wl_window wl) i k Hp Es1 Hfit1 Hint Hk1)
    as (w2 & wl2 & wwl & Hat & Hf2 & Hp2 & Hc2 & Hi2 & Hw2 & Hin2 & Hok2 & Hww & Hii).
  rewrite Hat. cbn [mbind option_bind].
  (* the link of the recovery session goes *)
  assert (Er' : sessions (linked w' s1 wwl (wl_window wl)) !! rid = Some r).
  { rewrite linked_sessions, lookup_insert_ne by congruence. done. }
  assert (Es' : sessions (linked w' s1 wwl (wl_window wl)) !! sid = Some (set_windows wwl s1)).
  { by rewrite linked_sessions, Hsid, lookup_insert_eq. }
  destruct (same_session _ _ _ _ Hf2 Er') as (r2 & Er2 & Hrsh).
  destruct (same_session _ _ _ _ Hf2 Es') as (s2 & Es2 & Hssh).
  destruct (find_window_split _ _ _ Hfr) as (p & q & Erw & _ & _).
  assert (Hg : exists wlr2, wl_get (s_windows r2) (wl_id wlr2) = Some wlr2 /\ wl_id wlr2 = wl_id wlr).
  { pose proof (shape_windows _ _ Hrsh) as Hrb.
    assert (Hg : wl_get (s_windows r) (wl_id wlr) = Some wlr).
    { apply wl_get_in; [done|]. rewrite Erw. apply elem_of_app. right. by left. }
    assert (Eg : bare <$> wl_get (s_windows r2) (wl_id wlr) = Some (bare wlr))
      by (by rewrite <- wl_get_bare, Hrb, wl_get_bare, Hg).
    destruct (wl_get (s_windows r2) (wl_id wlr)) as [y|] eqn:Ey; [|done].
    destruct (wl_get_some _ _ _ Ey) as [_ Hy]. exists y. by rewrite Hy. }
  destruct Hg as (wlr2 & Hg & Hgid). rewrite <- Hgid.
  rewrite (pw_keyed _ Hp _ _ Er).
  destruct (unlink_other w2 rid r2 wlr2 sid s2 Hp2 Hne Er2 Hg Es2) as (w3 & s3 & Hun & Hp3 & Es3 & Hsh3).
  rewrite Hun. cbn [mbind option_bind].
  (* the window is selected *)
  assert (Hb3 : map bare (s_windows s3) = map bare wwl).
  { rewrite (shape_windows _ _ Hsh3), (shape_windows _ _ Hssh). done. }
  assert (Hsel : exists y, winlink_find_by_index (s_windows s3) (wl_idx wl2) = Some y /\
    bare y = bare wl2).
  { assert (E : bare <$> winlink_find_by_index (s_windows s3) (wl_idx wl2) = Some (bare wl2)).
    { rewrite <- find_index_bare, Hb3, find_index_bare, find_index_in by done. done. }
    destruct (winlink_find_by_index (s_windows s3) (wl_idx wl2)) as [y|]; [|done].
    exists y. split; [done|]. by apply (inj Some) in E. }
  destruct Hsel as (y & Hfy & Hby). unfold session_select. rewrite Es3, Hfy. cbn [fmap option_fmap option_map].
  pose proof (set_current_same w3 sid (Some (wl_id y)) (pw_keyed _ Hp3)) as Hsc.
  destruct (session_set_current w3 sid (Some (wl_id y))) as [res w4]. rewrite Es3 in Hsc.
  destruct Hsc as [Hf4 Hc4]. cbn [snd].
  destruct (same_session _ _ _ _ Hf4 Es3) as (s4 & Es4 & Hsh4).
  destruct (screens_fold (newmux_history_snapshots_take (window_screens w' x')) w4) as [ps ->].
  destruct (protect_fold (w_panes x') (set_panes ps w4)) as [ps' ->].
  pose proof (shape_windows _ _ Hsh4) as Hb4. rewrite Hb3 in Hb4.
  assert (Hcin : bare wl2 ∈ map bare (s_windows s4)).
  { rewrite Hb4. by apply list_elem_of_fmap_2. }
  apply list_elem_of_fmap in Hcin as (cur & Hcb & Hcin).
  eexists _, s4, cur. split; [reflexivity|]. split_and!.
  - exact Es4.
  - rewrite (map_wl_window _ _ Hb4), Hww. by rewrite (map_wl_window _ _ Hb1).
  - apply (f_equal (lookup sid)) in Hc4. unfold curws in Hc4.
    rewrite lookup_fmap, Es4, lookup_insert_eq in Hc4. injection Hc4 as ->. f_equal.
    by injection Hby; injection Hcb; congruence.
  - done.
  - rewrite <- Hw2. by injection Hcb.
Qed.

End Reopen.
