(* ===== verification/RecoveryProps.v ===== *)
(** * Closing and reopening: what the commands promise

    The stacks of closed items through any sequence of commands, the place a
    reopened window is put in, and closing followed by reopening. *)
From Stdlib Require Import Ascii String.
From S2P Require Import Prelude.
From S2P Require Import CString.
From S2P Require Import CellCodec.
From S2P Require Import Layout.
From S2P Require Import Grid.
From S2P Require Import Screen.
From S2P Require Import Winlink.
From S2P Require Import World.
From S2P Require Import Session.
From S2P Require Import SessionFacts.
From S2P Require Import Locale.
From S2P Require Import Window.
From S2P Require Import Server.
From S2P Require Import Recovery.
From S2P Require Import RecoveryCmd.
From S2P Require Import RecoveryFacts.

(** ** The stacks *)

(** The count is the number of closed items, at most 32; the sequences of the
    items there are distinct and were handed out. *)
Record stacks_ok (st : stacks) : Prop := {
  so_count : closed_count st = Z.of_nat (length (closed st));
  so_bound : Z.of_nat (length (closed st)) <= NEWMUX_RECOVERY_MAX_ITEMS;
  so_nodup : NoDup (map it_sequence (closed st ++ reserved st));
  so_next : 0 <= next_sequence st;
  so_given : Forall (fun i => 1 <= it_sequence i <= next_sequence st) (closed st ++ reserved st)
}.

Lemma trim_spec fuel : forall l, (length l <= fuel)%nat -> Z.of_nat (length l) < 4294967296 ->
  stack_trim fuel l (Z.of_nat (length l)) =
    (take 32 l, Z.of_nat (length (take 32 l))).
Proof.
  induction fuel as [|fuel IH]; intros l Hl Hb; cbn [stack_trim].
  - destruct l; [done|cbn in Hl; lia].
  - unfold NEWMUX_RECOVERY_MAX_ITEMS. destruct (Z.ltb_spec 32 (Z.of_nat (length l))).
    + rewrite u32_small by lia.
      assert (El : length (take (length l - 1) l) = (length l - 1)%nat) by (rewrite length_take; lia).
      replace (Z.of_nat (length l) - 1) with (Z.of_nat (length (take (length l - 1) l))) by lia.
      rewrite IH by lia. rewrite take_take. replace (32 `min` (length l - 1))%nat with 32%nat by lia.
      done.
    + rewrite firstn_all2 by lia. done.
Qed.

(** Pushing keeps the 32 latest items. *)
Lemma push_spec i st : stacks_ok st -> newmux_stack_push i st =
  Stacks (take 32 (i :: closed st)) (reserved st) (next_sequence st)
    (Z.of_nat (length (take 32 (i :: closed st)))).
Proof.
  intros [Hc Hb _ _ _]. unfold NEWMUX_RECOVERY_MAX_ITEMS in Hb. unfold newmux_stack_push.
  rewrite u32_small by lia. 
  replace (closed_count st + 1) with (Z.of_nat (length (i :: closed st))) by (cbn; lia).
  rewrite trim_spec by (cbn [length]; lia). done.
Qed.

Lemma sublist_nodup (l l' : list newmux_closed_item) : l `sublist_of` l' ->
  NoDup (map it_sequence l') -> NoDup (map it_sequence l).
Proof.
  intros Hs Hnd. eapply sublist_NoDup; [exact Hnd|]. by apply (fmap_sublist it_sequence).
Qed.

(** An item whose sequence is new, or was taken off, is pushed. *)
Lemma push_ok i st : stacks_ok st -> 1 <= it_sequence i <= next_sequence st ->
  it_sequence i ∉ map it_sequence (closed st ++ reserved st) ->
  stacks_ok (newmux_stack_push i st) /\
  next_sequence (newmux_stack_push i st) = next_sequence st.
Proof.
  intros Hok Hi Hn. rewrite push_spec by done. split; [|done]. destruct Hok as [Hc Hb Hnd Hn0 Hg].
  assert (Hsub : take 32 (i :: closed st) ++ reserved st `sublist_of` (i :: closed st) ++ reserved st).
  { apply sublist_app; [apply sublist_take|done]. }
  split; cbn [closed reserved next_sequence closed_count].
  - done.
  - rewrite length_take. unfold NEWMUX_RECOVERY_MAX_ITEMS. lia.
  - apply (sublist_nodup _ _ Hsub). cbn. by constructor.
  - done.
  - apply Forall_app in Hg as [Hg1 Hg2]. apply Forall_app. split; [|done].
    apply Forall_take. by constructor.
Qed.

Lemma pop_ok st i st' : stacks_ok st -> newmux_stack_pop st = (Some i, st') ->
  stacks_ok st' /\ next_sequence st' = next_sequence st /\
  1 <= it_sequence i <= next_sequence st' /\
  it_sequence i ∉ map it_sequence (closed st' ++ reserved st').
Proof.
  intros [Hc Hb Hnd Hn0 Hg]. unfold newmux_stack_pop. destruct (closed st) as [|j l] eqn:El; [done|].
  intros [= -> <-]. cbn in *. apply NoDup_cons in Hnd as [Hi Hnd]. apply Forall_cons in Hg as [Hgi Hg].
  unfold NEWMUX_RECOVERY_MAX_ITEMS in *. split_and!; try done; try lia.
  split; cbn; try done; [|unfold NEWMUX_RECOVERY_MAX_ITEMS; lia]. rewrite u32_small by lia. lia.
Qed.

Lemma reserved_push_ok st i : stacks_ok st -> 1 <= it_sequence i <= next_sequence st ->
  it_sequence i ∉ map it_sequence (closed st ++ reserved st) ->
  stacks_ok (newmux_reserved_push i st).
Proof.
  intros [Hc Hb Hnd Hn0 Hg] Hi Hn. split; cbn; try done.
  - rewrite app_assoc, map_app. cbn. apply NoDup_app. split_and!; [done| |apply NoDup_singleton].
    intros q Hq ->%list_elem_of_singleton. done.
  - rewrite app_assoc. apply Forall_app. split; [done|]. by constructor.
Qed.

Lemma reserved_pop_ok st n i st' : stacks_ok st ->
  newmux_reserved_pop_by_sequence n st = (Some i, st') ->
  stacks_ok st' /\ next_sequence st' = next_sequence st /\
  1 <= it_sequence i <= next_sequence st' /\
  it_sequence i ∉ map it_sequence (closed st' ++ reserved st') /\ it_sequence i = n.
Proof.
  intros [Hc Hb Hnd Hn0 Hg]. unfold newmux_reserved_pop_by_sequence.
  destruct (list_find _ (reserved st)) as [[k j]|] eqn:E; [|done].
  intros [= -> <-]. cbn. apply list_find_Some in E as (Ek & Hn & _).
  assert (Hp : closed st ++ reserved st ≡ₚ i :: closed st ++ delete k (reserved st)).
  { rewrite (delete_Permutation _ _ _ Ek) at 1. by rewrite Permutation_middle. }
  apply (Permutation_map it_sequence) in Hp as Hpm. rewrite Hpm in Hnd. cbn in Hnd.
  apply NoDup_cons in Hnd as [Hi Hnd]. rewrite Hp in Hg. apply Forall_cons in Hg as [Hgi Hg].
  split_and!; try done; lia.
Qed.

Lemma take_sequence_ok st n st' : stacks_ok st -> next_sequence st < UINT_MAX ->
  take_sequence st = (n, st') ->
  stacks_ok st' /\ next_sequence st' = n /\ n = next_sequence st + 1 /\
  n ∉ map it_sequence (closed st' ++ reserved st').
Proof.
  intros [Hc Hb Hnd Hn0 Hg] Hlt. unfold take_sequence, UINT_MAX in *. rewrite u32_small by lia.
  intros [= <- <-]. cbn [closed reserved next_sequence]. split_and!; try done.
  - split; cbn; try done; [lia|]. eapply Forall_impl; [exact Hg|]. cbn. lia.
  - intros (i & Ei & Hi)%list_elem_of_fmap. rewrite Forall_forall in Hg. specialize (Hg i Hi). lia.
Qed.

(** The stacks after a command, from those before. *)
Definition stacks_step (st st' : stacks) : Prop :=
  stacks_ok st' /\ next_sequence st' <= next_sequence st + 1.

Lemma stacks_refl st : stacks_ok st -> stacks_step st st.
Proof. intros Hok. split; [done|lia]. Qed.

#[local] Hint Resolve stacks_refl : core.

Section Stacks.
Context `{CellCodec} `{Locale}.

Lemma break_pane_sequence i wl pid w i' w' : newmux_break_live_pane i wl pid w = Some (inl i', w') ->
  it_sequence i' = it_sequence i.
Proof.
  unfold newmux_break_live_pane. intros Hb.
  repeat match type of Hb with
  | (_ ≫= _) = Some _ => apply bind_Some in Hb as (? & _ & Hb)
  | (let '(_, _) := ?p in _) = Some _ => destruct p
  | match ?r with inl _ => _ | inr _ => _ end = Some _ => destruct r
  end; [|done]. by injection Hb as <- _.
Qed.

Lemma break_window_sequence i sid wl w i' w' :
  newmux_break_live_window i sid wl w = Some (inl i', w') -> it_sequence i' = it_sequence i.
Proof.
  unfold newmux_break_live_window. intros Hb.
  repeat match type of Hb with
  | (_ ≫= _) = Some _ => apply bind_Some in Hb as (? & _ & Hb)
  | (let '(_, _) := ?p in _) = Some _ => destruct p
  | match ?r with inl _ => _ | inr _ => _ end = Some _ => destruct r
  end; [|done]. destruct b; [done|]. by injection Hb as <- _.
Qed.

Lemma item_pane_sequence q w s wl pid i : newmux_item_from_pane q w s wl pid = Some i ->
  it_sequence i = q.
Proof.
  unfold newmux_item_from_pane. intros Hb.
  repeat match type of Hb with
  | (_ ≫= _) = Some _ => apply bind_Some in Hb as (? & _ & Hb)
  | (let '(_, _) := ?p in _) = Some _ => destruct p
  end. by injection Hb as <-.
Qed.

Lemma item_window_sequence q w s wl i : newmux_item_from_window q w s wl = Some i ->
  it_sequence i = q.
Proof.
  unfold newmux_item_from_window. intros Hb.
  repeat match type of Hb with
  | (_ ≫= _) = Some _ => apply bind_Some in Hb as (? & _ & Hb)
  | (let '(_, _) := ?p in _) = Some _ => destruct p
  end. by injection Hb as <-.
Qed.

(** A new item goes on the stack when its pane or window was moved away. *)
Lemma broken_step st st' q r sv : stacks_ok st -> next_sequence st < UINT_MAX ->
  take_sequence st = (q, st') -> (forall i, r = inl i -> it_sequence i = q) -> sv_stacks sv = st' ->
  stacks_step st (sv_stacks (snd (broken r sv))).
Proof.
  intros Hok Hlt Ht Hi Hsv. destruct (take_sequence_ok _ _ _ Hok Hlt Ht) as (Hok' & Hn & Hq & Hnew).
  destruct r as [i|cause]; cbn.
  - specialize (Hi i eq_refl). rewrite Hsv. pose proof (so_next _ Hok).
    destruct (push_ok i st' Hok') as [Hp Hpn]; [lia|by rewrite Hi|]. split; [done|]. rewrite Hpn. lia.
  - rewrite Hsv. split; [done|lia].
Qed.

Lemma soft_delete_window_step s wl sv r sv' : stacks_ok (sv_stacks sv) ->
  next_sequence (sv_stacks sv) < UINT_MAX -> soft_delete_window s wl sv = Some (r, sv') ->
  exists q st', take_sequence (sv_stacks sv) = (q, st') /\ sv_stacks sv' = st' /\
    forall i, r = inl i -> it_sequence i = q.
Proof.
  intros Hok Hlt Hs. unfold soft_delete_window in Hs.
  destruct (take_sequence (sv_stacks sv)) as [q st'] eqn:Et.
  apply bind_Some in Hs as (i & Hi & Hs). apply bind_Some in Hs as ([r' w'] & Hb & Hs).
  injection Hs as <- <-. exists q, st'. split_and!; [done|done|]. intros i' ->.
  rewrite (break_window_sequence _ _ _ _ _ _ Hb). by apply item_window_sequence in Hi.
Qed.

(** Restoring an item that was taken off, or putting it back. *)
Lemma restore_step a t i sv r sv' : stacks_ok (sv_stacks sv) ->
  1 <= it_sequence i <= next_sequence (sv_stacks sv) ->
  it_sequence i ∉ map it_sequence (closed (sv_stacks sv) ++ reserved (sv_stacks sv)) ->
  restore a t i sv = Some (r, sv') -> stacks_step (sv_stacks sv) (sv_stacks sv').
Proof.
  intros Hok Hi Hn Hr. unfold restore in Hr. apply bind_Some in Hr as ([e w] & _ & Hr).
  destruct e as [cause|]; injection Hr as <- <-; cbn.
  - destruct (push_ok i _ Hok Hi Hn) as [Hp Hpn]. split; [done|]. rewrite Hpn. lia.
  - destruct (arg_P a); [|by apply stacks_refl]. unfold newmux_print_closed_item.
    destruct (match _ with Some r => r | None => _ end). by apply stacks_refl.
Qed.

Lemma print_if_stacks b m sv : sv_stacks (print_if b m sv) = sv_stacks sv.
Proof. by destruct b. Qed.

Lemma print_closed_stacks i b sv : sv_stacks (newmux_print_closed_item i b sv) = sv_stacks sv.
Proof.
  unfold newmux_print_closed_item. by destruct (match _ with Some r => r | None => _ end).
Qed.

Lemma primary_stacks sv a d : sv_stacks (snd (newmux_primary_session_from_args sv a d)) = sv_stacks sv.
Proof.
  unfold newmux_primary_session_from_args. destruct (arg_s a) as [[|c name]|]; try done.
  by destruct (session_find _ _).
Qed.

Lemma exec_step c sv r sv' : stacks_ok (sv_stacks sv) -> next_sequence (sv_stacks sv) < UINT_MAX ->
  exec c sv = Some (r, sv') -> stacks_step (sv_stacks sv) (sv_stacks sv').
Proof.
  intros Hok Hlt. destruct c as [t|t| |a t|a t|a|a t|a| |]; cbn [exec]; intros He.
  - unfold cmd_newmux_soft_delete_pane_exec in He.
    destruct (fs_wp t) as [pid|]; [|injection He as <- <-; auto].
    apply bind_Some in He as ([s wl] & _ & He). apply bind_Some in He as (x & _ & He).
    destruct (_ =? 1); [injection He as <- <-; cbn; auto|].
    destruct (take_sequence (sv_stacks sv)) as [q st'] eqn:Et.
    apply bind_Some in He as (i & Hi & He). apply bind_Some in He as ([r' w'] & Hb & He).
    apply (inj Some) in He. replace sv' with (snd (r, sv')) by done. rewrite <- He.
    apply (broken_step _ _ _ _ _ Hok Hlt Et); [|done]. intros i' ->.
    rewrite (break_pane_sequence _ _ _ _ _ _ Hb). by apply item_pane_sequence in Hi.
  - unfold cmd_newmux_soft_delete_window_exec in He.
    destruct (fs_wl t); [|injection He as <- <-; auto].
    apply bind_Some in He as ([s wl] & _ & He).
    destruct (only_window s wl); [injection He as <- <-; cbn; auto|].
    apply bind_Some in He as (x & _ & He). destruct (newmux_window_looks_fresh _ _).
    { apply bind_Some in He as (w & _ & He). injection He as <- <-. cbn. auto. }
    apply bind_Some in He as ([r' sv1] & Hs & He).
    destruct (soft_delete_window_step _ _ _ _ _ Hok Hlt Hs) as (q & st' & Et & Est & Hq).
    apply (inj Some) in He. replace sv' with (snd (r, sv')) by done. rewrite <- He.
    by apply (broken_step _ _ _ _ _ Hok Hlt Et).
  - injection He as <- <-. cbn. auto.
  - unfold cmd_newmux_delete_window_exec in He.
    destruct (fs_wl t); [|injection He as <- <-; auto].
    apply bind_Some in He as ([ts twl] & _ & He).
    pose proof (primary_stacks sv a (Some ts)) as Hps.
    destruct (newmux_primary_session_from_args sv a (Some ts)) as [[ps|] sv0]; cbn [snd] in Hps;
      [|injection He as <- <-; rewrite Hps; auto].
    rewrite <- Hps in *.
    destruct (match winlink_find_by_window _ _ with Some wl => _ | None => _ end) as [s wl].
    destruct (only_window s wl); [injection He as <- <-; cbn; auto|].
    apply bind_Some in He as (x & _ & He). destruct (negb _).
    { apply bind_Some in He as (w & _ & He). injection He as <- <-. cbn. destruct (arg_P a); auto. }
    apply bind_Some in He as ([r' sv1] & Hs & He).
    destruct (soft_delete_window_step _ _ _ _ _ Hok Hlt Hs) as (q & st' & Et & Est & Hq).
    pose proof (broken_step _ _ _ r' sv1 Hok Hlt Et Hq Est) as Hst.
    destruct r' as [i|cause]; [|apply (inj Some) in He; by rewrite He in Hst].
    injection He as <- <-. rewrite print_if_stacks. exact Hst.
  - unfold cmd_newmux_reopen_latest_closed_exec in He.
    destruct (newmux_stack_pop (sv_stacks sv)) as [[i|] st'] eqn:Ep.
    + destruct (pop_ok _ _ _ Hok Ep) as (Hok' & Hn & Hi & Hnew).
      destruct (restore_step a t i (with_stacks st' sv) r sv') as [Ho Hs]; try done.
      split; [done|]. cbn in Hs. lia.
    + injection He as <- <-. rewrite print_if_stacks. cbn.
      unfold newmux_stack_pop in Ep. destruct (closed _); [|done]. injection Ep as <-. auto.
  - unfold cmd_newmux_reserve_latest_closed_exec in He.
    destruct (newmux_stack_pop (sv_stacks sv)) as [[i|] st'] eqn:Ep.
    + destruct (pop_ok _ _ _ Hok Ep) as (Hok' & Hn & Hi & Hnew). injection He as <- <-. cbn.
      assert (Est : forall b, sv_stacks (if arg_P a then newmux_print_closed_item i b (with_stacks st' sv)
        else with_stacks st' sv) = st') by (intros b; destruct (arg_P a); [by rewrite print_closed_stacks|done]).
      rewrite Est. split; [by apply reserved_push_ok|]. cbn. lia.
    + injection He as <- <-. cbn.
      unfold newmux_stack_pop in Ep. destruct (closed _); [|done]. injection Ep as <-. auto.
  - unfold cmd_newmux_claim_reserved_closed_exec in He.
    destruct (sequence_from_args a) as [n|cause]; [|injection He as <- <-; cbn; auto].
    destruct (newmux_reserved_pop_by_sequence n (sv_stacks sv)) as [[i|] st'] eqn:Ep.
    + destruct (reserved_pop_ok _ _ _ _ Hok Ep) as (Hok' & Hn & Hi & Hnew & _).
      destruct (restore_step a t i (with_stacks st' sv) r sv') as [Ho Hs]; try done.
      split; [done|]. cbn in Hs. lia.
    + injection He as <- <-. cbn. unfold newmux_reserved_pop_by_sequence in Ep.
      destruct (list_find _ _) as [[? ?]|]; [done|]. injection Ep as <-. auto.
  - unfold cmd_newmux_release_reserved_closed_exec in He.
    destruct (sequence_from_args a) as [n|cause]; [|injection He as <- <-; cbn; auto].
    destruct (newmux_reserved_pop_by_sequence n (sv_stacks sv)) as [[i|] st'] eqn:Ep.
    + destruct (reserved_pop_ok _ _ _ _ Hok Ep) as (Hok' & Hn & Hi & Hnew & _).
      injection He as <- <-. rewrite print_if_stacks. cbn.
      destruct (push_ok i st' Hok' Hi Hnew) as [Hp Hpn]. split; [done|]. rewrite Hpn. lia.
    + injection He as <- <-. rewrite print_if_stacks. cbn. unfold newmux_reserved_pop_by_sequence in Ep.
      destruct (list_find _ _) as [[? ?]|]; [done|]. injection Ep as <-. auto.
  - injection He as <- <-. assert (Hl : forall l sv, sv_stacks (foldl (fun sv i => print (list_line i) sv) sv l)
      = sv_stacks sv) by (induction l as [|i l IH]; intros sv'; [done|cbn; by rewrite IH]).
    rewrite Hl. auto.
  - unfold cmd_newmux_clear_recently_closed_exec in He.
    destruct (newmux_recovery_clear _ _) as [w st'] eqn:Ec. injection He as <- <-. cbn.
    unfold newmux_recovery_clear in Ec. injection Ec as _ <-. split.
    + split; cbn; first [done|constructor].
    + cbn. pose proof (so_next _ Hok). lia.
Qed.

(** C4. Whatever commands run, and whatever else happens to the sessions,
    windows and panes between them, the stack of closed items holds at most 32,
    its count is right, and the sequences of the items on the two stacks are
    distinct and were handed out since the last clear (for fewer than 2^32 - 1
    steps, when the sequence would wrap). *)
Theorem newmux_stacks_invariant n sv sv' :
  sv_stacks sv = Stacks [] [] 0 0 -> Z.of_nat n < UINT_MAX -> nsteps step n sv sv' ->
  stacks_ok (sv_stacks sv') /\ next_sequence (sv_stacks sv') <= Z.of_nat n.
Proof.
  intros E Hn Hs. assert (Hinit : stacks_ok (sv_stacks sv)).
  { rewrite E. split; cbn; first [done|constructor]. }
  assert (Hm : next_sequence (sv_stacks sv) + Z.of_nat n < UINT_MAX) by (rewrite E; cbn; lia).
  enough (stacks_ok (sv_stacks sv') /\
    next_sequence (sv_stacks sv') <= next_sequence (sv_stacks sv) + Z.of_nat n) as [? Hle]
    by (rewrite E in Hle; done).
  clear E Hn. induction Hs as [sv|n sv1 sv2 sv3 Hst Hs IH].
  - split; [done|lia].
  - assert (Hst' : stacks_step (sv_stacks sv1) (sv_stacks sv2)).
    { destruct Hst as [c sv r sv' He|sv w]; [apply (exec_step c sv r sv'); [done|lia|done]|].
      by apply stacks_refl. }
    destruct Hst' as [Hok Hle]. destruct (IH Hok) as [IH1 IH2]; [lia|]. split; [done|lia].
Qed.

End Stacks.

(** ** The place of a reopened window *)

(** C24. A window that comes back to a session is put directly after the window
    that was left of it when it was closed, if that is still there, else
    directly before the one that was right of it, else at its position; the
    other windows keep their order. *)
Theorem newmux_attach_at_saved_position_places w sid s wid i k :
  plain_world w -> sessions w !! sid = Some s -> session_fits w s -> int_neighbours i ->
  saved_place i (map wl_window (s_windows s)) = Some k ->
  exists wl w', newmux_session_attach_at_saved_position sid wid i w = Some (inl wl, w') /\
    wl_window wl = wid /\
    order w' sid = Some (list_insert_at k wid (map wl_window (s_windows s))).
Proof.
  intros Hp E Hs Hi Hk.
  destruct (attach_saved_place w sid s wid i k Hp E Hs Hi Hk)
    as (w' & wl & wwl & Ha & Hf & _ & _ & _ & Hw & _ & _ & Hww & _).
  exists wl, w'. split_and!; [done|done|]. rewrite (order_same _ _ _ Hf). unfold order.
  rewrite linked_sessions, (pw_keyed _ Hp _ _ E), lookup_insert_eq. cbn. by rewrite Hww.
Qed.

(** A window whose neighbours are gone and whose position is past the last
    window does not become the last one: it is linked at the first free index
    from 0, so it comes first in a session that numbers its windows from 1. *)
Theorem newmux_attach_past_the_end_comes_first w sid s wid i :
  plain_world w -> sessions w !! sid = Some s -> session_fits w s -> int_neighbours i ->
  saved_place i (map wl_window (s_windows s)) = None -> 0 <= it_window_position i ->
  Forall (fun wl => 1 <= wl_idx wl) (s_windows s) ->
  exists wl w', newmux_session_attach_at_saved_position sid wid i w = Some (inl wl, w') /\
    wl_idx wl = 0 /\ order w' sid = Some (wid :: map wl_window (s_windows s)).
Proof.
  intros Hp E Hs [Hil Hir] Hk Hpos Hone.
  unfold newmux_session_attach_at_saved_position. rewrite E. cbn [mbind option_bind].
  rewrite !neighbour_link_find by done. unfold saved_place in Hk.
  destruct (list_find _ _) as [[? ?]|] eqn:El; [done|].
  destruct (list_find (fun w => 0 <= it_right_window_id i /\ _) _) as [[? ?]|] eqn:Er; [done|].
  case_decide as Hd; [done|]. rewrite length_map in Hd.
  assert (Hnone : forall id, list_find (fun w => 0 <= id /\ w = id) (map wl_window (s_windows s)) = None ->
    (if 0 <=? id then winlink_find_by_window (s_windows s) id else None) = None).
  { intros id Hf. destruct (Z.leb_spec 0 id); [|done].
    destruct (winlink_find_by_window (s_windows s) id) as [wl|] eqn:Ef; [|done].
    apply list_find_None in Hf. rewrite Forall_forall in Hf. exfalso. apply (Hf id); [|done].
    apply find_window_is_Some. by eexists. }
  rewrite !Hnone by done. rewrite (proj2 (Z.leb_le _ _)) by done.
  unfold newmux_winlink_at_position. rewrite lookup_ge_None_2 by lia.
  pose proof (sf_wwl _ _ Hs) as Hok.
  assert (Hfree : winlink_find_by_index (s_windows s) 0 = None).
  { apply find_index_None. eapply Forall_impl; [exact Hone|]. cbn. lia. }
  assert (Hnx : winlink_next_index (s_windows s) 0 = Some 0).
  { unfold winlink_next_index. cbn. by rewrite Hfree. }
  set (wl := WL (next_wl w) 0 sid wid 0).
  assert (Hadd : winlink_add (s_windows s) (next_wl w) (-1) sid wid 0 = Some (wl, wl :: s_windows s)).
  { unfold winlink_add. change (-1 <? 0) with true. cbn iota. change (- -1 - 1) with 0.
    rewrite Hnx. cbn. do 2 f_equal. destruct (s_windows s) as [|y l]; [done|].
    cbn. apply Forall_cons in Hone as [Hy _]. by rewrite (proj2 (Z.ltb_lt _ _)) by lia. }
  destruct (attach_silent_spec w sid s wid (-1) wl _ Hp E Hadd) as (w' & Ha & Hf & _).
  exists wl, w'. split_and!; [done|done|]. rewrite (order_same _ _ _ Hf). unfold order.
  by rewrite linked_sessions, (pw_keyed _ Hp _ _ E), lookup_insert_eq.
Qed.

(** ** Closing and reopening a window *)

Lemma wl_after_middle l1 x l2 : wl_id x ∉ map wl_id l1 -> wl_after (l1 ++ x :: l2) (wl_id x) = l2.
Proof.
  induction l1 as [|y l1 IH]; intros Hn; cbn.
  - by rewrite decide_True.
  - cbn in Hn. apply not_elem_of_cons in Hn as [Hy Hn]. rewrite decide_False by congruence. by apply IH.
Qed.

(** The neighbours of a link. *)
Lemma neighbours_middle l1 x l2 : wl_id x ∉ map wl_id l1 -> wl_id x ∉ map wl_id l2 ->
  winlink_next (l1 ++ x :: l2) (wl_id x) = head l2 /\
  winlink_previous (l1 ++ x :: l2) (wl_id x) = last l1.
Proof.
  intros H1 H2. unfold winlink_next, winlink_previous. rewrite wl_after_middle by done.
  split; [done|]. rewrite reverse_app, reverse_cons, <- app_assoc. cbn [app].
  rewrite wl_after_middle; [by rewrite head_reverse|].
  intros Hin. apply H2. rewrite reverse_Permutation in Hin. done.
Qed.

(** The saved neighbours of a closed window lead back to where it was. *)
Lemma saved_place_back l1 wl l2 s i : s_windows s = l1 ++ wl :: l2 -> l1 ++ l2 <> [] ->
  wwl_ok (s_windows s) -> NoDup (map wl_window (s_windows s)) ->
  Forall (fun wl => 0 <= wl_window wl < 2147483648) (s_windows s) ->
  (it_window_position i, it_left_window_id i, it_right_window_id i) = window_order s wl ->
  saved_place i (map wl_window (l1 ++ l2)) = Some (length l1) /\ int_neighbours i.
Proof.
  intros El Hne Hok Hnd Hids Ho. unfold window_order in Ho. rewrite El in Ho, Hok, Hnd, Hids.
  destruct (ids_middle _ _ _ Hok) as [Hid1 Hid2].
  destruct (neighbours_middle l1 wl l2 Hid1 Hid2) as [Hnx Hpv]. rewrite Hnx, Hpv in Ho.
  injection Ho as _ Hl Hr. rewrite Forall_app, Forall_cons in Hids. destruct Hids as (Hi1 & _ & Hi2).
  assert (Hint : int_neighbours i).
  { split.
    - rewrite Hl. destruct (last l1) as [a|] eqn:Ea; [|lia]. apply last_Some in Ea as [l ->].
      rewrite Forall_app, Forall_singleton in Hi1. rewrite s32_small; lia.
    - rewrite Hr. destruct l2 as [|b l2]; cbn; [lia|]. apply Forall_cons in Hi2 as [Hb _].
      rewrite s32_small; lia. }
  split; [|done]. unfold saved_place. destruct (last l1) as [a|] eqn:Ea.
  - apply last_Some in Ea as [l ->]. rewrite Forall_app, Forall_singleton in Hi1.
    rewrite s32_small in Hl by lia.
    rewrite (find_place _ _ (map wl_window l) (wl_window a) (map wl_window l2)).
    + rewrite length_map, length_app. cbn. f_equal. lia.
    + rewrite !map_app, <- app_assoc. done.
    + split; [lia|done].
    + apply Forall_forall. intros y Hy [_ Ey]. rewrite Hl in Ey. subst y.
      rewrite !map_app in Hnd. apply NoDup_app in Hnd as (Hnd & _).
      apply NoDup_app in Hnd as (_ & Hnd & _). apply (Hnd _ Hy). by left.
  - apply last_None in Ea as ->. cbn [app] in *. destruct l2 as [|b l2]; [done|].
    cbn in Hr. apply Forall_cons in Hi2 as [Hb _]. rewrite s32_small in Hr by lia.
    assert (Hnl : list_find (fun w => 0 <= it_left_window_id i /\ w = it_left_window_id i)
      (map wl_window (b :: l2)) = None).
    { apply list_find_None, Forall_forall. intros y _ [? _]. lia. }
    rewrite Hnl. rewrite (find_place _ _ [] (wl_window b) (map wl_window l2)); [done|done| |constructor].
    split; [lia|done].
Qed.

Section Reopen.
Context `{CellCodec} `{Locale}.

(** What was just pushed is popped. *)
Lemma pop_push i st q st1 : stacks_ok st -> take_sequence st = (q, st1) ->
  newmux_stack_pop (newmux_stack_push i st1) =
    (Some i, snd (newmux_stack_pop (newmux_stack_push i st1))).
Proof.
  intros [Hc Hb _ _ _] Et. unfold take_sequence in Et. injection Et as _ <-.
  unfold NEWMUX_RECOVERY_MAX_ITEMS in Hb.
  unfold newmux_stack_push. cbn [closed closed_count]. rewrite u32_small by lia.
  replace (closed_count st + 1) with (Z.of_nat (length (i :: closed st))) by (cbn; lia).
  rewrite trim_spec by (cbn [length]; lia). done.
Qed.

Lemma print_closed_world (b : bool) i r sv :
  sv_world (if b then newmux_print_closed_item i r sv else sv) = sv_world sv.
Proof.
  destruct b; [|done]. unfold newmux_print_closed_item.
  by destruct (match _ with Some r => r | None => _ end).
Qed.

Lemma filter_absent (x : Z) (l : list Z) : x ∉ l -> filter (fun y => y <> x) l = l.
Proof.
  induction l as [|y l IH]; intros Hy; [done|]. apply not_elem_of_cons in Hy as [Hy1 Hy2].
  rewrite filter_cons_True by congruence. by rewrite IH.
Qed.

(** C1. Closing a window with newmux-soft-delete-window and reopening it with
    newmux-reopen-latest-closed both succeed.  In between the session has its
    other windows, in order; afterwards it has the windows it had, in the order
    it had them, and the window is its current one.  (The window is not zoomed,
    is not the last one, is not fresh, which would be killed, and is linked
    once; the indexes of the session leave room for one more.) *)
Theorem newmux_close_reopen_window sv sid s wl x t a t' :
  closable (sv_world sv) sid s wl x -> stacks_ok (sv_stacks sv) ->
  fs_s t = Some sid -> fs_wl t = Some (wl_id wl) ->
  newmux_window_looks_fresh (sv_world sv) x = false ->
  exists sv1 sv2,
    exec (SoftDeleteWindow t) sv = Some (CMD_RETURN_NORMAL, sv1) /\
    order (sv_world sv1) sid =
      Some (filter (fun wid => wid <> wl_window wl) (map wl_window (s_windows s))) /\
    exec (ReopenLatest a t') sv1 = Some (CMD_RETURN_NORMAL, sv2) /\
    order (sv_world sv2) sid = Some (map wl_window (s_windows s)) /\
    (exists s2 cur, sessions (sv_world sv2) !! sid = Some s2 /\ s_curw s2 = Some (wl_id cur) /\
       cur ∈ s_windows s2 /\ wl_window cur = wl_window wl).
Proof.
  intros Hc Hst Hts Htw Hfresh.
  pose proof (cl_session _ _ _ _ _ Hc) as Es. pose proof (cl_fits _ _ _ _ _ Hc) as Hfit.
  pose proof (sf_wwl _ _ Hfit) as Hok. pose proof (cl_link _ _ _ _ _ Hc) as Hin.
  apply list_elem_of_split in Hin as (l1 & l2 & El).
  pose proof Hok as Hok'. rewrite El in Hok'. destruct (ids_middle _ _ _ Hok') as [Hid1 Hid2].
  destruct (neighbours_middle l1 wl l2 Hid1 Hid2) as [Hnx Hpv].
  assert (Hne : l1 ++ l2 <> []).
  { intros E. pose proof (cl_more _ _ _ _ _ Hc) as Hm. apply app_eq_nil in E as [-> ->].
    rewrite El in Hm. cbn in Hm. lia. }
  assert (Hlink : fs_link sv t = Some (s, wl)).
  { unfold fs_link, fs_session. rewrite Hts, Htw. cbn. rewrite Es. cbn.
    rewrite wl_get_in; [done|apply Hok|apply Hc]. }
  assert (Honly : only_window s wl = false).
  { unfold only_window. rewrite El, Hnx, Hpv. destruct l2; [|done]. destruct (last l1) eqn:Ea; [done|].
    apply last_None in Ea as ->. done. }
  destruct (cl_active _ _ _ _ _ Hc) as [act Hact].
  destruct (take_sequence (sv_stacks sv)) as [q st1] eqn:Et.
  assert (Hitem : exists i, newmux_item_from_window q (sv_world sv) s wl = Some i /\
    (it_window_position i, it_left_window_id i, it_right_window_id i) = window_order s wl /\
    it_session_id i = sid /\ it_window_id i = wl_window wl /\ it_type i = NEWMUX_CLOSED_WINDOW).
  { unfold newmux_item_from_window. rewrite (cl_window _ _ _ _ _ Hc). cbn [mbind option_bind].
    rewrite Hact. cbn [mbind option_bind]. destruct (window_order s wl) as [[p lf] rg].
    eexists. split; [reflexivity|]. cbn. split_and!; try done.
    - apply (pw_keyed _ (cl_plain _ _ _ _ _ Hc) _ _ Es).
    - apply (sf_keys _ _ Hfit _ _ (cl_window _ _ _ _ _ Hc)). }
  destruct Hitem as (i & Hi & Hord & Hsid & Hwid & Hty).
  destruct (break_window_spec _ _ _ _ _ i Hc) as (w1 & rid & Hb & Hcw).
  set (i1 := set_recovery rid (wl_window wl) i) in *.
  assert (Hdel : wl_delete (wl_id wl) (s_windows s) = l1 ++ l2) by (rewrite El; by apply delete_middle).
  destruct (saved_place_back l1 wl l2 s i El Hne Hok (cl_once _ _ _ _ _ Hc) (cl_ids _ _ _ _ _ Hc) Hord)
    as [Hplace Hint].
  destruct (restore_window_spec (sv_world sv) w1 sid s wl x i1
    (fs_session (Server w1 (snd (newmux_stack_pop (newmux_stack_push i1 st1))) (sv_out sv)) t')
    (length l1) Hc Hcw Hsid Hwid Hint)
    as (w2 & s2 & cur & Hr & Es2 & Hw2 & Hcur & Hcin & Hcw2); [by rewrite Hdel|].
  pose proof (pop_push i1 _ _ _ Hst Et) as Hpop.
  assert (Hlo : map wl_window (s_windows s) = map wl_window l1 ++ wl_window wl :: map wl_window l2)
    by (by rewrite El, map_app).
  eexists (Server w1 (newmux_stack_push i1 st1) (sv_out sv)), _. split_and!.
  - cbn [exec]. unfold cmd_newmux_soft_delete_window_exec. rewrite Htw, Hlink.
    cbn [mbind option_bind]. rewrite Honly, (cl_window _ _ _ _ _ Hc). cbn [mbind option_bind].
    rewrite Hfresh. unfold soft_delete_window. rewrite Et, Hi. cbn [mbind option_bind].
    rewrite (pw_keyed _ (cl_plain _ _ _ _ _ Hc) _ _ Es), Hb. done.
  - destruct (cw_session _ _ _ _ _ _ Hcw) as (s1 & Es1 & Hb1). unfold order. cbn [sv_world].
    rewrite Es1. cbn. f_equal. rewrite (map_wl_window _ _ Hb1), Hdel, Hlo.
    pose proof (cl_once _ _ _ _ _ Hc) as Hnd. rewrite Hlo in Hnd.
    apply NoDup_app in Hnd as (_ & Hn1 & Hn2). apply NoDup_cons in Hn2 as [Hn2 _].
    rewrite filter_app, filter_cons_False by (by intros []). rewrite map_app.
    rewrite !filter_absent; [done|done|]. intros Hx. apply (Hn1 _ Hx). by left.
  - cbn [exec]. unfold cmd_newmux_reopen_latest_closed_exec. cbn [sv_stacks]. rewrite Hpop.
    unfold restore, newmux_restore_closed_item. unfold with_stacks. cbn [sv_world sv_out].
    change (it_type i1) with (it_type i). rewrite Hty, Hr. reflexivity.
  - rewrite print_closed_world. unfold order. cbn [with_world sv_world]. rewrite Es2. cbn. f_equal.
    rewrite Hw2, Hdel, Hlo, map_app. rewrite <- (length_map wl_window l1). by rewrite insert_at_app.
  - exists s2, cur. by rewrite print_closed_world.
Qed.

End Reopen.

(** ** Instances *)

(** A session of three windows, the second with two panes. *)
Section Demo.

#[local] Existing Instance plain_codec.
#[local] Instance demo_locale : Locale :=
  {| loc_mbtowc := fun _ => None; loc_wcwidth := fun _ => 1; loc_widths := ∅ |}.

Definition demo_pane (id wid sx xoff : Z) : pane :=
  Pane id wid 0 sx 10 xoff 0 [] 1 0 5 0 (Some "vim"%string) None None
    (Screen (grid_create sx 10 2000) None 0 0 UINT_MAX UINT_MAX grid_default_cell 0 0 9 [] 0 None no_info).

Definition demo_leaf (pid : Z) : layout_cell := LC LAYOUT_WINDOWPANE 21 10 0 0 (Some pid) [].

Definition demo_window (id : Z) (ps : list Z) (active : Z) (root : layout_cell) : window :=
  Window id "w" ps ps [] (Some active) 21 10 (Some root) None [] 0 1 (WO 0 0 0 0).

Definition demo_session : session :=
  Session 0 "main" (Some 101) [] [WL 100 1 0 10 0; WL 101 2 0 11 0; WL 102 5 0 12 0] 1 true.

Definition demo_world : world :=
  World {[0 := demo_session]} []
    {[10 := demo_window 10 [0] 0 (demo_leaf 0);
      11 := demo_window 11 [1; 2] 2
              (LC LAYOUT_LEFTRIGHT 21 10 0 0 None
                 [LC LAYOUT_WINDOWPANE 10 10 0 0 (Some 1) [];
                  LC LAYOUT_WINDOWPANE 10 10 11 0 (Some 2) []]);
      12 := demo_window 12 [3] 3 (demo_leaf 3)]}
    {[0 := demo_pane 0 10 21 0; 1 := demo_pane 1 11 10 0; 2 := demo_pane 2 11 10 11;
      3 := demo_pane 3 12 21 0]}
    1 13 200 0 false (WO 0 0 0 0).

Definition demo_server : server := Server demo_world (Stacks [] [] 0 0) [].

Lemma demo_plain : plain_world demo_world.
Proof.
  split; [|done]. apply (bool_decide_unpack (map_Forall (fun k s => s_id s = k) (sessions demo_world))).
  vm_compute. exact I.
Qed.

Lemma demo_fits : session_fits demo_world demo_session.
Proof.
  split.
  - by apply wwl_okb_sound.
  - split; [|by vm_compute]. forall_each ltac:(cbn; unfold INT_MAX; lia).
  - forall_each ltac:(cbn; lia).
  - apply (bool_decide_unpack (map_Forall (fun k x => w_id x = k) (windows demo_world))).
    vm_compute. exact I.
  - forall_each ltac:(by eexists).
Qed.

Lemma demo_closable : closable demo_world 0 demo_session (WL 101 2 0 11 0)
  (demo_window 11 [1; 2] 2 (LC LAYOUT_LEFTRIGHT 21 10 0 0 None
     [LC LAYOUT_WINDOWPANE 10 10 0 0 (Some 1) []; LC LAYOUT_WINDOWPANE 10 10 11 0 (Some 2) []])).
Proof.
  split; try done.
  - apply demo_plain.
  - apply demo_fits.
  - apply (bool_decide_unpack _). vm_compute. exact I.
  - forall_each ltac:(cbn; lia).
  - by right; left.
  - cbn; lia.
  - cbn. intros rid r [_ <-]%lookup_singleton_Some. done.
Qed.

Definition demo_target : cmd_find_state := Target (Some 0) (Some 101) None.

Lemma newmux_close_reopen_window_witness :
  exists sv1 sv2,
    exec (SoftDeleteWindow demo_target) demo_server = Some (CMD_RETURN_NORMAL, sv1) /\
    order (sv_world sv1) 0 = Some [10; 12] /\
    exec (ReopenLatest (Args true None None None) demo_target) sv1 =
      Some (CMD_RETURN_NORMAL, sv2) /\
    order (sv_world sv2) 0 = Some [10; 11; 12].
Proof.
  destruct (newmux_close_reopen_window demo_server 0 demo_session _ _ demo_target
    (Args true None None None) demo_target demo_closable) as (sv1 & sv2 & H1 & H2 & H3 & H4 & _).
  - split; cbn; first [done|constructor].
  - reflexivity.
  - reflexivity.
  - vm_compute. reflexivity.
  - exists sv1, sv2. split_and!; assumption.
Defined.

(** Closing the same pane's window twice and reserving it. *)
Lemma newmux_stacks_invariant_witness :
  exists sv, nsteps step 1 demo_server sv /\ length (closed (sv_stacks sv)) = 1%nat /\
    stacks_ok (sv_stacks sv).
Proof.
  destruct (exec (SoftDeleteWindow demo_target) demo_server) as [[r sv]|] eqn:E;
    [|vm_compute in E; discriminate].
  assert (Hn : nsteps step 1 demo_server sv).
  { eapply nsteps_l; [apply (step_command _ _ _ _ E)|apply nsteps_O]. }
  exists sv. split; [exact Hn|]. split.
  - assert (El : option_map (fun p => length (closed (sv_stacks (snd p))))
      (exec (SoftDeleteWindow demo_target) demo_server) = Some 1%nat) by (vm_compute; reflexivity).
    rewrite E in El. injection El as El. exact El.
  - apply (newmux_stacks_invariant 1 demo_server sv); [reflexivity|vm_compute; reflexivity|exact Hn].
Defined.

(** A window whose left neighbour is gone goes before its right one. *)
Definition demo_item (position lft rgt : Z) : newmux_closed_item :=
  Item NEWMUX_CLOSED_WINDOW 1 0 "main" 13 "w" 3 position lft rgt None 0 0 0 7 13.

Lemma newmux_attach_at_saved_position_places_witness :
  exists wl w', newmux_session_attach_at_saved_position 0 13 (demo_item 1 9 12) demo_world =
      Some (inl wl, w') /\ order w' 0 = Some [10; 11; 13; 12].
Proof.
  destruct (newmux_attach_at_saved_position_places demo_world 0 demo_session 13 (demo_item 1 9 12) 2
    demo_plain eq_refl demo_fits) as (wl & w' & H1 & _ & H2).
  - split; vm_compute; reflexivity.
  - vm_compute. reflexivity.
  - exists wl, w'. split; [exact H1|exact H2].
Defined.

Lemma newmux_attach_past_the_end_comes_first_witness :
  exists wl w', newmux_session_attach_at_saved_position 0 13 (demo_item 3 9 (-1)) demo_world =
      Some (inl wl, w') /\ order w' 0 = Some [13; 10; 11; 12].
Proof.
  destruct (newmux_attach_past_the_end_comes_first demo_world 0 demo_session 13 (demo_item 3 9 (-1))
    demo_plain eq_refl demo_fits) as (wl & w' & H1 & _ & H2).
  - split; vm_compute; reflexivity.
  - vm_compute. reflexivity.
  - cbn. lia.
  - forall_each ltac:(cbn; lia).
  - exists wl, w'. split; [exact H1|exact H2].
Defined.

End Demo.
